(* ===== verification/_CoqProject ===== *)
-Q . S2P
Prelude.v
JsString.v
JsUri.v
Json.v
Browser.v
AuthStore.v
SessionSpec.v
AxiosClient.v
Middleware.v
SessionGate.v
LoginForm.v
ApiTypes.v
ApiClient.v
AdminRbac.v
JsDate.v
RelTime.v
NavShell.v
Clipboard.v
Tally.v
JsNumber.v
Traffic.v
AuditPage.v
Tools.v
ApiKeys.v
Servers.v
Triage.v
JsInt.v
JsonParse.v
Gateway.v
PolicyBuilder.v
PolicyPages.v
Search.v
AccessControl.v
Onboarding.v
ServerPages.v
Usage.v
Notifications.v
LogsPage.v
Developer.v
AdminPages.v
QueryHooks.v
QueryCache.v
OlderRoles.v
View.v
ToolPage.v
Integrations.v
ToolExplorer.v
AdminViews.v
Homes.v
Feedback.v
AuditViews.v
PlaygroundPage.v
PlaygroundRuns.v
PolicyView.v
IncidentView.v
AlertsView.v
ErrorsView.v
TracesView.v
ServerDetailView.v
ApiKeysView.v
OnboardingView.v
DevToolsView.v
ServerNewView.v
AdminOps.v
AdminPeople.v
AdminFigures.v
AccessViews.v
DeveloperViews.v
AuthViews.v
SearchViews.v
ListViews.v
FigureViews.v
OlderRolesView.v
BuilderView.v
ShellViews.v
Redis.v
Limiter.v
McpSessions.v
McpProxy.v
ManagementApi.v
