(* ===== verification/Prelude.v ===== *)
(** * Verification of the Portcullis web console

    Portcullis is a gateway for MCP servers; [web/] is its console, a Next.js
    application.  This library models the console's own logic as executable
    functions and proves what the console promises its users and operators.

    ** How the parts interact

    A request for a page first meets the edge middleware
    ([web/middleware.ts], file [Middleware]), which looks at cookies and may ask
    the backend.  In the browser the session module ([web/src/lib/auth.ts],
    [AuthStore]; its abstract specification is [SessionSpec]) keeps the tab's
    key, the guard cookie and the CSRF cookie; the session gates
    ([components/clerk-sync-gate.tsx], [sso-callback], [admin/layout.tsx],
    [SessionGate]) decide with it what is shown; the sign-in forms ([LoginForm];
    as shown, [AuthViews]) feed it.  Every API call goes through the HTTP client
    ([lib/axios-instance.ts], [AxiosClient]), whose interceptors read the
    session and react to a 401; the generated client ([api/generated.ts]:
    [ApiTypes], [ApiClient] for requests, keys and options, [QueryHooks] for
    declared responses and hooks) and the RBAC client ([lib/admin-rbac.ts],
    [AdminRbac]) are layers over it.  All hooks share one query cache
    ([providers/query-provider.tsx], [QueryCache]), which the pages' mutations
    invalidate.

    The pages are clients of these layers:
    - operators' pages: [NavShell] (contexts, sign-out), [ShellViews] (navigation,
      routes, error states, ready-made confirmations, settings, subscription),
      [Search] (command palette, search page) and [Notifications] with what they
      show ([SearchViews]), [Traffic] (charts), [Usage] (billing figures, export)
      and what the traffic, observability, usage and telemetry pages show
      ([FigureViews]);
    - servers and tools: [Servers] (registration), [ServerNewView] (its wizard as
      shown), [ServerPages] (list, detail), [ServerDetailView] (the detail page's
      tabs), [Tools] (the decisions of catalogue, tool page and playground),
      [ToolExplorer] (the catalogue page), [ToolPage] (the tabs of a tool),
      [PlaygroundPage] (the playground's effects, examples, sharing, snippets)
      and [PlaygroundRuns] (its sessions, with the calls in flight);
    - access: [ApiKeys] (creation wizard), [ApiKeysView] (its steps, the key
      list), [AccessControl] (members, teams, roles, confirmation dialogs),
      [AccessViews] (their tabs and dialogs as shown), [OlderRoles] (the older roles
      page) and [OlderRolesView], [PolicyBuilder] (the eight-step builder) and
      [BuilderView] (its steps as shown), [PolicyPages] (list,
      detail, simulator, rate limits), [PolicyView] (the policy's page),
      [Integrations] (the integrations page), [ListViews] (the lists of servers,
      policies, rate limits and logs as shown);
    - events: [AuditPage] and [AuditViews] (the audit page's data and what it
      shows), [LogsPage], [Triage] (traces, error groups, incidents, alert
      rules) and what its four pages show: [TracesView], [ErrorsView],
      [IncidentView], [AlertsView];
    - [Onboarding] and [OnboardingView] (the wizard), [Developer] (the developer
      workspace), [DevToolsView] (its tool explorer) and [DeveloperViews] (its
      other pages);
    - administration: [AdminPages] (data and handlers), [AdminViews] (overview,
      policies, audit, servers, tools, settings), [AdminOps] (security,
      infrastructure), [AdminPeople] (users, organizations), [AdminFigures]
      (traffic, billing);
    - [Homes] (the first pages of the dashboard and of the developer workspace),
      [Feedback] (empty states, progress), [Clipboard] and [RelTime].

    Of the Python backend, which these pages describe and send to:
    - [Gateway]: the selection of the rate-limit policy in force
      ([api/app/limits/policies.py]), the permission decision
      ([api/app/auth/rbac.py]) and the request schemas
      ([api/app/models/schemas.py]);
    - [Limiter]: the limiter's scripts and buckets
      ([api/app/limits/redis_bucket.py]), over what it uses of Redis ([Redis]);
    - [McpSessions]: the session registry ([api/app/gateway/session.py]), by its
      trips to Redis: alone, and interleaved in any number of requests;
    - [McpProxy]: the pipeline from a JSON-RPC request to what is forwarded,
      answered and audited ([api/app/gateway/router.py]);
    - [ManagementApi]: the limits of the management API
      ([api/app/gateway/management_rate_limit.py]).

    ** The model

    - [Prelude]: tactics, hint databases ([pc], [pc_rw]) and the result type.
    - [JsString], [JsUri], [Json], [JsonParse], [JsDate], [JsNumber], [JsInt]: the
      parts of the JavaScript library the console uses.  Strings are
      sequences of the code units U+0000..U+00FF; JSON numbers are integers;
      dates are milliseconds with the time zone's offset as a parameter; numbers
      where rounding matters are binary64.
    - [Browser]: the world the code acts on: both storages (which can be denied
      or full), the cookie jar with expiry and HttpOnly, the clock, random bytes,
      the log of requests with the network as a parameter, and navigations.  [M]
      is the state and exception monad; a thrown exception keeps the state
      reached, as in the source.
    - [Tally]: JavaScript [Map] grouping, stable sorting and histograms, shared
      by the aggregating pages.
    - [View]: what a component renders, as a tree of texts, links, controls and
      tables without styles, and the states of a query's hook.

    Four interfaces connect components.  [AuthStore.SessionVerifier] is what
    the session module promises to the gates: they are verified against it, and
    [verifySession] is its instance.  [Tally.Comparator] is what a sort's
    comparator promises to the sorting lemmas.  [QueryCache.QueryClientLaws] is
    what React Query's client promises to the pages; [RefClient] has this
    behaviour.  [Redis.RedisLaws] is what Redis promises to the limiter and the
    session registry; [RefRedis] has this behaviour.

    React components are modelled by their state, their handlers and effects and
    what they decide to render; [ToolPage], [ToolExplorer], [PlaygroundPage],
    [Integrations], [Homes], [Feedback], [AdminOps], [AdminPeople],
    [AdminFigures] and the files named [...View] or [...Views] also give what
    they render as a [View].  Pages with requests in
    flight are step functions over events, with answers as events of their own,
    so that theorems cover every interleaving.  Code outside the repository is a
    parameter: axios's dispatch, React Query, Clerk, the network and backend,
    [new URL], [Number] on texts.  Where a theorem depends on such a parameter
    its hypothesis says how, and a witness instantiates it.

    ** What is proved

    - Sessions: the module refines an abstract session of one key and one
      expiring marker; keys never reach localStorage, cookies or requests other
      than as the Bearer header; round trips; sign-out is effective.
    - Access: the complete decision of the edge; protected children and the
      admin shell are shown only on the backend's word; the Clerk gate always
      settles.
    - Requests: header injection, the 401 redirect, every generated operation
      and hook addresses the route it is named after, as a server reads it (for
      ids that are plain segments), cache keys separate
      requests, the cache shows a query only its own answers, and which queries
      each page's mutations refresh.
    - Policies: the simulator of the policy page and the team dialog refine the
      gateway's decisions and the backend's store; what the builder publishes is
      well typed; the gateway's selection and permission decisions meet their
      declarative specifications.
    - Gateway: whatever checks interleave, a sliding window and a token bucket let
      no more through than their policy says; nothing is forwarded without
      credentials, an active server, a session of the caller's, a permission and
      room in the limit of what it names; however the trips of requests to Redis
      interleave and fail, sessions keep their owners, but for a failing look-up;
      filtered lists show exactly what the caller may use.
    - Pages: charts, groups, filters and pages count exactly what they should;
      CSV rows, edit dialogs, code examples and stored progress round-trip;
      wizards, playgrounds, dialogs and incidents are state machines with
      invariants over every sequence of inputs.
    - Flaws are theorems too (for instance [ApiKeys.wizard_never_creates],
      [PolicyBuilder.lower_priority_never_wins],
      [AdminPages.every_call_counted_blocked]), stated positively about what the
      code does.

    ** Bounds and fuel

    [JsonParse] uses fuel: its parser runs with twice the text's length plus two,
    and its lemma [JSON_parse_enough_fuel] shows that more never changes the
    outcome.  [JsNumber.shortest] tries sixteen decimals, as seventeen digits
    always read back.  Every other loop runs over a list or a string and is
    structural here.  The limiter's doubles are exact rationals, its times seconds
    on one clock.  The proxy handles a request at one moment; what can happen
    between its trips to the session registry is in the machine of [McpSessions].
    Widths: cookie ages and times are unbounded integers (milliseconds stay far
    below 2^53); [toISOString] is given for the years 0 to 9999.
    [JsDate.Date_parse] accepts the formats the backend and date inputs produce
    and answers [NaN] ([None]) otherwise.

    ** Not modelled, and the plan

    Styles, icons and vendors' logos; the legal texts; the wrappers of UI libraries
    under [components/ui] and the loading skeletons, which hold no state of the
    application; build configuration and tests.  Of the Python service
    authentication, repositories, health checks, metering and audit export are
    parameters or left out, and so are the plugins' hook and request ids of the
    proxy. *)

From Stdlib Require Export Ascii.
From stdpp Require Export prelude gmap strings list pretty.

(** ** The development's tactics *)

(** [case_if] splits on every boolean test of the goal, keeping equations. *)
Ltac case_if :=
  repeat match goal with
  | |- context [if ?b then _ else _] => destruct b eqn:?; simpl
  end.

(** [bool_hyps] turns boolean connectives in hypotheses into propositions. *)
Ltac bool_hyps :=
  repeat match goal with
  | H : _ && _ = true |- _ => apply andb_true_iff in H as [? ?]
  | H : _ || _ = false |- _ => apply orb_false_iff in H as [? ?]
  | H : negb _ = true |- _ => apply negb_true_iff in H
  | H : negb _ = false |- _ => apply negb_false_iff in H
  | H : bool_decide _ = true |- _ => apply bool_decide_eq_true in H
  | H : bool_decide _ = false |- _ => apply bool_decide_eq_false in H
  end.

(** ** Hint databases *)
Create HintDb pc discriminated.
Create HintDb pc_rw.

(** ** Results of fallible code: a value or a thrown exception *)
Inductive result (E A : Type) : Type :=
  | Ok (a : A)
  | Err (e : E).
Arguments Ok {E A} _.
Arguments Err {E A} _.

(** JavaScript truthiness of a nullable string. *)
Definition truthy (o : option string) : bool :=
  match o with Some s => negb (bool_decide (s = "")) | None => false end.

(** ** Lists *)
Lemma filter_none_match {A} (f : A -> bool) l : (forall x, x ∈ l -> f x = false) -> List.filter f l = [].
Proof. induction l as [|x l IH]; intros H; [done|]. cbn. rewrite H by by left. apply IH. intros. apply H. by right. Qed.

Lemma filter_all_match {A} (f : A -> bool) l : (forall x, x ∈ l -> f x = true) -> List.filter f l = l.
Proof.
  induction l as [|x l IH]; intros H; [done|]. cbn. rewrite H by by left. f_equal. apply IH. intros. apply H. by right.
Qed.
