(* ===== verification/JsString.v ===== *)
(** * JavaScript strings

    A JavaScript string is a sequence of UTF-16 code units.  The model keeps
    the code units U+0000..U+00FF, one [ascii] per unit, and gives the exact
    behaviour of the String methods on those; source literals that use other
    characters (dashes, ellipses in labels) only ever flow to the output and
    are kept as the UTF-8 text of the source file. *)

From S2P Require Import Prelude.

Definition code (c : ascii) : N := N_of_ascii c.

(** White space and line terminators of ECMA-262 within U+0000..U+00FF. *)
Definition is_ws (c : ascii) : bool :=
  let n := code c in
  ((9 <=? n) && (n <=? 13) || (n =? 32) || (n =? 160))%N.

Definition lower_char (c : ascii) : ascii :=
  let n := code c in
  if ((65 <=? n) && (n <=? 90) || ((192 <=? n) && (n <=? 222) && negb (n =? 215)))%N
  then ascii_of_N (n + 32) else c.

Fixpoint smap (f : ascii -> ascii) (s : string) : string :=
  match s with
  | "" => ""
  | String c s => String (f c) (smap f s)
  end.

Definition toLowerCase : string -> string := smap lower_char.

Fixpoint sforall (p : ascii -> bool) (s : string) : bool :=
  match s with
  | "" => true
  | String c s => p c && sforall p s
  end.

Fixpoint trimStart (s : string) : string :=
  match s with
  | "" => ""
  | String c r => if is_ws c then trimStart r else s
  end.

Fixpoint trimEnd (s : string) : string :=
  match s with
  | "" => ""
  | String c r =>
      let r' := trimEnd r in
      if bool_decide (r' = "") && is_ws c then "" else String c r'
  end.

Definition trim (s : string) : string := trimEnd (trimStart s).

Definition startsWith (s p : string) : bool := String.prefix p s.

(** [s.includes(sub)] *)
Fixpoint includes (s sub : string) : bool :=
  startsWith s sub ||
  match s with "" => false | String _ r => includes r sub end.

(** The part of [s] before the first [c] (all of [s] when there is none). *)
Fixpoint take_until (c : ascii) (s : string) : string :=
  match s with
  | "" => ""
  | String d r => if bool_decide (c = d) then "" else String d (take_until c r)
  end.

(** The part of [s] after the first [c], [None] when [c] does not occur. *)
Fixpoint drop_after (c : ascii) (s : string) : option string :=
  match s with
  | "" => None
  | String d r => if bool_decide (c = d) then Some r else drop_after c r
  end.

(** [s.split(c)] for a one-character separator. *)
Fixpoint split (c : ascii) (s : string) : list string :=
  match s with
  | "" => [""]
  | String d r =>
      if bool_decide (c = d) then "" :: split c r
      else match split c r with
           | w :: ws => String d w :: ws
           | [] => [String d ""]
           end
  end.

(** [l.join(sep)] *)
Definition join (sep : string) (l : list string) : string := String.concat sep l.

(** [s.slice(n)] for a non-negative [n]. *)
Fixpoint sdrop (n : nat) (s : string) : string :=
  match n, s with
  | O, _ => s
  | _, "" => ""
  | S n, String _ r => sdrop n r
  end.

(** [s.slice(0, n)] for a non-negative [n]. *)
Fixpoint stake (n : nat) (s : string) : string :=
  match n, s with
  | O, _ => ""
  | _, "" => ""
  | S n, String c r => String c (stake n r)
  end.

Fixpoint srepeat (n : nat) (s : string) : string :=
  match n with O => "" | S n => s +:+ srepeat n s end.

(** [s.padStart(n, c)] for a one-character fill. *)
Definition padStart (n : nat) (c : ascii) (s : string) : string :=
  srepeat (n - String.length s) (String c "") +:+ s.

(** ** Lemmas *)

Lemma app_nil_l (s : string) : "" +:+ s = s.
Proof. done. Qed.

Lemma app_cons (c : ascii) (s t : string) : String c s +:+ t = String c (s +:+ t).
Proof. done. Qed.

Lemma sapp_nil_r (s : string) : s +:+ "" = s.
Proof. induction s as [|c s IH]; [done|]. by rewrite app_cons, IH. Qed.

Lemma sapp_assoc (s t u : string) : (s +:+ t) +:+ u = s +:+ (t +:+ u).
Proof. induction s as [|c s IH]; [done|]. by rewrite !app_cons, IH. Qed.

#[export] Hint Rewrite app_nil_l app_cons sapp_nil_r sapp_assoc : pc_rw.

Lemma prefix_spec (p s : string) :
  String.prefix p s = true <-> exists t, s = p +:+ t.
Proof.
  revert s; induction p as [|c p IH]; intros s.
  - split; [by exists s | by destruct s].
  - destruct s as [|d s]; simpl.
    + split; [done|]. intros [t Ht]. by rewrite app_cons in Ht.
    + destruct (ascii_dec c d) as [->|Hne].
      * rewrite IH. split; intros [t Ht]; exists t.
        -- by rewrite app_cons, Ht.
        -- rewrite app_cons in Ht. by simplify_eq.
      * split; [done|]. intros [t Ht]. rewrite app_cons in Ht. by simplify_eq.
Qed.

Lemma startsWith_app (p t : string) : startsWith (p +:+ t) p = true.
Proof. apply prefix_spec. by exists t. Qed.

Lemma includes_spec (s sub : string) :
  includes s sub = true <-> exists a b, s = a +:+ sub +:+ b.
Proof.
  split.
  - induction s as [|c s IH]; cbn [includes]; intros H; apply orb_true_iff in H as [H|H].
    + apply prefix_spec in H as [t ->]. by exists "", t.
    + done.
    + apply prefix_spec in H as [t ->]. by exists "", t.
    + apply IH in H as (a & b & ->). by exists (String c a), b.
  - intros (a & b & ->). induction a as [|c a IH].
    + rewrite app_nil_l. destruct (sub +:+ b) eqn:E; cbn [includes];
        rewrite <- E, startsWith_app; done.
    + rewrite app_cons. cbn [includes]. by rewrite IH, orb_true_r.
Qed.

Lemma sforall_app p (s t : string) : sforall p (s +:+ t) = sforall p s && sforall p t.
Proof.
  induction s as [|c s IH]; [done|]. rewrite app_cons. simpl. by rewrite IH, andb_assoc.
Qed.

Lemma sforall_impl (p q : ascii -> bool) s :
  (forall c, p c = true -> q c = true) -> sforall p s = true -> sforall q s = true.
Proof.
  intros Hpq. induction s as [|c s IH]; [done|]. simpl. intros H. bool_hyps.
  by rewrite Hpq, IH.
Qed.

(** A separator-free string. *)
Definition without (c : ascii) (s : string) : bool :=
  sforall (fun d => negb (bool_decide (c = d))) s.

#[global] Arguments without : simpl never.

Lemma without_app c s t : without c (s +:+ t) = without c s && without c t.
Proof. apply sforall_app. Qed.

Lemma without_cons c d s :
  without c (String d s) = negb (bool_decide (c = d)) && without c s.
Proof. done. Qed.

Lemma take_until_app c s t :
  without c s = true -> take_until c (s +:+ String c t) = s.
Proof.
  induction s as [|d s IH]; intros H.
  - rewrite app_nil_l. simpl. by rewrite bool_decide_true.
  - rewrite app_cons. rewrite without_cons in H. simpl. bool_hyps. rewrite bool_decide_false by done.
    by rewrite IH.
Qed.

Lemma take_until_all c s : without c s = true -> take_until c s = s.
Proof.
  induction s as [|d s IH]; [done|]. rewrite without_cons. simpl. intros H. bool_hyps.
  by rewrite bool_decide_false, IH.
Qed.

Lemma take_until_without c s : without c (take_until c s) = true.
Proof.
  induction s as [|d s IH]; [done|]. simpl. case_bool_decide; [done|].
  by rewrite without_cons, bool_decide_false, IH.
Qed.

Lemma drop_after_app c s t :
  without c s = true -> drop_after c (s +:+ String c t) = Some t.
Proof.
  induction s as [|d s IH]; intros H.
  - rewrite app_nil_l. simpl. by rewrite bool_decide_true.
  - rewrite app_cons. rewrite without_cons in H. simpl. bool_hyps. by rewrite bool_decide_false, IH.
Qed.

Lemma split_nonempty c s : split c s <> [].
Proof.
  induction s as [|d s IH]; simpl; [done|]. case_bool_decide; [done|].
  by destruct (split c s).
Qed.

Lemma split_without c s : without c s = true -> split c s = [s].
Proof.
  induction s as [|d s IH]; [done|]. rewrite without_cons. simpl. intros H. bool_hyps.
  by rewrite bool_decide_false, IH.
Qed.

Lemma split_app c s t :
  without c s = true -> split c (s +:+ String c t) = s :: split c t.
Proof.
  induction s as [|d s IH]; intros H.
  - rewrite app_nil_l. simpl. by rewrite bool_decide_true.
  - rewrite app_cons. rewrite without_cons in H. simpl. bool_hyps. by rewrite bool_decide_false, IH.
Qed.

(** [s.split(c).join(c)] gives back [s]. *)
Lemma join_split c s : join (String c "") (split c s) = s.
Proof.
  induction s as [|d s IH]; [done|]. simpl. case_bool_decide as E.
  - subst. destruct (split d s) as [|w ws] eqn:Hs; [by apply split_nonempty in Hs|].
    change (join (String d "") ("" :: w :: ws) = String d s).
    rewrite <- IH. done.
  - destruct (split c s) as [|w ws] eqn:Hs; [by apply split_nonempty in Hs|].
    rewrite <- IH. by destruct ws.
Qed.

Lemma trimStart_app_ws s : trimStart (String " " s) = trimStart s.
Proof. done. Qed.

(** No leading or trailing white space. *)
Definition trimmed (s : string) : bool := bool_decide (trim s = s).

Lemma no_ws_trimStart s : sforall (fun c => negb (is_ws c)) s = true -> trimStart s = s.
Proof. destruct s as [|c s]; [done|]. simpl. intros H. bool_hyps. by case_if. Qed.

Lemma no_ws_trimEnd s : sforall (fun c => negb (is_ws c)) s = true -> trimEnd s = s.
Proof.
  induction s as [|c s IH]; [done|]. simpl. intros H. bool_hyps.
  rewrite IH by done. replace (is_ws c) with false by done. by rewrite andb_false_r.
Qed.

Lemma no_ws_trim s : sforall (fun c => negb (is_ws c)) s = true -> trim s = s.
Proof. intros H. unfold trim. by rewrite no_ws_trimStart, no_ws_trimEnd. Qed.

Lemma trimEnd_idemp s : trimEnd (trimEnd s) = trimEnd s.
Proof.
  induction s as [|c s IH]; [done|]. simpl.
  destruct (bool_decide (trimEnd s = "") && is_ws c) eqn:E; [done|]. simpl. by rewrite IH, E.
Qed.

Lemma trimStart_head s :
  match trimStart s with "" => True | String c _ => is_ws c = false end.
Proof. induction s as [|c s IH]; simpl; [done|]. destruct (is_ws c) eqn:E; [done|]. by rewrite E. Qed.

Lemma trimStart_trimEnd s :
  trimStart s = s -> trimStart (trimEnd s) = trimEnd s.
Proof.
  destruct s as [|c s]; [done|]. simpl. destruct (is_ws c) eqn:E.
  - intros H. pose proof (trimStart_head s) as Hh. rewrite H in Hh. congruence.
  - intros _. rewrite andb_false_r. simpl. by rewrite E.
Qed.

Lemma trimStart_idemp s : trimStart (trimStart s) = trimStart s.
Proof. induction s as [|c s IH]; [done|]. simpl. destruct (is_ws c) eqn:E; [done|]. simpl. by rewrite E. Qed.

Lemma trim_idemp s : trim (trim s) = trim s.
Proof.
  unfold trim. rewrite trimStart_trimEnd by apply trimStart_idemp. apply trimEnd_idemp.
Qed.

Lemma smap_smap f g s : smap f (smap g s) = smap (fun c => f (g c)) s.
Proof. induction s; simpl; [done|]. by f_equal. Qed.

Lemma smap_ext f g s : (forall c, f c = g c) -> smap f s = smap g s.
Proof. intros H. induction s; simpl; [done|]. by rewrite H, IHs. Qed.

Lemma smap_app f s t : smap f (s +:+ t) = smap f s +:+ smap f t.
Proof. induction s as [|c s IH]; [done|]. rewrite app_cons. simpl. by rewrite IH. Qed.

Lemma length_smap f s : String.length (smap f s) = String.length s.
Proof. induction s; simpl; auto. Qed.

(** A property of characters checked on all 256 code units. *)
Definition all_ascii : list ascii := map ascii_of_nat (seq 0 256).

Lemma all_ascii_complete c : c ∈ all_ascii.
Proof.
  unfold all_ascii. apply list_elem_of_In, in_map_iff. exists (nat_of_ascii c).
  split; [apply ascii_nat_embedding|]. apply in_seq.
  pose proof (nat_ascii_bounded c). lia.
Qed.

Lemma ascii_check (p : ascii -> bool) :
  forallb p all_ascii = true -> forall c, p c = true.
Proof.
  intros H c. rewrite forallb_forall in H. apply H, list_elem_of_In, all_ascii_complete.
Qed.

Lemma lower_char_idemp c : lower_char (lower_char c) = lower_char c.
Proof.
  pose proof (ascii_check (fun c => bool_decide (lower_char (lower_char c) = lower_char c))
                eq_refl c) as H. by apply bool_decide_eq_true in H.
Qed.

Lemma toLowerCase_idemp s : toLowerCase (toLowerCase s) = toLowerCase s.
Proof. unfold toLowerCase. rewrite smap_smap. apply smap_ext, lower_char_idemp. Qed.

Lemma sapp_length s t : String.length (s +:+ t) = String.length s + String.length t.
Proof. induction s as [|c s IH]; [done|]. rewrite app_cons. simpl. by rewrite IH. Qed.

Lemma srepeat_length n s : String.length (srepeat n s) = n * String.length s.
Proof. induction n; simpl; [done|]. by rewrite sapp_length, IHn. Qed.

Lemma padStart_length n c s :
  String.length (padStart n c s) = Nat.max n (String.length s).
Proof. unfold padStart. rewrite sapp_length, srepeat_length. simpl. lia. Qed.

Lemma stake_sdrop n s : stake n s +:+ sdrop n s = s.
Proof.
  revert s; induction n as [|n IH]; intros [|c s]; try done. simpl.
  by rewrite app_cons, IH.
Qed.

Lemma stake_length n s : String.length (stake n s) = Nat.min n (String.length s).
Proof. revert s; induction n as [|n IH]; intros [|c s]; try done. simpl. by rewrite IH. Qed.

Lemma sdrop_app s t : sdrop (String.length s) (s +:+ t) = t.
Proof. induction s as [|c s IH]; [done|]. rewrite app_cons. simpl. apply IH. Qed.

Lemma sapp_inj_l s t u : s +:+ t = s +:+ u -> t = u.
Proof. apply (inj (String.app s)). Qed.

(** Two texts that start with separator-free keys followed by the separator
    agree on the keys exactly when one is a prefix of the other. *)
Lemma startsWith_key c n k x :
  without c n = true -> without c k = true ->
  startsWith (n +:+ String c x) (k +:+ String c "") = bool_decide (n = k).
Proof.
  intros Hn Hk. case_bool_decide as E.
  - subst. apply prefix_spec. exists x. by rewrite sapp_assoc.
  - apply not_true_is_false. intros [t Ht]%prefix_spec. apply E.
    pose proof (take_until_app c n x Hn) as H1.
    rewrite Ht, sapp_assoc, app_cons, app_nil_l, take_until_app in H1 by done. done.
Qed.

Lemma trimEnd_app_nws s c t :
  is_ws c = false -> trimEnd (s +:+ String c t) = s +:+ String c (trimEnd t).
Proof.
  intros Hc. induction s as [|d s IH].
  - rewrite app_nil_l. simpl. by rewrite Hc, andb_false_r.
  - rewrite app_cons. simpl. rewrite IH. rewrite bool_decide_false; [done|].
    by destruct s.
Qed.

Lemma join_cons sep x y l : join sep (x :: y :: l) = x +:+ sep +:+ join sep (y :: l).
Proof. done. Qed.

Lemma split_join_semi l x :
  Forall (fun s => without ";" s = true) (x :: l) ->
  split ";" (join "; " (x :: l)) = x :: map (String " ") l.
Proof.
  revert x; induction l as [|y l IH]; intros x H; inversion H; subst.
  - by apply split_without.
  - rewrite join_cons. change ("; " +:+ ?u) with (String ";" (String " " u)).
    rewrite split_app by done. cbn [split]. rewrite IH by done. done.
Qed.
