(* ===== verification/JsUri.v ===== *)
(** * URI components and query strings

    [encodeURIComponent]/[decodeURIComponent] and the serializer of
    [URLSearchParams], as the browser and the console's request builders use
    them, on code units U+0000..U+00FF. *)

From S2P Require Import Prelude JsString.

Definition is_alnum (c : ascii) : bool :=
  let n := code c in
  ((48 <=? n) && (n <=? 57) || (65 <=? n) && (n <=? 90) || (97 <=? n) && (n <=? 122))%N.

(** The characters [encodeURIComponent] leaves alone: alphanumerics and
    hyphen, underscore, dot, [!], [~], [*], quote and parentheses. *)
Definition uri_unreserved (c : ascii) : bool :=
  is_alnum c || bool_decide (code c ∈ [45; 95; 46; 33; 126; 42; 39; 40; 41]%N).

Definition hex_digit (n : N) : ascii :=
  ascii_of_N (if (n <? 10)%N then 48 + n else 55 + n).

Definition pct (n : N) : string :=
  String "%" (String (hex_digit (n / 16)) (String (hex_digit (n mod 16)) "")).

(** Percent-encoding of the UTF-8 bytes of one code unit. *)
Definition pct_utf8 (c : ascii) : string :=
  let n := code c in
  if (n <? 128)%N then pct n
  else if (n <? 192)%N then pct 194 +:+ pct n
  else pct 195 +:+ pct (n - 64).

Definition enc_char (c : ascii) : string :=
  if uri_unreserved c then String c "" else pct_utf8 c.

Fixpoint encodeURIComponent (s : string) : string :=
  match s with
  | "" => ""
  | String c r => enc_char c +:+ encodeURIComponent r
  end.

(** [decodeURIComponent] returns a string, throws [URIError], or yields
    characters above U+00FF, which the string model does not carry. *)
Inductive decoded : Type :=
  | Decoded (s : string)
  | URIError
  | Wide.

Definition dcons (c : ascii) (d : decoded) : decoded :=
  match d with Decoded s => Decoded (String c s) | e => e end.

Definition hex_val (c : ascii) : option N :=
  let n := code c in
  if ((48 <=? n) && (n <=? 57))%N then Some (n - 48)%N
  else if ((65 <=? n) && (n <=? 70))%N then Some (n - 55)%N
  else if ((97 <=? n) && (n <=? 102))%N then Some (n - 87)%N
  else None.

Definition hex_byte (h l : ascii) : option N :=
  match hex_val h, hex_val l with
  | Some a, Some b => Some (16 * a + b)%N
  | _, _ => None
  end.

Fixpoint decodeURIComponent (s : string) : decoded :=
  match s with
  | "" => Decoded ""
  | String "%" (String h (String l r)) =>
      match hex_byte h l with
      | None => URIError
      | Some b =>
          if (b <? 128)%N then dcons (ascii_of_N b) (decodeURIComponent r)
          else if (b <? 194)%N then URIError
          else if (b <? 196)%N then
            match r with
            | String "%" (String h2 (String l2 r2)) =>
                match hex_byte h2 l2 with
                | Some b2 =>
                    if ((128 <=? b2) && (b2 <? 192))%N
                    then dcons (ascii_of_N ((b - 192) * 64 + (b2 - 128)))
                               (decodeURIComponent r2)
                    else URIError
                | None => URIError
                end
            | _ => URIError
            end
          else if (b <? 245)%N then Wide
          else URIError
      end
  | String "%" _ => URIError
  | String c r => dcons c (decodeURIComponent r)
  end.

(** [application/x-www-form-urlencoded] serialization of one name or value. *)
Definition form_char (c : ascii) : string :=
  if bool_decide (c = " "%char) then "+"
  else if is_alnum c || bool_decide (code c ∈ [42; 45; 46; 95]%N) then String c ""
  else pct_utf8 c.

Fixpoint form_encode (s : string) : string :=
  match s with "" => "" | String c r => form_char c +:+ form_encode r end.

(** [new URLSearchParams(pairs).toString()] *)
Definition form_pair (kv : string * string) : string :=
  form_encode (kv.1) +:+ "=" +:+ form_encode (kv.2).

Definition URLSearchParams_toString (l : list (string * string)) : string :=
  join "&" (map form_pair l).

(** ** Lemmas *)

Lemma decode_enc_char c t :
  decodeURIComponent (enc_char c +:+ t) = dcons c (decodeURIComponent t).
Proof. destruct c as [[] [] [] [] [] [] [] []]; reflexivity. Qed.

(** Decoding inverts encoding, for every string of the model. *)
Lemma decode_encode s : decodeURIComponent (encodeURIComponent s) = Decoded s.
Proof.
  induction s as [|c s IH]; [done|]. cbn [encodeURIComponent].
  by rewrite decode_enc_char, IH.
Qed.

Lemma enc_char_safe c :
  sforall (fun d => uri_unreserved d || bool_decide (d = "%"%char)) (enc_char c) = true.
Proof.
  pose proof (ascii_check (fun c => sforall (fun d => uri_unreserved d
     || bool_decide (d = "%"%char)) (enc_char c)) eq_refl c) as H. exact H.
Qed.

(** An encoded component consists of unreserved characters and [%] only: it
    can end neither a path segment, nor a query parameter, nor a cookie. *)
Lemma encode_safe s :
  sforall (fun d => uri_unreserved d || bool_decide (d = "%"%char))
          (encodeURIComponent s) = true.
Proof.
  induction s as [|c s IH]; [done|]. cbn [encodeURIComponent].
  by rewrite sforall_app, enc_char_safe, IH.
Qed.

Lemma encode_without c s :
  uri_unreserved c = false -> c <> "%"%char -> without c (encodeURIComponent s) = true.
Proof.
  intros Hc Hp. eapply sforall_impl; [|apply encode_safe]. intros d Hd. simpl.
  apply negb_true_iff, bool_decide_eq_false. intros ->.
  cbv beta in Hd. rewrite Hc in Hd. simpl in Hd. bool_hyps. done.
Qed.

Lemma encode_unreserved s :
  sforall uri_unreserved s = true -> encodeURIComponent s = s.
Proof.
  induction s as [|c s IH]; [done|]. simpl. intros H. bool_hyps.
  rewrite IH by done. unfold enc_char. by replace (uri_unreserved c) with true.
Qed.

Lemma encode_inj s t : encodeURIComponent s = encodeURIComponent t -> s = t.
Proof. intros H. pose proof (decode_encode s) as E. rewrite H, decode_encode in E. congruence. Qed.
