(* ===== verification/Json.v ===== *)
(** * JSON values, as the console receives them from [res.json()] *)

From S2P Require Import Prelude.

Inductive json : Type :=
  | JNull
  | JBool (b : bool)
  | JNum (n : Z)
  | JStr (s : string)
  | JArr (l : list json)
  | JObj (o : list (string * json)).

(** [o[k]] on a parsed object: [JSON.parse] keeps the last duplicate. *)
Fixpoint obj_get (k : string) (o : list (string * json)) : option json :=
  match o with
  | [] => None
  | (k', v) :: r =>
      match obj_get k r with
      | Some v' => Some v'
      | None => if bool_decide (k = k') then Some v else None
      end
  end.

(** Optional chaining [v?.k], [undefined] as [None]. *)
Definition json_field (k : string) (v : json) : option json :=
  match v with JObj o => obj_get k o | _ => None end.

(** [v ?? d] on an optional JSON value: [null] and [undefined] fall back. *)
Definition nullish (v : option json) : option json :=
  match v with Some JNull | None => None | Some x => Some x end.

(** [String(v)] *)
Fixpoint js_String (v : json) : string :=
  match v with
  | JNull => "null"
  | JBool b => if b then "true" else "false"
  | JNum n => pretty n
  | JStr s => s
  | JArr l => String.concat "," (map (fun x => match x with JNull => "" | _ => js_String x end) l)
  | JObj _ => "[object Object]"
  end.

(** Object literals: an [undefined] property is left out by [JSON.stringify]. *)
Definition opt_prop (k : string) (v : option json) : list (string * json) :=
  match v with Some j => [(k, j)] | None => [] end.

Definition nullable_str (v : option string) : json := match v with Some s => JStr s | None => JNull end.

(** [s || null] and [s || undefined] on a string *)
Definition or_none (s : string) : option string := if bool_decide (s = "") then None else Some s.

(** ** [JSON.stringify] (ECMA-262, 25.5.2: no indentation) *)
Definition dquote : string := String (ascii_of_N 34) "".

Definition hex_digit (n : N) : string :=
  String (ascii_of_N (if (n <? 10)%N then 48 + n else 87 + n)) "".

Definition quote_char (c : ascii) : string :=
  let n := N_of_ascii c in
  if (n =? 34)%N then "\" +:+ dquote
  else if (n =? 92)%N then "\\"
  else if (n =? 8)%N then "\b"
  else if (n =? 9)%N then "\t"
  else if (n =? 10)%N then "\n"
  else if (n =? 12)%N then "\f"
  else if (n =? 13)%N then "\r"
  else if (n <? 32)%N then "\u00" +:+ hex_digit (n / 16) +:+ hex_digit (n mod 16)
  else String c "".

Fixpoint quote_body (s : string) : string :=
  match s with "" => "" | String c r => quote_char c +:+ quote_body r end.

Definition quote (s : string) : string := dquote +:+ quote_body s +:+ dquote.

Fixpoint JSON_stringify (v : json) : string :=
  match v with
  | JNull => "null"
  | JBool b => if b then "true" else "false"
  | JNum n => pretty n
  | JStr s => quote s
  | JArr l => "[" +:+ String.concat "," (map JSON_stringify l) +:+ "]"
  | JObj o => "{" +:+ String.concat "," (map (fun kv => quote (kv.1) +:+ ":" +:+ JSON_stringify (kv.2)) o) +:+ "}"
  end.
