(* ===== verification/Browser.v ===== *)
(** * The browser environment

    The state the console's library code reads and writes: the two Web
    Storage areas, the cookie jar behind [document.cookie], the page's
    location, the network and the random source, with a state-and-exception
    monad for the code itself.  The console and its API are taken to share a
    cookie jar (one host), and every cookie to carry [Path=/], as every write
    in the repository does.  The network is an oracle: the answer to the n-th
    request is an arbitrary function of n and of the request. *)

From S2P Require Import Prelude JsString Json.

(** ** Cookies *)
Record Cookie := mkCookie {
  ck_name : string;
  ck_value : string;
  ck_expires : option Z;   (** absolute time in seconds; [None]: session *)
  ck_secure : bool;
  ck_httponly : bool;
  ck_samesite : string }.

Definition live (now : Z) (c : Cookie) : bool :=
  match ck_expires c with Some t => (now <? t)%Z | None => true end.

(** Replace the cookie of the same name in place (its creation time is
    kept), else append it. *)
Fixpoint jar_put (c : Cookie) (j : list Cookie) : list Cookie :=
  match j with
  | [] => [c]
  | d :: r => if bool_decide (ck_name d = ck_name c) then c :: r else d :: jar_put c r
  end.

Definition jar_remove (n : string) (j : list Cookie) : list Cookie :=
  filter (fun d => ck_name d <> n) j.

Definition jar_get (n : string) (j : list Cookie) : option Cookie :=
  head (filter (fun d => ck_name d = n) j).

(** ** Parsing a [document.cookie] assignment (RFC 6265, section 5.2) *)
Definition digit_val (c : ascii) : option Z :=
  let n := code c in
  if ((48 <=? n) && (n <=? 57))%N then Some (Z.of_N (n - 48)) else None.

Fixpoint parse_dec_go (acc : Z) (s : string) : option Z :=
  match s with
  | "" => Some acc
  | String c r => match digit_val c with
                  | Some d => parse_dec_go (10 * acc + d) r
                  | None => None
                  end
  end.

Definition parse_dec (s : string) : option Z :=
  match s with "" => None | _ => parse_dec_go 0 s end.

(** [name=value], both trimmed; without [=] the whole text is the value. *)
Definition name_value (s : string) : string * string :=
  match drop_after "=" s with
  | Some v => (trim (take_until "=" s), trim v)
  | None => ("", trim s)
  end.

Record cookie_attrs := mkAttrs {
  at_max_age : option Z; at_secure : bool; at_httponly : bool; at_samesite : string }.

Definition add_attr (a : cookie_attrs) (s : string) : cookie_attrs :=
  let k := toLowerCase (trim (take_until "=" s)) in
  let v := match drop_after "=" s with Some v => trim v | None => "" end in
  if bool_decide (k = "max-age") then
    match (match v with
           | String "-" r => Z.opp <$> parse_dec r
           | _ => parse_dec v
           end) with
    | Some n => mkAttrs (Some n) (at_secure a) (at_httponly a) (at_samesite a)
    | None => a
    end
  else if bool_decide (k = "secure") then
    mkAttrs (at_max_age a) true (at_httponly a) (at_samesite a)
  else if bool_decide (k = "httponly") then
    mkAttrs (at_max_age a) (at_secure a) true (at_samesite a)
  else if bool_decide (k = "samesite") then
    mkAttrs (at_max_age a) (at_secure a) (at_httponly a) v
  else a.

Definition no_attrs : cookie_attrs := mkAttrs None false false "".

Definition parse_set_cookie (s : string) : (string * string) * cookie_attrs :=
  match split ";" s with
  | nv :: attrs => (name_value nv, fold_left add_attr attrs no_attrs)
  | [] => (("", ""), no_attrs)
  end.

(** The storage step of section 5.3 for a script ("non-HTTP API"): an
    HttpOnly cookie is neither created nor overwritten, a Secure cookie is
    neither created nor overwritten from an insecure page, and an expired
    cookie removes its namesake. *)
Definition script_set_cookie (https : bool) (now : Z) (s : string)
    (j : list Cookie) : list Cookie :=
  let '((n, v), a) := parse_set_cookie s in
  let old := jar_get n j in
  let old_httponly := match old with Some c => ck_httponly c | None => false end in
  let old_secure := match old with Some c => ck_secure c | None => false end in
  if bool_decide (n = "") && bool_decide (v = "") then j
  else if at_httponly a || old_httponly then j
  else if negb https && (at_secure a || old_secure) then j
  else match at_max_age a with
       | Some m => if (m <=? 0)%Z then jar_remove n j
                   else jar_put (mkCookie n v (Some (now + m)%Z) (at_secure a) false (at_samesite a)) j
       | None => jar_put (mkCookie n v None (at_secure a) false (at_samesite a)) j
       end.

(** [document.cookie] as read: the live, script-visible cookies. *)
Definition cookie_text (c : Cookie) : string := ck_name c +:+ "=" +:+ ck_value c.

Definition visible (now : Z) (j : list Cookie) : list Cookie :=
  filter (fun c => live now c = true /\ ck_httponly c = false) j.

Definition document_cookie (now : Z) (j : list Cookie) : string :=
  join "; " (map cookie_text (visible now j)).

(** ** Web Storage *)
Record Storage := mkStorage {
  st_ok : bool;      (** access allowed; otherwise every access throws *)
  st_quota : bool;   (** [setItem] succeeds; otherwise it throws QuotaExceeded *)
  st_items : gmap string string }.

(** ** Network *)
Record Request := mkRequest {
  rq_method : string;
  rq_url : string;
  rq_headers : list (string * string);
  rq_cookies : list Cookie;
  rq_body : option json }.

Record Response := mkResponse {
  rs_status : Z;
  rs_body : option json;       (** [None]: the body is not JSON *)
  rs_set_cookies : list Cookie; (** cookies the server stores *)
  rs_drop_cookies : list string (** names the server deletes *) }.

Inductive NetResult := NetFail | NetResp (r : Response).

Definition res_ok (r : Response) : bool :=
  ((200 <=? rs_status r) && (rs_status r <=? 299))%Z.

(** ** The world and the monad *)
Record Env := mkEnv {
  env_api_url : option string;       (** NEXT_PUBLIC_API_URL *)
  env_api_internal : option string;  (** API_INTERNAL_URL *)
  env_sso_slug : option string;      (** NEXT_PUBLIC_SSO_SLUG *)
  env_clerk_key : option string      (** NEXT_PUBLIC_CLERK_PUBLISHABLE_KEY *) }.

Record World := mkWorld {
  w_env : Env;
  w_window : bool;      (** false while rendering on the server *)
  w_https : bool;
  w_pathname : string;
  w_search : string;
  w_now : Z;
  w_session : Storage;
  w_local : Storage;
  w_jar : list Cookie;
  w_net : nat -> Request -> NetResult;
  w_sent : list Request;          (** requests sent so far, oldest first *)
  w_random : nat -> list N;       (** the byte arrays the CSPRNG delivers *)
  w_draws : nat;
  w_href : list string            (** navigations, oldest first *) }.

Definition set_session (s : Storage) (w : World) : World :=
  mkWorld (w_env w) (w_window w) (w_https w) (w_pathname w) (w_search w) (w_now w)
    s (w_local w) (w_jar w) (w_net w) (w_sent w) (w_random w) (w_draws w) (w_href w).
Definition set_local (s : Storage) (w : World) : World :=
  mkWorld (w_env w) (w_window w) (w_https w) (w_pathname w) (w_search w) (w_now w)
    (w_session w) s (w_jar w) (w_net w) (w_sent w) (w_random w) (w_draws w) (w_href w).
Definition set_jar (j : list Cookie) (w : World) : World :=
  mkWorld (w_env w) (w_window w) (w_https w) (w_pathname w) (w_search w) (w_now w)
    (w_session w) (w_local w) j (w_net w) (w_sent w) (w_random w) (w_draws w) (w_href w).
Definition set_sent (l : list Request) (w : World) : World :=
  mkWorld (w_env w) (w_window w) (w_https w) (w_pathname w) (w_search w) (w_now w)
    (w_session w) (w_local w) (w_jar w) (w_net w) l (w_random w) (w_draws w) (w_href w).
Definition set_draws (n : nat) (w : World) : World :=
  mkWorld (w_env w) (w_window w) (w_https w) (w_pathname w) (w_search w) (w_now w)
    (w_session w) (w_local w) (w_jar w) (w_net w) (w_sent w) (w_random w) n (w_href w).
Definition set_href (l : list string) (w : World) : World :=
  mkWorld (w_env w) (w_window w) (w_https w) (w_pathname w) (w_search w) (w_now w)
    (w_session w) (w_local w) (w_jar w) (w_net w) (w_sent w) (w_random w) (w_draws w) l.

Definition M (A : Type) : Type := World -> result string A * World.

Definition ret {A} (a : A) : M A := fun w => (Ok a, w).
Definition throw {A} (e : string) : M A := fun w => (Err e, w).
Definition bind {A B} (m : M A) (k : A -> M B) : M B := fun w =>
  match m w with
  | (Ok a, w') => k a w'
  | (Err e, w') => (Err e, w')
  end.
(** [try { m } catch { h }] *)
Definition try_catch {A} (m : M A) (h : string -> M A) : M A := fun w =>
  match m w with
  | (Ok a, w') => (Ok a, w')
  | (Err e, w') => h e w'
  end.
(** [try { m } catch { /* ignore */ }] *)
Definition attempt (m : M unit) : M unit := try_catch m (fun _ => ret ()).
Definition get_world : M World := fun w => (Ok w, w).

Declare Scope js_scope.
Delimit Scope js_scope with js.
Notation "x <-- m ; k" := (bind m (fun x => k))
  (at level 100, m at next level, right associativity) : js_scope.
Notation "m ;;; k" := (bind m (fun _ => k))
  (at level 100, right associativity) : js_scope.
Open Scope js_scope.

(** ** Primitive operations *)
Definition storage_get (sel : World -> Storage) (k : string) : M (option string) := fun w =>
  if w_window w && st_ok (sel w) then (Ok (st_items (sel w) !! k), w)
  else (Err "SecurityError", w).

Definition storage_set (sel : World -> Storage) (upd : Storage -> World -> World)
    (k v : string) : M unit := fun w =>
  if w_window w && st_ok (sel w) then
    if st_quota (sel w)
    then (Ok (), upd (mkStorage true true (<[k := v]> (st_items (sel w)))) w)
    else (Err "QuotaExceededError", w)
  else (Err "SecurityError", w).

Definition storage_remove (sel : World -> Storage) (upd : Storage -> World -> World)
    (k : string) : M unit := fun w =>
  if w_window w && st_ok (sel w)
  then (Ok (), upd (mkStorage true (st_quota (sel w)) (delete k (st_items (sel w)))) w)
  else (Err "SecurityError", w).

Definition sessionStorage_getItem := storage_get w_session.
Definition sessionStorage_setItem := storage_set w_session set_session.
Definition sessionStorage_removeItem := storage_remove w_session set_session.
Definition localStorage_getItem := storage_get w_local.
Definition localStorage_removeItem := storage_remove w_local set_local.

Definition get_document_cookie : M string := fun w =>
  (Ok (document_cookie (w_now w) (w_jar w)), w).

Definition set_document_cookie (s : string) : M unit := fun w =>
  (Ok (), set_jar (script_set_cookie (w_https w) (w_now w) s (w_jar w)) w).

(** A request with [credentials: "include"]: the live cookies travel with it
    and the answer's Set-Cookie headers are stored. *)
Definition fetch (method url : string) (headers : list (string * string))
    (body : option json) : M Response := fun w =>
  let rq := mkRequest method url headers (filter (fun c => live (w_now w) c = true) (w_jar w)) body in
  let w' := set_sent (w_sent w ++ [rq]) w in
  match w_net w (length (w_sent w)) rq with
  | NetFail => (Err "TypeError: Failed to fetch", w')
  | NetResp r =>
      (Ok r, set_jar (fold_left (fun j c => jar_put c j) (rs_set_cookies r)
                        (fold_left (fun j n => jar_remove n j) (rs_drop_cookies r) (w_jar w'))) w')
  end.

(** [crypto.getRandomValues(new Uint8Array(32))] *)
Definition getRandomValues : M (list N) := fun w =>
  (Ok (w_random w (w_draws w)), set_draws (S (w_draws w)) w).

Definition navigate (url : string) : M unit := fun w =>
  (Ok (), set_href (w_href w ++ [url]) w).

(** The API's base address. *)
Definition api_base (w : World) : string :=
  match env_api_url (w_env w) with Some u => u | None => "http://localhost:8000" end.

(** ** Lemmas on the cookie jar *)

Lemma jar_get_put n c j :
  jar_get n (jar_put c j) = if decide (ck_name c = n) then Some c else jar_get n j.
Proof.
  unfold jar_get. induction j as [|d j IH]; simpl.
  - rewrite filter_cons. by case_decide.
  - case_bool_decide as E.
    + rewrite !filter_cons. rewrite E. by case_decide.
    + rewrite !filter_cons. destruct (decide (ck_name d = n)) as [Hd|Hd]; simpl.
      * subst. by rewrite decide_False by congruence.
      * exact IH.
Qed.

Lemma jar_get_remove n m j :
  jar_get n (jar_remove m j) = if decide (n = m) then None else jar_get n j.
Proof.
  unfold jar_get, jar_remove. induction j as [|d j IH].
  - by case_decide.
  - rewrite !filter_cons. destruct (decide (ck_name d <> m)) as [Hd|Hd].
    + rewrite filter_cons. destruct (decide (ck_name d = n)); simpl; [|exact IH].
      by rewrite decide_False by congruence.
    + rewrite IH. destruct (decide (n = m)) as [|Hm]; [done|].
      by rewrite (decide_False (P := ck_name d = n)) by (intros ?; apply Hd; congruence).
Qed.

Lemma jar_get_name n j c : jar_get n j = Some c -> ck_name c = n.
Proof.
  unfold jar_get. intros H%head_Some_elem_of%list_elem_of_filter. naive_solver.
Qed.

(** A jar entry a script can read back: a non-empty name free of separators
    and white space, a value free of semicolons. *)
Definition name_ok (s : string) : bool :=
  negb (bool_decide (s = "")) && sforall (fun d => negb (is_ws d)) s
  && without ";" s && without "=" s.

Definition cookie_wf (c : Cookie) : bool :=
  name_ok (ck_name c) && without ";" (ck_value c).

Definition jar_wf (j : list Cookie) : Prop :=
  Forall (fun c => cookie_wf c = true) j /\ NoDup (map ck_name j).

Lemma cookie_text_without c : cookie_wf c = true -> without ";" (cookie_text c) = true.
Proof.
  unfold cookie_wf, name_ok, cookie_text. intros H. bool_hyps.
  rewrite !without_app. by repeat match goal with E : _ = true |- _ => rewrite E end.
Qed.

Lemma jar_put_In c d j : d ∈ jar_put c j -> d = c \/ d ∈ j.
Proof.
  induction j as [|e j IH]; simpl.
  - rewrite list_elem_of_singleton. auto.
  - case_bool_decide; rewrite !elem_of_cons; naive_solver.
Qed.

Lemma jar_put_names c j :
  map ck_name (jar_put c j) =
  if decide (ck_name c ∈ map ck_name j) then map ck_name j else map ck_name j ++ [ck_name c].
Proof.
  induction j as [|d j IH]; cbn [map jar_put app]; [by rewrite decide_False by set_solver|].
  case_bool_decide as E; cbn [map app].
  - rewrite E. by rewrite decide_True by set_solver.
  - rewrite IH. destruct (decide (ck_name c ∈ map ck_name j)).
    + by rewrite decide_True by set_solver.
    + by rewrite decide_False by set_solver.
Qed.

Lemma jar_put_wf c j : cookie_wf c = true -> jar_wf j -> jar_wf (jar_put c j).
Proof.
  intros Hc [Hw Hn]. split.
  - apply Forall_forall. intros d [->|Hd]%jar_put_In; [done|].
    rewrite Forall_forall in Hw. by apply Hw.
  - rewrite jar_put_names. case_decide as E; [done|].
    apply NoDup_app. split; [done|]. split; [set_solver|]. apply NoDup_singleton.
Qed.

Lemma jar_remove_wf n j : jar_wf j -> jar_wf (jar_remove n j).
Proof.
  intros [Hw Hn]. unfold jar_remove. split.
  - apply Forall_forall. intros d [_ Hd]%list_elem_of_filter.
    rewrite Forall_forall in Hw. by apply Hw.
  - clear Hw. induction j as [|d j IH]; simpl in *; [done|].
    apply NoDup_cons in Hn as [Hd Hn]. rewrite filter_cons. case_decide; [|by apply IH].
    simpl. apply NoDup_cons. split; [|by apply IH].
    intros (e & He & [_ Hin]%list_elem_of_filter)%list_elem_of_fmap. apply Hd, list_elem_of_fmap. eauto.
Qed.

#[export] Hint Resolve jar_put_wf jar_remove_wf : pc.

(** With unique names, the readable cookie of a name is the jar's, if it is
    live and visible to scripts. *)
Lemma head_filter_visible n now j :
  jar_wf j ->
  head (filter (fun c => ck_name c = n) (visible now j)) =
  match jar_get n j with
  | Some c => if live now c && negb (ck_httponly c) then Some c else None
  | None => None
  end.
Proof.
  intros [_ Hn]. unfold jar_get, visible.
  induction j as [|d j IH]; simpl in *; [done|].
  apply NoDup_cons in Hn as [Hd Hn]. specialize (IH Hn).
  assert (ck_name d = n -> filter (fun c => ck_name c = n) j = []) as Hnone.
  { intros <-. clear -Hd. induction j as [|e j IH]; [done|]. rewrite filter_cons.
    rewrite decide_False by (simpl in Hd; set_solver). apply IH. simpl in Hd. set_solver. }
  rewrite !filter_cons.
  destruct (decide (ck_name d = n)) as [E|E].
  - rewrite (Hnone E) in IH. simpl in IH |- *.
    destruct (decide (live now d = true /\ ck_httponly d = false)) as [[-> ->]|H].
    + rewrite filter_cons. by rewrite decide_True.
    + destruct (live now d), (ck_httponly d); naive_solver.
  - destruct (decide (live now d = true /\ ck_httponly d = false)); [|exact IH].
    rewrite filter_cons. by rewrite decide_False.
Qed.

(** ** Lemmas on the monad *)

Lemma attempt_spec m w : attempt m w = (Ok (), (m w).2).
Proof. unfold attempt, try_catch. by destruct (m w) as [[[]|e] w']. Qed.

Lemma bind_attempt {A} m (k : unit -> M A) w : bind (attempt m) k w = k () ((m w).2).
Proof. unfold bind. by rewrite attempt_spec. Qed.

Lemma bind_get_world {A} (k : World -> M A) w : bind get_world k w = k w w.
Proof. done. Qed.

Lemma bind_ok {A B} (m : M A) (k : A -> M B) w a w' :
  m w = (Ok a, w') -> bind m k w = k a w'.
Proof. unfold bind. by intros ->. Qed.

Lemma bind_err {A B} (m : M A) (k : A -> M B) w e w' :
  m w = (Err e, w') -> bind m k w = (Err e, w').
Proof. unfold bind. by intros ->. Qed.

#[export] Hint Rewrite @bind_attempt @bind_get_world : pc_rw.

(** The cookies a name stands for may be rewritten by a script of the page. *)
Definition script_may_write (w : World) (k : string) : bool :=
  match jar_get k (w_jar w) with
  | Some c => negb (ck_httponly c) && (w_https w || negb (ck_secure c))
  | None => true
  end.

(** ** Relations every run of a computation respects *)

Definition evolves {A} (R : World -> World -> Prop) (m : M A) : Prop :=
  forall w, R w (m w).2.

Section evolves.
Context (R : World -> World -> Prop) `{!PreOrder R}.

Lemma evolves_ret {A} (a : A) : evolves R (ret a).
Proof. intros w. simpl. reflexivity. Qed.

Lemma evolves_throw {A} e : evolves R (throw (A := A) e).
Proof. intros w. simpl. reflexivity. Qed.

Lemma evolves_get_world : evolves R get_world.
Proof. intros w. simpl. reflexivity. Qed.

Lemma evolves_storage_get sel k : evolves R (storage_get sel k).
Proof. intros w. unfold storage_get. destruct (_ && _); simpl; reflexivity. Qed.

Lemma evolves_get_cookie : evolves R get_document_cookie.
Proof. intros w. simpl. reflexivity. Qed.

Lemma evolves_bind {A B} (m : M A) (k : A -> M B) :
  evolves R m -> (forall a, evolves R (k a)) -> evolves R (bind m k).
Proof.
  intros Hm Hk w. unfold bind. specialize (Hm w). destruct (m w) as [[a|e] w']; simpl in *.
  - etransitivity; [exact Hm | apply Hk].
  - exact Hm.
Qed.

Lemma evolves_try {A} (m : M A) h :
  evolves R m -> (forall e, evolves R (h e)) -> evolves R (try_catch m h).
Proof.
  intros Hm Hh w. unfold try_catch. specialize (Hm w).
  destruct (m w) as [[a|e] w']; simpl in *; [exact Hm|].
  etransitivity; [exact Hm | apply Hh].
Qed.

Lemma evolves_attempt m : evolves R m -> evolves R (attempt m).
Proof. intros Hm. apply evolves_try; [exact Hm|]. intros _. apply evolves_ret. Qed.

Lemma evolves_if {A} (b : bool) (m1 m2 : M A) :
  evolves R m1 -> evolves R m2 -> evolves R (if b then m1 else m2).
Proof. by destruct b. Qed.
End evolves.

(** [evolve] decomposes a computation into its primitive operations. *)
Ltac evolve :=
  repeat first
    [ progress intros
    | progress cbv zeta
    | match goal with |- PreOrder _ => solve [apply _] end
    | solve [eauto 2 with pc]
    | apply evolves_bind | apply evolves_try | apply evolves_attempt
    | apply evolves_if | apply evolves_ret | apply evolves_throw
    | apply evolves_get_world | apply evolves_get_cookie | apply evolves_storage_get
    | match goal with |- evolves _ (match ?x with _ => _ end) => destruct x end ].
