(* ===== verification/AuthStore.v ===== *)
(** * Credential storage: web/src/lib/auth.ts

    Every function of the module, in the monad of [Browser].  Pasted API keys
    live in [sessionStorage]; email and SSO logins leave no script-readable
    credential; the cookie [portcullis_token] is a presence marker and
    [portcullis_csrf] the double-submit token. *)

From S2P Require Import Prelude JsString JsUri Json Browser.

Definition SESSION_KEY : string := "portcullis_token".
Definition LEGACY_KEY : string := "portcullis_token".
Definition COOKIE_KEY : string := "portcullis_token".
Definition CSRF_COOKIE_KEY : string := "portcullis_csrf".
Definition COOKIE_MAX_AGE : Z := 60 * 60 * 12.
Definition COOKIE_MAX_AGE_REMEMBER : Z := 60 * 60 * 24 * 7.

(** [b.toString(16)] for a byte. *)
Definition hex_lower (n : N) : ascii :=
  ascii_of_N (if (n <? 10)%N then 48 + n else 87 + n).

Definition byte_toString16 (b : N) : string :=
  if (b <? 16)%N then String (hex_lower b) ""
  else String (hex_lower (b / 16)) (String (hex_lower (b mod 16)) "").

Definition csrf_of_bytes (l : list N) : string :=
  join "" (map (fun b => padStart 2 "0" (byte_toString16 b)) l).

Definition generateCsrfToken : M string :=
  array <-- getRandomValues;
  ret (csrf_of_bytes array).

Definition isSecureContext (w : World) : bool :=
  if negb (w_window w) then false else w_https w.

Definition guard_cookie_text (secure remember : bool) : string :=
  COOKIE_KEY +:+ "=1; path=/; max-age=" +:+
  pretty (if remember then COOKIE_MAX_AGE_REMEMBER else COOKIE_MAX_AGE) +:+
  "; SameSite=Lax" +:+ (if secure then "; Secure" else "").

Definition setGuardCookie (remember : bool) : M unit :=
  w <-- get_world;
  if negb (w_window w) then ret () else
  set_document_cookie (guard_cookie_text (isSecureContext w) remember).

(** The leftmost match of [; name=] in a cookie string: what follows it. *)
Fixpoint find_after (pat s : string) : option string :=
  if startsWith s pat then Some (sdrop (String.length pat) s)
  else match s with "" => None | String _ r => find_after pat r end.

(** [s.match] with the pattern "start of text or [; ], the key, [=], then a
    captured run of characters other than a semicolon": the captured group. *)
Definition cookie_match (key s : string) : option string :=
  if startsWith s (key +:+ "=")
  then Some (take_until ";" (sdrop (String.length (key +:+ "=")) s))
  else take_until ";" <$> find_after ("; " +:+ key +:+ "=") s.

Definition js_decodeURIComponent (s : string) : M string :=
  match decodeURIComponent s with
  | Decoded t => ret t
  | URIError => throw "URIError"
  | Wide => throw "character above U+00FF"
  end.

Definition getCsrfToken : M (option string) :=
  w <-- get_world;
  if negb (w_window w) then ret None else
  cookie <-- get_document_cookie;
  match cookie_match CSRF_COOKIE_KEY cookie with
  | Some m => t <-- js_decodeURIComponent m; ret (Some t)
  | None => ret None
  end.

Definition csrf_cookie_text (secure : bool) (token : string) : string :=
  CSRF_COOKIE_KEY +:+ "=" +:+ encodeURIComponent token +:+ "; path=/; " +:+
  "max-age=" +:+ pretty COOKIE_MAX_AGE +:+ "; SameSite=Strict" +:+
  (if secure then "; Secure" else "").

Definition setCsrfCookie : M unit :=
  w <-- get_world;
  if negb (w_window w) then ret () else
  existing <-- getCsrfToken;
  if truthy existing then ret () else
  token <-- generateCsrfToken;
  set_document_cookie (csrf_cookie_text (isSecureContext w) token).

Definition ensureCsrfCookie : M unit := setCsrfCookie.

Definition clear_text (key samesite : string) (secure : bool) : string :=
  key +:+ "=; path=/; max-age=0; SameSite=" +:+ samesite +:+
  (if secure then "; Secure" else "").

Definition logout_url (w : World) : string :=
  api_base w +:+ "/auth/sso/" +:+
  match env_sso_slug (w_env w) with Some s => s | None => "google" end +:+ "/logout".

Definition clearGuardCookie : M unit :=
  w <-- get_world;
  if negb (w_window w) then ret () else
  set_document_cookie (clear_text COOKIE_KEY "Lax" (isSecureContext w)) ;;;
  set_document_cookie (clear_text CSRF_COOKIE_KEY "Strict" (isSecureContext w)) ;;;
  attempt (fetch "GET" (logout_url w) [] None ;;; ret ()).

Definition migrateLegacyToken : M (option string) :=
  try_catch
    (legacy <-- localStorage_getItem LEGACY_KEY;
     match legacy with
     | Some l =>
         if negb (bool_decide (l = "")) then
           localStorage_removeItem LEGACY_KEY ;;;
           if negb (bool_decide (trim l = "")) then
             attempt (sessionStorage_setItem SESSION_KEY l) ;;;
             ret (Some l)
           else ret None
         else ret None
     | None => ret None
     end)
    (fun _ => ret None).

Definition getToken : M (option string) :=
  w <-- get_world;
  if negb (w_window w) then ret None else
  v <-- try_catch (sessionStorage_getItem SESSION_KEY) (fun _ => ret None);
  if truthy v then ret v else migrateLegacyToken.

Definition setToken (token : string) (remember : bool) : M unit :=
  attempt (sessionStorage_setItem SESSION_KEY token) ;;;
  attempt (localStorage_removeItem LEGACY_KEY) ;;;
  setGuardCookie remember ;;;
  setCsrfCookie.

Definition markCookieSession (remember : bool) : M unit :=
  attempt (sessionStorage_removeItem SESSION_KEY) ;;;
  attempt (localStorage_removeItem LEGACY_KEY) ;;;
  setGuardCookie remember ;;;
  setCsrfCookie.

Definition clearToken : M unit :=
  attempt (sessionStorage_removeItem SESSION_KEY) ;;;
  attempt (localStorage_removeItem LEGACY_KEY) ;;;
  clearGuardCookie.

Definition has_guard (cookie : string) : bool :=
  existsb (fun c => startsWith (trim c) (COOKIE_KEY +:+ "=")) (split ";" cookie).

Definition isAuthenticated : M bool :=
  w <-- get_world;
  if negb (w_window w) then ret false else
  t <-- getToken;
  if truthy t then ret true else
  cookie <-- get_document_cookie;
  ret (has_guard cookie).

Definition bearer (token : option string) : list (string * string) :=
  match token with
  | Some t => if bool_decide (t = "") then [] else [("Authorization", "Bearer " +:+ t)]
  | None => []
  end.

Definition verifySession : M bool :=
  try_catch
    (w <-- get_world;
     token <-- getToken;
     res <-- fetch "GET" (api_base w +:+ "/auth/me")
               (("Accept", "application/json") :: bearer token) None;
     ret (res_ok res))
    (fun _ => ret false).

(** ** Reading cookies back *)

Lemma find_after_skip p s t :
  without ";" s = true ->
  find_after (String ";" p) (s +:+ t) = find_after (String ";" p) t.
Proof.
  induction s as [|c s IH]; [done|]. rewrite without_cons, app_cons. intros H. bool_hyps.
  cbn [find_after]. unfold startsWith. cbn [String.prefix].
  destruct (ascii_dec ";" c); [congruence|]. by apply IH.
Qed.

Lemma find_after_sep k t :
  find_after ("; " +:+ k) ("; " +:+ t) =
  if startsWith t k then Some (sdrop (String.length k) t)
  else find_after ("; " +:+ k) t.
Proof.
  change ("; " +:+ ?x) with (String ";" (String " " x)).
  cbn [find_after]. unfold startsWith. by destruct (String.prefix k t) eqn:E;
    cbn [String.prefix]; rewrite ?E.
Qed.

(** The cookie regular expression finds the first cookie of that name. *)
Lemma cookie_match_join key l :
  name_ok key = true -> Forall (fun c => cookie_wf c = true) l ->
  cookie_match key (join "; " (map cookie_text l)) =
  ck_value <$> head (filter (fun c => ck_name c = key) l).
Proof.
  intros Hk. unfold name_ok in Hk. bool_hyps. unfold cookie_match.
  induction 1 as [|c l Hc Hl IH].
  - simpl. destruct key; done.
  - pose proof (cookie_text_without c Hc) as Ht. unfold cookie_wf, name_ok in Hc. bool_hyps.
    rewrite filter_cons. cbn [map].
    set (rest := match l with [] => "" | _ => "; " +:+ join "; " (map cookie_text l) end).
    replace (join "; " (cookie_text c :: map cookie_text l)) with (cookie_text c +:+ rest)
      by (subst rest; destruct l; [simpl; by rewrite sapp_nil_r | done]).
    unfold cookie_text at 1 2. rewrite !sapp_assoc.
    change ("=" +:+ ?x) with (String "=" x).
    rewrite startsWith_key by done. case_bool_decide as E.
    + subst key. rewrite decide_True by done. simpl. f_equal.
      change (ck_name c +:+ String "=" (ck_value c +:+ rest))
        with (ck_name c +:+ ("=" +:+ (ck_value c +:+ rest))).
      rewrite <- sapp_assoc. change (String "=" "") with "=".
      rewrite sdrop_app. subst rest. destruct l.
      * by rewrite sapp_nil_r, take_until_all.
      * change ("; " +:+ ?x) with (String ";" (String " " x)). by apply take_until_app.
    + rewrite decide_False by done.
      change (ck_name c +:+ String "=" (ck_value c +:+ rest))
        with (ck_name c +:+ ("=" +:+ (ck_value c +:+ rest))).
      rewrite <- IH.
      replace (ck_name c +:+ "=" +:+ ck_value c +:+ rest) with (cookie_text c +:+ rest)
        by (unfold cookie_text; by rewrite !sapp_assoc).
      change ("; " +:+ key +:+ ?x) with (String ";" (" " +:+ key +:+ x)).
      rewrite find_after_skip by done. subst rest. destruct l as [|d l].
      * destruct key; done.
      * change (String ";" (" " +:+ key +:+ ?x)) with ("; " +:+ (key +:+ x)).
        rewrite find_after_sep. by destruct (startsWith _ _).
Qed.

(** The split-and-trim test of [isAuthenticated] finds the guard cookie. *)
Lemma has_guard_join l :
  Forall (fun c => cookie_wf c = true) l ->
  has_guard (join "; " (map cookie_text l)) =
  existsb (fun c => bool_decide (ck_name c = COOKIE_KEY)) l.
Proof.
  intros Hl.
  assert (forall c, cookie_wf c = true ->
            startsWith (trim (cookie_text c)) (COOKIE_KEY +:+ "=") =
            bool_decide (ck_name c = COOKIE_KEY)) as Hone.
  { intros c Hc. unfold cookie_wf, name_ok in Hc. bool_hyps. unfold trim, cookie_text.
    destruct (ck_name c) as [|a n] eqn:En; [done|].
    rewrite app_cons. cbn [trimStart].
    assert (is_ws a = false) as Ha by (simpl in *; bool_hyps; done).
    rewrite Ha. change (String a (n +:+ "=" +:+ ck_value c))
      with (String a n +:+ String "=" (ck_value c)).
    rewrite trimEnd_app_nws by done. by rewrite startsWith_key. }
  unfold has_guard. destruct l as [|c l]; [done|].
  cbn [map]. rewrite split_join_semi.
  - cbn [existsb]. inversion Hl; subst. rewrite Hone by done. f_equal.
    clear -Hone H2. induction H2 as [|d l Hd Hl IH]; [done|]. cbn [map existsb].
    rewrite <- IH. f_equal. by rewrite <- Hone.
  - change (cookie_text c :: map cookie_text l) with (map cookie_text (c :: l)).
    apply Forall_map. eapply Forall_impl; [exact Hl|]. intros d. apply cookie_text_without.
Qed.

Lemma visible_wf now j : jar_wf j -> Forall (fun c => cookie_wf c = true) (visible now j).
Proof.
  intros [H _]. apply Forall_forall. intros d [_ Hd]%list_elem_of_filter.
  rewrite Forall_forall in H. by apply H.
Qed.

Definition readable (now : Z) (k : string) (j : list Cookie) : option string :=
  match jar_get k j with
  | Some c => if live now c && negb (ck_httponly c) then Some (ck_value c) else None
  | None => None
  end.

Lemma cookie_match_jar now key j :
  name_ok key = true -> jar_wf j ->
  cookie_match key (document_cookie now j) = readable now key j.
Proof.
  intros Hk Hj. unfold document_cookie.
  rewrite cookie_match_join by auto using visible_wf.
  rewrite head_filter_visible by done. unfold readable.
  destruct (jar_get key j); [|done]. by destruct (_ && _).
Qed.

Lemma existsb_head_filter k l :
  existsb (fun c => bool_decide (ck_name c = k)) l =
  match head (filter (fun c => ck_name c = k) l) with Some _ => true | None => false end.
Proof.
  induction l as [|d l IH]; [done|]. cbn [existsb]. rewrite filter_cons, IH.
  case_bool_decide; [by rewrite decide_True | by rewrite decide_False].
Qed.

Lemma has_guard_jar now j :
  jar_wf j ->
  has_guard (document_cookie now j) =
  match readable now COOKIE_KEY j with Some _ => true | None => false end.
Proof.
  intros Hj. unfold document_cookie. rewrite has_guard_join by by apply visible_wf.
  rewrite existsb_head_filter, head_filter_visible by done. unfold readable.
  destruct (jar_get COOKIE_KEY j); [|done]. by destruct (_ && _).
Qed.

(** ** What each cookie assignment parses to *)

Lemma parse_guard secure remember :
  parse_set_cookie (guard_cookie_text secure remember) =
  ((COOKIE_KEY, "1"),
   mkAttrs (Some (if remember then COOKIE_MAX_AGE_REMEMBER else COOKIE_MAX_AGE))
     secure false "Lax").
Proof. by destruct secure, remember; vm_compute. Qed.

Lemma parse_clear_guard secure :
  parse_set_cookie (clear_text COOKIE_KEY "Lax" secure) =
  ((COOKIE_KEY, ""), mkAttrs (Some 0%Z) secure false "Lax").
Proof. by destruct secure; vm_compute. Qed.

Lemma parse_clear_csrf secure :
  parse_set_cookie (clear_text CSRF_COOKIE_KEY "Strict" secure) =
  ((CSRF_COOKIE_KEY, ""), mkAttrs (Some 0%Z) secure false "Strict").
Proof. by destruct secure; vm_compute. Qed.

Lemma encode_no_ws s : sforall (fun c => negb (is_ws c)) (encodeURIComponent s) = true.
Proof.
  eapply sforall_impl; [|apply encode_safe]. intros c.
  pose proof (ascii_check (fun c => implb (uri_unreserved c || bool_decide (c = "%"%char))
                (negb (is_ws c))) eq_refl c) as H. cbv beta in H.
  intros E. by rewrite E in H.
Qed.

Lemma parse_csrf secure tok :
  parse_set_cookie (csrf_cookie_text secure tok) =
  ((CSRF_COOKIE_KEY, encodeURIComponent tok),
   mkAttrs (Some COOKIE_MAX_AGE) secure false "Strict").
Proof.
  unfold parse_set_cookie, csrf_cookie_text.
  set (e := encodeURIComponent tok).
  set (tail := String " " ("path=/; " +:+ "max-age=" +:+ pretty COOKIE_MAX_AGE +:+
    "; SameSite=Strict" +:+ (if secure then "; Secure" else ""))).
  replace (CSRF_COOKIE_KEY +:+ "=" +:+ e +:+ "; path=/; " +:+ "max-age=" +:+
    pretty COOKIE_MAX_AGE +:+ "; SameSite=Strict" +:+ (if secure then "; Secure" else ""))
    with ((CSRF_COOKIE_KEY +:+ "=" +:+ e) +:+ String ";" tail) by (by rewrite !sapp_assoc).
  rewrite split_app.
  2: { rewrite !without_app. subst e. by rewrite encode_without. }
  replace (fold_left add_attr (split ";" tail) no_attrs)
    with (mkAttrs (Some COOKIE_MAX_AGE) secure false "Strict")
    by (subst tail; by destruct secure; vm_compute).
  f_equal. unfold name_value. change ("=" +:+ e) with (String "=" e).
  rewrite drop_after_app, take_until_app by done. subst e.
  by rewrite (no_ws_trim (encodeURIComponent tok)) by apply encode_no_ws.
Qed.

(** ** Evolution of the stored state *)

(** The operations of the module, as the rest of the console calls them. *)
Inductive auth_op :=
  | OpGetToken | OpGetCsrf | OpSetToken (t : string) (remember : bool)
  | OpMarkCookie (remember : bool) | OpClear | OpEnsureCsrf
  | OpIsAuthenticated | OpVerify.

Definition run_op (op : auth_op) (w : World) : World :=
  match op with
  | OpGetToken => (getToken w).2
  | OpGetCsrf => (getCsrfToken w).2
  | OpSetToken t r => (setToken t r w).2
  | OpMarkCookie r => (markCookieSession r w).2
  | OpClear => (clearToken w).2
  | OpEnsureCsrf => (ensureCsrfCookie w).2
  | OpIsAuthenticated => (isAuthenticated w).2
  | OpVerify => (verifySession w).2
  end.

Definition run_ops (ops : list auth_op) (w : World) : World :=
  fold_left (fun w op => run_op op w) ops w.

Section ops_evolve.
Context (R : World -> World -> Prop) `{!PreOrder R}.
Hypothesis R_session_set : forall k v, evolves R (sessionStorage_setItem k v).
Hypothesis R_session_remove : forall k, evolves R (sessionStorage_removeItem k).
Hypothesis R_local_remove : evolves R (localStorage_removeItem LEGACY_KEY).
Hypothesis R_guard : forall s r, evolves R (set_document_cookie (guard_cookie_text s r)).
Hypothesis R_csrf : forall s t, evolves R (set_document_cookie (csrf_cookie_text s t)).
Hypothesis R_clear_guard : forall s, evolves R (set_document_cookie (clear_text COOKIE_KEY "Lax" s)).
Hypothesis R_clear_csrf : forall s, evolves R (set_document_cookie (clear_text CSRF_COOKIE_KEY "Strict" s)).
Hypothesis R_fetch : forall m u h b, evolves R (fetch m u h b).
Hypothesis R_random : evolves R getRandomValues.

#[local] Hint Resolve R_session_set R_session_remove R_local_remove R_guard R_csrf
  R_clear_guard R_clear_csrf R_fetch R_random : pc.

Lemma getCsrfToken_evolves : evolves R getCsrfToken.
Proof. unfold getCsrfToken, js_decodeURIComponent. evolve. Qed.

Lemma getToken_evolves : evolves R getToken.
Proof.
  unfold getToken, migrateLegacyToken, localStorage_getItem, sessionStorage_getItem. evolve.
Qed.

#[local] Hint Resolve getCsrfToken_evolves getToken_evolves : pc.

Lemma setCsrfCookie_evolves : evolves R setCsrfCookie.
Proof. unfold setCsrfCookie, generateCsrfToken. evolve. Qed.

#[local] Hint Resolve setCsrfCookie_evolves : pc.

Lemma run_op_evolves op w : R w (run_op op w).
Proof.
  enough (forall w, R w (run_op op w)) as H by apply H. clear w.
  destruct op; simpl;
    unfold setToken, markCookieSession, clearToken, clearGuardCookie, setGuardCookie,
      ensureCsrfCookie, isAuthenticated, verifySession;
    match goal with |- forall w, R w (?m w).2 => change (evolves R m) end; evolve.
Qed.

Lemma run_ops_evolves ops w : R w (run_ops ops w).
Proof.
  revert w. induction ops as [|op ops IH]; intros w; simpl; [reflexivity|].
  etransitivity; [apply run_op_evolves | apply IH].
Qed.
End ops_evolve.

(** Local storage only ever loses the legacy key. *)
Definition local_shrinks (w w' : World) : Prop :=
  st_items (w_local w') ⊆ st_items (w_local w) /\
  forall k, k <> LEGACY_KEY -> st_items (w_local w') !! k = st_items (w_local w) !! k.

#[export] Instance local_shrinks_pre : PreOrder local_shrinks.
Proof.
  split.
  - intros w. by split.
  - intros a b c [H1 H2] [H3 H4]. split; [by transitivity (st_items (w_local b))|].
    intros k Hk. by rewrite H4, H2.
Qed.

(** The backend never sets the guard cookie itself (it sets only the HttpOnly
    [portcullis_auth]). *)
Definition net_leaves (k : string) (net : nat -> Request -> NetResult) : Prop :=
  forall n rq r, net n rq = NetResp r -> Forall (fun c => ck_name c <> k) (rs_set_cookies r).

Definition guard_marker (j : list Cookie) : Prop :=
  forall c, c ∈ j -> ck_name c = COOKIE_KEY -> ck_value c = "1".

Definition guard_evolves (w w' : World) : Prop :=
  w_net w' = w_net w /\
  (net_leaves COOKIE_KEY (w_net w) -> guard_marker (w_jar w) -> guard_marker (w_jar w')).

#[export] Instance guard_evolves_pre : PreOrder guard_evolves.
Proof.
  split.
  - intros w. by split.
  - intros a b c [H1 H2] [H3 H4]. split; [congruence|]. intros Hn Ha.
    apply H4; [by rewrite H1 | by apply H2].
Qed.

Lemma guard_marker_put c j :
  (ck_name c = COOKIE_KEY -> ck_value c = "1") -> guard_marker j -> guard_marker (jar_put c j).
Proof. intros Hc Hj d [->|Hd]%jar_put_In; auto. Qed.

Lemma guard_marker_remove n j : guard_marker j -> guard_marker (jar_remove n j).
Proof. intros Hj d [_ Hd]%list_elem_of_filter. by apply Hj. Qed.

Lemma script_set_cookie_cases https now s j :
  let '((n, v), a) := parse_set_cookie s in
  script_set_cookie https now s j = j \/
  script_set_cookie https now s j = jar_remove n j \/
  exists e, script_set_cookie https now s j =
            jar_put (mkCookie n v e (at_secure a) false (at_samesite a)) j.
Proof.
  unfold script_set_cookie. destruct (parse_set_cookie s) as [[n v] a].
  destruct (_ && _); [auto|]. destruct (at_httponly a || _); [auto|].
  destruct (_ && _); [auto|]. destruct (at_max_age a) as [m|]; [|eauto].
  destruct (m <=? 0)%Z; eauto.
Qed.

Lemma set_cookie_guard_evolves s :
  ((parse_set_cookie s).1.1 = COOKIE_KEY -> (parse_set_cookie s).1.2 = "1") ->
  evolves guard_evolves (set_document_cookie s).
Proof.
  intros Hs w. split; [done|]. intros _ Hw. simpl.
  pose proof (script_set_cookie_cases (w_https w) (w_now w) s (w_jar w)) as Hc.
  destruct (parse_set_cookie s) as [[n v] a]. simpl in Hs.
  destruct Hc as [->|[->|[e ->]]];
    [done | by apply guard_marker_remove | by apply guard_marker_put].
Qed.

(** Clearing writes the empty value but with [max-age=0]: nothing is stored. *)
Lemma clear_guard_evolves s :
  evolves guard_evolves (set_document_cookie (clear_text COOKIE_KEY "Lax" s)).
Proof.
  intros w. split; [done|]. intros _ Hw. simpl. unfold script_set_cookie.
  rewrite parse_clear_guard. simpl.
  destruct (match jar_get COOKIE_KEY (w_jar w) with Some c => ck_httponly c | None => false end);
    simpl; [done|]. destruct (_ && _); [done|]. by apply guard_marker_remove.
Qed.

Lemma fetch_guard_evolves m u h b : evolves guard_evolves (fetch m u h b).
Proof.
  intros w. unfold fetch. set (rq := mkRequest _ _ _ _ _).
  destruct (w_net w _ rq) as [|r] eqn:E; (split; [done|]); [done|].
  intros Hn Hw. simpl. specialize (Hn _ _ _ E).
  assert (guard_marker (fold_left (fun j n => jar_remove n j) (rs_drop_cookies r) (w_jar w))) as Hd.
  { revert Hw. generalize (w_jar w). induction (rs_drop_cookies r) as [|n l IH]; intros j Hj;
      simpl; [done|]. by apply IH, guard_marker_remove. }
  revert Hd. generalize (fold_left (fun j n => jar_remove n j) (rs_drop_cookies r) (w_jar w)).
  induction Hn as [|c l Hc Hl IH]; intros j Hj; simpl; [done|]. apply IH, guard_marker_put; done.
Qed.

Lemma storage_remove_local_shrinks :
  evolves local_shrinks (localStorage_removeItem LEGACY_KEY).
Proof.
  intros w. unfold localStorage_removeItem, storage_remove.
  destruct (_ && _); [|by split]. split; simpl; [apply delete_subseteq|].
  intros k Hk. by rewrite lookup_delete_ne.
Qed.


(** The guard cookie is a static marker: from a jar whose guard cookie
    reads [1], and with a backend that does not set it, every sequence of the
    module's functions leaves only guard cookies that read [1]. *)
Theorem guard_cookie_is_marker ops w :
  net_leaves COOKIE_KEY (w_net w) -> guard_marker (w_jar w) ->
  guard_marker (w_jar (run_ops ops w)).
Proof.
  enough (guard_evolves w (run_ops ops w)) as [_ H] by exact H.
  apply (run_ops_evolves guard_evolves).
  1-3: intros; intros w'; unfold sessionStorage_setItem, sessionStorage_removeItem,
    localStorage_removeItem, storage_set, storage_remove; repeat case_match; by split.
  - intros. apply set_cookie_guard_evolves. by rewrite parse_guard.
  - intros. apply set_cookie_guard_evolves. by rewrite parse_csrf.
  - apply clear_guard_evolves.
  - intros. apply set_cookie_guard_evolves. by rewrite parse_clear_csrf.
  - apply fetch_guard_evolves.
  - intros w'. by split.
Qed.

(** ** Functional behaviour *)

Lemma script_put w s n v m sec ss :
  parse_set_cookie s = ((n, v), mkAttrs (Some m) sec false ss) ->
  n <> "" -> (0 < m)%Z -> (sec = true -> w_https w = true) ->
  script_may_write w n = true ->
  script_set_cookie (w_https w) (w_now w) s (w_jar w) =
  jar_put (mkCookie n v (Some (w_now w + m)%Z) sec false ss) (w_jar w).
Proof.
  intros Hp Hn Hm Hs Hw. unfold script_set_cookie, script_may_write in *. rewrite Hp.
  rewrite bool_decide_false by done. simpl.
  replace (m <=? 0)%Z with false by lia.
  destruct (jar_get n (w_jar w)) as [c|]; bool_hyps.
  - destruct (ck_httponly c); [done|]. simpl.
    destruct (w_https w), (ck_secure c), sec; simpl in *; naive_solver.
  - destruct (w_https w), sec; simpl; naive_solver.
Qed.

Lemma script_clear w s n v sec ss :
  parse_set_cookie s = ((n, v), mkAttrs (Some 0%Z) sec false ss) ->
  n <> "" -> (sec = true -> w_https w = true) ->
  script_may_write w n = true ->
  script_set_cookie (w_https w) (w_now w) s (w_jar w) = jar_remove n (w_jar w).
Proof.
  intros Hp Hn Hs Hw. unfold script_set_cookie, script_may_write in *. rewrite Hp.
  rewrite bool_decide_false by done. simpl.
  destruct (jar_get n (w_jar w)) as [c|]; bool_hyps.
  - destruct (ck_httponly c); [done|]. simpl.
    destruct (w_https w), (ck_secure c), sec; simpl in *; naive_solver.
  - destruct (w_https w), sec; simpl; naive_solver.
Qed.

Lemma secure_https w : isSecureContext w = true -> w_https w = true.
Proof. unfold isSecureContext. by destruct (w_window w). Qed.

Definition guard_cookie (w : World) (remember : bool) : Cookie :=
  mkCookie COOKIE_KEY "1"
    (Some (w_now w + (if remember then COOKIE_MAX_AGE_REMEMBER else COOKIE_MAX_AGE))%Z)
    (isSecureContext w) false "Lax".

Lemma setGuardCookie_spec remember w :
  w_window w = true -> script_may_write w COOKIE_KEY = true ->
  setGuardCookie remember w = (Ok (), set_jar (jar_put (guard_cookie w remember) (w_jar w)) w).
Proof.
  intros Hw Hm. unfold setGuardCookie. rewrite bind_get_world, Hw. simpl.
  unfold set_document_cookie.
  rewrite (script_put w _ _ _ _ _ _ (parse_guard _ _)); try done.
  - by destruct remember.
  - apply secure_https.
Qed.

Lemma jar_get_readable_put now c j :
  readable now (ck_name c) (jar_put c j) =
  if live now c && negb (ck_httponly c) then Some (ck_value c) else None.
Proof. unfold readable. by rewrite jar_get_put, decide_True. Qed.

Lemma csrf_cookie_wf tok e s ss :
  cookie_wf (mkCookie CSRF_COOKIE_KEY (encodeURIComponent tok) e s false ss) = true.
Proof. unfold cookie_wf. simpl. by rewrite encode_without. Qed.

Lemma csrf_write_frame https now s tok j :
  let j' := script_set_cookie https now (csrf_cookie_text s tok) j in
  (jar_wf j -> jar_wf j') /\ forall k, k <> CSRF_COOKIE_KEY -> jar_get k j' = jar_get k j.
Proof.
  pose proof (script_set_cookie_cases https now (csrf_cookie_text s tok) j) as Hc.
  rewrite parse_csrf in Hc. simpl in *. destruct Hc as [->|[->|[e ->]]].
  - done.
  - split; [apply jar_remove_wf|]. intros k Hk. by rewrite jar_get_remove, decide_False.
  - split; [apply jar_put_wf, csrf_cookie_wf|]. intros k Hk. by rewrite jar_get_put, decide_False.
Qed.

(** What [setCsrfCookie] can change: the CSRF cookie and the random source. *)
Lemma setCsrfCookie_frame w :
  exists j n, (setCsrfCookie w).2 = set_jar j (set_draws n w) /\
    (jar_wf (w_jar w) -> jar_wf j) /\
    forall k, k <> CSRF_COOKIE_KEY -> jar_get k j = jar_get k (w_jar w).
Proof.
  assert (exists j n, w = set_jar j (set_draws n w) /\ (jar_wf (w_jar w) -> jar_wf j) /\
    forall k, k <> CSRF_COOKIE_KEY -> jar_get k j = jar_get k (w_jar w)) as Hid
    by (exists (w_jar w), (w_draws w); by destruct w).
  unfold setCsrfCookie. rewrite bind_get_world. destruct (w_window w) eqn:Hw; [|exact Hid].
  simpl. unfold getCsrfToken. unfold bind at 1. rewrite bind_get_world, Hw. simpl.
  unfold bind at 1, get_document_cookie. destruct (cookie_match _ _) as [m|].
  - unfold bind, js_decodeURIComponent. destruct (decodeURIComponent m); [|exact Hid..].
    simpl. destruct (negb _); [exact Hid|].
    eexists _, _. split; [reflexivity|]. apply csrf_write_frame.
  - eexists _, _. split; [reflexivity|]. apply csrf_write_frame.
Qed.

Lemma getToken_ok w : exists t w', getToken w = (Ok t, w').
Proof.
  unfold getToken, migrateLegacyToken, localStorage_getItem, localStorage_removeItem,
    sessionStorage_getItem, storage_get, storage_remove. rewrite bind_get_world.
  destruct (negb (w_window w)) eqn:Hw; [by eexists _, _|]. bool_hyps.
  unfold bind, try_catch, attempt, ret. rewrite Hw. simpl.
  destruct (st_ok (w_session w)); simpl; repeat (case_match; simplify_eq/=; try by eexists _, _).
Qed.

(** [setToken] and [markCookieSession] share their tail. *)
Definition cookie_tail (remember : bool) : M unit := setGuardCookie remember ;;; setCsrfCookie.

Lemma setToken_unfold t r w :
  setToken t r w =
  cookie_tail r ((localStorage_removeItem LEGACY_KEY
                    ((sessionStorage_setItem SESSION_KEY t w).2)).2).
Proof. unfold setToken. by rewrite !bind_attempt. Qed.

Lemma markCookieSession_unfold r w :
  markCookieSession r w =
  cookie_tail r ((localStorage_removeItem LEGACY_KEY
                    ((sessionStorage_removeItem SESSION_KEY w).2)).2).
Proof. unfold markCookieSession. by rewrite !bind_attempt. Qed.

(** The tail touches cookies and the random source only. *)
Lemma cookie_tail_frame r w :
  exists j n, (cookie_tail r w).2 = set_jar j (set_draws n w).
Proof.
  unfold cookie_tail, setGuardCookie. unfold bind at 1. rewrite bind_get_world.
  destruct (w_window w) eqn:Hw; simpl.
  - destruct (setCsrfCookie_frame (set_jar (script_set_cookie (w_https w) (w_now w)
      (guard_cookie_text (isSecureContext w) r) (w_jar w)) w)) as (j & n & -> & _).
    by exists j, n.
  - destruct (setCsrfCookie_frame w) as (j & n & -> & _). by exists j, n.
Qed.

Lemma cookie_tail_guard r w :
  w_window w = true -> script_may_write w COOKIE_KEY = true -> jar_wf (w_jar w) ->
  exists j n, (cookie_tail r w).2 = set_jar j (set_draws n w) /\ jar_wf j /\
    jar_get COOKIE_KEY j = Some (guard_cookie w r).
Proof.
  intros Hw Hm Hj. unfold cookie_tail.
  rewrite (bind_ok _ _ _ _ _ (setGuardCookie_spec r w Hw Hm)).
  destruct (setCsrfCookie_frame (set_jar (jar_put (guard_cookie w r) (w_jar w)) w))
    as (j & n & -> & Hwf & Hget).
  exists j, n. split; [done|]. split; [by apply Hwf, jar_put_wf|].
  rewrite Hget by done. simpl. by rewrite jar_get_put, decide_True.
Qed.

Lemma getToken_session t w :
  w_window w = true -> st_ok (w_session w) = true -> t <> "" ->
  st_items (w_session w) !! SESSION_KEY = Some t ->
  getToken w = (Ok (Some t), w).
Proof.
  intros Hw Hs Ht Hi. unfold getToken. rewrite bind_get_world, Hw. simpl.
  unfold bind, try_catch, sessionStorage_getItem, storage_get. rewrite Hw, Hs, Hi. simpl.
  by rewrite bool_decide_false.
Qed.

Lemma getToken_none w :
  w_window w = true -> st_items (w_session w) !! SESSION_KEY = None ->
  st_items (w_local w) !! LEGACY_KEY = None -> getToken w = (Ok None, w).
Proof.
  intros Hw Hs Hl. unfold getToken. rewrite bind_get_world, Hw. simpl.
  unfold bind, try_catch, sessionStorage_getItem, migrateLegacyToken, localStorage_getItem,
    storage_get, try_catch, bind.
  rewrite Hw, Hs. destruct (st_ok (w_session w)); simpl; rewrite Hw, Hl;
    by destruct (st_ok (w_local w)).
Qed.

Lemma isAuthenticated_spec w t w' :
  w_window w = true -> getToken w = (Ok t, w') -> jar_wf (w_jar w') ->
  isAuthenticated w =
  (Ok (truthy t || match readable (w_now w') COOKIE_KEY (w_jar w') with
                   | Some _ => true | None => false end), w').
Proof.
  intros Hw Ht Hj. unfold isAuthenticated. rewrite bind_get_world, Hw. simpl.
  rewrite (bind_ok _ _ _ _ _ Ht). destruct (truthy t); [done|]. simpl.
  unfold bind, get_document_cookie, ret. by rewrite has_guard_jar.
Qed.

(** A page in a browser whose storages work. *)
Definition working (w : World) : bool :=
  w_window w && st_ok (w_session w) && st_quota (w_session w) && st_ok (w_local w).

Lemma set_session_eval k t w :
  working w = true ->
  (sessionStorage_setItem k t w).2 =
  set_session (mkStorage true true (<[k := t]> (st_items (w_session w)))) w.
Proof.
  unfold working, sessionStorage_setItem, storage_set. intros H. bool_hyps.
  by repeat match goal with E : _ = true |- _ => rewrite E end.
Qed.

Lemma remove_session_eval k w :
  working w = true ->
  (sessionStorage_removeItem k w).2 =
  set_session (mkStorage true true (delete k (st_items (w_session w)))) w.
Proof.
  unfold working, sessionStorage_removeItem, storage_remove. intros H. bool_hyps.
  by repeat match goal with E : _ = true |- _ => rewrite E end.
Qed.

Lemma remove_local_eval k w :
  w_window w = true -> st_ok (w_local w) = true ->
  (localStorage_removeItem k w).2 =
  set_local (mkStorage true (st_quota (w_local w)) (delete k (st_items (w_local w)))) w.
Proof. intros Hw Hl. unfold localStorage_removeItem, storage_remove. by rewrite Hw, Hl. Qed.

Lemma setToken_getToken t remember w :
  working w = true -> t <> "" ->
  let w' := (setToken t remember w).2 in
  getToken w' = (Ok (Some t), w') /\ st_items (w_local w') !! LEGACY_KEY = None.
Proof.
  intros Hw Ht. cbv zeta. rewrite setToken_unfold, set_session_eval by done.
  pose proof Hw as Hw'. unfold working in Hw'. bool_hyps.
  rewrite remove_local_eval by done.
  destruct (cookie_tail_frame remember (set_local (mkStorage true (st_quota (w_local w))
    (delete LEGACY_KEY (st_items (w_local w)))) (set_session (mkStorage true true
    (<[SESSION_KEY:=t]> (st_items (w_session w)))) w))) as (j & n & E). simpl in E |- *.
  rewrite E. split.
  - apply getToken_session; try done. simpl. apply lookup_insert_eq.
  - simpl. apply lookup_delete_eq.
Qed.

Lemma setToken_sent t remember w : w_sent (setToken t remember w).2 = w_sent w.
Proof.
  rewrite setToken_unfold. match goal with |- context [cookie_tail _ ?x] => set (w1 := x) end.
  destruct (cookie_tail_frame remember w1) as (j & n & ->). subst w1. simpl.
  unfold localStorage_removeItem, sessionStorage_setItem, storage_remove, storage_set.
  repeat case_match; done.
Qed.


(** A computation that neither reads nor writes sessionStorage. *)
Definition blind {A} (m : M A) : Prop :=
  forall s w, m (set_session s w) = ((m w).1, set_session s (m w).2).

Lemma blind_ret {A} (a : A) : blind (ret a).
Proof. done. Qed.

Lemma blind_throw {A} e : blind (throw (A := A) e).
Proof. done. Qed.

Lemma blind_if {A} (b : bool) (m1 m2 : M A) : blind m1 -> blind m2 -> blind (if b then m1 else m2).
Proof. by destruct b. Qed.

Lemma blind_bind {A B} (m : M A) (k : A -> M B) :
  blind m -> (forall a, blind (k a)) -> blind (bind m k).
Proof.
  intros Hm Hk s w. unfold bind. rewrite Hm. destruct (m w) as [[a|e] w']; simpl; [apply Hk|done].
Qed.

Lemma blind_world {A} (k : World -> M A) :
  (forall s w, k (set_session s w) = k w) -> (forall w, blind (k w)) -> blind (bind get_world k).
Proof. intros Hk Hb s w. rewrite !bind_get_world, Hk. apply Hb. Qed.

Lemma blind_get_cookie : blind get_document_cookie.
Proof. done. Qed.

Lemma blind_set_cookie s : blind (set_document_cookie s).
Proof. done. Qed.

Lemma blind_random : blind getRandomValues.
Proof. done. Qed.

#[local] Hint Resolve blind_ret blind_throw blind_if blind_bind blind_get_cookie
  blind_set_cookie blind_random : pc.

Lemma blind_getCsrfToken : blind getCsrfToken.
Proof.
  apply blind_world; [done|]. intros w. apply blind_if; [done|]. apply blind_bind; [done|].
  intros c. unfold js_decodeURIComponent. destruct (cookie_match _ _) as [m|]; [|done].
  apply blind_bind; [|done]. by destruct (decodeURIComponent m).
Qed.

Lemma blind_cookie_tail r : blind (cookie_tail r).
Proof.
  unfold cookie_tail. apply blind_bind.
  - apply blind_world; [done|]. eauto with pc.
  - intros _. apply blind_world; [done|]. intros w. apply blind_if; [done|].
    apply blind_bind; [apply blind_getCsrfToken|]. unfold generateCsrfToken. eauto 8 with pc.
Qed.


Lemma guard_cookie_live w r : live (w_now w) (guard_cookie w r) = true.
Proof. unfold live. simpl. unfold COOKIE_MAX_AGE, COOKIE_MAX_AGE_REMEMBER. destruct r; lia. Qed.

(** A cookie-only login leaves no script-readable credential and still
    counts as signed in: after [markCookieSession] neither storage holds a key
    and [isAuthenticated] answers true. *)
Theorem cookie_session_without_credential remember w :
  working w = true -> jar_wf (w_jar w) -> script_may_write w COOKIE_KEY = true ->
  let w' := (markCookieSession remember w).2 in
  st_items (w_session w') !! SESSION_KEY = None /\
  st_items (w_local w') !! LEGACY_KEY = None /\
  isAuthenticated w' = (Ok true, w').
Proof.
  intros Hw Hj Hm. cbv zeta. rewrite markCookieSession_unfold, remove_session_eval by done.
  unfold working in Hw. bool_hyps. rewrite remove_local_eval by done.
  set (w1 := set_local _ _).
  destruct (cookie_tail_guard remember w1) as (j & n & -> & Hwf & Hg); try done.
  assert (st_items (w_session w1) !! SESSION_KEY = None) as Hs by apply lookup_delete_eq.
  assert (st_items (w_local w1) !! LEGACY_KEY = None) as Hl by apply lookup_delete_eq.
  split; [done|]. split; [done|].
  rewrite (isAuthenticated_spec _ None (set_jar j (set_draws n w1))); try done.
  - f_equal. f_equal. change (w_jar (set_jar j (set_draws n w1))) with j.
    unfold readable. rewrite Hg. simpl ck_httponly.
    change (w_now (set_jar j (set_draws n w1))) with (w_now w1).
    by rewrite guard_cookie_live.
  - by apply getToken_none.
Qed.

(** Cookies the backend stores are well formed and never the guard cookie. *)
Definition net_sane (net : nat -> Request -> NetResult) : Prop :=
  forall n rq r, net n rq = NetResp r ->
    Forall (fun c => cookie_wf c = true /\ ck_name c <> COOKIE_KEY) (rs_set_cookies r).

Lemma fetch_no_guard m u h b w :
  net_sane (w_net w) -> jar_wf (w_jar w) -> jar_get COOKIE_KEY (w_jar w) = None ->
  exists j l, (fetch m u h b w).2 = set_jar j (set_sent l w) /\ jar_wf j /\
    jar_get COOKIE_KEY j = None.
Proof.
  intros Hn Hj Hg. unfold fetch. set (rq := mkRequest _ _ _ _ _).
  destruct (w_net w _ rq) as [|r] eqn:E.
  - exists (w_jar w). eexists. by split; [reflexivity|].
  - eexists _, _. split; [reflexivity|]. simpl. specialize (Hn _ _ _ E).
    assert (forall l j, jar_wf j -> jar_get COOKIE_KEY j = None ->
      jar_wf (fold_left (fun j n => jar_remove n j) l j) /\
      jar_get COOKIE_KEY (fold_left (fun j n => jar_remove n j) l j) = None) as Hrem.
    { induction l as [|x l IH]; intros j0 H1 H2; [done|]. apply IH; [by apply jar_remove_wf|].
      rewrite jar_get_remove. by case_decide. }
    destruct (Hrem (rs_drop_cookies r) (w_jar w) Hj Hg) as [H1 H2].
    revert H1 H2. generalize (fold_left (fun j n => jar_remove n j) (rs_drop_cookies r) (w_jar w)).
    induction Hn as [|c l [Hc Hk] Hl IH]; intros j1 H1 H2; [done|]. apply IH.
    + by apply jar_put_wf.
    + by rewrite jar_get_put, decide_False.
Qed.

(** Clearing another cookie keeps the jar well formed and the guard absent. *)
Lemma clear_csrf_keeps https now s j :
  jar_wf j -> jar_get COOKIE_KEY j = None ->
  let j' := script_set_cookie https now (clear_text CSRF_COOKIE_KEY "Strict" s) j in
  jar_wf j' /\ jar_get COOKIE_KEY j' = None.
Proof.
  intros Hj Hg. unfold script_set_cookie. rewrite parse_clear_csrf. simpl.
  repeat case_match; try done; (split; [by apply jar_remove_wf|]);
    rewrite jar_get_remove; by case_decide.
Qed.

Lemma clearGuardCookie_spec w :
  w_window w = true -> jar_wf (w_jar w) -> script_may_write w COOKIE_KEY = true ->
  net_sane (w_net w) ->
  exists j l, clearGuardCookie w = (Ok (), set_jar j (set_sent l w)) /\ jar_wf j /\
    jar_get COOKIE_KEY j = None.
Proof.
  intros Hw Hj Hm Hn. unfold clearGuardCookie. rewrite bind_get_world, Hw. cbn [negb].
  unfold bind at 1, set_document_cookie at 1.
  rewrite (script_clear w _ _ _ _ _ (parse_clear_guard _)); try done; [|apply secure_https].
  unfold bind at 1, set_document_cookie at 1. rewrite attempt_spec.
  match goal with |- context [set_jar ?x (set_jar ?y ?z)] => set (j3 := x) end.
  destruct (clear_csrf_keeps (w_https w) (w_now w) (isSecureContext w)
    (jar_remove COOKIE_KEY (w_jar w))) as [Hj3 Hg3].
  { by apply jar_remove_wf. }
  { by rewrite jar_get_remove, decide_True. }
  destruct (fetch_no_guard "GET" (logout_url w) [] None
    (set_jar j3 (set_jar (jar_remove COOKIE_KEY (w_jar w)) w))) as (j & l & Hf & Hwf & Hg); try done.
  exists j, l. split; [|done]. f_equal. unfold bind.
  destruct (fetch _ _ _ _ _) as [[]wf']; simpl in Hf |- *; by rewrite Hf.
Qed.

Lemma clearToken_effect w :
  working w = true -> jar_wf (w_jar w) -> script_may_write w COOKIE_KEY = true ->
  net_sane (w_net w) ->
  let w' := (clearToken w).2 in
  st_items (w_session w') !! SESSION_KEY = None /\
  st_items (w_local w') !! LEGACY_KEY = None /\
  isAuthenticated w' = (Ok false, w').
Proof.
  intros Hw Hj Hm Hn. cbv zeta. unfold clearToken. rewrite !bind_attempt, remove_session_eval by done.
  unfold working in Hw. bool_hyps. rewrite remove_local_eval by done.
  set (w1 := set_local _ _).
  destruct (clearGuardCookie_spec w1) as (j & l & -> & Hwf & Hg); try done.
  assert (st_items (w_session w1) !! SESSION_KEY = None) as Hs by apply lookup_delete_eq.
  assert (st_items (w_local w1) !! LEGACY_KEY = None) as Hl by apply lookup_delete_eq.
  split; [exact Hs|]. split; [exact Hl|]. cbn [snd].
  rewrite (isAuthenticated_spec _ None (set_jar j (set_sent l w1))); try done.
  - f_equal. change (w_jar (set_jar j (set_sent l w1))) with j. unfold readable. by rewrite Hg.
  - by apply getToken_none.
Qed.

(** [C7] Signing out is effective: after [clearToken] no storage holds a key,
    the guard cookie is gone and [isAuthenticated] answers false, whatever the
    logout endpoint answers. *)
Theorem clear_token_signs_out w :
  working w = true -> jar_wf (w_jar w) -> script_may_write w COOKIE_KEY = true ->
  net_sane (w_net w) ->
  let w' := (clearToken w).2 in
  st_items (w_session w') !! SESSION_KEY = None /\
  st_items (w_local w') !! LEGACY_KEY = None /\
  isAuthenticated w' = (Ok false, w').
Proof. apply clearToken_effect. Qed.

(** Sign-out never throws in a browser. *)
Lemma clearToken_ok w :
  working w = true -> jar_wf (w_jar w) -> script_may_write w COOKIE_KEY = true ->
  net_sane (w_net w) -> (clearToken w).1 = Ok ().
Proof.
  intros Hw Hj Hm Hn. unfold clearToken. rewrite !bind_attempt, remove_session_eval by done.
  unfold working in Hw. bool_hyps. rewrite remove_local_eval by done.
  set (w1 := set_local _ _).
  destruct (clearGuardCookie_spec w1) as (j & l & -> & _); done.
Qed.

(** ** The CSRF token *)

Lemma byte_hex_length b : (String.length (padStart 2 "0" (byte_toString16 b)) = 2)%nat.
Proof. rewrite padStart_length. unfold byte_toString16. by destruct (b <? 16)%N. Qed.

Lemma join_empty_length l n :
  Forall (fun s => String.length s = n) l -> (String.length (join "" l) = length l * n)%nat.
Proof.
  induction 1 as [|x l Hx Hl IH]; [done|]. destruct l as [|y l].
  - simpl. lia.
  - rewrite join_cons, app_nil_l, sapp_length, IH, Hx. simpl. lia.
Qed.

Lemma csrf_length l : (String.length (csrf_of_bytes l) = length l * 2)%nat.
Proof.
  unfold csrf_of_bytes. rewrite join_empty_length with (n := 2), length_map; [done|].
  apply Forall_map, Forall_true. apply byte_hex_length.
Qed.

Lemma getCsrfToken_spec w :
  w_window w = true -> jar_wf (w_jar w) ->
  getCsrfToken w =
  match readable (w_now w) CSRF_COOKIE_KEY (w_jar w) with
  | Some v => (t <-- js_decodeURIComponent v; ret (Some t)) w
  | None => (Ok None, w)
  end.
Proof.
  intros Hw Hj. unfold getCsrfToken. rewrite bind_get_world, Hw. simpl.
  unfold bind at 1, get_document_cookie. rewrite cookie_match_jar by done.
  by destruct (readable _ _ _).
Qed.

Definition csrf_cookie (w : World) (tok : string) : Cookie :=
  mkCookie CSRF_COOKIE_KEY (encodeURIComponent tok) (Some (w_now w + COOKIE_MAX_AGE)%Z)
    (isSecureContext w) false "Strict".

Lemma readable_csrf w tok j :
  readable (w_now w) CSRF_COOKIE_KEY (jar_put (csrf_cookie w tok) j) = Some (encodeURIComponent tok).
Proof.
  change CSRF_COOKIE_KEY with (ck_name (csrf_cookie w tok)). rewrite jar_get_readable_put.
  unfold live. simpl. unfold COOKIE_MAX_AGE. by replace (w_now w <? _)%Z with true by lia.
Qed.

(** [C9] The double-submit token round-trips through the cookie: when no CSRF
    cookie is readable, [ensureCsrfCookie] mints one from the random bytes (two
    hex digits per byte), [getCsrfToken] reads exactly that token back through
    the cookie text, and calling [ensureCsrfCookie] again changes nothing. *)
Theorem csrf_token_roundtrip w :
  w_window w = true -> jar_wf (w_jar w) -> script_may_write w CSRF_COOKIE_KEY = true ->
  readable (w_now w) CSRF_COOKIE_KEY (w_jar w) = None -> w_random w (w_draws w) <> [] ->
  let tok := csrf_of_bytes (w_random w (w_draws w)) in
  exists w', ensureCsrfCookie w = (Ok (), w') /\
    getCsrfToken w' = (Ok (Some tok), w') /\
    ensureCsrfCookie w' = (Ok (), w') /\
    (String.length tok = 2 * length (w_random w (w_draws w)))%nat.
Proof.
  intros Hw Hj Hm Hr Hb tok.
  assert (String.length tok = 2 * length (w_random w (w_draws w)))%nat as Hlen
    by (subst tok; rewrite csrf_length; lia).
  set (w' := set_jar (jar_put (csrf_cookie w tok) (w_jar w)) (set_draws (S (w_draws w)) w)).
  assert (ensureCsrfCookie w = (Ok (), w')) as E.
  { unfold ensureCsrfCookie, setCsrfCookie. rewrite bind_get_world, Hw. cbn [negb].
    erewrite bind_ok by (rewrite getCsrfToken_spec, Hr by done; reflexivity). simpl.
    unfold generateCsrfToken, bind, getRandomValues, ret, set_document_cookie.
    cbn [w_https w_now w_jar set_draws].
    by rewrite (script_put w _ _ _ _ _ _ (parse_csrf _ _) ltac:(done) ltac:(done)
      (secure_https w) Hm). }
  assert (getCsrfToken w' = (Ok (Some tok), w')) as G.
  { rewrite getCsrfToken_spec; [|done|by apply jar_put_wf; [apply csrf_cookie_wf|]].
    change (w_now w') with (w_now w). cbn [w_jar w' set_jar]. subst w'. cbn [w_jar set_jar].
    rewrite readable_csrf. unfold bind, js_decodeURIComponent. by rewrite decode_encode. }
  exists w'. split; [done|]. split; [done|]. split; [|done].
  unfold ensureCsrfCookie, setCsrfCookie. rewrite bind_get_world. change (w_window w') with (w_window w).
  rewrite Hw. cbn [negb]. rewrite (bind_ok _ _ _ _ _ G). simpl.
  rewrite bool_decide_false; [done|]. intros ->. simpl in Hlen.
  by destruct (w_random w (w_draws w)).
Qed.

(** A malformed CSRF cookie breaks signing in: when the readable CSRF
    cookie is not a valid percent-encoding, [setToken] throws URIError, and it
    does so after the key and the guard cookie have been stored. *)
Theorem set_token_malformed_csrf t remember w v :
  working w = true -> jar_wf (w_jar w) -> script_may_write w COOKIE_KEY = true -> t <> "" ->
  readable (w_now w) CSRF_COOKIE_KEY (w_jar w) = Some v -> decodeURIComponent v = URIError ->
  exists w', setToken t remember w = (Err "URIError", w') /\
    getToken w' = (Ok (Some t), w') /\
    readable (w_now w') COOKIE_KEY (w_jar w') = Some "1".
Proof.
  intros Hw Hj Hm Ht Hv Hd. rewrite setToken_unfold, set_session_eval by done.
  unfold working in Hw. bool_hyps. rewrite remove_local_eval by done.
  set (w1 := set_local _ _). unfold cookie_tail.
  rewrite (bind_ok _ _ _ _ _ (setGuardCookie_spec remember w1 ltac:(done) Hm)).
  set (w2 := set_jar _ w1). exists w2. split_and!.
  - unfold setCsrfCookie. rewrite bind_get_world. replace (w_window w2) with true by done.
    cbn [negb]. apply bind_err. rewrite getCsrfToken_spec; [|done|by apply jar_put_wf].
    replace (readable (w_now w2) CSRF_COOKIE_KEY (w_jar w2)) with (Some v).
    + unfold bind, js_decodeURIComponent. by rewrite Hd.
    + rewrite <- Hv. unfold readable. simpl. by rewrite jar_get_put, decide_False.
  - apply getToken_session; try done. simpl. apply lookup_insert_eq.
  - change (readable (w_now w1) (ck_name (guard_cookie w1 remember))
      (jar_put (guard_cookie w1 remember) (w_jar w1)) = Some "1").
    rewrite jar_get_readable_put. by rewrite guard_cookie_live.
Qed.

Lemma verifySession_spec w :
  exists tok w1, getToken w = (Ok tok, w1) /\
    let rq := mkRequest "GET" (api_base w +:+ "/auth/me")
                (("Accept", "application/json") :: bearer tok)
                (filter (fun c => live (w_now w1) c = true) (w_jar w1)) None in
    exists w2, verifySession w =
      (Ok (match w_net w1 (length (w_sent w1)) rq with
           | NetResp r => res_ok r
           | NetFail => false
           end), w2) /\ w_sent w2 = w_sent w1 ++ [rq].
Proof.
  destruct (getToken_ok w) as (tok & w1 & E). exists tok, w1. split; [done|]. cbv zeta.
  unfold verifySession, try_catch. rewrite bind_get_world, (bind_ok _ _ _ _ _ E).
  unfold bind, fetch. destruct (w_net w1 _ _) as [|r]; by eexists.
Qed.

(** The last request of [w] was [GET /auth/me], which asks the backend whether
    the session is good, and it was answered with a 2xx status. *)
Definition last_verified (w : World) : Prop :=
  exists l rq r, w_sent w = l ++ [rq] /\
    rq_method rq = "GET" /\ rq_url rq = api_base w +:+ "/auth/me" /\
    w_net w (length l) rq = NetResp r /\ res_ok r = true.

(** What the session module promises to the components that gate on it: the
    check never throws, and it says yes only on the backend's word. *)
Class SessionVerifier (verify : M bool) : Prop :=
  verify_total w : exists b w', verify w = (Ok b, w') /\ (b = true -> last_verified w').

(** The rule for a branch on the check. *)
Lemma verified_branch verify `{!SessionVerifier verify} {A} (yes no : M A) (P : result string A * World -> Prop) w :
  (forall w', last_verified w' -> P (yes w')) -> (forall w', P (no w')) ->
  P (bind verify (fun ok => if ok then yes else no) w).
Proof.
  intros Hy Hn. destruct (verify_total w) as (b & w' & E & Hv). rewrite (bind_ok _ _ _ _ _ E).
  destruct b; auto.
Qed.

(** What no operation changes. *)
Definition same_oracle (w w' : World) : Prop := w_net w' = w_net w /\ w_env w' = w_env w.

#[export] Instance same_oracle_pre : PreOrder same_oracle.
Proof. split; [done|]. intros a b c [H1 H2] [H3 H4]. split; congruence. Qed.

Lemma run_op_oracle op w : same_oracle w (run_op op w).
Proof.
  apply (run_op_evolves same_oracle); intros; intros w0;
    unfold sessionStorage_setItem, sessionStorage_removeItem, localStorage_removeItem,
      storage_set, storage_remove, set_document_cookie, fetch, getRandomValues;
    repeat case_match; by split.
Qed.

#[export] Instance verifySession_verifier : SessionVerifier verifySession.
Proof.
  intros w. destruct (verifySession_spec w) as (tok & w1 & E & w2 & Hv & Hs).
  eexists _, w2. split; [exact Hv|].
  pose proof (run_op_oracle OpVerify w) as [Hn He]. simpl in Hn, He. rewrite Hv in Hn, He.
  pose proof (run_op_oracle OpGetToken w) as [Hn1 He1]. simpl in Hn1, He1. rewrite E in Hn1, He1.
  simpl in *. destruct (w_net w1 _ _) as [|r] eqn:En; [done|]. intros Hr.
  eexists _, _, r. split; [exact Hs|]. simpl. split_and!; [done| |congruence|done].
  unfold api_base. by rewrite He.
Qed.

(** [verifySession] answers exactly what the backend says: it never
    throws, sends one request to /auth/me with the key [getToken] returns as
    Bearer credential (no Authorization header when there is none), and is true
    exactly when that request is answered with a 2xx status. *)
Theorem verify_session_spec w :
  exists tok w1, getToken w = (Ok tok, w1) /\
    let rq := mkRequest "GET" (api_base w +:+ "/auth/me")
                (("Accept", "application/json") :: bearer tok)
                (filter (fun c => live (w_now w1) c = true) (w_jar w1)) None in
    exists w2, verifySession w =
      (Ok (match w_net w1 (length (w_sent w1)) rq with
           | NetResp r => res_ok r
           | NetFail => false
           end), w2) /\ w_sent w2 = w_sent w1 ++ [rq].
Proof. apply verifySession_spec. Qed.

(** One-time migration: with no tab key, [getToken] moves a non-blank
    legacy key from localStorage to sessionStorage and returns it; a blank one
    is deleted and not returned. *)
Theorem legacy_key_migrated w l :
  working w = true -> st_items (w_session w) !! SESSION_KEY = None ->
  st_items (w_local w) !! LEGACY_KEY = Some l -> l <> "" ->
  exists w', getToken w = (Ok (if bool_decide (trim l = "") then None else Some l), w') /\
    st_items (w_local w') = delete LEGACY_KEY (st_items (w_local w)) /\
    st_items (w_session w') = (if bool_decide (trim l = "") then st_items (w_session w)
                               else <[SESSION_KEY := l]> (st_items (w_session w))).
Proof.
  intros Hw Hs Hl Hne. unfold working in Hw. bool_hyps.
  unfold getToken. rewrite bind_get_world. replace (w_window w) with true by done. cbn [negb].
  unfold bind at 1, try_catch, sessionStorage_getItem, storage_get.
  rewrite H, H2, Hs. simpl. unfold migrateLegacyToken, try_catch, bind, localStorage_getItem,
    storage_get. rewrite H, H0, Hl. simpl. rewrite bool_decide_false by done. simpl.
  unfold localStorage_removeItem, storage_remove. rewrite H, H0. simpl.
  case_bool_decide; simpl.
  - eexists. split_and!; done.
  - rewrite attempt_spec. unfold sessionStorage_setItem, storage_set. simpl.
    rewrite H, H2, H1. eexists. split_and!; done.
Qed.

(** ** Witnesses *)

Definition demo_env : Env := mkEnv (Some "https://api.example.test") None None None.

(** A browser tab on an https page, with a backend that accepts everything
    and stores the HttpOnly session cookie. *)
Definition demo_world (local : gmap string string) (jar : list Cookie) : World :=
  mkWorld demo_env true true "/dashboard" "?tab=1" 1000
    (mkStorage true true ∅) (mkStorage true true local) jar
    (fun _ _ => NetResp (mkResponse 200 None
       [mkCookie "portcullis_auth" "s3" None true true "lax"] []))
    [] (fun _ => [7; 255; 16]%N) 0 [].

Lemma demo_net_sane : net_sane (w_net (demo_world ∅ [])).
Proof. intros n rq r E. simpl in E. simplify_eq. by repeat constructor. Qed.

Lemma guard_cookie_is_marker_witness :
  guard_marker (w_jar (run_ops [OpSetToken "pk_live_1" true; OpVerify; OpClear; OpMarkCookie false]
    (demo_world ∅ []))).
Proof.
  apply guard_cookie_is_marker.
  - intros n rq r E. simpl in E. simplify_eq. by repeat constructor.
  - intros c Hc. inversion Hc.
Defined.


Lemma cookie_session_without_credential_witness :
  let w' := (markCookieSession true (demo_world {["portcullis_token" := "old"]} [])).2 in
  st_items (w_session w') !! SESSION_KEY = None /\
  st_items (w_local w') !! LEGACY_KEY = None /\
  isAuthenticated w' = (Ok true, w').
Proof. apply cookie_session_without_credential; [done | by repeat constructor | done]. Defined.

Lemma clear_token_signs_out_witness :
  let w' := (clearToken (demo_world {["portcullis_token" := "old"]}
               [mkCookie "portcullis_token" "1" (Some 5000%Z) true false "Lax"])).2 in
  st_items (w_session w') !! SESSION_KEY = None /\
  st_items (w_local w') !! LEGACY_KEY = None /\
  isAuthenticated w' = (Ok false, w').
Proof.
  apply clear_token_signs_out; [done | | done | apply demo_net_sane].
  split; [by repeat constructor | apply NoDup_singleton].
Defined.

Lemma csrf_token_roundtrip_witness :
  exists w', ensureCsrfCookie (demo_world ∅ []) = (Ok (), w') /\
    getCsrfToken w' = (Ok (Some "07ff10"), w') /\
    ensureCsrfCookie w' = (Ok (), w') /\
    (String.length "07ff10" = 2 * 3)%nat.
Proof. apply (csrf_token_roundtrip (demo_world ∅ [])); try done. by repeat constructor. Defined.

Lemma set_token_malformed_csrf_witness :
  exists w', setToken "pk_live_1" false (demo_world ∅
      [mkCookie "portcullis_csrf" "%zz" None false false "Lax"]) = (Err "URIError", w') /\
    getToken w' = (Ok (Some "pk_live_1"), w') /\
    readable (w_now w') COOKIE_KEY (w_jar w') = Some "1".
Proof.
  apply (set_token_malformed_csrf _ _ _ "%zz"); try done.
  split; [by repeat constructor | apply NoDup_singleton].
Defined.

Lemma legacy_key_migrated_witness :
  exists w', getToken (demo_world {["portcullis_token" := "pk_old"]} []) = (Ok (Some "pk_old"), w') /\
    st_items (w_local w') = delete LEGACY_KEY {["portcullis_token" := "pk_old"]} /\
    st_items (w_session w') = <[SESSION_KEY := "pk_old"]> ∅.
Proof.
  pose proof (legacy_key_migrated (demo_world {["portcullis_token" := "pk_old"]} []) "pk_old"
    eq_refl eq_refl eq_refl ltac:(done)) as H.
  rewrite bool_decide_false in H by done. exact H.
Defined.
