(* ===== verification/SessionSpec.v ===== *)
(** * The session, abstractly

    What [lib/auth.ts] promises its callers, without storages and cookie jars:
    a session is at most one key and at most one sign-in marker with an expiry.
    [session_refines_spec] shows that in a browser whose storages work the
    module implements it over every sequence of its operations, with time
    passing between them: all observable answers agree. *)

From S2P Require Import Prelude JsString JsUri Json Browser AuthStore.

(** ** The specification *)
Record session := mkSession {
  key : option string;    (** the tab's API key *)
  marker : option Z;      (** when the sign-in marker expires *)
  clock : Z }.

Inductive op :=
  | Op (o : auth_op)
  | Wait (d : Z).

Inductive answer := AKey (k : option string) | ASignedIn (b : bool) | ADone.

Definition lifetime (remember : bool) : Z := if remember then COOKIE_MAX_AGE_REMEMBER else COOKIE_MAX_AGE.

Definition signed_in (s : session) : bool :=
  match key s with
  | Some _ => true
  | None => match marker s with Some e => (clock s <? e)%Z | None => false end
  end.

Definition spec_step (o : op) (s : session) : answer * session :=
  match o with
  | Wait d => (ADone, mkSession (key s) (marker s) (clock s + d))
  | Op OpGetToken => (AKey (key s), s)
  | Op OpIsAuthenticated => (ASignedIn (signed_in s), s)
  | Op (OpSetToken t r) => (ADone, mkSession (or_none t) (Some (clock s + lifetime r)%Z) (clock s))
  | Op (OpMarkCookie r) => (ADone, mkSession None (Some (clock s + lifetime r)%Z) (clock s))
  | Op OpClear => (ADone, mkSession None None (clock s))
  | Op (OpGetCsrf | OpEnsureCsrf | OpVerify) => (ADone, s)
  end.

(** ** The implementation's steps *)
Definition advance (d : Z) (w : World) : World :=
  mkWorld (w_env w) (w_window w) (w_https w) (w_pathname w) (w_search w) (w_now w + d)
    (w_session w) (w_local w) (w_jar w) (w_net w) (w_sent w) (w_random w) (w_draws w) (w_href w).

Definition impl_step (o : op) (w : World) : answer * World :=
  match o with
  | Wait d => (ADone, advance d w)
  | Op OpGetToken =>
      match getToken w with (Ok t, w') => (AKey t, w') | (Err _, w') => (ADone, w') end
  | Op OpIsAuthenticated =>
      match isAuthenticated w with (Ok b, w') => (ASignedIn b, w') | (Err _, w') => (ADone, w') end
  | Op o => (ADone, run_op o w)
  end.

Definition answers {S} (step : op -> S -> answer * S) : list op -> S -> list answer :=
  fix go ops s := match ops with [] => [] | o :: ops => (step o s).1 :: go ops (step o s).2 end.

(** ** The simulation relation *)

(** The backend neither sets nor deletes the marker cookie. *)
Definition net_polite (net : nat -> Request -> NetResult) : Prop :=
  net_sane net /\ forall n rq r, net n rq = NetResp r -> COOKIE_KEY ∉ rs_drop_cookies r.

Record simulates (s : session) (w : World) : Prop := {
  sim_working : working w = true;
  sim_wf : jar_wf (w_jar w);
  sim_write : script_may_write w COOKIE_KEY = true;
  sim_net : net_polite (w_net w);
  sim_clock : clock s = w_now w;
  sim_legacy : st_items (w_local w) !! LEGACY_KEY = None;
  sim_key : st_items (w_session w) !! SESSION_KEY ≫= or_none = key s;
  sim_marker : match marker s with
               | Some e => ck_expires <$> jar_get COOKIE_KEY (w_jar w) = Some (Some e)
               | None => jar_get COOKIE_KEY (w_jar w) = None
               end }.

Lemma or_none_truthy v : truthy v = match v ≫= or_none with Some _ => true | None => false end.
Proof. destruct v as [t|]; [|done]. cbn. unfold or_none. by case_bool_decide. Qed.

Lemma or_none_same v t : v ≫= or_none = Some t -> v = Some t.
Proof. destruct v as [u|]; [|done]. cbn. unfold or_none. case_bool_decide; congruence. Qed.

Lemma working_window w : working w = true -> w_window w = true.
Proof. unfold working. intros H. by bool_hyps. Qed.

Lemma getToken_sim s w : simulates s w -> getToken w = (Ok (key s), w).
Proof.
  intros [Hw _ _ _ _ Hl Hk _]. unfold working in Hw. bool_hyps. rewrite <- Hk.
  unfold getToken. rewrite bind_get_world. replace (w_window w) with true by done. cbn [negb].
  unfold bind, try_catch, sessionStorage_getItem, storage_get.
  replace (w_window w) with true by done. replace (st_ok (w_session w)) with true by done. cbn [andb].
  rewrite or_none_truthy. destruct (st_items (w_session w) !! SESSION_KEY ≫= or_none) as [t|] eqn:E.
  - by rewrite (or_none_same _ _ E).
  - unfold migrateLegacyToken, localStorage_getItem, storage_get, try_catch, bind.
    replace (w_window w) with true by done. replace (st_ok (w_local w)) with true by done. cbn [andb]. by rewrite Hl.
Qed.

Lemma signed_in_sim s w : simulates s w -> isAuthenticated w = (Ok (signed_in s), w).
Proof.
  intros Hs. pose proof (getToken_sim s w Hs) as Ht. destruct Hs as [Hw Hj Hwr _ Hc _ Hk Hm].
  rewrite (isAuthenticated_spec w _ _ (working_window w Hw) Ht Hj).
  do 2 f_equal. unfold signed_in. rewrite <- Hk at 1. destruct (key s) as [t|] eqn:E.
  - rewrite Hk. cbn. by rewrite bool_decide_false by (intros ->; destruct (st_items (w_session w) !! SESSION_KEY) as [[]|]; done).
  - rewrite Hk. cbn [truthy orb]. unfold readable, script_may_write, live in *. rewrite Hc.
    destruct (marker s) as [e|].
    + destruct (jar_get COOKIE_KEY (w_jar w)) as [c|]; [|done]. cbn in Hm. injection Hm as ->. bool_hyps.
      replace (ck_httponly c) with false by done. by destruct (w_now w <? e)%Z.
    + by rewrite Hm.
Qed.

(** Signing in writes the marker last, and whatever the CSRF step does. *)
Lemma cookie_tail_sim k r now w :
  now = w_now w -> working w = true -> jar_wf (w_jar w) -> script_may_write w COOKIE_KEY = true -> net_polite (w_net w) ->
  st_items (w_local w) !! LEGACY_KEY = None -> st_items (w_session w) !! SESSION_KEY ≫= or_none = k ->
  simulates (mkSession k (Some (now + lifetime r)%Z) now) (cookie_tail r w).2.
Proof.
  intros -> Hw Hj Hwr Hn Hl Hk.
  destruct (cookie_tail_guard r w (working_window w Hw) Hwr Hj) as (j & n & -> & Hj' & Hg).
  split; try done.
  - unfold script_may_write. cbn. rewrite Hg. cbn. unfold isSecureContext.
    rewrite (working_window w Hw). cbn. by destruct (w_https w).
  - cbn. by rewrite Hg.
Qed.

Lemma fetch_guard_same m u h b w :
  net_polite (w_net w) -> jar_wf (w_jar w) ->
  exists j l, (fetch m u h b w).2 = set_jar j (set_sent l w) /\ jar_wf j /\
    jar_get COOKIE_KEY j = jar_get COOKIE_KEY (w_jar w).
Proof.
  intros [Hn Hd] Hj. unfold fetch. set (rq := mkRequest _ _ _ _ _).
  destruct (w_net w _ rq) as [|r] eqn:E; [exists (w_jar w); eexists; by split; [reflexivity|]|].
  eexists _, _. split; [reflexivity|]. cbn [w_jar set_jar set_sent]. specialize (Hn _ _ _ E). specialize (Hd _ _ _ E).
  assert (forall l j, COOKIE_KEY ∉ l -> jar_wf j ->
    jar_wf (fold_left (fun j n => jar_remove n j) l j) /\
    jar_get COOKIE_KEY (fold_left (fun j n => jar_remove n j) l j) = jar_get COOKIE_KEY j) as Hrem.
  { induction l as [|x l IH]; intros j0 Hx H1; [done|]. apply not_elem_of_cons in Hx as [Hx Hl]. cbn [fold_left].
    destruct (IH (jar_remove x j0)) as [H2 ->]; [done|by apply jar_remove_wf|]. split; [done|].
    by rewrite jar_get_remove, decide_False. }
  destruct (Hrem (rs_drop_cookies r) (w_jar w) Hd Hj) as [H1 <-]. revert H1.
  generalize (fold_left (fun j n => jar_remove n j) (rs_drop_cookies r) (w_jar w)).
  induction Hn as [|c l [Hc Hk] Hl IH]; intros j1 H1; [done|]. cbn [fold_left].
  destruct (IH (jar_put c j1)) as [H2 ->]; [by apply jar_put_wf|]. split; [done|].
  by rewrite jar_get_put, decide_False.
Qed.

(** Changes of the jar and the bookkeeping that keep the marker keep the
    simulation. *)
Lemma simulates_jar s w j n l :
  simulates s w -> jar_wf j -> jar_get COOKIE_KEY j = jar_get COOKIE_KEY (w_jar w) ->
  simulates s (set_jar j (set_draws n (set_sent l w))).
Proof.
  intros [] Hj Hg. split; try done; cbn; unfold script_may_write in *; cbn; by rewrite Hg.
Qed.

Lemma ensureCsrf_sim s w : simulates s w -> simulates s (ensureCsrfCookie w).2.
Proof.
  intros Hs. unfold ensureCsrfCookie. destruct (setCsrfCookie_frame w) as (j & n & -> & Hj & Hg).
  change (set_draws n w) with (set_draws n (set_sent (w_sent w) w)).
  apply simulates_jar; [done|apply Hj, Hs|by apply Hg].
Qed.

Lemma getCsrf_sim s w : simulates s w -> simulates s (getCsrfToken w).2.
Proof.
  intros Hs. rewrite getCsrfToken_spec by (apply Hs || apply working_window, Hs).
  destruct (readable _ _ _); [|done]. unfold bind, js_decodeURIComponent, ret, throw.
  destruct (decodeURIComponent _); done.
Qed.

Lemma verify_sim s w : simulates s w -> simulates s (verifySession w).2.
Proof.
  intros Hs. unfold verifySession, try_catch. rewrite bind_get_world. unfold bind.
  rewrite (getToken_sim s w Hs).
  match goal with |- context [fetch ?m ?u ?h ?b w] => destruct (fetch_guard_same m u h b w) as (j & l & Hf & Hj & Hg) end;
    [apply Hs..|].
  assert (simulates s (set_jar j (set_sent l w))) as H.
  { change (set_sent l w) with (set_draws (w_draws w) (set_sent l w)). by apply simulates_jar. }
  rewrite <- Hf in H. destruct (fetch _ _ _ _ w) as [[] w']; exact H.
Qed.

(** After the writes to the storages that precede [cookie_tail]. *)
Lemma stores_sim w items :
  working w = true -> jar_wf (w_jar w) -> script_may_write w COOKIE_KEY = true -> net_polite (w_net w) ->
  let w1 := set_local (mkStorage true (st_quota (w_local w)) (delete LEGACY_KEY (st_items (w_local w))))
              (set_session (mkStorage true true items) w) in
  working w1 = true /\ jar_wf (w_jar w1) /\ script_may_write w1 COOKIE_KEY = true /\ net_polite (w_net w1) /\
  st_items (w_local w1) !! LEGACY_KEY = None.
Proof.
  intros Hw Hj Hwr Hn. cbv zeta. unfold working in *. bool_hyps. cbn. split_and!; try done.
  - by rewrite !andb_true_r.
  - apply lookup_delete_eq.
Qed.

Lemma setToken_sim s t r w :
  simulates s w -> simulates (mkSession (or_none t) (Some (clock s + lifetime r)%Z) (clock s)) (setToken t r w).2.
Proof.
  intros [Hw Hj Hwr Hn Hc Hl _ _]. rewrite setToken_unfold, set_session_eval, Hc by done.
  rewrite remove_local_eval by (unfold working in Hw; by bool_hyps).
  destruct (stores_sim w (<[SESSION_KEY:=t]> (st_items (w_session w))) Hw Hj Hwr Hn) as (H1 & H2 & H3 & H4 & H5).
  apply cookie_tail_sim; try done. cbn. by rewrite lookup_insert_eq.
Qed.

Lemma markCookie_sim s r w :
  simulates s w -> simulates (mkSession None (Some (clock s + lifetime r)%Z) (clock s)) (markCookieSession r w).2.
Proof.
  intros [Hw Hj Hwr Hn Hc Hl _ _]. rewrite markCookieSession_unfold, remove_session_eval, Hc by done.
  rewrite remove_local_eval by (unfold working in Hw; by bool_hyps).
  destruct (stores_sim w (delete SESSION_KEY (st_items (w_session w))) Hw Hj Hwr Hn) as (H1 & H2 & H3 & H4 & H5).
  apply cookie_tail_sim; try done. cbn. by rewrite lookup_delete_eq.
Qed.

Lemma clear_sim s w : simulates s w -> simulates (mkSession None None (clock s)) (clearToken w).2.
Proof.
  intros [Hw Hj Hwr Hn Hc Hl _ _]. unfold clearToken. rewrite !bind_attempt, remove_session_eval by done.
  rewrite remove_local_eval by (unfold working in Hw; by bool_hyps).
  destruct (stores_sim w (delete SESSION_KEY (st_items (w_session w))) Hw Hj Hwr Hn) as (H1 & H2 & H3 & H4 & H5).
  match goal with |- context [clearGuardCookie ?x] => set (w1 := x) in * end.
  destruct (clearGuardCookie_spec w1) as (j & l & -> & Hwf & Hg); [by apply working_window|done|done|apply Hn|].
  split; try done; [|].
  - unfold script_may_write. cbn. by rewrite Hg.
  - cbn. by rewrite lookup_delete_eq.
Qed.

(** One step: the same answer, and the simulation goes on. *)
Lemma step_sim o s w :
  simulates s w ->
  (impl_step o w).1 = (spec_step o s).1 /\ simulates (spec_step o s).2 (impl_step o w).2.
Proof.
  intros Hs. destruct o as [[| |t r|r| | | |]|d]; cbn [impl_step spec_step run_op].
  - by rewrite (getToken_sim s w Hs).
  - split; [done|by apply getCsrf_sim].
  - split; [done|by apply setToken_sim].
  - split; [done|by apply markCookie_sim].
  - split; [done|by apply clear_sim].
  - split; [done|by apply ensureCsrf_sim].
  - by rewrite (signed_in_sim s w Hs).
  - split; [done|by apply verify_sim].
  - split; [done|]. destruct Hs. split; try done. cbn. by rewrite sim_clock0.
Qed.

(** [C13] The session module implements the abstract session: over every sequence of
    its operations, with any time passing in between, [getToken] answers the
    key last set and not since cleared or replaced, and [isAuthenticated]
    whether there is a key or a marker younger than 12 hours (7 days when
    remembered). *)
Theorem session_refines_spec ops s w :
  simulates s w -> answers impl_step ops w = answers spec_step ops s.
Proof.
  revert s w. induction ops as [|o ops IH]; intros s w Hs; [done|]. cbn [answers].
  destruct (step_sim o s w Hs) as [-> Hs']. f_equal. by apply IH.
Qed.

(** In the specification, hence in the implementation: a marker outlives no
    more than its lifetime. *)
Theorem session_expires s w r d :
  simulates s w -> (lifetime r <= d)%Z ->
  last (answers impl_step [Op (OpMarkCookie r); Wait d; Op OpIsAuthenticated] w) = Some (ASignedIn false).
Proof.
  intros Hs Hd. revert s w Hs.
  assert (forall s w, simulates s w -> answers impl_step [Op (OpMarkCookie r); Wait d; Op OpIsAuthenticated] w =
    answers spec_step [Op (OpMarkCookie r); Wait d; Op OpIsAuthenticated] s) as H.
  { intros s w Hs. cbn [answers]. destruct (step_sim (Op (OpMarkCookie r)) s w Hs) as [-> H1].
    destruct (step_sim (Wait d) _ _ H1) as [-> H2]. by destruct (step_sim (Op OpIsAuthenticated) _ _ H2) as [-> _]. }
  intros s w Hs. rewrite (H s w Hs). cbn. unfold signed_in. cbn.
  by replace (_ <? _)%Z with false by (symmetry; apply Z.ltb_ge; lia).
Qed.

(** ** Witnesses *)
Lemma demo_simulates : simulates (mkSession None None 1000) (demo_world ∅ []).
Proof.
  split; try done.
  - by repeat constructor.
  - split; [apply demo_net_sane|]. intros n rq r E. cbn in E. simplify_eq. apply not_elem_of_nil.
Qed.

Lemma session_refines_spec_witness :
  answers impl_step
    [Op (OpSetToken "pk_live_1" false); Op OpGetToken; Op OpVerify; Op (OpMarkCookie true); Op OpGetToken;
     Wait 604799; Op OpIsAuthenticated; Wait 1; Op OpIsAuthenticated; Op OpClear; Op OpIsAuthenticated]
    (demo_world ∅ []) =
  [ADone; AKey (Some "pk_live_1"); ADone; ADone; AKey None; ADone; ASignedIn true; ADone; ASignedIn false; ADone;
   ASignedIn false].
Proof. rewrite (session_refines_spec _ _ _ demo_simulates). reflexivity. Defined.
