(* ===== verification/AxiosClient.v ===== *)
(** * The HTTP client: web/src/lib/axios-instance.ts

    The two interceptors and the orval mutator.  Axios itself (its dispatch of
    a configured request) is a parameter. *)

From S2P Require Import Prelude JsString JsUri Json Browser AuthStore.

Record AxiosConfig := mkConfig {
  cf_url : string;
  cf_method : string;
  cf_headers : gmap string string;
  cf_data : option json }.

(** [Axios.create({baseURL, timeout, withCredentials})] *)
Record AxiosDefaults := mkDefaults {
  df_baseURL : string; df_timeout : Z; df_withCredentials : bool }.

Definition axiosClient (w : World) : AxiosDefaults := mkDefaults (api_base w) 15000 true.

Record AxiosResponse := mkAxResponse {
  ax_data : option json; ax_status : Z; ax_headers : gmap string string }.

(** A rejected request: [error.response] is absent on network errors. *)
Record AxiosError := mkAxError { ae_message : string; ae_response : option AxiosResponse }.

Definition set_header (k v : string) (c : AxiosConfig) : AxiosConfig :=
  mkConfig (cf_url c) (cf_method c) (<[k := v]> (cf_headers c)) (cf_data c).

(** [axiosClient.interceptors.request] *)
Definition request_interceptor (config : AxiosConfig) : M AxiosConfig :=
  w <-- get_world;
  if negb (w_window w) then ret config else
  token <-- try_catch (sessionStorage_getItem "portcullis_token") (fun _ => ret None);
  let config := match token with
                | Some t => if bool_decide (t = "") then config
                            else set_header "Authorization" ("Bearer " +:+ t) config
                | None => config
                end in
  cookie <-- get_document_cookie;
  match cookie_match "portcullis_csrf" cookie with
  | Some m => t <-- js_decodeURIComponent m; ret (set_header "X-CSRF-Token" t config)
  | None => ret config
  end.

Definition guard_delete_text : string := "portcullis_token=; path=/; max-age=0; SameSite=Lax".

(** [axiosClient.interceptors.response], the rejection handler: it always
    re-rejects with the same error. *)
Definition response_rejected (error : AxiosError) : M AxiosError :=
  w <-- get_world;
  match ae_response error with
  | Some r =>
      if (ax_status r =? 401)%Z && w_window w then
        attempt (sessionStorage_removeItem "portcullis_token") ;;;
        attempt (set_document_cookie guard_delete_text) ;;;
        let next := w_pathname w +:+ w_search w in
        (if negb (startsWith (w_pathname w) "/login")
         then navigate ("/login?next=" +:+ encodeURIComponent next)
         else ret ()) ;;;
        ret error
      else ret error
  | None => ret error
  end.

Record orval_response := mkOrval {
  or_data : option json; or_status : Z; or_headers : gmap string string }.

(** [RequestInit] as the generated client passes it. *)
Record RequestInit := mkInit {
  in_method : option string; in_headers : gmap string string; in_body : option json }.

Section axios.
(** Axios's dispatch of an interceptor-processed configuration. *)
Context (dispatch : AxiosDefaults -> AxiosConfig -> M (AxiosError + AxiosResponse)).

Definition axiosClient_request (config : AxiosConfig) : M (AxiosError + AxiosResponse) :=
  w <-- get_world;
  config <-- request_interceptor config;
  r <-- dispatch (axiosClient w) config;
  match r with
  | inr res => ret (inr res)
  | inl e => e <-- response_rejected e; ret (inl e)
  end.

(** [axiosInstance(url, options)], the mutator orval calls. *)
Definition axiosInstance (url : string) (options : RequestInit) :
    M (AxiosError + orval_response) :=
  response <-- axiosClient_request
    (mkConfig url (default "GET" (in_method options)) (in_headers options) (in_body options));
  match response with
  | inr r => ret (inr (mkOrval (ax_data r) (ax_status r) (ax_headers r)))
  | inl e => ret (inl e)
  end.
End axios.

(** ** Lemmas *)

Lemma session_read_token w :
  w_window w = true ->
  try_catch (sessionStorage_getItem "portcullis_token") (fun _ => ret None) w =
  (Ok (if st_ok (w_session w) then st_items (w_session w) !! SESSION_KEY else None), w).
Proof.
  intros Hw. unfold try_catch, sessionStorage_getItem, storage_get. rewrite Hw.
  by destruct (st_ok (w_session w)).
Qed.

(** The interceptor changes nothing but headers. *)
Lemma interceptor_target config w c w' :
  request_interceptor config w = (Ok c, w') ->
  w' = w /\ cf_url c = cf_url config /\ cf_method c = cf_method config /\ cf_data c = cf_data config.
Proof.
  unfold request_interceptor. rewrite bind_get_world. destruct (w_window w) eqn:Hw; cbn [negb].
  - rewrite (bind_ok _ _ _ _ _ (session_read_token w Hw)).
    unfold bind, get_document_cookie, js_decodeURIComponent, ret, throw.
    repeat case_match; intros; simplify_eq/=; done.
  - intros [= -> ->]. done.
Qed.

(** A request whose dispatch is always rejected is rejected, or its
    interceptors throw. *)
Lemma axiosInstance_refused dispatch url options w :
  (forall df c v, cf_url c = url -> cf_method c = default "GET" (in_method options) ->
     cf_data c = in_body options -> exists e v', dispatch df c v = (Ok (inl e), v')) ->
  exists w', (exists e, axiosInstance dispatch url options w = (Ok (inl e), w')) \/
             (exists x, axiosInstance dispatch url options w = (Err x, w')).
Proof.
  intros Hd. unfold axiosInstance, axiosClient_request. set (c0 := mkConfig _ _ _ _).
  unfold bind, get_world. destruct (request_interceptor c0 w) as [[c|x] w1] eqn:E; [|by eauto].
  apply interceptor_target in E as (_ & Hu & Hm & Hdat).
  destruct (Hd (axiosClient w) c w1 Hu Hm Hdat) as (e & w2 & ->). unfold ret.
  destruct (response_rejected e w2) as [[?|?] w3]; by eauto.
Qed.

(** The header the interceptor derives from the tab's key. *)
Definition tab_token (w : World) : option string :=
  if st_ok (w_session w) then st_items (w_session w) !! SESSION_KEY else None.

Definition with_bearer (w : World) (c : AxiosConfig) : AxiosConfig :=
  match tab_token w with
  | Some t => if bool_decide (t = "") then c else set_header "Authorization" ("Bearer " +:+ t) c
  | None => c
  end.

Lemma interceptor_eval config w :
  w_window w = true ->
  request_interceptor config w =
  match getCsrfToken w with
  | (Ok (Some t), _) => (Ok (set_header "X-CSRF-Token" t (with_bearer w config)), w)
  | (Ok None, _) => (Ok (with_bearer w config), w)
  | (Err e, _) => (Err e, w)
  end.
Proof.
  intros Hw. unfold request_interceptor, getCsrfToken. rewrite !bind_get_world, Hw. cbn [negb].
  rewrite (bind_ok _ _ _ _ _ (session_read_token w Hw)).
  unfold bind, get_document_cookie, js_decodeURIComponent.
  change CSRF_COOKIE_KEY with "portcullis_csrf". unfold with_bearer, tab_token.
  destruct (cookie_match _ _) as [m|]; [|done]. by destruct (decodeURIComponent m).
Qed.

(** [C10] Every request carries the tab's key and the CSRF token [lib/auth]
    reads: in a browser the interceptor adds the Bearer header from
    sessionStorage (never from localStorage) and the X-CSRF-Token header that
    [getCsrfToken] returns, agrees with it on absence, and throws exactly when
    it throws. *)
Theorem interceptor_headers config w :
  w_window w = true ->
  request_interceptor config w =
  match getCsrfToken w with
  | (Ok (Some t), _) => (Ok (set_header "X-CSRF-Token" t (with_bearer w config)), w)
  | (Ok None, _) => (Ok (with_bearer w config), w)
  | (Err e, _) => (Err e, w)
  end.
Proof. apply interceptor_eval. Qed.

(** [C8] A 401 signs the tab out and remembers the destination once: the key
    is removed, the guard cookie is gone, the error is re-rejected unchanged,
    and unless the page is already a login page there is one navigation to
    /login whose [next] parameter decodes to the current path and query. *)
Theorem unauthorized_redirect e r w :
  working w = true -> script_may_write w COOKIE_KEY = true ->
  ae_response e = Some r -> ax_status r = 401%Z ->
  exists w', response_rejected e w = (Ok e, w') /\
    st_items (w_session w') !! SESSION_KEY = None /\
    jar_get COOKIE_KEY (w_jar w') = None /\
    w_local w' = w_local w /\
    exists p, decodeURIComponent p = Decoded (w_pathname w +:+ w_search w) /\
      w_href w' = w_href w ++
        (if startsWith (w_pathname w) "/login" then [] else ["/login?next=" +:+ p]).
Proof.
  intros Hw Hm Hr Hs. unfold response_rejected. rewrite bind_get_world, Hr, Hs.
  pose proof Hw as Hw'. unfold working in Hw'. bool_hyps.
  replace (w_window w) with true by done. cbn [Z.eqb andb Pos.eqb].
  rewrite !bind_attempt, remove_session_eval by done.
  set (w1 := set_session _ w). unfold set_document_cookie. cbn [snd].
  change (script_may_write w1 COOKIE_KEY = true) in Hm.
  rewrite (script_clear w1 guard_delete_text COOKIE_KEY "" false "Lax") by done.
  unfold bind. destruct (startsWith (w_pathname w) "/login") eqn:E; cbn [negb];
    eexists; (split; [reflexivity|]).
  all: split; [apply lookup_delete_eq|].
  all: split; [simpl; by rewrite jar_get_remove, decide_True|]; (split; [done|]).
  - exists (encodeURIComponent (w_pathname w +:+ w_search w)).
    by rewrite decode_encode, app_nil_r.
  - exists (encodeURIComponent (w_pathname w +:+ w_search w)). by rewrite decode_encode.
Qed.

(** No other failure has side effects: for a network error or any status
    but 401 (and on the server) the world is untouched. *)
Theorem other_errors_untouched e w :
  (match ae_response e with Some r => negb (ax_status r =? 401)%Z | None => true end)
  || negb (w_window w) = true ->
  response_rejected e w = (Ok e, w).
Proof.
  unfold response_rejected. rewrite bind_get_world. destruct (ae_response e) as [r|]; [|done].
  destruct (ax_status r =? 401)%Z, (w_window w); simpl; done.
Qed.

(** ** Witnesses *)

Definition demo_config : AxiosConfig := mkConfig "/v1/servers" "GET" ∅ None.

Lemma interceptor_headers_witness :
  request_interceptor demo_config (demo_world ∅ []) = (Ok demo_config, demo_world ∅ []).
Proof. rewrite (interceptor_headers demo_config (demo_world ∅ [])); done. Defined.

Lemma unauthorized_redirect_witness :
  let e := mkAxError "Unauthorized" (Some (mkAxResponse None 401 ∅)) in
  let w := demo_world ∅ [] in
  exists w', response_rejected e w = (Ok e, w') /\
    st_items (w_session w') !! SESSION_KEY = None /\
    jar_get COOKIE_KEY (w_jar w') = None /\
    w_local w' = w_local w /\
    exists p, decodeURIComponent p = Decoded "/dashboard?tab=1" /\
      w_href w' = w_href w ++ ["/login?next=" +:+ p].
Proof.
  apply (unauthorized_redirect (mkAxError "Unauthorized" (Some (mkAxResponse None 401 ∅)))
    (mkAxResponse None 401 ∅) (demo_world ∅ [])); done.
Defined.

Lemma other_errors_untouched_witness :
  response_rejected (mkAxError "Network Error" None) (demo_world ∅ []) =
  (Ok (mkAxError "Network Error" None), demo_world ∅ []).
Proof. apply other_errors_untouched. done. Defined.
