(* ===== verification/Middleware.v ===== *)
(** * Edge middleware: web/middleware.ts

    [portcullisHandler] as a function of the request, the environment and the
    backend's answer, and the exported middleware that wraps it when Clerk is
    configured.  The URL parser, the backend and Clerk's session and route
    matcher are parameters. *)

From S2P Require Import Prelude JsString JsUri Json Browser.

Definition TOKEN_COOKIE : string := "portcullis_token".
Definition PROTECTED_PREFIXES : list string := ["/admin"; "/dashboard"; "/developer"].
Definition PUBLIC_EXACT : list string := ["/login"; "/register"; "/privacy"; "/terms"; "/sso-callback"].

(** [config.matcher], interpreted by Next.js. *)
Definition config_matcher : list string :=
  ["/admin/:path*"; "/dashboard/:path*"; "/developer/:path*"; "/login"; "/register"].

Record NextRequest := mkNextRequest {
  nr_origin : string;                      (** scheme and host of [request.url] *)
  nr_pathname : string;                    (** [request.nextUrl.pathname] *)
  nr_cookies : list (string * string);     (** [request.cookies] *)
  nr_cookie_header : option string         (** the raw [cookie] header *) }.

(** [NextResponse.next()] with its headers, or a redirect with the cookies it
    sets; [Max-Age=0] deletions are the pairs with an empty value. *)
Inductive NextResponse :=
  | Next (headers : gmap string string)
  | Redirect (location : string) (headers : gmap string string) (set_cookies : list (string * string)).

Definition cookie_value (k : string) (r : NextRequest) : option string :=
  snd <$> head (filter (fun kv => kv.1 = k) (nr_cookies r)).

Definition isProtected (pathname : string) : bool :=
  existsb (fun p => bool_decide (pathname = p) || startsWith pathname (p +:+ "/"))
    PROTECTED_PREFIXES.

Definition isPublic (pathname : string) : bool :=
  bool_decide (pathname ∈ PUBLIC_EXACT) || bool_decide (pathname = "/").

Definition security_headers : gmap string string :=
  <["Permissions-Policy" := "geolocation=(), microphone=(), camera=()"]>
  (<["Referrer-Policy" := "strict-origin-when-cross-origin"]>
  (<["X-Frame-Options" := "DENY"]>
  (<["X-Content-Type-Options" := "nosniff"]> ∅))).

(** The directives of the Content-Security-Policy, in order. *)
Definition csp_directives (apiHost : string) (clerk : bool) : list string :=
  let connectSrc := ["'self'"; apiHost]
    ++ (if clerk then ["https://*.clerk.accounts.dev"; "https://*.clerk.com"] else []) in
  let scriptSrc := ["'self'"; "'unsafe-eval'"; "'unsafe-inline'"]
    ++ (if clerk then ["https://*.clerk.accounts.dev"; "https://*.clerk.com";
                       "https://challenges.cloudflare.com"] else []) in
  let imgSrc := ["'self'"; "data:"; "blob:"]
    ++ (if clerk then ["https://*.clerk.com"; "https://img.clerk.com"] else []) in
  let frameSrc := if clerk then ["https://challenges.cloudflare.com"] else [] in
  let workerSrc := if clerk then ["'self'"; "blob:"] else [] in
  ["default-src 'self'";
   "connect-src " +:+ join " " connectSrc;
   "script-src " +:+ join " " scriptSrc;
   "style-src 'self' 'unsafe-inline'";
   "img-src " +:+ join " " imgSrc;
   "font-src 'self' data:"]
  ++ (match frameSrc with [] => [] | _ => ["frame-src " +:+ join " " frameSrc] end)
  ++ (match workerSrc with [] => [] | _ => ["worker-src " +:+ join " " workerSrc] end).

Definition login_url (r : NextRequest) (params : list (string * string)) : string :=
  nr_origin r +:+ "/login?" +:+ URLSearchParams_toString params.

Section handler.
Context (env : Env).
(** [new URL(s).origin], [None] when the constructor throws. *)
Context (URL_origin : string -> option string).
(** The backend's answer to GET /auth/me with these cookies; [NetFail] when
    it cannot be reached. *)
Context (backend : Request -> NetResult).

Definition clerk_on : bool := truthy (env_clerk_key env).

Definition pass_headers : gmap string string :=
  match URL_origin (default "http://localhost:8000" (env_api_url env)) with
  | Some apiHost =>
      <["Content-Security-Policy" := join "; " (csp_directives apiHost clerk_on)]>
        security_headers
  | None => security_headers
  end.

Definition verify_request (r : NextRequest) : Request :=
  let apiBase := match env_api_url env with
                 | Some u => u
                 | None => default "http://localhost:8000" (env_api_internal env)
                 end in
  mkRequest "GET" (apiBase +:+ "/auth/me")
    [("cookie", default "" (nr_cookie_header r)); ("Accept", "application/json")] [] None.

(** The response and the requests sent to the backend. *)
Definition portcullisHandler (r : NextRequest) (skipBounce : bool) : NextResponse * list Request :=
  let pathname := nr_pathname r in
  let response := Next pass_headers in
  if negb (isProtected pathname) then (response, []) else
  let guard := cookie_value TOKEN_COOKIE r in
  let sessionCookie := cookie_value "portcullis_auth" r in
  if negb (truthy guard) && negb (truthy sessionCookie) then
    if skipBounce then (response, [])
    else (Redirect (login_url r [("next", pathname)]) ∅ [], [])
  else if truthy sessionCookie then
    let rq := verify_request r in
    match backend rq with
    | NetResp res =>
        if negb (res_ok res)
        then (Redirect (login_url r [("next", pathname); ("reason", "expired")]) ∅
                [(TOKEN_COOKIE, "")], [rq])
        else (response, [rq])
    | NetFail => (response, [rq])
    end
  else (response, []).

(** The exported middleware.  With Clerk configured, an unauthenticated
    request for a protected route ends in [auth.protect()], Clerk's own
    redirect to the sign-in page. *)
Inductive Outcome :=
  | ClerkProtect
  | Handled (res : NextResponse) (sent : list Request).

Definition middleware (isClerkProtectedRoute : string -> bool) (clerkAuthed : bool)
    (r : NextRequest) : Outcome :=
  if clerk_on then
    if isClerkProtectedRoute (nr_pathname r) && negb clerkAuthed then ClerkProtect
    else let '(res, sent) := portcullisHandler r clerkAuthed in Handled res sent
  else let '(res, sent) := portcullisHandler r false in Handled res sent.
End handler.

(** ** Properties *)

Lemma isProtected_spec path :
  isProtected path = true <->
  exists p, p ∈ PROTECTED_PREFIXES /\ (path = p \/ exists rest, path = p +:+ "/" +:+ rest).
Proof.
  unfold isProtected. rewrite existsb_exists. split.
  - intros (p & Hin%list_elem_of_In & H). exists p. split; [done|].
    apply orb_true_iff in H as [H|H]; [left; by bool_hyps|].
    apply prefix_spec in H as [t ->]. right. exists t. by rewrite sapp_assoc.
  - intros (p & Hin & H). exists p. split; [by apply list_elem_of_In|]. apply orb_true_iff.
    destruct H as [->|[rest ->]]; [left; by apply bool_decide_eq_true|].
    right. apply prefix_spec. exists rest. by rewrite sapp_assoc.
Qed.

(** Protection is decided by whole path segments: a path is protected
    exactly when it is one of the three roots or lies below one of them, so
    [/admin/x] is protected and [/administrator] is not. *)
Theorem protected_by_segment path :
  isProtected path = true <->
  exists p, p ∈ PROTECTED_PREFIXES /\ (path = p \/ exists rest, path = p +:+ "/" +:+ rest).
Proof. apply isProtected_spec. Qed.

(** What the handler knows about the caller. *)
Inductive session_view := NoCookies | GuardOnly | Verified | Rejected | Unreachable.

Definition view (env : Env) (backend : Request -> NetResult) (r : NextRequest) : session_view :=
  if truthy (cookie_value "portcullis_auth" r) then
    match backend (verify_request env r) with
    | NetFail => Unreachable
    | NetResp res => if res_ok res then Verified else Rejected
    end
  else if truthy (cookie_value TOKEN_COOKIE r) then GuardOnly else NoCookies.

Lemma handler_spec env origin backend r skip :
  portcullisHandler env origin backend r skip =
  let pass := Next (pass_headers env origin) in
  let sent := if truthy (cookie_value "portcullis_auth" r) then [verify_request env r] else [] in
  if isProtected (nr_pathname r) then
    match view env backend r with
    | NoCookies => if skip then (pass, sent)
                   else (Redirect (login_url r [("next", nr_pathname r)]) ∅ [], sent)
    | Rejected => (Redirect (login_url r [("next", nr_pathname r); ("reason", "expired")]) ∅
                     [(TOKEN_COOKIE, "")], sent)
    | GuardOnly | Verified | Unreachable => (pass, sent)
    end
  else (pass, []).
Proof.
  unfold portcullisHandler, view. destruct (isProtected (nr_pathname r)); [|done]. cbn [negb].
  destruct (truthy (cookie_value TOKEN_COOKIE r)), (truthy (cookie_value "portcullis_auth" r));
    cbn [negb andb]; try done.
  all: destruct (backend _) as [|res]; [done|]; by destruct (res_ok res).
Qed.

(** [C2] The access decision of the edge, case by case: a public path always
    passes without contacting the backend; a protected one bounces to /login
    (carrying the path) without any cookie unless Clerk vouches for the caller,
    bounces as expired and drops the guard cookie when the backend rejects the
    session cookie, and passes otherwise.  A forged guard cookie never turns a
    rejected session into a pass. *)
Theorem edge_decision env origin backend r skip :
  portcullisHandler env origin backend r skip =
  let pass := Next (pass_headers env origin) in
  let sent := if truthy (cookie_value "portcullis_auth" r) then [verify_request env r] else [] in
  if isProtected (nr_pathname r) then
    match view env backend r with
    | NoCookies => if skip then (pass, sent)
                   else (Redirect (login_url r [("next", nr_pathname r)]) ∅ [], sent)
    | Rejected => (Redirect (login_url r [("next", nr_pathname r); ("reason", "expired")]) ∅
                     [(TOKEN_COOKIE, "")], sent)
    | GuardOnly | Verified | Unreachable => (pass, sent)
    end
  else (pass, []).
Proof. apply handler_spec. Qed.

(** [C11] With Clerk configured, a protected page is only ever served to a
    caller Clerk has authenticated, provided the Clerk route patterns match
    every path below the three roots. *)
Theorem clerk_gate env origin backend matcher authed r res sent :
  clerk_on env = true ->
  (forall path p, p ∈ PROTECTED_PREFIXES -> startsWith path p = true -> matcher path = true) ->
  isProtected (nr_pathname r) = true ->
  middleware env origin backend matcher authed r = Handled res sent ->
  authed = true.
Proof.
  intros Hk Hm Hp H. unfold middleware in H. rewrite Hk in H.
  apply isProtected_spec in Hp as (p & Hin & Hp).
  rewrite (Hm _ p) in H; [|done|].
  - by destruct authed.
  - apply prefix_spec. destruct Hp as [->|[rest ->]]; [by exists ""; rewrite sapp_nil_r|by eexists].
Qed.

(** Every pass-through response carries the four security headers, and
    the CSP when the API address parses; a redirect carries none of them. *)
Theorem headers_on_pass_only env origin backend r skip :
  match (portcullisHandler env origin backend r skip).1 with
  | Next h => security_headers ⊆ h /\
      (is_Some (h !! "Content-Security-Policy") <->
       is_Some (origin (default "http://localhost:8000" (env_api_url env))))
  | Redirect _ h _ => h = ∅
  end.
Proof.
  assert (security_headers ⊆ pass_headers env origin /\
    (is_Some (pass_headers env origin !! "Content-Security-Policy") <->
     is_Some (origin (default "http://localhost:8000" (env_api_url env))))) as Hpass.
  { unfold pass_headers. destruct (origin _) as [h|].
    - split; [by apply insert_subseteq|]. by rewrite lookup_insert_eq.
    - split; [done|]. by split; intros [? ?]. }
  rewrite handler_spec. simpl. destruct (isProtected _); [|exact Hpass].
  destruct (view _ _ _); try exact Hpass; try done. by destruct skip.
Qed.

(** ** Witnesses *)

Definition demo_request (cookies : list (string * string)) : NextRequest :=
  mkNextRequest "https://console.test" "/admin/users" cookies None.

Definition demo_clerk_env : Env := mkEnv None None None (Some "pk_test").

Lemma clerk_gate_witness :
  middleware demo_clerk_env (fun s => Some s) (fun _ => NetFail)
    (fun p => existsb (startsWith p) PROTECTED_PREFIXES) true (demo_request []) =
  Handled (Next (pass_headers demo_clerk_env (fun s => Some s))) [] /\ true = true.
Proof.
  split; [reflexivity|].
  apply (clerk_gate demo_clerk_env (fun s => Some s) (fun _ => NetFail)
    (fun p => existsb (startsWith p) PROTECTED_PREFIXES) true
    (demo_request []) (Next (pass_headers demo_clerk_env (fun s => Some s))) []); try done.
  intros path p Hp H. apply existsb_exists. exists p. split; [by apply list_elem_of_In | done].
Defined.
