(* ===== verification/SessionGate.v ===== *)
(** * Client-side session gates

    - [ClerkGate], [LegacyGate], [ClerkSyncGate]: web/src/components/clerk-sync-gate.tsx
    - [SsoCallbackHandler]: web/src/app/sso-callback/page.tsx
    - [Home]: web/src/app/page.tsx
    - [AdminLayout]: web/src/app/admin/layout.tsx
    - [useIsPlatformAdmin]: web/src/lib/use-platform-admin.ts

    An effect is a computation that returns the component updates it performs;
    the [cancelled] flag of an effect is its value when the code tests it (each
    path tests it once).  Clerk's hooks and the query client are parameters. *)

From S2P Require Import Prelude JsString JsUri Json Browser AuthStore.

(** ** The Clerk sync gate *)

Inductive gate_state := Working | Ready | Failed.

Inductive gate_act :=
  | SetState (s : gate_state)
  | SetDetail (d : string)
  | Replace (url : string)       (** [router.replace] *)
  | Push (url : string)          (** [router.push] *)
  | ReplaceHistory (url : string) (** [window.history.replaceState] *).

Definition sync_request_headers (token : string) : list (string * string) :=
  [("Authorization", "Bearer " +:+ token); ("Accept", "application/json")].

(** [body?.detail ?? `sync_failed_${res.status}`] *)
Definition sync_error (res : Response) : string :=
  match nullish (rs_body res ≫= json_field "detail") with
  | Some d => js_String d
  | None => "sync_failed_" +:+ pretty (rs_status res)
  end.

(** The body of the [try] block: exchange the Clerk token, then verify. *)
Definition clerk_exchange (clerkToken : result string (option string)) : M unit :=
  w <-- get_world;
  token <-- match clerkToken with Ok t => ret t | Err e => throw e end;
  match token with
  | Some t =>
      if bool_decide (t = "") then throw "no_clerk_token" else
      res <-- fetch "POST" (api_base w +:+ "/auth/clerk/sync") (sync_request_headers t) None;
      if negb (res_ok res) then throw (sync_error res) else
      markCookieSession false ;;;
      ok <-- verifySession;
      if ok then ret () else throw "verify_failed"
  | None => throw "no_clerk_token"
  end.

Definition ClerkGate_effect (isLoaded isSignedIn : bool)
    (clerkToken : result string (option string)) (cancelled : bool) : M (list gate_act) :=
  if negb isLoaded then ret [] else
  if isSignedIn then
    ok <-- verifySession;
    if ok then ret (if negb cancelled then [SetState Ready] else []) else
    try_catch
      (clerk_exchange clerkToken ;;;
       ret (if negb cancelled then [SetState Ready] else []))
      (fun e => ret (if negb cancelled then [SetDetail e; SetState Failed] else []))
  else
    ok <-- verifySession;
    if ok then ret (if negb cancelled then [SetState Ready] else [])
    else ret [Replace "/login"].

Definition LegacyGate_effect (cancelled : bool) : M (list gate_act) :=
  ok <-- verifySession;
  if ok then ret (if negb cancelled then [SetState Ready] else [])
  else ret [Replace "/login"].

Definition apply_act (st : gate_state * string) (a : gate_act) : gate_state * string :=
  match a with
  | SetState s => (s, snd st)
  | SetDetail d => (fst st, d)
  | _ => st
  end.

(** What the gate renders. *)
Inductive gate_view := Children | SyncFailed (detail : string) | Loader (label : string).

Definition gate_init : gate_state * string := (Working, "sync_failed").

Definition ClerkGate_render (st : gate_state * string) : gate_view :=
  match fst st with
  | Ready => Children
  | Failed => SyncFailed (snd st)
  | Working => Loader "Syncing your session…"
  end.

Definition LegacyGate_render (st : gate_state * string) : gate_view :=
  match fst st with Ready => Children | _ => Loader "Verifying session…" end.

(** [ClerkSyncGate]: the Clerk gate when a key is configured, else the legacy
    gate; its view once the effect of the mount has run. *)
Definition ClerkSyncGate_mount (isLoaded isSignedIn : bool)
    (clerkToken : result string (option string)) (cancelled : bool) :
    M (gate_view * list gate_act) :=
  w <-- get_world;
  if truthy (env_clerk_key (w_env w)) then
    acts <-- ClerkGate_effect isLoaded isSignedIn clerkToken cancelled;
    ret (ClerkGate_render (fold_left apply_act acts gate_init), acts)
  else
    acts <-- LegacyGate_effect cancelled;
    ret (LegacyGate_render (fold_left apply_act acts gate_init), acts).

(** ** The SSO callback page *)

Inductive sso_status := SsoProcessing | SsoError | SsoDone.

Definition sso_status_of (token error : option string) : sso_status :=
  if truthy error then SsoError else if truthy token then SsoDone else SsoProcessing.

(** The cookie-only branch: mint the CSRF cookie, then ask the backend;
    [size] is [searchParams.size]. *)
Definition sso_cookie_flow (size : nat) (cancelled : bool) : M (list gate_act) :=
  ensureCsrfCookie ;;;
  w <-- get_world;
  try_catch
    (res <-- fetch "GET" (api_base w +:+ "/auth/me") [("Accept", "application/json")] None;
     ret (if negb cancelled && res_ok res then [Replace "/dashboard"]
          else if negb cancelled && (0 <? size)%nat
          then [Replace "/login?error=sso_failed"] else []))
    (fun _ => ret (if negb cancelled && (0 <? size)%nat
                   then [Replace "/login?error=sso_failed"] else [])).

Definition SsoCallbackHandler_effect (token error : option string) (size : nat)
    (cancelled : bool) : M (list gate_act) :=
  if truthy error then ret [] else
  if truthy token then
    setToken (default "" token) false ;;;
    ret [ReplaceHistory "/sso-callback"; Replace "/dashboard"]
  else sso_cookie_flow size cancelled.

(** ** Home and the platform-admin layout *)

Definition Home_effect : M (list gate_act) :=
  a <-- isAuthenticated;
  ret (if a then [Replace "/dashboard"] else [Replace "/login"]).

(** The state of the /admin/platform/me query as the query client reports it. *)
Inductive query_state :=
  | QDisabled
  | QLoading
  | QFetching (data : option Z)   (** background refetch, last status if any *)
  | QSuccess (status : Z)
  | QError.

Definition q_isSuccess (q : query_state) : bool :=
  match q with QSuccess _ => true | QFetching (Some _) => true | _ => false end.
Definition q_isError (q : query_state) : bool := match q with QError => true | _ => false end.
Definition q_isBusy (q : query_state) : bool :=
  match q with QLoading | QFetching _ => true | _ => false end.
Definition q_status (q : query_state) : option Z :=
  match q with QSuccess s => Some s | QFetching s => s | _ => None end.

Definition isPlatformAdmin (q : query_state) : bool := bool_decide (q_status q = Some 200%Z).

(** [useIsPlatformAdmin] *)
Definition useIsPlatformAdmin (q : query_state) : bool := isPlatformAdmin q.

(** The query's [enabled] flag. *)
Definition platform_query_enabled : M bool :=
  a <-- isAuthenticated; w <-- get_world; ret (a && w_window w).

Definition AdminLayout_bounce_effect (q : query_state) : list gate_act :=
  if q_isSuccess q && negb (isPlatformAdmin q) then [Replace "/dashboard"] else [].

Definition AdminLayout_session_effect (cancelled : bool) : M (list gate_act) :=
  w <-- get_world;
  if negb (w_window w) then ret [] else
  a <-- isAuthenticated;
  if negb a then ret [Replace "/login"] else
  ok <-- verifySession;
  ret (if negb ok && negb cancelled then [Replace "/login?reason=expired"] else []).

Inductive admin_view := AdminLoader (label : string) | AdminShell.

Definition AdminLayout_render (q : query_state) : M admin_view :=
  a <-- isAuthenticated;
  ret (if negb a || q_isBusy q then AdminLoader "Verifying admin access…"
       else if q_isError q || negb (isPlatformAdmin q) then AdminLoader "Redirecting…"
       else AdminShell).

(** ** Lemmas *)

(** Reasons about a branch on the session check through its interface. *)
Ltac on_verify :=
  match goal with |- context [bind verifySession ?k ?w0] =>
    pattern (bind verifySession k w0); apply (verified_branch verifySession) end.

(** A successful exchange ends with a verified session. *)
Lemma clerk_exchange_verified tok w w' :
  clerk_exchange tok w = (Ok (), w') -> last_verified w'.
Proof.
  unfold clerk_exchange. rewrite bind_get_world.
  destruct tok as [[t|]|e]; unfold bind at 1; cbn; try done.
  case_bool_decide; [done|]. unfold bind at 1.
  destruct (fetch _ _ _ _ w) as [[res|e] w1]; [|done].
  destruct (negb (res_ok res)); [done|]. unfold bind at 1.
  destruct (markCookieSession false w1) as [[[]|e] w2]; [|done].
  on_verify; [|done].
  intros w3 Hv Hr. unfold ret in Hr. by simplify_eq.
Qed.

(** The three ways a gate's effect ends. *)
Lemma ClerkGate_effect_cases loaded signed tok c w :
  exists acts w', ClerkGate_effect loaded signed tok c w = (Ok acts, w') /\
    ((acts = [] /\ (loaded = false \/ c = true)) \/
     (acts = [SetState Ready] /\ last_verified w') \/
     (exists e, acts = [SetDetail e; SetState Failed] /\ signed = true) \/
     (acts = [Replace "/login"] /\ signed = false)).
Proof.
  unfold ClerkGate_effect. destruct loaded; cbn [negb]; [|by eexists _, _; eauto].
  destruct signed.
  - on_verify; intros w1.
    { destruct c; eexists _, _; (split; [reflexivity|]); naive_solver. }
    unfold try_catch, bind. destruct (clerk_exchange tok w1) as [[[]|e] w2] eqn:Ex; cbn.
    + apply clerk_exchange_verified in Ex.
      destruct c; eexists _, _; (split; [reflexivity|]); naive_solver.
    + destruct c; eexists _, _; (split; [reflexivity|]); naive_solver.
  - on_verify; intros w1;
      [intros Hv; destruct c|]; eexists _, _; (split; [reflexivity|]); naive_solver.
Qed.

Lemma LegacyGate_effect_cases c w :
  exists acts w', LegacyGate_effect c w = (Ok acts, w') /\
    ((acts = [] /\ c = true) \/ (acts = [SetState Ready] /\ last_verified w') \/
     acts = [Replace "/login"]).
Proof.
  unfold LegacyGate_effect.
  on_verify; intros w1;
    [intros Hv; destruct c|]; eexists _, _; (split; [reflexivity|]); naive_solver.
Qed.

(** ** Properties *)

(** [C1] The protected children are rendered only behind a verified session:
    mounting the gate (with or without Clerk, whatever Clerk and the backend
    answer) never throws, and when it shows the children the last request it
    sent was GET /auth/me and was answered with a 2xx status. *)
Theorem gate_children_verified loaded signed tok cancelled w :
  exists v acts w', ClerkSyncGate_mount loaded signed tok cancelled w = (Ok (v, acts), w') /\
    (v = Children -> last_verified w').
Proof.
  unfold ClerkSyncGate_mount. rewrite bind_get_world. destruct (truthy _).
  - destruct (ClerkGate_effect_cases loaded signed tok cancelled w) as (acts & w' & E & H).
    rewrite (bind_ok _ _ _ _ _ E). eexists _, _, _. split; [reflexivity|].
    destruct H as [[Ha _]|[[Ha Hv]|[(e & Ha & _)|[Ha _]]]]; by subst.
  - destruct (LegacyGate_effect_cases cancelled w) as (acts & w' & E & H).
    rewrite (bind_ok _ _ _ _ _ E). eexists _, _, _. split; [reflexivity|].
    destruct H as [[Ha _]|[[Ha Hv]|Ha]]; by subst.
Qed.

(** [C12] The Clerk gate settles: once Clerk is loaded and while the component
    is mounted, the effect ends with the children, an error screen naming the
    cause (signed-in users), or a redirect to /login (no Clerk session); it is
    never left on the loader with nothing to do. *)
Theorem clerk_gate_settles signed tok w :
  exists acts w', ClerkGate_effect true signed tok false w = (Ok acts, w') /\
    (ClerkGate_render (fold_left apply_act acts gate_init) = Children \/
     (signed = true /\ exists e,
        ClerkGate_render (fold_left apply_act acts gate_init) = SyncFailed e) \/
     (signed = false /\ acts = [Replace "/login"])).
Proof.
  destruct (ClerkGate_effect_cases true signed tok false w) as (acts & w' & E & H).
  exists acts, w'. split; [done|].
  destruct H as [[_ [?|?]]|[[Ha Hv]|[(e & Ha & Hs)|[Ha Hs]]]]; subst; try done; eauto.
Qed.

(** The SSO callback opens the dashboard only on the backend's word or on
    a key taken from the URL. *)
Theorem sso_dashboard_cause token error size cancelled w acts w' :
  SsoCallbackHandler_effect token error size cancelled w = (Ok acts, w') ->
  Replace "/dashboard" ∈ acts -> truthy token = true \/ last_verified w'.
Proof.
  unfold SsoCallbackHandler_effect. destruct (truthy error).
  { intros H. unfold ret in H. simplify_eq. set_solver. }
  destruct (truthy token); [by left|]. unfold sso_cookie_flow, bind at 1.
  pose proof (run_op_oracle OpEnsureCsrf w) as [Hn He]. simpl in Hn, He.
  destruct (ensureCsrfCookie w) as [[[]|e] w1]; [|done]. rewrite bind_get_world.
  unfold try_catch, bind, fetch. set (rq := mkRequest _ _ _ _ _).
  destruct (w_net w1 _ rq) as [|r] eqn:En; intros H Hin; unfold ret in H; simplify_eq/=.
  - destruct (negb cancelled && _); set_solver.
  - destruct cancelled; simpl in Hin; [set_solver|].
    destruct (res_ok r) eqn:Hr; [|destruct (0 <? size)%nat; set_solver].
    right. exists (w_sent w1), rq, r. done.
Qed.

(** A key in the callback URL is adopted unchecked: with [?token=t] the
    page stores [t] as the tab's credential and opens the dashboard without
    asking the backend, whoever crafted the link. *)
Theorem sso_url_key_adopted t size cancelled w :
  working w = true -> t <> "" -> w_sent w = [] ->
  let '(r, w') := SsoCallbackHandler_effect (Some t) None size cancelled w in
  getToken w' = (Ok (Some t), w') /\ w_sent w' = [] /\
  (forall acts, r = Ok acts -> Replace "/dashboard" ∈ acts).
Proof.
  intros Hw Ht Hs. unfold SsoCallbackHandler_effect. cbn [truthy].
  rewrite bool_decide_false by done. cbn [negb]. change (default "" (Some t)) with t.
  pose proof (setToken_getToken t false w Hw Ht) as [Hg _].
  pose proof (setToken_sent t false w) as Hsent.
  unfold bind. cbv beta. destruct (setToken t false w) as [[[]|e] w1]; cbn [ret fst snd] in *.
  - split; [exact Hg|]. split; [congruence|]. intros acts H. simplify_eq. set_solver.
  - split; [exact Hg|]. split; [congruence|]. done.
Qed.

(** [C32] The administration area is shown only to platform admins: the layout
    renders the admin shell only when the caller looks signed in and the backend
    answered /admin/platform/me with status 200. *)
Theorem admin_shell_requires_200 q w w' :
  AdminLayout_render q w = (Ok AdminShell, w') ->
  exists a, isAuthenticated w = (Ok true, a) /\ q_status q = Some 200%Z.
Proof.
  unfold AdminLayout_render, bind. destruct (isAuthenticated w) as [[a|e] w1]; [|done].
  intros H. unfold ret in H. destruct a; [|by simplify_eq]. exists w1. split; [done|].
  destruct (q_isBusy q); [by simplify_eq|]. simpl in H.
  destruct (q_isError q); [by simplify_eq|]. simpl in H.
  unfold isPlatformAdmin in H. case_bool_decide; [done|by simplify_eq].
Qed.

(** A rejected admin query is never redirected: when the query ends in an
    error (which is how axios reports 401 and 403) the layout keeps showing
    "Redirecting…" and the effect that should leave the area does nothing. *)
Theorem admin_error_not_bounced w :
  (forall a w', isAuthenticated w = (Ok a, w') ->
     AdminLayout_render QError w =
     (Ok (AdminLoader (if a then "Redirecting…" else "Verifying admin access…")), w')) /\
  AdminLayout_bounce_effect QError = [].
Proof.
  split; [|done]. intros a w' E. unfold AdminLayout_render. rewrite (bind_ok _ _ _ _ _ E).
  by destruct a.
Qed.

(** ** Witnesses *)

Definition guarded_world : World :=
  demo_world ∅ [mkCookie "portcullis_token" "1" (Some 5000%Z) true false "Lax"].

Lemma sso_dashboard_cause_witness :
  truthy None = true \/
  last_verified (SsoCallbackHandler_effect None None 1 false (demo_world ∅ [])).2.
Proof.
  eapply (sso_dashboard_cause None None 1 false (demo_world ∅ []) [Replace "/dashboard"]);
    [reflexivity | set_solver].
Defined.

Lemma sso_url_key_adopted_witness :
  let '(r, w') := SsoCallbackHandler_effect (Some "pk_evil") None 1 false (demo_world ∅ []) in
  getToken w' = (Ok (Some "pk_evil"), w') /\ w_sent w' = [] /\
  (forall acts, r = Ok acts -> Replace "/dashboard" ∈ acts).
Proof. apply (sso_url_key_adopted "pk_evil" 1 false (demo_world ∅ [])); done. Defined.

Lemma admin_shell_requires_200_witness :
  exists a, isAuthenticated guarded_world = (Ok true, a) /\ q_status (QSuccess 200) = Some 200%Z.
Proof. by apply (admin_shell_requires_200 (QSuccess 200) guarded_world guarded_world). Defined.
