(* ===== verification/LoginForm.v ===== *)
(** * Sign-in, registration, password reset and MFA forms

    - [LegacySignInForm]: web/src/app/login/page.tsx
    - [LegacyRegisterForm]: web/src/app/register/legacy-form.tsx
    - [ForgotPasswordPage]: web/src/app/auth/forgot-password/page.tsx
    - [MFASetupPage]: web/src/app/auth/mfa/page.tsx *)

From S2P Require Import Prelude JsString JsUri Json Browser AuthStore AxiosClient.

(** [Number(s)] on decimal integers; [None] is NaN. *)
Definition js_Number (s : string) : option Z :=
  match trim s with
  | "" => Some 0%Z
  | String "-" r => Z.opp <$> parse_dec r
  | String "+" r => parse_dec r
  | t => parse_dec t
  end.

(** ** Sign in *)
Module SignIn.

Inductive AuthError :=
  | invalid_credentials | too_many_attempts | pending_approval
  | rejected | service_unavailable | session_expired.

Definition ERROR_MESSAGES (e : AuthError) : string * string :=
  match e with
  | invalid_credentials => ("Invalid credentials",
      "The email or password you entered was not recognised. Check them and try again.")
  | too_many_attempts => ("Too many attempts",
      "Your access has been temporarily locked. Try again in a few minutes.")
  | pending_approval => ("Account pending approval",
      "Your request to join an organization is still being reviewed. Please check back later.")
  | rejected => ("Access denied",
      "Your account has not been approved. Contact an organization admin for help.")
  | service_unavailable => ("Service unavailable",
      "Portcullis cannot be reached right now. Check your network or server status.")
  | session_expired => ("Session expired",
      "Your session has timed out. Please sign in again.")
  end.

Record form := mkForm {
  email : string;
  password : string;
  remember : bool;
  loading : bool;
  authError : option AuthError;
  attempts : Z }.

(** The component's initial state; [reason] is the query parameter. *)
Definition init (reason : option string) : form :=
  mkForm "" "" false false
    (if bool_decide (reason = Some "expired") then Some session_expired else None) 0.

Definition with_error (f : form) (e : option AuthError) (l : bool) (n : Z) : form :=
  mkForm (email f) (password f) (remember f) l e n.

Definition login_body (f : form) : json :=
  JObj [("email", JStr (trim (email f))); ("password", JStr (password f))].

(** JavaScript truthiness of a JSON value. *)
Definition json_truthy (v : option json) : bool :=
  match v with
  | None | Some JNull => false
  | Some (JBool b) => b
  | Some (JNum n) => negb (n =? 0)%Z
  | Some (JStr s) => negb (bool_decide (s = ""))
  | Some _ => true
  end.

(** [detail?.includes(sub)]: on a string, on an array, or a TypeError. *)
Definition detail_includes (detail : option json) (sub : string) : result string bool :=
  match detail with
  | None | Some JNull => Ok false
  | Some (JStr s) => Ok (includes s sub)
  | Some (JArr l) => Ok (existsb (fun v => match v with JStr s => bool_decide (s = sub) | _ => false end) l)
  | Some _ => Err "TypeError"
  end.

(** The error the catch block shows, from [err.response]. *)
Definition classify (response : option AxiosResponse) : result string AuthError :=
  match response with
  | None => Ok service_unavailable
  | Some r =>
      if (ax_status r =? 0)%Z then Ok service_unavailable
      else if (ax_status r =? 403)%Z then
        let detail := ax_data r ≫= json_field "detail" in
        match detail_includes detail "pending approval" with
        | Err e => Err e
        | Ok true => Ok pending_approval
        | Ok false =>
            match detail_includes detail "denied" with
            | Err e => Err e
            | Ok true => Ok rejected
            | Ok false => Ok invalid_credentials
            end
        end
      else Ok invalid_credentials
  end.

Definition ATTEMPTS_KEY : string := "pc_login_attempts".

Section submit.
Context (dispatch : AxiosDefaults -> AxiosConfig -> M (AxiosError + AxiosResponse)).

(** The [try] block; a failure is the [response] of the caught error. *)
Definition submit_try (f : form) : M (option AxiosResponse + unit) :=
  try_catch
    (r <-- axiosClient_request dispatch (mkConfig "/auth/login" "POST" ∅ (Some (login_body f)));
     match r with
     | inl e => ret (inl (ae_response e))
     | inr res =>
         let token := match nullish (ax_data res ≫= json_field "access_token") with
                      | Some t => Some t
                      | None => ax_data res ≫= json_field "token"
                      end in
         if negb (json_truthy token) then ret (inl None) else
         markCookieSession (remember f) ;;; ret (inr ())
     end)
    (fun _ => ret (inl None)).

Definition submit_rest (f : form) : M (form * list string) :=
  r <-- submit_try f;
  match r with
  | inr _ => ret (with_error f None false (attempts f), ["/dashboard"])
  | inl response =>
      let next := (attempts f + 1)%Z in
      attempt (sessionStorage_setItem ATTEMPTS_KEY (pretty next)) ;;;
      match classify response with
      | Ok e => ret (with_error f (Some e) false next, [])
      | Err e => throw e
      end
  end.

(** [handleSubmit]: the new form and the routes pushed. *)
Definition handleSubmit (f : form) : M (form * list string) :=
  item <-- sessionStorage_getItem ATTEMPTS_KEY;
  match (match item with Some s => js_Number s | None => Some (attempts f) end) with
  | Some n =>
      if (5 <=? n)%Z then ret (with_error f (Some too_many_attempts) (loading f) (attempts f), [])
      else submit_rest f
  | None => submit_rest f
  end.

(** [n] submissions of the same mounted form. *)
Fixpoint submits (n : nat) (f : form) : M form :=
  match n with
  | O => ret f
  | S n => r <-- handleSubmit f; submits n (r.1)
  end.

(** [n] submissions with a page reload before each: the component's state
    is fresh every time, the tab's storage is kept. *)
Fixpoint reload_submits (n : nat) (f : form) : M form :=
  match n with
  | O => ret f
  | S n => r <-- handleSubmit (mkForm (email f) (password f) (remember f) false None 0);
           reload_submits n (r.1)
  end.
End submit.

(** *** Lemmas *)

(** What a request keeps: the page, and every session item but the key. *)
Definition keeps (k : string) (w w' : World) : Prop :=
  w_window w' = w_window w /\ st_ok (w_session w') = st_ok (w_session w) /\
  st_quota (w_session w') = st_quota (w_session w) /\
  st_items (w_session w') !! k = st_items (w_session w) !! k.

#[export] Instance keeps_pre k : PreOrder (keeps k).
Proof.
  split; [done|]. intros a b c (?&?&?&?) (?&?&?&?). unfold keeps. by split_and!; etransitivity.
Qed.

Lemma request_interceptor_keeps k c : evolves (keeps k) (request_interceptor c).
Proof. unfold request_interceptor, sessionStorage_getItem, js_decodeURIComponent. evolve. Qed.

Lemma response_rejected_keeps k e : k <> SESSION_KEY -> evolves (keeps k) (response_rejected e).
Proof.
  intros Hk. unfold response_rejected. evolve.
  - intros w. unfold sessionStorage_removeItem, storage_remove.
    destruct (_ && _) eqn:E; [|done]. bool_hyps. split_and!; try done. simpl.
    by rewrite lookup_delete_ne.
  - intros w. done.
  - intros w. done.
Qed.

(** A backend (or network) that refuses every sign-in, with an answer the
    form can classify, and an axios that leaves the tab's storage alone. *)
Definition refuses (dispatch : AxiosDefaults -> AxiosConfig -> M (AxiosError + AxiosResponse)) : Prop :=
  forall df c w, exists e w', dispatch df c w = (Ok (inl e), w') /\ keeps ATTEMPTS_KEY w w' /\
    exists a, classify (ae_response e) = Ok a /\ a <> too_many_attempts.

Lemma submit_try_fails dispatch f w :
  refuses dispatch ->
  exists resp w', submit_try dispatch f w = (Ok (inl resp), w') /\ keeps ATTEMPTS_KEY w w' /\
    exists a, classify resp = Ok a /\ a <> too_many_attempts.
Proof.
  intros Hd. unfold submit_try, try_catch, axiosClient_request.
  set (c := mkConfig _ _ _ _). unfold bind, get_world.
  pose proof (request_interceptor_keeps ATTEMPTS_KEY c w) as K1.
  destruct (request_interceptor c w) as [[c'|e] w1]; simpl in K1.
  - destruct (Hd (axiosClient w) c' w1) as (e & w2 & -> & K2 & Hc).
    pose proof (response_rejected_keeps ATTEMPTS_KEY e ltac:(done) w2) as K3.
    destruct (response_rejected e w2) as [[e'|x] w3] eqn:E; simpl in K3.
    + assert (e' = e) as ->.
      { unfold response_rejected in E. rewrite bind_get_world in E.
        unfold bind, ret, navigate in E. repeat (case_match; simplify_eq/=; try done). }
      eexists _, w3. split; [reflexivity|]. split; [|done]. by transitivity w2; [transitivity w1|].
    + eexists _, w3. split; [reflexivity|]. split; [by transitivity w2; [transitivity w1|]|].
      by exists service_unavailable.
  - eexists _, w1. split; [reflexivity|]. split; [done|]. by exists service_unavailable.
Qed.

(** The tab's storage works and holds [n] recorded failures ([None]: none). *)
Definition recorded (n : option Z) (w : World) : Prop :=
  w_window w = true /\ st_ok (w_session w) = true /\ st_quota (w_session w) = true /\
  st_items (w_session w) !! ATTEMPTS_KEY = pretty <$> n.

Lemma recorded_keeps n w w' : keeps ATTEMPTS_KEY w w' -> recorded n w -> recorded n w'.
Proof. intros (?&?&?&?) (?&?&?&?). unfold recorded. split_and!; congruence. Qed.

Lemma read_attempts n w :
  recorded n w -> sessionStorage_getItem ATTEMPTS_KEY w = (Ok (pretty <$> n), w).
Proof.
  intros (Hw & Ho & _ & Hi). unfold sessionStorage_getItem, storage_get. by rewrite Hw, Ho, Hi.
Qed.

(** A refused submission counts one more attempt of this mount. *)
Lemma submit_rest_refused dispatch f w n :
  refuses dispatch -> recorded n w ->
  exists a w', submit_rest dispatch f w =
      (Ok (with_error f (Some a) false (attempts f + 1), []), w') /\
    a <> too_many_attempts /\ recorded (Some (attempts f + 1)%Z) w'.
Proof.
  intros Hd Hr. unfold submit_rest.
  destruct (submit_try_fails dispatch f w Hd) as (resp & w1 & E & K & a & Ha & Hne).
  rewrite (bind_ok _ _ _ _ _ E). rewrite bind_attempt, Ha.
  apply (recorded_keeps _ _ _ K) in Hr as (Hw & Ho & Hq & Hi).
  unfold sessionStorage_setItem, storage_set. rewrite Hw, Ho, Hq. cbn [andb].
  eexists a, _. split; [reflexivity|]. split; [done|]. split_and!; try done.
  simpl. apply lookup_insert_eq.
Qed.

Lemma small_numbers n : (0 <= n <= 5)%Z -> js_Number (pretty n) = Some n.
Proof.
  intros Hn. assert (n = 0 \/ n = 1 \/ n = 2 \/ n = 3 \/ n = 4 \/ n = 5)%Z as H by lia.
  by destruct H as [->|[->|[->|[->|[->| ->]]]]].
Qed.

(** What is on record agrees with the mounted form's counter. *)
Definition in_step (f : form) (w : World) : Prop :=
  recorded (Some (attempts f)) w \/ (attempts f = 0%Z /\ recorded None w).

Lemma handleSubmit_step dispatch f w :
  refuses dispatch -> in_step f w -> (0 <= attempts f <= 5)%Z ->
  exists g w', handleSubmit dispatch f w = (Ok (g, []), w') /\
    ((attempts f < 5)%Z /\ attempts g = (attempts f + 1)%Z /\ in_step g w' /\
       authError g <> Some too_many_attempts
     \/ attempts f = 5%Z /\ g = with_error f (Some too_many_attempts) (loading f) 5 /\ w' = w).
Proof.
  intros Hd Hs Hn. unfold handleSubmit.
  assert (exists o, recorded o w /\
    match (pretty <$> o) with Some s => js_Number s | None => Some (attempts f) end = Some (attempts f))
    as (o & Hr & Ho).
  { destruct Hs as [Hs|[H0 Hs]].
    - exists (Some (attempts f)). split; [done|]. simpl. by apply small_numbers.
    - by exists None. }
  rewrite (bind_ok _ _ _ _ _ (read_attempts _ _ Hr)), Ho.
  destruct (5 <=? attempts f)%Z eqn:E.
  - eexists _, w. split; [reflexivity|]. right. assert (attempts f = 5)%Z as -> by lia. done.
  - destruct (submit_rest_refused dispatch f w o Hd Hr) as (a & w' & -> & Ha & Hr').
    eexists _, w'. split; [reflexivity|]. left. simpl. split_and!; try done; [lia|by left|congruence].
Qed.

(** Five refused sign-ins lock the form: from a fresh tab, [n] refused
    submissions leave the counter at [min n 5], and from the sixth on the form
    answers "too many attempts" without contacting the backend. *)
Theorem lockout_after_five dispatch n f w :
  refuses dispatch -> attempts f = 0%Z -> recorded None w ->
  exists g w', submits dispatch n f w = (Ok g, w') /\
    attempts g = Z.of_nat (n `min` 5) /\
    (5 < n -> authError g = Some too_many_attempts)%nat.
Proof.
  intros Hd H0 Hr.
  assert (forall n f w, in_step f w -> (0 <= attempts f <= 5)%Z ->
    exists g w', submits dispatch n f w = (Ok g, w') /\
      attempts g = Z.min (attempts f + Z.of_nat n) 5 /\
      ((5 < attempts f + Z.of_nat n)%Z -> n <> O -> authError g = Some too_many_attempts)) as Hgen.
  { clear -Hd. induction n as [|n IH]; intros f w Hs Hf; cbn [submits].
    - exists f, w. split_and!; [done|lia|lia].
    - destruct (handleSubmit_step dispatch f w Hd Hs Hf) as (g & w' & E & Hc).
      rewrite (bind_ok _ _ _ _ _ E). cbn [fst].
      destruct Hc as [(Hlt & Ha & Hs' & _)|(H5 & -> & ->)].
      + destruct (IH g w' Hs' ltac:(lia)) as (g' & w'' & E' & Hm & He).
        exists g', w''. split_and!; [done|lia|]. intros ? _. apply He; lia.
      + destruct (IH (with_error f (Some too_many_attempts) (loading f) 5) w) as (g' & w'' & E' & Hm & He).
        { rewrite <- H5. destruct Hs as [Hs|[Hs _]]; [by left | lia]. }
        { simpl. lia. }
        exists g', w''. split_and!; [done|simpl in Hm; lia|]. intros _ _.
        destruct n; [|apply He; simpl; lia]. cbn [submits] in E'. unfold ret in E'. by simplify_eq. }
  destruct (Hgen n f w) as (g & w' & E & Hm & He); [right; done|lia|].
  exists g, w'. split_and!; [done|lia|]. intros ?. apply He; lia.
Qed.

(** Reloading the page defeats the lock: however many refused sign-ins
    are made, when each follows a reload every one of them reaches the backend
    and the form never answers "too many attempts". *)
Theorem reload_defeats_lockout dispatch n f w :
  refuses dispatch -> recorded None w -> authError f <> Some too_many_attempts ->
  exists g w', reload_submits dispatch n f w = (Ok g, w') /\
    authError g <> Some too_many_attempts.
Proof.
  intros Hd Hr He.
  assert (forall n f w o, o = None \/ o = Some 1%Z -> recorded o w -> authError f <> Some too_many_attempts ->
    exists g w', reload_submits dispatch n f w = (Ok g, w') /\ authError g <> Some too_many_attempts) as Hgen.
  { clear -Hd. induction n as [|n IH]; intros f w o Ho Hr He; cbn [reload_submits]; [by eexists _, _|].
    set (f0 := mkForm _ _ _ _ _ _). unfold handleSubmit.
    assert (handleSubmit dispatch f0 w = submit_rest dispatch f0 w) as Hrest.
    { unfold handleSubmit. rewrite (bind_ok _ _ _ _ _ (read_attempts _ _ Hr)).
      by destruct Ho as [->| ->]. }
    destruct (submit_rest_refused dispatch f0 w o Hd Hr) as (a & w' & E & Ha & Hr').
    rewrite <- Hrest in E. rewrite (bind_ok _ _ _ _ _ E). cbn [fst].
    apply (IH _ _ (Some 1%Z)); [by right|done|simpl; congruence]. }
  apply (Hgen n f w None); auto.
Qed.

Definition refusing : AxiosDefaults -> AxiosConfig -> M (AxiosError + AxiosResponse) :=
  fun _ _ => ret (inl (mkAxError "Request failed" (Some (mkAxResponse None 401 ∅)))).

Lemma refusing_refuses : refuses refusing.
Proof. intros df c w. eexists _, w. split; [reflexivity|]. split; [done|]. by exists invalid_credentials. Qed.

Lemma lockout_after_five_witness :
  exists g w', submits refusing 7 (init None) (demo_world ∅ []) = (Ok g, w') /\
    attempts g = Z.of_nat (7 `min` 5) /\ (5 < 7 -> authError g = Some too_many_attempts)%nat.
Proof. apply lockout_after_five; [apply refusing_refuses | done | done]. Defined.

Lemma reload_defeats_lockout_witness :
  exists g w', reload_submits refusing 100 (init None) (demo_world ∅ []) = (Ok g, w') /\
    authError g <> Some too_many_attempts.
Proof. apply reload_defeats_lockout; [apply refusing_refuses | done | done]. Defined.
End SignIn.

(** ** Password strength and registration *)

Definition is_upper (c : ascii) : bool := ((65 <=? code c) && (code c <=? 90))%N.
Definition is_digit (c : ascii) : bool := ((48 <=? code c) && (code c <=? 57))%N.

(** [/[p]/.test(s)] for a character class. *)
Fixpoint sexists (p : ascii -> bool) (s : string) : bool :=
  match s with "" => false | String c r => p c || sexists p r end.

Definition b2n (b : bool) : nat := if b then 1 else 0.

Module Register.

Definition passwordStrength (pw : string) : nat * string * string :=
  let score := (b2n (8 <=? String.length pw) + b2n (12 <=? String.length pw)
    + b2n (sexists is_upper pw) + b2n (sexists is_digit pw)
    + b2n (sexists (fun c => negb (is_alnum c)) pw))%nat in
  if (score <=? 1)%nat then (score, "Weak", "#F05D5E")
  else if (score <=? 2)%nat then (score, "Fair", "#F4B942")
  else if (score <=? 3)%nat then (score, "Good", "#48B8E8")
  else (score, "Strong", "#35C88A").

Inductive Flow := create | join_ | invitation.

Definition flow_id (f : Flow) : string :=
  match f with create => "create" | join_ => "join" | invitation => "invitation" end.

Definition FLOWS : list (Flow * string * string) :=
  [(create, "Create organization", "Start a new Portcullis workspace");
   (join_, "Join existing org", "Request access to an organization");
   (invitation, "Accept invitation", "You received an invite link")].

Definition INTENDED_USES : list string :=
  ["AI/ML infrastructure"; "Developer tooling"; "Security & compliance";
   "Product integration"; "Internal tooling"; "Research / academic"; "Other"].

Inductive approval_view := approved | pending.

Record form := mkForm {
  flow : Flow; fullName : string; email : string; password : string;
  orgName : string; inviteCode : string; intendedUse : string; terms : bool;
  submitted : bool; approval : approval_view; loading : bool; error : option string }.

(** [s || null] *)
Definition or_null (s : string) : json := if bool_decide (s = "") then JNull else JStr s.

Definition body (f : form) : json :=
  JObj [("full_name", JStr (trim (fullName f)));
        ("email", JStr (trim (email f)));
        ("password", JStr (password f));
        ("flow", JStr (flow_id (flow f)));
        ("org_name",
           if negb (bool_decide (trim (orgName f) = ""))
              && match flow f with create | join_ => true | invitation => false end
           then JStr (trim (orgName f)) else JNull);
        ("intended_use", or_null (intendedUse f));
        ("invite_code",
           match flow f with invitation => or_null (trim (inviteCode f)) | _ => JNull end)].

Definition update (f : form) (s : bool) (a : approval_view) (l : bool) (e : option string) : form :=
  mkForm (flow f) (fullName f) (email f) (password f) (orgName f) (inviteCode f)
    (intendedUse f) (terms f) s a l e.

(** The message of the catch block, from [err.response]. *)
Definition error_text (response : option AxiosResponse) : string :=
  let detail := (response ≫= ax_data) ≫= json_field "detail" in
  let or_else d := match nullish detail with Some v => js_String v | None => d end in
  match option_map ax_status response with
  | Some 409%Z => or_else "An account with this email already exists."
  | Some 422%Z => "Please check the form — some fields are missing or invalid."
  | Some 401%Z => or_else "Registration failed. Try again."
  | _ => "Portcullis cannot be reached right now. Check your network or server status."
  end.

Section submit.
Context (dispatch : AxiosDefaults -> AxiosConfig -> M (AxiosError + AxiosResponse)).

Definition submit_try (f : form) : M (option AxiosResponse + approval_view) :=
  try_catch
    (r <-- axiosClient_request dispatch (mkConfig "/auth/register" "POST" ∅ (Some (body f)));
     match r with
     | inl e => ret (inl (ae_response e))
     | inr res =>
         let token := ax_data res ≫= json_field "access_token" in
         let status := (ax_data res ≫= json_field "user") ≫= json_field "approval_status" in
         (if SignIn.json_truthy token then setToken (from_option js_String "" token) false
          else ret ()) ;;;
         ret (inr (match status with
                   | Some (JStr s) => if bool_decide (s = "pending") then pending else approved
                   | _ => approved
                   end))
     end)
    (fun _ => ret (inl None)).

Definition handleSubmit (f : form) : M form :=
  if negb (terms f) then ret f else
  r <-- submit_try f;
  ret (match r with
       | inr a => update f true a false None
       | inl response => update f (submitted f) (approval f) false (Some (error_text response))
       end).
End submit.

Lemma sexists_app p s t : sexists p (s +:+ t) = sexists p s || sexists p t.
Proof. induction s as [|c s IH]; [done|]. rewrite app_cons. simpl. by rewrite IH, orb_assoc. Qed.

(** The strength meter never goes down while typing: extending a
    password in either direction cannot lower its score, the score stays within
    0..5, and the meter reads "Strong" exactly from score 4. *)
Theorem strength_monotone a pw b :
  let '(s1, _, _) := passwordStrength pw in
  let '(s2, label, _) := passwordStrength (a +:+ pw +:+ b) in
  (s1 <= s2 <= 5)%nat /\ (label = "Strong" <-> (4 <= s2)%nat).
Proof.
  unfold passwordStrength.
  set (s1 := (b2n (8 <=? String.length pw) + _ + _ + _ + _)%nat).
  set (s2 := (b2n (8 <=? String.length (a +:+ pw +:+ b)) + _ + _ + _ + _)%nat).
  assert (s1 <= s2 <= 5)%nat as Hs.
  { subst s1 s2. rewrite !sexists_app, !sapp_length.
    assert (forall x y z, b2n x <= b2n (y || (x || z)) <= 1)%nat as Hb by (by intros [] [] []; simpl; lia).
    assert (forall k, b2n (k <=? String.length pw) <=
      b2n (k <=? String.length a + (String.length pw + String.length b)) <= 1)%nat as Hl.
    { intros k.
      destruct (Nat.leb_spec k (String.length pw)),
        (Nat.leb_spec k (String.length a + (String.length pw + String.length b))); simpl; lia. }
    pose proof (Hl 8%nat). pose proof (Hl 12%nat).
    pose proof (Hb (sexists is_upper pw) (sexists is_upper a) (sexists is_upper b)).
    pose proof (Hb (sexists is_digit pw) (sexists is_digit a) (sexists is_digit b)).
    pose proof (Hb (sexists (fun c => negb (is_alnum c)) pw)
      (sexists (fun c => negb (is_alnum c)) a) (sexists (fun c => negb (is_alnum c)) b)). lia. }
  clearbody s1 s2.
  destruct (s1 <=? 1)%nat, (s1 <=? 2)%nat, (s1 <=? 3)%nat, (s2 <=? 1)%nat eqn:E1,
    (s2 <=? 2)%nat eqn:E2, (s2 <=? 3)%nat eqn:E3;
    rewrite ?Nat.leb_le, ?Nat.leb_gt in *; (split; [lia|]); split; intros; try done; lia.
Qed.
End Register.

(** ** Password reset *)
Module ForgotPassword.

Definition STRENGTH_RULES : list (string * (string -> bool)) :=
  [("At least 8 characters", fun pw => (8 <=? String.length pw)%nat);
   ("At least one uppercase letter", sexists is_upper);
   ("At least one number", sexists is_digit);
   ("At least one special character", sexists (fun c => negb (is_alnum c)))].

Definition strengthScore (pw : string) : nat :=
  length (List.filter (fun r => r.2 pw) STRENGTH_RULES).

Definition strengthMeta (score : nat) : string * string :=
  if (score <=? 1)%nat then ("Weak", "#F05D5E")
  else if (score <=? 2)%nat then ("Fair", "#F4B942")
  else if (score =? 3)%nat then ("Good", "#48B8E8")
  else ("Strong", "#35C88A").

Inductive Step := request | sent | reset | success.

Record page := mkPage {
  step : Step; newPw : string; confirmPw : string; mismatch : bool }.

Definition requestReset (p : page) : page := mkPage sent (newPw p) (confirmPw p) (mismatch p).

Definition submitReset (p : page) : page :=
  if negb (bool_decide (newPw p = confirmPw p))
  then mkPage (step p) (newPw p) (confirmPw p) true
  else mkPage success (newPw p) (confirmPw p) false.
End ForgotPassword.

(** The registration meter and the reset meter differ by one rule: the
    register score of a password is its reset score plus one when it has twelve
    characters or more, so below twelve characters the two pages agree. *)
Theorem meters_agree pw :
  (Register.passwordStrength pw).1.1 =
  (ForgotPassword.strengthScore pw + b2n (12 <=? String.length pw)%nat)%nat /\
  (String.length pw < 12 ->
   (Register.passwordStrength pw).1.2 =
   (ForgotPassword.strengthMeta (ForgotPassword.strengthScore pw)).1)%nat.
Proof.
  assert (ForgotPassword.strengthScore pw =
    (b2n (8 <=? String.length pw) + b2n (sexists is_upper pw) + b2n (sexists is_digit pw)
     + b2n (sexists (fun c => negb (is_alnum c)) pw))%nat) as ->.
  { unfold ForgotPassword.strengthScore, ForgotPassword.STRENGTH_RULES. simpl.
    repeat match goal with |- context [if ?b then _ else _] => destruct b end; done. }
  unfold Register.passwordStrength, ForgotPassword.strengthMeta.
  destruct (8 <=? String.length pw)%nat, (12 <=? String.length pw)%nat eqn:E12,
    (sexists is_upper pw), (sexists is_digit pw), (sexists _ pw); simpl;
    (split; [done|]); try done; intros; apply Nat.leb_le in E12; lia.
Qed.

(** ** MFA setup *)
Module MfaSetup.

Definition SETUP_KEY : string := "JBSW Y3DP EHPK 3PXP".
Definition TOTP_URI : string :=
  "otpauth://totp/Portcullis:user@example.com?secret=JBSWC3DPEHPK3PXP&issuer=Portcullis&algorithm=SHA1&digits=6&period=30".

Definition RECOVERY_CODES : list string :=
  ["A4K2-9MXN"; "B7RQ-1PLW"; "C3YD-5HJT"; "D9WZ-8GNK";
   "E1SV-4BFM"; "F6PX-2LRC"; "G8NT-7DVQ"; "H5JK-3YWA"].

Inductive Step := setup | verify | recovery | done_.

Definition steps : list (Step * string) :=
  [(setup, "Scan QR"); (verify, "Verify"); (recovery, "Recovery"); (done_, "Complete")].

Definition recovery_file : string :=
  "Portcullis MFA Recovery Codes" +:+ String "010" "" +:+
  "Keep these codes safe. Each code can only be used once." +:+ String "010" (String "010" "") +:+
  join (String "010" "") RECOVERY_CODES.

(** [/^\d{6}$/.test(code)] *)
Definition six_digits (code : string) : bool :=
  (String.length code =? 6)%nat && sforall is_digit code.

Record page := mkPage { step : Step; code : string; codeError : bool }.

Definition verifyCode (p : page) : page :=
  if six_digits (code p) then mkPage recovery (code p) (codeError p)
  else mkPage (step p) (code p) true.

(** [SETUP_KEY.replace(/\s/g, "")], the key the copy button offers. *)
Fixpoint strip_ws (s : string) : string :=
  match s with "" => "" | String c r => if is_ws c then strip_ws r else String c (strip_ws r) end.

Definition uri_secret : option string :=
  take_until "&" <$> find_after "secret=" TOTP_URI.

(** The two ways to enrol an authenticator disagree: the secret in the
    QR code's URI and the key offered for manual entry are different, so a user
    who types the key generates other codes than one who scans. *)
Theorem setup_key_mismatch :
  uri_secret = Some "JBSWC3DPEHPK3PXP" /\ strip_ws SETUP_KEY = "JBSWY3DPEHPK3PXP" /\
  uri_secret <> Some (strip_ws SETUP_KEY).
Proof. by vm_compute. Qed.
End MfaSetup.
