(* ===== verification/ApiTypes.v ===== *)
(** * The API's data types: web/src/api/generated.ts, lines 27-819

    One record per generated interface and one inductive type per generated
    enumeration, with the enumeration's runtime strings.  A nullable field
    ([T | null]) and an optional field ([f?: T]) are options; a field that is
    both is an option of an option, the outer one for presence.  Numbers are
    integers: every number of the API is a count, a limit or a duration. *)

From S2P Require Import Prelude Json.

Record ApiKeyCreate := mkApiKeyCreate {
  ApiKeyCreate_name : string;
  ApiKeyCreate_scopes : option (list string) }.

Record ApiKeyView := mkApiKeyView {
  ApiKeyView_id : string;
  ApiKeyView_name : string;
  ApiKeyView_key_prefix : string;
  ApiKeyView_scopes : list string;
  ApiKeyView_created_at : string;
  ApiKeyView_last_used_at : option string }.

Record ApiKeyCreateResponse := mkApiKeyCreateResponse {
  ApiKeyCreateResponse_key : ApiKeyView;
  ApiKeyCreateResponse_plaintext : string }.

Record ApprovalDecision := mkApprovalDecision {
  ApprovalDecision_user_id : string }.

Inductive AuditEventType :=
  | AuditEventType_auth_failure
  | AuditEventType_platform_admin_granted
  | AuditEventType_rbac_deny
  | AuditEventType_tool_call
  | AuditEventType_tenant_provisioned.

#[export] Instance AuditEventType_eq : EqDecision AuditEventType.
Proof. solve_decision. Defined.

Definition AuditEventType_value (x : AuditEventType) : string :=
  match x with
  | AuditEventType_auth_failure => "auth_failure"
  | AuditEventType_platform_admin_granted => "platform_admin_granted"
  | AuditEventType_rbac_deny => "rbac_deny"
  | AuditEventType_tool_call => "tool_call"
  | AuditEventType_tenant_provisioned => "tenant_provisioned"
  end.

Definition AuditLogViewDetail : Type := list (string * json).

Inductive SubjectType :=
  | SubjectType_api_key
  | SubjectType_oauth_subject.

#[export] Instance SubjectType_eq : EqDecision SubjectType.
Proof. solve_decision. Defined.

Definition SubjectType_value (x : SubjectType) : string :=
  match x with
  | SubjectType_api_key => "api_key"
  | SubjectType_oauth_subject => "oauth_subject"
  end.

Record AuditLogView := mkAuditLogView {
  AuditLogView_id : string;
  AuditLogView_tenant_id : option string;
  AuditLogView_subject_id : option string;
  AuditLogView_subject_type : option SubjectType;
  AuditLogView_event_type : AuditEventType;
  AuditLogView_server_slug : option string;
  AuditLogView_tool_name : option string;
  AuditLogView_rpc_method : option string;
  AuditLogView_outcome : string;
  AuditLogView_client_ip : option string;
  AuditLogView_request_id : option string;
  AuditLogView_detail : AuditLogViewDetail;
  AuditLogView_created_at : string }.

Inductive UserApprovalStatus :=
  | UserApprovalStatus_approved
  | UserApprovalStatus_pending
  | UserApprovalStatus_rejected.

#[export] Instance UserApprovalStatus_eq : EqDecision UserApprovalStatus.
Proof. solve_decision. Defined.

Definition UserApprovalStatus_value (x : UserApprovalStatus) : string :=
  match x with
  | UserApprovalStatus_approved => "approved"
  | UserApprovalStatus_pending => "pending"
  | UserApprovalStatus_rejected => "rejected"
  end.

Inductive OrgRole :=
  | OrgRole_org_owner
  | OrgRole_org_admin
  | OrgRole_developer
  | OrgRole_viewer.

#[export] Instance OrgRole_eq : EqDecision OrgRole.
Proof. solve_decision. Defined.

Definition OrgRole_value (x : OrgRole) : string :=
  match x with
  | OrgRole_org_owner => "org_owner"
  | OrgRole_org_admin => "org_admin"
  | OrgRole_developer => "developer"
  | OrgRole_viewer => "viewer"
  end.

Record UserView := mkUserView {
  UserView_id : string;
  UserView_email : string;
  UserView_full_name : string;
  UserView_org_name : option string;
  UserView_intended_use : option string;
  UserView_is_active : bool;
  UserView_approval_status : UserApprovalStatus;
  UserView_is_platform_admin : option bool;
  UserView_org_role : option (option OrgRole);
  UserView_created_at : string;
  UserView_updated_at : string;
  UserView_access_token : option (option string) }.

Record AuthResponse := mkAuthResponse {
  AuthResponse_access_token : string;
  AuthResponse_token_type : option string;
  AuthResponse_user : UserView }.

Definition ValidationErrorCtx : Type := list (string * json).

Record ValidationError := mkValidationError {
  ValidationError_loc : list json;
  ValidationError_msg : string;
  ValidationError_type : string;
  ValidationError_input : option json;
  ValidationError_ctx : option ValidationErrorCtx }.

Record HTTPValidationError := mkHTTPValidationError {
  HTTPValidationError_detail : option (list ValidationError) }.

Record InstanceHeartbeatRequest := mkInstanceHeartbeatRequest {
  InstanceHeartbeatRequest_install_id : string;
  InstanceHeartbeatRequest_version : string;
  InstanceHeartbeatRequest_server_count : option Z }.

Record InstanceSummaryView := mkInstanceSummaryView {
  InstanceSummaryView_total : Z;
  InstanceSummaryView_active_24h : Z }.

Record InstanceView := mkInstanceView {
  InstanceView_install_id : string;
  InstanceView_version : string;
  InstanceView_server_count : Z;
  InstanceView_first_seen_at : string;
  InstanceView_last_seen_at : string }.

Inductive InvitationStatus :=
  | InvitationStatus_active
  | InvitationStatus_used
  | InvitationStatus_revoked
  | InvitationStatus_expired.

#[export] Instance InvitationStatus_eq : EqDecision InvitationStatus.
Proof. solve_decision. Defined.

Definition InvitationStatus_value (x : InvitationStatus) : string :=
  match x with
  | InvitationStatus_active => "active"
  | InvitationStatus_used => "used"
  | InvitationStatus_revoked => "revoked"
  | InvitationStatus_expired => "expired"
  end.

Record InviteCreate := mkInviteCreate {
  InviteCreate_org_name : string;
  InviteCreate_email : option (option string);
  InviteCreate_expires_in_days : option (option Z);
  InviteCreate_role : option OrgRole }.

Record InviteView := mkInviteView {
  InviteView_id : string;
  InviteView_org_name : string;
  InviteView_email : option string;
  InviteView_status : InvitationStatus;
  InviteView_role : OrgRole;
  InviteView_redeemed_by : option string;
  InviteView_redeemed_at : option string;
  InviteView_expires_at : option string;
  InviteView_created_at : string;
  InviteView_code : option (option string) }.

Inductive LicensePlan :=
  | LicensePlan_community
  | LicensePlan_pro
  | LicensePlan_enterprise.

#[export] Instance LicensePlan_eq : EqDecision LicensePlan.
Proof. solve_decision. Defined.

Definition LicensePlan_value (x : LicensePlan) : string :=
  match x with
  | LicensePlan_community => "community"
  | LicensePlan_pro => "pro"
  | LicensePlan_enterprise => "enterprise"
  end.

Record LicenseCreate := mkLicenseCreate {
  LicenseCreate_plan : LicensePlan;
  LicenseCreate_licensee : string;
  LicenseCreate_seat_limit : Z;
  LicenseCreate_server_limit : option (option Z);
  LicenseCreate_expires_in_days : Z }.

Inductive LicenseStatus :=
  | LicenseStatus_active
  | LicenseStatus_expired
  | LicenseStatus_revoked.

#[export] Instance LicenseStatus_eq : EqDecision LicenseStatus.
Proof. solve_decision. Defined.

Definition LicenseStatus_value (x : LicenseStatus) : string :=
  match x with
  | LicenseStatus_active => "active"
  | LicenseStatus_expired => "expired"
  | LicenseStatus_revoked => "revoked"
  end.

Record LicenseView := mkLicenseView {
  LicenseView_id : string;
  LicenseView_plan : LicensePlan;
  LicenseView_status : LicenseStatus;
  LicenseView_seat_limit : Z;
  LicenseView_server_limit : option Z;
  LicenseView_issued_at : string;
  LicenseView_expires_at : string;
  LicenseView_revoked_at : option string;
  LicenseView_licensee : string;
  LicenseView_created_at : string;
  LicenseView_updated_at : string }.

Record LicenseIssueResponse := mkLicenseIssueResponse {
  LicenseIssueResponse_license : LicenseView;
  LicenseIssueResponse_key : string }.

Record LicenseUsageView := mkLicenseUsageView {
  LicenseUsageView_id : string;
  LicenseUsageView_plan : LicensePlan;
  LicenseUsageView_status : LicenseStatus;
  LicenseUsageView_seat_limit : Z;
  LicenseUsageView_server_limit : option Z;
  LicenseUsageView_issued_at : string;
  LicenseUsageView_expires_at : string;
  LicenseUsageView_revoked_at : option string;
  LicenseUsageView_licensee : string;
  LicenseUsageView_created_at : string;
  LicenseUsageView_updated_at : string;
  LicenseUsageView_seats_used : option Z;
  LicenseUsageView_servers_used : option Z }.

Record LoginRequest := mkLoginRequest {
  LoginRequest_email : string;
  LoginRequest_password : string }.

Inductive OrgMemberRole :=
  | OrgMemberRole_org_owner
  | OrgMemberRole_org_admin
  | OrgMemberRole_developer
  | OrgMemberRole_team_member
  | OrgMemberRole_viewer
  | OrgMemberRole_auditor
  | OrgMemberRole_billing_admin.

#[export] Instance OrgMemberRole_eq : EqDecision OrgMemberRole.
Proof. solve_decision. Defined.

Definition OrgMemberRole_value (x : OrgMemberRole) : string :=
  match x with
  | OrgMemberRole_org_owner => "org_owner"
  | OrgMemberRole_org_admin => "org_admin"
  | OrgMemberRole_developer => "developer"
  | OrgMemberRole_team_member => "team_member"
  | OrgMemberRole_viewer => "viewer"
  | OrgMemberRole_auditor => "auditor"
  | OrgMemberRole_billing_admin => "billing_admin"
  end.

Record OrgMemberCreate := mkOrgMemberCreate {
  OrgMemberCreate_user_subject : string;
  OrgMemberCreate_admin_role : option OrgMemberRole;
  OrgMemberCreate_team_id : option (option string) }.

Record OrgMemberUpdate := mkOrgMemberUpdate {
  OrgMemberUpdate_admin_role : option (option OrgMemberRole);
  OrgMemberUpdate_team_id : option (option string) }.

Record OrgMemberView := mkOrgMemberView {
  OrgMemberView_id : string;
  OrgMemberView_tenant_id : string;
  OrgMemberView_user_subject : string;
  OrgMemberView_admin_role : OrgMemberRole;
  OrgMemberView_team_id : option string;
  OrgMemberView_created_at : string;
  OrgMemberView_updated_at : string }.

Inductive PermissionEffect :=
  | PermissionEffect_allow
  | PermissionEffect_deny.

#[export] Instance PermissionEffect_eq : EqDecision PermissionEffect.
Proof. solve_decision. Defined.

Definition PermissionEffect_value (x : PermissionEffect) : string :=
  match x with
  | PermissionEffect_allow => "allow"
  | PermissionEffect_deny => "deny"
  end.

Record PlatformAdminMe := mkPlatformAdminMe {
  PlatformAdminMe_is_platform_admin : bool;
  PlatformAdminMe_user : UserView }.

Inductive RateLimitAlgorithm :=
  | RateLimitAlgorithm_token_bucket
  | RateLimitAlgorithm_sliding_window.

#[export] Instance RateLimitAlgorithm_eq : EqDecision RateLimitAlgorithm.
Proof. solve_decision. Defined.

Definition RateLimitAlgorithm_value (x : RateLimitAlgorithm) : string :=
  match x with
  | RateLimitAlgorithm_token_bucket => "token_bucket"
  | RateLimitAlgorithm_sliding_window => "sliding_window"
  end.

Record RateLimitPolicyCreate := mkRateLimitPolicyCreate {
  RateLimitPolicyCreate_subject_id : option (option string);
  RateLimitPolicyCreate_subject_type : option SubjectType;
  RateLimitPolicyCreate_server_pattern : option (option string);
  RateLimitPolicyCreate_tool_pattern : option (option string);
  RateLimitPolicyCreate_algorithm : RateLimitAlgorithm;
  RateLimitPolicyCreate_request_limit : Z;
  RateLimitPolicyCreate_window_seconds : Z;
  RateLimitPolicyCreate_burst_capacity : option (option Z);
  RateLimitPolicyCreate_priority : option Z }.

Record RateLimitPolicyUpdate := mkRateLimitPolicyUpdate {
  RateLimitPolicyUpdate_request_limit : option (option Z);
  RateLimitPolicyUpdate_window_seconds : option (option Z);
  RateLimitPolicyUpdate_burst_capacity : option (option Z);
  RateLimitPolicyUpdate_priority : option (option Z) }.

Record RateLimitPolicyView := mkRateLimitPolicyView {
  RateLimitPolicyView_id : string;
  RateLimitPolicyView_subject_id : option string;
  RateLimitPolicyView_subject_type : option SubjectType;
  RateLimitPolicyView_server_pattern : option string;
  RateLimitPolicyView_tool_pattern : option string;
  RateLimitPolicyView_algorithm : RateLimitAlgorithm;
  RateLimitPolicyView_request_limit : Z;
  RateLimitPolicyView_window_seconds : Z;
  RateLimitPolicyView_burst_capacity : option Z;
  RateLimitPolicyView_priority : Z;
  RateLimitPolicyView_created_at : string;
  RateLimitPolicyView_updated_at : string }.

Inductive RegisterRequestFlow :=
  | RegisterRequestFlow_create
  | RegisterRequestFlow_join
  | RegisterRequestFlow_invitation.

#[export] Instance RegisterRequestFlow_eq : EqDecision RegisterRequestFlow.
Proof. solve_decision. Defined.

Definition RegisterRequestFlow_value (x : RegisterRequestFlow) : string :=
  match x with
  | RegisterRequestFlow_create => "create"
  | RegisterRequestFlow_join => "join"
  | RegisterRequestFlow_invitation => "invitation"
  end.

Record RegisterRequest := mkRegisterRequest {
  RegisterRequest_full_name : string;
  RegisterRequest_email : string;
  RegisterRequest_password : string;
  RegisterRequest_flow : option RegisterRequestFlow;
  RegisterRequest_org_name : option (option string);
  RegisterRequest_intended_use : option (option string);
  RegisterRequest_invite_code : option (option string) }.

Record RoleBindingCreate := mkRoleBindingCreate {
  RoleBindingCreate_subject_id : string;
  RoleBindingCreate_subject_type : option SubjectType }.

Record RoleBindingView := mkRoleBindingView {
  RoleBindingView_id : string;
  RoleBindingView_role_id : string;
  RoleBindingView_subject_type : SubjectType;
  RoleBindingView_subject_id : string;
  RoleBindingView_created_at : string }.

Record RoleCreate := mkRoleCreate {
  RoleCreate_name : string }.

Record RoleView := mkRoleView {
  RoleView_id : string;
  RoleView_name : string;
  RoleView_created_at : string }.

Inductive ServerAuthMode :=
  | ServerAuthMode_none
  | ServerAuthMode_service_token.

#[export] Instance ServerAuthMode_eq : EqDecision ServerAuthMode.
Proof. solve_decision. Defined.

Definition ServerAuthMode_value (x : ServerAuthMode) : string :=
  match x with
  | ServerAuthMode_none => "none"
  | ServerAuthMode_service_token => "service_token"
  end.

Inductive ServerTransport :=
  | ServerTransport_streamable_http.

#[export] Instance ServerTransport_eq : EqDecision ServerTransport.
Proof. solve_decision. Defined.

Definition ServerTransport_value (x : ServerTransport) : string :=
  match x with
  | ServerTransport_streamable_http => "streamable_http"
  end.

Record ServerCreate := mkServerCreate {
  ServerCreate_name : string;
  ServerCreate_slug : string;
  ServerCreate_upstream_url : string;
  ServerCreate_transport : option ServerTransport;
  ServerCreate_auth_mode : option ServerAuthMode;
  ServerCreate_service_token_env_var : option (option string);
  ServerCreate_ssl_ca : option (option string);
  ServerCreate_ssl_cert : option (option string);
  ServerCreate_ssl_key : option (option string);
  ServerCreate_health_check_path : option string }.

Inductive ServerStatus :=
  | ServerStatus_active
  | ServerStatus_disabled
  | ServerStatus_unhealthy.

#[export] Instance ServerStatus_eq : EqDecision ServerStatus.
Proof. solve_decision. Defined.

Definition ServerStatus_value (x : ServerStatus) : string :=
  match x with
  | ServerStatus_active => "active"
  | ServerStatus_disabled => "disabled"
  | ServerStatus_unhealthy => "unhealthy"
  end.

Record ServerUpdate := mkServerUpdate {
  ServerUpdate_name : option (option string);
  ServerUpdate_slug : option (option string);
  ServerUpdate_upstream_url : option (option string);
  ServerUpdate_transport : option (option ServerTransport);
  ServerUpdate_auth_mode : option (option ServerAuthMode);
  ServerUpdate_service_token_env_var : option (option string);
  ServerUpdate_ssl_ca : option (option string);
  ServerUpdate_ssl_cert : option (option string);
  ServerUpdate_ssl_key : option (option string);
  ServerUpdate_health_check_path : option (option string);
  ServerUpdate_status : option (option ServerStatus) }.

Record ServerView := mkServerView {
  ServerView_id : string;
  ServerView_tenant_id : string;
  ServerView_name : string;
  ServerView_slug : string;
  ServerView_upstream_url : string;
  ServerView_transport : ServerTransport;
  ServerView_auth_mode : ServerAuthMode;
  ServerView_ssl_ca : option (option string);
  ServerView_ssl_cert : option (option string);
  ServerView_ssl_key : option (option string);
  ServerView_status : ServerStatus;
  ServerView_health_check_path : string;
  ServerView_consecutive_health_failures : Z;
  ServerView_last_health_check_at : option string;
  ServerView_created_at : string;
  ServerView_updated_at : string }.

Record TeamCreate := mkTeamCreate {
  TeamCreate_name : string }.

Record TeamUpdate := mkTeamUpdate {
  TeamUpdate_name : option (option string) }.

Record TeamView := mkTeamView {
  TeamView_id : string;
  TeamView_tenant_id : string;
  TeamView_name : string;
  TeamView_created_at : string;
  TeamView_updated_at : string;
  TeamView_server_ids : option (list string) }.

Record TenantProvisionRequest := mkTenantProvisionRequest {
  TenantProvisionRequest_name : string;
  TenantProvisionRequest_slug : string;
  TenantProvisionRequest_owner_email : string;
  TenantProvisionRequest_owner_full_name : string;
  TenantProvisionRequest_owner_password : option (option string);
  TenantProvisionRequest_plan : option LicensePlan;
  TenantProvisionRequest_licensee : option (option string);
  TenantProvisionRequest_seat_limit : option Z;
  TenantProvisionRequest_server_limit : option (option Z);
  TenantProvisionRequest_expires_in_days : option Z }.

Record TenantView := mkTenantView {
  TenantView_id : string;
  TenantView_name : string;
  TenantView_slug : string;
  TenantView_created_at : string;
  TenantView_plan : option (option LicensePlan) }.

Record TenantProvisionResponse := mkTenantProvisionResponse {
  TenantProvisionResponse_tenant : TenantView;
  TenantProvisionResponse_owner : UserView;
  TenantProvisionResponse_access_token : string;
  TenantProvisionResponse_owner_password : option (option string);
  TenantProvisionResponse_license : LicenseView;
  TenantProvisionResponse_license_key : string }.

Record ToolPermissionCreate := mkToolPermissionCreate {
  ToolPermissionCreate_server_pattern : string;
  ToolPermissionCreate_tool_pattern : string;
  ToolPermissionCreate_effect : PermissionEffect;
  ToolPermissionCreate_priority : option Z }.

Record ToolPermissionView := mkToolPermissionView {
  ToolPermissionView_id : string;
  ToolPermissionView_role_id : string;
  ToolPermissionView_server_pattern : string;
  ToolPermissionView_tool_pattern : string;
  ToolPermissionView_effect : PermissionEffect;
  ToolPermissionView_priority : Z;
  ToolPermissionView_created_at : string }.

Record UsageView := mkUsageView {
  UsageView_requests : option Z;
  UsageView_tool_calls : option Z;
  UsageView_rbac_denials : option Z;
  UsageView_rate_limit_rejections : option Z;
  UsageView_period_start : string;
  UsageView_period_end : string;
  UsageView_plan : option (option LicensePlan);
  UsageView_monthly_request_cap : option Z;
  UsageView_enforcement_enabled : option bool }.

Record SsoCallbackAuthSsoSlugCallbackGetParams := mkSsoCallbackAuthSsoSlugCallbackGetParams {
  SsoCallbackAuthSsoSlugCallbackGetParams_code : option (option string);
  SsoCallbackAuthSsoSlugCallbackGetParams_state : option (option string);
  SsoCallbackAuthSsoSlugCallbackGetParams_error : option (option string);
  SsoCallbackAuthSsoSlugCallbackGetParams_error_description : option (option string) }.

Record ListAuditLogsV1AuditGetParams := mkListAuditLogsV1AuditGetParams {
  ListAuditLogsV1AuditGetParams_limit : option Z;
  ListAuditLogsV1AuditGetParams_offset : option Z;
  ListAuditLogsV1AuditGetParams_event_type : option (option AuditEventType);
  ListAuditLogsV1AuditGetParams_server_slug : option (option string);
  ListAuditLogsV1AuditGetParams_subject_id : option (option string);
  ListAuditLogsV1AuditGetParams_outcome : option (option string);
  ListAuditLogsV1AuditGetParams_start_date : option (option string);
  ListAuditLogsV1AuditGetParams_end_date : option (option string) }.
