(* ===== verification/ApiClient.v ===== *)
(** * The API client: web/src/api/generated.ts

    The orval client: for each of the 62 operations its URL builder, its request
    function, and its react-query options (a key and a query function for the
    GET operations, a mutation function for the others).  Names are the
    source's.  Response types are erased: a reply is what [axiosInstance]
    returns.  [signal] is not modelled, since [axiosInstance] drops it. *)

From S2P Require Import Prelude JsString JsUri Json Browser AuthStore AxiosClient.

(** ** Shared shapes *)

(** [Object.entries(params || {})]: [None] is a present key whose value is
    [undefined]; the outer option is the argument itself. *)
Definition Params : Type := option (list (string * option json)).

Definition entries (params : Params) : list (string * option json) := default [] params.

(** The [forEach] that skips [undefined] and stringifies the rest. *)
Definition normalizedParams (params : Params) : list (string * string) :=
  omap (fun kv => match kv.2 with
                  | Some v => Some (kv.1, js_String v)
                  | None => None
                  end) (entries params).

Definition with_params (path : string) (params : Params) : string :=
  let stringifiedParams := URLSearchParams_toString (normalizedParams params) in
  if (0 <? String.length stringifiedParams)%nat then path +:+ "?" +:+ stringifiedParams else path.

(** [{...options, method}] *)
Definition init_plain (method : string) (options : option RequestInit) : RequestInit :=
  mkInit (Some method) (from_option in_headers ∅ options) (options ≫= in_body).

(** [{...options, method, headers: {'Content-Type': ..., ...options?.headers},
    body: JSON.stringify(data)}] *)
Definition init_json (method : string) (data : json) (options : option RequestInit) : RequestInit :=
  mkInit (Some method)
    (from_option in_headers ∅ options ∪ {["Content-Type" := "application/json"]})
    (Some (JStr (JSON_stringify data))).

(** Elements of a query key: the URL, then the parameters when given. *)
Inductive key_item := KUrl (url : string) | KParams (entries : list (string * option json)).
Definition QueryKey : Type := list key_item.

Definition params_key (params : Params) : QueryKey :=
  match params with Some e => [KParams e] | None => [] end.

Definition Reply : Type := M (AxiosError + orval_response).

(** The options a caller may override: [{query: {...}, request}]. *)
Record QuerySpread := mkQuerySpread {
  qs_queryKey : option QueryKey;
  qs_queryFn : option Reply;
  qs_enabled : option bool;
  qs_retry : option bool;
  qs_staleTime : option Z }.

Record QueryArgs := mkQueryArgs {
  qa_query : option QuerySpread;
  qa_request : option RequestInit }.

Record QueryOptions := mkQueryOptions {
  qo_queryKey : QueryKey;
  qo_queryFn : Reply;
  qo_enabled : option bool;
  qo_retry : option bool;
  qo_staleTime : option Z }.

Definition no_init : RequestInit := mkInit None ∅ None.

(** The body shared by every [get...QueryOptions]:
    [{queryKey, queryFn, enabled?, ...queryOptions}].  [enabled] is
    [id !== null && id !== undefined] where the operation has a path
    parameter: [Some true] on the strings of the model. *)
Definition query_options (key : QueryKey) (enabled : option bool)
    (fn : RequestInit -> Reply) (options : option QueryArgs) : QueryOptions :=
  let queryOptions := options ≫= qa_query in
  let requestOptions := options ≫= qa_request in
  let queryKey := default key (queryOptions ≫= qs_queryKey) in
  let queryFn := fn (default no_init requestOptions) in
  mkQueryOptions queryKey
    (default queryFn (queryOptions ≫= qs_queryFn))
    (match queryOptions ≫= qs_enabled with Some e => Some e | None => enabled end)
    (queryOptions ≫= qs_retry)
    (queryOptions ≫= qs_staleTime).

Record MutationSpread := mkMutationSpread {
  ms_mutationKey : option (list string);
  ms_retry : option bool }.

Record MutationArgs := mkMutationArgs {
  ma_mutation : option MutationSpread;
  ma_request : option RequestInit }.

Record MutationOptions (P : Type) := mkMutationOptions {
  mo_mutationKey : option (list string);
  mo_mutationFn : P -> Reply;
  mo_retry : option bool }.
Arguments mkMutationOptions {P} _ _ _.
Arguments mo_mutationKey {P} _.
Arguments mo_mutationFn {P} _ _.
Arguments mo_retry {P} _.

(** The body shared by every [get...MutationOptions]: the default key unless
    the caller gives one, and the mutation function over the request options. *)
Definition mutation_options {P} (name : string) (fn : P -> option RequestInit -> Reply)
    (options : option MutationArgs) : MutationOptions P :=
  let mutationKey := [name] in
  let '(mutation, request) :=
    match options with
    | Some o =>
        match ma_mutation o ≫= ms_mutationKey with
        | Some _ => (ma_mutation o, ma_request o)
        | None => (Some (mkMutationSpread (Some mutationKey) (ma_mutation o ≫= ms_retry)), ma_request o)
        end
    | None => (Some (mkMutationSpread (Some mutationKey) None), None)
    end in
  mkMutationOptions (mutation ≫= ms_mutationKey) (fun props => fn props request)
    (mutation ≫= ms_retry).

(** [withQueryKey(query, queryKey)]: the query result's own properties, with
    the explicit key always winning.  An object is the list of its enumerable
    properties in order; the getters the source installs read the same values
    while the query object is unchanged. *)
Definition withQueryKey {K V} (query : list (string * V)) (queryKey : K) : list (string * (K + V)) :=
  ("queryKey", inl queryKey) ::
  map (fun kv => (kv.1, inr (kv.2))) (filter (fun kv => kv.1 <> "queryKey") query).

Inductive operation :=
  | Op_healthzHealthzGet
  | Op_registerAuthRegisterPost (registerRequest : json)
  | Op_loginAuthLoginPost (loginRequest : json)
  | Op_meAuthMeGet
  | Op_createInviteAuthInvitesPost (inviteCreate : json)
  | Op_listInvitesAuthInvitesGet
  | Op_revokeInviteAuthInvitesInviteIdRevokePost (inviteId : string)
  | Op_listPendingUsersAuthPendingUsersGet
  | Op_approveUserAuthPendingUsersUserIdApprovePost (userId : string) (approvalDecision : json)
  | Op_rejectUserAuthPendingUsersUserIdRejectPost (userId : string)
  | Op_createTeamAuthTeamsPost (teamCreate : json)
  | Op_listTeamsAuthTeamsGet
  | Op_getTeamAuthTeamsTeamIdGet (teamId : string)
  | Op_updateTeamAuthTeamsTeamIdPatch (teamId : string) (teamUpdate : json)
  | Op_deleteTeamAuthTeamsTeamIdDelete (teamId : string)
  | Op_addServerToTeamAuthTeamsTeamIdServersServerIdPost (teamId serverId : string)
  | Op_removeServerFromTeamAuthTeamsTeamIdServersServerIdDelete (teamId serverId : string)
  | Op_createMemberAuthMembersPost (orgMemberCreate : json)
  | Op_listMembersAuthMembersGet
  | Op_getMemberAuthMembersMemberIdGet (memberId : string)
  | Op_updateMemberAuthMembersMemberIdPatch (memberId : string) (orgMemberUpdate : json)
  | Op_deleteMemberAuthMembersMemberIdDelete (memberId : string)
  | Op_listTeamMembersAuthTeamsTeamIdMembersGet (teamId : string)
  | Op_ssoLoginAuthSsoSlugLoginGet (slug : string)
  | Op_ssoCallbackAuthSsoSlugCallbackGet (slug : string) (params : Params)
  | Op_createServerV1ServersPost (serverCreate : json)
  | Op_listServersV1ServersGet
  | Op_getServerV1ServersSlugGet (slug : string)
  | Op_updateServerV1ServersSlugPatch (slug : string) (serverUpdate : json)
  | Op_deleteServerV1ServersSlugDelete (slug : string)
  | Op_triggerHealthProbeV1ServersSlugHealthPost (slug : string)
  | Op_createApiKeyV1ApiKeysPost (apiKeyCreate : json)
  | Op_listApiKeysV1ApiKeysGet
  | Op_revokeApiKeyV1ApiKeysKeyIdDelete (keyId : string)
  | Op_createRoleV1RolesPost (roleCreate : json)
  | Op_listRolesV1RolesGet
  | Op_createBindingV1RolesRoleIdBindingsPost (roleId : string) (roleBindingCreate : json)
  | Op_deleteBindingV1RolesRoleIdBindingsBindingIdDelete (roleId bindingId : string)
  | Op_createPermissionV1RolesRoleIdPermissionsPost (roleId : string) (toolPermissionCreate : json)
  | Op_deletePermissionV1RolesRoleIdPermissionsPermissionIdDelete (roleId permissionId : string)
  | Op_createPolicyV1RateLimitPoliciesPost (rateLimitPolicyCreate : json)
  | Op_listPoliciesV1RateLimitPoliciesGet
  | Op_updatePolicyV1RateLimitPoliciesPolicyIdPatch (policyId : string) (rateLimitPolicyUpdate : json)
  | Op_deletePolicyV1RateLimitPoliciesPolicyIdDelete (policyId : string)
  | Op_listAuditLogsV1AuditGet (params : Params)
  | Op_platformAdminMeAdminPlatformMeGet
  | Op_adminGetLicenseAdminPlatformLicenseGet
  | Op_adminIssueLicenseAdminPlatformLicensePost (licenseCreate : json)
  | Op_adminRevokeLicenseAdminPlatformLicenseRevokePost
  | Op_orgGetLicenseV1LicenseGet
  | Op_tenantGetLicenseAdminTenantsTenantIdLicenseGet (tenantId : string)
  | Op_tenantIssueLicenseAdminTenantsTenantIdLicensePost (tenantId : string) (licenseCreate : json)
  | Op_tenantRevokeLicenseAdminTenantsTenantIdLicenseRevokePost (tenantId : string)
  | Op_listTenantsAdminTenantsGet
  | Op_provisionTenantAdminTenantsPost (tenantProvisionRequest : json)
  | Op_orgUsageV1UsageGet
  | Op_adminUsageAdminUsageGet
  | Op_heartbeatV1TelemetryHeartbeatPost (instanceHeartbeatRequest : json)
  | Op_adminTelemetrySummaryAdminTelemetrySummaryGet
  | Op_adminTelemetryInstancesAdminTelemetryInstancesGet
  | Op_mcpProxyMcpServerSlugPost (serverSlug : string)
  | Op_mcpSseStreamMcpServerSlugGet (serverSlug : string).

Section client.
Context (dispatch : AxiosDefaults -> AxiosConfig -> M (AxiosError + AxiosResponse)).

(** *** [healthzHealthzGet]: GET /healthz *)
Definition getHealthzHealthzGetUrl : string := "/healthz".

Definition healthzHealthzGet (options : option RequestInit) : Reply :=
  axiosInstance dispatch getHealthzHealthzGetUrl (init_plain "GET" options).

Definition getHealthzHealthzGetQueryKey : QueryKey := [KUrl ("/healthz")].

Definition getHealthzHealthzGetQueryOptions (options : option QueryArgs) : QueryOptions :=
  query_options getHealthzHealthzGetQueryKey None (fun init => healthzHealthzGet (Some init)) options.

(** *** [registerAuthRegisterPost]: POST /auth/register *)
Definition getRegisterAuthRegisterPostUrl : string := "/auth/register".

Definition registerAuthRegisterPost (registerRequest : json) (options : option RequestInit) : Reply :=
  axiosInstance dispatch getRegisterAuthRegisterPostUrl (init_json "POST" registerRequest options).

Definition getRegisterAuthRegisterPostMutationOptions (options : option MutationArgs) : MutationOptions (json) :=
  mutation_options "registerAuthRegisterPost" (fun data request => registerAuthRegisterPost data request) options.

(** *** [loginAuthLoginPost]: POST /auth/login *)
Definition getLoginAuthLoginPostUrl : string := "/auth/login".

Definition loginAuthLoginPost (loginRequest : json) (options : option RequestInit) : Reply :=
  axiosInstance dispatch getLoginAuthLoginPostUrl (init_json "POST" loginRequest options).

Definition getLoginAuthLoginPostMutationOptions (options : option MutationArgs) : MutationOptions (json) :=
  mutation_options "loginAuthLoginPost" (fun data request => loginAuthLoginPost data request) options.

(** *** [meAuthMeGet]: GET /auth/me *)
Definition getMeAuthMeGetUrl : string := "/auth/me".

Definition meAuthMeGet (options : option RequestInit) : Reply :=
  axiosInstance dispatch getMeAuthMeGetUrl (init_plain "GET" options).

Definition getMeAuthMeGetQueryKey : QueryKey := [KUrl ("/auth/me")].

Definition getMeAuthMeGetQueryOptions (options : option QueryArgs) : QueryOptions :=
  query_options getMeAuthMeGetQueryKey None (fun init => meAuthMeGet (Some init)) options.

(** *** [createInviteAuthInvitesPost]: POST /auth/invites *)
Definition getCreateInviteAuthInvitesPostUrl : string := "/auth/invites".

Definition createInviteAuthInvitesPost (inviteCreate : json) (options : option RequestInit) : Reply :=
  axiosInstance dispatch getCreateInviteAuthInvitesPostUrl (init_json "POST" inviteCreate options).

Definition getCreateInviteAuthInvitesPostMutationOptions (options : option MutationArgs) : MutationOptions (json) :=
  mutation_options "createInviteAuthInvitesPost" (fun data request => createInviteAuthInvitesPost data request) options.

(** *** [listInvitesAuthInvitesGet]: GET /auth/invites *)
Definition getListInvitesAuthInvitesGetUrl : string := "/auth/invites".

Definition listInvitesAuthInvitesGet (options : option RequestInit) : Reply :=
  axiosInstance dispatch getListInvitesAuthInvitesGetUrl (init_plain "GET" options).

Definition getListInvitesAuthInvitesGetQueryKey : QueryKey := [KUrl ("/auth/invites")].

Definition getListInvitesAuthInvitesGetQueryOptions (options : option QueryArgs) : QueryOptions :=
  query_options getListInvitesAuthInvitesGetQueryKey None (fun init => listInvitesAuthInvitesGet (Some init)) options.

(** *** [revokeInviteAuthInvitesInviteIdRevokePost]: POST /auth/invites/{inviteId}/revoke *)
Definition getRevokeInviteAuthInvitesInviteIdRevokePostUrl (inviteId : string) : string := "/auth/invites/" +:+ inviteId +:+ "/revoke".

Definition revokeInviteAuthInvitesInviteIdRevokePost (inviteId : string) (options : option RequestInit) : Reply :=
  axiosInstance dispatch (getRevokeInviteAuthInvitesInviteIdRevokePostUrl inviteId) (init_plain "POST" options).

Definition getRevokeInviteAuthInvitesInviteIdRevokePostMutationOptions (options : option MutationArgs) : MutationOptions (string) :=
  mutation_options "revokeInviteAuthInvitesInviteIdRevokePost" (fun inviteId request => revokeInviteAuthInvitesInviteIdRevokePost inviteId request) options.

(** *** [listPendingUsersAuthPendingUsersGet]: GET /auth/pending-users *)
Definition getListPendingUsersAuthPendingUsersGetUrl : string := "/auth/pending-users".

Definition listPendingUsersAuthPendingUsersGet (options : option RequestInit) : Reply :=
  axiosInstance dispatch getListPendingUsersAuthPendingUsersGetUrl (init_plain "GET" options).

Definition getListPendingUsersAuthPendingUsersGetQueryKey : QueryKey := [KUrl ("/auth/pending-users")].

Definition getListPendingUsersAuthPendingUsersGetQueryOptions (options : option QueryArgs) : QueryOptions :=
  query_options getListPendingUsersAuthPendingUsersGetQueryKey None (fun init => listPendingUsersAuthPendingUsersGet (Some init)) options.

(** *** [approveUserAuthPendingUsersUserIdApprovePost]: POST /auth/pending-users/{userId}/approve *)
Definition getApproveUserAuthPendingUsersUserIdApprovePostUrl (userId : string) : string := "/auth/pending-users/" +:+ userId +:+ "/approve".

Definition approveUserAuthPendingUsersUserIdApprovePost (userId : string) (approvalDecision : json) (options : option RequestInit) : Reply :=
  axiosInstance dispatch (getApproveUserAuthPendingUsersUserIdApprovePostUrl userId) (init_json "POST" approvalDecision options).

Definition getApproveUserAuthPendingUsersUserIdApprovePostMutationOptions (options : option MutationArgs) : MutationOptions (string * json) :=
  mutation_options "approveUserAuthPendingUsersUserIdApprovePost" (fun '(userId, data) request => approveUserAuthPendingUsersUserIdApprovePost userId data request) options.

(** *** [rejectUserAuthPendingUsersUserIdRejectPost]: POST /auth/pending-users/{userId}/reject *)
Definition getRejectUserAuthPendingUsersUserIdRejectPostUrl (userId : string) : string := "/auth/pending-users/" +:+ userId +:+ "/reject".

Definition rejectUserAuthPendingUsersUserIdRejectPost (userId : string) (options : option RequestInit) : Reply :=
  axiosInstance dispatch (getRejectUserAuthPendingUsersUserIdRejectPostUrl userId) (init_plain "POST" options).

Definition getRejectUserAuthPendingUsersUserIdRejectPostMutationOptions (options : option MutationArgs) : MutationOptions (string) :=
  mutation_options "rejectUserAuthPendingUsersUserIdRejectPost" (fun userId request => rejectUserAuthPendingUsersUserIdRejectPost userId request) options.

(** *** [createTeamAuthTeamsPost]: POST /auth/teams *)
Definition getCreateTeamAuthTeamsPostUrl : string := "/auth/teams".

Definition createTeamAuthTeamsPost (teamCreate : json) (options : option RequestInit) : Reply :=
  axiosInstance dispatch getCreateTeamAuthTeamsPostUrl (init_json "POST" teamCreate options).

Definition getCreateTeamAuthTeamsPostMutationOptions (options : option MutationArgs) : MutationOptions (json) :=
  mutation_options "createTeamAuthTeamsPost" (fun data request => createTeamAuthTeamsPost data request) options.

(** *** [listTeamsAuthTeamsGet]: GET /auth/teams *)
Definition getListTeamsAuthTeamsGetUrl : string := "/auth/teams".

Definition listTeamsAuthTeamsGet (options : option RequestInit) : Reply :=
  axiosInstance dispatch getListTeamsAuthTeamsGetUrl (init_plain "GET" options).

Definition getListTeamsAuthTeamsGetQueryKey : QueryKey := [KUrl ("/auth/teams")].

Definition getListTeamsAuthTeamsGetQueryOptions (options : option QueryArgs) : QueryOptions :=
  query_options getListTeamsAuthTeamsGetQueryKey None (fun init => listTeamsAuthTeamsGet (Some init)) options.

(** *** [getTeamAuthTeamsTeamIdGet]: GET /auth/teams/{teamId} *)
Definition getGetTeamAuthTeamsTeamIdGetUrl (teamId : string) : string := "/auth/teams/" +:+ teamId.

Definition getTeamAuthTeamsTeamIdGet (teamId : string) (options : option RequestInit) : Reply :=
  axiosInstance dispatch (getGetTeamAuthTeamsTeamIdGetUrl teamId) (init_plain "GET" options).

Definition getGetTeamAuthTeamsTeamIdGetQueryKey (teamId : string) : QueryKey := [KUrl ("/auth/teams/" +:+ teamId)].

Definition getGetTeamAuthTeamsTeamIdGetQueryOptions (teamId : string) (options : option QueryArgs) : QueryOptions :=
  query_options (getGetTeamAuthTeamsTeamIdGetQueryKey teamId) (Some true) (fun init => getTeamAuthTeamsTeamIdGet teamId (Some init)) options.

(** *** [updateTeamAuthTeamsTeamIdPatch]: PATCH /auth/teams/{teamId} *)
Definition getUpdateTeamAuthTeamsTeamIdPatchUrl (teamId : string) : string := "/auth/teams/" +:+ teamId.

Definition updateTeamAuthTeamsTeamIdPatch (teamId : string) (teamUpdate : json) (options : option RequestInit) : Reply :=
  axiosInstance dispatch (getUpdateTeamAuthTeamsTeamIdPatchUrl teamId) (init_json "PATCH" teamUpdate options).

Definition getUpdateTeamAuthTeamsTeamIdPatchMutationOptions (options : option MutationArgs) : MutationOptions (string * json) :=
  mutation_options "updateTeamAuthTeamsTeamIdPatch" (fun '(teamId, data) request => updateTeamAuthTeamsTeamIdPatch teamId data request) options.

(** *** [deleteTeamAuthTeamsTeamIdDelete]: DELETE /auth/teams/{teamId} *)
Definition getDeleteTeamAuthTeamsTeamIdDeleteUrl (teamId : string) : string := "/auth/teams/" +:+ teamId.

Definition deleteTeamAuthTeamsTeamIdDelete (teamId : string) (options : option RequestInit) : Reply :=
  axiosInstance dispatch (getDeleteTeamAuthTeamsTeamIdDeleteUrl teamId) (init_plain "DELETE" options).

Definition getDeleteTeamAuthTeamsTeamIdDeleteMutationOptions (options : option MutationArgs) : MutationOptions (string) :=
  mutation_options "deleteTeamAuthTeamsTeamIdDelete" (fun teamId request => deleteTeamAuthTeamsTeamIdDelete teamId request) options.

(** *** [addServerToTeamAuthTeamsTeamIdServersServerIdPost]: POST /auth/teams/{teamId}/servers/{serverId} *)
Definition getAddServerToTeamAuthTeamsTeamIdServersServerIdPostUrl (teamId serverId : string) : string := "/auth/teams/" +:+ teamId +:+ "/servers/" +:+ serverId.

Definition addServerToTeamAuthTeamsTeamIdServersServerIdPost (teamId serverId : string) (options : option RequestInit) : Reply :=
  axiosInstance dispatch (getAddServerToTeamAuthTeamsTeamIdServersServerIdPostUrl teamId serverId) (init_plain "POST" options).

Definition getAddServerToTeamAuthTeamsTeamIdServersServerIdPostMutationOptions (options : option MutationArgs) : MutationOptions (string * string) :=
  mutation_options "addServerToTeamAuthTeamsTeamIdServersServerIdPost" (fun '(teamId, serverId) request => addServerToTeamAuthTeamsTeamIdServersServerIdPost teamId serverId request) options.

(** *** [removeServerFromTeamAuthTeamsTeamIdServersServerIdDelete]: DELETE /auth/teams/{teamId}/servers/{serverId} *)
Definition getRemoveServerFromTeamAuthTeamsTeamIdServersServerIdDeleteUrl (teamId serverId : string) : string := "/auth/teams/" +:+ teamId +:+ "/servers/" +:+ serverId.

Definition removeServerFromTeamAuthTeamsTeamIdServersServerIdDelete (teamId serverId : string) (options : option RequestInit) : Reply :=
  axiosInstance dispatch (getRemoveServerFromTeamAuthTeamsTeamIdServersServerIdDeleteUrl teamId serverId) (init_plain "DELETE" options).

Definition getRemoveServerFromTeamAuthTeamsTeamIdServersServerIdDeleteMutationOptions (options : option MutationArgs) : MutationOptions (string * string) :=
  mutation_options "removeServerFromTeamAuthTeamsTeamIdServersServerIdDelete" (fun '(teamId, serverId) request => removeServerFromTeamAuthTeamsTeamIdServersServerIdDelete teamId serverId request) options.

(** *** [createMemberAuthMembersPost]: POST /auth/members *)
Definition getCreateMemberAuthMembersPostUrl : string := "/auth/members".

Definition createMemberAuthMembersPost (orgMemberCreate : json) (options : option RequestInit) : Reply :=
  axiosInstance dispatch getCreateMemberAuthMembersPostUrl (init_json "POST" orgMemberCreate options).

Definition getCreateMemberAuthMembersPostMutationOptions (options : option MutationArgs) : MutationOptions (json) :=
  mutation_options "createMemberAuthMembersPost" (fun data request => createMemberAuthMembersPost data request) options.

(** *** [listMembersAuthMembersGet]: GET /auth/members *)
Definition getListMembersAuthMembersGetUrl : string := "/auth/members".

Definition listMembersAuthMembersGet (options : option RequestInit) : Reply :=
  axiosInstance dispatch getListMembersAuthMembersGetUrl (init_plain "GET" options).

Definition getListMembersAuthMembersGetQueryKey : QueryKey := [KUrl ("/auth/members")].

Definition getListMembersAuthMembersGetQueryOptions (options : option QueryArgs) : QueryOptions :=
  query_options getListMembersAuthMembersGetQueryKey None (fun init => listMembersAuthMembersGet (Some init)) options.

(** *** [getMemberAuthMembersMemberIdGet]: GET /auth/members/{memberId} *)
Definition getGetMemberAuthMembersMemberIdGetUrl (memberId : string) : string := "/auth/members/" +:+ memberId.

Definition getMemberAuthMembersMemberIdGet (memberId : string) (options : option RequestInit) : Reply :=
  axiosInstance dispatch (getGetMemberAuthMembersMemberIdGetUrl memberId) (init_plain "GET" options).

Definition getGetMemberAuthMembersMemberIdGetQueryKey (memberId : string) : QueryKey := [KUrl ("/auth/members/" +:+ memberId)].

Definition getGetMemberAuthMembersMemberIdGetQueryOptions (memberId : string) (options : option QueryArgs) : QueryOptions :=
  query_options (getGetMemberAuthMembersMemberIdGetQueryKey memberId) (Some true) (fun init => getMemberAuthMembersMemberIdGet memberId (Some init)) options.

(** *** [updateMemberAuthMembersMemberIdPatch]: PATCH /auth/members/{memberId} *)
Definition getUpdateMemberAuthMembersMemberIdPatchUrl (memberId : string) : string := "/auth/members/" +:+ memberId.

Definition updateMemberAuthMembersMemberIdPatch (memberId : string) (orgMemberUpdate : json) (options : option RequestInit) : Reply :=
  axiosInstance dispatch (getUpdateMemberAuthMembersMemberIdPatchUrl memberId) (init_json "PATCH" orgMemberUpdate options).

Definition getUpdateMemberAuthMembersMemberIdPatchMutationOptions (options : option MutationArgs) : MutationOptions (string * json) :=
  mutation_options "updateMemberAuthMembersMemberIdPatch" (fun '(memberId, data) request => updateMemberAuthMembersMemberIdPatch memberId data request) options.

(** *** [deleteMemberAuthMembersMemberIdDelete]: DELETE /auth/members/{memberId} *)
Definition getDeleteMemberAuthMembersMemberIdDeleteUrl (memberId : string) : string := "/auth/members/" +:+ memberId.

Definition deleteMemberAuthMembersMemberIdDelete (memberId : string) (options : option RequestInit) : Reply :=
  axiosInstance dispatch (getDeleteMemberAuthMembersMemberIdDeleteUrl memberId) (init_plain "DELETE" options).

Definition getDeleteMemberAuthMembersMemberIdDeleteMutationOptions (options : option MutationArgs) : MutationOptions (string) :=
  mutation_options "deleteMemberAuthMembersMemberIdDelete" (fun memberId request => deleteMemberAuthMembersMemberIdDelete memberId request) options.

(** *** [listTeamMembersAuthTeamsTeamIdMembersGet]: GET /auth/teams/{teamId}/members *)
Definition getListTeamMembersAuthTeamsTeamIdMembersGetUrl (teamId : string) : string := "/auth/teams/" +:+ teamId +:+ "/members".

Definition listTeamMembersAuthTeamsTeamIdMembersGet (teamId : string) (options : option RequestInit) : Reply :=
  axiosInstance dispatch (getListTeamMembersAuthTeamsTeamIdMembersGetUrl teamId) (init_plain "GET" options).

Definition getListTeamMembersAuthTeamsTeamIdMembersGetQueryKey (teamId : string) : QueryKey := [KUrl ("/auth/teams/" +:+ teamId +:+ "/members")].

Definition getListTeamMembersAuthTeamsTeamIdMembersGetQueryOptions (teamId : string) (options : option QueryArgs) : QueryOptions :=
  query_options (getListTeamMembersAuthTeamsTeamIdMembersGetQueryKey teamId) (Some true) (fun init => listTeamMembersAuthTeamsTeamIdMembersGet teamId (Some init)) options.

(** *** [ssoLoginAuthSsoSlugLoginGet]: GET /auth/sso/{slug}/login *)
Definition getSsoLoginAuthSsoSlugLoginGetUrl (slug : string) : string := "/auth/sso/" +:+ slug +:+ "/login".

Definition ssoLoginAuthSsoSlugLoginGet (slug : string) (options : option RequestInit) : Reply :=
  axiosInstance dispatch (getSsoLoginAuthSsoSlugLoginGetUrl slug) (init_plain "GET" options).

Definition getSsoLoginAuthSsoSlugLoginGetQueryKey (slug : string) : QueryKey := [KUrl ("/auth/sso/" +:+ slug +:+ "/login")].

Definition getSsoLoginAuthSsoSlugLoginGetQueryOptions (slug : string) (options : option QueryArgs) : QueryOptions :=
  query_options (getSsoLoginAuthSsoSlugLoginGetQueryKey slug) (Some true) (fun init => ssoLoginAuthSsoSlugLoginGet slug (Some init)) options.

(** *** [ssoCallbackAuthSsoSlugCallbackGet]: GET /auth/sso/{slug}/callback *)
Definition getSsoCallbackAuthSsoSlugCallbackGetUrl (slug : string) (params : Params) : string :=
  with_params ("/auth/sso/" +:+ slug +:+ "/callback") params.

Definition ssoCallbackAuthSsoSlugCallbackGet (slug : string) (params : Params) (options : option RequestInit) : Reply :=
  axiosInstance dispatch (getSsoCallbackAuthSsoSlugCallbackGetUrl slug params) (init_plain "GET" options).

Definition getSsoCallbackAuthSsoSlugCallbackGetQueryKey (slug : string) (params : Params) : QueryKey := KUrl ("/auth/sso/" +:+ slug +:+ "/callback") :: params_key params.

Definition getSsoCallbackAuthSsoSlugCallbackGetQueryOptions (slug : string) (params : Params) (options : option QueryArgs) : QueryOptions :=
  query_options (getSsoCallbackAuthSsoSlugCallbackGetQueryKey slug params) (Some true) (fun init => ssoCallbackAuthSsoSlugCallbackGet slug params (Some init)) options.

(** *** [createServerV1ServersPost]: POST /v1/servers *)
Definition getCreateServerV1ServersPostUrl : string := "/v1/servers".

Definition createServerV1ServersPost (serverCreate : json) (options : option RequestInit) : Reply :=
  axiosInstance dispatch getCreateServerV1ServersPostUrl (init_json "POST" serverCreate options).

Definition getCreateServerV1ServersPostMutationOptions (options : option MutationArgs) : MutationOptions (json) :=
  mutation_options "createServerV1ServersPost" (fun data request => createServerV1ServersPost data request) options.

(** *** [listServersV1ServersGet]: GET /v1/servers *)
Definition getListServersV1ServersGetUrl : string := "/v1/servers".

Definition listServersV1ServersGet (options : option RequestInit) : Reply :=
  axiosInstance dispatch getListServersV1ServersGetUrl (init_plain "GET" options).

Definition getListServersV1ServersGetQueryKey : QueryKey := [KUrl ("/v1/servers")].

Definition getListServersV1ServersGetQueryOptions (options : option QueryArgs) : QueryOptions :=
  query_options getListServersV1ServersGetQueryKey None (fun init => listServersV1ServersGet (Some init)) options.

(** *** [getServerV1ServersSlugGet]: GET /v1/servers/{slug} *)
Definition getGetServerV1ServersSlugGetUrl (slug : string) : string := "/v1/servers/" +:+ slug.

Definition getServerV1ServersSlugGet (slug : string) (options : option RequestInit) : Reply :=
  axiosInstance dispatch (getGetServerV1ServersSlugGetUrl slug) (init_plain "GET" options).

Definition getGetServerV1ServersSlugGetQueryKey (slug : string) : QueryKey := [KUrl ("/v1/servers/" +:+ slug)].

Definition getGetServerV1ServersSlugGetQueryOptions (slug : string) (options : option QueryArgs) : QueryOptions :=
  query_options (getGetServerV1ServersSlugGetQueryKey slug) (Some true) (fun init => getServerV1ServersSlugGet slug (Some init)) options.

(** *** [updateServerV1ServersSlugPatch]: PATCH /v1/servers/{slug} *)
Definition getUpdateServerV1ServersSlugPatchUrl (slug : string) : string := "/v1/servers/" +:+ slug.

Definition updateServerV1ServersSlugPatch (slug : string) (serverUpdate : json) (options : option RequestInit) : Reply :=
  axiosInstance dispatch (getUpdateServerV1ServersSlugPatchUrl slug) (init_json "PATCH" serverUpdate options).

Definition getUpdateServerV1ServersSlugPatchMutationOptions (options : option MutationArgs) : MutationOptions (string * json) :=
  mutation_options "updateServerV1ServersSlugPatch" (fun '(slug, data) request => updateServerV1ServersSlugPatch slug data request) options.

(** *** [deleteServerV1ServersSlugDelete]: DELETE /v1/servers/{slug} *)
Definition getDeleteServerV1ServersSlugDeleteUrl (slug : string) : string := "/v1/servers/" +:+ slug.

Definition deleteServerV1ServersSlugDelete (slug : string) (options : option RequestInit) : Reply :=
  axiosInstance dispatch (getDeleteServerV1ServersSlugDeleteUrl slug) (init_plain "DELETE" options).

Definition getDeleteServerV1ServersSlugDeleteMutationOptions (options : option MutationArgs) : MutationOptions (string) :=
  mutation_options "deleteServerV1ServersSlugDelete" (fun slug request => deleteServerV1ServersSlugDelete slug request) options.

(** *** [triggerHealthProbeV1ServersSlugHealthPost]: POST /v1/servers/{slug}/health *)
Definition getTriggerHealthProbeV1ServersSlugHealthPostUrl (slug : string) : string := "/v1/servers/" +:+ slug +:+ "/health".

Definition triggerHealthProbeV1ServersSlugHealthPost (slug : string) (options : option RequestInit) : Reply :=
  axiosInstance dispatch (getTriggerHealthProbeV1ServersSlugHealthPostUrl slug) (init_plain "POST" options).

Definition getTriggerHealthProbeV1ServersSlugHealthPostMutationOptions (options : option MutationArgs) : MutationOptions (string) :=
  mutation_options "triggerHealthProbeV1ServersSlugHealthPost" (fun slug request => triggerHealthProbeV1ServersSlugHealthPost slug request) options.

(** *** [createApiKeyV1ApiKeysPost]: POST /v1/api-keys *)
Definition getCreateApiKeyV1ApiKeysPostUrl : string := "/v1/api-keys".

Definition createApiKeyV1ApiKeysPost (apiKeyCreate : json) (options : option RequestInit) : Reply :=
  axiosInstance dispatch getCreateApiKeyV1ApiKeysPostUrl (init_json "POST" apiKeyCreate options).

Definition getCreateApiKeyV1ApiKeysPostMutationOptions (options : option MutationArgs) : MutationOptions (json) :=
  mutation_options "createApiKeyV1ApiKeysPost" (fun data request => createApiKeyV1ApiKeysPost data request) options.

(** *** [listApiKeysV1ApiKeysGet]: GET /v1/api-keys *)
Definition getListApiKeysV1ApiKeysGetUrl : string := "/v1/api-keys".

Definition listApiKeysV1ApiKeysGet (options : option RequestInit) : Reply :=
  axiosInstance dispatch getListApiKeysV1ApiKeysGetUrl (init_plain "GET" options).

Definition getListApiKeysV1ApiKeysGetQueryKey : QueryKey := [KUrl ("/v1/api-keys")].

Definition getListApiKeysV1ApiKeysGetQueryOptions (options : option QueryArgs) : QueryOptions :=
  query_options getListApiKeysV1ApiKeysGetQueryKey None (fun init => listApiKeysV1ApiKeysGet (Some init)) options.

(** *** [revokeApiKeyV1ApiKeysKeyIdDelete]: DELETE /v1/api-keys/{keyId} *)
Definition getRevokeApiKeyV1ApiKeysKeyIdDeleteUrl (keyId : string) : string := "/v1/api-keys/" +:+ keyId.

Definition revokeApiKeyV1ApiKeysKeyIdDelete (keyId : string) (options : option RequestInit) : Reply :=
  axiosInstance dispatch (getRevokeApiKeyV1ApiKeysKeyIdDeleteUrl keyId) (init_plain "DELETE" options).

Definition getRevokeApiKeyV1ApiKeysKeyIdDeleteMutationOptions (options : option MutationArgs) : MutationOptions (string) :=
  mutation_options "revokeApiKeyV1ApiKeysKeyIdDelete" (fun keyId request => revokeApiKeyV1ApiKeysKeyIdDelete keyId request) options.

(** *** [createRoleV1RolesPost]: POST /v1/roles *)
Definition getCreateRoleV1RolesPostUrl : string := "/v1/roles".

Definition createRoleV1RolesPost (roleCreate : json) (options : option RequestInit) : Reply :=
  axiosInstance dispatch getCreateRoleV1RolesPostUrl (init_json "POST" roleCreate options).

Definition getCreateRoleV1RolesPostMutationOptions (options : option MutationArgs) : MutationOptions (json) :=
  mutation_options "createRoleV1RolesPost" (fun data request => createRoleV1RolesPost data request) options.

(** *** [listRolesV1RolesGet]: GET /v1/roles *)
Definition getListRolesV1RolesGetUrl : string := "/v1/roles".

Definition listRolesV1RolesGet (options : option RequestInit) : Reply :=
  axiosInstance dispatch getListRolesV1RolesGetUrl (init_plain "GET" options).

Definition getListRolesV1RolesGetQueryKey : QueryKey := [KUrl ("/v1/roles")].

Definition getListRolesV1RolesGetQueryOptions (options : option QueryArgs) : QueryOptions :=
  query_options getListRolesV1RolesGetQueryKey None (fun init => listRolesV1RolesGet (Some init)) options.

(** *** [createBindingV1RolesRoleIdBindingsPost]: POST /v1/roles/{roleId}/bindings *)
Definition getCreateBindingV1RolesRoleIdBindingsPostUrl (roleId : string) : string := "/v1/roles/" +:+ roleId +:+ "/bindings".

Definition createBindingV1RolesRoleIdBindingsPost (roleId : string) (roleBindingCreate : json) (options : option RequestInit) : Reply :=
  axiosInstance dispatch (getCreateBindingV1RolesRoleIdBindingsPostUrl roleId) (init_json "POST" roleBindingCreate options).

Definition getCreateBindingV1RolesRoleIdBindingsPostMutationOptions (options : option MutationArgs) : MutationOptions (string * json) :=
  mutation_options "createBindingV1RolesRoleIdBindingsPost" (fun '(roleId, data) request => createBindingV1RolesRoleIdBindingsPost roleId data request) options.

(** *** [deleteBindingV1RolesRoleIdBindingsBindingIdDelete]: DELETE /v1/roles/{roleId}/bindings/{bindingId} *)
Definition getDeleteBindingV1RolesRoleIdBindingsBindingIdDeleteUrl (roleId bindingId : string) : string := "/v1/roles/" +:+ roleId +:+ "/bindings/" +:+ bindingId.

Definition deleteBindingV1RolesRoleIdBindingsBindingIdDelete (roleId bindingId : string) (options : option RequestInit) : Reply :=
  axiosInstance dispatch (getDeleteBindingV1RolesRoleIdBindingsBindingIdDeleteUrl roleId bindingId) (init_plain "DELETE" options).

Definition getDeleteBindingV1RolesRoleIdBindingsBindingIdDeleteMutationOptions (options : option MutationArgs) : MutationOptions (string * string) :=
  mutation_options "deleteBindingV1RolesRoleIdBindingsBindingIdDelete" (fun '(roleId, bindingId) request => deleteBindingV1RolesRoleIdBindingsBindingIdDelete roleId bindingId request) options.

(** *** [createPermissionV1RolesRoleIdPermissionsPost]: POST /v1/roles/{roleId}/permissions *)
Definition getCreatePermissionV1RolesRoleIdPermissionsPostUrl (roleId : string) : string := "/v1/roles/" +:+ roleId +:+ "/permissions".

Definition createPermissionV1RolesRoleIdPermissionsPost (roleId : string) (toolPermissionCreate : json) (options : option RequestInit) : Reply :=
  axiosInstance dispatch (getCreatePermissionV1RolesRoleIdPermissionsPostUrl roleId) (init_json "POST" toolPermissionCreate options).

Definition getCreatePermissionV1RolesRoleIdPermissionsPostMutationOptions (options : option MutationArgs) : MutationOptions (string * json) :=
  mutation_options "createPermissionV1RolesRoleIdPermissionsPost" (fun '(roleId, data) request => createPermissionV1RolesRoleIdPermissionsPost roleId data request) options.

(** *** [deletePermissionV1RolesRoleIdPermissionsPermissionIdDelete]: DELETE /v1/roles/{roleId}/permissions/{permissionId} *)
Definition getDeletePermissionV1RolesRoleIdPermissionsPermissionIdDeleteUrl (roleId permissionId : string) : string := "/v1/roles/" +:+ roleId +:+ "/permissions/" +:+ permissionId.

Definition deletePermissionV1RolesRoleIdPermissionsPermissionIdDelete (roleId permissionId : string) (options : option RequestInit) : Reply :=
  axiosInstance dispatch (getDeletePermissionV1RolesRoleIdPermissionsPermissionIdDeleteUrl roleId permissionId) (init_plain "DELETE" options).

Definition getDeletePermissionV1RolesRoleIdPermissionsPermissionIdDeleteMutationOptions (options : option MutationArgs) : MutationOptions (string * string) :=
  mutation_options "deletePermissionV1RolesRoleIdPermissionsPermissionIdDelete" (fun '(roleId, permissionId) request => deletePermissionV1RolesRoleIdPermissionsPermissionIdDelete roleId permissionId request) options.

(** *** [createPolicyV1RateLimitPoliciesPost]: POST /v1/rate-limit-policies *)
Definition getCreatePolicyV1RateLimitPoliciesPostUrl : string := "/v1/rate-limit-policies".

Definition createPolicyV1RateLimitPoliciesPost (rateLimitPolicyCreate : json) (options : option RequestInit) : Reply :=
  axiosInstance dispatch getCreatePolicyV1RateLimitPoliciesPostUrl (init_json "POST" rateLimitPolicyCreate options).

Definition getCreatePolicyV1RateLimitPoliciesPostMutationOptions (options : option MutationArgs) : MutationOptions (json) :=
  mutation_options "createPolicyV1RateLimitPoliciesPost" (fun data request => createPolicyV1RateLimitPoliciesPost data request) options.

(** *** [listPoliciesV1RateLimitPoliciesGet]: GET /v1/rate-limit-policies *)
Definition getListPoliciesV1RateLimitPoliciesGetUrl : string := "/v1/rate-limit-policies".

Definition listPoliciesV1RateLimitPoliciesGet (options : option RequestInit) : Reply :=
  axiosInstance dispatch getListPoliciesV1RateLimitPoliciesGetUrl (init_plain "GET" options).

Definition getListPoliciesV1RateLimitPoliciesGetQueryKey : QueryKey := [KUrl ("/v1/rate-limit-policies")].

Definition getListPoliciesV1RateLimitPoliciesGetQueryOptions (options : option QueryArgs) : QueryOptions :=
  query_options getListPoliciesV1RateLimitPoliciesGetQueryKey None (fun init => listPoliciesV1RateLimitPoliciesGet (Some init)) options.

(** *** [updatePolicyV1RateLimitPoliciesPolicyIdPatch]: PATCH /v1/rate-limit-policies/{policyId} *)
Definition getUpdatePolicyV1RateLimitPoliciesPolicyIdPatchUrl (policyId : string) : string := "/v1/rate-limit-policies/" +:+ policyId.

Definition updatePolicyV1RateLimitPoliciesPolicyIdPatch (policyId : string) (rateLimitPolicyUpdate : json) (options : option RequestInit) : Reply :=
  axiosInstance dispatch (getUpdatePolicyV1RateLimitPoliciesPolicyIdPatchUrl policyId) (init_json "PATCH" rateLimitPolicyUpdate options).

Definition getUpdatePolicyV1RateLimitPoliciesPolicyIdPatchMutationOptions (options : option MutationArgs) : MutationOptions (string * json) :=
  mutation_options "updatePolicyV1RateLimitPoliciesPolicyIdPatch" (fun '(policyId, data) request => updatePolicyV1RateLimitPoliciesPolicyIdPatch policyId data request) options.

(** *** [deletePolicyV1RateLimitPoliciesPolicyIdDelete]: DELETE /v1/rate-limit-policies/{policyId} *)
Definition getDeletePolicyV1RateLimitPoliciesPolicyIdDeleteUrl (policyId : string) : string := "/v1/rate-limit-policies/" +:+ policyId.

Definition deletePolicyV1RateLimitPoliciesPolicyIdDelete (policyId : string) (options : option RequestInit) : Reply :=
  axiosInstance dispatch (getDeletePolicyV1RateLimitPoliciesPolicyIdDeleteUrl policyId) (init_plain "DELETE" options).

Definition getDeletePolicyV1RateLimitPoliciesPolicyIdDeleteMutationOptions (options : option MutationArgs) : MutationOptions (string) :=
  mutation_options "deletePolicyV1RateLimitPoliciesPolicyIdDelete" (fun policyId request => deletePolicyV1RateLimitPoliciesPolicyIdDelete policyId request) options.

(** *** [listAuditLogsV1AuditGet]: GET /v1/audit *)
Definition getListAuditLogsV1AuditGetUrl (params : Params) : string :=
  with_params ("/v1/audit") params.

Definition listAuditLogsV1AuditGet (params : Params) (options : option RequestInit) : Reply :=
  axiosInstance dispatch (getListAuditLogsV1AuditGetUrl params) (init_plain "GET" options).

Definition getListAuditLogsV1AuditGetQueryKey (params : Params) : QueryKey := KUrl ("/v1/audit") :: params_key params.

Definition getListAuditLogsV1AuditGetQueryOptions (params : Params) (options : option QueryArgs) : QueryOptions :=
  query_options (getListAuditLogsV1AuditGetQueryKey params) None (fun init => listAuditLogsV1AuditGet params (Some init)) options.

(** *** [platformAdminMeAdminPlatformMeGet]: GET /admin/platform/me *)
Definition getPlatformAdminMeAdminPlatformMeGetUrl : string := "/admin/platform/me".

Definition platformAdminMeAdminPlatformMeGet (options : option RequestInit) : Reply :=
  axiosInstance dispatch getPlatformAdminMeAdminPlatformMeGetUrl (init_plain "GET" options).

Definition getPlatformAdminMeAdminPlatformMeGetQueryKey : QueryKey := [KUrl ("/admin/platform/me")].

Definition getPlatformAdminMeAdminPlatformMeGetQueryOptions (options : option QueryArgs) : QueryOptions :=
  query_options getPlatformAdminMeAdminPlatformMeGetQueryKey None (fun init => platformAdminMeAdminPlatformMeGet (Some init)) options.

(** *** [adminGetLicenseAdminPlatformLicenseGet]: GET /admin/platform/license *)
Definition getAdminGetLicenseAdminPlatformLicenseGetUrl : string := "/admin/platform/license".

Definition adminGetLicenseAdminPlatformLicenseGet (options : option RequestInit) : Reply :=
  axiosInstance dispatch getAdminGetLicenseAdminPlatformLicenseGetUrl (init_plain "GET" options).

Definition getAdminGetLicenseAdminPlatformLicenseGetQueryKey : QueryKey := [KUrl ("/admin/platform/license")].

Definition getAdminGetLicenseAdminPlatformLicenseGetQueryOptions (options : option QueryArgs) : QueryOptions :=
  query_options getAdminGetLicenseAdminPlatformLicenseGetQueryKey None (fun init => adminGetLicenseAdminPlatformLicenseGet (Some init)) options.

(** *** [adminIssueLicenseAdminPlatformLicensePost]: POST /admin/platform/license *)
Definition getAdminIssueLicenseAdminPlatformLicensePostUrl : string := "/admin/platform/license".

Definition adminIssueLicenseAdminPlatformLicensePost (licenseCreate : json) (options : option RequestInit) : Reply :=
  axiosInstance dispatch getAdminIssueLicenseAdminPlatformLicensePostUrl (init_json "POST" licenseCreate options).

Definition getAdminIssueLicenseAdminPlatformLicensePostMutationOptions (options : option MutationArgs) : MutationOptions (json) :=
  mutation_options "adminIssueLicenseAdminPlatformLicensePost" (fun data request => adminIssueLicenseAdminPlatformLicensePost data request) options.

(** *** [adminRevokeLicenseAdminPlatformLicenseRevokePost]: POST /admin/platform/license/revoke *)
Definition getAdminRevokeLicenseAdminPlatformLicenseRevokePostUrl : string := "/admin/platform/license/revoke".

Definition adminRevokeLicenseAdminPlatformLicenseRevokePost (options : option RequestInit) : Reply :=
  axiosInstance dispatch getAdminRevokeLicenseAdminPlatformLicenseRevokePostUrl (init_plain "POST" options).

Definition getAdminRevokeLicenseAdminPlatformLicenseRevokePostMutationOptions (options : option MutationArgs) : MutationOptions (unit) :=
  mutation_options "adminRevokeLicenseAdminPlatformLicenseRevokePost" (fun _ request => adminRevokeLicenseAdminPlatformLicenseRevokePost request) options.

(** *** [orgGetLicenseV1LicenseGet]: GET /v1/license *)
Definition getOrgGetLicenseV1LicenseGetUrl : string := "/v1/license".

Definition orgGetLicenseV1LicenseGet (options : option RequestInit) : Reply :=
  axiosInstance dispatch getOrgGetLicenseV1LicenseGetUrl (init_plain "GET" options).

Definition getOrgGetLicenseV1LicenseGetQueryKey : QueryKey := [KUrl ("/v1/license")].

Definition getOrgGetLicenseV1LicenseGetQueryOptions (options : option QueryArgs) : QueryOptions :=
  query_options getOrgGetLicenseV1LicenseGetQueryKey None (fun init => orgGetLicenseV1LicenseGet (Some init)) options.

(** *** [tenantGetLicenseAdminTenantsTenantIdLicenseGet]: GET /admin/tenants/{tenantId}/license *)
Definition getTenantGetLicenseAdminTenantsTenantIdLicenseGetUrl (tenantId : string) : string := "/admin/tenants/" +:+ tenantId +:+ "/license".

Definition tenantGetLicenseAdminTenantsTenantIdLicenseGet (tenantId : string) (options : option RequestInit) : Reply :=
  axiosInstance dispatch (getTenantGetLicenseAdminTenantsTenantIdLicenseGetUrl tenantId) (init_plain "GET" options).

Definition getTenantGetLicenseAdminTenantsTenantIdLicenseGetQueryKey (tenantId : string) : QueryKey := [KUrl ("/admin/tenants/" +:+ tenantId +:+ "/license")].

Definition getTenantGetLicenseAdminTenantsTenantIdLicenseGetQueryOptions (tenantId : string) (options : option QueryArgs) : QueryOptions :=
  query_options (getTenantGetLicenseAdminTenantsTenantIdLicenseGetQueryKey tenantId) (Some true) (fun init => tenantGetLicenseAdminTenantsTenantIdLicenseGet tenantId (Some init)) options.

(** *** [tenantIssueLicenseAdminTenantsTenantIdLicensePost]: POST /admin/tenants/{tenantId}/license *)
Definition getTenantIssueLicenseAdminTenantsTenantIdLicensePostUrl (tenantId : string) : string := "/admin/tenants/" +:+ tenantId +:+ "/license".

Definition tenantIssueLicenseAdminTenantsTenantIdLicensePost (tenantId : string) (licenseCreate : json) (options : option RequestInit) : Reply :=
  axiosInstance dispatch (getTenantIssueLicenseAdminTenantsTenantIdLicensePostUrl tenantId) (init_json "POST" licenseCreate options).

Definition getTenantIssueLicenseAdminTenantsTenantIdLicensePostMutationOptions (options : option MutationArgs) : MutationOptions (string * json) :=
  mutation_options "tenantIssueLicenseAdminTenantsTenantIdLicensePost" (fun '(tenantId, data) request => tenantIssueLicenseAdminTenantsTenantIdLicensePost tenantId data request) options.

(** *** [tenantRevokeLicenseAdminTenantsTenantIdLicenseRevokePost]: POST /admin/tenants/{tenantId}/license/revoke *)
Definition getTenantRevokeLicenseAdminTenantsTenantIdLicenseRevokePostUrl (tenantId : string) : string := "/admin/tenants/" +:+ tenantId +:+ "/license/revoke".

Definition tenantRevokeLicenseAdminTenantsTenantIdLicenseRevokePost (tenantId : string) (options : option RequestInit) : Reply :=
  axiosInstance dispatch (getTenantRevokeLicenseAdminTenantsTenantIdLicenseRevokePostUrl tenantId) (init_plain "POST" options).

Definition getTenantRevokeLicenseAdminTenantsTenantIdLicenseRevokePostMutationOptions (options : option MutationArgs) : MutationOptions (string) :=
  mutation_options "tenantRevokeLicenseAdminTenantsTenantIdLicenseRevokePost" (fun tenantId request => tenantRevokeLicenseAdminTenantsTenantIdLicenseRevokePost tenantId request) options.

(** *** [listTenantsAdminTenantsGet]: GET /admin/tenants *)
Definition getListTenantsAdminTenantsGetUrl : string := "/admin/tenants".

Definition listTenantsAdminTenantsGet (options : option RequestInit) : Reply :=
  axiosInstance dispatch getListTenantsAdminTenantsGetUrl (init_plain "GET" options).

Definition getListTenantsAdminTenantsGetQueryKey : QueryKey := [KUrl ("/admin/tenants")].

Definition getListTenantsAdminTenantsGetQueryOptions (options : option QueryArgs) : QueryOptions :=
  query_options getListTenantsAdminTenantsGetQueryKey None (fun init => listTenantsAdminTenantsGet (Some init)) options.

(** *** [provisionTenantAdminTenantsPost]: POST /admin/tenants *)
Definition getProvisionTenantAdminTenantsPostUrl : string := "/admin/tenants".

Definition provisionTenantAdminTenantsPost (tenantProvisionRequest : json) (options : option RequestInit) : Reply :=
  axiosInstance dispatch getProvisionTenantAdminTenantsPostUrl (init_json "POST" tenantProvisionRequest options).

Definition getProvisionTenantAdminTenantsPostMutationOptions (options : option MutationArgs) : MutationOptions (json) :=
  mutation_options "provisionTenantAdminTenantsPost" (fun data request => provisionTenantAdminTenantsPost data request) options.

(** *** [orgUsageV1UsageGet]: GET /v1/usage *)
Definition getOrgUsageV1UsageGetUrl : string := "/v1/usage".

Definition orgUsageV1UsageGet (options : option RequestInit) : Reply :=
  axiosInstance dispatch getOrgUsageV1UsageGetUrl (init_plain "GET" options).

Definition getOrgUsageV1UsageGetQueryKey : QueryKey := [KUrl ("/v1/usage")].

Definition getOrgUsageV1UsageGetQueryOptions (options : option QueryArgs) : QueryOptions :=
  query_options getOrgUsageV1UsageGetQueryKey None (fun init => orgUsageV1UsageGet (Some init)) options.

(** *** [adminUsageAdminUsageGet]: GET /admin/usage *)
Definition getAdminUsageAdminUsageGetUrl : string := "/admin/usage".

Definition adminUsageAdminUsageGet (options : option RequestInit) : Reply :=
  axiosInstance dispatch getAdminUsageAdminUsageGetUrl (init_plain "GET" options).

Definition getAdminUsageAdminUsageGetQueryKey : QueryKey := [KUrl ("/admin/usage")].

Definition getAdminUsageAdminUsageGetQueryOptions (options : option QueryArgs) : QueryOptions :=
  query_options getAdminUsageAdminUsageGetQueryKey None (fun init => adminUsageAdminUsageGet (Some init)) options.

(** *** [heartbeatV1TelemetryHeartbeatPost]: POST /v1/telemetry/heartbeat *)
Definition getHeartbeatV1TelemetryHeartbeatPostUrl : string := "/v1/telemetry/heartbeat".

Definition heartbeatV1TelemetryHeartbeatPost (instanceHeartbeatRequest : json) (options : option RequestInit) : Reply :=
  axiosInstance dispatch getHeartbeatV1TelemetryHeartbeatPostUrl (init_json "POST" instanceHeartbeatRequest options).

Definition getHeartbeatV1TelemetryHeartbeatPostMutationOptions (options : option MutationArgs) : MutationOptions (json) :=
  mutation_options "heartbeatV1TelemetryHeartbeatPost" (fun data request => heartbeatV1TelemetryHeartbeatPost data request) options.

(** *** [adminTelemetrySummaryAdminTelemetrySummaryGet]: GET /admin/telemetry/summary *)
Definition getAdminTelemetrySummaryAdminTelemetrySummaryGetUrl : string := "/admin/telemetry/summary".

Definition adminTelemetrySummaryAdminTelemetrySummaryGet (options : option RequestInit) : Reply :=
  axiosInstance dispatch getAdminTelemetrySummaryAdminTelemetrySummaryGetUrl (init_plain "GET" options).

Definition getAdminTelemetrySummaryAdminTelemetrySummaryGetQueryKey : QueryKey := [KUrl ("/admin/telemetry/summary")].

Definition getAdminTelemetrySummaryAdminTelemetrySummaryGetQueryOptions (options : option QueryArgs) : QueryOptions :=
  query_options getAdminTelemetrySummaryAdminTelemetrySummaryGetQueryKey None (fun init => adminTelemetrySummaryAdminTelemetrySummaryGet (Some init)) options.

(** *** [adminTelemetryInstancesAdminTelemetryInstancesGet]: GET /admin/telemetry/instances *)
Definition getAdminTelemetryInstancesAdminTelemetryInstancesGetUrl : string := "/admin/telemetry/instances".

Definition adminTelemetryInstancesAdminTelemetryInstancesGet (options : option RequestInit) : Reply :=
  axiosInstance dispatch getAdminTelemetryInstancesAdminTelemetryInstancesGetUrl (init_plain "GET" options).

Definition getAdminTelemetryInstancesAdminTelemetryInstancesGetQueryKey : QueryKey := [KUrl ("/admin/telemetry/instances")].

Definition getAdminTelemetryInstancesAdminTelemetryInstancesGetQueryOptions (options : option QueryArgs) : QueryOptions :=
  query_options getAdminTelemetryInstancesAdminTelemetryInstancesGetQueryKey None (fun init => adminTelemetryInstancesAdminTelemetryInstancesGet (Some init)) options.

(** *** [mcpProxyMcpServerSlugPost]: POST /mcp/{serverSlug} *)
Definition getMcpProxyMcpServerSlugPostUrl (serverSlug : string) : string := "/mcp/" +:+ serverSlug.

Definition mcpProxyMcpServerSlugPost (serverSlug : string) (options : option RequestInit) : Reply :=
  axiosInstance dispatch (getMcpProxyMcpServerSlugPostUrl serverSlug) (init_plain "POST" options).

Definition getMcpProxyMcpServerSlugPostMutationOptions (options : option MutationArgs) : MutationOptions (string) :=
  mutation_options "mcpProxyMcpServerSlugPost" (fun serverSlug request => mcpProxyMcpServerSlugPost serverSlug request) options.

(** *** [mcpSseStreamMcpServerSlugGet]: GET /mcp/{serverSlug} *)
Definition getMcpSseStreamMcpServerSlugGetUrl (serverSlug : string) : string := "/mcp/" +:+ serverSlug.

Definition mcpSseStreamMcpServerSlugGet (serverSlug : string) (options : option RequestInit) : Reply :=
  axiosInstance dispatch (getMcpSseStreamMcpServerSlugGetUrl serverSlug) (init_plain "GET" options).

Definition getMcpSseStreamMcpServerSlugGetQueryKey (serverSlug : string) : QueryKey := [KUrl ("/mcp/" +:+ serverSlug)].

Definition getMcpSseStreamMcpServerSlugGetQueryOptions (serverSlug : string) (options : option QueryArgs) : QueryOptions :=
  query_options (getMcpSseStreamMcpServerSlugGetQueryKey serverSlug) (Some true) (fun init => mcpSseStreamMcpServerSlugGet serverSlug (Some init)) options.

(** ** The operations as one type *)

Definition op_send (op : operation) (options : option RequestInit) : Reply :=
  match op with
  | Op_healthzHealthzGet => healthzHealthzGet options
  | Op_registerAuthRegisterPost registerRequest => registerAuthRegisterPost registerRequest options
  | Op_loginAuthLoginPost loginRequest => loginAuthLoginPost loginRequest options
  | Op_meAuthMeGet => meAuthMeGet options
  | Op_createInviteAuthInvitesPost inviteCreate => createInviteAuthInvitesPost inviteCreate options
  | Op_listInvitesAuthInvitesGet => listInvitesAuthInvitesGet options
  | Op_revokeInviteAuthInvitesInviteIdRevokePost inviteId => revokeInviteAuthInvitesInviteIdRevokePost inviteId options
  | Op_listPendingUsersAuthPendingUsersGet => listPendingUsersAuthPendingUsersGet options
  | Op_approveUserAuthPendingUsersUserIdApprovePost userId approvalDecision => approveUserAuthPendingUsersUserIdApprovePost userId approvalDecision options
  | Op_rejectUserAuthPendingUsersUserIdRejectPost userId => rejectUserAuthPendingUsersUserIdRejectPost userId options
  | Op_createTeamAuthTeamsPost teamCreate => createTeamAuthTeamsPost teamCreate options
  | Op_listTeamsAuthTeamsGet => listTeamsAuthTeamsGet options
  | Op_getTeamAuthTeamsTeamIdGet teamId => getTeamAuthTeamsTeamIdGet teamId options
  | Op_updateTeamAuthTeamsTeamIdPatch teamId teamUpdate => updateTeamAuthTeamsTeamIdPatch teamId teamUpdate options
  | Op_deleteTeamAuthTeamsTeamIdDelete teamId => deleteTeamAuthTeamsTeamIdDelete teamId options
  | Op_addServerToTeamAuthTeamsTeamIdServersServerIdPost teamId serverId => addServerToTeamAuthTeamsTeamIdServersServerIdPost teamId serverId options
  | Op_removeServerFromTeamAuthTeamsTeamIdServersServerIdDelete teamId serverId => removeServerFromTeamAuthTeamsTeamIdServersServerIdDelete teamId serverId options
  | Op_createMemberAuthMembersPost orgMemberCreate => createMemberAuthMembersPost orgMemberCreate options
  | Op_listMembersAuthMembersGet => listMembersAuthMembersGet options
  | Op_getMemberAuthMembersMemberIdGet memberId => getMemberAuthMembersMemberIdGet memberId options
  | Op_updateMemberAuthMembersMemberIdPatch memberId orgMemberUpdate => updateMemberAuthMembersMemberIdPatch memberId orgMemberUpdate options
  | Op_deleteMemberAuthMembersMemberIdDelete memberId => deleteMemberAuthMembersMemberIdDelete memberId options
  | Op_listTeamMembersAuthTeamsTeamIdMembersGet teamId => listTeamMembersAuthTeamsTeamIdMembersGet teamId options
  | Op_ssoLoginAuthSsoSlugLoginGet slug => ssoLoginAuthSsoSlugLoginGet slug options
  | Op_ssoCallbackAuthSsoSlugCallbackGet slug params => ssoCallbackAuthSsoSlugCallbackGet slug params options
  | Op_createServerV1ServersPost serverCreate => createServerV1ServersPost serverCreate options
  | Op_listServersV1ServersGet => listServersV1ServersGet options
  | Op_getServerV1ServersSlugGet slug => getServerV1ServersSlugGet slug options
  | Op_updateServerV1ServersSlugPatch slug serverUpdate => updateServerV1ServersSlugPatch slug serverUpdate options
  | Op_deleteServerV1ServersSlugDelete slug => deleteServerV1ServersSlugDelete slug options
  | Op_triggerHealthProbeV1ServersSlugHealthPost slug => triggerHealthProbeV1ServersSlugHealthPost slug options
  | Op_createApiKeyV1ApiKeysPost apiKeyCreate => createApiKeyV1ApiKeysPost apiKeyCreate options
  | Op_listApiKeysV1ApiKeysGet => listApiKeysV1ApiKeysGet options
  | Op_revokeApiKeyV1ApiKeysKeyIdDelete keyId => revokeApiKeyV1ApiKeysKeyIdDelete keyId options
  | Op_createRoleV1RolesPost roleCreate => createRoleV1RolesPost roleCreate options
  | Op_listRolesV1RolesGet => listRolesV1RolesGet options
  | Op_createBindingV1RolesRoleIdBindingsPost roleId roleBindingCreate => createBindingV1RolesRoleIdBindingsPost roleId roleBindingCreate options
  | Op_deleteBindingV1RolesRoleIdBindingsBindingIdDelete roleId bindingId => deleteBindingV1RolesRoleIdBindingsBindingIdDelete roleId bindingId options
  | Op_createPermissionV1RolesRoleIdPermissionsPost roleId toolPermissionCreate => createPermissionV1RolesRoleIdPermissionsPost roleId toolPermissionCreate options
  | Op_deletePermissionV1RolesRoleIdPermissionsPermissionIdDelete roleId permissionId => deletePermissionV1RolesRoleIdPermissionsPermissionIdDelete roleId permissionId options
  | Op_createPolicyV1RateLimitPoliciesPost rateLimitPolicyCreate => createPolicyV1RateLimitPoliciesPost rateLimitPolicyCreate options
  | Op_listPoliciesV1RateLimitPoliciesGet => listPoliciesV1RateLimitPoliciesGet options
  | Op_updatePolicyV1RateLimitPoliciesPolicyIdPatch policyId rateLimitPolicyUpdate => updatePolicyV1RateLimitPoliciesPolicyIdPatch policyId rateLimitPolicyUpdate options
  | Op_deletePolicyV1RateLimitPoliciesPolicyIdDelete policyId => deletePolicyV1RateLimitPoliciesPolicyIdDelete policyId options
  | Op_listAuditLogsV1AuditGet params => listAuditLogsV1AuditGet params options
  | Op_platformAdminMeAdminPlatformMeGet => platformAdminMeAdminPlatformMeGet options
  | Op_adminGetLicenseAdminPlatformLicenseGet => adminGetLicenseAdminPlatformLicenseGet options
  | Op_adminIssueLicenseAdminPlatformLicensePost licenseCreate => adminIssueLicenseAdminPlatformLicensePost licenseCreate options
  | Op_adminRevokeLicenseAdminPlatformLicenseRevokePost => adminRevokeLicenseAdminPlatformLicenseRevokePost options
  | Op_orgGetLicenseV1LicenseGet => orgGetLicenseV1LicenseGet options
  | Op_tenantGetLicenseAdminTenantsTenantIdLicenseGet tenantId => tenantGetLicenseAdminTenantsTenantIdLicenseGet tenantId options
  | Op_tenantIssueLicenseAdminTenantsTenantIdLicensePost tenantId licenseCreate => tenantIssueLicenseAdminTenantsTenantIdLicensePost tenantId licenseCreate options
  | Op_tenantRevokeLicenseAdminTenantsTenantIdLicenseRevokePost tenantId => tenantRevokeLicenseAdminTenantsTenantIdLicenseRevokePost tenantId options
  | Op_listTenantsAdminTenantsGet => listTenantsAdminTenantsGet options
  | Op_provisionTenantAdminTenantsPost tenantProvisionRequest => provisionTenantAdminTenantsPost tenantProvisionRequest options
  | Op_orgUsageV1UsageGet => orgUsageV1UsageGet options
  | Op_adminUsageAdminUsageGet => adminUsageAdminUsageGet options
  | Op_heartbeatV1TelemetryHeartbeatPost instanceHeartbeatRequest => heartbeatV1TelemetryHeartbeatPost instanceHeartbeatRequest options
  | Op_adminTelemetrySummaryAdminTelemetrySummaryGet => adminTelemetrySummaryAdminTelemetrySummaryGet options
  | Op_adminTelemetryInstancesAdminTelemetryInstancesGet => adminTelemetryInstancesAdminTelemetryInstancesGet options
  | Op_mcpProxyMcpServerSlugPost serverSlug => mcpProxyMcpServerSlugPost serverSlug options
  | Op_mcpSseStreamMcpServerSlugGet serverSlug => mcpSseStreamMcpServerSlugGet serverSlug options
  end.

End client.

Definition op_url (op : operation) : string :=
  match op with
  | Op_healthzHealthzGet => getHealthzHealthzGetUrl
  | Op_registerAuthRegisterPost _ => getRegisterAuthRegisterPostUrl
  | Op_loginAuthLoginPost _ => getLoginAuthLoginPostUrl
  | Op_meAuthMeGet => getMeAuthMeGetUrl
  | Op_createInviteAuthInvitesPost _ => getCreateInviteAuthInvitesPostUrl
  | Op_listInvitesAuthInvitesGet => getListInvitesAuthInvitesGetUrl
  | Op_revokeInviteAuthInvitesInviteIdRevokePost inviteId => getRevokeInviteAuthInvitesInviteIdRevokePostUrl inviteId
  | Op_listPendingUsersAuthPendingUsersGet => getListPendingUsersAuthPendingUsersGetUrl
  | Op_approveUserAuthPendingUsersUserIdApprovePost userId _ => getApproveUserAuthPendingUsersUserIdApprovePostUrl userId
  | Op_rejectUserAuthPendingUsersUserIdRejectPost userId => getRejectUserAuthPendingUsersUserIdRejectPostUrl userId
  | Op_createTeamAuthTeamsPost _ => getCreateTeamAuthTeamsPostUrl
  | Op_listTeamsAuthTeamsGet => getListTeamsAuthTeamsGetUrl
  | Op_getTeamAuthTeamsTeamIdGet teamId => getGetTeamAuthTeamsTeamIdGetUrl teamId
  | Op_updateTeamAuthTeamsTeamIdPatch teamId _ => getUpdateTeamAuthTeamsTeamIdPatchUrl teamId
  | Op_deleteTeamAuthTeamsTeamIdDelete teamId => getDeleteTeamAuthTeamsTeamIdDeleteUrl teamId
  | Op_addServerToTeamAuthTeamsTeamIdServersServerIdPost teamId serverId => getAddServerToTeamAuthTeamsTeamIdServersServerIdPostUrl teamId serverId
  | Op_removeServerFromTeamAuthTeamsTeamIdServersServerIdDelete teamId serverId => getRemoveServerFromTeamAuthTeamsTeamIdServersServerIdDeleteUrl teamId serverId
  | Op_createMemberAuthMembersPost _ => getCreateMemberAuthMembersPostUrl
  | Op_listMembersAuthMembersGet => getListMembersAuthMembersGetUrl
  | Op_getMemberAuthMembersMemberIdGet memberId => getGetMemberAuthMembersMemberIdGetUrl memberId
  | Op_updateMemberAuthMembersMemberIdPatch memberId _ => getUpdateMemberAuthMembersMemberIdPatchUrl memberId
  | Op_deleteMemberAuthMembersMemberIdDelete memberId => getDeleteMemberAuthMembersMemberIdDeleteUrl memberId
  | Op_listTeamMembersAuthTeamsTeamIdMembersGet teamId => getListTeamMembersAuthTeamsTeamIdMembersGetUrl teamId
  | Op_ssoLoginAuthSsoSlugLoginGet slug => getSsoLoginAuthSsoSlugLoginGetUrl slug
  | Op_ssoCallbackAuthSsoSlugCallbackGet slug params => getSsoCallbackAuthSsoSlugCallbackGetUrl slug params
  | Op_createServerV1ServersPost _ => getCreateServerV1ServersPostUrl
  | Op_listServersV1ServersGet => getListServersV1ServersGetUrl
  | Op_getServerV1ServersSlugGet slug => getGetServerV1ServersSlugGetUrl slug
  | Op_updateServerV1ServersSlugPatch slug _ => getUpdateServerV1ServersSlugPatchUrl slug
  | Op_deleteServerV1ServersSlugDelete slug => getDeleteServerV1ServersSlugDeleteUrl slug
  | Op_triggerHealthProbeV1ServersSlugHealthPost slug => getTriggerHealthProbeV1ServersSlugHealthPostUrl slug
  | Op_createApiKeyV1ApiKeysPost _ => getCreateApiKeyV1ApiKeysPostUrl
  | Op_listApiKeysV1ApiKeysGet => getListApiKeysV1ApiKeysGetUrl
  | Op_revokeApiKeyV1ApiKeysKeyIdDelete keyId => getRevokeApiKeyV1ApiKeysKeyIdDeleteUrl keyId
  | Op_createRoleV1RolesPost _ => getCreateRoleV1RolesPostUrl
  | Op_listRolesV1RolesGet => getListRolesV1RolesGetUrl
  | Op_createBindingV1RolesRoleIdBindingsPost roleId _ => getCreateBindingV1RolesRoleIdBindingsPostUrl roleId
  | Op_deleteBindingV1RolesRoleIdBindingsBindingIdDelete roleId bindingId => getDeleteBindingV1RolesRoleIdBindingsBindingIdDeleteUrl roleId bindingId
  | Op_createPermissionV1RolesRoleIdPermissionsPost roleId _ => getCreatePermissionV1RolesRoleIdPermissionsPostUrl roleId
  | Op_deletePermissionV1RolesRoleIdPermissionsPermissionIdDelete roleId permissionId => getDeletePermissionV1RolesRoleIdPermissionsPermissionIdDeleteUrl roleId permissionId
  | Op_createPolicyV1RateLimitPoliciesPost _ => getCreatePolicyV1RateLimitPoliciesPostUrl
  | Op_listPoliciesV1RateLimitPoliciesGet => getListPoliciesV1RateLimitPoliciesGetUrl
  | Op_updatePolicyV1RateLimitPoliciesPolicyIdPatch policyId _ => getUpdatePolicyV1RateLimitPoliciesPolicyIdPatchUrl policyId
  | Op_deletePolicyV1RateLimitPoliciesPolicyIdDelete policyId => getDeletePolicyV1RateLimitPoliciesPolicyIdDeleteUrl policyId
  | Op_listAuditLogsV1AuditGet params => getListAuditLogsV1AuditGetUrl params
  | Op_platformAdminMeAdminPlatformMeGet => getPlatformAdminMeAdminPlatformMeGetUrl
  | Op_adminGetLicenseAdminPlatformLicenseGet => getAdminGetLicenseAdminPlatformLicenseGetUrl
  | Op_adminIssueLicenseAdminPlatformLicensePost _ => getAdminIssueLicenseAdminPlatformLicensePostUrl
  | Op_adminRevokeLicenseAdminPlatformLicenseRevokePost => getAdminRevokeLicenseAdminPlatformLicenseRevokePostUrl
  | Op_orgGetLicenseV1LicenseGet => getOrgGetLicenseV1LicenseGetUrl
  | Op_tenantGetLicenseAdminTenantsTenantIdLicenseGet tenantId => getTenantGetLicenseAdminTenantsTenantIdLicenseGetUrl tenantId
  | Op_tenantIssueLicenseAdminTenantsTenantIdLicensePost tenantId _ => getTenantIssueLicenseAdminTenantsTenantIdLicensePostUrl tenantId
  | Op_tenantRevokeLicenseAdminTenantsTenantIdLicenseRevokePost tenantId => getTenantRevokeLicenseAdminTenantsTenantIdLicenseRevokePostUrl tenantId
  | Op_listTenantsAdminTenantsGet => getListTenantsAdminTenantsGetUrl
  | Op_provisionTenantAdminTenantsPost _ => getProvisionTenantAdminTenantsPostUrl
  | Op_orgUsageV1UsageGet => getOrgUsageV1UsageGetUrl
  | Op_adminUsageAdminUsageGet => getAdminUsageAdminUsageGetUrl
  | Op_heartbeatV1TelemetryHeartbeatPost _ => getHeartbeatV1TelemetryHeartbeatPostUrl
  | Op_adminTelemetrySummaryAdminTelemetrySummaryGet => getAdminTelemetrySummaryAdminTelemetrySummaryGetUrl
  | Op_adminTelemetryInstancesAdminTelemetryInstancesGet => getAdminTelemetryInstancesAdminTelemetryInstancesGetUrl
  | Op_mcpProxyMcpServerSlugPost serverSlug => getMcpProxyMcpServerSlugPostUrl serverSlug
  | Op_mcpSseStreamMcpServerSlugGet serverSlug => getMcpSseStreamMcpServerSlugGetUrl serverSlug
  end.

Definition op_method (op : operation) : string :=
  match op with
  | Op_healthzHealthzGet => "GET"
  | Op_registerAuthRegisterPost _ => "POST"
  | Op_loginAuthLoginPost _ => "POST"
  | Op_meAuthMeGet => "GET"
  | Op_createInviteAuthInvitesPost _ => "POST"
  | Op_listInvitesAuthInvitesGet => "GET"
  | Op_revokeInviteAuthInvitesInviteIdRevokePost _ => "POST"
  | Op_listPendingUsersAuthPendingUsersGet => "GET"
  | Op_approveUserAuthPendingUsersUserIdApprovePost _ _ => "POST"
  | Op_rejectUserAuthPendingUsersUserIdRejectPost _ => "POST"
  | Op_createTeamAuthTeamsPost _ => "POST"
  | Op_listTeamsAuthTeamsGet => "GET"
  | Op_getTeamAuthTeamsTeamIdGet _ => "GET"
  | Op_updateTeamAuthTeamsTeamIdPatch _ _ => "PATCH"
  | Op_deleteTeamAuthTeamsTeamIdDelete _ => "DELETE"
  | Op_addServerToTeamAuthTeamsTeamIdServersServerIdPost _ _ => "POST"
  | Op_removeServerFromTeamAuthTeamsTeamIdServersServerIdDelete _ _ => "DELETE"
  | Op_createMemberAuthMembersPost _ => "POST"
  | Op_listMembersAuthMembersGet => "GET"
  | Op_getMemberAuthMembersMemberIdGet _ => "GET"
  | Op_updateMemberAuthMembersMemberIdPatch _ _ => "PATCH"
  | Op_deleteMemberAuthMembersMemberIdDelete _ => "DELETE"
  | Op_listTeamMembersAuthTeamsTeamIdMembersGet _ => "GET"
  | Op_ssoLoginAuthSsoSlugLoginGet _ => "GET"
  | Op_ssoCallbackAuthSsoSlugCallbackGet _ _ => "GET"
  | Op_createServerV1ServersPost _ => "POST"
  | Op_listServersV1ServersGet => "GET"
  | Op_getServerV1ServersSlugGet _ => "GET"
  | Op_updateServerV1ServersSlugPatch _ _ => "PATCH"
  | Op_deleteServerV1ServersSlugDelete _ => "DELETE"
  | Op_triggerHealthProbeV1ServersSlugHealthPost _ => "POST"
  | Op_createApiKeyV1ApiKeysPost _ => "POST"
  | Op_listApiKeysV1ApiKeysGet => "GET"
  | Op_revokeApiKeyV1ApiKeysKeyIdDelete _ => "DELETE"
  | Op_createRoleV1RolesPost _ => "POST"
  | Op_listRolesV1RolesGet => "GET"
  | Op_createBindingV1RolesRoleIdBindingsPost _ _ => "POST"
  | Op_deleteBindingV1RolesRoleIdBindingsBindingIdDelete _ _ => "DELETE"
  | Op_createPermissionV1RolesRoleIdPermissionsPost _ _ => "POST"
  | Op_deletePermissionV1RolesRoleIdPermissionsPermissionIdDelete _ _ => "DELETE"
  | Op_createPolicyV1RateLimitPoliciesPost _ => "POST"
  | Op_listPoliciesV1RateLimitPoliciesGet => "GET"
  | Op_updatePolicyV1RateLimitPoliciesPolicyIdPatch _ _ => "PATCH"
  | Op_deletePolicyV1RateLimitPoliciesPolicyIdDelete _ => "DELETE"
  | Op_listAuditLogsV1AuditGet _ => "GET"
  | Op_platformAdminMeAdminPlatformMeGet => "GET"
  | Op_adminGetLicenseAdminPlatformLicenseGet => "GET"
  | Op_adminIssueLicenseAdminPlatformLicensePost _ => "POST"
  | Op_adminRevokeLicenseAdminPlatformLicenseRevokePost => "POST"
  | Op_orgGetLicenseV1LicenseGet => "GET"
  | Op_tenantGetLicenseAdminTenantsTenantIdLicenseGet _ => "GET"
  | Op_tenantIssueLicenseAdminTenantsTenantIdLicensePost _ _ => "POST"
  | Op_tenantRevokeLicenseAdminTenantsTenantIdLicenseRevokePost _ => "POST"
  | Op_listTenantsAdminTenantsGet => "GET"
  | Op_provisionTenantAdminTenantsPost _ => "POST"
  | Op_orgUsageV1UsageGet => "GET"
  | Op_adminUsageAdminUsageGet => "GET"
  | Op_heartbeatV1TelemetryHeartbeatPost _ => "POST"
  | Op_adminTelemetrySummaryAdminTelemetrySummaryGet => "GET"
  | Op_adminTelemetryInstancesAdminTelemetryInstancesGet => "GET"
  | Op_mcpProxyMcpServerSlugPost _ => "POST"
  | Op_mcpSseStreamMcpServerSlugGet _ => "GET"
  end.

Definition op_body (op : operation) : option json :=
  match op with
  | Op_registerAuthRegisterPost registerRequest => Some registerRequest
  | Op_loginAuthLoginPost loginRequest => Some loginRequest
  | Op_createInviteAuthInvitesPost inviteCreate => Some inviteCreate
  | Op_approveUserAuthPendingUsersUserIdApprovePost _ approvalDecision => Some approvalDecision
  | Op_createTeamAuthTeamsPost teamCreate => Some teamCreate
  | Op_updateTeamAuthTeamsTeamIdPatch _ teamUpdate => Some teamUpdate
  | Op_createMemberAuthMembersPost orgMemberCreate => Some orgMemberCreate
  | Op_updateMemberAuthMembersMemberIdPatch _ orgMemberUpdate => Some orgMemberUpdate
  | Op_createServerV1ServersPost serverCreate => Some serverCreate
  | Op_updateServerV1ServersSlugPatch _ serverUpdate => Some serverUpdate
  | Op_createApiKeyV1ApiKeysPost apiKeyCreate => Some apiKeyCreate
  | Op_createRoleV1RolesPost roleCreate => Some roleCreate
  | Op_createBindingV1RolesRoleIdBindingsPost _ roleBindingCreate => Some roleBindingCreate
  | Op_createPermissionV1RolesRoleIdPermissionsPost _ toolPermissionCreate => Some toolPermissionCreate
  | Op_createPolicyV1RateLimitPoliciesPost rateLimitPolicyCreate => Some rateLimitPolicyCreate
  | Op_updatePolicyV1RateLimitPoliciesPolicyIdPatch _ rateLimitPolicyUpdate => Some rateLimitPolicyUpdate
  | Op_adminIssueLicenseAdminPlatformLicensePost licenseCreate => Some licenseCreate
  | Op_tenantIssueLicenseAdminTenantsTenantIdLicensePost _ licenseCreate => Some licenseCreate
  | Op_provisionTenantAdminTenantsPost tenantProvisionRequest => Some tenantProvisionRequest
  | Op_heartbeatV1TelemetryHeartbeatPost instanceHeartbeatRequest => Some instanceHeartbeatRequest
  | _ => None
  end.

Definition op_ids (op : operation) : list string :=
  match op with
  | Op_revokeInviteAuthInvitesInviteIdRevokePost inviteId => [inviteId]
  | Op_approveUserAuthPendingUsersUserIdApprovePost userId _ => [userId]
  | Op_rejectUserAuthPendingUsersUserIdRejectPost userId => [userId]
  | Op_getTeamAuthTeamsTeamIdGet teamId => [teamId]
  | Op_updateTeamAuthTeamsTeamIdPatch teamId _ => [teamId]
  | Op_deleteTeamAuthTeamsTeamIdDelete teamId => [teamId]
  | Op_addServerToTeamAuthTeamsTeamIdServersServerIdPost teamId serverId => [teamId; serverId]
  | Op_removeServerFromTeamAuthTeamsTeamIdServersServerIdDelete teamId serverId => [teamId; serverId]
  | Op_getMemberAuthMembersMemberIdGet memberId => [memberId]
  | Op_updateMemberAuthMembersMemberIdPatch memberId _ => [memberId]
  | Op_deleteMemberAuthMembersMemberIdDelete memberId => [memberId]
  | Op_listTeamMembersAuthTeamsTeamIdMembersGet teamId => [teamId]
  | Op_ssoLoginAuthSsoSlugLoginGet slug => [slug]
  | Op_ssoCallbackAuthSsoSlugCallbackGet slug _ => [slug]
  | Op_getServerV1ServersSlugGet slug => [slug]
  | Op_updateServerV1ServersSlugPatch slug _ => [slug]
  | Op_deleteServerV1ServersSlugDelete slug => [slug]
  | Op_triggerHealthProbeV1ServersSlugHealthPost slug => [slug]
  | Op_revokeApiKeyV1ApiKeysKeyIdDelete keyId => [keyId]
  | Op_createBindingV1RolesRoleIdBindingsPost roleId _ => [roleId]
  | Op_deleteBindingV1RolesRoleIdBindingsBindingIdDelete roleId bindingId => [roleId; bindingId]
  | Op_createPermissionV1RolesRoleIdPermissionsPost roleId _ => [roleId]
  | Op_deletePermissionV1RolesRoleIdPermissionsPermissionIdDelete roleId permissionId => [roleId; permissionId]
  | Op_updatePolicyV1RateLimitPoliciesPolicyIdPatch policyId _ => [policyId]
  | Op_deletePolicyV1RateLimitPoliciesPolicyIdDelete policyId => [policyId]
  | Op_tenantGetLicenseAdminTenantsTenantIdLicenseGet tenantId => [tenantId]
  | Op_tenantIssueLicenseAdminTenantsTenantIdLicensePost tenantId _ => [tenantId]
  | Op_tenantRevokeLicenseAdminTenantsTenantIdLicenseRevokePost tenantId => [tenantId]
  | Op_mcpProxyMcpServerSlugPost serverSlug => [serverSlug]
  | Op_mcpSseStreamMcpServerSlugGet serverSlug => [serverSlug]
  | _ => []
  end.

(** The parameters given a value, in order, as text. *)
Definition defined_entries (params : Params) : list (string * string) :=
  (fun kv => (kv.1, js_String (default JNull kv.2))) <$> filter (fun kv => is_Some kv.2) (entries params).

(** The entries a request should put in its query string. *)
Definition op_params (op : operation) : list (string * string) :=
  match op with
  | Op_ssoCallbackAuthSsoSlugCallbackGet _ params => defined_entries params
  | Op_listAuditLogsV1AuditGet params => defined_entries params
  | _ => []
  end.

Definition op_name (op : operation) : string :=
  match op with
  | Op_healthzHealthzGet => "healthzHealthzGet"
  | Op_registerAuthRegisterPost _ => "registerAuthRegisterPost"
  | Op_loginAuthLoginPost _ => "loginAuthLoginPost"
  | Op_meAuthMeGet => "meAuthMeGet"
  | Op_createInviteAuthInvitesPost _ => "createInviteAuthInvitesPost"
  | Op_listInvitesAuthInvitesGet => "listInvitesAuthInvitesGet"
  | Op_revokeInviteAuthInvitesInviteIdRevokePost _ => "revokeInviteAuthInvitesInviteIdRevokePost"
  | Op_listPendingUsersAuthPendingUsersGet => "listPendingUsersAuthPendingUsersGet"
  | Op_approveUserAuthPendingUsersUserIdApprovePost _ _ => "approveUserAuthPendingUsersUserIdApprovePost"
  | Op_rejectUserAuthPendingUsersUserIdRejectPost _ => "rejectUserAuthPendingUsersUserIdRejectPost"
  | Op_createTeamAuthTeamsPost _ => "createTeamAuthTeamsPost"
  | Op_listTeamsAuthTeamsGet => "listTeamsAuthTeamsGet"
  | Op_getTeamAuthTeamsTeamIdGet _ => "getTeamAuthTeamsTeamIdGet"
  | Op_updateTeamAuthTeamsTeamIdPatch _ _ => "updateTeamAuthTeamsTeamIdPatch"
  | Op_deleteTeamAuthTeamsTeamIdDelete _ => "deleteTeamAuthTeamsTeamIdDelete"
  | Op_addServerToTeamAuthTeamsTeamIdServersServerIdPost _ _ => "addServerToTeamAuthTeamsTeamIdServersServerIdPost"
  | Op_removeServerFromTeamAuthTeamsTeamIdServersServerIdDelete _ _ => "removeServerFromTeamAuthTeamsTeamIdServersServerIdDelete"
  | Op_createMemberAuthMembersPost _ => "createMemberAuthMembersPost"
  | Op_listMembersAuthMembersGet => "listMembersAuthMembersGet"
  | Op_getMemberAuthMembersMemberIdGet _ => "getMemberAuthMembersMemberIdGet"
  | Op_updateMemberAuthMembersMemberIdPatch _ _ => "updateMemberAuthMembersMemberIdPatch"
  | Op_deleteMemberAuthMembersMemberIdDelete _ => "deleteMemberAuthMembersMemberIdDelete"
  | Op_listTeamMembersAuthTeamsTeamIdMembersGet _ => "listTeamMembersAuthTeamsTeamIdMembersGet"
  | Op_ssoLoginAuthSsoSlugLoginGet _ => "ssoLoginAuthSsoSlugLoginGet"
  | Op_ssoCallbackAuthSsoSlugCallbackGet _ _ => "ssoCallbackAuthSsoSlugCallbackGet"
  | Op_createServerV1ServersPost _ => "createServerV1ServersPost"
  | Op_listServersV1ServersGet => "listServersV1ServersGet"
  | Op_getServerV1ServersSlugGet _ => "getServerV1ServersSlugGet"
  | Op_updateServerV1ServersSlugPatch _ _ => "updateServerV1ServersSlugPatch"
  | Op_deleteServerV1ServersSlugDelete _ => "deleteServerV1ServersSlugDelete"
  | Op_triggerHealthProbeV1ServersSlugHealthPost _ => "triggerHealthProbeV1ServersSlugHealthPost"
  | Op_createApiKeyV1ApiKeysPost _ => "createApiKeyV1ApiKeysPost"
  | Op_listApiKeysV1ApiKeysGet => "listApiKeysV1ApiKeysGet"
  | Op_revokeApiKeyV1ApiKeysKeyIdDelete _ => "revokeApiKeyV1ApiKeysKeyIdDelete"
  | Op_createRoleV1RolesPost _ => "createRoleV1RolesPost"
  | Op_listRolesV1RolesGet => "listRolesV1RolesGet"
  | Op_createBindingV1RolesRoleIdBindingsPost _ _ => "createBindingV1RolesRoleIdBindingsPost"
  | Op_deleteBindingV1RolesRoleIdBindingsBindingIdDelete _ _ => "deleteBindingV1RolesRoleIdBindingsBindingIdDelete"
  | Op_createPermissionV1RolesRoleIdPermissionsPost _ _ => "createPermissionV1RolesRoleIdPermissionsPost"
  | Op_deletePermissionV1RolesRoleIdPermissionsPermissionIdDelete _ _ => "deletePermissionV1RolesRoleIdPermissionsPermissionIdDelete"
  | Op_createPolicyV1RateLimitPoliciesPost _ => "createPolicyV1RateLimitPoliciesPost"
  | Op_listPoliciesV1RateLimitPoliciesGet => "listPoliciesV1RateLimitPoliciesGet"
  | Op_updatePolicyV1RateLimitPoliciesPolicyIdPatch _ _ => "updatePolicyV1RateLimitPoliciesPolicyIdPatch"
  | Op_deletePolicyV1RateLimitPoliciesPolicyIdDelete _ => "deletePolicyV1RateLimitPoliciesPolicyIdDelete"
  | Op_listAuditLogsV1AuditGet _ => "listAuditLogsV1AuditGet"
  | Op_platformAdminMeAdminPlatformMeGet => "platformAdminMeAdminPlatformMeGet"
  | Op_adminGetLicenseAdminPlatformLicenseGet => "adminGetLicenseAdminPlatformLicenseGet"
  | Op_adminIssueLicenseAdminPlatformLicensePost _ => "adminIssueLicenseAdminPlatformLicensePost"
  | Op_adminRevokeLicenseAdminPlatformLicenseRevokePost => "adminRevokeLicenseAdminPlatformLicenseRevokePost"
  | Op_orgGetLicenseV1LicenseGet => "orgGetLicenseV1LicenseGet"
  | Op_tenantGetLicenseAdminTenantsTenantIdLicenseGet _ => "tenantGetLicenseAdminTenantsTenantIdLicenseGet"
  | Op_tenantIssueLicenseAdminTenantsTenantIdLicensePost _ _ => "tenantIssueLicenseAdminTenantsTenantIdLicensePost"
  | Op_tenantRevokeLicenseAdminTenantsTenantIdLicenseRevokePost _ => "tenantRevokeLicenseAdminTenantsTenantIdLicenseRevokePost"
  | Op_listTenantsAdminTenantsGet => "listTenantsAdminTenantsGet"
  | Op_provisionTenantAdminTenantsPost _ => "provisionTenantAdminTenantsPost"
  | Op_orgUsageV1UsageGet => "orgUsageV1UsageGet"
  | Op_adminUsageAdminUsageGet => "adminUsageAdminUsageGet"
  | Op_heartbeatV1TelemetryHeartbeatPost _ => "heartbeatV1TelemetryHeartbeatPost"
  | Op_adminTelemetrySummaryAdminTelemetrySummaryGet => "adminTelemetrySummaryAdminTelemetrySummaryGet"
  | Op_adminTelemetryInstancesAdminTelemetryInstancesGet => "adminTelemetryInstancesAdminTelemetryInstancesGet"
  | Op_mcpProxyMcpServerSlugPost _ => "mcpProxyMcpServerSlugPost"
  | Op_mcpSseStreamMcpServerSlugGet _ => "mcpSseStreamMcpServerSlugGet"
  end.

(** The cache key react-query stores an answer under. *)
Definition op_key (op : operation) : option QueryKey :=
  match op with
  | Op_healthzHealthzGet => Some (getHealthzHealthzGetQueryKey)
  | Op_meAuthMeGet => Some (getMeAuthMeGetQueryKey)
  | Op_listInvitesAuthInvitesGet => Some (getListInvitesAuthInvitesGetQueryKey)
  | Op_listPendingUsersAuthPendingUsersGet => Some (getListPendingUsersAuthPendingUsersGetQueryKey)
  | Op_listTeamsAuthTeamsGet => Some (getListTeamsAuthTeamsGetQueryKey)
  | Op_getTeamAuthTeamsTeamIdGet teamId => Some (getGetTeamAuthTeamsTeamIdGetQueryKey teamId)
  | Op_listMembersAuthMembersGet => Some (getListMembersAuthMembersGetQueryKey)
  | Op_getMemberAuthMembersMemberIdGet memberId => Some (getGetMemberAuthMembersMemberIdGetQueryKey memberId)
  | Op_listTeamMembersAuthTeamsTeamIdMembersGet teamId => Some (getListTeamMembersAuthTeamsTeamIdMembersGetQueryKey teamId)
  | Op_ssoLoginAuthSsoSlugLoginGet slug => Some (getSsoLoginAuthSsoSlugLoginGetQueryKey slug)
  | Op_ssoCallbackAuthSsoSlugCallbackGet slug params => Some (getSsoCallbackAuthSsoSlugCallbackGetQueryKey slug params)
  | Op_listServersV1ServersGet => Some (getListServersV1ServersGetQueryKey)
  | Op_getServerV1ServersSlugGet slug => Some (getGetServerV1ServersSlugGetQueryKey slug)
  | Op_listApiKeysV1ApiKeysGet => Some (getListApiKeysV1ApiKeysGetQueryKey)
  | Op_listRolesV1RolesGet => Some (getListRolesV1RolesGetQueryKey)
  | Op_listPoliciesV1RateLimitPoliciesGet => Some (getListPoliciesV1RateLimitPoliciesGetQueryKey)
  | Op_listAuditLogsV1AuditGet params => Some (getListAuditLogsV1AuditGetQueryKey params)
  | Op_platformAdminMeAdminPlatformMeGet => Some (getPlatformAdminMeAdminPlatformMeGetQueryKey)
  | Op_adminGetLicenseAdminPlatformLicenseGet => Some (getAdminGetLicenseAdminPlatformLicenseGetQueryKey)
  | Op_orgGetLicenseV1LicenseGet => Some (getOrgGetLicenseV1LicenseGetQueryKey)
  | Op_tenantGetLicenseAdminTenantsTenantIdLicenseGet tenantId => Some (getTenantGetLicenseAdminTenantsTenantIdLicenseGetQueryKey tenantId)
  | Op_listTenantsAdminTenantsGet => Some (getListTenantsAdminTenantsGetQueryKey)
  | Op_orgUsageV1UsageGet => Some (getOrgUsageV1UsageGetQueryKey)
  | Op_adminUsageAdminUsageGet => Some (getAdminUsageAdminUsageGetQueryKey)
  | Op_adminTelemetrySummaryAdminTelemetrySummaryGet => Some (getAdminTelemetrySummaryAdminTelemetrySummaryGetQueryKey)
  | Op_adminTelemetryInstancesAdminTelemetryInstancesGet => Some (getAdminTelemetryInstancesAdminTelemetryInstancesGetQueryKey)
  | Op_mcpSseStreamMcpServerSlugGet serverSlug => Some (getMcpSseStreamMcpServerSlugGetQueryKey serverSlug)
  | _ => None
  end.

(** The routes of the backend, as web/openapi.json declares them: for each
    method and path template the operation it is the address of (the 62 of its
    operations that the generated client has a function for). *)
Definition route_path (method : string) (segments : list string) : option (string * list string) :=
  match method, segments with
  | "GET", ["healthz"] => Some ("healthzHealthzGet", [])
  | "POST", ["auth"; "register"] => Some ("registerAuthRegisterPost", [])
  | "POST", ["auth"; "login"] => Some ("loginAuthLoginPost", [])
  | "GET", ["auth"; "me"] => Some ("meAuthMeGet", [])
  | "POST", ["auth"; "invites"] => Some ("createInviteAuthInvitesPost", [])
  | "GET", ["auth"; "invites"] => Some ("listInvitesAuthInvitesGet", [])
  | "POST", ["auth"; "invites"; inviteId; "revoke"] => Some ("revokeInviteAuthInvitesInviteIdRevokePost", [inviteId])
  | "GET", ["auth"; "pending-users"] => Some ("listPendingUsersAuthPendingUsersGet", [])
  | "POST", ["auth"; "pending-users"; userId; "approve"] => Some ("approveUserAuthPendingUsersUserIdApprovePost", [userId])
  | "POST", ["auth"; "pending-users"; userId; "reject"] => Some ("rejectUserAuthPendingUsersUserIdRejectPost", [userId])
  | "POST", ["auth"; "teams"] => Some ("createTeamAuthTeamsPost", [])
  | "GET", ["auth"; "teams"] => Some ("listTeamsAuthTeamsGet", [])
  | "GET", ["auth"; "teams"; teamId] => Some ("getTeamAuthTeamsTeamIdGet", [teamId])
  | "PATCH", ["auth"; "teams"; teamId] => Some ("updateTeamAuthTeamsTeamIdPatch", [teamId])
  | "DELETE", ["auth"; "teams"; teamId] => Some ("deleteTeamAuthTeamsTeamIdDelete", [teamId])
  | "POST", ["auth"; "teams"; teamId; "servers"; serverId] => Some ("addServerToTeamAuthTeamsTeamIdServersServerIdPost", [teamId; serverId])
  | "DELETE", ["auth"; "teams"; teamId; "servers"; serverId] => Some ("removeServerFromTeamAuthTeamsTeamIdServersServerIdDelete", [teamId; serverId])
  | "POST", ["auth"; "members"] => Some ("createMemberAuthMembersPost", [])
  | "GET", ["auth"; "members"] => Some ("listMembersAuthMembersGet", [])
  | "GET", ["auth"; "members"; memberId] => Some ("getMemberAuthMembersMemberIdGet", [memberId])
  | "PATCH", ["auth"; "members"; memberId] => Some ("updateMemberAuthMembersMemberIdPatch", [memberId])
  | "DELETE", ["auth"; "members"; memberId] => Some ("deleteMemberAuthMembersMemberIdDelete", [memberId])
  | "GET", ["auth"; "teams"; teamId; "members"] => Some ("listTeamMembersAuthTeamsTeamIdMembersGet", [teamId])
  | "GET", ["auth"; "sso"; slug; "login"] => Some ("ssoLoginAuthSsoSlugLoginGet", [slug])
  | "GET", ["auth"; "sso"; slug; "callback"] => Some ("ssoCallbackAuthSsoSlugCallbackGet", [slug])
  | "POST", ["v1"; "servers"] => Some ("createServerV1ServersPost", [])
  | "GET", ["v1"; "servers"] => Some ("listServersV1ServersGet", [])
  | "GET", ["v1"; "servers"; slug] => Some ("getServerV1ServersSlugGet", [slug])
  | "PATCH", ["v1"; "servers"; slug] => Some ("updateServerV1ServersSlugPatch", [slug])
  | "DELETE", ["v1"; "servers"; slug] => Some ("deleteServerV1ServersSlugDelete", [slug])
  | "POST", ["v1"; "servers"; slug; "health"] => Some ("triggerHealthProbeV1ServersSlugHealthPost", [slug])
  | "POST", ["v1"; "api-keys"] => Some ("createApiKeyV1ApiKeysPost", [])
  | "GET", ["v1"; "api-keys"] => Some ("listApiKeysV1ApiKeysGet", [])
  | "DELETE", ["v1"; "api-keys"; keyId] => Some ("revokeApiKeyV1ApiKeysKeyIdDelete", [keyId])
  | "POST", ["v1"; "roles"] => Some ("createRoleV1RolesPost", [])
  | "GET", ["v1"; "roles"] => Some ("listRolesV1RolesGet", [])
  | "POST", ["v1"; "roles"; roleId; "bindings"] => Some ("createBindingV1RolesRoleIdBindingsPost", [roleId])
  | "DELETE", ["v1"; "roles"; roleId; "bindings"; bindingId] => Some ("deleteBindingV1RolesRoleIdBindingsBindingIdDelete", [roleId; bindingId])
  | "POST", ["v1"; "roles"; roleId; "permissions"] => Some ("createPermissionV1RolesRoleIdPermissionsPost", [roleId])
  | "DELETE", ["v1"; "roles"; roleId; "permissions"; permissionId] => Some ("deletePermissionV1RolesRoleIdPermissionsPermissionIdDelete", [roleId; permissionId])
  | "POST", ["v1"; "rate-limit-policies"] => Some ("createPolicyV1RateLimitPoliciesPost", [])
  | "GET", ["v1"; "rate-limit-policies"] => Some ("listPoliciesV1RateLimitPoliciesGet", [])
  | "PATCH", ["v1"; "rate-limit-policies"; policyId] => Some ("updatePolicyV1RateLimitPoliciesPolicyIdPatch", [policyId])
  | "DELETE", ["v1"; "rate-limit-policies"; policyId] => Some ("deletePolicyV1RateLimitPoliciesPolicyIdDelete", [policyId])
  | "GET", ["v1"; "audit"] => Some ("listAuditLogsV1AuditGet", [])
  | "GET", ["admin"; "platform"; "me"] => Some ("platformAdminMeAdminPlatformMeGet", [])
  | "GET", ["admin"; "platform"; "license"] => Some ("adminGetLicenseAdminPlatformLicenseGet", [])
  | "POST", ["admin"; "platform"; "license"] => Some ("adminIssueLicenseAdminPlatformLicensePost", [])
  | "POST", ["admin"; "platform"; "license"; "revoke"] => Some ("adminRevokeLicenseAdminPlatformLicenseRevokePost", [])
  | "GET", ["v1"; "license"] => Some ("orgGetLicenseV1LicenseGet", [])
  | "GET", ["admin"; "tenants"; tenantId; "license"] => Some ("tenantGetLicenseAdminTenantsTenantIdLicenseGet", [tenantId])
  | "POST", ["admin"; "tenants"; tenantId; "license"] => Some ("tenantIssueLicenseAdminTenantsTenantIdLicensePost", [tenantId])
  | "POST", ["admin"; "tenants"; tenantId; "license"; "revoke"] => Some ("tenantRevokeLicenseAdminTenantsTenantIdLicenseRevokePost", [tenantId])
  | "GET", ["admin"; "tenants"] => Some ("listTenantsAdminTenantsGet", [])
  | "POST", ["admin"; "tenants"] => Some ("provisionTenantAdminTenantsPost", [])
  | "GET", ["v1"; "usage"] => Some ("orgUsageV1UsageGet", [])
  | "GET", ["admin"; "usage"] => Some ("adminUsageAdminUsageGet", [])
  | "POST", ["v1"; "telemetry"; "heartbeat"] => Some ("heartbeatV1TelemetryHeartbeatPost", [])
  | "GET", ["admin"; "telemetry"; "summary"] => Some ("adminTelemetrySummaryAdminTelemetrySummaryGet", [])
  | "GET", ["admin"; "telemetry"; "instances"] => Some ("adminTelemetryInstancesAdminTelemetryInstancesGet", [])
  | "POST", ["mcp"; serverSlug] => Some ("mcpProxyMcpServerSlugPost", [serverSlug])
  | "GET", ["mcp"; serverSlug] => Some ("mcpSseStreamMcpServerSlugGet", [serverSlug])
  | _, _ => None
  end.

Definition op_init (op : operation) (options : option RequestInit) : RequestInit :=
  match op_body op with
  | Some d => init_json (op_method op) d options
  | None => init_plain (op_method op) options
  end.

(** [application/x-www-form-urlencoded] parsing, the inverse of
    [URLSearchParams.toString]. *)
Definition plus_to_space (c : ascii) : ascii := if bool_decide (c = "+"%char) then " "%char else c.

Definition form_decode (s : string) : option string :=
  match decodeURIComponent (smap plus_to_space s) with Decoded t => Some t | _ => None end.

Definition parse_pair (s : string) : option (string * string) :=
  k ← form_decode (take_until "=" s);
  v ← form_decode (default "" (drop_after "=" s));
  Some (k, v).

Definition parse_query (q : option string) : option (list (string * string)) :=
  match q with
  | None => Some []
  | Some q => mapM parse_pair (split "&" q)
  end.

(** What the URL standard makes of a URL before it is sent: tabs and line ends
    are dropped, trailing blanks too, and in the path a backslash is a slash. *)
Fixpoint url_strip (s : string) : string :=
  match s with
  | "" => ""
  | String c r => if bool_decide (code c ∈ [9; 10; 13]%N) then url_strip r else String c (url_strip r)
  end.

Fixpoint url_trim_end (s : string) : string :=
  match s with
  | "" => ""
  | String c r => let r' := url_trim_end r in
                  if bool_decide (r' = "") && (code c <=? 32)%N then "" else String c r'
  end.

Definition back_to_slash (c : ascii) : ascii := if bool_decide (c = "\"%char) then "/"%char else c.

Definition single_dot (s : string) : bool := bool_decide (toLowerCase s ∈ ["."; "%2e"]).

Definition double_dot (s : string) : bool :=
  bool_decide (toLowerCase s ∈ [".."; ".%2e"; "%2e."; "%2e%2e"]).

(** Dot segments are resolved on the client; one at the end leaves an empty
    segment.  [out] is the path so far, last segment first. *)
Fixpoint resolve_dots (out segments : list string) : list string :=
  match segments with
  | [] => rev out
  | x :: r =>
      if double_dot x then match r with [] => rev ("" :: tail out) | _ => resolve_dots (tail out) r end
      else if single_dot x then match r with [] => rev ("" :: out) | _ => resolve_dots out r end
      else resolve_dots (x :: out) r
  end.

(** The segments the server matches: the ASGI server percent-decodes the whole
    path before the router splits it, so that [%2F] separates too.  A malformed
    escape, or one of a character above U+00FF, has no reading here. *)
Definition path_segments (path : string) : option (list string) :=
  match decodeURIComponent (join "/" (resolve_dots [] (split "/" (sdrop 1 (smap back_to_slash path))))) with
  | Decoded p => Some (split "/" p)
  | _ => None
  end.

(** What the backend reads from a method and the URL the client was given:
    the operation, its path parameters (none may be empty: a [{param}] of the
    router matches [[^/]+]), and the query. *)
Definition route (method url : string) : option (string * list string * list (string * string)) :=
  let target := take_until "#" (url_trim_end (url_strip url)) in
  segments ← path_segments (take_until "?" target);
  '(name, ids) ← route_path method segments;
  query ← parse_query (drop_after "?" target);
  if forallb (fun id => bool_decide (id <> "")) ids then Some (name, ids, query) else None.

(** A plain path segment: not empty, not a dot segment, and only characters RFC
    3986 lets a segment hold unescaped, such as a slug or a UUID. *)
Definition segment_char (c : ascii) : bool :=
  uri_unreserved c || bool_decide (c ∈ ["$"; "&"; "+"; ","; ";"; "="; ":"; "@"]%char).

Definition segment_safe (s : string) : bool :=
  sforall segment_char s && bool_decide (s ∉ [""; "."; ".."]).

Definition url_of_key (k : QueryKey) : option string :=
  match k with
  | [KUrl u] => Some u
  | [KUrl u; KParams e] => Some (with_params u (Some e))
  | _ => None
  end.

(** ** Lemmas *)

Lemma form_char_decode c t :
  decodeURIComponent (smap plus_to_space (form_char c) +:+ t) = dcons c (decodeURIComponent t).
Proof. destruct c as [[] [] [] [] [] [] [] []]; reflexivity. Qed.

Lemma form_decode_encode s : form_decode (form_encode s) = Some s.
Proof.
  unfold form_decode. enough (decodeURIComponent (smap plus_to_space (form_encode s)) = Decoded s)
    as -> by done.
  induction s as [|c s IH]; [done|]. cbn [form_encode].
  by rewrite smap_app, form_char_decode, IH.
Qed.

Definition form_safe (c : ascii) : bool :=
  negb (bool_decide (c ∈ ["&"; "="; "#"; "?"; "/"]%char)).

Lemma form_char_safe c : sforall form_safe (form_char c) = true.
Proof. destruct c as [[] [] [] [] [] [] [] []]; reflexivity. Qed.

Lemma form_encode_safe s : sforall form_safe (form_encode s) = true.
Proof.
  induction s as [|c s IH]; [done|]. cbn [form_encode].
  by rewrite sforall_app, form_char_safe, IH.
Qed.

Lemma form_encode_without c s :
  c ∈ ["&"; "="; "#"; "?"; "/"]%char -> without c (form_encode s) = true.
Proof.
  intros Hc. apply (sforall_impl form_safe), form_encode_safe.
  intros d. unfold form_safe. intros ?. bool_hyps. rewrite bool_decide_false; [done|set_solver].
Qed.

Lemma parse_form_pair kv : parse_pair (form_pair kv) = Some kv.
Proof.
  destruct kv as [k v]. unfold parse_pair, form_pair. cbn [fst snd].
  change ("=" +:+ ?x) with (String "=" x).
  rewrite take_until_app, drop_after_app by (apply form_encode_without; set_solver).
  simpl. by rewrite !form_decode_encode.
Qed.

Lemma form_pair_without c kv :
  c ∈ ["&"; "#"; "?"; "/"]%char -> without c (form_pair kv) = true.
Proof.
  intros Hc. unfold form_pair. rewrite !without_app, !form_encode_without by set_solver.
  simpl. apply list_elem_of_In in Hc. simpl in Hc. by destruct_or?; subst.
Qed.

Lemma toString_without c l :
  c ∈ ["#"; "?"; "/"]%char -> without c (URLSearchParams_toString l) = true.
Proof.
  intros Hc. unfold URLSearchParams_toString.
  induction l as [|kv [|kv' l] IH]; [done| |]; cbn [map] in *.
  - apply form_pair_without. set_solver.
  - rewrite join_cons, !without_app, form_pair_without, IH by set_solver.
    apply list_elem_of_In in Hc. simpl in Hc. by destruct_or?; subst.
Qed.

Lemma parse_toString kv l :
  mapM parse_pair (split "&" (URLSearchParams_toString (kv :: l))) = Some (kv :: l).
Proof.
  unfold URLSearchParams_toString. revert kv.
  induction l as [|kv' l IH]; intros kv; cbn [map].
  - change (join "&" [form_pair kv]) with (form_pair kv).
    rewrite split_without by (apply form_pair_without; set_solver). simpl. by rewrite parse_form_pair.
  - rewrite join_cons. change ("&" +:+ ?x) with (String "&" x).
    rewrite split_app by (apply form_pair_without; set_solver).
    cbn [map] in IH. cbn [mapM]. rewrite parse_form_pair, IH. done.
Qed.

(** A URL without blanks, control characters and backslashes is taken as it
    is. *)
Definition url_plain (c : ascii) : bool := (32 <? code c)%N && negb (bool_decide (c = "\"%char)).

Lemma url_strip_plain s : sforall url_plain s = true -> url_trim_end (url_strip s) = s.
Proof.
  induction s as [|c s IH]; [done|]. cbn [sforall]. intros [Hc Hs]%andb_true_iff.
  assert (32 < code c)%N as Hl by (unfold url_plain in Hc; bool_hyps; by apply N.ltb_lt).
  cbn [url_strip]. rewrite bool_decide_false by (intros Hin; apply list_elem_of_In in Hin; simpl in Hin; lia).
  cbn [url_trim_end]. rewrite IH by done.
  rewrite (proj2 (N.leb_gt _ _) Hl). by rewrite andb_false_r.
Qed.

Lemma back_to_slash_plain s : sforall url_plain s = true -> smap back_to_slash s = s.
Proof.
  induction s as [|c s IH]; [done|]. cbn [sforall smap]. intros [Hc Hs]%andb_true_iff.
  rewrite IH by done. unfold url_plain in Hc. bool_hyps. unfold back_to_slash. by rewrite bool_decide_false.
Qed.

Lemma sforall_join p sep l :
  sforall p sep = true -> forallb (sforall p) l = true -> sforall p (join sep l) = true.
Proof.
  intros Hs. induction l as [|x [|y l] IH]; intros H; [done| |]; cbn [forallb] in H; bool_hyps; [done|].
  rewrite join_cons, !sforall_app, Hs, IH by (cbn [forallb]; by rewrite andb_true_iff). by rewrite H.
Qed.

Lemma form_char_plain c : sforall url_plain (form_char c) = true.
Proof. destruct c as [[] [] [] [] [] [] [] []]; reflexivity. Qed.

Lemma form_encode_plain s : sforall url_plain (form_encode s) = true.
Proof.
  induction s as [|c s IH]; [done|]. cbn [form_encode]. by rewrite sforall_app, form_char_plain, IH.
Qed.

Lemma toString_plain l : sforall url_plain (URLSearchParams_toString l) = true.
Proof.
  apply sforall_join; [done|]. induction l as [|kv l IH]; [done|]. cbn [map forallb].
  rewrite IH, andb_true_r. unfold form_pair. by rewrite !sforall_app, !form_encode_plain.
Qed.

Lemma with_params_plain path params :
  sforall url_plain path = true -> sforall url_plain (with_params path params) = true.
Proof. intros H. unfold with_params. case_match; [|done]. by rewrite !sforall_app, H, toString_plain. Qed.

(** A URL that is a path and encoded parameters is read back as such. *)
Lemma route_spec m path params :
  without "?" path = true -> without "#" path = true -> sforall url_plain path = true ->
  route m (with_params path params) =
    segments ← path_segments path;
    '(name, ids) ← route_path m segments;
    if forallb (fun id => bool_decide (id <> "")) ids then Some (name, ids, normalizedParams params) else None.
Proof.
  intros Hq Hh Hp. unfold route. rewrite url_strip_plain by by apply with_params_plain.
  unfold with_params. destruct (normalizedParams params) as [|kv l].
  - cbn. rewrite take_until_all by done. rewrite take_until_all by done.
    assert (drop_after "?" path = None) as ->; [|done].
    clear -Hq. induction path as [|c s IH]; [done|]. rewrite without_cons in Hq. bool_hyps.
    simpl. by rewrite bool_decide_false, IH.
  - destruct (String.length _) as [|n] eqn:E; cbn [Nat.ltb Nat.leb].
    { exfalso. revert E. unfold URLSearchParams_toString.
      destruct l; cbn [map]; [unfold join; cbn [String.concat]|rewrite join_cons, sapp_length];
        unfold form_pair; rewrite !sapp_length; simpl; lia. }
    change ("?" +:+ ?x) with (String "?" x).
    rewrite take_until_all.
    2: { rewrite without_app, Hh, without_cons, toString_without by set_solver. done. }
    rewrite take_until_app, drop_after_app by done.
    simpl. by rewrite parse_toString.
Qed.

(** The path of an operation, segment by segment, and its raw parameters. *)
Definition op_segments (op : operation) : list string :=
  match op with
  | Op_healthzHealthzGet => ["healthz"]
  | Op_registerAuthRegisterPost _ => ["auth"; "register"]
  | Op_loginAuthLoginPost _ => ["auth"; "login"]
  | Op_meAuthMeGet => ["auth"; "me"]
  | Op_createInviteAuthInvitesPost _ => ["auth"; "invites"]
  | Op_listInvitesAuthInvitesGet => ["auth"; "invites"]
  | Op_revokeInviteAuthInvitesInviteIdRevokePost inviteId => ["auth"; "invites"; inviteId; "revoke"]
  | Op_listPendingUsersAuthPendingUsersGet => ["auth"; "pending-users"]
  | Op_approveUserAuthPendingUsersUserIdApprovePost userId _ => ["auth"; "pending-users"; userId; "approve"]
  | Op_rejectUserAuthPendingUsersUserIdRejectPost userId => ["auth"; "pending-users"; userId; "reject"]
  | Op_createTeamAuthTeamsPost _ => ["auth"; "teams"]
  | Op_listTeamsAuthTeamsGet => ["auth"; "teams"]
  | Op_getTeamAuthTeamsTeamIdGet teamId => ["auth"; "teams"; teamId]
  | Op_updateTeamAuthTeamsTeamIdPatch teamId _ => ["auth"; "teams"; teamId]
  | Op_deleteTeamAuthTeamsTeamIdDelete teamId => ["auth"; "teams"; teamId]
  | Op_addServerToTeamAuthTeamsTeamIdServersServerIdPost teamId serverId => ["auth"; "teams"; teamId; "servers"; serverId]
  | Op_removeServerFromTeamAuthTeamsTeamIdServersServerIdDelete teamId serverId => ["auth"; "teams"; teamId; "servers"; serverId]
  | Op_createMemberAuthMembersPost _ => ["auth"; "members"]
  | Op_listMembersAuthMembersGet => ["auth"; "members"]
  | Op_getMemberAuthMembersMemberIdGet memberId => ["auth"; "members"; memberId]
  | Op_updateMemberAuthMembersMemberIdPatch memberId _ => ["auth"; "members"; memberId]
  | Op_deleteMemberAuthMembersMemberIdDelete memberId => ["auth"; "members"; memberId]
  | Op_listTeamMembersAuthTeamsTeamIdMembersGet teamId => ["auth"; "teams"; teamId; "members"]
  | Op_ssoLoginAuthSsoSlugLoginGet slug => ["auth"; "sso"; slug; "login"]
  | Op_ssoCallbackAuthSsoSlugCallbackGet slug _ => ["auth"; "sso"; slug; "callback"]
  | Op_createServerV1ServersPost _ => ["v1"; "servers"]
  | Op_listServersV1ServersGet => ["v1"; "servers"]
  | Op_getServerV1ServersSlugGet slug => ["v1"; "servers"; slug]
  | Op_updateServerV1ServersSlugPatch slug _ => ["v1"; "servers"; slug]
  | Op_deleteServerV1ServersSlugDelete slug => ["v1"; "servers"; slug]
  | Op_triggerHealthProbeV1ServersSlugHealthPost slug => ["v1"; "servers"; slug; "health"]
  | Op_createApiKeyV1ApiKeysPost _ => ["v1"; "api-keys"]
  | Op_listApiKeysV1ApiKeysGet => ["v1"; "api-keys"]
  | Op_revokeApiKeyV1ApiKeysKeyIdDelete keyId => ["v1"; "api-keys"; keyId]
  | Op_createRoleV1RolesPost _ => ["v1"; "roles"]
  | Op_listRolesV1RolesGet => ["v1"; "roles"]
  | Op_createBindingV1RolesRoleIdBindingsPost roleId _ => ["v1"; "roles"; roleId; "bindings"]
  | Op_deleteBindingV1RolesRoleIdBindingsBindingIdDelete roleId bindingId => ["v1"; "roles"; roleId; "bindings"; bindingId]
  | Op_createPermissionV1RolesRoleIdPermissionsPost roleId _ => ["v1"; "roles"; roleId; "permissions"]
  | Op_deletePermissionV1RolesRoleIdPermissionsPermissionIdDelete roleId permissionId => ["v1"; "roles"; roleId; "permissions"; permissionId]
  | Op_createPolicyV1RateLimitPoliciesPost _ => ["v1"; "rate-limit-policies"]
  | Op_listPoliciesV1RateLimitPoliciesGet => ["v1"; "rate-limit-policies"]
  | Op_updatePolicyV1RateLimitPoliciesPolicyIdPatch policyId _ => ["v1"; "rate-limit-policies"; policyId]
  | Op_deletePolicyV1RateLimitPoliciesPolicyIdDelete policyId => ["v1"; "rate-limit-policies"; policyId]
  | Op_listAuditLogsV1AuditGet _ => ["v1"; "audit"]
  | Op_platformAdminMeAdminPlatformMeGet => ["admin"; "platform"; "me"]
  | Op_adminGetLicenseAdminPlatformLicenseGet => ["admin"; "platform"; "license"]
  | Op_adminIssueLicenseAdminPlatformLicensePost _ => ["admin"; "platform"; "license"]
  | Op_adminRevokeLicenseAdminPlatformLicenseRevokePost => ["admin"; "platform"; "license"; "revoke"]
  | Op_orgGetLicenseV1LicenseGet => ["v1"; "license"]
  | Op_tenantGetLicenseAdminTenantsTenantIdLicenseGet tenantId => ["admin"; "tenants"; tenantId; "license"]
  | Op_tenantIssueLicenseAdminTenantsTenantIdLicensePost tenantId _ => ["admin"; "tenants"; tenantId; "license"]
  | Op_tenantRevokeLicenseAdminTenantsTenantIdLicenseRevokePost tenantId => ["admin"; "tenants"; tenantId; "license"; "revoke"]
  | Op_listTenantsAdminTenantsGet => ["admin"; "tenants"]
  | Op_provisionTenantAdminTenantsPost _ => ["admin"; "tenants"]
  | Op_orgUsageV1UsageGet => ["v1"; "usage"]
  | Op_adminUsageAdminUsageGet => ["admin"; "usage"]
  | Op_heartbeatV1TelemetryHeartbeatPost _ => ["v1"; "telemetry"; "heartbeat"]
  | Op_adminTelemetrySummaryAdminTelemetrySummaryGet => ["admin"; "telemetry"; "summary"]
  | Op_adminTelemetryInstancesAdminTelemetryInstancesGet => ["admin"; "telemetry"; "instances"]
  | Op_mcpProxyMcpServerSlugPost serverSlug => ["mcp"; serverSlug]
  | Op_mcpSseStreamMcpServerSlugGet serverSlug => ["mcp"; serverSlug]
  end.

Definition op_raw_params (op : operation) : Params :=
  match op with
  | Op_ssoCallbackAuthSsoSlugCallbackGet _ params => params
  | Op_listAuditLogsV1AuditGet params => params
  | _ => None
  end.

Lemma op_url_segments op :
  op_url op = with_params ("/" +:+ join "/" (op_segments op)) (op_raw_params op).
Proof. by destruct op. Qed.

Lemma normalized_defined params : normalizedParams params = defined_entries params.
Proof.
  unfold normalizedParams, defined_entries. induction (entries params) as [|[k [v|]] l IH]; [done| |];
    rewrite filter_cons; [rewrite decide_True by eauto|rewrite decide_False by (by intros [? ?])]; [|exact IH].
  cbn. f_equal. exact IH.
Qed.

Lemma op_params_raw op : op_params op = normalizedParams (op_raw_params op).
Proof. rewrite normalized_defined. by destruct op. Qed.

Lemma op_segments_routed op :
  route_path (op_method op) (op_segments op) = Some (op_name op, op_ids op).
Proof. by destruct op. Qed.

Lemma op_segments_safe op :
  forallb segment_safe (op_ids op) = true -> forallb segment_safe (op_segments op) = true.
Proof.
  destruct op; intros H; try reflexivity; cbn [op_ids op_segments forallb] in *;
    rewrite ?andb_true_iff in *; repeat split; tauto || reflexivity.
Qed.

Lemma split_join c l :
  l <> [] -> forallb (without c) l = true -> split c (join (String c "") l) = l.
Proof.
  induction l as [|x [|y l] IH]; intros ? H; [done| |]; cbn [forallb] in H; bool_hyps.
  - by apply split_without.
  - rewrite join_cons. change (String c "" +:+ ?x) with (String c x).
    rewrite split_app by done. f_equal. apply IH; [done|]. cbn [forallb]. by rewrite andb_true_iff.
Qed.

Lemma join_without c d l :
  c <> d -> forallb (without c) l = true -> without c (join (String d "") l) = true.
Proof.
  intros Hc. induction l as [|x [|y l] IH]; intros H; [done| |]; cbn [forallb] in H; bool_hyps.
  - done.
  - rewrite join_cons, !without_app. rewrite IH by (cbn [forallb]; by rewrite andb_true_iff).
    rewrite H. change (without c (String d "")) with (negb (bool_decide (c = d)) && true).
    by rewrite bool_decide_false.
Qed.

Lemma segment_char_facts c :
  segment_char c = true ->
  c <> "/"%char /\ c <> "?"%char /\ c <> "#"%char /\ c <> "%"%char /\ url_plain c = true.
Proof. destruct c as [[] [] [] [] [] [] [] []]; intros H; try discriminate H; by repeat split. Qed.

Lemma segment_chars l : forallb segment_safe l = true -> forallb (sforall segment_char) l = true.
Proof.
  rewrite !forallb_forall. intros H x Hx. specialize (H x Hx). unfold segment_safe in H. by bool_hyps.
Qed.

Lemma segments_without c l :
  c ∈ ["/"; "?"; "#"; "%"]%char -> forallb segment_safe l = true -> forallb (without c) l = true.
Proof.
  intros Hc. rewrite !forallb_forall. intros H x Hx. specialize (H x Hx).
  unfold segment_safe in H. bool_hyps. eapply sforall_impl; [|done]. intros d (?&?&?&?&_)%segment_char_facts.
  apply negb_true_iff, bool_decide_eq_false. set_solver.
Qed.

Lemma segments_plain l : forallb segment_safe l = true -> forallb (sforall url_plain) l = true.
Proof.
  intros H%segment_chars. revert H. rewrite !forallb_forall. intros H x Hx. specialize (H x Hx).
  eapply sforall_impl; [|done]. by intros d (?&?&?&?&?)%segment_char_facts.
Qed.

Lemma decode_without s : without "%" s = true -> decodeURIComponent s = Decoded s.
Proof.
  induction s as [|c s IH]; [done|]. rewrite without_cons. intros [Hc Hs]%andb_true_iff.
  specialize (IH Hs). destruct c as [[] [] [] [] [] [] [] []]; try discriminate Hc; simpl in *; by rewrite IH.
Qed.

Lemma dot_segment_char s :
  sforall segment_char s = true -> single_dot s = bool_decide (s = ".") /\ double_dot s = bool_decide (s = "..").
Proof.
  intros H. unfold single_dot, double_dot.
  assert (forall c, segment_char c = true -> (lower_char c = "."%char <-> c = "."%char)
            /\ lower_char c <> "%"%char) as Hc.
  { intros c. destruct c as [[] [] [] [] [] [] [] []]; intros E; try discriminate E; by vm_compute. }
  assert (forall c, segment_char c = true -> lower_char c = "."%char -> c = "."%char) as Hd by naive_solver.
  assert (forall c, segment_char c = true -> lower_char c <> "%"%char) as Hp by naive_solver.
  destruct s as [|c1 [|c2 [|c3 s]]]; cbn [sforall] in H; rewrite ?andb_true_iff in H; destruct_and?;
    split; apply bool_decide_ext; unfold toLowerCase; cbn [smap]; rewrite list_elem_of_In; simpl;
    split; intros Hs; destruct_or?; try injection Hs as Hs; try done;
    try (exfalso; eapply Hp; [|by symmetry]; done);
    repeat match goal with E : _ = lower_char ?c |- _ => symmetry in E; apply Hd in E; [subst c|done] end;
    simplify_eq; auto.
Qed.

Lemma resolve_dots_plain out l :
  forallb segment_safe l = true -> resolve_dots out l = (rev out ++ l)%list.
Proof.
  revert out. induction l as [|x l IH]; intros out H; [by rewrite app_nil_r|].
  cbn [forallb] in H. bool_hyps. cbn [resolve_dots]. unfold segment_safe in *. bool_hyps.
  destruct (dot_segment_char x) as [-> ->]; [done|].
  rewrite !bool_decide_false by set_solver. rewrite IH by done. simpl. by rewrite <- app_assoc.
Qed.

Lemma path_segments_plain l :
  l <> [] -> forallb segment_safe l = true -> path_segments ("/" +:+ join "/" l) = Some l.
Proof.
  intros Hn H. unfold path_segments.
  rewrite back_to_slash_plain.
  2: { rewrite sforall_app, sforall_join; [done..|by apply segments_plain]. }
  change (sdrop 1 ("/" +:+ ?x)) with x.
  rewrite split_join by (done || (apply segments_without; [set_solver|done])).
  rewrite resolve_dots_plain by done. simpl.
  rewrite decode_without by (apply join_without; [done|apply segments_without; [set_solver|done]]).
  by rewrite split_join by (done || (apply segments_without; [set_solver|done])).
Qed.

Lemma op_ids_nonempty l :
  forallb segment_safe l = true -> forallb (fun id => bool_decide (id <> "")) l = true.
Proof.
  rewrite !forallb_forall. intros H x Hx. specialize (H x Hx). unfold segment_safe in H. bool_hyps.
  apply bool_decide_eq_true. set_solver.
Qed.

Lemma op_routed op :
  forallb segment_safe (op_ids op) = true ->
  route (op_method op) (op_url op) = Some (op_name op, op_ids op, op_params op).
Proof.
  intros Hi. pose proof (op_segments_safe _ Hi) as H. rewrite op_url_segments, op_params_raw.
  assert (forall c, c ∈ ["?"; "#"]%char -> without c ("/" +:+ join "/" (op_segments op)) = true) as Hw.
  { intros c Hc. rewrite without_app, join_without; [|set_solver|].
    - apply list_elem_of_In in Hc. simpl in Hc. by destruct_or?; subst.
    - apply segments_without; [set_solver|done]. }
  rewrite route_spec.
  - rewrite path_segments_plain by (done || by destruct op). simpl.
    rewrite op_segments_routed. simpl. by rewrite op_ids_nonempty.
  - apply Hw. set_solver.
  - apply Hw. set_solver.
  - rewrite sforall_app, sforall_join; [done..|by apply segments_plain].
Qed.

Lemma op_send_spec dispatch op options :
  op_send dispatch op options = axiosInstance dispatch (op_url op) (op_init op options).
Proof. by destruct op. Qed.

Lemma op_key_url op k :
  op_key op = Some k -> op_method op = "GET" /\ url_of_key k = Some (op_url op).
Proof. destruct op; intros [= <-]; try done; by destruct params. Qed.

(** ** Properties *)

(** [C5] For path parameters that are plain segments (not empty, no dot segment,
    only characters a path holds unescaped, as slugs and UUIDs are), every
    generated request function addresses the operation it is named after: the
    request it hands to [axiosInstance] has the operation's method, and its URL,
    read as the URL standard and the backend's router read it, reaches that very
    operation with exactly these parameters and exactly the query entries whose
    value is not [undefined]; a body is sent as JSON with its content type.
    [path_parameter_confusion] shows why the parameters are restricted. *)
Theorem operation_addressed dispatch op options :
  forallb segment_safe (op_ids op) = true ->
  exists init,
    op_send dispatch op options = axiosInstance dispatch (op_url op) init /\
    in_method init = Some (op_method op) /\
    route (op_method op) (op_url op) = Some (op_name op, op_ids op, op_params op) /\
    (forall d, op_body op = Some d ->
       in_body init = Some (JStr (JSON_stringify d)) /\
       (from_option in_headers ∅ options !! "Content-Type" = None ->
        in_headers init !! "Content-Type" = Some "application/json")).
Proof.
  intros H. exists (op_init op options). rewrite op_send_spec, op_routed by done.
  unfold op_init. repeat split; [by destruct (op_body op)| |];
    destruct (op_body op); simplify_eq; [done|].
  intros Hn. simpl. rewrite lookup_union_r by done. apply lookup_singleton_eq.
Qed.

(** A cached answer is never shared between different requests: two
    operations stored under the same react-query key are GET requests for the
    same URL, audit and callback parameters included. *)
Theorem cache_key_determines_request op1 op2 k :
  op_key op1 = Some k -> op_key op2 = Some k ->
  op_method op1 = op_method op2 /\ op_url op1 = op_url op2.
Proof.
  intros [-> H1]%op_key_url [-> H2]%op_key_url. split; [done|]. congruence.
Qed.

(** Path parameters are interpolated unencoded: a team id holding a slash, as
    it is or escaped, makes the team query address another operation; with
    dot segments a deletion in one collection becomes one in another; and an
    empty one or one with a query mark addresses something else again. *)
Theorem path_parameter_confusion :
  (let op1 := Op_getTeamAuthTeamsTeamIdGet "t/members" in
   let op2 := Op_listTeamMembersAuthTeamsTeamIdMembersGet "t" in
   op_url op1 = op_url op2 /\ op_key op1 = op_key op2 /\
   route (op_method op1) (op_url op1) = Some (op_name op2, ["t"], [])) /\
  (let op := Op_getTeamAuthTeamsTeamIdGet "t%2Fmembers" in
   route (op_method op) (op_url op) = Some ("listTeamMembersAuthTeamsTeamIdMembersGet", ["t"], [])) /\
  (let op := Op_deleteTeamAuthTeamsTeamIdDelete "../members/m" in
   route (op_method op) (op_url op) = Some ("deleteMemberAuthMembersMemberIdDelete", ["m"], [])) /\
  (let op := Op_getTeamAuthTeamsTeamIdGet "" in route (op_method op) (op_url op) = None) /\
  (let op := Op_getTeamAuthTeamsTeamIdGet "t?x=1" in
   route (op_method op) (op_url op) = Some (op_name op, ["t"], [("x", "1")])).
Proof. by vm_compute. Qed.

(** ** Witnesses *)

Lemma operation_addressed_witness :
  exists init,
    in_method init = Some "PATCH" /\
    route "PATCH" "/v1/servers/github" = Some ("updateServerV1ServersSlugPatch", ["github"], []).
Proof.
  destruct (operation_addressed (fun _ _ => ret (inl (mkAxError "" None)))
    (Op_updateServerV1ServersSlugPatch "github" (JObj [("is_active", JBool false)])) None eq_refl)
    as (init & _ & ? & ? & _).
  by exists init.
Defined.

Lemma cache_key_determines_request_witness :
  op_url (Op_listAuditLogsV1AuditGet (Some [("limit", Some (JNum 200))])) = "/v1/audit?limit=200".
Proof.
  destruct (cache_key_determines_request
    (Op_listAuditLogsV1AuditGet (Some [("limit", Some (JNum 200))]))
    (Op_listAuditLogsV1AuditGet (Some [("limit", Some (JNum 200))])) _ eq_refl eq_refl) as [_ _].
  reflexivity.
Defined.
