(* ===== verification/AdminRbac.v ===== *)
(** * The administrative RBAC client: web/src/lib/admin-rbac.ts

    The hand-written client for teams and organisation members, its role
    metadata, and its equivalence with the generated client.  The page
    components of web/src/app/dashboard/access-control call it. *)

From S2P Require Import Prelude JsString JsUri Json Browser AuthStore AxiosClient ApiClient.

Inductive OrgMemberRole :=
  | org_owner | org_admin | developer | team_member | viewer | auditor | billing_admin.

#[export] Instance OrgMemberRole_eq_dec : EqDecision OrgMemberRole.
Proof. solve_decision. Defined.

Definition role_id (r : OrgMemberRole) : string :=
  match r with
  | org_owner => "org_owner" | org_admin => "org_admin" | developer => "developer"
  | team_member => "team_member" | viewer => "viewer" | auditor => "auditor"
  | billing_admin => "billing_admin"
  end.

Record TeamView := mkTeamView {
  tv_id : string; tv_tenant_id : string; tv_name : string;
  tv_created_at : string; tv_updated_at : string; tv_server_ids : list string }.

Record TeamCreate := mkTeamCreate { tc_name : string }.

Record OrgMemberView := mkOrgMemberView {
  om_id : string; om_tenant_id : string; om_user_subject : string;
  om_admin_role : OrgMemberRole; om_team_id : option string;
  om_created_at : string; om_updated_at : string }.

(** [team_id?: string | null]: absent, [null] or a team. *)
Record OrgMemberCreate := mkOrgMemberCreate {
  oc_user_subject : string; oc_admin_role : OrgMemberRole; oc_team_id : option (option string) }.

Record OrgMemberUpdate := mkOrgMemberUpdate {
  ou_admin_role : option OrgMemberRole; ou_team_id : option (option string) }.

(** ** Role metadata *)
Definition ROLE_ORDER : list OrgMemberRole :=
  [org_owner; org_admin; developer; team_member; viewer; auditor; billing_admin].

Definition ROLE_META (r : OrgMemberRole) : string * string * string :=
  match r with
  | org_owner => ("Org Owner", "Full control — billing, deletion, all members and servers", "#F4B942")
  | org_admin => ("Org Admin", "Operational control — servers, RBAC, keys, members", "#2DD4A7")
  | developer => ("Developer", "Manage servers, tools and rate limits within their team", "#48B8E8")
  | team_member => ("Team Member", "Developer-level access without team/member management", "#A78BFA")
  | viewer => ("Viewer", "Read-only access to servers, tools and audit logs", "#8B98A7")
  | auditor => ("Auditor", "Org-wide audit + RBAC read access, no changes", "#2DD4A7")
  | billing_admin => ("Billing Admin", "Payments, invoices and seats only", "#F0A35E")
  end.

(** ** Request bodies, as the objects the pages build *)
Definition team_body (b : TeamCreate) : json := JObj [("name", JStr (tc_name b))].

Definition nullable (v : option string) : json := match v with Some s => JStr s | None => JNull end.

Definition member_create_body (b : OrgMemberCreate) : json :=
  JObj ([("user_subject", JStr (oc_user_subject b)); ("admin_role", JStr (role_id (oc_admin_role b)))]
        ++ match oc_team_id b with Some t => [("team_id", nullable t)] | None => [] end).

Definition member_update_body (b : OrgMemberUpdate) : json :=
  JObj (match ou_admin_role b with Some r => [("admin_role", JStr (role_id r))] | None => [] end
        ++ match ou_team_id b with Some t => [("team_id", nullable t)] | None => [] end).

Section rbac.
Context (dispatch : AxiosDefaults -> AxiosConfig -> M (AxiosError + AxiosResponse)).

(** [const { data } = await axiosClient.<method>(url, body); return data] *)
Definition call_data (method url : string) (body : option json) : M (AxiosError + option json) :=
  r <-- axiosClient_request dispatch (mkConfig url method ∅ body);
  ret (match r with inr res => inr (ax_data res) | inl e => inl e end).

(** [await axiosClient.<method>(url)], for its effect. *)
Definition call_void (method url : string) : M (AxiosError + option json) :=
  r <-- axiosClient_request dispatch (mkConfig url method ∅ None);
  ret (match r with inr _ => inr None | inl e => inl e end).

Definition listTeams := call_data "GET" "/auth/teams" None.

Definition createTeam (body : TeamCreate) := call_data "POST" "/auth/teams" (Some (team_body body)).

Definition updateTeam (teamId : string) (body : TeamCreate) :=
  call_data "PATCH" ("/auth/teams/" +:+ teamId) (Some (team_body body)).

Definition deleteTeam (teamId : string) := call_void "DELETE" ("/auth/teams/" +:+ teamId).

Definition assignServerToTeam (teamId serverId : string) :=
  call_void "POST" ("/auth/teams/" +:+ teamId +:+ "/servers/" +:+ serverId).

Definition removeServerFromTeam (teamId serverId : string) :=
  call_void "DELETE" ("/auth/teams/" +:+ teamId +:+ "/servers/" +:+ serverId).

Definition listTeamMembers (teamId : string) :=
  call_data "GET" ("/auth/teams/" +:+ teamId +:+ "/members") None.

Definition listMembers := call_data "GET" "/auth/members" None.

Definition createMember (body : OrgMemberCreate) :=
  call_data "POST" "/auth/members" (Some (member_create_body body)).

Definition updateMember (memberId : string) (body : OrgMemberUpdate) :=
  call_data "PATCH" ("/auth/members/" +:+ memberId) (Some (member_update_body body)).

Definition deleteMember (memberId : string) := call_void "DELETE" ("/auth/members/" +:+ memberId).
End rbac.

(** ** The calls as one type *)
Inductive rbac_call :=
  | CListTeams | CCreateTeam (b : TeamCreate) | CUpdateTeam (t : string) (b : TeamCreate)
  | CDeleteTeam (t : string) | CAssign (t s : string) | CRemove (t s : string)
  | CTeamMembers (t : string) | CListMembers | CCreateMember (b : OrgMemberCreate)
  | CUpdateMember (m : string) (b : OrgMemberUpdate) | CDeleteMember (m : string).

Definition rbac_send dispatch (c : rbac_call) : M (AxiosError + option json) :=
  match c with
  | CListTeams => listTeams dispatch
  | CCreateTeam b => createTeam dispatch b
  | CUpdateTeam t b => updateTeam dispatch t b
  | CDeleteTeam t => deleteTeam dispatch t
  | CAssign t s => assignServerToTeam dispatch t s
  | CRemove t s => removeServerFromTeam dispatch t s
  | CTeamMembers t => listTeamMembers dispatch t
  | CListMembers => listMembers dispatch
  | CCreateMember b => createMember dispatch b
  | CUpdateMember m b => updateMember dispatch m b
  | CDeleteMember m => deleteMember dispatch m
  end.

(** The generated operation of the same endpoint. *)
Definition generated_op (c : rbac_call) : operation :=
  match c with
  | CListTeams => Op_listTeamsAuthTeamsGet
  | CCreateTeam b => Op_createTeamAuthTeamsPost (team_body b)
  | CUpdateTeam t b => Op_updateTeamAuthTeamsTeamIdPatch t (team_body b)
  | CDeleteTeam t => Op_deleteTeamAuthTeamsTeamIdDelete t
  | CAssign t s => Op_addServerToTeamAuthTeamsTeamIdServersServerIdPost t s
  | CRemove t s => Op_removeServerFromTeamAuthTeamsTeamIdServersServerIdDelete t s
  | CTeamMembers t => Op_listTeamMembersAuthTeamsTeamIdMembersGet t
  | CListMembers => Op_listMembersAuthMembersGet
  | CCreateMember b => Op_createMemberAuthMembersPost (member_create_body b)
  | CUpdateMember m b => Op_updateMemberAuthMembersMemberIdPatch m (member_update_body b)
  | CDeleteMember m => Op_deleteMemberAuthMembersMemberIdDelete m
  end.

Definition returns_data (c : rbac_call) : bool :=
  match c with CDeleteTeam _ | CAssign _ _ | CRemove _ _ | CDeleteMember _ => false | _ => true end.

Definition with_data (d : option json) (c : AxiosConfig) : AxiosConfig :=
  mkConfig (cf_url c) (cf_method c) (cf_headers c) d.

(** No content type is preset; header names are compared ignoring case. *)
Definition no_content_type (c : AxiosConfig) : Prop :=
  forall k, toLowerCase k = "content-type" -> cf_headers c !! k = None.

(** What Axios documents of its default request transform: a plain object given
    as data, with no content type preset, is sent as its JSON text with the
    content type application/json, that is, as the request whose data is that
    text and whose header says so. *)
Definition serializes_objects
    (dispatch : AxiosDefaults -> AxiosConfig -> M (AxiosError + AxiosResponse)) : Prop :=
  forall df c kvs,
    cf_data c = Some (JObj kvs) -> no_content_type c ->
    dispatch df c =
    dispatch df (set_header "Content-Type" "application/json"
                   (with_data (Some (JStr (JSON_stringify (JObj kvs)))) c)).

(** What a call keeps of the generated function's answer. *)
Definition keep (c : rbac_call) (r : AxiosError + orval_response) : AxiosError + option json :=
  match r with
  | inr o => inr (if returns_data c then or_data o else None)
  | inl e => inl e
  end.

(** ** Lemmas *)

Lemma call_shape dispatch c :
  rbac_send dispatch c =
    bind (axiosClient_request dispatch
            (mkConfig (op_url (generated_op c)) (op_method (generated_op c)) ∅ (op_body (generated_op c))))
         (fun r => ret (match r with
                        | inr res => inr (if returns_data c then ax_data res else None)
                        | inl e => inl e
                        end)).
Proof. by destruct c. Qed.


Lemma set_header_comm k1 v1 k2 v2 c :
  k1 <> k2 -> set_header k1 v1 (set_header k2 v2 c) = set_header k2 v2 (set_header k1 v1 c).
Proof. intros. unfold set_header. cbn. f_equal. by apply insert_insert_ne. Qed.

Definition map_ok {A B} (f : A -> B) (r : result string A * World) : result string B * World :=
  (match r.1 with Ok a => Ok (f a) | Err e => Err e end, r.2).

(** The interceptor neither reads the body nor sets the content type. *)
Lemma interceptor_commutes v d c w :
  request_interceptor (set_header "Content-Type" v (with_data d c)) w =
  map_ok (fun c => set_header "Content-Type" v (with_data d c)) (request_interceptor c w).
Proof.
  unfold request_interceptor, bind, get_world. destruct (w_window w); cbn [negb]; [|done].
  destruct (try_catch _ _ w) as [[tok|e] w1]; [|done].
  destruct (get_document_cookie w1) as [[ck|e] w2]; [|by destruct tok].
  destruct (cookie_match _ ck) as [cm|];
    [destruct (js_decodeURIComponent cm w2) as [[t|e] w3]; [|done]|];
    (destruct tok as [t'|]; [destruct (bool_decide (t' = ""))|]); unfold ret, map_ok; cbn [fst snd];
    (apply f_equal2; [apply (f_equal Ok)|reflexivity]); unfold set_header, with_data;
    cbn [cf_url cf_method cf_headers cf_data]; apply (f_equal (fun h => mkConfig _ _ h _));
    repeat (rewrite (insert_insert_ne _ "Content-Type") by done); reflexivity.
Qed.

Lemma set_header_no_type k v c :
  toLowerCase k <> "content-type" -> no_content_type c -> no_content_type (set_header k v c).
Proof. intros Hk Hc k' Hk'. cbn. rewrite lookup_insert_ne by congruence. by apply Hc. Qed.

Lemma interceptor_data c w :
  match (request_interceptor c w).1 with
  | Ok c' => cf_data c' = cf_data c /\ (no_content_type c -> no_content_type c')
  | Err _ => True
  end.
Proof.
  unfold request_interceptor, bind, get_world. destruct (w_window w); cbn [negb]; [|done].
  destruct (try_catch _ _ w) as [[tok|e] w1]; [|done].
  destruct (get_document_cookie w1) as [[ck|e] w2]; [|done].
  destruct (cookie_match _ ck) as [cm|];
    [destruct (js_decodeURIComponent cm w2) as [[t|e] w3]; [|done]|];
    (destruct tok as [t'|]; [destruct (bool_decide (t' = ""))|]);
    (split; [done|]); intros ?; repeat apply set_header_no_type; done.
Qed.

(** Sending the object and sending its JSON text are the same exchange. *)
Lemma request_serialized dispatch c kvs w :
  serializes_objects dispatch -> cf_data c = Some (JObj kvs) -> no_content_type c ->
  axiosClient_request dispatch
    (set_header "Content-Type" "application/json" (with_data (Some (JStr (JSON_stringify (JObj kvs)))) c)) w
  = axiosClient_request dispatch c w.
Proof.
  intros Hd Hc Hn. unfold axiosClient_request, bind, get_world.
  rewrite interceptor_commutes. unfold map_ok.
  pose proof (interceptor_data c w) as Hi.
  destruct (request_interceptor c w) as [[c'|e] w']; [|done]. cbn [fst snd] in *.
  destruct Hi as [Hi1 Hi2]. rewrite (Hd _ c' kvs); [done|congruence|by apply Hi2].
Qed.

Lemma init_json_config url m d :
  mkConfig url m (in_headers (init_json m d None)) (in_body (init_json m d None)) =
  set_header "Content-Type" "application/json"
    (with_data (Some (JStr (JSON_stringify d))) (mkConfig url m ∅ (Some d))).
Proof.
  unfold init_json, set_header, with_data. reflexivity.
Qed.

(** The generated function reaches Axios with the call's own configuration. *)
Lemma generated_request dispatch op w :
  serializes_objects dispatch -> (forall d, op_body op = Some d -> exists kvs, d = JObj kvs) ->
  op_send dispatch op None w =
  bind (axiosClient_request dispatch (mkConfig (op_url op) (op_method op) ∅ (op_body op)))
       (fun r => ret (match r with
                      | inr r => inr (mkOrval (ax_data r) (ax_status r) (ax_headers r))
                      | inl e => inl e
                      end)) w.
Proof.
  intros Hd Hb. rewrite op_send_spec. unfold axiosInstance, op_init, bind.
  destruct (op_body op) as [d|] eqn:E.
  - destruct (Hb d eq_refl) as [kvs ->].
    cbn [in_method init_json default]. rewrite init_json_config, request_serialized by done.
    by destruct (axiosClient_request dispatch _ w) as [[[]|] w'].
  - cbn [in_method init_plain default].
    by destruct (axiosClient_request dispatch _ w) as [[[]|] w'].
Qed.

Lemma generated_body c d : op_body (generated_op c) = Some d -> exists kvs, d = JObj kvs.
Proof. destruct c; intros [= <-]; by eexists. Qed.

(** ** Properties *)

(** [C40] The hand-written client and the generated one are the same client, as
    long as Axios does with an object body what it documents ([serializes_objects]:
    with no content type preset, it is sent as its JSON text and application/json):
    for every team and member call, in every browser state, both leave the same
    state behind, throw alike and return the same data (or nothing, for the
    calls that discard it). *)
Theorem rbac_equals_generated dispatch c w :
  serializes_objects dispatch ->
  rbac_send dispatch c w = map_ok (keep c) (op_send dispatch (generated_op c) None w).
Proof.
  intros Hd. rewrite generated_request, call_shape by (done || apply generated_body). unfold bind, map_ok, keep.
  by destruct (axiosClient_request dispatch _ w) as [[[]|] w'].
Qed.

(** ** Witnesses *)

(** A transport that puts the body on the wire as Axios does, an object as its
    JSON text, and a server that answers with the request it read: method, path,
    content type and body. *)
Definition wire (c : AxiosConfig) : string * string :=
  match cf_data c, cf_headers c !! "Content-Type" with
  | Some (JObj kvs), None => ("application/json", JSON_stringify (JObj kvs))
  | Some (JStr s), t => (default "application/x-www-form-urlencoded" t, s)
  | Some d, t => (default "application/json" t, JSON_stringify d)
  | None, _ => ("", "")
  end.

Definition echo : AxiosDefaults -> AxiosConfig -> M (AxiosError + AxiosResponse) :=
  fun _ c => ret (inr (mkAxResponse
    (Some (JArr [JStr (cf_method c); JStr (cf_url c); JStr (wire c).1; JStr (wire c).2])) 200 ∅)).

Lemma echo_serializes : serializes_objects echo.
Proof.
  intros df c kvs Hd Hn. unfold echo, wire. rewrite Hd, (Hn "Content-Type") by done.
  cbn [set_header with_data cf_url cf_method cf_data cf_headers]. by rewrite lookup_insert_eq.
Qed.

Lemma rbac_equals_generated_witness :
  (rbac_send echo (CUpdateTeam "t1" (mkTeamCreate "core")) (demo_world ∅ [])).1
    = Ok (inr (Some (JArr [JStr "PATCH"; JStr "/auth/teams/t1"; JStr "application/json"; JStr (JSON_stringify (team_body (mkTeamCreate "core")))]))).
Proof. rewrite (rbac_equals_generated echo _ _ echo_serializes). reflexivity. Defined.
