(* ===== verification/JsDate.v ===== *)
(** * Dates

    The part of ECMAScript's [Date] the console uses: parsing the ISO 8601
    timestamps the API sends, arithmetic on millisecond times and UTC calendar
    fields.  A time is a [Z] of milliseconds since the epoch; [None] is [NaN],
    the time of an invalid date.  Text in any other format is taken as invalid
    (engines differ on it), and a timestamp without an offset is read in the
    time zone of the parameter [tz] (minutes ahead of UTC). *)

From S2P Require Import Prelude JsString Browser.

(** ** Calendar (days since 1970-01-01, proleptic Gregorian) *)
Definition days_from_civil (y m d : Z) : Z :=
  (let y := if m <=? 2 then y - 1 else y in
   let era := y / 400 in
   let yoe := y - era * 400 in
   let mp := (m + 9) mod 12 in
   let doy := (153 * mp + 2) / 5 + d - 1 in
   let doe := yoe * 365 + yoe / 4 - yoe / 100 + doy in
   era * 146097 + doe - 719468)%Z.

Definition civil_from_days (z : Z) : Z * Z * Z :=
  (let z := z + 719468 in
   let era := z / 146097 in
   let doe := z - era * 146097 in
   let yoe := (doe - doe / 1460 + doe / 36524 - doe / 146096) / 365 in
   let doy := doe - (365 * yoe + yoe / 4 - yoe / 100) in
   let mp := (5 * doy + 2) / 153 in
   let d := doy - (153 * mp + 2) / 5 + 1 in
   let m := if mp <? 10 then mp + 3 else mp - 9 in
   (yoe + era * 400 + (if m <=? 2 then 1 else 0), m, d))%Z.

Definition MS_DAY : Z := 86400000.

(** ** Parsing *)

(** Exactly [n] decimal digits. *)
Fixpoint digits (n : nat) (acc : Z) (s : string) : option (Z * string) :=
  match n with
  | O => Some (acc, s)
  | S n => match s with
           | String c r => match digit_val c with
                           | Some d => digits n (10 * acc + d)%Z r
                           | None => None
                           end
           | "" => None
           end
  end.

Definition expect (c : ascii) (s : string) : option string :=
  match s with
  | String d r => if bool_decide (c = d) then Some r else None
  | "" => None
  end.

(** A fraction's milliseconds: its first three digits, the rest dropped. *)
Fixpoint frac_go (scale acc : Z) (s : string) : Z * string :=
  match s with
  | String c r =>
      match digit_val c with
      | Some d => frac_go (scale / 10) (acc + scale * d)%Z r
      | None => (acc, s)
      end
  | "" => (acc, s)
  end.

Definition fraction (s : string) : option (Z * string) :=
  match s with
  | String "." (String c r) =>
      match digit_val c with Some _ => Some (frac_go 100 0 (String c r)) | None => None end
  | String "." "" => None
  | _ => Some (0%Z, s)
  end.

(** The offset in minutes: [Z], [+hh:mm], [-hh:mm] or nothing. *)
Definition offset (tz : Z) (s : string) : option Z :=
  match s with
  | "" => Some tz
  | "Z" => Some 0%Z
  | String sign r =>
      '(h, r) ← digits 2 0 r;
      r ← expect ":" r;
      '(m, r) ← digits 2 0 r;
      if bool_decide (r = "") && ((h <=? 23) && (m <=? 59))%Z then
        if bool_decide (sign = "+"%char) then Some (h * 60 + m)%Z
        else if bool_decide (sign = "-"%char) then Some (- (h * 60 + m))%Z
        else None
      else None
  end.

Definition days_in_month (y m : Z) : Z :=
  if (m =? 2)%Z then
    (if ((y mod 4 =? 0) && (negb (y mod 100 =? 0) || (y mod 400 =? 0)))%Z then 29 else 28)%Z
  else if bool_decide (m ∈ [4; 6; 9; 11]%Z) then 30%Z else 31%Z.

Definition time_of_day (tz : Z) (s : string) : option Z :=
  '(h, s) ← digits 2 0 s;
  s ← expect ":" s;
  '(mi, s) ← digits 2 0 s;
  '(sec, ms, s) ← match s with
                  | String ":" r =>
                      '(sec, r) ← digits 2 0 r;
                      '(ms, r) ← fraction r;
                      Some (sec, ms, r)
                  | _ => Some (0%Z, 0%Z, s)
                  end;
  o ← offset tz s;
  if ((h <=? 23) && (mi <=? 59) && (sec <=? 59))%Z
  then Some (((h * 60 + mi - o) * 60 + sec) * 1000 + ms)%Z else None.

(** [new Date(s).getTime()] *)
Definition Date_parse (tz : Z) (s : string) : option Z :=
  '(y, s) ← digits 4 0 s;
  s ← expect "-" s;
  '(m, s) ← digits 2 0 s;
  s ← expect "-" s;
  '(d, s) ← digits 2 0 s;
  if ((1 <=? m) && (m <=? 12) && (1 <=? d) && (d <=? days_in_month y m))%Z then
    let day := (days_from_civil y m d * MS_DAY)%Z in
    match s with
    | "" => Some day
    | String "T" r => t ← time_of_day tz r; Some (day + t)%Z
    | _ => None
    end
  else None.

(** ** Fields *)
Definition day_of (t : Z) : Z := (t / MS_DAY)%Z.

(** [getUTCFullYear], [getUTCMonth] (0-based), [getUTCDate], [getUTCHours] *)
Definition utc_date (t : Z) : Z * Z * Z := civil_from_days (day_of t).
Definition getUTCHours (t : Z) : Z := ((t mod MS_DAY) / 3600000)%Z.

(** Local fields: the zone's offset in minutes is a parameter. *)
Definition local_date (tz t : Z) : Z * Z * Z := utc_date (t + tz * 60000)%Z.
Definition getHours (tz t : Z) : Z := getUTCHours (t + tz * 60000)%Z.

(** [toISOString().slice(0, 10)] and the full text, for years 0 to 9999. *)
Definition pad (n : nat) (z : Z) : string := padStart n "0" (pretty z).

Definition iso_day (t : Z) : string :=
  let '(y, m, d) := utc_date t in pad 4 y +:+ "-" +:+ pad 2 m +:+ "-" +:+ pad 2 d.

Definition toISOString (t : Z) : string :=
  let r := (t mod MS_DAY)%Z in
  iso_day t +:+ "T" +:+ pad 2 (r / 3600000)%Z +:+ ":" +:+ pad 2 ((r / 60000) mod 60)%Z
  +:+ ":" +:+ pad 2 ((r / 1000) mod 60)%Z +:+ "." +:+ pad 3 (r mod 1000)%Z +:+ "Z".

Example parse_epoch : Date_parse 0 "1970-01-01T00:00:00Z" = Some 0%Z.
Proof. reflexivity. Qed.

Example parse_api_format :
  Date_parse 0 "2026-03-01T12:34:56.789123+02:00" = Date_parse 0 "2026-03-01T10:34:56.789Z".
Proof. reflexivity. Qed.

Example print_parse : (toISOString <$> Date_parse 0 "2024-02-29T23:59:59.999Z")
                      = Some "2024-02-29T23:59:59.999Z".
Proof. reflexivity. Qed.
