(* ===== verification/RelTime.v ===== *)
(** * Relative times

    The [relativeTime] functions of the console: one shared component
    (web/src/components/relative-time.tsx) and a private copy in nineteen
    pages.  They are written in two styles, comparing milliseconds with
    thresholds or dividing down a cascade of units; each copy is modelled as
    written, and they are proved to agree.  [now] is [Date.now()], a timestamp
    that does not parse is [NaN], and every comparison with [NaN] is false. *)

From S2P Require Import Prelude JsString Browser JsDate.

(** A number that may be [NaN]. *)
Notation num := (option Z).

Definition num_sub (a b : num) : num := x ← a; y ← b; Some (x - y)%Z.
Definition num_lt (a : num) (k : Z) : bool := match a with Some x => (x <? k)%Z | None => false end.
(** [Math.floor(a / k)] *)
Definition num_div (a : num) (k : Z) : num := x ← a; Some (x / k)%Z.
Definition num_text (a : num) : string := match a with Some x => pretty x | None => "NaN" end.

Section rel.
Context (tz now : Z) (toLocaleDateString toLocaleString : num -> string).

Definition getTime (iso : string) : num := Date_parse tz iso.
Definition since (iso : string) : num := num_sub (Some now) (getTime iso).

(** web/src/components/relative-time.tsx *)
Definition relativeTime (iso : string) : string :=
  let diff := since iso in
  if num_lt diff 60000 then "just now"
  else if num_lt diff 3600000 then num_text (num_div diff 60000) +:+ "m ago"
  else if num_lt diff 86400000 then num_text (num_div diff 3600000) +:+ "h ago"
  else if num_lt diff (86400000 * 7) then num_text (num_div diff 86400000) +:+ "d ago"
  else toLocaleDateString (getTime iso).

Definition absoluteTime (iso : string) : string := toLocaleString (getTime iso).

(** [RelativeTime]: absolute on the server and on the first client render. *)
Definition RelativeTime (isClient : bool) (iso : option string) : string :=
  match iso with
  | Some s => if bool_decide (s = "") then "—"
              else if isClient then relativeTime s else absoluteTime s
  | None => "—"
  end.

(** notification-panel.tsx *)
Definition notification_relativeTime (iso : string) : string :=
  let diff := since iso in
  if num_lt diff 60000 then "just now"
  else if num_lt diff 3600000 then num_text (num_div diff 60000) +:+ "m ago"
  else if num_lt diff 86400000 then num_text (num_div diff 3600000) +:+ "h ago"
  else if num_lt diff (86400000 * 7) then num_text (num_div diff 86400000) +:+ "d ago"
  else toLocaleDateString (getTime iso).

(** The thresholds shared by the copies below. *)
Definition by_threshold (diff : num) : string :=
  if num_lt diff 60000 then "just now"
  else if num_lt diff 3600000 then num_text (num_div diff 60000) +:+ "m ago"
  else if num_lt diff 86400000 then num_text (num_div diff 3600000) +:+ "h ago"
  else num_text (num_div diff 86400000) +:+ "d ago".

Definition developer_tools_relativeTime (iso : string) : string := by_threshold (since iso).
Definition traces_relativeTime (iso : string) : string := by_threshold (since iso).
Definition observability_relativeTime (iso : string) : string := by_threshold (since iso).
Definition policy_relativeTime (iso : string) : string := by_threshold (since iso).
Definition policies_relativeTime (iso : string) : string := by_threshold (since iso).
Definition roles_relativeTime (iso : string) : string := by_threshold (since iso).
Definition traffic_relativeTime (iso : string) : string := by_threshold (since iso).
Definition logs_relativeTime (iso : string) : string := by_threshold (since iso).

Definition errors_relativeTime (iso : string) : string :=
  if bool_decide (iso = "") then "—" else by_threshold (since iso).
Definition audit_relativeTime (iso : string) : string :=
  if bool_decide (iso = "") then "—" else by_threshold (since iso).

(** [if (!iso) return d] on a nullable timestamp. *)
Definition or_else (d : string) (iso : option string) : string :=
  match iso with
  | Some s => if bool_decide (s = "") then d else by_threshold (since s)
  | None => d
  end.

Definition integrations_relativeTime := or_else "Never".
Definition tool_relativeTime := or_else "Never".
Definition incidents_relativeTime := or_else "—".
Definition alerts_relativeTime := or_else "Never".

(** dashboard/page.tsx: a cascade from minutes *)
Definition cascade_minutes (just_now : string) (diff : num) : string :=
  let mins := num_div diff 60000 in
  if num_lt mins 1 then just_now
  else if num_lt mins 60 then num_text mins +:+ "m ago"
  else let hrs := num_div mins 60 in
  if num_lt hrs 24 then num_text hrs +:+ "h ago"
  else num_text (num_div hrs 24) +:+ "d ago".

Definition dashboard_relativeTime (iso : string) : string := cascade_minutes "just now" (since iso).

Definition servers_relativeTime (iso : option string) : string :=
  match iso with
  | Some s => if bool_decide (s = "") then "Never" else cascade_minutes "just now" (since s)
  | None => "Never"
  end.

Definition users_relativeTime (iso : option string) : string :=
  match iso with
  | Some s => if bool_decide (s = "") then "Never" else cascade_minutes "Just now" (since s)
  | None => "Never"
  end.

(** developer/page.tsx: thresholds on whole seconds, days spelled out *)
Definition developer_relativeTime (iso : string) : string :=
  let diffS := num_div (since iso) 1000 in
  if num_lt diffS 60 then "just now"
  else if num_lt diffS 3600 then num_text (num_div diffS 60) +:+ "m ago"
  else if num_lt diffS 86400 then num_text (num_div diffS 3600) +:+ "h ago"
  else num_text (num_div diffS 86400) +:+ " days ago".

(** The copies that show seconds *)
Definition search_relTime (iso : string) : string :=
  let diff := since iso in
  if num_lt diff 60000 then num_text (num_div diff 1000) +:+ "s ago"
  else if num_lt diff 3600000 then num_text (num_div diff 60000) +:+ "m ago"
  else if num_lt diff 86400000 then num_text (num_div diff 3600000) +:+ "h ago"
  else num_text (num_div diff 86400000) +:+ "d ago".

Definition cascade_seconds (diff : num) : string :=
  let s := num_div diff 1000 in
  if num_lt s 60 then num_text s +:+ "s ago"
  else let m := num_div s 60 in
  if num_lt m 60 then num_text m +:+ "m ago"
  else let h := num_div m 60 in
  if num_lt h 24 then num_text h +:+ "h ago"
  else num_text (num_div h 24) +:+ "d ago".

Definition tools_relativeTime (iso : string) : string := cascade_seconds (since iso).

Definition infrastructure_relativeTime (dateStr : option string) : string :=
  match dateStr with
  | Some s => if bool_decide (s = "") then "Never" else cascade_seconds (since s)
  | None => "Never"
  end.

(** ** Lemmas *)

Lemma num_div_div d a b : (0 < a)%Z -> (0 < b)%Z -> num_div (num_div d a) b = num_div d (a * b).
Proof. intros. destruct d; cbn; [|done]. by rewrite Z.div_div by lia. Qed.

Lemma num_lt_div d a k : (0 < a)%Z -> num_lt (num_div d a) k = num_lt d (a * k).
Proof.
  intros. destruct d as [x|]; cbn; [|done].
  destruct (Z.ltb_spec (x / a) k), (Z.ltb_spec x (a * k)); try done.
  - pose proof (Z.div_le_lower_bound x a k). lia.
  - pose proof (Z.div_lt_upper_bound x a k). lia.
Qed.

Lemma cascade_minutes_threshold d : cascade_minutes "just now" d = by_threshold d.
Proof.
  unfold cascade_minutes, by_threshold. by rewrite !num_div_div, !num_lt_div by lia.
Qed.

(** The seconds copies differ from the threshold copies only below a minute. *)
Definition seconds_threshold (d : num) : string :=
  if num_lt d 60000 then num_text (num_div d 1000) +:+ "s ago" else by_threshold d.

Lemma cascade_seconds_threshold d : cascade_seconds d = seconds_threshold d.
Proof.
  unfold cascade_seconds, seconds_threshold, by_threshold.
  rewrite !num_div_div, !num_lt_div by lia.
  change (1000 * 60)%Z with 60000%Z. by destruct (num_lt d 60000) eqn:E; rewrite ?E.
Qed.

Lemma search_threshold iso : search_relTime iso = seconds_threshold (since iso).
Proof.
  unfold search_relTime, seconds_threshold, by_threshold. cbn zeta.
  by destruct (num_lt (since iso) 60000).
Qed.

(** ** Properties *)

(** The private copies of [relativeTime] agree, whatever the timestamp
    and the clock, invalid dates included: the eight plain copies, the
    dashboard's cascade and the nullable copies show one text; the three copies
    that show seconds agree with each other, and with the rest from one minute
    on; the shared component and the notification panel agree with them below
    one week. *)
Theorem relative_times_agree iso :
  dashboard_relativeTime iso = logs_relativeTime iso /\
  (iso <> "" -> servers_relativeTime (Some iso) = logs_relativeTime iso /\
                alerts_relativeTime (Some iso) = logs_relativeTime iso /\
                errors_relativeTime iso = logs_relativeTime iso /\
                infrastructure_relativeTime (Some iso) = tools_relativeTime iso) /\
  tools_relativeTime iso = search_relTime iso /\
  (num_lt (since iso) 60000 = false -> tools_relativeTime iso = logs_relativeTime iso) /\
  notification_relativeTime iso = relativeTime iso /\
  (num_lt (since iso) (86400000 * 7) = true -> relativeTime iso = logs_relativeTime iso).
Proof.
  unfold dashboard_relativeTime, servers_relativeTime, infrastructure_relativeTime,
    tools_relativeTime, logs_relativeTime, alerts_relativeTime, errors_relativeTime, or_else.
  rewrite cascade_minutes_threshold, cascade_seconds_threshold, search_threshold.
  split_and!; try done.
  - intros Hne. by rewrite !bool_decide_false.
  - unfold seconds_threshold. by intros ->.
  - unfold relativeTime, by_threshold. intros ->. done.
Qed.

(** A relative time is true: "n m/h/d ago" is shown exactly when the
    elapsed time is at least n and less than n + 1 of that unit, with minutes
    below 60, hours below 24; "just now" is anything below a minute, timestamps
    in the future included. *)
Theorem relative_time_sound iso d :
  since iso = Some d ->
  (d < 60000 /\ logs_relativeTime iso = "just now")%Z \/
  (exists n unit suffix bound,
     (unit, suffix, bound) ∈ [(60000, "m ago", Some 60); (3600000, "h ago", Some 24); (86400000, "d ago", None)]%Z /\
     logs_relativeTime iso = pretty n +:+ suffix /\
     (1 <= n /\ n * unit <= d < (n + 1) * unit)%Z /\
     match bound with Some b => (n < b)%Z | None => True end).
Proof.
  intros H. unfold logs_relativeTime, by_threshold. rewrite H. cbn.
  destruct (Z.ltb_spec d 60000); [by left|right].
  pose proof (Z.div_mod d 60000). pose proof (Z.mod_pos_bound d 60000).
  pose proof (Z.div_mod d 3600000). pose proof (Z.mod_pos_bound d 3600000).
  pose proof (Z.div_mod d 86400000). pose proof (Z.mod_pos_bound d 86400000).
  destruct (Z.ltb_spec d 3600000); [|destruct (Z.ltb_spec d 86400000)].
  - exists (d / 60000)%Z, 60000%Z, "m ago", (Some 60%Z). split_and!; [set_solver|done|lia..].
  - exists (d / 3600000)%Z, 3600000%Z, "h ago", (Some 24%Z). split_and!; [set_solver|done|lia..].
  - exists (d / 86400000)%Z, 86400000%Z, "d ago", None. split_and!; [set_solver|done|lia..|done].
Qed.
End rel.

(** ** Witnesses *)

Lemma relative_time_sound_witness :
  since 0 172800000 "1970-01-02T00:00:00Z" = Some 86400000%Z /\
  logs_relativeTime 0 172800000 "1970-01-02T00:00:00Z" = "1d ago".
Proof.
  split; [reflexivity|].
  destruct (relative_time_sound 0 172800000 "1970-01-02T00:00:00Z" 86400000 eq_refl) as [[? _]|_];
    [lia|reflexivity].
Defined.
