(* ===== verification/NavShell.v ===== *)
(** * The navigation shell: web/src/components/nav-shell.tsx

    The workspace switcher (which contexts a user is offered), the sign-out
    buttons, the authentication effect and the keyboard shortcuts.  Icons,
    colours and markup are not modelled, except that the switcher dereferences
    the metadata of each context it lists. *)

From S2P Require Import Prelude JsString Json Browser AuthStore ApiTypes SessionGate.

Record NavItem := mkNavItem { ni_href : string; ni_label : string }.
Record NavSection := mkNavSection { ns_label : string; ns_items : list NavItem }.

Inductive NavContext := OrgAdmin | PlatformAdmin | DeveloperCtx.

#[export] Instance NavContext_eq_dec : EqDecision NavContext.
Proof. solve_decision. Defined.

Definition NavContext_id (c : NavContext) : string :=
  match c with OrgAdmin => "org-admin" | PlatformAdmin => "platform-admin" | DeveloperCtx => "developer" end.

Record context_meta := mkMeta { cm_label : string; cm_sublabel : string; cm_color : string; cm_bg : string }.

Definition CONTEXT_META (c : NavContext) : context_meta :=
  match c with
  | OrgAdmin => mkMeta "Org Admin" "Organization" "#2DD4A7" "rgba(45,212,167,0.15)"
  | PlatformAdmin => mkMeta "Platform Admin" "Super Admin" "#F4B942" "rgba(244,185,66,0.15)"
  | DeveloperCtx => mkMeta "Developer" "Workspace" "#48B8E8" "rgba(72,184,232,0.15)"
  end.

Definition CONTEXT_ROOTS (c : NavContext) : string :=
  match c with OrgAdmin => "/dashboard" | PlatformAdmin => "/admin" | DeveloperCtx => "/developer" end.

(** ** Role to context *)

Definition ROLE_TO_CONTEXT : list (string * NavContext) :=
  [("platform super admin", PlatformAdmin); ("super-admin", PlatformAdmin);
   ("organization owner", OrgAdmin); ("org-owner", OrgAdmin);
   ("organization admin", OrgAdmin); ("org-admin", OrgAdmin);
   ("developer", DeveloperCtx); ("security auditor", OrgAdmin); ("billing manager", OrgAdmin)].

(** What a property lookup on an object literal gives: an own property, or a
    property of [Object.prototype] (never a [NavContext]). *)
Inductive looked_up := Own (c : NavContext) | Inherited (name : string).

#[export] Instance looked_up_eq_dec : EqDecision looked_up.
Proof. solve_decision. Defined.

(** The [Object.prototype] names without upper-case letters: the key is
    lower-cased, so no other can be hit. *)
Definition PROTO_KEYS : list string := ["constructor"; "__proto__"].

Definition role_lookup (k : string) : option looked_up :=
  match list_find (fun kv => kv.1 = k) ROLE_TO_CONTEXT with
  | Some (_, (_, c)) => Some (Own c)
  | None => if bool_decide (k ∈ PROTO_KEYS) then Some (Inherited k) else None
  end.

(** [roleToContext]: neither kind of hit is [null] or [undefined]. *)
Definition roleToContext (roleName : string) : looked_up :=
  default (Own OrgAdmin) (role_lookup (toLowerCase roleName)).

(** ** [ContextSwitcher] *)

(** Insertion-ordered [Set.add]. *)
Definition set_add (s : list looked_up) (x : looked_up) : list looked_up :=
  if bool_decide (x ∈ s) then s else s ++ [x].

Definition add_role (isPlatformAdmin : bool) (s : list looked_up) (r : RoleView) : list looked_up :=
  let ctx := roleToContext (RoleView_name r) in
  if bool_decide (ctx = Own PlatformAdmin) && negb isPlatformAdmin then s else set_add s ctx.

Definition availableContexts (current : NavContext) (roles : list RoleView) (isPlatformAdmin : bool)
    : list looked_up :=
  let s := fold_left (add_role isPlatformAdmin) roles [Own current] in
  if isPlatformAdmin then set_add s (Own PlatformAdmin) else s.

(** One row of the open dropdown; [CONTEXT_META[ctx].icon] throws for a key
    that is no context. *)
Record switch_row := mkRow { row_label : string; row_target : string; row_current : bool }.

Definition switcher_row (current : NavContext) (ctx : looked_up) : result string switch_row :=
  match ctx with
  | Own c => Ok (mkRow (cm_label (CONTEXT_META c)) (CONTEXT_ROOTS c) (bool_decide (c = current)))
  | Inherited _ => Err "TypeError"
  end.

Fixpoint map_result {E A B} (f : A -> result E B) (l : list A) : result E (list B) :=
  match l with
  | [] => Ok []
  | x :: r => match f x with
              | Err e => Err e
              | Ok y => match map_result f r with Ok ys => Ok (y :: ys) | Err e => Err e end
              end
  end.

Definition ContextSwitcher_rows (current : NavContext) (roles : list RoleView) (q : query_state)
    : result string (list switch_row) :=
  map_result (switcher_row current) (availableContexts current roles (useIsPlatformAdmin q)).

(** ** Sign-out and effects *)

(** [ClerkSignOutButton.handleSignOut]: the [finally] block runs whether Clerk's
    sign-out resolves or rejects; a rejection is passed on after it. *)
Definition handleSignOut (clerk_signOut : M unit) : M (list gate_act * option string) := fun w =>
  let '(r, w) := clerk_signOut w in
  (clearToken ;;; ret ([Push "/login"], match r with Ok _ => None | Err e => Some e end)) w.

(** [LegacySignOutButton]'s handler *)
Definition signOut : M (list gate_act) := clearToken ;;; ret [Push "/login"].

Definition auth_effect : M (list gate_act) :=
  ok <-- isAuthenticated; ret (if ok then [] else [Replace "/login"]).

(** Keyboard: [cmd/ctrl+k] toggles the palette, [Escape] closes it. *)
Definition onKey (metaKey ctrlKey : bool) (key : string) (cmdOpen : bool) : bool :=
  let cmdOpen := if (metaKey || ctrlKey) && bool_decide (key = "k") then negb cmdOpen else cmdOpen in
  if bool_decide (key = "Escape") then false else cmdOpen.

Definition allItems (sections : list NavSection) : list NavItem := concat (map ns_items sections).

(** ** Lemmas *)

Lemma set_add_elem s x y : y ∈ set_add s x <-> y ∈ s \/ y = x.
Proof. unfold set_add. case_bool_decide; set_solver. Qed.

Lemma set_add_nodup s x : NoDup s -> NoDup (set_add s x).
Proof.
  intros H. unfold set_add. case_bool_decide; [done|].
  apply NoDup_app. split_and!; [done|set_solver|apply NoDup_singleton].
Qed.

(** What folding the roles contributes. *)
Lemma roles_elem admin roles s x :
  x ∈ fold_left (add_role admin) roles s <->
  x ∈ s \/ exists r, r ∈ roles /\ x = roleToContext (RoleView_name r) /\
                     (x = Own PlatformAdmin -> admin = true).
Proof.
  revert s. induction roles as [|r roles IH]; intros s; cbn [fold_left].
  - split; [auto|]. intros [?|(r & Hr & _)]; [done|by apply not_elem_of_nil in Hr].
  - rewrite IH. unfold add_role at 1. setoid_rewrite elem_of_cons.
    destruct (bool_decide (roleToContext (RoleView_name r) = Own PlatformAdmin) && negb admin) eqn:E;
      bool_hyps.
    + split; [intros [?|(r' & ? & ? & ?)]; [by left|right; eauto]|].
      intros [?|(r' & [->|?] & -> & Ha)]; [by left| |right; eauto].
      assert (admin = true) by auto. congruence.
    + rewrite set_add_elem. split.
      * intros [[?| ->]|(r' & ? & ? & ?)]; [by left| |right; eauto 6].
        right. exists r. split_and!; [by left|done|]. intros Hx.
        rewrite Hx, bool_decide_true in E by done. by destruct admin.
      * intros [?|(r' & [->|?] & -> & Ha)]; [by left; left|by left; right|right; eauto].
Qed.

Lemma roles_nodup admin roles s : NoDup s -> NoDup (fold_left (add_role admin) roles s).
Proof.
  revert s. induction roles as [|r roles IH]; intros s H; cbn [fold_left]; [done|].
  apply IH. unfold add_role. case_if; [done|]. by apply set_add_nodup.
Qed.

Lemma available_elem current roles admin x :
  x ∈ availableContexts current roles admin <->
  x = Own current \/ (admin = true /\ x = Own PlatformAdmin) \/
  (exists r, r ∈ roles /\ x = roleToContext (RoleView_name r) /\ (x = Own PlatformAdmin -> admin = true)).
Proof.
  unfold availableContexts. destruct admin; rewrite ?set_add_elem, roles_elem, list_elem_of_singleton;
    naive_solver.
Qed.

(** The switcher renders exactly when no role name hits the prototype. *)
Lemma rows_ok current l :
  (forall x, x ∈ l -> exists c, x = Own c) ->
  exists rows, map_result (switcher_row current) l = Ok rows /\
    map row_target rows = omap (fun x => match x with Own c => Some (CONTEXT_ROOTS c) | _ => None end) l.
Proof.
  induction l as [|x l IH]; intros H; [by exists []|].
  destruct (H x) as [c ->]; [set_solver|].
  destruct IH as (rows & E & Ht); [set_solver|]. cbn. rewrite E.
  eexists. split; [done|]. cbn. by rewrite Ht.
Qed.

Lemma rows_err current l n : Inherited n ∈ l -> map_result (switcher_row current) l = Err "TypeError".
Proof.
  intros H. induction l as [|y l IH]; [by apply not_elem_of_nil in H|].
  apply elem_of_cons in H as [<-|H]; [done|]. destruct y; cbn; [|done]. by rewrite IH.
Qed.

(** ** Properties *)

(** The platform-admin workspace is secret: outside of it, the switcher
    offers it only when the backend answered 200 to [GET /admin/platform/me],
    whatever the roles are called; the current workspace is always offered, no
    workspace twice, and every other offer comes from a role. *)
Theorem platform_admin_not_offered current roles q :
  let offered := availableContexts current roles (useIsPlatformAdmin q) in
  (current <> PlatformAdmin -> Own PlatformAdmin ∈ offered -> q_status q = Some 200%Z) /\
  Own current ∈ offered /\ NoDup offered /\
  (forall x, x ∈ offered -> x <> Own current -> x <> Own PlatformAdmin ->
     exists r, r ∈ roles /\ x = roleToContext (RoleView_name r)).
Proof.
  cbv zeta. split_and!.
  - intros Hc [[= E]|[[Ha _]|(r & _ & _ & Ha)]]%available_elem; [done| |specialize (Ha eq_refl)];
      unfold useIsPlatformAdmin, isPlatformAdmin in Ha; by bool_hyps.
  - apply available_elem. by left.
  - unfold availableContexts. case_if; [apply set_add_nodup|]; apply roles_nodup, NoDup_singleton.
  - intros x [->|[[_ ->]|(r & ? & ? & _)]]%available_elem ? ?; [done|done|eauto].
Qed.

(** The switcher works unless a role is called "constructor" or
    "__proto__" (in any case): with no such role every offered workspace gets a
    row leading to its root; with one, opening the dropdown throws. *)
Theorem switcher_breaks_on_prototype_names current roles q :
  ((forall r, r ∈ roles -> toLowerCase (RoleView_name r) ∉ PROTO_KEYS) ->
     exists rows, ContextSwitcher_rows current roles q = Ok rows /\
       CONTEXT_ROOTS current ∈ map row_target rows) /\
  (forall r, r ∈ roles -> toLowerCase (RoleView_name r) ∈ PROTO_KEYS ->
     ContextSwitcher_rows current roles q = Err "TypeError").
Proof.
  unfold ContextSwitcher_rows. set (adm := useIsPlatformAdmin q). split.
  - intros H. destruct (rows_ok current (availableContexts current roles adm)) as (rows & E & Ht).
    + intros x [->|[[_ ->]|(r & Hr & -> & _)]]%available_elem; eauto.
      specialize (H r Hr). unfold roleToContext, role_lookup.
      destruct (list_find _ _) as [[i [k c]]|]; [by eexists|].
      rewrite bool_decide_false by done. by eexists.
    + exists rows. split; [done|]. rewrite Ht. apply list_elem_of_omap.
      exists (Own current). split; [|done]. apply available_elem. by left.
  - intros r Hr Hp. apply (rows_err _ _ (toLowerCase (RoleView_name r))), available_elem.
    right. right. exists r.
    assert (roleToContext (RoleView_name r) = Inherited (toLowerCase (RoleView_name r))) as ->.
    { unfold roleToContext, role_lookup. unfold PROTO_KEYS in *.
      set (k := toLowerCase _) in *. clearbody k.
      by repeat (apply elem_of_cons in Hp as [->|Hp]; [reflexivity|]); apply not_elem_of_nil in Hp. }
    done.
Qed.

(** Signing out from the shell clears the session even when Clerk's own
    sign-out fails: the page goes to [/login] and the tab is no longer
    authenticated, and the failure is passed on. *)
Theorem shell_sign_out clerk w :
  let w1 := (clerk w).2 in
  working w1 = true -> jar_wf (w_jar w1) -> script_may_write w1 COOKIE_KEY = true ->
  net_sane (w_net w1) ->
  exists w', handleSignOut clerk w =
    (Ok ([Push "/login"], match (clerk w).1 with Ok _ => None | Err e => Some e end), w') /\
    isAuthenticated w' = (Ok false, w') /\
    auth_effect w' = (Ok [Replace "/login"], w').
Proof.
  cbv zeta. intros Hw Hj Hm Hn. unfold handleSignOut.
  destruct (clerk w) as [r w1]. cbn [fst snd] in *.
  destruct (clearToken_effect w1 Hw Hj Hm Hn) as (_ & _ & Ha).
  pose proof (clearToken_ok w1 Hw Hj Hm Hn) as Ho. unfold bind.
  destruct (clearToken w1) as [o w2]. cbn [fst snd] in *. subst o.
  exists w2. split_and!; [done|done|]. unfold auth_effect, bind. by rewrite Ha.
Qed.

(** ** Witnesses *)

Lemma shell_sign_out_witness :
  exists w', handleSignOut (throw "clerk_down") (demo_world {["portcullis_token" := "k"]} []) =
    (Ok ([Push "/login"], Some "clerk_down"), w') /\ isAuthenticated w' = (Ok false, w').
Proof.
  destruct (shell_sign_out (throw "clerk_down") (demo_world {["portcullis_token" := "k"]} []))
    as (w' & H & Ha & _); [done| |done|apply demo_net_sane|].
  - split; [constructor|apply NoDup_nil_2].
  - by exists w'.
Defined.
