(* ===== verification/Clipboard.v ===== *)
(** * Copying to the clipboard: web/src/lib/clipboard.ts

    [copyToClipboard] with its two mechanisms, over the part of the page it
    touches: the asynchronous clipboard API, [document.execCommand], the
    clipboard's content and the children of [document.body]. *)

From S2P Require Import Prelude.

(** How [document.execCommand("copy")] ends in this browser. *)
Inductive exec_result := ExecReturns (ok : bool) | ExecThrows.

Record Dom := mkDom {
  d_clipboard_api : option (string -> bool);
      (** [navigator.clipboard?.writeText]: absent, or whether it resolves *)
  d_document : bool;               (** [typeof document !== "undefined"] *)
  d_exec : exec_result;
  d_clipboard : option string;     (** the clipboard's text *)
  d_body : list string }.          (** the text areas under [document.body] *)

Definition set_clip (c : option string) (d : Dom) : Dom :=
  mkDom (d_clipboard_api d) (d_document d) (d_exec d) c (d_body d).

Definition set_body (b : list string) (d : Dom) : Dom :=
  mkDom (d_clipboard_api d) (d_document d) (d_exec d) (d_clipboard d) b.

(** The [execCommand] fallback: append a text area, select it, copy, remove it;
    the [try] block is left where [execCommand] throws. *)
Definition exec_fallback (text : string) (d : Dom) : bool * Dom :=
  let b := d_body d in
  let d := set_body (b ++ [text]) d in
  match d_exec d with
  | ExecThrows => (false, d)
  | ExecReturns ok =>
      let d := if ok then set_clip (Some text) d else d in
      (ok, set_body b d)
  end.

Definition copyToClipboard (text : string) (d : Dom) : bool * Dom :=
  let fallback d := if d_document d then exec_fallback text d else (false, d) in
  match d_clipboard_api d with
  | Some writeText =>
      if writeText text then (true, set_clip (Some text) d) else fallback d
  | None => fallback d
  end.

(** ** Properties *)

(** The reported outcome is accurate: [true] is returned exactly when the
    clipboard API accepted the text or the legacy command did, and then the
    clipboard holds the text; on [false] the clipboard is as it was. *)
Theorem copy_feedback_accurate text d :
  let '(ok, d') := copyToClipboard text d in
  d_clipboard d' = (if ok then Some text else d_clipboard d) /\
  (ok = true <->
   (exists f, d_clipboard_api d = Some f /\ f text = true) \/
   (d_document d = true /\ d_exec d = ExecReturns true)).
Proof.
  unfold copyToClipboard, exec_fallback.
  destruct d as [[f|] [] [[]|] clip body]; cbn;
    repeat match goal with |- context [f ?t] => destruct (f t) eqn:? end; cbn; naive_solver.
Qed.

(** A throwing [execCommand] leaks its text area: the hidden element, with
    the copied text, stays in the page, while every other outcome restores
    [document.body]. *)
Theorem copy_leaks_textarea text d :
  d_clipboard_api d = None -> d_document d = true ->
  d_body (copyToClipboard text d).2 =
    match d_exec d with ExecThrows => d_body d ++ [text] | ExecReturns _ => d_body d end.
Proof.
  unfold copyToClipboard. intros -> ->. unfold exec_fallback.
  destruct d as [? ? [[]|] ? ?]; done.
Qed.

(** ** Witness *)
Lemma copy_leaks_textarea_witness :
  d_body (copyToClipboard "pk_live_1" (mkDom None true ExecThrows None [])).2 = ["pk_live_1"].
Proof. by rewrite copy_leaks_textarea. Defined.
