(* ===== verification/Tally.v ===== *)
(** * Ordered maps, counting and sorting

    The collection idioms of the console's pages: an insertion-ordered [Map]
    updated while walking the logs (grouping, counting), [Array.prototype.sort]
    (stable) and the "top n" slices built from them, with the lemmas the page
    components share. *)

From Stdlib Require Import Sorting.Sorted.
From S2P Require Import Prelude JsString Browser.

(** ** Insertion-ordered maps *)
Section omap.
Context {K V : Type} `{!EqDecision K}.

Fixpoint map_get (k : K) (m : list (K * V)) : option V :=
  match m with
  | [] => None
  | (k', v) :: r => if bool_decide (k = k') then Some v else map_get k r
  end.

(** [map.set(k, f(map.get(k)))]: an existing key keeps its place. *)
Fixpoint map_update (k : K) (f : option V -> V) (m : list (K * V)) : list (K * V) :=
  match m with
  | [] => [(k, f None)]
  | (k', v) :: r =>
      if bool_decide (k = k') then (k', f (Some v)) :: r else (k', v) :: map_update k f r
  end.

Lemma map_get_update k k' f m :
  map_get k (map_update k' f m) =
    if bool_decide (k = k') then Some (f (map_get k' m)) else map_get k m.
Proof.
  induction m as [|[k0 v] m IH]; cbn.
  - by case_bool_decide.
  - destruct (decide (k' = k0)) as [->|Hne].
    + rewrite (bool_decide_true (k0 = k0)) by done. cbn. by case_bool_decide.
    + rewrite (bool_decide_false (k' = k0)) by done. cbn. rewrite IH.
      destruct (decide (k = k0)) as [->|?]; rewrite ?bool_decide_true, ?bool_decide_false by congruence;
        try done; by rewrite bool_decide_false by congruence.
Qed.

Lemma map_update_keys k f m :
  (map_update k f m).*1 = if bool_decide (k ∈ m.*1) then m.*1 else m.*1 ++ [k].
Proof.
  induction m as [|[k0 v] m IH]; cbn; [done|].
  destruct (decide (k = k0)) as [->|?].
  - rewrite (bool_decide_true (k0 = k0)) by done. cbn. rewrite bool_decide_true by set_solver. done.
  - rewrite (bool_decide_false (k = k0)) by done. cbn. rewrite IH.
    do 2 case_bool_decide; try done; set_solver.
Qed.

Lemma map_update_nodup k f m : NoDup m.*1 -> NoDup (map_update k f m).*1.
Proof.
  intros H. rewrite map_update_keys. case_bool_decide; [done|].
  apply NoDup_app. split_and!; [done|set_solver|apply NoDup_singleton].
Qed.

Lemma map_get_elem k v m : NoDup m.*1 -> (k, v) ∈ m <-> map_get k m = Some v.
Proof.
  induction m as [|[k0 v0] m IH]; cbn; intros H; [split; [by intros ?%not_elem_of_nil|done]|].
  apply NoDup_cons in H as [Hk H]. rewrite elem_of_cons, IH by done.
  destruct (decide (k = k0)) as [->|?].
  - rewrite (bool_decide_true (k0 = k0)) by done. split.
    + intros [[= ->]|Hm]; [done|]. apply IH in Hm; [|done].
      exfalso. apply Hk. apply list_elem_of_fmap. by exists (k0, v).
    + intros [= ->]. by left.
  - rewrite (bool_decide_false (k = k0)) by done. split; [intros [[= ? ?]|?]; done|by right].
Qed.
End omap.

(** ** Grouping *)
Section group.
Context {A K V : Type} `{!EqDecision K}.
Context (key : A -> option K) (step : A -> option V -> V).

(** Walk [l], skipping the items with no key. *)
Definition group_step (m : list (K * V)) (x : A) : list (K * V) :=
  match key x with Some k => map_update k (step x) m | None => m end.

Definition group_from (m : list (K * V)) (l : list A) : list (K * V) := fold_left group_step l m.

Definition group (l : list A) : list (K * V) := group_from [] l.

(** What one key accumulates. *)
Fixpoint accumulate (k : K) (v : option V) (l : list A) : option V :=
  match l with
  | [] => v
  | x :: r => accumulate k (if bool_decide (key x = Some k) then Some (step x v) else v) r
  end.

Lemma group_from_get k m l : map_get k (group_from m l) = accumulate k (map_get k m) l.
Proof.
  unfold group_from. revert m. induction l as [|x l IH]; intros m; cbn; [done|].
  rewrite IH. f_equal. unfold group_step. destruct (key x) as [k'|] eqn:E; [|done].
  rewrite map_get_update. destruct (decide (k = k')) as [->|].
  - by rewrite !bool_decide_true by congruence.
  - by rewrite !bool_decide_false by congruence.
Qed.

Lemma group_get k l : map_get k (group l) = accumulate k None l.
Proof. apply group_from_get. Qed.

Lemma group_from_nodup m l : NoDup m.*1 -> NoDup (group_from m l).*1.
Proof.
  unfold group_from. revert m. induction l as [|x l IH]; intros m H; cbn; [done|].
  apply IH. unfold group_step. destruct (key x); [by apply map_update_nodup|done].
Qed.

Lemma group_nodup l : NoDup (group l).*1.
Proof. apply group_from_nodup, NoDup_nil_2. Qed.

Lemma group_elem k v l : (k, v) ∈ group l <-> accumulate k None l = Some v.
Proof. rewrite map_get_elem by apply group_nodup. by rewrite group_get. Qed.

Lemma accumulate_some k v l : is_Some v -> is_Some (accumulate k v l).
Proof. revert v. induction l as [|x l IH]; intros v Hv; cbn; [done|]. apply IH. case_if; eauto. Qed.

(** A key is present exactly when some item has it. *)
Lemma group_keys k l : k ∈ (group l).*1 <-> exists x, x ∈ l /\ key x = Some k.
Proof.
  rewrite list_elem_of_fmap. split.
  - intros ([k' v] & -> & Hm%group_elem). cbn.
    assert (forall v0, accumulate k' v0 l = Some v -> v0 = Some v \/ exists x, x ∈ l /\ key x = Some k') as Hacc.
    { clear. induction l as [|x l IH]; intros v0 H; cbn in H; [by left|].
      apply IH in H as [H|(y & ? & ?)]; [|right; exists y; set_solver].
      destruct (decide (key x = Some k')); [right; exists x; set_solver|].
      rewrite bool_decide_false in H by done. by left. }
    by apply Hacc in Hm as [|].
  - intros (x & Hx & Hk). assert (is_Some (accumulate k None l)) as [v Hv].
    { clear -Hx Hk. generalize (@None V). induction l as [|y l IH]; intros v; cbn;
        [by apply not_elem_of_nil in Hx|].
      apply elem_of_cons in Hx as [->|Hx]; [|by apply IH].
      rewrite bool_decide_true by done. apply accumulate_some. eauto. }
    exists (k, v). split; [done|]. by apply group_elem.
Qed.

(** Induction over the items of one group, in order. *)
Lemma accumulate_inv (P : list A -> V -> Prop) k l v :
  (forall x, key x = Some k -> P [x] (step x None)) ->
  (forall xs x v, key x = Some k -> P xs v -> P (xs ++ [x]) (step x (Some v))) ->
  accumulate k None l = Some v -> P (filter (fun x => key x = Some k) l) v.
Proof using.
  intros H1 H2.
  assert (forall xs w, P xs w -> forall l v, accumulate k (Some w) l = Some v ->
    P (xs ++ filter (fun x => key x = Some k) l) v) as Hs.
  { intros xs w Hw l'. revert xs w Hw. induction l' as [|x l' IH]; intros xs w Hw v'; cbn [accumulate].
    - intros [= <-]. by rewrite app_nil_r.
    - rewrite filter_cons. destruct (decide (key x = Some k)) as [E|E].
      + rewrite bool_decide_true by done. intros Ha. apply (IH (xs ++ [x])) in Ha; [|by apply H2].
        by rewrite <- app_assoc in Ha.
      + rewrite bool_decide_false by done. by apply IH. }
  induction l as [|x l IH]; cbn [accumulate]; [done|]. rewrite filter_cons.
  destruct (decide (key x = Some k)) as [E|E].
  - rewrite bool_decide_true by done. intros Ha. apply (Hs [x] _ (H1 x E) l v Ha).
  - rewrite bool_decide_false by done. apply IH.
Qed.

(** When every item adds one to its group, the groups add up to the items. *)
Context (weight : V -> Z).

Definition weights (m : list (K * V)) : Z := foldr Z.add 0%Z ((fun kv => weight (kv.2)) <$> m).

Lemma weights_update k f m :
  weights (map_update k f m) =
    (weights m + weight (f (map_get k m)) - from_option weight 0 (map_get k m))%Z.
Proof using.
  unfold weights. induction m as [|[k0 v] m IH]; cbn; [lia|].
  case_bool_decide; cbn; [lia|]. rewrite IH. lia.
Qed.

Lemma group_weight l :
  (forall x v, weight (step x v) = from_option weight 0 v + 1)%Z ->
  weights (group l) = Z.of_nat (length (filter (fun x => is_Some (key x)) l)).
Proof using.
  intros Hs. unfold group, group_from.
  assert (forall m, weights (fold_left group_step l m) =
    (weights m + Z.of_nat (length (filter (fun x => is_Some (key x)) l)))%Z) as H; [|apply H].
  induction l as [|x l IH]; intros m; cbn [fold_left]; [cbn; lia|].
  rewrite IH, filter_cons. unfold group_step. destruct (key x) as [k|] eqn:E.
  - rewrite decide_True by eauto. rewrite weights_update, Hs. cbn [length]. lia.
  - rewrite decide_False by (by intros [??]). lia.
Qed.

(** When every item adds its own weight, the groups add up to the items'. *)
Lemma group_weight_sum (w : A -> Z) l :
  (forall x v, weight (step x v) = from_option weight 0 v + w x)%Z -> (forall x, is_Some (key x)) ->
  weights (group l) = foldr Z.add 0%Z (w <$> l).
Proof using.
  intros Hs Hk. unfold group, group_from.
  assert (forall m, weights (fold_left group_step l m) = (weights m + foldr Z.add 0 (w <$> l))%Z) as H; [|apply H].
  induction l as [|x l IH]; intros m; cbn [fold_left]; [cbn; lia|].
  rewrite IH. unfold group_step. destruct (Hk x) as [k ->]. rewrite weights_update, Hs. cbn. lia.
Qed.
End group.

(** ** Counting *)
Section tally.
Context {A K : Type} `{!EqDecision K}.
Context (key : A -> option K).

(** [map.set(k, (map.get(k) ?? 0) + 1)] *)
Definition tally : list A -> list (K * Z) := group key (fun _ v => (default 0 v + 1)%Z).

Definition count (k : K) (l : list A) : Z := Z.of_nat (length (filter (fun x => key x = Some k) l)).

Lemma tally_accumulate k v l :
  accumulate key (fun _ v => (default 0 v + 1)%Z) k v l =
    if (0 <? count k l)%Z then Some (default 0 v + count k l)%Z else v.
Proof.
  unfold count. revert v. induction l as [|x l IH]; intros v; cbn [accumulate]; [done|].
  rewrite IH, filter_cons. destruct (decide (key x = Some k)).
  - rewrite bool_decide_true by done. cbn [length from_option id].
    generalize (length (filter (fun x => key x = Some k) l)). intros n.
    destruct (Z.ltb_spec 0 (Z.of_nat n)), (Z.ltb_spec 0 (Z.of_nat (S n))); try lia; f_equal; lia.
  - by rewrite bool_decide_false.
Qed.

(** An entry of the map is exactly a key that occurs, with its count. *)
Lemma tally_elem k n l : (k, n) ∈ tally l <-> (0 < n)%Z /\ n = count k l.
Proof.
  unfold tally. rewrite group_elem, tally_accumulate. cbn [default].
  destruct (Z.ltb_spec 0 (count k l)); split; [intros [= <-]; lia|intros [? ->]; done|done|lia].
Qed.

Lemma tally_nodup l : NoDup (tally l).*1.
Proof. apply group_nodup. Qed.

Lemma tally_get k l : default 0%Z (map_get k (tally l)) = count k l.
Proof.
  destruct (map_get k (tally l)) as [n|] eqn:E; cbn.
  - apply map_get_elem in E; [|apply tally_nodup]. by apply tally_elem in E as [_ ->].
  - destruct (decide (0 < count k l)%Z) as [H|H]; [|unfold count in *; lia].
    assert ((k, count k l) ∈ tally l) as Hin by (by apply tally_elem).
    apply map_get_elem in Hin; [congruence|apply tally_nodup].
Qed.

Definition total {B} (m : list (B * Z)) : Z := foldr Z.add 0%Z m.*2.

(** The counts add up to the number of items that have a key. *)
Lemma tally_total l : total (tally l) = Z.of_nat (length (filter (fun x => is_Some (key x)) l)).
Proof.
  rewrite <- (group_weight key (fun _ v => (default 0 v + 1)%Z) id); [|by intros _ []].
  done.
Qed.
End tally.

(** ** Stable sorting *)

(** What a comparator promises to [sort]: a total preorder. *)
Class Comparator {A} (le : A -> A -> bool) : Prop := {
  cmp_total x y : le x y = true \/ le y x = true;
  cmp_trans x y z : le x y = true -> le y z = true -> le x z = true }.

Section sort.
Context {A : Type} (le : A -> A -> bool).

(** [le x y] says [compare(x, y) <= 0]; an earlier element stays before a later
    equal one. *)
Fixpoint sort_insert (x : A) (l : list A) : list A :=
  match l with
  | [] => [x]
  | y :: r => if le x y then x :: y :: r else y :: sort_insert x r
  end.

Definition stable_sort (l : list A) : list A := foldr sort_insert [] l.

Lemma sort_insert_perm x l : sort_insert x l ≡ₚ x :: l.
Proof. induction l as [|y l IH]; cbn; [done|]. case_if; [done|]. rewrite IH. apply Permutation_swap. Qed.

Lemma stable_sort_perm l : stable_sort l ≡ₚ l.
Proof. induction l as [|x l IH]; cbn; [done|]. by rewrite sort_insert_perm, IH. Qed.

Context `{!Comparator le}.

Notation sorted := (StronglySorted (fun x y => le x y = true)).

Lemma sort_insert_sorted x l : sorted l -> sorted (sort_insert x l).
Proof using Type*.
  induction 1 as [|y l Hs IH Hf]; cbn; [repeat constructor|].
  destruct (le x y) eqn:E; constructor; try done.
  - by constructor.
  - constructor; [done|]. eapply Forall_impl; [done|]. cbn. intros z. by apply cmp_trans.
  - rewrite sort_insert_perm. constructor; [|done]. destruct (cmp_total x y); congruence.
Qed.

Lemma stable_sort_sorted l : sorted (stable_sort l).
Proof using Type*.
  induction l; cbn; [constructor|by apply sort_insert_sorted].
Qed.

(** Everything in the first [n] precedes everything after. *)
Lemma top_dominates n l x y :
  x ∈ take n (stable_sort l) -> y ∈ drop n (stable_sort l) -> le x y = true.
Proof using Type*.
  generalize (stable_sort_sorted l). rewrite <- (take_drop n (stable_sort l)) at 1.
  generalize (take n (stable_sort l)) as a, (drop n (stable_sort l)) as b. intros a b H Hx Hy.
  induction a as [|z a IH]; cbn in H; [by apply not_elem_of_nil in Hx|].
  apply StronglySorted_inv in H as [H Hf]. apply elem_of_cons in Hx as [->|Hx]; [|by apply IH].
  rewrite Forall_app in Hf. destruct Hf as [_ Hf]. by rewrite Forall_forall in Hf; apply Hf.
Qed.
End sort.

(** Comparators that agree on the items sort alike. *)
Lemma sort_insert_ext {A} (le le' : A -> A -> bool) x l :
  (forall y, y ∈ l -> le x y = le' x y) -> sort_insert le x l = sort_insert le' x l.
Proof.
  induction l as [|y l IH]; intros H; [done|]. cbn. rewrite H by set_solver. rewrite IH; [done|set_solver].
Qed.

Lemma stable_sort_ext {A} (le le' : A -> A -> bool) l :
  (forall x y, x ∈ l -> y ∈ l -> le x y = le' x y) -> stable_sort le l = stable_sort le' l.
Proof.
  induction l as [|x l IH]; intros H; [done|].
  change (sort_insert le x (stable_sort le l) = sort_insert le' x (stable_sort le' l)). rewrite IH by set_solver.
  apply sort_insert_ext. intros y. rewrite stable_sort_perm. set_solver.
Qed.

(** The order of strings by code units, [Array.prototype.sort] without a
    comparator. *)
Definition by_code_units (a b : string) : bool := bool_decide (String.compare a b <> Gt).

Lemma code_units_trans a b c :
  String.compare a b <> Gt -> String.compare b c <> Gt -> String.compare a c <> Gt.
Proof.
  revert b c. induction a as [|x a IH]; intros [|y b] [|z c]; try done. cbn [String.compare]. unfold Ascii.compare.
  destruct (N.compare_spec (N_of_ascii x) (N_of_ascii y)), (N.compare_spec (N_of_ascii y) (N_of_ascii z)),
    (N.compare_spec (N_of_ascii x) (N_of_ascii z)); try done; try lia. by apply IH.
Qed.

#[export] Instance by_code_units_comparator : Comparator by_code_units.
Proof.
  split; unfold by_code_units.
  - intros a b. rewrite !bool_decide_eq_true, (String.compare_antisym a b). destruct (String.compare b a); cbn; auto.
  - intros a b c. rewrite !bool_decide_eq_true. apply code_units_trans.
Qed.

(** [sort((a, b) => b.n - a.n)] and [sort((a, b) => a.n - b.n)] on numbers *)
Definition by_desc {A} (f : A -> Z) (x y : A) : bool := (f y <=? f x)%Z.
Definition by_asc {A} (f : A -> Z) (x y : A) : bool := (f x <=? f y)%Z.

#[export] Instance by_desc_comparator {A} (f : A -> Z) : Comparator (by_desc f).
Proof. split; unfold by_desc; intros *; rewrite !Z.leb_le; lia. Qed.

#[export] Instance by_asc_comparator {A} (f : A -> Z) : Comparator (by_asc f).
Proof. split; unfold by_asc; intros *; rewrite !Z.leb_le; lia. Qed.

Lemma sorted_impl {A} (R S : A -> A -> Prop) l :
  (forall x y, R x y -> S x y) -> StronglySorted R l -> StronglySorted S l.
Proof. intros H. induction 1; constructor; [done|]. eapply Forall_impl; eauto. Qed.

(** Distinct keys sorted upwards are strictly increasing. *)
Lemma strict_sorted {V} (m : list (Z * V)) :
  NoDup m.*1 -> StronglySorted (fun x y => by_asc fst x y = true) m ->
  StronglySorted (fun x y => x.1 < y.1)%Z m.
Proof.
  induction m as [|x m IH]; intros Hn Hs; [constructor|].
  apply NoDup_cons in Hn as [Hx Hn]. apply StronglySorted_inv in Hs as [Hs Hf].
  constructor; [by apply IH|]. rewrite Forall_forall in *. intros y Hy. specialize (Hf y Hy).
  unfold by_asc in Hf. apply Z.leb_le in Hf.
  assert (x.1 <> y.1); [|lia]. intros E. apply Hx. rewrite E. by apply list_elem_of_fmap_2.
Qed.

Lemma sum_perm (l l' : list Z) : l ≡ₚ l' -> foldr Z.add 0%Z l = foldr Z.add 0%Z l'.
Proof. induction 1; cbn; lia. Qed.

(** ** Top n by count *)
Definition top_n {K} (n : nat) (m : list (K * Z)) : list (K * Z) :=
  take n (stable_sort (by_desc snd) m).

Section top_n.
Context {A K : Type} `{!EqDecision K} (key : A -> option K).

(** The slice holds true counts of distinct keys, at most [n] of them and all
    when there are no more, and no key left out occurs more often. *)
Lemma top_n_spec n l :
  let r := top_n n (tally key l) in
  (length r <= n)%nat /\
  NoDup r.*1 /\
  (forall k c, (k, c) ∈ r -> c = count key k l /\ (0 < c)%Z) /\
  (forall k c k', (k, c) ∈ r -> (0 < count key k' l)%Z -> k' ∉ r.*1 -> (count key k' l <= c)%Z) /\
  (length (tally key l) <= n -> forall k, (0 < count key k l)%Z -> k ∈ r.*1)%nat.
Proof.
  cbv zeta. unfold top_n. set (s := stable_sort (by_desc snd) (tally key l)).
  assert (s ≡ₚ tally key l) as Hp by apply stable_sort_perm.
  assert (forall k c, (k, c) ∈ s <-> (0 < c)%Z /\ c = count key k l) as Hs.
  { intros k c. rewrite Hp. apply tally_elem. }
  split_and!.
  - rewrite length_take. lia.
  - assert (NoDup s.*1) as Hn by (rewrite Hp; apply tally_nodup).
    rewrite <- (take_drop n s), fmap_app in Hn. by apply NoDup_app in Hn as (? & _ & _).
  - intros k c Hk. apply elem_of_take in Hk as (i & Hi & _). apply list_elem_of_lookup_2, Hs in Hi. naive_solver.
  - intros k c k' Hk Hc Hn.
    assert ((k', count key k' l) ∈ s) as Hk' by (by apply Hs).
    rewrite <- (take_drop n s), elem_of_app in Hk'. destruct Hk' as [Hk'|Hk'].
    { exfalso. apply Hn, list_elem_of_fmap. by exists (k', count key k' l). }
    pose proof (top_dominates (by_desc snd) n _ _ _ Hk Hk') as Hd.
    unfold by_desc in Hd. cbn in Hd. lia.
  - intros Hl k Hc. rewrite take_ge by (rewrite Hp; lia).
    apply list_elem_of_fmap. exists (k, count key k l). split; [done|]. by apply Hs.
Qed.
End top_n.

(** ** Counts in a plain object *)

(** An array index among an object's keys: it is listed before the others. *)
Definition array_index (k : string) : option Z :=
  z ← parse_dec k; if bool_decide (pretty z = k) && (z <? 4294967295)%Z then Some z else None.

(** [Object.entries(counts)] *)
Definition object_entries (m : list (string * Z)) : list (string * Z) :=
  stable_sort (by_asc (fun kv => default 0%Z (array_index (kv.1))))
    (List.filter (fun kv => match array_index (kv.1) with Some _ => true | None => false end) m)
  ++ List.filter (fun kv => match array_index (kv.1) with Some _ => false | None => true end) m.

(** [.sort((a, b) => b[1] - a[1]).slice(0, n)] *)
Definition top_entries (n : nat) (m : list (string * Z)) : list (string * Z) :=
  take n (stable_sort (by_desc snd) (object_entries m)).

Lemma object_entries_perm m : object_entries m ≡ₚ m.
Proof.
  unfold object_entries. rewrite stable_sort_perm. induction m as [|kv m IH]; [done|]. cbn [List.filter].
  destruct (array_index (kv.1)); cbn [app].
  - by apply Permutation_cons.
  - rewrite <- Permutation_middle. by apply Permutation_cons.
Qed.

(** The rows of a chart: at most [n], each with its exact count, and no label
    left out occurs more often than one shown. *)
Lemma top_entries_spec {A} (key : A -> option string) n l :
  let r := top_entries n (tally key l) in
  (length r <= n)%nat /\
  (forall k c, (k, c) ∈ r -> c = count key k l /\ (0 < c)%Z) /\
  (forall k c k', (k, c) ∈ r -> (0 < count key k' l)%Z -> k' ∉ r.*1 -> (count key k' l <= c)%Z).
Proof.
  cbv zeta. unfold top_entries. set (s := stable_sort _ _).
  assert (s ≡ₚ tally key l) as Hs by (unfold s; by rewrite stable_sort_perm, object_entries_perm).
  split; [rewrite length_take; lia|]. split.
  - intros k c Hin. assert ((k, c) ∈ tally key l) as H by (rewrite <- Hs, <- (take_drop n s); apply elem_of_app; by left).
    apply tally_elem in H as [? ->]. done.
  - intros k c k' Hin Hpos Hn. assert ((k', count key k' l) ∈ s) as Hk' by (rewrite Hs; by apply tally_elem).
    rewrite <- (take_drop n s) in Hk'. apply elem_of_app in Hk' as [Hk'|Hk'].
    { exfalso. apply Hn, list_elem_of_fmap. by exists (k', count key k' l). }
    pose proof (top_dominates (by_desc snd) n (object_entries (tally key l)) (k, c) (k', count key k' l)) as Hd.
    unfold by_desc in Hd. fold s in Hd. specialize (Hd Hin Hk'). cbn in Hd. lia.
Qed.

(** ** Histograms: an array of buckets updated by index *)
Section histogram.
Context {A B : Type} (index : A -> option nat) (bump : A -> B -> B) (weight : B -> Z).

(** [buckets[idx] = bump(buckets[idx])] for the items that have an index. *)
Definition histogram (bs : list B) (l : list A) : list B :=
  fold_left (fun bs x => match index x with Some i => alter (bump x) i bs | None => bs end) l bs.

Context (bump_weight : forall x b, weight (bump x b) = (weight b + 1)%Z).

Definition sum_weights (bs : list B) : Z := foldr Z.add 0%Z (weight <$> bs).

Lemma alter_weight f i bs :
  (forall b, weight (f b) = weight b + 1)%Z ->
  sum_weights (alter f i bs) = (sum_weights bs + if bool_decide (i < length bs)%nat then 1 else 0)%Z.
Proof using.
  intros Hf. unfold sum_weights. revert i. induction bs as [|b bs IH]; intros i; [by destruct i|].
  destruct i as [|i]; cbn.
  - rewrite Hf. case_bool_decide; lia.
  - change (list_alter f i bs) with (alter f i bs). rewrite IH.
    repeat case_bool_decide; lia.
Qed.

Lemma histogram_length bs l : length (histogram bs l) = length bs.
Proof using.
  unfold histogram. revert bs. induction l as [|x l IH]; intros bs; cbn; [done|].
  rewrite IH. destruct (index x); [apply length_alter|done].
Qed.

(** The items that fall into one of [n] buckets. *)
Definition indexed (n : nat) (x : A) : bool :=
  match index x with Some i => (i <? n)%nat | None => false end.

(** The buckets' weights grow by the number of items that fall into one. *)
Lemma histogram_sum bs l :
  sum_weights (histogram bs l) =
  (sum_weights bs + Z.of_nat (length (filter (fun x => indexed (length bs) x = true) l)))%Z.
Proof using bump_weight.
  unfold histogram. revert bs. induction l as [|x l IH]; intros bs; cbn [fold_left]; [cbn; lia|].
  rewrite IH, filter_cons.
  assert (indexed (length bs) x = match index x with Some i => (i <? length bs)%nat | None => false end)
    as Hi by done.
  destruct (index x) as [i|] eqn:E.
  - rewrite alter_weight by auto. rewrite length_alter.
    destruct (Nat.ltb_spec i (length bs)); case_bool_decide; try lia;
      [rewrite decide_True by done; cbn [length]; lia | rewrite decide_False by congruence; lia].
  - by rewrite decide_False by congruence.
Qed.

(** A bucket holds what its own items did to it. *)
Lemma histogram_lookup bs l i :
  histogram bs l !! i =
  (fun b => fold_left (fun b x => bump x b) (filter (fun x => index x = Some i) l) b) <$> bs !! i.
Proof using.
  unfold histogram. revert bs. induction l as [|x l IH]; intros bs; cbn [fold_left].
  - by destruct (bs !! i).
  - rewrite IH, filter_cons. destruct (index x) as [j|] eqn:E.
    + destruct (decide (i = j)) as [->|Hne].
      * rewrite list_lookup_alter_eq, decide_True by done. by destruct (bs !! j).
      * rewrite list_lookup_alter_ne, decide_False by congruence. done.
    + by rewrite decide_False.
Qed.
End histogram.

(** ** Newest first *)

(** [.sort((a, b) => time(b) - time(a))]; a difference that is not a number
    compares as equal. *)
Definition by_newest {A} (time : A -> option Z) (a b : A) : bool :=
  match time a, time b with Some x, Some y => (y <=? x)%Z | _, _ => true end.

Lemma sorted_prefix {A} (R : A -> A -> Prop) l1 l2 : StronglySorted R (l1 ++ l2) -> StronglySorted R l1.
Proof.
  induction l1 as [|x l1 IH]; intros H; [constructor|]. apply StronglySorted_inv in H as [H Hf].
  constructor; [by apply IH|]. by apply Forall_app in Hf as [? _].
Qed.

Lemma sorted_across {A} (R : A -> A -> Prop) l1 l2 x y : StronglySorted R (l1 ++ l2) -> x ∈ l1 -> y ∈ l2 -> R x y.
Proof.
  induction l1 as [|z l1 IH]; intros H Hx Hy; [by apply not_elem_of_nil in Hx|]. apply StronglySorted_inv in H as [H Hf].
  apply elem_of_cons in Hx as [->|Hx]; [|by apply IH]. rewrite Forall_forall in Hf. apply Hf. set_solver.
Qed.

(** The first [n] of a list sorted newest first: where all times are known they
    are in order, and nothing left out is newer. *)
Lemma take_newest_spec {A} (time : A -> option Z) n (l : list A) :
  (forall e, e ∈ l -> is_Some (time e)) ->
  let at_ e := default 0%Z (time e) in
  let r := take n (stable_sort (by_newest time) l) in
  length r = Nat.min n (length l) /\ StronglySorted (fun a b => (at_ b <= at_ a)%Z) r /\
  exists omitted, r ++ omitted ≡ₚ l /\ forall x y, x ∈ r -> y ∈ omitted -> (at_ y <= at_ x)%Z.
Proof.
  intros Hd at_ r.
  assert (stable_sort (by_newest time) l = stable_sort (by_desc at_) l) as E.
  { apply stable_sort_ext. intros x y Hx Hy. unfold by_newest, by_desc, at_.
    by destruct (Hd x Hx) as [a ->], (Hd y Hy) as [b ->]. }
  assert (StronglySorted (fun a b => (at_ b <= at_ a)%Z) (stable_sort (by_desc at_) l)) as Hs.
  { apply (sorted_impl (fun a b => by_desc at_ a b = true)); [intros x y; unfold by_desc; lia|]. apply stable_sort_sorted, _. }
  subst r. rewrite E. split_and!.
  - by rewrite length_take, (stable_sort_perm (by_desc at_)).
  - rewrite <- (take_drop n) in Hs. by apply sorted_prefix in Hs.
  - exists (drop n (stable_sort (by_desc at_) l)). rewrite take_drop. split; [apply stable_sort_perm|].
    intros x y Hx Hy. rewrite <- (take_drop n) in Hs. exact (sorted_across _ _ _ x y Hs Hx Hy).
Qed.

(** ** Groups with a latest text *)

(** [if (b > latest) latest = b] on texts. *)
Definition later_text (latest b : string) : string := if bool_decide (String.compare latest b = Lt) then b else latest.

Lemma code_units_refl s : by_code_units s s = true.
Proof. by destruct (cmp_total (le := by_code_units) s s). Qed.

Lemma later_text_ge a b : by_code_units a (later_text a b) = true /\ by_code_units b (later_text a b) = true.
Proof.
  unfold later_text. case_bool_decide as E; [split; [|apply code_units_refl]|split; [apply code_units_refl|]];
    apply bool_decide_eq_true; [by rewrite E|]. rewrite String.compare_antisym. by destruct (String.compare a b).
Qed.

(** [t] is the last, in the order of texts, of the texts of [xs]. *)
Definition latest_of {A} (text : A -> string) (t : string) (xs : list A) : Prop :=
  (exists x, x ∈ xs /\ t = text x) /\ forall x, x ∈ xs -> by_code_units (text x) t = true.

Lemma latest_first {A} (text : A -> string) x : latest_of text (text x) [x].
Proof. split; [exists x; set_solver|]. intros y ->%list_elem_of_singleton. apply code_units_refl. Qed.

Lemma latest_next {A} (text : A -> string) t xs x :
  latest_of text t xs -> latest_of text (later_text t (text x)) (xs ++ [x]).
Proof.
  intros [(y & Hy & ->) Hm]. destruct (later_text_ge (text y) (text x)) as [H1 H2]. split.
  - unfold later_text. case_bool_decide; [exists x|exists y]; (split; [apply elem_of_app|done]).
    + right. by left.
    + by left.
  - intros z [Hz|Hz]%elem_of_app; [eapply cmp_trans; [by apply Hm|exact H1]|]. by apply list_elem_of_singleton in Hz as ->.
Qed.

(** The first [n] groups by weight, where a group's weight is its size: no
    group that is left out is larger than one that is shown. *)
Lemma top_groups_dominate {A V} (key : A -> option string) (step : A -> option V -> V) (weight : V -> Z) n l :
  (forall k v, (k, v) ∈ group key step l -> weight v = count key k l) ->
  let r := take n (stable_sort (by_desc (fun kv => weight (kv.2))) (group key step l)) in
  (forall k v, (k, v) ∈ r -> (k, v) ∈ group key step l) /\
  (forall k v k', (k, v) ∈ r -> (0 < count key k' l)%Z -> k' ∉ r.*1 -> (count key k' l <= weight v)%Z).
Proof.
  intros Hw r. set (le := by_desc _) in r. set (g := group key step l) in r.
  assert (forall k v, (k, v) ∈ r -> (k, v) ∈ g) as Hin.
  { intros k v H. rewrite <- (stable_sort_perm le g), <- (take_drop n (stable_sort le g)). apply elem_of_app. by left. }
  split; [exact Hin|]. intros k v k' Hr Hc Hn.
  assert (k' ∈ g.*1) as Hk'.
  { apply group_keys. unfold count in Hc. destruct (filter (fun x => key x = Some k') l) as [|x m] eqn:E; [done|].
    exists x. assert (x ∈ filter (fun x => key x = Some k') l) as Hx by (rewrite E; by left).
    apply list_elem_of_filter in Hx. naive_solver. }
  apply list_elem_of_fmap in Hk' as ([k0 v'] & -> & Hv'). cbn in Hv', Hn |- *. rewrite <- (Hw _ _ Hv').
  rewrite <- (stable_sort_perm le g), <- (take_drop n (stable_sort le g)), elem_of_app in Hv'.
  destruct Hv' as [Hv'|Hv']; [destruct Hn; apply list_elem_of_fmap; by exists (k0, v')|].
  pose proof (top_dominates le n g _ _ Hr Hv') as H. unfold le, by_desc in H. cbn in H. lia.
Qed.
