(* ===== verification/JsNumber.v ===== *)
(** * Numbers

    JavaScript numbers where the console computes ratios: IEEE 754 doubles, as
    the Standard Library's executable specification ([SpecFloat], precision 53,
    maximal exponent 1024), with [Math.round] and [toFixed] on their exact
    values. *)

From Stdlib Require Import SpecFloat.
From S2P Require Import Prelude JsString JsDate.

Notation double := spec_float.

Definition of_Z (z : Z) : double := binary_normalize 53 1024 z 0 false.
Definition fdiv : double -> double -> double := SFdiv 53 1024.
Definition fmul : double -> double -> double := SFmul 53 1024.
Definition fadd : double -> double -> double := SFadd 53 1024.

(** [floor(scale * x + 1/2)] of the exact value of [x], [scale] an integer. *)
Inductive rounded := RNum (z : Z) | RInf (neg : bool) | RNaN.

Definition round_scaled (scale : Z) (x : double) : rounded :=
  match x with
  | S754_zero _ => RNum 0
  | S754_infinity s => RInf s
  | S754_nan => RNaN
  | S754_finite s m e =>
      let v := ((if s then Z.neg m else Z.pos m) * scale)%Z in
      RNum (if (0 <=? e)%Z then v * 2 ^ e
            else (2 * v + 2 ^ (- e)) / 2 ^ (1 - e))%Z
  end.

(** [Math.round] *)
Definition Math_round : double -> rounded := round_scaled 1.

(** [Math.min(k, x)] on a rounded value *)
Definition Math_min (k : Z) (x : rounded) : rounded :=
  match x with
  | RNum z => RNum (Z.min k z)
  | RInf true => RInf true
  | RInf false => RNum k
  | RNaN => RNaN
  end.

(** [x.toFixed(1)] and [x.toFixed(0)], for [0 <= x < 10^21] *)
Definition toFixed1 (x : double) : string :=
  match round_scaled 10 x with
  | RNum n => pretty (n / 10)%Z +:+ "." +:+ pretty (n mod 10)%Z
  | RInf s => if s then "-Infinity" else "Infinity"
  | RNaN => "NaN"
  end.

Definition toFixed0 (x : double) : string :=
  match round_scaled 1 x with
  | RNum n => pretty n
  | RInf s => if s then "-Infinity" else "Infinity"
  | RNaN => "NaN"
  end.

(** [(a / b) * 100] *)
Definition percent (a b : Z) : double := fmul (fdiv (of_Z a) (of_Z b)) (of_Z 100).

Example percent_third : toFixed1 (percent 1 3) = "33.3".
Proof. reflexivity. Qed.

(** A tie of the exact ratio that the division rounds down: 14.5 gives 14. *)
Example percent_tie : Math_round (percent 29 200) = RNum 14.
Proof. reflexivity. Qed.

(** ** [Number::toString] of a ratio *)

(** [a / b] rounded to a double, for integers of any size. *)
Definition ratio (a b : Z) : double :=
  match a, b with
  | Z.pos p, Z.pos q => fdiv (S754_finite false p 0) (S754_finite false q 0)
  | _, _ => fdiv (of_Z a) (of_Z b)
  end.

Definition same_double (x y : double) : bool :=
  match x, y with
  | S754_finite s m e, S754_finite s' m' e' => Bool.eqb s s' && (m =? m')%positive && (e =? e')%Z
  | _, _ => false
  end.

(** The first [d], of [fuel] candidates, such that the [d] decimals closest to
    [x] read back as [x]; with it the decimals as an integer. *)
Fixpoint shortest (x : double) (fuel d : nat) : nat * Z :=
  let p := (10 ^ Z.of_nat d)%Z in
  let s := match round_scaled p x with RNum s => s | _ => 0%Z end in
  match fuel with
  | 0 => (d, s)
  | S fuel => if same_double (ratio s p) x then (d, s) else shortest x fuel (S d)
  end.

(** The text of [a / b] for [1 <= a / b < 2^53]: seventeen digits always read
    back, so sixteen decimals suffice. *)
Definition ratio_text (a b : Z) : string :=
  if (a mod b =? 0)%Z then pretty (a / b)%Z else
  let '(d, s) := shortest (ratio a b) 16 1 in
  let p := (10 ^ Z.of_nat d)%Z in
  pretty (s / p)%Z +:+ "." +:+ padStart d "0" (pretty (s mod p)%Z).

Example ratio_text_half : ratio_text 5400 3600 = "1.5". Proof. vm_compute. reflexivity. Qed.
Example ratio_text_long : ratio_text 5000 3600 = "1.3888888888888888". Proof. vm_compute. reflexivity. Qed.
