(* ===== verification/Traffic.v ===== *)
(** * Traffic charts

    The aggregations of audit logs behind the charts of four pages:
    dashboard/traffic ([TrafficPage]), dashboard/observability
    ([Observability]), the dashboard itself ([Overview]) and admin/traffic
    ([AdminTraffic]).  [tz] is the browser's time zone (minutes ahead of UTC)
    and [now] is [Date.now()].  An entry's [created_at] that does not parse has
    time [NaN] ([None]). *)

From Stdlib Require Import Sorting.Sorted.
From S2P Require Import Prelude JsString Browser JsDate JsNumber RelTime Tally ApiTypes.

Notation Log := AuditLogView.
Notation created_at := AuditLogView_created_at.

Definition time_of (tz : Z) (l : Log) : option Z := Date_parse tz (created_at l).

Definition is_event (e : AuditEventType) (l : Log) : bool :=
  bool_decide (AuditLogView_event_type l = e).

(** [if (val)] on a nullable string: the value when it is truthy. *)
Definition truthy_str (o : option string) : option string :=
  match o with Some s => if bool_decide (s = "") then None else Some s | None => None end.

(** [new Set(logs.map(l => l.subject_id).filter(Boolean)).size] *)
Definition distinct_subjects (logs : list Log) : nat :=
  length (remove_dups (omap (fun l => truthy_str (AuditLogView_subject_id l)) logs)).

(** [`${hours}:${minutes}`] of a bucket's start, in local time *)
Definition fmtTime (tz t : Z) : string :=
  pad 2 (getHours tz t) +:+ ":" +:+ pad 2 (((t + tz * 60000) / 60000) mod 60)%Z.

(** ** web/src/app/dashboard/traffic/page.tsx *)
Module TrafficPage.

Record bucket := mkBucket { b_total : Z; b_errors : Z; b_blocked : Z }.

Definition bump (l : Log) (b : option bucket) : bucket :=
  let b := default (mkBucket 0 0 0) b in
  mkBucket (b_total b + 1)
    (if is_event AuditEventType_auth_failure l then b_errors b + 1 else b_errors b)
    (if is_event AuditEventType_rbac_deny l then b_blocked b + 1 else b_blocked b).

(** [Math.floor(t / ms) * ms]; [NaN] is a key like any other. *)
Definition bucket_key (tz ms : Z) (l : Log) : option (option Z) :=
  Some (t ← time_of tz l; Some (t / ms * ms)%Z).

Definition bucket_map (tz ms : Z) (logs : list Log) : list (option Z * bucket) :=
  group (bucket_key tz ms) bump logs.

(** The entries whose key is a number; [None] when one is [NaN]. *)
Definition numeric_keys {V} (m : list (option Z * V)) : option (list (Z * V)) :=
  mapM (fun kv => match kv.1 with Some t => Some (t, kv.2) | None => None end) m.

Record row := mkRow { r_time : string; r_total : Z; r_errors : Z; r_blocked : Z }.

(** The sorted buckets with their start times; [new Date(NaN).toISOString()]
    throws, whatever order the sort left the entries in. *)
Definition sorted_buckets (tz ms : Z) (logs : list Log) : result string (list (Z * bucket)) :=
  match numeric_keys (bucket_map tz ms logs) with
  | None => Err "RangeError"
  | Some m => Ok (stable_sort (by_asc fst) m)
  end.

Definition bucketByMinutes (tz : Z) (logs : list Log) (bucketMins : Z) : result string (list row) :=
  if bool_decide (logs = []) then Ok [] else
  match sorted_buckets tz (bucketMins * 60000) logs with
  | Err e => Err e
  | Ok m => Ok (map (fun '(ts, v) =>
                  mkRow (fmtTime tz ts) (b_total v) (b_errors v) (b_blocked v)) m)
  end.

Definition topNByField (logs : list Log) (field : Log -> option string) (n : nat)
    : list (string * Z) :=
  top_n n (tally (fun l => truthy_str (field l)) logs).

Definition byUser (logs : list Log) : list (string * Z) :=
  top_n 8 (tally (fun l => (fun s => stake 10 s +:+ "…") <$> truthy_str (AuditLogView_subject_id l)) logs).

Definition toolCalls := List.filter (is_event AuditEventType_tool_call).
Definition authFails := List.filter (is_event AuditEventType_auth_failure).
Definition rbacDenies := List.filter (is_event AuditEventType_rbac_deny).
Definition allowed := List.filter (fun l : Log =>
  bool_decide (AuditLogView_outcome l = "allowed") || bool_decide (AuditLogView_outcome l = "success")).

Definition len {A} (l : list A) : Z := Z.of_nat (length l).

Definition successRate (logs : list Log) : string :=
  if (0 <? len logs)%Z then toFixed1 (percent (len (allowed logs)) (len logs)) else "—".

Definition errorRate (logs : list Log) : string :=
  if (0 <? len logs)%Z
  then toFixed1 (percent (len (authFails logs) + len (rbacDenies logs)) (len logs)) else "—".

Definition byEventType (logs : list Log) : list (string * Z) :=
  [("Tool Call", len (toolCalls logs)); ("RBAC Deny", len (rbacDenies logs));
   ("Auth Fail", len (authFails logs))].

(** *** Lemmas *)

(** A bucket after its items: how many there were, and of which kind. *)
Lemma bucket_accumulate tz ms k v logs :
  accumulate (bucket_key tz ms) bump k v logs =
  let mine := filter (fun l => bucket_key tz ms l = Some k) logs in
  if bool_decide (mine = []) then v
  else let b := default (mkBucket 0 0 0) v in
       Some (mkBucket (b_total b + len mine)
               (b_errors b + len (authFails mine)) (b_blocked b + len (rbacDenies mine))).
Proof.
  cbv zeta. revert v. induction logs as [|l logs IH]; intros v; cbn [accumulate]; [done|].
  rewrite IH, filter_cons. destruct (decide (bucket_key tz ms l = Some k)) as [E|E].
  - rewrite (bool_decide_true (bucket_key tz ms l = Some k)) by done.
    rewrite (bool_decide_false (l :: _ = [])) by done.
    generalize (filter (fun l => bucket_key tz ms l = Some k) logs). intros mine. unfold len, authFails, rbacDenies. cbn [List.filter length].
    destruct (decide (mine = [])) as [->|Hm];
      [rewrite (bool_decide_true ([] = [])) by done|rewrite (bool_decide_false (mine = [])) by done];
      unfold bump; cbn [from_option id b_total b_errors b_blocked];
      do 2 f_equal; case_if; cbn [length List.filter]; lia.
  - by rewrite (bool_decide_false (bucket_key tz ms l = Some k)) by done.
Qed.

Lemma numeric_keys_spec {V} (m : list (option Z * V)) m' :
  numeric_keys m = Some m' -> m = (fun kv => (Some (kv.1), kv.2)) <$> m'.
Proof.
  unfold numeric_keys. revert m'. induction m as [|[[t|] v] m IH]; intros m' H; cbn in H;
    [by injection H as <-| |done].
  destruct (mapM _ m) as [m0|] eqn:E; cbn in H; [|done]. injection H as <-. cbn. f_equal. by apply IH.
Qed.

Lemma numeric_keys_none {V} (m : list (option Z * V)) :
  numeric_keys m = None <-> None ∈ m.*1.
Proof.
  unfold numeric_keys. induction m as [|[[t|] v] m IH]; cbn; [set_solver| |set_solver].
  destruct (mapM _ m) as [m0|] eqn:E; cbn; rewrite elem_of_cons; naive_solver.
Qed.

Lemma all_keyed tz ms (logs : list Log) :
  filter (fun l => is_Some (bucket_key tz ms l)) logs = logs.
Proof. induction logs as [|l logs IH]; [done|]. rewrite filter_cons, decide_True, IH by eauto. done. Qed.

Lemma nan_bucket tz ms logs :
  None ∈ (bucket_map tz ms logs).*1 <-> exists l, l ∈ logs /\ time_of tz l = None.
Proof.
  unfold bucket_map. rewrite group_keys. unfold bucket_key.
  split; intros (l & Hl & E); exists l; (split; [done|]); destruct (time_of tz l); naive_solver.
Qed.

(** The logs that fall into the bucket starting at [ts]. *)
Definition in_bucket (tz ms ts : Z) (logs : list Log) : list Log :=
  filter (fun l => bucket_key tz ms l = Some (Some ts)) logs.

Lemma bucket_key_range tz ms ts l :
  (0 < ms)%Z -> bucket_key tz ms l = Some (Some ts) <->
  exists t, time_of tz l = Some t /\ (ts <= t < ts + ms)%Z /\ (ts mod ms = 0)%Z.
Proof.
  intros Hms. unfold bucket_key. destruct (time_of tz l) as [t|]; cbn; [|naive_solver].
  pose proof (Z.div_mod t ms). pose proof (Z.mod_pos_bound t ms). split.
  - intros [= <-]. exists t. split_and!; [done|nia|nia|]. by rewrite Z.mod_mul by lia.
  - intros (t' & [= <-] & Hr & Hm). do 2 f_equal. apply Z.mod_divide in Hm as [q ->]; [|lia].
    f_equal. symmetry. apply (Z.div_unique_pos t ms q (t - q * ms)); lia.
Qed.

Lemma bucket_entries tz ms (logs : list Log) m0 :
  bucket_map tz ms logs = (fun kv => (Some (kv.1), kv.2)) <$> m0 ->
  NoDup (m0.*1) /\
  forall ts b, (ts, b) ∈ m0 <-> accumulate (bucket_key tz ms) bump (Some ts) None logs = Some b.
Proof.
  intros E. split.
  - apply (NoDup_fmap_1 Some). rewrite <- list_fmap_compose.
    pose proof (group_nodup (bucket_key tz ms) bump logs) as Hn.
    change (group _ _ logs) with (bucket_map tz ms logs) in Hn. rewrite E, <- list_fmap_compose in Hn. done.
  - intros ts b. rewrite <- group_elem. change (group _ _ logs) with (bucket_map tz ms logs).
    rewrite E, list_elem_of_fmap. split; [intros ?; by exists (ts, b)|].
    intros ([ts' b'] & [= -> ->] & ?). done.
Qed.

Lemma bucket_totals tz ms logs m0 :
  bucket_map tz ms logs = (fun kv => (Some (kv.1), kv.2)) <$> m0 ->
  foldr Z.add 0%Z ((fun p => b_total (p.2)) <$> stable_sort (by_asc fst) m0) = len logs.
Proof.
  intros E. rewrite (sum_perm _ ((fun p => b_total (p.2)) <$> m0))
    by (by rewrite (stable_sort_perm (by_asc fst) m0)).
  pose proof (group_weight (bucket_key tz ms) bump b_total logs) as Hw.
  rewrite all_keyed in Hw. unfold len. rewrite <- Hw by (by intros l []).
  change (group _ _ logs) with (bucket_map tz ms logs). unfold weights. by rewrite E, <- list_fmap_compose.
Qed.

(** *** Properties *)

(** The volume chart is exact: when every timestamp parses, the buckets
    come in increasing order of their start, each starts at a multiple of the
    bucket size, holds the number of entries in its half-open interval (all,
    authentication failures, denials), is not empty, and the totals add up to
    the number of entries: nothing is lost or counted twice. *)
Theorem volume_buckets_exact tz ms logs m :
  (0 < ms)%Z -> sorted_buckets tz ms logs = Ok m ->
  StronglySorted (fun a b => a.1 < b.1)%Z m /\
  (forall ts b, (ts, b) ∈ m ->
     (ts mod ms = 0)%Z /\ (0 < b_total b)%Z /\
     b = mkBucket (len (in_bucket tz ms ts logs)) (len (authFails (in_bucket tz ms ts logs)))
                  (len (rbacDenies (in_bucket tz ms ts logs)))) /\
  (forall l t, l ∈ logs -> time_of tz l = Some t ->
     exists b, ((t / ms * ms)%Z, b) ∈ m) /\
  foldr Z.add 0%Z ((fun p => b_total (p.2)) <$> m) = len logs.
Proof.
  intros Hms. unfold sorted_buckets. destruct (numeric_keys _) as [m0|] eqn:E; [|done].
  intros [= <-]. apply numeric_keys_spec in E.
  assert (forall x, x ∈ stable_sort (by_asc fst) m0 <-> x ∈ m0) as Hp
    by (intros; by rewrite stable_sort_perm).
  destruct (bucket_entries tz ms logs m0 E) as [Hnd Hacc].
  split_and!.
  - apply strict_sorted; [by rewrite (stable_sort_perm (by_asc fst) m0)|].
    apply stable_sort_sorted, _.
  - intros ts b Ha%Hp%Hacc. rewrite bucket_accumulate in Ha. cbv zeta in Ha.
    change (filter (fun l => bucket_key tz ms l = Some (Some ts)) logs) with (in_bucket tz ms ts logs) in Ha.
    case_bool_decide as Hne; [done|]. cbn in Ha. injection Ha as <-.
    destruct (in_bucket tz ms ts logs) as [|l r] eqn:El; [done|].
    assert (l ∈ in_bucket tz ms ts logs) as Hl by (rewrite El; set_solver).
    apply list_elem_of_filter in Hl as [Hl _]. apply bucket_key_range in Hl as (_ & _ & _ & ?); [|done].
    split_and!; [done|unfold len; cbn [b_total length]; lia|done].
  - intros l t Hl Ht.
    assert (Some (t / ms * ms)%Z ∈ (bucket_map tz ms logs).*1) as Hk.
    { apply group_keys. exists l. split; [done|]. unfold bucket_key. by rewrite Ht. }
    rewrite E, <- list_fmap_compose in Hk. apply list_elem_of_fmap in Hk as ([ts b] & [= ->] & Hb).
    exists b. by apply Hp.
  - by apply (bucket_totals tz ms).
Qed.

(** One unreadable timestamp takes the traffic page down: with an entry
    whose [created_at] is not a date, [bucketByMinutes] throws a RangeError for
    every bucket size; with readable timestamps it never throws. *)
Theorem unreadable_timestamp_throws tz logs mins :
  ((exists l, l ∈ logs /\ time_of tz l = None) ->
     bucketByMinutes tz logs mins = Err "RangeError") /\
  ((forall l, l ∈ logs -> time_of tz l <> None) -> exists rows, bucketByMinutes tz logs mins = Ok rows).
Proof.
  unfold bucketByMinutes, sorted_buckets. split.
  - intros Hx. pose proof Hx as (l & Hl & _). rewrite bool_decide_false by (by intros ->; apply not_elem_of_nil in Hl).
    apply (nan_bucket tz (mins * 60000)), numeric_keys_none in Hx. by rewrite Hx.
  - intros H. case_bool_decide; [by eexists|].
    destruct (numeric_keys _) as [m|] eqn:E; [by eexists|].
    apply numeric_keys_none, nan_bucket in E as (l & Hl & Ht). by destruct (H l Hl).
Qed.

(** The "top n" lists are right: for any field, the list has at most [n]
    distinct labels, each with its exact number of occurrences among the
    entries where the field is not empty; a label that is left out occurs no
    more often than any label shown, and nothing is left out when there is
    room. *)
Theorem top_by_field_exact logs field n :
  let key l := truthy_str (field l) in
  let r := topNByField logs field n in
  (length r <= n)%nat /\ NoDup r.*1 /\
  (forall v c, (v, c) ∈ r -> c = count key v logs /\ (0 < c)%Z) /\
  (forall v c v', (v, c) ∈ r -> (0 < count key v' logs)%Z -> v' ∉ r.*1 -> (count key v' logs <= c)%Z) /\
  (length (tally key logs) <= n -> forall v, (0 < count key v logs)%Z -> v ∈ r.*1)%nat.
Proof. apply top_n_spec. Qed.

(** *** Witnesses *)

Definition demo_log (e : AuditEventType) (at_ outcome : string) : Log :=
  mkAuditLogView "id" None (Some "key-1234567890") None e (Some "github") (Some "search") None
    outcome None None [] at_.

Lemma volume_buckets_exact_witness :
  foldr Z.add 0%Z ((fun p => b_total (p.2)) <$>
    [(0%Z, mkBucket 2 1 0); (600000%Z, mkBucket 1 0 1)]) = 3%Z.
Proof.
  refine (proj2 (proj2 (proj2 (volume_buckets_exact 0 600000
    [demo_log AuditEventType_rbac_deny "1970-01-01T00:10:01Z" "denied";
     demo_log AuditEventType_auth_failure "1970-01-01T00:00:01Z" "denied";
     demo_log AuditEventType_tool_call "1970-01-01T00:09:59Z" "allowed"]
    [(0%Z, mkBucket 2 1 0); (600000%Z, mkBucket 1 0 1)] _ _)))); [lia|reflexivity].
Defined.
End TrafficPage.

(** ** web/src/app/dashboard/observability/page.tsx *)
Module Observability.
Import TrafficPage.

Record bucket := mkBucket { b_total : Z; b_errors : Z }.

Definition bump (l : Log) (b : option bucket) : bucket :=
  let b := default (mkBucket 0 0) b in
  mkBucket (b_total b + 1)
    (if negb (is_event AuditEventType_tool_call l) then b_errors b + 1 else b_errors b).

(** [bucket10m]: ten-minute buckets; every event but a tool call is an error. *)
Definition bucket10m (tz : Z) (logs : list Log) : result string (list (string * Z * Z)) :=
  if bool_decide (logs = []) then Ok [] else
  match numeric_keys (group (bucket_key tz (10 * 60000)) bump logs) with
  | None => Err "RangeError"
  | Some m => Ok (map (fun '(ts, v) => (fmtTime tz ts, b_total v, b_errors v))
                      (stable_sort (by_asc fst) m))
  end.

(** [ServiceMap]: requests per server, and the size of each node *)
Definition serverCounts (logs : list Log) : list (string * Z) :=
  tally (fun l => truthy_str (AuditLogView_server_slug l)) logs.

Definition maxCount (logs : list Log) : Z := foldr Z.max 1%Z (serverCounts logs).*2.

Definition node_count (logs : list Log) (srv : ServerView) : Z :=
  default 0%Z (map_get (ServerView_slug srv) (serverCounts logs)).

(** [Math.max(36, Math.round(36 + (count / maxCount) * 16))] *)
Definition node_size (logs : list Log) (srv : ServerView) : rounded :=
  match Math_round (fadd (of_Z 36)
          (fmul (fdiv (of_Z (node_count logs srv)) (of_Z (maxCount logs))) (of_Z 16))) with
  | RNum z => RNum (Z.max 36 z)
  | RInf true => RNum 36
  | x => x
  end.

Definition node_color (srv : ServerView) : string :=
  if bool_decide (ServerView_status srv = ServerStatus_active) then "var(--pc-success)"
  else if bool_decide (ServerView_status srv = ServerStatus_unhealthy) then "var(--pc-critical)"
  else "var(--pc-muted)".

(** [ErrorGroupsPanel] *)
Record group_ := mkGroup {
  g_count : Z; g_first : string; g_last : string;
  g_servers : list string; g_tools : list string; g_event : AuditEventType }.

Definition group_id (l : Log) : string :=
  AuditEventType_value (AuditLogView_event_type l) +:+ "::"
  +:+ default "unknown" (AuditLogView_server_slug l) +:+ "::" +:+ AuditLogView_outcome l.

Definition set_add_str (s : list string) (o : option string) : list string :=
  match truthy_str o with Some x => if bool_decide (x ∈ s) then s else s ++ [x] | None => s end.

(** [new Date(a) < new Date(b)]: false when either is [NaN] *)
Definition date_lt (tz : Z) (a b : string) : bool :=
  match Date_parse tz a, Date_parse tz b with Some x, Some y => (x <? y)%Z | _, _ => false end.

Definition group_bump (tz : Z) (l : Log) (g : option group_) : group_ :=
  let g := default (mkGroup 0 (created_at l) (created_at l) [] [] (AuditLogView_event_type l)) g in
  mkGroup (g_count g + 1)
    (if date_lt tz (created_at l) (g_first g) then created_at l else g_first g)
    (if date_lt tz (g_last g) (created_at l) then created_at l else g_last g)
    (set_add_str (g_servers g) (AuditLogView_server_slug l))
    (set_add_str (g_tools g) (AuditLogView_tool_name l))
    (g_event g).

Definition errors (logs : list Log) : list Log :=
  List.filter (fun l => negb (is_event AuditEventType_tool_call l)) logs.

Definition ErrorGroupsPanel_groups (tz : Z) (logs : list Log) : list (string * group_) :=
  take 5 (stable_sort (by_desc (fun kv => g_count (kv.2)))
    (group (fun l => Some (group_id l)) (group_bump tz) (errors logs))).

(** The page's figures *)
Definition errorRate (logs : list Log) : string :=
  if (0 <? len logs)%Z then toFixed1 (percent (len (errors logs)) (len logs)) +:+ "%" else "—".

Definition activeServers (servers : list ServerView) : Z :=
  len (List.filter (fun s => bool_decide (ServerView_status s = ServerStatus_active)) servers).

Definition availability (servers : list ServerView) : string :=
  if (0 <? len servers)%Z
  then toFixed0 (percent (activeServers servers) (len servers)) +:+ "%" else "—".

Definition topTools (logs : list Log) : list (string * Z) :=
  top_n 5 (tally (fun l => truthy_str (AuditLogView_tool_name l)) (toolCalls logs)).

(** *** Lemmas *)

(** What a group records of its members. *)
Definition group_ok (tz : Z) (ls : list Log) (g : group_) : Prop :=
  (forall l, l ∈ ls -> exists t, time_of tz l = Some t) ->
  (exists f t, f ∈ ls /\ g_first g = created_at f /\ time_of tz f = Some t /\
     forall l t', l ∈ ls -> time_of tz l = Some t' -> (t <= t')%Z) /\
  (exists f t, f ∈ ls /\ g_last g = created_at f /\ time_of tz f = Some t /\
     forall l t', l ∈ ls -> time_of tz l = Some t' -> (t' <= t)%Z).

Lemma group_ok_first tz l : 
  g_count (group_bump tz l None) = 1%Z /\ group_ok tz [l] (group_bump tz l None).
Proof.
  split; [done|]. intros Hv. destruct (Hv l) as [t Ht]; [set_solver|].
  unfold group_bump, date_lt. cbn [from_option id g_first g_last].
  change (Date_parse tz (created_at l)) with (time_of tz l).
  rewrite Ht, Z.ltb_irrefl.
  split; exists l, t; (split_and!; [set_solver|done|done|]);
    intros l' t' ->%list_elem_of_singleton ?; simplify_eq; lia.
Qed.

Lemma group_ok_next tz ls l g :
  (g_count g = len ls /\ group_ok tz ls g) ->
  g_count (group_bump tz l (Some g)) = len (ls ++ [l]) /\
  group_ok tz (ls ++ [l]) (group_bump tz l (Some g)).
Proof.
  intros [Hc Hg]. split.
  { cbn. rewrite Hc. unfold len. rewrite length_app. cbn. lia. }
  intros Hv. destruct (Hv l) as [t Ht]; [set_solver|].
  destruct Hg as [(f & tf & Hf & Ef & Htf & Hmin) (m & tm & Hm & Em & Htm & Hmax)];
    [intros; apply Hv; set_solver|].
  unfold group_bump, date_lt. cbn [from_option id g_first g_last]. rewrite Ef, Em.
  change (Date_parse tz (created_at ?x)) with (time_of tz x). rewrite Ht, Htf, Htm.
  split.
  - destruct (Z.ltb_spec t tf); [exists l, t|exists f, tf]; (split_and!; [set_solver|done|done|]);
      intros l' t' [Hl'| ->%list_elem_of_singleton]%elem_of_app Ht'; simplify_eq; try lia;
      specialize (Hmin _ _ Hl' Ht'); lia.
  - destruct (Z.ltb_spec tm t); [exists l, t|exists m, tm]; (split_and!; [set_solver|done|done|]);
      intros l' t' [Hl'| ->%list_elem_of_singleton]%elem_of_app Ht'; simplify_eq; try lia;
      specialize (Hmax _ _ Hl' Ht'); lia.
Qed.

(** *** Properties *)

(** The error panel is right: each group shown counts exactly the error
    entries with its identity (event, server, outcome); when their timestamps
    parse, its "first" and "last" are timestamps of members and bound all of
    them; at most five groups are shown and a group not shown is not larger. *)
Theorem error_groups_exact tz logs :
  let mine k := filter (fun l => Some (group_id l) = Some k) (errors logs) in
  let shown := ErrorGroupsPanel_groups tz logs in
  (length shown <= 5)%nat /\
  (forall k g, (k, g) ∈ shown -> g_count g = len (mine k) /\ group_ok tz (mine k) g) /\
  (forall k g k', (k, g) ∈ shown -> mine k' <> [] -> k' ∉ shown.*1 -> (len (mine k') <= g_count g)%Z).
Proof.
  cbv zeta. unfold ErrorGroupsPanel_groups.
  set (key := fun l => Some (group_id l)). set (grp := group key (group_bump tz) (errors logs)).
  set (srt := stable_sort _ grp).
  assert (forall k g, (k, g) ∈ srt -> g_count g = len (filter (fun l => key l = Some k) (errors logs)) /\
    group_ok tz (filter (fun l => key l = Some k) (errors logs)) g) as Hg.
  { intros k g. unfold srt. rewrite stable_sort_perm. unfold grp. rewrite group_elem.
    apply (accumulate_inv key (group_bump tz) (fun ls g => g_count g = len ls /\ group_ok tz ls g)).
    - intros l _. apply group_ok_first.
    - intros ls l g' _. apply group_ok_next. }
  split_and!.
  - rewrite length_take. lia.
  - intros k g (i & Hi & _)%elem_of_take. apply Hg. by eapply list_elem_of_lookup_2.
  - intros k g k' Hk Hne Hn.
    assert (k' ∈ srt.*1) as Hs.
    { unfold srt. rewrite stable_sort_perm. apply group_keys.
      destruct (filter _ (errors logs)) as [|l r] eqn:E in Hne; [done|].
      assert (l ∈ filter (fun l => key l = Some k') (errors logs)) as Hl by (unfold key; rewrite E; set_solver).
      apply list_elem_of_filter in Hl as [? ?]. by exists l. }
    apply list_elem_of_fmap in Hs as ([k0 g'] & -> & Hs). cbn in *.
    destruct (Hg _ _ Hs) as [Hc _]. unfold key in Hc. rewrite <- Hc.
    rewrite <- (take_drop 5 srt), elem_of_app in Hs. destruct Hs as [Hs|Hs].
    { exfalso. apply Hn, list_elem_of_fmap. by exists (k0, g'). }
    pose proof (top_dominates (by_desc _) 5 _ _ _ Hk Hs) as Hd.
    unfold by_desc in Hd. cbn in Hd. lia.
Qed.
End Observability.

(** ** web/src/app/dashboard/page.tsx *)
Module Overview.
Import TrafficPage.

Definition HOUR : Z := 3600000.

Definition outcomeConfig (outcome : string) : string * string * string :=
  if bool_decide (outcome = "allowed") then ("#35C88A", "rgba(53,200,138,0.12)", "allowed")
  else if bool_decide (outcome = "denied") then ("#F05D5E", "rgba(240,93,94,0.12)", "denied")
  else ("#F4B942", "rgba(244,185,66,0.12)", "other").

Definition statusConfig (status : string) : string * string :=
  if bool_decide (status = "active") then ("#2DD4A7", "rgba(45,212,167,0.12)")
  else if bool_decide (status = "unhealthy") then ("#F05D5E", "rgba(240,93,94,0.12)")
  else ("#8B98A7", "rgba(139,152,167,0.1)").

Record hour_bucket := mkHour { h_hour : string; h_start : Z; h_allowed : Z; h_denied : Z }.

Definition empty_hours (tz now : Z) : list hour_bucket :=
  map (fun i => let start := (now - (23 - Z.of_nat i) * HOUR)%Z in
                mkHour (pretty (getHours tz start) +:+ ":00") start 0 0) (seq 0 24).

(** The bucket of an entry, or [None] when the loop skips it. *)
Definition hour_index (tz now : Z) (a : Log) : option Z :=
  if bool_decide (created_at a = "") then None else
  match time_of tz a with
  | None => None
  | Some t => if (24 * HOUR <? now - t)%Z then None
              else Some (Z.min 23 ((t - (now - 24 * HOUR)) / HOUR))%Z
  end.

Definition hour_bump (a : Log) (b : hour_bucket) : hour_bucket :=
  if bool_decide (AuditLogView_outcome a = "allowed")
  then mkHour (h_hour b) (h_start b) (h_allowed b + 1) (h_denied b)
  else mkHour (h_hour b) (h_start b) (h_allowed b) (h_denied b + 1).

Definition hour_buckets (tz now : Z) (audit : list Log) : list hour_bucket :=
  histogram (fun a => Z.to_nat <$> hour_index tz now a) hour_bump (empty_hours tz now) audit.

Definition trafficByHour (tz now : Z) (audit : list Log) : list (string * Z * Z) :=
  map (fun b => (h_hour b, h_allowed b, h_denied b)) (hour_buckets tz now audit).

(** The page's figures *)
Definition allowed_count (audit : list Log) : Z :=
  len (List.filter (fun a : Log => bool_decide (AuditLogView_outcome a = "allowed")) audit).
Definition denied_count (audit : list Log) : Z :=
  len (List.filter (fun a : Log => bool_decide (AuditLogView_outcome a = "denied")) audit).
Definition recentAudit (audit : list Log) : list Log := take 8 audit.
Definition unhealthySvrs (servers : list ServerView) : list ServerView :=
  List.filter (fun s => negb (bool_decide (ServerView_status s = ServerStatus_active))) servers.
Definition deniedEvents (audit : list Log) : list Log :=
  take 5 (List.filter (fun a : Log => bool_decide (AuditLogView_outcome a = "denied")) audit).
Definition toolCount (audit : list Log) : Z := len (toolCalls audit).

Definition checklist (servers keys rl : nat) : list (string * bool * string) :=
  [("Register first MCP server", (0 <? servers)%nat, "/dashboard/servers/new");
   ("Create API key", (0 <? keys)%nat, "/dashboard/api-keys");
   ("Set up rate limit policy", (0 <? rl)%nat, "/dashboard/rate-limits");
   ("Test a tool via playground", false, "/dashboard/playground")].

Definition hasTraffic (chartData : list (string * Z * Z)) : bool :=
  existsb (fun '(_, a, d) => ((0 <? a) || (0 <? d))%Z) chartData.

(** *** Lemmas *)

Lemma hour_index_range tz now a i :
  hour_index tz now a = Some i -> (0 <= i < 24)%Z.
Proof.
  unfold hour_index, HOUR. case_bool_decide; [done|]. destruct (time_of tz a) as [t|]; [|done].
  destruct (Z.ltb_spec (24 * 3600000) (now - t)); [done|]. intros [= <-].
  assert (0 <= (t - (now - 24 * 3600000)) / 3600000)%Z by (apply Z.div_pos; lia). lia.
Qed.

(** The entries the chart should count: those with a readable time that is at
    most 24 hours ago, or in the future. *)
Definition counted (tz now : Z) (a : Log) : bool :=
  match time_of tz a with Some t => (now - t <=? 24 * HOUR)%Z | None => false end.

Lemma counted_index tz now a : counted tz now a = match hour_index tz now a with Some _ => true | None => false end.
Proof.
  unfold counted, hour_index. case_bool_decide as E; [unfold time_of; by rewrite E|].
  destruct (time_of tz a) as [t|]; [|done]. destruct (Z.ltb_spec (24 * HOUR) (now - t)), (Z.leb_spec (now - t) (24 * HOUR));
    done || lia.
Qed.

Lemma counted_indexed tz now audit :
  length (filter (fun a => indexed (fun a => Z.to_nat <$> hour_index tz now a)
                            (length (empty_hours tz now)) a = true) audit)
  = length (List.filter (counted tz now) audit).
Proof.
  induction audit as [|a l IH]; [done|]. rewrite filter_cons. cbn [List.filter].
  assert (indexed (fun a => Z.to_nat <$> hour_index tz now a) (length (empty_hours tz now)) a
          = counted tz now a) as E.
  { rewrite counted_index. unfold indexed. destruct (hour_index tz now a) as [i|] eqn:Ei; [|done].
    apply hour_index_range in Ei. cbn. apply Nat.leb_le. lia. }
  destruct (counted tz now a); [rewrite decide_True by done|rewrite decide_False by congruence];
    cbn [length]; by rewrite IH.
Qed.

Definition is_allowed (a : Log) : bool := bool_decide (AuditLogView_outcome a = "allowed").

(** What a bar's entries do to it. *)
Lemma hour_counts ls b :
  fold_left (fun b x => hour_bump x b) ls b =
  mkHour (h_hour b) (h_start b) (h_allowed b + len (List.filter is_allowed ls))
    (h_denied b + len (List.filter (fun a => negb (is_allowed a)) ls)).
Proof.
  revert b. induction ls as [|x ls IH]; intros b; cbn [fold_left List.filter].
  - unfold len. cbn. rewrite !Z.add_0_r. by destruct b.
  - rewrite IH. unfold hour_bump. fold (is_allowed x). unfold len.
    destruct (is_allowed x); cbn [negb h_hour h_start h_allowed h_denied length]; f_equal; lia.
Qed.

(** The entries of a bar. *)
Definition in_bar (tz now : Z) (i : nat) (audit : list Log) : list Log :=
  filter (fun a => Z.to_nat <$> hour_index tz now a = Some i) audit.

Lemma hour_bar tz now audit i :
  i < 24 ->
  hour_buckets tz now audit !! i = Some
    (mkHour (pretty (getHours tz (now - (23 - Z.of_nat i) * HOUR)) +:+ ":00") (now - (23 - Z.of_nat i) * HOUR)
      (len (List.filter is_allowed (in_bar tz now i audit)))
      (len (List.filter (fun a => negb (is_allowed a)) (in_bar tz now i audit))))%Z.
Proof.
  intros Hi. unfold hour_buckets, empty_hours. rewrite histogram_lookup, list_lookup_fmap, lookup_seq_lt by lia.
  cbn [fmap option_fmap option_map]. rewrite Nat.add_0_l, hour_counts. done.
Qed.

(** *** Properties *)

(** The 24-hour chart is exact: it has 24 bars, each counts the allowed
    and the other entries of its own hour, every entry that is at most 24 hours
    old (or from the future) is in exactly one of them, and the bars add up to
    the number of those entries.  An entry of the past lands in the bar whose
    labelled time is the end, not the beginning, of the hour it falls in, and a
    future one in the last bar. *)
Theorem hourly_chart_exact tz now audit :
  length (trafficByHour tz now audit) = 24%nat /\
  (forall i b, hour_buckets tz now audit !! i = Some b ->
     h_start b = (now - (23 - Z.of_nat i) * HOUR)%Z /\
     h_allowed b = len (List.filter is_allowed (in_bar tz now i audit)) /\
     h_denied b = len (List.filter (fun a => negb (is_allowed a)) (in_bar tz now i audit)) /\
     forall a t, a ∈ in_bar tz now i audit -> time_of tz a = Some t ->
       (t <= now -> h_start b - HOUR <= t <= h_start b)%Z /\ (now < t -> i = 23%nat)%Z) /\
  foldr Z.add 0%Z ((fun b => (h_allowed b + h_denied b)%Z) <$> hour_buckets tz now audit)
    = len (List.filter (counted tz now) audit).
Proof.
  split_and!.
  - unfold trafficByHour, hour_buckets. by rewrite length_map, histogram_length.
  - intros i b Hb.
    assert (i < 24) as Hi.
    { apply lookup_lt_Some in Hb. unfold hour_buckets in Hb. by rewrite histogram_length in Hb. }
    rewrite hour_bar in Hb by done. injection Hb as <-. cbn [h_start h_allowed h_denied]. split_and!; try done.
    intros a t [Hin _]%list_elem_of_filter Ht. destruct (hour_index tz now a) as [j|] eqn:Ej; [|done].
    pose proof (hour_index_range _ _ _ _ Ej). injection Hin as <-. rewrite Z2Nat.id by lia.
    revert Ej. unfold hour_index, HOUR in *. rewrite Ht.
    case_bool_decide; [done|]. destruct (Z.ltb_spec (24 * 3600000) (now - t)); [done|]. intros [= <-].
    pose proof (Z.div_mod (t - (now - 24 * 3600000)) 3600000).
    pose proof (Z.mod_pos_bound (t - (now - 24 * 3600000)) 3600000). lia.
  - unfold hour_buckets.
    pose proof (histogram_sum (fun a => Z.to_nat <$> hour_index tz now a) hour_bump
      (fun b => (h_allowed b + h_denied b)%Z)) as H.
    unfold sum_weights in H. rewrite H; [|intros x b; unfold hour_bump; case_if; cbn; lia].
    rewrite counted_indexed. done.
Qed.
End Overview.

(** ** web/src/app/admin/traffic/page.tsx *)
Module AdminTraffic.
Import TrafficPage.

Inductive TimeRange := R1h | R6h | R24h | R7d.

Definition timeRangeMs (range : TimeRange) : Z :=
  match range with
  | R1h => 60 * 60 * 1000
  | R6h => 6 * 60 * 60 * 1000
  | R24h => 24 * 60 * 60 * 1000
  | R7d => 7 * 24 * 60 * 60 * 1000
  end.

Definition filterByTimeRange (tz now : Z) (logs : list Log) (range : TimeRange) : list Log :=
  let cutoff := (now - timeRangeMs range)%Z in
  List.filter (fun l => match time_of tz l with Some t => (cutoff <=? t)%Z | None => false end) logs.

Definition bucketCount (range : TimeRange) : nat :=
  match range with R7d => 7 * 24 | R24h => 24 | R6h => 6 | R1h => 1 end.

(** [rangeMs / bucketCount]: exact, an hour for every range. *)
Definition bucketSize (range : TimeRange) : Z := (timeRangeMs range / Z.of_nat (bucketCount range))%Z.

Record chart_bucket := mkChart { c_label : string; c_allowed : Z; c_denied : Z }.

Section chart.
Context (weekday : Z -> string).  (** [toLocaleDateString(undefined, {weekday: "short"})] *)

Definition bucket_label (tz now : Z) (range : TimeRange) (i : nat) : string :=
  let start := (now - timeRangeMs range + Z.of_nat i * bucketSize range)%Z in
  let hr := getHours tz start in
  match range with
  | R7d => if (hr =? 0)%Z then weekday start else pretty hr +:+ ":00"
  | _ => pretty hr +:+ ":00"
  end.

Definition empty_chart (tz now : Z) (range : TimeRange) : list chart_bucket :=
  map (fun i => mkChart (bucket_label tz now range i) 0 0) (seq 0 (bucketCount range)).

Definition chart_index (tz now : Z) (range : TimeRange) (l : Log) : option nat :=
  match time_of tz l with
  | None => None
  | Some t =>
      let idx := ((t - (now - timeRangeMs range)) / bucketSize range)%Z in
      if ((0 <=? idx) && (idx <? Z.of_nat (bucketCount range)))%Z then Some (Z.to_nat idx) else None
  end.

Definition chart_bump (l : Log) (b : chart_bucket) : chart_bucket :=
  if bool_decide (AuditLogView_outcome l = "allowed")
  then mkChart (c_label b) (c_allowed b + 1) (c_denied b)
  else mkChart (c_label b) (c_allowed b) (c_denied b + 1).

Definition bucketByHour (tz now : Z) (logs : list Log) (range : TimeRange) : list chart_bucket :=
  histogram (chart_index tz now range) chart_bump (empty_chart tz now range) logs.

(** The page's filter: the range, then the server when one is chosen. *)
Definition filtered (tz now : Z) (logs : list Log) (range : TimeRange) (serverFilter : string) : list Log :=
  let logs := filterByTimeRange tz now logs range in
  if bool_decide (serverFilter = "") then logs
  else List.filter (fun l : Log => bool_decide (AuditLogView_server_slug l = Some serverFilter)) logs.

Definition denied (logs : list Log) : Z :=
  len (List.filter (fun l : Log => bool_decide (AuditLogView_outcome l = "denied")) logs).

Definition blockedPct (logs : list Log) : rounded :=
  if (0 <? len logs)%Z then Math_round (percent (denied logs) (len logs)) else RNum 0.

(** Breakdowns *)
Record entry := mkEntry { e_allowed : Z; e_denied : Z; e_total : Z }.

Definition entry_bump (l : Log) (e : option entry) : entry :=
  let e := default (mkEntry 0 0 0) e in
  if bool_decide (AuditLogView_outcome l = "allowed")
  then mkEntry (e_allowed e + 1) (e_denied e) (e_total e + 1)
  else mkEntry (e_allowed e) (e_denied e + 1) (e_total e + 1).

Definition byServer (logs : list Log) : list (string * entry) :=
  stable_sort (by_desc (fun kv => e_total (kv.2)))
    (group (fun l => Some (default "(unknown)" (AuditLogView_server_slug l))) entry_bump logs).

Definition byTool (logs : list Log) : list (string * entry) :=
  take 10 (stable_sort (by_desc (fun kv => e_total (kv.2)))
    (group (fun l => truthy_str (AuditLogView_tool_name l)) entry_bump logs)).

Definition recent (logs : list Log) : list Log := take 20 logs.

(** *** Lemmas *)

Lemma bucketSize_hour range : bucketSize range = 3600000%Z.
Proof. by destruct range. Qed.

Lemma range_buckets range : timeRangeMs range = (Z.of_nat (bucketCount range) * 3600000)%Z.
Proof. by destruct range. Qed.

(** Within the range, an entry has a bar exactly when it is not in the future. *)
Lemma chart_index_past tz now range l t :
  time_of tz l = Some t -> (now - timeRangeMs range <= t)%Z ->
  indexed (chart_index tz now range) (bucketCount range) l = (t <? now)%Z.
Proof.
  intros Ht Hr. unfold indexed, chart_index. rewrite Ht, bucketSize_hour, range_buckets in *.
  set (n := bucketCount range) in *.
  pose proof (Z.div_mod (t - (now - Z.of_nat n * 3600000)) 3600000).
  pose proof (Z.mod_pos_bound (t - (now - Z.of_nat n * 3600000)) 3600000).
  set (q := ((t - (now - Z.of_nat n * 3600000)) / 3600000)%Z) in *.
  destruct (Z.leb_spec 0 q), (Z.ltb_spec q (Z.of_nat n)), (Z.ltb_spec t now); cbn [andb]; try done; try lia.
  apply Nat.ltb_lt. lia.
Qed.

Lemma chart_counts tz now range logs :
  (forall l, l ∈ logs -> exists t, time_of tz l = Some t /\ (now - timeRangeMs range <= t)%Z) ->
  length (filter (fun l => indexed (chart_index tz now range) (bucketCount range) l = true) logs) =
  length (List.filter (fun l => match time_of tz l with Some t => (t <? now)%Z | None => false end) logs).
Proof.
  induction logs as [|l logs IH]; intros H; [done|]. rewrite filter_cons. cbn [List.filter].
  destruct (H l) as (t & Ht & Hr); [set_solver|]. rewrite Ht.
  pose proof (chart_index_past tz now range l t Ht Hr) as E.
  assert (forall l, l ∈ logs -> exists t, time_of tz l = Some t /\ (now - timeRangeMs range <= t)%Z) as Hl
    by (intros; apply H; set_solver).
  destruct (t <? now)%Z; [rewrite decide_True by done|rewrite decide_False by congruence];
    cbn [length]; by rewrite IH.
Qed.

(** *** Properties *)

(** The admin chart covers the filtered entries except those dated now or
    later: whatever the range and the server filter, the bars add up to the
    number of entries listed on the page whose time is before the present
    moment, and every bar spans one hour. *)
Theorem admin_chart_exact tz now logs range serverFilter :
  let shown := filtered tz now logs range serverFilter in
  foldr Z.add 0%Z ((fun b => (c_allowed b + c_denied b)%Z) <$> bucketByHour tz now shown range) =
  len (List.filter (fun l => match time_of tz l with Some t => (t <? now)%Z | None => false end) shown).
Proof.
  cbv zeta. unfold bucketByHour.
  pose proof (histogram_sum (chart_index tz now range) chart_bump
    (fun b => (c_allowed b + c_denied b)%Z)) as H. unfold sum_weights in H.
  rewrite H; [|intros x b; unfold chart_bump; case_if; cbn; lia].
  assert (length (empty_chart tz now range) = bucketCount range) as ->
    by (unfold empty_chart; by rewrite length_map, length_seq).
  rewrite chart_counts.
  - assert (foldr Z.add 0%Z ((fun b => (c_allowed b + c_denied b)%Z) <$> empty_chart tz now range) = 0%Z)
      as ->; [|done].
    unfold empty_chart. rewrite <- list_fmap_compose. induction (seq 0 (bucketCount range)); cbn; lia.
  - intros l Hl. assert (l ∈ filterByTimeRange tz now logs range) as Hl'.
    { unfold filtered in Hl. case_bool_decide; [done|].
      apply list_elem_of_In, filter_In in Hl as [? _]. by apply list_elem_of_In. }
    apply list_elem_of_In, filter_In in Hl' as [_ Ht].
    destruct (time_of tz l) as [t|]; [|done]. exists t. split; [done|]. by apply Z.leb_le.
Qed.

(** The per-server table partitions the entries: each row's total is the
    sum of its two columns and the number of entries of that server, the totals
    add up to all entries, and rows come in decreasing order of total. *)
Theorem server_breakdown_exact logs :
  let key (l : Log) := Some (default "(unknown)" (AuditLogView_server_slug l)) in
  (forall s e, (s, e) ∈ byServer logs ->
     e_total e = len (filter (fun l => key l = Some s) logs) /\ e_total e = (e_allowed e + e_denied e)%Z) /\
  foldr Z.add 0%Z ((fun kv => e_total (kv.2)) <$> byServer logs) = len logs /\
  StronglySorted (fun a b => e_total (b.2) <= e_total (a.2))%Z (byServer logs).
Proof.
  cbv zeta. unfold byServer. set (key := fun l : Log => _). split_and!.
  - intros s e. rewrite stable_sort_perm, group_elem.
    apply (accumulate_inv key entry_bump (fun ls e => e_total e = len ls /\ e_total e = (e_allowed e + e_denied e)%Z)).
    + intros l _. unfold entry_bump. cbn. by case_if.
    + intros ls l e' _ [H1 H2]. unfold entry_bump, len in *. rewrite length_app. cbn [from_option id length].
      case_if; cbn; lia.
  - rewrite (sum_perm _ ((fun kv => e_total (kv.2)) <$> group key entry_bump logs))
      by (by rewrite stable_sort_perm).
    pose proof (group_weight key entry_bump e_total logs) as Hw. unfold weights in Hw.
    rewrite Hw; [|intros l [e|]; unfold entry_bump; cbn; case_if; done].
    unfold len. do 2 f_equal. clear. induction logs as [|l logs IH]; [done|].
    rewrite filter_cons, decide_True by (by eexists). by rewrite IH.
  - eapply sorted_impl; [|apply stable_sort_sorted, _].
    intros a b. unfold by_desc. cbn. by rewrite Z.leb_le.
Qed.
End chart.
End AdminTraffic.
