(* ===== verification/AuditPage.v ===== *)
(** * The organisation audit log: web/src/app/dashboard/audit/page.tsx

    The mapping of gateway audit entries to rows, compliance redaction, the CSV
    export, the filters, server-side paging, saved searches and the webhook
    selection.  [fmtDateFull] is locale text, a parameter.  Text outside
    Latin-1 (the bullet and the dash) is only ever output. *)

From Stdlib Require Import Sorting.Sorted.
From S2P Require Import Prelude JsString Json Browser JsDate Tally ApiTypes ApiClient.

Inductive OrgEventCategory :=
  | C_auth | C_invitation | C_role | C_api_key | C_policy | C_server | C_tool | C_request
  | C_billing | C_integration.

#[export] Instance OrgEventCategory_eq_dec : EqDecision OrgEventCategory.
Proof. solve_decision. Defined.

Definition category_id (c : OrgEventCategory) : string :=
  match c with
  | C_auth => "auth" | C_invitation => "invitation" | C_role => "role" | C_api_key => "api_key"
  | C_policy => "policy" | C_server => "server" | C_tool => "tool" | C_request => "request"
  | C_billing => "billing" | C_integration => "integration"
  end.

Inductive ActorType := A_user | A_api_key | A_system.
Inductive Outcome := O_success | O_failure | O_blocked.

Definition outcome_id (o : Outcome) : string :=
  match o with O_success => "success" | O_failure => "failure" | O_blocked => "blocked" end.

Record OrgEvent := mkEvent {
  ev_id : string; ev_category : OrgEventCategory; ev_action : string; ev_actor : string;
  ev_actorType : ActorType; ev_resource : string; ev_resourceType : string;
  ev_prevValue : string; ev_newValue : string; ev_outcome : Outcome; ev_timestamp : string;
  ev_ip : string; ev_userAgent : string; ev_requestId : string; ev_reason : string;
  ev_raw : option AuditLogView }.

Definition CATEGORY_CONFIG (c : OrgEventCategory) : string * string * string :=
  match c with
  | C_auth => ("User login", "var(--pc-primary)", "rgba(45,212,167,0.12)")
  | C_invitation => ("User invitation", "var(--pc-secondary)", "rgba(72,184,232,0.12)")
  | C_role => ("Role change", "#9b8cff", "rgba(155,140,255,0.12)")
  | C_api_key => ("API key", "var(--pc-warning)", "rgba(244,185,66,0.12)")
  | C_policy => ("Policy", "var(--pc-secondary)", "rgba(72,184,232,0.12)")
  | C_server => ("Server", "var(--pc-primary)", "rgba(45,212,167,0.12)")
  | C_tool => ("Tool", "var(--pc-muted)", "rgba(139,152,167,0.12)")
  | C_request => ("Request blocked", "var(--pc-critical)", "rgba(240,93,94,0.12)")
  | C_billing => ("Billing change", "var(--pc-warning)", "rgba(244,185,66,0.12)")
  | C_integration => ("Integration change", "#9b8cff", "rgba(155,140,255,0.12)")
  end.

Definition category_label (c : OrgEventCategory) : string := (CATEGORY_CONFIG c).1.1.

Definition OUTCOME_CONFIG (o : Outcome) : string * string * string :=
  match o with
  | O_success => ("Success", "var(--pc-success)", "rgba(53,200,138,0.12)")
  | O_failure => ("Failure", "var(--pc-critical)", "rgba(240,93,94,0.12)")
  | O_blocked => ("Blocked", "var(--pc-warning)", "rgba(244,185,66,0.12)")
  end.

(** [mapAuditLog]: the entry's id, outcome, creation time and detail are never
    null in the API's type, so their fallbacks are dead. *)
Definition mapAuditLog (l : AuditLogView) : OrgEvent :=
  let actor := default "system" (AuditLogView_subject_id l) in
  let ip := default "—" (AuditLogView_client_ip l) in
  let rid := default (AuditLogView_id l) (AuditLogView_request_id l) in
  let ts := AuditLogView_created_at l in
  let slug := default "server" (AuditLogView_server_slug l) in
  let tool := default "tool" (AuditLogView_tool_name l) in
  match AuditLogView_event_type l with
  | AuditEventType_auth_failure =>
      mkEvent rid C_auth "Authentication failed" actor A_api_key
        (default "gateway" (AuditLogView_server_slug l)) "gateway" "authenticated" "rejected"
        O_failure ts ip "mcp-client/1.0" rid "Invalid or expired API key" (Some l)
  | AuditEventType_rbac_deny =>
      mkEvent rid C_request "Request blocked" actor A_api_key (slug +:+ "/" +:+ tool) "tool" "—" "—"
        O_blocked ts ip "mcp-client/1.0" rid
        ("RBAC policy denied access to " +:+ dquote +:+ tool +:+ dquote) (Some l)
  | _ =>
      mkEvent rid C_request
        ("Tool call: " +:+ match AuditLogView_tool_name l with
                           | Some t => t
                           | None => default "unknown" (AuditLogView_rpc_method l)
                           end)
        actor A_api_key (slug +:+ "/" +:+ tool) "tool" "—" (AuditLogView_outcome l)
        (if bool_decide (AuditLogView_outcome l = "error")
            || bool_decide (AuditLogView_outcome l = "failure") then O_failure else O_success)
        ts ip "mcp-client/1.0" rid (JSON_stringify (JObj (AuditLogView_detail l))) (Some l)
  end.

(** ** Redaction *)
Definition redact (val : string) (mask : bool) : string :=
  if negb mask || bool_decide (val = "") || bool_decide (val = "—") then val
  else if (String.length val <=? 4)%nat then srepeat (String.length val) "•"
  else stake 3 val +:+ srepeat (Nat.min (String.length val - 3) 12) "•".

(** [retentionMs]: milliseconds, [None] for [Infinity]. *)
Definition retentionMs (r : string) : option Z :=
  if bool_decide (r = "7d") then Some (7 * 86400000)%Z
  else if bool_decide (r = "30d") then Some (30 * 86400000)%Z
  else if bool_decide (r = "90d") then Some (90 * 86400000)%Z
  else if bool_decide (r = "1y") then Some (365 * 86400000)%Z
  else None.

(** ** CSV export *)
Section export.
Context (fmtDateFull : string -> string).

Definition csv_header : string :=
  join "," ["Timestamp"; "Category"; "Action"; "Actor"; "Resource"; "Previous value"; "New value";
            "Outcome"; "IP address"; "Request ID"; "Reason"].

Definition semicolon (c : ascii) : ascii := if bool_decide (c = ","%char) then ";"%char else c.

Definition is_api_key (a : ActorType) : bool := match a with A_api_key => true | _ => false end.

Definition csv_values (e : OrgEvent) (compliance : bool) : list string :=
  [fmtDateFull (ev_timestamp e); category_label (ev_category e); ev_action e;
   redact (ev_actor e) (compliance && is_api_key (ev_actorType e));
   ev_resource e; ev_prevValue e; ev_newValue e; outcome_id (ev_outcome e);
   redact (ev_ip e) compliance; ev_requestId e; smap semicolon (ev_reason e)].

Definition csv_field (v : string) : string := dquote +:+ v +:+ dquote.

Definition csv_row (e : OrgEvent) (compliance : bool) : string :=
  join "," (map csv_field (csv_values e compliance)).

(** The file's content. *)
Definition exportCsv (events : list OrgEvent) (compliance : bool) : string :=
  join (String "010" "") (csv_header :: map (fun e => csv_row e compliance) events).
End export.

(** ** Filters and paging *)
Record FilterState := mkFilter {
  f_search : string; f_category : string; f_outcome : string; f_actor : string; f_retention : string }.

Definition EMPTY_FILTERS : FilterState := mkFilter "" "" "" "" "30d".

Record SavedSearch := mkSaved { ss_id : string; ss_name : string; ss_filters : FilterState; ss_createdAt : string }.

Definition PAGE_SIZE : Z := 50.

(** The query of one page *)
Definition audit_params (page : Z) : Params :=
  Some [("limit", Some (JNum PAGE_SIZE)); ("offset", Some (JNum (page * PAGE_SIZE)))].

Definition event_time (tz : Z) (e : OrgEvent) : option Z := Date_parse tz (ev_timestamp e).

(** [compare(a, b) <= 0] for [b's time - a's time], [NaN] counting as equal. *)
Definition newer_first (tz : Z) (a b : OrgEvent) : bool :=
  match event_time tz a, event_time tz b with Some x, Some y => (y <=? x)%Z | _, _ => true end.

Definition allEvents (tz : Z) (logs : list AuditLogView) : list OrgEvent :=
  stable_sort (newer_first tz) (map mapAuditLog logs).

(** [new Date(e.timestamp).getTime() >= cutoff]: false for [NaN], whatever the
    cutoff. *)
Definition within (tz now : Z) (retention : string) (e : OrgEvent) : bool :=
  match event_time tz e with
  | None => false
  | Some t => match retentionMs retention with
              | Some ms => (now - ms <=? t)%Z
              | None => true
              end
  end.

Definition matches_search (q : string) (e : OrgEvent) : bool :=
  let q := toLowerCase q in
  includes (toLowerCase (ev_action e)) q || includes (toLowerCase (ev_actor e)) q
  || includes (toLowerCase (ev_resource e)) q || includes (toLowerCase (ev_requestId e)) q.

(** [if (cond) r = r.filter(p)] *)
Definition filter_if {A} (cond : string) (p : A -> bool) (l : list A) : list A :=
  if bool_decide (cond = "") then l else List.filter p l.

Definition filtered (tz now : Z) (events : list OrgEvent) (f : FilterState) : list OrgEvent :=
  let r := List.filter (within tz now (f_retention f)) events in
  let r := filter_if (f_search f) (matches_search (f_search f)) r in
  let r := filter_if (f_category f) (fun e => bool_decide (category_id (ev_category e) = f_category f)) r in
  let r := filter_if (f_outcome f) (fun e => bool_decide (outcome_id (ev_outcome e) = f_outcome f)) r in
  filter_if (f_actor f) (fun e => includes (toLowerCase (ev_actor e)) (toLowerCase (f_actor f))) r.

Definition totalPages (page : Z) (logs : list AuditLogView) : Z :=
  (page + 1 + (if (PAGE_SIZE <=? Z.of_nat (length logs))%Z then 1 else 0))%Z.

(** [counts[e.category] = (counts[e.category] ?? 0) + 1] *)
Definition counts (events : list OrgEvent) : list (string * Z) :=
  tally (fun e => Some (category_id (ev_category e))) events.

(** ** Page state *)
Record page_state := mkPage {
  p_page : Z; p_filters : FilterState; p_compliance : bool; p_saved : list SavedSearch;
  p_saveName : string; p_showSaveName : bool }.

Inductive filter_key := K_search | K_category | K_outcome | K_actor | K_retention.

Definition set_key (k : filter_key) (v : string) (f : FilterState) : FilterState :=
  match k with
  | K_search => mkFilter v (f_category f) (f_outcome f) (f_actor f) (f_retention f)
  | K_category => mkFilter (f_search f) v (f_outcome f) (f_actor f) (f_retention f)
  | K_outcome => mkFilter (f_search f) (f_category f) v (f_actor f) (f_retention f)
  | K_actor => mkFilter (f_search f) (f_category f) (f_outcome f) v (f_retention f)
  | K_retention => mkFilter (f_search f) (f_category f) (f_outcome f) (f_actor f) v
  end.

Definition setFilter (k : filter_key) (v : string) (p : page_state) : page_state :=
  mkPage 0 (set_key k v (p_filters p)) (p_compliance p) (p_saved p) (p_saveName p) (p_showSaveName p).

Definition saveSearch (now : Z) (p : page_state) : page_state :=
  if bool_decide (trim (p_saveName p) = "") then p else
  mkPage (p_page p) (p_filters p) (p_compliance p)
    (p_saved p ++ [mkSaved (pretty now) (trim (p_saveName p)) (p_filters p) (toISOString now)])
    "" false.

(** [WebhookModal.toggle] *)
Definition toggle (c : OrgEventCategory) (selected : list OrgEventCategory) : list OrgEventCategory :=
  if bool_decide (c ∈ selected) then List.filter (fun x => negb (bool_decide (x = c))) selected
  else selected ++ [c].

(** [DetailDrawer]: the labelled values, and the raw record it serialises in
    full under "Raw audit record". *)
Definition or_dash (s : string) : string := if bool_decide (s = "") then "—" else s.

Definition drawer_fields (fmtDateFull : string -> string) (e : OrgEvent) (compliance : bool)
    : list (string * string) :=
  [("Actor", redact (ev_actor e) (compliance && is_api_key (ev_actorType e)));
   ("Action", ev_action e); ("Resource", ev_resource e); ("Resource type", ev_resourceType e);
   ("Previous value", or_dash (ev_prevValue e)); ("New value", or_dash (ev_newValue e));
   ("Timestamp", fmtDateFull (ev_timestamp e)); ("IP address", redact (ev_ip e) compliance);
   ("User agent", ev_userAgent e); ("Request ID", ev_requestId e); ("Reason", or_dash (ev_reason e));
   ("Outcome", outcome_id (ev_outcome e))].

Definition nullable_json (o : option string) : json := match o with Some s => JStr s | None => JNull end.

Definition raw_json (l : AuditLogView) : json :=
  JObj [("id", JStr (AuditLogView_id l)); ("tenant_id", nullable_json (AuditLogView_tenant_id l));
        ("subject_id", nullable_json (AuditLogView_subject_id l));
        ("subject_type", nullable_json (SubjectType_value <$> AuditLogView_subject_type l));
        ("event_type", JStr (AuditEventType_value (AuditLogView_event_type l)));
        ("server_slug", nullable_json (AuditLogView_server_slug l));
        ("tool_name", nullable_json (AuditLogView_tool_name l));
        ("rpc_method", nullable_json (AuditLogView_rpc_method l));
        ("outcome", JStr (AuditLogView_outcome l));
        ("client_ip", nullable_json (AuditLogView_client_ip l));
        ("request_id", nullable_json (AuditLogView_request_id l));
        ("detail", JObj (AuditLogView_detail l)); ("created_at", JStr (AuditLogView_created_at l))].

Definition drawer_raw (e : OrgEvent) (compliance : bool) : option json := raw_json <$> ev_raw e.

(** ** The page as a state machine *)
Inductive page_act :=
  | SetFilter (k : filter_key) (v : string) | ClearFilters | ApplySaved (s : SavedSearch)
  | DeleteSaved (id : string) | SaveName (name : string) | Save (now : Z) | ToggleCompliance
  | Previous | Next (logs : list AuditLogView).

Definition with_page (n : Z) (f : FilterState) (p : page_state) : page_state :=
  mkPage n f (p_compliance p) (p_saved p) (p_saveName p) (p_showSaveName p).

Definition previous_disabled (p : page_state) : bool := (p_page p =? 0)%Z.
Definition next_disabled (p : page_state) (logs : list AuditLogView) : bool :=
  (totalPages (p_page p) logs - 1 <=? p_page p)%Z.

(** The event handlers; a disabled button does nothing. *)
Definition handle (a : page_act) (p : page_state) : page_state :=
  match a with
  | SetFilter k v => setFilter k v p
  | ClearFilters => with_page 0 EMPTY_FILTERS p
  | ApplySaved s => with_page 0 (ss_filters s) p
  | DeleteSaved i => mkPage (p_page p) (p_filters p) (p_compliance p)
      (List.filter (fun x => negb (bool_decide (ss_id x = i))) (p_saved p)) (p_saveName p) (p_showSaveName p)
  | SaveName n => mkPage (p_page p) (p_filters p) (p_compliance p) (p_saved p) n (p_showSaveName p)
  | Save now => saveSearch now p
  | ToggleCompliance => mkPage (p_page p) (p_filters p) (negb (p_compliance p)) (p_saved p) (p_saveName p) (p_showSaveName p)
  | Previous => if previous_disabled p then p else with_page (p_page p - 1) (p_filters p) p
  | Next logs => if next_disabled p logs then p else with_page (p_page p + 1) (p_filters p) p
  end.

Definition initial : page_state := mkPage 0 EMPTY_FILTERS false [] "" false.

Inductive reachable : page_state -> Prop :=
  | reach_initial : reachable initial
  | reach_step p a : reachable p -> reachable (handle a p).

(** ** Reading a CSV record (RFC 4180) *)
Inductive csv_state := FieldStart | Unquoted (acc : string) | Quoted (acc : string) | QuoteSeen (acc : string).

Definition snoc (s : string) (c : ascii) : string := s +:+ String c "".

Fixpoint csv_go (st : csv_state) (done_ : list string) (s : string) : option (list string) :=
  match s with
  | "" => match st with
          | FieldStart => Some (done_ ++ [""])
          | Unquoted a | QuoteSeen a => Some (done_ ++ [a])
          | Quoted _ => None
          end
  | String c r =>
      let quote := bool_decide (c = ascii_of_N 34) in
      let comma := bool_decide (c = ","%char) in
      match st with
      | FieldStart => if quote then csv_go (Quoted "") done_ r
                      else if comma then csv_go FieldStart (done_ ++ [""]) r
                      else csv_go (Unquoted (String c "")) done_ r
      | Unquoted a => if quote then None
                      else if comma then csv_go FieldStart (done_ ++ [a]) r
                      else csv_go (Unquoted (snoc a c)) done_ r
      | Quoted a => if quote then csv_go (QuoteSeen a) done_ r else csv_go (Quoted (snoc a c)) done_ r
      | QuoteSeen a => if quote then csv_go (Quoted (snoc a c)) done_ r
                       else if comma then csv_go FieldStart (done_ ++ [a]) r
                       else None
      end
  end.

Definition csv_parse (s : string) : option (list string) := csv_go FieldStart [] s.

Definition quote_free (s : string) : bool := without (ascii_of_N 34) s.

(** ** Lemmas *)

Lemma csv_quoted a s d t :
  quote_free s = true -> csv_go (Quoted a) d (s +:+ t) = csv_go (Quoted (a +:+ s)) d t.
Proof.
  unfold quote_free. revert a. induction s as [|c s IH]; intros a H.
  - by rewrite sapp_nil_r.
  - rewrite without_cons in H. bool_hyps. rewrite app_cons. cbn [csv_go].
    rewrite bool_decide_false by congruence. rewrite IH by done.
    unfold snoc. by rewrite sapp_assoc.
Qed.

Lemma csv_field_read v d t :
  quote_free v = true ->
  csv_go FieldStart d (csv_field v +:+ t) = csv_go (QuoteSeen v) d t.
Proof.
  intros H. unfold csv_field. rewrite !sapp_assoc.
  change (dquote +:+ ?x) with (String (ascii_of_N 34) x). cbn [csv_go].
  rewrite bool_decide_true by done. rewrite csv_quoted by done.
  change (dquote +:+ t) with (String (ascii_of_N 34) t). cbn [csv_go].
  by rewrite bool_decide_true by done.
Qed.

(** A record of quote-free values reads back as those values. *)
Lemma csv_record_read l d :
  l <> [] -> forallb quote_free l = true ->
  csv_go FieldStart d (join "," (map csv_field l)) = Some (d ++ l).
Proof.
  revert d. induction l as [|v [|v' l] IH]; intros d Hne H; [done| |]; cbn [forallb] in H; bool_hyps.
  - cbn [map]. change (join "," [csv_field v]) with (csv_field v).
    rewrite <- (sapp_nil_r (csv_field v)), csv_field_read by done. done.
  - cbn [map]. rewrite join_cons, csv_field_read by done.
    change ("," +:+ ?x) with (String "," x). cbn [csv_go].
    rewrite bool_decide_false, bool_decide_true by done. cbn [map] in IH. rewrite IH; [|done|].
    + by rewrite <- app_assoc.
    + cbn [forallb]. by rewrite andb_true_iff.
Qed.

(** A value that holds a quote followed by ordinary text makes the record
    unreadable. *)
Lemma csv_record_broken pre a c b post d :
  forallb quote_free pre = true -> quote_free a = true ->
  c <> ascii_of_N 34 -> c <> ","%char ->
  csv_go FieldStart d
    (join "," (map csv_field (pre ++ (a +:+ dquote +:+ String c b) :: post))) = None.
Proof.
  intros Hp Ha Hq Hc. revert d. induction pre as [|v pre IH]; intros d.
  - cbn [app map].
    assert (forall t, csv_go FieldStart d (csv_field (a +:+ dquote +:+ String c b) +:+ t) = None) as Hx.
    { intros t. unfold csv_field. rewrite !sapp_assoc.
      change (dquote +:+ ?x) with (String (ascii_of_N 34) x). cbn [csv_go].
      rewrite bool_decide_true by done. rewrite csv_quoted by done.
      change (dquote +:+ (String c b +:+ ?x)) with (String (ascii_of_N 34) (String c (b +:+ x))).
      cbn [csv_go]. rewrite bool_decide_true by done.
      by rewrite (bool_decide_false (c = ascii_of_N 34)), (bool_decide_false (c = ","%char)). }
    destruct post as [|v post].
    + rewrite <- (sapp_nil_r (join _ _)). apply Hx.
    + cbn [map]. rewrite join_cons. apply Hx.
  - cbn [forallb] in Hp. bool_hyps. cbn [app map].
    destruct (pre ++ (a +:+ dquote +:+ String c b) :: post) as [|w ws] eqn:E; [by destruct pre|].
    cbn [map]. rewrite join_cons, csv_field_read by done.
    change ("," +:+ ?x) with (String "," x). cbn [csv_go].
    rewrite bool_decide_false, bool_decide_true by done. apply IH. done.
Qed.

Lemma smap_quote_free f s :
  (forall c, f c = ascii_of_N 34 -> c = ascii_of_N 34) -> quote_free s = true -> quote_free (smap f s) = true.
Proof.
  intros Hf. unfold quote_free. induction s as [|c s IH]; intros H; [done|].
  rewrite without_cons in H. bool_hyps. cbn [smap]. rewrite without_cons, IH by done.
  rewrite bool_decide_false; [done|]. intros E. symmetry in E. apply Hf in E. congruence.
Qed.

Lemma semicolon_quote c : semicolon c = ascii_of_N 34 -> c = ascii_of_N 34.
Proof. unfold semicolon. case_bool_decide; [done|auto]. Qed.

Lemma filter_if_elem {A} cond (p : A -> bool) l x :
  x ∈ filter_if cond p l <-> x ∈ l /\ (cond <> "" -> p x = true).
Proof.
  unfold filter_if. case_bool_decide; [naive_solver|].
  rewrite !list_elem_of_In, filter_In. naive_solver.
Qed.

Lemma filter_if_sublist {A} cond (p : A -> bool) l : filter_if cond p l `sublist_of` l.
Proof.
  unfold filter_if. case_bool_decide; [done|]. clear.
  induction l as [|x l IH]; cbn; [done|]. case_if; by constructor.
Qed.

Lemma filter_sublist {A} (p : A -> bool) l : List.filter p l `sublist_of` l.
Proof. induction l as [|x l IH]; cbn; [done|]. case_if; by constructor. Qed.

Lemma filtered_sublist tz now events f : filtered tz now events f `sublist_of` events.
Proof.
  unfold filtered. repeat (etrans; [apply filter_if_sublist|]). apply filter_sublist.
Qed.

Lemma page_nonneg p : reachable p -> (0 <= p_page p)%Z.
Proof.
  induction 1 as [|p a _ IH]; [done|]. destruct a; cbn; try done.
  - unfold saveSearch. by case_if.
  - unfold previous_disabled. destruct (Z.eqb_spec (p_page p) 0); cbn; lia.
  - case_if; cbn; lia.
Qed.

(** ** Properties *)

(** The filtered rows are exactly the rows that pass every filter set:
    recent enough, matching the search in one of four texts, of the chosen
    category and outcome, by a matching actor; they keep the order of the log,
    and an entry with an unreadable timestamp is never shown, not even with the
    retention "all". *)
Theorem audit_filter_exact tz now events f e :
  filtered tz now events f `sublist_of` events /\
  (e ∈ filtered tz now events f <->
    e ∈ events /\ within tz now (f_retention f) e = true /\
    (f_search f <> "" -> matches_search (f_search f) e = true) /\
    (f_category f <> "" -> category_id (ev_category e) = f_category f) /\
    (f_outcome f <> "" -> outcome_id (ev_outcome e) = f_outcome f) /\
    (f_actor f <> "" -> includes (toLowerCase (ev_actor e)) (toLowerCase (f_actor f)) = true)) /\
  (event_time tz e = None -> e ∉ filtered tz now events f).
Proof.
  assert (e ∈ filtered tz now events f <-> e ∈ events /\ within tz now (f_retention f) e = true /\
    (f_search f <> "" -> matches_search (f_search f) e = true) /\
    (f_category f <> "" -> category_id (ev_category e) = f_category f) /\
    (f_outcome f <> "" -> outcome_id (ev_outcome e) = f_outcome f) /\
    (f_actor f <> "" -> includes (toLowerCase (ev_actor e)) (toLowerCase (f_actor f)) = true)) as H.
  { unfold filtered. rewrite !filter_if_elem, (list_elem_of_In (List.filter _ _) e), filter_In, <- list_elem_of_In.
    rewrite !bool_decide_eq_true. tauto. }
  split_and!; [apply filtered_sublist|exact H|].
  intros Ht (_ & Hw & _)%H. unfold within in Hw. by rewrite Ht in Hw.
Qed.

(** The log is newest first: when every timestamp parses, the rows are a
    permutation of the fetched entries in decreasing order of time. *)
Theorem audit_newest_first tz logs :
  (forall l, l ∈ logs -> exists t, Date_parse tz (AuditLogView_created_at l) = Some t) ->
  allEvents tz logs ≡ₚ map mapAuditLog logs /\
  StronglySorted (fun a b => exists x y, event_time tz a = Some x /\ event_time tz b = Some y /\ (y <= x)%Z)
    (allEvents tz logs).
Proof.
  intros Hv. split; [apply stable_sort_perm|].
  set (R := fun a b : OrgEvent => _).
  assert (forall e, e ∈ map mapAuditLog logs -> exists t, event_time tz e = Some t) as He.
  { intros e (l & -> & Hl)%list_elem_of_fmap. destruct (Hv l Hl) as [t Ht]. exists t.
    unfold event_time, mapAuditLog. by destruct (AuditLogView_event_type l). }
  unfold allEvents. revert He. generalize (map mapAuditLog logs) as l. clear Hv. intros l.
  induction l as [|e l IH]; intros He; cbn [stable_sort foldr]; [constructor|].
  change (foldr (sort_insert (newer_first tz)) [] l) with (stable_sort (newer_first tz) l).
  assert (Forall (fun e => exists t, event_time tz e = Some t) (stable_sort (newer_first tz) l)) as Hf.
  { rewrite stable_sort_perm. apply Forall_forall. intros; apply He; set_solver. }
  destruct (He e) as [t Ht]; [set_solver|]. specialize (IH (fun e' H => He e' ltac:(set_solver))).
  induction IH as [|y r Hs IH2 Hr]; cbn [sort_insert]; [repeat constructor|].
  apply Forall_cons in Hf as [[ty Hty] Hf]. unfold newer_first at 1. rewrite Ht, Hty.
  destruct (Z.leb_spec ty t).
  - constructor; [by constructor|]. constructor; [by exists t, ty|].
    eapply Forall_impl; [exact Hr|]. intros z (x & y' & ? & Hz & ?). exists t, y'. split_and!; [done|done|].
    simplify_eq. lia.
  - constructor; [by apply IH2|]. rewrite sort_insert_perm. constructor; [|done].
    exists ty, t. split_and!; [done|done|lia].
Qed.

(** A CSV record of quote-free values reads back exactly: eleven fields,
    with the redaction and the comma replacement applied. *)
Theorem csv_row_roundtrip fmt e compliance :
  forallb quote_free (csv_values fmt e compliance) = true ->
  csv_parse (csv_row fmt e compliance) = Some (csv_values fmt e compliance).
Proof. intros H. by apply (csv_record_read _ []). Qed.

(** Every denial corrupts the export: the reason of an RBAC denial quotes
    the tool name and quotes are not doubled, so the record of a denied call is
    not a readable CSV record, whatever the other values and the compliance
    mode. *)
Theorem csv_denial_unreadable fmt l c tool compliance :
  AuditLogView_event_type l = AuditEventType_rbac_deny ->
  AuditLogView_tool_name l = Some (String c tool) ->
  c <> ascii_of_N 34 -> c <> ","%char ->
  forallb quote_free (take 10 (csv_values fmt (mapAuditLog l) compliance)) = true ->
  csv_parse (csv_row fmt (mapAuditLog l) compliance) = None.
Proof.
  intros He Ht Hq Hc Hpre. unfold csv_parse, csv_row.
  rewrite <- (take_drop 10 (csv_values fmt (mapAuditLog l) compliance)).
  assert (drop 10 (csv_values fmt (mapAuditLog l) compliance) =
    ["RBAC policy denied access to " +:+ dquote +:+ String c (smap semicolon tool +:+ dquote)]) as ->.
  { cbn [csv_values drop]. unfold mapAuditLog. rewrite He, Ht. cbn [ev_reason default from_option id].
    assert (semicolon c = c) as Hs by (unfold semicolon; by rewrite bool_decide_false).
    rewrite !smap_app. change (smap semicolon (String c tool)) with (String (semicolon c) (smap semicolon tool)).
    rewrite Hs. reflexivity. }
  by apply csv_record_broken.
Qed.

(** Redaction conceals everything past the third character and lengths
    beyond fifteen: two values that share their first three characters and
    their length up to fifteen are shown alike, and of a value of at most four
    characters only the length shows. *)
Theorem redaction_conceals v w :
  v <> "—" -> w <> "—" ->
  Nat.min (String.length v) 15 = Nat.min (String.length w) 15 ->
  (4 < String.length v -> stake 3 v = stake 3 w)%nat ->
  redact v true = redact w true.
Proof.
  intros Hv Hw Hl Hp. unfold redact. cbn [negb orb].
  rewrite (bool_decide_false (v = "—")), (bool_decide_false (w = "—")) by done. rewrite !orb_false_r.
  destruct v as [|cv v], w as [|cw w]; try done; cbn [String.length] in *; try (exfalso; lia).
  rewrite !bool_decide_false by done.
  destruct (Nat.leb_spec (S (String.length v)) 4), (Nat.leb_spec (S (String.length w)) 4); try lia.
  - f_equal. lia.
  - rewrite Hp by lia. f_equal. f_equal. lia.
Qed.

(** Compliance mode leaks in the detail drawer: the address it redacts in
    the field list is shown in full, with the key's subject, in the raw record
    below, for every entry that has one. *)
Theorem compliance_drawer_leaks fmt l ip :
  AuditLogView_client_ip l = Some ip ->
  ("IP address", redact ip true) ∈ drawer_fields fmt (mapAuditLog l) true /\
  (drawer_raw (mapAuditLog l) true ≫= json_field "client_ip") = Some (JStr ip).
Proof.
  intros Hip. unfold drawer_fields, drawer_raw, mapAuditLog.
  destruct (AuditLogView_event_type l); rewrite Hip;
    (split; [cbn [ev_ip default from_option id]; set_solver|]);
    cbn [ev_raw fmap option_fmap option_map mbind option_bind raw_json json_field];
    rewrite Hip; reflexivity.
Qed.

(** Paging stays in bounds: in every state the handlers can reach, the
    page index is not negative, so the request asks for a legal slice of fifty
    entries; changing, clearing or restoring filters goes back to the first
    page; a search that was saved restores exactly the filters it was saved
    with. *)
Theorem audit_paging p :
  reachable p ->
  (0 <= p_page p)%Z /\
  normalizedParams (audit_params (p_page p)) = [("limit", "50"); ("offset", pretty (p_page p * 50)%Z)] /\
  (forall k v, p_page (handle (SetFilter k v) p) = 0%Z) /\
  (forall now name, trim name <> "" ->
     exists s, last (p_saved (handle (Save now) (handle (SaveName name) p))) = Some s /\
       ss_name s = trim name /\
       forall q, p_filters (handle (ApplySaved s) q) = p_filters p /\ p_page (handle (ApplySaved s) q) = 0%Z).
Proof.
  intros H. split_and!; [by apply page_nonneg|done|done|].
  intros now name Hn. cbn. unfold saveSearch. cbn. rewrite bool_decide_false by done. cbn.
  rewrite last_snoc. eexists. split; [done|]. done.
Qed.

(** ** Witnesses *)

Definition demo_denial : AuditLogView :=
  mkAuditLogView "1" None (Some "pk_live_abcdef") None AuditEventType_rbac_deny (Some "github")
    (Some "delete_repo") None "denied" (Some "203.0.113.77") None [] "2026-01-02T03:04:05Z".

Definition demo_call : AuditLogView :=
  mkAuditLogView "2" None (Some "pk_live_abcdef") None AuditEventType_auth_failure None
    None None "denied" (Some "203.0.113.77") None [] "2026-01-02T03:04:06Z".

Lemma audit_newest_first_witness : allEvents 0 [demo_denial; demo_call] ≡ₚ map mapAuditLog [demo_denial; demo_call].
Proof.
  refine (proj1 (audit_newest_first 0 [demo_denial; demo_call] _)).
  intros l [-> | [-> | []%not_elem_of_nil]%elem_of_cons]%elem_of_cons; eexists; reflexivity.
Defined.

Lemma csv_row_roundtrip_witness :
  csv_parse (csv_row id (mapAuditLog demo_call) true) = Some (csv_values id (mapAuditLog demo_call) true).
Proof. apply csv_row_roundtrip. reflexivity. Defined.

Lemma csv_denial_unreadable_witness : csv_parse (csv_row id (mapAuditLog demo_denial) false) = None.
Proof. apply (csv_denial_unreadable id demo_denial "d" "elete_repo"); done. Defined.

Lemma redaction_conceals_witness : redact "203.0.113.77" true = redact "203.9.999.11" true.
Proof. apply redaction_conceals; done. Defined.

Lemma compliance_drawer_leaks_witness :
  (drawer_raw (mapAuditLog demo_denial) true ≫= json_field "client_ip") = Some (JStr "203.0.113.77").
Proof. apply (compliance_drawer_leaks id demo_denial "203.0.113.77"). reflexivity. Defined.

Lemma audit_paging_witness : (0 <= p_page (handle Previous initial))%Z.
Proof. apply (audit_paging (handle Previous initial)). apply reach_step, reach_initial. Defined.
