(* ===== verification/Tools.v ===== *)
(** * Tools: catalogue, detail page and playground

    The risk classifiers of three pages (dashboard/tools, the tool detail page,
    dashboard/playground) with their regular expressions, the rate-limit pattern
    matching of the detail page against the gateway's ([fnmatchcase] of Python's
    library, classes included), and the playground's argument building, redaction
    and single calls; its sessions are in [PlaygroundRuns]. *)

From S2P Require Import Prelude JsString JsUri Json Browser AuthStore LoginForm JsDate Tally ApiTypes Clipboard.

(** ** Regular expressions of the classifiers *)

(** [/a|b|c/.test(s)]: an unanchored alternation of plain words. *)
Definition any_of (words : list string) (s : string) : bool := existsb (includes s) words.

(** [\w] *)
Definition is_word (c : ascii) : bool :=
  let n := code c in
  ((48 <=? n) && (n <=? 57) || (65 <=? n) && (n <=? 90) || (97 <=? n) && (n <=? 122) || (n =? 95))%N.

(** The maximal runs of word characters. *)
Fixpoint words_go (acc : string) (s : string) : list string :=
  match s with
  | "" => if bool_decide (acc = "") then [] else [acc]
  | String c r =>
      if is_word c then words_go (acc +:+ String c "") r
      else if bool_decide (acc = "") then words_go "" r else acc :: words_go "" r
  end.

Definition words_of (s : string) : list string := words_go "" s.

(** [/\b(a|b|c)\b/.test(s)] for words of word characters: one of them is a whole
    run (proved equivalent to the boundary semantics below). *)
Definition any_word (words : list string) (s : string) : bool :=
  existsb (fun w => bool_decide (w ∈ words_of s)) words.

Inductive RiskLevel := low | medium | high | critical.

#[export] Instance RiskLevel_eq_dec : EqDecision RiskLevel.
Proof. solve_decision. Defined.

Definition RISK_CRITICAL : list string :=
  ["delete"; "drop"; "destroy"; "truncate"; "purge"; "wipe"; "remove"; "kill"].
Definition RISK_HIGH : list string :=
  ["create"; "write"; "update"; "modify"; "patch"; "post"; "insert"; "execute"; "run"; "send"].

(** ** web/src/app/dashboard/tools/page.tsx *)
Module Catalogue.

Record McpToolProperty := mkProp { mp_type : option string; mp_description : option string; mp_enum : option (list string) }.

Record McpTool := mkTool {
  mt_name : string; mt_description : option string;
  mt_properties : option (list (string * McpToolProperty));  (** [inputSchema?.properties] *)
  mt_required : option (list string) }.

Definition paramCount (t : McpTool) : nat := from_option length 0 (mt_properties t).

Definition deriveRiskLevel (t : McpTool) : RiskLevel :=
  let n := toLowerCase (mt_name t) in
  let d := toLowerCase (default "" (mt_description t)) in
  let text := n +:+ " " +:+ d in
  if any_word RISK_CRITICAL text then critical
  else if any_word RISK_HIGH text then high
  else if any_word ["search"; "query"; "list"; "find"; "get"] text && (3 <? paramCount t)%nat then medium
  else low.

Definition riskConfig (level : RiskLevel) : string * string * string :=
  match level with
  | critical => ("rgba(240,93,94,0.12)", "#F05D5E", "Critical")
  | high => ("rgba(244,185,66,0.12)", "#F4B942", "High")
  | medium => ("rgba(72,184,232,0.12)", "#48B8E8", "Medium")
  | low => ("rgba(53,200,138,0.12)", "#35C88A", "Low")
  end.

Definition iconBgForRisk (level : RiskLevel) : string :=
  match level with
  | critical => "rgba(240,93,94,0.15)" | high => "rgba(244,185,66,0.15)"
  | medium => "rgba(72,184,232,0.15)" | low => "rgba(45,212,167,0.15)"
  end.

Definition iconColorForRisk (level : RiskLevel) : string :=
  match level with critical => "#F05D5E" | high => "#F4B942" | medium => "#48B8E8" | low => "#2DD4A7" end.

(** A request of the page's own [fetch], without [credentials]: to an API on
    another origin it carries no cookies, and stores none. *)
Definition fetch_plain (method url : string) (headers : list (string * string)) (body : option json)
    : M Response := fun w =>
  let rq := mkRequest method url headers [] body in
  let w' := set_sent (w_sent w ++ [rq]) w in
  match w_net w (length (w_sent w)) rq with
  | NetFail => (Err "TypeError: Failed to fetch", w')
  | NetResp r => (Ok r, w')
  end.

Definition rpc (method : string) (params : json) : json :=
  JObj [("jsonrpc", JStr "2.0"); ("id", JNum 1); ("method", JStr method); ("params", params)].

(** [json.result?.tools ?? []], or the error's message thrown. *)
Definition tools_of (body : option json) : M json :=
  match body with
  | None => throw "SyntaxError"
  | Some JNull => throw "TypeError"
  | Some j =>
      if SignIn.json_truthy (json_field "error" j)
      then throw (from_option js_String "undefined" (json_field "error" j ≫= json_field "message"))
      else ret (default (JArr []) (nullish (json_field "result" j ≫= json_field "tools")))
  end.

Definition fetchTools (slug : string) (token : option string) : M json :=
  w <-- get_world;
  res <-- fetch_plain "POST" (api_base w +:+ "/mcp/" +:+ slug)
            (("Content-Type", "application/json") :: bearer token)
            (Some (rpc "tools/list" (JObj [])));
  tools_of (rs_body res).

(** Usage statistics per tool *)
Record tool_stats := mkStats {
  ts_count : Z; ts_lastUsed : option string; ts_successCount : Z; ts_callers : list string }.

Definition nonempty (o : option string) : option string :=
  match o with Some s => if bool_decide (s = "") then None else Some s | None => None end.

Definition stats_key (l : AuditLogView) : option string :=
  match nonempty (AuditLogView_server_slug l), nonempty (AuditLogView_tool_name l) with
  | Some s, Some t => Some (s +:+ "::" +:+ t)
  | _, _ => None
  end.

(** [log.created_at > entry.lastUsed]: string comparison *)
Definition later (a : string) (b : option string) : bool :=
  match nonempty b with Some b => bool_decide (String.compare b a = Lt) | None => true end.

Definition stats_bump (l : AuditLogView) (e : option tool_stats) : tool_stats :=
  let e := default (mkStats 0 None 0 []) e in
  let o := AuditLogView_outcome l in
  mkStats (ts_count e + 1)
    (if later (AuditLogView_created_at l) (ts_lastUsed e) then Some (AuditLogView_created_at l) else ts_lastUsed e)
    (if bool_decide (o = "allow") || bool_decide (o = "success") then ts_successCount e + 1 else ts_successCount e)
    (match nonempty (AuditLogView_subject_id l) with
     | Some s => if bool_decide (s ∈ ts_callers e) then ts_callers e else ts_callers e ++ [s]
     | None => ts_callers e
     end).

Definition auditMap (logs : list AuditLogView) : list (string * tool_stats) := group stats_key stats_bump logs.

(** Filters *)
Record EnrichedTool := mkEnriched { et_tool : McpTool; et_server : string; et_risk : RiskLevel }.

Definition enrich (slug : string) (t : McpTool) : EnrichedTool := mkEnriched t slug (deriveRiskLevel t).

(** [serverResults], in insertion order: the tools of each answered server. *)
Definition allTools (results : list (string * option (list McpTool))) : list EnrichedTool :=
  concat (map (fun '(slug, r) => match r with Some ts => map (enrich slug) ts | None => [] end) results).

Definition risk_id (r : RiskLevel) : string :=
  match r with low => "low" | medium => "medium" | high => "high" | critical => "critical" end.

Definition keep_tool (active : string -> bool) (search serverFilter riskFilter accessFilter : string)
    (t : EnrichedTool) : bool :=
  let q := toLowerCase search in
  if negb (bool_decide (q = "")) && negb (includes (toLowerCase (mt_name (et_tool t))) q)
     && negb (includes (toLowerCase (default "" (mt_description (et_tool t)))) q) then false
  else if negb (bool_decide (serverFilter = "all")) && negb (bool_decide (et_server t = serverFilter)) then false
  else if negb (bool_decide (riskFilter = "all")) && negb (bool_decide (risk_id (et_risk t) = riskFilter)) then false
  else if negb (bool_decide (accessFilter = "all")) then
    if bool_decide (accessFilter = "available") && negb (active (et_server t)) then false
    else if bool_decide (accessFilter = "restricted") && active (et_server t) then false
    else true
  else true.

Definition filteredTools active search serverFilter riskFilter accessFilter (tools : list EnrichedTool) :=
  List.filter (keep_tool active search serverFilter riskFilter accessFilter) tools.
End Catalogue.

(** ** web/src/app/dashboard/tools/[server]/[tool]/page.tsx *)
Module ToolDetail.

Definition getRiskLevel (toolName : string) : RiskLevel :=
  let n := toLowerCase toolName in
  if any_of RISK_CRITICAL n then critical
  else if any_of RISK_HIGH n then high
  else if any_of ["search"; "query"; "list"; "find"] n then medium
  else low.

(** [s.endsWith(c)] and [s.slice(0, -1)] *)
Definition ends_star (s : string) : bool :=
  bool_decide (sdrop (String.length s - 1) s = "*").
Definition but_last (s : string) : string := stake (String.length s - 1) s.

Definition matchesPattern (pattern value : string) : bool :=
  if bool_decide (pattern = "*") then true
  else if ends_star pattern then startsWith value (but_last pattern)
  else bool_decide (pattern = value).

Definition getUseCases (toolName : string) : list string :=
  let n := toLowerCase toolName in
  if any_of ["search"] n then
    ["Search for resources matching specific criteria using " +:+ toolName;
     "Filter and discover items by keyword or attribute"]
  else if any_of ["create"; "add"; "new"] n then
    ["Create new resources via " +:+ toolName; "Provision and initialize entities programmatically"]
  else if any_of ["delete"; "remove"] n then
    ["Remove existing resources using " +:+ toolName; "Clean up stale or unwanted data entries"]
  else if any_of ["update"; "modify"; "patch"] n then
    ["Update existing resource attributes with " +:+ toolName; "Apply targeted changes to specific fields"]
  else if any_of ["list"; "get"; "fetch"; "read"] n then
    ["Retrieve and inspect resources via " +:+ toolName; "Read current state for reporting or decision-making"]
  else if any_of ["send"; "push"; "publish"; "emit"] n then
    ["Dispatch data or notifications using " +:+ toolName; "Trigger downstream processes by emitting events"]
  else ["Invoke " +:+ toolName +:+ " to perform its designated operation";
        "Integrate " +:+ toolName +:+ " into automated workflows"].

Definition getDataAccess (toolName : string) : string :=
  let n := toLowerCase toolName in
  if any_of ["file"; "path"; "dir"; "folder"; "disk"] n then "File system access"
  else if any_of ["db"; "sql"; "database"; "postgres"; "mysql"; "sqlite"; "mongo"] n then "Database access"
  else if any_of ["email"; "mail"; "smtp"; "inbox"] n then "Email / messaging access"
  else if any_of ["api"; "http"; "request"; "fetch"; "url"; "endpoint"] n then "External API access"
  else "Unknown — review tool implementation".

(** [!pattern || matchesPattern(pattern, value)] *)
Definition pattern_ok (pattern : option string) (value : string) : bool :=
  match pattern with
  | Some p => bool_decide (p = "") || matchesPattern p value
  | None => true
  end.

(** [AccessTab]: the policies listed as applying to the tool *)
Definition matchingPolicies (server toolName : string) (policies : list RateLimitPolicyView)
    : list RateLimitPolicyView :=
  List.filter (fun p => pattern_ok (RateLimitPolicyView_server_pattern p) server
                        && pattern_ok (RateLimitPolicyView_tool_pattern p) toolName) policies.

(** The gateway's matching: api/app/limits/policies.py and api/app/auth/rbac.py
    call Python's [fnmatch.fnmatchcase].  A pattern is a sequence of stars, query
    marks, [[...]] classes and literals. *)
Inductive class_item : Type :=
  | One (c : ascii)
  | Range (lo hi : ascii).

Inductive glob_token : Type :=
  | GStar
  | GAny
  | GLit (c : ascii)
  | GClass (negated : bool) (items : list class_item).

(** Characters before the first closing bracket, when there is one. *)
Fixpoint close_at (s : string) : option nat :=
  match s with
  | "" => None
  | String c r => if bool_decide (c = "]"%char) then Some 0%nat else S <$> close_at r
  end.

(** The length of the class that begins here, after its opening bracket: an
    exclamation mark may come first, and a bracket right then is a member. *)
Definition class_length (s : string) : option nat :=
  let '(n, s1) := match s with String "!" r => (1%nat, r) | _ => (0%nat, s) end in
  let '(m, s2) := match s1 with String "]" r => (S n, r) | _ => (n, s1) end in
  Nat.add m <$> close_at s2.

Fixpoint class_items (s : string) : list class_item :=
  match s with
  | String lo (String "-" (String hi r)) => Range lo hi :: class_items r
  | String c r => One c :: class_items r
  | "" => []
  end.

(** A range that runs backwards is dropped. *)
Definition item_kept (i : class_item) : bool :=
  match i with One _ => true | Range lo hi => (code lo <=? code hi)%N end.

(** The class of the text between the brackets; what is left of it is negated
    when it begins with an exclamation mark. *)
Definition class_of (s : string) : glob_token :=
  let items := match s with String "!" r => One "!" :: class_items r | _ => class_items s end in
  match List.filter item_kept items with
  | One "!" :: l => GClass true l
  | Range "!" hi :: l => GClass true (One "-" :: One hi :: l)
  | l => GClass false l
  end.

(** [skip] counts the characters that belong to a class already read. *)
Fixpoint glob_tokens (skip : nat) (p : string) : list glob_token :=
  match p with
  | "" => []
  | String c r =>
      match skip with
      | S k => glob_tokens k r
      | O => if bool_decide (c = "*"%char) then GStar :: glob_tokens 0 r
             else if bool_decide (c = "?"%char) then GAny :: glob_tokens 0 r
             else if bool_decide (c = "["%char) then
               match class_length r with
               | Some n => class_of (stake n r) :: glob_tokens (S n) r
               | None => GLit c :: glob_tokens 0 r
               end
             else GLit c :: glob_tokens 0 r
      end
  end.

Definition in_item (c : ascii) (i : class_item) : bool :=
  match i with
  | One d => bool_decide (d = c)
  | Range lo hi => (code lo <=? code c)%N && (code c <=? code hi)%N
  end.

Definition token_matches (t : glob_token) (c : ascii) : bool :=
  match t with
  | GStar => false
  | GAny => true
  | GLit d => bool_decide (d = c)
  | GClass negated l => xorb negated (existsb (in_item c) l)
  end.

Fixpoint some_suffix (f : string -> bool) (v : string) : bool :=
  f v || match v with "" => false | String _ v' => some_suffix f v' end.

Fixpoint tokens_match (ts : list glob_token) (v : string) : bool :=
  match ts with
  | [] => bool_decide (v = "")
  | GStar :: ts => some_suffix (tokens_match ts) v
  | t :: ts => match v with "" => false | String c v' => token_matches t c && tokens_match ts v' end
  end.

(** [fnmatch.fnmatchcase(v, p)] *)
Definition glob (p v : string) : bool := tokens_match (glob_tokens 0 p) v.

(** A pattern whose only special character is a final star. *)
Definition simple_pattern (p : string) : bool :=
  let body := if ends_star p then but_last p else p in
  without "*" body && without "?" body && without "[" body.
End ToolDetail.

(** ** Word boundaries *)

(** [\b] after the match: the text ends or continues with a non-word character. *)
Definition stop (b : string) : bool := match b with "" => true | String c _ => negb (is_word c) end.

(** Where [\bw\b] matches: at the start or after a non-word character, and up to
    the end or a non-word character. *)
Definition bounded (w s : string) : Prop :=
  (exists b, s = w +:+ b /\ stop b = true) \/
  (exists a c b, is_word c = false /\ s = a +:+ String c (w +:+ b) /\ stop b = true).

Definition bounded_from (acc w s : string) : Prop :=
  (exists w' b, w = acc +:+ w' /\ s = w' +:+ b /\ stop b = true) \/
  (exists a c b, is_word c = false /\ s = a +:+ String c (w +:+ b) /\ stop b = true).

Lemma bounded_word acc w c r :
  is_word c = true -> bounded_from (acc +:+ String c "") w r <-> bounded_from acc w (String c r).
Proof.
  intros Hc. unfold bounded_from. split.
  - intros [(w' & b & -> & -> & ?)|(a & d & b & ? & -> & ?)].
    + left. exists (String c w'), b. by rewrite sapp_assoc.
    + right. by exists (String c a), d, b.
  - intros [(w' & b & -> & E & Hs)|(a & d & b & Hd & E & Hs)].
    + destruct w' as [|c' w']; [rewrite app_nil_l in E; subst b; cbn in Hs; by rewrite Hc in Hs|].
      injection E as -> ->. left. exists w', b. by rewrite sapp_assoc.
    + destruct a as [|c' a]; [injection E as -> ->; congruence|].
      injection E as -> ->. right. by exists a, d, b.
Qed.

Lemma bounded_break acc w c r :
  is_word c = false -> sforall is_word w = true ->
  bounded_from acc w (String c r) <-> w = acc \/ bounded_from "" w r.
Proof.
  intros Hc Hw. unfold bounded_from. split.
  - intros [(w' & b & -> & E & Hs)|(a & d & b & Hd & E & Hs)].
    + destruct w' as [|c' w']; [left; by rewrite sapp_nil_r|].
      injection E as -> _. rewrite sforall_app in Hw. cbn in Hw. bool_hyps. congruence.
    + destruct a as [|c' a]; injection E as -> ->; [right; left; by exists w, b|].
      right. right. by exists a, d, b.
  - intros [->|[(w' & b & -> & -> & ?)|(a & d & b & ? & -> & ?)]].
    + left. exists "", (String c r). rewrite sapp_nil_r. cbn. by rewrite Hc.
    + right. by exists "", c, b.
    + right. by exists (String c a), d, b.
Qed.

Lemma words_go_spec acc w s :
  w <> "" -> sforall is_word w = true -> w ∈ words_go acc s <-> bounded_from acc w s.
Proof.
  intros Hne Hw. revert acc. induction s as [|c s IH]; intros acc; cbn [words_go].
  - unfold bounded_from. split.
    + case_bool_decide; [by intros ?%not_elem_of_nil|]. intros ->%list_elem_of_singleton.
      left. exists "", "". by rewrite sapp_nil_r.
    + intros [(w' & b & -> & E & _)|(a & d & b & _ & E & _)]; [|by destruct a].
      destruct w'; [|done]. rewrite sapp_nil_r in *. rewrite bool_decide_false by done. set_solver.
  - destruct (is_word c) eqn:Hc.
    + rewrite IH. by apply bounded_word.
    + rewrite bounded_break by done. rewrite <- IH.
      case_bool_decide as Ha; [subst acc|rewrite elem_of_cons]; naive_solver.
Qed.

(** The run-based test is the regular expression's boundary semantics. *)
Lemma any_word_spec ws s :
  Forall (fun w => w <> "" /\ sforall is_word w = true) ws ->
  any_word ws s = true <-> exists w, w ∈ ws /\ bounded w s.
Proof.
  intros Hws. unfold any_word. rewrite existsb_exists. rewrite Forall_forall in Hws.
  split; intros (w & Hin & H).
  - apply list_elem_of_In in Hin. destruct (Hws w Hin). bool_hyps.
    apply words_go_spec in H; [|done..]. exists w. split; [done|].
    destruct H as [(w' & b & -> & -> & ?)|?]; [left; by exists b|by right].
  - destruct (Hws w Hin). exists w. split; [by apply list_elem_of_In|]. apply bool_decide_eq_true.
    apply words_go_spec; [done..|]. destruct H as [(b & -> & ?)|?]; [left; by exists w, b|by right].
Qed.

(** ** Identifiers *)

Lemma words_identifier acc s :
  sforall is_word s = true ->
  words_go acc (s +:+ " ") = if bool_decide (acc +:+ s = "") then [] else [acc +:+ s].
Proof.
  revert acc. induction s as [|c s IH]; intros acc H.
  - rewrite app_nil_l, sapp_nil_r. cbn. by case_bool_decide.
  - cbn [sforall] in H. bool_hyps. rewrite app_cons. cbn [words_go].
    replace (is_word c) with true. rewrite IH by done. by rewrite sapp_assoc.
Qed.

Lemma lower_is_word c : is_word c = true -> is_word (lower_char c) = true.
Proof.
  assert (forall c, implb (is_word c) (is_word (lower_char c)) = true) as H
    by (apply (ascii_check (fun c => implb (is_word c) (is_word (lower_char c)))); reflexivity).
  specialize (H c). by destruct (is_word c).
Qed.

Lemma lower_identifier s : sforall is_word s = true -> sforall is_word (toLowerCase s) = true.
Proof.
  induction s as [|c s IH]; [done|]. cbn. intros H. bool_hyps. by rewrite lower_is_word, IH.
Qed.

Lemma any_word_identifier ws n :
  "" ∉ ws -> sforall is_word n = true ->
  any_word ws (n +:+ " ") = bool_decide (n ∈ ws).
Proof.
  intros Hws Hn. unfold any_word, words_of. rewrite words_identifier by done. rewrite app_nil_l.
  case_bool_decide as E; [subst n|].
  - rewrite bool_decide_false by done. induction ws; [done|]. cbn. apply IHws. set_solver.
  - induction ws as [|w ws IH]; [done|]. cbn [existsb]. rewrite IH by set_solver.
    clear IH Hws. repeat case_bool_decide; set_solver.
Qed.

Lemma any_of_spec ws s : any_of ws s = true <-> exists w, w ∈ ws /\ includes s w = true.
Proof. unfold any_of. rewrite existsb_exists. setoid_rewrite list_elem_of_In. done. Qed.

(** ** Globs *)
Module GlobFacts.
Import ToolDetail.

Lemma startsWith_cons c d v p :
  startsWith (String d v) (String c p) = bool_decide (c = d) && startsWith v p.
Proof.
  unfold startsWith. cbn. destruct (ascii_dec c d) as [->|]; [by rewrite bool_decide_true|].
  by rewrite bool_decide_false.
Qed.

Lemma glob_nil v : glob "" v = bool_decide (v = "").
Proof. done. Qed.

(** How a pattern without classes matches, character by character. *)
Lemma glob_cons c p v :
  c <> "["%char ->
  glob (String c p) v =
  if bool_decide (c = "*"%char) then some_suffix (glob p) v
  else match v with
       | "" => false
       | String d v' => (bool_decide (c = "?"%char) || bool_decide (c = d)) && glob p v'
       end.
Proof.
  intros Hc. unfold glob at 1. cbn [glob_tokens]. rewrite (bool_decide_false (c = "["%char)) by done.
  by repeat case_bool_decide.
Qed.

Lemma glob_literal p v :
  without "*" p = true -> without "?" p = true -> without "[" p = true -> glob p v = bool_decide (p = v).
Proof.
  revert v. induction p as [|c p IH]; intros v H1 H2 H3.
  - rewrite glob_nil. by repeat case_bool_decide; subst.
  - rewrite !without_cons in *. bool_hyps. rewrite glob_cons by congruence. rewrite !bool_decide_false by congruence.
    destruct v as [|d v]; [by rewrite bool_decide_false|]. rewrite IH by done. cbn [orb].
    by repeat case_bool_decide; simplify_eq.
Qed.

Lemma glob_star v : glob "*" v = true.
Proof.
  rewrite glob_cons, bool_decide_true by done.
  induction v as [|c v IH]; [done|]. apply orb_true_iff. right. exact IH.
Qed.

Lemma glob_prefix p v :
  without "*" p = true -> without "?" p = true -> without "[" p = true -> glob (p +:+ "*") v = startsWith v p.
Proof.
  revert v. induction p as [|c p IH]; intros v H1 H2 H3.
  - rewrite app_nil_l, glob_star. by destruct v.
  - rewrite app_cons. rewrite !without_cons in *. bool_hyps. rewrite glob_cons by congruence.
    rewrite !bool_decide_false by congruence.
    destruct v as [|d v]; [done|]. rewrite startsWith_cons, IH by done. done.
Qed.

Lemma ends_star_split p : ends_star p = true -> p = but_last p +:+ "*".
Proof.
  unfold ends_star, but_last. intros H. bool_hyps. rewrite <- H. by rewrite stake_sdrop.
Qed.
End GlobFacts.

(** ** web/src/app/dashboard/playground/page.tsx *)
Module Playground.
Import Catalogue.

Inductive InputMode := form | json_mode.

Definition RISK (r : RiskLevel) : string * string * string * string :=
  match r with
  | critical => ("Critical", "rgba(240,93,94,0.08)", "#F05D5E", "rgba(240,93,94,0.3)")
  | high => ("High", "rgba(244,185,66,0.08)", "#F4B942", "rgba(244,185,66,0.3)")
  | medium => ("Medium", "rgba(72,184,232,0.08)", "#48B8E8", "rgba(72,184,232,0.3)")
  | low => ("Low", "rgba(53,200,138,0.08)", "#35C88A", "rgba(53,200,138,0.3)")
  end.

Definition getRisk (name : string) : RiskLevel :=
  let n := toLowerCase name in
  if any_of RISK_CRITICAL n then critical
  else if any_of RISK_HIGH n then high
  else if any_of ["search"; "query"; "list"; "find"] n then medium
  else low.

Definition isSensitiveKey (key : string) : bool :=
  any_of ["password"; "secret"; "token"; "key"; "credential"; "auth"; "api_key"; "private"] (toLowerCase key).

Definition isDestructive (t : McpTool) : bool :=
  bool_decide (getRisk (mt_name t) = critical) || bool_decide (getRisk (mt_name t) = high).

Section args.
(** [JSON.parse] ([None] when it throws) and [Number] on arbitrary text. *)
Context (JSON_parse : string -> option json) (js_Number : string -> json).

Definition field_arg (type raw : string) : json :=
  if bool_decide (type = "boolean") then JBool (bool_decide (raw = "true"))
  else if bool_decide (type = "number") || bool_decide (type = "integer")
  then (if bool_decide (raw = "") then JNum 0 else js_Number raw)
  else if bool_decide (type = "object") || bool_decide (type = "array")
  then default (JStr raw) (JSON_parse raw)
  else JStr raw.

Definition is_required (t : McpTool) (key : string) : bool :=
  match mt_required t with Some l => bool_decide (key ∈ l) | None => false end.

Definition form_arg (t : McpTool) (fieldValues : gmap string string) (kv : string * McpToolProperty)
    : option (string * json) :=
  let raw := default "" (fieldValues !! kv.1) in
  if bool_decide (raw = "") && negb (is_required t (kv.1)) then None
  else Some (kv.1, field_arg (default "string" (mp_type (kv.2))) raw).

(** [None]: [null], the JSON text does not parse. *)
Definition buildArgs (t : McpTool) (fieldValues : gmap string string) (jsonText : string) (mode : InputMode)
    : option json :=
  match mode with
  | json_mode => JSON_parse jsonText
  | form => Some (JObj (omap (form_arg t fieldValues) (default [] (mt_properties t))))
  end.

Definition redactArgs (args : list (string * json)) (redact : bool) : list (string * json) :=
  if negb redact then args
  else map (fun kv => (kv.1, if isSensitiveKey (kv.1) then JStr "[REDACTED]" else kv.2)) args.

(** ** Execution *)
Record RunResult := mkRun {
  rr_raw : json; rr_ok : bool; rr_outcome : string; rr_server : string; rr_tool : string; rr_args : json }.

(** Later entries of the headers object override earlier ones. *)
Definition run_headers (token : option string) (simulatedSubject : string) (extra : list (string * string))
    : list (string * string) :=
  fold_left (fun h kv => map_update (kv.1) (fun _ => kv.2) h)
    (bearer token
     ++ (if bool_decide (simulatedSubject = "") then [] else [("X-Simulate-Subject", simulatedSubject)])
     ++ extra)
    [("Content-Type", "application/json")].

Definition status_text (res : Response) : string := "HTTP " +:+ pretty (rs_status res) +:+ ": ".

Definition run_result (slug name : string) (args raw : json) : RunResult :=
  let ok := negb (SignIn.json_truthy (json_field "error" raw)) in
  mkRun raw ok (if ok then "allowed" else "denied") slug name args.

Definition execTool (slug name : string) (args : json) (extra : list (string * string))
    (simulatedSubject : string) : M RunResult :=
  w <-- get_world;
  token <-- getToken;
  res <-- fetch_plain "POST" (api_base w +:+ "/mcp/" +:+ slug) (run_headers token simulatedSubject extra)
            (Some (rpc "tools/call" (JObj [("name", JStr name); ("arguments", args)])));
  if negb (res_ok res) then throw (status_text res) else
  match rs_body res with
  | None => throw "SyntaxError"
  | Some JNull => throw "TypeError"
  | Some raw =>
      ret (run_result slug name args raw)
  end.

Definition fetchToolsList (slug : string) : M json :=
  w <-- get_world;
  token <-- getToken;
  res <-- fetch_plain "POST" (api_base w +:+ "/mcp/" +:+ slug)
            (("Content-Type", "application/json") :: bearer token)
            (Some (rpc "tools/list" (JObj [])));
  if negb (res_ok res) then throw ("HTTP " +:+ pretty (rs_status res)) else
  match rs_body res with
  | None => throw "SyntaxError"
  | Some JNull => throw "TypeError"
  | Some j =>
      if SignIn.json_truthy (json_field "error" j)
      then throw (from_option js_String "MCP error" (nullish (json_field "error" j ≫= json_field "message")))
      else ret (default (JArr []) (nullish (json_field "result" j ≫= json_field "tools")))
  end.

(** [parseExtraHeaders] *)
Definition header_line (line : string) : option (string * string) :=
  match drop_after ":" line with
  | Some v => let k := take_until ":" line in
              if bool_decide (k = "") then None else Some (trim k, trim v)
  | None => None
  end.

Definition parseExtraHeaders (idempotencyKey text : string) : list (string * string) :=
  let h := if bool_decide (idempotencyKey = "") then [] else [("Idempotency-Key", idempotencyKey)] in
  if bool_decide (trim text = "") then h
  else fold_left (fun h kv => map_update (kv.1) (fun _ => kv.2) h)
         (omap header_line (split "010" text)) h.

(** *** The page: [pg_idempotency] and [pg_headers] are what [doRun]'s closure
    holds, the texts of the render in which one of its listed dependencies last
    changed; these two are not among them. *)
Record page := mkPage {
  pg_tool : option McpTool; pg_slug : string; pg_mode : InputMode;
  pg_fields : gmap string string; pg_json : string;
  pg_confirm : bool; pg_result : option RunResult; pg_compare : option RunResult;
  pg_idempotency : string; pg_headers : string; pg_subject : string }.

Definition with_run (p : page) (confirm : bool) (r c : option RunResult) : page :=
  mkPage (pg_tool p) (pg_slug p) (pg_mode p) (pg_fields p) (pg_json p) confirm r c
    (pg_idempotency p) (pg_headers p) (pg_subject p).

(** [doRun] up to the request: the server, the tool and the arguments called,
    [None] when it returns before. *)
Definition run_call (p : page) : option (string * string * json) :=
  t ← pg_tool p;
  if bool_decide (pg_slug p = "") then None else
  args ← buildArgs t (pg_fields p) (pg_json p) (pg_mode p);
  match args with JNull => None | _ => Some (pg_slug p, mt_name t, args) end.

(** What [doRun] does with the answer. *)
Definition run_settled (isCompare : bool) (r : RunResult) (p : page) : page :=
  if isCompare then with_run p (pg_confirm p) (pg_result p) (Some r)
  else with_run p (pg_confirm p) (Some r) None.

(** [doRun(isCompare)] with nothing happening while it waits; an error only
    shows a toast. *)
Definition doRun (isCompare : bool) (p : page) : M page :=
  match run_call p with
  | None => ret p
  | Some (slug, name, args) =>
      try_catch
        (r <-- execTool slug name args (parseExtraHeaders (pg_idempotency p) (pg_headers p)) (pg_subject p);
         ret (run_settled isCompare r p))
        (fun _ => ret p)
  end.

(** *** Saved examples: newest first, at most twenty *)
Definition save_example {A} (ex : A) (prev : list A) : list A := ex :: take 19 prev.

(** *** Lemmas *)

(** Reading the key sends nothing. *)
Definition same_sent (w w' : World) : Prop := w_sent w' = w_sent w.

#[local] Instance same_sent_pre : PreOrder same_sent.
Proof. split; unfold same_sent; [done|congruence]. Qed.

Lemma getToken_quiet w : exists tok w1, getToken w = (Ok tok, w1) /\ w_sent w1 = w_sent w /\ w_env w1 = w_env w.
Proof.
  destruct (getToken_ok w) as (tok & w1 & E). exists tok, w1. split; [done|].
  assert (same_sent w (getToken w).2 /\ w_env (getToken w).2 = w_env w) as [H1 H2]; [|by rewrite E in *].
  split.
  - apply getToken_evolves; [apply _|..]; intros; intros w0; unfold same_sent, sessionStorage_setItem,
      localStorage_removeItem, storage_set, storage_remove; by repeat case_if.
  - apply (run_op_oracle OpGetToken w).
Qed.

(** One execution is one request, to the server's MCP endpoint, with the tool and
    its arguments in the body and no cookie. *)
Lemma execTool_sent slug name args extra subj w :
  exists rq, w_sent (execTool slug name args extra subj w).2 = w_sent w ++ [rq] /\
    rq_method rq = "POST" /\ rq_url rq = api_base w +:+ "/mcp/" +:+ slug /\ rq_cookies rq = [] /\
    rq_body rq = Some (rpc "tools/call" (JObj [("name", JStr name); ("arguments", args)])) /\
    (forall w1, getToken w = (Ok None, w1) -> subj = "" -> extra = [] ->
       rq_headers rq = [("Content-Type", "application/json")]).
Proof.
  destruct (getToken_quiet w) as (tok & w1 & E & Hs & He).
  unfold execTool. rewrite bind_get_world, (bind_ok _ _ _ _ _ E). unfold bind at 1, fetch_plain.
  eexists. split.
  { destruct (w_net w1 _ _) as [|r]; cbn [snd set_sent w_sent]; [by rewrite Hs|].
    destruct (negb (res_ok r)); [cbn; by rewrite Hs|].
    destruct (rs_body r) as [[]|]; cbn; by rewrite Hs. }
  cbn [rq_method rq_url rq_cookies rq_body rq_headers]. split_and!; [done|done|done|done|].
  intros w2 E2 -> ->. rewrite E in E2. injection E2 as -> _. done.
Qed.

(** *** Properties *)

(** A run is one request, of the call that [run_call] describes, or none. *)
Theorem doRun_sent isCompare p w :
  match run_call p with
  | None => doRun isCompare p w = (Ok p, w)
  | Some (slug, name, args) =>
      exists rq, w_sent (doRun isCompare p w).2 = w_sent w ++ [rq] /\
        rq_method rq = "POST" /\ rq_url rq = api_base w +:+ "/mcp/" +:+ slug /\
        rq_body rq = Some (rpc "tools/call" (JObj [("name", JStr name); ("arguments", args)]))
  end.
Proof.
  unfold doRun. destruct (run_call p) as [[[slug name] args]|]; [|done].
  set (m := execTool _ _ _ _ _).
  destruct (execTool_sent slug name args
    (parseExtraHeaders (pg_idempotency p) (pg_headers p)) (pg_subject p) w) as (rq & E & Hm & Hu & _ & Hb & _).
  exists rq. split; [|done]. fold m in E. unfold try_catch, bind. by destruct (m w) as [[]].
Qed.

(** The playground sends no credential for a cookie session: with no key in
    the tab, a call carries neither an Authorization header nor a cookie. *)
Theorem playground_without_credential slug name args w w1 :
  getToken w = (Ok None, w1) ->
  exists rq, w_sent (execTool slug name args [] "" w).2 = w_sent w ++ [rq] /\
    rq_cookies rq = [] /\ rq_headers rq = [("Content-Type", "application/json")].
Proof.
  intros E. destruct (execTool_sent slug name args [] "" w) as (rq & Hs & _ & _ & Hc & _ & Hh).
  exists rq. split_and!; [done|done|]. by apply (Hh w1).
Qed.

(** Form arguments follow the schema: in form mode the arguments are the
    schema's properties that were filled in or are required, in the schema's
    order, and every required property that the schema describes is sent. *)
Theorem form_arguments_cover_required t fields txt :
  exists o, buildArgs t fields txt form = Some (JObj o) /\
    o.*1 `sublist_of` (default [] (mt_properties t)).*1 /\
    (forall k, k ∈ (default [] (mt_properties t)).*1 ->
       (k ∈ o.*1 <-> default "" (fields !! k) <> "" \/ is_required t k = true)).
Proof.
  eexists. split; [done|]. generalize (default [] (mt_properties t)) as props. intros props. split.
  - induction props as [|[k s] props IH]; cbn; [constructor|].
    unfold form_arg at 1. cbn. destruct (_ && _); cbn; by constructor.
  - assert (forall k, k ∈ (omap (form_arg t fields) props).*1 <->
      k ∈ props.*1 /\ (default "" (fields !! k) <> "" \/ is_required t k = true)) as H; [|intros k Hk; rewrite H; tauto].
    intros k. rewrite list_elem_of_fmap. setoid_rewrite list_elem_of_omap. split.
    + intros ([k' v] & -> & [k0 s] & Hin & Hf). unfold form_arg in Hf. cbn in *.
      destruct (bool_decide (default "" (fields !! k0) = "")) eqn:E1, (is_required t k0) eqn:E2; cbn in Hf;
        simplify_eq; bool_hyps; (split; [apply list_elem_of_fmap; by exists (k', s)|auto]).
    + intros [([k0 s] & -> & Hin)%list_elem_of_fmap Hr]. cbn in *.
      assert (is_Some (form_arg t fields (k0, s))) as [[k1 v] Hv].
      { unfold form_arg. cbn. destruct (bool_decide _) eqn:E1; cbn; [|eauto]. bool_hyps.
        destruct Hr as [?| ->]; [done|]. cbn. eauto. }
      exists (k1, v). split; [|by exists (k0, s)]. unfold form_arg in Hv. cbn in Hv.
      destruct (_ && _); by simplify_eq.
Qed.
End args.
End Playground.

(** ** Properties of the classifiers and patterns *)

(** The catalogue misses destructive tools: the playground and the detail
    page classify alike, but for a tool named by an identifier and without a
    description the catalogue says "critical" only when the whole name is one
    of eight verbs, since [_] is a word character; so it rates no name like
    [delete_repo] critical although the other two pages do. *)
Theorem catalogue_misses_destructive_names name props req verb :
  sforall is_word name = true ->
  Playground.getRisk name = ToolDetail.getRiskLevel name /\
  (Catalogue.deriveRiskLevel (Catalogue.mkTool name None props req) = critical <->
     toLowerCase name ∈ RISK_CRITICAL) /\
  (verb ∈ RISK_CRITICAL -> includes (toLowerCase name) verb = true -> toLowerCase name ∉ RISK_CRITICAL ->
     ToolDetail.getRiskLevel name = critical /\
     Catalogue.deriveRiskLevel (Catalogue.mkTool name None props req) <> critical).
Proof.
  intros Hn.
  assert (Catalogue.deriveRiskLevel (Catalogue.mkTool name None props req) = critical <->
     toLowerCase name ∈ RISK_CRITICAL) as Hd.
  { unfold Catalogue.deriveRiskLevel. cbn [Catalogue.mt_name Catalogue.mt_description default from_option id toLowerCase smap].
    rewrite sapp_nil_r. rewrite !any_word_identifier by (by apply lower_identifier || (unfold RISK_CRITICAL, RISK_HIGH; set_solver)).
    destruct (bool_decide (toLowerCase name ∈ RISK_CRITICAL)) eqn:E; bool_hyps; [done|].
    split; [|done]. by repeat case_if. }
  split_and!; [done|exact Hd|].
  intros Hv Hi Hnot. split; [|by rewrite Hd].
  unfold ToolDetail.getRiskLevel. replace (any_of RISK_CRITICAL (toLowerCase name)) with true; [done|].
  symmetry. apply any_of_spec. by exists verb.
Qed.

(** The detail page's pattern matching agrees with the gateway's on the
    patterns it understands, exact names and prefixes with a final star. *)
Theorem pattern_matching_agrees pattern value :
  ToolDetail.simple_pattern pattern = true ->
  ToolDetail.matchesPattern pattern value = ToolDetail.glob pattern value.
Proof.
  unfold ToolDetail.simple_pattern, ToolDetail.matchesPattern. intros H.
  destruct (ToolDetail.ends_star pattern) eqn:E; bool_hyps.
  - transitivity (ToolDetail.glob (ToolDetail.but_last pattern +:+ "*") value);
      [|by rewrite <- (GlobFacts.ends_star_split _ E)].
    rewrite GlobFacts.glob_prefix by done.
    case_bool_decide as Ep; [subst pattern|done]. by destruct value.
  - rewrite GlobFacts.glob_literal by done. case_bool_decide; [by subst|done].
Qed.

(** Policies with other patterns are hidden: the gateway enforces
    [*_read] on [file_read], and the detail page does not list such a policy. *)
Theorem suffix_policies_hidden :
  ToolDetail.glob "*_read" "file_read" = true /\
  forall p server, RateLimitPolicyView_tool_pattern p = Some "*_read" ->
    ToolDetail.matchingPolicies server "file_read" [p] = [].
Proof.
  split; [reflexivity|]. intros p server Hp. unfold ToolDetail.matchingPolicies. cbn [List.filter].
  rewrite Hp. by rewrite andb_false_r.
Qed.

(** The catalogue's success count ignores the gateway's outcome: entries
    with the outcome "allowed", the one the gateway writes, never count as a
    success, while every entry counts as a call. *)
Theorem catalogue_success_count logs k s :
  (forall l, l ∈ logs -> AuditLogView_outcome l = "allowed" \/ AuditLogView_outcome l = "denied") ->
  (k, s) ∈ Catalogue.auditMap logs ->
  Catalogue.ts_successCount s = 0%Z /\
  Catalogue.ts_count s = Z.of_nat (length (filter (fun l => Catalogue.stats_key l = Some k) logs)).
Proof.
  intros Ho Hin. unfold Catalogue.auditMap in Hin. apply group_elem in Hin.
  pose proof (accumulate_inv Catalogue.stats_key Catalogue.stats_bump
    (fun ls s => (forall l, l ∈ ls -> AuditLogView_outcome l = "allowed" \/ AuditLogView_outcome l = "denied") ->
       Catalogue.ts_successCount s = 0%Z /\ Catalogue.ts_count s = Z.of_nat (length ls)) k logs s) as H.
  apply H; [| |done|].
  - intros l _ Hl. destruct (Hl l) as [E|E]; [set_solver| |]; unfold Catalogue.stats_bump; by rewrite E.
  - intros xs x v _ IH Hl. destruct IH as [H1 H2]; [intros; apply Hl; set_solver|].
    rewrite length_app. destruct (Hl x) as [E|E]; [set_solver| |]; unfold Catalogue.stats_bump; rewrite E;
      cbn [from_option id Catalogue.ts_successCount Catalogue.ts_count length]; split; [done|lia|done|lia].
  - intros l [_ Hl]%list_elem_of_filter. by apply Ho.
Qed.

(** ** Witnesses *)

Definition demo_tool : Catalogue.McpTool := Catalogue.mkTool "delete_repo" None (Some [("id", Catalogue.mkProp None None None)]) None.

Lemma catalogue_misses_destructive_names_witness :
  ToolDetail.getRiskLevel "delete_repo" = critical /\
  Catalogue.deriveRiskLevel (Catalogue.mkTool "delete_repo" None None None) <> critical.
Proof.
  apply (catalogue_misses_destructive_names "delete_repo" None None "delete");
    [reflexivity|unfold RISK_CRITICAL; set_solver|reflexivity|].
  unfold RISK_CRITICAL. vm_compute toLowerCase. set_solver.
Defined.

Lemma pattern_matching_agrees_witness :
  ToolDetail.matchesPattern "repo_*" "repo_read" = ToolDetail.glob "repo_*" "repo_read".
Proof. apply pattern_matching_agrees. reflexivity. Defined.

Lemma catalogue_success_count_witness :
  Catalogue.ts_successCount (Catalogue.mkStats 1 (Some "2026-01-01T00:00:00Z") 0 []) = 0%Z.
Proof.
  refine (proj1 (catalogue_success_count
    [mkAuditLogView "1" None None None AuditEventType_tool_call (Some "s") (Some "t") None "allowed" None None []
       "2026-01-01T00:00:00Z"] "s::t" _ _ _)).
  - intros l ->%list_elem_of_singleton. by left.
  - apply list_elem_of_singleton. reflexivity.
Defined.

Lemma playground_without_credential_witness :
  exists rq, w_sent (Playground.execTool "github" "search" JNull [] "" (demo_world ∅ [])).2 = [rq] /\
    rq_cookies rq = [] /\ rq_headers rq = [("Content-Type", "application/json")].
Proof. apply (Playground.playground_without_credential "github" "search" JNull (demo_world ∅ []) (demo_world ∅ [])). reflexivity. Defined.
