(* ===== verification/ApiKeys.v ===== *)
(** * The API-key page: web/src/app/dashboard/api-keys/page.tsx

    The scopes the creation wizard encodes, the wizard as a state machine (its
    buttons, the request in flight and the delayed reset), the key table, and
    the backend's validation of the request (api/app/models/schemas.py). *)

From Stdlib Require Import ZifyBool.
From S2P Require Import Prelude JsString Json Browser AxiosClient ApiTypes JsDate.

Inductive Expiration := E7d | E30d | E90d | E1y | Never | Custom.

#[export] Instance Expiration_eq_dec : EqDecision Expiration.
Proof. solve_decision. Defined.

Record WizardState := mkWizard {
  wz_name : string;
  wz_owner : string;
  wz_environment : string;
  wz_description : string;
  wz_allowedServers : list string;
  wz_toolPatterns : string;
  wz_expiration : Expiration;
  wz_customExpiry : string;
  wz_rateLimitValue : string;
  wz_rateLimitUnit : string;
  wz_ipRanges : string }.

Definition DEFAULT_STATE : WizardState := mkWizard "" "" "" "" [] "" Never "" "" "hour" "".

(** The [days] table of [computeExpiryDate]. *)
Definition preset_days (e : Expiration) : option Z :=
  match e with E7d => Some 7 | E30d => Some 30 | E90d => Some 90 | E1y => Some 365 | Never | Custom => None end%Z.

(** Moving the local day of the month forward keeps the local time of day, and
    the zone's offset is constant in the model. *)
Definition computeExpiryDate (now : Z) (preset : Expiration) : string :=
  match preset_days preset with
  | Some n => default "" (head (split "T" (toISOString (now + n * MS_DAY))))
  | None => ""
  end.

Definition expiryLabel (preset : Expiration) (custom : string) : string :=
  match preset with
  | E7d => "7 days" | E30d => "30 days" | E90d => "90 days" | E1y => "1 year" | Never => "Never"
  | Custom => if bool_decide (custom = "") then "Custom" else custom
  end.

Definition nonblank (s : string) : bool := negb (bool_decide (trim s = "")).
Definition nonempty (s : string) : bool := negb (bool_decide (s = "")).

(** [s.split(",").map(trim).filter(Boolean)] *)
Definition comma_items (s : string) : list string := List.filter nonempty (map trim (split "," s)).

Definition when (b : bool) (l : list string) : list string := if b then l else [].

Definition expiry_of (now : Z) (s : WizardState) : string :=
  match wz_expiration s with
  | Never => ""
  | Custom => wz_customExpiry s
  | preset => computeExpiryDate now preset
  end.

Definition buildScopes (now : Z) (s : WizardState) : list string :=
  when (nonempty (wz_environment s)) ["env:" +:+ wz_environment s] ++
  match wz_allowedServers s with
  | [] => ["server:*"]
  | slugs => map (fun slug => "server:" +:+ slug) slugs
  end ++
  (if nonblank (wz_toolPatterns s)
   then map (fun p => "tool:" +:+ p) (comma_items (wz_toolPatterns s))
   else ["tool:*"]) ++
  when (nonempty (expiry_of now s)) ["expire:" +:+ expiry_of now s] ++
  when (nonblank (wz_rateLimitValue s))
    ["ratelimit:" +:+ wz_rateLimitValue s +:+ "/" +:+ wz_rateLimitUnit s] ++
  when (nonblank (wz_ipRanges s)) (map (fun ip => "ip:" +:+ ip) (comma_items (wz_ipRanges s))) ++
  when (nonempty (wz_owner s)) ["owner:" +:+ wz_owner s].

(** [name.toUpperCase().replace(/[^A-Z0-9]/g, "_")], one code unit at a time:
    upper-casing U+00DF gives two letters. *)
Definition env_char (c : ascii) : string :=
  let n := code c in
  if ((97 <=? n) && (n <=? 122))%N then String (ascii_of_N (n - 32)) ""
  else if ((65 <=? n) && (n <=? 90) || (48 <=? n) && (n <=? 57))%N then String c ""
  else if (n =? 223)%N then "SS" else "_".

Fixpoint env_key (s : string) : string :=
  match s with "" => "" | String c r => env_char c +:+ env_key r end.

Definition newline : string := String (ascii_of_N 10) "".

Definition generateEnvSnippet (plaintext name : string) : string :=
  "# " +:+ name +:+ newline +:+ "PORTCULLIS_API_KEY=" +:+ plaintext +:+ newline +:+ "# or" +:+ newline
  +:+ "PORTCULLIS_" +:+ env_key name +:+ "_KEY=" +:+ plaintext.

(** The rows of the review step. *)
Definition or_text (d s : string) : string := if nonempty s then s else d.

Definition StepReview_rows (s : WizardState) : list (string * string) :=
  [("Name", wz_name s);
   ("Owner", or_text "—" (wz_owner s));
   ("Environment", or_text "—" (wz_environment s));
   ("Description", or_text "—" (wz_description s));
   ("Servers", match wz_allowedServers s with [] => "All servers (*)" | l => join ", " l end);
   ("Tools", or_text "All tools (*)" (trim (wz_toolPatterns s)));
   ("Expiration", expiryLabel (wz_expiration s) (wz_customExpiry s));
   ("Rate Limit", if nonempty (wz_rateLimitValue s)
                  then wz_rateLimitValue s +:+ " / " +:+ wz_rateLimitUnit s else "None");
   ("IP Allowlist", or_text "Any" (trim (wz_ipRanges s)))].

(** ** The wizard's state machine *)

Definition toggleServer (slug : string) (s : WizardState) : WizardState :=
  mkWizard (wz_name s) (wz_owner s) (wz_environment s) (wz_description s)
    (if bool_decide (slug ∈ wz_allowedServers s)
     then List.filter (fun x => negb (bool_decide (x = slug))) (wz_allowedServers s)
     else wz_allowedServers s ++ [slug])
    (wz_toolPatterns s) (wz_expiration s) (wz_customExpiry s) (wz_rateLimitValue s) (wz_rateLimitUnit s)
    (wz_ipRanges s).

(** [md_inflight]: the request of a pending [createKey.mutateAsync] with the
    name [handleSubmit] closed over; [md_timers]: scheduled resets. *)
Record modal := mkModal {
  md_open : bool;
  md_step : nat;
  md_state : WizardState;
  md_revealed : option (json * string);
  md_inflight : option (ApiKeyCreate * string);
  md_timers : nat;
  md_sent : list ApiKeyCreate;
  md_toast : option json }.

Definition fresh_modal : modal := mkModal false 0 DEFAULT_STATE None None 0 [] None.

Definition with_step (n : nat) (m : modal) : modal :=
  mkModal (md_open m) n (md_state m) (md_revealed m) (md_inflight m) (md_timers m) (md_sent m) (md_toast m).

Definition canAdvance (m : modal) : bool :=
  if (md_step m =? 0)%nat then (0 <? String.length (trim (wz_name (md_state m))))%nat else true.

(** [onClose()] and the timer of the delayed reset. *)
Definition handleClose (m : modal) : modal :=
  mkModal false (md_step m) (md_state m) (md_revealed m) (md_inflight m) (S (md_timers m)) (md_sent m) (md_toast m).

(** The timer's callback. *)
Definition reset (m : modal) : modal :=
  match md_timers m with
  | 0 => m
  | S n => mkModal (md_open m) 0 DEFAULT_STATE None (md_inflight m) n (md_sent m) (md_toast m)
  end.

(** [handleSubmit] up to its [await]: the scopes are those of the render. *)
Definition submit_start (now : Z) (m : modal) : modal :=
  let body := mkApiKeyCreate (trim (wz_name (md_state m))) (Some (buildScopes now (md_state m))) in
  mkModal (md_open m) (md_step m) (md_state m) (md_revealed m) (Some (body, wz_name (md_state m))) (md_timers m)
    (md_sent m ++ [body]) (md_toast m).

(** Truthiness of a JSON value. *)
Definition json_truthy (v : json) : bool :=
  match v with
  | JNull => false
  | JBool b => b
  | JNum n => negb (n =? 0)%Z
  | JStr s => nonempty s
  | JArr _ | JObj _ => true
  end.

(** [result?.data?.plaintext ?? null], when truthy *)
Definition plaintext_of (r : orval_response) : option json :=
  p ← or_data r ≫= json_field "plaintext"; if json_truthy p then Some p else None.

Definition error_toast (e : AxiosError) : json :=
  default (JStr "Failed to create key")
    (nullish (r ← ae_response e; d ← ax_data r; json_field "detail" d)).

(** [handleSubmit] after its [await]. *)
Definition submit_finish (r : AxiosError + orval_response) (m : modal) : modal :=
  match md_inflight m with
  | None => m
  | Some (_, name) =>
      match r with
      | inr res =>
          match plaintext_of res with
          | Some p => mkModal (md_open m) 4 (md_state m) (Some (p, name)) None (md_timers m) (md_sent m) (md_toast m)
          | None => mkModal (md_open m) (md_step m) (md_state m) (md_revealed m) None (md_timers m) (md_sent m)
                      (Some (JStr "Failed to create key"))
          end
      | inl e => mkModal (md_open m) (md_step m) (md_state m) (md_revealed m) None (md_timers m) (md_sent m)
                   (Some (error_toast e))
      end
  end.

(** What can happen to the modal: [Fill] stands for the form controls of the
    step shown (the name is edited at the first step only). *)
Inductive event :=
  | Open
  | Fill (s : WizardState)
  | Toggle (slug : string)
  | BackOrCancel
  | Continue
  | CreateKey (now : Z)
  | Dismiss
  | Timer
  | Reply (r : AxiosError + orval_response).

Definition with_state (s : WizardState) (m : modal) : modal :=
  mkModal (md_open m) (md_step m) s (md_revealed m) (md_inflight m) (md_timers m) (md_sent m) (md_toast m).

Definition is_pending (m : modal) : bool := match md_inflight m with Some _ => true | None => false end.

Definition handle (e : event) (m : modal) : modal :=
  match e with
  | Timer => reset m
  | Reply r => submit_finish r m
  | Open => mkModal true (md_step m) (md_state m) (md_revealed m) (md_inflight m) (md_timers m) (md_sent m) (md_toast m)
  | _ =>
      if negb (md_open m) then m else
      match e with
      | Fill s =>
          if (md_step m <? 3)%nat && ((md_step m =? 0)%nat || bool_decide (wz_name s = wz_name (md_state m)))
          then with_state s m else m
      | Toggle slug => if (md_step m =? 1)%nat then with_state (toggleServer slug (md_state m)) m else m
      | BackOrCancel =>
          if (md_step m <? 4)%nat
          then if (md_step m =? 0)%nat then handleClose m else with_step (md_step m - 1) m
          else m
      | Continue => if (md_step m <? 3)%nat && canAdvance m then with_step (S (md_step m)) m else m
      | CreateKey now => if (md_step m =? 3)%nat && negb (is_pending m) then submit_start now m else m
      | Dismiss => handleClose m
      | _ => m
      end
  end.

(** ** The key table *)
Definition find_scope (p : string) (scopes : list string) : option string :=
  sdrop (String.length p) <$> List.find (fun s => startsWith s p) scopes.

Definition envScope (scopes : list string) : option string := find_scope "env:" scopes.
Definition serverScope (scopes : list string) : option string := find_scope "server:" scopes.
Definition otherScopes (scopes : list string) : list string :=
  List.filter (fun s => negb (startsWith s "env:") && negb (startsWith s "owner:")) scopes.

(** ** The backend's validation: [ApiKeyCreate] and [validate_scopes] *)
Definition ALLOWED_SCOPES : list string := ["admin"; "auditor"].

Definition validate_scopes (value : list string) : bool :=
  forallb (fun s => bool_decide (s ∈ ALLOWED_SCOPES) && (String.length s <=? 50)%nat) value.

Definition ApiKeyCreate_accepts (b : ApiKeyCreate) : bool :=
  let scopes := default [] (ApiKeyCreate_scopes b) in
  (1 <=? String.length (ApiKeyCreate_name b))%nat && (String.length (ApiKeyCreate_name b) <=? 200)%nat
  && (length scopes <=? 20)%nat && validate_scopes scopes.

(** ** Runs of the wizard against a backend *)
Definition is_reply (e : event) : bool := match e with Reply _ => true | _ => false end.

Section wizard.
Context (backend : ApiKeyCreate -> AxiosError + orval_response).

(** A reply is the backend's answer to the request in flight. *)
Inductive reachable : modal -> Prop :=
  | reach_fresh : reachable fresh_modal
  | reach_event e m : reachable m -> is_reply e = false -> reachable (handle e m)
  | reach_reply m b n : reachable m -> md_inflight m = Some (b, n) -> reachable (handle (Reply (backend b)) m).

(** ** Lemmas *)

Lemma elem_when b l x : x ∈ when b l <-> b = true /\ x ∈ l.
Proof. destruct b; cbn; set_solver. Qed.

(** Every scope of the list, by the part of the form it comes from. *)
Lemma elem_buildScopes now s x :
  x ∈ buildScopes now s <->
  (nonempty (wz_environment s) = true /\ x = "env:" +:+ wz_environment s) \/
  (exists y, x = "server:" +:+ y /\ (y ∈ wz_allowedServers s \/ wz_allowedServers s = [] /\ y = "*")) \/
  (exists y, x = "tool:" +:+ y /\
     if nonblank (wz_toolPatterns s) then y ∈ comma_items (wz_toolPatterns s) else y = "*") \/
  (nonempty (expiry_of now s) = true /\ x = "expire:" +:+ expiry_of now s) \/
  (nonblank (wz_rateLimitValue s) = true /\
     x = "ratelimit:" +:+ wz_rateLimitValue s +:+ "/" +:+ wz_rateLimitUnit s) \/
  (nonblank (wz_ipRanges s) = true /\ exists y, x = "ip:" +:+ y /\ y ∈ comma_items (wz_ipRanges s)) \/
  (nonempty (wz_owner s) = true /\ x = "owner:" +:+ wz_owner s).
Proof.
  unfold buildScopes. rewrite !elem_of_app, !elem_when, !list_elem_of_singleton.
  assert (x ∈ match wz_allowedServers s with [] => ["server:*"] | slugs => map (fun slug => "server:" +:+ slug) slugs end
    <-> exists y, x = "server:" +:+ y /\ (y ∈ wz_allowedServers s \/ wz_allowedServers s = [] /\ y = "*")) as ->.
  { destruct (wz_allowedServers s) as [|z l].
    - rewrite list_elem_of_singleton. split; [intros ->; exists "*"; auto|].
      intros (y & -> & [[]%not_elem_of_nil|[_ ->]]); done.
    - rewrite list_elem_of_fmap. naive_solver. }
  assert (x ∈ (if nonblank (wz_toolPatterns s) then map (fun p => "tool:" +:+ p) (comma_items (wz_toolPatterns s))
      else ["tool:*"]) <->
    exists y, x = "tool:" +:+ y /\ if nonblank (wz_toolPatterns s) then y ∈ comma_items (wz_toolPatterns s) else y = "*")
    as ->.
  { destruct (nonblank _); [rewrite list_elem_of_fmap; naive_solver|].
    rewrite list_elem_of_singleton. naive_solver. }
  rewrite list_elem_of_fmap. naive_solver.
Qed.

Lemma foreign_scope now s x : x ∈ buildScopes now s -> x ∉ ALLOWED_SCOPES.
Proof.
  rewrite elem_buildScopes. unfold ALLOWED_SCOPES. rewrite !elem_of_cons, elem_of_nil.
  intros H [->|[->|[]]]; naive_solver.
Qed.

Lemma scopes_not_nil now s : exists x, x ∈ buildScopes now s.
Proof.
  destruct (wz_allowedServers s) as [|y l] eqn:E.
  - exists "server:*". rewrite elem_buildScopes. right; left. exists "*". rewrite E. auto.
  - exists ("server:" +:+ y). rewrite elem_buildScopes. right; left. exists y. rewrite E. set_solver.
Qed.

(** No request body of the wizard passes the backend's validation. *)
Lemma body_rejected now name s : ApiKeyCreate_accepts (mkApiKeyCreate name (Some (buildScopes now s))) = false.
Proof.
  unfold ApiKeyCreate_accepts. cbn [ApiKeyCreate_scopes default from_option id].
  rewrite !andb_false_iff. right. destruct (scopes_not_nil now s) as [x Hx].
  destruct (validate_scopes _) eqn:E; [|done]. unfold validate_scopes in E. rewrite forallb_forall in E.
  specialize (E x ltac:(by apply list_elem_of_In)). bool_hyps. by apply foreign_scope in Hx.
Qed.

(** ** The wizard's invariant *)
Record wizard_ok (m : modal) : Prop := {
  ok_step : md_step m <= 4;
  ok_reveal : md_step m = 4 <-> is_Some (md_revealed m);
  ok_name : 1 <= md_step m <= 3 -> trim (wz_name (md_state m)) <> "";
  ok_sent : forall b, b ∈ md_sent m -> ApiKeyCreate_name b <> "" /\
    exists now s, ApiKeyCreate_scopes b = Some (buildScopes now s) /\ ApiKeyCreate_name b = trim (wz_name s);
  ok_flight : forall b n, md_inflight m = Some (b, n) -> last (md_sent m) = Some b /\ ApiKeyCreate_name b = trim n }.

Lemma canAdvance_name m : md_step m = 0 -> canAdvance m = true -> trim (wz_name (md_state m)) <> "".
Proof. unfold canAdvance. intros ->. cbn. destruct (trim _); done. Qed.

(** Settles the invariant's fields that an operation leaves alone or that are
    arithmetic on the step. *)
Ltac wizard_tac :=
  constructor; cbn -[buildScopes trim]; try assumption; try lia; try done;
  try match goal with
  | Hr : _ <-> is_Some ?r |- _ <-> is_Some ?r => split; [intros; apply Hr; lia|intros H%Hr; lia]
  end; try (intros; exfalso; lia); auto with lia.

Lemma wizard_ok_event e m : is_reply e = false -> wizard_ok m -> wizard_ok (handle e m).
Proof.
  intros He Hm. destruct Hm as [Hs Hr Hn Hb Hf].
  assert (wizard_ok m) as Hm by done.
  destruct e; try done; cbn [handle]; try (destruct (md_open m); cbn [negb]; [|done]).
  - destruct (md_step m <? 3)%nat eqn:E3; [|done]. cbn [andb].
    destruct (md_step m =? 0)%nat eqn:E0; cbn [orb]; [wizard_tac|].
    match goal with |- context [bool_decide ?P] => destruct (decide P) as [En|En] end;
      [rewrite bool_decide_true by done|by rewrite bool_decide_false]. wizard_tac. by rewrite En.
  - destruct (md_step m =? 1)%nat; [wizard_tac|done].
  - destruct (md_step m <? 4)%nat eqn:E4; [|done]. destruct (md_step m =? 0)%nat eqn:E0; wizard_tac.
  - destruct (md_step m <? 3)%nat eqn:E3; [|done]. cbn [andb]. destruct (canAdvance m) eqn:Ec; [|done].
    wizard_tac. intros _. destruct (decide (md_step m = 0)); [by apply canAdvance_name|apply Hn; lia].
  - destruct (md_step m =? 3)%nat eqn:E3; [|done]. destruct (is_pending m); [done|]. cbn [andb negb].
    wizard_tac.
    + intros b [?%Hb| ->%list_elem_of_singleton]%elem_of_app; [done|]. cbn [ApiKeyCreate_name ApiKeyCreate_scopes].
      split; [apply Hn; lia|]. eauto.
    + intros b n [= <- <-]. by rewrite last_snoc.
  - wizard_tac.
  - unfold reset. destruct (md_timers m); [done|]. wizard_tac.
Qed.

Lemma wizard_ok_reply r m : wizard_ok m -> wizard_ok (handle (Reply r) m).
Proof.
  intros Hm. cbn [handle]. unfold submit_finish. destruct (md_inflight m) as [[b n]|]; [|done].
  destruct Hm as [Hs Hr Hn Hb Hf]. destruct r as [e|res]; [wizard_tac|].
  destruct (plaintext_of res); wizard_tac.
Qed.

Lemma wizard_ok_reachable m : reachable m -> wizard_ok m.
Proof.
  induction 1; [|by apply wizard_ok_event|by apply wizard_ok_reply].
  constructor; cbn; [lia|split; [done|by intros [? ?]]|lia|by intros ? []%not_elem_of_nil|done].
Qed.

(** ** Properties *)

(** The request the form makes when its button is pressed. *)
Definition form_request (now : Z) (s : WizardState) : ApiKeyCreate :=
  mkApiKeyCreate (trim (wz_name s)) (Some (buildScopes now s)).

(** [C34] The wizard is consistent, whatever the user does and whatever the
    backend answers.  A key is on display exactly at the last step, the steps
    stay in range, and the steps after the first have a non-blank name.  Only the
    create button sends a request: one at a time, at the review step of the open
    dialog, with the trimmed name, which is not empty, and the scopes of the form
    as it stands at that moment.  The backend's answer to it reveals its key under
    the name of that same request, and sends nothing; what the answer leaves
    without a key leaves the display as it was. *)
Theorem wizard_consistent m :
  reachable m ->
  (md_step m <= 4 /\ (md_step m = 4 <-> is_Some (md_revealed m)) /\
   (1 <= md_step m <= 3 -> trim (wz_name (md_state m)) <> "")) /\
  (forall e, is_reply e = false ->
     md_sent (handle e m) = md_sent m \/
     exists now, e = CreateKey now /\ md_open m = true /\ md_step m = 3 /\ md_inflight m = None /\
       ApiKeyCreate_name (form_request now (md_state m)) <> "" /\
       md_sent (handle e m) = md_sent m ++ [form_request now (md_state m)]) /\
  (forall b name, md_inflight m = Some (b, name) ->
     let m' := handle (Reply (backend b)) m in
     last (md_sent m) = Some b /\ trim name = ApiKeyCreate_name b /\ md_sent m' = md_sent m /\
     match backend b with
     | inr res => match plaintext_of res with
                  | Some key => md_revealed m' = Some (key, name) /\ md_step m' = 4
                  | None => md_revealed m' = md_revealed m /\ md_step m' = md_step m
                  end
     | inl _ => md_revealed m' = md_revealed m /\ md_step m' = md_step m
     end).
Proof.
  intros [Hs Hr Hn Hb Hf]%wizard_ok_reachable. split; [done|]. split.
  - intros e He. destruct e as [| | | | |now| | |]; try done; cbn [handle]; unfold reset;
      try (left; by repeat case_match).
    destruct (md_open m); cbn [negb]; [|by left].
    destruct (Nat.eqb_spec (md_step m) 3) as [E3|]; [|by left]. cbn [andb].
    unfold is_pending. destruct (md_inflight m); [by left|]. cbn [negb].
    right. exists now. split_and!; try done. apply Hn. lia.
  - intros b name Hi. cbv zeta. destruct (Hf _ _ Hi) as [Hl Hname]. cbn [handle]. unfold submit_finish. rewrite Hi.
    split; [done|]. split; [done|]. destruct (backend b) as [e|res]; [done|]. by destruct (plaintext_of res).
Qed.

(** The wizard cannot create a key: against a backend that answers with
    success only to bodies its own schema accepts, no run of the wizard ever
    reveals a key, and none of the requests it sends is acceptable. *)
Theorem wizard_never_creates m :
  (forall b res, backend b = inr res -> ApiKeyCreate_accepts b = true) ->
  reachable m ->
  md_revealed m = None /\ forall b, b ∈ md_sent m -> ApiKeyCreate_accepts b = false.
Proof.
  intros Hback Hm.
  assert (forall m, reachable m -> forall b, b ∈ md_sent m -> ApiKeyCreate_accepts b = false) as Hsent.
  { intros m' H%wizard_ok_reachable [name o] Hb. apply (ok_sent _ H) in Hb as (_ & now & s & Hs & _).
    cbn in Hs. subst o. apply body_rejected. }
  split; [|by apply Hsent]. clear -Hm Hback Hsent. induction Hm as [|e m Hm IH He|m b n Hm IH Hf]; [done| |].
  - destruct e; try done; cbn [handle]; unfold reset; by repeat case_match.
  - cbn [handle]. unfold submit_finish. rewrite Hf. destruct (backend b) as [e|res] eqn:E; [done|].
    apply Hback in E. rewrite (Hsent m Hm) in E; [done|].
    apply (ok_flight _ (wizard_ok_reachable _ Hm)) in Hf as [Hl _].
    apply last_Some in Hl as [l ->]. set_solver.
Qed.
End wizard.

(** [x] stands, trimmed and not empty, between the commas of [s]. *)
Definition listed (s x : string) : Prop := x <> "" /\ exists p, p ∈ split "," s /\ x = trim p.

Lemma nonempty_spec y : nonempty y = true <-> y <> "".
Proof. unfold nonempty. rewrite negb_true_iff, bool_decide_eq_false. done. Qed.

Lemma comma_items_listed s x : x ∈ comma_items s <-> listed s x.
Proof.
  unfold comma_items, listed. rewrite list_elem_of_In, filter_In, nonempty_spec, <- list_elem_of_In, list_elem_of_fmap.
  naive_solver.
Qed.

(** The scopes encode the form exactly: for every value there is a
    "server:", "tool:", "ip:", "expire:", "env:" or "owner:" scope with it
    precisely when the form selects it, the wildcards standing for an empty
    selection; no two kinds can be confused. *)
Theorem scopes_exact now s x :
  ("server:" +:+ x ∈ buildScopes now s <->
     x ∈ wz_allowedServers s \/ wz_allowedServers s = [] /\ x = "*") /\
  ("tool:" +:+ x ∈ buildScopes now s <->
     if decide (trim (wz_toolPatterns s) = "") then x = "*" else listed (wz_toolPatterns s) x) /\
  ("ip:" +:+ x ∈ buildScopes now s <-> trim (wz_ipRanges s) <> "" /\ listed (wz_ipRanges s) x) /\
  ("expire:" +:+ x ∈ buildScopes now s <-> x <> "" /\ x = expiry_of now s) /\
  ("env:" +:+ x ∈ buildScopes now s <-> x <> "" /\ x = wz_environment s) /\
  ("owner:" +:+ x ∈ buildScopes now s <-> x <> "" /\ x = wz_owner s).
Proof.
  rewrite !elem_buildScopes, !nonempty_spec.
  rewrite <- (comma_items_listed (wz_ipRanges s)). pose proof (comma_items_listed (wz_toolPatterns s) x) as Ht.
  change (nonblank (wz_ipRanges s)) with (nonempty (trim (wz_ipRanges s))).
  change (nonblank (wz_toolPatterns s)) with (nonempty (trim (wz_toolPatterns s))).
  rewrite !nonempty_spec. destruct (decide (trim (wz_toolPatterns s) = "")) as [E|E].
  - assert (nonempty (trim (wz_toolPatterns s)) = false) as -> by (by rewrite E). clear Ht. split_and!; naive_solver.
  - apply nonempty_spec in E. rewrite E, <- Ht. split_and!; naive_solver.
Qed.

(** Restrictions the review step shows can be missing from the key: a
    custom expiration without a date yields no expiry scope, and a tool list
    that is a lone comma yields no tool scope, while the review rows name both. *)
Theorem review_overstates now s :
  wz_expiration s = Custom -> wz_customExpiry s = "" -> wz_toolPatterns s = "," ->
  (forall x, "expire:" +:+ x ∉ buildScopes now s) /\
  (forall x, "tool:" +:+ x ∉ buildScopes now s) /\
  ("Expiration", "Custom") ∈ StepReview_rows s /\ ("Tools", ",") ∈ StepReview_rows s.
Proof.
  intros He Hc Ht. unfold StepReview_rows. rewrite He, Ht. split_and!.
  - intros x. rewrite elem_buildScopes. unfold expiry_of. rewrite He, Hc. naive_solver.
  - intros x. rewrite elem_buildScopes, Ht. cbn. intros H. naive_solver set_solver.
  - rewrite Hc. cbn. set_solver.
  - cbn. set_solver.
Qed.

(** ** Witnesses *)
Definition strict_backend (b : ApiKeyCreate) : AxiosError + orval_response :=
  if ApiKeyCreate_accepts b
  then inr (mkOrval (Some (JObj [("plaintext", JStr "pk_live")])) 201 ∅)
  else inl (mkAxError "Request failed with status code 422" None).

Definition demo_wizard : WizardState := mkWizard "ci" "" "" "" [] "" Never "" "" "hour" "".

(** Opened, named, walked to the review step, submitted and answered. *)
Definition demo_run : modal :=
  let m := foldl (fun m e => handle e m) fresh_modal
             [Open; Fill demo_wizard; Continue; Continue; Continue; CreateKey 0] in
  handle (Reply (strict_backend (mkApiKeyCreate "ci" (Some (buildScopes 0 demo_wizard))))) m.

Lemma wizard_consistent_witness :
  md_sent demo_run = [form_request 0 demo_wizard] /\ md_step demo_run <= 4.
Proof.
  split; [reflexivity|]. apply (wizard_consistent strict_backend).
  eapply reach_reply; [|reflexivity]. repeat (apply reach_event; [|reflexivity]). apply reach_fresh.
Defined.

Lemma wizard_never_creates_witness : md_sent demo_run <> [] /\ md_revealed demo_run = None.
Proof.
  split; [done|]. apply (wizard_never_creates strict_backend).
  - intros b res. unfold strict_backend. by destruct (ApiKeyCreate_accepts b).
  - eapply reach_reply; [|reflexivity]. repeat (apply reach_event; [|reflexivity]). apply reach_fresh.
Defined.

Lemma review_overstates_witness : "tool:*" ∉ buildScopes 0 (mkWizard "ci" "" "" "" [] "," Custom "" "" "hour" "").
Proof. by apply (review_overstates 0 (mkWizard "ci" "" "" "" [] "," Custom "" "" "hour" "")) with (x := "*"). Defined.
