(* ===== verification/Servers.v ===== *)
(** * Registering a server: web/src/app/dashboard/servers/new/page.tsx

    The slug field and its coupling to the name, the submission, and the
    browser-side connection test; the backend's normalisation of slugs
    (api/app/models/schemas.py).  [new URL] is the platform's parser: a
    parameter. *)

From S2P Require Import Prelude JsString JsUri Json Browser AuthStore AxiosClient SessionGate ApiTypes ApiClient.

(** [s.replace(/\s+/g, "-")]; [run] says that the run's hyphen is written. *)
Fixpoint dash_ws (run : bool) (s : string) : string :=
  match s with
  | "" => ""
  | String c r =>
      if is_ws c then (if run then dash_ws true r else String "-" (dash_ws true r))
      else String c (dash_ws false r)
  end.

Fixpoint sfilter (p : ascii -> bool) (s : string) : string :=
  match s with "" => "" | String c r => if p c then String c (sfilter p r) else sfilter p r end.

(** [[a-z0-9-]] *)
Definition slug_char (c : ascii) : bool :=
  let n := code c in
  ((97 <=? n) && (n <=? 122) || (48 <=? n) && (n <=? 57) || (n =? 45))%N.

Definition slugify (s : string) : string := sfilter slug_char (dash_ws false (toLowerCase s)).

(** The part of the form that reaches the request. *)
Record server_form := mkForm {
  fm_name : string;
  fm_slug : string;
  fm_slugTouched : bool;
  fm_upstreamUrl : string;
  fm_healthCheckPath : string;
  fm_authMode : ServerAuthMode;
  fm_serviceTokenEnvVar : string }.

Definition initial_form : server_form := mkForm "" "" false "" "/healthz" ServerAuthMode_none "".

(** The effect that derives the slug while the user has not edited it. *)
Definition slug_effect (f : server_form) : server_form :=
  if fm_slugTouched f then f
  else mkForm (fm_name f) (slugify (fm_name f)) false (fm_upstreamUrl f) (fm_healthCheckPath f) (fm_authMode f)
         (fm_serviceTokenEnvVar f).

Inductive edit :=
  | Name (v : string)
  | Slug (v : string)
  | UpstreamUrl (v : string)
  | HealthCheckPath (v : string)
  | AuthMode (v : ServerAuthMode)
  | EnvVar (v : string).

(** The inputs' [onChange] handlers, followed by the effect of the render. *)
Definition change (e : edit) (f : server_form) : server_form :=
  let '(mkForm name slug touched url health auth var) := f in
  match e with
  | Name v => slug_effect (mkForm v slug touched url health auth var)
  | Slug v => slug_effect (mkForm name (slugify v) true url health auth var)
  | UpstreamUrl v => mkForm name slug touched v health auth var
  | HealthCheckPath v => mkForm name slug touched url v auth var
  | AuthMode v => mkForm name slug touched url health v var
  | EnvVar v => mkForm name slug touched url health auth v
  end.

Inductive form_reachable : server_form -> Prop :=
  | form_initial : form_reachable (slug_effect initial_form)
  | form_change e f : form_reachable f -> form_reachable (change e f).

Definition or_default (d s : string) : string := if bool_decide (s = "") then d else s.

Definition payload (f : server_form) : ServerCreate :=
  mkServerCreate (trim (fm_name f)) (trim (fm_slug f)) (trim (fm_upstreamUrl f))
    (Some ServerTransport_streamable_http) (Some (fm_authMode f))
    (if bool_decide (fm_authMode f = ServerAuthMode_service_token)
        && negb (bool_decide (trim (fm_serviceTokenEnvVar f) = ""))
     then Some (Some (trim (fm_serviceTokenEnvVar f))) else None)
    None None None (Some (or_default "/healthz" (fm_healthCheckPath f))).

(** The payload as [JSON.stringify] sends it: absent properties are left out. *)
Definition payload_json (p : ServerCreate) : json :=
  JObj ([("name", JStr (ServerCreate_name p)); ("slug", JStr (ServerCreate_slug p));
         ("upstream_url", JStr (ServerCreate_upstream_url p))]
    ++ opt_prop "transport" (JStr ∘ ServerTransport_value <$> ServerCreate_transport p)
    ++ opt_prop "auth_mode" (JStr ∘ ServerAuthMode_value <$> ServerCreate_auth_mode p)
    ++ opt_prop "health_check_path" (JStr <$> ServerCreate_health_check_path p)
    ++ opt_prop "service_token_env_var" (nullable_str <$> ServerCreate_service_token_env_var p)).

Inductive act := ToastError (msg : string) | ToastSuccess (msg : string) | PushTo (path : string).

Section submit.
Context (dispatch : AxiosDefaults -> AxiosConfig -> M (AxiosError + AxiosResponse)).
Context (isValidUrl : string -> bool).

Definition blank (s : string) : bool := bool_decide (trim s = "").

Definition server_path (slug : string) : string := "/dashboard/servers/" +:+ slug.

Definition handleSubmit (f : server_form) : M (list act) :=
  if blank (fm_name f) || blank (fm_slug f) || blank (fm_upstreamUrl f)
  then ret [ToastError "Name, slug, and base URL are required"]
  else if negb (isValidUrl (fm_upstreamUrl f))
  then ret [ToastError "Please enter a valid base URL (include http:// or https://)"]
  else
    try_catch
      (r <-- createServerV1ServersPost dispatch (payload_json (payload f)) None;
       match r with
       | inr _ => ret [ToastSuccess "Server registered successfully"; PushTo (server_path (trim (fm_slug f)))]
       | inl e => ret [ToastError (ae_message e)]
       end)
      (fun msg => ret [ToastError msg]).

(** ** The connection test *)
Inductive TestState := idle | testing | success | error.

Record TestResult := mkTest { tr_latencyMs : Z; tr_status : Z; tr_ok : bool }.

(** What a [no-cors] fetch can end in. *)
Inductive fetch_end :=
  | Opaque
  | Visible (status : Z) (ok : bool)
  | Aborted
  | Failed.

Definition cleanUrl (upstreamUrl : string) : string :=
  let n := String.length upstreamUrl in
  if bool_decide (sdrop (n - 1) upstreamUrl = "/") then stake (n - 1) upstreamUrl else upstreamUrl.

Definition fullUrl (upstreamUrl healthCheckPath : string) : string :=
  if bool_decide (upstreamUrl = "") then ""
  else cleanUrl upstreamUrl +:+ or_default "/healthz" healthCheckPath.

Definition handleTestConnection (upstreamUrl : string) (elapsed : Z) (res : fetch_end)
    (before : TestState * option TestResult * option string) : TestState * option TestResult * option string :=
  if negb (isValidUrl upstreamUrl) then before else
  match res with
  | Opaque => (success, Some (mkTest elapsed 200 true), None)
  | Visible status ok => (if ok then success else error, Some (mkTest elapsed status ok), None)
  | Aborted => (error, None, Some "Request timed out after 5 seconds")
  | Failed => (error, None, Some "Network or CORS error — the host may be unreachable from the browser")
  end.
End submit.

(** ** The backend: [_normalize_slug] and the slug check of [ServerCreate] *)
Fixpoint strip_start (c : ascii) (s : string) : string :=
  match s with String d r => if bool_decide (d = c) then strip_start c r else s | "" => "" end.

Fixpoint strip_end (c : ascii) (s : string) : string :=
  match s with
  | "" => ""
  | String d r => match strip_end c r with
                  | "" => if bool_decide (d = c) then "" else String d ""
                  | t => String d t
                  end
  end.

Definition space_to_hyphen (c : ascii) : ascii := if bool_decide (c = " "%char) then "-"%char else c.

Definition normalize_slug (value : string) : string :=
  strip_end "-" (strip_start "-" (sfilter slug_char (smap space_to_hyphen (toLowerCase value)))).

(** The slug a registration is stored under, when it is accepted. *)
Definition stored_slug (value : string) : option string :=
  let n := normalize_slug value in if bool_decide (n = "") then None else Some n.

Definition hyphen_free_ends (s : string) : Prop :=
  (forall t, s <> String "-" t) /\ (forall t, s <> t +:+ "-").

(** ** Lemmas *)

Lemma sfilter_forall p s : sforall p (sfilter p s) = true.
Proof. induction s as [|c s IH]; [done|]. simpl. destruct (p c) eqn:E; [|done]. simpl. by rewrite E. Qed.

Lemma sfilter_id p s : sforall p s = true -> sfilter p s = s.
Proof. induction s as [|c s IH]; [done|]. simpl. intros H. bool_hyps. by rewrite H, IH. Qed.

Lemma slug_char_facts c :
  slug_char c = true ->
  is_ws c = false /\ lower_char c = c /\ space_to_hyphen c = c /\ c ∉ ["/"; "?"; "#"]%char.
Proof.
  assert (slug_char c = true ->
    negb (is_ws c) && bool_decide (lower_char c = c) && bool_decide (space_to_hyphen c = c)
    && negb (bool_decide (c ∈ ["/"; "?"; "#"]%char)) = true) as H.
  { pose proof (ascii_check (fun c => implb (slug_char c)
      (negb (is_ws c) && bool_decide (lower_char c = c) && bool_decide (space_to_hyphen c = c)
       && negb (bool_decide (c ∈ ["/"; "?"; "#"]%char))))) as Hc.
    specialize (Hc ltac:(vm_compute; reflexivity) c). cbv beta in Hc. intros E. by rewrite E in Hc. }
  intros E. apply H in E. bool_hyps. done.
Qed.

Lemma smap_id_on f p s : (forall c, p c = true -> f c = c) -> sforall p s = true -> smap f s = s.
Proof. intros Hf. induction s as [|c s IH]; [done|]. simpl. intros H. bool_hyps. by rewrite Hf, IH. Qed.

Lemma dash_ws_id b s : sforall slug_char s = true -> dash_ws b s = s.
Proof.
  revert b. induction s as [|c s IH]; intros b; [done|]. simpl. intros H. bool_hyps.
  destruct (slug_char_facts c) as (-> & _); [done|]. by rewrite IH.
Qed.

Lemma slugify_chars s : sforall slug_char (slugify s) = true.
Proof. apply sfilter_forall. Qed.

(** Slugs are the fixed points of [slugify]. *)
Lemma slugify_id s : sforall slug_char s = true -> slugify s = s.
Proof.
  intros H. unfold slugify, toLowerCase. rewrite (smap_id_on _ slug_char), dash_ws_id, sfilter_id; try done.
  intros c Hc. by apply slug_char_facts in Hc as (_ & ? & _).
Qed.

Lemma slug_trim s : sforall slug_char s = true -> trim s = s.
Proof.
  intros H. apply no_ws_trim. eapply sforall_impl; [|exact H].
  intros c Hc. apply slug_char_facts in Hc as (-> & _). done.
Qed.

Lemma slug_segment s : s <> "" -> sforall slug_char s = true -> segment_safe s = true.
Proof.
  intros Hn H. unfold segment_safe. rewrite (sforall_impl slug_char segment_char); [|..|done].
  - apply bool_decide_eq_true. intros Hin. apply list_elem_of_In in Hin. simpl in Hin.
    destruct_or?; subst; done.
  - intros c Hc. destruct c as [[] [] [] [] [] [] [] []]; first [reflexivity|discriminate Hc].
Qed.

Lemma strip_start_id c s : (forall t, s <> String c t) <-> strip_start c s = s.
Proof.
  destruct s as [|d s]; [done|]. simpl. case_bool_decide as E; [subst d|naive_solver]. split; [naive_solver|].
  intros H. assert (String.length (strip_start c s) <= String.length s) as Hl.
  { clear. induction s as [|d s IH]; [done|]. simpl. case_bool_decide; simpl; lia. }
  rewrite H in Hl. simpl in Hl. lia.
Qed.

Lemma strip_end_app c s : strip_end c (s +:+ String c "") = strip_end c s.
Proof.
  induction s as [|d s IH]; simpl; [by rewrite bool_decide_true|]. by rewrite IH.
Qed.

Lemma strip_end_length c s : String.length (strip_end c s) <= String.length s.
Proof.
  induction s as [|d s IH]; [done|]. simpl. destruct (strip_end c s); [case_bool_decide|]; simpl in *; lia.
Qed.

Lemma strip_end_cases c s : strip_end c s = s \/ exists t, s = t +:+ String c "".
Proof.
  induction s as [|d s IH]; [by left|]. simpl. destruct IH as [IH|[t ->]].
  - rewrite IH. destruct s as [|e s]; [|by left]. case_bool_decide as E; [|by left]. subst. right. by exists "".
  - right. by exists (String d t).
Qed.

Lemma strip_end_id c s : (forall t, s <> t +:+ String c "") <-> strip_end c s = s.
Proof.
  split.
  - intros H. destruct (strip_end_cases c s) as [?|[t ?]]; [done|]. by destruct (H t).
  - intros H t ->. rewrite strip_end_app in H. pose proof (strip_end_length c t) as Hl.
    rewrite H, sapp_length in Hl. simpl in Hl. lia.
Qed.

(** The backend stores a console slug unchanged exactly when it has no hyphen
    at either end. *)
Lemma normalize_slug_id s : sforall slug_char s = true -> (normalize_slug s = s <-> hyphen_free_ends s).
Proof.
  intros H. unfold normalize_slug, toLowerCase.
  rewrite (smap_id_on lower_char slug_char), (smap_id_on space_to_hyphen slug_char), sfilter_id; try done.
  2-3: intros c Hc; by apply slug_char_facts in Hc as (_ & ? & ? & _).
  unfold hyphen_free_ends. split.
  - intros E.
    assert (strip_start "-" s = s) as Hs.
    { apply strip_start_id. intros t ->. simpl in E. pose proof (strip_end_length "-" (strip_start "-" t)) as H1.
      assert (String.length (strip_start "-" t) <= String.length t) as H2.
      { clear. induction t as [|d t IH]; [done|]. simpl. case_bool_decide; simpl; lia. }
      rewrite E in H1. simpl in H1. lia. }
    rewrite Hs in E. split; [by apply strip_start_id|by apply strip_end_id].
  - intros [H1%strip_start_id H2%strip_end_id]. by rewrite H1.
Qed.

Lemma form_slug_ok f :
  form_reachable f ->
  sforall slug_char (fm_slug f) = true /\ (fm_slugTouched f = false -> fm_slug f = slugify (fm_name f)).
Proof.
  induction 1 as [|e f _ [IH1 IH2]]; [done|]. destruct f as [name slug touched url health auth var].
  destruct e; cbn; try done; unfold slug_effect; cbn; [destruct touched; cbn|]; try done;
    (split; [apply slugify_chars|done]).
Qed.

(** ** Properties *)

(** Slugs are always addressable: whatever is typed, the slug of the form
    holds only [a-z], [0-9] and hyphens (it follows the name until it is
    edited), so submitting trims nothing off it and the generated client's
    request for that server reaches exactly that server, unless it is empty. *)
Theorem slug_addressable f :
  form_reachable f ->
  (fm_slugTouched f = false -> fm_slug f = slugify (fm_name f)) /\
  slugify (fm_slug f) = fm_slug f /\
  ServerCreate_slug (payload f) = fm_slug f /\
  (fm_slug f <> "" -> route "GET" (op_url (Op_getServerV1ServersSlugGet (fm_slug f))) =
    Some ("getServerV1ServersSlugGet", [fm_slug f], [])).
Proof.
  intros [H Ht]%form_slug_ok. split_and!; [done|by apply slugify_id|by apply slug_trim|].
  intros Hn. apply (op_routed (Op_getServerV1ServersSlugGet (fm_slug f))). cbn [op_ids forallb].
  by rewrite slug_segment.
Qed.

(** After a registration the console opens the page of the server that
    was stored exactly when the slug has no hyphen at its ends: the backend
    strips those, the console does not, and navigates to its own spelling. *)
Theorem registration_lands dispatch isValidUrl f w w' acts stored :
  form_reachable f ->
  handleSubmit dispatch isValidUrl f w = (Ok acts, w') ->
  ToastSuccess "Server registered successfully" ∈ acts ->
  stored_slug (ServerCreate_slug (payload f)) = Some stored ->
  (PushTo (server_path stored) ∈ acts <-> hyphen_free_ends (fm_slug f)).
Proof.
  intros [Hf _]%form_slug_ok Hh Ha Hs.
  assert (acts = [ToastSuccess "Server registered successfully"; PushTo (server_path (fm_slug f))]) as ->.
  { unfold handleSubmit in Hh. rewrite slug_trim in Hh by done.
    destruct (_ || _); [unfold ret in Hh; simplify_eq; set_solver|].
    destruct (negb _); [unfold ret in Hh; simplify_eq; set_solver|].
    unfold try_catch, bind in Hh. destruct (createServerV1ServersPost _ _ _ _) as [[[e|r]|e] w1];
      unfold ret in Hh; simplify_eq; [set_solver|done|set_solver]. }
  unfold stored_slug in Hs. change (ServerCreate_slug (payload f)) with (trim (fm_slug f)) in Hs.
  rewrite slug_trim in Hs by done. case_bool_decide; [done|]. simplify_eq.
  rewrite <- normalize_slug_id by done. rewrite !elem_of_cons, elem_of_nil. split.
  - intros [?|[E|[]]]; [done|]. injection E as E. exact E.
  - intros ->. auto.
Qed.

(** Nothing is sent from an incomplete form: with a blank name, slug or
    address, or an address that is no URL, the submission only reports the
    error; otherwise the request body carries the trimmed fields, and the
    token variable only in token mode. *)
Theorem incomplete_form_not_sent dispatch isValidUrl f w :
  (trim (fm_name f) = "" \/ trim (fm_slug f) = "" \/ trim (fm_upstreamUrl f) = "" \/ isValidUrl (fm_upstreamUrl f) = false ->
   exists msg, handleSubmit dispatch isValidUrl f w = (Ok [ToastError msg], w)) /\
  (ServerCreate_service_token_env_var (payload f) <> None -> fm_authMode f = ServerAuthMode_service_token).
Proof.
  split.
  - intros H. unfold handleSubmit, blank. repeat case_bool_decide; try (eexists; reflexivity).
    destruct H as [?|[?|[?| ->]]]; try done. eexists; reflexivity.
  - cbn. by case_bool_decide.
Qed.

(** ** Witnesses *)

(** Typing a name with a trailing blank, then the address. *)
Definition demo_form : server_form :=
  change (UpstreamUrl "http://localhost:3001") (change (Name "My Server ") (slug_effect initial_form)).

Definition created : AxiosDefaults -> AxiosConfig -> M (AxiosError + AxiosResponse) :=
  fun _ _ => ret (inr (mkAxResponse None 201 ∅)).

Lemma slug_addressable_witness : fm_slug demo_form = "my-server-" /\ slugify (fm_slug demo_form) = fm_slug demo_form.
Proof. split; [done|]. apply (slug_addressable demo_form). do 2 apply form_change. apply form_initial. Defined.

Lemma registration_lands_witness : PushTo (server_path "my-server") ∉
  [ToastSuccess "Server registered successfully"; PushTo (server_path (fm_slug demo_form))].
Proof.
  intros H. eapply (registration_lands created (fun _ => true) demo_form (demo_world ∅ []) _ _ "my-server") in H.
  - by destruct H as [_ H]; destruct (H "my-server").
  - do 2 apply form_change. apply form_initial.
  - vm_compute. reflexivity.
  - set_solver.
  - reflexivity.
Defined.

Lemma incomplete_form_not_sent_witness :
  exists msg, handleSubmit created (fun _ => true) initial_form (demo_world ∅ []) = (Ok [ToastError msg], demo_world ∅ []).
Proof. apply (incomplete_form_not_sent created (fun _ => true) initial_form (demo_world ∅ [])). by left. Defined.
