(* ===== verification/Triage.v ===== *)
(** * Traces, error groups, incidents and alert rules

    The pages below dashboard/observability and dashboard/alerts that an
    operator works through: the synthesised traces ([Traces]), the grouped
    errors with their local triage state ([ErrorsPage]), the incident page
    ([Incidents]) and the alert rules ([Alerts]). *)

From Stdlib Require Import Sorting.Sorted ZifyBool.
From stdpp Require Import sorting.
From S2P Require Import Prelude JsString Json Browser JsDate RelTime Tally ApiTypes Traffic AuditPage.

(** Text between double quotes, as the templates print names. *)
Definition quoted (s : string) : string := dquote +:+ s +:+ dquote.

Definition outcome_is (o : string) (l : Log) : bool := bool_decide (AuditLogView_outcome l = o).

Definition detail_json (l : Log) : json := JObj (AuditLogView_detail l).

(** The entries both pages treat as errors. *)
Definition is_error (l : Log) : bool :=
  is_event AuditEventType_auth_failure l || is_event AuditEventType_rbac_deny l ||
  outcome_is "error" l || outcome_is "failure" l || outcome_is "rate_limited" l.

(** ** web/src/app/dashboard/observability/traces/page.tsx *)
Module Traces.

Inductive span_status := ok | error | warn.

#[export] Instance span_status_eq_dec : EqDecision span_status.
Proof. solve_decision. Defined.

Record Span := mkSpan {
  sp_id : string; sp_name : string; sp_startOffset : Z; sp_duration : Z; sp_status : span_status;
  sp_attributes : list (string * string); sp_logs : list string; sp_errors : list string }.

Record SpanDefinition := mkDef {
  sd_name : string; sd_baseOffset : Z; sd_baseDuration : Z;
  sd_statusFn : Log -> span_status; sd_attrsFn : Log -> list (string * string);
  sd_logsFn : Log -> list string; sd_errorsFn : Log -> list string }.

Definition or (d : string) (o : option string) : string := default d o.

Definition auth_failed (l : Log) : bool := is_event AuditEventType_auth_failure l.
Definition denied (l : Log) : bool := is_event AuditEventType_rbac_deny l.
Definition limited (l : Log) : bool := outcome_is "rate_limited" l.
Definition untooled (l : Log) : bool := negb (truthy (AuditLogView_tool_name l)).

Definition SPAN_DEFINITIONS : list SpanDefinition :=
  [mkDef "Client request" 0 2 (fun _ => ok)
     (fun l => [("http.method", "POST"); ("http.url", "/rpc");
                ("client.ip", or "unknown" (AuditLogView_client_ip l));
                ("request.id", or "—" (AuditLogView_request_id l))])
     (fun _ => ["Request received"]) (fun _ => []);
   mkDef "Authentication" 3 8 (fun l => if auth_failed l then error else ok)
     (fun l => [("auth.subject", or "—" (AuditLogView_subject_id l));
                ("auth.type", or "api_key" (SubjectType_value <$> AuditLogView_subject_type l));
                ("auth.outcome", if auth_failed l then "fail" else "pass")])
     (fun l => if auth_failed l then ["Token validation failed"] else ["API key verified"; "Subject resolved"])
     (fun l => if auth_failed l then ["Authentication failed: invalid or expired API key"] else []);
   mkDef "Policy evaluation" 12 6 (fun l => if denied l then error else ok)
     (fun l => [("policy.server", or "—" (AuditLogView_server_slug l));
                ("policy.tool", or "—" (AuditLogView_tool_name l));
                ("policy.outcome", if denied l then "deny" else "allow")])
     (fun l => if denied l then ["RBAC policy matched: deny"] else ["Permissions resolved"; "Policy check passed"])
     (fun l => if denied l
               then ["Access denied to tool " +:+ quoted (or "unknown" (AuditLogView_tool_name l))
                     +:+ " on server " +:+ quoted (or "unknown" (AuditLogView_server_slug l))]
               else []);
   mkDef "Rate limit check" 19 4 (fun l => if limited l then error else ok)
     (fun l => [("ratelimit.subject", or "—" (AuditLogView_subject_id l));
                ("ratelimit.server", or "—" (AuditLogView_server_slug l));
                ("ratelimit.result", if limited l then "exceeded" else "allowed")])
     (fun l => if limited l then ["Rate limit quota exceeded"] else ["Quota checked"; "Within limits"])
     (fun l => if limited l then ["Rate limit exceeded — request dropped"] else []);
   mkDef "Tool registry lookup" 24 3 (fun l => if untooled l then warn else ok)
     (fun l => [("tool.name", or "unknown" (AuditLogView_tool_name l));
                ("tool.server", or "—" (AuditLogView_server_slug l));
                ("tool.rpc", or "—" (AuditLogView_rpc_method l))])
     (fun l => if untooled l then ["Tool not found in registry"]
               else ["Tool " +:+ quoted (or "" (AuditLogView_tool_name l)) +:+ " resolved"; "Schema loaded"])
     (fun l => if untooled l then ["Tool not registered — proxying blind"] else []);
   mkDef "Upstream connection" 28 12 (fun l => if outcome_is "error" l then warn else ok)
     (fun l => [("upstream.server", or "—" (AuditLogView_server_slug l)); ("upstream.transport", "http");
                ("upstream.status", if outcome_is "error" l then "degraded" else "healthy")])
     (fun _ => ["TCP connect"; "TLS handshake"; "Connection pooled"])
     (fun l => if outcome_is "error" l then ["Upstream responded slowly"] else []);
   mkDef "Tool execution" 41 35
     (fun l => if outcome_is "error" l || outcome_is "failure" l then error
               else if outcome_is "warn" l then warn else ok)
     (fun l => [("tool.name", or "—" (AuditLogView_tool_name l));
                ("tool.server", or "—" (AuditLogView_server_slug l));
                ("exec.outcome", AuditLogView_outcome l); ("exec.rpc", or "—" (AuditLogView_rpc_method l))])
     (fun l => if outcome_is "error" l then ["Tool invoked"; "Upstream returned error"]
               else ["Tool invoked"; "Response received"; "Parsing result"])
     (fun l => if outcome_is "error" l then [JSON_stringify (detail_json l)] else []);
   mkDef "Response filtering" 77 5 (fun _ => ok)
     (fun _ => [("filter.pii", "active"); ("filter.redact_secrets", "active")])
     (fun _ => ["PII scan complete"; "Secrets redacted"; "Response approved"]) (fun _ => []);
   mkDef "Audit event" 83 2 (fun _ => ok)
     (fun l => [("audit.event_type", AuditEventType_value (AuditLogView_event_type l));
                ("audit.outcome", AuditLogView_outcome l); ("audit.id", AuditLogView_id l)])
     (fun _ => ["Audit record written"]) (fun _ => [])].

Definition cutAfter (l : Log) : nat :=
  if auth_failed l then 2 else if denied l then 3 else if limited l then 4 else length SPAN_DEFINITIONS.

Definition span_of (l : Log) (i : nat) (d : SpanDefinition) : Span :=
  mkSpan (AuditLogView_id l +:+ "-span-" +:+ pretty i) (sd_name d) (sd_baseOffset d) (sd_baseDuration d)
    (sd_statusFn d l) (sd_attrsFn d l) (sd_logsFn d l) (sd_errorsFn d l).

Definition spans_of (l : Log) : list Span := imap (span_of l) (take (cutAfter l) SPAN_DEFINITIONS).

Definition span_end (s : Span) : Z := (sp_startOffset s + sp_duration s)%Z.

Record Trace := mkTrace {
  tr_id : string; tr_tool : string; tr_server : string; tr_user : string; tr_outcome : string;
  tr_startTime : string; tr_totalDuration : Z; tr_spans : list Span; tr_raw : Log }.

Definition buildTrace (l : Log) : Trace :=
  let spans := spans_of l in
  mkTrace (or (AuditLogView_id l) (AuditLogView_request_id l)) (or "—" (AuditLogView_tool_name l))
    (or "—" (AuditLogView_server_slug l))
    (if truthy (AuditLogView_subject_id l) then stake 8 (or "" (AuditLogView_subject_id l)) +:+ "…" else "—")
    (if is_error l then "error" else "success") (created_at l)
    (fold_left (fun m s => Z.max m (span_end s)) spans 0%Z) spans l.

(** The list's filters.  [at_least s] is the comparison [n >= Number(s)], and
    [None] when [Number(s)] is [NaN]. *)
Record filters := mkFilters {
  ft_search : string; ft_server : string; ft_outcome : string; ft_tool : string;
  ft_minDuration : string; ft_dateFrom : string }.

Definition filtered (tz : Z) (at_least : string -> option (Z -> bool)) (f : filters) (traces : list Trace)
    : list Trace :=
  let contains (q v : string) := includes (toLowerCase v) (toLowerCase q) in
  let r := filter_if (ft_search f) (fun t =>
    contains (ft_search f) (tr_id t) || contains (ft_search f) (tr_tool t) ||
    contains (ft_search f) (tr_server t) || contains (ft_search f) (tr_user t)) traces in
  let r := filter_if (ft_server f) (fun t => bool_decide (tr_server t = ft_server f)) r in
  let r := filter_if (ft_outcome f) (fun t => bool_decide (tr_outcome t = ft_outcome f)) r in
  let r := filter_if (ft_tool f) (fun t => contains (ft_tool f) (tr_tool t)) r in
  let r := match at_least (ft_minDuration f) with
           | Some p => filter_if (ft_minDuration f) (fun t => p (tr_totalDuration t)) r
           | None => r
           end in
  filter_if (ft_dateFrom f) (fun t =>
    match Date_parse tz (tr_startTime t), Date_parse tz (ft_dateFrom f) with
    | Some a, Some b => (b <=? a)%Z
    | _, _ => false
    end) r.

(** The bar of a span lies inside the waterfall of its trace. *)
Definition within_trace (t : Trace) (s : Span) : Prop :=
  (0 <= sp_startOffset s /\ 0 < sp_duration s /\ span_end s <= tr_totalDuration t)%Z.

(** Spans in sequence, each ending before the next starts. *)
Fixpoint in_sequence (l : list Span) : Prop :=
  match l with
  | s :: ((s' :: _) as r) => (span_end s < sp_startOffset s')%Z /\ in_sequence r
  | _ => True
  end.

(** The four lengths a trace can have. *)
Lemma spans_cases l (P : list Span -> Prop) :
  (forall n, n ∈ [2; 3; 4; 9] -> cutAfter l = n -> P (imap (span_of l) (take n SPAN_DEFINITIONS))) -> P (spans_of l).
Proof.
  intros H. unfold spans_of. apply H; [|done]. unfold cutAfter. destruct (auth_failed l), (denied l), (limited l); set_solver.
Qed.

Lemma spans_error l : is_error l = true <-> exists s, s ∈ spans_of l /\ sp_status s = error.
Proof.
  unfold spans_of. setoid_rewrite elem_of_lookup_imap.
  transitivity (exists i d, take (cutAfter l) SPAN_DEFINITIONS !! i = Some d /\ sd_statusFn d l = error); [|naive_solver].
  unfold is_error, cutAfter. fold (auth_failed l) (denied l) (limited l).
  destruct (auth_failed l) eqn:Ha; [split; [intros _; by eexists 1, _; split; [reflexivity|cbn; rewrite Ha]|done]|].
  destruct (denied l) eqn:Hd; [split; [intros _; by eexists 2, _; split; [reflexivity|cbn; rewrite Hd]|done]|].
  destruct (limited l) eqn:Hl; rewrite ?orb_true_r;
    [split; [intros _; by eexists 3, _; split; [reflexivity|cbn; rewrite Hl]|done]|].
  rewrite orb_false_r. cbn [orb]. split.
  - intros H. eexists 6, _. split; [reflexivity|]. cbn. by rewrite H.
  - intros (i & d & Hi & Hs). do 9 (destruct i as [|i]; [cbn in Hi; simplify_eq; cbn in Hs;
      rewrite ?Ha, ?Hd, ?Hl in Hs; repeat case_match; done|]). done.
Qed.

Lemma spans_timing l :
  in_sequence (spans_of l) /\ Forall (within_trace (buildTrace l)) (spans_of l).
Proof.
  unfold within_trace. cbn [tr_totalDuration buildTrace].
  apply (spans_cases l (fun ss => in_sequence ss /\ Forall (fun s =>
    0 <= sp_startOffset s /\ 0 < sp_duration s /\ span_end s <= fold_left (fun m s => Z.max m (span_end s)) ss 0)%Z ss)).
  intros n Hn _. rewrite !elem_of_cons, elem_of_nil in Hn.
  destruct Hn as [->|[->|[->|[->|[]]]]]; cbn; split; repeat constructor; done.
Qed.

Lemma stopped_names l :
  auth_failed l || denied l || limited l = true ->
  "Upstream connection" ∉ map sp_name (spans_of l) /\ "Tool execution" ∉ map sp_name (spans_of l) /\
  exists s, last (spans_of l) = Some s /\ sp_status s = error.
Proof.
  intros H. unfold spans_of, cutAfter.
  destruct (auth_failed l) eqn:Ha, (denied l) eqn:Hd, (limited l) eqn:Hl; try done; cbn;
    (split_and!; [set_solver|set_solver|]); eexists; (split; [reflexivity|]); cbn; by rewrite ?Ha, ?Hd, ?Hl.
Qed.

(** A trace tells the outcome of its entry: it is marked as an error
    exactly when the errors page counts the entry, exactly when one of its
    spans failed; its spans follow one another without overlap inside the total
    duration; and a request refused by authentication, policy or rate limit
    ends with the span that refused it and shows no upstream or tool span. *)
Theorem trace_faithful l :
  let t := buildTrace l in
  (tr_outcome t = "error" <-> is_error l = true) /\
  (tr_outcome t = "error" <-> exists s, s ∈ tr_spans t /\ sp_status s = error) /\
  in_sequence (tr_spans t) /\ Forall (within_trace t) (tr_spans t) /\
  (auth_failed l || denied l || limited l = true ->
   "Upstream connection" ∉ map sp_name (tr_spans t) /\ "Tool execution" ∉ map sp_name (tr_spans t) /\
   exists s, last (tr_spans t) = Some s /\ sp_status s = error).
Proof.
  cbv zeta. split_and!; [by cbn; destruct (is_error l)| | | |].
  - assert (tr_outcome (buildTrace l) = "error" <-> is_error l = true) as -> by (cbn; by destruct (is_error l)).
    apply spans_error.
  - by destruct (spans_timing l).
  - by destruct (spans_timing l).
  - intros H. apply stopped_names. done.
Qed.
End Traces.

(** ** web/src/app/dashboard/observability/errors/page.tsx *)
Module ErrorsPage.

Inductive ResolutionStatus := open | resolved | muted.

#[export] Instance ResolutionStatus_eq_dec : EqDecision ResolutionStatus.
Proof. solve_decision. Defined.

Definition status_id (s : ResolutionStatus) : string :=
  match s with open => "open" | resolved => "resolved" | muted => "muted" end.

Record ErrorGroup := mkGroup {
  eg_key : string; eg_title : string; eg_type : AuditEventType; eg_server : string; eg_tool : string;
  eg_frequency : nat; eg_firstSeen : string; eg_lastSeen : string;
  eg_affectedServers : list string; eg_affectedTools : list string; eg_samples : list Log;
  eg_status : ResolutionStatus; eg_owner : string; eg_isMuted : bool }.

Definition errorLogs (logs : list Log) : list Log := List.filter is_error logs.

Definition group_key (l : Log) : string :=
  AuditEventType_value (AuditLogView_event_type l) +:+ "::" +:+ default "unknown" (AuditLogView_server_slug l)
  +:+ "::" +:+ default "unknown" (AuditLogView_tool_name l).

Definition byKey (logs : list Log) : list (string * list Log) :=
  group (fun l => Some (group_key l)) (fun l v => default [] v ++ [l]) (errorLogs logs).

(** The comparator of the sort by time; [NaN] compares as equal. *)
Definition earlier (tz : Z) (a b : Log) : bool :=
  match time_of tz a, time_of tz b with Some x, Some y => (x <=? y)%Z | _, _ => true end.

(** [[...new Set(l.filter(Boolean))]] *)
Definition distinct (l : list (option string)) : list string := fold_left Observability.set_add_str l [].

(** The entry's [detail] is an object, hence truthy: the last fallback of the
    source is not reached. *)
Definition title_of (rep : Log) : string :=
  let server := default "server" (AuditLogView_server_slug rep) in
  if is_event AuditEventType_auth_failure rep then "Authentication failure"
  else if is_event AuditEventType_rbac_deny rep
  then "Access denied to " +:+ quoted (default "tool" (AuditLogView_tool_name rep)) +:+ " on " +:+ quoted server
  else if outcome_is "rate_limited" rep then "Rate limit exceeded on " +:+ quoted server
  else JSON_stringify (detail_json rep).

(** One entry of [byKey]; a group has at least one sample. *)
Definition make_group (tz : Z) (e : string * list Log) : option ErrorGroup :=
  let '(key, samples) := e in
  match samples with
  | [] => None
  | rep :: _ =>
      let sorted := stable_sort (earlier tz) samples in
      Some (mkGroup key (title_of rep) (AuditLogView_event_type rep)
        (default "unknown" (AuditLogView_server_slug rep)) (default "—" (AuditLogView_tool_name rep))
        (length samples) (from_option created_at "" (head sorted)) (from_option created_at "" (last sorted))
        (distinct (AuditLogView_server_slug <$> samples)) (distinct (AuditLogView_tool_name <$> samples))
        (take 5 samples) open "" false)
  end.

Definition groupErrors (tz : Z) (logs : list Log) : list ErrorGroup :=
  stable_sort (by_desc (fun g => Z.of_nat (eg_frequency g))) (omap (make_group tz) (byKey logs)).

(** *** The local triage state *)
Record LocalGroupState := mkLocal { lg_status : ResolutionStatus; lg_owner : string; lg_isMuted : bool }.

Definition getState (st : gmap string LocalGroupState) (key : string) : LocalGroupState :=
  default (mkLocal open "" false) (st !! key).

(** The patches the card's buttons apply. *)
Inductive patch := SetOwner (o : string) | Resolve | Reopen | ToggleMute.

Definition apply_patch (p : patch) (s : LocalGroupState) : LocalGroupState :=
  match p with
  | SetOwner o => mkLocal (lg_status s) o (lg_isMuted s)
  | Resolve => mkLocal resolved (lg_owner s) (lg_isMuted s)
  | Reopen => mkLocal open (lg_owner s) (lg_isMuted s)
  | ToggleMute => mkLocal (lg_status s) (lg_owner s) (negb (lg_isMuted s))
  end.

Definition updateState (key : string) (p : patch) (st : gmap string LocalGroupState) : gmap string LocalGroupState :=
  <[key := apply_patch p (getState st key)]> st.

Record filters := mkFilters { ef_search : string; ef_type : string; ef_status : string; ef_showMuted : bool }.

Definition matches (q : string) (g : ErrorGroup) : bool :=
  let q := toLowerCase q in
  includes (toLowerCase (eg_title g)) q || includes (toLowerCase (eg_server g)) q || includes (toLowerCase (eg_tool g)) q.

Definition filtered (f : filters) (st : gmap string LocalGroupState) (baseGroups : list ErrorGroup) : list ErrorGroup :=
  let r := filter_if (ef_search f) (matches (ef_search f)) baseGroups in
  let r := filter_if (ef_type f) (fun g => bool_decide (AuditEventType_value (eg_type g) = ef_type f)) r in
  let r := filter_if (ef_status f) (fun g => bool_decide (status_id (lg_status (getState st (eg_key g))) = ef_status f)) r in
  if ef_showMuted f then r else List.filter (fun g => negb (lg_isMuted (getState st (eg_key g)))) r.

Definition openCount (st : gmap string LocalGroupState) (gs : list ErrorGroup) : nat :=
  length (List.filter (fun g => bool_decide (lg_status (getState st (eg_key g)) = open)) gs).
Definition mutedCount (st : gmap string LocalGroupState) (gs : list ErrorGroup) : nat :=
  length (List.filter (fun g => lg_isMuted (getState st (eg_key g))) gs).
Definition totalOccurrences (gs : list ErrorGroup) : nat := foldr (fun g n => eg_frequency g + n) 0 gs.

(** *** Lemmas *)

Lemma byKey_elem logs k samples :
  (k, samples) ∈ byKey logs ->
  samples = filter (fun l => Some (group_key l) = Some k) (errorLogs logs) /\ samples <> [].
Proof.
  unfold byKey. rewrite group_elem.
  apply (accumulate_inv (fun l => Some (group_key l)) _ (fun ls v => v = ls /\ v <> [])).
  - done.
  - intros xs x v _ [-> _]. cbn. split; [done|]. by destruct xs.
Qed.

(** The earliest and the latest of readable times. *)
Lemma time_ends tz samples (f := fun l => default 0%Z (time_of tz l)) :
  samples <> [] -> (forall l, l ∈ samples -> is_Some (time_of tz l)) ->
  exists a b, head (stable_sort (earlier tz) samples) = Some a /\ last (stable_sort (earlier tz) samples) = Some b /\
    a ∈ samples /\ b ∈ samples /\ forall l, l ∈ samples -> (f a <= f l <= f b)%Z.
Proof.
  intros Hne Hp. rewrite (stable_sort_ext _ (by_asc f)).
  2: { intros x y Hx Hy. apply Hp in Hx as [a Ha], Hy as [b Hb]. unfold earlier, by_asc, f. by rewrite Ha, Hb. }
  pose proof (stable_sort_sorted (by_asc f) samples) as Hs.
  pose proof (stable_sort_perm (by_asc f) samples) as Hperm.
  destruct (stable_sort (by_asc f) samples) as [|a r] eqn:E; [by apply Permutation_nil in Hperm|].
  destruct (last (a :: r)) as [b|] eqn:Eb; [|by apply last_None in Eb].
  apply last_Some in Eb as [r' Er].
  exists a, b. split_and!; [done|done|rewrite <- Hperm; set_solver|
    rewrite <- Hperm, Er; set_solver|].
  intros l. rewrite <- Hperm. intros Hl. split.
  - apply StronglySorted_inv in Hs as [_ Hf]. rewrite Forall_forall in Hf.
    apply elem_of_cons in Hl as [->|Hl]; [lia|]. apply Hf in Hl. unfold by_asc in Hl. lia.
  - rewrite Er in Hl, Hs. apply elem_of_app in Hl as [Hl| ->%list_elem_of_singleton]; [|lia].
    pose proof (StronglySorted_app_1_elem_of _ _ _ l b Hs Hl ltac:(set_solver)) as H. by apply Z.leb_le in H.
Qed.

Lemma make_group_key tz e g :
  make_group tz e = Some g -> eg_key g = e.1 /\ eg_frequency g = length (e.2) /\ eg_samples g = take 5 (e.2).
Proof. destruct e as [k [|rep ss]]; intros [= <-]; done. Qed.

(** Every entry of [byKey] makes a group, in order and under the same key. *)
Lemma groups_keys tz logs : eg_key <$> omap (make_group tz) (byKey logs) = (byKey logs).*1.
Proof.
  assert (forall e, e ∈ byKey logs -> e.2 <> []) as H by (intros [k ss] [_ ?]%byKey_elem; done).
  induction (byKey logs) as [|[k ss] m IH]; [done|]. cbn.
  destruct ss as [|rep ss]; [by destruct (H (k, []) ltac:(set_solver))|]. cbn. rewrite IH; [done|set_solver].
Qed.

Lemma groups_total tz logs :
  totalOccurrences (omap (make_group tz) (byKey logs)) = length (errorLogs logs).
Proof.
  assert (weights (fun v : list Log => Z.of_nat (length v)) (byKey logs) = Z.of_nat (length (errorLogs logs))) as H.
  { unfold byKey. rewrite group_weight.
    - do 2 f_equal. induction (errorLogs logs) as [|l ls IH]; [done|].
      rewrite filter_cons, decide_True by (by eexists). by rewrite IH.
    - intros x [v|]; cbn; rewrite ?length_app; cbn; lia. }
  apply Nat2Z.inj. rewrite <- H. unfold weights, totalOccurrences. clear H.
  induction (byKey logs) as [|[k [|rep ss]] m IH]; [done| |]; cbn; [exact IH|].
  rewrite <- IH. lia.
Qed.

Lemma total_perm gs gs' : gs ≡ₚ gs' -> totalOccurrences gs = totalOccurrences gs'.
Proof. unfold totalOccurrences. induction 1; cbn; lia. Qed.

(** The filters as one test. *)
Definition keeps (f : filters) (st : gmap string LocalGroupState) (g : ErrorGroup) : bool :=
  (bool_decide (ef_search f = "") || matches (ef_search f) g)
  && (bool_decide (ef_type f = "") || bool_decide (AuditEventType_value (eg_type g) = ef_type f))
  && (bool_decide (ef_status f = "") || bool_decide (status_id (lg_status (getState st (eg_key g))) = ef_status f))
  && (ef_showMuted f || negb (lg_isMuted (getState st (eg_key g)))).

Lemma filter_if_filter {A} (c : string) (p : A -> bool) l :
  filter_if c p l = List.filter (fun x => bool_decide (c = "") || p x) l.
Proof. unfold filter_if. case_bool_decide; cbn [orb]; [by rewrite List.filter_true|done]. Qed.

Lemma filter_fold {A} (p q : A -> bool) l : List.filter p (List.filter q l) = List.filter (fun x => q x && p x) l.
Proof. induction l as [|x l IH]; cbn; [done|]. destruct (q x); cbn; rewrite ?IH; done. Qed.

Lemma filtered_keeps f st gs : filtered f st gs = List.filter (keeps f st) gs.
Proof.
  unfold filtered. cbv zeta. rewrite !filter_if_filter, !filter_fold. unfold keeps.
  destruct (ef_showMuted f); cbn [orb]; rewrite ?filter_fold; apply List.filter_ext; intros g;
    by rewrite ?andb_true_r, ?andb_assoc.
Qed.

Lemma getState_update k k' p st :
  getState (updateState k p st) k' = if bool_decide (k = k') then apply_patch p (getState st k) else getState st k'.
Proof.
  unfold getState at 1, updateState. case_bool_decide as E.
  - subst. by rewrite lookup_insert_eq.
  - by rewrite lookup_insert_ne.
Qed.

(** [C38] The error groups are exact: their keys are distinct, each counts
    precisely the error entries with its event, server and tool and keeps the
    first five as samples; every error entry is in a group and the frequencies
    add up to the number of error entries; the most frequent group comes first;
    and when a group's timestamps are readable its first and last sightings are
    the extreme ones. *)
Theorem error_page_groups_exact tz logs :
  let gs := groupErrors tz logs in
  let mine g := filter (fun l => Some (group_key l) = Some (eg_key g)) (errorLogs logs) in
  NoDup (eg_key <$> gs) /\
  (forall g, g ∈ gs -> eg_frequency g = length (mine g) /\ eg_samples g = take 5 (mine g) /\
     ((forall l, l ∈ mine g -> is_Some (time_of tz l)) ->
      exists a b, a ∈ mine g /\ b ∈ mine g /\ eg_firstSeen g = created_at a /\ eg_lastSeen g = created_at b /\
        forall l, l ∈ mine g -> (default 0 (time_of tz a) <= default 0 (time_of tz l) <= default 0 (time_of tz b))%Z)) /\
  (forall l, l ∈ logs -> is_error l = true -> group_key l ∈ (eg_key <$> gs)) /\
  totalOccurrences gs = length (errorLogs logs) /\
  StronglySorted (fun g h => eg_frequency h <= eg_frequency g) gs.
Proof.
  cbv zeta. unfold groupErrors. set (le := by_desc _).
  pose proof (stable_sort_perm le (omap (make_group tz) (byKey logs))) as Hp.
  split_and!.
  - rewrite Hp, groups_keys. apply group_nodup.
  - intros g. rewrite Hp, list_elem_of_omap. intros ([k ss] & Hin & Hg).
    pose proof (make_group_key _ _ _ Hg) as (-> & -> & ->). cbn [fst snd].
    apply byKey_elem in Hin as [<- Hne]. split_and!; [done|done|]. intros Ht.
    destruct (time_ends tz ss Hne Ht) as (a & b & Ha & Hb & Hia & Hib & Hbound). exists a, b.
    destruct ss as [|rep ss]; [done|]. cbn [make_group] in Hg. rewrite Ha, Hb in Hg. injection Hg as <-. done.
  - intros l Hl He. rewrite Hp, groups_keys. apply group_keys. exists l. split; [|done].
    unfold errorLogs. apply list_elem_of_In, filter_In. by rewrite <- list_elem_of_In.
  - rewrite <- (groups_total tz). by apply total_perm.
  - eapply sorted_impl; [|apply stable_sort_sorted, _].
    intros g h. unfold le, by_desc. cbn. rewrite Z.leb_le. lia.
Qed.

(** Muting a group hides that group and nothing else: with muted groups
    hidden, muting [k] removes exactly the groups with that key from the list,
    and unmuting restores the list. *)
Theorem mute_hides_one f st gs k :
  ef_showMuted f = false -> lg_isMuted (getState st k) = false ->
  filtered f (updateState k ToggleMute st) gs = List.filter (fun g => negb (bool_decide (eg_key g = k))) (filtered f st gs) /\
  filtered f (updateState k ToggleMute (updateState k ToggleMute st)) gs = filtered f st gs.
Proof.
  intros Hs Hm. rewrite !filtered_keeps, filter_fold. split; apply List.filter_ext; intros g; unfold keeps;
    rewrite Hs, !getState_update; cbn [orb].
  - destruct (decide (k = eg_key g)) as [E|E].
    + subst k. rewrite !(bool_decide_true (eg_key g = eg_key g)) by done.
      cbn [apply_patch lg_isMuted lg_status]. rewrite Hm. cbn [negb]. by rewrite !andb_false_r.
    + rewrite (bool_decide_false (k = eg_key g)), (bool_decide_false (eg_key g = k)) by congruence.
      cbn [negb]. by rewrite andb_true_r.
  - rewrite (bool_decide_true (k = k)) by done. destruct (decide (k = eg_key g)) as [E|E].
    + subst k. rewrite !(bool_decide_true (eg_key g = eg_key g)) by done.
      cbn [apply_patch lg_isMuted lg_status]. by rewrite negb_involutive.
    + by rewrite !(bool_decide_false (k = eg_key g)).
Qed.

(** The "muted" filter never shows anything: no button ever gives a group
    the status "muted" (muting sets a flag instead), so filtering by it is
    empty whatever was triaged. *)
Theorem muted_filter_empty f ps gs :
  ef_status f = "muted" ->
  filtered f (foldr (fun kp st => updateState (kp.1) (kp.2) st) ∅ ps) gs = [].
Proof.
  intros Hf. set (st := foldr _ _ _). rewrite filtered_keeps.
  assert (forall k, lg_status (getState st k) <> muted) as H.
  { unfold st. clear. induction ps as [|[k0 p] ps IH]; intros k; [done|]. cbn [foldr fst snd].
    rewrite getState_update. case_bool_decide; [|apply IH]. destruct p; cbn; [apply IH|done|done|apply IH]. }
  rewrite (List.filter_ext _ (fun _ => false)); [by induction gs|]. intros g. unfold keeps. rewrite Hf.
  specialize (H (eg_key g)). destruct (lg_status _); try done;
    cbn [status_id]; vm_compute (bool_decide ("muted" = "")); vm_compute (bool_decide (_ = "muted"));
    cbn [orb]; by rewrite andb_false_r.
Qed.
End ErrorsPage.

(** ** web/src/app/dashboard/alerts/incidents/[id]/page.tsx *)
Module Incidents.

Inductive IncidentStatus := investigating | identified | monitoring | resolved.

#[export] Instance IncidentStatus_eq_dec : EqDecision IncidentStatus.
Proof. solve_decision. Defined.

Inductive IncidentSeverity := critical | high | medium | low.

(** The labels of [STATUS_CONFIG]. *)
Definition status_label (s : IncidentStatus) : string :=
  match s with
  | investigating => "Investigating" | identified => "Identified"
  | monitoring => "Monitoring" | resolved => "Resolved"
  end.

Inductive entry_type := status_change | note | alert | action.

Record TimelineEntry := mkEntry {
  te_id : string; te_time : string; te_author : string; te_type : entry_type; te_content : string;
  te_from : option IncidentStatus; te_to : option IncidentStatus }.

Record Incident := mkIncident {
  in_id : string; in_title : string; in_severity : IncidentSeverity; in_status : IncidentStatus;
  in_startTime : string; in_resolvedAt : option string; in_affectedServices : list string;
  in_assignees : list string; in_relatedAlertRules : list string; in_relatedTraceIds : list string;
  in_rootCause : string; in_resolution : string; in_postmortemLink : string; in_summary : string;
  in_timeline : list TimelineEntry }.

(** The fallback for an id that names no known incident. *)
Definition unknown_incident (id : string) (now : Z) : Incident :=
  mkIncident id "Unknown incident" medium investigating (toISOString now) None [] [] [] [] "" "" "" "" [].

Definition STATUS_ORDER : list IncidentStatus := [investigating; identified; monitoring; resolved].

Definition nextStatus (current : IncidentStatus) : option IncidentStatus :=
  match list_find (eq current) STATUS_ORDER with
  | Some (idx, _) => STATUS_ORDER !! S idx
  | None => None
  end.

Inductive field := rootCause | resolution | postmortemLink | summary.

(** The page: the incident and the drafts of its inputs. *)
Record page := mkPage {
  pg_incident : Incident; pg_noteText : string; pg_editingField : option field; pg_editDraft : string;
  pg_showAssigneeInput : bool; pg_assigneeDraft : string }.

Definition with_incident (i : Incident) (p : page) : page :=
  mkPage i (pg_noteText p) (pg_editingField p) (pg_editDraft p) (pg_showAssigneeInput p) (pg_assigneeDraft p).

Definition with_timeline (s : IncidentStatus) (r : option string) (t : list TimelineEntry) (i : Incident) : Incident :=
  mkIncident (in_id i) (in_title i) (in_severity i) s (in_startTime i) r (in_affectedServices i) (in_assignees i)
    (in_relatedAlertRules i) (in_relatedTraceIds i) (in_rootCause i) (in_resolution i) (in_postmortemLink i)
    (in_summary i) t.

Definition with_assignees (a : list string) (i : Incident) : Incident :=
  mkIncident (in_id i) (in_title i) (in_severity i) (in_status i) (in_startTime i) (in_resolvedAt i)
    (in_affectedServices i) a (in_relatedAlertRules i) (in_relatedTraceIds i) (in_rootCause i) (in_resolution i)
    (in_postmortemLink i) (in_summary i) (in_timeline i).

Definition with_field (f : field) (v : string) (i : Incident) : Incident :=
  mkIncident (in_id i) (in_title i) (in_severity i) (in_status i) (in_startTime i) (in_resolvedAt i)
    (in_affectedServices i) (in_assignees i) (in_relatedAlertRules i) (in_relatedTraceIds i)
    (match f with rootCause => v | _ => in_rootCause i end)
    (match f with resolution => v | _ => in_resolution i end)
    (match f with postmortemLink => v | _ => in_postmortemLink i end)
    (match f with summary => v | _ => in_summary i end) (in_timeline i).

Definition entry_id (now : Z) : string := "t-" +:+ pretty now.

Definition updateStatus (now : Z) (s : IncidentStatus) (p : page) : page :=
  let i := pg_incident p in
  let entry := mkEntry (entry_id now) (toISOString now) "You" status_change
    ("Status updated to " +:+ status_label s +:+ ".") (Some (in_status i)) (Some s) in
  with_incident (with_timeline s
    (if bool_decide (s = resolved) then Some (toISOString now) else in_resolvedAt i)
    (in_timeline i ++ [entry]) i) p.

Definition addNote (now : Z) (p : page) : page :=
  if bool_decide (trim (pg_noteText p) = "") then p else
  let i := pg_incident p in
  let entry := mkEntry (entry_id now) (toISOString now) "You" note (trim (pg_noteText p)) None None in
  mkPage (with_timeline (in_status i) (in_resolvedAt i) (in_timeline i ++ [entry]) i) ""
    (pg_editingField p) (pg_editDraft p) (pg_showAssigneeInput p) (pg_assigneeDraft p).

Definition saveField (f : field) (p : page) : page :=
  mkPage (with_field f (pg_editDraft p) (pg_incident p)) (pg_noteText p) None (pg_editDraft p)
    (pg_showAssigneeInput p) (pg_assigneeDraft p).

Definition addAssignee (p : page) : page :=
  if bool_decide (trim (pg_assigneeDraft p) = "") then p else
  let i := pg_incident p in
  mkPage (with_assignees (in_assignees i ++ [trim (pg_assigneeDraft p)]) i) (pg_noteText p) (pg_editingField p)
    (pg_editDraft p) false "".

Definition removeAssignee (email : string) (p : page) : page :=
  with_incident (with_assignees (List.filter (fun a => negb (bool_decide (a = email))) (in_assignees (pg_incident p)))
    (pg_incident p)) p.

(** What the user does; [Type...] are the inputs' [onChange] handlers. *)
Inductive input :=
  | UpdateStatus (now : Z) (s : IncidentStatus)
  | AddNote (now : Z)
  | SaveField (f : field)
  | AddAssignee
  | RemoveAssignee (email : string)
  | TypeNote (v : string)
  | TypeDraft (v : string)
  | TypeAssignee (v : string).

Definition handle (e : input) (p : page) : page :=
  match e with
  | UpdateStatus now s => updateStatus now s p
  | AddNote now => addNote now p
  | SaveField f => saveField f p
  | AddAssignee => addAssignee p
  | RemoveAssignee email => removeAssignee email p
  | TypeNote v => mkPage (pg_incident p) v (pg_editingField p) (pg_editDraft p) (pg_showAssigneeInput p) (pg_assigneeDraft p)
  | TypeDraft v => mkPage (pg_incident p) (pg_noteText p) (pg_editingField p) v (pg_showAssigneeInput p) (pg_assigneeDraft p)
  | TypeAssignee v => mkPage (pg_incident p) (pg_noteText p) (pg_editingField p) (pg_editDraft p) (pg_showAssigneeInput p) v
  end.

Definition run (es : list input) (p : page) : page := fold_left (fun p e => handle e p) es p.

(** [duration(start, end)]; [Math.round(ms / 1000)] is exact here: the quotient
    of an integer by 1000 rounds to a half only when it is one. *)
Definition duration (tz now : Z) (start : string) (end_ : option string) : string :=
  let stop := if truthy end_ then Date_parse tz (default "" end_) else Some now in
  let ms := num_sub stop (Date_parse tz start) in
  if num_lt ms 60000 then num_text (x ← ms; Some ((x + 500) / 1000)%Z) +:+ "s"
  else if num_lt ms 3600000 then num_text (num_div ms 60000) +:+ "m"
  else num_text (num_div ms 3600000) +:+ "h " +:+ num_text (x ← ms; Some (x mod 3600000 / 60000)%Z) +:+ "m".

(** *** Lemmas *)

(** The status reached by following the status changes of a timeline, when each
    starts where the previous one ended. *)
Fixpoint follow (s : IncidentStatus) (es : list TimelineEntry) : option IncidentStatus :=
  match es with
  | [] => Some s
  | e :: r =>
      match te_from e, te_to e with
      | Some a, Some b => if bool_decide (a = s) then follow b r else None
      | None, None => follow s r
      | _, _ => None
      end
  end.

Lemma follow_app s es es' : follow s (es ++ es') = follow s es ≫= fun s' => follow s' es'.
Proof.
  revert s. induction es as [|e es IH]; intros s; [done|]. cbn.
  destruct (te_from e), (te_to e); try done. case_bool_decide; [apply IH|done].
Qed.

(** What one input adds to the timeline. *)
Lemma handle_timeline e p :
  exists new, in_timeline (pg_incident (handle e p)) = in_timeline (pg_incident p) ++ new /\
    follow (in_status (pg_incident p)) new = Some (in_status (pg_incident (handle e p))) /\
    (in_status (pg_incident (handle e p)) = resolved -> in_status (pg_incident p) = resolved ->
       is_Some (in_resolvedAt (pg_incident p)) -> is_Some (in_resolvedAt (pg_incident (handle e p)))) /\
    (in_status (pg_incident (handle e p)) = resolved -> in_status (pg_incident p) <> resolved ->
       is_Some (in_resolvedAt (pg_incident (handle e p)))).
Proof.
  destruct e; cbn [handle].
  - eexists. split; [reflexivity|]. cbn. rewrite bool_decide_true by done.
    split_and!; [done| |]; intros ->; rewrite bool_decide_true by done; eauto.
  - unfold addNote. case_bool_decide; [exists []; cbn; rewrite app_nil_r; naive_solver|].
    eexists. cbn. split; [reflexivity|]. naive_solver.
  - exists []. cbn. rewrite app_nil_r. destruct f; naive_solver.
  - unfold addAssignee. exists []. case_bool_decide; cbn; rewrite app_nil_r; naive_solver.
  - exists []. cbn. rewrite app_nil_r. naive_solver.
  - exists []. cbn. rewrite app_nil_r. naive_solver.
  - exists []. cbn. rewrite app_nil_r. naive_solver.
  - exists []. cbn. rewrite app_nil_r. naive_solver.
Qed.

(** *** Properties *)

(** [C39] An incident's history is complete: whatever the user does, the
    timeline only grows, the status changes it gained lead step by step from
    the status before to the status shown, and an incident that is resolved has
    a resolution time (if it had one to begin with). *)
Theorem incident_history es p :
  (in_status (pg_incident p) = resolved -> is_Some (in_resolvedAt (pg_incident p))) ->
  exists new, in_timeline (pg_incident (run es p)) = in_timeline (pg_incident p) ++ new /\
    follow (in_status (pg_incident p)) new = Some (in_status (pg_incident (run es p))) /\
    (in_status (pg_incident (run es p)) = resolved -> is_Some (in_resolvedAt (pg_incident (run es p)))).
Proof.
  revert p. induction es as [|e es IH]; intros p Hp.
  - exists []. rewrite app_nil_r. done.
  - change (run (e :: es) p) with (run es (handle e p)).
    destruct (handle_timeline e p) as (n1 & E1 & F1 & H1 & H2).
    destruct (IH (handle e p)) as (n2 & E2 & F2 & H3).
    { intros Hr. destruct (decide (in_status (pg_incident p) = resolved)); auto. }
    exists (n1 ++ n2). rewrite E2, E1, app_assoc, follow_app, F1. done.
Qed.

(** A reopened incident keeps its old resolution time: moving a resolved
    incident back leaves [resolvedAt], so the page shows a duration that no
    longer depends on the current time. *)
Theorem reopened_duration_frozen tz now s p r :
  s <> resolved -> in_resolvedAt (pg_incident p) = Some r -> r <> "" ->
  let i := pg_incident (updateStatus now s p) in
  in_status i = s /\ in_resolvedAt i = Some r /\
  forall t t', duration tz t (in_startTime i) (in_resolvedAt i) = duration tz t' (in_startTime i) (in_resolvedAt i).
Proof.
  intros Hs Hr Hne. cbn. rewrite bool_decide_false by done. split_and!; [done|done|]. intros t t'.
  rewrite Hr. unfold duration. cbn [truthy]. by rewrite bool_decide_false.
Qed.
End Incidents.

(** ** web/src/app/dashboard/alerts/page.tsx *)
Module Alerts.

Inductive AlertRuleType :=
  | high_error_rate | server_unavailable | latency_threshold | request_spike | policy_violation
  | api_key_abuse | quota_exceeded | circuit_breaker | suspicious_login | high_risk_tool.

Inductive NotificationChannel := email | slack | teams | discord | webhook | pagerduty | in_app.
Inductive AlertSeverity := critical | high | medium | low.
Inductive AlertStatus := firing | ok | pending | silenced.

#[export] Instance AlertStatus_eq_dec : EqDecision AlertStatus.
Proof. solve_decision. Defined.

#[export] Instance AlertSeverity_eq_dec : EqDecision AlertSeverity.
Proof. solve_decision. Defined.

Record NotificationTarget := mkTarget { nt_channel : NotificationChannel; nt_destination : string }.

Record AlertRule := mkRule {
  ar_id : string; ar_name : string; ar_type : AlertRuleType; ar_enabled : bool; ar_severity : AlertSeverity;
  ar_status : AlertStatus; ar_threshold : string; ar_windowSeconds : Z; ar_serverPattern : string;
  ar_notifications : list NotificationTarget; ar_lastFiredAt : option string; ar_firingCount : Z;
  ar_description : string }.

(** [RULE_TYPE_CONFIG[t].defaultThreshold] *)
Definition defaultThreshold (t : AlertRuleType) : string :=
  match t with
  | high_error_rate => "> 5% errors over 5 min"
  | server_unavailable => "unhealthy for > 2 min"
  | latency_threshold => "P95 > 2000ms over 5 min"
  | request_spike => "> 3× baseline over 1 min"
  | policy_violation => "> 10 denies over 5 min"
  | api_key_abuse => "> 20 auth failures over 5 min"
  | quota_exceeded => "> 90% of rate limit quota"
  | circuit_breaker => "circuit opens"
  | suspicious_login => "new IP or unusual time"
  | high_risk_tool => "on registration"
  end.

Record RuleFormState := mkFormState {
  rf_name : string; rf_type : AlertRuleType; rf_severity : AlertSeverity; rf_threshold : string;
  rf_windowSeconds : Z; rf_serverPattern : string; rf_description : string; rf_channels : list NotificationTarget }.

Definition BLANK_FORM : RuleFormState :=
  mkFormState "" high_error_rate high "" 300 "*" "" [mkTarget in_app ""].

(** The dialog's initial form. *)
Definition initial_form (initial : option AlertRule) : RuleFormState :=
  match initial with
  | Some r => mkFormState (ar_name r) (ar_type r) (ar_severity r) (ar_threshold r) (ar_windowSeconds r)
                (ar_serverPattern r) (ar_description r)
                (map (fun n => mkTarget (nt_channel n) (nt_destination n)) (ar_notifications r))
  | None => mkFormState (rf_name BLANK_FORM) (rf_type BLANK_FORM) (rf_severity BLANK_FORM)
              (defaultThreshold high_error_rate) (rf_windowSeconds BLANK_FORM) (rf_serverPattern BLANK_FORM)
              (rf_description BLANK_FORM) (rf_channels BLANK_FORM)
  end.

Definition with_channels (c : list NotificationTarget) (f : RuleFormState) : RuleFormState :=
  mkFormState (rf_name f) (rf_type f) (rf_severity f) (rf_threshold f) (rf_windowSeconds f) (rf_serverPattern f)
    (rf_description f) c.

Definition addChannel (f : RuleFormState) : RuleFormState :=
  with_channels (rf_channels f ++ [mkTarget email ""]) f.

(** [channels.filter((_, j) => j !== i)] *)
Definition removeChannel (i : nat) (f : RuleFormState) : RuleFormState :=
  with_channels (take i (rf_channels f) ++ drop (S i) (rf_channels f)) f.

(** The rows call it with an index of the list. *)
Definition updateChannel (i : nat) (change : NotificationTarget -> NotificationTarget) (f : RuleFormState)
    : RuleFormState := with_channels (alter change i (rf_channels f)) f.

Definition addRule (now : Z) (form : RuleFormState) (rules : list AlertRule) : list AlertRule :=
  mkRule ("rule-" +:+ pretty now) (rf_name form) (rf_type form) true (rf_severity form) ok (rf_threshold form)
    (rf_windowSeconds form) (rf_serverPattern form)
    (map (fun c => mkTarget (nt_channel c) (nt_destination c)) (rf_channels form)) None 0 (rf_description form)
  :: rules.

Definition on_rule (id : string) (f : AlertRule -> AlertRule) (rules : list AlertRule) : list AlertRule :=
  map (fun r => if bool_decide (ar_id r = id) then f r else r) rules.

Definition saved (form : RuleFormState) (r : AlertRule) : AlertRule :=
  mkRule (ar_id r) (rf_name form) (rf_type form) (ar_enabled r) (rf_severity form) (ar_status r)
    (rf_threshold form) (rf_windowSeconds form) (rf_serverPattern form)
    (map (fun c => mkTarget (nt_channel c) (nt_destination c)) (rf_channels form))
    (ar_lastFiredAt r) (ar_firingCount r) (rf_description form).

Definition saveRule (id : string) (form : RuleFormState) : list AlertRule -> list AlertRule := on_rule id (saved form).

Definition deleteRule (id : string) (rules : list AlertRule) : list AlertRule :=
  List.filter (fun r => negb (bool_decide (ar_id r = id))) rules.

Definition toggled (r : AlertRule) : AlertRule :=
  mkRule (ar_id r) (ar_name r) (ar_type r) (negb (ar_enabled r)) (ar_severity r)
    (if negb (ar_enabled r) then ok else silenced) (ar_threshold r) (ar_windowSeconds r) (ar_serverPattern r)
    (ar_notifications r) (ar_lastFiredAt r) (ar_firingCount r) (ar_description r).

Definition toggleRule (id : string) : list AlertRule -> list AlertRule := on_rule id toggled.

Definition filtered (filterStatus : option AlertStatus) (filterSeverity : option AlertSeverity)
    (rules : list AlertRule) : list AlertRule :=
  let r := match filterStatus with
           | Some s => List.filter (fun x => bool_decide (ar_status x = s)) rules | None => rules end in
  match filterSeverity with
  | Some s => List.filter (fun x => bool_decide (ar_severity x = s)) r | None => r end.

Definition firingCount (rules : list AlertRule) : nat :=
  length (List.filter (fun r => bool_decide (ar_status r = firing)) rules).

(** The page starts without rules, and these are all its updates. *)
Inductive rules_reachable : list AlertRule -> Prop :=
  | rules_none : rules_reachable []
  | rules_add now form rs : rules_reachable rs -> rules_reachable (addRule now form rs)
  | rules_save id form rs : rules_reachable rs -> rules_reachable (saveRule id form rs)
  | rules_delete id rs : rules_reachable rs -> rules_reachable (deleteRule id rs)
  | rules_toggle id rs : rules_reachable rs -> rules_reachable (toggleRule id rs).

(** What holds of a rule that only this page has touched. *)
Definition quiet (r : AlertRule) : Prop :=
  ar_status r = (if ar_enabled r then ok else silenced) /\ ar_lastFiredAt r = None /\ ar_firingCount r = 0%Z.

Lemma on_rule_quiet id f rs : (forall r, quiet r -> quiet (f r)) -> Forall quiet rs -> Forall quiet (on_rule id f rs).
Proof.
  intros Hf H. unfold on_rule. apply Forall_map. eapply Forall_impl; [exact H|].
  intros r Hr. cbn. case_bool_decide; auto.
Qed.

Lemma map_target (l : list NotificationTarget) : map (fun n => mkTarget (nt_channel n) (nt_destination n)) l = l.
Proof. induction l as [|[c d] l IH]; cbn; [done|]. by rewrite IH. Qed.

(** Alert rules never fire: every rule reachable on the page is either
    enabled with status "ok" or silenced, has never fired, and the "firing"
    counter stays zero whatever the audit log says. *)
Theorem alert_rules_never_fire rs :
  rules_reachable rs -> Forall quiet rs /\ firingCount rs = 0 /\ filtered (Some firing) None rs = [].
Proof.
  intros H. assert (Forall quiet rs) as Hq.
  { induction H as [|now form rs _ IH|id form rs _ IH|id rs _ IH|id rs _ IH].
    - constructor.
    - by constructor.
    - apply on_rule_quiet; [|done]. intros r (? & ? & ?). done.
    - unfold deleteRule. rewrite Forall_forall in IH |- *. intros r [Hr _]%list_elem_of_In%filter_In.
      apply IH. by apply list_elem_of_In.
    - apply on_rule_quiet; [|done]. intros r (_ & ? & ?). unfold quiet, toggled. cbn. by destruct (ar_enabled r). }
  assert (List.filter (fun r => bool_decide (ar_status r = firing)) rs = []) as E.
  { clear H. induction Hq as [|r rs (Hr & _) _ IH]; [done|]. cbn. rewrite Hr. by destruct (ar_enabled r). }
  split; [done|]. unfold firingCount, filtered. by rewrite E.
Qed.

(** Editing a rule round-trips: opening the dialog on a rule and saving it
    unchanged leaves the list as it was when ids are unique, and toggling a rule
    twice restores whether it is enabled. *)
Theorem edit_rule_roundtrip rs r :
  NoDup (ar_id <$> rs) -> r ∈ rs ->
  saveRule (ar_id r) (initial_form (Some r)) rs = rs /\
  ar_enabled <$> toggleRule (ar_id r) (toggleRule (ar_id r) rs) = ar_enabled <$> rs.
Proof.
  intros Hnd Hr. split.
  - unfold saveRule, on_rule. transitivity (map id rs); [|apply map_id]. apply map_ext_in.
    intros x Hx%list_elem_of_In. case_bool_decide as E; [|done].
    assert (x = r) as ->.
    { apply list_elem_of_lookup in Hx as [i Hi], Hr as [j Hj].
      assert (i = j) as ->; [|congruence].
      apply (NoDup_lookup (ar_id <$> rs) i j (ar_id r)); [done| |]; rewrite list_lookup_fmap; [rewrite Hi|rewrite Hj];
        cbn; congruence. }
    destruct r. unfold saved, initial_form. cbn. by rewrite !map_target.
  - unfold toggleRule, on_rule. rewrite map_map, <- list_fmap_compose. apply map_ext. intros x. cbn.
    destruct (decide (ar_id x = ar_id r)) as [E|E].
    + do 2 (rewrite (bool_decide_true (ar_id x = ar_id r)) by done; cbn). by rewrite negb_involutive.
    + by do 2 (rewrite (bool_decide_false (ar_id x = ar_id r)) by done; cbn).
Qed.
End Alerts.

(** ** Witnesses *)
Definition demo_error : Log :=
  mkAuditLogView "1" None (Some "alice") None AuditEventType_rbac_deny (Some "github") (Some "delete_repo") None
    "denied" None None [] "2026-01-01T00:00:00Z".

Lemma mute_hides_one_witness :
  ErrorsPage.filtered (ErrorsPage.mkFilters "" "" "" false)
    (ErrorsPage.updateState "rbac_deny::github::delete_repo" ErrorsPage.ToggleMute ∅)
    (ErrorsPage.groupErrors 0 [demo_error]) = [].
Proof.
  etrans; [apply (ErrorsPage.mute_hides_one (ErrorsPage.mkFilters "" "" "" false) ∅ (ErrorsPage.groupErrors 0 [demo_error])
    "rbac_deny::github::delete_repo"); reflexivity|]. vm_compute. reflexivity.
Defined.

Lemma muted_filter_empty_witness :
  ErrorsPage.filtered (ErrorsPage.mkFilters "" "" "muted" true)
    (ErrorsPage.updateState "rbac_deny::github::delete_repo" ErrorsPage.ToggleMute ∅)
    (ErrorsPage.groupErrors 0 [demo_error]) = [].
Proof.
  apply (ErrorsPage.muted_filter_empty (ErrorsPage.mkFilters "" "" "muted" true)
    [("rbac_deny::github::delete_repo", ErrorsPage.ToggleMute)] (ErrorsPage.groupErrors 0 [demo_error])).
  reflexivity.
Defined.

Definition demo_incident : Incidents.page :=
  Incidents.mkPage (Incidents.unknown_incident "inc-9" 0) "" None "" false "".

Lemma incident_history_witness :
  is_Some (Incidents.in_resolvedAt (Incidents.pg_incident
    (Incidents.run [Incidents.UpdateStatus 1000 Incidents.resolved] demo_incident))).
Proof.
  destruct (Incidents.incident_history [Incidents.UpdateStatus 1000 Incidents.resolved] demo_incident)
    as (new & _ & _ & H); [done|]. by apply H.
Defined.

Lemma reopened_duration_frozen_witness :
  Incidents.duration 0 2000 "1970-01-01T00:00:00.000Z" (Some "1970-01-01T00:00:01.000Z")
  = Incidents.duration 0 9000000 "1970-01-01T00:00:00.000Z" (Some "1970-01-01T00:00:01.000Z").
Proof.
  apply (Incidents.reopened_duration_frozen 0 2000 Incidents.investigating
    (Incidents.run [Incidents.UpdateStatus 1000 Incidents.resolved] demo_incident) "1970-01-01T00:00:01.000Z"); done.
Defined.

Lemma alert_rules_never_fire_witness : Alerts.firingCount (Alerts.addRule 0 Alerts.BLANK_FORM []) = 0.
Proof. apply Alerts.alert_rules_never_fire. apply Alerts.rules_add, Alerts.rules_none. Defined.

Lemma edit_rule_roundtrip_witness :
  exists r, Alerts.addRule 0 Alerts.BLANK_FORM [] = [r] /\
    Alerts.saveRule (Alerts.ar_id r) (Alerts.initial_form (Some r)) [r] = [r].
Proof.
  eexists. split; [reflexivity|]. apply Alerts.edit_rule_roundtrip; [|set_solver]. apply NoDup_singleton.
Defined.
