(* ===== verification/JsInt.v ===== *)
(** * Integers as text: [parseInt] and [String]

    [parseInt(s, 10)] and its inverse on the decimal representation of
    integers. *)

From S2P Require Import Prelude JsString Browser.

(** ** [parseInt(s, 10)]; [None] is NaN *)
Fixpoint parse_digits (acc : option Z) (s : string) : option Z :=
  match s with
  | "" => acc
  | String c r =>
      match digit_val c with
      | Some d => parse_digits (Some (10 * default 0 acc + d)%Z) r
      | None => acc
      end
  end.

Definition parseInt (s : string) : option Z :=
  match trimStart s with
  | String "-" r => Z.opp <$> parse_digits None r
  | String "+" r => parse_digits None r
  | t => parse_digits None t
  end.

(** [parseInt(s, 10) || d] *)
Definition parseInt_or (s : string) (d : Z) : Z :=
  match parseInt s with Some z => if (z =? 0)%Z then d else z | None => d end.

(** ** Numbers as text *)
Module NumText.

Definition is_dig (c : ascii) : bool := match digit_val c with Some _ => true | None => false end.

Lemma char_of_digit (d : N) : (d < 10)%N -> digit_val (pretty_N_char d) = Some (Z.of_N d).
Proof.
  intros Hd. assert (d = 0 ∨ d = 1 ∨ d = 2 ∨ d = 3 ∨ d = 4 ∨ d = 5 ∨ d = 6 ∨ d = 7 ∨ d = 8 ∨ d = 9)%N by lia.
  naive_solver.
Qed.

Lemma mod10 (x : N) : (x `mod` 10 < 10)%N.
Proof. by apply N.mod_lt. Qed.

Lemma parse_digits_go (x : N) (s : string) :
  (0 < x)%N -> parse_digits None (pretty_N_go x s) = parse_digits (Some (Z.of_N x)) s.
Proof.
  revert s. induction (N.lt_wf_0 x) as [x _ IH]. intros s Hx. rewrite pretty_N_go_step by lia.
  pose proof (N.div_mod x 10 ltac:(done)) as Hdm. pose proof (mod10 x).
  destruct (decide (x `div` 10 = 0)%N) as [E|E].
  - rewrite E, pretty_N_go_0. cbn [parse_digits]. rewrite char_of_digit by done. cbn [from_option id]. do 2 f_equal. lia.
  - rewrite IH by (try apply N.div_lt; lia). cbn [parse_digits]. rewrite char_of_digit by done. cbn [from_option id].
    do 2 f_equal. lia.
Qed.

Lemma digits_go (x : N) (s : string) : sforall is_dig s = true -> sforall is_dig (pretty_N_go x s) = true.
Proof.
  revert s. induction (N.lt_wf_0 x) as [x _ IH]. intros s Hs.
  destruct (decide (x = 0)%N) as [->|Hx]; [by rewrite pretty_N_go_0|].
  rewrite pretty_N_go_step by lia. apply IH; [apply N.div_lt; lia|]. cbn [sforall].
  unfold is_dig at 1. by rewrite char_of_digit by apply mod10.
Qed.

Lemma digits_pretty (x : N) : sforall is_dig (pretty x) = true.
Proof. unfold pretty, pretty_N. case_decide; [done|]. by apply digits_go. Qed.

Lemma digit_not_special c : is_dig c = true -> is_ws c = false /\ c <> "-"%char /\ c <> "+"%char.
Proof.
  assert (forall c, negb (is_dig c) || negb (is_ws c) && negb (bool_decide (c = "-"%char))
                    && negb (bool_decide (c = "+"%char)) = true) as H by (by apply ascii_check; vm_compute).
  intros Hc. specialize (H c). rewrite Hc in H. cbn [negb orb] in H. bool_hyps. done.
Qed.

Lemma parseInt_digits s : sforall is_dig s = true -> parseInt s = parse_digits None s.
Proof.
  destruct s as [|c s]; [done|]. cbn [sforall]. intros H. bool_hyps.
  destruct (digit_not_special c) as (Hw & Hm & Hp); [done|].
  unfold parseInt. cbn [trimStart]. rewrite Hw.
  destruct c as [[] [] [] [] [] [] [] []]; try reflexivity; first [by destruct Hm | by destruct Hp].
Qed.

Lemma parseInt_N (x : N) : parseInt (pretty x) = Some (Z.of_N x).
Proof.
  rewrite parseInt_digits by apply digits_pretty. unfold pretty, pretty_N. case_decide as E; [by subst|].
  by rewrite parse_digits_go by lia.
Qed.

(** [parseInt(String(z), 10)] gives the integer back. *)
Lemma parseInt_pretty (z : Z) : parseInt (pretty z) = Some z.
Proof.
  destruct z as [|p|p].
  - reflexivity.
  - apply (parseInt_N (N.pos p)).
  - unfold parseInt. change (pretty (Z.neg p)) with ("-" +:+ pretty (N.pos p)). rewrite app_cons, app_nil_l.
    cbn [trimStart is_ws]. change (is_ws "-") with false. cbn iota.
    rewrite <- parseInt_digits by apply digits_pretty. by rewrite parseInt_N.
Qed.

(** The same digits through [parse_dec]. *)
Lemma parse_dec_go_digits acc s :
  sforall is_dig s = true -> parse_dec_go acc s = parse_digits (Some acc) s.
Proof.
  revert acc. induction s as [|c s IH]; intros acc; [done|]. cbn [sforall parse_dec_go parse_digits]. intros H.
  bool_hyps. unfold is_dig in *. destruct (digit_val c) as [d|]; [|done]. cbn. by rewrite IH.
Qed.

Lemma pretty_N_nonempty (x : N) : pretty x <> "".
Proof. intros H. pose proof (parseInt_N x) as E. by rewrite H in E. Qed.

Lemma parse_dec_N (x : N) : parse_dec (pretty x) = Some (Z.of_N x).
Proof.
  pose proof (digits_pretty x) as Hd. pose proof (parseInt_N x) as Hp. rewrite parseInt_digits in Hp by done.
  pose proof (pretty_N_nonempty x) as Hn. unfold parse_dec. destruct (pretty x) as [|c s]; [done|].
  rewrite parse_dec_go_digits by done. rewrite <- Hp. cbn [parse_digits sforall] in *. bool_hyps. unfold is_dig in *.
  by destruct (digit_val c).
Qed.

Lemma go_head (x : N) (s : string) :
  (0 < x)%N -> exists d r, pretty_N_go x s = String (pretty_N_char d) r /\ (0 < d < 10)%N.
Proof.
  revert s. induction (N.lt_wf_0 x) as [x _ IH]. intros s Hx. rewrite pretty_N_go_step by lia.
  pose proof (mod10 x). pose proof (N.div_mod x 10 ltac:(done)).
  destruct (decide (x `div` 10 = 0)%N) as [E|E].
  - rewrite E, pretty_N_go_0. exists (x `mod` 10)%N, s. split; [done|lia].
  - apply IH; [apply N.div_lt; lia|lia].
Qed.

(** No leading zero. *)
Lemma pretty_N_head (x : N) : x = 0%N \/ exists c r, pretty x = String c r /\ c <> "0"%char.
Proof.
  destruct (decide (x = 0)%N) as [->|Hx]; [by left|]. right.
  destruct (go_head x "") as (d & r & E & Hd); [lia|]. exists (pretty_N_char d), r. split.
  - unfold pretty, pretty_N. by rewrite decide_False.
  - intros H. pose proof (char_of_digit d ltac:(lia)) as Hc. rewrite H in Hc. cbn in Hc. injection Hc. lia.
Qed.
End NumText.
