(* ===== verification/JsonParse.v ===== *)
(** * [JSON.parse] (ECMA-262, 25.5.1)

    The console parses JSON from storage and from text fields.  The parser is
    given with fuel; [JSON_parse_enough_fuel] shows that the fuel it is run with
    never runs out, and [JSON_parse_stringify] that it inverts
    [JSON.stringify], also when that indents.  Outside the model's data (and refused): numbers with a
    fraction or an exponent, and escapes above U+00FF. *)

From Stdlib Require Import ZifyBool.
From S2P Require Import Prelude JsString Json Browser JsInt.

Definition json_ws (c : ascii) : bool := bool_decide (code c ∈ [9; 10; 13; 32]%N).

Fixpoint skip_ws (s : string) : string :=
  match s with "" => "" | String c r => if json_ws c then skip_ws r else s end.

Definition quote_mark : ascii := ascii_of_N 34.

Definition unhex (c : ascii) : option N :=
  let n := code c in
  if ((48 <=? n) && (n <=? 57))%N then Some (n - 48)%N
  else if ((97 <=? n) && (n <=? 102))%N then Some (n - 87)%N
  else if ((65 <=? n) && (n <=? 70))%N then Some (n - 55)%N
  else None.

(** The character of [\uXXXX], when the model has it. *)
Definition unicode (a b c d : ascii) : option ascii :=
  a ← unhex a; b ← unhex b; c ← unhex c; d ← unhex d;
  if (a =? 0)%N && (b =? 0)%N then Some (ascii_of_N (16 * c + d)) else None.

Definition unescape (e : ascii) : option ascii :=
  if bool_decide (e = quote_mark) then Some quote_mark
  else if bool_decide (e = "\"%char) then Some "\"%char
  else if bool_decide (e = "/"%char) then Some "/"%char
  else if bool_decide (e = "b"%char) then Some (ascii_of_N 8)
  else if bool_decide (e = "t"%char) then Some (ascii_of_N 9)
  else if bool_decide (e = "n"%char) then Some (ascii_of_N 10)
  else if bool_decide (e = "f"%char) then Some (ascii_of_N 12)
  else if bool_decide (e = "r"%char) then Some (ascii_of_N 13)
  else None.

Definition push (c : ascii) (r : option (string * string)) : option (string * string) :=
  match r with Some (t, rest) => Some (String c t, rest) | None => None end.

(** The characters of a string up to its closing quotation mark. *)
Fixpoint parse_chars (s : string) : option (string * string) :=
  match s with
  | "" => None
  | String c r =>
      if bool_decide (c = quote_mark) then Some ("", r)
      else if bool_decide (c = "\"%char) then
        match r with
        | "" => None
        | String e r1 =>
            if bool_decide (e = "u"%char) then
              match r1 with
              | String h1 (String h2 (String h3 (String h4 r2))) =>
                  match unicode h1 h2 h3 h4 with Some ch => push ch (parse_chars r2) | None => None end
              | _ => None
              end
            else match unescape e with Some ch => push ch (parse_chars r1) | None => None end
        end
      else if (code c <? 32)%N then None
      else push c (parse_chars r)
  end.

Fixpoint span_digits (s : string) : string * string :=
  match s with
  | "" => ("", "")
  | String c r => match digit_val c with
                  | Some _ => let '(d, rest) := span_digits r in (String c d, rest)
                  | None => ("", s)
                  end
  end.

Definition starts_with_any (cs : list ascii) (s : string) : bool :=
  match s with "" => false | String c _ => bool_decide (c ∈ cs) end.

Definition parse_unsigned (s : string) : option (Z * string) :=
  let '(d, rest) := span_digits s in
  if starts_with_any ["0"%char] d && (1 <? String.length d)%nat then None
  else if starts_with_any ["."; "e"; "E"]%char rest then None
  else z ← parse_dec d; Some (z, rest).

Definition parse_number (s : string) : option (json * string) :=
  match s with
  | String c r =>
      if bool_decide (c = "-"%char)
      then '(z, rest) ← parse_unsigned r; Some (JNum (- z), rest)
      else '(z, rest) ← parse_unsigned s; Some (JNum z, rest)
  | "" => None
  end.

(** A literal name and its value. *)
Definition parse_word (s : string) : option (json * string) :=
  if startsWith s "null" then Some (JNull, sdrop 4 s)
  else if startsWith s "true" then Some (JBool true, sdrop 4 s)
  else if startsWith s "false" then Some (JBool false, sdrop 5 s)
  else parse_number s.

Definition expect_char (c : ascii) (s : string) : option string :=
  match skip_ws s with String d r => if bool_decide (d = c) then Some r else None | "" => None end.

(** A key, a colon and a value. *)
Definition parse_member (value : string -> option (json * string)) (s : string) : option (string * json * string) :=
  r ← expect_char quote_mark s;
  '(k, r) ← parse_chars r;
  r ← expect_char ":" r;
  '(v, r) ← value r;
  Some ((k, v), r).

Fixpoint parse_value (fuel : nat) (s : string) : option (json * string) :=
  match fuel with
  | 0 => None
  | S n =>
      match skip_ws s with
      | "" => None
      | String c r =>
          if bool_decide (c = quote_mark) then '(t, rest) ← parse_chars r; Some (JStr t, rest)
          else if bool_decide (c = "["%char) then
            match expect_char "]" r with
            | Some rest => Some (JArr [], rest)
            | None => '(l, rest) ← parse_elements n r; Some (JArr l, rest)
            end
          else if bool_decide (c = "{"%char) then
            match expect_char "}" r with
            | Some rest => Some (JObj [], rest)
            | None => '(l, rest) ← parse_members n r; Some (JObj l, rest)
            end
          else parse_word (String c r)
      end
  end
with parse_elements (fuel : nat) (s : string) : option (list json * string) :=
  match fuel with
  | 0 => None
  | S n =>
      '(v, r) ← parse_value n s;
      match expect_char "]" r with
      | Some rest => Some ([v], rest)
      | None => r' ← expect_char "," r; '(l, rest) ← parse_elements n r'; Some (v :: l, rest)
      end
  end
with parse_members (fuel : nat) (s : string) : option (list (string * json) * string) :=
  match fuel with
  | 0 => None
  | S n =>
      '(kv, r) ← parse_member (parse_value n) s;
      match expect_char "}" r with
      | Some rest => Some ([kv], rest)
      | None => r' ← expect_char "," r; '(l, rest) ← parse_members n r'; Some (kv :: l, rest)
      end
  end.

Definition fuel_for (s : string) : nat := 2 * String.length s + 2.

(** [None]: SyntaxError. *)
Definition JSON_parse (text : string) : option json :=
  '(v, rest) ← parse_value (fuel_for text) text;
  if bool_decide (skip_ws rest = "") then Some v else None.

(** ** The parser consumes input *)
Notation len := String.length.

Lemma skip_ws_length s : len (skip_ws s) <= len s.
Proof. induction s as [|c s IH]; cbn; [done|]. case_if; lia. Qed.

Lemma expect_char_length c s r : expect_char c s = Some r -> len r < len s.
Proof.
  unfold expect_char. pose proof (skip_ws_length s) as H. destruct (skip_ws s) as [|d t]; [done|].
  case_if; [|done]. intros [= <-]. cbn in H. lia.
Qed.

Lemma push_some c x t r : push c x = Some (t, r) -> exists t', x = Some (t', r) /\ t = String c t'.
Proof. destruct x as [[t' r']|]; [|done]. intros [= <- <-]. by exists t'. Qed.

Lemma parse_chars_length n s t r : len s <= n -> parse_chars s = Some (t, r) -> len r < len s.
Proof.
  revert s t r. induction n as [|n IH]; intros [|c s] t r Hn; cbn [len parse_chars] in *; try done; [lia|].
  assert (forall s' c' t' r', len s' <= n -> push c' (parse_chars s') = Some (t', r') -> len r' < len s') as Hp.
  { intros s' c' t' r' Hl (t'' & H & _)%push_some. by eapply IH. }
  repeat case_match; intros; simplify_eq; cbn [len] in *; try lia;
    match goal with H : push _ (parse_chars _) = _ |- _ => apply Hp in H; lia end.
Qed.

Lemma span_digits_length s d r : span_digits s = (d, r) -> len d + len r = len s.
Proof.
  revert d r. induction s as [|c s IH]; intros d r; cbn [span_digits]; [by intros [= <- <-]|].
  destruct (digit_val c); [|by intros [= <- <-]]. destruct (span_digits s) as [d' r'].
  intros [= <- <-]. cbn. by rewrite <- (IH d' r').
Qed.

Lemma parse_unsigned_length s z r : parse_unsigned s = Some (z, r) -> len r < len s.
Proof.
  unfold parse_unsigned. destruct (span_digits s) as [d rest] eqn:E. apply span_digits_length in E.
  destruct (_ && _); [done|]. destruct (starts_with_any _ rest); [done|]. destruct d as [|c d]; [done|].
  intros (z' & _ & [= <- <-])%bind_Some. cbn in E. lia.
Qed.

Lemma sdrop_length n s : len (sdrop n s) = len s - n.
Proof. revert n. induction s as [|c s IH]; intros [|n]; cbn; try done. Qed.

Lemma startsWith_nonempty s c p : startsWith s (String c p) = true -> 0 < len s.
Proof. destruct s; cbn; [done|lia]. Qed.

Lemma parse_word_length s v r : parse_word s = Some (v, r) -> len r < len s.
Proof.
  unfold parse_word. destruct (startsWith s "null") eqn:E1.
  { intros H. assert (r = sdrop 4 s) as -> by congruence. rewrite sdrop_length. apply startsWith_nonempty in E1. lia. }
  destruct (startsWith s "true") eqn:E2.
  { intros H. assert (r = sdrop 4 s) as -> by congruence. rewrite sdrop_length. apply startsWith_nonempty in E2. lia. }
  destruct (startsWith s "false") eqn:E3.
  { intros H. assert (r = sdrop 5 s) as -> by congruence. rewrite sdrop_length. apply startsWith_nonempty in E3. lia. }
  unfold parse_number. destruct s as [|c s]; [done|]. case_if;
    intros ([z rest] & H & [= <- <-])%bind_Some; apply parse_unsigned_length in H; cbn in *; lia.
Qed.

Lemma parse_member_length value s kv r :
  (forall t v r, value t = Some (v, r) -> len r < len t) ->
  parse_member value s = Some (kv, r) -> len r < len s.
Proof.
  intros Hv H. unfold parse_member in H.
  apply bind_Some in H as (t & H%expect_char_length & H').
  apply bind_Some in H' as ([k t1] & H1 & H'). eapply parse_chars_length in H1; [|done].
  apply bind_Some in H' as (t2 & H2%expect_char_length & H').
  apply bind_Some in H' as ([x t3] & H3%Hv & [= <- <-]). lia.
Qed.

Lemma parse_member_ext f g s :
  (forall t, len t < len s -> f t = g t) -> parse_member f s = parse_member g s.
Proof.
  intros Hfg. unfold parse_member. destruct (expect_char quote_mark s) as [t|] eqn:E; [|done]. cbn.
  apply expect_char_length in E.
  destruct (parse_chars t) as [[k t1]|] eqn:E1; [|done]. cbn. eapply parse_chars_length in E1; [|done].
  destruct (expect_char ":" t1) as [t2|] eqn:E2; [|done]. cbn. apply expect_char_length in E2.
  by rewrite Hfg by lia.
Qed.

Lemma parse_length n :
  (forall s v r, parse_value n s = Some (v, r) -> len r < len s) /\
  (forall s l r, parse_elements n s = Some (l, r) -> len r < len s) /\
  (forall s l r, parse_members n s = Some (l, r) -> len r < len s).
Proof.
  induction n as [|n (IHv & IHe & IHm)]; [done|]. split_and!; intros s v r; cbn [parse_value parse_elements parse_members].
  - pose proof (skip_ws_length s) as Hs. destruct (skip_ws s) as [|c t]; [done|]. cbn [len] in Hs.
    case_bool_decide.
    { intros ([k rest] & Hx & [= <- <-])%bind_Some. eapply parse_chars_length in Hx; [lia|done]. }
    case_bool_decide.
    { destruct (expect_char "]" t) eqn:E; [intros [= <- <-]; apply expect_char_length in E; lia|].
      intros ([k rest] & Hx & [= <- <-])%bind_Some. apply IHe in Hx. lia. }
    case_bool_decide.
    { destruct (expect_char "}" t) eqn:E; [intros [= <- <-]; apply expect_char_length in E; lia|].
      intros ([k rest] & Hx & [= <- <-])%bind_Some. apply IHm in Hx. lia. }
    intros Hx%parse_word_length. cbn in Hx. lia.
  - intros ([x t] & H & H')%bind_Some. apply IHv in H.
    destruct (expect_char "]" t) eqn:E; [simplify_eq; apply expect_char_length in E; lia|].
    apply bind_Some in H' as (t' & H1%expect_char_length & ([k rest] & H2%IHe & [= <- <-])%bind_Some). lia.
  - intros ([kv t3] & H%parse_member_length & H')%bind_Some; [|by intros ??; apply IHv].
    destruct (expect_char "}" t3) eqn:E; [simplify_eq; apply expect_char_length in E; lia|].
    apply bind_Some in H' as (t' & H4%expect_char_length & ([k' rest] & H5%IHm & [= <- <-])%bind_Some). lia.
Qed.

(** ** Enough fuel *)
Lemma parse_fuel n :
  (forall s m, 2 * len s + 1 <= n <= m -> parse_value m s = parse_value n s) /\
  (forall s m, 2 * len s + 2 <= n <= m -> parse_elements m s = parse_elements n s) /\
  (forall s m, 2 * len s + 2 <= n <= m -> parse_members m s = parse_members n s).
Proof.
  induction n as [|n (IHv & IHe & IHm)]; [split_and!; lia|].
  split_and!; intros s [|m] Hm; try lia; cbn [parse_value parse_elements parse_members].
  - pose proof (skip_ws_length s) as Hs. destruct (skip_ws s) as [|c t]; [done|]. cbn [len] in Hs.
    rewrite (IHe t m), (IHm t m) by lia. done.
  - rewrite (IHv s m) by lia. destruct (parse_value n s) as [[x t]|] eqn:Ev; [|done]. cbn.
    apply (proj1 (parse_length n)) in Ev.
    destruct (expect_char "]" t); [done|]. destruct (expect_char "," t) as [t'|] eqn:E; [|done]. cbn.
    apply expect_char_length in E. by rewrite (IHe t' m) by lia.
  - rewrite (parse_member_ext (parse_value m) (parse_value n)) by (intros t Ht; apply IHv; lia).
    destruct (parse_member (parse_value n) s) as [[kv t3]|] eqn:Em; [|done]. cbn.
    apply parse_member_length in Em; [|intros ???; apply (proj1 (parse_length n))].
    destruct (expect_char "}" t3); [done|]. destruct (expect_char "," t3) as [t'|] eqn:E3; [|done]. cbn.
    apply expect_char_length in E3. by rewrite (IHm t' m) by lia.
Qed.

(** The parser terminates: more fuel than [JSON_parse] gives never changes the
    outcome, so a refusal is a syntax error and not an exhausted budget. *)
Theorem JSON_parse_enough_fuel text fuel :
  fuel_for text <= fuel ->
  JSON_parse text =
  ('(v, rest) ← parse_value fuel text; if bool_decide (skip_ws rest = "") then Some v else None).
Proof.
  unfold JSON_parse. intros H. by rewrite (proj1 (parse_fuel (fuel_for text)) text fuel) by (unfold fuel_for in *; lia).
Qed.

Lemma JSON_parse_enough_fuel_witness :
  fuel_for "[1, 2" <= 100 /\ JSON_parse "[1, 2" = None /\ JSON_parse "[1, 2]" = Some (JArr [JNum 1; JNum 2]).
Proof.
  split; [vm_compute; lia|split].
  - rewrite (JSON_parse_enough_fuel "[1, 2" 100); [by vm_compute|vm_compute; lia].
  - by vm_compute.
Defined.

(** ** Round trip *)

(** Induction over nested values. *)
Lemma json_nested_ind (P : json -> Prop) :
  P JNull -> (forall b, P (JBool b)) -> (forall n, P (JNum n)) -> (forall s, P (JStr s)) ->
  (forall l, Forall P l -> P (JArr l)) ->
  (forall o, Forall (fun kv => P (kv.2)) o -> P (JObj o)) ->
  forall v, P v.
Proof.
  intros Hn Hb Hi Hs Ha Ho. fix IH 1. intros [|b|n|s|l|o]; [apply Hn|apply Hb|apply Hi|apply Hs| |].
  - apply Ha. induction l as [|x l IHl]; constructor; [apply IH|apply IHl].
  - apply Ho. induction o as [|[k x] o IHo]; constructor; [apply IH|apply IHo].
Qed.

Lemma parse_chars_quote_char c rest :
  parse_chars (quote_char c +:+ rest) = push c (parse_chars rest).
Proof. destruct c as [[] [] [] [] [] [] [] []]; reflexivity. Qed.

Lemma parse_chars_quote s rest : parse_chars (quote_body s +:+ dquote +:+ rest) = Some (s, rest).
Proof.
  induction s as [|c s IH]; [done|]. cbn [quote_body]. rewrite sapp_assoc, parse_chars_quote_char, IH. done.
Qed.

(** What may follow a value so that a number ends there. *)
Definition value_end (s : string) : bool :=
  match s with "" => true | String c _ => json_ws c || bool_decide (c ∈ [","; "]"; "}"]%char) end.

Lemma value_end_char (P : ascii -> Prop) c r :
  value_end (String c r) = true ->
  P ","%char -> P "]"%char -> P "}"%char -> P " "%char -> P "009"%char -> P "010"%char -> P "013"%char -> P c.
Proof. intros H. destruct c as [[] [] [] [] [] [] [] []]; first [discriminate H | done]. Qed.

Lemma span_digits_app d rest :
  sforall NumText.is_dig d = true -> value_end rest = true -> span_digits (d +:+ rest) = (d, rest).
Proof.
  intros Hd Hr. induction d as [|c d IH].
  - rewrite app_nil_l. destruct rest as [|c r]; [done|].
    by apply (value_end_char (fun c => span_digits (String c r) = ("", String c r)) c r Hr).
  - cbn [sforall] in Hd. bool_hyps. rewrite app_cons. cbn [span_digits]. unfold NumText.is_dig in *.
    destruct (digit_val c); [|done]. by rewrite IH.
Qed.

Lemma parse_unsigned_N (x : N) rest :
  value_end rest = true -> parse_unsigned (pretty x +:+ rest) = Some (Z.of_N x, rest).
Proof.
  intros Hr. unfold parse_unsigned. rewrite span_digits_app by (apply NumText.digits_pretty || done).
  assert (starts_with_any ["0"%char] (pretty x) && (1 <? len (pretty x))%nat = false) as ->.
  { destruct (NumText.pretty_N_head x) as [->|(c & r & -> & Hc)]; [done|]. cbn [starts_with_any].
    rewrite bool_decide_false by (rewrite list_elem_of_singleton; done). done. }
  assert (starts_with_any ["."; "e"; "E"]%char rest = false) as ->.
  { destruct rest as [|c r]; [done|].
    by apply (value_end_char (fun c => starts_with_any ["."; "e"; "E"]%char (String c r) = false) c r Hr). }
  by rewrite NumText.parse_dec_N.
Qed.

(** A text that starts like a number is read as one. *)
Lemma parse_digit_head n c s :
  NumText.is_dig c = true \/ c = "-"%char -> parse_value (S n) (String c s) = parse_number (String c s).
Proof.
  intros H. assert (bool_decide (c = "-"%char) || NumText.is_dig c = true) as H'.
  { apply orb_true_iff. destruct H as [H| ->]; [by right|by left]. } clear H.
  destruct c as [[] [] [] [] [] [] [] []]; first [discriminate H' | reflexivity].
Qed.

Lemma parse_num_roundtrip n z rest :
  value_end rest = true -> parse_value (S n) (pretty z +:+ rest) = Some (JNum z, rest).
Proof.
  intros Hr.
  assert (forall x : N, parse_value (S n) (pretty x +:+ rest) = Some (JNum (Z.of_N x), rest)) as HN.
  { intros x. pose proof (NumText.digits_pretty x) as Hd. pose proof (parse_unsigned_N x rest Hr) as Hp.
    pose proof (NumText.pretty_N_nonempty x) as Hne.
    destruct (pretty x) as [|c s]; [done|]. rewrite app_cons in *. cbn [sforall] in Hd. bool_hyps.
    rewrite parse_digit_head by by left. unfold parse_number.
    rewrite bool_decide_false by by apply NumText.digit_not_special. by rewrite Hp. }
  destruct z as [|p|p]; [apply (HN 0%N)|apply (HN (N.pos p))|].
  change (pretty (Z.neg p)) with ("-" +:+ pretty (N.pos p)). rewrite sapp_assoc.
  change ("-" +:+ ?x) with (String "-" x). rewrite parse_digit_head by by right.
  unfold parse_number. rewrite bool_decide_true by done. by rewrite parse_unsigned_N.
Qed.

(** [p] reads [a] back from its text, with enough fuel. *)
Definition reads {A} (p : nat -> string -> option (A * string)) (text : string) (a : A) : Prop :=
  exists n0, forall n rest, n0 <= n -> value_end rest = true -> p n (text +:+ rest) = Some (a, rest).

Lemma stringify_head v : exists c r, JSON_stringify v = String c r /\ json_ws c = false /\ c <> "]"%char.
Proof.
  destruct v as [|[]|z|s|l|o]; try (eexists _, _; by split_and!).
  assert (forall x : N, exists c r, pretty x = String c r /\ json_ws c = false /\ c <> "]"%char) as HN.
  { intros x. pose proof (NumText.digits_pretty x) as Hd. pose proof (NumText.pretty_N_nonempty x) as Hn.
    destruct (pretty x) as [|c s]; [done|]. cbn [sforall] in Hd. bool_hyps. exists c, s. split; [done|].
    destruct c as [[] [] [] [] [] [] [] []]; first [discriminate | by split]. }
  cbn [JSON_stringify]. destruct z as [|p|p]; [apply (HN 0%N)|apply (HN (N.pos p))|].
  eexists _, _. split; [reflexivity|]. done.
Qed.

Lemma expect_char_here c r : json_ws c = false -> expect_char c (String c r) = Some r.
Proof. intros H. unfold expect_char. cbn [skip_ws]. rewrite H. by rewrite bool_decide_true. Qed.

Lemma expect_char_other c d r : json_ws d = false -> d <> c -> expect_char c (String d r) = None.
Proof. intros H Hne. unfold expect_char. cbn [skip_ws]. rewrite H. by rewrite bool_decide_false. Qed.

Lemma concat_cons (x y : string) l : String.concat "," (x :: y :: l) = x +:+ "," +:+ String.concat "," (y :: l).
Proof. done. Qed.

Lemma elements_read l :
  l <> [] -> Forall (fun v => reads parse_value (JSON_stringify v) v) l ->
  exists n0, forall n rest, n0 <= n ->
    parse_elements n (String.concat "," (map JSON_stringify l) +:+ "]" +:+ rest) = Some (l, rest).
Proof.
  intros Hne Hl. induction Hl as [|v l [nv Hv] Hl IH]; [done|]. destruct l as [|w l].
  - exists (S nv). intros [|n] rest Hn; [lia|]. cbn [map String.concat parse_elements].
    rewrite Hv by (lia || done). cbn [mbind option_bind]. change ("]" +:+ rest) with (String "]" rest).
    by rewrite expect_char_here.
  - destruct IH as [nl IH]; [done|]. exists (S (nv + nl)). intros [|n] rest Hn; [lia|].
    cbn [map]. rewrite concat_cons. cbn [parse_elements]. rewrite !sapp_assoc.
    rewrite Hv by (lia || done). cbn [mbind option_bind].
    change ("," +:+ ?x) with (String "," x). rewrite expect_char_other, expect_char_here by done.
    cbn [mbind option_bind]. rewrite <- sapp_assoc. change (JSON_stringify w :: map JSON_stringify l) with (map JSON_stringify (w :: l)).
    rewrite sapp_assoc, IH by lia. done.
Qed.

(** A member with white space before it, and a text that reads as its value. *)
Record member := mkMember { m_ws : string; m_key : string; m_text : string; m_value : json }.

Definition member_text (m : member) : string := m_ws m +:+ quote (m_key m) +:+ ":" +:+ m_text m.

Definition member_reads (m : member) : Prop :=
  sforall json_ws (m_ws m) = true /\ reads parse_value (m_text m) (m_value m).

Definition members (ms : list member) : list (string * json) := map (fun m => (m_key m, m_value m)) ms.

Lemma skip_ws_app ws s : sforall json_ws ws = true -> skip_ws (ws +:+ s) = skip_ws s.
Proof.
  intros H. induction ws as [|c ws IH]; [done|]. cbn [sforall] in H. apply andb_true_iff in H as [Hc Hw].
  rewrite app_cons. cbn [skip_ws]. rewrite Hc. by apply IH.
Qed.

Lemma expect_char_ws c ws s : sforall json_ws ws = true -> expect_char c (ws +:+ s) = expect_char c s.
Proof. intros H. unfold expect_char. by rewrite skip_ws_app. Qed.

Lemma parse_value_ws ws n s : sforall json_ws ws = true -> parse_value n (ws +:+ s) = parse_value n s.
Proof. intros H. destruct n; [done|]. cbn [parse_value]. by rewrite skip_ws_app. Qed.

Lemma reads_ws ws text v :
  sforall json_ws ws = true -> reads parse_value text v -> reads parse_value (ws +:+ text) v.
Proof. intros Hw [n0 H]. exists n0. intros n rest Hn Hr. rewrite sapp_assoc, parse_value_ws by done. by apply H. Qed.

Lemma value_end_ws ws s : sforall json_ws ws = true -> value_end s = true -> value_end (ws +:+ s) = true.
Proof. destruct ws as [|c ws]; [done|]. cbn [sforall]. intros H _. apply andb_true_iff in H as [H _]. rewrite app_cons. cbn. by rewrite H. Qed.

Lemma member_read m :
  member_reads m -> exists n0, forall n r, n0 <= n -> value_end r = true ->
    parse_member (parse_value n) (member_text m +:+ r) = Some ((m_key m, m_value m), r).
Proof.
  intros [Hws [n0 H]]. exists n0. intros n r Hn Hr. unfold parse_member, member_text, quote. rewrite !sapp_assoc.
  rewrite expect_char_ws by done.
  change (dquote +:+ quote_body (m_key m) +:+ ?x) with (String quote_mark (quote_body (m_key m) +:+ x)).
  rewrite expect_char_here by done. cbn [mbind option_bind]. rewrite parse_chars_quote. cbn [mbind option_bind].
  change (":" +:+ ?x) with (String ":" x). rewrite expect_char_here by done. cbn [mbind option_bind].
  by rewrite H.
Qed.

Lemma members_read tail ms :
  ms <> [] -> sforall json_ws tail = true -> Forall member_reads ms ->
  exists n0, forall n rest, n0 <= n ->
    parse_members n (String.concat "," (map member_text ms) +:+ tail +:+ "}" +:+ rest) = Some (members ms, rest).
Proof.
  intros Hne Ht Hl. induction Hl as [|m ms Hm%member_read Hl IH]; [done|]. destruct Hm as [nm Hm].
  destruct ms as [|m' ms].
  - exists (S nm). intros [|n] rest Hn; [lia|]. cbn [map String.concat parse_members].
    rewrite Hm by (lia || by apply value_end_ws). cbn [mbind option_bind].
    rewrite expect_char_ws by done. change ("}" +:+ rest) with (String "}" rest). by rewrite expect_char_here.
  - destruct IH as [nl IH]; [done|]. exists (S (nm + nl)). intros [|n] rest Hn; [lia|].
    cbn [map]. rewrite concat_cons. cbn [parse_members]. rewrite !sapp_assoc.
    rewrite Hm by (lia || done). cbn [mbind option_bind].
    change ("," +:+ ?x) with (String "," x). rewrite expect_char_other, expect_char_here by done.
    cbn [mbind option_bind]. change (member_text m' :: map member_text ms) with (map member_text (m' :: ms)).
    by rewrite IH by lia.
Qed.

(** An object, with any white space between its members. *)
Lemma object_reads tail ms :
  ms <> [] -> sforall json_ws tail = true -> Forall member_reads ms ->
  reads parse_value ("{" +:+ String.concat "," (map member_text ms) +:+ tail +:+ "}") (JObj (members ms)).
Proof.
  intros Hne Ht Hl. destruct (members_read tail ms) as [n0 H]; [done|done|done|].
  exists (S n0). intros [|n] rest Hn Hr; [lia|]. rewrite !sapp_assoc. specialize (H n rest ltac:(lia)).
  change ("{" +:+ ?x) with (String "{" x). cbn [parse_value skip_ws]. change (json_ws "{") with false. cbn iota.
  rewrite !bool_decide_false, bool_decide_true by done.
  assert (expect_char "}" (String.concat "," (map member_text ms) +:+ tail +:+ "}" +:+ rest) = None) as ->.
  { destruct Hl as [|m ms [Hm _] _]; [done|]. destruct ms as [|m' ms]; cbn [map]; rewrite ?concat_cons; cbn [String.concat];
      unfold member_text at 1, quote; rewrite !sapp_assoc, expect_char_ws by done; by apply expect_char_other. }
  by rewrite H.
Qed.

Lemma string_reads s : reads parse_value (quote s) (JStr s).
Proof.
  exists 1. intros [|n] rest Hn Hr; [lia|]. unfold quote. rewrite !sapp_assoc.
  change (dquote +:+ quote_body s +:+ ?x) with (String quote_mark (quote_body s +:+ x)).
  cbn [parse_value skip_ws]. change (json_ws quote_mark) with false. cbn iota. rewrite bool_decide_true by done.
  by rewrite parse_chars_quote.
Qed.

Lemma empty_object_reads : reads parse_value "{}" (JObj []).
Proof. exists 1. intros [|n] rest Hn Hr; [lia|]. reflexivity. Qed.

(** A value's text that reads back parses to it. *)
Lemma parse_of_reads text v : reads parse_value text v -> JSON_parse text = Some v.
Proof.
  intros [n0 H].
  assert (JSON_parse text =
    ('(v, rest) ← parse_value (n0 + fuel_for text) text; if bool_decide (skip_ws rest = "") then Some v else None)) as ->.
  { unfold JSON_parse. rewrite (proj1 (parse_fuel (fuel_for text)) text (n0 + fuel_for text)); [done|unfold fuel_for; lia]. }
  specialize (H (n0 + fuel_for text) "" ltac:(lia) eq_refl). rewrite sapp_nil_r in H. by rewrite H.
Qed.

Lemma stringify_reads v : reads parse_value (JSON_stringify v) v.
Proof.
  induction v as [|b|z|s|l Hl|o Ho] using json_nested_ind.
  - exists 1. intros [|n] rest Hn Hr; [lia|]. by destruct rest.
  - exists 1. intros [|n] rest Hn Hr; [lia|]. by destruct b, rest.
  - exists 1. intros [|n] rest Hn Hr; [lia|]. by apply parse_num_roundtrip.
  - apply string_reads.
  - destruct l as [|v l].
    { exists 1. intros [|n] rest Hn Hr; [lia|]. reflexivity. }
    destruct (elements_read (v :: l)) as [n0 H]; [done|done|].
    exists (S n0). intros [|n] rest Hn Hr; [lia|]. cbn [JSON_stringify]. rewrite !sapp_assoc.
    specialize (H n rest ltac:(lia)).
    destruct (stringify_head v) as (c & r & E & Hws & Hc).
    assert (exists r', String.concat "," (map JSON_stringify (v :: l)) +:+ "]" +:+ rest = String c r') as [r' Er].
    { destruct l; cbn [map String.concat]; rewrite E, ?app_cons; by eexists. }
    rewrite Er in H |- *. change ("[" +:+ ?x) with (String "[" x).
    cbn [parse_value skip_ws]. change (json_ws "[") with false. cbn iota.
    rewrite bool_decide_false, bool_decide_true by done. rewrite expect_char_other by done. by rewrite H.
  - destruct o as [|kv o]; [apply empty_object_reads|].
    pose (ms := map (fun kv : string * json => mkMember "" (kv.1) (JSON_stringify (kv.2)) (kv.2)) (kv :: o)).
    assert (members ms = kv :: o) as <-.
    { subst ms. unfold members. rewrite map_map. rewrite <- (map_id (kv :: o)) at 2. apply map_ext. by intros []. }
    replace (JSON_stringify (JObj (members ms))) with ("{" +:+ String.concat "," (map member_text ms) +:+ "" +:+ "}").
    { apply object_reads; [done|done|]. subst ms. rewrite Forall_map. eapply Forall_impl; [exact Ho|]. by intros [k v]. }
    cbn [JSON_stringify]. subst ms. unfold members. rewrite !map_map. reflexivity.
Qed.

Lemma parse_of_stringify v : JSON_parse (JSON_stringify v) = Some v.
Proof. apply parse_of_reads, stringify_reads. Qed.

(** [JSON.parse(JSON.stringify(v))] is [v]. *)
Theorem JSON_parse_stringify v : JSON_parse (JSON_stringify v) = Some v.
Proof. apply parse_of_stringify. Qed.

(** ** [JSON.stringify] with indentation

    The text [JSON.stringify(v, null, n)] gives, with a gap of [n] spaces
    (ECMA-262, 25.5.2), from which [JSON.parse] reads the value back. *)

Definition newline : string := String "010" "".

Definition commas (l : list string) : string := String.concat "," l.

(** [cur] is the indentation of the line the value stands on. *)
Fixpoint indented (gap cur : string) (v : json) : string :=
  match v with
  | JArr (x :: l) =>
      "[" +:+ commas (map (fun x => newline +:+ (cur +:+ gap) +:+ indented gap (cur +:+ gap) x) (x :: l))
      +:+ newline +:+ cur +:+ "]"
  | JObj (kv :: o) =>
      "{" +:+ commas (map (fun kv => newline +:+ (cur +:+ gap) +:+ quote (kv.1) +:+ ": "
                                     +:+ indented gap (cur +:+ gap) (kv.2)) (kv :: o))
      +:+ newline +:+ cur +:+ "}"
  | _ => JSON_stringify v
  end.

Definition JSON_stringify_indent (n : nat) (v : json) : string := indented (srepeat n " ") "" v.

Lemma number_bracket r : parse_word (String "]" r) = None.
Proof. done. Qed.

Lemma value_not_bracket n s v r : parse_value n s = Some (v, r) -> expect_char "]" s = None.
Proof.
  destruct n as [|n]; [done|]. cbn [parse_value]. unfold expect_char.
  destruct (skip_ws s) as [|c s'] eqn:E; [done|].
  destruct (decide (c = "]"%char)) as [->|Hc]; [|by rewrite (bool_decide_false (c = "]"%char))].
  rewrite !(bool_decide_false ("]"%char = _)) by done. by rewrite number_bracket.
Qed.

(** Elements with white space around them. *)
Lemma array_reads tail (l : list (string * json)) :
  l <> [] -> sforall json_ws tail = true -> Forall (fun tv => reads parse_value (tv.1) (tv.2)) l ->
  reads parse_value ("[" +:+ commas l.*1 +:+ tail +:+ "]") (JArr l.*2).
Proof.
  intros Hne Ht Hl.
  assert (Hel : l <> [] -> exists n0, forall n rest, n0 <= n ->
    parse_elements n (commas l.*1 +:+ tail +:+ "]" +:+ rest) = Some (l.*2, rest)).
  { clear Hne. induction Hl as [|[t v] l [nv Hv] Hl IH]; [done|]. intros _. destruct l as [|[t' v'] l].
    - exists (S nv). intros [|n] rest Hn; [lia|]. cbn [fmap list_fmap fst snd commas String.concat parse_elements].
      rewrite Hv by (lia || by apply value_end_ws). cbn [mbind option_bind]. rewrite expect_char_ws by done.
      change ("]" +:+ rest) with (String "]" rest). by rewrite expect_char_here.
    - destruct IH as [nl IH]; [done|]. exists (S (nv + nl)). intros [|n] rest Hn; [lia|].
      cbn [fmap list_fmap fst snd]. unfold commas in *. rewrite concat_cons. cbn [parse_elements]. rewrite !sapp_assoc.
      rewrite Hv by (lia || done). cbn [mbind option_bind].
      change ("," +:+ ?x) with (String "," x). rewrite expect_char_other, expect_char_here by done.
      cbn [mbind option_bind]. cbn [fmap list_fmap fst snd] in IH. by rewrite IH by lia. }
  destruct (Hel Hne) as [n0 H]. exists (S (S n0)). intros [|n] rest Hn Hr; [lia|]. rewrite !sapp_assoc.
  specialize (H n rest ltac:(lia)). change ("[" +:+ ?x) with (String "[" x).
  cbn [parse_value skip_ws]. change (json_ws "[") with false. cbn iota. rewrite bool_decide_false, bool_decide_true by done.
  destruct (parse_value (pred n) (commas l.*1 +:+ tail +:+ "]" +:+ rest)) as [[v r]|] eqn:E.
  - rewrite (value_not_bracket _ _ _ _ E). by rewrite H.
  - destruct n as [|n]; [lia|]. cbn [parse_elements pred] in H, E. by rewrite E in H.
Qed.

Lemma ws_spaces n : sforall json_ws (srepeat n " ") = true.
Proof. induction n as [|n IH]; [done|]. cbn. rewrite sforall_app. by rewrite IH. Qed.

Lemma indented_reads gap v : sforall json_ws gap = true ->
  forall cur, sforall json_ws cur = true -> reads parse_value (indented gap cur v) v.
Proof.
  intros Hg. induction v as [|b|z|s|l Hl|o Ho] using json_nested_ind; intros cur Hc;
    try apply stringify_reads.
  - destruct l as [|x l]; [apply stringify_reads|]. cbn [indented].
    set (f := fun x => _). rewrite <- (map_id (x :: l)) at 2.
    replace (map f (x :: l)) with ((map (fun x => (f x, x)) (x :: l)).*1) by (rewrite map_map; reflexivity).
    replace (map (fun x => x) (x :: l)) with ((map (fun x => (f x, x)) (x :: l)).*2) by (rewrite map_map; reflexivity).
    rewrite <- (sapp_assoc newline cur). apply array_reads; [done|by rewrite sforall_app, Hc|].
    rewrite Forall_map. eapply Forall_impl; [exact Hl|]. intros y Hy. cbn [fst snd]. unfold f.
    rewrite <- (sapp_assoc newline). apply reads_ws; [by rewrite !sforall_app, Hc, Hg|]. apply Hy. by rewrite sforall_app, Hc.
  - destruct o as [|kv o]; [apply stringify_reads|]. cbn [indented].
    pose (ms := map (fun kv : string * json => mkMember (newline +:+ (cur +:+ gap)) (kv.1) (" " +:+ indented gap (cur +:+ gap) (kv.2)) (kv.2)) (kv :: o)).
    assert (members ms = kv :: o) as Hms.
    { subst ms. unfold members. rewrite map_map. rewrite <- (map_id (kv :: o)) at 2. apply map_ext. by intros []. }
    replace (JObj (kv :: o)) with (JObj (members ms)) by (by rewrite Hms).
    replace (map _ (kv :: o)) with (map member_text ms).
    { rewrite <- (sapp_assoc newline cur). apply object_reads; [done|by rewrite sforall_app, Hc|].
      subst ms. rewrite Forall_map. eapply Forall_impl; [exact Ho|]. intros [k v] Hv. cbn in Hv. split; cbn [m_ws m_text m_value fst snd].
      - by rewrite !sforall_app, Hc, Hg.
      - apply reads_ws; [done|]. apply Hv. by rewrite sforall_app, Hc. }
    subst ms. rewrite map_map. apply map_ext. intros [k v]. unfold member_text. cbn [m_ws m_key m_text fst snd].
    by rewrite !sapp_assoc.
Qed.

(** [JSON.parse] reads every value back from its indented text. *)
Theorem JSON_parse_stringify_indent n v : JSON_parse (JSON_stringify_indent n v) = Some v.
Proof. apply parse_of_reads, indented_reads; [apply ws_spaces|done]. Qed.

Example indented_example : JSON_stringify_indent 2 (JObj [("a", JArr [JNum 1; JBool true]); ("b", JObj [])]) =
  "{" +:+ newline +:+ "  " +:+ quote "a" +:+ ": [" +:+ newline +:+ "    1," +:+ newline +:+ "    true" +:+ newline +:+ "  ],"
  +:+ newline +:+ "  " +:+ quote "b" +:+ ": {}" +:+ newline +:+ "}".
Proof. vm_compute. reflexivity. Qed.
