(* ===== verification/Gateway.v ===== *)
(** * The gateway's policy decisions, which the policy pages describe

    Which rate-limit policy governs a request (api/app/limits/policies.py), what
    a role's permissions decide (api/app/auth/rbac.py), and what the routes
    accept (api/app/models/schemas.py, api/app/api/rate_limits.py).  Glob
    matching is [Tools.ToolDetail.glob]. *)

From Stdlib Require Import ZifyBool Sorting.Sorted.
From S2P Require Import Prelude JsString Json Browser ApiTypes Tally Tools.

Notation fnmatchcase value pattern := (ToolDetail.glob pattern value).

(** [sum(1 for ch in pattern if ch not in ("*", "?", "[", "]"))] *)
Definition wildcard (c : ascii) : bool :=
  bool_decide (c ∈ ["*"; "?"; "["; "]"]%char).

Fixpoint _pattern_specificity (pattern : string) : Z :=
  match pattern with
  | "" => 0
  | String c r => ((if wildcard c then 0 else 1) + _pattern_specificity r)%Z
  end.

(** ** Rate limits *)
Module Limits.

Record EffectivePolicy := mkEffective {
  ef_algorithm : RateLimitAlgorithm;
  ef_request_limit : Z;
  ef_window_seconds : Z;
  ef_burst_capacity : option Z;
  ef_scope : string }.

Definition UNIT_SECONDS (unit : string) : option Z :=
  if bool_decide (unit = "second") then Some 1%Z
  else if bool_decide (unit = "minute") then Some 60%Z
  else if bool_decide (unit = "hour") then Some 3600%Z
  else if bool_decide (unit = "day") then Some 86400%Z
  else None.

(** [None]: the malformed default raises. *)
Definition parse_default (default_str : string) : option (Z * Z) :=
  unit ← drop_after "/" default_str;
  count ← parse_dec (take_until "/" default_str);
  seconds ← UNIT_SECONDS unit;
  Some (count, seconds).

Definition given {A} (o : option A) : bool := match o with Some _ => true | None => false end.

Definition _selector_level (policy : RateLimitPolicyView) : Z :=
  let has_subject := given (RateLimitPolicyView_subject_id policy) in
  let has_server := given (RateLimitPolicyView_server_pattern policy) in
  let has_tool := given (RateLimitPolicyView_tool_pattern policy) in
  if has_subject && has_server && has_tool then 0
  else if has_subject && has_server && negb has_tool then 1
  else if has_subject && negb has_server && negb has_tool then 2
  else 3.

(** A request as policies see it. *)
Record request := mkRequest {
  rq_subject_id : option string;
  rq_subject_type : option SubjectType;
  rq_server_slug : option string;
  rq_tool_name : option string }.

Definition subject_matches (policy : RateLimitPolicyView) (r : request) : bool :=
  match RateLimitPolicyView_subject_id policy with
  | None => true
  | Some id =>
      match rq_subject_id r with
      | None => false
      | Some sid =>
          bool_decide (id = sid) &&
          match RateLimitPolicyView_subject_type policy, rq_subject_type r with
          | Some t, Some u => bool_decide (t = u)
          | _, _ => true
          end
      end
  end.

Definition pattern_matches (pattern value : option string) : bool :=
  match pattern with
  | None => true
  | Some p => match value with Some v => fnmatchcase v p | None => false end
  end.

Definition _policy_matches (policy : RateLimitPolicyView) (r : request) : bool :=
  subject_matches policy r
  && pattern_matches (RateLimitPolicyView_server_pattern policy) (rq_server_slug r)
  && pattern_matches (RateLimitPolicyView_tool_pattern policy) (rq_tool_name r).

Definition specificity (policy : RateLimitPolicyView) : Z :=
  (_pattern_specificity (default "" (RateLimitPolicyView_server_pattern policy))
   + _pattern_specificity (default "" (RateLimitPolicyView_tool_pattern policy)))%Z.

Definition _rank_key (policy : RateLimitPolicyView) : Z * Z * Z :=
  (_selector_level policy, - RateLimitPolicyView_priority policy, - specificity policy)%Z.

(** Tuple comparison. *)
Definition key_le (a b : Z * Z * Z) : bool :=
  let '(a1, a2, a3) := a in
  let '(b1, b2, b3) := b in
  ((a1 <? b1) || (a1 =? b1) && ((a2 <? b2) || (a2 =? b2) && (a3 <=? b3)))%Z.

Definition by_rank (p q : RateLimitPolicyView) : bool := key_le (_rank_key p) (_rank_key q).

Definition _scope_for_level (level : Z) : string :=
  if (level =? 0)%Z then "tool" else if (level =? 1)%Z then "server"
  else if (level =? 2)%Z then "subject" else "global".

Definition candidates (r : request) (policies : list RateLimitPolicyView) : list RateLimitPolicyView :=
  List.filter (fun p => _policy_matches p r) policies.

(** The policy [resolve_policy] settles on, before it is copied into the result. *)
Definition best (r : request) (policies : list RateLimitPolicyView) : option RateLimitPolicyView :=
  head (stable_sort by_rank (candidates r policies)).

Definition resolve_policy (r : request) (policies : list RateLimitPolicyView) (default_str : string)
    : option EffectivePolicy :=
  match best r policies with
  | None =>
      '(limit, window) ← parse_default default_str;
      Some (mkEffective RateLimitAlgorithm_token_bucket limit window (Some limit) "tool")
  | Some b =>
      Some (mkEffective (RateLimitPolicyView_algorithm b) (RateLimitPolicyView_request_limit b)
              (RateLimitPolicyView_window_seconds b) (RateLimitPolicyView_burst_capacity b)
              (_scope_for_level (_selector_level b)))
  end.

#[export] Instance by_rank_comparator : Comparator by_rank.
Proof.
  split; unfold by_rank; intros *; repeat destruct (_rank_key _) as [[? ?] ?]; cbn; lia.
Qed.

(** The chosen policy applies and no applicable policy ranks before it; one is
    chosen whenever one applies. *)
Lemma best_spec r policies :
  match best r policies with
  | Some b => b ∈ policies /\ _policy_matches b r = true /\
              forall p, p ∈ policies -> _policy_matches p r = true -> by_rank b p = true
  | None => forall p, p ∈ policies -> _policy_matches p r = false
  end.
Proof.
  assert (forall p, p ∈ stable_sort by_rank (candidates r policies) <->
                    p ∈ policies /\ _policy_matches p r = true) as Hin.
  { intros p. rewrite (stable_sort_perm by_rank). unfold candidates.
    rewrite !list_elem_of_In, filter_In. done. }
  unfold best. pose proof (stable_sort_sorted by_rank (candidates r policies)) as Hs.
  destruct (stable_sort by_rank (candidates r policies)) as [|b l]; cbn [head].
  - intros p Hp. apply not_true_is_false. intros Hm.
    by apply (not_elem_of_nil p), Hin.
  - destruct (proj1 (Hin b)) as [Hb Hm]; [by constructor|]. split_and!; [done..|].
    intros p Hp Hpm. apply StronglySorted_inv in Hs as [_ Hf]. rewrite Forall_forall in Hf.
    assert (p ∈ b :: l) as [->|Hl]%elem_of_cons by (by apply Hin); [|by apply Hf].
    destruct (cmp_total b b); done.
Qed.
End Limits.

(** ** Permissions of a role *)
Module Rbac.

Record PermissionDecision := mkDecision { allowed : bool; rule_id : option string; reason : string }.

Definition rule_matches (server_slug tool_name : string) (rule : ToolPermissionView) : bool :=
  fnmatchcase server_slug (ToolPermissionView_server_pattern rule)
  && fnmatchcase tool_name (ToolPermissionView_tool_pattern rule).

Definition _rank_key (rule : ToolPermissionView) : Z * Z :=
  (- (_pattern_specificity (ToolPermissionView_server_pattern rule)
      + _pattern_specificity (ToolPermissionView_tool_pattern rule)),
   - ToolPermissionView_priority rule)%Z.

Definition by_rank (p q : ToolPermissionView) : bool :=
  let '(a1, a2) := _rank_key p in
  let '(b1, b2) := _rank_key q in
  ((a1 <? b1) || (a1 =? b1) && (a2 <=? b2))%Z.

Definition is_deny (rule : ToolPermissionView) : bool :=
  bool_decide (ToolPermissionView_effect rule = PermissionEffect_deny).

Definition evaluate_permission (server_slug tool_name : string) (permissions : list ToolPermissionView)
    : PermissionDecision :=
  let matching := stable_sort by_rank (List.filter (rule_matches server_slug tool_name) permissions) in
  match matching with
  | [] => mkDecision false None "default deny"
  | top :: _ =>
      let top_set := List.filter (fun rule => bool_decide (_rank_key rule = _rank_key top)) matching in
      match List.filter is_deny top_set with
      | d :: _ => mkDecision false (Some (ToolPermissionView_id d)) "denied by rule"
      | [] => mkDecision true (ToolPermissionView_id <$> head top_set) "allowed by rule"
      end
  end.

#[export] Instance by_rank_comparator : Comparator by_rank.
Proof.
  split; unfold by_rank; intros *; repeat destruct (_rank_key _) as [? ?]; cbn; lia.
Qed.

(** [rule] matches and nothing that matches ranks before it. *)
Definition top_ranked (server_slug tool_name : string) (permissions : list ToolPermissionView)
    (rule : ToolPermissionView) : Prop :=
  rule ∈ permissions /\ rule_matches server_slug tool_name rule = true /\
  forall p, p ∈ permissions -> rule_matches server_slug tool_name p = true -> by_rank rule p = true.

Lemma rank_antisym p q : by_rank p q = true -> by_rank q p = true -> _rank_key p = _rank_key q.
Proof.
  unfold by_rank. destruct (_rank_key p) as [a b], (_rank_key q) as [c d]. intros H1 H2. f_equal; lia.
Qed.

Lemma rank_refl p : by_rank p p = true.
Proof. destruct (cmp_total p p); done. Qed.

Lemma rank_key_le p q r : _rank_key p = _rank_key q -> by_rank q r = true -> by_rank p r = true.
Proof. unfold by_rank. by intros ->. Qed.

(** [evaluate_permission]'s top set is the top-ranked rules. *)
Lemma top_set_spec server_slug tool_name permissions :
  let matching := stable_sort by_rank (List.filter (rule_matches server_slug tool_name) permissions) in
  match matching with
  | [] => forall p, p ∈ permissions -> rule_matches server_slug tool_name p = false
  | top :: _ =>
      top_ranked server_slug tool_name permissions top /\
      forall rule, rule ∈ List.filter (fun rule => bool_decide (_rank_key rule = _rank_key top)) matching <->
                   top_ranked server_slug tool_name permissions rule
  end.
Proof.
  cbv zeta. set (matching := stable_sort _ _).
  assert (forall p, p ∈ matching <-> p ∈ permissions /\ rule_matches server_slug tool_name p = true) as Hin.
  { intros p. unfold matching. rewrite (stable_sort_perm by_rank), !list_elem_of_In, filter_In. done. }
  pose proof (stable_sort_sorted by_rank (List.filter (rule_matches server_slug tool_name) permissions)) as Hs.
  change (stable_sort _ _) with matching in Hs.
  destruct matching as [|top l].
  { intros p Hp. apply not_true_is_false. intros Hm. by apply (not_elem_of_nil p), Hin. }
  assert (top_ranked server_slug tool_name permissions top) as Htop.
  { destruct (proj1 (Hin top)) as [Hb Hm]; [by constructor|]. split_and!; [done..|].
    intros p Hp Hpm. apply StronglySorted_inv in Hs as [_ Hf]. rewrite Forall_forall in Hf.
    assert (p ∈ top :: l) as [->|Hl]%elem_of_cons by (by apply Hin); [apply rank_refl|by apply Hf]. }
  split; [done|]. intros rule. rewrite list_elem_of_In, filter_In, <- list_elem_of_In, bool_decide_eq_true.
  destruct Htop as (Ht1 & Ht2 & Ht3). split.
  - intros [[Hr1 Hr2]%Hin Hk]. split_and!; [done..|].
    intros p Hp Hpm. by apply (rank_key_le _ _ _ Hk), Ht3.
  - intros (Hr1 & Hr2 & Hr3). split; [by apply Hin|]. apply rank_antisym; auto.
Qed.
End Rbac.

(** ** What the routes accept *)
Module Schema.

Definition within (lo hi z : Z) : bool := ((lo <=? z) && (z <=? hi))%Z.

(** Fields of a JSON body; [None] is a validation error (422). *)
Definition opt_str (max : nat) (v : option json) : option (option string) :=
  match v with
  | None | Some JNull => Some None
  | Some (JStr s) => if (String.length s <=? max)%nat then Some (Some s) else None
  | _ => None
  end.

Definition int_in (lo hi : Z) (v : option json) : option Z :=
  match v with Some (JNum z) => if within lo hi z then Some z else None | _ => None end.

Definition opt_int_in (lo hi : Z) (v : option json) : option (option Z) :=
  match v with None | Some JNull => Some None | _ => Some <$> int_in lo hi v end.

Definition algorithm_of (v : option json) : option RateLimitAlgorithm :=
  match v with
  | Some (JStr s) =>
      if bool_decide (s = "token_bucket") then Some RateLimitAlgorithm_token_bucket
      else if bool_decide (s = "sliding_window") then Some RateLimitAlgorithm_sliding_window
      else None
  | _ => None
  end.

Definition subject_type_of (v : option json) : option SubjectType :=
  match v with
  | None => Some SubjectType_api_key
  | Some (JStr s) =>
      if bool_decide (s = "api_key") then Some SubjectType_api_key
      else if bool_decide (s = "oauth_subject") then Some SubjectType_oauth_subject
      else None
  | _ => None
  end.

(** [RateLimitPolicyCreate] and [create_policy]: the row that is stored. *)
Definition create_policy (id now : string) (body : json) : option RateLimitPolicyView :=
  let f k := json_field k body in
  subject_id ← opt_str 500 (f "subject_id");
  subject_type ← subject_type_of (f "subject_type");
  server_pattern ← opt_str 200 (f "server_pattern");
  tool_pattern ← opt_str 200 (f "tool_pattern");
  algorithm ← algorithm_of (f "algorithm");
  request_limit ← int_in 1 1000000 (f "request_limit");
  window_seconds ← int_in 1 86400 (f "window_seconds");
  burst_capacity ← opt_int_in 1 1000000 (f "burst_capacity");
  priority ← match f "priority" with None => Some 0%Z | v => int_in (-1000) 1000 v end;
  if bool_decide (algorithm = RateLimitAlgorithm_token_bucket) && negb (Limits.given burst_capacity) then None
  else Some (mkRateLimitPolicyView id subject_id (Some subject_type) server_pattern tool_pattern algorithm
               request_limit window_seconds burst_capacity priority now now).

(** [RoleCreate]: a name of 1 to 100 characters of [[A-Za-z0-9_\-]]. *)
Definition role_char (c : ascii) : bool :=
  let n := code c in
  ((65 <=? n) && (n <=? 90) || (97 <=? n) && (n <=? 122) || (48 <=? n) && (n <=? 57)
   || (n =? 95) || (n =? 45))%N.

Definition RoleCreate_accepts (name : string) : bool :=
  (1 <=? String.length name)%nat && (String.length name <=? 100)%nat && sforall role_char name.

(** [RateLimitPolicyUpdate] and [update]: fields that are set, [null] included,
    replace the stored ones; [None] is a validation error. *)
Definition positive (v : json) : bool :=
  match v with JNull => true | JNum z => (0 <? z)%Z | _ => false end.

Definition update_field (ok : json -> bool) (k : string) (body : json) (old : option Z) : option (option Z) :=
  match json_field k body with
  | None => Some old
  | Some v => if ok v then Some (match v with JNum z => Some z | _ => None end) else None
  end.

Record limits := mkLimits {
  lm_request_limit : option Z;
  lm_window_seconds : option Z;
  lm_burst_capacity : option Z;
  lm_priority : option Z }.

Definition is_int (v : json) : bool := match v with JNull | JNum _ => true | _ => false end.

Definition update_policy (body : json) (p : RateLimitPolicyView) : option limits :=
  l ← update_field positive "request_limit" body (Some (RateLimitPolicyView_request_limit p));
  w ← update_field positive "window_seconds" body (Some (RateLimitPolicyView_window_seconds p));
  b ← update_field positive "burst_capacity" body (RateLimitPolicyView_burst_capacity p);
  pr ← update_field is_int "priority" body (Some (RateLimitPolicyView_priority p));
  Some (mkLimits l w b pr).
End Schema.

(** ** Theorems *)

(** [C19] The policy in force is one that applies, and none that applies is more
    specific in its selectors, has a greater priority at the same level, or more
    literal characters at the same priority; the default is used only when
    nothing applies. *)
Theorem resolve_policy_spec r policies default_str :
  match Limits.best r policies with
  | Some b =>
      b ∈ policies /\ Limits._policy_matches b r = true /\
      Limits.resolve_policy r policies default_str =
        Some (Limits.mkEffective (RateLimitPolicyView_algorithm b) (RateLimitPolicyView_request_limit b)
                (RateLimitPolicyView_window_seconds b) (RateLimitPolicyView_burst_capacity b)
                (Limits._scope_for_level (Limits._selector_level b))) /\
      forall p, p ∈ policies -> Limits._policy_matches p r = true ->
        (Limits._selector_level b <= Limits._selector_level p)%Z /\
        (Limits._selector_level p = Limits._selector_level b ->
           RateLimitPolicyView_priority p <= RateLimitPolicyView_priority b)%Z /\
        (Limits._selector_level p = Limits._selector_level b ->
         RateLimitPolicyView_priority p = RateLimitPolicyView_priority b ->
           Limits.specificity p <= Limits.specificity b)%Z
  | None =>
      (forall p, p ∈ policies -> Limits._policy_matches p r = false) /\
      Limits.resolve_policy r policies default_str =
        ('(limit, window) ← Limits.parse_default default_str;
         Some (Limits.mkEffective RateLimitAlgorithm_token_bucket limit window (Some limit) "tool"))
  end.
Proof.
  pose proof (Limits.best_spec r policies) as H. unfold Limits.resolve_policy.
  destruct (Limits.best r policies) as [b|]; [|done].
  destruct H as (Hb & Hm & Hr). split_and!; [done..|]. intros p Hp Hpm.
  specialize (Hr p Hp Hpm). unfold Limits.by_rank, Limits._rank_key, Limits.key_le in Hr. lia.
Qed.

