(* ===== verification/PolicyBuilder.v ===== *)
(** * The policy builder: web/src/app/dashboard/policies/new/page.tsx

    The eight-step wizard as a state machine, its plain-language preview, its
    simulator, and what publishing sends; compared with what the gateway stores
    and enforces ([Gateway]).  Numbers are integers. *)

From Stdlib Require Import ZifyBool.
From S2P Require Import Prelude JsString Json Browser AuthStore AxiosClient ApiTypes ApiClient Tally Tools Gateway.

(** [`"${s}"`] *)
Definition quoted (s : string) : string := dquote +:+ s +:+ dquote.

(** [s.replace(c, "")] with a string: the first occurrence only *)
Fixpoint remove_first (c : ascii) (s : string) : string :=
  match s with
  | "" => ""
  | String d r => if bool_decide (d = c) then r else String d (remove_first c r)
  end.

(** [s.replace("_", " ")] *)
Fixpoint replace_first (c d : ascii) (s : string) : string :=
  match s with
  | "" => ""
  | String e r => if bool_decide (e = c) then String d r else String e (replace_first c d r)
  end.

(** [err?.response?.data?.detail ?? d] *)
Definition detail_or (d : string) (e : AxiosError) : json :=
  default (JStr d) (nullish (r ← ae_response e; v ← ax_data r; json_field "detail" v)).

Module Builder.

(** ** State *)

(** The keys of [WizardState] holding strings and numbers: [set] and [setNum]
    assign them dynamically. *)
Inductive skey :=
  | name | description | owner | environment | tags
  | subjectMode | roleId | subjectId
  | serverPattern | toolPattern
  | action
  | timeWindowStart | timeWindowEnd | ipRange
  | algorithm
  | testSubjectId | testToolName.

Inductive nkey := requestLimit | windowSeconds | burstCapacity | priority.

#[export] Instance skey_eq : EqDecision skey.
Proof. solve_decision. Defined.
#[export] Instance nkey_eq : EqDecision nkey.
Proof. solve_decision. Defined.

Record WizardState := mkState {
  str : skey -> string;
  num : nkey -> Z;
  testResult : option (string * string) }.

Definition PolicyAction : list string := ["allow"; "deny"; "rate_limit"; "log_only"].
Definition SubjectMode : list string := ["all"; "role"; "api_key"; "oauth_subject"].
Definition Algorithm : list string := ["token_bucket"; "sliding_window"].

Definition INIT : WizardState := mkState
  (fun k => match k with
            | environment => "development"
            | subjectMode => "all"
            | serverPattern | toolPattern => "*"
            | action => "rate_limit"
            | algorithm => "sliding_window"
            | _ => ""
            end)
  (fun k => match k with requestLimit => 100 | windowSeconds => 60 | burstCapacity => 0 | priority => 100 end%Z)
  None.

(** [set(k, v)] and [setNum(k, v)] *)
Definition set (k : skey) (v : string) (s : WizardState) : WizardState :=
  mkState (fun j => if decide (j = k) then v else str s j) (num s) (testResult s).

Definition setNum (k : nkey) (v : Z) (s : WizardState) : WizardState :=
  mkState (str s) (fun j => if decide (j = k) then v else num s j) (testResult s).

(** [s.k === v] *)
Definition has (s : WizardState) (k : skey) (v : string) : bool := bool_decide (str s k = v).
Definition unset (s : WizardState) (k : skey) : bool := has s k "".
Definition or_text (d s : string) : string := if bool_decide (s = "") then d else s.

(** ** Preview and review *)

(** [roles.find((r) => r.id === s.roleId)?.name ?? s.roleId] *)
Definition role_text (s : WizardState) (roles : list RoleView) : string :=
  default (str s roleId)
    (RoleView_name <$> List.find (fun r => bool_decide (RoleView_id r = str s roleId)) roles).

Definition subjStr (s : WizardState) (roles : list RoleView) : string :=
  if has s subjectMode "all" then "All subjects"
  else if has s subjectMode "role" then "Members of role " +:+ quoted (role_text s roles)
  else if has s subjectMode "api_key" then "API key " +:+ quoted (or_text "<unset>" (str s subjectId))
  else "OAuth subject " +:+ quoted (or_text "<unset>" (str s subjectId)).

Definition toolStr (s : WizardState) : string :=
  if unset s toolPattern || has s toolPattern "*" then "all tools"
  else "tools matching " +:+ quoted (str s toolPattern).

Definition serverStr (s : WizardState) : string :=
  if unset s serverPattern || has s serverPattern "*" then "all servers"
  else "server " +:+ quoted (str s serverPattern).

Definition buildExplanation (s : WizardState) (roles : list RoleView) : string :=
  if has s action "rate_limit" then
    let algo := if has s algorithm "sliding_window" then "sliding window" else "token bucket" in
    let time := if negb (unset s timeWindowStart) && negb (unset s timeWindowEnd)
                then " between " +:+ str s timeWindowStart +:+ " and " +:+ str s timeWindowEnd +:+ " UTC"
                else "" in
    subjStr s roles +:+ " may make at most " +:+ pretty (num s requestLimit) +:+ " requests per "
    +:+ pretty (num s windowSeconds) +:+ "s to " +:+ toolStr s +:+ " on " +:+ serverStr s +:+ time
    +:+ ", enforced using a " +:+ algo +:+ " algorithm with priority " +:+ pretty (num s priority) +:+ "."
  else if has s action "allow" then
    subjStr s roles +:+ " are permitted to invoke " +:+ toolStr s +:+ " on " +:+ serverStr s +:+ "."
  else if has s action "deny" then
    subjStr s roles +:+ " are denied access to " +:+ toolStr s +:+ " on " +:+ serverStr s +:+ "."
  else
    subjStr s roles +:+ " requests to " +:+ toolStr s +:+ " on " +:+ serverStr s
    +:+ " will be logged without enforcement.".

Definition Step8_rows (s : WizardState) (roles : list RoleView) : list (string * string) :=
  [("Name", or_text "(unnamed)" (str s name));
   ("Action", replace_first "_" " " (str s action));
   ("Subjects", if has s subjectMode "role" then "Role: " +:+ role_text s roles
                else if has s subjectMode "all" then "All subjects"
                else or_text "(not set)" (str s subjectId));
   ("Server Pattern", or_text "*" (str s serverPattern));
   ("Tool Pattern", or_text "*" (str s toolPattern))]
  ++ (if has s action "rate_limit"
      then [("Request Limit", pretty (num s requestLimit) +:+ " / " +:+ pretty (num s windowSeconds) +:+ "s");
            ("Algorithm", replace_first "_" " " (str s algorithm));
            ("Burst", if (0 <? num s burstCapacity)%Z then pretty (num s burstCapacity) else "None")]
      else [])
  ++ [("Priority", pretty (num s priority)); ("Environment", str s environment)].

Definition BROAD : string := "Overly broad: both server and tool patterns are wildcards.".
Definition DENY_ALL : string := "Denying all subjects may break legitimate access.".
Definition NO_ROLE : string := "No role selected — this permission will not be created.".

Definition is_access (s : WizardState) : bool := has s action "allow" || has s action "deny".

Definition warnings (s : WizardState) : list string :=
  (if has s serverPattern "*" && has s toolPattern "*" then [BROAD] else [])
  ++ (if has s action "deny" && has s subjectMode "all" then [DENY_ALL] else [])
  ++ (if is_access s && unset s roleId && has s subjectMode "role" then [NO_ROLE] else []).

(** ** The simulator *)
Definition toolMatches (s : WizardState) : bool :=
  unset s toolPattern || has s toolPattern "*"
  || startsWith (str s testToolName) (remove_first "*" (str s toolPattern))
  || bool_decide (str s testToolName = str s toolPattern).

Definition subjectMatches (s : WizardState) : bool :=
  has s subjectMode "all"
  || has s subjectMode "api_key" && bool_decide (str s testSubjectId = str s subjectId)
  || has s subjectMode "role".

Definition would (s : WizardState) : bool := toolMatches s && subjectMatches s.

Definition simulateDecision (s : WizardState) : WizardState :=
  let outcome := if has s action "deny" then (if would s then "denied" else "allowed") else "allowed" in
  let why :=
    if would s then
      "The test subject " +:+ quoted (or_text "(any)" (str s testSubjectId)) +:+ " and tool "
      +:+ quoted (or_text "(any)" (str s testToolName)) +:+ " match this policy's patterns."
    else "The test inputs do not match this policy's patterns, so the policy would not apply." in
  mkState (str s) (num s) (Some (outcome, why)).

(** ** Publishing *)
Definition nonzero (z : Z) : json := if (z =? 0)%Z then JNull else JNum z.

Definition rate_limit_body (s : WizardState) : json :=
  JObj (opt_prop "subject_id"
          (if has s subjectMode "all" then None else JStr <$> or_none (str s subjectId))
        ++ [("server_pattern", nullable_str (or_none (str s serverPattern)));
            ("tool_pattern", nullable_str (or_none (str s toolPattern)));
            ("algorithm", JStr (if has s algorithm "sliding_window" then "sliding_window" else "token_bucket"));
            ("request_limit", JNum (num s requestLimit));
            ("window_seconds", JNum (num s windowSeconds));
            ("burst_capacity", nonzero (num s burstCapacity));
            ("priority", JNum (num s priority))]).

Definition permission_body (s : WizardState) : json :=
  JObj [("server_pattern", JStr (or_text "*" (str s serverPattern)));
        ("tool_pattern", JStr (or_text "*" (str s toolPattern)));
        ("effect", JStr (if has s action "allow" then "allow" else "deny"));
        ("priority", JNum (num s priority))].

Definition role_body (s : WizardState) : json :=
  JObj [("name", JStr (or_text "New Policy Role" (str s name)))].

Inductive act :=
  | Invalidate (key : string)
  | ToastSuccess (msg : string)
  | ToastError (msg : json)
  | Push (path : string).

Definition FAILED : string := "Failed to create policy".
Definition back_to_list : act := Push "/dashboard/policies".

(** [(newRole.data as RoleView).id] in a URL; [None]: reading a property of
    [undefined] or [null] throws. *)
Definition new_role_id (r : orval_response) : option string :=
  match or_data r with
  | None | Some JNull => None
  | Some v => Some (match json_field "id" v with Some i => js_String i | None => "undefined" end)
  end.

Section publish.
Context (dispatch : AxiosDefaults -> AxiosConfig -> M (AxiosError + AxiosResponse)).

(** [try { r = await m; k } catch (err) { toast }] after the acts [done]. *)
Definition settle (acts : list act) (m : Reply) (k : orval_response -> M (list act)) : M (list act) :=
  r <-- try_catch (r <-- m; ret (Some r)) (fun _ => ret None);
  match r with
  | Some (inr res) => k res
  | Some (inl e) => ret (acts ++ [ToastError (detail_or FAILED e)])
  | None => ret (acts ++ [ToastError (JStr FAILED)])
  end.

Definition create_permission (s : WizardState) (role : string) (acts : list act) : M (list act) :=
  settle acts (createPermissionV1RolesRoleIdPermissionsPost dispatch role (permission_body s) None)
    (fun _ => ret (acts ++ [Invalidate "/v1/roles"; ToastSuccess "Access policy created"; back_to_list])).

Definition publish (s : WizardState) : M (list act) :=
  if has s action "rate_limit" then
    settle [] (createPolicyV1RateLimitPoliciesPost dispatch (rate_limit_body s) None)
      (fun _ => ret [Invalidate "/v1/rate-limit-policies"; ToastSuccess "Rate limit policy created"; back_to_list])
  else if is_access s then
    if unset s roleId then
      settle [] (createRoleV1RolesPost dispatch (role_body s) None)
        (fun newRole =>
           match new_role_id newRole with
           | None => ret [ToastError (JStr FAILED)]
           | Some role => create_permission s role [Invalidate "/v1/roles"]
           end)
    else create_permission s (str s roleId) []
  else ret [ToastSuccess "Policy saved (log-only — no enforcement action created)"; back_to_list].
End publish.

(** ** The wizard's state machine *)

Record page := mkPage {
  pg_step : nat;
  pg_state : WizardState;
  pg_isPublishing : bool;
  pg_published : list WizardState (** the states [publish] was called in *) }.

Definition start : page := mkPage 1 INIT false [].

Definition STEPS : list (nat * string) :=
  [(1, "Name & Purpose"); (2, "Subjects"); (3, "Resources"); (4, "Action"); (5, "Conditions");
   (6, "Controls"); (7, "Test"); (8, "Review")].

Definition canProceed (p : page) : bool :=
  if (pg_step p =? 1)%nat && bool_decide (trim (str (pg_state p) name) = "") then false
  else if (pg_step p =? 2)%nat && has (pg_state p) subjectMode "role" && unset (pg_state p) roleId then false
  else true.

Definition one_of (l : list string) (v : string) : bool := bool_decide (v ∈ l).
Definition ENVIRONMENTS : list string := ["all"; "production"; "staging"; "development"; "local"].

(** The values the controls of a step can assign. *)
Definition offered (roles : list RoleView) (p : page) (k : skey) (v : string) : bool :=
  let s := pg_state p in
  match pg_step p, k with
  | 1, (name | description | owner | tags) => true
  | 1, environment => one_of ENVIRONMENTS v
  | 2, subjectMode => one_of SubjectMode v
  | 2, roleId => has s subjectMode "role" && one_of ("" :: map RoleView_id roles) v
  | 2, subjectId => has s subjectMode "api_key" || has s subjectMode "oauth_subject"
  | 3, (serverPattern | toolPattern) => true
  | 4, action => one_of PolicyAction v
  | 5, (timeWindowStart | timeWindowEnd | ipRange) => true
  | 6, algorithm => has s action "rate_limit" && one_of Algorithm v
  | 7, (testSubjectId | testToolName) => true
  | _, _ => false
  end.

Definition offered_num (p : page) (k : nkey) : bool :=
  (pg_step p =? 6)%nat &&
  match k with priority => true | _ => has (pg_state p) action "rate_limit" end.

Inductive event :=
  | Input (roles : list RoleView) (k : skey) (v : string)
  | InputNum (k : nkey) (v : Z)
  | Simulate
  | Dot (id : nat)
  | Previous
  | Continue
  | Publish
  | Settled.

Definition with_state (s : WizardState) (p : page) : page :=
  mkPage (pg_step p) s (pg_isPublishing p) (pg_published p).
Definition with_step (n : nat) (p : page) : page :=
  mkPage n (pg_state p) (pg_isPublishing p) (pg_published p).

Definition handle (e : event) (p : page) : page :=
  match e with
  | Input roles k v => if offered roles p k v then with_state (set k v (pg_state p)) p else p
  | InputNum k v => if offered_num p k then with_state (setNum k v (pg_state p)) p else p
  | Simulate => if (pg_step p =? 7)%nat then with_state (simulateDecision (pg_state p)) p else p
  | Dot id => if bool_decide (id ∈ STEPS.*1) && (id <? pg_step p)%nat then with_step id p else p
  | Previous => if (pg_step p =? 1)%nat then p else with_step (Nat.max 1 (pg_step p - 1)) p
  | Continue => if (pg_step p <? 8)%nat && canProceed p then with_step (S (pg_step p)) p else p
  | Publish =>
      if (pg_step p =? 8)%nat && negb (pg_isPublishing p)
      then mkPage (pg_step p) (pg_state p) true (pg_published p ++ [pg_state p]) else p
  | Settled => mkPage (pg_step p) (pg_state p) false (pg_published p)
  end.

Inductive reachable : page -> Prop :=
  | reach_start : reachable start
  | reach_step e p : reachable p -> reachable (handle e p).
End Builder.

(** ** Theorems *)
Module BuilderFacts.
Import Builder.

Lemma has_true s k v : has s k v = true <-> str s k = v.
Proof. apply bool_decide_eq_true. Qed.
Lemma has_false s k v : has s k v = false <-> str s k <> v.
Proof. apply bool_decide_eq_false. Qed.

Lemma has_value s k v v' : str s k = v -> has s k v' = bool_decide (v = v').
Proof. by intros <-. Qed.

(** [set] accepts any string for any key; these keys have literal types. *)
Definition typed (s : WizardState) : Prop :=
  str s subjectMode ∈ SubjectMode /\ str s action ∈ PolicyAction /\
  str s algorithm ∈ Algorithm /\ str s environment ∈ ENVIRONMENTS.

(** What holds of the state when step [n] is shown. *)
Definition ready (n : nat) (s : WizardState) : Prop :=
  typed s /\
  (1 < n -> trim (str s name) <> "") /\
  (2 < n -> str s subjectMode = "role" -> str s roleId <> "").

Definition invariant (p : page) : Prop :=
  1 <= pg_step p <= 8 /\ ready (pg_step p) (pg_state p) /\ Forall (ready 8) (pg_published p).

Lemma ready_le m n s : m <= n -> ready n s -> ready m s.
Proof. intros Hle (? & H1 & H2). split_and!; [done|intros; apply H1; lia|intros ? ?; apply H2; [lia|done]]. Qed.

Lemma set_ready roles p k v :
  offered roles p k v = true -> ready (pg_step p) (pg_state p) ->
  ready (pg_step p) (set k v (pg_state p)).
Proof.
  destruct p as [n s pub l]. cbn [pg_step pg_state]. intros Ho ((? & ? & ? & ?) & Hn & Hr).
  unfold offered, one_of in Ho. cbn [pg_step pg_state] in Ho. unfold ready, typed.
  do 8 (destruct n as [|n]; [destruct k; cbn in Ho |- *; bool_hyps; split_and!; first [done | lia | by auto]|]).
  done.
Qed.

Lemma step_ready p : invariant p -> canProceed p = true -> pg_step p < 8 -> ready (S (pg_step p)) (pg_state p).
Proof.
  destruct p as [n s pub l]. intros ((? & ?) & (Ht & Hn & Hr) & _) Hc Hlt. cbn [pg_step pg_state] in *.
  unfold canProceed in Hc. cbn [pg_step pg_state] in Hc. split_and!; [done| |].
  - intros _. destruct (decide (1 < n)); [by apply Hn|]. replace n with 1 in Hc by lia.
    cbn in Hc. case_bool_decide; done.
  - intros Hgt Hm. destruct (decide (2 < n)); [by apply Hr|]. intros He.
    assert (n = 2) as -> by lia. cbn in Hc. unfold unset in Hc.
    by rewrite (proj2 (has_true _ _ _) Hm), (proj2 (has_true _ _ _) He) in Hc.
Qed.

Lemma dot_range id : id ∈ STEPS.*1 -> 1 <= id.
Proof. intros H. by repeat (apply elem_of_cons in H as [->|H]; [cbn; lia|]); apply not_elem_of_nil in H. Qed.

Lemma invariant_intro n s b l :
  1 <= n <= 8 -> ready n s -> Forall (ready 8) l -> invariant (mkPage n s b l).
Proof. intros. split; [done|]. split; done. Qed.

Lemma handle_invariant e p : invariant p -> invariant (handle e p).
Proof.
  intros Hi. pose proof Hi as (Hstep & Hready & Hpub).
  destruct e as [roles k v|k v| |id| | | |]; cbn [handle]; try case_match; try done;
    bool_hyps; apply invariant_intro; try done; try lia.
  - by eapply set_ready.
  - assert (1 <= id) by by eapply dot_range. lia.
  - eapply ready_le; [|done]. lia.
  - eapply ready_le; [|done]. lia.
  - apply step_ready; [done..|lia].
  - assert (pg_step p = 8) as E8 by lia. rewrite E8 in Hready.
    apply Forall_app. split; [done|]. by constructor.
Qed.

Lemma reachable_invariant p : reachable p -> invariant p.
Proof.
  induction 1; [|by apply handle_invariant].
  apply invariant_intro; [lia| |constructor]. split; [|split; lia].
  repeat split; by apply (bool_decide_unpack _).
Qed.

(** *** What is stored *)

Definition in_range (s : WizardState) : bool :=
  (from_option String.length 0 (if has s subjectMode "all" then None else or_none (str s subjectId)) <=? 500)%nat
  && (String.length (str s serverPattern) <=? 200)%nat && (String.length (str s toolPattern) <=? 200)%nat
  && Schema.within 1 1000000 (num s requestLimit) && Schema.within 1 86400 (num s windowSeconds)
  && Schema.within 0 1000000 (num s burstCapacity) && Schema.within (-1000) 1000 (num s priority)
  && (has s algorithm "sliding_window" || (0 <? num s burstCapacity)%Z).

Definition algorithm_value (s : WizardState) : RateLimitAlgorithm :=
  if has s algorithm "sliding_window" then RateLimitAlgorithm_sliding_window else RateLimitAlgorithm_token_bucket.

(** The subject id sent: the field's text, whatever the mode, except for "all". *)
Definition sent_subject (s : WizardState) : option string :=
  if has s subjectMode "all" then None else or_none (str s subjectId).

(** The row the gateway stores for a published rate limit. *)
Definition stored (id now : string) (s : WizardState) : RateLimitPolicyView :=
  mkRateLimitPolicyView id (sent_subject s) (Some SubjectType_api_key)
    (or_none (str s serverPattern)) (or_none (str s toolPattern)) (algorithm_value s)
    (num s requestLimit) (num s windowSeconds)
    (if (num s burstCapacity =? 0)%Z then None else Some (num s burstCapacity)) (num s priority) now now.

Lemma opt_str_or_none max v :
  (String.length v <= max)%nat -> Schema.opt_str max (Some (nullable_str (or_none v))) = Some (or_none v).
Proof.
  intros H. unfold or_none. case_bool_decide; [done|]. cbn. rewrite (proj2 (Nat.leb_le _ _) H). done.
Qed.

Lemma opt_str_long max v :
  (max < String.length v)%nat -> Schema.opt_str max (Some (nullable_str (or_none v))) = None.
Proof.
  intros H. unfold or_none. rewrite bool_decide_false by (intros ->; cbn in H; lia). cbn.
  by rewrite (proj2 (Nat.leb_gt _ _) H).
Qed.

Lemma body_fields s :
  let f k := json_field k (rate_limit_body s) in
  f "subject_id" = JStr <$> sent_subject s /\
  f "subject_type" = None /\
  f "server_pattern" = Some (nullable_str (or_none (str s serverPattern))) /\
  f "tool_pattern" = Some (nullable_str (or_none (str s toolPattern))) /\
  f "algorithm" = Some (JStr (if has s algorithm "sliding_window" then "sliding_window" else "token_bucket")) /\
  f "request_limit" = Some (JNum (num s requestLimit)) /\
  f "window_seconds" = Some (JNum (num s windowSeconds)) /\
  f "burst_capacity" = Some (nonzero (num s burstCapacity)) /\
  f "priority" = Some (JNum (num s priority)).
Proof.
  cbv zeta. unfold rate_limit_body, sent_subject.
  destruct (has s subjectMode "all"); [|destruct (or_none (str s subjectId))]; repeat split; reflexivity.
Qed.

Lemma opt_str_sent max o :
  Schema.opt_str max (JStr <$> o) = if (from_option String.length 0 o <=? max)%nat then Some o else None.
Proof. by destruct o. Qed.

Lemma opt_str_pattern max v :
  Schema.opt_str max (Some (nullable_str (or_none v))) =
  if (String.length v <=? max)%nat then Some (or_none v) else None.
Proof.
  unfold or_none. case_bool_decide; [by subst|]. cbn. done.
Qed.

Lemma algorithm_sent s :
  Schema.algorithm_of (Some (JStr (if has s algorithm "sliding_window" then "sliding_window" else "token_bucket")))
  = Some (algorithm_value s).
Proof. unfold algorithm_value. by destruct (has s algorithm _). Qed.

Lemma burst_sent z :
  Schema.opt_int_in 1 1000000 (Some (nonzero z)) =
  if Schema.within 0 1000000 z then Some (if (z =? 0)%Z then None else Some z) else None.
Proof.
  unfold nonzero. destruct (Z.eqb_spec z 0) as [->|Hz]; [done|]. cbn. unfold Schema.within.
  replace (1 <=? z)%Z with (0 <=? z)%Z by lia. by destruct (_ && _).
Qed.

Lemma create_policy_spec id now s :
  Schema.create_policy id now (rate_limit_body s) = if in_range s then Some (stored id now s) else None.
Proof.
  unfold Schema.create_policy.
  destruct (body_fields s) as (-> & -> & -> & -> & -> & -> & -> & -> & ->).
  rewrite opt_str_sent, !opt_str_pattern, algorithm_sent, burst_sent.
  unfold in_range. fold (sent_subject s). cbn [Schema.int_in Schema.subject_type_of].
  repeat match goal with
         | |- (if ?b then _ else _) ≫= _ = _ => destruct b eqn:?; cbn [mbind option_bind andb]; [|done]
         end.
  unfold stored, algorithm_value, Schema.within in *.
  destruct (has s algorithm "sliding_window"); [done|]. cbn [orb].
  destruct (Z.eqb_spec (num s burstCapacity) 0).
  - by replace (0 <? _)%Z with false by lia.
  - by replace (0 <? _)%Z with true by lia.
Qed.
End BuilderFacts.

(** [C18] A published rate limit is well formed for the backend exactly when its
    numbers and texts are in range (in particular a token bucket needs a burst);
    the row stored is then the one described, whatever the role, the subject
    kind, the times and the address ranges chosen. *)
Theorem published_body_checked id now s :
  Schema.create_policy id now (Builder.rate_limit_body s) =
  if BuilderFacts.in_range s then Some (BuilderFacts.stored id now s) else None.
Proof. apply BuilderFacts.create_policy_spec. Qed.

(** [C17] The wizard stays well typed although [set] takes any string for any key:
    whatever the user does, a step between 1 and 8 is shown, and every state
    that is ever published has a legal action, mode, algorithm and environment,
    a name that is not blank, and a role when it speaks of a role. *)
Theorem wizard_well_typed p :
  Builder.reachable p ->
  1 <= Builder.pg_step p <= 8 /\
  BuilderFacts.typed (Builder.pg_state p) /\
  forall s, s ∈ Builder.pg_published p ->
    BuilderFacts.typed s /\ trim (Builder.str s Builder.name) <> "" /\
    (Builder.str s Builder.subjectMode = "role" -> Builder.str s Builder.roleId <> "") /\
    Builder.NO_ROLE ∉ Builder.warnings s.
Proof.
  intros (Hs & [Ht _] & Hp)%BuilderFacts.reachable_invariant. split; [done|]. split; [done|].
  rewrite Forall_forall in Hp. intros s (Hts & Hn & Hr)%Hp.
  split; [done|]. split; [apply Hn; lia|]. split; [apply Hr; lia|].
  unfold Builder.warnings. rewrite !not_elem_of_app. split_and!; case_match; try set_solver.
  bool_hyps. exfalso. apply Hr; [lia|by apply BuilderFacts.has_true..].
Qed.

(** [C35] A rate limit published for a role is not one.  The summary speaks of
    the role's members, but the body sent is the same whichever role is chosen,
    and the row the backend stores for it applies, when the subject field was left
    empty, to a request whoever sends it; when the field still holds the text typed
    for another kind of subject, it applies to that subject only, the role's other
    members excluded. *)
Theorem role_limit_applies_to_all id now roles s row :
  Builder.str s Builder.action = "rate_limit" ->
  Builder.str s Builder.subjectMode = "role" ->
  Schema.create_policy id now (Builder.rate_limit_body s) = Some row ->
  startsWith (Builder.buildExplanation s roles) ("Members of role " +:+ quoted (Builder.role_text s roles)) = true /\
  (forall role, Builder.rate_limit_body (Builder.set Builder.roleId role s) = Builder.rate_limit_body s) /\
  (Builder.str s Builder.subjectId = "" -> forall server tool subject subject_type subject' subject_type',
     Limits._policy_matches row (Limits.mkRequest subject subject_type server tool) =
     Limits._policy_matches row (Limits.mkRequest subject' subject_type' server tool)) /\
  (Builder.str s Builder.subjectId <> "" -> forall r,
     Limits._policy_matches row r = true -> Limits.rq_subject_id r = Some (Builder.str s Builder.subjectId)).
Proof.
  intros Ha Hm Hc. rewrite BuilderFacts.create_policy_spec in Hc. case_match; [|done]. injection Hc as <-.
  assert (BuilderFacts.sent_subject s = or_none (Builder.str s Builder.subjectId)) as Hs.
  { unfold BuilderFacts.sent_subject. by rewrite (BuilderFacts.has_value _ _ _ _ Hm). }
  unfold Limits._policy_matches, Limits.subject_matches, BuilderFacts.stored, or_none in *.
  cbn [RateLimitPolicyView_subject_id RateLimitPolicyView_subject_type]. rewrite Hs. split_and!.
  - unfold Builder.buildExplanation, Builder.subjStr.
    rewrite (BuilderFacts.has_value _ _ _ _ Ha), !(BuilderFacts.has_value _ _ _ _ Hm).
    rewrite (bool_decide_false ("role" = "all")), !bool_decide_true by done. apply startsWith_app.
  - done.
  - intros -> *. by rewrite bool_decide_true.
  - intros Hn r. rewrite bool_decide_false by done. intros [[Hr _]%andb_true_iff _]%andb_true_iff.
    destruct (Limits.rq_subject_id r); [|done]. by apply andb_true_iff in Hr as [->%bool_decide_eq_true _].
Qed.

(** A rate limit for an OAuth subject never applies to that subject: the row is
    stored with the default subject type, that of API keys. *)
Theorem oauth_limit_never_applies id now s r :
  Builder.str s Builder.subjectMode = "oauth_subject" ->
  Builder.str s Builder.subjectId <> "" ->
  Limits.rq_subject_type r = Some SubjectType_oauth_subject ->
  Limits._policy_matches (BuilderFacts.stored id now s) r = false.
Proof.
  intros Hm Hs Ht. apply andb_false_iff. left. apply andb_false_iff. left.
  unfold Limits.subject_matches, BuilderFacts.stored, BuilderFacts.sent_subject, Builder.has, or_none. rewrite Hm, Ht.
  rewrite !bool_decide_false by done. cbn. destruct (Limits.rq_subject_id r); [|done].
  by rewrite andb_false_r.
Qed.

(** Priorities work the other way round: the builder says that lower numbers
    take precedence, and of two applicable policies with the same kind of
    selectors the gateway never enforces the one with the lower number. *)
Theorem lower_priority_never_wins id1 id2 now1 now2 s1 s2 r policies :
  let p1 := BuilderFacts.stored id1 now1 s1 in
  let p2 := BuilderFacts.stored id2 now2 s2 in
  (Builder.num s1 Builder.priority < Builder.num s2 Builder.priority)%Z ->
  Limits._selector_level p1 = Limits._selector_level p2 ->
  p2 ∈ policies -> Limits._policy_matches p2 r = true ->
  Limits.best r policies <> Some p1.
Proof.
  cbv zeta. intros Hlt Hl Hin Hm Hb. pose proof (Limits.best_spec r policies) as H. rewrite Hb in H.
  destruct H as (_ & _ & H). specialize (H _ Hin Hm).
  unfold Limits.by_rank, Limits.key_le, Limits._rank_key in H. rewrite Hl in H. cbn in H. lia.
Qed.

(** A backend that validates the names of new roles. *)
Definition validates_roles (dispatch : AxiosDefaults -> AxiosConfig -> M (AxiosError + AxiosResponse)) : Prop :=
  forall df c v n, cf_url c = "/v1/roles" -> cf_method c = "POST" ->
    cf_data c = Some (JStr (JSON_stringify (JObj [("name", JStr n)]))) -> Schema.RoleCreate_accepts n = false ->
    exists e v', dispatch df c v = (Ok (inl e), v').

Lemma settle_refused acts m k w :
  (exists w', (exists e, m w = (Ok (inl e), w')) \/ (exists x, m w = (Err x, w'))) ->
  exists msg w', Builder.settle acts m k w = (Ok (acts ++ [Builder.ToastError msg]), w').
Proof.
  intros (w' & [[e H]|[x H]]); unfold Builder.settle, try_catch, bind, ret; rewrite H; by eauto.
Qed.

(** An allow or deny policy without a role names a new role after itself, and
    the backend refuses role names with a space: publishing a policy named like
    the builder's own example only shows an error. *)
Theorem access_policy_needs_role_name dispatch s w :
  validates_roles dispatch ->
  Builder.str s Builder.action = "allow" \/ Builder.str s Builder.action = "deny" ->
  Builder.str s Builder.roleId = "" ->
  without " " (Builder.str s Builder.name) = false ->
  exists msg w', Builder.publish dispatch s w = (Ok [Builder.ToastError msg], w').
Proof.
  intros Hd Ha Hr Hn. unfold Builder.publish, Builder.is_access, Builder.unset.
  rewrite (BuilderFacts.has_value _ _ _ _ Hr), bool_decide_true by done.
  replace (Builder.has s Builder.action "rate_limit") with false
    by (symmetry; apply BuilderFacts.has_false; by destruct Ha as [-> | ->]).
  replace (_ || _) with true by (symmetry; apply orb_true_iff; by rewrite !BuilderFacts.has_true).
  apply (settle_refused []), axiosInstance_refused. intros df c v Hu Hm Hdat.
  eapply (Hd df c v _ Hu Hm Hdat). apply not_true_is_false. unfold Schema.RoleCreate_accepts.
  intros H. bool_hyps. unfold Builder.or_text in *. case_bool_decide as E; [by rewrite E in Hn|].
  enough (without " " (Builder.str s Builder.name) = true) by congruence.
  eapply sforall_impl; [|done]. intros ch Hch. apply negb_true_iff, bool_decide_eq_false. intros E2. by subst.
Qed.

Lemma remove_first_star b : without "*" b = true -> remove_first "*" (b +:+ "*") = b /\ remove_first "*" b = b.
Proof.
  induction b as [|c b IH]; [done|]. rewrite without_cons. intros H. bool_hyps. destruct IH as [IH1 IH2]; [done|].
  rewrite app_cons. cbn [remove_first]. rewrite !bool_decide_false by congruence. by rewrite IH1, IH2.
Qed.

Lemma startsWith_refl p : startsWith p p = true.
Proof. rewrite <- (sapp_nil_r p) at 1. apply startsWith_app. Qed.

(** The simulator agrees with the gateway on prefix patterns, and takes an exact
    tool name for a prefix. *)
Theorem simulator_tool_matching s :
  let pattern := Builder.str s Builder.toolPattern in
  let tool := Builder.str s Builder.testToolName in
  pattern <> "" -> ToolDetail.simple_pattern pattern = true ->
  Builder.toolMatches s =
  if ToolDetail.ends_star pattern then fnmatchcase tool pattern
  else fnmatchcase tool pattern || startsWith tool pattern.
Proof.
  cbv zeta. intros Hne Hsp. unfold Builder.toolMatches, Builder.unset, Builder.has, ToolDetail.simple_pattern in *.
  rewrite (bool_decide_false (_ = "")) by done. cbn [orb].
  destruct (ToolDetail.ends_star _) eqn:E; bool_hyps.
  - pose proof (GlobFacts.ends_star_split _ E) as Hs.
    remember (ToolDetail.but_last (Builder.str s Builder.toolPattern)) as b. rewrite Hs.
    destruct (remove_first_star b) as [-> _]; [done|]. rewrite GlobFacts.glob_prefix by done.
    destruct (startsWith (Builder.str s Builder.testToolName) b) eqn:Ep; [by rewrite orb_true_r|].
    rewrite orb_false_r. apply orb_false_iff. split; apply bool_decide_eq_false.
    + intros Hb. assert (b = "") as ->. { by destruct b as [|? []]. } by destruct (Builder.str s Builder.testToolName).
    + intros Ht. rewrite Ht, startsWith_app in Ep. done.
  - rewrite (bool_decide_false (_ = "*")) by (intros Hs; by rewrite Hs in E).
    destruct (remove_first_star (Builder.str s Builder.toolPattern)) as [_ ->]; [done|].
    rewrite GlobFacts.glob_literal by done. cbn [orb]. rewrite orb_comm. f_equal.
    apply bool_decide_ext. split; congruence.
Qed.

(** ** Witnesses *)

(** The default state, for the given mode, subject and priority. *)
Definition demo_state (act mode role subject : string) (pr : Z) : Builder.WizardState :=
  Builder.setNum Builder.priority pr
    (Builder.set Builder.name "Backend team read-only limit"
       (Builder.set Builder.action act
          (Builder.set Builder.subjectMode mode
             (Builder.set Builder.roleId role (Builder.set Builder.subjectId subject Builder.INIT))))).

Definition wizard_run : list Builder.event :=
  [Builder.Input [] Builder.name "Team"; Builder.Continue; Builder.Continue; Builder.Continue;
   Builder.Continue; Builder.Continue; Builder.Continue; Builder.Continue; Builder.Publish].

Lemma wizard_well_typed_witness :
  let p := fold_left (fun p e => Builder.handle e p) wizard_run Builder.start in
  length (Builder.pg_published p) = 1 /\ 1 <= Builder.pg_step p <= 8.
Proof.
  split; [reflexivity|].
  apply (wizard_well_typed (fold_left (fun p e => Builder.handle e p) wizard_run Builder.start)).
  cbn [fold_left wizard_run]. repeat constructor.
Defined.

Lemma role_limit_applies_to_all_witness :
  let s := demo_state "rate_limit" "role" "r1" "" 100 in
  exists row, Schema.create_policy "p" "t" (Builder.rate_limit_body s) = Some row /\
  Limits._policy_matches row (Limits.mkRequest (Some "intruder") None (Some "github") (Some "x")) = true.
Proof.
  cbv zeta. eexists. split; [reflexivity|].
  destruct (role_limit_applies_to_all "p" "t" [] (demo_state "rate_limit" "role" "r1" "" 100) _
    eq_refl eq_refl eq_refl) as (_ & _ & H & _).
  etransitivity; [exact (H eq_refl (Some "github") (Some "x") (Some "intruder") None None None)|reflexivity].
Defined.

Lemma oauth_limit_never_applies_witness :
  Limits._policy_matches (BuilderFacts.stored "p" "t" (demo_state "rate_limit" "oauth_subject" "" "auth0|1" 100))
    (Limits.mkRequest (Some "auth0|1") (Some SubjectType_oauth_subject) (Some "github") (Some "x")) = false.
Proof. by apply oauth_limit_never_applies. Defined.

Lemma lower_priority_never_wins_witness :
  let p1 := BuilderFacts.stored "p1" "t" (demo_state "rate_limit" "all" "" "" 1) in
  let p2 := BuilderFacts.stored "p2" "t" (demo_state "rate_limit" "all" "" "" 500) in
  Limits.best (Limits.mkRequest None None (Some "github") (Some "x")) [p1; p2] <> Some p1.
Proof.
  cbv zeta. apply (lower_priority_never_wins "p1" "p2" "t" "t" (demo_state "rate_limit" "all" "" "" 1)
                     (demo_state "rate_limit" "all" "" "" 500)); [done|done| |done].
  apply elem_of_cons. right. by apply list_elem_of_singleton.
Defined.

(** A backend that refuses everything. *)
Definition refuse_all : AxiosDefaults -> AxiosConfig -> M (AxiosError + AxiosResponse) :=
  fun _ _ => ret (inl (mkAxError "Request failed with status code 422" (Some (mkAxResponse None 422 ∅)))).

Lemma access_policy_needs_role_name_witness :
  exists msg w', Builder.publish refuse_all (demo_state "deny" "all" "" "" 100) (demo_world ∅ []) =
    (Ok [Builder.ToastError msg], w').
Proof.
  apply access_policy_needs_role_name; [|by right|done|done].
  intros df c v n _ _ _ _. eexists _, v. reflexivity.
Defined.

Lemma simulator_tool_matching_witness :
  let s := Builder.set Builder.toolPattern "read"
             (Builder.set Builder.testToolName "read_all" Builder.INIT) in
  Builder.toolMatches s = true /\ fnmatchcase "read_all" "read" = false.
Proof.
  split; [|reflexivity].
  rewrite (simulator_tool_matching (Builder.set Builder.toolPattern "read"
             (Builder.set Builder.testToolName "read_all" Builder.INIT))) by done.
  reflexivity.
Defined.
