(* ===== verification/PolicyPages.v ===== *)
(** * Policy pages: web/src/app/dashboard/policies/page.tsx,
      policies/[id]/page.tsx and rate-limits/page.tsx

    The unified list, the detail page (overview, rule editor, coverage, test,
    activity) and the rate-limit dialog.  Regular expressions are modelled for
    literal characters, [.] and [.*]; on other patterns the platform's [RegExp]
    is a parameter. *)

From Stdlib Require Import ZifyBool.
From S2P Require Import Prelude JsString Json Browser JsInt AuthStore AxiosClient ApiTypes ApiClient Tally Tools Gateway PolicyBuilder.

(** ** Regular expressions *)
Inductive ratom := RLit (c : ascii) | RDot | RDotStar.

Definition re_meta (c : ascii) : bool :=
  bool_decide (c ∈ ["^"; "$"; "\"; "."; "*"; "+"; "?"; "("; ")"; "["; "]"; "{"; "}"; "|"]%char).

(** [None]: outside the fragment. *)
Fixpoint re_parse (s : string) : option (list ratom) :=
  match s with
  | "" => Some []
  | String c r =>
      if bool_decide (c = "."%char) then
        match r with
        | String "*" r' => cons RDotStar <$> re_parse r'
        | _ => cons RDot <$> re_parse r
        end
      else if re_meta c then None else cons (RLit c) <$> re_parse r
  end.

(** [.] does not match line terminators. *)
Definition line_end (c : ascii) : bool := (code c =? 10)%N || (code c =? 13)%N.

Fixpoint re_match (atoms : list ratom) (v : string) {struct atoms} : bool :=
  match atoms with
  | [] => bool_decide (v = "")
  | RLit c :: r => match v with "" => false | String d v' => bool_decide (c = d) && re_match r v' end
  | RDot :: r => match v with "" => false | String d v' => negb (line_end d) && re_match r v' end
  | RDotStar :: r =>
      (fix star (v : string) : bool :=
         re_match r v || match v with "" => false | String d v' => negb (line_end d) && star v' end) v
  end.

(** [s.replace(/\*/g, by_)] *)
Fixpoint replace_stars (by_ s : string) : string :=
  match s with
  | "" => ""
  | String c r => if bool_decide (c = "*"%char) then by_ +:+ replace_stars by_ r else String c (replace_stars by_ r)
  end.

(** [s.slice(0, n)] followed by an ellipsis *)
Definition shortened (n : nat) (s : string) : string := stake n s +:+ "…".

Definition algo_text (a : RateLimitAlgorithm) : string :=
  if bool_decide (a = RateLimitAlgorithm_sliding_window) then "sliding window" else "token bucket".

(** Truthiness of a nullable string: the text when there is one. *)
Definition text_of (o : option string) : option string := s ← o; or_none s.

Inductive act :=
  | Invalidate (key : string)
  | ToastSuccess (msg : string)
  | ToastError (msg : json)
  | Push (path : string).

Definition POLICIES_KEY : string := "/v1/rate-limit-policies".

(** [try { await m; on_ok } catch (err) { on_error }] *)
Definition attempt_call (m : Reply) (on_ok : list act) (on_error : option AxiosError -> list act) : M (list act) :=
  r <-- try_catch (r <-- m; ret (Some r)) (fun _ => ret None);
  match r with
  | Some (inr _) => ret on_ok
  | Some (inl e) => ret (on_error (Some e))
  | None => ret (on_error None)
  end.

(** ** The list *)
Module PolicyList.

Inductive kind := rate_limit | rbac.
Inductive effect := eff_rate_limit | eff_allow | eff_deny.
Inductive status := active | disabled.

#[export] Instance kind_eq : EqDecision kind.
Proof. solve_decision. Defined.
#[export] Instance effect_eq : EqDecision effect.
Proof. solve_decision. Defined.
#[export] Instance status_eq : EqDecision status.
Proof. solve_decision. Defined.

Inductive raw := RawLimit (p : RateLimitPolicyView) | RawRole (r : RoleView).

Record UnifiedPolicy := mkUnified {
  up_id : string;
  up_type : kind;
  up_name : string;
  up_effect : effect;
  up_subjects : string;
  up_tools : string;
  up_server : string;
  up_priority : Z;
  up_status : status;
  up_updatedAt : string;
  up_raw : raw }.

Definition humanExplain (p : UnifiedPolicy) : string :=
  match up_raw p with
  | RawLimit rl =>
      let subject := match text_of (RateLimitPolicyView_subject_id rl) with
                     | Some s => "Subject " +:+ quoted (shortened 8 s) | None => "All subjects" end in
      let server := match text_of (RateLimitPolicyView_server_pattern rl) with
                    | Some s => "server " +:+ quoted s | None => "all servers" end in
      let tool := match text_of (RateLimitPolicyView_tool_pattern rl) with
                  | Some s => "tools matching " +:+ quoted s | None => "all tools" end in
      subject +:+ " may make at most " +:+ pretty (RateLimitPolicyView_request_limit rl) +:+ " requests per "
      +:+ pretty (RateLimitPolicyView_window_seconds rl) +:+ "s to " +:+ tool +:+ " on " +:+ server
      +:+ " (" +:+ algo_text (RateLimitPolicyView_algorithm rl) +:+ ")."
  | RawRole _ =>
      "Members assigned to role " +:+ quoted (up_name p)
      +:+ " have access controlled by tool permissions configured on this role."
  end.

(** [patternBreadth(pattern) === "broad"] *)
Definition broad (pattern : option string) : bool :=
  match text_of pattern with None => true | Some s => bool_decide (s = "*") end.

Definition of_limit (p : RateLimitPolicyView) : UnifiedPolicy :=
  mkUnified (RateLimitPolicyView_id p) rate_limit
    (match text_of (RateLimitPolicyView_subject_id p) with
     | Some s => "Rate limit: " +:+ shortened 8 s | None => "Global rate limit" end)
    eff_rate_limit (default "all" (RateLimitPolicyView_subject_id p))
    (default "*" (RateLimitPolicyView_tool_pattern p)) (default "*" (RateLimitPolicyView_server_pattern p))
    (RateLimitPolicyView_priority p) active (RateLimitPolicyView_updated_at p) (RawLimit p).

Definition of_role (r : RoleView) : UnifiedPolicy :=
  mkUnified (RoleView_id r) rbac (RoleView_name r) eff_allow "role members" "*" "*" 0 active
    (RoleView_created_at r) (RawRole r).

Definition unified (rlPolicies : list RateLimitPolicyView) (roles : list RoleView) : list UnifiedPolicy :=
  map of_limit rlPolicies ++ map of_role roles.

Definition isBroad (p : UnifiedPolicy) : bool :=
  match up_raw p with
  | RawLimit rl => broad (RateLimitPolicyView_tool_pattern rl) || broad (RateLimitPolicyView_server_pattern rl)
  | RawRole _ => false
  end.

Definition broadPolicies (l : list UnifiedPolicy) : nat := length (List.filter isBroad l).
Definition activePolicies (l : list UnifiedPolicy) : nat :=
  length (List.filter (fun p => bool_decide (up_status p = active)) l).

(** A filter of [None] is "all". *)
Definition keeps {A} `{!EqDecision A} (f : option A) (x : A) : bool :=
  match f with None => true | Some y => bool_decide (x = y) end.

Definition matches_search (search : string) (p : UnifiedPolicy) : bool :=
  let q := toLowerCase search in
  bool_decide (q = "") || includes (toLowerCase (up_name p)) q || includes (toLowerCase (up_tools p)) q
  || includes (toLowerCase (up_server p)) q.

Definition filtered (search : string) (filterEffect : option effect) (filterType : option kind)
    (l : list UnifiedPolicy) : list UnifiedPolicy :=
  List.filter (fun p => matches_search search p && keeps filterEffect (up_effect p) && keeps filterType (up_type p)) l.

(** [handleDeleteRL] here and [handleDelete] of the rate-limit page;
    [confirmed] is the dialog's answer. *)
Definition handleDelete dispatch (confirmed : bool) (id : string) : M (list act) :=
  if confirmed then
    attempt_call (deletePolicyV1RateLimitPoliciesPolicyIdDelete dispatch id None)
      [ToastSuccess "Policy deleted"; Invalidate POLICIES_KEY]
      (fun _ => [ToastError (JStr "Failed to delete policy")])
  else ret [].
End PolicyList.

(** ** The rate-limit page's dialog *)
Module RateLimits.

Record form := mkForm {
  fm_request_limit : Z;
  fm_window_seconds : Z;
  fm_algorithm : RateLimitAlgorithm;
  fm_server_pattern : string;
  fm_tool_pattern : string;
  fm_priority : Z }.

Definition initial : form := mkForm 100 60 RateLimitAlgorithm_sliding_window "" "" 0.

Definition body (f : form) : json :=
  JObj [("request_limit", JNum (fm_request_limit f)); ("window_seconds", JNum (fm_window_seconds f));
        ("algorithm", JStr (RateLimitAlgorithm_value (fm_algorithm f)));
        ("server_pattern", nullable_str (or_none (fm_server_pattern f)));
        ("tool_pattern", nullable_str (or_none (fm_tool_pattern f)));
        ("priority", JNum (fm_priority f))].

(** The page: whether the dialog is open, and its form. *)
Definition handleCreate dispatch (f : form) : M (bool * form * list act) :=
  r <-- try_catch (r <-- createPolicyV1RateLimitPoliciesPost dispatch (body f) None; ret (Some r)) (fun _ => ret None);
  match r with
  | Some (inr _) => ret (false, initial, [ToastSuccess "Rate limit policy created"; Invalidate POLICIES_KEY])
  | Some (inl e) => ret (true, f, [ToastError (detail_or "Failed to create policy" e)])
  | None => ret (true, f, [ToastError (JStr "Failed to create policy")])
  end.
End RateLimits.

(** ** The detail page *)
Module PolicyDetail.

Definition humanExplain (p : RateLimitPolicyView) : string :=
  let subject := match text_of (RateLimitPolicyView_subject_id p) with
                 | Some s => "Subject " +:+ quoted (shortened 8 s) | None => "All subjects" end in
  let server := match text_of (RateLimitPolicyView_server_pattern p) with
                | Some s => "server matching " +:+ quoted s | None => "all servers" end in
  let tool := match text_of (RateLimitPolicyView_tool_pattern p) with
              | Some s => "tools matching " +:+ quoted s | None => "all tools" end in
  let burst := match RateLimitPolicyView_burst_capacity p with
               | Some b => if (b =? 0)%Z then "" else " with burst capacity of " +:+ pretty b
               | None => "" end in
  subject +:+ " may make at most " +:+ pretty (RateLimitPolicyView_request_limit p) +:+ " requests per "
  +:+ pretty (RateLimitPolicyView_window_seconds p) +:+ "s to " +:+ tool +:+ " on " +:+ server +:+ burst
  +:+ " (" +:+ algo_text (RateLimitPolicyView_algorithm p) +:+ " algorithm, priority "
  +:+ pretty (RateLimitPolicyView_priority p) +:+ ").".

Inductive TabId := overview | rules | coverage | test | activity | versions.

Definition TABS : list (TabId * string) :=
  [(overview, "Overview"); (rules, "Rules"); (coverage, "Coverage"); (test, "Test"); (activity, "Activity");
   (versions, "Versions")].

(** *** Overview *)
Definition of_event (e : AuditEventType) (logs : list AuditLogView) : list AuditLogView :=
  List.filter (fun l => bool_decide (AuditLogView_event_type l = e)) logs.

Definition toolCalls : list AuditLogView -> list AuditLogView := of_event AuditEventType_tool_call.
Definition denied : list AuditLogView -> list AuditLogView := of_event AuditEventType_rbac_deny.

Definition consumer (l : AuditLogView) : option string := text_of (AuditLogView_subject_id l).

Definition recentConsumers (logs : list AuditLogView) : list (string * Z) :=
  top_n 5 (tally consumer (toolCalls logs)).

Definition metadata (localeString : string -> string) (p : RateLimitPolicyView) : list (string * string) :=
  [("Policy ID", RateLimitPolicyView_id p);
   ("Algorithm", if bool_decide (RateLimitPolicyView_algorithm p = RateLimitAlgorithm_sliding_window)
                 then "Sliding Window" else "Token Bucket");
   ("Request Limit", pretty (RateLimitPolicyView_request_limit p) +:+ " requests");
   ("Window", pretty (RateLimitPolicyView_window_seconds p) +:+ " seconds");
   ("Burst Capacity", match RateLimitPolicyView_burst_capacity p with
                      | Some b => if (b =? 0)%Z then "None" else pretty b +:+ " requests" | None => "None" end);
   ("Priority", pretty (RateLimitPolicyView_priority p));
   ("Subject", default "All subjects (wildcard)" (RateLimitPolicyView_subject_id p));
   ("Server Pattern", default "* (all servers)" (RateLimitPolicyView_server_pattern p));
   ("Tool Pattern", default "* (all tools)" (RateLimitPolicyView_tool_pattern p));
   ("Created", localeString (RateLimitPolicyView_created_at p));
   ("Last Updated", localeString (RateLimitPolicyView_updated_at p))].

(** *** Rules *)
Record rules_form := mkRules { rf_limit : string; rf_window : string; rf_burst : string; rf_priority : string }.

Definition rules_init (p : RateLimitPolicyView) : rules_form :=
  mkRules (pretty (RateLimitPolicyView_request_limit p)) (pretty (RateLimitPolicyView_window_seconds p))
    (match RateLimitPolicyView_burst_capacity p with Some b => pretty b | None => "" end)
    (pretty (RateLimitPolicyView_priority p)).

(** [JSON.stringify] writes NaN as [null]. *)
Definition num_json (z : option Z) : json := match z with Some n => JNum n | None => JNull end.

(** [handleSave] of the tab: the updates it hands to the page. *)
Definition updates (p : RateLimitPolicyView) (f : rules_form) : json :=
  JObj [("request_limit", JNum (parseInt_or (rf_limit f) (RateLimitPolicyView_request_limit p)));
        ("window_seconds", JNum (parseInt_or (rf_window f) (RateLimitPolicyView_window_seconds p)));
        ("burst_capacity", if bool_decide (rf_burst f = "") then JNull else num_json (parseInt (rf_burst f)));
        ("priority", JNum (parseInt_or (rf_priority f) (RateLimitPolicyView_priority p)))].

Section page.
Context (dispatch : AxiosDefaults -> AxiosConfig -> M (AxiosError + AxiosResponse)).

(** The page's [handleSave], with the mutation's callbacks; the flag is
    [editing] afterwards. *)
Definition handleSave (policy : option RateLimitPolicyView) (f : rules_form) (editing : bool) : M (bool * list act) :=
  match policy with
  | None => ret (editing, [])
  | Some p =>
      acts <-- attempt_call (updatePolicyV1RateLimitPoliciesPolicyIdPatch dispatch (RateLimitPolicyView_id p) (updates p f) None)
        [ToastSuccess "Policy updated"; Invalidate POLICIES_KEY]
        (fun _ => [ToastError (JStr "Failed to update policy")]);
      ret (match acts with ToastSuccess _ :: _ => false | _ => editing end, acts)
  end.

Definition confirm_delete (p : RateLimitPolicyView) : M (list act) :=
  attempt_call (deletePolicyV1RateLimitPoliciesPolicyIdDelete dispatch (RateLimitPolicyView_id p) None)
    [ToastSuccess "Policy deleted"; Invalidate POLICIES_KEY; Push "/dashboard/policies"]
    (fun _ => [ToastError (JStr "Failed to delete policy")]).
End page.

(** *** Pattern tests of the coverage and test tabs *)
Section regexp.
(** [new RegExp(source).test(v)] outside the fragment; [None]: SyntaxError. *)
Context (regexp : string -> string -> option bool).

(** [new RegExp(`^${p}$`).test(v)] *)
Definition RegExp_test (p v : string) : option bool :=
  match re_parse p with Some atoms => Some (re_match atoms v) | None => regexp ("^" +:+ p +:+ "$") v end.

Definition pattern_test (pattern value : string) : bool :=
  match RegExp_test (replace_stars ".*" pattern) value with
  | Some b => b
  | None => includes value (remove_first "*" pattern)
  end.

(** [!pattern || pattern === "*"], then the expression. *)
Definition pattern_applies (pattern : option string) (value : string) : bool :=
  match text_of pattern with
  | None => true
  | Some p => if bool_decide (p = "*") then true else pattern_test p value
  end.

Definition matchedServers (p : RateLimitPolicyView) (slugs : list string) : list string :=
  List.filter (pattern_applies (RateLimitPolicyView_server_pattern p)) slugs.

Record test_form := mkTest { tf_subjectId : string; tf_serverSlug : string; tf_toolName : string }.

Definition test_init (p : RateLimitPolicyView) : test_form :=
  mkTest "" (match RateLimitPolicyView_server_pattern p with Some s => replace_stars "example" s | None => "my-server" end)
    (match RateLimitPolicyView_tool_pattern p with Some s => replace_stars "read_file" s | None => "read_file" end).

Record test_result := mkResult { rs_allowed : bool; rs_reason : string; rs_remaining : option Z }.

Definition not_applied (why : string) : test_result := mkResult true ("Policy does not apply — " +:+ why) None.

Definition simulate (p : RateLimitPolicyView) (f : test_form) : test_result :=
  let text o := default "null" o in
  if negb (match text_of (RateLimitPolicyView_subject_id p) with
           | None => true | Some s => bool_decide (s = tf_subjectId f) end) then
    not_applied ("subject doesn't match policy scope (subject_id: "
                 +:+ text (RateLimitPolicyView_subject_id p) +:+ ").")
  else if negb (pattern_applies (RateLimitPolicyView_server_pattern p) (tf_serverSlug f)) then
    not_applied ("server slug " +:+ quoted (tf_serverSlug f) +:+ " does not match pattern "
                 +:+ quoted (text (RateLimitPolicyView_server_pattern p)) +:+ ".")
  else if negb (pattern_applies (RateLimitPolicyView_tool_pattern p) (tf_toolName f)) then
    not_applied ("tool " +:+ quoted (tf_toolName f) +:+ " does not match pattern "
                 +:+ quoted (text (RateLimitPolicyView_tool_pattern p)) +:+ ".")
  else
    mkResult true
      ("Policy applies. Subject " +:+ quoted (Builder.or_text "any" (tf_subjectId f)) +:+ " calling tool "
       +:+ quoted (tf_toolName f) +:+ " on server " +:+ quoted (tf_serverSlug f) +:+ " will be rate-limited to "
       +:+ pretty (RateLimitPolicyView_request_limit p) +:+ " requests per "
       +:+ pretty (RateLimitPolicyView_window_seconds p) +:+ "s.")
      (Some (RateLimitPolicyView_request_limit p)).
End regexp.

(** The headline of the result box. *)
Definition headline (r : test_result) : string :=
  if rs_allowed r then "Policy applies — request would be tracked" else "Request would be blocked".

(** *** Activity, and the page's data *)
Definition activity_filtered (filter : option AuditEventType) (logs : list AuditLogView) : list AuditLogView :=
  match filter with None => logs | Some e => of_event e logs end.

Definition find_policy (id : string) (l : list RateLimitPolicyView) : option RateLimitPolicyView :=
  List.find (fun p => bool_decide (RateLimitPolicyView_id p = id)) l.

Definition audit_params (policy : option RateLimitPolicyView) : Params :=
  match text_of (p ← policy; RateLimitPolicyView_server_pattern p) with
  | Some s => if bool_decide (s = "*") then Some [("limit", Some (JNum 200))]
              else Some [("server_slug", Some (JStr s)); ("limit", Some (JNum 200))]
  | None => Some [("limit", Some (JNum 200))]
  end.

(** The backend's filter on [server_slug] (api/app/repositories/audit.py) and
    its limit, on logs already in the order it lists them. *)
Definition list_logs (server_slug : option string) (limit : nat) (logs : list AuditLogView) : list AuditLogView :=
  take limit (match server_slug with
              | None => logs
              | Some s => List.filter (fun l => bool_decide (AuditLogView_server_slug l = Some s)) logs
              end).

Definition queried_slug (params : Params) : option string :=
  match list_find (fun kv => kv.1 = "server_slug") (entries params) with
  | Some (_, (_, Some (JStr s))) => Some s
  | _ => None
  end.

Definition auditLogs (p : RateLimitPolicyView) (logs : list AuditLogView) : list AuditLogView :=
  list_logs (queried_slug (audit_params (Some p))) 200 logs.

Definition version_rows (p : RateLimitPolicyView) : list (string * string * string) :=
  [("v1 (current)", RateLimitPolicyView_updated_at p, "Last saved configuration");
   ("v0 (original)", RateLimitPolicyView_created_at p, "Policy created")].
End PolicyDetail.

(** ** Patterns as regular expressions *)
Module PatternFacts.
Import PolicyDetail.

Definition plain_char (c : ascii) : bool := bool_decide (c = "*"%char) || negb (re_meta c).
(** Patterns whose only special character is the star. *)
Definition plain : string -> bool := sforall plain_char.
(** Plain patterns that may also contain dots. *)
Definition dotted : string -> bool := sforall (fun c => bool_decide (c = "."%char) || plain_char c).
Definition one_line : string -> bool := sforall (fun c => negb (line_end c)).

Fixpoint atoms_of (p : string) : list ratom :=
  match p with
  | "" => []
  | String c r =>
      (if bool_decide (c = "*"%char) then RDotStar else if bool_decide (c = "."%char) then RDot else RLit c) :: atoms_of r
  end.

Lemma replace_stars_head p r : replace_stars ".*" p <> String "*" r.
Proof. destruct p as [|c p]; [done|]. cbn [replace_stars]. case_bool_decide; [done|congruence]. Qed.

Lemma re_parse_dotted p : dotted p = true -> re_parse (replace_stars ".*" p) = Some (atoms_of p).
Proof.
  unfold dotted. induction p as [|c p IH]; [done|]. cbn [sforall replace_stars atoms_of]. intros H. bool_hyps.
  specialize (IH ltac:(done)). destruct (decide (c = "*"%char)) as [->|Es].
  - change (cons RDotStar <$> re_parse (replace_stars ".*" p) = Some (RDotStar :: atoms_of p)). by rewrite IH.
  - rewrite (bool_decide_false (c = "*"%char)) by done. cbn [re_parse].
    destruct (decide (c = "."%char)) as [->|Ed].
    + rewrite !bool_decide_true by done.
      pose proof (replace_stars_head p) as Hh. destruct (replace_stars ".*" p) as [|d r]; [by rewrite IH|].
      destruct (decide (d = "*"%char)) as [->|Hd]; [by destruct (Hh r)|].
      destruct d as [[] [] [] [] [] [] [] []]; try done; by rewrite IH.
    + unfold plain_char in *. rewrite !bool_decide_false in * by done. cbn [orb] in *.
      destruct (re_meta c); [done|]. by rewrite IH.
Qed.

Lemma plain_dotted p : plain p = true -> dotted p = true.
Proof. apply sforall_impl. intros c ->. by rewrite orb_true_r. Qed.

Lemma meta_facts c : re_meta c = false -> c <> "."%char /\ c <> "?"%char /\ c <> "["%char.
Proof. unfold re_meta. intros H. bool_hyps. split_and!; intros ->; apply H; by apply (bool_decide_unpack _). Qed.

Lemma one_line_cons c v : one_line (String c v) = negb (line_end c) && one_line v.
Proof. done. Qed.

Lemma dotted_bracket c : bool_decide (c = "."%char) || plain_char c = true -> c <> "["%char.
Proof. intros H ->. discriminate H. Qed.

Lemma plain_bracket c : plain_char c = true -> c <> "["%char.
Proof. intros H. apply dotted_bracket. rewrite H. by rewrite orb_true_r. Qed.

Lemma re_match_plain p v :
  plain p = true -> one_line v = true -> re_match (atoms_of p) v = fnmatchcase v p.
Proof.
  unfold plain. revert v. induction p as [|c p IH]; intros v; [done|].
  cbn [sforall atoms_of]. intros H Hv.
  rewrite GlobFacts.glob_cons by (apply plain_bracket; by apply andb_true_iff in H as [H _]). bool_hyps.
  destruct (decide (c = "*"%char)) as [->|Es]; [rewrite (bool_decide_true ("*"%char = "*"%char)) by done|rewrite (bool_decide_false (c = "*"%char)) by done].
  - cbn [re_match ToolDetail.some_suffix]. induction v as [|d v IHv]; [by rewrite IH|].
    rewrite one_line_cons in Hv. bool_hyps. rewrite IH by (rewrite ?one_line_cons; bool_hyps; by rewrite ?H1, ?H2).
    rewrite IHv by done. by rewrite H1.
  - unfold plain_char in *. rewrite bool_decide_false in * by done. cbn [orb] in *. bool_hyps.
    destruct (meta_facts c) as (Hd & Hq & _); [done|]. rewrite !bool_decide_false by done. cbn [re_match orb].
    destruct v as [|d v]; [done|]. rewrite one_line_cons in Hv. bool_hyps. by rewrite IH.
Qed.

(** Dots make the page's expressions match more, never less. *)
Lemma re_match_dotted p v :
  dotted p = true -> one_line v = true -> fnmatchcase v p = true -> re_match (atoms_of p) v = true.
Proof.
  unfold dotted. revert v. induction p as [|c p IH]; intros v; [done|].
  cbn [sforall atoms_of]. intros H Hv.
  rewrite GlobFacts.glob_cons by (apply dotted_bracket; by apply andb_true_iff in H as [H _]). bool_hyps.
  destruct (decide (c = "*"%char)) as [->|Es]; [rewrite (bool_decide_true ("*"%char = "*"%char)) by done|rewrite (bool_decide_false (c = "*"%char)) by done].
  - cbn [re_match ToolDetail.some_suffix]. induction v as [|d v IHv]; intros Hm; cbn [ToolDetail.some_suffix] in Hm; bool_hyps.
    + rewrite orb_false_r in *. by apply IH.
    + rewrite one_line_cons in Hv. apply orb_true_iff in Hm as [Hm|Hm]; apply orb_true_iff.
      * left. apply IH; [done| |done]. by rewrite one_line_cons.
      * right. bool_hyps. rewrite IHv by done. rewrite andb_true_r. by apply negb_true_iff.
  - destruct v as [|d v]; [done|]. rewrite one_line_cons in Hv. intros Hm. bool_hyps.
    destruct (decide (c = "."%char)) as [->|Ed].
    + rewrite (bool_decide_true ("."%char = "."%char)) by done. cbn [re_match]. rewrite IH by done.
      rewrite andb_true_r. by apply negb_true_iff.
    + rewrite (bool_decide_false (c = "."%char)) in * by done. unfold plain_char in *.
      rewrite (bool_decide_false (c = "*"%char)) in * by done. cbn [orb re_match] in *. bool_hyps.
      destruct (meta_facts c) as (_ & Hq & _); [done|]. rewrite (bool_decide_false (c = "?"%char)) in * by done.
      cbn [orb] in *. rewrite IH by done. by rewrite andb_true_r.
Qed.
End PatternFacts.

(** ** Theorems *)

(** Selectors the builder can store: no empty texts, patterns without special
    characters other than the star. *)
Definition selectors_plain (p : RateLimitPolicyView) : Prop :=
  let ok f o := match o with Some s => s <> "" /\ f s = true | None => True end in
  ok (fun _ => true) (RateLimitPolicyView_subject_id p) /\
  ok PatternFacts.plain (RateLimitPolicyView_server_pattern p) /\
  ok PatternFacts.plain (RateLimitPolicyView_tool_pattern p).

Lemma text_of_some s : s <> "" -> text_of (Some s) = Some s.
Proof. intros H. unfold text_of, or_none. cbn. by rewrite bool_decide_false. Qed.

Lemma pattern_applies_plain regexp pattern v :
  match pattern with Some s => s <> "" /\ PatternFacts.plain s = true | None => True end ->
  PatternFacts.one_line v = true ->
  PolicyDetail.pattern_applies regexp pattern v = Limits.pattern_matches pattern (Some v).
Proof.
  destruct pattern as [p|]; [|done]. intros [Hne Hp] Hv. unfold PolicyDetail.pattern_applies, Limits.pattern_matches.
  rewrite text_of_some by done. case_bool_decide as E; [subst; by rewrite GlobFacts.glob_star|].
  unfold PolicyDetail.pattern_test, PolicyDetail.RegExp_test.
  rewrite PatternFacts.re_parse_dotted by by apply PatternFacts.plain_dotted.
  by apply PatternFacts.re_match_plain.
Qed.

(** The caller's type is one the policy applies to: a policy for a subject may
    name its type. *)
Definition type_agrees (p : RateLimitPolicyView) (st : SubjectType) : bool :=
  match RateLimitPolicyView_subject_id p, RateLimitPolicyView_subject_type p with
  | Some _, Some t => bool_decide (t = st)
  | _, _ => true
  end.


(** The box above the result says "Policy applies" whatever the result. *)
Theorem headline_always_applies regexp p f :
  PolicyDetail.headline (PolicyDetail.simulate regexp p f) = "Policy applies — request would be tracked".
Proof. unfold PolicyDetail.simulate, PolicyDetail.headline. by repeat case_match. Qed.

(** Coverage never misses a server: one the gateway's pattern reaches is listed,
    also when the pattern has dots; with plain patterns the list is exact. *)
Theorem coverage_complete regexp p pattern slugs slug :
  RateLimitPolicyView_server_pattern p = Some pattern -> pattern <> "" ->
  PatternFacts.dotted pattern = true -> PatternFacts.one_line slug = true ->
  slug ∈ slugs ->
  (fnmatchcase slug pattern = true -> slug ∈ PolicyDetail.matchedServers regexp p slugs) /\
  (PatternFacts.plain pattern = true ->
   slug ∈ PolicyDetail.matchedServers regexp p slugs <-> fnmatchcase slug pattern = true).
Proof.
  intros Hp Hne Hd Hl Hin.
  assert (slug ∈ PolicyDetail.matchedServers regexp p slugs <->
          PolicyDetail.pattern_applies regexp (Some pattern) slug = true) as ->.
  { unfold PolicyDetail.matchedServers. rewrite Hp, !list_elem_of_In, filter_In, <- list_elem_of_In. naive_solver. }
  split.
  - intros Hm. unfold PolicyDetail.pattern_applies. rewrite text_of_some by done. case_bool_decide; [done|].
    unfold PolicyDetail.pattern_test, PolicyDetail.RegExp_test. rewrite PatternFacts.re_parse_dotted by done.
    by apply PatternFacts.re_match_dotted.
  - intros Hpl. by rewrite pattern_applies_plain.
Qed.

(** A dot in a pattern is a literal for the gateway and any character for the
    coverage and test tabs. *)
Theorem dot_matches_anything :
  forall regexp, PolicyDetail.pattern_test regexp "api.v1" "api-v1" = true /\ fnmatchcase "api-v1" "api.v1" = false.
Proof. intros regexp. split; reflexivity. Qed.

Lemma updates_fields p f :
  let u := PolicyDetail.updates p f in
  json_field "request_limit" u = Some (JNum (parseInt_or (PolicyDetail.rf_limit f) (RateLimitPolicyView_request_limit p))) /\
  json_field "window_seconds" u = Some (JNum (parseInt_or (PolicyDetail.rf_window f) (RateLimitPolicyView_window_seconds p))) /\
  json_field "burst_capacity" u =
    Some (if bool_decide (PolicyDetail.rf_burst f = "") then JNull else PolicyDetail.num_json (parseInt (PolicyDetail.rf_burst f))) /\
  json_field "priority" u = Some (JNum (parseInt_or (PolicyDetail.rf_priority f) (RateLimitPolicyView_priority p))).
Proof. repeat split. Qed.

Lemma parseInt_or_pretty z : parseInt_or (pretty z) z = z.
Proof. unfold parseInt_or. rewrite NumText.parseInt_pretty. case_match; lia. Qed.

Lemma pretty_nonempty (z : Z) : pretty z <> "".
Proof. intros H. pose proof (NumText.parseInt_pretty z) as E. by rewrite H in E. Qed.

(** Saving the rule form as it was opened changes nothing: the texts parse back
    to the stored limits, and the backend stores them unchanged. *)
Theorem untouched_rules_unchanged p :
  (0 < RateLimitPolicyView_request_limit p)%Z -> (0 < RateLimitPolicyView_window_seconds p)%Z ->
  (forall b, RateLimitPolicyView_burst_capacity p = Some b -> (0 < b)%Z) ->
  Schema.update_policy (PolicyDetail.updates p (PolicyDetail.rules_init p)) p =
  Some (Schema.mkLimits (Some (RateLimitPolicyView_request_limit p)) (Some (RateLimitPolicyView_window_seconds p))
          (RateLimitPolicyView_burst_capacity p) (Some (RateLimitPolicyView_priority p))).
Proof.
  intros Hl Hw Hb. unfold Schema.update_policy, Schema.update_field.
  destruct (updates_fields p (PolicyDetail.rules_init p)) as (-> & -> & -> & ->).
  cbn [PolicyDetail.rules_init PolicyDetail.rf_limit PolicyDetail.rf_window PolicyDetail.rf_burst PolicyDetail.rf_priority].
  rewrite !parseInt_or_pretty. cbn [Schema.positive Schema.is_int].
  rewrite !(proj2 (Z.ltb_lt _ _)) by done. cbn [mbind option_bind].
  destruct (RateLimitPolicyView_burst_capacity p) as [b|]; [|done].
  rewrite bool_decide_false by apply pretty_nonempty. rewrite NumText.parseInt_pretty. cbn [PolicyDetail.num_json Schema.positive].
  by rewrite (proj2 (Z.ltb_lt _ _)) by auto.
Qed.

(** A text that reads as zero is not saved: the old priority stays, so the rule
    form cannot set the default priority 0. *)
Theorem zero_priority_not_saved p f l :
  parseInt (PolicyDetail.rf_priority f) = Some 0%Z ->
  Schema.update_policy (PolicyDetail.updates p f) p = Some l ->
  Schema.lm_priority l = Some (RateLimitPolicyView_priority p).
Proof.
  intros Hz. unfold Schema.update_policy, Schema.update_field.
  destruct (updates_fields p f) as (-> & -> & -> & ->).
  replace (parseInt_or (PolicyDetail.rf_priority f) _) with (RateLimitPolicyView_priority p)
    by (unfold parseInt_or; by rewrite Hz).
  intros H. apply bind_Some in H as (a & _ & H). apply bind_Some in H as (b & _ & H).
  apply bind_Some in H as (c & _ & H). cbn in H. by simplify_eq.
Qed.

(** The rate-limit page cannot create a token bucket: its form has no burst
    capacity, which the backend then requires.  Sliding windows are accepted
    exactly when the numbers are in range. *)
Theorem token_bucket_form_rejected id now f :
  is_Some (Schema.create_policy id now (RateLimits.body f)) <->
  RateLimits.fm_algorithm f = RateLimitAlgorithm_sliding_window /\
  (String.length (RateLimits.fm_server_pattern f) <= 200)%nat /\
  (String.length (RateLimits.fm_tool_pattern f) <= 200)%nat /\
  (1 <= RateLimits.fm_request_limit f <= 1000000)%Z /\
  (1 <= RateLimits.fm_window_seconds f <= 86400)%Z /\
  (-1000 <= RateLimits.fm_priority f <= 1000)%Z.
Proof.
  destruct f as [lim win algo server tool pr]. unfold Schema.create_policy.
  change (json_field "subject_id" _) with (@None json). change (json_field "subject_type" _) with (@None json).
  change (json_field "burst_capacity" _) with (@None json).
  change (json_field "server_pattern" _) with (Some (nullable_str (or_none server))).
  change (json_field "tool_pattern" _) with (Some (nullable_str (or_none tool))).
  change (json_field "algorithm" _) with (Some (JStr (RateLimitAlgorithm_value algo))).
  change (json_field "request_limit" _) with (Some (JNum lim)).
  change (json_field "window_seconds" _) with (Some (JNum win)).
  change (json_field "priority" _) with (Some (JNum pr)).
  rewrite !BuilderFacts.opt_str_pattern.
  replace (Schema.algorithm_of _) with (Some algo) by (by destruct algo).
  cbn [Schema.opt_str Schema.subject_type_of Schema.int_in Schema.opt_int_in mbind option_bind
       RateLimits.fm_algorithm RateLimits.fm_server_pattern RateLimits.fm_tool_pattern
       RateLimits.fm_request_limit RateLimits.fm_window_seconds RateLimits.fm_priority].
  unfold Schema.within.
  repeat match goal with
         | |- context [mbind _ (if ?b then _ else _)] => destruct b eqn:?; cbn [mbind option_bind]
         end;
    try (split; [by intros [? ?]|lia]).
  destruct algo; cbn.
  - split; [by intros [? ?]|by intros [? _]].
  - split; [|by eauto]. intros _. split; [done|lia].
Qed.

(** The list's "Deny" filter never shows anything: roles are presented as
    "allow" whatever their permissions; and all policies count as active. *)
Theorem list_never_shows_deny search kind_filter limits roles :
  PolicyList.filtered search (Some PolicyList.eff_deny) kind_filter (PolicyList.unified limits roles) = [] /\
  PolicyList.activePolicies (PolicyList.unified limits roles) = (length limits + length roles)%nat.
Proof.
  assert (forall u, u ∈ PolicyList.unified limits roles ->
            PolicyList.up_effect u <> PolicyList.eff_deny /\ PolicyList.up_status u = PolicyList.active) as H.
  { intros u [(p & <- & _)%list_elem_of_In%in_map_iff|(r & <- & _)%list_elem_of_In%in_map_iff]%elem_of_app; done. }
  split.
  - apply filter_none_match. intros u [Hu _]%H. cbn [PolicyList.keeps].
    rewrite (bool_decide_false (_ = PolicyList.eff_deny)) by done. by rewrite andb_false_r.
  - unfold PolicyList.activePolicies. rewrite filter_all_match; [|intros u [_ Hu]%H; by apply bool_decide_eq_true].
    unfold PolicyList.unified. by rewrite length_app, !length_map.
Qed.

(** The detail page's statistics ignore patterns: for a server pattern with a
    star the query asks for a server of that literal name, so no traffic of the
    servers it matches is counted. *)
Theorem overview_blind_to_patterns p pattern logs :
  RateLimitPolicyView_server_pattern p = Some pattern -> pattern <> "*" -> without "*" pattern = false ->
  (forall l s, l ∈ logs -> AuditLogView_server_slug l = Some s -> without "*" s = true) ->
  PolicyDetail.auditLogs p logs = [] /\ PolicyDetail.toolCalls (PolicyDetail.auditLogs p logs) = [] /\
  PolicyDetail.recentConsumers (PolicyDetail.auditLogs p logs) = [].
Proof.
  intros Hp Hne Hs Hl. enough (PolicyDetail.auditLogs p logs = []) as -> by done.
  assert (pattern <> "") as Hne2 by (by intros ->).
  unfold PolicyDetail.auditLogs, PolicyDetail.audit_params. cbn [mbind option_bind]. rewrite Hp, text_of_some by done.
  rewrite bool_decide_false by done. change (PolicyDetail.queried_slug _) with (Some pattern).
  unfold PolicyDetail.list_logs. rewrite filter_none_match; [by rewrite take_nil|].
  intros l Hin. apply bool_decide_eq_false. intros E. by rewrite (Hl l pattern) in Hs.
Qed.

(** ** Witnesses *)
Definition demo_policy (subject server tool : option string) : RateLimitPolicyView :=
  mkRateLimitPolicyView "p1" subject (Some SubjectType_api_key) server tool RateLimitAlgorithm_sliding_window
    100 60 (Some 20%Z) 5 "2026-01-01T00:00:00Z" "2026-01-02T00:00:00Z".

Definition no_regexp (_ _ : string) : option bool := None.


Lemma coverage_complete_witness :
  "api.v1" ∈ PolicyDetail.matchedServers no_regexp (demo_policy None (Some "api.v*") None) ["api.v1"; "web"].
Proof.
  refine (proj1 (coverage_complete no_regexp _ "api.v*" _ "api.v1" _ _ _ _ _) _); first [reflexivity | done | by left].
Defined.

Lemma untouched_rules_unchanged_witness :
  let p := demo_policy None None None in
  Schema.update_policy (PolicyDetail.updates p (PolicyDetail.rules_init p)) p =
  Some (Schema.mkLimits (Some 100) (Some 60) (Some 20) (Some 5))%Z.
Proof. apply (untouched_rules_unchanged (demo_policy None None None)); [done|done|]. intros b [= <-]. done. Defined.

Lemma zero_priority_not_saved_witness :
  Schema.lm_priority (Schema.mkLimits (Some 100) (Some 60) None (Some 5))%Z = Some 5%Z.
Proof.
  apply (zero_priority_not_saved (demo_policy None None None) (PolicyDetail.mkRules "100" "60" "" "0")); reflexivity.
Defined.

Definition demo_log (slug : string) : AuditLogView :=
  mkAuditLogView "l1" None (Some "k1") None AuditEventType_tool_call (Some slug) (Some "read") None "allowed" None None
    [] "2026-01-01T00:00:00Z".

Lemma overview_blind_to_patterns_witness :
  fnmatchcase "github" "git*" = true /\
  PolicyDetail.auditLogs (demo_policy None (Some "git*") None) [demo_log "github"] = [].
Proof.
  split; [reflexivity|].
  apply (overview_blind_to_patterns (demo_policy None (Some "git*") None) "git*" [demo_log "github"]); [done..|].
  intros l s ->%list_elem_of_singleton [= <-]. done.
Defined.
