(* ===== verification/Search.v ===== *)
(** * Command palette and global search: web/src/components/command-palette.tsx
      and web/src/components/global-search.tsx

    The commands of each workspace, the recent commands kept in localStorage,
    matching, live results, the order of rows against the order of the keyboard,
    and the search page's results. *)

From Stdlib Require Import ZifyBool Sorting.Sorted.
From stdpp Require Import sorting.
From S2P Require Import Prelude JsString JsUri Json Browser JsInt JsonParse AuthStore ApiTypes NavShell Tally.

Definition localStorage_setItem := storage_set w_local set_local.

(** [haystack.toLowerCase().includes(needle.toLowerCase())] *)
Definition matchStr (haystack needle : string) : bool := includes (toLowerCase haystack) (toLowerCase needle).

Module Palette.

(** Icons and shortcut hints are left out; [cmd_action] is the path an action
    pushes. *)
Record Cmd := mkCmd {
  cmd_id : string;
  cmd_label : string;
  cmd_description : string;
  cmd_group : string;
  cmd_href : option string;
  cmd_action : option string;
  cmd_keywords : list string;
  cmd_context : option (list NavContext) }.

Record LiveResult := mkLive {
  lr_id : string;
  lr_label : string;
  lr_sublabel : option string;
  lr_href : string;
  lr_group : string }.

(** ** Recent commands *)
Definition RECENT_KEY : string := "pc_cmd_recent".

Definition getRecent : M json :=
  try_catch
    (text <-- localStorage_getItem RECENT_KEY;
     match JSON_parse (default "[]" text) with Some v => ret v | None => throw "SyntaxError" end)
    (fun _ => ret (JArr [])).

(** [v.filter]: only arrays have it. *)
Definition as_array (v : json) : M (list json) :=
  match v with JArr l => ret l | _ => throw "TypeError" end.

Definition pushRecent (id : string) : M unit :=
  attempt
    (v <-- getRecent;
     l <-- as_array v;
     let prev := List.filter (fun x => match x with JStr s => negb (bool_decide (s = id)) | _ => true end) l in
     localStorage_setItem RECENT_KEY (JSON_stringify (JArr (take 6 (JStr id :: prev))))).

(** ** Commands *)
Definition nav (context : NavContext) : list Cmd :=
  let dev := bool_decide (context = DeveloperCtx) in
  [
   mkCmd "go-overview" "Go to Overview" "Dashboard home" "Navigation" (Some "/dashboard") None
     ["overview"; "home"; "dashboard"] (Some [OrgAdmin]);
   mkCmd "go-servers" "Go to Servers" "Manage MCP servers" "Navigation" (Some (if dev then "/developer/servers" else "/dashboard/servers")) None
     ["server"; "mcp"; "connection"; "gateway"] None;
   mkCmd "go-tools" "Go to Tool Explorer" "Browse and search available tools" "Navigation" (Some (if dev then "/developer/tools" else "/dashboard/tools")) None
     ["tool"; "function"; "browse"; "search"; "explorer"] None;
   mkCmd "go-playground" "Open Playground" "Invoke tools interactively" "Navigation" (Some (if dev then "/developer/playground" else "/dashboard/playground")) None
     ["play"; "test"; "invoke"; "run"; "playground"] None;
   mkCmd "go-api-keys" "Go to API Keys" "Manage personal access keys" "Navigation" (Some (if dev then "/developer/api-keys" else "/dashboard/api-keys")) None
     ["key"; "token"; "auth"; "api"] None;
   mkCmd "go-policies" "Go to Policies" "RBAC and access control rules" "Navigation" (Some "/dashboard/policies") None
     ["policy"; "rbac"; "permission"; "access"; "rule"] (Some [OrgAdmin; PlatformAdmin]);
   mkCmd "go-audit" "Go to Audit Log" "Browse all platform events" "Navigation" (Some "/dashboard/audit") None
     ["audit"; "log"; "history"; "events"; "trail"] (Some [OrgAdmin]);
   mkCmd "view-requests" "View Recent Requests" "See the latest tool invocations" "Navigation" (Some "/dashboard/audit") None
     ["request"; "invocation"; "call"; "recent"; "view"; "history"; "log"] None;
   mkCmd "go-team" "Go to Access Control" "Manage members, teams, and roles" "Navigation" (Some "/dashboard/access-control") None
     ["team"; "member"; "user"; "role"; "access"; "permission"] (Some [OrgAdmin]);
   mkCmd "go-docs" "Open Documentation" "Guides, API reference, SDK examples" "Navigation" (Some "/developer/docs") None
     ["docs"; "documentation"; "help"; "guide"; "reference"; "sdk"] None;
   mkCmd "go-billing" "Go to Billing" "Subscription and usage" "Navigation" (Some "/dashboard/billing/usage") None
     ["billing"; "usage"; "subscription"; "plan"; "invoice"] (Some [OrgAdmin]);
   mkCmd "go-traffic" "Go to Traffic" "Real-time request metrics" "Navigation" (Some "/dashboard/traffic") None
     ["traffic"; "requests"; "metrics"; "throughput"; "latency"] (Some [OrgAdmin])].

Definition actions (context : NavContext) : list Cmd :=
  let dev := bool_decide (context = DeveloperCtx) in
  [
   mkCmd "create-api-key" "Create API Key" "Generate a new personal access key" "Actions" (Some (if dev then "/developer/api-keys?new=1" else "/dashboard/api-keys?new=1")) None
     ["create"; "new"; "key"; "token"; "generate"] None;
   mkCmd "add-server" "Add MCP Server" "Register a new MCP server endpoint" "Actions" (Some "/dashboard/servers?new=1") None
     ["add"; "register"; "server"; "new"; "connect"] (Some [OrgAdmin; PlatformAdmin]);
   mkCmd "search-tool" "Search Tool" "Find a tool by name or category" "Actions" (Some (if dev then "/developer/tools" else "/dashboard/tools")) None
     ["search"; "find"; "tool"; "function"; "lookup"] None;
   mkCmd "create-policy" "Create Policy" "Define a new RBAC access rule" "Actions" (Some "/dashboard/policies?new=1") None
     ["create"; "policy"; "rbac"; "rule"; "permission"; "new"] (Some [OrgAdmin; PlatformAdmin]);
   mkCmd "invite-user" "Invite User" "Add a team member by email" "Actions" (Some "/dashboard/access-control?tab=members") None
     ["invite"; "user"; "member"; "add"; "email"] (Some [OrgAdmin]);
   mkCmd "switch-org" "Switch Organization" "Change your active workspace" "Actions" None (Some "/dashboard")
     ["switch"; "org"; "organization"; "change"; "workspace"] None;
   mkCmd "switch-env-prod" "Switch to Production" "Connect to the production MCP server" "Actions" None (Some "/developer/tools?server=production-mcp")
     ["switch"; "environment"; "production"; "prod"; "env"] None;
   mkCmd "switch-env-staging" "Switch to Staging" "Connect to the staging MCP server" "Actions" None (Some "/developer/tools?server=staging-mcp")
     ["switch"; "environment"; "staging"; "stage"; "env"] None;
   mkCmd "switch-env-dev" "Switch to Development" "Connect to the local dev MCP server" "Actions" None (Some "/developer/tools?server=dev-mcp")
     ["switch"; "environment"; "development"; "dev"; "local"; "env"] None].

Definition offered_in (context : NavContext) (c : Cmd) : bool :=
  match cmd_context c with None => true | Some l => bool_decide (context ∈ l) end.

Definition buildCommands (context : NavContext) : list Cmd :=
  List.filter (offered_in context) (nav context ++ actions context).

Definition filteredCommands (commands : list Cmd) (query : string) : list Cmd :=
  if bool_decide (query = "") then commands
  else List.filter (fun c => matchStr (cmd_label c) query || matchStr (cmd_description c) query
                             || existsb (fun k => matchStr k query) (cmd_keywords c)) commands.

(** ** Live results *)
Definition DEMO_TOOL_NAMES : list (string * string * string) :=
  [("memory_store", "production-mcp", "Persist key-value data across sessions");
   ("memory_retrieve", "production-mcp", "Retrieve stored memories by key");
   ("filesystem_read", "production-mcp", "Read file contents from the sandbox");
   ("filesystem_write", "production-mcp", "Write or append to sandbox files");
   ("github_create_issue", "staging-mcp", "Open a GitHub issue via API");
   ("github_list_prs", "staging-mcp", "List open pull requests for a repo");
   ("slack_post_message", "staging-mcp", "Send a message to a Slack channel");
   ("sqlite_query", "production-mcp", "Execute SQL queries on a SQLite DB");
   ("http_request", "production-mcp", "Make arbitrary HTTP requests");
   ("shell_exec", "dev-mcp", "Run shell commands in the sandbox");
   ("code_interpreter", "production-mcp", "Execute and evaluate code snippets");
   ("web_search", "production-mcp", "Search the web and return results")].

Definition DOCS : list string :=
  ["Quick Start Guide"; "Authentication & API Keys"; "Tool Reference"; "Rate Limits & Quotas"; "SDK & Code Examples"; "RBAC & Policies"; "MCP Server Setup"; "Webhooks & Events"; "Billing & Subscriptions"].

Definition server_results (context : NavContext) (query : string) (servers : list ServerView) : list LiveResult :=
  map (fun s => mkLive ("server-" +:+ ServerView_id s) (ServerView_slug s) (Some (ServerView_upstream_url s))
                  (if bool_decide (context = DeveloperCtx) then "/developer/servers" else "/dashboard/servers") "Servers")
    (take 4 (List.filter (fun s => matchStr (ServerView_slug s) query || matchStr (ServerView_upstream_url s) query) servers)).

Definition key_results (query : string) (keys : list ApiKeyView) : list LiveResult :=
  map (fun k => mkLive ("key-" +:+ ApiKeyView_id k) (ApiKeyView_name k)
                  (if bool_decide (ApiKeyView_key_prefix k = "") then None else Some (ApiKeyView_key_prefix k +:+ "…"))
                  "/dashboard/api-keys" "API Keys")
    (take 3 (List.filter (fun k => matchStr (ApiKeyView_name k) query) keys)).

Definition tool_results (context : NavContext) (query : string) : list LiveResult :=
  map (fun '(name, server, _) =>
         mkLive ("tool-" +:+ name) name (Some server)
           ((if bool_decide (context = DeveloperCtx) then "/developer/tools?q=" else "/dashboard/tools?q=")
            +:+ encodeURIComponent name) "Tools")
    (take 5 (List.filter (fun '(name, _, desc) => matchStr name query || matchStr desc query) DEMO_TOOL_NAMES)).

Definition doc_results (query : string) : list LiveResult :=
  map (fun d => mkLive ("doc-" +:+ d) d None "/developer/docs" "Documentation")
    (List.filter (fun d => matchStr d query) DOCS).

Definition liveResults (context : NavContext) (query : string) (servers : list ServerView) (keys : list ApiKeyView)
    : list LiveResult :=
  if (String.length query <? 2)%nat then []
  else take 15 (server_results context query servers ++ key_results query keys ++ tool_results context query
                ++ doc_results query).

(** [recentIds.map(...)]: only arrays have it; otherwise rendering throws. *)
Definition recentCommands (query : string) (recentIds : json) (commands : list Cmd) : result string (list Cmd) :=
  if negb (bool_decide (query = "")) then Ok []
  else match recentIds with
       | JArr ids => Ok (take 5 (omap (fun v => match v with
                                               | JStr id => List.find (fun c => bool_decide (cmd_id c = id)) commands
                                               | _ => None end) ids))
       | _ => Err "TypeError"
       end.

(** ** Items of the keyboard and rows of the list *)
Record Item := mkItem { it_href : option string; it_action : option string; it_label : string; it_id : option string }.

Definition item_of_cmd (c : Cmd) : Item := mkItem (cmd_href c) (cmd_action c) (cmd_label c) (Some (cmd_id c)).
Definition item_of_live (r : LiveResult) : Item := mkItem (Some (lr_href r)) None (lr_label r) None.

Definition allItems (query : string) (commands recents : list Cmd) (live : list LiveResult) : list Item :=
  if negb (bool_decide (query = ""))
  then map item_of_cmd (filteredCommands commands query) ++ map item_of_live live
  else map item_of_cmd recents ++ map item_of_cmd commands.

(** [groupedCommands] and [groupedResults]: objects keep the order in which
    their keys were first set. *)
Definition grouped {A} (key : A -> string) (l : list A) : list (string * list A) :=
  group (fun x => Some (key x)) (fun x v => default [] v ++ [x]) l.

Definition rows (query : string) (commands recents : list Cmd) (live : list LiveResult) : list Item :=
  let displayCommands := if negb (bool_decide (query = "")) then filteredCommands commands query else commands in
  (if bool_decide (query = "") && negb (bool_decide (recents = [])) then map item_of_cmd recents else [])
  ++ concat (map (fun g => map item_of_cmd g.2) (grouped cmd_group displayCommands))
  ++ (if (2 <=? String.length query)%nat
      then concat (map (fun g => map item_of_live g.2) (grouped lr_group live)) else []).

(** ** Keyboard *)
Inductive key := Escape | ArrowDown | ArrowUp | Enter.

Definition move (k : key) (len selectedIdx : Z) : Z :=
  match k with
  | ArrowDown => Z.min (selectedIdx + 1) (len - 1)
  | ArrowUp => Z.max (selectedIdx - 1) 0
  | _ => selectedIdx
  end.

(** [allItems[selectedIdx]] *)
Definition item_at (items : list Item) (i : Z) : option Item :=
  if (i <? 0)%Z then None else items !! Z.to_nat i.

(** Where activating an item leads; the recent list is updated first. *)
Definition activate (i : Item) : M (option string) :=
  match it_id i with Some id => if bool_decide (id = "") then ret () else pushRecent id | None => ret () end ;;;
  ret (match it_action i with
       | Some path => Some path
       | None => h ← it_href i; or_none h
       end).
End Palette.

(** ** The search page *)
Module GlobalSearch.

Inductive ResourceType := server | tool | user | policy | api_key | request | audit_event | documentation.

#[export] Instance ResourceType_eq : EqDecision ResourceType.
Proof. solve_decision. Defined.

Definition ALL_TYPES : list ResourceType :=
  [server; tool; user; policy; api_key; request; audit_event; documentation].

(** Icons and colours are left out. *)
Definition RESOURCE_META (t : ResourceType) : string * string :=
  match t with
  | server => ("Server", "Servers")
  | tool => ("Tool", "Tools")
  | user => ("User", "Users")
  | policy => ("Policy", "Policies")
  | api_key => ("API Key", "API Keys")
  | request => ("Request", "Requests")
  | audit_event => ("Audit Event", "Audit Events")
  | documentation => ("Doc", "Documentation")
  end.

Record SearchResult := mkResult {
  sr_id : string;
  sr_type : ResourceType;
  sr_title : string;
  sr_subtitle : option string;
  sr_meta : option string;
  sr_badge : option string;
  sr_href : string }.

Definition DEMO_TOOLS : list (string * string * string) :=
  [("memory_store", "production-mcp", "Persist key-value data across sessions");
   ("memory_retrieve", "production-mcp", "Retrieve stored memories by key");
   ("filesystem_read", "production-mcp", "Read file contents from the sandbox");
   ("filesystem_write", "production-mcp", "Write or append to sandbox files");
   ("filesystem_list", "production-mcp", "List directory contents");
   ("github_create_issue", "staging-mcp", "Open a GitHub issue via REST API");
   ("github_list_prs", "staging-mcp", "List open pull requests for a repo");
   ("github_merge_pr", "staging-mcp", "Merge a pull request");
   ("slack_post_message", "staging-mcp", "Send a message to a Slack channel");
   ("slack_list_channels", "staging-mcp", "List Slack channels in your workspace");
   ("sqlite_query", "production-mcp", "Execute SQL queries on a SQLite DB");
   ("sqlite_schema", "production-mcp", "Introspect table schemas");
   ("http_request", "production-mcp", "Make arbitrary HTTP requests");
   ("shell_exec", "dev-mcp", "Run shell commands in the sandbox");
   ("code_interpreter", "production-mcp", "Execute and evaluate code snippets");
   ("web_search", "production-mcp", "Search the web and return structured results")].

Definition DEMO_DOCS : list (string * string * string) :=
  [("Quick Start Guide", "Get your first tool call working in 5 minutes", "/developer/docs#quickstart");
   ("Authentication & API Keys", "How to generate and rotate personal access keys", "/developer/docs#auth");
   ("Tool Reference", "Full reference for every available MCP tool", "/developer/docs#tools");
   ("Rate Limits & Quotas", "Request limits, burst allowances, and backoff", "/developer/docs#rate-limits");
   ("SDK & Code Examples", "Python, Node.js, and Go SDK usage examples", "/developer/docs#sdk");
   ("RBAC & Policies", "Role-based access control and policy enforcement", "/developer/docs#rbac");
   ("MCP Server Setup", "Registering and configuring upstream MCP servers", "/developer/docs#servers");
   ("Webhooks & Events", "Subscribe to gateway events via webhook", "/developer/docs#webhooks");
   ("Billing & Subscriptions", "Plans, limits, invoices, and payment methods", "/developer/docs#billing");
   ("Observability & Tracing", "Request tracing, audit log, and traffic dashboards", "/developer/docs#observability")].

Definition matches (text : option string) (q : string) : bool :=
  match text with None => false | Some t => negb (bool_decide (t = "")) && matchStr t q end.

(** [!q ? l : l.filter(p)] *)
Definition select {A} (q : string) (p : A -> bool) (l : list A) : list A :=
  if bool_decide (q = "") then l else List.filter p l.

Section results.
(** Formatting of dates, and [relTime]. *)
Context (toLocaleDateString relTime : string -> string).

Definition base (context : NavContext) (page : string) : string :=
  (if bool_decide (context = DeveloperCtx) then "/developer/" else "/dashboard/") +:+ page.

Definition serverResults (q : string) (context : NavContext) (servers : list ServerView) : list SearchResult :=
  map (fun s => mkResult ("server-" +:+ ServerView_id s) server (ServerView_slug s) (Some (ServerView_upstream_url s)) None
                  (Some (ServerStatus_value (ServerView_status s)))
                  (base context "servers" +:+ "/" +:+ ServerView_slug s))
    (select q (fun s => matches (Some (ServerView_slug s)) q || matches (Some (ServerView_upstream_url s)) q
                        || matches (Some (ServerStatus_value (ServerView_status s))) q) servers).

Definition toolResults (q : string) (context : NavContext) : list SearchResult :=
  map (fun '(name, srv, desc) => mkResult ("tool-" +:+ name) tool name (Some desc) (Some srv) None
                                   (base context "tools" +:+ "?q=" +:+ encodeURIComponent name))
    (select q (fun '(name, srv, desc) => matches (Some name) q || matches (Some desc) q || matches (Some srv) q) DEMO_TOOLS).

Definition userResults (q : string) (roles : list RoleView) : list SearchResult :=
  map (fun r => mkResult ("user-" +:+ RoleView_id r) user (RoleView_name r)
                  (Some ("Role · created " +:+ toLocaleDateString (RoleView_created_at r))) None None
                  "/dashboard/access-control?tab=roles")
    (select q (fun r => matches (Some (RoleView_name r)) q) roles).

Definition policy_title (p : RateLimitPolicyView) : string :=
  match RateLimitPolicyView_server_pattern p with
  | Some s => s
  | None => default ("Policy " +:+ stake 8 (RateLimitPolicyView_id p)) (RateLimitPolicyView_subject_id p)
  end.

Definition policyResults (q : string) (policies : list RateLimitPolicyView) : list SearchResult :=
  map (fun p => mkResult ("policy-" +:+ RateLimitPolicyView_id p) policy (policy_title p)
                  (t ← RateLimitPolicyView_tool_pattern p; t' ← or_none t; Some ("tool: " +:+ t'))
                  (Some (pretty (RateLimitPolicyView_request_limit p) +:+ " req / "
                         +:+ pretty (RateLimitPolicyView_window_seconds p) +:+ "s"))
                  None "/dashboard/policies")
    (select q (fun p => matches (RateLimitPolicyView_subject_id p) q || matches (RateLimitPolicyView_server_pattern p) q
                        || matches (RateLimitPolicyView_tool_pattern p) q
                        || matches (Some (RateLimitAlgorithm_value (RateLimitPolicyView_algorithm p))) q) policies).

Definition keyResults (q : string) (context : NavContext) (keys : list ApiKeyView) : list SearchResult :=
  map (fun k => mkResult ("key-" +:+ ApiKeyView_id k) api_key (ApiKeyView_name k)
                  (Some (ApiKeyView_key_prefix k +:+ "…"))
                  (Some (match ApiKeyView_last_used_at k ≫= or_none with
                         | Some t => "used " +:+ relTime t | None => "never used" end))
                  None (base context "api-keys"))
    (select q (fun k => matches (Some (ApiKeyView_name k)) q || matches (Some (ApiKeyView_key_prefix k)) q) keys).

Definition is_call (a : AuditLogView) : bool := bool_decide (AuditLogView_event_type a = AuditEventType_tool_call).
Definition event_text (a : AuditLogView) : string := AuditEventType_value (AuditLogView_event_type a).

Definition requestResults (q : string) (audits : list AuditLogView) : list SearchResult :=
  map (fun a => mkResult ("req-" +:+ AuditLogView_id a) request (default (event_text a) (AuditLogView_tool_name a))
                  (AuditLogView_server_slug a) (Some (relTime (AuditLogView_created_at a)))
                  (Some (AuditLogView_outcome a)) "/dashboard/audit")
    (take 30 (select q (fun a => matches (AuditLogView_tool_name a) q || matches (AuditLogView_server_slug a) q
                                 || matches (AuditLogView_subject_id a) q) (List.filter is_call audits))).

Definition auditResults (q : string) (audits : list AuditLogView) : list SearchResult :=
  map (fun a => mkResult ("audit-" +:+ AuditLogView_id a) audit_event (event_text a)
                  (AuditLogView_subject_id a) (Some (relTime (AuditLogView_created_at a)))
                  (Some (AuditLogView_outcome a)) "/dashboard/audit")
    (take 20 (select q (fun a => matches (Some (event_text a)) q || matches (AuditLogView_server_slug a) q
                                 || matches (AuditLogView_subject_id a) q) (List.filter (fun a => negb (is_call a)) audits))).

Definition docResults (q : string) : list SearchResult :=
  map (fun '(title, subtitle, href) => mkResult ("doc-" +:+ title) documentation title (Some subtitle) None None href)
    (select q (fun '(title, subtitle, _) => matches (Some title) q || matches (Some subtitle) q) DEMO_DOCS).

Record sources := mkSources {
  so_servers : list ServerView;
  so_keys : list ApiKeyView;
  so_roles : list RoleView;
  so_policies : list RateLimitPolicyView;
  so_audits : list AuditLogView }.

Definition allResults (context : NavContext) (q : string) (d : sources) (t : ResourceType) : list SearchResult :=
  match t with
  | server => serverResults q context (so_servers d)
  | tool => toolResults q context
  | user => userResults q (so_roles d)
  | policy => policyResults q (so_policies d)
  | api_key => keyResults q context (so_keys d)
  | request => requestResults q (so_audits d)
  | audit_event => auditResults q (so_audits d)
  | documentation => docResults q
  end.
End results.

Definition visibleGroups (activeType : option ResourceType) (all : ResourceType -> list SearchResult)
    : list (ResourceType * list SearchResult) :=
  List.filter (fun g => negb (bool_decide (length g.2 = 0)))
    (map (fun t => (t, take (if activeType then 50 else 6) (all t))) (match activeType with Some t => [t] | None => ALL_TYPES end)).

Definition flatResults (groups : list (ResourceType * list SearchResult)) : list SearchResult := concat groups.*2.

Definition totalCount (all : ResourceType -> list SearchResult) : nat := sum_list (map (fun t => length (all t)) ALL_TYPES).

(** A type's pill: clicking the active one clears the filter. *)
Definition setType (t : ResourceType) (prev : option ResourceType) : option ResourceType :=
  if decide (prev = Some t) then None else Some t.

(** The pills shown. *)
Definition pills (q : string) (all : ResourceType -> list SearchResult) : list (ResourceType * nat) :=
  if bool_decide (q = "") then []
  else List.filter (fun p => negb (bool_decide (p.2 = 0))) (map (fun t => (t, length (all t))) ALL_TYPES).

Definition showNoResults (q : string) (isLoading : bool) (all : ResourceType -> list SearchResult) : bool :=
  negb (bool_decide (q = "")) && negb isLoading && bool_decide (totalCount all = 0).
End GlobalSearch.

(** ** Lemmas *)

(** Grouping a list whose groups are contiguous and in order keeps the order. *)
Section contiguous.
Context {A : Type} (key : A -> string) (rank : string -> nat).

Notation before := (fun x y => rank (key x) <= rank (key y)).
Notation flat m := (concat (snd <$> m)).

Lemma map_update_last k f (m : list (string * list A)) v :
  k ∉ m.*1 -> map_update k f (m ++ [(k, v)]) = m ++ [(k, f (Some v))].
Proof.
  induction m as [|[k' v'] m IH]; intros Hk; cbn.
  - by rewrite bool_decide_true.
  - apply not_elem_of_cons in Hk as [Hk Hm]. rewrite bool_decide_false by done. by rewrite IH.
Qed.

Lemma map_update_new k f (m : list (string * list A)) :
  k ∉ m.*1 -> map_update k f m = m ++ [(k, f None)].
Proof.
  induction m as [|[k' v'] m IH]; intros Hk; cbn; [done|].
  apply not_elem_of_cons in Hk as [Hk Hm]. rewrite bool_decide_false by done. by rewrite IH.
Qed.

Lemma grouped_snoc l x :
  Palette.grouped key (l ++ [x]) = map_update (key x) (fun v => default [] v ++ [x]) (Palette.grouped key l).
Proof. unfold Palette.grouped, group, group_from. rewrite fold_left_app. done. Qed.

Lemma grouped_flat_strong l :
  StronglySorted before l ->
  (forall x y, x ∈ l -> y ∈ l -> rank (key x) = rank (key y) -> key x = key y) ->
  flat (Palette.grouped key l) = l /\
  NoDup (Palette.grouped key l).*1 /\
  (forall k, k ∈ (Palette.grouped key l).*1 -> exists x, x ∈ l /\ key x = k) /\
  match last l with
  | Some y => exists m v, Palette.grouped key l = m ++ [(key y, v)] /\ forall x, x ∈ l -> rank (key x) <= rank (key y)
  | None => True
  end.
Proof.
  induction l as [|x l IH] using rev_ind; intros Hs Hinj; [split_and!; [done|constructor|set_solver|done]|].
  apply StronglySorted_app in Hs as (Hle & Hs & _).
  destruct (IH Hs) as (Hf & Hn & Hk & Hlast); [intros y z Hy Hz; apply Hinj; set_solver|]. rewrite grouped_snoc, last_snoc.
  assert (forall y, y ∈ l -> rank (key y) <= rank (key x)) as Hx.
  { intros y Hy. apply Hle; [done|by apply list_elem_of_singleton]. }
  destruct (decide (key x ∈ (Palette.grouped key l).*1)) as [Hin|Hnew].
  - destruct (last l) as [y|] eqn:El.
    2: { apply last_None in El as ->. cbn in Hin. by apply not_elem_of_nil in Hin. }
    destruct Hlast as (m & v & Hm & Hmax).
    assert (key x = key y) as E.
    { destruct (Hk _ Hin) as (z & Hz & Ez). rewrite <- Ez. apply Hinj; [set_solver|apply last_Some in El as [l' ->]; set_solver|].
      assert (y ∈ l) as Hy by (apply last_Some in El as [l' ->]; set_solver).
      pose proof (Hmax z Hz). pose proof (Hx y Hy). rewrite Ez in *. lia. }
    rewrite Hm in Hf, Hn, Hk |- *. rewrite E.
    assert (key y ∉ m.*1) as Hnot.
    { rewrite fmap_app in Hn. apply NoDup_app in Hn as (_ & Hd & _). intros H. apply (Hd _ H). cbn. by left. }
    rewrite map_update_last by done. cbn [from_option id]. split_and!.
    + rewrite <- Hf, !fmap_app, !concat_app. cbn. by rewrite !app_nil_r, app_assoc.
    + rewrite fmap_app in *. done.
    + intros k Hk'. rewrite fmap_app in Hk, Hk'. destruct (Hk k Hk') as (z & Hz & Ez). exists z. split; [|done]. set_solver.
    + eexists m, _. split; [done|]. intros z [Hz| ->%list_elem_of_singleton]%elem_of_app; [by apply Hmax|by rewrite E].
  - rewrite map_update_new by done. cbn [from_option app]. split_and!.
    + rewrite fmap_app, concat_app, Hf. done.
    + rewrite fmap_app. apply NoDup_app. split_and!; [done| |apply NoDup_singleton].
      intros k Hk1 Hk2%list_elem_of_singleton. cbn in Hk2. by subst.
    + intros k. rewrite fmap_app. intros [H|H%list_elem_of_singleton]%elem_of_app.
      * destruct (Hk k H) as (z & Hz & Ez). exists z. split; [|done]. set_solver.
      * exists x. split; [set_solver|done].
    + eexists _, _. split; [done|]. intros z [Hz| ->%list_elem_of_singleton]%elem_of_app; [|done]. by apply Hx.
Qed.

Lemma grouped_flat l :
  StronglySorted before l ->
  (forall x y, x ∈ l -> y ∈ l -> rank (key x) = rank (key y) -> key x = key y) ->
  flat (Palette.grouped key l) = l.
Proof. intros Hs Hi. by apply grouped_flat_strong. Qed.

Lemma sorted_block l k : (forall x, x ∈ l -> key x = k) -> StronglySorted before l.
Proof.
  induction l as [|x l IH]; intros H; constructor.
  - apply IH. set_solver.
  - apply Forall_forall. intros y Hy. rewrite (H x), (H y) by set_solver. done.
Qed.

Lemma sorted_blocks l1 l2 :
  StronglySorted before l1 -> StronglySorted before l2 ->
  (forall x y, x ∈ l1 -> y ∈ l2 -> rank (key x) <= rank (key y)) -> StronglySorted before (l1 ++ l2).
Proof. intros H1 H2 H. apply StronglySorted_app. split_and!; [done..]. Qed.
End contiguous.

Lemma filter_elem {A} (f : A -> bool) l x : x ∈ List.filter f l -> x ∈ l.
Proof. rewrite !list_elem_of_In, filter_In. by intros [? _]. Qed.

Lemma sorted_filter {A} (R : A -> A -> Prop) f l : StronglySorted R l -> StronglySorted R (List.filter f l).
Proof.
  induction 1 as [|x l Hs IH Hf]; [constructor|]. cbn. destruct (f x); [|done]. constructor; [done|].
  rewrite Forall_forall in *. intros y Hy. apply Hf. by apply filter_elem in Hy.
Qed.

Lemma sorted_take {A} (R : A -> A -> Prop) n l : StronglySorted R l -> StronglySorted R (take n l).
Proof. intros H. rewrite <- (take_drop n l) in H. by apply StronglySorted_app in H as (_ & ? & _). Qed.

Lemma concat_map_flat {A B} (f : A -> B) (m : list (string * list A)) :
  concat (map (fun g => map f g.2) m) = map f (concat m.*2).
Proof. induction m as [|[k v] m IH]; [done|]. cbn. by rewrite map_app, IH. Qed.

Module PaletteFacts.
Import Palette.

(** The order in which the groups' first members appear. *)
Definition rank (g : string) : nat :=
  match g with
  | "Navigation" | "Servers" => 0
  | "Actions" | "API Keys" => 1
  | "Tools" => 2
  | _ => 3
  end.

Lemma commands_groups ctx c : c ∈ nav ctx ++ actions ctx -> cmd_group c = "Navigation" \/ cmd_group c = "Actions".
Proof.
  intros [H|H]%elem_of_app; [left|right];
    by repeat (apply elem_of_cons in H as [->|H]; [done|]); apply not_elem_of_nil in H.
Qed.

Lemma commands_sorted ctx : StronglySorted (fun x y => rank (cmd_group x) <= rank (cmd_group y)) (nav ctx ++ actions ctx).
Proof.
  apply sorted_blocks.
  - apply (sorted_block _ _ _ "Navigation"). intros x H.
    by repeat (apply elem_of_cons in H as [->|H]; [done|]); apply not_elem_of_nil in H.
  - apply (sorted_block _ _ _ "Actions"). intros x H.
    by repeat (apply elem_of_cons in H as [->|H]; [done|]); apply not_elem_of_nil in H.
  - intros x y Hx Hy. assert (rank (cmd_group x) = 0) as ->; [|lia].
    by repeat (apply elem_of_cons in Hx as [->|Hx]; [done|]); apply not_elem_of_nil in Hx.
Qed.

(** Any selection of the commands is displayed in its own order. *)
Lemma commands_displayed ctx l :
  (exists g, l = List.filter g (nav ctx ++ actions ctx)) -> concat (grouped cmd_group l).*2 = l.
Proof.
  intros [g ->]. apply (grouped_flat cmd_group rank).
  - apply sorted_filter, commands_sorted.
  - intros x y Hx%filter_elem Hy%filter_elem.
    destruct (commands_groups _ _ Hx) as [-> | ->], (commands_groups _ _ Hy) as [-> | ->]; done.
Qed.

Lemma filter_filter {A} (f g : A -> bool) l : List.filter f (List.filter g l) = List.filter (fun x => g x && f x) l.
Proof. induction l as [|x l IH]; [done|]. cbn. destruct (g x); cbn; [destruct (f x); by rewrite IH|done]. Qed.

Lemma filtered_selection ctx query :
  exists g, filteredCommands (buildCommands ctx) query = List.filter g (nav ctx ++ actions ctx).
Proof.
  unfold filteredCommands, buildCommands. case_bool_decide; [by eexists|]. rewrite filter_filter. by eexists.
Qed.

Lemma live_groups ctx query servers keys r :
  r ∈ liveResults ctx query servers keys ->
  lr_group r ∈ ["Servers"; "API Keys"; "Tools"; "Documentation"].
Proof.
  unfold liveResults. case_if; [set_solver|]. intros H%elem_of_take. destruct H as (i & H & _).
  apply list_elem_of_lookup_2 in H. rewrite !elem_of_app in H.
  destruct H as [H|[H|[H|H]]]; apply list_elem_of_In, in_map_iff in H as (x & <- & _);
    try destruct x as [[? ?] ?]; cbn; rewrite ?elem_of_cons; tauto.
Qed.

Lemma block_of_map {A} (f : A -> LiveResult) l k :
  (forall x, lr_group (f x) = k) ->
  forall r, r ∈ map f l -> lr_group r = k.
Proof. intros H r (x & <- & _)%list_elem_of_In%in_map_iff. apply H. Qed.

Lemma live_displayed ctx query servers keys :
  concat (grouped lr_group (liveResults ctx query servers keys)).*2 = liveResults ctx query servers keys.
Proof.
  assert (forall r, r ∈ server_results ctx query servers -> lr_group r = "Servers") as H1 by by apply block_of_map.
  assert (forall r, r ∈ key_results query keys -> lr_group r = "API Keys") as H2 by by apply block_of_map.
  assert (forall r, r ∈ tool_results ctx query -> lr_group r = "Tools") as H3 by by (apply block_of_map; intros [[? ?] ?]).
  assert (forall r, r ∈ doc_results query -> lr_group r = "Documentation") as H4 by by apply block_of_map.
  apply (grouped_flat lr_group rank).
  - unfold liveResults. case_if; [constructor|]. apply sorted_take.
    repeat apply sorted_blocks; try (by eapply sorted_block).
    + intros x y Hx Hy. rewrite (H3 x Hx), (H4 y Hy). cbn. lia.
    + intros x y Hx [Hy|Hy]%elem_of_app; rewrite (H2 x Hx), ?(H3 y Hy), ?(H4 y Hy); cbn; lia.
    + intros x y Hx _. rewrite (H1 x Hx). cbn. lia.
  - intros x y Hx%live_groups Hy%live_groups. rewrite !elem_of_cons in Hx, Hy.
    intros Hr. destruct Hx as [Hx|[Hx|[Hx|[Hx|Hx]]]], Hy as [Hy|[Hy|[Hy|[Hy|Hy]]]];
      try (by apply not_elem_of_nil in Hx); try (by apply not_elem_of_nil in Hy);
      rewrite Hx, Hy in *; done.
Qed.

Lemma live_short ctx query servers keys : (String.length query < 2)%nat -> liveResults ctx query servers keys = [].
Proof. intros H. unfold liveResults. by rewrite (proj2 (Nat.ltb_lt _ _) H). Qed.
End PaletteFacts.

(** ** Theorems *)

(** What is highlighted is what Enter opens: the rows of the palette, counted
    as they are drawn, are the items of the keyboard in the same order. *)
Theorem palette_rows_are_items ctx query recents servers keys :
  let commands := Palette.buildCommands ctx in
  let live := Palette.liveResults ctx query servers keys in
  Palette.rows query commands recents live = Palette.allItems query commands recents live.
Proof.
  cbv zeta. unfold Palette.rows, Palette.allItems. rewrite !concat_map_flat.
  rewrite PaletteFacts.live_displayed.
  case_bool_decide as Hq; cbn [negb andb].
  - subst query. cbn [String.length Nat.leb]. rewrite (PaletteFacts.commands_displayed ctx (Palette.buildCommands ctx)) by by eexists.
    rewrite app_nil_r. f_equal. case_bool_decide; [by subst|done].
  - rewrite (PaletteFacts.commands_displayed ctx _ (PaletteFacts.filtered_selection ctx query)). cbn [app]. f_equal.
    destruct (2 <=? String.length query)%nat eqn:E; [done|]. by rewrite PaletteFacts.live_short by lia.
Qed.

(** *** Recent commands *)
Module RecentFacts.
Import Palette.

(** The ids used, newest first, without repetition. *)
Fixpoint last_distinct (ids : list string) : list string :=
  match ids with
  | [] => []
  | id :: older => id :: List.filter (fun x => negb (bool_decide (x = id))) (last_distinct older)
  end.

Definition drop_id (id : string) : list string -> list string := List.filter (fun x => negb (bool_decide (x = id))).

Lemma elem_of_drop_id id x l : x ∈ drop_id id l <-> x ∈ l /\ x <> id.
Proof. unfold drop_id. rewrite !list_elem_of_In, filter_In, negb_true_iff, bool_decide_eq_false. done. Qed.

Lemma nodup_drop_id id l : NoDup l -> NoDup (drop_id id l).
Proof.
  induction 1 as [|x l Hx Hl IH]; cbn; [constructor|]. case_bool_decide; cbn; [done|].
  constructor; [|done]. by intros [? _]%elem_of_drop_id.
Qed.

Lemma last_distinct_spec ids : NoDup (last_distinct ids) /\ forall x, x ∈ last_distinct ids <-> x ∈ ids.
Proof.
  induction ids as [|id ids [IH1 IH2]]; [split; [constructor|done]|]. cbn [last_distinct]. fold (drop_id id).
  split.
  - constructor; [by intros [_ ?]%elem_of_drop_id|]. by apply nodup_drop_id.
  - intros x. rewrite !elem_of_cons, elem_of_drop_id, IH2. destruct (decide (x = id)); naive_solver.
Qed.

Lemma drop_id_absent id l : id ∉ l -> drop_id id l = l.
Proof.
  intros H. apply filter_all_match. intros x Hx. apply negb_true_iff, bool_decide_eq_false. by intros ->.
Qed.

(** Forgetting all but the first [n + 1] does not change the first [n] others. *)
Lemma take_drop_id n id l : NoDup l -> take n (drop_id id (take (S n) l)) = take n (drop_id id l).
Proof.
  intros Hn. revert n. induction Hn as [|x l Hx Hl IH]; intros n; [by destruct n|].
  cbn [take]. unfold drop_id at 1 2. cbn [List.filter]. fold (drop_id id).
  case_bool_decide as E; cbn [negb].
  - subst. rewrite (drop_id_absent id l) by done. rewrite drop_id_absent.
    + by rewrite take_take, Nat.min_id.
    + intros H%elem_of_take. destruct H as (i & H & _). by apply list_elem_of_lookup_2 in H.
  - destruct n as [|n]; [done|]. cbn [take]. f_equal. apply IH.
Qed.

Lemma json_filter id l :
  List.filter (fun x => match x with JStr s => negb (bool_decide (s = id)) | _ => true end) (map JStr l)
  = map JStr (drop_id id l).
Proof. induction l as [|x l IH]; [done|]. cbn. rewrite IH. by case_bool_decide. Qed.

(** The stored list, read back. *)
Definition stored (w : World) (l : list string) : Prop :=
  w_window w = true /\ st_ok (w_local w) = true /\ st_quota (w_local w) = true /\
  (st_items (w_local w) !! RECENT_KEY = Some (JSON_stringify (JArr (map JStr l))) \/
   l = [] /\ st_items (w_local w) !! RECENT_KEY = None).

Lemma getRecent_stored w l : stored w l -> getRecent w = (Ok (JArr (map JStr l)), w).
Proof.
  intros (Hw & Ho & _ & Hi). unfold getRecent, try_catch, bind, localStorage_getItem, storage_get. rewrite Hw, Ho. cbn [andb].
  destruct Hi as [-> | [-> ->]]; cbn [from_option id]; [by rewrite parse_of_stringify|reflexivity].
Qed.

Lemma pushRecent_stored w l id :
  stored w l -> exists w', pushRecent id w = (Ok (), w') /\ stored w' (take 6 (id :: drop_id id l)).
Proof.
  intros Hs. pose proof Hs as (Hw & Ho & Hq & _). unfold pushRecent. rewrite attempt_spec.
  unfold bind. rewrite (getRecent_stored w l Hs). cbn [as_array ret]. rewrite json_filter.
  unfold localStorage_setItem, storage_set. rewrite Hw, Ho, Hq. cbn [andb].
  eexists. split; [reflexivity|]. split_and!; try done. left. cbn [snd set_local w_local st_items].
  rewrite lookup_insert_eq. f_equal. f_equal. f_equal. change (JStr id :: map JStr (drop_id id l)) with (map JStr (id :: drop_id id l)).
  by rewrite <- firstn_map.
Qed.

Fixpoint push_all (ids : list string) : M unit :=
  match ids with [] => ret () | id :: r => pushRecent id ;;; push_all r end.

Lemma push_all_stored ids w used :
  stored w (take 6 (last_distinct used)) ->
  exists w', push_all ids w = (Ok (), w') /\ stored w' (take 6 (last_distinct (reverse ids ++ used))).
Proof.
  revert w used. induction ids as [|id ids IH]; intros w used Hs; [by exists w|].
  destruct (pushRecent_stored w _ id Hs) as (w1 & Hp & Hs1). cbn [push_all]. unfold bind. rewrite Hp.
  cbn [take] in Hs1. rewrite take_drop_id in Hs1 by apply last_distinct_spec.
  destruct (IH w1 (id :: used)) as (w2 & -> & H2); [done|]. exists w2. split; [done|].
  by rewrite reverse_cons, <- app_assoc.
Qed.
End RecentFacts.

(** The recent list is the last six distinct commands: after any sequence of
    uses, with working storage, what is read back is the newest six ids, newest
    first, each once. *)
Theorem recents_are_last_distinct ids w :
  RecentFacts.stored w [] ->
  exists w', RecentFacts.push_all ids w = (Ok (), w') /\
    Palette.getRecent w' = (Ok (JArr (map JStr (take 6 (RecentFacts.last_distinct (reverse ids))))), w').
Proof.
  intros Hs. destruct (RecentFacts.push_all_stored ids w []) as (w' & -> & H); [done|].
  exists w'. split; [done|]. rewrite app_nil_r in H. by apply RecentFacts.getRecent_stored.
Qed.

(** A stored value that is JSON but not an array breaks the palette for good:
    rendering throws, and using a command does not repair it. *)
Theorem corrupt_recents_stick w text v id commands :
  w_window w = true -> st_ok (w_local w) = true ->
  st_items (w_local w) !! Palette.RECENT_KEY = Some text -> JSON_parse text = Some v ->
  (forall l, v <> JArr l) ->
  Palette.getRecent w = (Ok v, w) /\
  Palette.recentCommands "" v commands = Err "TypeError" /\
  Palette.pushRecent id w = (Ok (), w).
Proof.
  intros Hw Ho Hi Hp Hv.
  assert (Palette.getRecent w = (Ok v, w)) as Hg.
  { unfold Palette.getRecent, try_catch, bind, localStorage_getItem, storage_get. rewrite Hw, Ho, Hi. cbn [andb from_option Datatypes.id]. by rewrite Hp. }
  split_and!; [done| |].
  - destruct v; try done. by destruct (Hv l).
  - unfold Palette.pushRecent. rewrite attempt_spec. unfold bind. rewrite Hg.
    destruct v; try done. by destruct (Hv l).
Qed.

(** *** Keyboard *)

(** The selection stays on the list: with at least one item, any number of
    arrow keys from a valid index gives a valid index; on an empty list the
    down arrow leaves the list (index -1) and Enter opens nothing. *)
Theorem selection_stays_valid ks items i :
  (0 <= i < Z.of_nat (length items))%Z ->
  let j := fold_left (fun i k => Palette.move k (Z.of_nat (length items)) i) ks i in
  (0 <= j < Z.of_nat (length items))%Z /\ is_Some (Palette.item_at items j).
Proof.
  cbv zeta. intros Hi. assert (forall i, (0 <= i < Z.of_nat (length items))%Z ->
    (0 <= fold_left (fun i k => Palette.move k (Z.of_nat (length items)) i) ks i < Z.of_nat (length items))%Z) as H.
  { clear i Hi. induction ks as [|k ks IH]; intros i Hi; [done|]. cbn [fold_left]. apply IH. destruct k; cbn; lia. }
  specialize (H i Hi). split; [done|]. unfold Palette.item_at.
  rewrite (proj2 (Z.ltb_ge _ _)) by lia. apply lookup_lt_is_Some. lia.
Qed.

(** Holding an arrow key reaches the end of the list and stays there. *)
Theorem arrow_reaches_end n len i :
  (0 <= i < len)%Z -> (len <= Z.of_nat n)%Z ->
  Nat.iter n (Palette.move Palette.ArrowDown len) i = (len - 1)%Z /\
  Nat.iter n (Palette.move Palette.ArrowUp len) i = 0%Z.
Proof.
  intros Hi Hn.
  assert (forall m, Nat.iter m (Palette.move Palette.ArrowDown len) i = Z.min (i + Z.of_nat m) (len - 1)) as Hd.
  { induction m as [|m IH]; simpl; [lia|]. rewrite IH. unfold Palette.move. lia. }
  assert (forall m, Nat.iter m (Palette.move Palette.ArrowUp len) i = Z.max (i - Z.of_nat m) 0) as Hu.
  { induction m as [|m IH]; simpl; [lia|]. rewrite IH. unfold Palette.move. lia. }
  rewrite Hd, Hu. lia.
Qed.

(** The developer workspace is offered the organisation's audit page, which
    the same palette reserves to organisation administrators. *)
Theorem developer_offered_audit :
  (exists c, c ∈ Palette.buildCommands DeveloperCtx /\ Palette.cmd_href c = Some "/dashboard/audit") /\
  (forall c, c ∈ Palette.buildCommands DeveloperCtx -> Palette.cmd_id c <> "go-audit").
Proof.
  split.
  - eexists (Palette.mkCmd "view-requests" _ _ _ _ _ _ _). split; [|reflexivity].
    repeat (apply list_elem_of_here || apply list_elem_of_further).
  - intros c H. by repeat (apply elem_of_cons in H as [->|H]; [done|]); apply not_elem_of_nil in H.
Qed.

(** *** The search page *)

(** Every visible result is one of its type's results, groups are not empty and
    respect their caps, and a type's results are complete up to the cap: what a
    filter shows is the beginning of what was found. *)
Theorem visible_groups_sound active all g :
  g ∈ GlobalSearch.visibleGroups active all ->
  let cap := if active then 50 else 6 in
  g.2 = take cap (all g.1) /\ g.2 <> [] /\ length g.2 = Nat.min cap (length (all g.1)) /\
  (forall t, active = Some t -> g.1 = t).
Proof.
  intros H. cbv zeta. unfold GlobalSearch.visibleGroups in H. rewrite list_elem_of_In, filter_In in H.
  destruct H as [H Hne]. apply in_map_iff in H as (t & <- & Ht). cbn [fst snd] in *. split_and!; [done| | |].
  - intros E. rewrite E in Hne. done.
  - by rewrite length_take.
  - intros u ->. by destruct Ht.
Qed.

(** A type filter that matches nothing leaves a blank page: nothing is listed,
    no "no results" message, and the type has no pill to switch it off. *)
Theorem stale_type_filter_blank q t all :
  q <> "" -> all t = [] -> (0 < GlobalSearch.totalCount all)%nat ->
  GlobalSearch.visibleGroups (Some t) all = [] /\
  GlobalSearch.showNoResults q false all = false /\
  t ∉ (GlobalSearch.pills q all).*1.
Proof.
  intros Hq Ht Hc. split_and!.
  - unfold GlobalSearch.visibleGroups. cbn. by rewrite Ht.
  - unfold GlobalSearch.showNoResults. rewrite (bool_decide_false (GlobalSearch.totalCount all = 0)) by lia. by rewrite andb_false_r.
  - unfold GlobalSearch.pills. rewrite bool_decide_false by done.
    intros ([t' n] & -> & H)%list_elem_of_fmap. rewrite list_elem_of_In, filter_In in H. destruct H as [H Hn].
    apply in_map_iff in H as (u & [= <- <-] & _). cbn in Ht, Hn. by rewrite Ht in Hn.
Qed.

(** ** Witnesses *)
Lemma recents_are_last_distinct_witness :
  exists w', RecentFacts.push_all ["go-servers"; "go-tools"; "go-servers"] (demo_world ∅ []) = (Ok (), w') /\
    Palette.getRecent w' = (Ok (JArr [JStr "go-servers"; JStr "go-tools"]), w').
Proof.
  apply (recents_are_last_distinct ["go-servers"; "go-tools"; "go-servers"]).
  repeat split; try done. by right.
Defined.

Lemma corrupt_recents_stick_witness :
  Palette.pushRecent "go-tools" (demo_world {["pc_cmd_recent" := "null"]} []) =
  (Ok (), demo_world {["pc_cmd_recent" := "null"]} []).
Proof. by apply (corrupt_recents_stick (demo_world {["pc_cmd_recent" := "null"]} []) "null" JNull _ []). Defined.

Definition demo_item : Palette.Item := Palette.mkItem (Some "/dashboard") None "Overview" None.

Lemma selection_stays_valid_witness :
  is_Some (Palette.item_at [demo_item; demo_item] 1).
Proof.
  apply (selection_stays_valid [Palette.ArrowDown; Palette.ArrowDown; Palette.ArrowDown] [demo_item; demo_item] 0).
  cbn. lia.
Defined.

Lemma arrow_reaches_end_witness : Nat.iter 5 (Palette.move Palette.ArrowDown 3) 0%Z = 2%Z.
Proof. apply (arrow_reaches_end 5 3 0); lia. Defined.
