(* ===== verification/AccessControl.v ===== *)
(** * Members, teams and roles: web/src/app/dashboard/access-control

    The three tabs of the access-control page and the confirmation dialog they
    share (web/src/components/confirm-dialog.tsx):

    - [Confirm]: the dialog's gate as a state machine;
    - [Members]: inviting, editing, removing and listing members;
    - [Teams]: team cards, creation, removal, and the dialog that assigns
      servers, whose requests run concurrently: it is a step relation together
      with the assignments the backend stores (api/app/api/auth.py);
    - [Roles]: the role archetypes, seeding, creation and bindings. *)

From Stdlib Require Import ZifyBool.
From S2P Require Import Prelude JsString Json Browser AuthStore AxiosClient SessionGate ApiTypes ApiClient AdminRbac Tally Servers Gateway PolicyBuilder.

(** What a handler does besides setting its component's state. *)
Inductive act :=
  | ToastSuccess (msg : string)
  | ToastError (msg : json)
  | Refetch
  | Invalidate (key : string)
  | Close.

(** [try { r = await m; ok } catch (err) { err }]: an error without a response
    has no [detail]. *)
Definition try_request {A B} (m : M (AxiosError + A)) (ok : A -> B) (failed : json -> B) (text : string) : M B :=
  r <-- try_catch (r <-- m; ret (Some r)) (fun _ => ret None);
  ret (match r with
       | Some (inr a) => ok a
       | Some (inl e) => failed (detail_or text e)
       | None => failed (JStr text)
       end).

(** [name.toLowerCase().replace(/\s+/g, "-")] *)
Definition typed_name (s : string) : string := dash_ws false (toLowerCase s).

(** ** The confirmation dialog *)
Module Confirm.

Record state := mkState { open : bool; typed : string; loading : bool }.

Definition canConfirm (expected : option string) (s : state) : bool :=
  if truthy expected then bool_decide (Some (typed s) = expected) else true.

(** [SetOpen] and [SetLoading] are the parent's props. *)
Inductive event :=
  | SetOpen (b : bool) | SetLoading (b : bool) | Type_ (v : string) | Enter | Click | Cancel | Escape | Backdrop.

Inductive out := OnConfirm | OnClose.

(** A closed dialog renders nothing; opening it clears the text; the confirm
    button is disabled by [!canConfirm || loading] and the cancel button by
    [loading], which the backdrop, the cross and the Escape key do not look at. *)
Definition step (expected : option string) (e : event) (s : state) : state * list out :=
  match e with
  | SetOpen b => (mkState b (if b && negb (open s) then "" else typed s) (loading s), [])
  | SetLoading b => (mkState (open s) (typed s) b, [])
  | Type_ v => if open s && truthy expected then (mkState (open s) v (loading s), []) else (s, [])
  | Enter => (s, if open s && truthy expected && canConfirm expected s && negb (loading s) then [OnConfirm] else [])
  | Click => (s, if open s && canConfirm expected s && negb (loading s) then [OnConfirm] else [])
  | Cancel => (s, if open s && negb (loading s) then [OnClose] else [])
  | Escape | Backdrop => (s, if open s then [OnClose] else [])
  end.

Fixpoint run (expected : option string) (es : list event) (s : state) : state * list out :=
  match es with
  | [] => (s, [])
  | e :: r => let '(s1, o1) := step expected e s in let '(s2, o2) := run expected r s1 in (s2, o1 ++ o2)
  end.

(** The texts of the pre-built dialogs. *)
Definition DeleteServerDialog_text (serverSlug : string) : string := "delete-" +:+ serverSlug.
Definition RevokeAllKeysDialog_text : string := "revoke-all-keys".
Definition DisableToolDialog_text (environment : string) : string := "disable-" +:+ environment.
Definition RemoveOrganizationDialog_text (orgName : string) : string := "remove-" +:+ typed_name orgName.
End Confirm.

(** ** Members *)
Module Members.

Record form := mkForm { userSubject : string; role : OrgMemberRole; teamId : string; busy : bool }.

Definition invite_initial : form := mkForm "" developer "" false.

Definition set_busy (b : bool) (f : form) : form := mkForm (userSubject f) (role f) (teamId f) b.

(** [new useState(member?.admin_role ?? "developer")]: the edit dialog is keyed
    by the member, so it starts from the member's values. *)
Definition edit_initial (member : option OrgMemberView) : form :=
  match member with
  | Some m => mkForm "" (om_admin_role m) (default "" (om_team_id m)) false
  | None => mkForm "" developer "" false
  end.

Definition invite_body (f : form) : OrgMemberCreate :=
  mkOrgMemberCreate (trim (userSubject f)) (role f) (Some (or_none (teamId f))).

Definition edit_body (f : form) : OrgMemberUpdate :=
  mkOrgMemberUpdate (Some (role f)) (Some (or_none (teamId f))).

(** Stored members: the update applies the fields that are set. *)
Definition apply_update (m : OrgMemberView) (u : OrgMemberUpdate) : OrgMemberView :=
  mkOrgMemberView (om_id m) (om_tenant_id m) (om_user_subject m) (default (om_admin_role m) (ou_admin_role u))
    (default (om_team_id m) (ou_team_id u)) (om_created_at m) (om_updated_at m).

Section handlers.
Context (dispatch : AxiosDefaults -> AxiosConfig -> M (AxiosError + AxiosResponse)).

Definition invite_handleSubmit (f : form) : M (form * list act) :=
  if bool_decide (trim (userSubject f) = "") || busy f then ret (f, []) else
  try_request (createMember dispatch (invite_body f))
    (fun _ => (invite_initial,
               [ToastSuccess ("Member " +:+ quoted (trim (userSubject f)) +:+ " added"); Refetch; Close]))
    (fun d => (set_busy false f, [ToastError d])) "Failed to add member".

Definition edit_handleSubmit (member : OrgMemberView) (f : form) : M (form * list act) :=
  if busy f then ret (f, []) else
  try_request (updateMember dispatch (om_id member) (edit_body f))
    (fun _ => (set_busy false f, [ToastSuccess "Member updated"; Refetch; Close]))
    (fun d => (set_busy false f, [ToastError d])) "Failed to update member".

(** The delete target that remains, and the acts. *)
Definition handleDelete (deleteTarget : option OrgMemberView) (deleting : bool)
    : M (option OrgMemberView * list act) :=
  match deleteTarget with
  | Some m =>
      if deleting then ret (deleteTarget, []) else
      try_request (deleteMember dispatch (om_id m))
        (fun _ => (None, [ToastSuccess "Member removed"; Refetch]))
        (fun d => (deleteTarget, [ToastError d])) "Failed to remove member"
  | None => ret (None, [])
  end.
End handlers.

(** *** The table *)
Definition canManage (q : query_state) (myRole : option string) : bool :=
  useIsPlatformAdmin q || bool_decide (myRole = Some "org_owner") || bool_decide (myRole = Some "org_admin").

(** [for (const team of teams) map[team.id] = team.name]: the last one wins. *)
Definition teamNameById (teams : list TeamView) : gmap string string :=
  fold_left (fun m t => <[tv_id t := tv_name t]> m) teams ∅.

Definition matches (names : gmap string string) (q : string) (m : OrgMemberView) : bool :=
  includes (toLowerCase (om_user_subject m)) q
  || includes (toLowerCase (role_id (om_admin_role m))) q
  || truthy (om_team_id m) && includes (toLowerCase (default "" (om_team_id m ≫= (names !!.)))) q.

Definition filteredMembers (members : option (list OrgMemberView)) (teams : list TeamView) (search : string)
    : list OrgMemberView :=
  match members with
  | None => []
  | Some ms =>
      if bool_decide (trim search = "") then ms
      else List.filter (matches (teamNameById teams) (toLowerCase search)) ms
  end.

Record stats_t := mkStats { total : nat; owners : nat; admins : nat; teamScoped : nat }.

Definition has_role (rs : list OrgMemberRole) (m : OrgMemberView) : bool := bool_decide (om_admin_role m ∈ rs).

Definition stats (members : option (list OrgMemberView)) : stats_t :=
  match members with
  | None => mkStats 0 0 0 0
  | Some ms =>
      mkStats (length ms) (length (List.filter (has_role [org_owner]) ms))
        (length (List.filter (has_role [org_admin; developer]) ms))
        (length (List.filter (fun m => truthy (om_team_id m)) ms))
  end.

(** The seat card, shown with a licence: label, value and whether it is red. *)
Definition seat_card (seat_limit : Z) (s : stats_t) : string * string * bool :=
  if (0 <? seat_limit)%Z
  then ("Seats Used · " +:+ pretty seat_limit +:+ " limit", pretty (Z.of_nat (total s)) +:+ " / " +:+ pretty seat_limit,
        (seat_limit <? Z.of_nat (total s))%Z)
  else ("Seats Used", pretty (Z.of_nat (total s)), false).

Definition team_cell (names : gmap string string) (m : OrgMemberView) : string :=
  if truthy (om_team_id m) then default "Unknown team" (om_team_id m ≫= (names !!.)) else "Org-wide".

Definition columns (manage : bool) : list string :=
  if manage then ["Subject"; "Role"; "Team"; "Added"; "Actions"] else ["Subject"; "Role"; "Team"; "Added"].
End Members.

(** ** Teams *)
Module Teams.

Definition TEAM_COLORS : list string :=
  ["var(--pc-primary)"; "var(--pc-secondary)"; "var(--pc-warning)"; "#A78BFA"; "#FB7185"; "#34D399"].

(** [ToInt32] and [x << 5]; the subtraction and the sum are on Numbers. *)
Definition to_int32 (z : Z) : Z := ((z + 2 ^ 31) mod 2 ^ 32 - 2 ^ 31)%Z.
Definition shl5 (z : Z) : Z := to_int32 (Z.shiftl (to_int32 z) 5).

Definition hash_step (hash : Z) (c : ascii) : Z := (Z.of_N (code c) + (shl5 hash - hash))%Z.

Fixpoint hash_from (hash : Z) (name : string) : Z :=
  match name with "" => hash | String c r => hash_from (hash_step hash c) r end.

(** [TEAM_COLORS[Math.abs(hash) % TEAM_COLORS.length]]; [None] is [undefined]. *)
Definition teamColor (name : string) : option string :=
  TEAM_COLORS !! Z.to_nat (Z.rem (Z.abs (hash_from 0 name)) (Z.of_nat (length TEAM_COLORS))).

(** [s.split(/\s+/)]: [run] says that the separator has been seen. *)
Fixpoint split_ws (run : bool) (cur : string) (s : string) : list string :=
  match s with
  | "" => [cur]
  | String c r =>
      if is_ws c then (if run then split_ws true cur r else cur :: split_ws true "" r)
      else split_ws false (cur +:+ String c "") r
  end.

Definition upper_char (c : ascii) : ascii :=
  let n := code c in if ((97 <=? n) && (n <=? 122))%N then ascii_of_N (n - 32) else c.

Definition teamInitials (name : string) : string :=
  join "" ((fun w => match w with "" => "" | String c _ => String (upper_char c) "" end)
             <$> take 2 (split_ws false "" name)).

Section handlers.
Context (dispatch : AxiosDefaults -> AxiosConfig -> M (AxiosError + AxiosResponse)).

Definition handleCreate (name : string) (busy : bool) : M (string * list act) :=
  if bool_decide (trim name = "") || busy then ret (name, []) else
  try_request (createTeam dispatch (mkTeamCreate (trim name)))
    (fun _ => ("", [ToastSuccess ("Team " +:+ quoted (trim name) +:+ " created"); Refetch; Invalidate "/v1/servers"; Close]))
    (fun d => (name, [ToastError d])) "Failed to create team".

Definition handleDelete (deleteTarget : option TeamView) (deleting : bool) : M (option TeamView * list act) :=
  match deleteTarget with
  | Some t =>
      if deleting then ret (deleteTarget, []) else
      try_request (deleteTeam dispatch (tv_id t))
        (fun _ => (None, [ToastSuccess ("Team " +:+ quoted (tv_name t) +:+ " deleted"); Refetch]))
        (fun d => (deleteTarget, [ToastError d])) "Failed to delete team"
  | None => ret (None, [])
  end.
End handlers.

(** *** Counts *)
Definition member_team (m : OrgMemberView) : option string := if truthy (om_team_id m) then om_team_id m else None.

Definition memberCountByTeam (members : list OrgMemberView) : list (string * Z) := tally member_team members.

Definition unassignedMembers (members : list OrgMemberView) : nat :=
  length (List.filter (fun m => negb (truthy (om_team_id m))) members).

Definition assignedServerCount (teams : option (list TeamView)) : nat :=
  match teams with Some ts => foldr (fun t n => length (tv_server_ids t) + n) 0 ts | None => 0 end.

Definition withServers (teams : option (list TeamView)) : nat :=
  match teams with
  | Some ts => length (List.filter (fun t => 0 <? length (tv_server_ids t)) ts)
  | None => 0
  end.

(** The card's third figure. *)
Definition org_wide (t : TeamView) : string := if length (tv_server_ids t) =? 0 then "Yes" else "No".

Definition assignedServers (t : TeamView) (servers : list ServerView) : list ServerView :=
  List.filter (fun s => bool_decide (ServerView_id s ∈ tv_server_ids t)) servers.

(** *** Assigning servers *)

(** The request [toggle] sends. *)
Definition toggle_call (team server : string) (currentlyAssigned : bool) : rbac_call :=
  if currentlyAssigned then CRemove team server else CAssign team server.

(** [setServerIds((ids) => ...)] *)
Definition toggle_ids (server : string) (currentlyAssigned : bool) (ids : list string) : list string :=
  if currentlyAssigned then List.filter (fun id => negb (bool_decide (id = server))) ids else ids ++ [server].

(** The backend's rows of [team_servers] for the team: adding a row that exists
    violates the primary key, removing one that does not is a 404. *)
Definition serve (team : string) (c : rbac_call) (stored : gset string) : option (gset string) :=
  match c with
  | CAssign t s => if bool_decide (t = team) && negb (bool_decide (s ∈ stored)) then Some ({[s]} ∪ stored) else None
  | CRemove t s => if bool_decide (t = team) && bool_decide (s ∈ stored) then Some (stored ∖ {[s]}) else None
  | _ => None
  end.

(** A call of [toggle] that awaits its answer; the answer is whether the
    backend applied it. *)
Record flight := mkFlight { fl_server : string; fl_was : bool; fl_answer : option bool }.

Record dialog := mkDialog {
  serverIds : list string;
  pending : gset string;
  flights : list flight;
  stored : gset string }.

Definition assigned (d : dialog) (s : string) : bool := bool_decide (s ∈ serverIds d).

(** The click on a server's button, which is disabled while it is pending. *)
Definition click (s : string) (d : dialog) : dialog :=
  if bool_decide (s ∈ pending d) then d
  else mkDialog (serverIds d) ({[s]} ∪ pending d) (flights d ++ [mkFlight s (assigned d s) None]) (stored d).

(** The continuation of [toggle] after its await. *)
Definition settle (ok : bool) (f : flight) (rest : list flight) (d : dialog) : dialog :=
  mkDialog (if ok then toggle_ids (fl_server f) (fl_was f) (serverIds d) else serverIds d)
    (pending d ∖ {[fl_server f]}) rest (stored d).

(** The dialog and the backend, interleaved: [refused] stands for any reason to
    refuse a request that changes nothing (permissions, an unknown server). *)
Inductive step (team : string) : dialog -> dialog -> Prop :=
  | step_click s d : step team d (click s d)
  | step_served d l1 l2 s was st' :
      flights d = l1 ++ mkFlight s was None :: l2 ->
      serve team (toggle_call team s was) (stored d) = Some st' ->
      step team d (mkDialog (serverIds d) (pending d) (l1 ++ mkFlight s was (Some true) :: l2) st')
  | step_refused d l1 l2 s was :
      flights d = l1 ++ mkFlight s was None :: l2 ->
      step team d (mkDialog (serverIds d) (pending d) (l1 ++ mkFlight s was (Some false) :: l2) (stored d))
  | step_answered d l1 l2 s was ok :
      flights d = l1 ++ mkFlight s was (Some ok) :: l2 ->
      step team d (settle ok (mkFlight s was (Some ok)) (l1 ++ l2) d).

(** A network that may also lose the answer to a request. *)
Inductive step_lossy (team : string) : dialog -> dialog -> Prop :=
  | lossy_step d d' : step team d d' -> step_lossy team d d'
  | lossy_lost d l1 l2 f :
      flights d = l1 ++ f :: l2 -> step_lossy team d (settle false f (l1 ++ l2) d).

(** The dialog as it opens on a team. *)
Definition opened (server_ids : list string) (st : gset string) : dialog := mkDialog server_ids ∅ [] st.
End Teams.

(** ** Roles *)
Module Roles.

Inductive PermCategory :=
  | Servers | Tools | Policies | Logs | Keys | Billing | Members | Settings | Security | Integrations.
Inductive Access := full | read | own | none.

#[export] Instance Access_eq : EqDecision Access.
Proof. solve_decision. Defined.

Record RoleArchetype := mkArchetype { key : string; label : string; permissions : PermCategory -> Access }.

Definition PERM_CATEGORIES : list PermCategory :=
  [Servers; Tools; Policies; Logs; Keys; Billing; Members; Settings; Security; Integrations].

Definition ROLE_ARCHETYPES : list RoleArchetype :=
  [mkArchetype "super-admin" "Platform Super Admin" (fun _ => full);
   mkArchetype "org-owner" "Organization Owner" (fun _ => full);
   mkArchetype "org-admin" "Organization Admin" (fun c => match c with Billing => none | _ => full end);
   mkArchetype "developer" "Developer"
     (fun c => match c with Servers | Tools => read | Logs | Keys => own | _ => none end);
   mkArchetype "security-auditor" "Security Auditor"
     (fun c => match c with Servers | Tools | Policies | Security => read | Logs => full | _ => none end);
   mkArchetype "billing-manager" "Billing Manager" (fun c => match c with Billing => full | _ => none end)].

Definition visibleArchetypes (isPlatformAdmin : bool) : list RoleArchetype :=
  if isPlatformAdmin then ROLE_ARCHETYPES
  else List.filter (fun a => negb (bool_decide (key a = "super-admin"))) ROLE_ARCHETYPES.

(** [existingNames.has(a.label) || existingNames.has(a.key)] *)
Definition inGateway (existingNames : list string) (a : RoleArchetype) : bool :=
  bool_decide (label a ∈ existingNames) || bool_decide (key a ∈ existingNames).

Definition missing (existingNames : list string) (isPlatformAdmin : bool) : list RoleArchetype :=
  List.filter (fun a => negb (inGateway existingNames a)) (visibleArchetypes isPlatformAdmin).

(** The archetype whose icon a gateway role borrows: all of them are searched. *)
Definition archetype_of (r : RoleView) : option RoleArchetype :=
  List.find (fun a => bool_decide (label a = RoleView_name r) || bool_decide (key a = RoleView_name r)) ROLE_ARCHETYPES.

Definition role_body (n : string) : json := JObj [("name", JStr n)].

Section handlers.
Context (dispatch : AxiosDefaults -> AxiosConfig -> M (AxiosError + AxiosResponse)).

(** [try { await mutateAsync(...); created++ } catch {}] *)
Definition seed_one (created : nat) (a : RoleArchetype) : M nat :=
  try_request (createRoleV1RolesPost dispatch (role_body (label a)) None) (fun _ => S created) (fun _ => created) "".

Fixpoint seed_loop (l : list RoleArchetype) (created : nat) : M nat :=
  match l with
  | [] => ret created
  | a :: r => n <-- seed_one created a; seed_loop r n
  end.

Definition seed_toast (created : nat) : string :=
  "Created " +:+ pretty created +:+ " standard role" +:+ (if created =? 1 then "" else "s").

(** [None]: the button is not rendered. *)
Definition handleSeed (existingNames : list string) (isPlatformAdmin : bool) : option (M (list act)) :=
  match missing existingNames isPlatformAdmin with
  | [] => None
  | l => Some (n <-- seed_loop l 0; ret [Invalidate "/v1/roles"; ToastSuccess (seed_toast n)])
  end.

Record binding_form := mkBinding { subject_id : string; subject_type : SubjectType; role_id : string }.

Definition binding_body (f : binding_form) : json :=
  JObj [("subject_id", JStr (subject_id f));
        ("subject_type", JStr (match subject_type f with
                               | SubjectType_api_key => "api_key"
                               | SubjectType_oauth_subject => "oauth_subject"
                               end))].

Definition handleAdd (f : binding_form) : M (binding_form * list act) :=
  if bool_decide (role_id f = "") then ret (f, [ToastError (JStr "Select a role")]) else
  try_request (createBindingV1RolesRoleIdBindingsPost dispatch (role_id f) (binding_body f) None)
    (fun _ => (mkBinding "" (subject_type f) (role_id f), [ToastSuccess "Member added to role"; Invalidate "/v1/roles"]))
    (fun d => (f, [ToastError d])) "Failed to add member".

Definition handleCreateRole (newRoleName : string) : M (string * list act) :=
  try_request (createRoleV1RolesPost dispatch (role_body newRoleName) None)
    (fun _ => ("", [ToastSuccess ("Role " +:+ quoted newRoleName +:+ " created"); Close; Invalidate "/v1/roles"]))
    (fun d => (newRoleName, [ToastError d])) "Failed to create role".
End handlers.
End Roles.

(** ** Lemmas: the confirmation dialog *)
Module ConfirmFacts.
Import Confirm.

Lemma confirm_text t e s :
  t <> "" -> OnConfirm ∈ (step (Some t) e s).2 -> typed s = t.
Proof.
  intros Ht. assert (truthy (Some t) = true) as Hx by (cbn; by rewrite bool_decide_false).
  unfold step, canConfirm. rewrite Hx.
  destruct e; rewrite ?andb_true_r; try (intros H%elem_of_nil; done);
    destruct (open s), (loading s); cbn; try (intros H; set_solver);
    case_bool_decide; intros H1; try set_solver; by simplify_eq.
Qed.

Lemma step_text t e s :
  t <> "" -> typed (step (Some t) e s).1 = t -> typed s = t \/ e = Type_ t.
Proof.
  intros Ht. destruct e as [b|b|v| | | | |]; cbn; try by left.
  - destruct (b && negb (open s)); [done|by left].
  - destruct (open s), (negb _); cbn; intros <-; tauto.
Qed.

Lemma run_confirm t es s :
  t <> "" -> OnConfirm ∈ (run (Some t) es s).2 -> typed s = t \/ Type_ t ∈ es.
Proof.
  intros Ht. revert s. induction es as [|e es IH]; intros s; [intros H; set_solver|]. cbn [run].
  pose proof (confirm_text t e s Ht) as Hc. pose proof (step_text t e s Ht) as Hs.
  destruct (step (Some t) e s) as [s1 o1]. specialize (IH s1).
  destruct (run (Some t) es s1) as [s2 o2]. cbn [fst snd] in *. rewrite elem_of_app. set_solver.
Qed.
End ConfirmFacts.

(** [C36] Typing the displayed name is what arms the confirm button: from the moment
    the dialog opens, whatever was typed before and whatever else happens, the
    action runs only after the exact text has been entered. *)
Theorem confirm_needs_typing t es s :
  t <> "" -> Confirm.open s = false ->
  Confirm.OnConfirm ∈ (Confirm.run (Some t) (Confirm.SetOpen true :: es) s).2 ->
  Confirm.Type_ t ∈ es.
Proof.
  intros Ht Ho. cbn. rewrite Ho. cbn [andb negb]. intros H.
  destruct (Confirm.run _ es _) as [s2 o2] eqn:E. cbn [snd] in H.
  edestruct (ConfirmFacts.run_confirm t es (Confirm.mkState true "" (Confirm.loading s))) as [Hx|Hx];
    [done|rewrite E; exact H|by cbn in Hx|done].
Qed.

(** ** Members *)

(** Saving the edit dialog without touching it stores the member unchanged. *)
Theorem untouched_edit_is_identity m :
  om_team_id m <> Some "" ->
  Members.apply_update m (Members.edit_body (Members.edit_initial (Some m))) = m.
Proof.
  intros Ht. destruct m as [i t u r team c d]. unfold Members.apply_update, Members.edit_body. cbn in *.
  f_equal. destruct team as [team|]; [|done]. unfold or_none. cbn. rewrite bool_decide_false by congruence. done.
Qed.

(** ** Teams *)
Module TeamFacts.
Import Teams.

Lemma int32_bound z : (- 2 ^ 31 <= to_int32 z < 2 ^ 31)%Z.
Proof. unfold to_int32. pose proof (Z.mod_pos_bound (z + 2 ^ 31) (2 ^ 32)). lia. Qed.

Lemma hash_bound name h :
  (Z.abs (hash_from h name) <= Z.abs h + Z.of_nat (String.length name) * (2 ^ 31 + 255))%Z.
Proof.
  revert h. induction name as [|c name IH]; intros h; cbn [hash_from String.length]; [lia|].
  specialize (IH (hash_step h c)). unfold hash_step in *. pose proof (int32_bound (Z.shiftl (to_int32 h) 5)) as Hs.
  change (to_int32 (Z.shiftl (to_int32 h) 5)) with (shl5 h) in Hs.
  assert (0 <= Z.of_N (code c) <= 255)%Z as Hc.
  { unfold code. pose proof (N_ascii_bounded c). lia. }
  rewrite Nat2Z.inj_succ. lia.
Qed.

Lemma toggle_ids_elem s was ids x :
  x ∈ toggle_ids s was ids <-> if was then x ∈ ids /\ x <> s else x ∈ ids \/ x = s.
Proof.
  unfold toggle_ids. destruct was; [|rewrite elem_of_app, list_elem_of_singleton; done].
  rewrite !list_elem_of_In, List.filter_In, negb_true_iff, bool_decide_eq_false. done.
Qed.

(** What the backend stores for a flight's server. *)
Definition stored_now (f : flight) : bool := match fl_answer f with Some true => negb (fl_was f) | _ => fl_was f end.

(** The pending servers are those with one flight each; away from them the
    dialog shows what is stored, and a flight knows both sides. *)
Record agrees (d : dialog) : Prop := {
  ag_one : NoDup (fl_server <$> flights d);
  ag_pending : forall s, s ∈ pending d <-> s ∈ fl_server <$> flights d;
  ag_quiet : forall s, s ∉ pending d -> (s ∈ serverIds d <-> s ∈ stored d);
  ag_flight : forall f, f ∈ flights d ->
    (fl_server f ∈ serverIds d <-> fl_was f = true) /\ (fl_server f ∈ stored d <-> stored_now f = true) }.

Lemma serve_effect team s was st st' :
  serve team (toggle_call team s was) st = Some st' ->
  forall x, x ∈ st' <-> if decide (x = s) then was = false else x ∈ st.
Proof.
  intros H x. destruct was; cbn in H; rewrite (bool_decide_true (team = team)) in H by done; cbn [andb] in H;
    case_bool_decide; simplify_eq/=; destruct (decide (x = s)); set_solver.
Qed.

Lemma agrees_click s d : agrees d -> agrees (click s d).
Proof.
  intros [H1 H2 H3 H4]. unfold click. case_bool_decide as Hp; [done|].
  split; cbn [flights pending serverIds stored].
  - rewrite fmap_app. apply NoDup_app. split_and!; [done| |apply NoDup_singleton].
    intros x Hx Hs. apply list_elem_of_singleton in Hs as ->. cbn in Hp. by rewrite H2 in Hp.
  - intros x. rewrite fmap_app, elem_of_app, elem_of_union, elem_of_singleton, H2. cbn.
    rewrite list_elem_of_singleton. tauto.
  - set_solver.
  - intros f. rewrite elem_of_app, list_elem_of_singleton. intros [Hf| ->]; [by apply H4|]. cbn.
    unfold assigned. rewrite !bool_decide_eq_true. specialize (H3 s Hp). tauto.
Qed.

(** Answering a waiting flight, with the stored rows changed at its server only. *)
Lemma agrees_answer d l1 l2 s was ok st' :
  agrees d -> flights d = l1 ++ mkFlight s was None :: l2 ->
  (forall x, x <> s -> (x ∈ st' <-> x ∈ stored d)) ->
  (s ∈ st' <-> stored_now (mkFlight s was (Some ok)) = true) ->
  agrees (mkDialog (serverIds d) (pending d) (l1 ++ mkFlight s was (Some ok) :: l2) st').
Proof.
  intros [H1 H2 H3 H4] Hf Hst Hs. rewrite Hf in *.
  assert (fl_server <$> (l1 ++ mkFlight s was (Some ok) :: l2) = fl_server <$> (l1 ++ mkFlight s was None :: l2)) as E
    by by rewrite !fmap_app.
  split; cbn [flights pending serverIds stored]; rewrite ?E; try done.
  - intros x Hx. rewrite Hst; [by apply H3|]. intros ->. apply Hx, H2. rewrite fmap_app. set_solver.
  - rewrite fmap_app, fmap_cons in H1. apply NoDup_app in H1 as (_ & Hl1 & Hl2). apply NoDup_cons in Hl2 as [Hl2 _].
    intros f. rewrite elem_of_app, elem_of_cons. intros [Hl|[-> |Hl]].
    + rewrite Hst; [apply H4; set_solver|]. intros E'. apply (Hl1 (fl_server f)); [apply list_elem_of_fmap; eauto|].
      rewrite E'. set_solver.
    + split; [|done]. apply (H4 (mkFlight s was None)). set_solver.
    + rewrite Hst; [apply H4; set_solver|]. intros E'. apply Hl2. cbn. rewrite <- E'. apply list_elem_of_fmap. eauto.
Qed.

Lemma agrees_settle d l1 l2 s was ok :
  agrees d -> flights d = l1 ++ mkFlight s was (Some ok) :: l2 ->
  agrees (settle ok (mkFlight s was (Some ok)) (l1 ++ l2) d).
Proof.
  intros [H1 H2 H3 H4] Hf. rewrite Hf in *.
  rewrite fmap_app, fmap_cons in H1. cbn in H1.
  assert (s ∉ fl_server <$> (l1 ++ l2) /\ NoDup (fl_server <$> (l1 ++ l2))) as [Hs Hn].
  { rewrite fmap_app. apply NoDup_app in H1 as (? & Hl1 & Hl2). apply NoDup_cons in Hl2 as [? ?].
    split; [set_solver|]. apply NoDup_app. set_solver. }
  destruct (H4 (mkFlight s was (Some ok))) as [Hw Hst]; [set_solver|]. cbn in Hw, Hst.
  assert (forall x, x ∈ serverIds (settle ok (mkFlight s was (Some ok)) (l1 ++ l2) d) <->
            if decide (x = s) then x ∈ stored d else x ∈ serverIds d) as Hids.
  { intros x. cbn. destruct ok; [rewrite toggle_ids_elem|]; destruct (decide (x = s)) as [->|?]; cbn in Hst;
      destruct was; cbn in *; tauto || naive_solver. }
  split; cbn [flights pending stored settle]; [done| | |].
  - intros x. rewrite elem_of_difference, elem_of_singleton, H2, !fmap_app, fmap_cons. cbn. set_solver.
  - intros x Hx. rewrite Hids. cbn in Hx. destruct (decide (x = s)) as [->|?]; [done|]. apply H3. set_solver.
  - intros f Hl. rewrite Hids. assert (fl_server f <> s) as Hne.
    { intros <-. apply Hs, list_elem_of_fmap. eauto. }
    destruct (decide (fl_server f = s)); [done|]. apply H4. set_solver.
Qed.

Lemma agrees_step team d d' : agrees d -> step team d d' -> agrees d'.
Proof.
  intros Ha Hs. destruct Hs as [s d|d l1 l2 s was st' Hf Hst|d l1 l2 s was Hf|d l1 l2 s was ok Hf].
  - by apply agrees_click.
  - pose proof (serve_effect _ _ _ _ _ Hst) as He. eapply agrees_answer; [done|done| |].
    + intros x Hx. rewrite He. by destruct (decide (x = s)).
    + rewrite He. destruct (decide (s = s)); [|done]. cbn. by rewrite negb_true_iff.
  - eapply agrees_answer; [done|done|done|]. cbn.
    destruct (ag_flight d Ha (mkFlight s was None)) as [_ H]; [rewrite Hf; set_solver|done].
  - by apply agrees_settle.
Qed.

Lemma agrees_steps team d d' : rtc (step team) d d' -> agrees d -> agrees d'.
Proof. induction 1; eauto using agrees_step. Qed.

Lemma agrees_opened ids st : (forall s, s ∈ ids <-> s ∈ st) -> agrees (opened ids st).
Proof. intros H. split; cbn; [constructor|set_solver|done|set_solver]. Qed.

(** A server the backend stores and the dialog does not know of. *)
Record stuck (s : string) (d : dialog) : Prop := {
  sk_shown : s ∉ serverIds d;
  sk_stored : s ∈ stored d;
  sk_flights : forall f, f ∈ flights d -> fl_server f = s -> fl_was f = false /\ fl_answer f <> Some true }.

Lemma stuck_serve team s x was st st' :
  s ∈ st -> (x = s -> was = false) -> serve team (toggle_call team x was) st = Some st' -> x <> s /\ s ∈ st'.
Proof.
  intros Hs Hw H. destruct (decide (x = s)) as [->|Hne].
  - rewrite Hw in H by done. cbn in H. rewrite !bool_decide_true in H by done. done.
  - split; [done|]. apply (serve_effect _ _ _ _ _ H). by destruct (decide (s = x)).
Qed.

Lemma stuck_settle s d l1 l2 f ok :
  stuck s d -> flights d = l1 ++ f :: l2 -> (ok = true -> fl_answer f = Some true) ->
  stuck s (settle ok f (l1 ++ l2) d).
Proof.
  intros [H1 H2 H3] Hf Hok. split; cbn; [|done|].
  - destruct ok; [|done]. rewrite toggle_ids_elem.
    assert (fl_server f <> s). { intros E. destruct (H3 f) as [_ Hn]; [rewrite Hf; set_solver|done|]. by apply Hn, Hok. }
    destruct (fl_was f); [tauto|]. intros [?|?]; congruence.
  - intros g Hg. apply H3. rewrite Hf. set_solver.
Qed.

Lemma stuck_step team s d d' : stuck s d -> step_lossy team d d' -> stuck s d'.
Proof.
  intros Hk Hs. pose proof Hk as [H1 H2 H3]. destruct Hs as [d d' Hs|d l1 l2 f Hf]; [|by eapply stuck_settle].
  destruct Hs as [x d|d l1 l2 x was st' Hf Hst|d l1 l2 x was Hf|d l1 l2 x was ok Hf].
  - unfold click. case_bool_decide; [done|]. split; cbn; [done|done|]. intros f.
    rewrite elem_of_app, list_elem_of_singleton. intros [Hf| ->]; [by apply H3|]. cbn. intros ->.
    split; [by apply bool_decide_eq_false|done].
  - edestruct (stuck_serve team s x was) as [Hne Hin]; [done| |done|].
    { intros ->. apply (H3 (mkFlight s was None)); [rewrite Hf; set_solver|done]. }
    split; cbn; [done|done|]. intros f. rewrite elem_of_app, elem_of_cons.
    intros [?|[-> |?]]; [apply H3; rewrite Hf; set_solver|done|apply H3; rewrite Hf; set_solver].
  - split; cbn; [done|done|]. intros f. rewrite elem_of_app, elem_of_cons.
    intros [?|[-> |?]] E; [apply H3; [rewrite Hf; set_solver|done]| |apply H3; [rewrite Hf; set_solver|done]].
    cbn in *. split; [|done]. apply (H3 (mkFlight x was None)); [rewrite Hf; set_solver|done].
  - eapply stuck_settle; [done|done|]. by intros ->.
Qed.
End TeamFacts.

(** The colour of a team is always one of the six, and on names far longer than
    a team name may be the hash stays where Numbers are exact. *)
Theorem team_color_defined name :
  (exists c, Teams.teamColor name = Some c /\ c ∈ Teams.TEAM_COLORS) /\
  ((String.length name <= 200)%nat -> (Z.abs (Teams.hash_from 0 name) < 2 ^ 53)%Z).
Proof.
  split.
  - unfold Teams.teamColor. set (i := Z.to_nat _).
    assert (i < length Teams.TEAM_COLORS)%nat as Hi.
    { unfold i. pose proof (Z.rem_bound_pos (Z.abs (Teams.hash_from 0 name)) (Z.of_nat (length Teams.TEAM_COLORS))).
      cbn [length Teams.TEAM_COLORS] in *. lia. }
    apply lookup_lt_is_Some_2 in Hi as [c Hc]. exists c. split; [done|]. by eapply list_elem_of_lookup_2.
  - intros Hl. pose proof (TeamFacts.hash_bound name 0). lia.
Qed.

(** Every member is counted once: in the count of their team, or among the
    members without one. *)
Theorem team_counts_partition members :
  (total (Teams.memberCountByTeam members) + Z.of_nat (Teams.unassignedMembers members) = Z.of_nat (length members))%Z /\
  (forall t n, (t, n) ∈ Teams.memberCountByTeam members <->
     (0 < n)%Z /\ n = Z.of_nat (length (filter (fun m => Teams.member_team m = Some t) members))).
Proof.
  unfold Teams.memberCountByTeam. split; [|intros t n; apply tally_elem]. rewrite tally_total.
  unfold Teams.unassignedMembers. induction members as [|m l IH]; [done|]. cbn [List.filter length].
  unfold Teams.member_team in *. rewrite filter_cons. destruct (truthy (om_team_id m)) eqn:E; cbn [negb].
  - rewrite decide_True by (destruct (om_team_id m); [done|discriminate]). cbn [length]. lia.
  - rewrite decide_False by (intros []; done). cbn [length]. lia.
Qed.

(** [C15] The dialog that assigns servers refines the backend's table: however its
    requests, their answers and further clicks interleave, a server that is not
    pending is shown assigned exactly when the backend stores it. *)
Theorem toggles_refine_store team ids st d :
  (forall s, s ∈ ids <-> s ∈ st) ->
  rtc (Teams.step team) (Teams.opened ids st) d ->
  forall s, s ∉ Teams.pending d -> Teams.assigned d s = bool_decide (s ∈ Teams.stored d).
Proof.
  intros Ho Hs s Hp. unfold Teams.assigned. apply bool_decide_ext.
  apply (TeamFacts.ag_quiet d); [|done]. by apply (TeamFacts.agrees_steps team _ _ Hs), TeamFacts.agrees_opened.
Qed.

(** A lost answer is permanent: once an assignment was stored and its answer
    lost, the dialog shows the server as unassigned whatever is clicked next,
    because every further click asks for the assignment again. *)
Theorem lost_answer_sticks team d d' s :
  s ∉ Teams.serverIds d -> s ∈ Teams.stored d -> Teams.flights d = [] ->
  rtc (Teams.step_lossy team) d d' ->
  Teams.assigned d' s = false /\ s ∈ Teams.stored d'.
Proof.
  intros H1 H2 H3 Hs. assert (TeamFacts.stuck s d) as Hk by (split; [done|done|]; rewrite H3; set_solver).
  clear H1 H2 H3. induction Hs as [d|d d1 d' H _ IH]; [|by eauto using TeamFacts.stuck_step].
  destruct Hk as [? ? _]. split; [by apply bool_decide_eq_false|done].
Qed.

(** ** Roles *)

(** Hiding the platform archetype is exact: other administrators get the same
    list without it, and the seeding button never creates a role named after
    it. *)
Theorem super_admin_hidden existing :
  (forall a, a ∈ Roles.visibleArchetypes false <-> a ∈ Roles.ROLE_ARCHETYPES /\ Roles.key a <> "super-admin") /\
  (forall a, a ∈ Roles.missing existing false -> Roles.label a <> "Platform Super Admin").
Proof.
  assert (forall a, a ∈ Roles.visibleArchetypes false <-> a ∈ Roles.ROLE_ARCHETYPES /\ Roles.key a <> "super-admin") as H.
  { intros a. unfold Roles.visibleArchetypes. rewrite !list_elem_of_In, List.filter_In.
    by rewrite negb_true_iff, bool_decide_eq_false. }
  split; [exact H|]. intros a. unfold Roles.missing. rewrite list_elem_of_In, List.filter_In, <- list_elem_of_In, H.
  intros [[Ha Hk] _] Hl. unfold Roles.ROLE_ARCHETYPES in Ha. repeat (apply elem_of_cons in Ha as [->|Ha]; [done|]).
  by apply elem_of_nil in Ha.
Qed.

Lemma try_request_ok {A B} (m : M (AxiosError + A)) (ok : A -> B) failed text w :
  exists w', (exists a, try_request m ok failed text w = (Ok (ok a), w')) \/
             (exists d, try_request m ok failed text w = (Ok (failed d), w')).
Proof.
  unfold try_request, bind, try_catch, ret. destruct (m w) as [[[e|a]|x] w1]; eauto.
Qed.

Lemma try_request_refused {A B} (m : M (AxiosError + A)) (ok : A -> B) failed text w :
  (exists w', (exists e, m w = (Ok (inl e), w')) \/ (exists x, m w = (Err x, w'))) ->
  exists d w', try_request m ok failed text w = (Ok (failed d), w').
Proof.
  unfold try_request, bind, try_catch, ret. intros (w' & [[e ->]|[x ->]]); eauto.
Qed.

Lemma seed_one_bound dispatch a n w :
  validates_roles dispatch ->
  exists k w', Roles.seed_one dispatch n a w = (Ok (n + k), w') /\
    k <= if Schema.RoleCreate_accepts (Roles.label a) then 1 else 0.
Proof.
  intros Hd. unfold Roles.seed_one. destruct (Schema.RoleCreate_accepts (Roles.label a)) eqn:E.
  - destruct (try_request_ok (createRoleV1RolesPost dispatch (Roles.role_body (Roles.label a)) None)
               (fun _ => S n) (fun _ => n) "" w) as (w' & [[? ->]|[? ->]]).
    + exists 1, w'. rewrite Nat.add_1_r. split; [done|lia].
    + exists 0, w'. rewrite Nat.add_0_r. split; [done|lia].
  - edestruct (try_request_refused (createRoleV1RolesPost dispatch (Roles.role_body (Roles.label a)) None)
               (fun _ => S n) (fun _ => n) "" w) as (? & w' & ->).
    + apply axiosInstance_refused. intros df c v Hu Hm Hdat. by apply (Hd df c v _ Hu Hm Hdat).
    + exists 0, w'. rewrite Nat.add_0_r. split; [done|lia].
Qed.

Definition accepted (l : list Roles.RoleArchetype) : nat :=
  length (List.filter (fun a => Schema.RoleCreate_accepts (Roles.label a)) l).

Lemma seed_loop_bound dispatch l n w :
  validates_roles dispatch ->
  exists k w', Roles.seed_loop dispatch l n w = (Ok (n + k), w') /\ k <= accepted l.
Proof.
  intros Hd. revert n w. induction l as [|a l IH]; intros n w; cbn [Roles.seed_loop].
  - exists 0, w. rewrite Nat.add_0_r. split; [done|]. unfold accepted. cbn. lia.
  - destruct (seed_one_bound dispatch a n w Hd) as (k & w1 & H1 & Hk). unfold bind. rewrite H1.
    destruct (IH (n + k) w1) as (k2 & w2 & H2 & Hk2). rewrite H2. exists (k + k2), w2.
    rewrite Nat.add_assoc. split; [done|]. unfold accepted in *. cbn [List.filter].
    destruct (Schema.RoleCreate_accepts _); cbn [length]; lia.
Qed.

Lemma filter_length_mono {A} (f g : A -> bool) l :
  length (List.filter f (List.filter g l)) <= length (List.filter f l).
Proof.
  induction l as [|x l IH]; [done|]. cbn. destruct (g x) eqn:E; cbn; destruct (f x); cbn; lia.
Qed.

(** The standard roles cannot be seeded: the backend takes letters, digits,
    hyphens and underscores in a role's name, five of the six labels contain
    spaces, and the loop ignores the refusals; at most one role is created
    whatever the button announces. *)
Theorem seeding_creates_at_most_one dispatch existing admin m w :
  validates_roles dispatch ->
  Roles.handleSeed dispatch existing admin = Some m ->
  exists n w', m w = (Ok [Invalidate "/v1/roles"; ToastSuccess (Roles.seed_toast n)], w') /\ n <= 1.
Proof.
  intros Hd Hm. assert (accepted (Roles.missing existing admin) <= 1) as Hl.
  { unfold accepted, Roles.missing. etransitivity; [apply filter_length_mono|]. by destruct admin. }
  unfold Roles.handleSeed in Hm. destruct (Roles.missing existing admin) as [|a l] eqn:E; [done|].
  apply Some_inj in Hm as <-. destruct (seed_loop_bound dispatch (a :: l) 0 w Hd) as (k & w1 & H1 & Hk).
  unfold bind at 1. rewrite H1.
  exists k, w1. split; [done|lia].
Qed.

(** ** Witnesses *)
Definition demo_member : OrgMemberView := mkOrgMemberView "m1" "t" "auth0|abc" auditor (Some "team-1") "" "".

Lemma untouched_edit_is_identity_witness :
  Members.apply_update demo_member (Members.edit_body (Members.edit_initial (Some demo_member))) = demo_member.
Proof. apply untouched_edit_is_identity. done. Defined.

Lemma confirm_needs_typing_witness :
  Confirm.Type_ "core-team" ∈ [Confirm.Click; Confirm.Type_ "core-team"; Confirm.Click].
Proof.
  apply (confirm_needs_typing (typed_name "Core  Team") _ (Confirm.mkState false "core-team" false)); [done|done|].
  vm_compute. by left.
Defined.

Definition demo_dialog : Teams.dialog := Teams.opened ["s1"] {["s1"]}.

(** Two toggles whose answers arrive in the reverse order. *)
Lemma toggles_refine_store_witness : exists d,
  rtc (Teams.step "t") demo_dialog d /\ Teams.pending d = ∅ /\
  Teams.assigned d "s2" = bool_decide ("s2" ∈ Teams.stored d) /\ Teams.serverIds d = ["s2"].
Proof.
  assert (exists d, rtc (Teams.step "t") demo_dialog d /\ d = Teams.mkDialog ["s2"] ∅ [] {["s2"]}) as (d & Hs & ->).
  { eexists. split.
    eapply rtc_l; [apply (Teams.step_click "t" "s1")|].
    eapply rtc_l; [apply (Teams.step_click "t" "s2")|].
    eapply rtc_l; [eapply (Teams.step_served "t" _ [Teams.mkFlight "s1" true None] [] "s2" false); reflexivity|].
    eapply rtc_l; [eapply (Teams.step_served "t" _ [] [Teams.mkFlight "s2" false (Some true)] "s1" true); reflexivity|].
    eapply rtc_l; [eapply (Teams.step_answered "t" _ [Teams.mkFlight "s1" true (Some true)] [] "s2" false true); reflexivity|].
    eapply rtc_l; [eapply (Teams.step_answered "t" _ [] [] "s1" true true); reflexivity|].
    apply rtc_refl. vm_compute. reflexivity. }
  eexists. split; [exact Hs|]. split; [reflexivity|]. split; [|reflexivity].
  refine (toggles_refine_store "t" ["s1"] {["s1"]} _ _ Hs "s2" _); [set_solver|]. vm_compute. done.
Defined.

Lemma lost_answer_sticks_witness :
  Teams.assigned (Teams.click "s1" (Teams.mkDialog [] ∅ [] {["s1"]})) "s1" = false.
Proof.
  apply (lost_answer_sticks "t" (Teams.mkDialog [] ∅ [] {["s1"]}) _ "s1"); [set_solver|set_solver|done|].
  apply rtc_once, Teams.lossy_step, Teams.step_click.
Defined.

Lemma seeding_creates_at_most_one_witness : exists m,
  Roles.handleSeed refuse_all [] false = Some m /\
  exists n w', m (demo_world ∅ []) = (Ok [Invalidate "/v1/roles"; ToastSuccess (Roles.seed_toast n)], w') /\ n <= 1.
Proof.
  eexists. split; [reflexivity|]. eapply (seeding_creates_at_most_one refuse_all [] false); [|reflexivity].
  intros df c v n _ _ _ _. eexists _, v. reflexivity.
Defined.
