(* ===== verification/Onboarding.v ===== *)
(** * The onboarding wizard: web/src/app/onboarding/page.tsx

    The six steps as a state machine over the page's state, which is also what
    the page keeps in [sessionStorage], together with the requests in flight; the
    step forms, their requests, the connection test and the summary.  The state is JSON, because a reload
    restores whatever the storage holds. *)

From Stdlib Require Import ZifyBool.
From S2P Require Import Prelude JsString JsUri Json Browser JsInt JsonParse AuthStore AxiosClient LoginForm ApiTypes ApiClient Servers Gateway PolicyBuilder.

(** ** Objects *)

(** [{...o, [k]: v}]; an [undefined] value reads and prints as an absent one. *)
Definition obj_set (k : string) (v : option json) (o : list (string * json)) : list (string * json) :=
  let rest := List.filter (fun kv => negb (bool_decide (kv.1 = k))) o in
  match v with
  | None => rest
  | Some j => if bool_decide (k ∈ o.*1) then map (fun kv => if bool_decide (kv.1 = k) then (k, j) else kv) o
              else o ++ [(k, j)]
  end.

(** The own properties a spread copies. *)
Fixpoint char_props (i : nat) (s : string) : list (string * json) :=
  match s with "" => [] | String c r => (pretty i, JStr (String c "")) :: char_props (S i) r end.

Definition spread (v : json) : list (string * json) :=
  match v with
  | JObj o => o
  | JArr l => imap (fun i x => (pretty i, x)) l
  | JStr s => char_props 0 s
  | _ => []
  end.

(** [{...v, k1: v1, ...}] *)
Definition patch (v : json) (ps : list (string * option json)) : json :=
  JObj (fold_left (fun o p => obj_set (p.1) (p.2) o) ps (spread v)).

Module Wizard.

(** ** State *)
Definition StepId : list string := ["welcome"; "org"; "server"; "policy"; "apikey"; "done"].
Definition Role : list string := ["org-admin"; "developer"; "security-auditor"].

Definition INITIAL_STATE : json :=
  JObj [("role", JNull); ("orgName", JStr ""); ("orgSlug", JStr ""); ("companySize", JStr ""); ("region", JStr "");
        ("createdServerId", JNull); ("createdServerSlug", JNull); ("createdApiKeyPlaintext", JNull);
        ("createdApiKeyName", JNull); ("policyCreated", JBool false)].

Record page := mkPage { step : json; ob : json }.

Definition initial_page : page := mkPage (JStr "welcome") INITIAL_STATE.

(** [ob.k] as a condition *)
Definition has (p : page) (k : string) : bool := SignIn.json_truthy (json_field k (ob p)).

(** [if (parsed.step) setStep(parsed.step); if (parsed.ob) setOb(parsed.ob)];
    reading a property of [null] throws, which is caught. *)
Definition restore (parsed : json) : page :=
  let pick k d := match json_field k parsed with
                  | Some v => if SignIn.json_truthy (Some v) then v else d
                  | None => d
                  end in
  mkPage (pick "step" (step initial_page)) (pick "ob" (ob initial_page)).

(** The mount effect; the read itself is outside the [try]. *)
Definition mount : M page :=
  saved <-- sessionStorage_getItem "pc_onboarding";
  ret (if truthy saved
       then from_option restore initial_page (saved ≫= JSON_parse)
       else initial_page).

Definition saved_text (p : page) : string := JSON_stringify (JObj [("step", step p); ("ob", ob p)]).

Definition save (p : page) : M unit := sessionStorage_setItem "pc_onboarding" (saved_text p).

(** [go]: the state is set before the save, which may throw; the flag says
    whether it returned. *)
Definition go (nextStep : string) (nextOb : json) : M (page * bool) :=
  let p := mkPage (JStr nextStep) nextOb in
  ok <-- try_catch (save p;;; ret true) (fun _ => ret false);
  ret (p, ok).

Definition updateOb (k : string) (v : json) (p : page) : page := mkPage (step p) (patch (ob p) [(k, Some v)]).

Inductive act := ToastSuccess (msg : string) | ToastError (msg : string).

(** A [go] at the end of a [try] whose [catch] shows [failed]. *)
Definition go_toast (acts : list act) (failed : string) (nextStep : string) (nextOb : json) : M (page * list act) :=
  r <-- go nextStep nextOb;
  ret (r.1, acts ++ if (r.2 : bool) then [] else [ToastError failed]).

(** ** Progress *)
Definition CHECKLIST : list string := ["org"; "server"; "policy"; "apikey"; "request"; "trace"; "invite"].

Definition completedSteps (p : page) : list string :=
  (if has p "orgName" then ["org"] else []) ++ (if has p "createdServerId" then ["server"] else [])
  ++ (if has p "policyCreated" then ["policy"] else []) ++ (if has p "createdApiKeyPlaintext" then ["apikey"] else []).

Definition allDone (p : page) : bool := 4 <=? length (completedSteps p).

(** [STEPS.findIndex((s) => s.id === current)]; [None] is [-1]. *)
Definition step_index (p : page) : option nat :=
  match step p with JStr s => fst <$> list_find (fun x => x = s) StepId | _ => None end.

(** ** The organisation step *)

(** [n.toLowerCase().replace(/[^a-z0-9]+/g, "-").replace(/^-+|-+$/g, "")] *)
Definition alnum (c : ascii) : bool :=
  let n := code c in ((97 <=? n) && (n <=? 122) || (48 <=? n) && (n <=? 57))%N.

Fixpoint dash_others (run : bool) (s : string) : string :=
  match s with
  | "" => ""
  | String c r =>
      if alnum c then String c (dash_others false r)
      else if run then dash_others true r else String "-" (dash_others true r)
  end.

Definition autoSlug (n : string) : string := strip_end "-" (strip_start "-" (dash_others false (toLowerCase n))).

Record org_form := mkOrg { o_name : string; o_slug : string; o_size : string; o_region : string }.

Definition text (v : option json) : string := match v with Some (JStr s) => s | _ => "" end.

Definition org_initial (p : page) : org_form :=
  mkOrg (text (json_field "orgName" (ob p))) (text (json_field "orgSlug" (ob p)))
    (text (json_field "companySize" (ob p))) (or_default "us-east-1" (text (json_field "region" (ob p)))).

(** The name's [onChange]: the slug follows the name until one has been saved. *)
Definition org_setName (p : page) (v : string) (f : org_form) : org_form :=
  mkOrg v (if has p "orgSlug" then o_slug f else autoSlug v) (o_size f) (o_region f).
Definition org_setSlug (v : string) (f : org_form) : org_form :=
  mkOrg (o_name f) (autoSlug v) (o_size f) (o_region f).

(** Both inputs are [required]. *)
Definition org_submittable (f : org_form) : bool :=
  negb (bool_decide (o_name f = "")) && negb (bool_decide (o_slug f = "")).

Definition org_handleNext (p : page) (f : org_form) : M (page * bool) :=
  go "server" (patch (ob p) [("orgName", Some (JStr (o_name f))); ("orgSlug", Some (JStr (o_slug f)));
                             ("companySize", Some (JStr (o_size f))); ("region", Some (JStr (o_region f)))]).

(** ** The server step *)
Record server_form := mkServer {
  s_name : string; s_slug : string; s_url : string; s_transport : string; s_auth : string;
  s_tokenEnvVar : string; s_healthPath : string }.

Definition server_initial : server_form := mkServer "" "" "" "streamable_http" "none" "" "/health".

Definition TRANSPORT_OPTIONS : list string := ["streamable_http"; "sse"; "websocket"; "stdio"; "custom"].
Definition AUTH_OPTIONS : list string := ["none"; "service_token"; "api_key"; "oauth2"; "basic"; "headers"].

(** [setName(v); if (!slug) setSlug(autoSlug(v))] *)
Definition server_setName (v : string) (f : server_form) : server_form :=
  mkServer v (if bool_decide (s_slug f = "") then autoSlug v else s_slug f) (s_url f) (s_transport f) (s_auth f)
    (s_tokenEnvVar f) (s_healthPath f).
Definition server_setSlug (v : string) (f : server_form) : server_form :=
  mkServer (s_name f) (autoSlug v) (s_url f) (s_transport f) (s_auth f) (s_tokenEnvVar f) (s_healthPath f).

(** A text typed at the end of an input, one key at a time: the input's value
    is what the state makes of the previous key. *)
Fixpoint type_keys (value : server_form -> string) (change : string -> server_form -> server_form) (keys : string)
    (f : server_form) : server_form :=
  match keys with
  | "" => f
  | String c r => type_keys value change r (change (value f +:+ String c "") f)
  end.

Definition server_body (f : server_form) : json :=
  JObj ([("name", JStr (s_name f)); ("slug", JStr (s_slug f)); ("upstream_url", JStr (s_url f))]
    ++ opt_prop "transport" (if bool_decide (s_transport f = "streamable_http") then Some (JStr "streamable_http") else None)
    ++ [("auth_mode", JStr (if bool_decide (s_auth f = "none") || bool_decide (s_auth f = "service_token")
                            then s_auth f else "none"));
        ("service_token_env_var", nullable_str (or_none (s_tokenEnvVar f)))]
    ++ opt_prop "health_check_path" (JStr <$> or_none (s_healthPath f))).

(** [url.replace(/\/$/, "")] *)
Fixpoint drop_last_slash (s : string) : string :=
  match s with
  | "" => ""
  | String c "" => if bool_decide (c = "/"%char) then "" else s
  | String c r => String c (drop_last_slash r)
  end.

Record TestResult := mkTest { t_ok : bool; t_latencyMs : Z; t_error : option string; t_tls : option bool }.

Definition test_url (f : server_form) : string :=
  drop_last_slash (s_url f) +:+ or_default "/health" (s_healthPath f).

Definition UNREACHABLE : string := "Could not reach server. Check the URL and ensure the server is running.".

Section handlers.
Context (dispatch : AxiosDefaults -> AxiosConfig -> M (AxiosError + AxiosResponse)).

(** [testConnection], which took [elapsed] milliseconds; [None] without a URL. *)
Definition testConnection (elapsed : Z) (f : server_form) : M (option TestResult) :=
  if bool_decide (s_url f = "") then ret None else
  let reached := mkTest true elapsed None (Some (startsWith (s_url f) "https")) in
  let lost := mkTest false elapsed (Some UNREACHABLE) None in
  try_catch
    (r <-- axiosClient_request dispatch (mkConfig (test_url f) "GET" ∅ None);
     ret (Some (match r with
                | inr _ => reached
                | inl e => match ae_response e with
                           | Some res => if (ax_status res =? 0)%Z then lost else reached
                           | None => lost
                           end
                end)))
    (fun _ => ret (Some lost)).

Definition SERVER_FAILED : string := "Failed to register server. Check the URL and try again.".

(** [try { result = await mutateAsync(...) } catch]: [None] is an exception. *)
Definition awaited (m : M (AxiosError + orval_response)) : M (option (AxiosError + orval_response)) :=
  try_catch (r <-- m; ret (Some r)) (fun _ => ret None).

(** [handleSubmit] after its [await], for the page [p0] it was called on and the
    page [p] there is by then: the handler closed over [p0]'s state.  [server.id]
    of a body that is [null] or absent throws. *)
Definition server_answer (p0 : page) (f : server_form) (r : option (AxiosError + orval_response)) (p : page)
    : M (page * list act) :=
  match r with
  | Some (inr res) =>
      match nullish (or_data res) with
      | Some server =>
          go_toast [ToastSuccess ("Server " +:+ quoted (s_name f) +:+ " registered")] SERVER_FAILED "policy"
            (patch (ob p0) [("createdServerId", json_field "id" server); ("createdServerSlug", json_field "slug" server)])
      | None => ret (p, [ToastError SERVER_FAILED])
      end
  | _ => ret (p, [ToastError SERVER_FAILED])
  end.

(** [handleSubmit] with nothing happening while it waits. *)
Definition server_handleSubmit (p : page) (f : server_form) : M (page * list act) :=
  r <-- awaited (createServerV1ServersPost dispatch (server_body f) None);
  server_answer p f r p.

(** "Use existing", shown when there is a server. *)
Definition use_existing (p : page) (existingServer : ServerView) : M (page * bool) :=
  go "policy" (patch (ob p) [("createdServerId", Some (JStr (ServerView_id existingServer)));
                             ("createdServerSlug", Some (JStr (ServerView_slug existingServer)))]).

(** ** The policy step *)
Record policy_form := mkPolicy {
  p_serverSlug : string; p_toolPattern : string; p_algorithm : RateLimitAlgorithm;
  p_limit : string; p_windowSec : string; p_burst : string }.

Definition policy_initial (p : page) (servers : list ServerView) : policy_form :=
  mkPolicy (match nullish (json_field "createdServerSlug" (ob p)) with
            | Some v => js_String v
            | None => default "" (ServerView_slug <$> head servers)
            end) "*" RateLimitAlgorithm_token_bucket "100" "60" "10".

(** [parseInt(s, 10)] in a body: NaN is written [null]. *)
Definition int_json (s : string) : json := match parseInt s with Some z => JNum z | None => JNull end.

Definition policy_body (f : policy_form) : json :=
  JObj [("server_pattern", nullable_str (or_none (p_serverSlug f)));
        ("tool_pattern", nullable_str (or_none (p_toolPattern f)));
        ("algorithm", JStr (RateLimitAlgorithm_value (p_algorithm f)));
        ("request_limit", int_json (p_limit f));
        ("window_seconds", int_json (p_windowSec f));
        ("burst_capacity", if bool_decide (p_burst f = "") then JNull else int_json (p_burst f))].

Definition POLICY_FAILED : string := "Failed to create policy".

Definition policy_answer (p0 : page) (r : option (AxiosError + orval_response)) (p : page) : M (page * list act) :=
  match r with
  | Some (inr _) =>
      go_toast [ToastSuccess "Rate limit policy created"] POLICY_FAILED "apikey"
        (patch (ob p0) [("policyCreated", Some (JBool true))])
  | _ => ret (p, [ToastError POLICY_FAILED])
  end.

Definition policy_handleSubmit (p : page) (f : policy_form) : M (page * list act) :=
  r <-- awaited (createPolicyV1RateLimitPoliciesPost dispatch (policy_body f) None);
  policy_answer p r p.

Definition policy_skip (p : page) : M (page * bool) := go "apikey" (patch (ob p) [("policyCreated", Some (JBool false))]).

(** ** The API key step *)
Definition ALL_SCOPES : list string := ["tools:list"; "tools:call"; "audit:read"; "keys:read"].

Definition toggleScope (s : string) (prev : list string) : list string :=
  if bool_decide (s ∈ prev) then List.filter (fun x => negb (bool_decide (x = s))) prev else prev ++ [s].

Definition key_body (keyName : string) (scopes : list string) : json :=
  JObj [("name", JStr keyName); ("scopes", JArr (JStr <$> scopes))].

Definition KEY_FAILED : string := "Failed to create API key".

(** The state and the saved text take the plaintext; the step stays. *)
Definition key_answer (p0 : page) (keyName : string) (r : option (AxiosError + orval_response)) (p : page)
    : M (page * list act) :=
  match r with
  | Some (inr res) =>
      match nullish (or_data res) with
      | Some resp =>
          let nextOb := patch (ob p0) [("createdApiKeyPlaintext", json_field "plaintext" resp);
                                       ("createdApiKeyName", Some (JStr keyName))] in
          ok <-- try_catch (save (mkPage (JStr "apikey") nextOb);;; ret true) (fun _ => ret false);
          ret (mkPage (step p) nextOb,
               if (ok : bool) then [ToastSuccess "API key created"] else [ToastError KEY_FAILED])
      | None => ret (p, [ToastError KEY_FAILED])
      end
  | _ => ret (p, [ToastError KEY_FAILED])
  end.

Definition key_handleCreate (p : page) (keyName : string) (scopes : list string) : M (page * list act) :=
  r <-- awaited (createApiKeyV1ApiKeysPost dispatch (key_body keyName scopes) None);
  key_answer p keyName r p.
End handlers.

(** The key the step shows instead of the form. *)
Definition created (p : page) : option json :=
  v ← json_field "createdApiKeyPlaintext" (ob p); if SignIn.json_truthy (Some v) then Some v else None.

Definition masked (plaintext : string) : string := stake 12 plaintext +:+ srepeat 24 "•".

(** ** The last step *)
Definition finish : M unit := sessionStorage_removeItem "pc_onboarding".

(** [ob.k ?? d] in the summary: label, value and tick. *)
Definition summary (p : page) (servers : list ServerView) (existingKeys : nat) : list (string * string * bool) :=
  let get k := nullish (json_field k (ob p)) in
  let str o d := match o with Some v => js_String v | None => d end in
  [("Organization", or_default "Default" (text (json_field "orgName" (ob p))), has p "orgName");
   ("MCP Server", str (get "createdServerSlug") (default "—" (ServerView_slug <$> head servers)),
    match get "createdServerId" with Some v => SignIn.json_truthy (Some v) | None => 0 <? length servers end);
   ("Rate Policy", if has p "policyCreated" then "Active" else "Not set", has p "policyCreated");
   ("API Key", str (get "createdApiKeyName") (if 0 <? existingKeys then "Existing" else "—"),
    match get "createdApiKeyPlaintext" with Some v => SignIn.json_truthy (Some v) | None => 0 <? existingKeys end)].
End Wizard.

(** ** The wizard as a machine on the page and the browser *)

(** A request of a step's form, with the page its handler closed over. *)
Inductive job :=
  | server_job (p0 : Wizard.page) (f : Wizard.server_form)
  | policy_job (p0 : Wizard.page) (f : Wizard.policy_form)
  | key_job (p0 : Wizard.page) (keyName : string) (scopes : list string).

(** [mc_pending]: the requests without an answer, as they were handed to
    Axios's dispatch. *)
Record machine := mkMachine {
  mc_page : Wizard.page; mc_pending : list (job * (AxiosDefaults * AxiosConfig)); mc_world : World }.

Section machine.
Context (dispatch : AxiosDefaults -> AxiosConfig -> M (AxiosError + AxiosResponse)).
Context (servers : list ServerView) (existingKeys : nat).

Import Wizard.

Definition job_op (j : job) : operation :=
  match j with
  | server_job _ f => Op_createServerV1ServersPost (server_body f)
  | policy_job _ f => Op_createPolicyV1RateLimitPoliciesPost (policy_body f)
  | key_job _ name scopes => Op_createApiKeyV1ApiKeysPost (key_body name scopes)
  end.

(** When the form can be submitted, and the page its handler sees.  The steps are
    components made anew by every render of the page, so that their submitting
    flag does not keep a form from being submitted twice. *)
Definition offered (p : page) (j : job) : Prop :=
  match j with
  | server_job p0 _ => p0 = p /\ step p = JStr "server"
  | policy_job p0 _ => p0 = p /\ step p = JStr "policy"
  | key_job p0 _ scopes => p0 = p /\ step p = JStr "apikey" /\ created p = None /\ scopes <> []
  end.

(** [axiosInstance] up to the dispatch, and from there. *)
Definition axios_send (op : operation) : M (AxiosDefaults * AxiosConfig) :=
  let init := op_init op None in
  w <-- get_world;
  c <-- request_interceptor (mkConfig (op_url op) (default "GET" (in_method init)) (in_headers init) (in_body init));
  ret (axiosClient w, c).

Definition axios_receive (sent : AxiosDefaults * AxiosConfig) : M (AxiosError + orval_response) :=
  r <-- dispatch (sent.1) (sent.2);
  match r with
  | inr r => ret (inr (mkOrval (ax_data r) (ax_status r) (ax_headers r)))
  | inl e => e <-- response_rejected e; ret (inl e)
  end.

Definition job_answer (j : job) (r : option (AxiosError + orval_response)) (p : page) : M (page * list act) :=
  match j with
  | server_job p0 f => server_answer p0 f r p
  | policy_job p0 _ => policy_answer p0 r p
  | key_job p0 name _ => key_answer p0 name r p
  end.

(** The controls of each step, which work while requests are pending, the
    submissions, the answers in any order, and the reload, which mounts the page
    again and forgets what is pending. *)
Inductive wstep : machine -> machine -> Prop :=
  | w_role r p l w :
      step p = JStr "welcome" -> r ∈ Role -> wstep (mkMachine p l w) (mkMachine (updateOb "role" (JStr r) p) l w)
  | w_start p l w p' b w' :
      step p = JStr "welcome" -> has p "role" = true -> go "org" (ob p) w = (Ok (p', b), w') ->
      wstep (mkMachine p l w) (mkMachine p' l w')
  | w_back prev p l w p' b w' :
      (step p, prev) ∈ [(JStr "org", "welcome"); (JStr "server", "org"); (JStr "policy", "server"); (JStr "apikey", "policy")] ->
      go prev (ob p) w = (Ok (p', b), w') -> wstep (mkMachine p l w) (mkMachine p' l w')
  | w_org f p l w p' b w' :
      step p = JStr "org" -> org_submittable f = true -> org_handleNext p f w = (Ok (p', b), w') ->
      wstep (mkMachine p l w) (mkMachine p' l w')
  | w_existing srv p l w p' b w' :
      step p = JStr "server" -> head servers = Some srv -> use_existing p srv w = (Ok (p', b), w') ->
      wstep (mkMachine p l w) (mkMachine p' l w')
  | w_skip p l w p' b w' :
      step p = JStr "policy" -> policy_skip p w = (Ok (p', b), w') -> wstep (mkMachine p l w) (mkMachine p' l w')
  | w_done p l w p' b w' :
      step p = JStr "apikey" -> (is_Some (created p) \/ 0 < existingKeys) ->
      go "done" (ob p) w = (Ok (p', b), w') -> wstep (mkMachine p l w) (mkMachine p' l w')
  | w_submit j p l w sent w' :
      offered p j -> axios_send (job_op j) w = (Ok sent, w') ->
      wstep (mkMachine p l w) (mkMachine p (l ++ [(j, sent)]) w')
  | w_refused j p l w x w1 p' acts w' :
      offered p j -> axios_send (job_op j) w = (Err x, w1) -> job_answer j None p w1 = (Ok (p', acts), w') ->
      wstep (mkMachine p l w) (mkMachine p' l w')
  | w_answer i j sent p l w r w1 p' acts w' :
      l !! i = Some (j, sent) -> awaited (axios_receive sent) w = (Ok r, w1) ->
      job_answer j r p w1 = (Ok (p', acts), w') ->
      wstep (mkMachine p l w) (mkMachine p' (delete i l) w')
  | w_reload p l w p' w' : mount w = (Ok p', w') -> wstep (mkMachine p l w) (mkMachine p' [] w').

(** A submission and its answer with nothing in between are the handler. *)
Definition job_handler (j : job) (p : page) : M (page * list act) :=
  match j with
  | server_job _ f => server_handleSubmit dispatch p f
  | policy_job _ f => policy_handleSubmit dispatch p f
  | key_job _ name scopes => key_handleCreate dispatch p name scopes
  end.
End machine.

(** ** Lemmas: objects *)
Module ObjFacts.

Lemma obj_get_none k o : k ∉ o.*1 -> obj_get k o = None.
Proof.
  induction o as [|[k' v] o IH]; [done|]. cbn. rewrite not_elem_of_cons. intros [H1 H2].
  rewrite IH by done. by rewrite bool_decide_false.
Qed.

Lemma obj_get_app k o k' v : k' ∉ o.*1 -> obj_get k (o ++ [(k', v)]) = if bool_decide (k = k') then Some v else obj_get k o.
Proof.
  intros H. induction o as [|[k0 v0] o IH]; cbn; [by case_bool_decide|].
  cbn in H. apply not_elem_of_cons in H as [H1 H2]. rewrite IH by done.
  destruct (bool_decide (k = k')) eqn:E; [|done]. done.
Qed.

Lemma obj_get_replace k k' v o :
  k' ∈ o.*1 ->
  obj_get k (map (fun kv => if bool_decide (kv.1 = k') then (k', v) else kv) o) =
  if bool_decide (k = k') then Some v else obj_get k o.
Proof.
  assert (forall o, obj_get k (map (fun kv => if bool_decide (kv.1 = k') then (k', v) else kv) o) =
            if bool_decide (k = k') then (if bool_decide (k' ∈ o.*1) then Some v else None) else obj_get k o) as H.
  { clear o. induction o as [|[k0 v0] o IH]; [by case_bool_decide|]. cbn [map obj_get fst].
    destruct (decide (k0 = k')) as [->|Hne].
    - rewrite (bool_decide_true (k' = k')) by done. cbn. rewrite IH.
      destruct (decide (k = k')) as [->|?].
      + rewrite !(bool_decide_true (k' = k')) by done. rewrite (bool_decide_true (k' ∈ k' :: _)) by set_solver.
        by destruct (bool_decide (k' ∈ o.*1)).
      + by rewrite !(bool_decide_false (k = k')) by done.
    - rewrite (bool_decide_false (k0 = k')) by done. cbn. rewrite IH.
      destruct (decide (k = k')) as [->|?].
      + rewrite !(bool_decide_true (k' = k')) by done. rewrite (bool_decide_false (k' = k0)) by congruence.
        destruct (decide (k' ∈ o.*1)).
        * by rewrite (bool_decide_true (k' ∈ o.*1)), (bool_decide_true (k' ∈ k0 :: _)) by set_solver.
        * by rewrite (bool_decide_false (k' ∈ o.*1)), (bool_decide_false (k' ∈ k0 :: _)) by set_solver.
      + by rewrite !(bool_decide_false (k = k')) by done. }
  intros Hin. rewrite H. by rewrite (bool_decide_true (k' ∈ _)).
Qed.

Lemma obj_get_filter k k' o :
  obj_get k (List.filter (fun kv => negb (bool_decide (kv.1 = k'))) o) = if bool_decide (k = k') then None else obj_get k o.
Proof.
  induction o as [|[k0 v0] o IH]; [by case_bool_decide|]. cbn [List.filter fst obj_get].
  destruct (decide (k0 = k')) as [->|Hne].
  - rewrite (bool_decide_true (k' = k')) by done. cbn [negb]. rewrite IH. case_bool_decide; [done|].
    by destruct (obj_get k o).
  - rewrite (bool_decide_false (k0 = k')) by done. cbn [negb obj_get]. rewrite IH.
    destruct (decide (k = k')) as [->|?]; [|by rewrite !(bool_decide_false (k = k')) by done].
    by rewrite (bool_decide_true (k' = k')), (bool_decide_false (k' = k0)) by congruence.
Qed.

Lemma obj_get_set k k' v o : obj_get k (obj_set k' v o) = if bool_decide (k = k') then v else obj_get k o.
Proof.
  unfold obj_set. destruct v as [v|]; [|apply obj_get_filter].
  case_bool_decide; [by apply obj_get_replace|by apply obj_get_app].
Qed.

(** The fields of a patched object. *)
Lemma patch_field k v ps :
  json_field k (patch v ps) =
  fold_left (fun r p => if bool_decide (k = p.1) then p.2 else r) ps (obj_get k (spread v)).
Proof.
  unfold patch. cbn [json_field]. generalize (spread v) as o. induction ps as [|[k' x] ps IH]; intros o; [done|].
  cbn [fold_left fst snd]. by rewrite IH, obj_get_set.
Qed.
End ObjFacts.

(** ** Lemmas: what requests leave in the tab's storage *)
Module FrameFacts.

Definition stored (k : string) (w : World) : option string := st_items (w_session w) !! k.

(** A transport that leaves the page's storage alone. *)
Definition keeps_storage (dispatch : AxiosDefaults -> AxiosConfig -> M (AxiosError + AxiosResponse)) : Prop :=
  forall df c w, w_session (dispatch df c w).2 = w_session w.

Lemma remove_frame k k' w : k <> k' -> stored k (sessionStorage_removeItem k' w).2 = stored k w.
Proof.
  intros H. unfold sessionStorage_removeItem, storage_remove, stored.
  destruct (w_window w && st_ok (w_session w)); [|done]. cbn. by rewrite lookup_delete_ne.
Qed.

Lemma rejected_frame k e w : k <> "portcullis_token" -> stored k (response_rejected e w).2 = stored k w.
Proof.
  intros Hk. unfold response_rejected. rewrite bind_get_world. destruct (ae_response e) as [r|]; [|done].
  destruct (_ && _); [|done]. rewrite !bind_attempt.
  rewrite <- (remove_frame k "portcullis_token" w Hk).
  generalize ((sessionStorage_removeItem "portcullis_token" w).2) as v. intros v.
  unfold bind, set_document_cookie. destruct (negb _); done.
Qed.

(** The request the transport saw, and the storage afterwards. *)
Lemma axios_frame dispatch k url options w :
  keeps_storage dispatch -> k <> "portcullis_token" ->
  stored k (axiosInstance dispatch url options w).2 = stored k w.
Proof.
  intros Hd Hk. unfold axiosInstance, axiosClient_request. set (c0 := mkConfig _ _ _ _).
  unfold bind, get_world. destruct (request_interceptor c0 w) as [[c|x] w1] eqn:E.
  - apply interceptor_target in E as (-> & _). specialize (Hd (axiosClient w) c w).
    destruct (dispatch (axiosClient w) c w) as [[[e|r]|x] w2]; cbn [snd] in Hd |- *; unfold stored in *;
      rewrite <- ?Hd; try done.
    pose proof (rejected_frame k e w2 Hk) as Hr. unfold stored in Hr. revert Hr.
    by destruct (response_rejected e w2) as [[?|?] w3].
  - cbn. assert (w1 = w) as ->; [|done]. clear Hd. revert E. unfold request_interceptor. rewrite bind_get_world.
    destruct (w_window w) eqn:Hw; [|by intros [=]]. cbn [negb].
    rewrite (bind_ok _ _ _ _ _ (session_read_token w Hw)).
    unfold bind, get_document_cookie, js_decodeURIComponent, ret, throw.
    repeat case_match; intros; simplify_eq/=; done.
Qed.

Lemma axios_answer dispatch url options w o w' :
  axiosInstance dispatch url options w = (Ok (inr o), w') ->
  exists df c v r, dispatch df c v = (Ok (inr r), w') /\ cf_url c = url /\
    cf_method c = default "GET" (in_method options) /\ or_data o = ax_data r.
Proof.
  unfold axiosInstance, axiosClient_request. set (c0 := mkConfig _ _ _ _).
  unfold bind, get_world. destruct (request_interceptor c0 w) as [[c|x] w1] eqn:E; [|done].
  apply interceptor_target in E as (-> & Hu & Hm & _).
  destruct (dispatch (axiosClient w) c w) as [[[e|r]|x] w2] eqn:Ed; try done.
  - by destruct (response_rejected e w2) as [[?|?] w3].
  - intros [= <- <-]. exists (axiosClient w), c, w, r. done.
Qed.
End FrameFacts.

(** A backend that gives every new server an id. *)
Definition issues_ids (dispatch : AxiosDefaults -> AxiosConfig -> M (AxiosError + AxiosResponse)) : Prop :=
  forall df c w r w', cf_url c = "/v1/servers" -> cf_method c = "POST" -> dispatch df c w = (Ok (inr r), w') ->
    SignIn.json_truthy (ax_data r ≫= json_field "id") = true.

(** A backend that shows every new key. *)
Definition issues_keys (dispatch : AxiosDefaults -> AxiosConfig -> M (AxiosError + AxiosResponse)) : Prop :=
  forall df c w r w', cf_url c = "/v1/api-keys" -> cf_method c = "POST" -> dispatch df c w = (Ok (inr r), w') ->
    SignIn.json_truthy (ax_data r ≫= json_field "plaintext") = true.

(** ** Lemmas: the order of the steps *)
Module OrderFacts.
Import Wizard ObjFacts FrameFacts.
Section order.
(** What else may have opened the last step. *)
Context (alt : Prop).

(** The fields a step relies on. *)
Definition needs (s : string) : list string :=
  if bool_decide (s = "welcome") then []
  else if bool_decide (s = "org") then ["role"]
  else if bool_decide (s = "server") then ["role"; "orgName"]
  else ["role"; "orgName"; "createdServerId"].

Record ordered (p : page) : Prop := {
  or_step : exists s, step p = JStr s /\ s ∈ StepId;
  or_obj : exists o, ob p = JObj o;
  or_needs : forall s k, step p = JStr s -> k ∈ needs s -> has p k = true;
  or_key : step p = JStr "done" -> has p "createdApiKeyPlaintext" = true \/ alt }.

Definition saved_ok (w : World) : Prop :=
  match stored "pc_onboarding" w with Some t => exists q, t = saved_text q /\ ordered q | None => True end.

Lemma restore_saved q : ordered q -> from_option restore initial_page (JSON_parse (saved_text q)) = q.
Proof.
  intros [(s & Hs & Hin) [o Ho] _ _]. unfold saved_text. rewrite parse_of_stringify. cbn [from_option].
  destruct q as [st b]. cbn in Hs, Ho. subst. unfold restore. cbn [step ob].
  change (json_field "step" _) with (Some (JStr s)). change (json_field "ob" _) with (Some (JObj o)).
  cbn [SignIn.json_truthy]. rewrite (bool_decide_false (s = "")); [done|].
  intros ->. unfold StepId in Hin. set_solver.
Qed.

Lemma mount_ordered w p w' : saved_ok w -> mount w = (Ok p, w') -> ordered p /\ saved_ok w'.
Proof.
  intros Hs. unfold mount, sessionStorage_getItem, storage_get, bind. destruct (_ && _); [|done].
  intros [= <- <-]. split; [|done]. unfold saved_ok, stored in Hs.
  assert (ordered initial_page) as Hi.
  { split; [exists "welcome"; split; [done|unfold StepId; set_solver]|by eexists| |done].
    intros s k [= <-] Hk. cbn in Hk. set_solver. }
  destruct (st_items (w_session w) !! "pc_onboarding") as [t|]; cbn [truthy]; [|done].
  destruct Hs as (q & -> & Hq). case_bool_decide; [done|]. cbn [negb mbind option_bind].
  by rewrite restore_saved.
Qed.

(** A save leaves the storage with the page, or as it was. *)
Lemma save_ok p w r w' :
  ordered p -> saved_ok w ->
  try_catch (save p;;; ret true) (fun _ => ret false) w = (r, w') -> saved_ok w'.
Proof.
  intros Hp Hw. unfold try_catch, save, sessionStorage_setItem, storage_set, bind, ret.
  destruct (_ && _); [|by intros [= <- <-]]. destruct (st_quota _); [|by intros [= <- <-]].
  intros [= <- <-]. unfold saved_ok, stored. cbn. rewrite lookup_insert_eq. eauto.
Qed.

Lemma go_ordered s b w p' f w' :
  ordered (mkPage (JStr s) b) -> saved_ok w -> go s b w = (Ok (p', f), w') -> ordered p' /\ saved_ok w'.
Proof.
  intros Hp Hw. unfold go, bind. destruct (try_catch _ _ w) as [[ok|e] w1] eqn:E; [|done].
  intros [= <- <- <-]. split; [done|]. by eapply save_ok.
Qed.

Lemma go_toast_ordered acts t s b w p' a w' :
  ordered (mkPage (JStr s) b) -> saved_ok w -> go_toast acts t s b w = (Ok (p', a), w') -> ordered p' /\ saved_ok w'.
Proof.
  intros Hp Hw. unfold go_toast, bind. destruct (go s b w) as [[[q f]|e] w1] eqn:E; [|done].
  intros [= <- <- <-]. by eapply go_ordered in E.
Qed.

(** Setting some fields keeps the truth of the others. *)
Lemma has_patch p st ps k :
  (exists o, ob p = JObj o) ->
  has (mkPage st (patch (ob p) ps)) k =
  SignIn.json_truthy (fold_left (fun r q => if bool_decide (k = q.1) then q.2 else r) ps (json_field k (ob p))).
Proof. intros [o Ho]. unfold has. cbn [ob]. rewrite patch_field, Ho. done. Qed.

(** Moving to a step whose fields are there. *)
Lemma ordered_next p s ps :
  ordered p -> s ∈ StepId ->
  (forall k, k ∈ needs s -> has (mkPage (JStr s) (patch (ob p) ps)) k = true) -> s <> "done" ->
  ordered (mkPage (JStr s) (patch (ob p) ps)).
Proof.
  intros Hp Hs Hn Hd. split; cbn; [eauto|by eexists| |by intros [=]].
  intros s' k [= <-]. apply Hn.
Qed.

Lemma ordered_goto p s :
  ordered p -> s ∈ StepId -> (forall k, k ∈ needs s -> has p k = true) ->
  (s = "done" -> has p "createdApiKeyPlaintext" = true \/ alt) ->
  ordered (mkPage (JStr s) (ob p)).
Proof. intros Hp Hs Hn Hd. split; cbn; [eauto|apply Hp| |intros [= ->]; by apply Hd]. intros s' k [= <-]. apply Hn. Qed.
End order.
End OrderFacts.

(** Comparisons of closed strings. *)
Ltac closed_strings :=
  repeat match goal with
  | |- context [bool_decide (?a = ?b)] =>
      let v := eval vm_compute in (bool_decide (a = b)) in
      match v with true => idtac | false => idtac end;
      change (bool_decide (a = b)) with v
  end.

(** The fields a step needs, one by one. *)
Ltac each_need :=
  let k := fresh "k" in let Hk := fresh "Hk" in
  intros k Hk; unfold OrderFacts.needs in Hk; vm_compute in Hk;
  repeat (apply elem_of_cons in Hk as [->|Hk]); [..|by apply elem_of_nil in Hk].

Ltac in_steps := unfold Wizard.StepId; set_solver.

Module StepFacts.
Import Wizard FrameFacts OrderFacts.
Section steps.
Context (dispatch : AxiosDefaults -> AxiosConfig -> M (AxiosError + AxiosResponse)).
Context (servers : list ServerView) (existingKeys : nat).
Hypothesis Hkeep : keeps_storage dispatch.
Hypothesis Hids : issues_ids dispatch.
Hypothesis Hservers : forall srv, head servers = Some srv -> ServerView_id srv <> "".

(** The last step was opened by an existing key, or a backend hid a new one. *)
Notation alt := (0 < existingKeys \/ ~ issues_keys dispatch).
Notation ordered := (ordered alt).
Notation saved_ok := (saved_ok alt).

(** What an answer leaves in the storage, and where it comes from. *)
Lemma receive_frame sent w r w' :
  awaited (axios_receive dispatch sent) w = (r, w') -> saved_ok w -> saved_ok w'.
Proof.
  intros E Hw. assert (stored "pc_onboarding" w' = stored "pc_onboarding" w) as Hf.
  2: { unfold OrderFacts.saved_ok. by rewrite Hf. }
  revert E. unfold awaited, try_catch, axios_receive, bind. specialize (Hkeep (sent.1) (sent.2) w). unfold stored.
  destruct (dispatch (sent.1) (sent.2) w) as [[[e|o]|x] w1]; cbn [snd] in Hkeep; rewrite <- ?Hkeep;
    unfold ret; try (by intros [= _ <-]).
  pose proof (rejected_frame "pc_onboarding" e w1 ltac:(done)) as Hr. unfold stored in Hr. revert Hr.
  destruct (response_rejected e w1) as [[?|?] w2]; cbn [snd]; by intros Hr [= _ <-].
Qed.

Lemma receive_answer sent w o w' :
  awaited (axios_receive dispatch sent) w = (Ok (Some (inr o)), w') ->
  exists r, dispatch (sent.1) (sent.2) w = (Ok (inr r), w') /\ or_data o = ax_data r.
Proof.
  unfold awaited, try_catch, axios_receive, bind. destruct (dispatch (sent.1) (sent.2) w) as [[[e|r]|x] w1]; unfold ret; try done.
  - by destruct (response_rejected e w1) as [[?|?] w2].
  - intros [= <- <-]. by exists r.
Qed.

Lemma need p s k : ordered p -> step p = JStr s -> k ∈ needs s -> SignIn.json_truthy (json_field k (ob p)) = true.
Proof. intros Hp Hs Hk. exact (or_needs _ p Hp s k Hs Hk). Qed.

Lemma server_answer_ordered p0 f r p w p' acts w' :
  ordered p0 -> step p0 = JStr "server" -> ordered p -> saved_ok w ->
  (forall res, r = Some (inr res) -> SignIn.json_truthy (or_data res ≫= json_field "id") = true) ->
  server_answer p0 f r p w = (Ok (p', acts), w') -> ordered p' /\ saved_ok w'.
Proof.
  intros H0 Hs Hp Hw Hid. unfold server_answer.
  destruct r as [[e|res]|]; try (by intros [= <- <- <-]). specialize (Hid res eq_refl).
  destruct (or_data res) as [d|] eqn:Ed; [|done]. cbn [mbind option_bind] in Hid.
  assert (nullish (Some d) = Some d) as -> by (by destruct d).
  apply go_toast_ordered; [|done]. apply ordered_next; [done|in_steps| |done].
  each_need; rewrite has_patch by apply H0; cbn [fold_left fst snd]; closed_strings; cbn iota;
    [apply (need p0 "server"); [done..|set_solver]|apply (need p0 "server"); [done..|set_solver]|done].
Qed.

Lemma policy_patch p b :
  ordered p -> step p = JStr "policy" -> ordered (mkPage (JStr "apikey") (patch (ob p) [("policyCreated", Some (JBool b))])).
Proof.
  intros Hp Hs. apply ordered_next; [done|in_steps| |done].
  each_need; rewrite has_patch by apply Hp; cbn [fold_left fst snd]; closed_strings; cbn iota;
    apply (need p "policy"); done || set_solver.
Qed.

Lemma policy_answer_ordered p0 r p w p' acts w' :
  ordered p0 -> step p0 = JStr "policy" -> ordered p -> saved_ok w ->
  policy_answer p0 r p w = (Ok (p', acts), w') -> ordered p' /\ saved_ok w'.
Proof.
  intros H0 Hs Hp Hw. unfold policy_answer. destruct r as [[e|res]|]; try (by intros [= <- <- <-]).
  apply go_toast_ordered; [|done]. by apply policy_patch.
Qed.

(** No step needs more than the key step. *)
Lemma needs_most s k : s ∈ StepId -> k ∈ needs s -> k ∈ needs "apikey".
Proof.
  intros Hs Hk. unfold StepId in Hs. repeat (apply elem_of_cons in Hs as [->|Hs]); [..|by apply elem_of_nil in Hs];
    vm_compute in Hk |- *; set_solver.
Qed.

Lemma key_answer_ordered p0 name r p w p' acts w' :
  ordered p0 -> step p0 = JStr "apikey" -> ordered p -> saved_ok w ->
  (forall res, r = Some (inr res) -> SignIn.json_truthy (or_data res ≫= json_field "plaintext") = true \/ alt) ->
  key_answer p0 name r p w = (Ok (p', acts), w') -> ordered p' /\ saved_ok w'.
Proof.
  intros H0 Hs Hp Hw Hkey. unfold key_answer. destruct r as [[e|res]|]; try (by intros [= <- <- <-]).
  specialize (Hkey res eq_refl). destruct (or_data res) as [d|]; [|by intros [= <- <- <-]].
  destruct (nullish (Some d)) as [resp|] eqn:En; [|by intros [= <- <- <-]].
  assert (d = resp) as -> by (destruct d; cbn in En; congruence). cbn [mbind option_bind] in Hkey.
  set (ps := [("createdApiKeyPlaintext", json_field "plaintext" resp); _]).
  assert (forall st k, k ∈ needs "apikey" -> has (mkPage st (patch (ob p0) ps)) k = true) as Hn.
  { intros st. each_need; rewrite has_patch by apply H0; cbn [fold_left fst snd ps]; closed_strings; cbn iota;
      apply (need p0 "apikey"); done || set_solver. }
  assert (ordered (mkPage (JStr "apikey") (patch (ob p0) ps))) as Ho
    by (apply ordered_next; [done|in_steps|apply Hn|done]).
  unfold bind. destruct (try_catch _ _ w) as [[ok|e] w2] eqn:Es; [|done]. intros [= <- <- <-].
  split; [|by eapply save_ok]. pose proof Hp as [(s & Hst & Hin) _ _ _]. split; cbn.
  - by exists s.
  - by eexists.
  - intros s' k E Hk. assert (s' = s) as -> by congruence. apply Hn. by eapply needs_most.
  - intros _. destruct Hkey as [Hkey|]; [left|by right]. rewrite has_patch by apply H0.
    cbn [fold_left fst snd ps]. closed_strings. cbn iota. done.
Qed.

Lemma org_step p f w p' b w' :
  ordered p -> saved_ok w -> step p = JStr "org" -> org_submittable f = true ->
  org_handleNext p f w = (Ok (p', b), w') -> ordered p' /\ saved_ok w'.
Proof.
  intros Hp Hw Hs Hf. apply go_ordered; [|done]. apply ordered_next; [done|in_steps| |done].
  unfold org_submittable in Hf. apply andb_true_iff in Hf as [Hf _].
  each_need; rewrite has_patch by apply Hp; cbn [fold_left fst snd]; closed_strings; cbn iota.
  - by apply (need p "org"); [done..|set_solver].
  - done.
Qed.

Lemma existing_step srv p w p' b w' :
  ordered p -> saved_ok w -> step p = JStr "server" -> head servers = Some srv ->
  use_existing p srv w = (Ok (p', b), w') -> ordered p' /\ saved_ok w'.
Proof.
  intros Hp Hw Hs Hsrv. apply go_ordered; [|done]. apply ordered_next; [done|in_steps| |done].
  each_need; rewrite has_patch by apply Hp; cbn [fold_left fst snd]; closed_strings; cbn iota;
    [by apply (need p "server"); [done..|set_solver]|by apply (need p "server"); [done..|set_solver]|].
  cbn. by rewrite bool_decide_false by (by apply Hservers).
Qed.

Lemma back_step prev p w p' b w' :
  ordered p -> saved_ok w ->
  (step p, prev) ∈ [(JStr "org", "welcome"); (JStr "server", "org"); (JStr "policy", "server"); (JStr "apikey", "policy")] ->
  go prev (ob p) w = (Ok (p', b), w') -> ordered p' /\ saved_ok w'.
Proof.
  intros Hp Hw Hin. apply go_ordered; [|done]. rewrite !elem_of_cons, elem_of_nil in Hin.
  destruct Hin as [[= Hs ->]|[[= Hs ->]|[[= Hs ->]|[[= Hs ->]|[]]]]];
    (apply ordered_goto; [done|in_steps| |done]); each_need;
    (eapply need; [exact Hp|exact Hs|set_solver]).
Qed.

(** A pending request was made on an ordered page of its step. *)
Definition job_ok (q : job * (AxiosDefaults * AxiosConfig)) : Prop :=
  match q.1 with
  | server_job p0 _ => ordered p0 /\ step p0 = JStr "server"
  | policy_job p0 _ => ordered p0 /\ step p0 = JStr "policy"
  | key_job p0 _ _ => ordered p0 /\ step p0 = JStr "apikey"
  end /\ cf_url (q.2.2) = op_url (job_op (q.1)) /\ cf_method (q.2.2) = op_method (job_op (q.1)).

Lemma job_answer_ordered j r p w p' acts w' sent :
  job_ok (j, sent) -> ordered p -> saved_ok w ->
  (forall res, r = Some (inr res) -> exists v a w1, dispatch (sent.1) (sent.2) v = (Ok (inr a), w1) /\ or_data res = ax_data a) ->
  job_answer j r p w = (Ok (p', acts), w') -> ordered p' /\ saved_ok w'.
Proof.
  intros (Hj & Hu & Hm) Hp Hw Hr. destruct j as [p0 f|p0 f|p0 name scopes]; cbn [job_answer fst snd] in *; destruct Hj.
  - apply server_answer_ordered; [done..|]. intros res (v & a & w1 & Hd & ->)%Hr. by eapply Hids.
  - by apply policy_answer_ordered.
  - apply key_answer_ordered; [done..|]. intros res (v & a & w1 & Hd & ->)%Hr.
    destruct (SignIn.json_truthy (ax_data a ≫= json_field "plaintext")) eqn:E; [by left|]. right. right.
    intros Hk. by rewrite (Hk _ _ _ _ _ Hu Hm Hd) in E.
Qed.

Lemma offered_ok p j sent :
  ordered p -> offered p j -> cf_url (sent.2) = op_url (job_op j) -> cf_method (sent.2) = op_method (job_op j) ->
  job_ok (j, sent).
Proof. intros Hp Ho Hu Hm. split; [|done]. destruct j; cbn in *; destruct_and?; by subst. Qed.

Lemma send_spec op w r w' :
  axios_send op w = (r, w') ->
  w' = w /\ forall sent, r = Ok sent -> cf_url (sent.2) = op_url op /\ cf_method (sent.2) = op_method op.
Proof.
  unfold axios_send, bind, get_world. set (c0 := mkConfig _ _ _ _).
  assert (cf_method c0 = op_method op) as Hm by (by destruct op).
  destruct (request_interceptor c0 w) as [[c|x] w1] eqn:E.
  - apply interceptor_target in E as (-> & Hu & Hm' & _). intros [= <- <-]. split; [done|]. intros sent [= <-]. cbn [snd].
    split; [exact Hu|by rewrite Hm'].
  - intros [= <- <-]. split; [|done]. revert E. unfold request_interceptor. rewrite bind_get_world.
    destruct (w_window w) eqn:Hw; [|by intros [=]]. cbn [negb].
    rewrite (bind_ok _ _ _ _ _ (session_read_token w Hw)).
    unfold bind, get_document_cookie, js_decodeURIComponent, ret, throw.
    repeat case_match; intros; simplify_eq/=; done.
Qed.

Definition machine_ok (m : machine) : Prop :=
  ordered (mc_page m) /\ saved_ok (mc_world m) /\ Forall job_ok (mc_pending m).

Lemma page_ok p p' l w w' :
  (ordered p -> saved_ok w -> ordered p' /\ saved_ok w') -> machine_ok (mkMachine p l w) -> machine_ok (mkMachine p' l w').
Proof. intros H (Hp & Hw & Hl). destruct (H Hp Hw). done. Qed.

Lemma wstep_ok m m' : wstep dispatch servers existingKeys m m' -> machine_ok m -> machine_ok m'.
Proof.
  intros H Hm. destruct H; try (revert Hm; apply page_ok; intros Hp Hw;
    by eauto using back_step, org_step, existing_step).
  - revert Hm. apply page_ok. intros Hp Hw. split; [|done]. unfold updateOb.
    match goal with E : step p = _ |- _ => rewrite E end.
    apply ordered_next; [done|in_steps| |done]. each_need.
  - revert Hm. apply page_ok. intros Hp Hw. eapply go_ordered; [|done|done].
    apply ordered_goto; [done|in_steps| |done]. by each_need.
  - revert Hm. apply page_ok. intros Hp Hw. eapply go_ordered; [|done|done]. by apply policy_patch.
  - revert Hm. apply page_ok. intros Hp Hw. eapply go_ordered; [|done|done]. apply ordered_goto; [done|in_steps| |].
    + each_need; by apply (need p "apikey"); [done..|set_solver].
    + intros _. match goal with E : is_Some _ \/ _ |- _ => destruct E as [[v Hv]|?]; [left|by right; left] end.
      unfold created in Hv. unfold has. destruct (json_field _ (ob p)) as [x|]; [|done]. cbn in Hv. by case_match.
  - destruct Hm as (Hp & Hw & Hl). match goal with E : axios_send _ _ = _ |- _ => apply send_spec in E as [-> Hs] end.
    destruct (Hs _ eq_refl). split; [done|]. split; [done|]. apply Forall_app. split; [done|].
    constructor; [|constructor]. by eapply offered_ok.
  - destruct Hm as (Hp & Hw & Hl). match goal with E : axios_send _ _ = _ |- _ => apply send_spec in E as [-> _] end.
    set (sent := (mkDefaults "" 0 true, mkConfig (op_url (job_op j)) (op_method (job_op j)) ∅ None)).
    destruct (job_answer_ordered j None p w p' acts w' sent) as [? ?]; [by eapply offered_ok|done..|].
    done.
  - destruct Hm as (Hp & Hw & Hl). pose proof Hl as Hl2. rewrite Forall_lookup in Hl2.
    match goal with E : l !! i = _, A : awaited _ _ = _ |- _ =>
      pose proof (Hl2 _ _ E) as Hj; pose proof (receive_frame _ _ _ _ A Hw) as Hw1;
      destruct (job_answer_ordered j r p w1 p' acts w' sent Hj Hp Hw1) as [? ?]; [|done|] end.
    + intros res ->. match goal with A : awaited _ _ = _ |- _ => apply receive_answer in A as (a & Ha & ?) end. eauto.
    + split; [done|]. split; [done|]. cbn in Hl |- *. rewrite Forall_forall in Hl |- *.
      intros x ?%list_elem_of_delete_inv. by apply Hl.
  - destruct Hm as (Hp & Hw & Hl). cbn in Hw.
    match goal with E : mount _ = _ |- _ => destruct (mount_ordered _ _ _ _ Hw E) end. split; [done|]. split; [done|constructor].
Qed.

(** A submission whose answer comes first thing is the handler. *)
Lemma handler_split j p w :
  offered p j ->
  job_handler dispatch j p w =
  bind (awaited (bind (axios_send (job_op j)) (axios_receive dispatch))) (fun r => job_answer j r p) w.
Proof.
  intros Ho.
  assert (forall op v, bind (axios_send op) (axios_receive dispatch) v = op_send dispatch op None v) as Hs.
  { intros op v. rewrite op_send_spec. unfold axios_send, axios_receive, axiosInstance, axiosClient_request, bind, get_world.
    destruct (request_interceptor _ v) as [[c|x] v1]; [|done]. unfold ret. cbn [fst snd].
    destruct (dispatch (axiosClient v) c v1) as [[[e|r]|x] v2]; try done.
    by destruct (response_rejected e v2) as [[?|?] v3]. }
  assert (forall op, awaited (bind (axios_send op) (axios_receive dispatch)) w = awaited (op_send dispatch op None) w) as He.
  { intros op. specialize (Hs op w). revert Hs. generalize (bind (axios_send op) (axios_receive dispatch)).
    intros m Hs. unfold awaited, try_catch, bind. by rewrite Hs. }
  specialize (He (job_op j)). revert He. generalize (awaited (bind (axios_send (job_op j)) (axios_receive dispatch))).
  intros m He. unfold bind. rewrite He.
  destruct j; cbn in Ho; destruct_and?; subst; reflexivity.
Qed.
End steps.
End StepFacts.

(** ** Properties *)

(** [C16] The steps cannot be reached out of order: from a fresh tab, through any
    sequence of clicks, submissions, answers and reloads, clicks and further
    submissions while answers are awaited and answers out of order included, the
    page shows one of its six steps; past the first there is a role, past the
    second an organisation name, past the third a server (the backend gives new
    servers ids), and the last step is shown only with a new key or an existing
    one (unless the backend answers a key request without the key). *)
Theorem wizard_in_order dispatch servers existingKeys w0 p0 w1 p l w :
  FrameFacts.keeps_storage dispatch -> issues_ids dispatch ->
  (forall srv, head servers = Some srv -> ServerView_id srv <> "") ->
  FrameFacts.stored "pc_onboarding" w0 = None -> Wizard.mount w0 = (Ok p0, w1) ->
  rtc (wstep dispatch servers existingKeys) (mkMachine p0 [] w1) (mkMachine p l w) ->
  exists s, Wizard.step p = JStr s /\ s ∈ Wizard.StepId /\
    (forall k, k ∈ OrderFacts.needs s -> Wizard.has p k = true) /\
    (s = "done" -> Wizard.has p "createdApiKeyPlaintext" = true \/ 0 < existingKeys \/ ~ issues_keys dispatch).
Proof.
  intros Hk Hi Hs H0 Hm Hr. set (alt := 0 < existingKeys \/ ~ issues_keys dispatch).
  assert (OrderFacts.saved_ok alt w0) as Hw0 by (unfold OrderFacts.saved_ok; by rewrite H0).
  destruct (OrderFacts.mount_ordered alt _ _ _ Hw0 Hm) as [Hp Hw].
  assert (StepFacts.machine_ok dispatch existingKeys (mkMachine p l w)) as ([(s & Hst & Hin) _ Hn Hkey] & _).
  { assert (StepFacts.machine_ok dispatch existingKeys (mkMachine p0 [] w1)) as Hm0 by (split; [done|split; [done|constructor]]).
    clear -Hr Hm0 Hk Hi Hs. induction Hr as [|x y z Hxy _ IH]; [done|]. apply IH.
    by eapply (StepFacts.wstep_ok dispatch servers existingKeys). }
  exists s. split_and!; [done|done| |].
  - intros k. by apply Hn.
  - intros ->. by apply Hkey.
Qed.

Definition storage_works (w : World) : Prop :=
  w_window w = true /\ st_ok (w_session w) = true /\ st_quota (w_session w) = true.

Lemma save_eval p w :
  storage_works w ->
  exists w', Wizard.save p w = (Ok (), w') /\ FrameFacts.stored "pc_onboarding" w' = Some (Wizard.saved_text p) /\
    storage_works w'.
Proof.
  intros (Hw & Ho & Hq). unfold Wizard.save, sessionStorage_setItem, storage_set. rewrite Hw, Ho, Hq. cbn [andb].
  eexists. split; [done|]. unfold FrameFacts.stored. cbn. by rewrite lookup_insert_eq.
Qed.

Lemma mount_eval p w :
  storage_works w -> FrameFacts.stored "pc_onboarding" w = Some (Wizard.saved_text p) ->
  SignIn.json_truthy (Some (Wizard.step p)) = true -> SignIn.json_truthy (Some (Wizard.ob p)) = true ->
  Wizard.mount w = (Ok p, w).
Proof.
  intros (Hw & Ho & _) Hs H1 H2. unfold Wizard.mount, sessionStorage_getItem, storage_get, bind. rewrite Hw, Ho. cbn [andb].
  unfold FrameFacts.stored in Hs. rewrite Hs. cbn [truthy mbind option_bind].
  rewrite bool_decide_false by done. cbn [negb]. unfold Wizard.saved_text. rewrite parse_of_stringify. cbn [from_option].
  unfold Wizard.restore. change (json_field "step" _) with (Some (Wizard.step p)).
  change (json_field "ob" _) with (Some (Wizard.ob p)). cbn iota. rewrite H1, H2. by destruct p.
Qed.

(** Progress survives a reload: after any move the page that mounts again is
    the page that was left. *)
Theorem progress_survives_reload s o w :
  storage_works w -> s <> "" ->
  exists p w', Wizard.go s (JObj o) w = (Ok (p, true), w') /\ Wizard.mount w' = (Ok p, w').
Proof.
  intros Hw Hs. set (p := Wizard.mkPage (JStr s) (JObj o)). destruct (save_eval p w Hw) as (w' & Hsv & Hst & Hw').
  exists p, w'. split.
  - unfold Wizard.go, try_catch, bind. fold p. by rewrite Hsv.
  - apply mount_eval; [done|done| |done]. cbn. by rewrite bool_decide_false.
Qed.

(** The new key can be seen again: it is kept in the tab's storage in clear, so
    the step that says it will not be shown again shows it after every reload
    until the last button of the wizard. *)
Theorem new_key_stays_readable dispatch p name scopes w p' w' k :
  storage_works w' -> Wizard.step p = JStr "apikey" ->
  Wizard.key_handleCreate dispatch p name scopes w = (Ok (p', [Wizard.ToastSuccess "API key created"]), w') ->
  json_field "createdApiKeyPlaintext" (Wizard.ob p') = Some (JStr k) -> k <> "" ->
  Wizard.mount w' = (Ok p', w') /\ Wizard.created p' = Some (JStr k).
Proof.
  intros Hw Hs H Hk Hne. split.
  2: { unfold Wizard.created. rewrite Hk. cbn. by rewrite bool_decide_false. }
  unfold Wizard.key_handleCreate in H. unfold bind at 1 in H.
  destruct (Wizard.awaited _ w) as [[[[e|res]|]|e] w1]; try done. unfold Wizard.key_answer in H.
  destruct (nullish (or_data res)) as [resp|]; [|done]. unfold bind in H.
  destruct (try_catch _ _ w1) as [[[]|e] w2] eqn:E; try done. injection H as <- <-.
  rewrite Hs in *. apply mount_eval; [done| |done|done].
  unfold try_catch, Wizard.save, sessionStorage_setItem, storage_set, bind, ret in E.
  destruct (_ && _); [|done]. destruct (st_quota _); [|done]. injection E as <-.
  unfold FrameFacts.stored. cbn. by rewrite lookup_insert_eq.
Qed.

(** When the tab's storage refuses writes, a server that was registered is
    reported as registered and then as failed, while the page moves on. *)
Theorem registration_misreported dispatch p f w res server w1 :
  createServerV1ServersPost dispatch (Wizard.server_body f) None w = (Ok (inr res), w1) ->
  nullish (or_data res) = Some server -> st_quota (w_session w1) = false ->
  exists p', Wizard.server_handleSubmit dispatch p f w =
    (Ok (p', [Wizard.ToastSuccess ("Server " +:+ quoted (Wizard.s_name f) +:+ " registered");
              Wizard.ToastError Wizard.SERVER_FAILED]), w1) /\ Wizard.step p' = JStr "policy".
Proof.
  intros Hc Hd Hq. unfold Wizard.server_handleSubmit. eexists.
  unfold Wizard.awaited, bind at 1, try_catch at 1. unfold bind at 1.
  rewrite Hc. unfold ret at 1, Wizard.server_answer. rewrite Hd. unfold Wizard.go_toast, Wizard.go, Wizard.save, sessionStorage_setItem, storage_set, try_catch, bind, ret.
  rewrite Hq. by destruct (w_window w1 && st_ok (w_session w1)).
Qed.

(** The two forms' authentication and transport choices: every choice but a
    service token registers the server without authentication, and every
    transport is registered as streamable HTTP (or left to that default). *)
Theorem choices_not_sent f :
  let body := Wizard.server_body f in
  (json_field "auth_mode" body = Some (JStr "service_token") <-> Wizard.s_auth f = "service_token") /\
  (Wizard.s_auth f <> "service_token" -> json_field "auth_mode" body = Some (JStr "none")) /\
  (Wizard.s_transport f <> "streamable_http" -> json_field "transport" body = None).
Proof.
  cbv zeta. assert (forall k, json_field k (Wizard.server_body f) =
    if bool_decide (k = "health_check_path") then JStr <$> or_none (Wizard.s_healthPath f)
    else if bool_decide (k = "service_token_env_var") then Some (nullable_str (or_none (Wizard.s_tokenEnvVar f)))
    else if bool_decide (k = "auth_mode") then
      Some (JStr (if bool_decide (Wizard.s_auth f = "none") || bool_decide (Wizard.s_auth f = "service_token")
                  then Wizard.s_auth f else "none"))
    else if bool_decide (k = "transport") then
      (if bool_decide (Wizard.s_transport f = "streamable_http") then Some (JStr "streamable_http") else None)
    else if bool_decide (k = "upstream_url") then Some (JStr (Wizard.s_url f))
    else if bool_decide (k = "slug") then Some (JStr (Wizard.s_slug f))
    else if bool_decide (k = "name") then Some (JStr (Wizard.s_name f)) else None) as H.
  { intros k. unfold Wizard.server_body, or_none. cbn [json_field].
    destruct (bool_decide (Wizard.s_healthPath f = "")), (bool_decide (Wizard.s_transport f = "streamable_http"));
      cbn [fmap option_fmap option_map opt_prop app obj_get];
      repeat case_bool_decide; simplify_eq; done. }
  rewrite !H. closed_strings. cbn iota. split_and!.
  - destruct (decide (Wizard.s_auth f = "service_token")) as [E|E].
    + rewrite E. done.
    + split; [|done]. intros [= Ha]. destruct (_ || _) in Ha; [done|discriminate].
  - intros E. rewrite (bool_decide_false (_ = "service_token")), orb_false_r by done.
    case_bool_decide as E2; [by rewrite E2|done].
  - intros E. by rewrite bool_decide_false.
Qed.

(** ** Lemmas: typing slugs *)
Module SlugFacts.
Import Wizard.

Definition lower_alnum (s : string) : bool := sforall alnum s.

Lemma alnum_lower c : alnum c = true -> lower_char c = c /\ c <> "-"%char.
Proof.
  assert (forall c, negb (alnum c) || bool_decide (lower_char c = c) && negb (bool_decide (c = "-"%char)) = true) as H
    by (by apply ascii_check; vm_compute).
  intros Hc. specialize (H c). rewrite Hc in H. cbn [negb orb] in H. bool_hyps. done.
Qed.

Lemma dash_app run s c :
  sforall alnum s = true -> (s <> "" \/ run = false) ->
  dash_others run (s +:+ String c "") = if alnum c then s +:+ String c "" else s +:+ "-".
Proof.
  revert run. induction s as [|d s IH]; intros run Hs Hr.
  - destruct Hr as [?| ->]; [done|]. rewrite !app_nil_l. cbn [dash_others]. by destruct (alnum c).
  - cbn [sforall] in Hs. bool_hyps. rewrite app_cons. cbn [dash_others]. replace (alnum d) with true by done.
    rewrite IH by (done || by right). by destruct (alnum c).
Qed.

Lemma strip_start_alnum s t : sforall alnum s = true -> s <> "" -> strip_start "-" (s +:+ t) = s +:+ t.
Proof.
  destruct s as [|c s]; [done|]. cbn [sforall]. intros H _. bool_hyps. rewrite app_cons. cbn.
  rewrite bool_decide_false; [done|]. by apply alnum_lower.
Qed.

Lemma strip_end_alnum s : sforall alnum s = true -> strip_end "-" s = s.
Proof.
  induction s as [|c s IH]; [done|]. cbn [sforall strip_end]. intros H. bool_hyps. rewrite IH by done.
  destruct s; [|done]. rewrite bool_decide_false; [done|]. by apply alnum_lower.
Qed.

Lemma lower_alnum_id s : sforall alnum s = true -> toLowerCase s = s.
Proof. apply smap_id_on. intros c Hc. by apply alnum_lower. Qed.

(** One more key after a clean slug: kept when it is a letter or digit. *)
Lemma autoSlug_snoc s c :
  sforall alnum s = true ->
  autoSlug (s +:+ String c "") = if alnum (lower_char c) then s +:+ String (lower_char c) "" else s.
Proof.
  intros Hs. unfold autoSlug, toLowerCase. rewrite smap_app. fold (toLowerCase s). rewrite lower_alnum_id by done.
  cbn [smap]. rewrite dash_app by (done || by right). destruct (alnum (lower_char c)) eqn:E.
  - assert (sforall alnum (s +:+ String (lower_char c) "") = true) as Hx by (rewrite sforall_app, Hs; cbn; by rewrite E).
    rewrite <- (sapp_nil_r (s +:+ _)), strip_start_alnum, sapp_nil_r, strip_end_alnum; try done.
    by destruct s.
  - destruct s as [|d s]; [done|]. rewrite strip_start_alnum by done.
    rewrite strip_end_app. by apply strip_end_alnum.
Qed.

(** A text without letters or digits has the empty slug, and one more key makes
    at most one character. *)
Lemma dash_none run s :
  sforall (fun c => negb (alnum c)) s = true ->
  dash_others run s = "" \/ dash_others run s = "-".
Proof.
  revert run. induction s as [|c s IH]; intros run Hs; [by left|]. cbn [sforall] in Hs. bool_hyps.
  cbn [dash_others]. replace (alnum c) with false by (by destruct (alnum c)).
  destruct run; [by apply IH|]. assert (dash_others true s = "") as ->; [|by right].
  clear IH. induction s as [|d s IH]; [done|]. cbn [sforall] in *. bool_hyps. cbn [dash_others].
  replace (alnum d) with false by (by destruct (alnum d)). by apply IH.
Qed.

Lemma dash_none_snoc run s c :
  sforall (fun c => negb (alnum c)) s = true -> alnum c = true ->
  dash_others run (s +:+ String c "") = dash_others run s +:+ String c "".
Proof.
  revert run. induction s as [|d s IH]; intros run Hs Hc; [rewrite !app_nil_l; cbn [dash_others]; by rewrite Hc|].
  cbn [sforall] in Hs. bool_hyps. rewrite app_cons. cbn [dash_others].
  replace (alnum d) with false by (by destruct (alnum d)). destruct run; rewrite IH by done; done.
Qed.

Lemma autoSlug_short s c :
  sforall (fun c => negb (alnum c)) (toLowerCase s) = true ->
  (alnum (lower_char c) = false -> sforall (fun c => negb (alnum c)) (toLowerCase (s +:+ String c "")) = true
     /\ autoSlug (s +:+ String c "") = "") /\
  (alnum (lower_char c) = true -> autoSlug (s +:+ String c "") = String (lower_char c) "").
Proof.
  intros Hs. unfold autoSlug, toLowerCase in *. rewrite smap_app. cbn [smap]. split; intros Hc.
  - assert (sforall (fun c => negb (alnum c)) (smap lower_char s +:+ String (lower_char c) "") = true) as Hx.
    { rewrite sforall_app, Hs. cbn. by rewrite Hc. }
    split; [done|]. by destruct (dash_none false _ Hx) as [-> | ->].
  - rewrite dash_none_snoc by done. destruct (alnum_lower _ Hc) as [_ Hd].
    generalize dependent (lower_char c). intros d _ Hd.
    destruct (dash_none false _ Hs) as [-> | ->]; rewrite ?app_nil_l, ?app_cons; cbn [strip_start strip_end];
      rewrite ?(bool_decide_true ("-"%char = "-"%char)), ?app_nil_l by done; cbn [strip_start strip_end];
      rewrite (bool_decide_false (d = "-"%char)) by done; cbn [strip_end];
      by rewrite (bool_decide_false (d = "-"%char)) by done.
Qed.
End SlugFacts.

(** A filled slug stays as it is while the name is typed. *)
Lemma slug_stays keys f :
  Wizard.s_slug f <> "" ->
  Wizard.s_slug (Wizard.type_keys Wizard.s_name Wizard.server_setName keys f) = Wizard.s_slug f.
Proof.
  revert f. induction keys as [|c r IH]; intros f Hf; [done|]. cbn. rewrite IH; cbn; rewrite bool_decide_false by done; done.
Qed.

(** Typing a server's name fills its slug with one character: the field follows
    the name only while it is empty. *)
Theorem typed_name_slug_one_char keys :
  String.length (Wizard.s_slug
    (Wizard.type_keys Wizard.s_name Wizard.server_setName keys Wizard.server_initial)) <= 1.
Proof.
  assert (forall f, Wizard.s_slug f = "" -> sforall (fun c => negb (Wizard.alnum c)) (toLowerCase (Wizard.s_name f)) = true ->
    String.length (Wizard.s_slug (Wizard.type_keys Wizard.s_name Wizard.server_setName keys f)) <= 1) as Hgo; [|by apply Hgo].
  induction keys as [|c r IH]; intros f Hf Hn; [cbn; rewrite Hf; cbn; lia|]. cbn [Wizard.type_keys].
  destruct (SlugFacts.autoSlug_short (Wizard.s_name f) c Hn) as [H0 H1].
  set (g := Wizard.server_setName _ f). assert (Wizard.s_slug g = Wizard.autoSlug (Wizard.s_name f +:+ String c "")) as Hg
    by (unfold g; cbn; by rewrite Hf, bool_decide_true).
  destruct (Wizard.alnum (lower_char c)).
  - rewrite slug_stays; rewrite Hg, H1 by done; cbn; done || lia.
  - destruct (H0 eq_refl) as [Hn' Hs]. apply IH; [by rewrite Hg, Hs|done].
Qed.

(** What can be typed into the slug field: the letters and digits of the keys,
    in lower case.  A hyphen is dropped as soon as it is typed. *)
Theorem typed_slug_has_no_hyphen keys :
  Wizard.s_slug (Wizard.type_keys Wizard.s_slug Wizard.server_setSlug keys Wizard.server_initial)
  = sfilter Wizard.alnum (toLowerCase keys).
Proof.
  assert (forall f, sforall Wizard.alnum (Wizard.s_slug f) = true ->
    Wizard.s_slug (Wizard.type_keys Wizard.s_slug Wizard.server_setSlug keys f)
    = Wizard.s_slug f +:+ sfilter Wizard.alnum (toLowerCase keys)) as Hgo; [|by apply Hgo].
  induction keys as [|c r IH]; intros f Hf; [by rewrite sapp_nil_r|]. cbn [Wizard.type_keys].
  set (g := Wizard.server_setSlug _ f).
  assert (Wizard.s_slug g = if Wizard.alnum (lower_char c) then Wizard.s_slug f +:+ String (lower_char c) "" else Wizard.s_slug f) as Hg
    by (unfold g; cbn [Wizard.server_setSlug Wizard.s_slug]; by apply SlugFacts.autoSlug_snoc).
  unfold toLowerCase. cbn [smap sfilter]. destruct (Wizard.alnum (lower_char c)) eqn:E.
  - rewrite IH; rewrite Hg; [by rewrite sapp_assoc|]. rewrite sforall_app, Hf. cbn. by rewrite E.
  - rewrite IH; by rewrite Hg.
Qed.

(** A transport that records what it is given, and answers with [answer]. *)
Definition wire (answer : AxiosConfig -> AxiosError + AxiosResponse)
    : AxiosDefaults -> AxiosConfig -> M (AxiosError + AxiosResponse) :=
  fun _ c w => (Ok (answer c),
    set_sent (w_sent w ++ [mkRequest (cf_method c) (cf_url c) (map_to_list (cf_headers c)) [] (cf_data c)]) w).

Lemma rejected_sent e w : w_sent (response_rejected e w).2 = w_sent w.
Proof.
  unfold response_rejected. rewrite bind_get_world. destruct (ae_response e) as [r|]; [|done].
  destruct (_ && _); [|done]. rewrite !bind_attempt. unfold sessionStorage_removeItem, storage_remove.
  unfold bind, set_document_cookie. by destruct (w_window w && st_ok (w_session w)), (negb _).
Qed.

Lemma test_wire answer elapsed f w v :
  Wizard.s_url f <> "" -> w_window w = true -> getCsrfToken w = (Ok v, w) ->
  exists c, cf_url c = Wizard.test_url f /\
    cf_headers c !! "Authorization" = cf_headers (with_bearer w (mkConfig (Wizard.test_url f) "GET" ∅ None)) !! "Authorization" /\
    let w1 := (wire answer (axiosClient w) c w).2 in
    Wizard.testConnection (wire answer) elapsed f w =
    match answer c with
    | inr _ => (Ok (Some (Wizard.mkTest true elapsed None (Some (startsWith (Wizard.s_url f) "https")))), w1)
    | inl e =>
        try_catch (e <-- response_rejected e;
                   ret (Some (match ae_response e with
                              | Some res => if (ax_status res =? 0)%Z then Wizard.mkTest false elapsed (Some Wizard.UNREACHABLE) None
                                            else Wizard.mkTest true elapsed None (Some (startsWith (Wizard.s_url f) "https"))
                              | None => Wizard.mkTest false elapsed (Some Wizard.UNREACHABLE) None
                              end)))
                  (fun _ => ret (Some (Wizard.mkTest false elapsed (Some Wizard.UNREACHABLE) None))) w1
    end.
Proof.
  intros Hu Hw Hc. set (c0 := mkConfig (Wizard.test_url f) "GET" ∅ None).
  exists (match v with Some t => set_header "X-CSRF-Token" t (with_bearer w c0) | None => with_bearer w c0 end).
  assert (forall c, cf_url (with_bearer w c) = cf_url c) as Hwb.
  { intros c. unfold with_bearer. destruct (tab_token w); [|done]. by case_bool_decide. }
  split; [by destruct v; cbn; rewrite Hwb|]. split; [destruct v; cbn; by rewrite ?lookup_insert_ne|]. cbv zeta.
  unfold Wizard.testConnection. rewrite bool_decide_false by done. unfold try_catch at 1. unfold axiosClient_request.
  fold c0. unfold bind at 1, bind at 1, get_world at 1, bind at 1. rewrite interceptor_eval, Hc by done.
  destruct v as [t|]; unfold bind, wire; destruct (answer _) as [e|r]; try done;
    unfold try_catch; by destruct (response_rejected e _) as [[?|?] ?].
Qed.

(** The connection test sends the console's credential to the tested host: the
    client's interceptor adds the tab's bearer token to a request for whatever
    address was typed. *)
Theorem test_forwards_bearer answer elapsed f w v t :
  Wizard.s_url f <> "" -> w_window w = true -> getCsrfToken w = (Ok v, w) -> tab_token w = Some t -> t <> "" ->
  exists r, w_sent (Wizard.testConnection (wire answer) elapsed f w).2 = w_sent w ++ [r] /\
    rq_url r = Wizard.test_url f /\ ("Authorization", "Bearer " +:+ t) ∈ rq_headers r.
Proof.
  intros Hu Hw Hv Ht Hne. destruct (test_wire answer elapsed f w v Hu Hw Hv) as (c & Hc & Hh & E). cbv zeta in E.
  rewrite E. unfold with_bearer in Hh. rewrite Ht, bool_decide_false in Hh by done. cbn in Hh.
  rewrite lookup_insert_eq in Hh.
  exists (mkRequest (cf_method c) (cf_url c) (map_to_list (cf_headers c)) [] (cf_data c)).
  split; [|split; [exact Hc|by apply elem_of_map_to_list]].
  destruct (answer c) as [e|r] eqn:Ea; [|done].
  pose proof (rejected_sent e (wire answer (axiosClient w) c w).2) as Hs. revert Hs.
  unfold try_catch, bind. by destruct (response_rejected e _) as [[?|?] ?].
Qed.

(** A tested host that answers 401 signs the administrator out of the console:
    the test reports a reachable server, the tab's key is gone and the page
    leaves for the login form. *)
Theorem test_401_signs_out answer elapsed f w v e r :
  Wizard.s_url f <> "" -> working w = true -> getCsrfToken w = (Ok v, w) ->
  startsWith (w_pathname w) "/login" = false ->
  (forall c, answer c = inl e) -> ae_response e = Some r -> ax_status r = 401%Z ->
  exists res w', Wizard.testConnection (wire answer) elapsed f w = (Ok (Some res), w') /\ Wizard.t_ok res = true /\
    tab_token w' = None /\
    w_href w' = w_href w ++ ["/login?next=" +:+ encodeURIComponent (w_pathname w +:+ w_search w)].
Proof.
  intros Hu Hk Hv Hp Ha Hr Hs. assert (w_window w = true) as Hw by (unfold working in Hk; by bool_hyps).
  destruct (test_wire answer elapsed f w v Hu Hw Hv) as (c & Hc & _ & E). cbv zeta in E.
  rewrite Ha in E. rewrite E. set (w1 := (wire answer _ c w).2).
  assert (working w1 = true) as Hk1 by exact Hk.
  unfold response_rejected, try_catch. unfold bind at 1. rewrite bind_get_world, Hr, Hs.
  change (w_window w1) with (w_window w). rewrite Hw. cbn [Z.eqb Pos.eqb andb].
  rewrite !bind_attempt, remove_session_eval by done. change (w_pathname w1) with (w_pathname w).
  rewrite Hp. cbn [negb]. unfold bind at 1, navigate, ret at 1. rewrite Hr, Hs. cbn [Z.eqb Pos.eqb].
  eexists _, _. split; [reflexivity|]. split; [done|]. split; [|done].
  unfold tab_token. cbn. by rewrite lookup_delete_eq.
Qed.

(** [parseInt(s, 10)] is an integer of the range. *)
Definition int_within (lo hi : Z) (s : string) : Prop := exists z, parseInt s = Some z /\ (lo <= z <= hi)%Z.

(** Both sides of an equivalence fail. *)
Ltac refused :=
  split; [intros [? Hx]; discriminate Hx
         |intros; destruct_and?; match goal with X : is_Some None |- _ => by destruct X end].

Lemma int_json_in lo hi s : is_Some (Schema.int_in lo hi (Some (Wizard.int_json s))) <-> int_within lo hi s.
Proof.
  unfold Wizard.int_json, int_within, Schema.int_in. destruct (parseInt s) as [z|].
  - destruct (Schema.within lo hi z) eqn:E; unfold Schema.within in E.
    + split; [|by eauto]. intros _. exists z. split; [done|lia].
    + split; [by intros []|]. intros (z' & [= <-] & ?). lia.
  - split; [by intros []|]. by intros (z & ? & _).
Qed.

Lemma opt_str_accepted max s :
  is_Some (Schema.opt_str max (Some (nullable_str (or_none s)))) <-> (String.length s <= max)%nat.
Proof.
  unfold or_none. case_bool_decide as E; cbn.
  - subst. split; [cbn; lia|by eauto].
  - destruct (Nat.leb_spec (String.length s) max); split; try (by eauto); try lia.
Qed.

(** The policy step's requests that the gateway accepts: the form lets a burst
    of 0 through, which is refused, and an empty burst is refused for the
    preselected algorithm. *)
Theorem policy_step_accepted id now f :
  is_Some (Schema.create_policy id now (Wizard.policy_body f)) <->
  (String.length (Wizard.p_serverSlug f) <= 200)%nat /\ (String.length (Wizard.p_toolPattern f) <= 200)%nat /\
  int_within 1 1000000 (Wizard.p_limit f) /\ int_within 1 86400 (Wizard.p_windowSec f) /\
  (int_within 1 1000000 (Wizard.p_burst f) \/
   parseInt (Wizard.p_burst f) = None /\ Wizard.p_algorithm f = RateLimitAlgorithm_sliding_window).
Proof.
  rewrite <- !opt_str_accepted, <- !int_json_in.
  unfold Schema.create_policy. set (b := Wizard.policy_body f).
  change (json_field "subject_id" b) with (@None json). change (json_field "subject_type" b) with (@None json).
  change (json_field "priority" b) with (@None json).
  change (json_field "server_pattern" b) with (Some (nullable_str (or_none (Wizard.p_serverSlug f)))).
  change (json_field "tool_pattern" b) with (Some (nullable_str (or_none (Wizard.p_toolPattern f)))).
  change (json_field "algorithm" b) with (Some (JStr (RateLimitAlgorithm_value (Wizard.p_algorithm f)))).
  change (json_field "request_limit" b) with (Some (Wizard.int_json (Wizard.p_limit f))).
  change (json_field "window_seconds" b) with (Some (Wizard.int_json (Wizard.p_windowSec f))).
  assert (json_field "burst_capacity" b = Some (Wizard.int_json (Wizard.p_burst f))) as ->.
  { change (json_field "burst_capacity" b) with
      (Some (if bool_decide (Wizard.p_burst f = "") then JNull else Wizard.int_json (Wizard.p_burst f))).
    case_bool_decide as E; [by rewrite E|done]. }
  change (Schema.opt_str 500 None) with (Some (@None string)).
  change (Schema.subject_type_of None) with (Some SubjectType_api_key). cbn [mbind option_bind].
  destruct (Schema.opt_str 200 (Some (nullable_str (or_none (Wizard.p_serverSlug f))))) as [x1|];
    [|refused].
  destruct (Schema.opt_str 200 (Some (nullable_str (or_none (Wizard.p_toolPattern f))))) as [x2|];
    [|refused].
  assert (Schema.algorithm_of (Some (JStr (RateLimitAlgorithm_value (Wizard.p_algorithm f)))) = Some (Wizard.p_algorithm f)) as ->
    by (by destruct (Wizard.p_algorithm f)).
  destruct (Schema.int_in 1 1000000 (Some (Wizard.int_json (Wizard.p_limit f)))) as [x3|];
    [|refused].
  destruct (Schema.int_in 1 86400 (Some (Wizard.int_json (Wizard.p_windowSec f)))) as [x4|];
    [|refused].
  cbn [mbind option_bind]. unfold Wizard.int_json. destruct (parseInt (Wizard.p_burst f)) as [z|].
  - cbn [Schema.opt_int_in]. destruct (Schema.int_in 1 1000000 (Some (JNum z))) as [x5|]; cbn [fmap option_fmap option_map mbind option_bind].
    + cbn [Limits.given negb]. rewrite andb_false_r. split; [|by eauto]. intros _. split_and!; eauto.
    + split; [by intros []|]. by intros (_ & _ & _ & _ & [[]|[? _]]).
  - cbn [Schema.opt_int_in mbind option_bind Limits.given negb]. rewrite andb_true_r.
    destruct (Wizard.p_algorithm f); [rewrite bool_decide_true by done|rewrite bool_decide_false by done]; split;
      try (by intros []); try (by eauto 10).
    by intros (_ & _ & _ & _ & [[]|[_ ?]]).
Qed.

(** ** Witnesses *)

Lemma demo_storage_works : storage_works (demo_world ∅ []).
Proof. done. Defined.

(** A backend that registers servers, creates keys and accepts everything. *)
Definition demo_backend : AxiosDefaults -> AxiosConfig -> M (AxiosError + AxiosResponse) :=
  wire (fun _ => inr (mkAxResponse (Some (JObj [("id", JStr "s1"); ("slug", JStr "prod"); ("plaintext", JStr "pk_live_1")])) 200 ∅)).

Lemma wizard_in_order_witness : exists p w,
  rtc (wstep demo_backend [] 1) (mkMachine Wizard.initial_page [] (demo_world ∅ [])) (mkMachine p [] w) /\
  exists s, Wizard.step p = JStr s /\ s = "org" /\ (forall k, k ∈ OrderFacts.needs s -> Wizard.has p k = true).
Proof.
  set (p1 := Wizard.updateOb "role" (JStr "developer") Wizard.initial_page).
  destruct (save_eval (Wizard.mkPage (JStr "org") (Wizard.ob p1)) (demo_world ∅ []) demo_storage_works) as (w' & Hs & _).
  set (p2 := Wizard.mkPage (JStr "org") (Wizard.ob p1)).
  assert (rtc (wstep demo_backend [] 1) (mkMachine Wizard.initial_page [] (demo_world ∅ [])) (mkMachine p2 [] w')) as Hr.
  { eapply rtc_l; [apply (w_role demo_backend [] 1 "developer"); [done|unfold Wizard.Role; set_solver]|].
    eapply rtc_once, (w_start demo_backend [] 1 _ _ _ _ true); [done|done|].
    unfold Wizard.go, try_catch, bind. fold p1. by rewrite Hs. }
  exists p2, w'. split; [exact Hr|].
  destruct (wizard_in_order demo_backend [] 1 (demo_world ∅ []) Wizard.initial_page (demo_world ∅ []) p2 [] w') as (s & Hst & _ & Hn & _);
    [done|intros df c w r v _ _ [= <- _]; done|done|done|done|exact Hr|].
  exists s. split; [done|]. split; [by injection Hst as <-|done].
Defined.

Lemma progress_survives_reload_witness :
  exists p w', Wizard.go "policy" (JObj [("role", JStr "developer")]) (demo_world ∅ []) = (Ok (p, true), w') /\
    Wizard.mount w' = (Ok p, w').
Proof. apply progress_survives_reload; [exact demo_storage_works|done]. Defined.

Definition key_page : Wizard.page := Wizard.mkPage (JStr "apikey") Wizard.INITIAL_STATE.

Lemma new_key_stays_readable_witness : exists p' w',
  Wizard.key_handleCreate demo_backend key_page "ci" ["tools:call"] (demo_world ∅ []) =
    (Ok (p', [Wizard.ToastSuccess "API key created"]), w') /\
  Wizard.mount w' = (Ok p', w') /\ Wizard.created p' = Some (JStr "pk_live_1").
Proof.
  eexists _, _. split; [vm_compute; reflexivity|].
  eapply (new_key_stays_readable demo_backend key_page "ci" ["tools:call"] (demo_world ∅ []));
    [done|done|vm_compute; reflexivity|vm_compute; reflexivity|done].
Defined.

(** A tab whose storage is full. *)
Definition full_world : World :=
  set_session (mkStorage true false ∅) (demo_world ∅ []).

Lemma registration_misreported_witness : exists p' w1,
  Wizard.server_handleSubmit demo_backend (Wizard.mkPage (JStr "server") Wizard.INITIAL_STATE) Wizard.server_initial full_world =
    (Ok (p', [Wizard.ToastSuccess ("Server " +:+ quoted "" +:+ " registered"); Wizard.ToastError Wizard.SERVER_FAILED]), w1).
Proof.
  edestruct (registration_misreported demo_backend (Wizard.mkPage (JStr "server") Wizard.INITIAL_STATE)
    Wizard.server_initial full_world) as (p' & H & _); [vm_compute; reflexivity|vm_compute; reflexivity|done|].
  exists p'. eexists. exact H.
Defined.

Definition signed_in_world : World :=
  set_session (mkStorage true true {["portcullis_token" := "pk_admin"]}) (demo_world ∅ []).

Definition evil_form : Wizard.server_form := Wizard.mkServer "x" "x" "https://evil.example/" "streamable_http" "none" "" "/health".

Lemma test_forwards_bearer_witness : exists r,
  w_sent (Wizard.testConnection demo_backend 12 evil_form signed_in_world).2 = w_sent signed_in_world ++ [r] /\
  rq_url r = "https://evil.example/health" /\ ("Authorization", "Bearer pk_admin") ∈ rq_headers r.
Proof. eapply (test_forwards_bearer _ 12 evil_form signed_in_world None "pk_admin"); [discriminate|reflexivity|reflexivity|reflexivity|discriminate]. Defined.

Lemma test_401_signs_out_witness : exists res w',
  Wizard.testConnection (wire (fun _ => inl (mkAxError "401" (Some (mkAxResponse None 401 ∅))))) 12 evil_form signed_in_world
    = (Ok (Some res), w') /\ Wizard.t_ok res = true /\ tab_token w' = None.
Proof.
  edestruct (test_401_signs_out (fun _ => inl (mkAxError "401" (Some (mkAxResponse None 401 ∅)))) 12 evil_form
    signed_in_world None) as (res & w' & H1 & H2 & H3 & _); [done..|].
  exists res, w'. done.
Defined.
