(* ===== verification/ServerPages.v ===== *)
(** * The server list and detail pages

    - [ServerList]: web/src/app/dashboard/servers/page.tsx
    - [ServerDetail]: web/src/app/dashboard/servers/[slug]/page.tsx, with its
      playground, traffic and configuration tabs

    and the backend's partial update (api/app/repositories/servers.py). *)

From Stdlib Require Import ZifyBool.
From S2P Require Import Prelude JsString JsUri Json Browser JsInt JsonParse AuthStore AxiosClient LoginForm ApiTypes ApiClient JsDate RelTime Tally JsNumber Tools Servers.

Inductive page_act :=
  | Success (msg : string)
  | Info (msg : string)
  | Failure (msg : string)
  | Refresh (key : string)
  | Goto (path : string).

(** A request inside [try]: [failed] receives the error's message, when it is
    an [Error] (an Axios error is one). *)
Definition with_reply {A} (m : Reply) (ok : orval_response -> list A) (failed : string -> list A) : M (list A) :=
  try_catch (r <-- m; ret (match r with inr o => ok o | inl e => failed (ae_message e) end)) (fun msg => ret (failed msg)).

(** ** The list *)
Module ServerList.

Record filters := mkFilters { search : string; statusFilter : string; transportFilter : string }.

Definition cleared : filters := mkFilters "" "all" "all".

Definition matchSearch (f : filters) (s : ServerView) : bool :=
  let q := toLowerCase (search f) in
  bool_decide (q = "") || includes (toLowerCase (ServerView_slug s)) q
  || includes (toLowerCase (ServerView_upstream_url s)) q.
Definition matchStatus (f : filters) (s : ServerView) : bool :=
  bool_decide (statusFilter f = "all") || bool_decide (ServerStatus_value (ServerView_status s) = statusFilter f).
Definition matchTransport (f : filters) (s : ServerView) : bool :=
  bool_decide (transportFilter f = "all") || bool_decide (ServerTransport_value (ServerView_transport s) = transportFilter f).

Definition filtered (f : filters) (servers : list ServerView) : list ServerView :=
  List.filter (fun s => matchSearch f s && matchStatus f s && matchTransport f s) servers.

(** Title of the dot: healthy, or the failures. *)
Definition HealthDot_title (failures : Z) : string :=
  if (failures =? 0)%Z then "Healthy"
  else pretty failures +:+ " consecutive failure" +:+ (if (failures =? 1)%Z then "" else "s").

Section handlers.
Context (dispatch : AxiosDefaults -> AxiosConfig -> M (AxiosError + AxiosResponse)).

Definition handleDelete (confirmed : bool) (slug : string) : M (list page_act) :=
  if negb confirmed then ret [] else
  with_reply (deleteServerV1ServersSlugDelete dispatch slug None)
    (fun _ => [Success "Server deleted"; Refresh "/v1/servers"]) (fun _ => [Failure "Failed to delete server"]).

(** [res.data?.status ?? "ok"] *)
Definition handleHealthCheck (server : ServerView) : M (list page_act) :=
  with_reply (triggerHealthProbeV1ServersSlugHealthPost dispatch (ServerView_slug server) None)
    (fun o => [Success ("Health check: " +:+ from_option js_String "ok" (nullish (or_data o ≫= json_field "status")));
               Refresh "/v1/servers"])
    (fun msg => [Failure ("Health check error: " +:+ msg)]).
End handlers.
End ServerList.

(** ** The detail page *)
Module ServerDetail.
Import Catalogue.

(** *** Tools *)

(** The page's own fetch is to its origin: cookies go along. *)
Definition mcp_fetch (slug : string) (token : option string) (method : string) (params : json) : M Response :=
  fetch "POST" ("/mcp/" +:+ slug) (("Content-Type", "application/json") :: bearer token) (Some (rpc method params)).

(** [if (json.error) throw new Error(json.error.message ?? "MCP error")] *)
Definition mcp_result (body : option json) : M json :=
  match body with
  | None => throw "SyntaxError"
  | Some JNull => throw "TypeError"
  | Some j =>
      if SignIn.json_truthy (json_field "error" j)
      then throw (from_option js_String "MCP error" (nullish (json_field "error" j ≫= json_field "message")))
      else ret j
  end.

Definition ToolsTab_query (slug : string) : M json :=
  token <-- getToken;
  res <-- mcp_fetch slug token "tools/list" (JObj []);
  j <-- mcp_result (rs_body res);
  ret (default (JArr []) (nullish (json_field "result" j ≫= json_field "tools"))).

Definition try_link (slug : string) (t : McpTool) : string :=
  "/dashboard/playground?server=" +:+ slug +:+ "&tool=" +:+ encodeURIComponent (mt_name t).

(** *** Playground *)
Inductive callState := idle | calling | done_ | error_.

Record playground := mkPlay {
  selectedTool : string; fieldValues : gmap string string; state : callState;
  response : option json; callError : option string }.

Definition tool_of (tools : list McpTool) (p : playground) : option McpTool :=
  List.find (fun t => bool_decide (mt_name t = selectedTool p)) tools.

Definition handleToolChange (name : string) (p : playground) : playground := mkPlay name ∅ idle None None.

Definition setField (key value : string) (p : playground) : playground :=
  mkPlay (selectedTool p) (<[key := value]> (fieldValues p)) (state p) (response p) (callError p).

Section call.
(** [Number] on arbitrary text. *)
Context (js_Number : string -> json).

(** One field's argument: [None] when it is skipped, [Some None] when its text
    is not JSON. *)
Definition field_value (t : McpTool) (values : gmap string string) (kv : string * McpToolProperty)
    : option (option json) :=
  let raw := default "" (values !! kv.1) in
  if bool_decide (raw = "") && negb (match mt_required t with Some l => bool_decide (kv.1 ∈ l) | None => false end)
  then None
  else Some (
    let ty := mp_type (kv.2) in
    if bool_decide (ty = Some "object") || bool_decide (ty = Some "array") then JSON_parse raw
    else if bool_decide (ty = Some "number") || bool_decide (ty = Some "integer") then Some (js_Number raw)
    else if bool_decide (ty = Some "boolean") then Some (JBool (bool_decide (raw = "true") || bool_decide (raw = "1")))
    else Some (JStr raw)).

(** The loop over the properties: the arguments, or the first bad field. *)
Fixpoint call_args (t : McpTool) (values : gmap string string) (props : list (string * McpToolProperty))
    : string + list (string * json) :=
  match props with
  | [] => inr []
  | kv :: r =>
      match field_value t values kv with
      | None => call_args t values r
      | Some None => inl (kv.1)
      | Some (Some v) =>
          match call_args t values r with
          | inl k => inl k
          | inr l => inr ((kv.1, v) :: l)
          end
      end
  end.

Definition handleCall (slug : string) (tools : list McpTool) (p : playground) : M (playground * list page_act) :=
  match tool_of tools p with
  | None => ret (p, [])
  | Some t =>
      let at_ s r e := mkPlay (selectedTool p) (fieldValues p) s r e in
      match call_args t (fieldValues p) (default [] (mt_properties t)) with
      | inl key => ret (at_ error_ None None, [Failure ("Field " +:+ dquote +:+ key +:+ dquote +:+ " must be valid JSON")])
      | inr args =>
          try_catch
            (token <-- getToken;
             res <-- mcp_fetch slug token "tools/call" (JObj [("name", JStr (mt_name t)); ("arguments", JObj args)]);
             j <-- mcp_result (rs_body res);
             ret (at_ done_ (json_field "result" j) None, []))
            (fun msg => ret (at_ error_ None (Some msg), []))
      end
  end.
End call.

(** *** Traffic *)
Section traffic.
Context (tz : Z).

Record HourBucket := mkBucket { hb_allowed : Z; hb_denied : Z }.

(** [`${d.getMonth() + 1}/${d.getDate()} ${d.getHours()}:00`] *)
Definition hour_label (l : AuditLogView) : string :=
  match Date_parse tz (AuditLogView_created_at l) with
  | Some t =>
      let '(_, m, d) := local_date tz t in
      pretty m +:+ "/" +:+ pretty d +:+ " " +:+ pretty (getHours tz t) +:+ ":00"
  | None => "NaN/NaN NaN:00"
  end.

Definition bucket_bump (l : AuditLogView) (b : option HourBucket) : HourBucket :=
  let b := default (mkBucket 0 0) b in
  if bool_decide (AuditLogView_outcome l = "allowed") then mkBucket (hb_allowed b + 1) (hb_denied b)
  else if bool_decide (AuditLogView_outcome l = "denied") then mkBucket (hb_allowed b) (hb_denied b + 1)
  else b.

Definition bucketMap (logs : list AuditLogView) : list (string * HourBucket) :=
  group (fun l => Some (hour_label l)) bucket_bump logs.

(** [Object.values(bucketMap).sort((a, b) => a.hour.localeCompare(b.hour))]; the
    collation is the browser's. *)
Definition chartData (localeCompare : string -> string -> comparison) (logs : list AuditLogView)
    : list (string * HourBucket) :=
  stable_sort (fun a b => match localeCompare (a.1) (b.1) with Gt => false | _ => true end) (bucketMap logs).

Definition with_outcome (o : string) (logs : list AuditLogView) : list AuditLogView :=
  List.filter (fun l => bool_decide (AuditLogView_outcome l = o)) logs.

(** [Math.round((n / total) * 100)] *)
Definition pct_of (n total : nat) : rounded :=
  if (0 <? total)%nat then Math_round (percent (Z.of_nat n) (Z.of_nat total)) else RNum 0.

Definition tool_key (l : AuditLogView) : option string := nonempty (AuditLogView_tool_name l).
Definition toolCounts (logs : list AuditLogView) : list (string * Z) := tally tool_key logs.
Definition topTools (logs : list AuditLogView) : list (string * Z) := top_entries 8 (toolCounts logs).
Definition uniqueTools (logs : list AuditLogView) : nat := length (toolCounts logs).
End traffic.

(** *** Configuration *)
Record config_form := mkConfig {
  cname : string; upstreamUrl : string; transport : ServerTransport; authMode : ServerAuthMode;
  healthCheckPath : string; serviceTokenEnvVar : string }.

(** The form's initial state, from the server as it was when the tab mounted. *)
Definition config_initial (s : ServerView) : config_form :=
  mkConfig (ServerView_name s) (ServerView_upstream_url s) (ServerView_transport s) (ServerView_auth_mode s)
    (ServerView_health_check_path s) "".

Definition if_changed {A} `{EqDecision A} (new old : A) : option (option A) :=
  if bool_decide (new = old) then None else Some (Some new).

(** The patch, against the server as it is now. *)
Definition config_patch (f : config_form) (s : ServerView) : ServerUpdate :=
  mkServerUpdate (if_changed (cname f) (ServerView_name s)) None
    (if_changed (upstreamUrl f) (ServerView_upstream_url s))
    (if_changed (transport f) (ServerView_transport s))
    (if_changed (authMode f) (ServerView_auth_mode s))
    (Some <$> or_none (serviceTokenEnvVar f)) None None None
    (if_changed (healthCheckPath f) (ServerView_health_check_path s)) None.

Definition opt_field {A} (k : string) (enc : A -> json) (v : option (option A)) : list (string * json) :=
  opt_prop k ((fun o => match o with Some a => enc a | None => JNull end) <$> v).

(** The patch as it is sent. *)
Definition patch_json (u : ServerUpdate) : list (string * json) :=
  opt_field "name" JStr (ServerUpdate_name u)
  ++ opt_field "upstream_url" JStr (ServerUpdate_upstream_url u)
  ++ opt_field "transport" (fun t => JStr (ServerTransport_value t)) (ServerUpdate_transport u)
  ++ opt_field "auth_mode" (fun a => JStr (ServerAuthMode_value a)) (ServerUpdate_auth_mode u)
  ++ opt_field "health_check_path" JStr (ServerUpdate_health_check_path u)
  ++ opt_field "service_token_env_var" JStr (ServerUpdate_service_token_env_var u)
  ++ opt_field "status" (fun x => JStr (ServerStatus_value x)) (ServerUpdate_status u).

Section config.
Context (dispatch : AxiosDefaults -> AxiosConfig -> M (AxiosError + AxiosResponse)).

Definition handleSave (slug : string) (f : config_form) (s : ServerView) : M (list page_act) :=
  match patch_json (config_patch f s) with
  | [] => ret [Info "No changes to save"]
  | patch =>
      with_reply (updateServerV1ServersSlugPatch dispatch slug (JObj patch) None)
        (fun _ => [Success "Server updated"; Refresh ("/v1/servers/" +:+ slug)]) (fun msg => [Failure msg])
  end.

Definition toggled (st : ServerStatus) : ServerStatus :=
  if bool_decide (st = ServerStatus_disabled) then ServerStatus_active else ServerStatus_disabled.

Definition status_patch (st : ServerStatus) : ServerUpdate :=
  mkServerUpdate None None None None None None None None None None (Some (Some st)).

Definition handleToggleStatus (slug : string) (s : ServerView) : M (list page_act) :=
  let new := toggled (ServerView_status s) in
  with_reply (updateServerV1ServersSlugPatch dispatch slug (JObj (patch_json (status_patch new))) None)
    (fun _ => [Success ("Server " +:+ if bool_decide (new = ServerStatus_active) then "enabled" else "disabled");
               Refresh ("/v1/servers/" +:+ slug)])
    (fun msg => [Failure msg]).

Definition status_text (s : ServerView) : string :=
  if bool_decide (ServerView_status s = ServerStatus_disabled)
  then "This server is currently disabled and won't accept traffic"
  else "This server is active and accepting traffic".

Definition handleDelete (confirmed : bool) (slug : string) : M (list page_act) :=
  if negb confirmed then ret [] else
  with_reply (deleteServerV1ServersSlugDelete dispatch slug None)
    (fun _ => [Success "Server deleted"; Refresh "/v1/servers"; Goto "/dashboard/servers"])
    (fun _ => [Failure "Failed to delete server"]).
End config.

(** The backend: the fields that are given and not null replace the stored
    ones.  The token's variable is not part of the view. *)
Definition given {A} (v : option (option A)) (d : A) : A := match v with Some (Some a) => a | _ => d end.

Definition given_opt {A} (v d : option (option A)) : option (option A) := match v with Some (Some a) => v | _ => d end.

Definition apply_update (s : ServerView) (u : ServerUpdate) : ServerView :=
  mkServerView (ServerView_id s) (ServerView_tenant_id s) (given (ServerUpdate_name u) (ServerView_name s))
    (given (ServerUpdate_slug u) (ServerView_slug s)) (given (ServerUpdate_upstream_url u) (ServerView_upstream_url s))
    (given (ServerUpdate_transport u) (ServerView_transport s)) (given (ServerUpdate_auth_mode u) (ServerView_auth_mode s))
    (given_opt (ServerUpdate_ssl_ca u) (ServerView_ssl_ca s)) (given_opt (ServerUpdate_ssl_cert u) (ServerView_ssl_cert s))
    (given_opt (ServerUpdate_ssl_key u) (ServerView_ssl_key s))
    (given (ServerUpdate_status u) (ServerView_status s)) (given (ServerUpdate_health_check_path u) (ServerView_health_check_path s))
    (ServerView_consecutive_health_failures s) (ServerView_last_health_check_at s) (ServerView_created_at s)
    (ServerView_updated_at s).
End ServerDetail.

(** ** Properties *)

(** Whatever the filters were, clearing them shows every server again. *)
Lemma cleared_shows_all servers : ServerList.filtered ServerList.cleared servers = servers.
Proof. apply filter_all_match. by intros s _. Qed.

(** Two of the transport filter's choices never match: the gateway has one
    transport. *)
Theorem transport_filter_empty f servers :
  ServerList.transportFilter f = "sse" \/ ServerList.transportFilter f = "stdio" ->
  ServerList.filtered f servers = [].
Proof.
  intros Hf. apply filter_none_match. intros s _. unfold ServerList.matchTransport.
  destruct Hf as [-> | ->]; destruct (ServerView_transport s); by rewrite andb_false_r.
Qed.

(** Saving stores the form: after the patch is applied the server has the
    form's values, and everything the form does not edit is unchanged. *)
Theorem saved_config_is_form f s :
  let s' := ServerDetail.apply_update s (ServerDetail.config_patch f s) in
  ServerDetail.config_initial s' =
    ServerDetail.mkConfig (ServerDetail.cname f) (ServerDetail.upstreamUrl f) (ServerDetail.transport f)
      (ServerDetail.authMode f) (ServerDetail.healthCheckPath f) "" /\
  ServerView_slug s' = ServerView_slug s /\ ServerView_status s' = ServerView_status s /\
  ServerView_id s' = ServerView_id s.
Proof.
  cbv zeta. split; [|done].
  unfold ServerDetail.config_initial, ServerDetail.apply_update, ServerDetail.config_patch, ServerDetail.if_changed. cbn.
  f_equal; case_bool_decide; done.
Qed.

(** The requests of the form: an untouched form sends nothing, and with no
    other administrator at work the patch is empty exactly when nothing was
    edited. *)
Theorem unedited_config_not_sent dispatch slug f s w :
  ServerDetail.handleSave dispatch slug f s w = (Ok [Info "No changes to save"], w) <->
  f = ServerDetail.config_initial s.
Proof.
  assert (ServerDetail.patch_json (ServerDetail.config_patch f s) = [] <-> f = ServerDetail.config_initial s) as Hp.
  { destruct f as [n u t a h v]. unfold ServerDetail.patch_json, ServerDetail.config_patch, ServerDetail.if_changed,
      ServerDetail.config_initial, or_none. cbn [ServerDetail.cname ServerDetail.upstreamUrl ServerDetail.transport
      ServerDetail.authMode ServerDetail.healthCheckPath ServerDetail.serviceTokenEnvVar ServerUpdate_name
      ServerUpdate_upstream_url ServerUpdate_transport ServerUpdate_auth_mode ServerUpdate_health_check_path
      ServerUpdate_service_token_env_var ServerUpdate_status].
    split.
    - intros H. repeat case_bool_decide; try done. by subst.
    - intros H. simplify_eq. rewrite (bool_decide_true (t = _)) by (by destruct t, (ServerView_transport s)).
      repeat (rewrite bool_decide_true by done). done. }
  unfold ServerDetail.handleSave. rewrite <- Hp. destruct (ServerDetail.patch_json _) as [|kv l]; [done|].
  split; [|done]. unfold with_reply, try_catch, bind, ret.
  destruct (updateServerV1ServersSlugPatch _ _ _ _ w) as [[[e|o]|e] w']; intros [=].
Qed.

(** A form kept open reverts what others changed meanwhile: with nothing
    edited in it, saving sends its old value of a field that has changed. *)
Theorem stale_form_reverts s s' :
  ServerView_upstream_url s' <> ServerView_upstream_url s ->
  ServerView_upstream_url
    (ServerDetail.apply_update s' (ServerDetail.config_patch (ServerDetail.config_initial s) s'))
  = ServerView_upstream_url s.
Proof.
  intros H. cbn. unfold ServerDetail.if_changed. by rewrite bool_decide_false by congruence.
Qed.

(** Disabling and enabling again keeps an active or disabled server, and turns
    an unhealthy one active. *)
Theorem toggle_twice st :
  ServerDetail.toggled (ServerDetail.toggled st) = if bool_decide (st = ServerStatus_unhealthy) then ServerStatus_active else st.
Proof. by destruct st. Qed.

(** *** The playground's arguments *)

(** The properties that contribute an argument. *)
Definition contributes (t : Catalogue.McpTool) (values : gmap string string) (kv : string * Catalogue.McpToolProperty) : bool :=
  negb (bool_decide (default "" (values !! kv.1) = ""))
  || match Catalogue.mt_required t with Some l => bool_decide (kv.1 ∈ l) | None => false end.

Lemma field_value_some js_Number t values kv :
  is_Some (ServerDetail.field_value js_Number t values kv) <-> contributes t values kv = true.
Proof.
  unfold ServerDetail.field_value, contributes. destruct (bool_decide (default "" (values !! kv.1) = "")); cbn [andb negb orb].
  - destruct (match Catalogue.mt_required t with Some l => bool_decide (kv.1 ∈ l) | None => false end); cbn [negb].
    + split; [done|]. eauto.
    + split; [by intros []|done].
  - split; [done|]. eauto.
Qed.

(** The arguments sent are the filled fields and the required ones, in the
    schema's order; otherwise the first of them whose text is not JSON is
    reported and nothing is sent. *)
Theorem call_args_spec js_Number t values props :
  match ServerDetail.call_args js_Number t values props with
  | inr args =>
      args.*1 = (List.filter (contributes t values) props).*1 /\
      (forall k v, (k, v) ∈ args -> exists p, (k, p) ∈ props /\ ServerDetail.field_value js_Number t values (k, p) = Some (Some v))
  | inl key =>
      exists before p after, props = before ++ (key, p) :: after /\
        ServerDetail.field_value js_Number t values (key, p) = Some None /\
        forall kv, kv ∈ before -> ServerDetail.field_value js_Number t values kv <> Some None
  end.
Proof.
  induction props as [|[k0 p0] props IH]; cbn [ServerDetail.call_args]; [split; [done|set_solver]|].
  set (kv := (k0, p0)).
  pose proof (field_value_some js_Number t values kv) as Hc.
  destruct (ServerDetail.field_value js_Number t values kv) as [[v|]|] eqn:E.
  - assert (contributes t values kv = true) as Hk by (apply Hc; eauto).
    destruct (ServerDetail.call_args js_Number t values props) as [key|args].
    + destruct IH as (b & p & a & -> & Hp & Hb). exists (kv :: b), p, a. split_and!; [done|done|].
      intros kv' [->|?]%elem_of_cons; [congruence|by apply Hb].
    + destruct IH as [Hk1 Hk2]. cbn [List.filter]. rewrite Hk. cbn. split; [by rewrite Hk1|].
      intros k x [[= -> ->]|Hx]%elem_of_cons.
      * exists p0. split; [by left|done].
      * destruct (Hk2 k x Hx) as (p & Hp & Hf). exists p. split; [by right|done].
  - exists [], p0, props. split_and!; [done|done|set_solver].
  - assert (contributes t values kv = false) as Hk. { apply not_true_is_false. intros Hk. by apply Hc in Hk as []. }
    destruct (ServerDetail.call_args js_Number t values props) as [key|args].
    + destruct IH as (b & p & a & -> & Hp & Hb). exists (kv :: b), p, a. split_and!; [done|done|].
      intros kv' [->|?]%elem_of_cons; [congruence|by apply Hb].
    + cbn [List.filter]. rewrite Hk. destruct IH as [Hk1 Hk2]. split; [done|].
      intros k x Hx. destruct (Hk2 k x Hx) as (p & Hp & Hf). exists p. split; [by right|done].
Qed.

(** A required number left empty is sent as zero, and a required boolean as
    false, without a word to the user. *)
Theorem empty_required_defaults js_Number t values k p l :
  js_Number "" = JNum 0 ->
  values !! k = None -> Catalogue.mt_required t = Some l -> k ∈ l ->
  (Catalogue.mp_type p = Some "number" \/ Catalogue.mp_type p = Some "integer" ->
     ServerDetail.field_value js_Number t values (k, p) = Some (Some (JNum 0))) /\
  (Catalogue.mp_type p = Some "boolean" ->
     ServerDetail.field_value js_Number t values (k, p) = Some (Some (JBool false))) /\
  (Catalogue.mp_type p = Some "object" -> ServerDetail.field_value js_Number t values (k, p) = Some None).
Proof.
  intros Hn Hv Hr Hk. unfold ServerDetail.field_value. cbn [fst snd]. rewrite Hv, Hr. cbn [from_option id].
  rewrite (bool_decide_true (k ∈ l)), (bool_decide_true ("" = "")) by done. cbn [andb negb].
  split_and!; intros Ht; [destruct Ht as [-> | ->]|rewrite Ht..]; rewrite ?Hn; reflexivity.
Qed.

(** *** The traffic tab *)

(** The hourly buckets add up to the two figures of the tab. *)
Theorem hour_buckets_total tz logs :
  weights ServerDetail.hb_allowed (ServerDetail.bucketMap tz logs) = Z.of_nat (length (ServerDetail.with_outcome "allowed" logs)) /\
  weights ServerDetail.hb_denied (ServerDetail.bucketMap tz logs) = Z.of_nat (length (ServerDetail.with_outcome "denied" logs)).
Proof.
  unfold ServerDetail.bucketMap.
  rewrite (group_weight_sum _ _ _ (fun l => if bool_decide (AuditLogView_outcome l = "allowed") then 1 else 0)%Z),
    (group_weight_sum _ _ _ (fun l => if bool_decide (AuditLogView_outcome l = "denied") then 1 else 0)%Z).
  - unfold ServerDetail.with_outcome. split; induction logs as [|l logs IH]; cbn; try done; rewrite IH;
      case_bool_decide; cbn [length]; lia.
  - intros l [b|]; unfold ServerDetail.bucket_bump; cbn [from_option id default]; repeat case_bool_decide; cbn; try lia; congruence.
  - by intros.
  - intros l [b|]; unfold ServerDetail.bucket_bump; cbn [from_option id default]; repeat case_bool_decide; cbn; try lia; congruence.
  - by intros.
Qed.

(** A collation that decides by the first different digit. *)
Definition digit_order (localeCompare : string -> string -> comparison) : Prop :=
  forall p a b x y, NumText.is_dig a = true -> NumText.is_dig b = true -> (code a < code b)%N ->
    localeCompare (p +:+ String a x) (p +:+ String b y) = Lt /\ localeCompare (p +:+ String b y) (p +:+ String a x) = Gt.

(** The chart is not in the order of time: ten o'clock is drawn before two
    o'clock of the same day. *)
Theorem chart_not_chronological localeCompare tz l1 l2 day :
  digit_order localeCompare ->
  ServerDetail.hour_label tz l1 = day +:+ " 2:00" -> ServerDetail.hour_label tz l2 = day +:+ " 10:00" ->
  (ServerDetail.chartData tz localeCompare [l1; l2]).*1 = [day +:+ " 10:00"; day +:+ " 2:00"].
Proof.
  intros Hc H1 H2. unfold ServerDetail.chartData, ServerDetail.bucketMap, group, group_from, group_step. cbn [fold_left].
  rewrite H1, H2. cbn [map_update].
  destruct (Hc (day +:+ " ") "1"%char "2"%char "0:00" ":00") as [_ Hgt]; [done..|].
  rewrite !sapp_assoc in Hgt. change (" " +:+ String "1" "0:00") with " 10:00" in Hgt.
  change (" " +:+ String "2" ":00") with " 2:00" in Hgt.
  rewrite bool_decide_false by (intros E%sapp_inj_l; discriminate E).
  unfold stable_sort. cbn [foldr sort_insert fst]. by rewrite Hgt.
Qed.

(** ** Witnesses *)
Definition demo_server (url : string) : ServerView :=
  mkServerView "id" "t" "Prod" "prod" url ServerTransport_streamable_http ServerAuthMode_none None None None
    ServerStatus_active "/health" 0 None "" "".

Lemma transport_filter_empty_witness :
  ServerList.filtered (ServerList.mkFilters "" "all" "sse") [demo_server "https://a"] = [].
Proof. apply transport_filter_empty. by left. Defined.

Lemma stale_form_reverts_witness :
  ServerView_upstream_url (ServerDetail.apply_update (demo_server "https://new")
    (ServerDetail.config_patch (ServerDetail.config_initial (demo_server "https://old")) (demo_server "https://new"))) = "https://old".
Proof. apply (stale_form_reverts (demo_server "https://old") (demo_server "https://new")). done. Defined.

Lemma empty_required_defaults_witness :
  ServerDetail.field_value (fun _ => JNum 0) (Catalogue.mkTool "t" None None (Some ["limit"])) ∅
    ("limit", Catalogue.mkProp (Some "integer") None None) = Some (Some (JNum 0)).
Proof.
  apply (empty_required_defaults (fun _ => JNum 0) (Catalogue.mkTool "t" None None (Some ["limit"])) ∅ "limit"
    (Catalogue.mkProp (Some "integer") None None) ["limit"]); [done|done|done|by left|by right].
Defined.

(** Comparison by code units. *)
Fixpoint unit_compare (s t : string) : comparison :=
  match s, t with
  | "", "" => Eq
  | "", _ => Lt
  | _, "" => Gt
  | String a x, String b y => match (code a ?= code b)%N with Eq => unit_compare x y | c => c end
  end.

Definition log_at (created_at : string) : AuditLogView :=
  mkAuditLogView "" None None None AuditEventType_tool_call None None None "allowed" None None [] created_at.

Lemma chart_not_chronological_witness :
  (ServerDetail.chartData 0 unit_compare [log_at "2026-03-04T02:00:00Z"; log_at "2026-03-04T10:00:00Z"]).*1
  = ["3/4 10:00"; "3/4 2:00"].
Proof.
  apply (chart_not_chronological unit_compare 0 _ _ "3/4"); [|reflexivity|reflexivity].
  intros p a b x y _ _ Hab. induction p as [|c p IH]; rewrite ?app_nil_l, ?app_cons; cbn [unit_compare].
  - assert (code a ?= code b = Lt)%N as -> by (by apply N.compare_lt_iff).
    by assert (code b ?= code a = Gt)%N as -> by (by apply N.compare_gt_iff).
  - by rewrite N.compare_refl.
Defined.
