(* ===== verification/Usage.v ===== *)
(** * Usage and billing: web/src/app/dashboard/billing

    The usage page's aggregations over the audit log, its projection and
    estimate, its alert and tag lists, its export, and the tab bar of the billing
    layout; with the backend's monthly cap (api/app/api/usage.py).  [now] is the
    time the module was loaded, [tz] the browser's offset.  Charted names are
    taken to be other than the properties every object inherits. *)

From Stdlib Require Import ZifyBool SpecFloat.
From S2P Require Import Prelude JsString Json Browser ApiTypes JsDate Tally JsNumber Tools.

(** [Math.floor] of a double, by its exact value *)
Definition Math_floor (x : double) : rounded :=
  match x with
  | S754_zero _ => RNum 0
  | S754_infinity s => RInf s
  | S754_nan => RNaN
  | S754_finite s m e =>
      let v := if s then Z.neg m else Z.pos m in
      RNum (if (0 <=? e)%Z then v * 2 ^ e else v / 2 ^ (- e))%Z
  end.

Definition to_double (r : rounded) : double :=
  match r with RNum z => of_Z z | RInf s => S754_infinity s | RNaN => S754_nan end.

Section usage.
Context (tz now : Z).

(** ** The plan *)
Record plan_t := mkPlan { pl_name : string; pl_requestLimit : Z; pl_enforcement : bool }.

Definition serverLimit : Z := 20.
Definition memberLimit : Z := 25.
Definition retentionDays : Z := 90.
Definition retentionGB : Z := 50.
Definition transferGB : Z := 100.
Definition basePrice : Z := 149.
(** [0.000_02]: the double nearest to 1/50000 *)
Definition pricePerRequest : double := fdiv (of_Z 1) (of_Z 50000).

(** [usage?.plan ?? "community"], ... *)
Definition planFromUsage (usage : option UsageView) : plan_t :=
  mkPlan (from_option LicensePlan_value "community" (u ← usage; p ← UsageView_plan u; p))
    (default 1000000%Z (usage ≫= UsageView_monthly_request_cap))
    (default false (usage ≫= UsageView_enforcement_enabled)).

(** ** The calendar of the current month *)
Definition today : Z * Z * Z := local_date tz now.
Definition DAY_OF_MONTH : Z := today.2.
Definition DAYS_IN_MONTH : Z := days_in_month (today.1.1) (today.1.2).

(** ** Aggregations *)

(** [String(new Date(l.created_at).getDate())], for logs with a time *)
Definition log_day (l : AuditLogView) : option string :=
  if bool_decide (AuditLogView_created_at l = "") then None
  else Some (match Date_parse tz (AuditLogView_created_at l) with
             | Some t => pretty ((local_date tz t).2)
             | None => "NaN"
             end).

Record day_row := mkDay { dr_day : string; dr_requests : Z; dr_limit : rounded }.

Definition makeDailyUsage (logs : list AuditLogView) (requestLimit : Z) : list day_row :=
  let counts := tally log_day logs in
  (fun i => let d := pretty (Z.of_nat i + 1)%Z in
            mkDay d (default 0%Z (map_get d counts)) (Math_floor (fdiv (of_Z requestLimit) (of_Z DAYS_IN_MONTH))))
    <$> seq 0 (Z.to_nat DAY_OF_MONTH).

Definition tool_label (l : AuditLogView) : string := default "unknown" (AuditLogView_tool_name l).
Definition server_label (l : AuditLogView) : string := default "unknown" (AuditLogView_server_slug l).
(** [l.subject_id ? l.subject_id.slice(0, 8) + "…" : "unknown"] *)
Definition user_label (l : AuditLogView) : string :=
  match Catalogue.nonempty (AuditLogView_subject_id l) with Some s => stake 8 s +:+ "…" | None => "unknown" end.

Definition makeToolUsage (logs : list AuditLogView) := top_entries 8 (tally (fun l => Some (tool_label l)) logs).
Definition makeServerUsage (logs : list AuditLogView) := top_entries 6 (tally (fun l => Some (server_label l)) logs).
Definition makeUserUsage (logs : list AuditLogView) := top_entries 6 (tally (fun l => Some (user_label l)) logs).

(** ** Projection *)
Record projection_row := mkProjection { pr_day : string; pr_actual : option Z; pr_projected : option rounded }.

Definition dailyAvg (dailyUsage : list day_row) : double :=
  if (0 <? DAY_OF_MONTH)%Z
  then fdiv (of_Z (foldr Z.add 0%Z (dr_requests <$> dailyUsage))) (of_Z DAY_OF_MONTH)
  else S754_zero false.

(** [1 + (d - DAY_OF_MONTH) * 0.01] *)
Definition growth (d : Z) : double := fadd (of_Z 1) (fmul (of_Z (d - DAY_OF_MONTH)) (fdiv (of_Z 1) (of_Z 100))).

Definition makeProjection (dailyUsage : list day_row) : list projection_row :=
  (fun i => let d := (Z.of_nat i + 1)%Z in
            mkProjection (pretty d) (dr_requests <$> dailyUsage !! i)
              (if (DAY_OF_MONTH <? d)%Z then Some (Math_round (fmul (dailyAvg dailyUsage) (growth d))) else None))
    <$> seq 0 (Z.to_nat DAYS_IN_MONTH).

(** ** The estimate *)

(** [Math.min(100, Math.round((used / limit) * 100))] *)
Definition pct (used limit : Z) : rounded := Math_min 100 (Math_round (percent used limit)).

Definition ge (r : rounded) (k : Z) : bool :=
  match r with RNum z => (k <=? z)%Z | RInf neg => negb neg | RNaN => false end.

Definition progressColor (p : rounded) : string :=
  if ge p 90 then "var(--pc-critical)" else if ge p 70 then "var(--pc-warning)" else "var(--pc-primary)".

Definition requestsUsed (usage : option UsageView) (logs : list AuditLogView) : Z :=
  default (Z.of_nat (length logs)) (usage ≫= UsageView_requests).

Definition projectedTotal (used : Z) : rounded :=
  Math_round (fmul (fdiv (of_Z used) (of_Z DAY_OF_MONTH)) (of_Z DAYS_IN_MONTH)).

(** [Math.max(0, projectedTotal - PLAN.requestLimit)] *)
Definition overage (used limit : Z) : rounded :=
  match projectedTotal used with
  | RNum z => RNum (Z.max 0 (z - limit))
  | RInf neg => if neg then RNum 0 else RInf false
  | RNaN => RNaN
  end.

Definition overageCost (used limit : Z) : double := fmul (to_double (overage used limit)) pricePerRequest.
Definition estimatedBill (used limit : Z) : double := fadd (of_Z basePrice) (overageCost used limit).

(** [overage > 0] *)
Definition overage_banner (usage : option UsageView) (logs : list AuditLogView) : bool :=
  match overage (requestsUsed usage logs) (pl_requestLimit (planFromUsage usage)) with
  | RNum z => (0 <? z)%Z
  | RInf neg => negb neg
  | RNaN => false
  end.

(** [fmt] *)
Definition fmt (n : Z) : string :=
  if (1000000 <=? n)%Z then toFixed1 (fdiv (of_Z n) (of_Z 1000000)) +:+ "M"
  else if (1000 <=? n)%Z then toFixed1 (fdiv (of_Z n) (of_Z 1000)) +:+ "k"
  else pretty n.

(** ** Alerts, tags and export *)
Record UsageAlert := mkAlert { ua_id : string; ua_threshold : Z; ua_channel : string; ua_enabled : bool }.

Definition addAlert (clock threshold : Z) (channel : string) (p : list UsageAlert) : list UsageAlert :=
  p ++ [mkAlert (pretty clock) threshold channel true].
Definition removeAlert (id : string) (p : list UsageAlert) : list UsageAlert :=
  List.filter (fun a => negb (bool_decide (ua_id a = id))) p.
Definition toggleAlert (id : string) (p : list UsageAlert) : list UsageAlert :=
  map (fun a => if bool_decide (ua_id a = id)
                then mkAlert (ua_id a) (ua_threshold a) (ua_channel a) (negb (ua_enabled a)) else a) p.

Record CostTag := mkTag { ct_id : string; ct_key : string; ct_value : string }.
Definition addTag (clock : Z) (key value : string) (p : list CostTag) : list CostTag := p ++ [mkTag (pretty clock) key value].
Definition removeTag (id : string) (p : list CostTag) : list CostTag :=
  List.filter (fun t => negb (bool_decide (ct_id t = id))) p.

Definition csv_row (d : day_row) : string :=
  dquote +:+ "Day " +:+ dr_day d +:+ dquote +:+ "," +:+ dquote +:+ pretty (dr_requests d) +:+ dquote.
Definition exportCsv (daily : list day_row) : string :=
  join (String "010" "") ("Day,Requests" :: (csv_row <$> daily)).
End usage.

(** ** The billing layout's tabs: whether each is drawn active *)
Definition TABS : list (string * bool * bool) :=
  [("/dashboard/billing/usage", true, false); ("/dashboard/billing/subscription", false, true)].

Definition tab_active (pathname : string) (tab : string * bool * bool) : bool :=
  let '(href, tabActive, _) := tab in
  tabActive || (bool_decide (pathname = href) || startsWith pathname (href +:+ "/")).

(** The underline, which a disabled tab never has. *)
Definition tab_underlined (pathname : string) (tab : string * bool * bool) : bool :=
  negb (tab.2) && tab_active pathname tab.

(** A click on a disabled tab does not navigate. *)
Definition tab_navigates (tab : string * bool * bool) : bool := negb (tab.2).

(** ** The backend's cap: [_monthly_cap], 0 for unlimited *)
Record cap_settings := mkCaps { cap_pro : Z; cap_enterprise : Z; cap_community : Z }.

Definition monthly_cap (plan : option LicensePlan) (settings : cap_settings) : Z :=
  match plan with
  | None => 0
  | Some p =>
      if bool_decide (LicensePlan_value p = "pro") then cap_pro settings
      else if bool_decide (LicensePlan_value p = "enterprise") then cap_enterprise settings
      else cap_community settings
  end.

(** What [GET /v1/usage] answers for an organisation. *)
Definition org_usage (plan : option LicensePlan) (settings : cap_settings) (requests : Z) (enforcement : bool) : UsageView :=
  mkUsageView (Some requests) (Some 0%Z) (Some 0%Z) (Some 0%Z) "" "" (Some plan) (Some (monthly_cap plan settings))
    (Some enforcement).

(** ** Properties *)

(** The three charts: each bar is the exact number of entries with its label,
    the labels shown are the most frequent, and there are at most eight tools,
    six servers and six users. *)
Theorem charts_are_top_labels logs :
  let shows n (label : AuditLogView -> string) r :=
    (length r <= n)%nat /\
    (forall k c, (k, c) ∈ r -> c = Z.of_nat (length (filter (fun l => Some (label l) = Some k) logs)) /\ (0 < c)%Z) /\
    (forall k c k', (k, c) ∈ r -> (0 < count (fun l => Some (label l)) k' logs)%Z -> k' ∉ r.*1 ->
       (count (fun l => Some (label l)) k' logs <= c)%Z) in
  shows 8%nat tool_label (makeToolUsage logs) /\ shows 6%nat server_label (makeServerUsage logs) /\
  shows 6%nat user_label (makeUserUsage logs).
Proof. cbv zeta. split_and!; apply (top_entries_spec _ _ logs). Qed.

(** Users are told apart by eight characters: two subjects that agree on them
    share one bar. *)
Theorem users_merged_by_prefix l1 l2 s1 s2 :
  AuditLogView_subject_id l1 = Some s1 -> AuditLogView_subject_id l2 = Some s2 ->
  stake 8 s1 = stake 8 s2 -> s1 <> "" -> user_label l1 = user_label l2.
Proof.
  intros H1 H2 Hp Hne. unfold user_label. rewrite H1, H2. cbn [Catalogue.nonempty].
  rewrite (bool_decide_false (s1 = "")), (bool_decide_false (s2 = "")); [by rewrite Hp| |done].
  intros ->. by destruct s1.
Qed.

Lemma daily_requests tz now logs limit i :
  (i < Z.to_nat (DAY_OF_MONTH tz now))%nat ->
  dr_requests <$> makeDailyUsage tz now logs limit !! i = Some (count (log_day tz) (pretty (Z.of_nat i + 1)%Z) logs).
Proof.
  intros Hi. unfold makeDailyUsage. rewrite list_lookup_fmap, lookup_seq_lt by done. cbn. f_equal.
  unfold tally. rewrite group_get, tally_accumulate. destruct (Z.ltb_spec 0 (count (log_day tz) (pretty (Z.of_nat i + 1)%Z) logs)).
  - done.
  - cbn. unfold count in *. lia.
Qed.

(** The daily chart of the month counts every month: an entry adds one to the
    day of its date, whatever its month and year. *)
Theorem daily_usage_mixes_months tz now logs limit l t y m d :
  AuditLogView_created_at l <> "" -> Date_parse tz (AuditLogView_created_at l) = Some t ->
  local_date tz t = (y, m, d) -> (1 <= d <= DAY_OF_MONTH tz now)%Z ->
  exists n, dr_requests <$> makeDailyUsage tz now logs limit !! Z.to_nat (d - 1) = Some n /\
    dr_requests <$> makeDailyUsage tz now (l :: logs) limit !! Z.to_nat (d - 1) = Some (n + 1)%Z.
Proof.
  intros Hc Ht Hd Hr. exists (count (log_day tz) (pretty d) logs). rewrite !daily_requests by lia.
  replace (Z.of_nat (Z.to_nat (d - 1)) + 1)%Z with d by lia. split; [done|]. f_equal.
  unfold count. rewrite filter_cons, decide_True; [cbn [length]; lia|].
  unfold log_day. rewrite bool_decide_false by done. by rewrite Ht, Hd.
Qed.

(** The projection has one row per day of the month, and a row is either a day
    that happened or a projected one. *)
Theorem projection_covers_month tz now logs limit :
  (0 <= DAY_OF_MONTH tz now <= DAYS_IN_MONTH tz now)%Z ->
  let rows := makeProjection tz now (makeDailyUsage tz now logs limit) in
  Z.of_nat (length rows) = DAYS_IN_MONTH tz now /\
  forall r, r ∈ rows -> (is_Some (pr_actual r) /\ pr_projected r = None) \/ (pr_actual r = None /\ is_Some (pr_projected r)).
Proof.
  intros Hd. cbv zeta. unfold makeProjection. split; [rewrite length_fmap, length_seq; lia|].
  intros r. rewrite list_elem_of_fmap. intros (i & -> & Hi). cbn [pr_actual pr_projected].
  destruct (Z.ltb_spec (DAY_OF_MONTH tz now) (Z.of_nat i + 1)).
  - right. split; [|eauto]. unfold makeDailyUsage. rewrite list_lookup_fmap, lookup_seq_ge by lia. done.
  - left. split; [|done]. unfold makeDailyUsage. rewrite list_lookup_fmap, lookup_seq_lt by lia. cbn. eauto.
Qed.

(** An unlimited plan is billed as if its limit were zero: the backend's cap of
    0 means no limit, and the page counts the whole projected month as overage
    and fills the progress bar. *)
Theorem unlimited_plan_shown_exhausted tz now settings requests enforcement logs m e z :
  let usage := Some (org_usage None settings requests enforcement) in
  of_Z requests = S754_finite false m e -> projectedTotal tz now requests = RNum z -> (0 < z)%Z ->
  overage tz now (requestsUsed usage logs) (pl_requestLimit (planFromUsage usage)) = RNum z /\
  overage_banner tz now usage logs = true /\
  progressColor (pct (requestsUsed usage logs) (pl_requestLimit (planFromUsage usage))) = "var(--pc-critical)".
Proof.
  cbv zeta. intros Hf Hp Hz. change (requestsUsed _ logs) with requests. change (pl_requestLimit _) with 0%Z.
  assert (overage tz now requests 0 = RNum z) as Ho by (unfold overage; rewrite Hp; f_equal; lia).
  split; [done|]. split.
  - unfold overage_banner. change (requestsUsed _ logs) with requests. change (pl_requestLimit _) with 0%Z.
    rewrite Ho. by apply Z.ltb_lt.
  - unfold pct, percent. rewrite Hf. reflexivity.
Qed.

(** The Usage tab is underlined on every billing page, and the Subscription tab
    never is. *)
Theorem billing_tabs_fixed pathname :
  tab_underlined pathname <$> TABS = [true; false] /\ tab_navigates <$> TABS = [true; false].
Proof. done. Qed.

(** ** Witnesses *)
Definition usage_log (subject created_at : string) : AuditLogView :=
  mkAuditLogView "" None (Some subject) None AuditEventType_tool_call None (Some "echo") None "allowed" None None [] created_at.

Lemma users_merged_by_prefix_witness :
  user_label (usage_log "auth0|abcd1" "") = user_label (usage_log "auth0|abcd2" "").
Proof. by apply (users_merged_by_prefix _ _ "auth0|abcd1" "auth0|abcd2"). Defined.

(** 20 March 2026 *)
Definition demo_now : Z := 1774000000000.

Lemma daily_usage_mixes_months_witness : exists n,
  dr_requests <$> makeDailyUsage 0 demo_now [] 100 !! 4%nat = Some n /\
  dr_requests <$> makeDailyUsage 0 demo_now [usage_log "k" "2025-01-05T10:00:00Z"] 100 !! 4%nat = Some (n + 1)%Z.
Proof.
  eapply (daily_usage_mixes_months 0 demo_now [] 100 (usage_log "k" "2025-01-05T10:00:00Z") _ _ _ 5);
    [done|reflexivity|reflexivity|vm_compute; split; discriminate].
Defined.

Lemma projection_covers_month_witness :
  Z.of_nat (length (makeProjection 0 demo_now (makeDailyUsage 0 demo_now [] 100))) = 31%Z.
Proof. apply (projection_covers_month 0 demo_now [] 100). vm_compute. split; discriminate. Defined.

Lemma unlimited_plan_shown_exhausted_witness :
  let usage := Some (org_usage None (mkCaps 5000000 0 1000000) 1000 false) in
  overage 0 demo_now 1000 (pl_requestLimit (planFromUsage usage)) = RNum 1550.
Proof.
  eapply (unlimited_plan_shown_exhausted 0 demo_now (mkCaps 5000000 0 1000000) 1000 false []);
    [vm_compute; reflexivity|vm_compute; reflexivity|reflexivity].
Defined.
