(* ===== verification/Notifications.v ===== *)
(** * Notifications

    - [Inbox]: the operations shared by the panel
      (web/src/components/notification-panel.tsx) and the page
      (web/src/app/dashboard/notifications/page.tsx), and the bell;
    - the page's preferences.

    The page is a state machine over its two lists; its properties hold for
    every sequence of events. *)

From S2P Require Import Prelude JsString Json Browser.

Inductive NotifType :=
  | server_unavailable | access_approved | access_denied | api_key_expiring | policy_changed
  | usage_threshold | security_alert | invitation | incident_resolved | new_tool.

#[export] Instance NotifType_eq : EqDecision NotifType.
Proof. solve_decision. Defined.

Record Notification := mkNotification {
  n_id : string; n_type : NotifType; n_title : string; n_body : string; n_timestamp : string;
  n_read : bool; n_href : option string }.

Module Inbox.

Definition DEMO_NOTIFICATIONS : list Notification := [].

Inductive filter_value := All | Unread | OfType (t : NotifType).

#[export] Instance filter_value_eq : EqDecision filter_value.
Proof. solve_decision. Defined.

(** The choices of the panel's strip and of the page's pills. *)
Definition panel_FILTER_OPTIONS : list (filter_value * string) :=
  [(All, "All"); (Unread, "Unread"); (OfType server_unavailable, "Server"); (OfType security_alert, "Security");
   (OfType api_key_expiring, "API Keys"); (OfType usage_threshold, "Usage"); (OfType access_approved, "Access");
   (OfType policy_changed, "Policy")].

Definition unreadCount (l : list Notification) : nat := length (List.filter (fun n => negb (n_read n)) l).

Definition page_FILTER_OPTIONS (l : list Notification) : list (filter_value * string) :=
  [(All, "All"); (Unread, "Unread (" +:+ pretty (unreadCount l) +:+ ")"); (OfType security_alert, "Security");
   (OfType server_unavailable, "Servers"); (OfType api_key_expiring, "API Keys"); (OfType usage_threshold, "Usage");
   (OfType access_approved, "Access"); (OfType policy_changed, "Policy"); (OfType incident_resolved, "Incidents");
   (OfType new_tool, "Tools"); (OfType invitation, "Invitations")].

(** [{ ...n, read: true }] *)
Definition as_read (n : Notification) : Notification :=
  mkNotification (n_id n) (n_type n) (n_title n) (n_body n) (n_timestamp n) true (n_href n).

Definition markRead (id : string) (l : list Notification) : list Notification :=
  map (fun n => if bool_decide (n_id n = id) then as_read n else n) l.
Definition markAllRead (l : list Notification) : list Notification := map as_read l.
Definition deleteNotif (id : string) (l : list Notification) : list Notification :=
  List.filter (fun n => negb (bool_decide (n_id n = id))) l.

Definition passes (f : filter_value) (n : Notification) : bool :=
  match f with All => true | Unread => negb (n_read n) | OfType t => bool_decide (n_type n = t) end.
Definition filtered (f : filter_value) (l : list Notification) : list Notification := List.filter (passes f) l.

(** The bell's badge. *)
Definition badge (count : nat) : option string :=
  if (0 <? count)%nat then Some (if (9 <? count)%nat then "9+" else pretty count) else None.
End Inbox.

Module Page.
Import Inbox.

Record PrefRow := mkPref { p_type : NotifType; p_email : bool; p_slack : bool; p_inApp : bool }.

Definition DEFAULT_PREFS : list PrefRow :=
  [mkPref server_unavailable true true true; mkPref security_alert true true true;
   mkPref access_approved false false true; mkPref access_denied false false true;
   mkPref api_key_expiring true false true; mkPref policy_changed false true true;
   mkPref usage_threshold true true true; mkPref invitation true false true;
   mkPref incident_resolved false true true; mkPref new_tool false false true].

Inductive channel := email | slack | inApp.

Definition flip_channel (c : channel) (p : PrefRow) : PrefRow :=
  match c with
  | email => mkPref (p_type p) (negb (p_email p)) (p_slack p) (p_inApp p)
  | slack => mkPref (p_type p) (p_email p) (negb (p_slack p)) (p_inApp p)
  | inApp => mkPref (p_type p) (p_email p) (p_slack p) (negb (p_inApp p))
  end.

Definition togglePref (t : NotifType) (c : channel) (l : list PrefRow) : list PrefRow :=
  map (fun p => if bool_decide (p_type p = t) then flip_channel c p else p) l.

Inductive tab_id := inbox | preferences.

Record state := mkState {
  tab : tab_id; notifications : list Notification; filter_ : filter_value; prefs : list PrefRow }.

(** The page as it mounts: its state is not read from anywhere. *)
Definition initial : state := mkState inbox [] All DEFAULT_PREFS.

Inductive event :=
  | SetTab (t : tab_id) | SetFilter (f : filter_value) | Read (id : string) | ReadAll | Dismiss (id : string)
  | Toggle (t : NotifType) (c : channel) | Remount.

Definition step (e : event) (s : state) : state :=
  match e with
  | SetTab t => mkState t (notifications s) (filter_ s) (prefs s)
  | SetFilter f => mkState (tab s) (notifications s) f (prefs s)
  | Read id => mkState (tab s) (markRead id (notifications s)) (filter_ s) (prefs s)
  | ReadAll => mkState (tab s) (markAllRead (notifications s)) (filter_ s) (prefs s)
  | Dismiss id => mkState (tab s) (deleteNotif id (notifications s)) (filter_ s) (prefs s)
  | Toggle t c => mkState (tab s) (notifications s) (filter_ s) (togglePref t c (prefs s))
  | Remount => initial
  end.

Definition run (es : list event) (s : state) : state := fold_left (fun s e => step e s) es s.
End Page.

(** ** Properties: the inbox *)

(** Reading a notification takes it out of the unread view and changes nothing
    else there; reading all of them empties it; the counter is the view's
    length. *)
Theorem reading_leaves_unread_view id l :
  Inbox.filtered Inbox.Unread (Inbox.markRead id l) = Inbox.deleteNotif id (Inbox.filtered Inbox.Unread l) /\
  Inbox.filtered Inbox.Unread (Inbox.markAllRead l) = [] /\
  Inbox.unreadCount l = length (Inbox.filtered Inbox.Unread l) /\
  length (Inbox.markRead id l) = length l.
Proof.
  unfold Inbox.filtered, Inbox.deleteNotif, Inbox.markRead, Inbox.markAllRead. split_and!.
  - induction l as [|n l IH]; [done|]. cbn [map List.filter]. case_bool_decide as E; cbn [Inbox.passes Inbox.as_read n_read negb].
    + destruct (negb (n_read n)); cbn [List.filter]; [|done]. by rewrite bool_decide_true.
    + destruct (negb (n_read n)); cbn [List.filter]; [|done]. rewrite bool_decide_false by done. cbn [negb]. by rewrite IH.
  - induction l as [|n l IH]; [done|]. done.
  - done.
  - apply length_map.
Qed.

(** Nothing ever delivers a notification: whatever is clicked, the inbox is
    empty and the bell has no badge. *)
Theorem inbox_always_empty es :
  Page.notifications (Page.run es Page.initial) = [] /\
  Inbox.badge (Inbox.unreadCount (Page.notifications (Page.run es Page.initial))) = None /\
  Inbox.badge (Inbox.unreadCount Inbox.DEMO_NOTIFICATIONS) = None.
Proof.
  assert (forall s, Page.notifications s = [] -> Page.notifications (Page.run es s) = []) as H.
  { induction es as [|e es IH]; intros s Hs; [done|]. cbn. apply IH. destruct e; cbn; by rewrite ?Hs. }
  rewrite H by done. done.
Qed.

(** ** Properties: the preferences *)
Definition value_of (c : Page.channel) (p : Page.PrefRow) : bool :=
  match c with Page.email => Page.p_email p | Page.slack => Page.p_slack p | Page.inApp => Page.p_inApp p end.

#[export] Instance channel_eq : EqDecision Page.channel.
Proof. solve_decision. Defined.

(** The setting shown for a type and channel. *)
Definition setting (t : NotifType) (c : Page.channel) (l : list Page.PrefRow) : option bool :=
  value_of c <$> List.find (fun p => bool_decide (Page.p_type p = t)) l.

Definition is_toggle (t : NotifType) (c : Page.channel) (e : Page.event) : bool :=
  match e with Page.Toggle t' c' => bool_decide (t' = t) && bool_decide (c' = c) | _ => false end.

Definition odd_toggles (t : NotifType) (c : Page.channel) (es : list Page.event) : bool :=
  Nat.odd (length (List.filter (is_toggle t c) es)).

Lemma setting_toggle t c t' c' l :
  setting t c (Page.togglePref t' c' l) = xorb (bool_decide (t' = t) && bool_decide (c' = c)) <$> setting t c l.
Proof.
  unfold setting, Page.togglePref. induction l as [|p l IH]; [done|]. cbn [map List.find].
  destruct (decide (Page.p_type p = t')) as [Ht|Ht].
  - rewrite (bool_decide_true (_ = t')) by done.
    assert (Page.p_type (Page.flip_channel c' p) = Page.p_type p) as -> by by destruct c'.
    destruct (decide (Page.p_type p = t)) as [E|E].
    + rewrite (bool_decide_true (Page.p_type p = t)), (bool_decide_true (t' = t)) by congruence. cbn.
      f_equal. destruct c', c; cbn; destruct (Page.p_email p), (Page.p_slack p), (Page.p_inApp p); done.
    + rewrite (bool_decide_false (Page.p_type p = t)) by congruence. done.
  - rewrite (bool_decide_false (_ = t')) by done.
    destruct (decide (Page.p_type p = t)) as [E|E].
    + rewrite (bool_decide_true (Page.p_type p = t)), (bool_decide_false (t' = t)) by congruence. cbn. by destruct (value_of c p).
    + by rewrite (bool_decide_false (Page.p_type p = t)) by congruence.
Qed.

(** The switches are independent: between two visits a setting is its default,
    flipped once for each click on that very switch. *)
Theorem settings_are_parities es t c :
  Page.Remount ∉ es ->
  setting t c (Page.prefs (Page.run es Page.initial)) =
  xorb (odd_toggles t c es) <$> setting t c Page.DEFAULT_PREFS.
Proof.
  assert (forall s, Page.Remount ∉ es ->
    setting t c (Page.prefs (Page.run es s)) = xorb (odd_toggles t c es) <$> setting t c (Page.prefs s)) as H; [|by apply H].
  induction es as [|e es IH]; intros s He.
  { unfold odd_toggles. cbn. by destruct (setting t c (Page.prefs s)) as [[]|]. }
  apply not_elem_of_cons in He as [He1 He2]. cbn [Page.run fold_left]. change (fold_left _ es ?x) with (Page.run es x).
  rewrite IH by done. unfold odd_toggles. cbn [List.filter]. destruct e; cbn [Page.step Page.prefs is_toggle]; try done.
  rewrite setting_toggle. destruct (bool_decide _ && bool_decide _); cbn [length].
  - rewrite Nat.odd_succ, <- Nat.negb_odd. by destruct (Nat.odd _), (setting t c (Page.prefs s)) as [[]|].
  - by destruct (setting t c (Page.prefs s)) as [[]|].
Qed.

(** The preferences are not kept: the next visit starts from the defaults. *)
Lemma preferences_lost es s : Page.prefs (Page.run (es ++ [Page.Remount]) s) = Page.DEFAULT_PREFS.
Proof. unfold Page.run. by rewrite fold_left_app. Qed.

(** ** Witnesses *)
Lemma settings_are_parities_witness :
  setting policy_changed Page.email
    (Page.prefs (Page.run [Page.Toggle policy_changed Page.email; Page.Toggle policy_changed Page.slack] Page.initial)) = Some true.
Proof. rewrite (settings_are_parities _ policy_changed Page.email) by set_solver. reflexivity. Defined.
