(* ===== verification/LogsPage.v ===== *)
(** * The request logs: web/src/app/dashboard/logs/page.tsx

    The filters and the query they send, paging over the filtered rows, the row
    selection, and the detail drawer, whose sections describe one entry.  The
    page refetches every thirty seconds; the pages shown are computed from the
    latest answer. *)

From Stdlib Require Import ZifyBool.
From S2P Require Import Prelude JsString Json Browser JsDate Tally ApiTypes ApiClient AuditPage.

(** ** The list *)
Module RequestLogs.

Record Filters := mkFilters {
  search : string; eventType : string; serverSlug : string; outcome : string; timeRange : string }.

Definition DEFAULT_FILTERS : Filters := mkFilters "" "" "" "" "all".

Definition PAGE_SIZE : nat := 50.

Inductive key := KSearch | KEventType | KServerSlug | KOutcome | KTimeRange.

Definition with_filter (k : key) (v : string) (f : Filters) : Filters :=
  match k with
  | KSearch => mkFilters v (eventType f) (serverSlug f) (outcome f) (timeRange f)
  | KEventType => mkFilters (search f) v (serverSlug f) (outcome f) (timeRange f)
  | KServerSlug => mkFilters (search f) (eventType f) v (outcome f) (timeRange f)
  | KOutcome => mkFilters (search f) (eventType f) (serverSlug f) v (timeRange f)
  | KTimeRange => mkFilters (search f) (eventType f) (serverSlug f) (outcome f) v
  end.

Definition hasFilters (f : Filters) : bool :=
  negb (bool_decide (search f = "")) || negb (bool_decide (eventType f = "")) || negb (bool_decide (serverSlug f = ""))
  || negb (bool_decide (outcome f = "")) || negb (bool_decide (timeRange f = "all")).

(** What the selects offer. *)
Definition OUTCOMES : list string := [""; "allowed"; "denied"; "success"; "rate_limited"].
Definition EVENT_TYPES : list string := [""; "tool_call"; "rbac_deny"; "auth_failure"].

(** The query's parameters. *)
Definition query (f : Filters) : Params :=
  Some ([("limit", Some (JNum 200))]
        ++ (if bool_decide (eventType f = "") then [] else [("event_type", Some (JStr (eventType f)))])
        ++ (if bool_decide (serverSlug f = "") then [] else [("server_slug", Some (JStr (serverSlug f)))])).

(** [{ "1h": ... }[range] ?? Infinity] *)
Definition range_ms (range : string) : option Z :=
  if bool_decide (range = "1h") then Some 3600000%Z
  else if bool_decide (range = "6h") then Some 21600000%Z
  else if bool_decide (range = "24h") then Some 86400000%Z
  else None.

(** [Date.now() - new Date(l.created_at).getTime() < ms] *)
Definition recent (tz now : Z) (range : string) (l : AuditLogView) : bool :=
  match Date_parse tz (AuditLogView_created_at l), range_ms range with
  | None, _ => false
  | Some _, None => true
  | Some t, Some ms => (now - t <? ms)%Z
  end.

Definition matches (q : string) (l : AuditLogView) : bool :=
  let has s := includes (toLowerCase s) q in
  has (AuditLogView_id l) || has (default "" (AuditLogView_request_id l)) || has (default "" (AuditLogView_subject_id l))
  || has (default "" (AuditLogView_tool_name l)) || has (default "" (AuditLogView_server_slug l)).

Definition filtered (tz now : Z) (f : Filters) (allLogs : list AuditLogView) : list AuditLogView :=
  let r := if bool_decide (timeRange f = "all") then allLogs else List.filter (recent tz now (timeRange f)) allLogs in
  let r := filter_if (outcome f) (fun l => bool_decide (AuditLogView_outcome l = outcome f)) r in
  filter_if (trim (search f)) (matches (toLowerCase (trim (search f)))) r.

(** [rows.slice(page * PAGE_SIZE, (page + 1) * PAGE_SIZE)] for a page that is
    not negative. *)
Definition paged (page : nat) (rows : list AuditLogView) : list AuditLogView :=
  take PAGE_SIZE (drop (page * PAGE_SIZE) rows).

(** [Math.ceil(rows.length / PAGE_SIZE)] *)
Definition totalPages (rows : list AuditLogView) : nat := (length rows + (PAGE_SIZE - 1)) / PAGE_SIZE.

(** The numbered buttons: [Math.max(0, Math.min(page - 2, totalPages - 5)) + i]
    for the first five indices at most. *)
Definition page_buttons (page total : nat) : list nat :=
  map (fun i => Z.to_nat (Z.max 0 (Z.min (Z.of_nat page - 2) (Z.of_nat total - 5))) + i) (seq 0 (Nat.min total 5)).

(** What the body of the page shows. *)
Inductive body := NoMatch | Table (rows : list AuditLogView).

Definition render_body (page : nat) (rows : list AuditLogView) : body :=
  match rows with [] => NoMatch | _ => Table (paged page rows) end.
Definition pager_shown (rows : list AuditLogView) : bool := (1 <? totalPages rows)%nat.

(** *** The page as a state machine *)

(** The rows are memoised on the answer and the filters: [asOf] is the clock at
    the last change of either.  An answer equal to the last one is no event, as
    the query keeps its data then. *)
Record page := mkPage {
  filters : Filters; selectedLog : option AuditLogView; pageNo : nat; allLogs : list AuditLogView; asOf : Z }.

Definition rows (tz : Z) (p : page) : list AuditLogView := filtered tz (asOf p) (filters p) (allLogs p).

Inductive event :=
  | SetFilter (k : key) (v : string)
  | ClearFilters
  | Previous
  | PageButton (n : nat)
  | Next
  | RowClick (i : nat)
  | CloseDrawer
  | Answer (logs : list AuditLogView).   (** the query's, or a refetch's *)

Definition initial (now : Z) : page := mkPage DEFAULT_FILTERS None 0 [] now.

Definition handleRowClick (l : AuditLogView) (p : page) : page :=
  mkPage (filters p)
    (if bool_decide (AuditLogView_id <$> selectedLog p = Some (AuditLogView_id l)) then None else Some l)
    (pageNo p) (allLogs p) (asOf p).

Definition at_page (n : nat) (p : page) : page := mkPage (filters p) (selectedLog p) n (allLogs p) (asOf p).

(** Buttons that are absent or disabled do nothing. *)
Definition step (tz : Z) (te : Z * event) (p : page) : page :=
  let total := totalPages (rows tz p) in
  match te.2 with
  | SetFilter k v => mkPage (with_filter k v (filters p)) (selectedLog p) 0 (allLogs p) (te.1)
  | ClearFilters => if hasFilters (filters p) then mkPage DEFAULT_FILTERS (selectedLog p) 0 (allLogs p) (te.1) else p
  | Previous => if pager_shown (rows tz p) then at_page (pageNo p - 1) p else p
  | PageButton n => if pager_shown (rows tz p) && bool_decide (n ∈ page_buttons (pageNo p) total) then at_page n p else p
  | Next => if pager_shown (rows tz p) && (pageNo p <? total - 1)%nat
            then at_page (Nat.min (total - 1) (S (pageNo p))) p else p
  | RowClick i => match paged (pageNo p) (rows tz p) !! i with Some l => handleRowClick l p | None => p end
  | CloseDrawer => mkPage (filters p) None (pageNo p) (allLogs p) (asOf p)
  | Answer logs => mkPage (filters p) (selectedLog p) (pageNo p) logs (te.1)
  end.

Definition run (tz : Z) (es : list (Z * event)) (p : page) : page := fold_left (fun p e => step tz e p) es p.
End RequestLogs.

(** ** The detail drawer *)
Module Drawer.

Inductive status := success | error | warning | neutral | pending.

Record step := mkStep { label : string; detail : option string; st : status }.

(** [new Date(log.created_at).toISOString()] throws on an unreadable date. *)
Definition iso (tz : Z) (l : AuditLogView) : result string string :=
  match Date_parse tz (AuditLogView_created_at l) with Some t => Ok (toISOString t) | None => Err "RangeError" end.

Definition is_type (e : AuditEventType) (l : AuditLogView) : bool := bool_decide (AuditLogView_event_type l = e).
Definition auth_failed : AuditLogView -> bool := is_type AuditEventType_auth_failure.
Definition denied : AuditLogView -> bool := is_type AuditEventType_rbac_deny.
Definition tool_call : AuditLogView -> bool := is_type AuditEventType_tool_call.

Definition ok_outcome (l : AuditLogView) : bool :=
  bool_decide (AuditLogView_outcome l = "allowed") || bool_decide (AuditLogView_outcome l = "success").

Definition traceSteps (time : string) (l : AuditLogView) : list step :=
  [mkStep "Request received" (Some (default "unknown IP" (AuditLogView_client_ip l) +:+ " · " +:+ time)) neutral;
   mkStep (if auth_failed l then "Authentication failed" else "Authentication passed")
     (Some (if truthy (AuditLogView_subject_id l) then "Subject: " +:+ default "" (AuditLogView_subject_id l) else "No subject"))
     (if auth_failed l then error else success)]
  ++ (if auth_failed l then [] else
      [mkStep (if denied l then "Policy evaluation: DENY" else "Policy evaluation: ALLOW")
         (Some (if denied l
                then "RBAC rule denied " +:+ default "tool" (AuditLogView_tool_name l) +:+ " on "
                     +:+ default "server" (AuditLogView_server_slug l)
                else "Tool call permitted by role policy"))
         (if denied l then error else success)])
  ++ (if tool_call l then
      [mkStep "Upstream request dispatched"
         (Some (default "unknown" (AuditLogView_server_slug l) +:+ " → " +:+ default "unknown tool" (AuditLogView_tool_name l))) neutral;
       mkStep ("Upstream response: " +:+ AuditLogView_outcome l)
         (if truthy (AuditLogView_rpc_method l) then Some ("RPC: " +:+ default "" (AuditLogView_rpc_method l)) else None)
         (if ok_outcome l then success else error)]
      else []).

Record row := mkRow { rlabel : string; rvalue : string; copyable : bool }.

Definition dash (o : option string) : string := default "—" o.

Definition metaRows (time : string) (l : AuditLogView) : list row :=
  [mkRow "Event ID" (AuditLogView_id l) true;
   mkRow "Request ID" (dash (AuditLogView_request_id l)) (truthy (AuditLogView_request_id l));
   mkRow "Tenant" (dash (AuditLogView_tenant_id l)) false;
   mkRow "Event Type" (AuditEventType_value (AuditLogView_event_type l)) false;
   mkRow "Created At" time false].

Definition authRows (l : AuditLogView) : list row :=
  [mkRow "Subject ID" (dash (AuditLogView_subject_id l)) (truthy (AuditLogView_subject_id l));
   mkRow "Subject Type" (dash (SubjectType_value <$> AuditLogView_subject_type l)) false;
   mkRow "Client IP" (dash (AuditLogView_client_ip l)) false;
   mkRow "Auth Result" (if auth_failed l then "FAILED" else "PASSED") false].

Definition requestRows (l : AuditLogView) : list row :=
  [mkRow "Server" (dash (AuditLogView_server_slug l)) false; mkRow "Tool" (dash (AuditLogView_tool_name l)) false;
   mkRow "RPC Method" (dash (AuditLogView_rpc_method l)) false; mkRow "Outcome" (AuditLogView_outcome l) false].

(** The policy section's headline and table. *)
Definition policy_headline (l : AuditLogView) : string :=
  if tool_call l then "✓ Request permitted"
  else if denied l then "✗ Request denied by RBAC"
  else "✗ Authentication failed — policy not evaluated".

Definition policyRows (l : AuditLogView) : list row :=
  [mkRow "Server Pattern" (dash (AuditLogView_server_slug l)) false;
   mkRow "Tool Pattern" (dash (AuditLogView_tool_name l)) false;
   mkRow "Decision" (if tool_call l then "allow" else "deny") false].

(** The upstream section: [None] for the remark that nothing was sent. *)
Definition upstreamRows (l : AuditLogView) : option (list row) :=
  if tool_call l then
    Some [mkRow "Server" (dash (AuditLogView_server_slug l)) false; mkRow "Tool" (dash (AuditLogView_tool_name l)) false;
          mkRow "RPC Method" (default "tools/call" (AuditLogView_rpc_method l)) false;
          mkRow "Outcome" (AuditLogView_outcome l) false]
  else None.

Definition payload (l : AuditLogView) : json :=
  JObj [("method", JStr (default "tools/call" (AuditLogView_rpc_method l)));
        ("params", JObj [("name", JStr (default "<redacted>" (AuditLogView_tool_name l))); ("arguments", JStr "<redacted>")]);
        ("id", JNum 1)].

(** [String(log.detail[k] ?? "—")] *)
Definition detailRows (l : AuditLogView) : list row :=
  map (fun kv => mkRow (kv.1) (match kv.2 with JNull => "—" | v => js_String v end) false) (AuditLogView_detail l).

(** The ids of the sections present, in order. *)
Definition sections (l : AuditLogView) : list string :=
  ["trace"; "meta"; "auth"; "policy"; "upstream"; "response"; "payload"]
  ++ (match AuditLogView_detail l with [] => [] | _ => ["detail"] end)
  ++ ["retry"] ++ (if auth_failed l || denied l then ["errors"] else []) ++ ["related"].

(** At most one section is open. *)
Definition toggleSection (s : string) (expanded : option string) : option string :=
  if bool_decide (expanded = Some s) then None else Some s.

(** The drawer's text, or the exception its render throws. *)
Definition render (tz : Z) (l : AuditLogView) : result string (list step * list row) :=
  match iso tz l with
  | Ok time => Ok (traceSteps time l, metaRows time l)
  | Err e => Err e
  end.
End Drawer.

(** ** Properties *)
Module LogFacts.
Import RequestLogs.

Lemma total_pages_spec rs n : n < totalPages rs <-> n * PAGE_SIZE < length rs.
Proof.
  unfold totalPages, PAGE_SIZE. pose proof (Nat.div_mod_eq (length rs + (50 - 1)) 50) as H.
  pose proof (Nat.mod_upper_bound (length rs + (50 - 1)) 50 ltac:(lia)). lia.
Qed.

(** A page is legal when it is the first, or has rows. *)
Definition legal (tz : Z) (p : page) : Prop := pageNo p = 0 \/ pageNo p < totalPages (rows tz p).

Lemma map_add_seq b m k : map (fun i => b + i) (seq m k) = seq (b + m) k.
Proof. revert m. induction k as [|k IH]; intros m; [done|]. cbn [seq map]. f_equal. rewrite IH. f_equal. lia. Qed.

Lemma buttons_range page total n : n ∈ page_buttons page total -> n < total.
Proof.
  unfold page_buttons. intros (i & -> & Hi)%list_elem_of_fmap. apply elem_of_seq in Hi. lia.
Qed.

Lemma rows_at_page tz n p : rows tz (at_page n p) = rows tz p.
Proof. done. Qed.

Definition is_answer (e : event) : bool := match e with Answer _ => true | _ => false end.

Lemma step_legal tz te p : is_answer (te.2) = false -> legal tz p -> legal tz (step tz te p).
Proof.
  destruct te as [now e]. unfold legal, step. cbn [fst snd].
  destruct e as [k v| | |n| |i| |logs]; intros He Hp; try (by left).
  - destruct (hasFilters _); [by left|done].
  - destruct (pager_shown _); [|done]. rewrite rows_at_page. cbn [at_page pageNo]. lia.
  - destruct (pager_shown _); [|done]. cbn [andb]. case_bool_decide as Hn; [|done]. right. by apply buttons_range in Hn.
  - destruct (pager_shown (rows tz p)) eqn:E; [|done]. cbn [andb].
    destruct (Nat.ltb_spec (pageNo p) (totalPages (rows tz p) - 1)); [|done].
    right. rewrite rows_at_page. cbn [at_page pageNo]. lia.
  - by destruct (paged _ _ !! i).
  - done.
Qed.

Lemma page_nonempty rs n : n < totalPages rs -> paged n rs <> [].
Proof.
  intros Hn%total_pages_spec E. apply (f_equal length) in E. unfold paged, PAGE_SIZE in *.
  rewrite length_take, length_drop in E. change (length []) with 0 in E. lia.
Qed.
End LogFacts.

Import RequestLogs.

(** The rows shown are exactly the entries that pass every filter set, in the
    order of the answer; an entry whose date cannot be read passes no time
    range, not even an unknown one. *)
Theorem log_filter_exact tz now f logs l :
  filtered tz now f logs `sublist_of` logs /\
  (l ∈ filtered tz now f logs <->
   l ∈ logs /\ (timeRange f <> "all" -> recent tz now (timeRange f) l = true) /\
   (outcome f <> "" -> AuditLogView_outcome l = outcome f) /\
   (trim (search f) <> "" -> matches (toLowerCase (trim (search f))) l = true)).
Proof.
  split.
  - unfold filtered. do 2 (etrans; [apply filter_if_sublist|]). case_bool_decide; [done|apply filter_sublist].
  - unfold filtered. rewrite !filter_if_elem, bool_decide_eq_true. case_bool_decide as E; [naive_solver|].
    rewrite list_elem_of_In, filter_In, <- list_elem_of_In. naive_solver.
Qed.

(** The pages are a partition of the rows: laid end to end they are the rows in
    order, and each of them but the last has fifty. *)
Theorem pages_partition_rows rs :
  concat (map (fun n => paged n rs) (seq 0 (totalPages rs))) = rs /\
  (forall n, n < totalPages rs -> paged n rs <> []) /\
  (forall n, S n < totalPages rs -> length (paged n rs) = PAGE_SIZE).
Proof.
  assert (forall k, concat (map (fun n => paged n rs) (seq 0 k)) = take (k * PAGE_SIZE) rs) as H.
  { induction k as [|k IH]; [done|]. rewrite seq_S, map_app, concat_app, IH. cbn [map concat]. rewrite app_nil_r.
    unfold paged. replace (S k * PAGE_SIZE) with (k * PAGE_SIZE + PAGE_SIZE) by lia.
    rewrite <- (take_drop (k * PAGE_SIZE) (take (k * PAGE_SIZE + PAGE_SIZE) rs)).
    rewrite take_take, skipn_firstn_comm. f_equal; [f_equal; lia|f_equal; lia]. }
  split_and!.
  - rewrite H. apply take_ge. pose proof (LogFacts.total_pages_spec rs (totalPages rs)). lia.
  - apply LogFacts.page_nonempty.
  - intros n Hn%LogFacts.total_pages_spec. unfold paged, PAGE_SIZE in *. rewrite length_take, length_drop. lia.
Qed.

(** The numbered buttons: consecutive pages that exist, five when there are as
    many, the current one among them. *)
Theorem page_buttons_window page total :
  length (page_buttons page total) = Nat.min total 5 /\
  (forall n, n ∈ page_buttons page total -> n < total) /\
  (page < total -> page ∈ page_buttons page total) /\
  exists first, page_buttons page total = seq first (Nat.min total 5).
Proof.
  split_and!.
  - unfold page_buttons. by rewrite length_map, length_seq.
  - apply LogFacts.buttons_range.
  - intros Hp. unfold page_buttons. apply list_elem_of_fmap.
    set (base := Z.to_nat _). exists (page - base). rewrite elem_of_seq. subst base. lia.
  - eexists. apply LogFacts.map_add_seq.
Qed.

(** Between two answers the pager never leaves the rows: from a page that has
    rows, no sequence of clicks and filters shows an empty table. *)
Theorem pager_stays_on_rows tz es p :
  LogFacts.legal tz p -> (forall te, te ∈ es -> LogFacts.is_answer (te.2) = false) ->
  render_body (pageNo (run tz es p)) (rows tz (run tz es p)) <> Table [].
Proof.
  intros Hp He. assert (LogFacts.legal tz (run tz es p)) as H.
  { unfold run. revert p Hp. induction es as [|te es IH]; intros p Hp; [done|]. cbn [fold_left].
    apply IH; [intros; apply He; by right|]. apply LogFacts.step_legal; [apply He; by left|done]. }
  unfold render_body. destruct (rows tz (run tz es p)) as [|l rs] eqn:E; [done|].
  intros [= H0]. revert H0. apply LogFacts.page_nonempty.
  unfold LogFacts.legal in H. rewrite E in H. destruct H as [->|H]; [|done].
  apply LogFacts.total_pages_spec. cbn. lia.
Qed.

(** A refetch can blank the table: when the answer leaves no rows for the page
    that is open, an empty table is shown, and with at most fifty rows left
    also no pager to go back with. *)
Theorem refetch_blanks_page tz now logs p :
  let p' := step tz (now, Answer logs) p in
  rows tz p' <> [] -> totalPages (rows tz p') <= pageNo p ->
  render_body (pageNo p') (rows tz p') = Table [] /\
  (length (rows tz p') <= PAGE_SIZE ->
   pager_shown (rows tz p') = false /\
   forall now' e, (e = Previous \/ e = Next \/ exists n, e = PageButton n) -> step tz (now', e) p' = p').
Proof.
  intros p' Hne Hp. change (pageNo p') with (pageNo p).
  assert (paged (pageNo p) (rows tz p') = []) as E.
  { unfold paged. rewrite drop_ge; [by rewrite take_nil|].
    pose proof (LogFacts.total_pages_spec (rows tz p') (pageNo p)). lia. }
  split; [unfold render_body; rewrite E; by destruct (rows tz p')|].
  intros Hl. assert (pager_shown (rows tz p') = false) as Hs.
  { unfold pager_shown. pose proof (LogFacts.total_pages_spec (rows tz p') 1). unfold PAGE_SIZE in *. lia. }
  split; [done|]. intros now' e [->|[->|[n ->]]]; unfold step; cbn [fst snd]; by rewrite Hs.
Qed.

(** The outcome filter offers two outcomes the gateway never writes and leaves
    out the one it writes on a failure. *)
Theorem outcome_options_never_match tz now f logs :
  (forall l, l ∈ logs -> AuditLogView_outcome l ∈ ["allowed"; "denied"; "error"]) ->
  outcome f = "success" \/ outcome f = "rate_limited" ->
  filtered tz now f logs = [] /\ "error" ∉ OUTCOMES.
Proof.
  intros Hl Ho. split; [|vm_compute; by intros H; repeat (apply elem_of_cons in H as [H|H]; [discriminate|]); apply not_elem_of_nil in H].
  assert (forall l, l ∉ filtered tz now f logs) as H.
  { intros l. unfold filtered. rewrite !filter_if_elem, bool_decide_eq_true. intros [[Hin He] _].
    assert (l ∈ logs) as Hx.
    { revert Hin. case_bool_decide; [done|]. rewrite !list_elem_of_In, filter_In. tauto. }
    specialize (Hl l Hx). rewrite He in Hl by by destruct Ho as [-> | ->].
    destruct Ho as [E|E]; rewrite E in Hl;
      by repeat (apply elem_of_cons in Hl as [Hl|Hl]; [discriminate|]); apply not_elem_of_nil in Hl. }
  destruct (filtered tz now f logs) as [|l r]; [done|]. destruct (H l). by left.
Qed.

(** An entry of the gateway is told consistently: the trace allows the call
    exactly when the policy section does, an upstream section is there exactly
    when the trace dispatched a request, and the authentication row agrees with
    the authentication step. *)
Theorem drawer_consistent l time :
  AuditLogView_event_type l ∈ [AuditEventType_tool_call; AuditEventType_rbac_deny; AuditEventType_auth_failure] ->
  let labels := map Drawer.label (Drawer.traceSteps time l) in
  let decision := Drawer.rvalue <$> last (Drawer.policyRows l) in
  ("Policy evaluation: ALLOW" ∈ labels <-> decision = Some "allow") /\
  ("Upstream request dispatched" ∈ labels <-> is_Some (Drawer.upstreamRows l)) /\
  ("Authentication failed" ∈ labels <-> Drawer.rvalue <$> last (Drawer.authRows l) = Some "FAILED") /\
  ("Authentication failed" ∈ labels <-> Drawer.policy_headline l = "✗ Authentication failed — policy not evaluated").
Proof.
  unfold Drawer.traceSteps, Drawer.policyRows, Drawer.upstreamRows, Drawer.authRows, Drawer.policy_headline,
    Drawer.auth_failed, Drawer.denied, Drawer.tool_call, Drawer.is_type.
  destruct (AuditLogView_event_type l); intros Ht; try (exfalso; set_solver);
    cbn [bool_decide decide_rel AuditEventType_eq AuditEventType_rec AuditEventType_rect];
    cbv zeta; split_and!; set_solver.
Qed.

(** Entries of the platform are told inconsistently: authentication is said to
    have passed and to have failed, and the call to be allowed and denied. *)
Theorem platform_entries_contradict l time :
  AuditLogView_event_type l ∈ [AuditEventType_platform_admin_granted; AuditEventType_tenant_provisioned] ->
  "Authentication passed" ∈ map Drawer.label (Drawer.traceSteps time l) /\
  "Policy evaluation: ALLOW" ∈ map Drawer.label (Drawer.traceSteps time l) /\
  Drawer.policy_headline l = "✗ Authentication failed — policy not evaluated" /\
  Drawer.rvalue <$> last (Drawer.policyRows l) = Some "deny".
Proof.
  unfold Drawer.traceSteps, Drawer.policyRows, Drawer.policy_headline, Drawer.auth_failed, Drawer.denied, Drawer.tool_call,
    Drawer.is_type.
  destruct (AuditLogView_event_type l); intros Ht; try (exfalso; set_solver); split_and!; set_solver.
Qed.

(** An entry with an unreadable date cannot be opened: the drawer's render
    throws, although the table shows the row. *)
Theorem unreadable_date_throws tz l :
  Date_parse tz (AuditLogView_created_at l) = None ->
  Drawer.render tz l = Err "RangeError" /\
  render_body 0 (filtered tz 0 DEFAULT_FILTERS [l]) = Table [l].
Proof. intros H. unfold Drawer.render, Drawer.iso. by rewrite H. Qed.

(** ** Witnesses *)
Definition demo_log (e : AuditEventType) (created : string) : AuditLogView :=
  mkAuditLogView "e1" None (Some "k1") (Some SubjectType_api_key) e (Some "github") (Some "read_file") None "allowed"
    None (Some "r1") [] created.

Definition demo_day : string := "2026-01-02T00:00:00Z".

Lemma pager_stays_on_rows_witness :
  let p := mkPage DEFAULT_FILTERS None 0 (replicate 120 (demo_log AuditEventType_tool_call demo_day)) 0 in
  render_body (pageNo (run 0 [(0%Z, Next); (0%Z, PageButton 2)] p)) (rows 0 (run 0 [(0%Z, Next); (0%Z, PageButton 2)] p))
  <> Table [].
Proof.
  intros p. apply pager_stays_on_rows; [by left|]. intros te H.
  by repeat (apply elem_of_cons in H as [->|H]; [done|]); apply not_elem_of_nil in H.
Defined.

Lemma refetch_blanks_page_witness :
  let p := mkPage DEFAULT_FILTERS None 2 [] 0 in
  let p' := step 0 (0%Z, Answer [demo_log AuditEventType_tool_call demo_day]) p in
  render_body (pageNo p') (rows 0 p') = Table [] /\ pager_shown (rows 0 p') = false.
Proof.
  intros p p'.
  destruct (refetch_blanks_page 0 0 [demo_log AuditEventType_tool_call demo_day] p) as [H1 H2]; [done|vm_compute; lia|].
  split; [exact H1|]. apply H2. vm_compute. lia.
Defined.

Lemma outcome_options_never_match_witness :
  filtered 0 0 (mkFilters "" "" "" "success" "all") [demo_log AuditEventType_tool_call demo_day] = [].
Proof.
  apply (outcome_options_never_match 0 0 (mkFilters "" "" "" "success" "all")); [|by left].
  intros l ->%list_elem_of_singleton. by left.
Defined.

Lemma drawer_consistent_witness :
  is_Some (Drawer.upstreamRows (demo_log AuditEventType_tool_call demo_day)).
Proof.
  apply (drawer_consistent (demo_log AuditEventType_tool_call demo_day) ""); [by left|]. cbn. set_solver.
Defined.

Lemma platform_entries_contradict_witness :
  Drawer.policy_headline (demo_log AuditEventType_tenant_provisioned demo_day) = "✗ Authentication failed — policy not evaluated".
Proof. apply (platform_entries_contradict _ ""). cbn. set_solver. Defined.

Lemma unreadable_date_throws_witness :
  Drawer.render 0 (demo_log AuditEventType_tool_call "yesterday") = Err "RangeError".
Proof. by apply unreadable_date_throws. Defined.
