(* ===== verification/Developer.v ===== *)
(** * The developer workspace

    - [Explorer]: web/src/app/developer/tools/page.tsx
    - [DevPlayground]: web/src/app/developer/playground/page.tsx
    - [DevServers]: web/src/app/developer/servers/page.tsx
    - [DevKeys]: web/src/app/developer/api-keys/page.tsx
    - [DevUsage], [DevLogs]: web/src/app/developer/usage and logs

    Tools are the catalogue's [McpTool] (the pages declare the same shape); a
    tool's properties are listed in the order of the object's entries. *)

From Stdlib Require Import ZifyBool Sorting.Sorted.
From S2P Require Import Prelude JsString JsUri Json Browser JsInt JsonParse AuthStore AxiosClient LoginForm ApiTypes ApiClient Tally JsNumber Clipboard Tools ApiKeys.

(** ** The tool explorer *)
Module Explorer.
Import Catalogue.

Record FavEntry := mkFav { fv_server : string; fv_tool : string }.

#[global] Instance FavEntry_eq_dec : EqDecision FavEntry.
Proof. solve_decision. Defined.

Definition inferCategory (name : string) : string :=
  let n := toLowerCase name in
  if startsWith n "memory" || includes n "store" || includes n "retrieve" then "Memory"
  else if startsWith n "fs" || startsWith n "file" || includes n "read_file" || includes n "write_file"
          || includes n "directory" then "Filesystem"
  else if startsWith n "github" || startsWith n "gitlab" || includes n "repo" || includes n "commit"
          || includes n "pr_" then "Version Control"
  else if startsWith n "slack" || startsWith n "discord" || startsWith n "teams" || includes n "send_message"
       then "Messaging"
  else if startsWith n "sqlite" || startsWith n "postgres" || startsWith n "mysql" || includes n "query"
          || includes n "database" then "Database"
  else if startsWith n "http" || includes n "fetch" || includes n "request" || includes n "api_call" then "HTTP"
  else if startsWith n "shell" || includes n "execute" || includes n "run_command" || includes n "bash" then "Shell"
  else "General".

Definition DEMO_TOOLS : list McpTool :=
  [mkTool "memory/store_memory" (Some "Persist a key-value pair in the memory store for later retrieval across sessions.")
     (Some [("key", mkProp (Some "string") (Some "Unique key") None);
            ("value", mkProp (Some "string") (Some "Value to store") None);
            ("ttl", mkProp (Some "number") (Some "Time-to-live in seconds (optional)") None)])
     (Some ["key"; "value"]);
   mkTool "memory/retrieve_memory" (Some "Retrieve a previously stored value by key.")
     (Some [("key", mkProp (Some "string") (Some "Key to retrieve") None)])
     (Some ["key"]);
   mkTool "memory/list_memories" (Some "List all stored memory keys with optional prefix filter.")
     (Some [("prefix", mkProp (Some "string") (Some "Optional key prefix filter") None)])
     None;
   mkTool "filesystem/read_file" (Some "Read the contents of a file at the given path.")
     (Some [("path", mkProp (Some "string") (Some "Absolute file path") None);
            ("encoding", mkProp (Some "string") (Some "File encoding") (Some ["utf-8"; "base64"]))])
     (Some ["path"]);
   mkTool "filesystem/write_file" (Some "Write content to a file, creating it if necessary.")
     (Some [("path", mkProp (Some "string") (Some "Destination path") None);
            ("content", mkProp (Some "string") (Some "File content") None);
            ("mode", mkProp (Some "string") (Some "Write mode") (Some ["overwrite"; "append"]))])
     (Some ["path"; "content"]);
   mkTool "filesystem/list_directory" (Some "List files and directories at the given path.")
     (Some [("path", mkProp (Some "string") (Some "Directory path") None);
            ("recursive", mkProp (Some "string") (Some "Whether to list recursively") None)])
     (Some ["path"]);
   mkTool "github/search_code" (Some "Search for code across GitHub repositories using a query string.")
     (Some [("query", mkProp (Some "string") (Some "Search query") None);
            ("repo", mkProp (Some "string") (Some "Limit to repository (owner/repo)") None);
            ("language", mkProp (Some "string") (Some "Programming language filter") None)])
     (Some ["query"]);
   mkTool "github/create_issue" (Some "Create a new issue in a GitHub repository.")
     (Some [("repo", mkProp (Some "string") (Some "owner/repo") None);
            ("title", mkProp (Some "string") (Some "Issue title") None);
            ("body", mkProp (Some "string") (Some "Issue body (markdown)") None);
            ("labels", mkProp (Some "string") (Some "Comma-separated labels") None)])
     (Some ["repo"; "title"]);
   mkTool "slack/send_message" (Some "Send a message to a Slack channel or user.")
     (Some [("channel", mkProp (Some "string") (Some "Channel name or user ID") None);
            ("text", mkProp (Some "string") (Some "Message text") None);
            ("blocks", mkProp (Some "string") (Some "Block Kit JSON (optional)") None)])
     (Some ["channel"; "text"]);
   mkTool "sqlite/query" (Some "Execute a SQL query against the configured SQLite database.")
     (Some [("sql", mkProp (Some "string") (Some "SQL statement") None);
            ("params", mkProp (Some "string") (Some "JSON array of bind parameters") None)])
     (Some ["sql"]);
   mkTool "http/fetch" (Some "Make an HTTP request to an external URL.")
     (Some [("url", mkProp (Some "string") (Some "Target URL") None);
            ("method", mkProp (Some "string") (Some "HTTP method") (Some ["GET"; "POST"; "PUT"; "DELETE"; "PATCH"]));
            ("body", mkProp (Some "string") (Some "Request body JSON") None);
            ("headers", mkProp (Some "string") (Some "Headers JSON object") None)])
     (Some ["url"]);
   mkTool "shell/run_command" (Some "Run a shell command in a sandboxed environment and return stdout/stderr.")
     (Some [("command", mkProp (Some "string") (Some "Shell command to execute") None);
            ("timeout", mkProp (Some "number") (Some "Timeout in seconds (default 30)") None)])
     (Some ["command"])].

(** *** Code examples *)

(** In the templates below a backtick stands for a quotation mark. *)
Definition template (s : string) : string := smap (fun c => if bool_decide (c = "`"%char) then quote_mark else c) s.

Definition exampleArgs (t : McpTool) : string :=
  let required := default [] (mt_required t) in
  join ", "
    (map (fun kv => dquote +:+ kv.1 +:+ template "`: `" +:+ default "value" (mp_description (kv.2)) +:+ dquote)
       (take 3 (List.filter (fun kv => bool_decide (kv.1 ∈ required)) (default [] (mt_properties t))))).

Definition when_given (args before after : string) : string :=
  if bool_decide (args = "") then "" else before +:+ args +:+ after.

Definition python_example (API_BASE : string) (t : McpTool) (serverSlug : string) : string :=
  template "import httpx

response = httpx.post(
    `" +:+ API_BASE +:+ "/mcp/" +:+ serverSlug +:+ template "`,
    headers={
        `Authorization`: `Bearer YOUR_API_KEY`,
        `Content-Type`: `application/json`,
    },
    json={
        `jsonrpc`: `2.0`,
        `id`: 1,
        `method`: `tools/call`,
        `params`: {
            `name`: `" +:+ mt_name t +:+ template "`,
            `arguments`: {" +:+ when_given (exampleArgs t) "
                " "
            " +:+ template "},
        },
    },
)
result = response.json()
print(result[`result`][`content`])".

Definition javascript_example (API_BASE : string) (t : McpTool) (serverSlug : string) : string :=
  template "const response = await fetch(`" +:+ API_BASE +:+ "/mcp/" +:+ serverSlug +:+ template "`, {
  method: `POST`,
  headers: {
    `Authorization`: `Bearer YOUR_API_KEY`,
    `Content-Type`: `application/json`,
  },
  body: JSON.stringify({
    jsonrpc: `2.0`,
    id: 1,
    method: `tools/call`,
    params: {
      name: `" +:+ mt_name t +:+ template "`,
      arguments: {" +:+ when_given (exampleArgs t) " " " " +:+ template "},
    },
  }),
});

const { result } = await response.json();
console.log(result.content);".

(** The request body inside the single quotes of the curl example. *)
Definition curl_body (t : McpTool) : string :=
  template "{
    `jsonrpc`: `2.0`,
    `id`: 1,
    `method`: `tools/call`,
    `params`: {
      `name`: `" +:+ mt_name t +:+ template "`,
      `arguments`: {" +:+ when_given (exampleArgs t) "" "" +:+ "}
    }
  }".

Definition curl_example (API_BASE : string) (t : McpTool) (serverSlug : string) : string :=
  template "curl -X POST `" +:+ API_BASE +:+ "/mcp/" +:+ serverSlug +:+ template "` \
  -H `Authorization: Bearer YOUR_API_KEY` \
  -H `Content-Type: application/json` \
  -d " +:+ "'" +:+ curl_body t +:+ "'".

(** *** Access status *)
Inductive access := allowed | denied | pending.

Definition getAccessStatus (toolName : string) : access :=
  if includes toolName "shell" || includes toolName "run_command" then denied
  else if includes toolName "write" || includes toolName "create" then pending
  else allowed.

Definition playground_link (serverSlug : string) (t : McpTool) : string :=
  "/developer/playground?server=" +:+ encodeURIComponent serverSlug +:+ "&tool=" +:+ encodeURIComponent (mt_name t).

(** *** The page *)

(** The query's state: its data, whether it loads, whether it failed. *)
Record tools_query := mkToolsQuery { fetchedTools : option (list McpTool); toolsLoading : bool; toolsError : bool }.

Definition shown_tools (selectedSlug : option string) (q : tools_query) : list McpTool :=
  if negb (truthy selectedSlug) then [] else
  match fetchedTools q with
  | Some (t :: ts) => t :: ts
  | _ => if negb (toolsLoading q) && negb (toolsError q) then DEMO_TOOLS else []
  end.

Definition set_add (s : list string) (x : string) : list string := if bool_decide (x ∈ s) then s else s ++ [x].

Definition categories (tools : list McpTool) : list string :=
  "All" :: stable_sort by_code_units (fold_left set_add (map (fun t => inferCategory (mt_name t)) tools) []).

Record page := mkPage {
  selectedSlug : option string; search : string; categoryFilter : string; favorites : list FavEntry;
  detailTool : option McpTool; showFavoritesOnly : bool }.

Definition is_fav (slug tool : string) (f : FavEntry) : bool := bool_decide (f = mkFav slug tool).

Definition isFavorite (p : page) (toolName : string) : bool :=
  existsb (fun f => bool_decide (Some (fv_server f) = selectedSlug p) && bool_decide (fv_tool f = toolName)) (favorites p).

Definition keeps (p : page) (t : McpTool) : bool :=
  let q := toLowerCase (search p) in
  (bool_decide (search p = "") || includes (toLowerCase (mt_name t)) q
   || includes (toLowerCase (default "" (mt_description t))) q)
  && (bool_decide (categoryFilter p = "All") || bool_decide (inferCategory (mt_name t) = categoryFilter p))
  && (negb (showFavoritesOnly p) || isFavorite p (mt_name t)).

Definition filtered (p : page) (tools : list McpTool) : list McpTool := List.filter (keeps p) tools.

Definition with_favorites (l : list FavEntry) (p : page) : page :=
  mkPage (selectedSlug p) (search p) (categoryFilter p) l (detailTool p) (showFavoritesOnly p).

Definition toggleFavorite (toolName : string) (p : page) : page :=
  match selectedSlug p with
  | Some slug =>
      if bool_decide (slug = "") then p
      else with_favorites
             (if isFavorite p toolName then List.filter (fun f => negb (is_fav slug toolName f)) (favorites p)
              else favorites p ++ [mkFav slug toolName]) p
  | None => p
  end.

(** A server's pill: selecting it again deselects. *)
Definition selectServer (slug : string) (p : page) : page :=
  mkPage (if bool_decide (selectedSlug p = Some slug) then None else Some slug) (search p) (categoryFilter p) (favorites p)
    (detailTool p) (showFavoritesOnly p).

Definition initial (server q : option string) : page :=
  mkPage server (default "" q) "All"
    [mkFav "production-mcp" "memory/store_memory"; mkFav "production-mcp" "filesystem/read_file";
     mkFav "production-mcp" "github/search_code"] None false.
End Explorer.

(** ** The playground *)
Module DevPlayground.
Import Catalogue.

Section run.
(** [Number] on arbitrary text. *)
Context (js_Number : string -> json).

Definition field_arg (type raw : string) : json :=
  if bool_decide (type = "boolean") then JBool (bool_decide (raw = "true"))
  else if bool_decide (type = "number") || bool_decide (type = "integer")
  then (if bool_decide (raw = "") then JNum 0 else js_Number raw)
  else JStr raw.

Definition run_arg (t : McpTool) (fieldValues : gmap string string) (kv : string * McpToolProperty)
    : option (string * json) :=
  let raw := default "" (fieldValues !! kv.1) in
  if bool_decide (raw = "") && negb (Playground.is_required t (kv.1)) then None
  else Some (kv.1, field_arg (default "string" (mp_type (kv.2))) raw).

Definition run_args (t : McpTool) (fieldValues : gmap string string) : list (string * json) :=
  omap (run_arg t fieldValues) (default [] (mt_properties t)).

Record RunResult := mkRun { rr_json : json; rr_ok : bool }.

Definition mcp_post (slug method : string) (params : json) : M json :=
  w <-- get_world;
  token <-- getToken;
  res <-- fetch_plain "POST" (api_base w +:+ "/mcp/" +:+ slug)
            (("Content-Type", "application/json") :: bearer token) (Some (rpc method params));
  if negb (res_ok res) then throw (Playground.status_text res) else
  match rs_body res with
  | None => throw "SyntaxError"
  | Some JNull => throw "TypeError"
  | Some j => ret j
  end.

Definition fetchToolsList (slug : string) : M json :=
  j <-- mcp_post slug "tools/list" (JObj []);
  if SignIn.json_truthy (json_field "error" j)
  then throw (from_option js_String "undefined" (json_field "error" j ≫= json_field "message"))
  else ret (default (JArr []) (nullish (json_field "result" j ≫= json_field "tools"))).

Definition callTool (slug toolName : string) (args : list (string * json)) : M RunResult :=
  j <-- mcp_post slug "tools/call" (JObj [("name", JStr toolName); ("arguments", JObj args)]);
  ret (mkRun j (negb (SignIn.json_truthy (json_field "error" j)))).

(** *** The page: a call in flight does not stop the other controls *)
Record call := mkCall { c_slug : string; c_tool : string; c_args : list (string * json) }.

Record page := mkPage {
  serverSlug : string; toolName : string; loadedTool : option McpTool; fieldValues : gmap string string;
  runResult : option RunResult; isRunning : bool; inflight : option call; sent : list call }.

Inductive toast := ToastError (msg : string) | ToastSuccess (msg : string).

Inductive event :=
  | SelectServer (slug : string)
  | SelectTool (name : string)
  | LoadTool
  | Type_ (key value : string)
  | Run
  | Answer (r : string + RunResult).

(** The tools of the selected server, as the query has them. *)
Context (tools : string -> list McpTool).

Definition find_tool (p : page) : option McpTool :=
  if bool_decide (serverSlug p = "") then None
  else List.find (fun t => bool_decide (mt_name t = toolName p)) (tools (serverSlug p)).

Definition activeTool (p : page) : option McpTool :=
  match loadedTool p with Some t => Some t | None => find_tool p end.

Definition with_result (r : option RunResult) (running : bool) (c : option call) (s : list call) (p : page) : page :=
  mkPage (serverSlug p) (toolName p) (loadedTool p) (fieldValues p) r running c s.

Definition handleLoadTool (p : page) : page * list toast :=
  if bool_decide (serverSlug p = "") then (p, [ToastError "Select a server first."])
  else if bool_decide (toolName p = "") then (p, [ToastError "Select a tool first."])
  else match find_tool p with
       | None => (p, [ToastError "Tool not found. Try reloading."])
       | Some t => (mkPage (serverSlug p) (toolName p) (Some t) ∅ None (isRunning p) (inflight p) (sent p), [])
       end.

(** [handleRun] up to its await. *)
Definition run_start (p : page) : page :=
  match activeTool p with
  | Some t =>
      if bool_decide (serverSlug p = "") then p else
      let c := mkCall (serverSlug p) (mt_name t) (run_args t (fieldValues p)) in
      with_result None true (Some c) (sent p ++ [c]) p
  | None => p
  end.

(** The rest of it, when the answer is there. *)
Definition run_finish (r : string + RunResult) (p : page) : page * list toast :=
  match r with
  | inr res =>
      (with_result (Some res) false None (sent p) p,
       [if rr_ok res then ToastSuccess "Tool executed successfully." else ToastError "Tool returned an error."])
  | inl msg => (with_result (runResult p) false None (sent p) p, [ToastError msg])
  end.

Definition step (e : event) (p : page) : page * list toast :=
  match e with
  | SelectServer slug => (mkPage slug "" None (fieldValues p) None (isRunning p) (inflight p) (sent p), [])
  | SelectTool name => (mkPage (serverSlug p) name None (fieldValues p) None (isRunning p) (inflight p) (sent p), [])
  | LoadTool => handleLoadTool p
  | Type_ k v =>
      (mkPage (serverSlug p) (toolName p) (loadedTool p) (<[k := v]> (fieldValues p)) (runResult p) (isRunning p)
         (inflight p) (sent p), [])
  | Run => (if isRunning p then p else run_start p, [])
  | Answer r => match inflight p with Some _ => run_finish r p | None => (p, []) end
  end.

Definition initial (server tool : option string) : page :=
  mkPage (default "" server) (default "" tool) None ∅ None false None [].

Definition run (es : list event) (p : page) : page := fold_left (fun p e => (step e p).1) es p.
End run.
End DevPlayground.

(** ** The server list *)
Module DevServers.

Inductive environment := production | staging | development.

#[global] Instance environment_eq_dec : EqDecision environment.
Proof. solve_decision. Defined.

Record ServerMeta := mkMeta {
  sm_description : string; sm_owner : string; sm_toolCount : Z; sm_environment : environment;
  sm_docsUrl : string; sm_hasAccess : bool }.

Definition env_name (e : environment) : string :=
  match e with production => "production" | staging => "staging" | development => "development" end.

Definition inferred_env (lower : string) : environment :=
  if includes lower "prod" then production else if includes lower "stag" then staging else development.

(** The demo overrides: description, owner, tool count, environment, access. *)
Definition demos (lower : string) : option (string * string * Z * environment * bool) :=
  if bool_decide (lower = "production-mcp") then
    Some ("Primary production MCP gateway. Provides filesystem, memory, and GitHub integrations.", "platform-team", 24%Z,
          production, true)
  else if bool_decide (lower = "staging-mcp") then
    Some ("Pre-production staging environment for testing new tool integrations.", "platform-team", 18%Z, staging, true)
  else if bool_decide (lower = "dev-mcp") then
    Some ("Development sandbox with experimental tools. Not stable for production use.", "dev-infra", 31%Z, development, false)
  else None.

(** [random]: the outcome of [Math.floor(Math.random() * 20)]. *)
Definition inferMeta (random : Z) (slug : string) : ServerMeta :=
  let lower := toLowerCase slug in
  let env := inferred_env lower in
  let docs := "/developer/docs?server=" +:+ encodeURIComponent slug in
  match demos lower with
  | Some (d, o, n, e, a) => mkMeta d o n e docs a
  | None =>
      mkMeta ("MCP server providing tools for the " +:+ env_name env +:+ " environment.") "platform-team" (random + 5)%Z
        env docs true
  end.

(** The filter evaluates [inferMeta] with random numbers of its own. *)
Definition keeps (random : Z) (search : string) (envFilter : option environment) (s : ServerView) : bool :=
  let meta := inferMeta random (ServerView_slug s) in
  let q := toLowerCase search in
  (bool_decide (search = "") || includes (toLowerCase (ServerView_slug s)) q
   || includes (toLowerCase (ServerView_upstream_url s)) q
   || includes (toLowerCase (sm_description meta)) q || includes (toLowerCase (sm_owner meta)) q)
  && match envFilter with None => true | Some e => bool_decide (sm_environment meta = e) end.

Definition filtered (random : Z) (search : string) (envFilter : option environment) (servers : list ServerView)
    : list ServerView := List.filter (keeps random search envFilter) servers.

Definition activeCount (servers : list ServerView) : nat :=
  length (List.filter (fun s => bool_decide (ServerView_status s = ServerStatus_active)) servers).
Definition accessCount (random : Z) (servers : list ServerView) : nat :=
  length (List.filter (fun s => sm_hasAccess (inferMeta random (ServerView_slug s))) servers).
End DevServers.

(** ** Personal keys *)
Module DevKeys.

Record dialog := mkDialog { open : bool; name : string; newKey : option string; copied : bool }.

Inductive act := Invalidate (key : string) | ToastError (msg : string) | ToastSuccess (msg : string).

Definition create_body (name : string) : json := JObj [("name", JStr name)].

Section handlers.
Context (dispatch : AxiosDefaults -> AxiosConfig -> M (AxiosError + AxiosResponse)).

(** [data?.plaintext ?? data?.raw_key ?? null]; the fields are strings. *)
Definition plaintext_of (data : option json) : option string :=
  js_String <$> match nullish (data ≫= json_field "plaintext") with
                | Some v => Some v
                | None => nullish (data ≫= json_field "raw_key")
                end.

Definition error_detail (e : AxiosError) : string :=
  from_option js_String "Failed to create key"
    (nullish (ae_response e ≫= fun r => ax_data r ≫= json_field "detail")).

Definition handleCreate (d : dialog) : M (dialog * list act) :=
  try_catch
    (r <-- createApiKeyV1ApiKeysPost dispatch (create_body (name d)) None;
     ret (match r with
          | inr o => (mkDialog (open d) "" (plaintext_of (or_data o)) (copied d), [Invalidate "/v1/api-keys"])
          | inl e => (d, [ToastError (error_detail e)])
          end))
    (fun _ => ret (d, [ToastError "Failed to create key"])).

Definition handleRevoke (confirmed : bool) (keyId keyName : string) : M (list act) :=
  if negb confirmed then ret [] else
  try_catch
    (r <-- revokeApiKeyV1ApiKeysKeyIdDelete dispatch keyId None;
     ret (match r with
          | inr _ => [ToastSuccess (dquote +:+ keyName +:+ dquote +:+ " revoked"); Invalidate "/v1/api-keys"]
          | inl _ => [ToastError "Failed to revoke key"]
          end))
    (fun _ => ret [ToastError "Failed to revoke key"]).
End handlers.

Definition copyKey (d : dialog) (dom : Dom) : dialog * Dom :=
  match newKey d with
  | Some k => if bool_decide (k = "") then (d, dom) else
              let '(ok, dom) := copyToClipboard k dom in
              (if ok then mkDialog (open d) (name d) (newKey d) true else d, dom)
  | None => (d, dom)
  end.

Definition closeDialog (d : dialog) : dialog := mkDialog false "" None false.

(** The dialog's title: which of its two faces is shown. *)
Definition title (d : dialog) : string := if truthy (newKey d) then "Key Created" else "Create API Key".
End DevKeys.

(** ** Usage *)
Module DevUsage.

Definition outcome_count (o : string) (logs : list AuditLogView) : nat :=
  length (List.filter (fun l => bool_decide (AuditLogView_outcome l = o)) logs).
Definition pct (n total : nat) : rounded :=
  if (0 <? total)%nat then Math_round (percent (Z.of_nat n) (Z.of_nat total)) else RNum 0.

Record stats := mkStats { total : nat; allowed : nat; blocked : nat; allowedPct : rounded; deniedPct : rounded }.

Definition stats_of (logs : list AuditLogView) : stats :=
  let total := length logs in
  let allowed := outcome_count "allowed" logs in
  let denied := outcome_count "denied" logs in
  mkStats total allowed denied (pct allowed total) (pct denied total).

Definition recent (logs : list AuditLogView) : list AuditLogView := take 10 logs.
End DevUsage.

(** The parameters of the developer's log query: empty texts are left out. *)
Definition DevLogs_query (eventType serverSlug : string) (limit : Z) : Params :=
  Some [("event_type", JStr <$> or_none eventType); ("server_slug", JStr <$> or_none serverSlug);
        ("limit", Some (JNum limit))].

(** ** The curl example *)
Module ExampleFacts.
Import Catalogue Explorer.

(** Text that needs no escape in a JSON string. *)
Definition clean_char (c : ascii) : bool :=
  (32 <=? code c)%N && negb (bool_decide (c = quote_mark)) && negb (bool_decide (c = "\"%char)).
Definition clean : string -> bool := sforall clean_char.

Lemma quote_char_clean c : clean_char c = true -> quote_char c = String c "".
Proof. destruct c as [[] [] [] [] [] [] [] []]; intros H; first [discriminate H | reflexivity]. Qed.

Lemma quote_clean s : clean s = true -> quote s = dquote +:+ s +:+ dquote.
Proof.
  intros H. unfold quote. f_equal. f_equal. induction s as [|c s IH]; [done|]. unfold clean in *. cbn [sforall] in H.
  apply andb_true_iff in H as [Hc Hs]. cbn [quote_body]. rewrite quote_char_clean, IH by done. done.
Qed.

(** The parameters the example fills in: the first three required ones. *)
Definition example_params (t : McpTool) : list (string * McpToolProperty) :=
  take 3 (List.filter (fun kv => bool_decide (kv.1 ∈ default [] (mt_required t))) (default [] (mt_properties t))).

Definition example_value (kv : string * McpToolProperty) : string * json :=
  (kv.1, JStr (default "value" (mp_description (kv.2)))).

Definition param_clean (kv : string * McpToolProperty) : bool :=
  clean (kv.1) && clean (default "value" (mp_description (kv.2))).

Definition arg_member (ws : string) (kv : string * McpToolProperty) : member :=
  mkMember ws (kv.1) (" " +:+ quote (default "value" (mp_description (kv.2)))) (JStr (default "value" (mp_description (kv.2)))).

Lemma arg_text ws kv : param_clean kv = true ->
  member_text (arg_member ws kv) =
  ws +:+ dquote +:+ kv.1 +:+ template "`: `" +:+ default "value" (mp_description (kv.2)) +:+ dquote.
Proof.
  unfold param_clean. intros [H1 H2]%andb_true_iff. unfold member_text, arg_member. cbn [m_ws m_key m_text].
  rewrite !quote_clean by done. rewrite !sapp_assoc. done.
Qed.

Lemma args_text l : forallb param_clean l = true ->
  join ", " (map (fun kv => dquote +:+ kv.1 +:+ template "`: `" +:+ default "value" (mp_description (kv.2)) +:+ dquote) l)
  = String.concat "," (map member_text (match l with [] => [] | kv :: r => arg_member "" kv :: map (arg_member " ") r end)).
Proof.
  intros H. destruct l as [|kv l]; [done|]. cbn [forallb] in H. apply andb_true_iff in H as [Hkv Hl].
  unfold join. cbn [map]. rewrite arg_text by done. change ("" +:+ ?x) with x.
  generalize (dquote +:+ kv.1 +:+ template "`: `" +:+ default "value" (mp_description (kv.2)) +:+ dquote) as x.
  clear kv Hkv. induction l as [|kv l IH]; intros x; [done|]. cbn [forallb] in Hl. apply andb_true_iff in Hl as [Hkv Hl].
  cbn [map]. rewrite concat_cons, arg_text by done.
  change (String.concat ", " (?x :: ?y :: ?l)) with (x +:+ ", " +:+ String.concat ", " (y :: l)).
  rewrite IH by done. f_equal. change (", " +:+ ?x) with ("," +:+ " " +:+ x). f_equal.
  destruct (map member_text _); [done|]. rewrite !concat_cons. by rewrite !sapp_assoc.
Qed.

Definition line (n : nat) : string := String "010" (srepeat n " ").

(** The body is the request in JSON, spread over lines. *)
Lemma curl_body_members t :
  clean (mt_name t) = true -> forallb param_clean (example_params t) = true ->
  exists args, reads parse_value args (JObj (map example_value (example_params t))) /\
  curl_body t =
    "{" +:+ String.concat "," (map member_text
      [mkMember (line 4) "jsonrpc" (" " +:+ quote "2.0") (JStr "2.0"); mkMember (line 4) "id" " 1" (JNum 1);
       mkMember (line 4) "method" (" " +:+ quote "tools/call") (JStr "tools/call");
       mkMember (line 4) "params"
         (" {" +:+ String.concat "," (map member_text
            [mkMember (line 6) "name" (" " +:+ quote (mt_name t)) (JStr (mt_name t));
             mkMember (line 6) "arguments" (" " +:+ args) (JObj (map example_value (example_params t)))])
          +:+ line 4 +:+ "}")
         (JObj [("name", JStr (mt_name t)); ("arguments", JObj (map example_value (example_params t)))])])
    +:+ line 2 +:+ "}".
Proof.
  intros Hn Hp. exists ("{" +:+ when_given (exampleArgs t) "" "" +:+ "}").
  assert (exampleArgs t = String.concat "," (map member_text
            (match example_params t with [] => [] | kv :: r => arg_member "" kv :: map (arg_member " ") r end))) as E.
  { unfold exampleArgs. by rewrite <- args_text by done. }
  split.
  - rewrite E. destruct (example_params t) as [|kv r] eqn:Ep; [apply empty_object_reads|].
    cbn [forallb] in Hp. apply andb_true_iff in Hp as [Hkv Hr].
    set (ms := arg_member "" kv :: map (arg_member " ") r).
    assert (map example_value (kv :: r) = members ms) as ->.
    { subst ms. unfold members. cbn [map]. f_equal. rewrite map_map. by apply map_ext. }
    assert (when_given (String.concat "," (map member_text ms)) "" "" = String.concat "," (map member_text ms) +:+ "") as ->.
    { rewrite sapp_nil_r. unfold when_given. rewrite bool_decide_false; [by rewrite app_nil_l, sapp_nil_r|].
      subst ms. cbn [map]. rewrite arg_text by done. by destruct (map member_text (map (arg_member " ") r)). }
    rewrite sapp_assoc. apply object_reads; [done|done|]. subst ms. constructor; [|rewrite Forall_map];
      [|apply Forall_true; intros kv']; split; try done; apply reads_ws; try done; apply string_reads.
  - unfold member_text. cbn [m_ws m_key m_text map]. rewrite (quote_clean (mt_name t)) by done.
    unfold curl_body. generalize (when_given (exampleArgs t) "" "") as a, (mt_name t) as m. intros a m.
    cbn. rewrite <- !sapp_assoc. cbn. rewrite !sapp_assoc. cbn. done.
Qed.
End ExampleFacts.

(** ** Properties *)

(** The curl example is the request it stands for: for tools whose texts need
    no escaping, the shell passes the text between the single quotes, and that
    text is the JSON of a call with the first three required parameters. *)
Theorem curl_example_is_request API_BASE slug t :
  ExampleFacts.clean (Catalogue.mt_name t) = true ->
  forallb ExampleFacts.param_clean (ExampleFacts.example_params t) = true ->
  without "'" API_BASE = true -> without "'" slug = true -> without "'" (Explorer.curl_body t) = true ->
  exists word, drop_after "'" (Explorer.curl_example API_BASE t slug) = Some word /\
    JSON_parse (take_until "'" word) =
    Some (Catalogue.rpc "tools/call"
            (JObj [("name", JStr (Catalogue.mt_name t));
                   ("arguments", JObj (map ExampleFacts.example_value (ExampleFacts.example_params t)))])).
Proof.
  intros Hn Hp Ha Hs Hb. exists (Explorer.curl_body t +:+ "'"). split.
  - unfold Explorer.curl_example. set (b := Explorer.curl_body t +:+ "'"). rewrite <- !sapp_assoc.
    rewrite (sapp_assoc _ "'" b). apply drop_after_app. rewrite !without_app, Ha, Hs. done.
  - change (?b +:+ "'") with (b +:+ String "'" ""). rewrite take_until_app by done. apply parse_of_reads.
    destruct (ExampleFacts.curl_body_members t Hn Hp) as (args & Hargs & ->).
    eapply (object_reads (ExampleFacts.line 2)); [done|done|].
    repeat constructor; cbn [m_ws m_text m_value]; try done.
    1,3: apply (reads_ws " "); [done|apply string_reads].
    { exists 1. intros [|n] rest Hl Hr; [lia|]. change (" 1" +:+ rest) with (" " +:+ pretty 1%Z +:+ rest).
      rewrite (parse_value_ws " ") by done. by apply parse_num_roundtrip. }
    change (" {" +:+ ?x) with (" " +:+ "{" +:+ x). apply (reads_ws " "); [done|].
    eapply (object_reads (ExampleFacts.line 4)); [done|done|].
    repeat constructor; cbn [m_ws m_text m_value]; try done; apply (reads_ws " "); try done; apply string_reads.
Qed.

(** A quotation mark in a description breaks the example: its body is no longer
    JSON. *)
Definition quoting_tool : Catalogue.McpTool :=
  Catalogue.mkTool "say" None
    (Some [("text", Catalogue.mkProp (Some "string") (Some ("a " +:+ dquote +:+ "quoted" +:+ dquote +:+ " text")) None)])
    (Some ["text"]).

Theorem quoted_description_breaks_example : JSON_parse (Explorer.curl_body quoting_tool) = None.
Proof. by vm_compute. Qed.

Module ExplorerFacts.
Import Catalogue Explorer.

Lemma isFavorite_elem p slug n :
  selectedSlug p = Some slug -> isFavorite p n = bool_decide (mkFav slug n ∈ favorites p).
Proof.
  intros Hs. unfold isFavorite. rewrite Hs. apply eq_bool_prop_intro.
  rewrite bool_decide_spec, Is_true_true, existsb_exists. split.
  - intros ([s m] & Hin & H). bool_hyps. cbn in *. simplify_eq. by apply list_elem_of_In.
  - intros H. exists (mkFav slug n). split; [by apply list_elem_of_In|]. cbn. by rewrite !bool_decide_true.
Qed.

Lemma set_add_fold l s :
  NoDup s -> NoDup (fold_left set_add l s) /\ forall x, x ∈ fold_left set_add l s <-> x ∈ s \/ x ∈ l.
Proof.
  revert s. induction l as [|y l IH]; intros s Hs; cbn [fold_left]; [split; [done|set_solver]|].
  unfold set_add at 2 4. case_bool_decide as Hy.
  - destruct (IH s Hs) as [H1 H2]. split; [done|]. intros x. rewrite H2. set_solver.
  - destruct (IH (s ++ [y])) as [H1 H2]; [apply NoDup_app; split_and!; [done|set_solver|by apply NoDup_singleton]|].
    split; [done|]. intros x. rewrite H2. set_solver.
Qed.
End ExplorerFacts.

(** The star toggles one favourite: the tool's own mark flips and the favourites
    of other tools and other servers are unchanged. *)
Theorem favorite_toggles p slug n :
  Explorer.selectedSlug p = Some slug -> slug <> "" ->
  let p' := Explorer.toggleFavorite n p in
  Explorer.isFavorite p' n = negb (Explorer.isFavorite p n) /\
  forall f, f <> Explorer.mkFav slug n -> f ∈ Explorer.favorites p' <-> f ∈ Explorer.favorites p.
Proof.
  intros Hs Hne. unfold Explorer.toggleFavorite. rewrite Hs, bool_decide_false by done. cbv zeta.
  rewrite !(ExplorerFacts.isFavorite_elem _ slug) by done. cbn [Explorer.with_favorites Explorer.favorites].
  assert (forall f, f ∈ List.filter (fun f => negb (Explorer.is_fav slug n f)) (Explorer.favorites p)
            <-> f ∈ Explorer.favorites p /\ f <> Explorer.mkFav slug n) as Hf.
  { intros f. rewrite list_elem_of_In, filter_In, <- list_elem_of_In. unfold Explorer.is_fav.
    by rewrite negb_true_iff, bool_decide_eq_false. }
  destruct (decide (Explorer.mkFav slug n ∈ Explorer.favorites p)) as [Hin|Hin].
  - rewrite (bool_decide_true (_ ∈ Explorer.favorites p)) by done. cbn [negb].
    split; [apply bool_decide_eq_false; rewrite Hf; naive_solver|]. intros f Hfn. rewrite Hf. naive_solver.
  - rewrite (bool_decide_false (_ ∈ Explorer.favorites p)) by done. cbn [negb].
    split; [apply bool_decide_eq_true; set_solver|]. intros f Hfn. set_solver.
Qed.

(** The category pills: "All" and, sorted and each once, exactly the categories
    of the tools. *)
Theorem category_pills_exact tools :
  exists cats, Explorer.categories tools = "All" :: cats /\ NoDup cats /\
    StronglySorted (fun a b => by_code_units a b = true) cats /\
    forall c, c ∈ cats <-> exists t, t ∈ tools /\ Explorer.inferCategory (Catalogue.mt_name t) = c.
Proof.
  eexists. split; [reflexivity|].
  destruct (ExplorerFacts.set_add_fold (map (fun t => Explorer.inferCategory (Catalogue.mt_name t)) tools) []) as [H1 H2];
    [constructor|].
  split_and!.
  - by rewrite (stable_sort_perm by_code_units).
  - apply stable_sort_sorted, _.
  - intros c. rewrite (stable_sort_perm by_code_units), H2, elem_of_nil, list_elem_of_fmap. naive_solver.
Qed.

(** A server without tools is shown with twelve tools it does not have: an
    empty answer falls back to the demo list. *)
Theorem empty_server_shows_demo_tools slug :
  slug <> "" ->
  Explorer.shown_tools (Some slug) (Explorer.mkToolsQuery (Some []) false false) = Explorer.DEMO_TOOLS /\
  length Explorer.DEMO_TOOLS = 12 /\
  "shell/run_command" ∈ map Catalogue.mt_name Explorer.DEMO_TOOLS.
Proof.
  intros H. split_and!; [|done|apply (bool_decide_eq_true_1 _); by vm_compute].
  unfold Explorer.shown_tools, truthy. by rewrite bool_decide_false.
Qed.

Module PlayFacts.
Import Catalogue DevPlayground.

Section facts.
Context (js_Number : string -> json) (tools : string -> list McpTool).

(** Calls are for tools their server offers; the running mark, the call in
    flight and the log of calls agree. *)
Record page_ok (p : page) : Prop := {
  ok_loaded : forall t, loadedTool p = Some t -> t ∈ tools (serverSlug p);
  ok_running : isRunning p = true <-> is_Some (inflight p);
  ok_flight : forall c, inflight p = Some c -> last (sent p) = Some c;
  ok_sent : forall c, c ∈ sent p -> c_tool c ∈ map mt_name (tools (c_slug c)) }.

Lemma find_tool_offered p t : find_tool tools p = Some t -> t ∈ tools (serverSlug p).
Proof. unfold find_tool. case_bool_decide; [done|]. intros [Hin _]%find_some. by apply list_elem_of_In. Qed.

Lemma page_ok_start p : isRunning p = false -> page_ok p -> page_ok (run_start js_Number tools p).
Proof.
  intros Hr Hp. pose proof Hp as [H1 H2 H3 H4]. unfold run_start, activeTool.
  assert (forall t, t ∈ tools (serverSlug p) -> page_ok (if bool_decide (serverSlug p = "") then p else
    let c := mkCall (serverSlug p) (mt_name t) (run_args js_Number t (fieldValues p)) in
    with_result None true (Some c) (sent p ++ [c]) p)) as Hgo.
  { intros t Ht. case_bool_decide; [done|]. constructor; cbn; [done|naive_solver| |].
    - intros c [= <-]. by rewrite last_snoc.
    - intros c [Hc|Hc]%elem_of_app; [by apply H4|]. apply list_elem_of_singleton in Hc as ->. cbn.
      apply list_elem_of_fmap. eauto. }
  destruct (loadedTool p) as [t|] eqn:El; [by apply Hgo, H1|].
  destruct (find_tool tools p) as [t|] eqn:Ef; [by apply Hgo, find_tool_offered|done].
Qed.

Lemma page_ok_step e p : page_ok p -> page_ok (step js_Number tools e p).1.
Proof.
  intros Hp. pose proof Hp as [H1 H2 H3 H4]. destruct e as [s|n| |k v| |r]; cbn [step fst]; try (by constructor).
  - unfold handleLoadTool. repeat case_bool_decide; try done.
    destruct (find_tool tools p) as [t|] eqn:E; [|done]. constructor; cbn; try done.
    intros t' [= <-]. by apply find_tool_offered.
  - destruct (isRunning p) eqn:E; [done|]. by apply page_ok_start.
  - destruct (inflight p) as [c|] eqn:E; [|done]. destruct r; constructor; cbn; try done;
      (split; [done|by intros [? ?]]).
Qed.

Lemma page_ok_run es p : page_ok p -> page_ok (run js_Number tools es p).
Proof. unfold run. revert p. induction es as [|e es IH]; intros p H; [done|]. cbn. by apply IH, page_ok_step. Qed.
End facts.
End PlayFacts.

(** Whatever is clicked and however answers arrive, every call goes to a server
    that offers its tool, and at most one call, the last one sent, is waited
    for while the button shows that it runs. *)
Theorem playground_calls_offered js_Number tools server tool es :
  let p := DevPlayground.run js_Number tools es (DevPlayground.initial server tool) in
  (forall c, c ∈ DevPlayground.sent p ->
     DevPlayground.c_tool c ∈ map Catalogue.mt_name (tools (DevPlayground.c_slug c))) /\
  (DevPlayground.isRunning p = true <-> is_Some (DevPlayground.inflight p)) /\
  (forall c, DevPlayground.inflight p = Some c -> last (DevPlayground.sent p) = Some c).
Proof.
  intros p. destruct (PlayFacts.page_ok_run js_Number tools es (DevPlayground.initial server tool)) as [H1 H2 H3 H4].
  { constructor; cbn; [done|by split; [|intros [? ?]]|done|by intros c []%not_elem_of_nil]. }
  done.
Qed.

(** The arguments are the filled fields and all required ones, in the schema's
    order. *)
Theorem run_args_exact js_Number t values :
  (DevPlayground.run_args js_Number t values).*1 =
    (List.filter (fun kv => negb (bool_decide (default "" (values !! kv.1) = "")) || Playground.is_required t (kv.1))
       (default [] (Catalogue.mt_properties t))).*1.
Proof.
  unfold DevPlayground.run_args. induction (default [] (Catalogue.mt_properties t)) as [|kv l IH]; [done|].
  cbn [omap list_omap List.filter]. unfold DevPlayground.run_arg at 1.
  destruct (bool_decide (default "" (values !! kv.1) = "")), (Playground.is_required t (kv.1)); cbn; by rewrite ?IH.
Qed.

(** A late answer is shown under another tool: the result of a call that was
    running when the tool was changed appears as the new tool's. *)
Theorem late_result_shown js_Number tools p c t r :
  DevPlayground.inflight p = Some c -> DevPlayground.serverSlug p <> "" ->
  let p1 := (DevPlayground.step js_Number tools (DevPlayground.SelectTool (Catalogue.mt_name t)) p).1 in
  let p2 := (DevPlayground.step js_Number tools (DevPlayground.Answer (inr r)) p1).1 in
  DevPlayground.find_tool tools p1 = Some t -> DevPlayground.c_tool c <> Catalogue.mt_name t ->
  DevPlayground.runResult p2 = Some r /\ DevPlayground.activeTool tools p2 = Some t /\
  last (DevPlayground.sent p2) = last (DevPlayground.sent p).
Proof.
  intros Hc Hs p1 p2 Ht Hne. subst p2. cbn [DevPlayground.step]. subst p1. cbn [DevPlayground.step fst DevPlayground.inflight].
  rewrite Hc. cbn. split_and!; [done| |done]. exact Ht.
Qed.

(** Values typed for one tool are sent with another: changing the tool keeps
    the fields, and those the new tool also has are filled with the old text. *)
Theorem stale_values_sent js_Number tools p t k v pr :
  DevPlayground.serverSlug p <> "" -> DevPlayground.isRunning p = false ->
  DevPlayground.fieldValues p !! k = Some v -> v <> "" ->
  let p1 := (DevPlayground.step js_Number tools (DevPlayground.SelectTool (Catalogue.mt_name t)) p).1 in
  DevPlayground.find_tool tools p1 = Some t -> (k, pr) ∈ default [] (Catalogue.mt_properties t) ->
  exists c, DevPlayground.inflight (DevPlayground.step js_Number tools DevPlayground.Run p1).1 = Some c /\
    DevPlayground.c_tool c = Catalogue.mt_name t /\
    (k, DevPlayground.field_arg js_Number (default "string" (Catalogue.mp_type pr)) v) ∈ DevPlayground.c_args c.
Proof.
  intros Hs Hr Hv Hne p1 Ht Hk. subst p1. cbn [DevPlayground.step fst] in *. cbn [DevPlayground.isRunning]. rewrite Hr in Ht |- *.
  unfold DevPlayground.run_start, DevPlayground.activeTool. cbn [DevPlayground.loadedTool]. rewrite Ht.
  cbn [DevPlayground.serverSlug]. rewrite bool_decide_false by done. cbn. eexists. split_and!; [reflexivity|done|].
  cbn. unfold DevPlayground.run_args. apply list_elem_of_omap. exists (k, pr). split; [done|].
  unfold DevPlayground.run_arg. cbn [fst snd]. rewrite Hv. cbn. by rewrite bool_decide_false.
Qed.

(** The environment of a server is read off its slug, the demo overrides being
    redundant; and the access badge has nothing to do with permissions: every
    server is accessible but the one named like the demo sandbox. *)
Theorem server_badges_from_slug random slug :
  DevServers.sm_environment (DevServers.inferMeta random slug) = DevServers.inferred_env (toLowerCase slug) /\
  (DevServers.sm_hasAccess (DevServers.inferMeta random slug) = false <-> toLowerCase slug = "dev-mcp").
Proof.
  unfold DevServers.inferMeta, DevServers.demos.
  destruct (decide (toLowerCase slug = "production-mcp")) as [->|H1]; [done|].
  destruct (decide (toLowerCase slug = "staging-mcp")) as [->|H2]; [done|].
  destruct (decide (toLowerCase slug = "dev-mcp")) as [->|H3]; [done|].
  rewrite !bool_decide_false by done. done.
Qed.

(** The list does not depend on the random numbers, and clearing the filters
    shows every server. *)
Theorem server_filter_deterministic r1 r2 search env servers :
  DevServers.filtered r1 search env servers = DevServers.filtered r2 search env servers /\
  DevServers.filtered r1 "" None servers = servers /\
  (DevServers.accessCount r1 servers + length (List.filter (fun s => bool_decide (toLowerCase (ServerView_slug s) = "dev-mcp")) servers)
   = length servers)%nat.
Proof.
  split_and!.
  - unfold DevServers.filtered. apply filter_ext. intros s. unfold DevServers.keeps, DevServers.inferMeta.
    by destruct (DevServers.demos _) as [[[[[? ?] ?] ?] ?]|].
  - by apply filter_all_match.
  - unfold DevServers.accessCount. induction servers as [|s l IH]; [done|]. cbn [List.filter].
    pose proof (proj2 (server_badges_from_slug r1 (ServerView_slug s))) as H.
    destruct (DevServers.sm_hasAccess _); case_bool_decide as E; cbn [length]; try lia.
    + apply H in E. done.
    + destruct E. by apply H.
Qed.

(** The developer page creates keys: its request passes the backend's schema
    for every name of up to 200 characters (the organisation's wizard never
    sends such a request); the key is shown until the dialog is closed. *)
Theorem developer_key_created dispatch d w o w1 k :
  createApiKeyV1ApiKeysPost dispatch (DevKeys.create_body (DevKeys.name d)) None w = (Ok (inr o), w1) ->
  (or_data o ≫= json_field "plaintext") = Some (JStr k) -> k <> "" ->
  exists d', DevKeys.handleCreate dispatch d w = (Ok (d', [DevKeys.Invalidate "/v1/api-keys"]), w1) /\
    DevKeys.newKey d' = Some k /\ DevKeys.title d' = "Key Created" /\
    DevKeys.newKey (DevKeys.closeDialog d') = None /\
    (ApiKeyCreate_accepts (mkApiKeyCreate (DevKeys.name d) None) = true <->
     (1 <= String.length (DevKeys.name d) <= 200)%nat).
Proof.
  intros Hc Hp Hk. unfold DevKeys.handleCreate, try_catch, bind. rewrite Hc. cbn [ret]. eexists. split; [reflexivity|].
  unfold DevKeys.plaintext_of. rewrite Hp. cbn [nullish fmap option_fmap option_map js_String DevKeys.newKey].
  split_and!; [done| |done|].
  - unfold DevKeys.title, truthy. cbn [DevKeys.newKey]. by rewrite bool_decide_false.
  - unfold ApiKeyCreate_accepts. cbn. destruct (String.length (DevKeys.name d)); lia.
Qed.

(** A created key can get lost without a word: when the answer has no key, the
    dialog is an empty form again. *)
Theorem missing_plaintext_silent dispatch d w o w1 :
  createApiKeyV1ApiKeysPost dispatch (DevKeys.create_body (DevKeys.name d)) None w = (Ok (inr o), w1) ->
  DevKeys.plaintext_of (or_data o) = None ->
  DevKeys.handleCreate dispatch d w =
    (Ok (DevKeys.mkDialog (DevKeys.open d) "" None (DevKeys.copied d), [DevKeys.Invalidate "/v1/api-keys"]), w1).
Proof. intros Hc Hp. unfold DevKeys.handleCreate, try_catch, bind. rewrite Hc. cbn [ret]. by rewrite Hp. Qed.

(** The usage cards: requests are allowed, blocked, or neither, and the third
    kind is in the total only. *)
Theorem usage_cards_partition logs :
  let s := DevUsage.stats_of logs in
  (DevUsage.total s = DevUsage.allowed s + DevUsage.blocked s
     + length (filter (fun l => AuditLogView_outcome l <> "allowed" /\ AuditLogView_outcome l <> "denied") logs))%nat.
Proof.
  cbn. unfold DevUsage.outcome_count. induction logs as [|l logs IH]; [done|].
  cbn [length List.filter]. rewrite filter_cons.
  destruct (decide (AuditLogView_outcome l = "allowed")) as [E|E].
  - rewrite bool_decide_true, bool_decide_false by (rewrite ?E; done).
    rewrite decide_False by (rewrite E; naive_solver). cbn. lia.
  - rewrite bool_decide_false by done. destruct (decide (AuditLogView_outcome l = "denied")) as [E'|E'].
    + rewrite bool_decide_true by done. rewrite decide_False by naive_solver. cbn. lia.
    + rewrite bool_decide_false by done. rewrite decide_True by done. cbn. lia.
Qed.

(** ** Witnesses *)
Definition demo_search : Catalogue.McpTool :=
  Catalogue.mkTool "github/search_code" (Some "Search code")
    (Some [("query", Catalogue.mkProp (Some "string") (Some "Search query") None);
           ("repo", Catalogue.mkProp (Some "string") None None)]) (Some ["query"]).

Definition demo_delete : Catalogue.McpTool :=
  Catalogue.mkTool "github/delete_repo" None (Some [("repo", Catalogue.mkProp None None None)]) (Some ["repo"]).

Lemma curl_example_is_request_witness :
  exists word, drop_after "'" (Explorer.curl_example "http://localhost:8000" demo_search "prod") = Some word /\
    JSON_parse (take_until "'" word) =
    Some (Catalogue.rpc "tools/call"
            (JObj [("name", JStr "github/search_code"); ("arguments", JObj [("query", JStr "Search query")])])).
Proof. apply (curl_example_is_request "http://localhost:8000" "prod" demo_search); by vm_compute. Defined.

Lemma favorite_toggles_witness :
  Explorer.isFavorite (Explorer.toggleFavorite "github/search_code" (Explorer.initial (Some "production-mcp") None))
    "github/search_code" = false.
Proof.
  rewrite (proj1 (favorite_toggles (Explorer.initial (Some "production-mcp") None) "production-mcp" "github/search_code"
                    eq_refl ltac:(done))). by vm_compute.
Defined.

Definition demo_server_tools (_ : string) : list Catalogue.McpTool := [demo_search; demo_delete].
Definition demo_number (_ : string) : json := JNum 0.

Definition demo_running : DevPlayground.page :=
  DevPlayground.run demo_number demo_server_tools
    [DevPlayground.Type_ "repo" "portcullis"; DevPlayground.Run]
    (DevPlayground.initial (Some "prod") (Some "github/search_code")).

Lemma late_result_shown_witness :
  let r := DevPlayground.mkRun (JObj []) true in
  let p1 := (DevPlayground.step demo_number demo_server_tools (DevPlayground.SelectTool "github/delete_repo") demo_running).1 in
  DevPlayground.runResult (DevPlayground.step demo_number demo_server_tools (DevPlayground.Answer (inr r)) p1).1 = Some r.
Proof.
  intros r p1.
  apply (late_result_shown demo_number demo_server_tools demo_running
    (DevPlayground.mkCall "prod" "github/search_code" [("query", JStr ""); ("repo", JStr "portcullis")]) demo_delete r);
    try (by vm_compute); done.
Defined.

Lemma stale_values_sent_witness :
  exists c, DevPlayground.inflight (DevPlayground.run demo_number demo_server_tools
      [DevPlayground.Type_ "repo" "portcullis"; DevPlayground.SelectTool "github/delete_repo"; DevPlayground.Run]
      (DevPlayground.initial (Some "prod") (Some "github/search_code"))) = Some c /\
    DevPlayground.c_tool c = "github/delete_repo" /\ ("repo", JStr "portcullis") ∈ DevPlayground.c_args c.
Proof.
  apply (stale_values_sent demo_number demo_server_tools
    (DevPlayground.run demo_number demo_server_tools [DevPlayground.Type_ "repo" "portcullis"]
       (DevPlayground.initial (Some "prod") (Some "github/search_code"))) demo_delete "repo" "portcullis"
    (Catalogue.mkProp None None None)); try (by vm_compute); try done. by left.
Defined.
