(* ===== verification/AdminPages.v ===== *)
(** * The platform administration pages

    - [Security]: web/src/app/admin/security/page.tsx
    - [Subjects]: web/src/app/admin/users/page.tsx
    - [Organizations]: web/src/app/admin/organizations/page.tsx
    - [Infrastructure]: web/src/app/admin/infrastructure/page.tsx
    - [Plans]: web/src/app/admin/billing/page.tsx
    - [Telemetry]: web/src/app/admin/telemetry/page.tsx

    and the backend's schema of a provisioning request. *)

From Stdlib Require Import ZifyBool Sorting.Sorted.
From S2P Require Import Prelude JsString JsUri Json Browser JsInt AuthStore AxiosClient ApiTypes ApiClient JsDate Tally JsNumber Tools Servers.

(** What a handler asks the page to do. *)
Inductive admin_act :=
  | Invalidate (key : QueryKey)
  | ToastSuccess (msg : string)
  | ToastError (msg : string)
  | ToastInfo (msg : string).

(** A query is refetched by an invalidation whose key is a prefix of its own. *)
Definition invalidates (filter_key key : QueryKey) : Prop := filter_key `prefix_of` key.

Definition quoted (s : string) : string := dquote +:+ s +:+ dquote.

(** [try { await request; ... } catch { ... }] *)
Definition tried (m : Reply) (ok : orval_response -> list admin_act) (failed : list admin_act) : M (list admin_act) :=
  try_catch (r <-- m; ret (match r with inr o => ok o | inl _ => failed end)) (fun _ => ret failed).

(** ** Security *)
Module Security.

(** [const isDenied = (e) => e.outcome !== "success"] *)
Definition isDenied (e : AuditLogView) : bool := negb (bool_decide (AuditLogView_outcome e = "success")).

Definition truncate (s : option string) (n : nat) : string :=
  if negb (truthy s) then "—" else
  let s := default "" s in if (n <? String.length s)%nat then stake n s +:+ "…" else s.

Definition is_event (t : AuditEventType) (e : AuditLogView) : bool := bool_decide (AuditLogView_event_type e = t).

Definition EventBadge_label (e : AuditLogView) : string :=
  if is_event AuditEventType_auth_failure e then "Auth Failure"
  else if is_event AuditEventType_rbac_deny e then "RBAC Deny"
  else if is_event AuditEventType_tool_call e && negb (bool_decide (AuditLogView_outcome e = "success")) then "Blocked Call"
  else "Tool Call".

Definition security_event (e : AuditLogView) : bool :=
  is_event AuditEventType_auth_failure e || is_event AuditEventType_rbac_deny e
  || (is_event AuditEventType_tool_call e && isDenied e).

(** The client's address, when there is one. *)
Definition ip_of (e : AuditLogView) : option string := Catalogue.nonempty (AuditLogView_client_ip e).

Record stats := mkStats {
  authFailureCount : nat; rbacDenyCount : nat; blockedToolCalls : nat; uniqueAttackers : nat; activeApiKeys : nat;
  suspiciousIPs : list (string * Z); deniedOrFailedEvents : list AuditLogView }.

Definition stats_of (allEvents authFailures rbacDenies : list AuditLogView) (apiKeys : list ApiKeyView) : stats :=
  let bad := List.filter security_event allEvents in
  mkStats (length authFailures) (length rbacDenies)
    (length (List.filter (fun e => is_event AuditEventType_tool_call e && isDenied e) allEvents))
    (length (group ip_of (fun _ _ => ()) bad))
    (length (List.filter (fun k => bool_decide (is_Some (ApiKeyView_last_used_at k))) apiKeys))
    (List.filter (fun kv => (2 <? kv.2)%Z) (tally ip_of authFailures))
    bad.

(** [new Date(b.created_at).getTime() - new Date(a.created_at).getTime()]; a
    difference that is not a number compares as equal. *)
Definition newest_first (tz : Z) (a b : AuditLogView) : bool :=
  match Date_parse tz (AuditLogView_created_at a), Date_parse tz (AuditLogView_created_at b) with
  | Some x, Some y => (y <=? x)%Z
  | _, _ => true
  end.

Definition timelineEvents (tz : Z) (allEvents : list AuditLogView) : list AuditLogView :=
  take 50 (stable_sort (newest_first tz) (List.filter security_event allEvents)).

Record ip_info := mkInfo { ii_count : Z; ii_types : list AuditEventType; ii_lastSeen : string }.

Definition add_type (t : AuditEventType) (l : list AuditEventType) : list AuditEventType :=
  if bool_decide (t ∈ l) then l else l ++ [t].

Definition ip_bump (e : AuditLogView) (i : option ip_info) : ip_info :=
  match i with
  | Some i =>
      mkInfo (ii_count i + 1) (add_type (AuditLogView_event_type e) (ii_types i))
        (if bool_decide (String.compare (ii_lastSeen i) (AuditLogView_created_at e) = Lt)
         then AuditLogView_created_at e else ii_lastSeen i)
  | None => mkInfo 1 [AuditLogView_event_type e] (AuditLogView_created_at e)
  end.

Definition suspiciousIPRows (events : list AuditLogView) : list (string * ip_info) :=
  take 20 (stable_sort (by_desc (fun kv => ii_count (kv.2))) (group ip_of ip_bump events)).

Definition type_text (t : AuditEventType) : string :=
  match t with AuditEventType_auth_failure => "auth" | AuditEventType_rbac_deny => "rbac" | _ => "tool" end.

Definition handleRevokeKey (dispatch : AxiosDefaults -> AxiosConfig -> M (AxiosError + AxiosResponse)) (key : ApiKeyView)
    : M (list admin_act) :=
  tried (revokeApiKeyV1ApiKeysKeyIdDelete dispatch (ApiKeyView_id key) None)
    (fun _ => [Invalidate [KUrl "listApiKeysV1ApiKeysGet"];
               ToastSuccess ("API key " +:+ quoted (ApiKeyView_name key) +:+ " revoked")])
    [ToastError "Failed to revoke API key"].

Definition handleBlockIP (ip : string) : list admin_act := [ToastInfo ("IP blocking not yet configured (" +:+ ip +:+ ")")].
End Security.

(** ** Users *)
Module Subjects.

Definition activeCount (keys : list ApiKeyView) : nat :=
  length (List.filter (fun k => bool_decide (is_Some (ApiKeyView_last_used_at k))) keys).
Definition neverUsedCount (keys : list ApiKeyView) : nat :=
  length (List.filter (fun k => bool_decide (ApiKeyView_last_used_at k = None)) keys).

Definition keeps (search : string) (hasActivity : bool) (k : ApiKeyView) : bool :=
  let q := toLowerCase search in
  (bool_decide (search = "") || includes (toLowerCase (ApiKeyView_name k)) q
   || includes (toLowerCase (ApiKeyView_key_prefix k)) q)
  && (negb hasActivity || bool_decide (is_Some (ApiKeyView_last_used_at k))).

Definition filteredKeys (search : string) (hasActivity : bool) (keys : list ApiKeyView) : list ApiKeyView :=
  List.filter (keeps search hasActivity) keys.

(** The activity panel's entries. *)
Definition keyLogs (key : ApiKeyView) (logs : list AuditLogView) : list AuditLogView :=
  List.filter (fun l => bool_decide (AuditLogView_subject_id l = Some (ApiKeyView_id key))) logs.

(** The actions and the key whose panel stays open. *)
Definition handleRevoke (dispatch : AxiosDefaults -> AxiosConfig -> M (AxiosError + AxiosResponse)) (confirmed : bool)
    (key : ApiKeyView) (selectedKey : option ApiKeyView) : M (list admin_act * option ApiKeyView) :=
  if negb confirmed then ret ([], selectedKey) else
  try_catch
    (r <-- revokeApiKeyV1ApiKeysKeyIdDelete dispatch (ApiKeyView_id key) None;
     ret (match r with
          | inr _ =>
              ([ToastSuccess ("API key " +:+ quoted (ApiKeyView_name key) +:+ " revoked"); Invalidate [KUrl "/v1/api-keys"]],
               if bool_decide (ApiKeyView_id <$> selectedKey = Some (ApiKeyView_id key)) then None else selectedKey)
          | inl _ => ([ToastError "Failed to revoke key"], selectedKey)
          end))
    (fun _ => ret ([ToastError "Failed to revoke key"], selectedKey)).
End Subjects.

(** ** Organisations *)
Module Organizations.

Record form := mkForm {
  name : string; slug : string; ownerEmail : string; ownerFullName : string; plan : string; seatLimit : string }.

Definition empty_form : form := mkForm "" "" "" "" "pro" "5".

Definition PLAN_OPTIONS : list string := ["community"; "pro"; "enterprise"].

(** The slug field's change handler: [toLowerCase().replace(/[^a-z0-9-]/g, "")] *)
Definition typed_slug (text : string) : string := sfilter slug_char (toLowerCase text).

Inductive field := FName | FSlug | FOwnerEmail | FOwnerFullName | FPlan | FSeatLimit.

Definition change (k : field) (v : string) (f : form) : form :=
  match k with
  | FName => mkForm v (slug f) (ownerEmail f) (ownerFullName f) (plan f) (seatLimit f)
  | FSlug => mkForm (name f) (typed_slug v) (ownerEmail f) (ownerFullName f) (plan f) (seatLimit f)
  | FOwnerEmail => mkForm (name f) (slug f) v (ownerFullName f) (plan f) (seatLimit f)
  | FOwnerFullName => mkForm (name f) (slug f) (ownerEmail f) v (plan f) (seatLimit f)
  | FPlan => mkForm (name f) (slug f) (ownerEmail f) (ownerFullName f) v (seatLimit f)
  | FSeatLimit => mkForm (name f) (slug f) (ownerEmail f) (ownerFullName f) (plan f) v
  end.

Definition complete (f : form) : bool :=
  negb (bool_decide (trim (name f) = "")) && negb (bool_decide (trim (slug f) = ""))
  && negb (bool_decide (trim (ownerEmail f) = "")) && negb (bool_decide (trim (ownerFullName f) = "")).

(** [parseInt(seatLimit || "5", 10)]; NaN is sent as [null]. *)
Definition seat_json (f : form) : json :=
  match parseInt (if bool_decide (seatLimit f = "") then "5" else seatLimit f) with Some z => JNum z | None => JNull end.

Definition request_body (f : form) : json :=
  JObj [("name", JStr (trim (name f))); ("slug", JStr (trim (slug f))); ("owner_email", JStr (trim (ownerEmail f)));
        ("owner_full_name", JStr (trim (ownerFullName f))); ("plan", JStr (plan f)); ("seat_limit", seat_json f)].

(** The dialog; [result] holds the one-time credentials. *)
Record dialog := mkDialog { open : bool; fields : form; busy : bool; result : option json; refetched : nat }.

Definition closed : dialog := mkDialog false empty_form false None 0.

(** [handleSubmit] up to its request: [None] when nothing is sent. *)
Definition submit_start (d : dialog) : option (json * dialog) :=
  if busy d || negb (complete (fields d)) then None
  else Some (request_body (fields d), mkDialog (open d) (fields d) true (result d) (refetched d)).

(** What the request came to: the answer, or a rejection with its detail. *)
Definition submit_finish (reply : option json + orval_response) (submitted : string) (d : dialog)
    : dialog * list admin_act :=
  let idle r n := mkDialog (open d) (fields d) false r n in
  match reply with
  | inr o =>
      if (or_status o =? 201)%Z
      then (idle (or_data o) (S (refetched d)), [ToastSuccess ("Organization " +:+ quoted submitted +:+ " provisioned")])
      else (idle (result d) (refetched d), [ToastError "Failed to provision organization"])
  | inl detail =>
      (idle (result d) (refetched d), [ToastError (from_option js_String "Failed to provision organization" (nullish detail))])
  end.

Definition handleClose (d : dialog) : dialog := mkDialog false empty_form (busy d) None (refetched d).

(** *** The dialog with its request in flight *)
Record page := mkPage { dlg : dialog; inflight : option string; sent : list json }.

Inductive event :=
  | Open
  | Change (k : field) (v : string)
  | Submit
  | Close
  | Answer (reply : option json + orval_response).

Definition step (e : event) (p : page) : page * list admin_act :=
  match e with
  | Open => (mkPage (mkDialog true (fields (dlg p)) (busy (dlg p)) (result (dlg p)) (refetched (dlg p))) (inflight p) (sent p), [])
  | Change k v =>
      (mkPage (mkDialog (open (dlg p)) (change k v (fields (dlg p))) (busy (dlg p)) (result (dlg p)) (refetched (dlg p)))
         (inflight p) (sent p), [])
  | Submit =>
      match submit_start (dlg p) with
      | Some (body, d) => (mkPage d (Some (trim (name (fields (dlg p))))) (sent p ++ [body]), [])
      | None => (p, [])
      end
  | Close => (mkPage (handleClose (dlg p)) (inflight p) (sent p), [])
  | Answer reply =>
      match inflight p with
      | Some submitted => let '(d, acts) := submit_finish reply submitted (dlg p) in (mkPage d None (sent p), acts)
      | None => (p, [])
      end
  end.

Definition run (es : list event) (p : page) : page := fold_left (fun p e => (step e p).1) es p.
Definition initial : page := mkPage closed None [].

(** The dialog's title. *)
Definition title (d : dialog) : string := if result d then "Organization provisioned" else "New Organization".

(** The backend: the fields of [TenantProvisionRequest] the form sends. *)
Definition text_within (lo hi : nat) (v : option json) : bool :=
  match v with Some (JStr s) => (lo <=? String.length s)%nat && (String.length s <=? hi)%nat | _ => false end.

Definition TenantProvisionRequest_accepts (body : json) : bool :=
  text_within 1 200 (json_field "name" body)
  && match json_field "slug" body with
     | Some (JStr s) => match stored_slug s with Some n => (String.length n <=? 100)%nat | None => false end
     | _ => false
     end
  && text_within 3 320 (json_field "owner_email" body)
  && text_within 1 200 (json_field "owner_full_name" body)
  && match json_field "plan" body with Some (JStr s) => bool_decide (s ∈ PLAN_OPTIONS) | _ => false end
  && match json_field "seat_limit" body with Some (JNum z) => (0 <? z)%Z | _ => false end.
End Organizations.

(** ** Infrastructure *)
Module Infrastructure.

Definition with_status (st : ServerStatus) (servers : list ServerView) : list ServerView :=
  List.filter (fun s => bool_decide (ServerView_status s = st)) servers.

Definition totalFailures (servers : list ServerView) : Z :=
  foldr (fun s sum => (ServerView_consecutive_health_failures s + sum)%Z) 0%Z servers.

(** [servers.map(...).filter(Boolean).sort().at(-1) ?? null] *)
Definition lastCheckedAt (servers : list ServerView) : option string :=
  last (stable_sort by_code_units (omap (fun s => Catalogue.nonempty (ServerView_last_health_check_at s)) servers)).

Definition healthStatus (isFetching isError : bool) : string :=
  if isFetching then "checking" else if isError then "error" else "ok".

Definition handleDisable (dispatch : AxiosDefaults -> AxiosConfig -> M (AxiosError + AxiosResponse)) (slug : string)
    : M (list admin_act) :=
  tried (updateServerV1ServersSlugPatch dispatch slug (JObj [("status", JStr (ServerStatus_value ServerStatus_disabled))]) None)
    (fun _ => [ToastSuccess ("Server " +:+ quoted slug +:+ " disabled"); Invalidate [KUrl "/v1/servers"]])
    [ToastError "Failed to disable server"].
End Infrastructure.

(** ** Plans *)
Module Plans.

Definition progressColor (pct : rounded) : string :=
  match pct with
  | RNum z => if (90 <=? z)%Z then "#F05D5E" else if (70 <=? z)%Z then "#F4B942" else "#35C88A"
  | RInf neg => if neg then "#35C88A" else "#F05D5E"
  | RNaN => "#35C88A"
  end.

Definition usage_pct (used : Z) (limit : option Z) : rounded :=
  match limit with None => RNum 0 | Some l => Math_min 100 (Math_round (percent used l)) end.

Record LimitRow := mkLimit { lr_key : string; lr_feature : string; lr_value : string }.

Definition DEFAULT_LIMITS : list LimitRow :=
  [mkLimit "max_servers" "Max Servers" "50"; mkLimit "max_api_keys" "Max API Keys" "100";
   mkLimit "max_policies" "Max Rate Limit Policies" "Unlimited"; mkLimit "audit_retention" "Audit Log Retention" "90 days";
   mkLimit "max_body_size" "Max Request Body Size" "100 MB"; mkLimit "max_tool_timeout" "Max Tool Timeout" "30s"].

Record table := mkTable { limits : list LimitRow; editingRow : option string; editValue : string }.

Definition fresh : table := mkTable DEFAULT_LIMITS None "".

Definition startEdit (row : LimitRow) (t : table) : table := mkTable (limits t) (Some (lr_key row)) (lr_value row).
Definition typeValue (v : string) (t : table) : table := mkTable (limits t) (editingRow t) v.
Definition saveEdit (key : string) (t : table) : table :=
  mkTable (map (fun r => if bool_decide (lr_key r = key) then mkLimit (lr_key r) (lr_feature r) (editValue t) else r) (limits t))
    None (editValue t).
Definition cancelEdit (t : table) : table := mkTable (limits t) None "".
End Plans.

(** ** Telemetry *)
Module Telemetry.
Definition optInRate (total active24h : Z) : rounded :=
  if (0 <? total)%Z then Math_round (percent active24h total) else RNum 0.
End Telemetry.

(** ** Properties *)
Definition gateway_outcomes : list string := ["allowed"; "denied"; "error"].

(** The security page takes every call for an attack: the gateway writes
    [allowed] and the page expects [success], so all tool calls count as blocked,
    are labelled so, and their callers are counted as attackers. *)
Theorem every_call_counted_blocked all failures denies keys :
  (forall e, e ∈ all -> AuditLogView_outcome e ∈ gateway_outcomes) ->
  let s := Security.stats_of all failures denies keys in
  Security.blockedToolCalls s = length (List.filter (Security.is_event AuditEventType_tool_call) all) /\
  forall e, e ∈ all -> AuditLogView_event_type e = AuditEventType_tool_call ->
    Security.EventBadge_label e = "Blocked Call" /\ e ∈ Security.deniedOrFailedEvents s /\
    forall ip, Security.ip_of e = Some ip ->
      ip ∈ (group Security.ip_of Security.ip_bump (Security.deniedOrFailedEvents s)).*1.
Proof.
  intros Ho s.
  assert (forall e, e ∈ all -> Security.isDenied e = true) as Hd.
  { intros e He. specialize (Ho e He). unfold Security.isDenied. apply negb_true_iff, bool_decide_eq_false.
    intros E. rewrite E in Ho. by apply (bool_decide_eq_true_2 _) in Ho. }
  assert (forall e, e ∈ all -> AuditLogView_event_type e = AuditEventType_tool_call ->
            e ∈ Security.deniedOrFailedEvents s) as Hin.
  { intros e He Ht. subst s. cbn. rewrite list_elem_of_In, filter_In, <- list_elem_of_In. split; [done|].
    unfold Security.security_event, Security.is_event. rewrite (Hd e He), Ht. by rewrite orb_true_iff; right. }
  split.
  - subst s. cbn. f_equal. apply filter_ext_in. intros e He%list_elem_of_In. by rewrite (Hd e He), andb_true_r.
  - intros e He Ht. split_and!; [|by apply Hin|].
    + unfold Security.EventBadge_label, Security.is_event. rewrite Ht. cbn.
      specialize (Hd e He). unfold Security.isDenied in Hd. by rewrite Hd.
    + intros ip Hip. apply group_keys. eauto.
Qed.

(** Attackers and suspicious addresses are counted exactly: one attacker per
    address of a denied or failed event, and an address is suspicious exactly
    with more than two authentication failures. *)
Theorem attackers_exact all failures denies keys :
  let s := Security.stats_of all failures denies keys in
  (exists ips, NoDup ips /\ length ips = Security.uniqueAttackers s /\
     forall ip, ip ∈ ips <-> exists e, e ∈ Security.deniedOrFailedEvents s /\ Security.ip_of e = Some ip) /\
  (forall ip n, (ip, n) ∈ Security.suspiciousIPs s <-> (2 < n)%Z /\ n = count Security.ip_of ip failures).
Proof.
  intros s. split.
  - exists (group Security.ip_of (fun _ _ => ()) (Security.deniedOrFailedEvents s)).*1.
    split_and!; [apply group_nodup|by rewrite length_fmap|]. intros ip. apply group_keys.
  - intros ip n. subst s. cbn. rewrite list_elem_of_In, filter_In, <- list_elem_of_In, tally_elem. cbn. lia.
Qed.

(** The timeline shows the newest security events, newest first: nothing left
    out is newer than anything shown. *)
Theorem timeline_newest_first tz all :
  (forall e, e ∈ all -> is_Some (Date_parse tz (AuditLogView_created_at e))) ->
  let time e := default 0%Z (Date_parse tz (AuditLogView_created_at e)) in
  let r := Security.timelineEvents tz all in
  length r = Nat.min 50 (length (List.filter Security.security_event all)) /\
  StronglySorted (fun a b => (time b <= time a)%Z) r /\
  exists omitted, r ++ omitted ≡ₚ List.filter Security.security_event all /\
    forall x y, x ∈ r -> y ∈ omitted -> (time y <= time x)%Z.
Proof.
  intros Hd. apply (take_newest_spec (fun e => Date_parse tz (AuditLogView_created_at e)) 50).
  intros e He. apply Hd. apply list_elem_of_In, filter_In in He as [He _]. by apply list_elem_of_In.
Qed.

(** Revoking a key on the security page leaves it in the table: the query it
    invalidates does not exist; the users page invalidates the right one. *)
Theorem security_revoke_stale dispatch key w o w1 :
  revokeApiKeyV1ApiKeysKeyIdDelete dispatch (ApiKeyView_id key) None w = (Ok (inr o), w1) ->
  (exists acts, Security.handleRevokeKey dispatch key w = (Ok acts, w1) /\
     forall k, Invalidate k ∈ acts -> ~ invalidates k getListApiKeysV1ApiKeysGetQueryKey) /\
  (exists acts sel, Subjects.handleRevoke dispatch true key None w = (Ok (acts, sel), w1) /\
     exists k, Invalidate k ∈ acts /\ invalidates k getListApiKeysV1ApiKeysGetQueryKey).
Proof.
  intros H. split.
  - eexists. split; [unfold Security.handleRevokeKey, tried, try_catch, bind; rewrite H; reflexivity|].
    intros k Hk. repeat (apply elem_of_cons in Hk as [Hk|Hk]; [simplify_eq|]); [|by apply not_elem_of_nil in Hk].
    intros [r Hr]. done.
  - eexists _, _. split; [unfold Subjects.handleRevoke, try_catch, bind; cbn [negb]; rewrite H; reflexivity|].
    eexists. split; [right; by left|]. by exists [].
Qed.

Module SecurityFacts.
Import Security.

(** What a row says of the events of its address. *)
Definition describes (info : ip_info) (mine : list AuditLogView) : Prop :=
  ii_count info = Z.of_nat (length mine) /\
  (forall t, t ∈ ii_types info <-> exists e, e ∈ mine /\ AuditLogView_event_type e = t) /\
  (exists e, e ∈ mine /\ AuditLogView_created_at e = ii_lastSeen info) /\
  (forall e, e ∈ mine -> by_code_units (AuditLogView_created_at e) (ii_lastSeen info) = true).

Lemma elem_add_type t x l : t ∈ add_type x l <-> t ∈ l \/ t = x.
Proof. unfold add_type. case_bool_decide; set_solver. Qed.

Lemma describes_first x : describes (ip_bump x None) [x].
Proof.
  split_and!; [done|set_solver|exists x; set_solver|]. intros e ->%list_elem_of_singleton. apply code_units_refl.
Qed.

Lemma describes_next xs x i : describes i xs -> describes (ip_bump x (Some i)) (xs ++ [x]).
Proof.
  intros (Hc & Ht & (e & He & Hl) & Hm).
  destruct (latest_next AuditLogView_created_at (ii_lastSeen i) xs x) as [(y & Hy & Ey) Hx]; [split; [by exists e|done]|].
  split_and!.
  - cbn. rewrite length_app. cbn. lia.
  - intros t. cbn [ip_bump ii_types]. rewrite elem_add_type, Ht. set_solver.
  - by exists y.
  - exact Hx.
Qed.

Lemma group_describes events ip info :
  (ip, info) ∈ group ip_of ip_bump events -> describes info (filter (fun e => ip_of e = Some ip) events).
Proof.
  intros H%group_elem. revert H. apply (accumulate_inv ip_of ip_bump (fun xs i => describes i xs)).
  - intros x _. apply describes_first.
  - intros xs x i _. apply describes_next.
Qed.

End SecurityFacts.

(** The table of suspicious addresses: each row counts exactly the events of its
    address and lists exactly their types, it was last seen at the latest of
    their timestamps, and no address left out has more events. *)
Theorem suspicious_rows_exact events ip info :
  (ip, info) ∈ Security.suspiciousIPRows events ->
  SecurityFacts.describes info (filter (fun e => Security.ip_of e = Some ip) events) /\
  (forall ip', (0 < count Security.ip_of ip' events)%Z -> ip' ∉ (Security.suspiciousIPRows events).*1 ->
     (count Security.ip_of ip' events <= Security.ii_count info)%Z).
Proof.
  intros Hrow. destruct (top_groups_dominate Security.ip_of Security.ip_bump Security.ii_count 20 events) as [Hin Htop].
  { intros k v Hk. by destruct (SecurityFacts.group_describes events k v Hk) as (Hc & _). }
  split; [by apply SecurityFacts.group_describes, Hin|]. intros ip' Hc Hn. by eapply Htop.
Qed.

Module OrgFacts.
Import Organizations.

(** Forms that typing can produce. *)
Inductive typed : form -> Prop :=
  | typed_empty : typed empty_form
  | typed_change k v f : typed f -> (k = FPlan -> v ∈ PLAN_OPTIONS) -> typed (change k v f).

Lemma typed_ok f : typed f -> sforall slug_char (slug f) = true /\ plan f ∈ PLAN_OPTIONS.
Proof.
  induction 1 as [|k v f _ [H1 H2] Hk]; [split; [done|set_solver]|].
  destruct k; cbn; split; auto; apply sfilter_forall.
Qed.

Definition seats (f : form) : option Z := parseInt (if bool_decide (seatLimit f = "") then "5" else seatLimit f).

Lemma within_spec lo hi s : text_within lo hi (Some (JStr s)) = true <-> lo <= String.length s <= hi.
Proof. cbn. lia. Qed.

(** The request in flight, the mark and the log agree. *)
Definition page_ok (p : page) : Prop :=
  (busy (dlg p) = true <-> is_Some (inflight p)) /\
  forall b, b ∈ sent p -> exists f, b = request_body f /\ complete f = true.

Lemma org_ok_step e p : page_ok p -> page_ok (step e p).1.
Proof.
  intros Hp. pose proof Hp as [Hb Hs]. destruct e as [|k v| | |r]; try done.
  - cbn. unfold submit_start. destruct (busy (dlg p)) eqn:Eb; [done|].
    destruct (complete (fields (dlg p))) eqn:Ec; cbn; [|done].
    split; [naive_solver|]. intros b [Hin|Hin]%elem_of_app; [by apply Hs|]. apply list_elem_of_singleton in Hin as ->. eauto.
  - cbn. destruct (inflight p) as [n|] eqn:E; [|done].
    destruct r as [d|o]; cbn; [|destruct (or_status o =? 201)%Z; cbn]; (split; [split; [done|by intros [? ?]]|done]).
Qed.

Lemma org_ok_run es p : page_ok p -> page_ok (run es p).
Proof. unfold run. revert p. induction es as [|e es IH]; intros p H; [done|]. cbn. by apply IH, org_ok_step. Qed.
End OrgFacts.

(** Exactly which forms provision an organisation: the backend takes the
    request when the trimmed texts are in range, the slug has more than hyphens
    and the seats read as a positive number; the plan and the slug's characters
    are always right. *)
Theorem provision_accepted f :
  OrgFacts.typed f ->
  Organizations.TenantProvisionRequest_accepts (Organizations.request_body f) = true <->
  1 <= String.length (trim (Organizations.name f)) <= 200 /\
  (exists n, stored_slug (Organizations.slug f) = Some n /\ String.length n <= 100) /\
  3 <= String.length (trim (Organizations.ownerEmail f)) <= 320 /\
  1 <= String.length (trim (Organizations.ownerFullName f)) <= 200 /\
  exists z, OrgFacts.seats f = Some z /\ (0 < z)%Z.
Proof.
  intros [Hs Hp]%OrgFacts.typed_ok. unfold Organizations.TenantProvisionRequest_accepts.
  change (json_field "name" _) with (Some (JStr (trim (Organizations.name f)))).
  change (json_field "slug" _) with (Some (JStr (trim (Organizations.slug f)))).
  change (json_field "owner_email" _) with (Some (JStr (trim (Organizations.ownerEmail f)))).
  change (json_field "owner_full_name" _) with (Some (JStr (trim (Organizations.ownerFullName f)))).
  change (json_field "plan" _) with (Some (JStr (Organizations.plan f))).
  change (json_field "seat_limit" _) with (Some (Organizations.seat_json f)).
  rewrite (slug_trim (Organizations.slug f)) by done. unfold Organizations.seat_json. fold (OrgFacts.seats f).
  rewrite !andb_true_iff, !OrgFacts.within_spec, bool_decide_eq_true.
  destruct (stored_slug (Organizations.slug f)) as [n|], (OrgFacts.seats f) as [z|];
    rewrite ?Nat.leb_le, ?Z.ltb_lt; naive_solver.
Qed.

(** One organisation is provisioned at a time, and only from complete forms:
    while a request runs the button does nothing, and every request sent was
    made from a form without blank fields. *)
Theorem provisioning_sequential es :
  let p := Organizations.run es Organizations.initial in
  (Organizations.busy (Organizations.dlg p) = true <-> is_Some (Organizations.inflight p)) /\
  (forall b, b ∈ Organizations.sent p ->
     exists f, b = Organizations.request_body f /\ Organizations.complete f = true) /\
  (is_Some (Organizations.inflight p) -> Organizations.step Organizations.Submit p = (p, [])).
Proof.
  intros p. destruct (OrgFacts.org_ok_run es Organizations.initial) as [H1 H2].
  { split; [by split; [|intros [? ?]]|by intros b []%not_elem_of_nil]. }
  split_and!; [done|done|]. intros Hi%H1. fold p in Hi. cbn. unfold Organizations.submit_start. by rewrite Hi.
Qed.

(** The credentials are shown once: closing the dialog erases them; unless the
    dialog is closed while the request runs, in which case they are kept and
    shown to whoever opens the dialog next. *)
Theorem credentials_after_close p reply submitted data :
  Organizations.result (Organizations.handleClose (Organizations.dlg p)) = None /\
  (Organizations.inflight p = Some submitted ->
   reply = inr (mkOrval (Some data) 201 ∅) ->
   let p' := Organizations.run [Organizations.Close; Organizations.Answer reply; Organizations.Open] p in
   Organizations.result (Organizations.dlg p') = Some data /\
   Organizations.title (Organizations.dlg p') = "Organization provisioned").
Proof. split; [done|]. intros Hi ->. cbn. rewrite Hi. done. Qed.

(** A number input accepts exponents, [parseInt] does not: a thousand seats
    written 1e3 become one seat. *)
Theorem exponent_seats f : OrgFacts.seats (Organizations.change Organizations.FSeatLimit "1e3" f) = Some 1%Z.
Proof. reflexivity. Qed.

(** The infrastructure page: the servers are active, unhealthy or disabled, and
    the last check is the greatest of the timestamps. *)
Theorem infrastructure_figures servers :
  (length (Infrastructure.with_status ServerStatus_active servers)
   + length (Infrastructure.with_status ServerStatus_unhealthy servers)
   + length (Infrastructure.with_status ServerStatus_disabled servers) = length servers)%nat /\
  match Infrastructure.lastCheckedAt servers with
  | Some t =>
      (exists s, s ∈ servers /\ ServerView_last_health_check_at s = Some t) /\
      forall s t', s ∈ servers -> ServerView_last_health_check_at s = Some t' -> t' <> "" -> by_code_units t' t = true
  | None => forall s t', s ∈ servers -> ServerView_last_health_check_at s = Some t' -> t' = ""
  end.
Proof.
  split.
  - unfold Infrastructure.with_status. induction servers as [|s l IH]; [done|]. cbn [List.filter].
    destruct (ServerView_status s); cbn [bool_decide decide_rel length]; repeat (case_bool_decide; [|done] || case_bool_decide);
      cbn [length]; try done; lia.
  - unfold Infrastructure.lastCheckedAt.
    set (ts := omap (fun s => Catalogue.nonempty (ServerView_last_health_check_at s)) servers).
    assert (forall t, t ∈ ts <-> exists s, s ∈ servers /\ ServerView_last_health_check_at s = Some t /\ t <> "") as Hts.
    { intros t. unfold ts. rewrite list_elem_of_omap. unfold Catalogue.nonempty. split.
      - intros (s & Hs & E). destruct (ServerView_last_health_check_at s) as [x|] eqn:Ex; [|done].
        case_bool_decide; [done|]. simplify_eq. eauto.
      - intros (s & Hs & E & Hne). exists s. rewrite E. by rewrite bool_decide_false. }
    pose proof (stable_sort_sorted by_code_units ts) as Hs. pose proof (stable_sort_perm by_code_units ts) as Hp.
    destruct (last (stable_sort by_code_units ts)) as [t|] eqn:E.
    + apply last_Some in E as [l' E]. rewrite E in Hs, Hp. split.
      * destruct (proj1 (Hts t)) as (s & ? & ? & ?); [rewrite <- Hp; set_solver|eauto].
      * intros s t' Hin Ht Hne. assert (t' ∈ l' ++ [t]) as Hin' by (rewrite Hp; apply Hts; eauto).
        apply elem_of_app in Hin' as [Hl|Hl]; [|apply list_elem_of_singleton in Hl as ->; apply code_units_refl].
        clear -Hs Hl. induction l' as [|x l' IH]; [by apply not_elem_of_nil in Hl|].
        apply StronglySorted_inv in Hs as [Hs Hf]. apply elem_of_cons in Hl as [->|Hl]; [|by apply IH].
        rewrite Forall_forall in Hf. apply Hf. set_solver.
    + apply last_None in E. intros s t' Hin Ht. destruct (decide (t' = "")) as [|Hne]; [done|].
      assert (t' ∈ ts) as Hx by (apply Hts; eauto). rewrite <- Hp, E in Hx. by apply not_elem_of_nil in Hx.
Qed.

(** Editing a limit: saving stores the text in its row and leaves the others,
    cancelling leaves all of them; no other component reads the table. *)
Theorem limit_edit_exact row v t :
  let t' := Plans.saveEdit (Plans.lr_key row) (Plans.typeValue v (Plans.startEdit row t)) in
  map Plans.lr_key (Plans.limits t') = map Plans.lr_key (Plans.limits t) /\
  (forall r, r ∈ Plans.limits t -> Plans.lr_key r <> Plans.lr_key row -> r ∈ Plans.limits t') /\
  (forall r, r ∈ Plans.limits t' -> Plans.lr_key r = Plans.lr_key row -> Plans.lr_value r = v) /\
  Plans.limits (Plans.cancelEdit (Plans.typeValue v (Plans.startEdit row t))) = Plans.limits t.
Proof.
  cbv zeta. cbn [Plans.saveEdit Plans.typeValue Plans.startEdit Plans.limits Plans.cancelEdit Plans.editValue]. split_and!; [| | |done].
  - rewrite map_map. apply map_ext. intros r. by case_bool_decide.
  - intros r Hr Hk. apply list_elem_of_fmap. exists r. by rewrite bool_decide_false.
  - intros r (r0 & -> & Hr0)%list_elem_of_fmap. case_bool_decide; [done|]. cbn. done.
Qed.

(** ** Witnesses *)
Definition demo_event (id : string) (t : AuditEventType) (outcome ip at_ : string) : AuditLogView :=
  mkAuditLogView id None (Some "k1") (Some SubjectType_api_key) t (Some "github") (Some "read_file") None outcome
    (Some ip) (Some "r1") [] at_.

Definition demo_call : AuditLogView :=
  demo_event "e1" AuditEventType_tool_call "allowed" "10.0.0.1" "2026-01-02T00:00:00Z".
Definition demo_failure : AuditLogView :=
  demo_event "e2" AuditEventType_auth_failure "denied" "10.0.0.2" "2026-01-03T00:00:00Z".

Lemma every_call_counted_blocked_witness :
  Security.blockedToolCalls (Security.stats_of [demo_call; demo_failure] [demo_failure] [] []) = 1 /\
  Security.EventBadge_label demo_call = "Blocked Call".
Proof.
  destruct (every_call_counted_blocked [demo_call; demo_failure] [demo_failure] [] []) as [H1 H2].
  { intros e He. repeat (apply elem_of_cons in He as [->|He]; [cbn; set_solver|]). by apply not_elem_of_nil in He. }
  split; [rewrite H1; by vm_compute|]. apply (H2 demo_call); [by left|done].
Defined.

Lemma timeline_newest_first_witness :
  length (Security.timelineEvents 0 [demo_call; demo_failure]) = 2.
Proof.
  destruct (timeline_newest_first 0 [demo_call; demo_failure]) as [H _].
  { intros e He. repeat (apply elem_of_cons in He as [->|He]; [vm_compute; eauto|]). by apply not_elem_of_nil in He. }
  rewrite H. by vm_compute.
Defined.

Lemma suspicious_rows_exact_witness :
  SecurityFacts.describes (Security.mkInfo 2 [AuditEventType_auth_failure] "2026-01-03T00:00:00Z") [demo_failure; demo_failure].
Proof.
  apply (suspicious_rows_exact [demo_failure; demo_call; demo_failure] "10.0.0.2"). vm_compute. by left.
Defined.

Lemma provision_accepted_witness :
  Organizations.TenantProvisionRequest_accepts
    (Organizations.request_body (Organizations.mkForm "Acme" "acme" "a@acme.com" "Ada" "pro" "5")) = true.
Proof.
  apply provision_accepted.
  - change (OrgFacts.typed
      (Organizations.change Organizations.FName "Acme"
         (Organizations.change Organizations.FSlug "acme"
            (Organizations.change Organizations.FOwnerEmail "a@acme.com"
               (Organizations.change Organizations.FOwnerFullName "Ada" Organizations.empty_form))))).
    repeat (apply OrgFacts.typed_change; [|done]). apply OrgFacts.typed_empty.
  - split_and!; try (vm_compute; lia); [exists "acme"|exists 5%Z]; (split; [by vm_compute|vm_compute; lia || done]).
Defined.
