(* ===== verification/QueryHooks.v ===== *)
(** * The generated hooks and the query cache they share

    [api/generated.ts] gives every operation a declared response type and a
    react-query hook; [providers/query-provider.tsx] configures the cache all
    hooks of the console share, and the pages' mutation handlers invalidate
    parts of it.  React Query is a parameter: [useQuery], [useMutation] and the
    interface [QueryClientLaws], which states the documented behaviour the
    console relies on and which [RefClient] implements. *)

From S2P Require Import Prelude JsString JsUri Json Browser AuthStore AxiosClient ApiClient JsInt JsonParse Tally.

(** ** Declared responses

    [...ResponseSuccess | ...ResponseError]: the statuses the client's types
    admit, with the type of the data. *)
Record ResponseUnion := mkUnion { ru_success : list (Z * string); ru_error : list (Z * string) }.
#[local] Open Scope Z_scope.

Definition healthzHealthzGetResponse : ResponseUnion := mkUnion [(200, "unknown")] [].
Definition registerAuthRegisterPostResponse : ResponseUnion := mkUnion [(201, "AuthResponse")] [(422, "HTTPValidationError")].
Definition loginAuthLoginPostResponse : ResponseUnion := mkUnion [(200, "AuthResponse")] [(422, "HTTPValidationError")].
Definition meAuthMeGetResponse : ResponseUnion := mkUnion [(200, "UserView")] [(422, "HTTPValidationError")].
Definition createInviteAuthInvitesPostResponse : ResponseUnion := mkUnion [(201, "InviteView")] [(422, "HTTPValidationError")].
Definition listInvitesAuthInvitesGetResponse : ResponseUnion := mkUnion [(200, "InviteView[]")] [(422, "HTTPValidationError")].
Definition revokeInviteAuthInvitesInviteIdRevokePostResponse : ResponseUnion := mkUnion [(204, "void")] [(422, "HTTPValidationError")].
Definition listPendingUsersAuthPendingUsersGetResponse : ResponseUnion := mkUnion [(200, "UserView[]")] [(422, "HTTPValidationError")].
Definition approveUserAuthPendingUsersUserIdApprovePostResponse : ResponseUnion := mkUnion [(200, "UserView")] [(422, "HTTPValidationError")].
Definition rejectUserAuthPendingUsersUserIdRejectPostResponse : ResponseUnion := mkUnion [(204, "void")] [(422, "HTTPValidationError")].
Definition createTeamAuthTeamsPostResponse : ResponseUnion := mkUnion [(201, "TeamView")] [(422, "HTTPValidationError")].
Definition listTeamsAuthTeamsGetResponse : ResponseUnion := mkUnion [(200, "TeamView[]")] [(422, "HTTPValidationError")].
Definition getTeamAuthTeamsTeamIdGetResponse : ResponseUnion := mkUnion [(200, "TeamView")] [(422, "HTTPValidationError")].
Definition updateTeamAuthTeamsTeamIdPatchResponse : ResponseUnion := mkUnion [(200, "TeamView")] [(422, "HTTPValidationError")].
Definition deleteTeamAuthTeamsTeamIdDeleteResponse : ResponseUnion := mkUnion [(204, "void")] [(422, "HTTPValidationError")].
Definition addServerToTeamAuthTeamsTeamIdServersServerIdPostResponse : ResponseUnion := mkUnion [(204, "void")] [(422, "HTTPValidationError")].
Definition removeServerFromTeamAuthTeamsTeamIdServersServerIdDeleteResponse : ResponseUnion := mkUnion [(204, "void")] [(422, "HTTPValidationError")].
Definition createMemberAuthMembersPostResponse : ResponseUnion := mkUnion [(201, "OrgMemberView")] [(422, "HTTPValidationError")].
Definition listMembersAuthMembersGetResponse : ResponseUnion := mkUnion [(200, "OrgMemberView[]")] [(422, "HTTPValidationError")].
Definition getMemberAuthMembersMemberIdGetResponse : ResponseUnion := mkUnion [(200, "OrgMemberView")] [(422, "HTTPValidationError")].
Definition updateMemberAuthMembersMemberIdPatchResponse : ResponseUnion := mkUnion [(200, "OrgMemberView")] [(422, "HTTPValidationError")].
Definition deleteMemberAuthMembersMemberIdDeleteResponse : ResponseUnion := mkUnion [(204, "void")] [(422, "HTTPValidationError")].
Definition listTeamMembersAuthTeamsTeamIdMembersGetResponse : ResponseUnion := mkUnion [(200, "OrgMemberView[]")] [(422, "HTTPValidationError")].
Definition ssoLoginAuthSsoSlugLoginGetResponse : ResponseUnion := mkUnion [(200, "unknown")] [(422, "HTTPValidationError")].
Definition ssoCallbackAuthSsoSlugCallbackGetResponse : ResponseUnion := mkUnion [(200, "unknown")] [(422, "HTTPValidationError")].
Definition createServerV1ServersPostResponse : ResponseUnion := mkUnion [(201, "ServerView")] [(422, "HTTPValidationError")].
Definition listServersV1ServersGetResponse : ResponseUnion := mkUnion [(200, "ServerView[]")] [(422, "HTTPValidationError")].
Definition getServerV1ServersSlugGetResponse : ResponseUnion := mkUnion [(200, "ServerView")] [(422, "HTTPValidationError")].
Definition updateServerV1ServersSlugPatchResponse : ResponseUnion := mkUnion [(200, "ServerView")] [(422, "HTTPValidationError")].
Definition deleteServerV1ServersSlugDeleteResponse : ResponseUnion := mkUnion [(204, "void")] [(422, "HTTPValidationError")].
Definition triggerHealthProbeV1ServersSlugHealthPostResponse : ResponseUnion := mkUnion [(200, "unknown")] [(422, "HTTPValidationError")].
Definition createApiKeyV1ApiKeysPostResponse : ResponseUnion := mkUnion [(201, "ApiKeyCreateResponse")] [(422, "HTTPValidationError")].
Definition listApiKeysV1ApiKeysGetResponse : ResponseUnion := mkUnion [(200, "ApiKeyView[]")] [(422, "HTTPValidationError")].
Definition revokeApiKeyV1ApiKeysKeyIdDeleteResponse : ResponseUnion := mkUnion [(204, "void")] [(422, "HTTPValidationError")].
Definition createRoleV1RolesPostResponse : ResponseUnion := mkUnion [(201, "RoleView")] [(422, "HTTPValidationError")].
Definition listRolesV1RolesGetResponse : ResponseUnion := mkUnion [(200, "RoleView[]")] [(422, "HTTPValidationError")].
Definition createBindingV1RolesRoleIdBindingsPostResponse : ResponseUnion := mkUnion [(201, "RoleBindingView")] [(422, "HTTPValidationError")].
Definition deleteBindingV1RolesRoleIdBindingsBindingIdDeleteResponse : ResponseUnion := mkUnion [(204, "void")] [(422, "HTTPValidationError")].
Definition createPermissionV1RolesRoleIdPermissionsPostResponse : ResponseUnion := mkUnion [(201, "ToolPermissionView")] [(422, "HTTPValidationError")].
Definition deletePermissionV1RolesRoleIdPermissionsPermissionIdDeleteResponse : ResponseUnion := mkUnion [(204, "void")] [(422, "HTTPValidationError")].
Definition createPolicyV1RateLimitPoliciesPostResponse : ResponseUnion := mkUnion [(201, "RateLimitPolicyView")] [(422, "HTTPValidationError")].
Definition listPoliciesV1RateLimitPoliciesGetResponse : ResponseUnion := mkUnion [(200, "RateLimitPolicyView[]")] [(422, "HTTPValidationError")].
Definition updatePolicyV1RateLimitPoliciesPolicyIdPatchResponse : ResponseUnion := mkUnion [(200, "RateLimitPolicyView")] [(422, "HTTPValidationError")].
Definition deletePolicyV1RateLimitPoliciesPolicyIdDeleteResponse : ResponseUnion := mkUnion [(204, "void")] [(422, "HTTPValidationError")].
Definition listAuditLogsV1AuditGetResponse : ResponseUnion := mkUnion [(200, "AuditLogView[]")] [(422, "HTTPValidationError")].
Definition platformAdminMeAdminPlatformMeGetResponse : ResponseUnion := mkUnion [(200, "PlatformAdminMe")] [(422, "HTTPValidationError")].
Definition adminGetLicenseAdminPlatformLicenseGetResponse : ResponseUnion := mkUnion [(200, "LicenseView | null")] [(422, "HTTPValidationError")].
Definition adminIssueLicenseAdminPlatformLicensePostResponse : ResponseUnion := mkUnion [(201, "LicenseIssueResponse")] [(422, "HTTPValidationError")].
Definition adminRevokeLicenseAdminPlatformLicenseRevokePostResponse : ResponseUnion := mkUnion [(200, "LicenseView")] [(422, "HTTPValidationError")].
Definition orgGetLicenseV1LicenseGetResponse : ResponseUnion := mkUnion [(200, "LicenseUsageView | null")] [(422, "HTTPValidationError")].
Definition tenantGetLicenseAdminTenantsTenantIdLicenseGetResponse : ResponseUnion := mkUnion [(200, "LicenseUsageView | null")] [(422, "HTTPValidationError")].
Definition tenantIssueLicenseAdminTenantsTenantIdLicensePostResponse : ResponseUnion := mkUnion [(201, "LicenseIssueResponse")] [(422, "HTTPValidationError")].
Definition tenantRevokeLicenseAdminTenantsTenantIdLicenseRevokePostResponse : ResponseUnion := mkUnion [(200, "LicenseView")] [(422, "HTTPValidationError")].
Definition listTenantsAdminTenantsGetResponse : ResponseUnion := mkUnion [(200, "TenantView[]")] [(422, "HTTPValidationError")].
Definition provisionTenantAdminTenantsPostResponse : ResponseUnion := mkUnion [(201, "TenantProvisionResponse")] [(422, "HTTPValidationError")].
Definition orgUsageV1UsageGetResponse : ResponseUnion := mkUnion [(200, "UsageView")] [(422, "HTTPValidationError")].
Definition adminUsageAdminUsageGetResponse : ResponseUnion := mkUnion [(200, "UsageView[]")] [(422, "HTTPValidationError")].
Definition heartbeatV1TelemetryHeartbeatPostResponse : ResponseUnion := mkUnion [(200, "InstanceView")] [(422, "HTTPValidationError")].
Definition adminTelemetrySummaryAdminTelemetrySummaryGetResponse : ResponseUnion := mkUnion [(200, "InstanceSummaryView")] [(422, "HTTPValidationError")].
Definition adminTelemetryInstancesAdminTelemetryInstancesGetResponse : ResponseUnion := mkUnion [(200, "InstanceView[]")] [(422, "HTTPValidationError")].
Definition mcpProxyMcpServerSlugPostResponse : ResponseUnion := mkUnion [(200, "unknown")] [(422, "HTTPValidationError")].
Definition mcpSseStreamMcpServerSlugGetResponse : ResponseUnion := mkUnion [(200, "unknown")] [(422, "HTTPValidationError")].

(** The declared answers of every operation. *)
Definition op_responses (op : operation) : ResponseUnion :=
  match op with
  | Op_healthzHealthzGet => healthzHealthzGetResponse
  | Op_registerAuthRegisterPost _ => registerAuthRegisterPostResponse
  | Op_loginAuthLoginPost _ => loginAuthLoginPostResponse
  | Op_meAuthMeGet => meAuthMeGetResponse
  | Op_createInviteAuthInvitesPost _ => createInviteAuthInvitesPostResponse
  | Op_listInvitesAuthInvitesGet => listInvitesAuthInvitesGetResponse
  | Op_revokeInviteAuthInvitesInviteIdRevokePost _ => revokeInviteAuthInvitesInviteIdRevokePostResponse
  | Op_listPendingUsersAuthPendingUsersGet => listPendingUsersAuthPendingUsersGetResponse
  | Op_approveUserAuthPendingUsersUserIdApprovePost _ _ => approveUserAuthPendingUsersUserIdApprovePostResponse
  | Op_rejectUserAuthPendingUsersUserIdRejectPost _ => rejectUserAuthPendingUsersUserIdRejectPostResponse
  | Op_createTeamAuthTeamsPost _ => createTeamAuthTeamsPostResponse
  | Op_listTeamsAuthTeamsGet => listTeamsAuthTeamsGetResponse
  | Op_getTeamAuthTeamsTeamIdGet _ => getTeamAuthTeamsTeamIdGetResponse
  | Op_updateTeamAuthTeamsTeamIdPatch _ _ => updateTeamAuthTeamsTeamIdPatchResponse
  | Op_deleteTeamAuthTeamsTeamIdDelete _ => deleteTeamAuthTeamsTeamIdDeleteResponse
  | Op_addServerToTeamAuthTeamsTeamIdServersServerIdPost _ _ => addServerToTeamAuthTeamsTeamIdServersServerIdPostResponse
  | Op_removeServerFromTeamAuthTeamsTeamIdServersServerIdDelete _ _ => removeServerFromTeamAuthTeamsTeamIdServersServerIdDeleteResponse
  | Op_createMemberAuthMembersPost _ => createMemberAuthMembersPostResponse
  | Op_listMembersAuthMembersGet => listMembersAuthMembersGetResponse
  | Op_getMemberAuthMembersMemberIdGet _ => getMemberAuthMembersMemberIdGetResponse
  | Op_updateMemberAuthMembersMemberIdPatch _ _ => updateMemberAuthMembersMemberIdPatchResponse
  | Op_deleteMemberAuthMembersMemberIdDelete _ => deleteMemberAuthMembersMemberIdDeleteResponse
  | Op_listTeamMembersAuthTeamsTeamIdMembersGet _ => listTeamMembersAuthTeamsTeamIdMembersGetResponse
  | Op_ssoLoginAuthSsoSlugLoginGet _ => ssoLoginAuthSsoSlugLoginGetResponse
  | Op_ssoCallbackAuthSsoSlugCallbackGet _ _ => ssoCallbackAuthSsoSlugCallbackGetResponse
  | Op_createServerV1ServersPost _ => createServerV1ServersPostResponse
  | Op_listServersV1ServersGet => listServersV1ServersGetResponse
  | Op_getServerV1ServersSlugGet _ => getServerV1ServersSlugGetResponse
  | Op_updateServerV1ServersSlugPatch _ _ => updateServerV1ServersSlugPatchResponse
  | Op_deleteServerV1ServersSlugDelete _ => deleteServerV1ServersSlugDeleteResponse
  | Op_triggerHealthProbeV1ServersSlugHealthPost _ => triggerHealthProbeV1ServersSlugHealthPostResponse
  | Op_createApiKeyV1ApiKeysPost _ => createApiKeyV1ApiKeysPostResponse
  | Op_listApiKeysV1ApiKeysGet => listApiKeysV1ApiKeysGetResponse
  | Op_revokeApiKeyV1ApiKeysKeyIdDelete _ => revokeApiKeyV1ApiKeysKeyIdDeleteResponse
  | Op_createRoleV1RolesPost _ => createRoleV1RolesPostResponse
  | Op_listRolesV1RolesGet => listRolesV1RolesGetResponse
  | Op_createBindingV1RolesRoleIdBindingsPost _ _ => createBindingV1RolesRoleIdBindingsPostResponse
  | Op_deleteBindingV1RolesRoleIdBindingsBindingIdDelete _ _ => deleteBindingV1RolesRoleIdBindingsBindingIdDeleteResponse
  | Op_createPermissionV1RolesRoleIdPermissionsPost _ _ => createPermissionV1RolesRoleIdPermissionsPostResponse
  | Op_deletePermissionV1RolesRoleIdPermissionsPermissionIdDelete _ _ => deletePermissionV1RolesRoleIdPermissionsPermissionIdDeleteResponse
  | Op_createPolicyV1RateLimitPoliciesPost _ => createPolicyV1RateLimitPoliciesPostResponse
  | Op_listPoliciesV1RateLimitPoliciesGet => listPoliciesV1RateLimitPoliciesGetResponse
  | Op_updatePolicyV1RateLimitPoliciesPolicyIdPatch _ _ => updatePolicyV1RateLimitPoliciesPolicyIdPatchResponse
  | Op_deletePolicyV1RateLimitPoliciesPolicyIdDelete _ => deletePolicyV1RateLimitPoliciesPolicyIdDeleteResponse
  | Op_listAuditLogsV1AuditGet _ => listAuditLogsV1AuditGetResponse
  | Op_platformAdminMeAdminPlatformMeGet => platformAdminMeAdminPlatformMeGetResponse
  | Op_adminGetLicenseAdminPlatformLicenseGet => adminGetLicenseAdminPlatformLicenseGetResponse
  | Op_adminIssueLicenseAdminPlatformLicensePost _ => adminIssueLicenseAdminPlatformLicensePostResponse
  | Op_adminRevokeLicenseAdminPlatformLicenseRevokePost => adminRevokeLicenseAdminPlatformLicenseRevokePostResponse
  | Op_orgGetLicenseV1LicenseGet => orgGetLicenseV1LicenseGetResponse
  | Op_tenantGetLicenseAdminTenantsTenantIdLicenseGet _ => tenantGetLicenseAdminTenantsTenantIdLicenseGetResponse
  | Op_tenantIssueLicenseAdminTenantsTenantIdLicensePost _ _ => tenantIssueLicenseAdminTenantsTenantIdLicensePostResponse
  | Op_tenantRevokeLicenseAdminTenantsTenantIdLicenseRevokePost _ => tenantRevokeLicenseAdminTenantsTenantIdLicenseRevokePostResponse
  | Op_listTenantsAdminTenantsGet => listTenantsAdminTenantsGetResponse
  | Op_provisionTenantAdminTenantsPost _ => provisionTenantAdminTenantsPostResponse
  | Op_orgUsageV1UsageGet => orgUsageV1UsageGetResponse
  | Op_adminUsageAdminUsageGet => adminUsageAdminUsageGetResponse
  | Op_heartbeatV1TelemetryHeartbeatPost _ => heartbeatV1TelemetryHeartbeatPostResponse
  | Op_adminTelemetrySummaryAdminTelemetrySummaryGet => adminTelemetrySummaryAdminTelemetrySummaryGetResponse
  | Op_adminTelemetryInstancesAdminTelemetryInstancesGet => adminTelemetryInstancesAdminTelemetryInstancesGetResponse
  | Op_mcpProxyMcpServerSlugPost _ => mcpProxyMcpServerSlugPostResponse
  | Op_mcpSseStreamMcpServerSlugGet _ => mcpSseStreamMcpServerSlugGetResponse
  end.

#[local] Close Scope Z_scope.

(** ** Hooks *)

Section hooks.
Context (dispatch : AxiosDefaults -> AxiosConfig -> M (AxiosError + AxiosResponse)).
Context {Client Property : Type} {MutationResult : Type -> Type}.
(** React Query: the properties of a query's result object, and a mutation
    result with its [mutateAsync]. *)
Context (useQuery : QueryOptions -> option Client -> list (string * Property)).
Context (useMutation : forall P, MutationOptions P -> option Client -> MutationResult P).
Context (mutateAsync : forall P, MutationResult P -> P -> Reply).

Definition HookResult : Type := list (string * (QueryKey + Property)).

(** The body every query hook shares. *)
Definition query_hook (queryOptions : QueryOptions) (queryClient : option Client) : HookResult :=
  let query := useQuery queryOptions queryClient in
  withQueryKey query (qo_queryKey queryOptions).

Definition useHealthzHealthzGet (options : option QueryArgs) (queryClient : option Client) : HookResult :=
  query_hook (getHealthzHealthzGetQueryOptions dispatch options) queryClient.
Definition useMeAuthMeGet (options : option QueryArgs) (queryClient : option Client) : HookResult :=
  query_hook (getMeAuthMeGetQueryOptions dispatch options) queryClient.
Definition useListInvitesAuthInvitesGet (options : option QueryArgs) (queryClient : option Client) : HookResult :=
  query_hook (getListInvitesAuthInvitesGetQueryOptions dispatch options) queryClient.
Definition useListPendingUsersAuthPendingUsersGet (options : option QueryArgs) (queryClient : option Client) : HookResult :=
  query_hook (getListPendingUsersAuthPendingUsersGetQueryOptions dispatch options) queryClient.
Definition useListTeamsAuthTeamsGet (options : option QueryArgs) (queryClient : option Client) : HookResult :=
  query_hook (getListTeamsAuthTeamsGetQueryOptions dispatch options) queryClient.
Definition useGetTeamAuthTeamsTeamIdGet (teamId : string) (options : option QueryArgs) (queryClient : option Client) : HookResult :=
  query_hook (getGetTeamAuthTeamsTeamIdGetQueryOptions dispatch teamId options) queryClient.
Definition useListMembersAuthMembersGet (options : option QueryArgs) (queryClient : option Client) : HookResult :=
  query_hook (getListMembersAuthMembersGetQueryOptions dispatch options) queryClient.
Definition useGetMemberAuthMembersMemberIdGet (memberId : string) (options : option QueryArgs) (queryClient : option Client) : HookResult :=
  query_hook (getGetMemberAuthMembersMemberIdGetQueryOptions dispatch memberId options) queryClient.
Definition useListTeamMembersAuthTeamsTeamIdMembersGet (teamId : string) (options : option QueryArgs) (queryClient : option Client) : HookResult :=
  query_hook (getListTeamMembersAuthTeamsTeamIdMembersGetQueryOptions dispatch teamId options) queryClient.
Definition useSsoLoginAuthSsoSlugLoginGet (slug : string) (options : option QueryArgs) (queryClient : option Client) : HookResult :=
  query_hook (getSsoLoginAuthSsoSlugLoginGetQueryOptions dispatch slug options) queryClient.
Definition useSsoCallbackAuthSsoSlugCallbackGet (slug : string) (params : Params) (options : option QueryArgs) (queryClient : option Client) : HookResult :=
  query_hook (getSsoCallbackAuthSsoSlugCallbackGetQueryOptions dispatch slug params options) queryClient.
Definition useListServersV1ServersGet (options : option QueryArgs) (queryClient : option Client) : HookResult :=
  query_hook (getListServersV1ServersGetQueryOptions dispatch options) queryClient.
Definition useGetServerV1ServersSlugGet (slug : string) (options : option QueryArgs) (queryClient : option Client) : HookResult :=
  query_hook (getGetServerV1ServersSlugGetQueryOptions dispatch slug options) queryClient.
Definition useListApiKeysV1ApiKeysGet (options : option QueryArgs) (queryClient : option Client) : HookResult :=
  query_hook (getListApiKeysV1ApiKeysGetQueryOptions dispatch options) queryClient.
Definition useListRolesV1RolesGet (options : option QueryArgs) (queryClient : option Client) : HookResult :=
  query_hook (getListRolesV1RolesGetQueryOptions dispatch options) queryClient.
Definition useListPoliciesV1RateLimitPoliciesGet (options : option QueryArgs) (queryClient : option Client) : HookResult :=
  query_hook (getListPoliciesV1RateLimitPoliciesGetQueryOptions dispatch options) queryClient.
Definition useListAuditLogsV1AuditGet (params : Params) (options : option QueryArgs) (queryClient : option Client) : HookResult :=
  query_hook (getListAuditLogsV1AuditGetQueryOptions dispatch params options) queryClient.
Definition usePlatformAdminMeAdminPlatformMeGet (options : option QueryArgs) (queryClient : option Client) : HookResult :=
  query_hook (getPlatformAdminMeAdminPlatformMeGetQueryOptions dispatch options) queryClient.
Definition useAdminGetLicenseAdminPlatformLicenseGet (options : option QueryArgs) (queryClient : option Client) : HookResult :=
  query_hook (getAdminGetLicenseAdminPlatformLicenseGetQueryOptions dispatch options) queryClient.
Definition useOrgGetLicenseV1LicenseGet (options : option QueryArgs) (queryClient : option Client) : HookResult :=
  query_hook (getOrgGetLicenseV1LicenseGetQueryOptions dispatch options) queryClient.
Definition useTenantGetLicenseAdminTenantsTenantIdLicenseGet (tenantId : string) (options : option QueryArgs) (queryClient : option Client) : HookResult :=
  query_hook (getTenantGetLicenseAdminTenantsTenantIdLicenseGetQueryOptions dispatch tenantId options) queryClient.
Definition useListTenantsAdminTenantsGet (options : option QueryArgs) (queryClient : option Client) : HookResult :=
  query_hook (getListTenantsAdminTenantsGetQueryOptions dispatch options) queryClient.
Definition useOrgUsageV1UsageGet (options : option QueryArgs) (queryClient : option Client) : HookResult :=
  query_hook (getOrgUsageV1UsageGetQueryOptions dispatch options) queryClient.
Definition useAdminUsageAdminUsageGet (options : option QueryArgs) (queryClient : option Client) : HookResult :=
  query_hook (getAdminUsageAdminUsageGetQueryOptions dispatch options) queryClient.
Definition useAdminTelemetrySummaryAdminTelemetrySummaryGet (options : option QueryArgs) (queryClient : option Client) : HookResult :=
  query_hook (getAdminTelemetrySummaryAdminTelemetrySummaryGetQueryOptions dispatch options) queryClient.
Definition useAdminTelemetryInstancesAdminTelemetryInstancesGet (options : option QueryArgs) (queryClient : option Client) : HookResult :=
  query_hook (getAdminTelemetryInstancesAdminTelemetryInstancesGetQueryOptions dispatch options) queryClient.
Definition useMcpSseStreamMcpServerSlugGet (serverSlug : string) (options : option QueryArgs) (queryClient : option Client) : HookResult :=
  query_hook (getMcpSseStreamMcpServerSlugGetQueryOptions dispatch serverSlug options) queryClient.

Definition useRegisterAuthRegisterPost (options : option MutationArgs) (queryClient : option Client) : MutationResult (json) :=
  useMutation _ (getRegisterAuthRegisterPostMutationOptions dispatch options) queryClient.
Definition useLoginAuthLoginPost (options : option MutationArgs) (queryClient : option Client) : MutationResult (json) :=
  useMutation _ (getLoginAuthLoginPostMutationOptions dispatch options) queryClient.
Definition useCreateInviteAuthInvitesPost (options : option MutationArgs) (queryClient : option Client) : MutationResult (json) :=
  useMutation _ (getCreateInviteAuthInvitesPostMutationOptions dispatch options) queryClient.
Definition useRevokeInviteAuthInvitesInviteIdRevokePost (options : option MutationArgs) (queryClient : option Client) : MutationResult (string) :=
  useMutation _ (getRevokeInviteAuthInvitesInviteIdRevokePostMutationOptions dispatch options) queryClient.
Definition useApproveUserAuthPendingUsersUserIdApprovePost (options : option MutationArgs) (queryClient : option Client) : MutationResult (string * json) :=
  useMutation _ (getApproveUserAuthPendingUsersUserIdApprovePostMutationOptions dispatch options) queryClient.
Definition useRejectUserAuthPendingUsersUserIdRejectPost (options : option MutationArgs) (queryClient : option Client) : MutationResult (string) :=
  useMutation _ (getRejectUserAuthPendingUsersUserIdRejectPostMutationOptions dispatch options) queryClient.
Definition useCreateTeamAuthTeamsPost (options : option MutationArgs) (queryClient : option Client) : MutationResult (json) :=
  useMutation _ (getCreateTeamAuthTeamsPostMutationOptions dispatch options) queryClient.
Definition useUpdateTeamAuthTeamsTeamIdPatch (options : option MutationArgs) (queryClient : option Client) : MutationResult (string * json) :=
  useMutation _ (getUpdateTeamAuthTeamsTeamIdPatchMutationOptions dispatch options) queryClient.
Definition useDeleteTeamAuthTeamsTeamIdDelete (options : option MutationArgs) (queryClient : option Client) : MutationResult (string) :=
  useMutation _ (getDeleteTeamAuthTeamsTeamIdDeleteMutationOptions dispatch options) queryClient.
Definition useAddServerToTeamAuthTeamsTeamIdServersServerIdPost (options : option MutationArgs) (queryClient : option Client) : MutationResult (string * string) :=
  useMutation _ (getAddServerToTeamAuthTeamsTeamIdServersServerIdPostMutationOptions dispatch options) queryClient.
Definition useRemoveServerFromTeamAuthTeamsTeamIdServersServerIdDelete (options : option MutationArgs) (queryClient : option Client) : MutationResult (string * string) :=
  useMutation _ (getRemoveServerFromTeamAuthTeamsTeamIdServersServerIdDeleteMutationOptions dispatch options) queryClient.
Definition useCreateMemberAuthMembersPost (options : option MutationArgs) (queryClient : option Client) : MutationResult (json) :=
  useMutation _ (getCreateMemberAuthMembersPostMutationOptions dispatch options) queryClient.
Definition useUpdateMemberAuthMembersMemberIdPatch (options : option MutationArgs) (queryClient : option Client) : MutationResult (string * json) :=
  useMutation _ (getUpdateMemberAuthMembersMemberIdPatchMutationOptions dispatch options) queryClient.
Definition useDeleteMemberAuthMembersMemberIdDelete (options : option MutationArgs) (queryClient : option Client) : MutationResult (string) :=
  useMutation _ (getDeleteMemberAuthMembersMemberIdDeleteMutationOptions dispatch options) queryClient.
Definition useCreateServerV1ServersPost (options : option MutationArgs) (queryClient : option Client) : MutationResult (json) :=
  useMutation _ (getCreateServerV1ServersPostMutationOptions dispatch options) queryClient.
Definition useUpdateServerV1ServersSlugPatch (options : option MutationArgs) (queryClient : option Client) : MutationResult (string * json) :=
  useMutation _ (getUpdateServerV1ServersSlugPatchMutationOptions dispatch options) queryClient.
Definition useDeleteServerV1ServersSlugDelete (options : option MutationArgs) (queryClient : option Client) : MutationResult (string) :=
  useMutation _ (getDeleteServerV1ServersSlugDeleteMutationOptions dispatch options) queryClient.
Definition useTriggerHealthProbeV1ServersSlugHealthPost (options : option MutationArgs) (queryClient : option Client) : MutationResult (string) :=
  useMutation _ (getTriggerHealthProbeV1ServersSlugHealthPostMutationOptions dispatch options) queryClient.
Definition useCreateApiKeyV1ApiKeysPost (options : option MutationArgs) (queryClient : option Client) : MutationResult (json) :=
  useMutation _ (getCreateApiKeyV1ApiKeysPostMutationOptions dispatch options) queryClient.
Definition useRevokeApiKeyV1ApiKeysKeyIdDelete (options : option MutationArgs) (queryClient : option Client) : MutationResult (string) :=
  useMutation _ (getRevokeApiKeyV1ApiKeysKeyIdDeleteMutationOptions dispatch options) queryClient.
Definition useCreateRoleV1RolesPost (options : option MutationArgs) (queryClient : option Client) : MutationResult (json) :=
  useMutation _ (getCreateRoleV1RolesPostMutationOptions dispatch options) queryClient.
Definition useCreateBindingV1RolesRoleIdBindingsPost (options : option MutationArgs) (queryClient : option Client) : MutationResult (string * json) :=
  useMutation _ (getCreateBindingV1RolesRoleIdBindingsPostMutationOptions dispatch options) queryClient.
Definition useDeleteBindingV1RolesRoleIdBindingsBindingIdDelete (options : option MutationArgs) (queryClient : option Client) : MutationResult (string * string) :=
  useMutation _ (getDeleteBindingV1RolesRoleIdBindingsBindingIdDeleteMutationOptions dispatch options) queryClient.
Definition useCreatePermissionV1RolesRoleIdPermissionsPost (options : option MutationArgs) (queryClient : option Client) : MutationResult (string * json) :=
  useMutation _ (getCreatePermissionV1RolesRoleIdPermissionsPostMutationOptions dispatch options) queryClient.
Definition useDeletePermissionV1RolesRoleIdPermissionsPermissionIdDelete (options : option MutationArgs) (queryClient : option Client) : MutationResult (string * string) :=
  useMutation _ (getDeletePermissionV1RolesRoleIdPermissionsPermissionIdDeleteMutationOptions dispatch options) queryClient.
Definition useCreatePolicyV1RateLimitPoliciesPost (options : option MutationArgs) (queryClient : option Client) : MutationResult (json) :=
  useMutation _ (getCreatePolicyV1RateLimitPoliciesPostMutationOptions dispatch options) queryClient.
Definition useUpdatePolicyV1RateLimitPoliciesPolicyIdPatch (options : option MutationArgs) (queryClient : option Client) : MutationResult (string * json) :=
  useMutation _ (getUpdatePolicyV1RateLimitPoliciesPolicyIdPatchMutationOptions dispatch options) queryClient.
Definition useDeletePolicyV1RateLimitPoliciesPolicyIdDelete (options : option MutationArgs) (queryClient : option Client) : MutationResult (string) :=
  useMutation _ (getDeletePolicyV1RateLimitPoliciesPolicyIdDeleteMutationOptions dispatch options) queryClient.
Definition useAdminIssueLicenseAdminPlatformLicensePost (options : option MutationArgs) (queryClient : option Client) : MutationResult (json) :=
  useMutation _ (getAdminIssueLicenseAdminPlatformLicensePostMutationOptions dispatch options) queryClient.
Definition useAdminRevokeLicenseAdminPlatformLicenseRevokePost (options : option MutationArgs) (queryClient : option Client) : MutationResult (unit) :=
  useMutation _ (getAdminRevokeLicenseAdminPlatformLicenseRevokePostMutationOptions dispatch options) queryClient.
Definition useTenantIssueLicenseAdminTenantsTenantIdLicensePost (options : option MutationArgs) (queryClient : option Client) : MutationResult (string * json) :=
  useMutation _ (getTenantIssueLicenseAdminTenantsTenantIdLicensePostMutationOptions dispatch options) queryClient.
Definition useTenantRevokeLicenseAdminTenantsTenantIdLicenseRevokePost (options : option MutationArgs) (queryClient : option Client) : MutationResult (string) :=
  useMutation _ (getTenantRevokeLicenseAdminTenantsTenantIdLicenseRevokePostMutationOptions dispatch options) queryClient.
Definition useProvisionTenantAdminTenantsPost (options : option MutationArgs) (queryClient : option Client) : MutationResult (json) :=
  useMutation _ (getProvisionTenantAdminTenantsPostMutationOptions dispatch options) queryClient.
Definition useHeartbeatV1TelemetryHeartbeatPost (options : option MutationArgs) (queryClient : option Client) : MutationResult (json) :=
  useMutation _ (getHeartbeatV1TelemetryHeartbeatPostMutationOptions dispatch options) queryClient.
Definition useMcpProxyMcpServerSlugPost (options : option MutationArgs) (queryClient : option Client) : MutationResult (string) :=
  useMutation _ (getMcpProxyMcpServerSlugPostMutationOptions dispatch options) queryClient.

(** The options a GET operation's hook passes on when called without any. *)
Definition op_query (op : operation) : option QueryOptions :=
  match op with
  | Op_healthzHealthzGet => Some (getHealthzHealthzGetQueryOptions dispatch None)
  | Op_meAuthMeGet => Some (getMeAuthMeGetQueryOptions dispatch None)
  | Op_listInvitesAuthInvitesGet => Some (getListInvitesAuthInvitesGetQueryOptions dispatch None)
  | Op_listPendingUsersAuthPendingUsersGet => Some (getListPendingUsersAuthPendingUsersGetQueryOptions dispatch None)
  | Op_listTeamsAuthTeamsGet => Some (getListTeamsAuthTeamsGetQueryOptions dispatch None)
  | Op_getTeamAuthTeamsTeamIdGet teamId => Some (getGetTeamAuthTeamsTeamIdGetQueryOptions dispatch teamId None)
  | Op_listMembersAuthMembersGet => Some (getListMembersAuthMembersGetQueryOptions dispatch None)
  | Op_getMemberAuthMembersMemberIdGet memberId => Some (getGetMemberAuthMembersMemberIdGetQueryOptions dispatch memberId None)
  | Op_listTeamMembersAuthTeamsTeamIdMembersGet teamId => Some (getListTeamMembersAuthTeamsTeamIdMembersGetQueryOptions dispatch teamId None)
  | Op_ssoLoginAuthSsoSlugLoginGet slug => Some (getSsoLoginAuthSsoSlugLoginGetQueryOptions dispatch slug None)
  | Op_ssoCallbackAuthSsoSlugCallbackGet slug params => Some (getSsoCallbackAuthSsoSlugCallbackGetQueryOptions dispatch slug params None)
  | Op_listServersV1ServersGet => Some (getListServersV1ServersGetQueryOptions dispatch None)
  | Op_getServerV1ServersSlugGet slug => Some (getGetServerV1ServersSlugGetQueryOptions dispatch slug None)
  | Op_listApiKeysV1ApiKeysGet => Some (getListApiKeysV1ApiKeysGetQueryOptions dispatch None)
  | Op_listRolesV1RolesGet => Some (getListRolesV1RolesGetQueryOptions dispatch None)
  | Op_listPoliciesV1RateLimitPoliciesGet => Some (getListPoliciesV1RateLimitPoliciesGetQueryOptions dispatch None)
  | Op_listAuditLogsV1AuditGet params => Some (getListAuditLogsV1AuditGetQueryOptions dispatch params None)
  | Op_platformAdminMeAdminPlatformMeGet => Some (getPlatformAdminMeAdminPlatformMeGetQueryOptions dispatch None)
  | Op_adminGetLicenseAdminPlatformLicenseGet => Some (getAdminGetLicenseAdminPlatformLicenseGetQueryOptions dispatch None)
  | Op_orgGetLicenseV1LicenseGet => Some (getOrgGetLicenseV1LicenseGetQueryOptions dispatch None)
  | Op_tenantGetLicenseAdminTenantsTenantIdLicenseGet tenantId => Some (getTenantGetLicenseAdminTenantsTenantIdLicenseGetQueryOptions dispatch tenantId None)
  | Op_listTenantsAdminTenantsGet => Some (getListTenantsAdminTenantsGetQueryOptions dispatch None)
  | Op_orgUsageV1UsageGet => Some (getOrgUsageV1UsageGetQueryOptions dispatch None)
  | Op_adminUsageAdminUsageGet => Some (getAdminUsageAdminUsageGetQueryOptions dispatch None)
  | Op_adminTelemetrySummaryAdminTelemetrySummaryGet => Some (getAdminTelemetrySummaryAdminTelemetrySummaryGetQueryOptions dispatch None)
  | Op_adminTelemetryInstancesAdminTelemetryInstancesGet => Some (getAdminTelemetryInstancesAdminTelemetryInstancesGetQueryOptions dispatch None)
  | Op_mcpSseStreamMcpServerSlugGet serverSlug => Some (getMcpSseStreamMcpServerSlugGetQueryOptions dispatch serverSlug None)
  | _ => None
  end.

(** The hook of a GET operation, and the call of a mutation hook's result. *)
Definition op_hook (queryClient : option Client) (op : operation) : option HookResult :=
  match op with
  | Op_healthzHealthzGet => Some (useHealthzHealthzGet None queryClient)
  | Op_meAuthMeGet => Some (useMeAuthMeGet None queryClient)
  | Op_listInvitesAuthInvitesGet => Some (useListInvitesAuthInvitesGet None queryClient)
  | Op_listPendingUsersAuthPendingUsersGet => Some (useListPendingUsersAuthPendingUsersGet None queryClient)
  | Op_listTeamsAuthTeamsGet => Some (useListTeamsAuthTeamsGet None queryClient)
  | Op_getTeamAuthTeamsTeamIdGet teamId => Some (useGetTeamAuthTeamsTeamIdGet teamId None queryClient)
  | Op_listMembersAuthMembersGet => Some (useListMembersAuthMembersGet None queryClient)
  | Op_getMemberAuthMembersMemberIdGet memberId => Some (useGetMemberAuthMembersMemberIdGet memberId None queryClient)
  | Op_listTeamMembersAuthTeamsTeamIdMembersGet teamId => Some (useListTeamMembersAuthTeamsTeamIdMembersGet teamId None queryClient)
  | Op_ssoLoginAuthSsoSlugLoginGet slug => Some (useSsoLoginAuthSsoSlugLoginGet slug None queryClient)
  | Op_ssoCallbackAuthSsoSlugCallbackGet slug params => Some (useSsoCallbackAuthSsoSlugCallbackGet slug params None queryClient)
  | Op_listServersV1ServersGet => Some (useListServersV1ServersGet None queryClient)
  | Op_getServerV1ServersSlugGet slug => Some (useGetServerV1ServersSlugGet slug None queryClient)
  | Op_listApiKeysV1ApiKeysGet => Some (useListApiKeysV1ApiKeysGet None queryClient)
  | Op_listRolesV1RolesGet => Some (useListRolesV1RolesGet None queryClient)
  | Op_listPoliciesV1RateLimitPoliciesGet => Some (useListPoliciesV1RateLimitPoliciesGet None queryClient)
  | Op_listAuditLogsV1AuditGet params => Some (useListAuditLogsV1AuditGet params None queryClient)
  | Op_platformAdminMeAdminPlatformMeGet => Some (usePlatformAdminMeAdminPlatformMeGet None queryClient)
  | Op_adminGetLicenseAdminPlatformLicenseGet => Some (useAdminGetLicenseAdminPlatformLicenseGet None queryClient)
  | Op_orgGetLicenseV1LicenseGet => Some (useOrgGetLicenseV1LicenseGet None queryClient)
  | Op_tenantGetLicenseAdminTenantsTenantIdLicenseGet tenantId => Some (useTenantGetLicenseAdminTenantsTenantIdLicenseGet tenantId None queryClient)
  | Op_listTenantsAdminTenantsGet => Some (useListTenantsAdminTenantsGet None queryClient)
  | Op_orgUsageV1UsageGet => Some (useOrgUsageV1UsageGet None queryClient)
  | Op_adminUsageAdminUsageGet => Some (useAdminUsageAdminUsageGet None queryClient)
  | Op_adminTelemetrySummaryAdminTelemetrySummaryGet => Some (useAdminTelemetrySummaryAdminTelemetrySummaryGet None queryClient)
  | Op_adminTelemetryInstancesAdminTelemetryInstancesGet => Some (useAdminTelemetryInstancesAdminTelemetryInstancesGet None queryClient)
  | Op_mcpSseStreamMcpServerSlugGet serverSlug => Some (useMcpSseStreamMcpServerSlugGet serverSlug None queryClient)
  | _ => None
  end.

Definition op_mutate (queryClient : option Client) (op : operation) : option Reply :=
  match op with
  | Op_registerAuthRegisterPost registerRequest => Some (mutateAsync _ (useRegisterAuthRegisterPost None queryClient) registerRequest)
  | Op_loginAuthLoginPost loginRequest => Some (mutateAsync _ (useLoginAuthLoginPost None queryClient) loginRequest)
  | Op_createInviteAuthInvitesPost inviteCreate => Some (mutateAsync _ (useCreateInviteAuthInvitesPost None queryClient) inviteCreate)
  | Op_revokeInviteAuthInvitesInviteIdRevokePost inviteId => Some (mutateAsync _ (useRevokeInviteAuthInvitesInviteIdRevokePost None queryClient) inviteId)
  | Op_approveUserAuthPendingUsersUserIdApprovePost userId approvalDecision => Some (mutateAsync _ (useApproveUserAuthPendingUsersUserIdApprovePost None queryClient) (userId, approvalDecision))
  | Op_rejectUserAuthPendingUsersUserIdRejectPost userId => Some (mutateAsync _ (useRejectUserAuthPendingUsersUserIdRejectPost None queryClient) userId)
  | Op_createTeamAuthTeamsPost teamCreate => Some (mutateAsync _ (useCreateTeamAuthTeamsPost None queryClient) teamCreate)
  | Op_updateTeamAuthTeamsTeamIdPatch teamId teamUpdate => Some (mutateAsync _ (useUpdateTeamAuthTeamsTeamIdPatch None queryClient) (teamId, teamUpdate))
  | Op_deleteTeamAuthTeamsTeamIdDelete teamId => Some (mutateAsync _ (useDeleteTeamAuthTeamsTeamIdDelete None queryClient) teamId)
  | Op_addServerToTeamAuthTeamsTeamIdServersServerIdPost teamId serverId => Some (mutateAsync _ (useAddServerToTeamAuthTeamsTeamIdServersServerIdPost None queryClient) (teamId, serverId))
  | Op_removeServerFromTeamAuthTeamsTeamIdServersServerIdDelete teamId serverId => Some (mutateAsync _ (useRemoveServerFromTeamAuthTeamsTeamIdServersServerIdDelete None queryClient) (teamId, serverId))
  | Op_createMemberAuthMembersPost orgMemberCreate => Some (mutateAsync _ (useCreateMemberAuthMembersPost None queryClient) orgMemberCreate)
  | Op_updateMemberAuthMembersMemberIdPatch memberId orgMemberUpdate => Some (mutateAsync _ (useUpdateMemberAuthMembersMemberIdPatch None queryClient) (memberId, orgMemberUpdate))
  | Op_deleteMemberAuthMembersMemberIdDelete memberId => Some (mutateAsync _ (useDeleteMemberAuthMembersMemberIdDelete None queryClient) memberId)
  | Op_createServerV1ServersPost serverCreate => Some (mutateAsync _ (useCreateServerV1ServersPost None queryClient) serverCreate)
  | Op_updateServerV1ServersSlugPatch slug serverUpdate => Some (mutateAsync _ (useUpdateServerV1ServersSlugPatch None queryClient) (slug, serverUpdate))
  | Op_deleteServerV1ServersSlugDelete slug => Some (mutateAsync _ (useDeleteServerV1ServersSlugDelete None queryClient) slug)
  | Op_triggerHealthProbeV1ServersSlugHealthPost slug => Some (mutateAsync _ (useTriggerHealthProbeV1ServersSlugHealthPost None queryClient) slug)
  | Op_createApiKeyV1ApiKeysPost apiKeyCreate => Some (mutateAsync _ (useCreateApiKeyV1ApiKeysPost None queryClient) apiKeyCreate)
  | Op_revokeApiKeyV1ApiKeysKeyIdDelete keyId => Some (mutateAsync _ (useRevokeApiKeyV1ApiKeysKeyIdDelete None queryClient) keyId)
  | Op_createRoleV1RolesPost roleCreate => Some (mutateAsync _ (useCreateRoleV1RolesPost None queryClient) roleCreate)
  | Op_createBindingV1RolesRoleIdBindingsPost roleId roleBindingCreate => Some (mutateAsync _ (useCreateBindingV1RolesRoleIdBindingsPost None queryClient) (roleId, roleBindingCreate))
  | Op_deleteBindingV1RolesRoleIdBindingsBindingIdDelete roleId bindingId => Some (mutateAsync _ (useDeleteBindingV1RolesRoleIdBindingsBindingIdDelete None queryClient) (roleId, bindingId))
  | Op_createPermissionV1RolesRoleIdPermissionsPost roleId toolPermissionCreate => Some (mutateAsync _ (useCreatePermissionV1RolesRoleIdPermissionsPost None queryClient) (roleId, toolPermissionCreate))
  | Op_deletePermissionV1RolesRoleIdPermissionsPermissionIdDelete roleId permissionId => Some (mutateAsync _ (useDeletePermissionV1RolesRoleIdPermissionsPermissionIdDelete None queryClient) (roleId, permissionId))
  | Op_createPolicyV1RateLimitPoliciesPost rateLimitPolicyCreate => Some (mutateAsync _ (useCreatePolicyV1RateLimitPoliciesPost None queryClient) rateLimitPolicyCreate)
  | Op_updatePolicyV1RateLimitPoliciesPolicyIdPatch policyId rateLimitPolicyUpdate => Some (mutateAsync _ (useUpdatePolicyV1RateLimitPoliciesPolicyIdPatch None queryClient) (policyId, rateLimitPolicyUpdate))
  | Op_deletePolicyV1RateLimitPoliciesPolicyIdDelete policyId => Some (mutateAsync _ (useDeletePolicyV1RateLimitPoliciesPolicyIdDelete None queryClient) policyId)
  | Op_adminIssueLicenseAdminPlatformLicensePost licenseCreate => Some (mutateAsync _ (useAdminIssueLicenseAdminPlatformLicensePost None queryClient) licenseCreate)
  | Op_adminRevokeLicenseAdminPlatformLicenseRevokePost => Some (mutateAsync _ (useAdminRevokeLicenseAdminPlatformLicenseRevokePost None queryClient) tt)
  | Op_tenantIssueLicenseAdminTenantsTenantIdLicensePost tenantId licenseCreate => Some (mutateAsync _ (useTenantIssueLicenseAdminTenantsTenantIdLicensePost None queryClient) (tenantId, licenseCreate))
  | Op_tenantRevokeLicenseAdminTenantsTenantIdLicenseRevokePost tenantId => Some (mutateAsync _ (useTenantRevokeLicenseAdminTenantsTenantIdLicenseRevokePost None queryClient) tenantId)
  | Op_provisionTenantAdminTenantsPost tenantProvisionRequest => Some (mutateAsync _ (useProvisionTenantAdminTenantsPost None queryClient) tenantProvisionRequest)
  | Op_heartbeatV1TelemetryHeartbeatPost instanceHeartbeatRequest => Some (mutateAsync _ (useHeartbeatV1TelemetryHeartbeatPost None queryClient) instanceHeartbeatRequest)
  | Op_mcpProxyMcpServerSlugPost serverSlug => Some (mutateAsync _ (useMcpProxyMcpServerSlugPost None queryClient) serverSlug)
  | _ => None
  end.
End hooks.

(** ** Lemmas *)

Section hook_facts.
Context (dispatch : AxiosDefaults -> AxiosConfig -> M (AxiosError + AxiosResponse)).

Lemma op_query_spec op qo :
  op_query dispatch op = Some qo ->
  op_key op = Some (qo_queryKey qo) /\ qo_queryFn qo = op_send dispatch op (Some no_init) /\
  qo_enabled qo <> Some false /\ qo_staleTime qo = None /\ qo_retry qo = None.
Proof. destruct op; intros [= <-]; done. Qed.

Lemma op_query_get op : is_Some (op_query dispatch op) <-> op_method op = "GET".
Proof. destruct op; split; intros H; try done; try (by destruct H); by eexists. Qed.

Lemma op_query_key op k : op_key op = Some k -> exists qo, op_query dispatch op = Some qo /\ qo_queryKey qo = k.
Proof. destruct op; intros [= <-]; by eexists. Qed.

Lemma op_hook_query {Client Property} (useQuery : QueryOptions -> option Client -> list (string * Property)) c op :
  op_hook dispatch useQuery c op = (fun qo => query_hook useQuery qo c) <$> op_query dispatch op.
Proof. by destruct op. Qed.

Lemma withQueryKey_props {K V} (query : list (string * V)) (key : K) :
  (forall k, ("queryKey", k) ∈ withQueryKey query key <-> k = inl key) /\
  (forall p v, p <> "queryKey" -> (p, inr v) ∈ withQueryKey query key <-> (p, v) ∈ query).
Proof.
  unfold withQueryKey. split.
  - intros k. rewrite elem_of_cons, (list_elem_of_In (map _ _)), in_map_iff. split.
    + intros [[= ->]|([p v] & [= -> <-] & [Hn _]%list_elem_of_In%list_elem_of_filter)]; done.
    + intros ->. by left.
  - intros p v Hp. rewrite elem_of_cons, (list_elem_of_In (map _ _)), in_map_iff. split.
    + intros [[=]|([p' v'] & [= -> ->] & [_ Hin]%list_elem_of_In%list_elem_of_filter)]; done.
    + intros Hin. right. exists (p, v). split; [done|]. apply list_elem_of_In, list_elem_of_filter. done.
Qed.

(** [axiosInstance] resolves only with what the dispatch resolved with. *)
Lemma axiosInstance_resolves url init w r w' :
  axiosInstance dispatch url init w = (Ok (inr r), w') ->
  exists d c w1 a w2, dispatch d c w1 = (Ok (inr a), w2) /\ or_status r = ax_status a.
Proof.
  unfold axiosInstance, axiosClient_request, bind, get_world, ret. intros H.
  destruct (request_interceptor _ w) as [[c|] w1]; [|done].
  destruct (dispatch _ c w1) as [[[e|a]|] w2] eqn:Hd; cbv beta iota in H; [|injection H as <- <-; by eauto 10|done].
  destruct (response_rejected e w2) as [[?|] ?]; cbv beta iota in H; discriminate.
Qed.
End hook_facts.

Definition declared_ok (u : ResponseUnion) : bool :=
  forallb (fun m => (200 <=? m.1) && (m.1 <? 300))%Z (ru_success u) &&
  forallb (fun m => 400 <=? m.1)%Z (ru_error u) && negb (length (ru_success u) =? 0).

Lemma op_responses_ok op : declared_ok (op_responses op) = true.
Proof. by destruct op. Qed.

(** ** Properties *)

(** [C30] Every operation has one hook.  A GET operation's hook shows what
    [useQuery] shows for a query function that sends exactly this operation,
    and carries the operation's own key whatever the query's result holds; the
    other operations are mutations whose call sends exactly this operation. *)
Theorem hooks_send_operation dispatch {Client Property MutationResult}
    (useQuery : QueryOptions -> option Client -> list (string * Property))
    (useMutation : forall P, MutationOptions P -> option Client -> MutationResult P)
    (mutateAsync : forall P, MutationResult P -> P -> Reply) c op :
  (forall P o cl props, mutateAsync P (useMutation P o cl) props = mo_mutationFn o props) ->
  if bool_decide (op_method op = "GET") then
    op_mutate dispatch useMutation mutateAsync c op = None /\
    exists qo h, op_hook dispatch useQuery c op = Some h /\
      op_key op = Some (qo_queryKey qo) /\ qo_queryFn qo = op_send dispatch op (Some no_init) /\
      (forall k, ("queryKey", k) ∈ h <-> k = inl (qo_queryKey qo)) /\
      (forall p v, p <> "queryKey" -> (p, inr v) ∈ h <-> (p, v) ∈ useQuery qo c)
  else
    op_hook dispatch useQuery c op = None /\
    op_mutate dispatch useMutation mutateAsync c op = Some (op_send dispatch op None).
Proof.
  intros Hlaw. destruct (bool_decide _) eqn:Hm; bool_hyps.
  - split; [destruct op; done|]. destruct (proj2 (op_query_get dispatch op) Hm) as [qo Hq].
    rewrite op_hook_query, Hq. eexists qo, _. split; [done|].
    destruct (op_query_spec _ _ _ Hq) as (-> & -> & _). split; [done|]. split; [done|].
    apply withQueryKey_props.
  - split; [by destruct op|]. destruct op; try done; apply (f_equal Some); (etransitivity; [apply Hlaw|done]).
Qed.

(** The error members of the declared response types are never returned: with
    a transport that resolves only 2xx answers, as axios does by default, a
    reply with a declared status is one of the declared successes, and every
    operation declares at least one. *)
Theorem declared_errors_never_returned dispatch op options w r w' t :
  (forall d c w1 a w2, dispatch d c w1 = (Ok (inr a), w2) -> 200 <= ax_status a < 300)%Z ->
  op_send dispatch op options w = (Ok (inr r), w') ->
  (or_status r, t) ∈ ru_success (op_responses op) ++ ru_error (op_responses op) ->
  (or_status r, t) ∈ ru_success (op_responses op).
Proof.
  intros Hd. rewrite op_send_spec. intros (d & c & w1 & a & w2 & Ha & ->)%axiosInstance_resolves.
  intros [H|H]%elem_of_app; [done|]. exfalso. apply Hd in Ha.
  pose proof (op_responses_ok op) as Hok. unfold declared_ok in Hok. bool_hyps.
  match goal with H : forallb _ (ru_error _) = true |- _ => rewrite forallb_forall in H; rename H into He end.
  apply list_elem_of_In in H. apply He in H. cbn in H. lia.
Qed.

(** ** Witnesses *)

(** A backend that answers every request with 200. *)
Definition demo_ok_dispatch (_ : AxiosDefaults) (_ : AxiosConfig) : M (AxiosError + AxiosResponse) :=
  ret (inr (mkAxResponse (Some (JArr [])) 200 ∅)).

Lemma hooks_send_operation_witness :
  op_mutate (Client := unit) (MutationResult := fun P => P -> Reply) demo_ok_dispatch
    (fun _ o _ => mo_mutationFn o) (fun _ m => m) None (Op_deleteServerV1ServersSlugDelete "github")
  = Some (op_send demo_ok_dispatch (Op_deleteServerV1ServersSlugDelete "github") None).
Proof.
  apply (hooks_send_operation (Client := unit) (Property := unit) (MutationResult := fun P => P -> Reply)
    demo_ok_dispatch (fun _ _ => []) (fun _ o _ => mo_mutationFn o) (fun _ m => m) None
    (Op_deleteServerV1ServersSlugDelete "github")).
  done.
Defined.

Lemma declared_errors_never_returned_witness :
  exists r w', op_send demo_ok_dispatch Op_listServersV1ServersGet None (demo_world ∅ []) = (Ok (inr r), w') /\
    (or_status r, "ServerView[]") ∈ ru_success (op_responses Op_listServersV1ServersGet).
Proof.
  eexists (mkOrval (Some (JArr [])) 200 ∅), _. split; [vm_compute; reflexivity|].
  apply (declared_errors_never_returned demo_ok_dispatch Op_listServersV1ServersGet None (demo_world ∅ [])
    (mkOrval (Some (JArr [])) 200 ∅) (op_send demo_ok_dispatch Op_listServersV1ServersGet None (demo_world ∅ [])).2).
  - intros d c w1 a w2 [= <- _]. cbn. lia.
  - vm_compute. reflexivity.
  - cbn. by left.
Defined.
