(* ===== verification/QueryCache.v ===== *)
(** * The query cache and the pages' invalidations

    [providers/query-provider.tsx] gives all hooks one cache whose entries stay
    fresh for thirty seconds.  A page that changes something through a mutation
    invalidates the queries that show it; what is not invalidated is shown from
    the cache.  React Query's client is the interface [QueryClientLaws]. *)

From S2P Require Import Prelude JsString JsUri Json Browser AuthStore AxiosClient ApiClient JsInt JsonParse Tally QueryHooks.

(** ** The cache's configuration and keys *)

Record QueryDefaults := mkQueryDefaults { qd_staleTime : Z; qd_retry : nat }.

(** [new QueryClient({defaultOptions: {queries: {staleTime: 30_000, retry: 1}}})] *)
Definition QueryProvider : QueryDefaults := mkQueryDefaults 30000 1.

(** Keys are compared by a hash, the JSON text of the key with the properties
    of its objects sorted; [JSON.stringify] drops the undefined ones.  (The
    parameter objects of this client hold scalars only.) *)
Definition by_name (a b : string * json) : bool := by_code_units a.1 b.1.

Definition defined_params (e : list (string * option json)) : list (string * json) :=
  omap (fun kv => match kv.2 with Some v => Some (kv.1, v) | None => None end) e.

Definition hash_item (i : key_item) : json :=
  match i with
  | KUrl u => JStr u
  | KParams e => JObj (stable_sort by_name (defined_params e))
  end.

Definition hashKey (k : QueryKey) : string := JSON_stringify (JArr (map hash_item k)).

(** A filter of strings matches the keys it is a prefix of. *)
Fixpoint matches_key (filter_key : list string) (k : QueryKey) : bool :=
  match filter_key, k with
  | [], _ => true
  | u :: fs, KUrl u' :: k => bool_decide (u = u') && matches_key fs k
  | _, _ => false
  end.

(** ** What the console relies on *)

Record entry := mkEntry { e_data : orval_response; e_at : Z; e_invalidated : bool }.

Definition invalidated (e : entry) : entry := mkEntry (e_data e) (e_at e) true.

(** An entry younger than its stale time and not invalidated is not fetched again. *)
Definition fresh (defaults : QueryDefaults) (now : Z) (qo : QueryOptions) (e : entry) : bool :=
  negb (e_invalidated e) && (now <? e_at e + default (qd_staleTime defaults) (qo_staleTime qo))%Z.

Class QueryClientOps (C : Type) := {
  qc_empty : C;
  qc_entry : C -> QueryKey -> option entry;
  (** A query mounted at a time, once it has settled: what it shows. *)
  qc_settle : QueryDefaults -> Z -> QueryOptions -> C -> M (C * option orval_response);
  qc_invalidate : list string -> C -> C }.

Arguments qc_empty {C _} : simpl never.
Arguments qc_entry {C _} _ _ : simpl never.
Arguments qc_settle {C _} _ _ _ _ : simpl never.
Arguments qc_invalidate {C _} _ _ : simpl never.

Class QueryClientLaws (C : Type) `{QueryClientOps C} : Prop := {
  entry_empty k : qc_entry qc_empty k = None;
  entry_hashed c k k' : hashKey k = hashKey k' -> qc_entry c k = qc_entry c k';
  settle_fresh d now qo c e :
    qc_entry c (qo_queryKey qo) = Some e -> fresh d now qo e = true ->
    qc_settle d now qo c = ret (c, Some (e_data e));
  settle_fetches d now qo c w r w' :
    (forall e, qc_entry c (qo_queryKey qo) = Some e -> fresh d now qo e = false) ->
    qo_enabled qo <> Some false -> qo_queryFn qo w = (Ok (inr r), w') ->
    exists c', qc_settle d now qo c w = (Ok (c', Some r), w') /\
      qc_entry c' (qo_queryKey qo) = Some (mkEntry r now false);
  settle_sound d now qo c w c' o w' :
    qc_settle d now qo c w = (Ok (c', o), w') ->
    o = e_data <$> qc_entry c' (qo_queryKey qo) /\
    forall k e, qc_entry c' k = Some e ->
      qc_entry c k = Some e \/
      hashKey k = hashKey (qo_queryKey qo) /\ exists w1 w2, qo_queryFn qo w1 = (Ok (inr (e_data e)), w2);
  entry_invalidate fs c k :
    qc_entry (qc_invalidate fs c) k =
    (if matches_key fs k then invalidated else id) <$> qc_entry c k }.

(** ** A client that has this behaviour

    One entry per hash; a failed fetch keeps the old entry and is repeated once. *)
Module RefClient.

Record client := mkClient { entries_of : gmap string entry }.

Definition find (c : client) (k : QueryKey) : option entry := entries_of c !! hashKey k.

Definition put (k : QueryKey) (e : entry) (c : client) : client := mkClient (<[hashKey k := e]> (entries_of c)).

Fixpoint fetch (retry : nat) (fn : Reply) : M (option orval_response) := fun w =>
  match fn w with
  | (Ok (inr r), w) => (Ok (Some r), w)
  | (_, w) => match retry with 0 => (Ok None, w) | S n => fetch n fn w end
  end.

Definition settle (d : QueryDefaults) (now : Z) (qo : QueryOptions) (c : client) : M (client * option orval_response) :=
  let cached := find c (qo_queryKey qo) in
  if bool_decide (qo_enabled qo = Some false) || from_option (fresh d now qo) false cached
  then ret (c, e_data <$> cached)
  else
    r <-- fetch (qd_retry d) (qo_queryFn qo);
    match r with
    | Some r => ret (put (qo_queryKey qo) (mkEntry r now false) c, Some r)
    | None => ret (c, e_data <$> cached)
    end.

(** The filter is compared with the key the hash was made of. *)
Fixpoint matches_items (fs : list string) (l : list json) : bool :=
  match fs, l with
  | [], _ => true
  | u :: fs, JStr u' :: l => bool_decide (u = u') && matches_items fs l
  | _, _ => false
  end.

Definition matches_hash (fs : list string) (h : string) : bool :=
  match JSON_parse h with Some (JArr l) => matches_items fs l | _ => false end.

Definition invalidate (fs : list string) (c : client) : client :=
  mkClient (map_imap (fun h e => Some ((if matches_hash fs h then invalidated else id) e)) (entries_of c)).

#[global] Instance ops : QueryClientOps client := {
  qc_empty := mkClient ∅; qc_entry := find; qc_settle := settle; qc_invalidate := invalidate }.

Lemma matches_hashed fs k : matches_hash fs (hashKey k) = matches_key fs k.
Proof.
  unfold matches_hash, hashKey. rewrite parse_of_stringify. revert k.
  induction fs as [|u fs IH]; intros [|[u'|e] k]; cbn; [done..| |done]. by rewrite IH.
Qed.

Lemma fetch_first n fn w r w' : fn w = (Ok (inr r), w') -> fetch n fn w = (Ok (Some r), w').
Proof. destruct n; cbn; by intros ->. Qed.

Lemma fetch_sound n fn w o w' :
  fetch n fn w = (Ok o, w') -> forall r, o = Some r -> exists w1 w2, fn w1 = (Ok (inr r), w2).
Proof.
  revert w. induction n as [|n IH]; cbn; intros w; destruct (fn w) as [[[e|r]|x] w1] eqn:Hf; intros H r' ->;
    simplify_eq; eauto.
Qed.

Lemma fetch_total n fn w : exists o w', fetch n fn w = (Ok o, w').
Proof. revert w. induction n as [|n IH]; cbn; intros w; destruct (fn w) as [[[e|r]|x] w1]; eauto. Qed.

#[global] Instance laws : QueryClientLaws client.
Proof.
  split.
  - done.
  - intros c k k' Hk. change (find c k = find c k'). unfold find. by rewrite Hk.
  - intros d now qo c e He Hf. change (find c (qo_queryKey qo) = Some e) in He.
    change (settle d now qo c = ret (c, Some (e_data e))). unfold settle. rewrite He. simpl from_option. by rewrite Hf, orb_true_r.
  - intros d now qo c w r w' He Hen Hfn. change qc_entry with find in *. change qc_settle with settle. eexists. unfold settle.
    rewrite bool_decide_eq_false_2 by done.
    assert (from_option (fresh d now qo) false (find c (qo_queryKey qo)) = false) as ->.
    { destruct (find c _) eqn:E; [by apply He|done]. }
    cbn [orb]. unfold bind. rewrite (fetch_first _ _ _ _ _ Hfn). split; [done|].
    unfold find, put. simpl entries_of. by rewrite lookup_insert_eq.
  - intros d now qo c w c' o w'. change qc_entry with find. change qc_settle with settle. unfold settle. destruct (_ || _); [intros [= <- <- _]; split; [done|by left]|].
    unfold bind, ret. destruct (fetch _ _ w) as [[[r|]|] w1] eqn:Hf; intros H; [|injection H as <- <- _; split; [done|]; auto|discriminate].
    injection H as <- <- _. unfold find, put. simpl entries_of. rewrite lookup_insert_eq. split; [done|]. intros k e.
    destruct (decide (hashKey k = hashKey (qo_queryKey qo))) as [->|Hne]; [|rewrite lookup_insert_ne by done; by left].
    rewrite lookup_insert_eq. intros [= <-]. right. split; [done|]. by eapply fetch_sound.
  - intros fs c k. change (find (invalidate fs c) k = (if matches_key fs k then invalidated else id) <$> find c k).
    unfold find, invalidate. simpl entries_of. rewrite map_lookup_imap, matches_hashed.
    by destruct (entries_of c !! hashKey k).
Qed.
End RefClient.

(** ** What the pages invalidate

    A mutation handler that succeeds, with its arguments: the operation it
    sends, the keys it passes to [invalidateQueries], and the queries that show
    the changed resource (those of the page the user is on afterwards, and the
    list of the resource on its own page). *)
Record site := mkSite { mutation : operation; invalidates : list (list string); shows : list operation }.

Definition Servers_handleDelete (slug : string) : site :=
  mkSite (Op_deleteServerV1ServersSlugDelete slug) [["/v1/servers"]]
    [Op_listServersV1ServersGet].

Definition Servers_handleHealthCheck (slug : string) : site :=
  mkSite (Op_triggerHealthProbeV1ServersSlugHealthPost slug) [["/v1/servers"]]
    [Op_listServersV1ServersGet].

Definition ServerDetail_handleSave (slug : string) (patch : json) : site :=
  mkSite (Op_updateServerV1ServersSlugPatch slug patch) [["/v1/servers/" +:+ slug]]
    [Op_getServerV1ServersSlugGet slug; Op_listServersV1ServersGet].

Definition ServerDetail_handleToggleStatus (slug : string) (newStatus : json) : site :=
  mkSite (Op_updateServerV1ServersSlugPatch slug (JObj [("status", newStatus)])) [["/v1/servers/" +:+ slug]]
    [Op_getServerV1ServersSlugGet slug; Op_listServersV1ServersGet].

Definition ServerDetail_handleDelete (slug : string) : site :=
  mkSite (Op_deleteServerV1ServersSlugDelete slug) [["/v1/servers"]]
    [Op_listServersV1ServersGet].

Definition ServersNew_handleSubmit (slug : string) (payload : json) : site :=
  mkSite (Op_createServerV1ServersPost payload) []
    [Op_getServerV1ServersSlugGet slug; Op_listServersV1ServersGet].

Definition AdminServers_handleDelete (slug : string) : site :=
  mkSite (Op_deleteServerV1ServersSlugDelete slug) [["/v1/servers"]]
    [Op_listServersV1ServersGet].

Definition Infrastructure_handleDisable (slug : string) : site :=
  mkSite (Op_updateServerV1ServersSlugPatch slug (JObj [("status", JStr "disabled")])) [["/v1/servers"]]
    [Op_listServersV1ServersGet].

Definition Onboarding_server (data : json) : site :=
  mkSite (Op_createServerV1ServersPost data) [["listServersV1ServersGet"]]
    [Op_listServersV1ServersGet].

Definition Onboarding_policy (data : json) : site :=
  mkSite (Op_createPolicyV1RateLimitPoliciesPost data) []
    [Op_listPoliciesV1RateLimitPoliciesGet].

Definition Onboarding_apikey (data : json) : site :=
  mkSite (Op_createApiKeyV1ApiKeysPost data) [["listApiKeysV1ApiKeysGet"]]
    [Op_listApiKeysV1ApiKeysGet].

Definition ApiKeys_handleSubmit (data : json) : site :=
  mkSite (Op_createApiKeyV1ApiKeysPost data) [["/v1/api-keys"]]
    [Op_listApiKeysV1ApiKeysGet].

Definition ApiKeys_handleRevoke (keyId : string) : site :=
  mkSite (Op_revokeApiKeyV1ApiKeysKeyIdDelete keyId) [["/v1/api-keys"]]
    [Op_listApiKeysV1ApiKeysGet].

Definition DevKeys_handleCreate (data : json) : site :=
  mkSite (Op_createApiKeyV1ApiKeysPost data) [["/v1/api-keys"]]
    [Op_listApiKeysV1ApiKeysGet].

Definition DevKeys_handleRevoke (keyId : string) : site :=
  mkSite (Op_revokeApiKeyV1ApiKeysKeyIdDelete keyId) [["/v1/api-keys"]]
    [Op_listApiKeysV1ApiKeysGet].

Definition AdminUsers_handleRevoke (keyId : string) : site :=
  mkSite (Op_revokeApiKeyV1ApiKeysKeyIdDelete keyId) [["/v1/api-keys"]]
    [Op_listApiKeysV1ApiKeysGet].

Definition Security_handleRevokeKey (keyId : string) : site :=
  mkSite (Op_revokeApiKeyV1ApiKeysKeyIdDelete keyId) [["listApiKeysV1ApiKeysGet"]]
    [Op_listApiKeysV1ApiKeysGet].

Definition Policies_handleDeleteRL (policyId : string) : site :=
  mkSite (Op_deletePolicyV1RateLimitPoliciesPolicyIdDelete policyId) [["/v1/rate-limit-policies"]]
    [Op_listPoliciesV1RateLimitPoliciesGet].

Definition PolicyDetail_delete (policyId : string) : site :=
  mkSite (Op_deletePolicyV1RateLimitPoliciesPolicyIdDelete policyId) [["/v1/rate-limit-policies"]]
    [Op_listPoliciesV1RateLimitPoliciesGet].

Definition PolicyDetail_update (policyId : string) (updates : json) : site :=
  mkSite (Op_updatePolicyV1RateLimitPoliciesPolicyIdPatch policyId updates) [["/v1/rate-limit-policies"]]
    [Op_listPoliciesV1RateLimitPoliciesGet].

Definition RateLimits_handleCreate (data : json) : site :=
  mkSite (Op_createPolicyV1RateLimitPoliciesPost data) [["/v1/rate-limit-policies"]]
    [Op_listPoliciesV1RateLimitPoliciesGet].

Definition RateLimits_handleDelete (policyId : string) : site :=
  mkSite (Op_deletePolicyV1RateLimitPoliciesPolicyIdDelete policyId) [["/v1/rate-limit-policies"]]
    [Op_listPoliciesV1RateLimitPoliciesGet].

Definition Builder_publishLimit (data : json) : site :=
  mkSite (Op_createPolicyV1RateLimitPoliciesPost data) [["/v1/rate-limit-policies"]]
    [Op_listPoliciesV1RateLimitPoliciesGet].

Definition Builder_publishAccess (roleId : string) (data : json) : site :=
  mkSite (Op_createPermissionV1RolesRoleIdPermissionsPost roleId data) [["/v1/roles"]]
    [Op_listRolesV1RolesGet].

Definition RolesTab_handleCreateRole (data : json) : site :=
  mkSite (Op_createRoleV1RolesPost data) [["/v1/roles"]]
    [Op_listRolesV1RolesGet].

Definition RolesTab_handleAdd (roleId : string) (data : json) : site :=
  mkSite (Op_createBindingV1RolesRoleIdBindingsPost roleId data) [["/v1/roles"]]
    [Op_listRolesV1RolesGet].

Definition RolesPage_handleCreateRole (data : json) : site :=
  mkSite (Op_createRoleV1RolesPost data) [["/v1/roles"]]
    [Op_listRolesV1RolesGet].

(** All of them. *)
Inductive handler :=
  | On_Servers_handleDelete (slug : string)
  | On_Servers_handleHealthCheck (slug : string)
  | On_ServerDetail_handleSave (slug : string) (patch : json)
  | On_ServerDetail_handleToggleStatus (slug : string) (newStatus : json)
  | On_ServerDetail_handleDelete (slug : string)
  | On_ServersNew_handleSubmit (slug : string) (payload : json)
  | On_AdminServers_handleDelete (slug : string)
  | On_Infrastructure_handleDisable (slug : string)
  | On_Onboarding_server (data : json)
  | On_Onboarding_policy (data : json)
  | On_Onboarding_apikey (data : json)
  | On_ApiKeys_handleSubmit (data : json)
  | On_ApiKeys_handleRevoke (keyId : string)
  | On_DevKeys_handleCreate (data : json)
  | On_DevKeys_handleRevoke (keyId : string)
  | On_AdminUsers_handleRevoke (keyId : string)
  | On_Security_handleRevokeKey (keyId : string)
  | On_Policies_handleDeleteRL (policyId : string)
  | On_PolicyDetail_delete (policyId : string)
  | On_PolicyDetail_update (policyId : string) (updates : json)
  | On_RateLimits_handleCreate (data : json)
  | On_RateLimits_handleDelete (policyId : string)
  | On_Builder_publishLimit (data : json)
  | On_Builder_publishAccess (roleId : string) (data : json)
  | On_RolesTab_handleCreateRole (data : json)
  | On_RolesTab_handleAdd (roleId : string) (data : json)
  | On_RolesPage_handleCreateRole (data : json).

Definition site_of (h : handler) : site :=
  match h with
  | On_Servers_handleDelete slug => Servers_handleDelete slug
  | On_Servers_handleHealthCheck slug => Servers_handleHealthCheck slug
  | On_ServerDetail_handleSave slug patch => ServerDetail_handleSave slug patch
  | On_ServerDetail_handleToggleStatus slug newStatus => ServerDetail_handleToggleStatus slug newStatus
  | On_ServerDetail_handleDelete slug => ServerDetail_handleDelete slug
  | On_ServersNew_handleSubmit slug payload => ServersNew_handleSubmit slug payload
  | On_AdminServers_handleDelete slug => AdminServers_handleDelete slug
  | On_Infrastructure_handleDisable slug => Infrastructure_handleDisable slug
  | On_Onboarding_server data => Onboarding_server data
  | On_Onboarding_policy data => Onboarding_policy data
  | On_Onboarding_apikey data => Onboarding_apikey data
  | On_ApiKeys_handleSubmit data => ApiKeys_handleSubmit data
  | On_ApiKeys_handleRevoke keyId => ApiKeys_handleRevoke keyId
  | On_DevKeys_handleCreate data => DevKeys_handleCreate data
  | On_DevKeys_handleRevoke keyId => DevKeys_handleRevoke keyId
  | On_AdminUsers_handleRevoke keyId => AdminUsers_handleRevoke keyId
  | On_Security_handleRevokeKey keyId => Security_handleRevokeKey keyId
  | On_Policies_handleDeleteRL policyId => Policies_handleDeleteRL policyId
  | On_PolicyDetail_delete policyId => PolicyDetail_delete policyId
  | On_PolicyDetail_update policyId updates => PolicyDetail_update policyId updates
  | On_RateLimits_handleCreate data => RateLimits_handleCreate data
  | On_RateLimits_handleDelete policyId => RateLimits_handleDelete policyId
  | On_Builder_publishLimit data => Builder_publishLimit data
  | On_Builder_publishAccess roleId data => Builder_publishAccess roleId data
  | On_RolesTab_handleCreateRole data => RolesTab_handleCreateRole data
  | On_RolesTab_handleAdd roleId data => RolesTab_handleAdd roleId data
  | On_RolesPage_handleCreateRole data => RolesPage_handleCreateRole data
  end.

(** The queries a handler's filters miss. *)
Definition missed (h : handler) : list operation :=
  match h with
  | On_ServerDetail_handleSave _ _ => [Op_listServersV1ServersGet]
  | On_ServerDetail_handleToggleStatus _ _ => [Op_listServersV1ServersGet]
  | On_ServersNew_handleSubmit slug _ => [Op_getServerV1ServersSlugGet slug; Op_listServersV1ServersGet]
  | On_Onboarding_server _ => [Op_listServersV1ServersGet]
  | On_Onboarding_policy _ => [Op_listPoliciesV1RateLimitPoliciesGet]
  | On_Onboarding_apikey _ => [Op_listApiKeysV1ApiKeysGet]
  | On_Security_handleRevokeKey _ => [Op_listApiKeysV1ApiKeysGet]
  | _ => []
  end.

(** ** The console over the cache *)

Section console.
Context (dispatch : AxiosDefaults -> AxiosConfig -> M (AxiosError + AxiosResponse)).
Context {C : Type} `{QueryClientOps C}.

(** A component using a GET operation's hook, mounted at a time, until the
    query has settled; mutations have no query. *)
Definition visit (now : Z) (op : operation) (c : C) : M (C * option orval_response) :=
  match op_query dispatch op with
  | Some qo => qc_settle QueryProvider now qo c
  | None => ret (c, None)
  end.

Definition invalidate_all (l : list (list string)) (c : C) : C := fold_left (fun c fs => qc_invalidate fs c) l c.

(** A handler whose mutation succeeds; otherwise nothing is invalidated. *)
Definition perform (h : handler) (c : C) : M C :=
  r <-- op_send dispatch (mutation (site_of h)) None;
  match r with
  | inr _ => ret (invalidate_all (invalidates (site_of h)) c)
  | inl _ => ret c
  end.

Inductive step := Visit (now : Z) (op : operation) | Perform (h : handler).

Fixpoint run (l : list step) (c : C) : M C :=
  match l with
  | [] => ret c
  | Visit now op :: l => r <-- visit now op c; run l r.1
  | Perform h :: l => c <-- perform h c; run l c
  end.
End console.

(** ** Lemmas *)

Lemma stringify_inj v v' : JSON_stringify v = JSON_stringify v' -> v = v'.
Proof.
  intros E. pose proof (parse_of_stringify v) as P. rewrite E, parse_of_stringify in P. by injection P.
Qed.

Definition op_path (op : operation) : string := "/" +:+ join "/" (op_segments op).

Lemma op_key_path op k : op_key op = Some k -> k = KUrl (op_path op) :: params_key (op_raw_params op).
Proof. destruct op; intros [= <-]; try done; by rewrite ?string_app_nil_r. Qed.

(** Two requests a server answers alike: same method and path, and the same
    query entries up to their order. *)
Definition same_request (op op' : operation) : Prop :=
  op_method op = op_method op' /\ op_path op = op_path op' /\ op_params op ≡ₚ op_params op'.

Lemma params_defined params :
  normalizedParams params = (fun kv => (kv.1, js_String kv.2)) <$> defined_params (entries params).
Proof.
  unfold normalizedParams, defined_params. induction (entries params) as [|[k [v|]] l IH]; cbn; [done| |done].
  f_equal. exact IH.
Qed.

Lemma hash_request op op' k k' :
  op_key op = Some k -> op_key op' = Some k' -> hashKey k = hashKey k' -> same_request op op'.
Proof.
  intros Hk Hk' Hh. split; [by rewrite (proj1 (op_key_url _ _ Hk)), (proj1 (op_key_url _ _ Hk'))|].
  apply op_key_path in Hk as ->. apply op_key_path in Hk' as ->.
  apply stringify_inj in Hh. cbn [map hash_item] in Hh. injection Hh as Hp Hh. split; [unfold op_path; f_equal; exact Hp|].
  rewrite !op_params_raw, !params_defined.
  destruct (op_raw_params op) as [e|], (op_raw_params op') as [e'|]; try done. cbn in Hh |- *.
  injection Hh as Hh. apply fmap_Permutation.
  by rewrite <- (stable_sort_perm by_name (defined_params e)), Hh, stable_sort_perm.
Qed.

(** A handler's filters cover a query. *)
Definition refreshed (h : handler) (op : operation) : bool :=
  from_option (fun k => existsb (fun fs => matches_key fs k) (invalidates (site_of h))) false (op_key op).

Lemma missed_filter h : missed h = List.filter (fun op => negb (refreshed h op)) (shows (site_of h)).
Proof.
  destruct h; try reflexivity; cbn -[String.app bool_decide];
    rewrite (bool_decide_eq_true_2 (_ = _)) by done; reflexivity.
Qed.

Section cache_facts.
Context (dispatch : AxiosDefaults -> AxiosConfig -> M (AxiosError + AxiosResponse)).
Context {C : Type} `{QueryClientLaws C}.

Lemma entry_invalidate_all l (c : C) k :
  qc_entry (invalidate_all l c) k =
  (if existsb (fun fs => matches_key fs k) l then invalidated else id) <$> qc_entry c k.
Proof.
  revert c. induction l as [|fs l IH]; intros c; [cbn; by destruct (qc_entry c k)|]. cbn [existsb].
  change (invalidate_all (fs :: l) c) with (invalidate_all l (qc_invalidate fs c)).
  rewrite IH, entry_invalidate.
  destruct (qc_entry c k) as [e|]; [|done]. cbn.
  by destruct (matches_key fs k), (existsb _ l).
Qed.

(** Every entry answers a request like that of any operation stored under it. *)
Definition answered (op : operation) (r : orval_response) : Prop :=
  exists op' w1 w2, same_request op' op /\ op_send dispatch op' (Some no_init) w1 = (Ok (inr r), w2).

Definition coherent (c : C) : Prop :=
  forall op k e, op_key op = Some k -> qc_entry c k = Some e -> answered op (e_data e).

Lemma coherent_empty : coherent qc_empty.
Proof. intros op k e _. by rewrite entry_empty. Qed.

Lemma coherent_invalidate l c : coherent c -> coherent (invalidate_all l c).
Proof.
  intros Hc op k e Hk. rewrite entry_invalidate_all. intros (e' & He & ->)%fmap_Some.
  replace (e_data _) with (e_data e') by (by destruct (existsb _ l)). by eapply Hc.
Qed.

Lemma coherent_visit now op c w c' o w' :
  coherent c -> visit dispatch now op c w = (Ok (c', o), w') ->
  coherent c' /\ forall r, o = Some r -> answered op r.
Proof.
  intros Hc. unfold visit. destruct (op_query dispatch op) as [qo|] eqn:Hq; [|intros [= <- <- _]; done].
  destruct (op_query_spec _ _ _ Hq) as (Hk & Hfn & _). intros (Ho & Hs)%settle_sound.
  assert (coherent c') as Hc'.
  { intros op1 k e Hk1 He. destruct (Hs _ _ He) as [|[Hh (w1 & w2 & Hsend)]]; [by eapply Hc|].
    rewrite Hfn in Hsend. exists op, w1, w2. split; [|done].
    by apply (hash_request op op1 _ _ Hk Hk1). }
  split; [done|]. intros r ->. symmetry in Ho. apply fmap_Some in Ho as (e & He & ->). by eapply Hc'.
Qed.

Lemma coherent_run l c w c' w' : coherent c -> run dispatch l c w = (Ok c', w') -> coherent c'.
Proof.
  revert c w. induction l as [|[now op|h] l IH]; intros c w Hc; cbn.
  - by intros [= <- _].
  - unfold bind. destruct (visit dispatch now op c w) as [[[c1 o]|] w1] eqn:Hv; [|done].
    apply coherent_visit in Hv as [Hc1 _]; [|done]. by apply IH.
  - unfold bind, perform, bind. destruct (op_send _ _ _ w) as [[[e|r]|] w1]; [| |done]; cbn; apply IH; [done|].
    by apply coherent_invalidate.
Qed.
End cache_facts.

(** ** Properties *)

(** [C29] The shared cache never mixes answers up: starting from an empty cache,
    after any sequence of visits and mutations of any pages, what a visited
    query shows was received as the answer to a request with its own method,
    path and query entries. *)
Theorem shown_data_answers_request dispatch {C} `{QueryClientLaws C} l (c : C) w w1 now op c' r w2 :
  run dispatch l qc_empty w = (Ok c, w1) ->
  visit dispatch now op c w1 = (Ok (c', Some r), w2) ->
  exists op' wa wb, same_request op' op /\ op_send dispatch op' (Some no_init) wa = (Ok (inr r), wb).
Proof.
  intros Hr Hv. pose proof (coherent_run dispatch l qc_empty w c w1 (coherent_empty dispatch) Hr) as Hc.
  destruct (coherent_visit dispatch _ _ _ _ _ _ _ Hc Hv) as [_ Hd]. by apply Hd.
Qed.

(** [C28] After a mutation succeeded, each query that shows the changed resource is
    either covered by the handler's invalidations, and then its next visit
    shows the backend's current answer whatever was cached, or it is one of
    [missed]: then an answer younger than thirty seconds is shown again and
    nothing is requested.  Missed are the list after an update or registration,
    and everything after the three onboarding steps and the security page's
    revocation, whose filters name no query. *)
Theorem mutations_refresh dispatch {C} `{QueryClientLaws C} h (c : C) op w r0 w0 :
  op_send dispatch (mutation (site_of h)) None w = (Ok (inr r0), w0) ->
  op ∈ shows (site_of h) ->
  exists c1, perform dispatch h c w = (Ok c1, w0) /\
    (op ∉ missed h ->
     forall now w1 r w2, op_send dispatch op (Some no_init) w1 = (Ok (inr r), w2) ->
       exists c2, visit dispatch now op c1 w1 = (Ok (c2, Some r), w2)) /\
    (op ∈ missed h ->
     forall now k e w1, op_key op = Some k -> qc_entry c k = Some e -> e_invalidated e = false ->
       (now < e_at e + 30000)%Z ->
       visit dispatch now op c1 w1 = (Ok (c1, Some (e_data e)), w1)).
Proof.
  intros Hm Hop. exists (invalidate_all (invalidates (site_of h)) c). split; [unfold perform, bind; by rewrite Hm|].
  rewrite missed_filter, !list_elem_of_In, filter_In, <- !list_elem_of_In. split.
  - intros Hn now w1 r w2 Hs.
    assert (refreshed h op = true) as Hf by (destruct (refreshed h op); [done|by destruct Hn]).
    unfold refreshed in Hf. destruct (op_key op) as [k|] eqn:Hk; [|done]. cbn in Hf.
    destruct (op_query_key dispatch op k Hk) as (qo & Hq & Hqk). unfold visit. rewrite Hq.
    destruct (op_query_spec _ _ _ Hq) as (_ & Hfn & Hen & _).
    destruct (settle_fetches QueryProvider now qo (invalidate_all (invalidates (site_of h)) c) w1 r w2) as (c2 & Hc2 & _);
      [|done|by rewrite Hfn|by exists c2].
    intros e. rewrite Hqk, entry_invalidate_all, Hf. by intros (e' & _ & ->)%fmap_Some.
  - intros [_ Hf%negb_true_iff] now k e w1 Hk He Hi Ht. unfold refreshed in Hf. rewrite Hk in Hf. cbn in Hf.
    destruct (op_query_key dispatch op k Hk) as (qo & Hq & Hqk). unfold visit. rewrite Hq.
    destruct (op_query_spec _ _ _ Hq) as (_ & _ & _ & Hst & _).
    rewrite (settle_fresh _ _ _ _ e); [done| |].
    + by rewrite Hqk, entry_invalidate_all, Hf, He.
    + unfold fresh. rewrite Hi, Hst. cbn. by apply Z.ltb_lt.
Qed.

(** A filter of one string covers exactly the queries of one path: all
    parameters of a list are covered together, and neither a list's filter
    covers its details nor the other way round. *)
Theorem filter_covers_path u op k : op_key op = Some k -> matches_key [u] k = bool_decide (u = op_path op).
Proof. intros ->%op_key_path. cbn [matches_key]. by rewrite andb_true_r. Qed.

(** ** Witnesses *)

Definition demo_visits : list step := [Visit 0 Op_listServersV1ServersGet; Perform (On_Servers_handleDelete "github")].

Definition cache_of {A} (m : M A) (d : A) (w : World) : A := match m w with (Ok a, _) => a | _ => d end.

Definition demo_cache : RefClient.client := cache_of (run demo_ok_dispatch demo_visits qc_empty) qc_empty (demo_world ∅ []).

Lemma shown_data_answers_request_witness :
  exists op' wa wb, same_request op' Op_listServersV1ServersGet /\
    op_send demo_ok_dispatch op' (Some no_init) wa = (Ok (inr (mkOrval (Some (JArr [])) 200 ∅)), wb).
Proof.
  apply (shown_data_answers_request (C := RefClient.client) demo_ok_dispatch demo_visits demo_cache
    (demo_world ∅ []) (demo_world ∅ []) 10 Op_listServersV1ServersGet
    (cache_of (visit demo_ok_dispatch 10 Op_listServersV1ServersGet demo_cache) (qc_empty, None) (demo_world ∅ [])).1
    (mkOrval (Some (JArr [])) 200 ∅) (demo_world ∅ []));
    vm_compute; reflexivity.
Defined.

Lemma mutations_refresh_witness :
  exists c1 : RefClient.client,
    perform demo_ok_dispatch (On_Security_handleRevokeKey "k1")
      (RefClient.put [KUrl "/v1/api-keys"] (mkEntry (mkOrval (Some (JStr "old")) 200 ∅) 0 false) qc_empty) (demo_world ∅ [])
      = (Ok c1, demo_world ∅ []) /\
    visit demo_ok_dispatch 29999 Op_listApiKeysV1ApiKeysGet c1 (demo_world ∅ [])
      = (Ok (c1, Some (mkOrval (Some (JStr "old")) 200 ∅)), demo_world ∅ []).
Proof.
  destruct (mutations_refresh (C := RefClient.client) demo_ok_dispatch (On_Security_handleRevokeKey "k1")
    (RefClient.put [KUrl "/v1/api-keys"] (mkEntry (mkOrval (Some (JStr "old")) 200 ∅) 0 false) qc_empty)
    Op_listApiKeysV1ApiKeysGet (demo_world ∅ []) (mkOrval (Some (JArr [])) 200 ∅) (demo_world ∅ []))
    as (c1 & Hp & _ & Hs).
  - vm_compute. reflexivity.
  - cbn. by left.
  - exists c1. split; [exact Hp|].
    refine (Hs _ 29999%Z _ (mkEntry (mkOrval (Some (JStr "old")) 200 ∅) 0 false) _ eq_refl _ eq_refl _).
    + cbn. by left.
    + vm_compute. reflexivity.
    + cbn. lia.
Defined.

Lemma filter_covers_path_witness : matches_key ["/v1/servers"] [KUrl "/v1/servers/github"] = false.
Proof. exact (filter_covers_path "/v1/servers" (Op_getServerV1ServersSlugGet "github") [KUrl "/v1/servers/github"] eq_refl). Defined.
