(* ===== verification/OlderRoles.v ===== *)
(** * The roles page: web/src/app/dashboard/roles/page.tsx

    The page's constants, the dialogs that add rules and members to a role, the
    role's row (which remembers only what was added in it, as there is no
    endpoint that lists permissions) and the dialog that creates roles.

    A row's requests run concurrently: [step] relates its states together with
    the rules the backend stores ([api/app/api/roles.py]).  What the rules mean
    is [Gateway.Rbac]. *)

From Stdlib Require Import ZifyBool.
From S2P Require Import Prelude JsString Json Browser AuthStore AxiosClient SessionGate ApiTypes ApiClient JsInt Tally Servers Tools Gateway.

(** ** Constants *)

Record BuiltinRole := mkBuiltin {
  br_id : string; br_name : string; br_server_pattern : string; br_tool_pattern : string; br_effect : PermissionEffect }.

Definition BUILTIN_ROLES : list BuiltinRole := [
  mkBuiltin "__admin__" "Admin" "*" "*" PermissionEffect_allow;
  mkBuiltin "__developer__" "Developer" "*" "*" PermissionEffect_allow;
  mkBuiltin "__readonly__" "ReadOnly" "*" "read_*, list_*, get_*, search_*" PermissionEffect_allow].

Definition PERMISSION_CATEGORIES : list (string * list string) := [
  ("Servers", ["*"; "github-*"; "db-*"; "api-*"]);
  ("Tools", ["*"; "read_*"; "write_*"; "delete_*"; "search_*"; "list_*"; "create_*"]);
  ("Policies", ["policy_*"; "list_policies"; "get_policy"]);
  ("Logs", ["audit_*"; "list_logs"; "get_logs"]);
  ("Keys", ["key_*"; "list_keys"; "create_key"]);
  ("Billing", ["billing_*"; "get_usage"]);
  ("Members", ["member_*"; "invite_*"; "list_members"]);
  ("Settings", ["settings_*"; "update_config"]);
  ("Security", ["security_*"; "audit_*"]);
  ("Integrations", ["integration_*"; "connect_*"])].

(** ** The dialogs *)

Module AddPermission.

(** The dialog keeps its fields while it is closed. *)
Record form := mkForm {
  serverPattern : string; toolPattern : string; effect : PermissionEffect; priority : string; activeCategory : string }.

Definition initial : form := mkForm "*" "*" PermissionEffect_allow "50" "Servers".

Definition activePatterns (f : form) : list string :=
  default [] (snd <$> List.find (fun c => bool_decide (c.1 = activeCategory f)) PERMISSION_CATEGORIES).

Definition effect_text (e : PermissionEffect) : string :=
  match e with PermissionEffect_allow => "allow" | PermissionEffect_deny => "deny" end.

(** [handleCreate]'s request: [priority: parseInt(priority, 10) || 50]. *)
Definition body (f : form) : json :=
  JObj [("server_pattern", JStr (serverPattern f)); ("tool_pattern", JStr (toolPattern f));
        ("effect", JStr (effect_text (effect f))); ("priority", JNum (parseInt_or (priority f) 50))].
End AddPermission.

(** [ToolPermissionCreate] and [create_permission]: the rule that is stored;
    [None] is a validation error. *)
Definition pattern_in (v : option json) : option string :=
  match v with
  | Some (JStr s) => if (1 <=? String.length s)%nat && (String.length s <=? 200)%nat then Some s else None
  | _ => None
  end.

Definition effect_in (v : option json) : option PermissionEffect :=
  match v with
  | Some (JStr s) => if bool_decide (s = "allow") then Some PermissionEffect_allow
                     else if bool_decide (s = "deny") then Some PermissionEffect_deny else None
  | _ => None
  end.

Definition create_permission (id role_id now : string) (body : json) : option ToolPermissionView :=
  let f k := json_field k body in
  server_pattern ← pattern_in (f "server_pattern");
  tool_pattern ← pattern_in (f "tool_pattern");
  effect ← effect_in (f "effect");
  priority ← match f "priority" with None => Some 0%Z | v => Schema.int_in (-1000) 1000 v end;
  Some (mkToolPermissionView id role_id server_pattern tool_pattern effect priority now).

Module AssignMember.

Record LocalBinding := mkBinding { lb_roleId : string; lb_keyId : string; lb_keyName : string }.

(** [handleAssign]: the request, and the binding shown once it succeeded. *)
Definition handleAssign (roleId : string) (keys : list ApiKeyView) (selectedKeyId : string)
    : option (json * LocalBinding) :=
  key ← List.find (fun k => bool_decide (ApiKeyView_id k = selectedKeyId)) keys;
  Some (JObj [("subject_id", JStr selectedKeyId); ("subject_type", JStr "api_key")],
        mkBinding roleId selectedKeyId (ApiKeyView_name key)).
End AssignMember.

(** [handleCreateRole]: the name sent; a blank one is not. *)
Definition handleCreateRole (newRoleName : string) : option json :=
  if bool_decide (trim newRoleName = "") then None else Some (JObj [("name", JStr (trim newRoleName))]).

(** The names the input suggests. *)
Definition placeholder_names : list string := ["Backend Developer"; "Data Analyst"].

(** The subjects of recent entries, and the figure and badges drawn from them. *)
Definition activeSubjectIds (auditLogs : list (option string)) : list string :=
  remove_dups (omap (fun s => match s with Some "" | None => None | _ => s end) auditLogs).

Definition active_badge (role : RoleView) (auditLogs : list (option string)) : bool :=
  bool_decide (RoleView_id role ∈ activeSubjectIds auditLogs).

Definition total_roles (roles : list RoleView) : nat := length BUILTIN_ROLES + length roles.

(** ** A role's row *)

Module Row.

Notation id_of := ToolPermissionView_id.

(** [localPerms], the addition in flight (its button is disabled meanwhile) and
    the removals in flight, each with the answer once the backend has decided;
    [stored] is the backend's table. *)
Record row := mkRow {
  localPerms : list ToolPermissionView;
  adding : option (json * option (option ToolPermissionView));
  removing : list (string * option bool);
  stored : list ToolPermissionView }.

Definition drop (id : string) (l : list ToolPermissionView) : list ToolPermissionView :=
  List.filter (fun x => negb (bool_decide (id_of x = id))) l.

(** Ids the backend has given out as far as the row knows. *)
Definition known (r : row) : list string :=
  map id_of (localPerms r) ++ map id_of (stored r) ++ (removing r).*1.

Inductive step (role_id : string) : row -> row -> Prop :=
  | click_add l rm st f :
      step role_id (mkRow l None rm st) (mkRow l (Some (AddPermission.body f, None)) rm st)
  | serve_add l b rm st id now :
      id ∉ known (mkRow l None rm st) ->
      let answer := create_permission id role_id now b in
      step role_id (mkRow l (Some (b, None)) rm st)
        (mkRow l (Some (b, Some answer)) rm (st ++ option_list answer))
  | settle_add l b answer rm st :
      step role_id (mkRow l (Some (b, Some answer)) rm st) (mkRow (l ++ option_list answer) None rm st)
  | click_remove l a rm st p :
      p ∈ l -> step role_id (mkRow l a rm st) (mkRow l a (rm ++ [(id_of p, None)]) st)
  | serve_remove l a rm1 rm2 st id :
      step role_id (mkRow l a (rm1 ++ (id, None) :: rm2) st)
        (mkRow l a (rm1 ++ (id, Some (bool_decide (id ∈ map id_of st))) :: rm2) (drop id st))
  | settle_remove l a rm1 rm2 st id (ok : bool) :
      step role_id (mkRow l a (rm1 ++ (id, Some ok) :: rm2) st)
        (mkRow (if ok then drop id l else l) a (rm1 ++ rm2) st).

(** A row that mounts shows nothing, whatever the backend stores. *)
Definition mount (st : list ToolPermissionView) : row := mkRow [] None [] st.

Definition quiet (r : row) : Prop := adding r = None /\ removing r = [].
End Row.

(** ** Lemmas *)

Module RowFacts.
Import Row.

Lemma elem_drop id l p : p ∈ drop id l <-> p ∈ l /\ id_of p <> id.
Proof. unfold drop. rewrite !list_elem_of_In, filter_In, negb_true_iff, bool_decide_eq_false. done. Qed.

Lemma created_id id role_id now b p : create_permission id role_id now b = Some p -> id_of p = id.
Proof.
  unfold create_permission. intros (? & _ & (? & _ & (? & _ & (? & _ & [= <-])%bind_Some)%bind_Some)%bind_Some)%bind_Some.
  done.
Qed.

(** [st0] is what was stored when the row mounted. *)
Record agrees (st0 : list ToolPermissionView) (r : row) : Prop := {
  ag_shown p : p ∈ localPerms r -> p ∈ stored r \/ (id_of p, Some true) ∈ removing r;
  ag_stored p : p ∈ stored r -> p ∈ localPerms r \/ (exists b, adding r = Some (b, Some (Some p))) \/ p ∈ st0;
  ag_removed id : (id, Some true) ∈ removing r -> id ∉ map id_of (stored r);
  ag_adding b p : adding r = Some (b, Some (Some p)) ->
    p ∈ stored r /\ id_of p ∉ map id_of (localPerms r) /\ id_of p ∉ (removing r).*1 /\ id_of p ∉ map id_of st0;
  ag_old p : p ∈ st0 ->
    p ∈ stored r /\ id_of p ∉ map id_of (localPerms r) /\ id_of p ∉ (removing r).*1 }.

Lemma agrees_mount st0 : agrees st0 (mount st0).
Proof. split; cbn; [by intros p []%not_elem_of_nil|auto|by intros id []%not_elem_of_nil|done|]. intros p Hp. split_and!; [done|apply not_elem_of_nil..]. Qed.

Lemma id_in p l : p ∈ l -> id_of p ∈ map id_of l.
Proof. apply list_elem_of_fmap_2. Qed.

Lemma agrees_serve_add role_id st0 l b rm st id now :
  id ∉ known (mkRow l None rm st) -> agrees st0 (mkRow l (Some (b, None)) rm st) ->
  let answer := create_permission id role_id now b in
  agrees st0 (mkRow l (Some (b, Some answer)) rm (st ++ option_list answer)).
Proof.
  unfold known. cbn. intros Hid [H1 H2 H3 H4 H5]. cbn in *. rewrite !not_elem_of_app in Hid. destruct Hid as (Hl & Hst & Hr).
  destruct (create_permission id role_id now b) as [p|] eqn:Ep; cbn [option_list]; [apply created_id in Ep|rewrite app_nil_r].
  - split; cbn.
    + intros q Hq. destruct (H1 q Hq); [left; set_solver|by right].
    + intros q [Hq|Hq]%elem_of_app; [destruct (H2 q Hq) as [?|[(? & [=])|?]]; auto|].
      apply list_elem_of_singleton in Hq as ->. right. left. by eexists.
    + intros i Hi. rewrite map_app, not_elem_of_app. split; [by apply H3|]. cbn. rewrite list_elem_of_singleton, Ep.
      intros ->. apply Hr, list_elem_of_fmap. by exists (id, Some true).
    + intros b' q [= <- <-]. rewrite Ep. split_and!; [set_solver|done|done|].
      intros (q & -> & Hq)%list_elem_of_fmap. by apply Hst, id_in, H5.
    + intros q (? & ? & ?)%H5. split_and!; [set_solver|done|done].
  - split; cbn; [done| |done|done|done]. intros q Hq. destruct (H2 q Hq) as [?|[(? & [=])|?]]; auto.
Qed.

Lemma agrees_serve_remove st0 l a rm1 rm2 st id :
  agrees st0 (mkRow l a (rm1 ++ (id, None) :: rm2) st) ->
  agrees st0 (mkRow l a (rm1 ++ (id, Some (bool_decide (id ∈ map id_of st))) :: rm2) (drop id st)).
Proof.
  intros [H1 H2 H3 H4 H5]. cbn in *.
  assert (forall x, (rm1 ++ (id, x) :: rm2).*1 = rm1.*1 ++ id :: rm2.*1) as Hfst by (intros; by rewrite fmap_app).
  rewrite Hfst in *. split; cbn; rewrite ?Hfst.
  - intros p Hp. destruct (H1 p Hp) as [Hs|Hr]; [|right; set_solver].
    destruct (decide (id_of p = id)) as [<-|]; [right|left; by apply elem_drop].
    rewrite bool_decide_eq_true_2 by by apply id_in. set_solver.
  - intros p [Hp _]%elem_drop. by apply H2.
  - intros i Hi (p & -> & [Hp Hne]%elem_drop)%list_elem_of_fmap.
    apply (H3 (id_of p)); [|by apply id_in]. set_solver.
  - intros b p Ha. destruct (H4 b p Ha) as (? & ? & Hn & ?). split_and!; [|done..]. apply elem_drop. set_solver.
  - intros p Hp. destruct (H5 p Hp) as (? & ? & Hn). split_and!; [|done..]. apply elem_drop. set_solver.
Qed.

Lemma agrees_settle_remove st0 l a rm1 rm2 st id (ok : bool) :
  agrees st0 (mkRow l a (rm1 ++ (id, Some ok) :: rm2) st) ->
  agrees st0 (mkRow (if ok then drop id l else l) a (rm1 ++ rm2) st).
Proof.
  intros [H1 H2 H3 H4 H5]. cbn in *.
  assert ((rm1 ++ (id, Some ok) :: rm2).*1 = rm1.*1 ++ id :: rm2.*1) as Hfst by by rewrite fmap_app.
  rewrite Hfst in *. rewrite fmap_app in *.
  assert (forall p, p ∈ (if ok then drop id l else l) -> p ∈ l) as Hsub by (intros p; destruct ok; [by intros []%elem_drop|done]).
  assert (forall x, x ∉ map id_of l -> x ∉ map id_of (if ok then drop id l else l)) as Hmap.
  { intros x Hx (p & -> & Hp%Hsub)%list_elem_of_fmap. by apply Hx, id_in. }
  split; cbn; rewrite ?fmap_app.
  - intros p Hp. destruct (H1 p (Hsub p Hp)) as [|Hr]; [by left|]. right.
    destruct ok; [apply elem_drop in Hp as [_ Hne]|]; set_solver.
  - intros p Hp. destruct (H2 p Hp) as [Hl|[?|?]]; auto. left. destruct ok; [|done]. apply elem_drop. split; [done|].
    intros <-. apply (H3 (id_of p)); [set_solver|by apply id_in].
  - intros i Hi. apply H3. set_solver.
  - intros b p Ha. destruct (H4 b p Ha) as (? & ? & ? & ?). split_and!; [done|by apply Hmap|set_solver|done].
  - intros p Hp. destruct (H5 p Hp) as (? & ? & ?). split_and!; [done|by apply Hmap|set_solver].
Qed.

Lemma row_agrees_step role_id st0 r r' : step role_id r r' -> agrees st0 r -> agrees st0 r'.
Proof.
  intros [l rm st f|l b rm st id now Hid answer|l b answer rm st|l a rm st p Hp|l a rm1 rm2 st id|l a rm1 rm2 st id ok] H.
  - destruct H as [H1 H2 H3 H4 H5]. split; cbn in *; [done| |done|done|done].
    intros q Hq. destruct (H2 q Hq) as [?|[(? & [=])|?]]; auto.
  - by apply agrees_serve_add.
  - destruct H as [H1 H2 H3 H4 H5]. cbn in *. split; cbn.
    + intros q [Hq|Hq]%elem_of_app; [by apply H1|]. left. destruct answer as [p|]; cbn in Hq; [|by apply not_elem_of_nil in Hq].
      apply list_elem_of_singleton in Hq as ->. by destruct (H4 b p eq_refl).
    + intros q Hq. rewrite elem_of_app. destruct (H2 q Hq) as [?|[(b' & [= _ ->])|?]]; auto. left. right. by left.
    + done.
    + done.
    + intros q Hq. destruct (H5 q Hq) as (? & ? & ?). split_and!; [done| |done]. rewrite map_app, not_elem_of_app. split; [done|].
      destruct answer as [p|]; [|apply not_elem_of_nil]. cbn. rewrite list_elem_of_singleton. intros E.
      destruct (H4 b p eq_refl) as (_ & _ & _ & Hn). apply Hn. rewrite <- E. by apply id_in.
  - destruct H as [H1 H2 H3 H4 H5]. apply id_in in Hp. split; cbn in *; rewrite ?fmap_app; cbn.
    + intros q Hq. destruct (H1 q Hq); [by left|right; set_solver].
    + done.
    + intros i Hi. apply H3. set_solver.
    + intros b q Ha. destruct (H4 b q Ha) as (? & Hn & ? & ?). split_and!; [done|done| |done].
      rewrite not_elem_of_app, list_elem_of_singleton. split; [done|]. intros E. apply Hn. by rewrite E.
    + intros q Hq. destruct (H5 q Hq) as (? & Hn & ?). split_and!; [done|done|].
      rewrite not_elem_of_app, list_elem_of_singleton. split; [done|]. intros E. apply Hn. by rewrite E.
  - by apply agrees_serve_remove.
  - by eapply agrees_settle_remove.
Qed.

Lemma row_agrees_steps role_id st0 r r' : rtc (step role_id) r r' -> agrees st0 r -> agrees st0 r'.
Proof. induction 1; [done|]. intros. apply IHrtc. by eapply row_agrees_step. Qed.
End RowFacts.

Lemma pattern_in_ok s : 1 <= String.length s <= 200 -> pattern_in (Some (JStr s)) = Some s.
Proof. intros [H1%Nat.leb_le H2%Nat.leb_le]. unfold pattern_in. by rewrite H1, H2. Qed.

Lemma effect_in_text e : effect_in (Some (JStr (AddPermission.effect_text e))) = Some e.
Proof. by destruct e. Qed.

(** A literal character of a pattern occurs in every text it matches. *)
Lemma glob_literal_occurs c p v :
  c <> "*"%char -> c <> "?"%char -> without "[" p = true ->
  without c p = false -> ToolDetail.glob p v = true -> without c v = false.
Proof.
  intros Hs Hq. revert v. induction p as [|d p IH]; intros v Hb Hc Hg; [done|]. rewrite !without_cons in *.
  bool_hyps. rewrite GlobFacts.glob_cons in Hg by congruence.
  case_bool_decide as Hd.
  - subst d. rewrite bool_decide_false in Hc by done. cbn in Hc.
    induction v as [|x v IHv]; apply orb_true_iff in Hg as [Hg|Hg]; [by apply IH|done|by apply IH|].
    rewrite without_cons, IHv by done. by rewrite andb_false_r.
  - destruct v as [|x v]; [done|]. rewrite without_cons. apply andb_true_iff in Hg as [Hx Hg].
    destruct (decide (c = d)) as [->|Hcd]; [|rewrite (bool_decide_eq_false_2 (c = d)) in Hc by done; cbn in Hc; rewrite (IH v) by done; by rewrite andb_false_r].
    rewrite bool_decide_false in Hx by done. cbn in Hx. by rewrite Hx.
Qed.

(** ** Properties *)

(** The row and the backend agree.  However additions, removals and their
    answers interleave, once nothing is in flight the row shows exactly the
    rules that were stored through it and are still stored; the rules that
    existed when it mounted stay stored, and are never shown nor removable. *)
Theorem row_shows_own_rules role_id st0 r :
  rtc (Row.step role_id) (Row.mount st0) r -> Row.quiet r ->
  (forall p, p ∈ Row.localPerms r <-> p ∈ Row.stored r /\ p ∉ st0) /\
  (forall p, p ∈ st0 -> p ∈ Row.stored r).
Proof.
  intros Hs [Ha Hr]. apply (RowFacts.row_agrees_steps _ st0) in Hs; [|apply RowFacts.agrees_mount].
  destruct Hs as [H1 H2 H3 H4 H5]. split; [|by intros p []%H5]. intros p. split.
  - intros Hp. split.
    + destruct (H1 p Hp) as [|Hi]; [done|]. rewrite Hr in Hi. by apply not_elem_of_nil in Hi.
    + intros (_ & Hn & _)%H5. by apply Hn, RowFacts.id_in.
  - intros [Hp Hn]. destruct (H2 p Hp) as [|[[b Hb]|]]; [done|by rewrite Ha in Hb|done].
Qed.

(** A rule is stored as the dialog shows it: with patterns of 1 to 200
    characters and a priority of the backend's range the rule has exactly the
    form's patterns, effect and number, except that the number 0 becomes 50. *)
Theorem rule_stored_as_typed id role_id now f (z : Z) :
  parseInt (AddPermission.priority f) = Some z ->
  (1 <= String.length (AddPermission.serverPattern f) <= 200) ->
  (1 <= String.length (AddPermission.toolPattern f) <= 200) -> (-1000 <= z <= 1000)%Z ->
  create_permission id role_id now (AddPermission.body f) =
  Some (mkToolPermissionView id role_id (AddPermission.serverPattern f) (AddPermission.toolPattern f)
          (AddPermission.effect f) (if (z =? 0)%Z then 50 else z) now).
Proof.
  intros Hz Hs Ht Hr. unfold create_permission, AddPermission.body.
  set (o := JObj _). change (json_field "server_pattern" o) with (Some (JStr (AddPermission.serverPattern f))).
  change (json_field "tool_pattern" o) with (Some (JStr (AddPermission.toolPattern f))).
  change (json_field "effect" o) with (Some (JStr (AddPermission.effect_text (AddPermission.effect f)))).
  change (json_field "priority" o) with (Some (JNum (parseInt_or (AddPermission.priority f) 50))).
  rewrite !pattern_in_ok, effect_in_text by done. cbn [mbind option_bind Schema.int_in]. unfold parseInt_or. rewrite Hz.
  destruct (z =? 0)%Z eqn:E; [done|]. unfold Schema.within. by rewrite !(proj2 (Z.leb_le _ _)) by lia.
Qed.

(** The page says that a lower number is evaluated first.  Of two rules with the
    same patterns that match a call, the gateway decides by the one with the
    higher number, whichever was added first. *)
Theorem higher_number_decides p q server_slug tool_name :
  ToolPermissionView_server_pattern p = ToolPermissionView_server_pattern q ->
  ToolPermissionView_tool_pattern p = ToolPermissionView_tool_pattern q ->
  (ToolPermissionView_priority p < ToolPermissionView_priority q)%Z ->
  Rbac.rule_matches server_slug tool_name q = true ->
  forall l, l = [p; q] \/ l = [q; p] ->
  Rbac.evaluate_permission server_slug tool_name l =
  if Rbac.is_deny q then Rbac.mkDecision false (Some (ToolPermissionView_id q)) "denied by rule"
  else Rbac.mkDecision true (Some (ToolPermissionView_id q)) "allowed by rule".
Proof.
  intros Hs Ht Hlt Hm l Hl.
  assert (Rbac.rule_matches server_slug tool_name p = true) as Hp by (unfold Rbac.rule_matches in *; by rewrite Hs, Ht).
  assert (stable_sort Rbac.by_rank (List.filter (Rbac.rule_matches server_slug tool_name) l) = [q; p]) as E.
  { assert (Rbac.by_rank p q = false) as H1 by (unfold Rbac.by_rank, Rbac._rank_key; rewrite Hs, Ht; lia).
    assert (Rbac.by_rank q p = true) as H2 by (unfold Rbac.by_rank, Rbac._rank_key; rewrite Hs, Ht; lia).
    unfold stable_sort. destruct Hl as [-> | ->]; cbn [List.filter]; rewrite Hp, Hm; cbn [foldr sort_insert]; by rewrite ?H1, ?H2. }
  unfold Rbac.evaluate_permission. rewrite E.
  assert (Rbac._rank_key p <> Rbac._rank_key q) as Hk by (unfold Rbac._rank_key; intros [=]; lia).
  cbn [List.filter]. rewrite bool_decide_eq_true_2 by done. rewrite bool_decide_eq_false_2 by done. cbn.
  by destruct (Rbac.is_deny q).
Qed.

(** The built-in ReadOnly role shows a list of patterns where the gateway knows
    single patterns: as a rule it would match no tool whose name has no space,
    and in particular none of the read-only tools it names. *)
Theorem readonly_pattern_matches_nothing server_slug tool_name rule b :
  b ∈ BUILTIN_ROLES -> br_name b = "ReadOnly" ->
  ToolPermissionView_tool_pattern rule = br_tool_pattern b -> without " " tool_name = true ->
  Rbac.rule_matches server_slug tool_name rule = false.
Proof.
  intros Hb Hn Hp Hw. assert (br_tool_pattern b = "read_*, list_*, get_*, search_*") as E.
  { unfold BUILTIN_ROLES in Hb. repeat (apply elem_of_cons in Hb as [->|Hb]; [done|]). by apply not_elem_of_nil in Hb. }
  unfold Rbac.rule_matches. rewrite Hp, E. apply andb_false_iff. right. apply not_true_is_false. intros H.
  rewrite (glob_literal_occurs " " "read_*, list_*, get_*, search_*" tool_name) in Hw; done.
Qed.

(** Both names the create dialog suggests are refused by the backend; a name is
    accepted exactly when, trimmed, it is of 1 to 100 letters, digits, dashes
    and underscores. *)
Theorem suggested_names_refused :
  Forall (fun n => exists b, handleCreateRole n = Some b /\
                    forall s, json_field "name" b = Some (JStr s) -> Schema.RoleCreate_accepts s = false) placeholder_names.
Proof. repeat constructor; eexists; (split; [reflexivity|]); intros s [= <-]; reflexivity. Qed.

(** A badge marks a role as active when an entry's subject id is the id of the
    role; roles whose members act are not marked. *)
Theorem active_badge_exact role logs :
  active_badge role logs = true <-> RoleView_id role <> "" /\ Some (RoleView_id role) ∈ logs.
Proof.
  unfold active_badge, activeSubjectIds. rewrite bool_decide_eq_true, elem_of_remove_dups, list_elem_of_omap. split.
  - intros ([[|c s]|] & Hin & E); simplify_eq. rewrite <- E. done.
  - intros [Hne Hin]. exists (Some (RoleView_id role)). split; [done|]. by destruct (RoleView_id role).
Qed.

(** ** Witnesses *)

Definition demo_rule (id : string) (e : PermissionEffect) (n : Z) : ToolPermissionView :=
  mkToolPermissionView id "r" "*" "read_*" e n "".

Lemma row_shows_own_rules_witness :
  let r := Row.mkRow [mkToolPermissionView "p1" "r" "*" "*" PermissionEffect_allow 50 "now"] None []
             [demo_rule "old" PermissionEffect_deny 1; mkToolPermissionView "p1" "r" "*" "*" PermissionEffect_allow 50 "now"] in
  rtc (Row.step "r") (Row.mount [demo_rule "old" PermissionEffect_deny 1]) r /\
  demo_rule "old" PermissionEffect_deny 1 ∉ Row.localPerms r.
Proof.
  cbv zeta. match goal with |- ?A /\ _ => assert A as Hs end.
  { eapply rtc_l; [apply (Row.click_add "r" [] [] [demo_rule "old" PermissionEffect_deny 1] AddPermission.initial)|].
    eapply rtc_l; [apply (Row.serve_add "r" _ _ _ _ "p1" "now"); cbn; set_solver|].
    eapply rtc_l; [apply Row.settle_add|]. apply rtc_refl. }
  split; [exact Hs|]. destruct (row_shows_own_rules _ _ _ Hs (conj eq_refl eq_refl)) as [H _].
  intros [_ Hn]%H. apply Hn. by left.
Defined.

Lemma rule_stored_as_typed_witness :
  create_permission "p" "r" "now" (AddPermission.body (AddPermission.mkForm "*" "*" PermissionEffect_deny "0" "Servers")) =
  Some (mkToolPermissionView "p" "r" "*" "*" PermissionEffect_deny 50 "now").
Proof.
  apply (rule_stored_as_typed "p" "r" "now" (AddPermission.mkForm "*" "*" PermissionEffect_deny "0" "Servers") 0); cbn; try lia.
  reflexivity.
Defined.

Lemma higher_number_decides_witness :
  Rbac.allowed (Rbac.evaluate_permission "github" "read_file"
    [demo_rule "deny" PermissionEffect_deny 1; demo_rule "allow" PermissionEffect_allow 50]) = true.
Proof.
  rewrite (higher_number_decides (demo_rule "deny" PermissionEffect_deny 1) (demo_rule "allow" PermissionEffect_allow 50)
    "github" "read_file" eq_refl eq_refl ltac:(cbn; lia) eq_refl _ (or_introl eq_refl)). reflexivity.
Defined.

Lemma readonly_pattern_matches_nothing_witness :
  Rbac.rule_matches "github" "read_file" (mkToolPermissionView "p" "r" "*" "read_*, list_*, get_*, search_*" PermissionEffect_allow 50 "") = false.
Proof.
  apply (readonly_pattern_matches_nothing "github" "read_file" _
    (mkBuiltin "__readonly__" "ReadOnly" "*" "read_*, list_*, get_*, search_*" PermissionEffect_allow)); try reflexivity.
  unfold BUILTIN_ROLES. set_solver.
Defined.
