(* ===== verification/View.v ===== *)
(** * What a component renders

    A view is the content of a component's markup: its texts, links, controls,
    tables and charts in reading order, without layout and styles.  A control
    carries the name of its handler. *)

From S2P Require Import Prelude JsString.

Inductive view :=
  | Text (s : string)
  | Code (s : string)
  | Badge (label : string)
  | Link (label href : string)
  | Button (label : string) (disabled : bool) (handler : string)
  | Input (label value placeholder : string) (masked : bool)
  | Select (label value : string) (options : list string)
  | Stat (label value : string)
  | Card (title subtitle : string) (body : list view)
  | Table (head : list string) (rows : list (list view))
  | Chart (points : list (string * list (string * Z)))
  | Skeletons (n : nat).

(** The texts of a view, in reading order. *)
Fixpoint texts (v : view) : list string :=
  match v with
  | Text s | Code s | Badge s => [s]
  | Link l _ | Button l _ _ => [l]
  | Input l v p masked => [l; if masked then "" else if bool_decide (v = "") then p else v]
  | Select l v _ => [l; v]
  | Stat l v => [l; v]
  | Card t s b => t :: s :: flat_map texts b
  | Table h rs => h ++ flat_map (flat_map texts) rs
  | Chart ps => ps.*1
  | Skeletons _ => []
  end.

(** The targets of its links. *)
Fixpoint links (v : view) : list string :=
  match v with
  | Link _ h => [h]
  | Card _ _ b => flat_map links b
  | Table _ rs => flat_map (flat_map links) rs
  | _ => []
  end.

(** The controls that can be pressed. *)
Fixpoint enabled (v : view) : list string :=
  match v with
  | Button _ false h => [h]
  | Card _ _ b => flat_map enabled b
  | Table _ rs => flat_map (flat_map enabled) rs
  | _ => []
  end.

(** The table of a view, row by row. *)
Fixpoint table_rows (v : view) : list (list view) :=
  match v with
  | Card _ _ b => flat_map table_rows b
  | Table _ rs => rs
  | _ => []
  end.

(** The state of a query's hook: [isLoading] while there is no answer yet;
    a page that reads [resp?.data ?? []] sees no rows before and after a failure. *)
Inductive answer (A : Type) := Pending | Failed | Answered (a : A).
Arguments Pending {A}. Arguments Failed {A}. Arguments Answered {A} a.

Definition rows {A} (q : answer (list A)) : list A := match q with Answered l => l | _ => [] end.
Definition is_pending {A} (q : answer A) : bool := match q with Pending => true | _ => false end.

(** [n !== 1 ? "s" : ""] *)
Definition plural (n : Z) : string := if bool_decide (n = 1%Z) then "" else "s".

(** ** components/demo-banner.tsx *)

Inductive banner_mode := live | mixed | local_only.

Definition DemoBanner (mode : banner_mode) (live_text local_text : string) : list view :=
  match mode with
  | live => []
  | mixed => [Text "Partial demo data"; Text ("Live: " +:+ live_text +:+ ". Local: " +:+ local_text +:+ ".")]
  | local_only =>
      [Text "Local only — no backend persistence yet";
       Text (local_text +:+ " Do not use for compliance or on-call decisions.")]
  end.

Definition shows (s : string) (l : list view) : Prop := s ∈ flat_map texts l.

Definition when (b : bool) (l : list view) : list view := if b then l else [].

Lemma shows_app s l l' : shows s (l ++ l') <-> shows s l \/ shows s l'.
Proof. unfold shows. rewrite flat_map_app. apply elem_of_app. Qed.

Lemma elem_flat_map {A B} (f : A -> list B) x l : x ∈ flat_map f l <-> exists y, y ∈ l /\ x ∈ f y.
Proof. rewrite list_elem_of_In, in_flat_map. setoid_rewrite list_elem_of_In. done. Qed.

Lemma shows_text s l : Text s ∈ l -> shows s l.
Proof. intros H. apply elem_flat_map. exists (Text s). split; [done|apply list_elem_of_here]. Qed.

(** Finds an element of a list built with conses and appends. *)
Ltac find_elem :=
  first [apply list_elem_of_here | apply list_elem_of_further; find_elem
        | apply elem_of_app; right; find_elem | apply elem_of_app; left; find_elem].

Ltac find_text := apply shows_text; find_elem.
