(* ===== verification/ToolPage.v ===== *)
(** * The tool page: web/src/app/dashboard/tools/[server]/[tool]/page.tsx

    The five tabs of a tool's page, its header and the queries behind them, as
    views.  The page's name heuristics ([getRiskLevel], [matchesPattern] and the
    like) are [Tools.ToolDetail]. *)

From Stdlib Require Import ZifyBool Sorting.Sorted.
From S2P Require Import Prelude JsString JsUri Json Browser ApiTypes ApiClient JsDate RelTime Tally JsNumber Tools Servers ServerPages JsonParse View.

Import Catalogue ToolDetail.

Definition quoted (s : string) : string := dquote +:+ s +:+ dquote.

Definition properties (tool : option McpTool) : list (string * McpToolProperty) := default [] (tool ≫= mt_properties).
Definition required (tool : option McpTool) : list string := default [] (tool ≫= mt_required).
Definition is_req (tool : option McpTool) (name : string) : bool := bool_decide (name ∈ required tool).

(** An optional text that is present and not empty. *)
Definition shown_text (o : option string) : list view := match nonempty o with Some s => [Text s] | None => [] end.

Definition risk_label (r : RiskLevel) : string :=
  match r with critical => "Critical" | high => "High" | medium => "Medium" | low => "Low" end.

Definition RiskBadge (r : RiskLevel) : view := Badge (risk_label r +:+ " Risk").

(** ** Documentation *)

Definition parameter_row (tool : option McpTool) (kv : string * McpToolProperty) : list view :=
  let '(name, s) := kv in
  [Code (name +:+ if is_req tool name then " *" else "");
   match nonempty (mp_type s) with Some t => Badge t | None => Text "unknown" end;
   Text (if is_req tool name then "required" else "optional");
   Text (default "—" (mp_description s))].

Definition limitations_card : view :=
  Card "Limitations" "Known constraints and caveats"
    [Text "Limitations are not provided by the MCP protocol. Consult the tool's documentation or server maintainer for edge cases, rate limits, and known issues."].

Definition DocumentationTab (tool : option McpTool) : list view :=
  let useCases := from_option (fun t => getUseCases (mt_name t)) [] tool in
  [Card "Description" "What this tool does"
     (Text (default "No description provided by this tool." (tool ≫= mt_description))
      :: when (negb (bool_decide (useCases = []))) (Text "Use Cases" :: map Text useCases));
   Card "Input Parameters" "Arguments accepted by this tool"
     (match properties tool with
      | [] => [Text "No parameters — this tool takes no input."]
      | ps => [Table ["Parameter"; "Type"; "Required"; "Description"] (map (parameter_row tool) ps)]
      end);
   limitations_card].

(** ** Schema *)

Definition rules_of (tool : option McpTool) (kv : string * McpToolProperty) : list string :=
  let '(name, s) := kv in
  (if is_req tool name then [quoted name +:+ " is required"] else [])
  ++ match nonempty (mp_type s) with Some t => [quoted name +:+ " must be a " +:+ t] | None => [] end
  ++ match mp_enum s with
     | Some (v :: vs) => [quoted name +:+ " — allowed values: " +:+ join ", " (v :: vs)]
     | _ => []
     end.

Definition validationRules (tool : option McpTool) : list string := flat_map (rules_of tool) (properties tool).

Definition schema_row (tool : option McpTool) (kv : string * McpToolProperty) : list view :=
  let '(name, s) := kv in
  match nonempty (mp_type s) with Some t => [Badge t] | None => [] end
  ++ [Code name] ++ when (is_req tool name) [Text "*"] ++ shown_text (mp_description s)
  ++ map Badge (default [] (mp_enum s)).

Definition raw_schema_card (schema : option string) : view :=
  Card "Raw Schema" "JSON Schema definition"
    [Button "Copy" false "handleCopy"; Code (default "// No schema available" schema)].

Definition rules_card (tool : option McpTool) : view :=
  Card "Validation Rules" "Derived from the JSON Schema definition"
    (match validationRules tool with
     | [] => [Text "No validation rules defined."]
     | rules => map Code rules
     end).

(** [schema] is the text [JSON.stringify(schema, null, 2)] of the definition. *)
Definition SchemaTab (tool : option McpTool) (schema : option string) : list view :=
  [Card "Input Schema" "Visual representation of accepted parameters"
     (match properties tool with
      | [] => [Text "No schema available."]
      | ps => flat_map (schema_row tool) ps
      end);
   raw_schema_card schema; rules_card tool].

(** ** Access *)

Definition prefixed (label : string) (o : option string) : string :=
  match nonempty o with Some s => label +:+ s | None => "" end.

Definition policy_row (p : RateLimitPolicyView) : list view :=
  [Text (match RateLimitPolicyView_algorithm p with
         | RateLimitAlgorithm_token_bucket => "Token Bucket" | _ => "Sliding Window" end);
   Text ("Subject: " +:+ default "all" (RateLimitPolicyView_subject_id p)
         +:+ prefixed " · server: " (RateLimitPolicyView_server_pattern p)
         +:+ prefixed " · tool: " (RateLimitPolicyView_tool_pattern p));
   Text (pretty (RateLimitPolicyView_request_limit p) +:+ " req");
   Text ("/ " +:+ pretty (RateLimitPolicyView_window_seconds p) +:+ "s")].

Section access.
Context (tz now : Z).

Definition role_row (r : RoleView) : list view :=
  [Text (RoleView_name r); Text ("Created " +:+ tool_relativeTime tz now (Some (RoleView_created_at r)));
   Link "View role" "/dashboard/roles"].

Definition access_summary : view :=
  Card "Access Control Summary" "Default access behavior"
    [Text "Allowed by";
     Text "Access controlled by default policy and role permissions. Configure allow rules in the Roles section.";
     Text "Denied by";
     Text "Deny rules are configured per role. Visit the Roles section to restrict access to this tool."].

Definition AccessTab (server toolName : string) (roles : list RoleView) (policies : list RateLimitPolicyView) : list view :=
  let matching := matchingPolicies server toolName policies in
  let others := length policies - length matching in
  [Card "Active Rate Limit Policies" "Policies that apply to requests for this tool"
     (match matching with
      | [] => [Text "No rate limit policies configured."]
      | ps => flat_map policy_row ps
      end
      ++ when (negb (bool_decide (policies = [])) && (length matching <? length policies)%nat)
           [Text (pretty (Z.of_nat others) +:+ " other " +:+ (if (others =? 1)%nat then "policy" else "policies")
                  +:+ " configured for other servers or tools.")]);
   Card "Role Permissions" "Roles configured in this gateway"
     (match roles with
      | [] => [Text "No roles defined."]
      | rs => Text "Per-role permission details are managed in the Roles section. The roles below exist in this gateway. To see which tools each role can access, visit the role's detail page."
              :: flat_map role_row rs
      end);
   access_summary].
End access.

(** ** Usage *)

Record caller := mkCaller { cl_count : Z; cl_lastSeen : string }.

(** [log.created_at > entry.lastSeen] compares texts. *)
Definition caller_bump (l : AuditLogView) (c : option caller) : caller :=
  let c := default (mkCaller 0 (AuditLogView_created_at l)) c in
  mkCaller (cl_count c + 1)
    (if bool_decide (String.compare (cl_lastSeen c) (AuditLogView_created_at l) = Lt)
     then AuditLogView_created_at l else cl_lastSeen c).

(** Subjects are keys of an object: UUIDs and names, which are kept in order of
    insertion (a subject that is a small integer is outside the model). *)
Definition subject_key (l : AuditLogView) : option string := nonempty (AuditLogView_subject_id l).
Definition callerCounts (logs : list AuditLogView) : list (string * caller) := group subject_key caller_bump logs.
Definition topCallers (logs : list AuditLogView) : list (string * caller) :=
  take 10 (stable_sort (by_desc (fun kv => cl_count (kv.2))) (callerCounts logs)).

Definition tool_logs (toolName : string) (allLogs : list AuditLogView) : list AuditLogView :=
  List.filter (fun l => bool_decide (AuditLogView_tool_name l = Some toolName)) allLogs.

Definition short_subject (s : string) : string :=
  if (24 <? String.length s)%nat
  then stake 12 s +:+ "…" +:+ sdrop (String.length s - 8) s else s.

Section usage.
Context (tz now : Z) (localeCompare : string -> string -> comparison).

Definition log_time (l : AuditLogView) : option Z := Date_parse tz (AuditLogView_created_at l).

(** A time that is not a number is not [>= cutoff]. *)
Definition recent (l : AuditLogView) : bool :=
  match log_time l with Some t => (now - 86400000 <=? t)%Z | None => false end.

Definition chartData (logs : list AuditLogView) : list (string * ServerDetail.HourBucket) :=
  stable_sort (fun a b => match localeCompare (a.1) (b.1) with Gt => false | _ => true end)
    (group (fun l => Some (ServerDetail.hour_label tz l)) ServerDetail.bucket_bump (List.filter recent logs)).

Definition deniedLogs (logs : list AuditLogView) : list AuditLogView :=
  take 10 (stable_sort (by_newest log_time) (ServerDetail.with_outcome "denied" logs)).

Definition uniqueCallers (logs : list AuditLogView) : nat := length (callerCounts logs).

Definition caller_row (kv : string * caller) : list view :=
  [Code (short_subject (kv.1)); Text (pretty (cl_count (kv.2)));
   Text (tool_relativeTime tz now (Some (cl_lastSeen (kv.2))))].

Definition denied_row (l : AuditLogView) : list view :=
  [Text (tool_relativeTime tz now (Some (AuditLogView_created_at l)));
   Code (AuditEventType_value (AuditLogView_event_type l));
   Text (default "—" (AuditLogView_subject_id l)); Badge "denied"].

Definition rounded_text (r : rounded) : string :=
  match r with RNum z => pretty z | RInf true => "-Infinity" | RInf false => "Infinity" | RNaN => "NaN" end.

Definition successRate (logs : list AuditLogView) : rounded :=
  ServerDetail.pct_of (length (ServerDetail.with_outcome "allowed" logs)) (length logs).

Definition chart_points (logs : list AuditLogView) : list (string * list (string * Z)) :=
  map (fun kv => (kv.1, [("Allowed", ServerDetail.hb_allowed (kv.2)); ("Denied", ServerDetail.hb_denied (kv.2))])) (chartData logs).

Definition UsageTab (allLogs : list AuditLogView) (toolName : string) : list view :=
  let logs := tool_logs toolName allLogs in
  match logs with
  | [] => [Text "No usage data yet"; Text "Metrics appear once this tool receives traffic"]
  | _ =>
      [Stat "Total Requests" (pretty (Z.of_nat (length logs)));
       Stat "Success Rate" (rounded_text (successRate logs) +:+ "%");
       Stat "Avg Latency" "N/A";
       Stat "Unique Callers" (pretty (Z.of_nat (uniqueCallers logs)))]
      ++ when (negb (bool_decide (chart_points logs = [])))
           [Card "Request Activity" "Allowed vs denied requests over the last 24 hours" [Chart (chart_points logs)]]
      ++ when (negb (length (topCallers logs) =? 0)%nat)
           [Card "Top Consumers" "Subjects with the most calls to this tool"
              [Table ["Subject ID"; "Calls"; "Last Seen"] (map caller_row (topCallers logs))]]
      ++ when (negb (length (deniedLogs logs) =? 0)%nat)
           [Card "Denied Requests" "Most recent denied invocations of this tool"
              [Table ["Time"; "Event"; "Subject"; "Outcome"] (map denied_row (deniedLogs logs))]]
  end.
End usage.

(** ** Security *)

Definition riskDescriptions (r : RiskLevel) : string :=
  match r with
  | critical => "This tool performs destructive operations that cannot be undone. Requires explicit approval in sensitive environments."
  | high => "This tool modifies state or sends data. Treat with elevated caution in automated pipelines."
  | medium => "This tool reads or queries data. Generally safe but may expose sensitive information."
  | low => "This tool performs read-only or informational operations. Low risk in most contexts."
  end.

(** [/password|secret|.../i] *)
Definition sensitive (name : string) : bool :=
  any_of ["password"; "secret"; "token"; "key"; "credential"; "auth"; "api_key"; "private"] (toLowerCase name).

Definition sensitiveFields (tool : option McpTool) : list string := List.filter sensitive (properties tool).*1.

Definition destructive (r : RiskLevel) : bool := bool_decide (r = critical) || bool_decide (r = high).

Definition data_access_card (toolName : string) : view :=
  Card "Data Access" "Types of data this tool likely accesses"
    [Text (getDataAccess toolName);
     Text "This assessment is based on the tool name. Review the server implementation for authoritative data access details."].

Definition SecurityTab (tool : option McpTool) : list view :=
  let toolName := from_option mt_name "" tool in
  let risk := getRiskLevel toolName in
  [Card "Risk Classification" "Assessed risk level based on tool name heuristics"
     [RiskBadge risk; Text (riskDescriptions risk)];
   Card "Sensitive Fields" "Input parameters with potentially sensitive names"
     (match sensitiveFields tool with
      | [] => [Text "No sensitive parameter names detected."]
      | fs => flat_map (fun f => [Code f; Text "— potentially sensitive"]) fs
      end);
   Card "Destructive Capability" "Whether this tool can modify or delete data"
     (if destructive risk
      then [Badge "Potentially destructive"; Text "This tool may modify or delete data."]
      else [Badge "Non-destructive"; Text "This tool does not appear to perform destructive operations."]);
   Card "Human Approval Requirement" "Gate configuration for this tool"
     [Text "Human approval gates are not enforced at the tool level in the current version. Use role permissions to restrict access to sensitive tools."];
   data_access_card toolName].

(** ** The page *)

Inductive Tab := documentation | schema | access | usage | security.
#[global] Instance Tab_eq_dec : EqDecision Tab.
Proof. solve_decision. Defined.

Definition tabs : list (Tab * string) :=
  [(documentation, "Documentation"); (schema, "Schema"); (access, "Access"); (usage, "Usage"); (security, "Security")].

(** The answers the page has: [None] while loading or after a failure. *)
Record queries := mkQueries {
  q_server : option ServerView; q_loading : bool; q_tools : option (list McpTool);
  q_logs : list AuditLogView; q_roles : list RoleView; q_policies : list RateLimitPolicyView }.

Record page := mkPage { pg_tab : Tab; pg_tip : bool }.
Definition initial : page := mkPage documentation false.

Definition toolDef (q : queries) (toolName : string) : option McpTool :=
  q_tools q ≫= List.find (fun t => bool_decide (mt_name t = toolName)).

Definition playground_href (server toolName : string) : string :=
  "/dashboard/playground?server=" +:+ encodeURIComponent server +:+ "&tool=" +:+ encodeURIComponent toolName.

Definition DisableTipDialog : list view :=
  [Text "Tool-level disable";
   Text "Tool-level disable is enforced via role permissions. To block this tool, deny it in a role by navigating to the Roles section and adding a deny rule with the pattern matching this tool's name.";
   Button "Got it" false "onClose"; Link "Go to Roles" "/dashboard/roles"].

Section page.
Context (tz now : Z) (localeCompare : string -> string -> comparison) (schema_text : option McpTool -> option string).

Definition toolLogs (q : queries) (toolName : string) : list AuditLogView :=
  stable_sort (by_newest (log_time tz)) (tool_logs toolName (q_logs q)).

Definition lastInvoked (q : queries) (toolName : string) : option string :=
  AuditLogView_created_at <$> head (toolLogs q toolName).

Definition header (q : queries) (server toolName : string) : list view :=
  [Link "Back to tools" "/dashboard/tools"; Text toolName; Text "v1.0.0"; RiskBadge (getRiskLevel toolName)]
  ++ match q_server q with Some s => [Badge (ServerStatus_value (ServerView_status s))] | None => [] end
  ++ [Text server; Text ("Last invoked: " +:+ tool_relativeTime tz now (lastInvoked q toolName));
      Link "Try in Playground" (playground_href server toolName);
      Button "Disable" false "setShowDisableTip"].

Definition tab_content (p : page) (q : queries) (server toolName : string) : list view :=
  let tool := toolDef q toolName in
  match pg_tab p with
  | documentation => DocumentationTab tool
  | schema => SchemaTab tool (schema_text tool)
  | access => AccessTab tz now server toolName (q_roles q) (q_policies q)
  | usage => UsageTab tz now localeCompare (q_logs q) toolName
  | security => SecurityTab tool
  end.

(** [decodeURIComponent] of a malformed segment throws. *)
Definition ToolDetailPage (p : page) (q : queries) (server rawTool : string) : result string (list view) :=
  match decodeURIComponent rawTool with
  | Decoded toolName =>
      Ok (if q_loading q then [Skeletons 6] else
          when (pg_tip p) DisableTipDialog ++ header q server toolName
          ++ map (fun t => Button (t.2) false "setTab") tabs
          ++ tab_content p q server toolName)
  | _ => Err "URIError"
  end.
End page.

(** ** Lemmas *)

Lemma plus_to_space_id s : without "+" s = true -> smap plus_to_space s = s.
Proof.
  induction s as [|c s IH]; [done|]. rewrite without_cons. intros H. bool_hyps. cbn. rewrite IH by done. f_equal.
  unfold plus_to_space. rewrite bool_decide_eq_false_2; congruence.
Qed.

(** A component written with [encodeURIComponent] reads as it was by
    [URLSearchParams]. *)
Lemma form_decode_component s : form_decode (encodeURIComponent s) = Some s.
Proof.
  unfold form_decode. rewrite plus_to_space_id by by apply encode_without. by rewrite decode_encode.
Qed.

Lemma parse_pair_component k s :
  without "=" k = true -> form_decode k = Some k -> parse_pair (k +:+ "=" +:+ encodeURIComponent s) = Some (k, s).
Proof.
  intros Hk Hd. unfold parse_pair. change (k +:+ "=" +:+ ?x) with (k +:+ String "=" x).
  rewrite take_until_app, drop_after_app by done. cbn [default from_option id]. rewrite Hd, form_decode_component. done.
Qed.

Lemma weights_perm {V} (f : V -> Z) (l l' : list (string * V)) : l ≡ₚ l' -> weights f l = weights f l'.
Proof. unfold weights. induction 1; cbn in *; lia. Qed.

(** What a row of callers says of the subject's entries. *)
Definition describes (c : caller) (mine : list AuditLogView) : Prop :=
  cl_count c = Z.of_nat (length mine) /\ latest_of AuditLogView_created_at (cl_lastSeen c) mine.

Lemma later_self t : later_text t t = t.
Proof. unfold later_text. by case_bool_decide. Qed.

Lemma caller_describes logs s c :
  (s, c) ∈ callerCounts logs -> describes c (filter (fun l => subject_key l = Some s) logs).
Proof.
  intros H%group_elem. revert H. apply (accumulate_inv subject_key caller_bump (fun xs c => describes c xs)).
  - intros x _. unfold caller_bump. cbn [default from_option id cl_count cl_lastSeen].
    fold (later_text (AuditLogView_created_at x) (AuditLogView_created_at x)). rewrite later_self.
    split; [done|]. exact (latest_first AuditLogView_created_at x).
  - intros xs x v _ [Hc Hl]. split; [|exact (latest_next _ _ _ x Hl)]. cbn. rewrite length_app. cbn. lia.
Qed.

(** ** Properties *)

(** The link to the playground carries the page's server and tool: whatever
    their texts, the playground reads from its query exactly these two. *)
Theorem playground_link_roundtrip server toolName :
  parse_query (drop_after "?" (playground_href server toolName)) = Some [("server", server); ("tool", toolName)].
Proof.
  unfold playground_href.
  change ("/dashboard/playground?server=" +:+ ?x) with ("/dashboard/playground" +:+ String "?" ("server=" +:+ x)).
  rewrite drop_after_app by done. unfold parse_query.
  set (a := "server=" +:+ encodeURIComponent server). set (b := "tool=" +:+ encodeURIComponent toolName).
  assert ("server=" +:+ encodeURIComponent server +:+ "&tool=" +:+ encodeURIComponent toolName = a +:+ String "&" b) as ->
    by (subst a b; by rewrite <- sapp_assoc).
  assert (forall k s, without "&" k = true -> without "&" (k +:+ encodeURIComponent s) = true) as Hw.
  { intros k s Hk. rewrite without_app, Hk. by apply encode_without. }
  rewrite split_app, split_without by by apply Hw. cbn [mapM].
  subst a b. change ("server=" +:+ ?x) with ("server" +:+ "=" +:+ x). change ("tool=" +:+ ?x) with ("tool" +:+ "=" +:+ x).
  by rewrite !parse_pair_component.
Qed.

(** A link of the catalogue opens the page of that very tool. *)
Theorem catalogue_link_opens_tool tz now lc st p q server toolName :
  ToolDetailPage tz now lc st p q server (encodeURIComponent toolName) =
  Ok (if q_loading q then [Skeletons 6] else
      when (pg_tip p) DisableTipDialog ++ header tz now q server toolName
      ++ map (fun t => Button (t.2) false "setTab") tabs ++ tab_content tz now lc st p q server toolName).
Proof. unfold ToolDetailPage. by rewrite decode_encode. Qed.

(** The activity chart counts every entry of the last day exactly once: its
    columns add up to the allowed and the denied calls of the tool that are not
    older; entries whose date cannot be read are left out. *)
Theorem activity_counts_last_day tz now lc logs :
  let pts := chartData tz now lc logs in
  weights ServerDetail.hb_allowed pts = Z.of_nat (length (ServerDetail.with_outcome "allowed" (List.filter (recent tz now) logs))) /\
  weights ServerDetail.hb_denied pts = Z.of_nat (length (ServerDetail.with_outcome "denied" (List.filter (recent tz now) logs))).
Proof.
  cbv zeta. unfold chartData.
  pose proof (hour_buckets_total tz (List.filter (recent tz now) logs)) as [H1 H2].
  unfold ServerDetail.bucketMap in H1, H2.
  split; (etransitivity; [|eassumption]); apply weights_perm, stable_sort_perm.
Qed.

(** The table of consumers: a row counts exactly the calls of its subject and
    was last seen at the latest of their timestamps; no subject left out has
    more calls. *)
Theorem consumers_exact logs s c :
  (s, c) ∈ topCallers logs ->
  describes c (filter (fun l => subject_key l = Some s) logs) /\
  (forall s', (0 < count subject_key s' logs)%Z -> s' ∉ (topCallers logs).*1 -> (count subject_key s' logs <= cl_count c)%Z).
Proof.
  intros Hr. destruct (top_groups_dominate subject_key caller_bump cl_count 10 logs) as [Hin Htop].
  { intros k v Hk. by destruct (caller_describes logs k v Hk) as [-> _]. }
  split; [by apply caller_describes, Hin|]. intros s' Hc Hn. by eapply Htop.
Qed.

(** The denied calls shown are the newest, newest first, and the header's last
    invocation is the time of a call of the tool that none is newer than. *)
Theorem denials_newest_first tz q toolName :
  (forall l, l ∈ q_logs q -> is_Some (log_time tz l)) ->
  let at_ l := default 0%Z (log_time tz l) in
  let logs := tool_logs toolName (q_logs q) in
  (length (deniedLogs tz logs) = Nat.min 10 (length (ServerDetail.with_outcome "denied" logs)) /\
   StronglySorted (fun a b => (at_ b <= at_ a)%Z) (deniedLogs tz logs)) /\
  match lastInvoked tz q toolName with
  | None => logs = []
  | Some t => exists l, l ∈ logs /\ t = AuditLogView_created_at l /\ forall l', l' ∈ logs -> (at_ l' <= at_ l)%Z
  end.
Proof.
  intros Hd at_ logs.
  assert (forall l, l ∈ logs -> is_Some (log_time tz l)) as Hl.
  { intros l H. apply Hd. apply list_elem_of_In, filter_In in H as [H _]. by apply list_elem_of_In. }
  split.
  - destruct (take_newest_spec (log_time tz) 10 (ServerDetail.with_outcome "denied" logs)) as (H1 & H2 & _); [|done].
    intros l H. apply Hl. apply list_elem_of_In, filter_In in H as [H _]. by apply list_elem_of_In.
  - destruct (take_newest_spec (log_time tz) 1 logs Hl) as (H1 & _ & om & Hp & H3).
    unfold lastInvoked, toolLogs. fold logs. destruct (stable_sort _ logs) as [|l r] eqn:E; cbn in H1 |- *.
    + destruct logs; [done|]. cbn in H1. lia.
    + cbn in Hp, H3. exists l. split_and!; [|done|].
      * rewrite <- Hp. by left.
      * intros l'. rewrite <- Hp. intros [->|Ho]%elem_of_cons; [done|]. apply H3; [by left|done].
Qed.

(** The rules listed are exactly those the schema states: which parameters are
    required, of which type, and with which values. *)
Theorem validation_rules_exact tool r :
  r ∈ validationRules tool <->
  exists name s, (name, s) ∈ properties tool /\
    (name ∈ required tool /\ r = quoted name +:+ " is required" \/
     (exists t, mp_type s = Some t /\ t <> "" /\ r = quoted name +:+ " must be a " +:+ t) \/
     (exists vs, mp_enum s = Some vs /\ vs <> [] /\ r = quoted name +:+ " — allowed values: " +:+ join ", " vs)).
Proof.
  unfold validationRules. rewrite elem_flat_map. split.
  - intros ([name s] & Hin & Hr). exists name, s. split; [done|]. unfold rules_of in Hr. rewrite !elem_of_app in Hr.
    destruct Hr as [Hr|[Hr|Hr]].
    + unfold is_req in Hr. case_bool_decide; [|by apply not_elem_of_nil in Hr]. apply list_elem_of_singleton in Hr. by left.
    + right. left. unfold nonempty in Hr. destruct (mp_type s) as [t|]; [|by apply not_elem_of_nil in Hr].
      case_bool_decide; [by apply not_elem_of_nil in Hr|]. apply list_elem_of_singleton in Hr. by exists t.
    + right. right. destruct (mp_enum s) as [[|v vs]|]; try by apply not_elem_of_nil in Hr.
      apply list_elem_of_singleton in Hr. by exists (v :: vs).
  - intros (name & s & Hin & Hr). exists (name, s). split; [done|]. unfold rules_of. rewrite !elem_of_app.
    destruct Hr as [[Hq ->]|[(t & Ht & Hne & ->)|([|v vs] & He & Hne & ->)]]; [| | done|].
    + left. unfold is_req. rewrite bool_decide_eq_true_2 by done. by apply list_elem_of_singleton.
    + right. left. rewrite Ht. cbn. rewrite bool_decide_eq_false_2 by done. by apply list_elem_of_singleton.
    + right. right. rewrite He. by apply list_elem_of_singleton.
Qed.

(** A tool the server's list does not hold, as when the list cannot be fetched,
    is rated by its header and passed by its security tab: whatever its name,
    the tab says low risk, no sensitive parameters, non-destructive. *)
Theorem unlisted_tool_passes_security tz now lc st tip q server toolName :
  toolDef q toolName = None ->
  let v := tab_content tz now lc st (mkPage security tip) q server toolName in
  shows "Low Risk" v /\ shows "Non-destructive" v /\ shows "No sensitive parameter names detected." v /\
  ~ shows "Potentially destructive" v.
Proof.
  intros Hn. unfold tab_content. cbn [pg_tab]. rewrite Hn. unfold shows.
  split_and!; try (apply (bool_decide_unpack _); vm_compute; exact I).
Qed.

(** ** Witnesses *)

Definition demo_entry (id subject outcome at_ : string) : AuditLogView :=
  mkAuditLogView id None (Some subject) (Some SubjectType_api_key) AuditEventType_tool_call (Some "github") (Some "read_file")
    (Some "tools/call") outcome None None [] at_.

Definition demo_entries : list AuditLogView :=
  [demo_entry "1" "ci" "allowed" "2026-01-02T00:00:00Z"; demo_entry "2" "ci" "denied" "2026-01-03T00:00:00Z";
   demo_entry "3" "bot" "denied" "2026-01-01T00:00:00Z"].

Definition demo_queries : queries := mkQueries None false None demo_entries [] [].

Lemma consumers_exact_witness : describes (mkCaller 2 "2026-01-03T00:00:00Z") (take 2 demo_entries).
Proof. apply (consumers_exact demo_entries "ci"). vm_compute. by left. Defined.

Lemma denials_newest_first_witness :
  length (deniedLogs 0 (tool_logs "read_file" demo_entries)) = 2 /\ lastInvoked 0 demo_queries "read_file" = Some "2026-01-03T00:00:00Z".
Proof.
  destruct (denials_newest_first 0 demo_queries "read_file") as [[H _] _].
  { intros l Hl. cbn in Hl. repeat (apply elem_of_cons in Hl as [->|Hl]; [vm_compute; eauto|]). by apply not_elem_of_nil in Hl. }
  split; [exact H|]. by vm_compute.
Defined.

Lemma unlisted_tool_passes_security_witness :
  header 0 0 demo_queries "github" "drop_database" !! 3 = Some (Badge "Critical Risk") /\
  shows "Low Risk" (tab_content 0 0 String.compare (fun _ => None) (mkPage security false) demo_queries "github" "drop_database").
Proof.
  split; [by vm_compute|].
  by apply (unlisted_tool_passes_security 0 0 String.compare (fun _ => None) false demo_queries "github" "drop_database").
Defined.
