(* ===== verification/Integrations.v ===== *)
(** * The integrations page: web/src/app/dashboard/integrations/page.tsx

    The page's list with its category and text filters, the configuration modal
    and the cards.  Nothing is sent to the backend: connecting, testing and
    disconnecting change the page's own state.

    [step] is one event of the page.  The modal keeps its own state and is
    mounted while [configuring] is set. *)

From S2P Require Import Prelude JsString JsDate RelTime View.

(** ** Data *)

Inductive IntegrationCategory := identity | observability | notifications | infrastructure | developer.
#[global] Instance IntegrationCategory_eq_dec : EqDecision IntegrationCategory.
Proof. solve_decision. Defined.

Inductive IntegrationStatus := connected | disconnected | error | pending.
#[global] Instance IntegrationStatus_eq_dec : EqDecision IntegrationStatus.
Proof. solve_decision. Defined.

Inductive FieldType := text | password | url | select.
#[global] Instance FieldType_eq_dec : EqDecision FieldType.
Proof. solve_decision. Defined.

Record ConfigField := mkField {
  cf_key : string; cf_label : string; cf_type : FieldType; cf_placeholder : string;
  cf_options : option (list string); cf_required : bool }.

Record Integration := mkIntegration {
  i_id : string; i_name : string; i_description : string; i_category : IntegrationCategory;
  i_status : IntegrationStatus; i_lastSync : option string; i_docsUrl : string;
  i_configFields : list ConfigField; i_configValues : gmap string string }.

#[global] Instance ConfigField_eq_dec : EqDecision ConfigField.
Proof. solve_decision. Defined.
#[global] Instance Integration_eq_dec : EqDecision Integration.
Proof. solve_decision. Defined.

Definition category_label (c : IntegrationCategory) : string :=
  match c with
  | identity => "Identity" | observability => "Observability" | notifications => "Notifications"
  | infrastructure => "Infrastructure" | developer => "Developer tools"
  end.

Definition status_label (s : IntegrationStatus) : string :=
  match s with
  | connected => "Connected" | disconnected => "Not connected" | error => "Error" | pending => "Pending"
  end.

(** [const INTEGRATIONS: Integration[] = []], which nothing reads. *)
Definition INTEGRATIONS : list Integration := [].

(** ** The configuration modal *)

Record modal := mkModal {
  m_values : gmap string string; m_showPasswords : gmap string bool; m_testing : bool; m_testResult : bool }.

Definition mount (i : Integration) : modal :=
  mkModal (list_to_map ((fun f => (cf_key f, default "" (i_configValues i !! cf_key f))) <$> i_configFields i))
          ∅ false false.

Definition value (m : modal) (f : ConfigField) : string := default "" (m_values m !! cf_key f).

Definition set (key val : string) (m : modal) : modal :=
  mkModal (<[key := val]> (m_values m)) (m_showPasswords m) (m_testing m) false.

Definition revealed (m : modal) (f : ConfigField) : bool := default false (m_showPasswords m !! cf_key f).

Definition toggle (key : string) (m : modal) : modal :=
  mkModal (m_values m) (<[key := negb (default false (m_showPasswords m !! key))]> (m_showPasswords m))
          (m_testing m) (m_testResult m).

(** [testConnection] before and after its timer of 1200 ms, its only work.  The
    button is disabled meanwhile; the timer of a modal that was closed changes
    nothing. *)
Definition test_start (m : modal) : modal :=
  if m_testing m then m else mkModal (m_values m) (m_showPasswords m) true (m_testResult m).
Definition test_done (m : modal) : modal :=
  if m_testing m then mkModal (m_values m) (m_showPasswords m) false true else m.

Definition field_view (m : modal) (f : ConfigField) : view :=
  let label := cf_label f +:+ if cf_required f then "" else " (optional)" in
  if bool_decide (cf_type f = select)
  then Select label (if bool_decide (value m f = "") then cf_placeholder f else value m f) (default [] (cf_options f))
  else Input label (value m f) (cf_placeholder f) (bool_decide (cf_type f = password) && negb (revealed m f)).

Definition modal_footer (m : modal) : list view :=
  when (m_testResult m) [Text "Connection test successful"]
  ++ [Button (if m_testing m then "Testing…" else "Test connection") (m_testing m) "testConnection";
      Button "Cancel" false "onClose"; Button "Save & connect" false "onSave"].

Definition ConfigureModal (i : Integration) (m : modal) : list view :=
  [Text (i_name i); Text (category_label (i_category i))]
  ++ when (negb (bool_decide (i_docsUrl i = "#"))) [Link "Docs" (i_docsUrl i)]
  ++ [Button "" false "onClose"; Text (i_description i)]
  ++ map (field_view m) (i_configFields i)
  ++ modal_footer m.

(** ** The page *)

Record page := mkPage {
  p_integrations : list Integration; p_configuring : option (Integration * modal);
  p_search : string; p_activeCategory : option IntegrationCategory }.

Definition initial : page := mkPage [] None "" None.

Definition with_status (s : IntegrationStatus) (l : list Integration) : list Integration :=
  List.filter (fun i => bool_decide (i_status i = s)) l.

Definition connectedCount (p : page) : nat := length (with_status connected (p_integrations p)).
Definition errorCount (p : page) : nat := length (with_status error (p_integrations p)).

Definition in_category (c : IntegrationCategory) (i : Integration) : bool := bool_decide (i_category i = c).

Definition found (q : string) (i : Integration) : bool :=
  includes (toLowerCase (i_name i)) q || includes (toLowerCase (i_description i)) q.

Definition filtered (p : page) : list Integration :=
  let r := match p_activeCategory p with
           | Some c => List.filter (in_category c) (p_integrations p)
           | None => p_integrations p
           end in
  if bool_decide (p_search p = "") then r else List.filter (found (toLowerCase (p_search p))) r.

Definition categoryOrder : list IntegrationCategory :=
  [identity; observability; notifications; infrastructure; developer].

(** [g[i.category].push(i)] over five empty lists. *)
Definition push_to (g : IntegrationCategory -> list Integration) (i : Integration) : IntegrationCategory -> list Integration :=
  fun c => if bool_decide (c = i_category i) then g c ++ [i] else g c.
Definition grouped (p : page) : IntegrationCategory -> list Integration :=
  fold_left push_to (filtered p) (fun _ => []).

Definition save_in (now : Z) (values : gmap string string) (i : Integration) : Integration :=
  mkIntegration (i_id i) (i_name i) (i_description i) (i_category i) connected (Some (toISOString now))
                (i_docsUrl i) (i_configFields i) values.

Definition handleSave (now : Z) (id : string) (values : gmap string string) (p : page) : page :=
  mkPage (map (fun i => if bool_decide (i_id i = id) then save_in now values i else i) (p_integrations p))
         (p_configuring p) (p_search p) (p_activeCategory p).

Definition disconnect_in (i : Integration) : Integration :=
  mkIntegration (i_id i) (i_name i) (i_description i) (i_category i) disconnected None
                (i_docsUrl i) (i_configFields i) ∅.

Definition handleDisconnect (id : string) (p : page) : page :=
  mkPage (map (fun i => if bool_decide (i_id i = id) then disconnect_in i else i) (p_integrations p))
         (p_configuring p) (p_search p) (p_activeCategory p).

(** [setConfiguring(i)] while the modal is open keeps the mounted modal and its
    state: it has no key. *)
Definition setConfiguring (o : option Integration) (p : page) : page :=
  mkPage (p_integrations p)
         (match o, p_configuring p with
          | None, _ => None
          | Some i, Some (_, m) => Some (i, m)
          | Some i, None => Some (i, mount i)
          end) (p_search p) (p_activeCategory p).

Definition in_modal (f : modal -> modal) (p : page) : page :=
  mkPage (p_integrations p) (match p_configuring p with Some (i, m) => Some (i, f m) | None => None end)
         (p_search p) (p_activeCategory p).

Definition setSearch (s : string) (p : page) : page :=
  mkPage (p_integrations p) (p_configuring p) s (p_activeCategory p).

Definition setActiveCategory (o : option IntegrationCategory) (p : page) : page :=
  mkPage (p_integrations p) (p_configuring p) (p_search p) o.

(** A category pill switches its filter off when it is on. *)
Definition press_pill (c : IntegrationCategory) (p : page) : page :=
  setActiveCategory (if bool_decide (p_activeCategory p = Some c) then None else Some c) p.

Inductive event :=
  | Search (s : string)
  | All
  | Pill (c : IntegrationCategory)
  | Configure (i : Integration)
  | Disconnect (i : Integration)
  | SetField (key val : string)
  | Reveal (key : string)
  | Test
  | TestTimer
  | Close
  | Save (now : Z).

(** Cards exist only for the integrations of the page. *)
Definition step (e : event) (p : page) : page :=
  match e with
  | Search s => setSearch s p
  | All => setActiveCategory None p
  | Pill c => press_pill c p
  | Configure i => if decide (i ∈ filtered p) then setConfiguring (Some i) p else p
  | Disconnect i => if decide (i ∈ filtered p) then handleDisconnect (i_id i) p else p
  | SetField k v => in_modal (set k v) p
  | Reveal k => in_modal (toggle k) p
  | Test => in_modal test_start p
  | TestTimer => in_modal test_done p
  | Close => setConfiguring None p
  | Save now =>
      match p_configuring p with
      | Some (i, m) => setConfiguring None (handleSave now (i_id i) (m_values m) p)
      | None => p
      end
  end.

Definition run (es : list event) (p : page) : page := fold_left (fun p e => step e p) es p.

Definition visibleCategories (p : page) : list IntegrationCategory :=
  if bool_decide (p_activeCategory p = None) && bool_decide (p_search p = "") then categoryOrder
  else List.filter (fun c => negb (bool_decide (grouped p c = []))) categoryOrder.

(** ** What it renders *)

Section views.
Context (tz now : Z).

Definition linked (i : Integration) : bool := bool_decide (i_status i = connected) || bool_decide (i_status i = error).

Definition IntegrationCard (i : Integration) : list view :=
  [Text (i_name i); Text (i_description i); Badge (status_label (i_status i))]
  ++ when (linked i) [Text (integrations_relativeTime tz now (i_lastSync i))]
  ++ [Button (if linked i then "Configure" else "Connect") false "onConfigure"]
  ++ when (linked i) [Button "Disconnect" false "onDisconnect"].

Definition category_section (p : page) (c : IntegrationCategory) : list view :=
  match grouped p c with
  | [] => []
  | items =>
      [Card (category_label c)
         (pretty (Z.of_nat (length (with_status connected items))) +:+ "/" +:+ pretty (Z.of_nat (length items)) +:+ " connected")
         (flat_map IntegrationCard items)]
  end.

Definition summary_strip (p : page) : list view :=
  [Stat "Connected" (pretty (Z.of_nat (connectedCount p)));
   Stat "Errors" (pretty (Z.of_nat (errorCount p)));
   Stat "Available" (pretty (Z.of_nat (length (p_integrations p))))].

Definition filter_bar (p : page) : list view :=
  [Input "" (p_search p) "Search integrations…" false; Button "All" false "setActiveCategory"]
  ++ map (fun c => Button (category_label c) false "setActiveCategory") categoryOrder.

Definition grouped_grid (p : page) : list view :=
  match filtered p with
  | [] => [Text "No integrations match your search"]
  | _ => flat_map (category_section p) (visibleCategories p)
  end.

Definition IntegrationsPage (p : page) : list view :=
  DemoBanner local_only "" "Integration connections are UI-only and are not persisted."
  ++ [Text "Integrations";
      Text "Connect identity providers, observability tools, notification channels, and infrastructure."]
  ++ summary_strip p ++ filter_bar p ++ grouped_grid p
  ++ [Text "Integration configuration is stored locally in this preview. In production, credentials are encrypted at rest in the gateway configuration store."]
  ++ match p_configuring p with Some (i, m) => ConfigureModal i m | None => [] end.
End views.

(** ** Lemmas *)

Module PageFacts.

Lemma fold_push l g c : fold_left push_to l g c = g c ++ List.filter (in_category c) l.
Proof.
  revert g. induction l as [|i l IH]; intros g; cbn; [by rewrite app_nil_r|].
  rewrite IH. unfold push_to, in_category.
  destruct (decide (c = i_category i)) as [->|Hc].
  - rewrite !bool_decide_eq_true_2 by done. by rewrite <- app_assoc.
  - by rewrite !bool_decide_eq_false_2 by done.
Qed.

Lemma grouped_spec p c : grouped p c = List.filter (in_category c) (filtered p).
Proof. apply (fold_push _ (fun _ => [])). Qed.

Lemma filtered_spec p i :
  i ∈ filtered p <-> i ∈ p_integrations p /\
    (forall c, p_activeCategory p = Some c -> i_category i = c) /\
    (p_search p <> "" -> found (toLowerCase (p_search p)) i = true).
Proof.
  unfold filtered.
  destruct (p_activeCategory p) as [c|]; case_bool_decide as E;
    rewrite ?list_elem_of_In, ?filter_In, ?list_elem_of_In; unfold in_category; rewrite ?bool_decide_eq_true;
    naive_solver.
Qed.

Lemma category_listed c : c ∈ categoryOrder.
Proof. destruct c; cbn; set_solver. Qed.

(** Items picked up by the distinct labels of a list. *)
Lemma partition_perm (cs : list IntegrationCategory) (l : list Integration) :
  NoDup cs -> (forall i, i ∈ l -> i_category i ∈ cs) -> flat_map (fun c => List.filter (in_category c) l) cs ≡ₚ l.
Proof.
  intros Hnd. induction l as [|i l IH]; intros Hin; [clear; by induction cs|].
  transitivity (i :: flat_map (fun c => List.filter (in_category c) l) cs);
    [clear IH|by f_equiv; apply IH; set_solver].
  assert (Hi : i_category i ∈ cs) by set_solver. clear Hin.
  induction Hnd as [|c cs Hc Hnd IH]; [set_solver|]. cbn. unfold in_category at 1.
  case_bool_decide as E.
  - cbn. f_equiv. f_equiv. rewrite !flat_map_concat_map, (map_ext_in _ (fun c => List.filter (in_category c) l)); [done|].
    intros c' Hc'. cbn. unfold in_category at 1. rewrite bool_decide_eq_false_2; [done|].
    intros E'. apply list_elem_of_In in Hc'. congruence.
  - rewrite IH by set_solver. by rewrite Permutation_middle.
Qed.

Lemma skip_empty {A} (empty : IntegrationCategory -> bool) (f : IntegrationCategory -> list A) cs :
  (forall c, empty c = true -> f c = []) ->
  flat_map f (List.filter (fun c => negb (empty c)) cs) = flat_map f cs.
Proof.
  intros Hf. induction cs as [|c cs IH]; [done|]. cbn.
  destruct (empty c) eqn:E; cbn; rewrite IH; [by rewrite (Hf c E)|done].
Qed.

Lemma visible_all p {A} (f : IntegrationCategory -> list A) :
  (forall c, grouped p c = [] -> f c = []) -> flat_map f (visibleCategories p) = flat_map f categoryOrder.
Proof.
  intros Hf. unfold visibleCategories. destruct (_ && _); [done|].
  apply skip_empty. intros c E. apply bool_decide_eq_true in E. auto.
Qed.

(** What an event does to one integration of the page. *)
Lemma step_integrations e p :
  exists f, p_integrations (step e p) = map f (p_integrations p) /\
    forall i, f i = i \/ f i = disconnect_in i \/ exists now vs, f i = save_in now vs i.
Proof.
  assert (Hid : exists f : Integration -> Integration, p_integrations p = map f (p_integrations p) /\
            forall i, f i = i \/ f i = disconnect_in i \/ exists now vs, f i = save_in now vs i).
  { exists id. split; [by rewrite map_id|auto]. }
  destruct e; cbn; try apply Hid; repeat case_decide; try apply Hid.
  - eexists. split; [done|]. intros j; cbn. case_bool_decide; auto.
  - destruct (p_configuring p) as [[i m]|]; [|apply Hid].
    eexists. split; [done|]. intros j; cbn. case_bool_decide; [|auto]. right; right; eauto.
Qed.
End PageFacts.

(** ** Properties *)

(** The cards are the integrations that pass the filters: every category shows
    its own, in the page's order, none is lost and none is shown twice, and a
    hidden category has no card. *)
Theorem cards_are_filtered_integrations p :
  flat_map (grouped p) (visibleCategories p) ≡ₚ filtered p /\
  (forall c, grouped p c = List.filter (in_category c) (filtered p)) /\
  (forall i, i ∈ filtered p <-> i ∈ p_integrations p /\
     (forall c, p_activeCategory p = Some c -> i_category i = c) /\
     (p_search p <> "" -> found (toLowerCase (p_search p)) i = true)).
Proof.
  split_and!.
  - rewrite PageFacts.visible_all by done.
    rewrite (flat_map_ext _ _ (PageFacts.grouped_spec p)).
    apply PageFacts.partition_perm; [apply (bool_decide_unpack _); vm_compute; exact I|].
    intros. apply PageFacts.category_listed.
  - apply PageFacts.grouped_spec.
  - apply PageFacts.filtered_spec.
Qed.

(** The page starts without integrations and no event adds one: whatever is
    done on it, it says that nothing matches the search, also when nothing is
    searched, and there is nothing to connect. *)
Theorem nothing_to_connect es tz now :
  p_integrations (run es initial) = [] /\
  shows "No integrations match your search" (IntegrationsPage tz now (run es initial)).
Proof.
  assert (H : p_integrations (run es initial) = []).
  { unfold run. rewrite <- fold_left_rev_right. induction (rev es) as [|e l IH]; [done|]. cbn.
    destruct (PageFacts.step_integrations e (foldr step initial l)) as (f & -> & _). by rewrite IH. }
  split; [done|].
  assert (Hf : filtered (run es initial) = []).
  { unfold filtered. rewrite H. by destruct (p_activeCategory _), (bool_decide _). }
  unfold IntegrationsPage, grouped_grid. rewrite Hf. find_text.
Qed.

(** What the pages' statuses promise. *)
Definition consistent (i : Integration) : Prop :=
  match i_status i with
  | connected => is_Some (i_lastSync i)
  | disconnected => i_lastSync i = None /\ i_configValues i = ∅
  | _ => True
  end.

Definition described (i : Integration) : string * string * string * IntegrationCategory * string * list ConfigField :=
  (i_id i, i_name i, i_description i, i_category i, i_docsUrl i, i_configFields i).

(** Whatever is done on a page, a connected integration has a time of its last
    synchronisation, a disconnected one neither a time nor values, and apart
    from status, time and values the list stays as it was, in its order. *)
Theorem statuses_consistent es p (H : Forall consistent (p_integrations p)) :
  Forall consistent (p_integrations (run es p)) /\
  map described (p_integrations (run es p)) = map described (p_integrations p).
Proof.
  unfold run. rewrite <- fold_left_rev_right. induction (rev es) as [|e l IH]; [done|]. cbn.
  destruct IH as [IH <-]. destruct (PageFacts.step_integrations e (foldr step p l)) as (f & -> & Hf).
  split.
  - apply Forall_map. eapply Forall_impl; [exact IH|]. intros i Hi. cbn.
    destruct (Hf i) as [->|[->|(now & vs & ->)]]; cbn; eauto.
  - rewrite map_map. apply map_ext. intros i. by destruct (Hf i) as [->|[->|(now & vs & ->)]].
Qed.

(** Typing in the modal. *)
Definition typing (ts : list (string * string)) : list event := map (fun t => SetField (t.1) (t.2)) ts.

Module ModalFacts.

Lemma run_app es es' p : run (es ++ es') p = run es' (run es p).
Proof. apply fold_left_app. Qed.

Definition typed (ts : list (string * string)) (m : modal) : modal := fold_left (fun m t => set (t.1) (t.2) m) ts m.

Lemma run_typing ts l i m s c :
  run (typing ts) (mkPage l (Some (i, m)) s c) = mkPage l (Some (i, typed ts m)) s c.
Proof. revert m. induction ts as [|t ts IH]; intros m; [done|]. apply IH. Qed.

Lemma typed_testing ts m : m_testing (typed ts m) = m_testing m.
Proof. revert m. induction ts as [|t ts IH]; intros m; [done|]. cbn. by rewrite (IH (set _ _ _)). Qed.

Lemma typed_dom ts m (D : gset string) :
  dom (m_values m) = D -> Forall (fun t => t.1 ∈ D) ts -> dom (m_values (typed ts m)) = D.
Proof.
  intros <-. revert m. induction ts as [|t ts IH]; intros m Hts; [done|]. inversion Hts as [|?? Ht Hl]; subst.
  assert (E : dom (m_values (set (t.1) (t.2) m)) = dom (m_values m)) by (cbn; set_solver).
  rewrite <- E. apply IH. by rewrite E.
Qed.

Lemma mount_value i key :
  m_values (mount i) !! key =
    if bool_decide (key ∈ cf_key <$> i_configFields i) then Some (default "" (i_configValues i !! key)) else None.
Proof.
  unfold mount, m_values. induction (i_configFields i) as [|f fs IH]; [done|].
  change (list_to_map _) with
    (<[cf_key f := default "" (i_configValues i !! cf_key f)]>
       (list_to_map ((fun f => (cf_key f, default "" (i_configValues i !! cf_key f))) <$> fs) : gmap string string)).
  destruct (decide (key = cf_key f)) as [->|Hk].
  - rewrite lookup_insert_eq, bool_decide_eq_true_2; [done|]. cbn. set_solver.
  - rewrite lookup_insert_ne, IH by done. erewrite bool_decide_ext; [done|]. cbn. set_solver.
Qed.

(** The values of a form are those of its fields: reopened, it shows them. *)
Lemma mount_saved now i vs :
  dom vs = list_to_set (cf_key <$> i_configFields i) -> m_values (mount (save_in now vs i)) = vs.
Proof.
  intros Hd. apply map_eq. intros key. rewrite mount_value. cbn.
  assert (Hk : key ∈ dom vs <-> key ∈ cf_key <$> i_configFields i) by (rewrite Hd; set_solver).
  rewrite elem_of_dom in Hk. case_bool_decide as E.
  - apply Hk in E as [v ->]. done.
  - destruct (vs !! key); [|done]. destruct E. by apply Hk.
Qed.

Lemma mount_dom i : dom (m_values (mount i)) = list_to_set (cf_key <$> i_configFields i).
Proof.
  apply set_eq. intros key. rewrite elem_of_dom, mount_value, elem_of_list_to_set.
  case_bool_decide; split; naive_solver.
Qed.
End ModalFacts.

(** The connection test reports success for whatever is typed before, during
    and until its timer ends, the empty form included: no value is looked at. *)
Theorem connection_test_ignores_values p i before during
    (Hi : i ∈ filtered p) (Hclosed : p_configuring p = None) :
  exists m,
    p_configuring (run (Configure i :: typing before ++ Test :: typing during ++ [TestTimer]) p) = Some (i, m) /\
    shows "Connection test successful" (ConfigureModal i m).
Proof.
  destruct p as [l o s c]. cbn in Hclosed. subst o. cbn.
  rewrite decide_True by done. unfold setConfiguring; cbn.
  rewrite ModalFacts.run_app, ModalFacts.run_typing. cbn. unfold in_modal, test_start; cbn.
  rewrite ModalFacts.typed_testing. cbn.
  rewrite ModalFacts.run_app, ModalFacts.run_typing. cbn. unfold in_modal, test_done; cbn.
  rewrite ModalFacts.typed_testing. cbn.
  eexists. split; [done|]. unfold ConfigureModal, modal_footer. cbn [m_testResult when].
  find_text.
Qed.

(** Opening a card, typing into its fields and saving connects the integration
    with the form's values, and opening it again shows them; no field needs a
    value for it, required or not. *)
Theorem saved_form_reopens p i ts now
    (Hi : i ∈ filtered p) (Hclosed : p_configuring p = None)
    (Hts : Forall (fun t => t.1 ∈ cf_key <$> i_configFields i) ts) :
  exists vs,
    let q := run (Configure i :: typing ts ++ [Save now]) p in
    p_configuring q = None /\ save_in now vs i ∈ p_integrations q /\
    m_values (mount (save_in now vs i)) = vs /\
    (ts = [] -> forall f, f ∈ i_configFields i -> i_configValues i !! cf_key f = None -> vs !! cf_key f = Some "").
Proof.
  exists (m_values (ModalFacts.typed ts (mount i))). cbn zeta.
  destruct p as [l o s c]. cbn in Hclosed. subst o. cbn.
  assert (Hil : i ∈ l).
  { apply PageFacts.filtered_spec in Hi. apply Hi. }
  rewrite decide_True by done. unfold setConfiguring; cbn.
  rewrite ModalFacts.run_app, ModalFacts.run_typing. cbn. split_and!; [done| | |].
  - apply list_elem_of_fmap. exists i. by rewrite bool_decide_eq_true_2.
  - apply (ModalFacts.mount_saved now), ModalFacts.typed_dom; [apply ModalFacts.mount_dom|].
    eapply Forall_impl; [exact Hts|]. set_solver.
  - intros -> f Hf Hv. change (m_values (mount i) !! cf_key f = Some ""). rewrite ModalFacts.mount_value, Hv, bool_decide_eq_true_2; [done|set_solver].
Qed.

(** A select shows its placeholder as the chosen option while nothing was
    chosen; what is saved is the empty text. *)
Theorem shown_option_not_saved i f
    (Hf : f ∈ i_configFields i) (Hs : cf_type f = select) (Hv : i_configValues i !! cf_key f = None) :
  (exists label, field_view (mount i) f = Select label (cf_placeholder f) (default [] (cf_options f))) /\
  m_values (mount i) !! cf_key f = Some "".
Proof.
  assert (E : m_values (mount i) !! cf_key f = Some "").
  { rewrite ModalFacts.mount_value, Hv, bool_decide_eq_true_2; [done|set_solver]. }
  split; [|done]. eexists. unfold field_view, value. by rewrite Hs, E.
Qed.

(** The open modal keeps its state when another card is pressed behind it: what
    was typed for one integration is saved as the values of the other. *)
Theorem values_move_between_forms p i j key val now
    (Hi : i ∈ filtered p) (Hj : j ∈ filtered p) (Hclosed : p_configuring p = None) (Hij : i_id i <> i_id j) :
  let q := run [Configure i; SetField key val; Configure j; Save now] p in
  i ∈ p_integrations q /\ save_in now (<[key := val]> (m_values (mount i))) j ∈ p_integrations q.
Proof.
  cbn zeta. destruct p as [l o s c]. cbn in Hclosed. subst o. cbn.
  assert (i ∈ l) by (apply PageFacts.filtered_spec in Hi; apply Hi).
  assert (j ∈ l) by (apply PageFacts.filtered_spec in Hj; apply Hj).
  rewrite (decide_True (P := i ∈ _)) by exact Hi. unfold setConfiguring; cbn. unfold in_modal; cbn.
  rewrite decide_True by exact Hj. cbn.
  split; apply list_elem_of_fmap; [exists i|exists j]; cbn.
  - by rewrite bool_decide_eq_false_2.
  - by rewrite bool_decide_eq_true_2.
Qed.

(** ** Witnesses *)

Definition demo_field (key : string) (t : FieldType) : ConfigField :=
  mkField key key t "Option A" (Some ["Option A"; "Option B"]) true.

Definition demo_integration (id : string) : Integration :=
  mkIntegration id id "A provider" identity disconnected None "#" [demo_field "url" url; demo_field "mode" select] ∅.

Definition demo_page : page := mkPage [demo_integration "okta"; demo_integration "entra"] None "" None.

Lemma statuses_consistent_witness :
  Forall consistent (p_integrations (run [Configure (demo_integration "okta"); Save 0] demo_page)).
Proof. apply (statuses_consistent _ demo_page). repeat constructor. Defined.

Lemma demo_listed id : id = "okta" \/ id = "entra" -> demo_integration id ∈ filtered demo_page.
Proof.
  intros [->| ->]; vm_compute; [apply list_elem_of_here|apply list_elem_of_further, list_elem_of_here].
Qed.

Lemma connection_test_ignores_values_witness :
  exists m, p_configuring (run [Configure (demo_integration "okta"); Test; SetField "url" "nowhere"; TestTimer] demo_page)
            = Some (demo_integration "okta", m)
            /\ shows "Connection test successful" (ConfigureModal (demo_integration "okta") m).
Proof.
  apply (connection_test_ignores_values demo_page (demo_integration "okta") [] [("url", "nowhere")]);
    [apply demo_listed; auto|reflexivity].
Defined.

Lemma saved_form_reopens_witness :
  exists vs, save_in 0 vs (demo_integration "okta") ∈
             p_integrations (run [Configure (demo_integration "okta"); SetField "url" "u"; Save 0] demo_page).
Proof.
  destruct (saved_form_reopens demo_page (demo_integration "okta") [("url", "u")] 0) as (vs & _ & H & _);
    [apply demo_listed; auto|reflexivity|repeat constructor|exists vs; exact H].
Defined.

Lemma shown_option_not_saved_witness : m_values (mount (demo_integration "okta")) !! "mode" = Some "".
Proof.
  apply (shown_option_not_saved (demo_integration "okta") (demo_field "mode" select)); [|reflexivity|reflexivity].
  apply list_elem_of_further, list_elem_of_here.
Defined.

Lemma values_move_between_forms_witness :
  save_in 0 (<["url" := "u"]> (m_values (mount (demo_integration "okta")))) (demo_integration "entra") ∈
  p_integrations (run [Configure (demo_integration "okta"); SetField "url" "u"; Configure (demo_integration "entra"); Save 0] demo_page).
Proof. apply values_move_between_forms; [apply demo_listed; auto|apply demo_listed; auto|reflexivity|discriminate]. Defined.
