(* ===== verification/ToolExplorer.v ===== *)
(** * The tool explorer: web/src/app/dashboard/tools/page.tsx

    The page that lists the tools of all servers: the answers of the servers'
    [tools/list] calls as they come in, filters, cards, table and detail panel.
    The figures and classifiers behind them are [Tools.Catalogue]. *)

From S2P Require Import Prelude JsString JsUri Json ApiTypes JsDate RelTime Tally JsNumber Tools ServerPages ToolPage View.

Import Catalogue.

(** ** The answers of the servers *)

Inductive ServerResult :=
  | Loading
  | Failed (error : string)
  | Success (tools : list McpTool).

(** A [Map] by slug, in insertion order. *)
Definition results := list (string * ServerResult).

(** [existing.status === result.status && (result.status !== "success" ||
    existing.tools === result.tools)] keeps the map; replacing tools by the same
    tools gives the same map. *)
Definition handleServerResult (slug : string) (result : ServerResult) (prev : results) : results :=
  match map_get slug prev, result with
  | Some Loading, Loading => prev
  | Some (Failed _), Failed _ => prev
  | _, _ => map_update slug (fun _ => result) prev
  end.

Definition tools_in (r : ServerResult) : option (list McpTool) :=
  match r with Success ts => Some ts | _ => None end.

Definition explorer_tools (rs : results) : list EnrichedTool := allTools (map (fun kv => (kv.1, tools_in (kv.2))) rs).

(** ** State *)

Inductive ViewMode := grid | table.
#[global] Instance ViewMode_eq_dec : EqDecision ViewMode.
Proof. solve_decision. Defined.

Record page := mkPage {
  p_servers : option (list ServerView);  (** [None] while loading *)
  p_results : results;
  p_viewMode : ViewMode;
  p_search : string; p_serverFilter : string; p_riskFilter : string; p_accessFilter : string;
  p_selected : option EnrichedTool }.

Definition initial : page := mkPage None [] grid "" "all" "all" "all" None.

Definition servers (p : page) : list ServerView := default [] (p_servers p).

(** [serverMap.get]: the last server with the slug. *)
Definition server_of (p : page) (slug : string) : option ServerView :=
  List.find (fun s => bool_decide (ServerView_slug s = slug)) (rev (servers p)).

Definition is_active (o : option ServerView) : bool :=
  match o with Some s => bool_decide (ServerView_status s = ServerStatus_active) | None => false end.

Definition filteredTools (p : page) : list EnrichedTool :=
  Catalogue.filteredTools (fun slug => is_active (server_of p slug))
    (p_search p) (p_serverFilter p) (p_riskFilter p) (p_accessFilter p) (explorer_tools (p_results p)).

Definition waiting (p : page) (s : ServerView) : bool :=
  match map_get (ServerView_slug s) (p_results p) with None | Some Loading => true | _ => false end.
Definition loadingServers (p : page) : list ServerView := List.filter (waiting p) (servers p).

Definition failed (p : page) (s : ServerView) : option string :=
  match map_get (ServerView_slug s) (p_results p) with Some (Failed e) => Some e | _ => None end.

Definition activeServerCount (p : page) : nat := size (list_to_set (et_server <$> filteredTools p) : gset string).

Definition same_tool (a b : EnrichedTool) : bool :=
  bool_decide (mt_name (et_tool a) = mt_name (et_tool b)) && bool_decide (et_server a = et_server b).

Definition set_selected (o : option EnrichedTool) (p : page) : page :=
  mkPage (p_servers p) (p_results p) (p_viewMode p) (p_search p) (p_serverFilter p) (p_riskFilter p) (p_accessFilter p) o.

Definition handleSelect (tool : EnrichedTool) (p : page) : page :=
  set_selected (if from_option (fun s => same_tool s tool) false (p_selected p) then None else Some tool) p.

Inductive event :=
  | Servers (l : list ServerView)  (** an answer of the server list *)
  | Result (slug : string) (r : ServerResult)
  | SetView (m : ViewMode)
  | Search (s : string)
  | ServerFilter (s : string)
  | RiskFilter (s : string)
  | AccessFilter (s : string)
  | Pick (t : EnrichedTool)
  | CloseDetail.

(** A fetcher is mounted for each listed server; cards exist for the shown tools. *)
Inductive step : event -> page -> page -> Prop :=
  | step_servers l p :
      step (Servers l) p (mkPage (Some l) (p_results p) (p_viewMode p) (p_search p) (p_serverFilter p) (p_riskFilter p) (p_accessFilter p) (p_selected p))
  | step_result slug r p :
      slug ∈ ServerView_slug <$> servers p ->
      step (Result slug r) p (mkPage (p_servers p) (handleServerResult slug r (p_results p)) (p_viewMode p) (p_search p) (p_serverFilter p) (p_riskFilter p) (p_accessFilter p) (p_selected p))
  | step_view m p :
      step (SetView m) p (mkPage (p_servers p) (p_results p) m (p_search p) (p_serverFilter p) (p_riskFilter p) (p_accessFilter p) (p_selected p))
  | step_search s p :
      step (Search s) p (mkPage (p_servers p) (p_results p) (p_viewMode p) s (p_serverFilter p) (p_riskFilter p) (p_accessFilter p) (p_selected p))
  | step_server s p :
      step (ServerFilter s) p (mkPage (p_servers p) (p_results p) (p_viewMode p) (p_search p) s (p_riskFilter p) (p_accessFilter p) (p_selected p))
  | step_risk s p :
      step (RiskFilter s) p (mkPage (p_servers p) (p_results p) (p_viewMode p) (p_search p) (p_serverFilter p) s (p_accessFilter p) (p_selected p))
  | step_access s p :
      step (AccessFilter s) p (mkPage (p_servers p) (p_results p) (p_viewMode p) (p_search p) (p_serverFilter p) (p_riskFilter p) s (p_selected p))
  | step_select t p : t ∈ filteredTools p -> step (Pick t) p (handleSelect t p)
  | step_close p : step CloseDetail p (set_selected None p).

Inductive steps : list event -> page -> page -> Prop :=
  | steps_nil p : steps [] p p
  | steps_cons e es p q r : step e p q -> steps es q r -> steps (e :: es) p r.

(** ** What it renders *)

Section views.
Context (tz now : Z) (logs : list AuditLogView).

Definition explorer_badge (r : RiskLevel) : view := Badge (snd (riskConfig r)).
Definition AccessDot (active : bool) : view := Badge (if active then "Available" else "Restricted").

Definition counted (n : Z) (noun : string) : string := pretty n +:+ " " +:+ noun +:+ plural n.

Definition tool_key (t : EnrichedTool) : string := et_server t +:+ "::" +:+ mt_name (et_tool t).
Definition stats (t : EnrichedTool) : option tool_stats := map_get (tool_key t) (auditMap logs).
Definition invocations (t : EnrichedTool) : Z := from_option ts_count 0%Z (stats t).
Definition lastUsed (t : EnrichedTool) : option string := nonempty (stats t ≫= ts_lastUsed).
Definition last_text (t : EnrichedTool) : string :=
  match lastUsed t with Some l => tools_relativeTime tz now l | None => "Never" end.

Definition ToolCard (tool : EnrichedTool) (server : ServerView) : list view :=
  [Code (mt_name (et_tool tool)); explorer_badge (et_risk tool); AccessDot (is_active (Some server));
   Code (et_server tool); Text (default "No description provided." (mt_description (et_tool tool)));
   Text (counted (Z.of_nat (paramCount (et_tool tool))) "param"); Text (counted (invocations tool) "call")]
  ++ match lastUsed tool with Some l => [Text (tools_relativeTime tz now l)] | None => [] end
  ++ [Button "View details" false "onSelect"].

(** [serverMap.get(slug)!]: the card of a tool without a server reads
    [server.status] of [undefined] and throws. *)
Definition card (p : page) (tool : EnrichedTool) : result string (list view) :=
  match server_of p (et_server tool) with Some s => Ok (ToolCard tool s) | None => Err "TypeError" end.

Definition tool_row (p : page) (tool : EnrichedTool) : list view :=
  [Code (mt_name (et_tool tool)); Code (et_server tool); explorer_badge (et_risk tool);
   Text (pretty (Z.of_nat (paramCount (et_tool tool)))); Text (pretty (invocations tool)); Text (last_text tool);
   AccessDot (is_active (server_of p (et_server tool))); Button "View" false "onSelect"].

Definition ToolTable (p : page) (tools : list EnrichedTool) : view :=
  Table ["Tool Name"; "Server"; "Risk"; "Params"; "Invocations"; "Last Used"; "Access"; "Actions"]
    (map (tool_row p) tools).

Definition detail_href (tool : EnrichedTool) : string :=
  "/dashboard/tools/" +:+ et_server tool +:+ "/" +:+ encodeURIComponent (mt_name (et_tool tool)).

Definition panel_parameter (tool : McpTool) (kv : string * McpToolProperty) : list view :=
  let '(name, prop) := kv in
  [Code (name +:+ if is_req (Some tool) name then "*" else ""); Code (default "any" (mp_type prop));
   Text (if is_req (Some tool) name then "Yes" else "No"); Text (default "—" (mp_description prop))].

Definition successRate (tool : EnrichedTool) : option rounded :=
  s ← stats tool;
  if (0 <? ts_count s)%Z then Some (Math_round (percent (ts_successCount s) (ts_count s))) else None.

Definition usage_stats (tool : EnrichedTool) : list view :=
  [Stat "Total Invocations" (pretty (invocations tool));
   Stat "Success Rate" (match successRate tool with Some r => rounded_text r +:+ "%" | None => "N/A" end);
   Stat "Last Invoked" (last_text tool);
   Stat "Unique Callers" (pretty (Z.of_nat (from_option (fun s => length (ts_callers s)) 0 (stats tool))))].

Definition quick_actions (tool : EnrichedTool) : list view :=
  [Text "Quick Actions"; Link "Full detail page" (detail_href tool);
   Link "View audit logs" ("/dashboard/audit?tool=" +:+ encodeURIComponent (mt_name (et_tool tool)))].

Definition input_parameters (tool : EnrichedTool) : list view :=
  Text "Input Parameters"
  :: match properties (Some (et_tool tool)) with
     | [] => [Text "No input parameters."]
     | ps => [Table ["Name"; "Type"; "Req"; "Description"] (map (panel_parameter (et_tool tool)) ps)]
     end.

Definition DetailPanel (tool : EnrichedTool) : list view :=
  [Code (mt_name (et_tool tool)); Code (et_server tool); explorer_badge (et_risk tool); Button "" false "onClose";
   Link "Try in Playground" (playground_href (et_server tool) (mt_name (et_tool tool)));
   Link "Full detail page" (detail_href tool);
   Text "Description"; Text (default "No description provided." (mt_description (et_tool tool)))]
  ++ input_parameters tool
  ++ [Text "Output Schema";
      Text "MCP tools/list does not expose output schemas. View the full detail page for inferred output documentation.";
      Text "Usage Stats"]
  ++ usage_stats tool ++ quick_actions tool.

Definition EmptyState (message sub : string) : list view := [Text message; Text sub].

Definition filter_bar (p : page) : list view :=
  [Input "" (p_search p) "Search tools..." false;
   Select "All Servers" (p_serverFilter p) ("all" :: map ServerView_slug (servers p));
   Select "All Risk Levels" (p_riskFilter p) ["all"; "low"; "medium"; "high"; "critical"];
   Select "All Status" (p_accessFilter p) ["all"; "available"; "restricted"];
   Text (counted (Z.of_nat (length (filteredTools p))) "tool" +:+ " across "
         +:+ counted (Z.of_nat (activeServerCount p)) "server")].

Definition error_banner (p : page) (s : ServerView) : list view :=
  match failed p s with
  | Some e => [Text (ServerView_slug s); Text ("— failed to load tools: " +:+ e)]
  | None => []
  end.

Definition is_loading (p : page) : bool :=
  bool_decide (p_servers p = None) || negb (bool_decide (length (loadingServers p) = 0)).

Fixpoint cards (p : page) (ts : list EnrichedTool) : result string (list view) :=
  match ts with
  | [] => Ok []
  | t :: ts =>
      match card p t, cards p ts with
      | Ok v, Ok vs => Ok (v ++ vs)
      | Err e, _ | _, Err e => Err e
      end
  end.

Definition tool_list (p : page) : result string (list view) :=
  if is_loading p then Ok [Skeletons (match p_viewMode p with grid => 6 | table => 4 end)] else
  match filteredTools p with
  | [] => Ok (EmptyState "No tools found"
                (match explorer_tools (p_results p) with
                 | [] => "No MCP servers are exposing tools yet."
                 | _ => "Try adjusting your search or filters."
                 end))
  | ts => match p_viewMode p with
          | grid => cards p ts
          | table => Ok [ToolTable p ts]
          end
  end.

Definition page_head (p : page) : list view :=
  [Text "Tool Explorer"; Text "Browse tools across all MCP servers";
   Button "Table view" false "setViewMode"; Button "Grid view" false "setViewMode"]
  ++ filter_bar p ++ flat_map (error_banner p) (servers p).

Definition ToolsPage (p : page) : result string (list view) :=
  match tool_list p with
  | Ok l => Ok (page_head p ++ l ++ from_option DetailPanel [] (p_selected p))
  | Err e => Err e
  end.
End views.

(** ** Lemmas *)

Module ExplorerFacts.

Lemma cards_spec tz now logs p ts :
  match cards tz now logs p ts with
  | Ok vs => exists l, Forall2 (fun t s => server_of p (et_server t) = Some s) ts l /\
                       vs = concat (zip_with (ToolCard tz now logs) ts l)
  | Err e => e = "TypeError" /\ exists t, t ∈ ts /\ server_of p (et_server t) = None
  end.
Proof.
  induction ts as [|t ts IH]; cbn; [by exists []|]. unfold card.
  destruct (server_of p (et_server t)) as [s|] eqn:E.
  - destruct (cards tz now logs p ts) as [vs|e].
    + destruct IH as (l & Hl & ->). exists (s :: l). split; [by constructor|done].
    + destruct IH as (-> & t' & Ht & Hs). split; [done|]. exists t'. split; [by apply list_elem_of_further|done].
  - split; [done|]. exists t. split; [apply list_elem_of_here|done].
Qed.

Lemma cards_fail tz now logs p ts t :
  t ∈ ts -> server_of p (et_server t) = None -> cards tz now logs p ts = Err "TypeError".
Proof.
  intros Ht Hs. induction ts as [|t' ts IH]; [by apply not_elem_of_nil in Ht|].
  cbn. unfold card at 1. apply elem_of_cons in Ht as [<-|Ht]; [by rewrite Hs|].
  rewrite IH by done. by destruct (server_of p (et_server t')).
Qed.

Lemma server_of_none p slug : server_of p slug = None <-> slug ∉ ServerView_slug <$> servers p.
Proof.
  unfold server_of. split.
  - intros H. rewrite list_elem_of_fmap. intros (s & -> & Hs).
    assert (Hin : List.In s (rev (servers p))) by (apply in_rev; rewrite rev_involutive; by apply list_elem_of_In).
    pose proof (find_none _ _ H s Hin) as E. cbn in E. by apply bool_decide_eq_false in E.
  - intros H. destruct (List.find _ _) as [s|] eqn:E; [|done]. apply find_some in E as [Hin E].
    apply bool_decide_eq_true in E. destruct H. apply list_elem_of_fmap. exists s. split; [done|].
    apply list_elem_of_In. by apply in_rev.
Qed.

Lemma head_rows p : flat_map table_rows (page_head p) = [].
Proof.
  cbn. induction (servers p) as [|s l IH]; [done|]. cbn. rewrite flat_map_app, IH.
  unfold error_banner. by destruct (failed p s).
Qed.

Lemma result_get slug r rs slug' :
  map_get slug' (handleServerResult slug r rs) =
    if bool_decide (slug' = slug)
    then match map_get slug rs, r with Some (Failed e), Failed _ => Some (Failed e) | _, _ => Some r end
    else map_get slug' rs.
Proof.
  unfold handleServerResult. case_bool_decide as E; [subst slug'|].
  - destruct (map_get slug rs) as [[| |]|] eqn:G, r; rewrite ?map_get_update, ?bool_decide_true by done; done.
  - destruct (map_get slug rs) as [[| |]|] eqn:G, r; rewrite ?map_get_update, ?bool_decide_false by done; done.
Qed.

Lemma result_nodup slug r rs : NoDup rs.*1 -> NoDup (handleServerResult slug r rs).*1.
Proof.
  intros H. unfold handleServerResult.
  destruct (map_get slug rs) as [[| |]|], r; first [exact H | by apply map_update_nodup].
Qed.
End ExplorerFacts.

(** ** The statistics of one tool *)

Record figures (s : tool_stats) (mine : list AuditLogView) : Prop := {
  fig_count : ts_count s = Z.of_nat (length mine);
  fig_last : exists t, ts_lastUsed s = Some t /\ latest_of AuditLogView_created_at t mine;
  fig_nodup : NoDup (ts_callers s);
  fig_callers c : c ∈ ts_callers s <-> c <> "" /\ exists l, l ∈ mine /\ AuditLogView_subject_id l = Some c }.

Module FigureFacts.

Lemma bump_count l o : ts_count (stats_bump l o) = (default 0 (ts_count <$> o) + 1)%Z.
Proof. by destruct o. Qed.

Lemma bump_last l o :
  ts_lastUsed (stats_bump l o) =
    Some (match o ≫= ts_lastUsed with
          | Some t => later_text t (AuditLogView_created_at l) | None => AuditLogView_created_at l end).
Proof.
  destruct o as [[n [t|] k cs]|]; [|done|done]. cbn. unfold later, later_text.
  destruct (decide (t = "")) as [->|Ht]; cbn.
  - by destruct (AuditLogView_created_at l).
  - rewrite (bool_decide_false (t = "")) by done. by case_bool_decide.
Qed.

Lemma bump_callers l o c :
  c ∈ ts_callers (stats_bump l o) <->
  c ∈ from_option ts_callers [] o \/ c <> "" /\ AuditLogView_subject_id l = Some c.
Proof.
  assert (E : ts_callers (stats_bump l o) =
    match nonempty (AuditLogView_subject_id l) with
    | Some s => if bool_decide (s ∈ from_option ts_callers [] o) then from_option ts_callers [] o
                else from_option ts_callers [] o ++ [s]
    | None => from_option ts_callers [] o end) by by destruct o.
  rewrite E. destruct (AuditLogView_subject_id l) as [s|]; cbn; [|naive_solver].
  case_bool_decide as Hs; [naive_solver|]. case_bool_decide; rewrite ?elem_of_app, ?list_elem_of_singleton; naive_solver.
Qed.

Lemma bump_nodup l o : NoDup (from_option ts_callers [] o) -> NoDup (ts_callers (stats_bump l o)).
Proof.
  intros H. destruct o as [s|]; cbn in *; destruct (nonempty _); try case_bool_decide; try done.
  - apply NoDup_app. split_and!; [done|set_solver|apply NoDup_singleton].
  - by constructor; [|constructor].
Qed.

Lemma accumulate_figures k logs s :
  accumulate stats_key stats_bump k None logs = Some s -> figures s (filter (fun l => stats_key l = Some k) logs).
Proof.
  apply (accumulate_inv stats_key stats_bump (fun xs s => figures s xs)).
  - intros x _. split.
    + by rewrite bump_count.
    + eexists. split; [by rewrite bump_last|apply latest_first].
    + apply bump_nodup. constructor.
    + intros c. rewrite bump_callers. cbn. set_solver.
  - intros xs x v _ [Hc (t & Ht & Hl) Hn Hs]. split.
    + rewrite bump_count, length_app. cbn. lia.
    + eexists. split; [rewrite bump_last; cbn; by rewrite Ht|by apply latest_next].
    + by apply bump_nodup.
    + intros c. rewrite bump_callers. cbn. rewrite Hs. set_solver.
Qed.
End FigureFacts.

(** ** Properties *)

(** [C37] The page throws exactly in the card view, once every listed server has
    answered, when a shown tool belongs to a server that is not listed; the
    table shows such a tool as restricted. *)
Theorem page_throws_exactly tz now logs p e :
  ToolsPage tz now logs p = Err e <->
  e = "TypeError" /\ is_loading p = false /\ p_viewMode p = grid /\
  exists t, t ∈ filteredTools p /\ et_server t ∉ ServerView_slug <$> servers p.
Proof.
  assert (H : tool_list tz now logs p = Err e <->
    e = "TypeError" /\ is_loading p = false /\ p_viewMode p = grid /\
    exists t, t ∈ filteredTools p /\ et_server t ∉ ServerView_slug <$> servers p).
  { setoid_rewrite <- ExplorerFacts.server_of_none. unfold tool_list. destruct (is_loading p); [naive_solver|].
    destruct (filteredTools p) as [|t ts] eqn:E.
    - split; [done|]. intros (_ & _ & _ & t & Ht & _). by apply not_elem_of_nil in Ht.
    - destruct (p_viewMode p); [|naive_solver].
      pose proof (ExplorerFacts.cards_spec tz now logs p (t :: ts)) as Hc.
      split.
      + intros Hr. rewrite Hr in Hc. naive_solver.
      + intros (-> & _ & _ & t' & Ht & Hs). by apply (ExplorerFacts.cards_fail _ _ _ _ _ t'). }
  rewrite <- H. unfold ToolsPage. destruct (tool_list tz now logs p); split; congruence.
Qed.

(** A server that disappears from the list while the page is open leaves its
    tools behind: the card view throws from then on, the table view does not. *)
Theorem deleted_server_breaks_grid tz now logs s tool (tools : list McpTool) :
  exists q, steps [Servers [s]; Result (ServerView_slug s) (Success (tool :: tools)); Servers []] initial q /\
    ToolsPage tz now logs q = Err "TypeError" /\
    forall q', step (SetView table) q q' -> exists v, ToolsPage tz now logs q' = Ok v.
Proof.
  eexists. split.
  { eapply steps_cons; [constructor|]. eapply steps_cons; [constructor; apply list_elem_of_here|].
    eapply steps_cons; [constructor|]. constructor. }
  split.
  - unfold ToolsPage. cbn. reflexivity.
  - intros q' Hq. inversion Hq; subst; clear Hq. unfold ToolsPage. cbn. eexists. reflexivity.
Qed.

(** One listed server without an answer hides the tools of all the others: only
    placeholders are shown, beside the number of tools there are. *)
Theorem one_slow_server_hides_tools tz now logs p s
    (Hl : p_servers p <> None) (Hs : s ∈ servers p) (Hw : waiting p s = true) (Hd : p_selected p = None) :
  exists v n, ToolsPage tz now logs p = Ok (v ++ [Skeletons n]) /\ flat_map table_rows v = [] /\
    shows (counted (Z.of_nat (length (filteredTools p))) "tool" +:+ " across "
           +:+ counted (Z.of_nat (activeServerCount p)) "server") v.
Proof.
  assert (E : is_loading p = true).
  { unfold is_loading. rewrite (bool_decide_false (length _ = 0)); [by rewrite orb_true_r|].
    intros E%length_zero_iff_nil. assert (s ∈ loadingServers p) as H; [|by rewrite E in H; apply not_elem_of_nil in H].
    apply list_elem_of_In, filter_In. split; [by apply list_elem_of_In|done]. }
  unfold ToolsPage, tool_list. rewrite E, Hd. eexists (page_head p), _.
  split_and!; [reflexivity|apply ExplorerFacts.head_rows|unfold page_head, filter_bar; find_text].
Qed.

(** What the events say about a server: its last answer, except that an error
    after an error is not taken. *)
Fixpoint answer (slug : string) (o : option ServerResult) (es : list event) : option ServerResult :=
  match es with
  | [] => o
  | Result s r :: es =>
      answer slug (if bool_decide (slug = s)
                   then match o, r with Some (Failed e), Failed _ => Some (Failed e) | _, _ => Some r end
                   else o) es
  | _ :: es => answer slug o es
  end.

(** [C31] The shown tools follow the servers' answers, however these interleave with
    each other and with the use of the page: at any time every server has one
    entry, and it is the last answer for its slug (the first of a run of errors). *)
Theorem results_follow_answers es p (H : steps es initial p) :
  NoDup (p_results p).*1 /\ forall slug, map_get slug (p_results p) = answer slug None es.
Proof.
  assert (Hg : forall q, NoDup (p_results q).*1 -> steps es q p ->
    NoDup (p_results p).*1 /\ forall slug, map_get slug (p_results p) = answer slug (map_get slug (p_results q)) es).
  { clear H. intros q Hq H. induction H as [q|e es q q' r Hs _ IH]; [done|].
    destruct Hs; cbn in *; try (by apply IH).
    destruct IH as [Hn IH]; [by apply ExplorerFacts.result_nodup|]. split; [done|]. intros slug'.
    rewrite IH, ExplorerFacts.result_get. case_bool_decide; subst; done. }
  destruct (Hg initial) as [? E]; [constructor|done|]. split; [done|]. intros slug. by rewrite E.
Qed.

(** The figures of a tool's panel and card are those of the audit entries with
    the tool's server and name: their number, the latest of their times, the
    number of their different subjects. *)
Theorem tool_figures_exact logs t s (Hs : stats logs t = Some s) :
  let mine := filter (fun l => stats_key l = Some (tool_key t)) logs in
  invocations logs t = Z.of_nat (length mine) /\
  latest_of AuditLogView_created_at (default "" (ts_lastUsed s)) mine /\
  NoDup (ts_callers s) /\
  (forall c, c ∈ ts_callers s <-> c <> "" /\ exists l, l ∈ mine /\ AuditLogView_subject_id l = Some c).
Proof.
  cbn zeta. unfold invocations. rewrite Hs. cbn [from_option].
  unfold stats, auditMap in Hs. rewrite group_get in Hs.
  destruct (FigureFacts.accumulate_figures _ _ _ Hs) as [Hc (u & -> & Hl) Hn Hcs]. done.
Qed.

(** ** Witnesses *)

Definition waiting_page : page :=
  mkPage (Some [ServerPages.demo_server "https://a"]) [] grid "" "all" "all" "all" None.

Lemma one_slow_server_hides_tools_witness :
  exists v n, ToolsPage 0 0 [] waiting_page = Ok (v ++ [Skeletons n]) /\ flat_map table_rows v = [].
Proof.
  destruct (one_slow_server_hides_tools 0 0 [] waiting_page (ServerPages.demo_server "https://a")) as (v & n & H1 & H2 & _);
    [discriminate|apply list_elem_of_here|reflexivity|reflexivity|by exists v, n].
Defined.

Definition slug_a : string := ServerView_slug (ServerPages.demo_server "https://a").

(** The second of two errors is not taken. *)
Lemma results_follow_answers_witness :
  exists p, steps [Servers [ServerPages.demo_server "https://a"]; Result slug_a (Failed "timeout"); Result slug_a (Failed "refused")] initial p /\
    map_get slug_a (p_results p) = Some (Failed "timeout").
Proof.
  assert (H : exists p, steps [Servers [ServerPages.demo_server "https://a"]; Result slug_a (Failed "timeout"); Result slug_a (Failed "refused")] initial p).
  { eexists. eapply steps_cons; [constructor|]. eapply steps_cons; [constructor; apply list_elem_of_here|].
    eapply steps_cons; [constructor; apply list_elem_of_here|]. constructor. }
  destruct H as [p H]. exists p. split; [exact H|]. by rewrite (proj2 (results_follow_answers _ p H)).
Defined.

Definition read_file : EnrichedTool := enrich "github" (mkTool "read_file" None None None).

Lemma tool_figures_exact_witness : invocations demo_entries read_file = 3%Z.
Proof.
  destruct (stats demo_entries read_file) as [s|] eqn:E; [|vm_compute in E; discriminate].
  rewrite (proj1 (tool_figures_exact demo_entries read_file s E)). vm_compute. reflexivity.
Defined.
