(* ===== verification/AdminViews.v ===== *)
(** * The administration pages that only show: web/src/app/admin

    The overview (page.tsx), policies, audit, servers and tools pages as
    functions from the answers of their queries to what is on the screen, with
    the requests they make, and the settings form.  A failed query has no data:
    the pages read it as an empty list.

    [localeNumber] and [localeTime] stand for [toLocaleString] of numbers and
    dates, which depend on the reader's locale. *)

From S2P Require Import Prelude JsString Json ApiTypes ApiClient JsDate RelTime JsNumber View.

(** [value ?? "—"] *)
Definition or_dash (o : option string) : view := Text (default "—" o).

Module Overview.

Record queries := mkQueries {
  q_servers : answer (list ServerView); q_keys : answer (list ApiKeyView); q_roles : answer (list RoleView);
  q_policies : answer (list RateLimitPolicyView); q_audit : answer (list AuditLogView) }.

(** [useListAuditLogsV1AuditGet({limit: 5})] *)
Definition audit_params : Params := Some [("limit", Some (JNum 5))].

Definition StatCard (label value : string) (loading : bool) : view :=
  if loading then Card label "" [Skeletons 1] else Stat label value.

Definition QuickLink (label description href : string) : list view := [Link label href; Text description].

Definition activeServers (q : queries) : list ServerView :=
  List.filter (fun s => bool_decide (ServerView_status s = ServerStatus_active)) (rows (q_servers q)).
Definition deniedCount (q : queries) : nat :=
  length (List.filter (fun l => bool_decide (AuditLogView_outcome l = "denied")) (rows (q_audit q))).

Definition count {A} (q : answer (list A)) : string := pretty (Z.of_nat (length (rows q))).

Definition health (q : queries) : list view :=
  [Text "Server status";
   if is_pending (q_servers q) then Skeletons 1
   else Text (pretty (Z.of_nat (length (activeServers q))) +:+ " active / " +:+ count (q_servers q) +:+ " total");
   Text "Recent blocked requests";
   if is_pending (q_audit q) then Skeletons 1 else Badge (pretty (Z.of_nat (deniedCount q)));
   Text "Policies active";
   if is_pending (q_policies q) then Skeletons 1 else Text (count (q_policies q))].

Definition quick_links : list view :=
  QuickLink "MCP Servers" "Manage upstream servers" "/admin/servers"
  ++ QuickLink "Audit Logs" "Review platform events" "/admin/audit"
  ++ QuickLink "Security" "Incidents and anomalies" "/admin/security"
  ++ QuickLink "Settings" "System configuration" "/admin/settings".

Section views.
Context (tz : Z) (localeTime : num -> string).

Definition event_row (l : AuditLogView) : list view :=
  [Badge (AuditLogView_outcome l); Code (AuditEventType_value (AuditLogView_event_type l));
   or_dash (AuditLogView_server_slug l); or_dash (AuditLogView_tool_name l); Text (localeTime (Date_parse tz (AuditLogView_created_at l)))].

Definition recent_events (q : queries) : list view :=
  if is_pending (q_audit q) then [Skeletons 5] else
  match rows (q_audit q) with
  | [] => [Text "No events yet"; Text "Events appear here as traffic flows through the gateway"]
  | logs => [Table ["Outcome"; "Event"; "Server"; "Tool"; "Time"] (map event_row logs)]
  end.

Definition AdminOverviewPage (q : queries) : list view :=
  [Text "Platform Overview"; Text "System-wide health and activity";
   StatCard "Total Servers" (count (q_servers q)) (is_pending (q_servers q));
   StatCard "API Keys" (count (q_keys q)) (is_pending (q_keys q));
   StatCard "Active Roles" (count (q_roles q)) (is_pending (q_roles q));
   StatCard "Rate Limit Policies" (count (q_policies q)) (is_pending (q_policies q));
   Card "Platform Health" "" (health q); Card "Quick Links" "" quick_links;
   Card "Recent Audit Events" "" (Link "View all" "/admin/audit" :: recent_events q)].
End views.
End Overview.

Module Policies.

Definition PatternCell (value : option string) : view :=
  match value with
  | Some v => if bool_decide (v = "") || bool_decide (v = "*") then Text "*" else Code v
  | None => Text "*"
  end.

Definition AlgoBadge (algo : RateLimitAlgorithm) : view := Badge (RateLimitAlgorithm_value algo).

Definition window_text (w : Z) : string :=
  if (3600 <=? w)%Z then ratio_text w 3600 +:+ "h"
  else if (60 <=? w)%Z then ratio_text w 60 +:+ "m"
  else pretty w +:+ "s".

Section views.
Context (tz : Z) (localeNumber : Z -> string) (localeDate : num -> string).

Definition policy_row (p : RateLimitPolicyView) : list view :=
  [Text (localeNumber (RateLimitPolicyView_request_limit p) +:+ " req"); Text (window_text (RateLimitPolicyView_window_seconds p));
   AlgoBadge (RateLimitPolicyView_algorithm p); PatternCell (RateLimitPolicyView_server_pattern p);
   PatternCell (RateLimitPolicyView_tool_pattern p); Text (pretty (RateLimitPolicyView_priority p))].

Definition role_row (r : RoleView) : list view :=
  [Text (RoleView_name r); Code (RoleView_id r); Text (localeDate (Date_parse tz (RoleView_created_at r)))].

Definition policies_section (q : answer (list RateLimitPolicyView)) : list view :=
  if is_pending q then [Skeletons 3] else
  match rows q with
  | [] => [Text "No rate limit policies"; Text "Policies will appear here once created"]
  | ps => [Table ["Limit"; "Window"; "Algorithm"; "Server Pattern"; "Tool Pattern"; "Priority"] (map policy_row ps)]
  end.

Definition roles_section (q : answer (list RoleView)) : list view :=
  if is_pending q then [Skeletons 3] else
  match rows q with
  | [] => [Text "No roles defined"; Text "RBAC roles will appear here once created"]
  | rs => [Table ["Name"; "ID"; "Created"] (map role_row rs)]
  end.

Definition section_head {A} (title : string) (q : answer (list A)) : list view :=
  Text title :: when (negb (is_pending q)) [Badge (pretty (Z.of_nat (length (rows q))))].

Definition AdminPoliciesPage (ps : answer (list RateLimitPolicyView)) (rs : answer (list RoleView)) : list view :=
  [Text "Policies"; Text "Rate limiting and access control policies"]
  ++ section_head "Rate Limit Policies" ps ++ policies_section ps
  ++ section_head "RBAC Roles" rs ++ roles_section rs.
End views.
End Policies.

Module Audit.

Record filters := mkFilters { f_eventType : option AuditEventType; f_serverSlug : string; f_limit : Z }.
Definition initial : filters := mkFilters None "" 50.

Definition event_types : list AuditEventType :=
  [AuditEventType_auth_failure; AuditEventType_platform_admin_granted; AuditEventType_rbac_deny;
   AuditEventType_tool_call; AuditEventType_tenant_provisioned].
Definition limits : list Z := [25; 50; 100; 200]%Z.

(** [eventType || undefined], [serverSlug || undefined], [limit] *)
Definition params (f : filters) : Params :=
  Some [("event_type", (fun t => JStr (AuditEventType_value t)) <$> f_eventType f);
        ("server_slug", if bool_decide (f_serverSlug f = "") then None else Some (JStr (f_serverSlug f)));
        ("limit", Some (JNum (f_limit f)))].

Section views.
Context (tz : Z) (localeTime : num -> string).

Definition log_row (l : AuditLogView) : list view :=
  [Badge (AuditLogView_outcome l); Code (AuditEventType_value (AuditLogView_event_type l));
   or_dash (AuditLogView_server_slug l); or_dash (AuditLogView_tool_name l); or_dash (AuditLogView_subject_id l);
   or_dash (AuditLogView_client_ip l); Text (localeTime (Date_parse tz (AuditLogView_created_at l)))].

Definition filter_bar (f : filters) : list view :=
  [Text "Filters";
   Select "" (from_option AuditEventType_value "" (f_eventType f)) ("All event types" :: map AuditEventType_value event_types);
   Input "" (f_serverSlug f) "Filter by server slug…" false;
   Select "" (pretty (f_limit f)) (map (fun n => pretty n +:+ " rows") limits)].

Definition log_table (f : filters) (q : answer (list AuditLogView)) : list view :=
  if is_pending q then [Skeletons 5] else
  match rows q with
  | [] => [Text "No audit events";
           Text (if negb (bool_decide (f_eventType f = None)) || negb (bool_decide (f_serverSlug f = ""))
                 then "Try adjusting your filters" else "Events will appear as traffic flows through the gateway")]
  | logs => [Table ["Outcome"; "Event"; "Server"; "Tool"; "Subject"; "IP"; "Time"] (map log_row logs)]
  end.

Definition AdminAuditPage (f : filters) (isFetching : bool) (q : answer (list AuditLogView)) : list view :=
  [Text "Audit Logs"; Text "Immutable platform-wide event log"; Button "Refresh" isFetching "refetch"]
  ++ filter_bar f ++ log_table f q.
End views.
End Audit.

Module Servers.

(** *** The table and its Delete buttons *)

Definition HealthBadge (failures : Z) : view := if bool_decide (failures = 0%Z) then Text "0" else Badge (pretty failures).

Section views.
Context (tz : Z) (localeTime : num -> string).

Definition last_check (s : ServerView) : view :=
  match ServerView_last_health_check_at s with
  | Some t => if bool_decide (t = "") then Text "—" else Text (localeTime (Date_parse tz t))
  | None => Text "—"
  end.

Definition server_row (isPending : bool) (s : ServerView) : list view :=
  [Code (ServerView_slug s); Code (ServerView_upstream_url s); Badge (ServerTransport_value (ServerView_transport s));
   Badge (ServerStatus_value (ServerView_status s)); HealthBadge (ServerView_consecutive_health_failures s);
   last_check s; Button "Delete" isPending "handleDelete"].

Definition AdminServersPage (isPending : bool) (q : answer (list ServerView)) : list view :=
  [Text "MCP Servers"; Text "All registered upstream MCP servers across the platform"]
  ++ if View.is_pending q then [Skeletons 4] else
     match rows q with
     | [] => [Text "No servers registered"; Text "Register an MCP server from the dashboard to get started"]
     | l => [Table ["Slug"; "Upstream URL"; "Transport"; "Status"; "Health Failures"; "Last Check"; ""]
               (map (server_row isPending) l)]
     end.
End views.

(** The page's deletions: [p_pending] is the slug of [deleteServer.isPending],
    the rest what was done so far. *)
Inductive effect :=
  | Sent (op : operation)
  | Toast (good : bool) (text : string)
  | Invalidate (key : QueryKey).

Record page := mkPage { p_pending : option string; p_done : list effect }.
Definition initial : page := mkPage None [].

Definition prompt (slug : string) : string :=
  "Delete server " +:+ dquote +:+ slug +:+ dquote +:+ "? This action cannot be undone.".

Inductive event :=
  | Press (slug : string) (confirmed : bool)  (** a click and the answer to [confirm] *)
  | Reply (good : bool).

Definition handleDelete (slug : string) (confirmed : bool) (p : page) : page :=
  if confirmed
  then mkPage (Some slug) (p_done p ++ [Sent (Op_deleteServerV1ServersSlugDelete slug)])
  else p.

Definition settle (slug : string) (good : bool) (p : page) : page :=
  mkPage None (p_done p ++
    if good then [Toast true ("Server " +:+ dquote +:+ slug +:+ dquote +:+ " deleted"); Invalidate [KUrl "/v1/servers"]]
    else [Toast false "Failed to delete server"]).

(** While a deletion is pending every Delete button is disabled. *)
Definition step (e : event) (p : page) : page :=
  match e, p_pending p with
  | Press slug confirmed, None => handleDelete slug confirmed p
  | Reply good, Some slug => settle slug good p
  | _, _ => p
  end.

Definition run (es : list event) (p : page) : page := fold_left (fun p e => step e p) es p.
End Servers.

Module ToolRegistry.

Definition server_row (s : ServerView) : list view :=
  [Code (ServerView_slug s)]
  ++ when (negb (bool_decide (ServerView_name s = "")) && negb (bool_decide (ServerView_name s = ServerView_slug s)))
       [Text (ServerView_name s)]
  ++ [Code (ServerView_upstream_url s); Badge (ServerStatus_value (ServerView_status s));
      Link "Browse Tools" ("/dashboard/servers/" +:+ ServerView_slug s)].

Definition AdminToolsPage (q : answer (list ServerView)) : list view :=
  let n := Z.of_nat (length (rows q)) in
  [Text "Tool Registry"; Text "Discover tools across all registered MCP servers";
   Text "Tools are discovered per-server. Click Browse Tools → on any row to explore that server's available tools in the org dashboard."]
  ++ when (negb (is_pending q)) [Text (pretty n +:+ " server" +:+ plural n +:+ " registered")]
  ++ if is_pending q then [Skeletons 4] else
     match rows q with
     | [] => [Text "No servers registered"; Text "Register an MCP server to start discovering tools"]
     | l => [Table ["Server"; "Upstream URL"; "Status"; "Tools"] (map server_row l)]
     end.
End ToolRegistry.

Module Settings.

Inductive text_field :=
  | platformName | supportEmail | sessionDuration | requestSizeLimit | defaultTimeout | maxRetries | auditLogRetention.
Inductive flag := mfaRequired | oauthGitHub | oauthGoogle | oauthMicrosoft | registrationOpen.
#[global] Instance text_field_eq_dec : EqDecision text_field.
Proof. solve_decision. Defined.
#[global] Instance flag_eq_dec : EqDecision flag.
Proof. solve_decision. Defined.

Record settings := mkSettings { s_text : text_field -> string; s_flag : flag -> bool; s_toasts : list (string * string) }.

(** The values of the page's [useState] calls. *)
Definition mounted : settings :=
  mkSettings
    (fun f => match f with
              | platformName => "Portcullis" | supportEmail => "" | sessionDuration => "8h" | requestSizeLimit => "1MB"
              | defaultTimeout => "30s" | maxRetries => "3" | auditLogRetention => "90d" end)
    (fun f => bool_decide (f = oauthGitHub)) [].

Inductive event := SetText (f : text_field) (v : string) | SetFlag (f : flag) (v : bool) | Save.

(** [handleSave] only shows a message. *)
Definition step (s : settings) (e : event) : settings :=
  match e with
  | SetText f v => mkSettings (fun g => if bool_decide (g = f) then v else s_text s g) (s_flag s) (s_toasts s)
  | SetFlag f v => mkSettings (s_text s) (fun g => if bool_decide (g = f) then v else s_flag s g) (s_toasts s)
  | Save => mkSettings (s_text s) (s_flag s)
              (s_toasts s ++ [("Settings saved", "Your configuration has been updated successfully.")])
  end.

Definition durations : list (string * string) :=
  [("1h", "1 hour"); ("8h", "8 hours"); ("24h", "24 hours"); ("7d", "7 days")].
Definition retentions : list (string * string) :=
  [("30d", "30 days"); ("90d", "90 days"); ("180d", "180 days"); ("365d", "1 year"); ("forever", "Forever")].

Definition text_input (s : settings) (f : text_field) (label placeholder : string) : view :=
  Input label (s_text s f) placeholder false.
Definition select_input (s : settings) (f : text_field) (label : string) (options : list (string * string)) : view :=
  Select label (s_text s f) options.*2.
Definition checkbox (s : settings) (f : flag) (label : string) : view :=
  Select label (if s_flag s f then "on" else "off") ["on"; "off"].

Definition AdminSettingsPage (s : settings) : list view :=
  [Badge "Demo"; Text "— settings are UI-only until the backend config API lands. Changes are not persisted.";
   Text "System Settings"; Text "Platform-wide configuration and defaults";
   Card "General" "Basic platform identity and contact information"
     [text_input s platformName "Platform Name" "Portcullis"; Text "Displayed in the UI and outbound emails";
      text_input s supportEmail "Support Email" "support@example.com"; Text "Used as the reply-to address for system emails"];
   Card "Authentication" "Session, MFA, and OAuth provider settings"
     [select_input s sessionDuration "Session Duration" durations; Text "How long a user session remains valid";
      checkbox s mfaRequired "Require MFA"; Text "Enforce multi-factor authentication for all users";
      Text "Allowed OAuth Providers";
      checkbox s oauthGitHub "GitHub"; checkbox s oauthGoogle "Google"; checkbox s oauthMicrosoft "Microsoft"];
   Card "Security" "Request limits, timeouts, and registration controls"
     [text_input s requestSizeLimit "Max Request Size" "1MB"; text_input s defaultTimeout "Default Timeout" "30s";
      text_input s maxRetries "Max Retries" "3";
      checkbox s registrationOpen "Open Registration"; Text "Allow new users to sign up without an invitation"];
   Card "Data Retention" "How long platform data is retained before automatic deletion"
     [select_input s auditLogRetention "Audit Log Retention" retentions;
      Text "Audit events older than this threshold will be purged"];
   Button "Save Settings" false "handleSave"].
End Settings.

(** ** Properties *)

(** A query that failed, read as one that found nothing. *)
Definition read_failed {A} (q : answer (list A)) : answer (list A) :=
  match q with Failed => Answered [] | _ => q end.

Lemma read_rows {A} (q : answer (list A)) : rows (read_failed q) = rows q.
Proof. by destruct q. Qed.

Lemma read_pending {A} (q : answer (list A)) : is_pending (read_failed q) = is_pending q.
Proof. by destruct q. Qed.

(** A failed request is never reported: each of these pages looks exactly as if
    the gateway had answered that there is nothing (no server, no key, no event,
    no policy). *)
Theorem failures_shown_as_empty tz localeNumber localeTime localeDate q ps rs f fetching pending ss :
  Overview.AdminOverviewPage tz localeTime q =
    Overview.AdminOverviewPage tz localeTime
      (Overview.mkQueries (read_failed (Overview.q_servers q)) (read_failed (Overview.q_keys q))
         (read_failed (Overview.q_roles q)) (read_failed (Overview.q_policies q)) (read_failed (Overview.q_audit q))) /\
  Policies.AdminPoliciesPage tz localeNumber localeDate ps rs =
    Policies.AdminPoliciesPage tz localeNumber localeDate (read_failed ps) (read_failed rs) /\
  (forall logs, Audit.AdminAuditPage tz localeTime f fetching logs =
    Audit.AdminAuditPage tz localeTime f fetching (read_failed logs)) /\
  Servers.AdminServersPage tz localeTime pending ss = Servers.AdminServersPage tz localeTime pending (read_failed ss) /\
  ToolRegistry.AdminToolsPage ss = ToolRegistry.AdminToolsPage (read_failed ss).
Proof.
  split_and!; [destruct q as [[] [] [] [] []]|destruct ps, rs|intros []|destruct ss|destruct ss]; reflexivity.
Qed.

(** The audit page's request routes to the audit operation with exactly the
    chosen filters: an event type when one is chosen, a server when one is
    typed, and the number of rows. *)
Theorem audit_request_exact f :
  route "GET" (op_url (Op_listAuditLogsV1AuditGet (Audit.params f))) =
    Some ("listAuditLogsV1AuditGet", [],
      match Audit.f_eventType f with Some t => [("event_type", AuditEventType_value t)] | None => [] end
      ++ (if bool_decide (Audit.f_serverSlug f = "") then [] else [("server_slug", Audit.f_serverSlug f)])
      ++ [("limit", pretty (Audit.f_limit f))]).
Proof.
  etransitivity; [exact (op_routed (Op_listAuditLogsV1AuditGet (Audit.params f)) eq_refl)|].
  cbn [op_name op_ids op_params].
  destruct f as [[t|] s n]; unfold defined_entries, Audit.params; cbn; by case_bool_decide.
Qed.

(** What the page did is, for each pressed and confirmed deletion in its order,
    one DELETE of that server, and between one and the next the report of its
    outcome; the last one may be pending. *)
Inductive Deletions : list Servers.effect -> option string -> Prop :=
  | del_none : Deletions [] None
  | del_sent l slug : Deletions l None -> Deletions (l ++ [Servers.Sent (Op_deleteServerV1ServersSlugDelete slug)]) (Some slug)
  | del_good l slug : Deletions l (Some slug) ->
      Deletions (l ++ [Servers.Toast true ("Server " +:+ dquote +:+ slug +:+ dquote +:+ " deleted");
                       Servers.Invalidate [KUrl "/v1/servers"]]) None
  | del_bad l slug : Deletions l (Some slug) ->
      Deletions (l ++ [Servers.Toast false "Failed to delete server"]) None.

(** However clicks, refusals of the prompt and replies interleave, deletions
    are sent one at a time, only after a confirmation, each is reported once,
    and a success is followed by the refetch of the server list. *)
Theorem admin_deletes_sequential es :
  let p := Servers.run es Servers.initial in
  Deletions (Servers.p_done p) (Servers.p_pending p) /\
  (length (List.filter (fun e => match e with Servers.Sent _ => true | _ => false end) (Servers.p_done p)) <=
   length (List.filter (fun e => match e with Servers.Press _ true => true | _ => false end) es))%nat.
Proof.
  cbn zeta. induction es as [|e es [IH1 IH2]] using rev_ind; [split; [constructor|done]|].
  unfold Servers.run in *. rewrite fold_left_app, List.filter_app, length_app. cbn [fold_left].
  destruct (fold_left _ es _) as [[slug|] acts]; destruct e as [s [|]|[|]]; cbn in *;
    rewrite ?List.filter_app, ?length_app; cbn; split; try exact IH1; try lia;
    first [apply (del_good _ slug IH1) | apply (del_bad _ slug IH1) | by constructor].
Qed.

(** Windows of whole hours, minutes and seconds are shown as such. *)
Theorem window_text_whole n :
  ((1 <= n)%Z -> Policies.window_text (n * 3600) = pretty n +:+ "h") /\
  ((1 <= n < 60)%Z -> Policies.window_text (n * 60) = pretty n +:+ "m" /\ Policies.window_text n = pretty n +:+ "s").
Proof.
  unfold Policies.window_text, ratio_text. split; intros H.
  - rewrite (proj2 (Z.leb_le _ _)) by lia. by rewrite Z.mod_mul, Z.div_mul by lia.
  - rewrite !(proj2 (Z.leb_gt 3600 _)), (proj2 (Z.leb_le 60 (n * 60))), (proj2 (Z.leb_gt 60 n)) by lia.
    by rewrite Z.mod_mul, Z.div_mul by lia.
Qed.
