(* ===== verification/Homes.v ===== *)
(** * The landing pages: web/src/app/dashboard/page.tsx, web/src/app/developer/page.tsx

    What the two workspaces' first pages show for the answers of their queries.
    The dashboard's figures are [Traffic.Overview]; a failed query has no data
    and is read as an empty list. *)

From S2P Require Import Prelude JsString JsUri ApiTypes JsDate RelTime Tally JsNumber Traffic Tools View.

(** ** The dashboard *)

Module Dashboard.
Import Traffic.TrafficPage Traffic.Overview.

Record queries := mkQueries {
  q_servers : answer (list ServerView); q_keys : answer (list ApiKeyView);
  q_audit : answer (list AuditLogView); q_policies : answer (list RateLimitPolicyView) }.

Definition StatCard (label value sub : string) (loading : bool) (href : option string) : list view :=
  (if loading then [Text label; Skeletons 1] else [Stat label value])
  ++ when (negb (bool_decide (sub = ""))) [Text sub]
  ++ match href with Some h => [Link "View all" h] | None => [] end.

Definition QuickAction (label href : string) : view := Link label href.

Definition subjects (audit : list AuditLogView) : gset string :=
  list_to_set (omap (fun l => Catalogue.nonempty (AuditLogView_subject_id l)) audit).
Definition activeToday (audit : list AuditLogView) : nat := size (subjects audit).

Definition count {A} (q : answer (list A)) : string := pretty (Z.of_nat (length (rows q))).
Definition active (servers : list ServerView) : nat :=
  length (List.filter (fun s => bool_decide (ServerView_status s = ServerStatus_active)) servers).

Definition setup_banner (q : queries) : list view :=
  when (negb (is_pending (q_servers q)) && bool_decide (length (rows (q_servers q)) = 0))
    [Text "Complete your setup";
     Text "No MCP servers registered yet. Follow the setup guide to connect your first server, create a policy, and generate an API key.";
     Link "Start setup" "/onboarding"].

Definition stat_cards (q : queries) : list view :=
  let audit := rows (q_audit q) in
  let servers := rows (q_servers q) in
  StatCard "MCP Servers" (count (q_servers q)) (pretty (Z.of_nat (active servers)) +:+ " active")
    (is_pending (q_servers q)) (Some "/dashboard/servers")
  ++ StatCard "API Keys" (count (q_keys q)) "" (is_pending (q_keys q)) (Some "/dashboard/api-keys")
  ++ StatCard "Requests Allowed" (pretty (allowed_count audit)) "recent window" (is_pending (q_audit q)) None
  ++ StatCard "Rate Limit Policies" (count (q_policies q)) "" (is_pending (q_policies q)) (Some "/dashboard/rate-limits")
  ++ StatCard "Blocked Requests" (pretty (denied_count audit)) "recent window" (is_pending (q_audit q)) (Some "/dashboard/audit")
  ++ StatCard "Unhealthy Servers" (pretty (Z.of_nat (length (unhealthySvrs servers)))) ""
       (is_pending (q_servers q)) (Some "/dashboard/servers")
  ++ StatCard "Tools Available" (pretty (toolCount audit)) "from audit events" (is_pending (q_audit q)) None
  ++ StatCard "Active Today" (pretty (Z.of_nat (activeToday audit))) "unique subjects" (is_pending (q_audit q)) None.

Definition unhealthy_panel (q : queries) : list view :=
  [Text "Unhealthy Servers"; Link "View all" "/dashboard/servers"]
  ++ if is_pending (q_servers q) then [Skeletons 3] else
     match unhealthySvrs (rows (q_servers q)) with
     | [] => [Text "All servers healthy"]
     | l => flat_map (fun s => [Text (ServerView_slug s); Badge (ServerStatus_value (ServerView_status s));
                                Link "View" ("/dashboard/servers/" +:+ ServerView_slug s)]) l
     end.

Definition checklist_view (q : queries) : list view :=
  Text "Quick-Start Checklist"
  :: map (fun '(label, done, href) => Link ((if done : bool then "✓ " else "") +:+ label) href)
       (checklist (length (rows (q_servers q))) (length (rows (q_keys q))) (length (rows (q_policies q)))).

Section views.
Context (tz now : Z) (localeTimeOfDay : num -> string).

Definition traffic_chart (q : queries) : list view :=
  let chartData := trafficByHour tz now (rows (q_audit q)) in
  [Text "Request Traffic";
   Text (if is_pending (q_audit q) then "Loading…"
         else if hasTraffic chartData then "Last 24 hours · live audit data"
         else "Last 24 hours · no traffic yet — send a proxied tool call");
   Chart (map (fun '(hour, a, d) => (hour, [("Allowed", a); ("Denied", d)])) chartData)].

Definition alert_row (l : AuditLogView) : list view :=
  let event := AuditEventType_value (AuditLogView_event_type l) in
  [Code (default event (AuditLogView_tool_name l)); Badge event; Text (dashboard_relativeTime tz now (AuditLogView_created_at l))].

Definition alerts_panel (q : queries) : list view :=
  [Text "Security Alerts"; Link "View all" "/dashboard/audit"]
  ++ if is_pending (q_audit q) then [Skeletons 3] else
     match deniedEvents (rows (q_audit q)) with
     | [] => [Text "No denied requests"]
     | l => flat_map alert_row l
     end.

Definition event_row (l : AuditLogView) : list view :=
  [Badge (AuditLogView_outcome l); Code (AuditEventType_value (AuditLogView_event_type l));
   Text (default "—" (AuditLogView_server_slug l)); Text (default "—" (AuditLogView_tool_name l));
   Text (localeTimeOfDay (Date_parse tz (AuditLogView_created_at l)))].

Definition recent_panel (q : queries) : list view :=
  [Text "Recent Audit Events"; Link "View all" "/dashboard/audit"]
  ++ if is_pending (q_audit q) then [Skeletons 4] else
     match recentAudit (rows (q_audit q)) with
     | [] => [Text "No events yet"; Text "Events appear here as traffic flows through the gateway"]
     | l => [Table ["Outcome"; "Event"; "Server"; "Tool"; "Time"] (map event_row l)]
     end.

Definition denied_banner (q : queries) : list view :=
  let denied := denied_count (rows (q_audit q)) in
  when (0 <? denied)%Z
    [Text (pretty denied +:+ " denied request" +:+ (if (1 <? denied)%Z then "s" else "") +:+ " in recent window");
     Text "Review your policies or audit log for details"; Link "View audit" "/dashboard/audit"].

Definition DashboardPage (q : queries) : list view :=
  DemoBanner mixed "servers, API keys, rate-limit policies, audit log, traffic chart" "billing widgets (see Usage)"
  ++ [Text "Overview"; Text "Gateway health and recent activity";
      QuickAction "Add Server" "/dashboard/servers/new"; QuickAction "Create API Key" "/dashboard/api-keys";
      QuickAction "Add Policy" "/dashboard/rate-limits"; QuickAction "View Logs" "/dashboard/audit"]
  ++ setup_banner q ++ stat_cards q ++ traffic_chart q ++ unhealthy_panel q ++ alerts_panel q
  ++ recent_panel q ++ denied_banner q ++ checklist_view q.
End views.
End Dashboard.

(** ** The developer workspace *)

Module Developer.

Record queries := mkQueries {
  q_servers : answer (list ServerView); q_keys : answer (list ApiKeyView); q_audit : answer (list AuditLogView) }.

Definition RECENT_TOOLS : list (string * string * string) := [
  ("memory/store_memory", "prod-mcp", "2m ago"); ("filesystem/read_file", "staging-mcp", "15m ago");
  ("github/search_code", "prod-mcp", "1h ago"); ("slack/send_message", "prod-mcp", "3h ago");
  ("sqlite/query", "dev-mcp", "yesterday")].

Definition ALL_FAVORITES_INIT : list string := ["memory/store_memory"; "filesystem/read_file"; "github/search_code"].

Definition ANNOUNCEMENTS : list (string * string * string) := [
  ("Production MCP v2.1 deployed", "Added 12 new filesystem tools", "2 days ago");
  ("New rate limits in effect", "Developer tier: 10k req/day", "5 days ago")].

Definition DOC_LINKS : list string :=
  ["Quick Start Guide"; "Authentication & API Keys"; "Tool Reference"; "Rate Limits & Quotas"; "SDK & Code Examples"].

(** *** State *)

Record page := mkPage { p_favorites : list string; p_incidentDismissed : bool }.
Definition initial : page := mkPage ALL_FAVORITES_INIT false.

Inductive event := RemoveFavorite (tool : string) | DismissIncident.

Definition removeFavorite (tool : string) (favorites : list string) : list string :=
  List.filter (fun f => negb (bool_decide (f = tool))) favorites.

Definition step (p : page) (e : event) : page :=
  match e with
  | RemoveFavorite t => mkPage (removeFavorite t (p_favorites p)) (p_incidentDismissed p)
  | DismissIncident => mkPage (p_favorites p) true
  end.

Definition run (es : list event) : page := fold_left step es initial.

(** *** Figures *)

Definition activeServers (servers : list ServerView) : list ServerView :=
  List.filter (fun s => bool_decide (ServerView_status s = ServerStatus_active)) servers.

Definition denied (outcome : string) : bool := bool_decide (outcome = "auth_failure") || bool_decide (outcome = "rbac_deny").

Definition successRate (audit : list AuditLogView) : string :=
  match audit with
  | [] => "98.2%"
  | _ => toFixed1 (percent (Z.of_nat (length (List.filter (fun l => negb (denied (AuditLogView_outcome l))) audit)))
                           (Z.of_nat (length audit))) +:+ "%"
  end.

Section views.
Context (tz now demoReferenceTime : Z) (todayLabel : string).

(** [setHours(0, 0, 0, 0)] *)
Definition todayStart : Z := (day_of (now + tz * 60000) * MS_DAY - tz * 60000)%Z.

Definition todayAudit (audit : list AuditLogView) : list AuditLogView :=
  List.filter (fun l => match Date_parse tz (AuditLogView_created_at l) with
                        | Some t => (todayStart <=? t)%Z | None => false end) audit.

Definition demo_row (id tool server outcome : string) (ago : Z) : AuditLogView :=
  mkAuditLogView id None (Some "dev") None AuditEventType_tool_call (Some server) (Some tool) None outcome None None []
    (toISOString (demoReferenceTime - ago)).

Definition demo_rows : list AuditLogView := [
  demo_row "d1" "memory/store_memory" "prod-mcp" "success" 120000;
  demo_row "d2" "filesystem/read_file" "staging-mcp" "success" 900000;
  demo_row "d3" "github/search_code" "prod-mcp" "rbac_deny" 3600000;
  demo_row "d4" "slack/send_message" "prod-mcp" "auth_failure" 10800000;
  demo_row "d5" "sqlite/query" "dev-mcp" "success" 86400000].

(** Last five entries, or the demonstration rows. *)
Definition auditRows (audit : list AuditLogView) : list AuditLogView :=
  match audit with [] => demo_rows | _ => take 5 audit end.

(** *** What it renders *)

Definition SummaryCard (label value href : string) (loading : bool) : list view :=
  (if loading then [Skeletons 1; Text label] else [Stat label value]) ++ [Link label href].

Definition ActionTile (label description href : string) : list view := [Link label href; Text description].

Definition SectionHeading (title : string) (link : option (string * string)) : list view :=
  Text title :: match link with Some (l, h) => [Link l h] | None => [] end.

Definition summary_cards (q : queries) : list view :=
  let audit := rows (q_audit q) in
  let loading := is_pending (q_audit q) in
  SummaryCard "Available Servers" (pretty (Z.of_nat (length (activeServers (rows (q_servers q)))))) "/developer/servers" (is_pending (q_servers q))
  ++ SummaryCard "Available Tools" "47" "/developer/tools" false
  ++ SummaryCard "My API Keys" (pretty (Z.of_nat (length (rows (q_keys q))))) "/developer/api-keys" (is_pending (q_keys q))
  ++ SummaryCard "Requests Today" (pretty (Z.of_nat (length (todayAudit audit)))) "/developer/logs" loading
  ++ SummaryCard "Success Rate" (successRate audit) "/developer/logs" loading
  ++ SummaryCard "Remaining Quota" "187,520" "/developer/logs" false.

Definition incident_strip (p : page) : list view :=
  when (negb (p_incidentDismissed p))
    [Badge "CRITICAL"; Text "Staging MCP server health check failing"; Badge "investigating";
     Link "View incident →" "/dashboard/alerts/incidents/inc-001"; Button "Dismiss incident" false "setIncidentDismissed"].

Definition try_link (tool : string) : view := Link "Try →" ("/developer/playground?tool=" +:+ encodeURIComponent tool).

Definition recent_tools : list view :=
  SectionHeading "Recently Used Tools" (Some ("Open playground", "/developer/playground"))
  ++ flat_map (fun '(tool, server, ago) => [Text tool; Text (server +:+ " · " +:+ ago); try_link tool]) RECENT_TOOLS.

Definition favorite_tools (p : page) : list view :=
  SectionHeading "Favorite Tools" (Some ("Add more", "/developer/tools"))
  ++ match p_favorites p with
     | [] => [Text "No favorites yet."; Link "Browse tools →" "/developer/tools"]
     | l => flat_map (fun tool => [Text tool; try_link tool; Button "Unfavorite" false "removeFavorite"]) l
     end.

Definition request_row (l : AuditLogView) : list view :=
  [Text (default "—" (AuditLogView_tool_name l)); Text (default "—" (AuditLogView_server_slug l));
   Badge (AuditLogView_outcome l); Text (developer_relativeTime tz now (AuditLogView_created_at l))].

Definition recent_requests (q : queries) : list view :=
  SectionHeading "Recent Requests" (Some ("View all logs", "/developer/logs"))
  ++ flat_map request_row (auditRows (rows (q_audit q))).

Definition quick_actions : list view :=
  SectionHeading "Quick Actions" None
  ++ ActionTile "Explore Tools" "Browse MCP tools across all servers" "/developer/tools"
  ++ ActionTile "Generate API Key" "Create a personal access token" "/developer/api-keys"
  ++ ActionTile "Test a Tool" "Invoke tools interactively" "/developer/playground"
  ++ ActionTile "View Documentation" "Guides, references, and examples" "/developer/docs".

Definition announcements : list view :=
  SectionHeading "Team Announcements" None
  ++ flat_map (fun '(title, body, ago) => [Text title; Text body; Text ago]) ANNOUNCEMENTS.

Definition documentation : list view :=
  SectionHeading "Documentation" None ++ map (fun l => Link l "/developer/docs") DOC_LINKS.

Definition DeveloperHomePage (p : page) (q : queries) : list view :=
  [Text "Welcome back"; Text ("Your developer workspace · " +:+ todayLabel)]
  ++ summary_cards q ++ incident_strip p ++ recent_tools ++ favorite_tools p ++ recent_requests q
  ++ quick_actions ++ announcements ++ documentation.
End views.
End Developer.

(** ** Properties *)

(** When no query of the dashboard could be answered, it says that all servers
    are healthy, that nothing was denied, that there are no events, and asks to
    register the first server. *)
Theorem unreachable_gateway_looks_healthy tz now lt :
  let v := Dashboard.DashboardPage tz now lt (Dashboard.mkQueries Failed Failed Failed Failed) in
  shows "All servers healthy" v /\ shows "No denied requests" v /\ shows "No events yet" v /\
  shows "Complete your setup" v.
Proof.
  cbn zeta. unfold Dashboard.DashboardPage, Dashboard.setup_banner, Dashboard.unhealthy_panel, Dashboard.alerts_panel, Dashboard.recent_panel.
  cbn [Dashboard.q_servers Dashboard.q_audit is_pending rows].
  split_and!; find_text.
Qed.

(** The card "Tools Available" counts calls: [n] calls of one tool are shown as
    [n] tools, and "Active Today" counts the subjects of the fetched entries,
    whenever these were written. *)
Theorem tools_available_counts_calls n (l : AuditLogView) (redate : string -> string)
    (Hcall : AuditLogView_event_type l = AuditEventType_tool_call) :
  Traffic.Overview.toolCount (replicate n l) = Z.of_nat n /\
  forall audit, Dashboard.activeToday (map (fun l =>
      mkAuditLogView (AuditLogView_id l) (AuditLogView_tenant_id l) (AuditLogView_subject_id l) (AuditLogView_subject_type l)
        (AuditLogView_event_type l) (AuditLogView_server_slug l) (AuditLogView_tool_name l) (AuditLogView_rpc_method l)
        (AuditLogView_outcome l) (AuditLogView_client_ip l) (AuditLogView_request_id l) (AuditLogView_detail l)
        (redate (AuditLogView_created_at l))) audit) = Dashboard.activeToday audit.
Proof.
  split.
  - unfold Traffic.Overview.toolCount, Traffic.TrafficPage.toolCalls, Traffic.TrafficPage.len.
    rewrite filter_all_match; [by rewrite length_replicate|].
    intros x [-> _]%elem_of_replicate. by apply bool_decide_eq_true.
  - intros audit. unfold Dashboard.activeToday, Dashboard.subjects. do 2 f_equal.
    induction audit as [|x xs IH]; [done|]. cbn. by rewrite IH.
Qed.

Lemma full_percent n : (1 <= n <= 100)%nat -> toFixed1 (percent (Z.of_nat n) (Z.of_nat n)) = "100.0".
Proof.
  intros H. assert (Ha : forallb (fun n => bool_decide (toFixed1 (percent (Z.of_nat n) (Z.of_nat n)) = "100.0")) (seq 1 100) = true)
    by (vm_compute; reflexivity).
  rewrite forallb_forall in Ha. apply (bool_decide_eq_true (toFixed1 _ = _)), Ha, in_seq. lia.
Qed.

(** The developer's success rate looks for event types among the outcomes: with
    the outcomes the gateway writes it is 100.0%, also when everything was
    denied. *)
Theorem success_rate_always_full audit
    (Ho : forall l, l ∈ audit -> AuditLogView_outcome l ∈ ["allowed"; "denied"; "error"])
    (Hn : (1 <= length audit <= 100)%nat) :
  Developer.successRate audit = "100.0%".
Proof.
  unfold Developer.successRate. destruct audit as [|l ls] eqn:E; [cbn in Hn; lia|]. rewrite <- E in *.
  rewrite filter_all_match; [by rewrite full_percent|].
  intros x Hx%Ho. unfold Developer.denied. rewrite !elem_of_cons in Hx.
  by destruct Hx as [->|[->|[->|Hx%elem_of_nil]]].
Qed.

(** Without an answer from the gateway the developer's page shows a success rate,
    a quota and five requests all the same, none of which it was told. *)
Theorem invented_figures_shown tz now demo label p q
    (Hq : Developer.q_audit q = Failed \/ Developer.q_audit q = Answered []) :
  let v := Developer.DeveloperHomePage tz now demo label p q in
  shows "98.2%" v /\ shows "187,520" v /\ shows "github/search_code" v /\
  Developer.auditRows demo (rows (Developer.q_audit q)) = Developer.demo_rows demo.
Proof.
  assert (Hr : rows (Developer.q_audit q) = [] /\ is_pending (Developer.q_audit q) = false) by (destruct Hq as [-> | ->]; done).
  destruct Hr as [Hr Hp]. cbn zeta. unfold Developer.DeveloperHomePage. rewrite !shows_app.
  split_and!.
  - right; left. unfold Developer.summary_cards. rewrite Hr, Hp. rewrite !shows_app.
    do 4 right; left. vm_compute. set_solver.
  - right; left. unfold Developer.summary_cards. rewrite !shows_app. do 5 right. vm_compute. set_solver.
  - do 5 right; left. unfold Developer.recent_requests. rewrite Hr. rewrite shows_app. right. find_text.
  - by rewrite Hr.
Qed.

Fixpoint removed (es : list Developer.event) : list string :=
  match es with
  | Developer.RemoveFavorite t :: es => t :: removed es
  | _ :: es => removed es
  | [] => []
  end.

(** The favourites are the three built-in names less those removed, in their
    order: nothing the developer does on the page, or on the tool explorer
    where others are kept, adds one. *)
Theorem favorites_only_shrink es :
  Developer.p_favorites (Developer.run es) =
  List.filter (fun f => negb (bool_decide (f ∈ removed es))) Developer.ALL_FAVORITES_INIT.
Proof.
  unfold Developer.run.
  assert (H : forall es p, Developer.p_favorites (fold_left Developer.step es p) =
    List.filter (fun f => negb (bool_decide (f ∈ removed es))) (Developer.p_favorites p)).
  { clear. induction es as [|[t|] es IH]; intros p; cbn [fold_left removed].
    - symmetry. apply filter_all_match. intros x _. by rewrite bool_decide_false by apply not_elem_of_nil.
    - rewrite IH. cbn. unfold Developer.removeFavorite.
      induction (Developer.p_favorites p) as [|f fs IHf]; [done|]. cbn.
      destruct (decide (f = t)) as [->|Hf].
      + rewrite (bool_decide_true (t = t)), (bool_decide_true (t ∈ _)) by (done || apply list_elem_of_here). exact IHf.
      + rewrite (bool_decide_false (f = t)) by done. cbn. rewrite IHf.
        rewrite (bool_decide_ext (f ∈ t :: removed es) (f ∈ removed es)) by set_solver. done.
    - by rewrite IH. }
  apply H.
Qed.

(** "Requests Today" counts exactly the fetched entries whose local day is
    today's or later. *)
Theorem requests_today_exact tz now audit l :
  l ∈ Developer.todayAudit tz now audit <->
  l ∈ audit /\ exists t, Date_parse tz (AuditLogView_created_at l) = Some t /\
    (day_of (now + tz * 60000) <= day_of (t + tz * 60000))%Z.
Proof.
  unfold Developer.todayAudit, Developer.todayStart, day_of.
  rewrite list_elem_of_In, filter_In, <- list_elem_of_In.
  destruct (Date_parse tz _) as [t|]; [|naive_solver].
  rewrite Z.leb_le. unfold MS_DAY.
  assert (forall a b, a / 86400000 * 86400000 - tz * 60000 <= b <-> a / 86400000 <= (b + tz * 60000) / 86400000)%Z as E.
  { intros a b. split; intros H.
    - apply Z.div_le_lower_bound; lia.
    - pose proof (Z.mul_div_le (b + tz * 60000) 86400000). lia. }
  rewrite E. naive_solver.
Qed.

(** ** Witnesses *)

Definition demo_denied : AuditLogView :=
  mkAuditLogView "1" None (Some "ci") None AuditEventType_tool_call (Some "github") (Some "read_file") None "denied" None None []
    "2026-01-02T00:00:00Z".

Lemma tools_available_counts_calls_witness : Traffic.Overview.toolCount (replicate 3 demo_denied) = 3%Z.
Proof. apply (tools_available_counts_calls 3 demo_denied id). reflexivity. Defined.

Lemma success_rate_always_full_witness : Developer.successRate [demo_denied; demo_denied] = "100.0%".
Proof.
  apply success_rate_always_full; [|cbn; lia]. intros l Hl.
  assert (l = demo_denied) as -> by (rewrite !elem_of_cons in Hl; destruct Hl as [Hl|[Hl|Hl%elem_of_nil]]; done).
  vm_compute. set_solver.
Defined.

Lemma invented_figures_shown_witness :
  shows "187,520" (Developer.DeveloperHomePage 0 0 0 "" Developer.initial (Developer.mkQueries Failed Failed Failed)).
Proof. apply (invented_figures_shown 0 0 0 "" Developer.initial (Developer.mkQueries Failed Failed Failed)). left. reflexivity. Defined.
