(* ===== verification/Feedback.v ===== *)
(** * Shared feedback: web/src/components/empty-state.tsx, loading-state.tsx and
      the documentation page web/src/app/developer/docs/page.tsx

    Empty states with their ready-made texts and links, the progress of a long
    operation, and the developer's documentation page with its copy button. *)

From S2P Require Import Prelude JsString Json JsonParse JsNumber Clipboard ToolPage View.

(** ** Empty states *)

Record action := mkAction { ac_label : string; ac_href : option string; ac_secondary : bool }.

Record empty_state := mkEmpty {
  es_title : string; es_description : string; es_features : list string;
  es_primaryAction : option (string * string); es_docsAction : option (string * string) }.

Definition action_view (a : action) : view :=
  match ac_href a with
  | Some h => if bool_decide (h = "") then Button (ac_label a) false "onClick" else Link (ac_label a) h
  | None => Button (ac_label a) false "onClick"
  end.

Definition EmptyState (title description : string) (features : list string) (actions : list action) : list view :=
  [Text title; Text description] ++ map Text features ++ map action_view actions.

(** The first action is the prominent one unless it asks for the other style. *)
Definition isPrimary (i : nat) (a : action) : bool := negb (ac_secondary a) && (i =? 0)%nat.

Definition FilterEmpty (subject : string) (clearable : bool) : list view :=
  [Text ("No " +:+ subject +:+ " match your filters");
   Text "Try adjusting your search terms or removing some filters."]
  ++ when clearable [Button "Clear all filters" false "onClear"].

Definition TableEmpty (subject : string) : view := Text ("No " +:+ subject +:+ " match the current filters").

Inductive empty_key :=
  | servers | tools | apiKeys | policies | rateLimits | team | roles | alerts | incidents | audit | requests
  | integrations | notifications | devServers | devApiKeys.

Definition EMPTY_STATES (k : empty_key) : empty_state :=
  match k with
  | servers => mkEmpty "No MCP servers registered"
      "Connect your first MCP server to start discovering tools, enforcing access policies, and monitoring traffic across your organization."
      ["Discover and catalogue all tools exposed by the server";
       "Apply RBAC policies to control which roles can invoke which tools";
       "Monitor real-time traffic, latency, and error rates per server";
       "Receive health alerts if a server goes offline or degrades"]
      (Some ("Register MCP Server", "/dashboard/servers/new")) (Some ("View setup guide", "/developer/docs#servers"))
  | tools => mkEmpty "No tools discovered yet"
      "Tools are capabilities exposed by your connected MCP servers. Register a server and Portcullis will automatically discover its tool catalogue."
      ["Browse and search every tool across all connected servers";
       "Permission tools per role — allow, deny, or rate-limit at the tool level";
       "Test tools interactively in the playground before granting access";
       "See usage counts and audit trails per tool"]
      (Some ("Go to Servers", "/dashboard/servers")) (Some ("Tool reference", "/developer/docs#tools"))
  | apiKeys => mkEmpty "No API keys yet"
      "API keys authenticate requests to the Portcullis gateway. Each key can be scoped to specific servers, tools, and rate limits."
      ["Scope keys to specific servers or tool patterns for least-privilege access";
       "Rotate keys without downtime by issuing a new key before revoking the old one";
       "Track last-used timestamps to identify stale or unused keys";
       "Set short-lived keys with automatic expiry for CI and ephemeral workloads"]
      (Some ("Create API Key", "/dashboard/api-keys?new=1")) (Some ("Authentication docs", "/developer/docs#auth"))
  | policies => mkEmpty "No access policies configured"
      "Policies define who can call which tools on which servers. Without policies, access defaults to your organization's baseline role permissions."
      ["Allow or deny specific tools by role, user, or API key";
       "Target by server slug or tool name pattern (wildcards supported)";
       "Stack multiple policies — priority ordering resolves conflicts";
       "Policies apply in real-time; no restart or deployment needed"]
      (Some ("Create Policy", "/dashboard/policies?new=1")) (Some ("RBAC guide", "/developer/docs#rbac"))
  | rateLimits => mkEmpty "No rate limit policies"
      "Rate limit policies protect your MCP servers from overuse. Default org-wide limits apply until you configure explicit rules."
      ["Set per-key, per-role, or per-tool request limits";
       "Choose between fixed window, sliding window, or token bucket algorithms";
       "Override defaults for power users or CI pipelines";
       "Burst capacity settings handle short spikes without hard-blocking"]
      (Some ("Add Rate Limit Policy", "/dashboard/rate-limits?new=1")) (Some ("Rate limit docs", "/developer/docs#rate-limits"))
  | team => mkEmpty "No team members yet"
      "Invite colleagues to collaborate on server management, policy configuration, incident response, and access reviews."
      ["Assign roles to control what each member can see and change";
       "Members can view audit logs, manage alerts, and use the playground";
       "Revoke access instantly if someone leaves the organization";
       "Pending invites expire after 7 days for security"]
      (Some ("Invite Member", "/dashboard/access-control?tab=members")) (Some ("Team access guide", "/developer/docs#rbac"))
  | roles => mkEmpty "No roles configured"
      "Roles group permissions together so you can manage access at scale. Assign members to roles instead of setting permissions individually."
      ["Seed standard roles (Admin, Developer, Auditor) in one click";
       "Create custom roles to match your team's structure";
       "Roles compose with per-tool policies for fine-grained control"]
      (Some ("Create Role", "/dashboard/access-control?tab=roles")) (Some ("RBAC overview", "/developer/docs#rbac"))
  | alerts => mkEmpty "No alert rules configured"
      "Alert rules watch for conditions you care about — server downtime, authentication failures, quota thresholds — and notify your team instantly."
      ["Get notified by email, Slack, or webhook when a server goes unhealthy";
       "Set thresholds on error rate, latency, or request volume";
       "Auto-create incidents when alert conditions are met";
       "Suppress alerts during planned maintenance windows"]
      (Some ("Create Alert Rule", "/dashboard/alerts?new=1")) (Some ("Alerts guide", "/developer/docs#alerts"))
  | incidents => mkEmpty "No incidents — all clear"
      "Incidents are created automatically when alert rules fire, or you can declare them manually for planned downtime or degradation events."
      ["Incidents trigger notifications to all subscribed team members";
       "Track status through Investigating → Identified → Mitigating → Resolved";
       "Post timeline updates visible to the whole team"]
      None None
  | audit => mkEmpty "No audit events recorded"
      "Every configuration change, access decision, and tool invocation is logged here. Audit events are immutable and retained for 90 days."
      ["Filter by event type, server, tool, subject, or outcome"; "Export to CSV for compliance reporting";
       "Cross-reference with incidents to understand what changed before an outage"]
      None (Some ("Audit log docs", "/developer/docs#observability"))
  | requests => mkEmpty "No requests logged yet"
      "Every tool invocation through the gateway appears here. Make your first API call to see it logged with full context."
      ["See outcome (allowed/denied), latency, and error details per call";
       "Filter by server, tool name, or subject to trace specific flows";
       "Use audit log events to diagnose access denials and errors"]
      (Some ("Open Playground", "/developer/playground")) (Some ("SDK examples", "/developer/docs#sdk"))
  | integrations => mkEmpty "No integrations connected"
      "Integrations extend Portcullis with your existing identity providers, observability platforms, and notification channels."
      ["Connect Slack or PagerDuty to receive alert notifications";
       "Integrate with Datadog or Grafana for metric forwarding";
       "Use OIDC or SAML to federate login through your identity provider"]
      (Some ("Browse Integrations", "/dashboard/integrations")) None
  | notifications => mkEmpty "You're all caught up"
      "No new notifications. We'll alert you when something needs your attention." [] None None
  | devServers => mkEmpty "No servers available"
      "You don't have access to any MCP servers yet. Servers expose the tools you can call through the Portcullis gateway."
      ["Each server has its own tool catalogue — browse them in Tool Explorer";
       "Some servers require an explicit access request from your org admin";
       "Use the playground to test tools once access is granted"]
      (Some ("Request Access", "/developer/servers")) (Some ("Getting started", "/developer/docs#quickstart"))
  | devApiKeys => mkEmpty "No API keys yet"
      "Create a personal API key to authenticate your code against the Portcullis gateway. Each key inherits your role's permissions."
      ["Scope keys to specific servers or tool patterns for least-privilege access";
       "Copy ready-to-use code snippets in Python, Node.js, or curl";
       "Set an expiry date for short-lived CI or automation keys"]
      (Some ("Create API Key", "/developer/api-keys?new=1")) (Some ("Authentication docs", "/developer/docs#auth"))
  end.

Definition empty_keys : list empty_key :=
  [servers; tools; apiKeys; policies; rateLimits; team; roles; alerts; incidents; audit; requests; integrations;
   notifications; devServers; devApiKeys].

(** ** The progress of an operation *)

Inductive StepStatus := pending | running | done | error.
#[global] Instance StepStatus_eq_dec : EqDecision StepStatus.
Proof. solve_decision. Defined.

Record OperationStep := mkStep { st_id : string; st_label : string; st_detail : option string; st_status : StepStatus }.

Definition is_status (s : StepStatus) (x : OperationStep) : bool := bool_decide (st_status x = s).

Definition doneCount (steps : list OperationStep) : nat := length (List.filter (is_status done) steps).
Definition hasError (steps : list OperationStep) : bool := existsb (is_status error) steps.
Definition allDone (steps : list OperationStep) : bool :=
  (doneCount steps =? length steps)%nat && negb (hasError steps).
Definition pct (steps : list OperationStep) : rounded :=
  Math_round (percent (Z.of_nat (doneCount steps)) (Z.of_nat (length steps))).

(** The interval of 250 ms runs while the operation is neither done nor failed. *)
Definition tick (steps : list OperationStep) (elapsed : Z) : Z :=
  if allDone steps || hasError steps then elapsed else (elapsed + 250)%Z.

Definition ceil_div (a b : Z) : Z := (- ((- a) / b))%Z.

Definition estLabel (estimatedMs : Z) (elapsed : Z) : string :=
  let remaining := Z.max 0 (estimatedMs - elapsed) in
  if (remaining <? 1000)%Z then "Almost done…"
  else if (remaining <? 60000)%Z then "~" +:+ pretty (ceil_div remaining 1000) +:+ "s remaining"
  else "~" +:+ pretty (ceil_div remaining 60000) +:+ "m remaining".

Record operation := mkOperation {
  op_title : string; op_steps : list OperationStep; op_cancel : bool; op_estimatedMs : option Z;
  op_completion : option string; op_background : bool }.

Definition step_view (s : OperationStep) : list view :=
  Text (st_label s) ::
  match st_detail s with
  | Some d => when (negb (bool_decide (d = "")) && is_status running s) [Text d]
  | None => []
  end.

(** [estimatedMs ? ... : null]: an estimate of 0 is none. *)
Definition estimate (o : operation) : option Z :=
  match op_estimatedMs o with Some ms => if bool_decide (ms = 0%Z) then None else Some ms | None => None end.

Definition ProgressOperation (o : operation) (elapsed : Z) : list view :=
  let steps := op_steps o in
  [Text (if allDone steps then default "Complete" (op_completion o)
         else if hasError steps then "Operation failed" else op_title o)]
  ++ when (op_cancel o && negb (allDone steps)) [Button "" false "onCancel"]
  ++ [Stat "progress" (rounded_text (pct steps) +:+ "%")]  (* the width of the bar *)
  ++ flat_map step_view steps
  ++ when (negb (allDone steps) && negb (hasError steps))
       (match estimate o with Some ms => [Text (estLabel ms elapsed)] | None => [] end
        ++ when (op_background o) [Button "Run in background →" false "onBackground"]).

Inductive build_status := B_running | B_done | B_error.
#[global] Instance build_status_eq_dec : EqDecision build_status.
Proof. solve_decision. Defined.

Definition simple (id label : string) (s : StepStatus) : OperationStep := mkStep id label None s.
Definition detailed (id label : string) (s : StepStatus) (d : string) : OperationStep := mkStep id label (Some d) s.

Definition buildDiscoverToolsSteps (status : build_status) : list OperationStep :=
  let connect := simple "connect" "Connecting to MCP server" done in
  let rest s := [simple "parse" "Parsing tool schemas" s; simple "store" "Storing tool definitions" s] in
  match status with
  | B_done => connect :: simple "init" "Sending tools/list request" done :: rest done
  | B_error => connect :: detailed "init" "Sending tools/list request" error "Connection timed out after 10s" :: rest pending
  | B_running => connect :: detailed "init" "Sending tools/list request" running "Waiting for server response…" :: rest pending
  end.

Definition buildHealthCheckSteps (status : build_status) : list OperationStep :=
  let dns := simple "dns" "Resolving hostname" done in
  let rest s := [simple "http" "Sending HTTP health check" s; simple "verify" "Verifying response" s] in
  match status with
  | B_done => dns :: simple "tcp" "Opening TCP connection" done :: rest done
  | B_error => dns :: detailed "tcp" "Opening TCP connection" error "Connection refused on port 443" :: rest pending
  | B_running => dns :: detailed "tcp" "Opening TCP connection" running "Establishing TLS handshake…" :: rest pending
  end.

(** The type of its argument has no error. *)
Definition buildExportSteps (finished : bool) : list OperationStep :=
  let first := [simple "query" "Querying audit log" done; simple "filter" "Applying filters" done] in
  if finished
  then first ++ [simple "format" "Formatting as CSV" done; simple "download" "Preparing download" done]
  else first ++ [detailed "format" "Formatting as CSV" running "Processing 12,450 records…";
                 simple "download" "Preparing download" pending].

(** ** The documentation page *)

(** A text whose quotes are written as back quotes. *)
Definition unquote_char (c : ascii) : ascii := if bool_decide (c = "`"%char) then ascii_of_N 34 else c.
Definition code_text (lines : list string) : string := join (String "010" "") (map (smap unquote_char) lines).

Definition GETTING_STARTED_JSON : string := code_text
  ["{"; "  `mcpServers`: {"; "    `portcullis`: {"; "      `command`: `npx`,";
   "      `args`: [`-y`, `@portcullis/mcp-client`],"; "      `env`: {";
   "        `PORTCULLIS_URL`: `http://localhost:8000`,"; "        `PORTCULLIS_API_KEY`: `your-api-key`";
   "      }"; "    }"; "  }"; "}"].

Record DocSection := mkDoc { ds_title : string; ds_description : string; ds_href : string }.

Definition DOC_SECTIONS : list DocSection := [
  mkDoc "Quick Start" "Connect your first MCP tool in under 5 minutes" "#";
  mkDoc "Authentication" "API keys, OAuth, and bearer tokens" "#";
  mkDoc "MCP Connection Guide" "Configure clients to use the gateway" "#";
  mkDoc "Tool Usage" "Discover, test, and invoke tools" "#";
  mkDoc "Rate Limits" "Understand quotas and throttling" "#";
  mkDoc "Error Codes" "Troubleshoot common gateway errors" "#"].

Definition DocCard (s : DocSection) : list view :=
  [Link (ds_title s) (ds_href s); Text (ds_description s); Text "View →"].

(** [handleCopy]: the button's label follows the result of the copy. *)
Definition handleCopy (code : string) (d : Dom) : bool * Dom := copyToClipboard code d.

Definition CodeBlock (code : string) (copied : bool) : list view :=
  [Text "mcp-config.json"; Button (if copied then "Copied!" else "Copy") false "handleCopy"; Code code].

Definition DeveloperDocsPage (copied : bool) : list view :=
  [Text "Documentation"; Text "Guides, references, and examples"; Text "Getting Started";
   Text "Add the Portcullis gateway to your MCP client configuration file to get started."]
  ++ CodeBlock GETTING_STARTED_JSON copied
  ++ [Text "PORTCULLIS_URL — The base URL of your Portcullis gateway instance.";
      Text "PORTCULLIS_API_KEY — Generate a personal API key from the API Keys page."; Link "API Keys" "/developer/api-keys";
      Text "Reference"]
  ++ flat_map DocCard DOC_SECTIONS
  ++ [Text "Need help?"; Text "Check the request logs for errors, or reach out to your workspace administrator.";
      Link "request logs" "/developer/logs"].

(** ** Properties *)

(** The configuration offered for copying is a JSON document with the client's
    command and the two variables the text below explains. *)
Theorem getting_started_is_json :
  JSON_parse GETTING_STARTED_JSON =
  Some (JObj [("mcpServers", JObj [("portcullis", JObj [
    ("command", JStr "npx"); ("args", JArr [JStr "-y"; JStr "@portcullis/mcp-client"]);
    ("env", JObj [("PORTCULLIS_URL", JStr "http://localhost:8000"); ("PORTCULLIS_API_KEY", JStr "your-api-key")])])])]).
Proof. vm_compute. reflexivity. Qed.

Lemma pct_range n d : (1 <= n <= 40)%nat -> (d <= n)%nat ->
  exists z, Math_round (percent (Z.of_nat d) (Z.of_nat n)) = RNum z /\ (0 <= z <= 100)%Z /\ (z = 100%Z <-> d = n).
Proof.
  intros Hn Hd.
  assert (Ha : forallb (fun n => forallb (fun d =>
      match Math_round (percent (Z.of_nat d) (Z.of_nat n)) with
      | RNum z => ((0 <=? z) && (z <=? 100))%Z && Bool.eqb (z =? 100)%Z (d =? n)%nat
      | _ => false end) (seq 0 (S n))) (seq 1 40) = true) by (vm_compute; reflexivity).
  rewrite forallb_forall in Ha. specialize (Ha n). rewrite in_seq, forallb_forall in Ha.
  specialize (Ha ltac:(lia) d). rewrite in_seq in Ha. specialize (Ha ltac:(lia)). cbn beta in Ha.
  destruct (Math_round _) as [z| |]; try done. exists z. split; [done|].
  apply andb_true_iff in Ha as [Hz He]. apply andb_true_iff in Hz as [H1 H2]. apply eqb_prop in He.
  split; [lia|]. destruct (Z.eqb_spec z 100), (Nat.eqb_spec d n); naive_solver.
Qed.

Lemma done_le steps : (doneCount steps <= length steps)%nat.
Proof. unfold doneCount. induction steps as [|s l IH]; cbn; [lia|]. destruct (is_status done s); cbn; lia. Qed.

(** The bar of an operation of up to forty steps stands between 0 and 100
    percent, and at 100 exactly when every step is done; a step that failed
    keeps it below. *)
Theorem progress_bounds steps (Hs : (1 <= length steps <= 40)%nat) :
  exists z, pct steps = RNum z /\ (0 <= z <= 100)%Z /\ (z = 100%Z <-> Forall (fun s => st_status s = done) steps) /\
    (hasError steps = true -> (z < 100)%Z) /\ (allDone steps = true <-> z = 100%Z).
Proof.
  destruct (pct_range (length steps) (doneCount steps)) as (z & Hz & Hr & H100); [done|apply done_le|].
  exists z. split; [done|]. split; [done|].
  assert (Hall : doneCount steps = length steps <-> Forall (fun s => st_status s = done) steps).
  { unfold doneCount. clear. induction steps as [|s l IH]; [done|]. rewrite Forall_cons, <- IH. cbn.
    pose proof (done_le l) as Hl. unfold doneCount in Hl. unfold is_status at 1.
    case_bool_decide as E; cbn; split; naive_solver lia. }
  assert (He : hasError steps = true -> ~ Forall (fun s => st_status s = done) steps).
  { intros (s & Hs' & E)%existsb_exists Hf. rewrite Forall_forall in Hf.
    apply bool_decide_eq_true in E. specialize (Hf s ltac:(by apply list_elem_of_In)). congruence. }
  split_and!.
  - by rewrite H100.
  - intros E%He. rewrite <- Hall, <- H100 in E. lia.
  - unfold allDone. rewrite andb_true_iff, negb_true_iff, Nat.eqb_eq, <- H100.
    split; [tauto|]. intros Hz100. split; [done|]. apply not_true_is_false. intros E%He. apply E, Hall, H100, Hz100.
Qed.

(** The remaining time never grows, and an operation that outlives its estimate
    says that it is almost done for as long as it runs. *)
Theorem overdue_almost_done est n steps (Hrun : allDone steps = false) (He : hasError steps = false) :
  let elapsed := Nat.iter n (tick steps) 0%Z in
  elapsed = (250 * Z.of_nat n)%Z /\ ((est - 1000 < elapsed)%Z -> estLabel est elapsed = "Almost done…").
Proof.
  cbn zeta. assert (E : Nat.iter n (tick steps) 0%Z = (250 * Z.of_nat n)%Z).
  { induction n as [|n IH]; [done|]. cbn [Nat.iter nat_rect]. change (tick steps (Nat.iter n (tick steps) 0%Z) = (250 * Z.of_nat (S n))%Z).
    rewrite IH. unfold tick. rewrite Hrun, He. cbn [orb]. lia. }
  rewrite E. split; [done|]. intros H. unfold estLabel. rewrite (proj2 (Z.ltb_lt _ 1000)); [done|lia].
Qed.

(** Finished steps, then at most one that runs or failed, then waiting ones. *)
Definition in_order (steps : list OperationStep) : Prop :=
  exists l1 l2 l3, map st_status steps = l1 ++ l2 ++ l3 /\ Forall (eq done) l1 /\
    (l2 = [] \/ l2 = [running] \/ l2 = [error]) /\ Forall (eq pending) l3.

(** The ready-made operations are in order, and are done, failed or running as
    they were asked for. *)
Theorem operations_in_order s b :
  Forall (fun steps => in_order steps /\ allDone steps = bool_decide (s = B_done) /\ hasError steps = bool_decide (s = B_error))
    [buildDiscoverToolsSteps s; buildHealthCheckSteps s] /\
  in_order (buildExportSteps b) /\ allDone (buildExportSteps b) = b.
Proof.
  assert (Ho : forall l1 l2 l3 steps, map st_status steps = l1 ++ l2 ++ l3 -> Forall (eq done) l1 ->
    (l2 = [] \/ l2 = [running] \/ l2 = [error]) -> Forall (eq pending) l3 -> in_order steps) by (unfold in_order; eauto 10).
  assert (H : in_order (buildDiscoverToolsSteps s) /\ in_order (buildHealthCheckSteps s)).
  { destruct s; split;
      first [apply (Ho [done; done; done; done] [] []); by auto | apply (Ho [done] [running] [pending; pending]); by auto
            | apply (Ho [done] [error] [pending; pending]); by auto]. }
  destruct H as [Hd Hh]. split_and!.
  - repeat constructor; first [exact Hd | exact Hh | by destruct s].
  - destruct b; [apply (Ho [done; done; done; done] [] [])|apply (Ho [done; done] [running] [pending])]; by auto.
  - by destruct b.
Qed.

(** ** Witnesses *)

Lemma progress_bounds_witness :
  exists z, pct (buildDiscoverToolsSteps B_error) = RNum z /\ (0 <= z <= 100)%Z /\ (z < 100)%Z.
Proof.
  destruct (progress_bounds (buildDiscoverToolsSteps B_error)) as (z & H1 & H2 & _ & H3 & _); [cbn; lia|].
  exists z. split; [exact H1|]. split; [exact H2|]. apply H3. reflexivity.
Defined.

Lemma overdue_almost_done_witness : estLabel 1000 (Nat.iter 4 (tick (buildExportSteps false)) 0%Z) = "Almost done…".
Proof. apply (overdue_almost_done 1000 4 (buildExportSteps false)); reflexivity. Defined.
