(* ===== verification/AuditViews.v ===== *)
(** * What the audit page shows: web/src/app/dashboard/audit/page.tsx

    The page around the functions of [AuditPage]: its header with compliance
    mode and saved searches, the category strip, filters, table, pager, drawer
    and the webhook dialog. *)

From S2P Require Import Prelude JsString Json ApiTypes JsDate RelTime Tally AuditPage Feedback View.

(** ** The webhook dialog *)

Module WebhookModal.

Record state := mkState { w_url : string; w_secret : string; w_selected : list OrgEventCategory; w_saved : bool }.
Definition mounted : state := mkState "" "" [] false.

Inductive event := SetUrl (s : string) | SetSecret (s : string) | Toggle (c : OrgEventCategory) | Save.

(** "Save webhook" only sets [saved]: nothing is sent and nothing checked. *)
Definition step (w : state) (e : event) : state :=
  match e with
  | SetUrl s => mkState s (w_secret w) (w_selected w) (w_saved w)
  | SetSecret s => mkState (w_url w) s (w_selected w) (w_saved w)
  | Toggle c => mkState (w_url w) (w_secret w) (toggle c (w_selected w)) (w_saved w)
  | Save => mkState (w_url w) (w_secret w) (w_selected w) true
  end.

Definition categories : list OrgEventCategory :=
  [C_auth; C_invitation; C_role; C_api_key; C_policy; C_server; C_tool; C_request; C_billing; C_integration].

Definition render (w : state) : list view :=
  [Text "Webhook forwarding"; Button "" false "onClose";
   Text "Forward audit events to an external HTTPS endpoint in real time. Events are posted as signed JSON payloads.";
   Input "Endpoint URL" (w_url w) "https://your-service.example.com/audit-hook" false;
   Input "Signing secret" (w_secret w) "whsec_…" true; Text "Event categories to forward"]
  ++ map (fun c => Button (category_label c) false "toggle") categories
  ++ when (w_saved w) [Text "Webhook configuration saved. Activate in gateway settings to begin forwarding."]
  ++ [Button "Cancel" false "onClose"; Button "Save webhook" false "setSaved"].
End WebhookModal.

(** ** The page *)

(** What is open beside [AuditPage.page_state]. *)
Record panels := mkPanels {
  o_filters : bool; o_savedMenu : bool; o_selected : option OrgEvent; o_webhook : option WebhookModal.state }.

Definition closed : panels := mkPanels false false None None.

Definition outcome_label (o : Outcome) : string := (OUTCOME_CONFIG o).1.1.

Section views.
Context (tz now : Z) (fmtDateFull : string -> string) (pretty_json : json -> string).

Definition DetailDrawer (e : OrgEvent) (compliance : bool) : list view :=
  [Badge (category_label (ev_category e)); Badge (outcome_label (ev_outcome e)); Text (ev_action e); Button "" false "onClose"]
  ++ map (fun f => Stat (f.1) (f.2)) (drawer_fields fmtDateFull e compliance)
  ++ match drawer_raw e compliance with Some j => [Text "Raw audit record"; Code (pretty_json j)] | None => [] end.

Definition saved_row (s : SavedSearch) : list view :=
  [Button (ss_name s) false "setFilters";
   Text ((if bool_decide (f_category (ss_filters s) = "") then "all categories" else f_category (ss_filters s))
         +:+ " · " +:+ f_retention (ss_filters s));
   Button "" false "setSavedSearches"].

Definition saved_menu (p : page_state) : list view :=
  [Text "Saved searches"]
  ++ match p_saved p with [] => [Text "No saved searches yet"] | l => flat_map saved_row l end
  ++ (if p_showSaveName p
      then [Input "" (p_saveName p) "Name this search…" false; Button "Save" false "saveSearch"]
      else [Button "Save current search" false "setShowSaveName"]).

Definition header (p : page_state) (o : panels) : list view :=
  [Text "Organization Audit Log";
   Text "Admin actions, access events, and configuration changes in a single tamper-evident trail."]
  ++ DemoBanner mixed "gateway events (auth failures, RBAC denies, tool calls) from the audit API"
       "admin-level events (invitations, key management, billing) render from local records until the org event API lands"
  ++ [Button (if p_compliance p then "Compliance ON" else "Compliance mode") false "setCompliance";
      Button "Saved" false "setShowSavedMenu"]
  ++ when (negb (bool_decide (p_saved p = []))) [Badge (pretty (Z.of_nat (length (p_saved p))))]
  ++ when (o_savedMenu o) (saved_menu p)
  ++ [Button "Webhook" false "setShowWebhook"; Button "Export CSV" false "exportCsv"; Button "" false "refetch"]
  ++ when (p_compliance p)
       [Text "Compliance mode active — API key IDs and IP addresses are redacted in the UI and CSV exports."].

Definition count_of (c : OrgEventCategory) (events : list OrgEvent) : Z :=
  default 0%Z (map_get (category_id c) (counts events)).

Definition pill (events : list OrgEvent) (c : OrgEventCategory) : list view :=
  let n := count_of c events in
  if bool_decide (n = 0%Z) then []
  else [Button (category_label c +:+ " (" +:+ pretty n +:+ ")") false "setFilter"].

Definition category_strip (events : list OrgEvent) : list view :=
  Button ("All (" +:+ pretty (Z.of_nat (length events)) +:+ ")") false "setFilter"
  :: flat_map (pill events) WebhookModal.categories.

Definition search_row (f : FilterState) : list view :=
  [Input "" (f_search f) "Search by action, actor, resource, or request ID…" false;
   Select "" (f_retention f) ["Last 7 days"; "Last 30 days"; "Last 90 days"; "Last 1 year"; "All time"];
   Button "Filters" false "setShowFilters"].

Definition extended_filters (f : FilterState) : list view :=
  [Select "Outcome" (f_outcome f) ["All outcomes"; "Success"; "Failure"; "Blocked"];
   Input "Actor" (f_actor f) "email or key ID…" false; Button "Clear all" false "setFilters"].

Definition event_row (compliance : bool) (e : OrgEvent) : list view :=
  [Text (audit_relativeTime tz now (ev_timestamp e)); Badge (category_label (ev_category e)); Text (ev_action e);
   Code (redact (ev_actor e) (compliance && is_api_key (ev_actorType e))); Code (ev_resource e);
   Badge (outcome_label (ev_outcome e))].

Definition result_count (p : page_state) (loading : bool) (events : list OrgEvent) (logs : list AuditLogView) : view :=
  Text ((if loading then "Loading API events…"
         else pretty (Z.of_nat (length events)) +:+ " events on page " +:+ pretty (p_page p + 1)%Z
              +:+ " · " +:+ pretty (Z.of_nat (length logs)) +:+ " gateway API")
        +:+ " — server paged (limit " +:+ pretty PAGE_SIZE +:+ ", offset " +:+ pretty (p_page p * PAGE_SIZE)%Z +:+ ")").

Definition event_table (p : page_state) (loading : bool) (events : list OrgEvent) : list view :=
  if loading then [Skeletons 10] else
  match events with
  | [] => [TableEmpty "audit events"]
  | l => [Table ["Time"; "Category"; "Action"; "Actor"; "Resource"; "Outcome"; ""] (map (event_row (p_compliance p)) l)]
  end.

Definition pagination (p : page_state) (events : list OrgEvent) (logs : list AuditLogView) : list view :=
  let total := totalPages (p_page p) logs in
  when (1 <? total)%Z
    [Text ("Page " +:+ pretty (p_page p + 1)%Z +:+ " of " +:+ pretty total +:+ " · " +:+ pretty (Z.of_nat (length events)) +:+ " events");
     Button "Previous" (previous_disabled p) "setPage"; Button "Next" (next_disabled p logs) "setPage"].

Definition AuditPageView (p : page_state) (o : panels) (q : answer (list AuditLogView)) : list view :=
  let logs := rows q in
  let events := filtered tz now (allEvents tz logs) (p_filters p) in
  header p o ++ category_strip events ++ search_row (p_filters p)
  ++ when (o_filters o) (extended_filters (p_filters p))
  ++ [result_count p (is_pending q) events logs] ++ event_table p (is_pending q) events
  ++ pagination p events logs
  ++ from_option (fun e => DetailDrawer e (p_compliance p)) [] (o_selected o)
  ++ from_option WebhookModal.render [] (o_webhook o).
End views.

(** ** Properties *)

(** Every entry that is not a failed authentication stands in the category
    "Request blocked", the allowed tool calls too, which are a success in the
    last column of the same row. *)
Theorem allowed_calls_labelled_blocked tz now compliance l
    (Ht : AuditLogView_event_type l <> AuditEventType_auth_failure) :
  Badge "Request blocked" ∈ event_row tz now compliance (mapAuditLog l) /\
  (AuditLogView_event_type l <> AuditEventType_rbac_deny -> AuditLogView_outcome l = "allowed" ->
   Badge "Success" ∈ event_row tz now compliance (mapAuditLog l)).
Proof.
  unfold event_row, mapAuditLog. destruct (AuditLogView_event_type l); try done; (split; [cbn; find_elem|]).
  all: intros Hr Ho; try done; rewrite Ho; cbn; find_elem.
Qed.

Lemma count_of_spec c events :
  count_of c events = Z.of_nat (length (List.filter (fun e => bool_decide (ev_category e = c)) events)).
Proof.
  unfold count_of, counts. rewrite tally_get. unfold count. f_equal.
  induction events as [|e l IH]; [done|]. rewrite filter_cons. cbn [List.filter].
  case_decide as E; case_bool_decide as E'; cbn [length]; rewrite ?IH; try done.
  - destruct E'. injection E as E. by destruct (ev_category e), c.
  - destruct E. by rewrite E'.
Qed.

(** The pills of the strip partition the shown events: their numbers add up to
    the number behind "All". *)
Theorem strip_partitions_events events :
  foldr Z.add 0%Z (map (fun c => count_of c events) WebhookModal.categories) = Z.of_nat (length events).
Proof.
  rewrite (map_ext _ _ (fun c => count_of_spec c events)).
  induction events as [|e l IH]; [done|]. cbn [length]. rewrite Nat2Z.inj_succ, <- IH. clear IH.
  cbn [map foldr List.filter WebhookModal.categories].
  destruct (ev_category e); repeat (case_bool_decide; try done); cbn [length]; lia.
Qed.

(** While one category is chosen the strip offers no other: the numbers are
    those of the events that passed the category filter itself. *)
Theorem strip_shows_only_active tz now logs f c (Hf : f_category f = category_id c) :
  let events := filtered tz now (allEvents tz logs) f in
  (forall c', c' <> c -> pill events c' = []) /\
  count_of c events = Z.of_nat (length events).
Proof.
  cbn zeta. set (events := filtered _ _ _ _).
  assert (H : forall e, e ∈ events -> ev_category e = c).
  { intros e He. unfold events, filtered in He. apply filter_if_elem in He as [He _]. apply filter_if_elem in He as [He _].
    apply filter_if_elem in He as [_ He]. rewrite Hf in He. specialize (He ltac:(by destruct c)).
    apply bool_decide_eq_true in He. by destruct (ev_category e), c. }
  split.
  - intros c' Hc. unfold pill. rewrite count_of_spec, (filter_none_match _ events); [done|].
    intros e He%H. rewrite He. by apply bool_decide_eq_false.
  - rewrite count_of_spec, (filter_all_match _ events); [done|]. intros e He%H. by apply bool_decide_eq_true.
Qed.

(** The dialog reports that the webhook was saved whatever was entered, an empty
    address and no category included. *)
Theorem webhook_saved_unchecked es :
  shows "Webhook configuration saved. Activate in gateway settings to begin forwarding."
    (WebhookModal.render (fold_left WebhookModal.step (es ++ [WebhookModal.Save]) WebhookModal.mounted)).
Proof. rewrite fold_left_app. cbn [fold_left WebhookModal.step]. unfold WebhookModal.render. cbn [WebhookModal.w_saved when]. find_text. Qed.

(** ** Witnesses *)

Definition demo_call : AuditLogView :=
  mkAuditLogView "1" None (Some "ci") None AuditEventType_tool_call (Some "github") (Some "read_file") None "allowed" None None []
    "2026-01-02T00:00:00Z".

Lemma allowed_calls_labelled_blocked_witness : Badge "Request blocked" ∈ event_row 0 0 false (mapAuditLog demo_call).
Proof. apply (allowed_calls_labelled_blocked 0 0 false demo_call). discriminate. Defined.

Lemma strip_shows_only_active_witness :
  pill (filtered 0 1767312000000 (allEvents 0 [demo_call]) (mkFilter "" "request" "" "" "30d")) C_auth = [].
Proof. apply (strip_shows_only_active 0 1767312000000 [demo_call] (mkFilter "" "request" "" "" "30d") C_request); [reflexivity|discriminate]. Defined.
