(* ===== verification/PlaygroundPage.v ===== *)
(** * The playground page: web/src/app/dashboard/playground/page.tsx

    The page around the execution of [Tools.Playground]: how its state follows
    the selectors, saved examples, links and the effects that load a tool, the
    code snippets, the sharing of a session, and what it shows.

    [btoa] (with the padding stripped) is a browser function and a parameter:
    [None] is the exception it throws for characters outside Latin-1. *)

From S2P Require Import Prelude JsString JsUri Json JsonParse Browser ApiTypes ApiClient JsDate Tally Tools ToolPage Developer View.

Import Catalogue Playground.

(** ** Code snippets *)

Definition call_body (name : string) (args : json) : json :=
  rpc "tools/call" (JObj [("name", JStr name); ("arguments", args)]).

(** A backtick stands for a quotation mark, as in [Developer.Explorer.template]. *)
Notation template := Developer.Explorer.template.

Definition generateCurl (API_BASE slug name : string) (args : json) : string :=
  template "curl -X POST `" +:+ API_BASE +:+ "/mcp/" +:+ slug +:+ template "` \
  -H `Content-Type: application/json` \
  -H `Authorization: Bearer <YOUR_TOKEN>` \
  -d " +:+ "'" +:+ JSON_stringify_indent 2 (call_body name args) +:+ "'".

(** [JSON.stringify(args, null, n).split("\n").join("\n" + pad)] *)
Definition reindent (n : nat) (pad : string) (args : json) : string :=
  join (newline +:+ pad) (split "010" (JSON_stringify_indent n args)).

Definition generatePython (API_BASE slug name : string) (args : json) : string :=
  template "import requests

response = requests.post(
    `" +:+ API_BASE +:+ "/mcp/" +:+ slug +:+ template "`,
    headers={
        `Content-Type`: `application/json`,
        `Authorization`: `Bearer <YOUR_TOKEN>`,
    },
    json={
        `jsonrpc`: `2.0`,
        `id`: 1,
        `method`: `tools/call`,
        `params`: {
            `name`: `" +:+ name +:+ template "`,
            `arguments`: " +:+ reindent 4 "    " args +:+ ",
        },
    },
)
result = response.json()
print(result)".

Definition generateTypeScript (API_BASE slug name : string) (args : json) : string :=
  template "const response = await fetch(`" +:+ API_BASE +:+ "/mcp/" +:+ slug +:+ template "`, {
  method: `POST`,
  headers: {
    `Content-Type`: `application/json`,
    `Authorization`: `Bearer <YOUR_TOKEN>`,
  },
  body: JSON.stringify({
    jsonrpc: `2.0`,
    id: 1,
    method: `tools/call`,
    params: {
      name: `" +:+ name +:+ template "`,
      arguments: " +:+ reindent 2 "  " args +:+ ",
    },
  }),
});
const result = await response.json();
console.log(result);".

Inductive SnippetLang := curl | python | typescript.

Definition snippet (lang : SnippetLang) : string -> string -> string -> json -> string :=
  match lang with curl => generateCurl | python => generatePython | typescript => generateTypeScript end.

(** ** State *)

Record SavedExample := mkExample {
  ex_id : string; ex_label : string; ex_toolName : string; ex_serverSlug : string; ex_args : json; ex_savedAt : string }.

Inductive Environment := production | staging | development | local.

Record ui := mkUi {
  u_page : Playground.page; u_toolName : string;
  u_tools : list (string * list McpTool);  (** the answers of the tool queries, by slug *)
  u_redact : bool; u_environment : Environment; u_policySim : bool; u_saved : list SavedExample;
  u_jsonError : option string;  (** the message below the editor *)
  u_advanced : bool; u_timeoutMs : Z; u_running : bool; u_compareMode : bool; u_showCode : bool }.

Definition update (p : Playground.page) (name : string) (tools : list (string * list McpTool))
    (saved : list SavedExample) (err : option string) (u : ui) : ui :=
  mkUi p name tools (u_redact u) (u_environment u) (u_policySim u) saved err
    (u_advanced u) (u_timeoutMs u) (u_running u) (u_compareMode u) (u_showCode u).

Definition set_page (p : Playground.page) (u : ui) : ui :=
  update p (u_toolName u) (u_tools u) (u_saved u) (u_jsonError u) u.

Section page.
Context (JSON_parse : string -> option json) (js_Number : string -> json).

Definition currentTools (u : ui) : option (list McpTool) :=
  if bool_decide (pg_slug (u_page u) = "") then None else map_get (pg_slug (u_page u)) (u_tools u).

(** The effect of [[tools, toolName]]. *)
Definition load_effect (u : ui) : ui :=
  match currentTools u with
  | Some tools =>
      if bool_decide (u_toolName u = "") then u else
      match List.find (fun t => bool_decide (mt_name t = u_toolName u)) tools with
      | Some found =>
          let p := u_page u in
          set_page (Playground.mkPage (Some found) (pg_slug p) (pg_mode p) ∅ "{}" (pg_confirm p) None None
                      (pg_idempotency p) (pg_headers p) (pg_subject p)) u
      | None => u
      end
  | None => u
  end.

Definition form_args (t : McpTool) (p : Playground.page) : json :=
  default (JObj []) (Playground.buildArgs JSON_parse js_Number t (pg_fields p) "{}" form).

(** The effect of [[mode]] reads the tool and the fields of the render it
    belongs to, [before]; its [setJsonText] comes after the load effect's. *)
Definition mode_effect (before : Playground.page) (u : ui) : ui :=
  match pg_mode before, pg_tool before with
  | json_mode, Some t =>
      let p := u_page u in
      set_page (Playground.mkPage (pg_tool p) (pg_slug p) (pg_mode p) (pg_fields p)
                  (JSON_stringify_indent 2 (form_args t before)) (pg_confirm p) (pg_result p) (pg_compare p)
                  (pg_idempotency p) (pg_headers p) (pg_subject p)) u
  | _, _ => u
  end.

Definition same_tools (u v : ui) : bool :=
  bool_decide (pg_slug (u_page u) = pg_slug (u_page v)).

(** A render after the state changed from [u] to [v]: the effects whose
    dependencies changed, in the order they are declared.  The tools of another
    slug are another array. *)
Definition commit (u v : ui) : ui :=
  let w := if same_tools u v && bool_decide (u_toolName u = u_toolName v) then v else load_effect v in
  match pg_mode (u_page u), pg_mode (u_page v) with
  | form, json_mode | json_mode, form => mode_effect (u_page v) w
  | _, _ => w
  end.

Definition with_selection (slug : string) (tool : option McpTool) (r : option RunResult) (p : Playground.page) : Playground.page :=
  Playground.mkPage tool slug (pg_mode p) (pg_fields p) (pg_json p) (pg_confirm p) r (pg_compare p)
    (pg_idempotency p) (pg_headers p) (pg_subject p).

Definition with_input (mode : InputMode) (fields : gmap string string) (text : string) (p : Playground.page) : Playground.page :=
  Playground.mkPage (pg_tool p) (pg_slug p) mode fields text (pg_confirm p) (pg_result p) (pg_compare p)
    (pg_idempotency p) (pg_headers p) (pg_subject p).

Definition with_name (name : string) (u : ui) : ui :=
  update (u_page u) name (u_tools u) (u_saved u) (u_jsonError u) u.

Definition selectServer (slug : string) (u : ui) : ui :=
  commit u (with_name "" (set_page (with_selection slug None None (u_page u)) u)).

Definition selectTool (name : string) (u : ui) : ui := commit u (with_name name u).

(** The tools of a server arrive, or are replaced by a refetch that differs. *)
Definition toolsArrive (slug : string) (tools : list McpTool) (u : ui) : ui :=
  let v := update (u_page u) (u_toolName u) (map_update slug (fun _ => tools) (u_tools u))
             (u_saved u) (u_jsonError u) u in
  if bool_decide (slug = pg_slug (u_page u)) then load_effect v else v.

Definition setMode (m : InputMode) (u : ui) : ui :=
  commit u (set_page (with_input m (pg_fields (u_page u)) (pg_json (u_page u)) (u_page u)) u).

Definition setField (k v : string) (u : ui) : ui :=
  set_page (with_input (pg_mode (u_page u)) (<[k := v]> (pg_fields (u_page u))) (pg_json (u_page u)) (u_page u)) u.

(** Typing in the editor; [parse_error] is the message of [JSON.parse]. *)
Definition setJsonText (parse_error : string -> string) (s : string) (u : ui) : ui :=
  update (with_input (pg_mode (u_page u)) (pg_fields (u_page u)) s (u_page u)) (u_toolName u) (u_tools u)
    (u_saved u) (match JSON_parse s with Some _ => None | None => Some (parse_error s) end) u.

(** [buildArgs(...) ?? {}]: [null] and an unreadable text are an empty object. *)
Definition currentArgs (u : ui) : json :=
  match pg_tool (u_page u) with
  | Some t => default (JObj []) (nullish (Playground.buildArgs JSON_parse js_Number t (pg_fields (u_page u)) (pg_json (u_page u)) (pg_mode (u_page u))))
  | None => JObj []
  end.

Definition with_saved (l : list SavedExample) (u : ui) : ui :=
  update (u_page u) (u_toolName u) (u_tools u) l (u_jsonError u) u.

Definition handleSaveExample (now : Z) (time : string) (u : ui) : ui :=
  match pg_tool (u_page u) with
  | None => u
  | Some t =>
      if bool_decide (pg_slug (u_page u) = "") then u else
      with_saved (mkExample (pretty now) (mt_name t +:+ " — " +:+ time) (mt_name t) (pg_slug (u_page u))
                    (currentArgs u) (toISOString now) :: take 19 (u_saved u)) u
  end.

Definition handleLoadExample (ex : SavedExample) (u : ui) : ui :=
  let p := u_page u in
  commit u (with_name (ex_toolName ex)
    (set_page (with_input json_mode (pg_fields p) (JSON_stringify_indent 2 (ex_args ex))
                 (with_selection (ex_serverSlug ex) (pg_tool p) (pg_result p) p)) u)).

(** ** Sharing *)

Definition share_params (btoa : string -> option string) (u : ui) : option (list (string * string)) :=
  t ← pg_tool (u_page u);
  code ← btoa (JSON_stringify (currentArgs u));
  Some [("server", pg_slug (u_page u)); ("tool", mt_name t); ("args", code)].

Definition share_url (btoa : string -> option string) (origin : string) (u : ui) : option string :=
  ps ← share_params btoa u;
  Some (origin +:+ "/dashboard/playground?" +:+ URLSearchParams_toString ps).

(** [searchParams.get] *)
Definition param (k : string) (ps : list (string * string)) : string :=
  default "" (snd <$> List.find (fun kv => bool_decide (kv.1 = k)) ps).

(** The page as it mounts for a query string. *)
Definition mount (ps : list (string * string)) : ui :=
  mkUi (Playground.mkPage None (param "server" ps) form ∅ "{}" false None None "" "" "") (param "tool" ps) []
       true development false [] None false 30000 false false false.

Definition code_args (u : ui) : json :=
  match currentArgs u with JObj kvs => JObj (Playground.redactArgs kvs (u_redact u)) | j => j end.
End page.

(** ** The form's fields *)

Definition bullets : string := "••••••••".

(** [displayValue] *)
Definition displayValue (redact sensitive show : bool) (value : string) : string :=
  if redact && sensitive && negb show then bullets else value.

Definition field_label (key : string) (schema : McpToolProperty) (required : bool) : list view :=
  [Text (key +:+ if required then "*" else "")] ++ shown_text (mp_type schema)
  ++ when (isSensitiveKey key) [Button "" false "setShow"].

Definition field_description (schema : McpToolProperty) : list view := shown_text (mp_description schema).

Definition PropertyInput (key : string) (schema : McpToolProperty) (required redact show : bool) (value : string) : list view :=
  let t := default "string" (mp_type schema) in
  let among := fun l => bool_decide (t ∈ (l : list string)) in
  field_label key schema required ++ field_description schema ++
  match mp_enum schema with
  | Some options => [Select "" value ("Select…" :: options)]
  | None =>
      if among ["boolean"] then [Select "" value ["Select…"; "true"; "false"]]
      else if among ["number"; "integer"] then [Input "" value "" false]
      else if among ["object"; "array"] then [Input "" value (if among ["array"] then "[]" else "{}") false]
      else [Input "" (displayValue redact (isSensitiveKey key) show value) ("Enter " +:+ key +:+ "…")
              (isSensitiveKey key && negb show)]
  end.

(** Typing a character at the end of a controlled field: the change handler
    gets the text the field displays with the character after it. *)
Definition keystroke (redact show : bool) (key : string) (u : ui) (c : ascii) : ui :=
  let value := default "" (pg_fields (u_page u) !! key) in
  setField key (displayValue redact (isSensitiveKey key) show value +:+ String c "") u.

Fixpoint type_text (show : bool) (key s : string) (u : ui) : ui :=
  match s with
  | "" => u
  | String c r => type_text show key r (keystroke (u_redact u) show key u c)
  end.

(** ** Dialogs *)

Definition risk_text (r : RiskLevel) : string := (RISK r).1.1.1.

Definition ConfirmModal (tool : McpTool) (typed : string) : list view :=
  let risk := getRisk (mt_name tool) in
  let crit := bool_decide (risk = critical) in
  [Text (if crit then "Destructive Operation" else "Elevated Risk Tool");
   Text (risk_text risk +:+ " risk level");
   Text ("This tool performs " +:+ (if crit then "destructive operations that may be irreversible" else "state-modifying operations")
         +:+ ". Ensure you are testing in the correct environment before proceeding.");
   Text "Audit notice";
   Text "This execution will be recorded in the audit log with your identity and timestamp.";
   Text ("Type " +:+ mt_name tool +:+ " to confirm:");
   Input "" typed (mt_name tool) false;
   Button "Cancel" false "onCancel";
   Button "Execute Anyway" (negb (bool_decide (typed = mt_name tool))) "onConfirm"].

(** The Enter key in the dialog's field. *)
Definition confirm_enter (tool : McpTool) (typed : string) : bool := bool_decide (typed = mt_name tool).

Definition langs : list (SnippetLang * string) := [(curl, "cURL"); (python, "Python"); (typescript, "TypeScript")].

Definition CodeModal (API_BASE slug : string) (tool : McpTool) (args : json) (lang : SnippetLang) : list view :=
  map (fun l => Button (l.2) false "setLang") langs
  ++ [Button "Copy" false "copy"; Code (snippet lang API_BASE slug (mt_name tool) args)].

(** ** The three panels *)

Definition environments : list (Environment * string) :=
  [(production, "Production"); (staging, "Staging"); (development, "Development"); (local, "Local")].

Definition environment_upper (e : Environment) : string :=
  match e with production => "PRODUCTION" | staging => "STAGING" | development => "DEVELOPMENT" | local => "LOCAL" end.

Definition environment_value (e : Environment) : string :=
  match e with production => "production" | staging => "staging" | development => "development" | local => "local" end.

Definition header (u : ui) : list view :=
  [Text "Playground"; Text "Test MCP tools interactively with schema-generated forms and live execution";
   Select "" (environment_value (u_environment u)) environments.*2;
   Button (if u_policySim u then "Simulating Policy" else "Policy Sim") false "setPolicySimMode";
   Button (if u_redact u then "Redacting" else "Show All") false "setRedact"]
  ++ when (u_policySim u)
       [Text "Policy simulation mode — execution is logged but policy decisions are evaluated without side effects. The tool will still be called upstream."].

Definition server_status (servers : list ServerView) (slug : string) : string :=
  from_option (fun s => ServerStatus_value (ServerView_status s)) "unknown"
    (List.find (fun s => bool_decide (ServerView_slug s = slug)) servers).

Definition server_selector (servers : answer (list ServerView)) (slug : string) : view :=
  Card "Server" ""
    (Select "" slug ((if is_pending servers then "Loading…" else "Select server…") :: map ServerView_slug (rows servers))
     :: when (negb (bool_decide (slug = ""))) [Text (server_status (rows servers) slug)]).

(** [toolsLoading]: the query runs and has no answer; [tools]: its last answer. *)
Definition tool_selector (toolsLoading : bool) (slug : string) (tools : option (list McpTool)) : view :=
  Card "Tool" ""
    (if toolsLoading then [Text "Loading tools…"]
     else if bool_decide (slug = "") then [Text "Select a server first"]
     else match default [] tools with
          | [] => [Text "No tools found"]
          | l => map (fun t => Button (mt_name t) false ("setToolName " +:+ mt_name t)) l
          end).

Definition identity_card (subject : string) : view :=
  Card "Identity" ""
    [Input "Simulate Subject" subject "subject-uuid or leave blank" false;
     Text "Sends X-Simulate-Subject header to test policy decisions as a different identity."].

Definition saved_card (saved : list SavedExample) : view :=
  Card "Saved Examples" ""
    (match saved with
     | [] => [Text "No saved examples yet. Run a tool and click Save Example."]
     | l => flat_map (fun ex => [Button (ex_toolName ex) false ("handleLoadExample " +:+ ex_id ex); Text (ex_serverSlug ex)]) l
     end).

Definition left_panel (servers : answer (list ServerView)) (toolsLoading : bool) (u : ui) : list view :=
  [server_selector servers (pg_slug (u_page u)); tool_selector toolsLoading (pg_slug (u_page u)) (currentTools u);
   identity_card (pg_subject (u_page u)); saved_card (u_saved u)].

Definition warning_banner (tool : McpTool) (e : Environment) : list view :=
  let risk := getRisk (mt_name tool) in
  let crit := bool_decide (risk = critical) in
  when (isDestructive tool)
    [Text ((if crit then "Destructive Tool" else "Elevated Risk Tool") +:+ " — " +:+ risk_text risk +:+ " Risk");
     Text ((if crit then "This tool may permanently delete or destroy data. A confirmation dialog will appear before execution."
            else "This tool modifies state. Confirm your intent before executing.")
           +:+ " This execution will be recorded in the audit log.");
     Badge (environment_upper e)].

(** [shown]: the fields whose eye has been pressed. *)
Definition input_area (t : McpTool) (shown : gset string) (u : ui) : list view :=
  let p := u_page u in
  match pg_mode p with
  | form =>
      match default [] (mt_properties t) with
      | [] => [Text "This tool takes no input parameters."]
      | props =>
          flat_map (fun kv =>
            PropertyInput (kv.1) (kv.2) (is_required t (kv.1)) (u_redact u)
              (negb (isSensitiveKey (kv.1)) || bool_decide (kv.1 ∈ shown)) (default "" (pg_fields p !! (kv.1)))) props
      end
  | json_mode =>
      Input "" (pg_json p) "{}" false
      :: match u_jsonError u with Some e => [Text ("JSON parse error: " +:+ e)] | None => [] end
  end.

Definition advanced_section (u : ui) : list view :=
  Button "Advanced Options" false "setShowAdvanced"
  :: when (u_advanced u)
       [Input "Timeout (ms)" (pretty (u_timeoutMs u)) "" false;
        Input "Idempotency Key" (pg_idempotency (u_page u)) "optional-key" false;
        Input "Extra Headers (one per line: Key: Value)" (pg_headers (u_page u)) "X-Custom-Header: value" false].

Definition execute_area (u : ui) : list view :=
  let has_result := match pg_result (u_page u) with Some _ => true | None => false end in
  Button (if u_running u then "Running…" else "Execute") (u_running u) "handleExecute"
  :: when has_result [Button "Compare" (u_running u) "doRun(true)"; Button "Replay" (u_running u) "doRun()"]
  ++ [Button "Save" false "handleSaveExample"; Button "Code" false "setShowCode";
      Button "Share" false "handleShareSession"; Text "⌘↵"].

Definition tool_header (t : McpTool) : list view :=
  [Code (mt_name t); Badge (risk_text (getRisk (mt_name t)))] ++ shown_text (mt_description t)
  ++ [Button "Form" false "setMode form"; Button "JSON" false "setMode json"].

Definition center_panel (shown : gset string) (u : ui) : list view :=
  match pg_tool (u_page u) with
  | Some t =>
      warning_banner t (u_environment u)
      ++ [Card "" "" (tool_header t ++ input_area t shown u ++ advanced_section u ++ execute_area u)]
  | None => [Text "No tool selected"; Text "Choose a server and tool from the left panel to get started."]
  end.

(** A run with what its response's headers and the clocks gave. *)
Record shown_run := mkShown { sr_run : RunResult; sr_durationMs : Z; sr_traceId : option string; sr_time : string }.

Definition response_card (r : shown_run) : view :=
  Card "Response" ""
    (Badge (if rr_ok (sr_run r) then "Success" else "Error") :: Text (pretty (sr_durationMs r) +:+ "ms")
     :: flat_map (fun kv => [Text (kv.1); Text (kv.2)])
          [("Outcome", rr_outcome (sr_run r)); ("Server", rr_server (sr_run r)); ("Tool", rr_tool (sr_run r));
           ("Trace ID", default "—" (sr_traceId r)); ("Timestamp", sr_time r)]).

Definition body_card (compareMode : bool) (r : shown_run) : view :=
  Card (if compareMode then "Latest Result" else "Result") ""
    [Button "Copy" false "copyToClipboard"; Code (JSON_stringify_indent 2 (rr_raw (sr_run r)))].

Definition comparison_card (r c : shown_run) : view :=
  Card "Comparison Run" ""
    [Text (pretty (sr_durationMs c) +:+ "ms"); Code (JSON_stringify_indent 2 (rr_raw (sr_run c)));
     Text (if bool_decide (JSON_stringify (rr_raw (sr_run r)) = JSON_stringify (rr_raw (sr_run c)))
           then "Responses are identical" else "Responses differ — check for non-determinism or state changes")].

Definition upstream_card (servers : list ServerView) (r : shown_run) : view :=
  Card "Upstream" ""
    (match List.find (fun s => bool_decide (ServerView_slug s = rr_server (sr_run r))) servers with
     | Some s => [Text (ServerView_upstream_url s); Badge (ServerTransport_value (ServerView_transport s));
                  Badge (ServerAuthMode_value (ServerView_auth_mode s))]
     | None => [Text "Server info unavailable"]
     end).

Definition audit_notice (subject : string) : string :=
  "This request was recorded in the audit log"
  +:+ (if bool_decide (subject = "") then "" else " as simulated identity " +:+ dquote +:+ subject +:+ dquote) +:+ ".".

Definition right_panel (servers : list ServerView) (result compareResult : option shown_run) (u : ui) : list view :=
  match result with
  | Some r =>
      [response_card r; body_card (u_compareMode u) r]
      ++ match compareResult with Some c => when (u_compareMode u) [comparison_card r c] | None => [] end
      ++ [upstream_card servers r; Text (audit_notice (pg_subject (u_page u)))]
  | None => if u_running u then [Text "Executing…"] else [Text "Response will appear here after execution."]
  end.

(** The dialogs: [typed] is the confirmation's field, [lang] the chosen language. *)
Definition dialogs (API_BASE typed : string) (lang : SnippetLang) (code_args : json) (u : ui) : list view :=
  match pg_tool (u_page u) with
  | Some t => when (pg_confirm (u_page u)) (ConfirmModal t typed)
              ++ when (u_showCode u) (CodeModal API_BASE (pg_slug (u_page u)) t code_args lang)
  | None => []
  end.

(** ** Lemmas *)

Notation parsed_args js_Number := (currentArgs JSON_parse js_Number).

(** The tools known of an example's server list its tool. *)
Definition listed (ex : SavedExample) (u : ui) : bool :=
  match (if bool_decide (ex_serverSlug ex = "") then None else map_get (ex_serverSlug ex) (u_tools u)) with
  | Some tools =>
      negb (bool_decide (ex_toolName ex = ""))
      && match List.find (fun t => bool_decide (mt_name t = ex_toolName ex)) tools with Some _ => true | None => false end
  | None => false
  end.

Definition same_target (ex : SavedExample) (u : ui) : bool :=
  bool_decide (pg_slug (u_page u) = ex_serverSlug ex) && bool_decide (u_toolName u = ex_toolName ex).

Lemma form_args_object js t p : exists kvs, form_args JSON_parse js t p = JObj kvs.
Proof. by eexists. Qed.

Lemma parse_indented n v : JSON_parse (JSON_stringify_indent n v) = Some v.
Proof. apply parse_of_reads, indented_reads; [apply ws_spaces|done]. Qed.

Lemma type_text_snoc show key s c u :
  type_text show key (s +:+ String c "") u = keystroke (u_redact u) show key (type_text show key s u) c.
Proof.
  revert u. induction s as [|d s IH]; intros u; [done|].
  change (String d s +:+ ?x) with (String d (s +:+ x)). cbn [type_text]. by rewrite IH.
Qed.

Lemma type_text_plain show key s u :
  u_redact u && isSensitiveKey key && negb show = false ->
  default "" (pg_fields (u_page (type_text show key s u)) !! key) = default "" (pg_fields (u_page u) !! key) +:+ s.
Proof.
  revert u. induction s as [|c s IH]; intros u H; cbn [type_text].
  - by rewrite sapp_nil_r.
  - rewrite IH by done. unfold keystroke, displayValue. rewrite H. cbn. rewrite lookup_insert_eq. cbn. by rewrite sapp_assoc.
Qed.

(** The text a shell reads between the first two apostrophes of a command. *)
Definition shell_word (code : string) : string := take_until "'" (default "" (drop_after "'" code)).

(** ** Properties *)

(** A sensitive field that is masked always displays eight bullets, and each
    keystroke hands its handler the bullets with the new character: whatever is
    typed into it, the argument becomes eight bullets and the last character.
    A field that is not masked takes what is typed. *)
Theorem masked_field_keeps_last_character show key s c u :
  pg_fields (u_page (type_text show key (s +:+ String c "") u)) !! key =
  Some (if u_redact u && isSensitiveKey key && negb show then bullets +:+ String c ""
        else default "" (pg_fields (u_page u) !! key) +:+ s +:+ String c "").
Proof.
  rewrite type_text_snoc. unfold keystroke. cbn [u_page set_page update setField with_input pg_fields].
  rewrite lookup_insert_eq. f_equal. unfold displayValue.
  destruct (u_redact u && isSensitiveKey key && negb show) eqn:E; [done|].
  by rewrite type_text_plain, sapp_assoc.
Qed.

Ltac step := cbn -[JSON_parse JSON_stringify_indent form_args]; rewrite ?parse_indented; done.

(** The arguments the page works with after an example is loaded.  In form mode
    they are those of the form of the tool loaded before; in JSON mode the
    example's own only when its tool was selected already or is not known, and
    an empty object otherwise. *)
Theorem example_args_after_loading js ex u :
  parsed_args js (handleLoadExample JSON_parse js ex u) =
  match pg_tool (u_page u), pg_mode (u_page u) with
  | None, _ => JObj []
  | Some t, form => form_args JSON_parse js t (u_page u)
  | Some t, json_mode =>
      if negb (same_target ex u) && listed ex u then JObj [] else default (JObj []) (nullish (Some (ex_args ex)))
  end.
Proof.
  unfold handleLoadExample, commit, same_tools, same_target, listed, load_effect, mode_effect, currentTools, currentArgs.
  destruct u as [[t slug mode fields text cf r c ik hd sb] name tools rd env sim sv er ad tm rn cm sc].
  cbn [u_page u_toolName u_tools set_page with_name update with_input with_selection pg_slug pg_mode pg_tool pg_fields pg_json].
  destruct (bool_decide (slug = ex_serverSlug ex) && bool_decide (name = ex_toolName ex)); cbn [negb andb].
  { destruct t as [t|], mode; step. }
  destruct (if bool_decide (ex_serverSlug ex = "") then None else map_get (ex_serverSlug ex) tools) as [l|].
  2: { destruct t as [t|], mode; step. }
  destruct (bool_decide (ex_toolName ex = "")); cbn [negb andb].
  { destruct t as [t|], mode; step. }
  destruct (List.find _ l) as [f|]; destruct t as [t|], mode; step.
Qed.

(** The message below the editor outlives the text it is about: loading an
    example leaves it, though the text it puts there parses. *)
Theorem stale_error_below_valid_text js ex u :
  let v := handleLoadExample JSON_parse js ex u in
  u_jsonError v = u_jsonError u /\ is_Some (JSON_parse (pg_json (u_page v))).
Proof.
  unfold handleLoadExample, commit, same_tools, load_effect, mode_effect, currentTools.
  destruct u as [[t slug mode fields text cf r c ik hd sb] name tools rd env sim sv er ad tm rn cm sc].
  cbn [u_page u_toolName u_tools set_page with_name update with_input with_selection pg_slug pg_mode pg_tool pg_fields pg_json].
  destruct (bool_decide (slug = _) && bool_decide (name = _)).
  2: destruct (if bool_decide (ex_serverSlug ex = "") then None else _) as [l|]; [destruct (bool_decide (ex_toolName ex = "")); [|destruct (List.find _ l)]|].
  all: destruct t as [t|], mode; cbn -[JSON_parse JSON_stringify_indent form_args]; rewrite ?parse_indented; split; try done; by eexists.
Qed.

(** Until the tools of an example's server are known to list its tool, the
    page offers the tool loaded before, now on the example's server. *)
Theorem example_keeps_old_tool js ex u t shown :
  pg_tool (u_page u) = Some t -> listed ex u = false ->
  let v := handleLoadExample JSON_parse js ex u in
  pg_slug (u_page v) = ex_serverSlug ex /\ pg_tool (u_page v) = Some t /\ shows (mt_name t) (center_panel shown v).
Proof.
  intros Ht Hl v.
  assert (pg_slug (u_page v) = ex_serverSlug ex /\ pg_tool (u_page v) = Some t) as [H1 H2].
  { revert Ht Hl. subst v. unfold handleLoadExample, commit, same_tools, listed, load_effect, mode_effect, currentTools.
    destruct u as [[t0 slug mode fields text cf r c ik hd sb] name tools rd env sim sv er ad tm rn cm sc].
    cbn [u_page u_toolName u_tools set_page with_name update with_input with_selection pg_slug pg_mode pg_tool pg_fields pg_json].
    intros -> Hl. destruct (bool_decide (slug = _) && bool_decide (name = _)); [by destruct mode|].
    destruct (if bool_decide (ex_serverSlug ex = "") then None else _) as [l|]; [|by destruct mode].
    destruct (bool_decide (ex_toolName ex = "")); [by destruct mode|].
    destruct (List.find _ l); [done|by destruct mode]. }
  repeat split; [done..|]. unfold center_panel. rewrite H2. apply shows_app. right.
  unfold shows. cbn. apply list_elem_of_further, list_elem_of_further, list_elem_of_here.
Qed.

(** The session link names the server and the tool and carries the arguments,
    and the page opened with it reads the first two only: once the server's
    tools are there it shows the tool's empty form. *)
Theorem shared_link_forgets_arguments js btoa origin u url tools t :
  share_url JSON_parse js btoa origin u = Some url ->
  without "?" origin = true ->
  pg_slug (u_page u) <> "" -> pg_tool (u_page u) = Some t -> mt_name t <> "" ->
  List.find (fun t' => bool_decide (mt_name t' = mt_name t)) tools = Some t ->
  exists code ps, btoa (JSON_stringify (parsed_args js u)) = Some code /\
    parse_query (drop_after "?" url) = Some ps /\
    param "args" ps = code /\
    let v := toolsArrive (pg_slug (u_page u)) tools (mount ps) in
    pg_slug (u_page v) = pg_slug (u_page u) /\ pg_tool (u_page v) = Some t /\
    parsed_args js v = JObj (omap (form_arg JSON_parse js t ∅) (default [] (mt_properties t))).
Proof.
  intros Hu Ho Hs Ht Hn Hf. unfold share_url, share_params in Hu. rewrite Ht in Hu. cbn [mbind option_bind] in Hu.
  destruct (btoa _) as [code|] eqn:E; [|done]. cbn in Hu. simplify_eq.
  eexists code, [("server", pg_slug (u_page u)); ("tool", mt_name t); ("args", code)]. split; [done|].
  split.
  - change ("/dashboard/playground?" +:+ ?x) with ("/dashboard/playground" +:+ String "?" x).
    rewrite <- sapp_assoc, drop_after_app by (by rewrite without_app, Ho).
    apply (parse_toString ("server", _) [_; _]).
  - split; [done|].
    set (ps := [_; _; _]).
    assert (param "server" ps = pg_slug (u_page u)) as Hp1 by done.
    assert (param "tool" ps = mt_name t) as Hp2 by done.
    unfold mount. rewrite Hp1, Hp2. unfold toolsArrive, load_effect, currentTools. cbn.
    rewrite !bool_decide_true by done. rewrite !(bool_decide_false (_ = "")) by done. by rewrite Hf.
Qed.

(** The body a shell sends for the cURL snippet is the request the page sends
    exactly when the request's text has no apostrophe; an argument with one ends
    the quoted word early. *)
Theorem curl_snippet_is_request API_BASE slug name args :
  without "'" API_BASE = true -> without "'" slug = true ->
  let body := JSON_stringify_indent 2 (call_body name args) in
  let word := shell_word (generateCurl API_BASE slug name args) in
  (word = body <-> without "'" body = true) /\
  (without "'" body = true -> JSON_parse word = Some (call_body name args)).
Proof.
  intros Ha Hs body word.
  assert (word = take_until "'" (body +:+ "'")) as Hw.
  { subst word. unfold shell_word, generateCurl. fold body.
    match goal with |- context [drop_after _ (?a +:+ ?b +:+ ?c +:+ ?d +:+ ?e +:+ "'" +:+ ?f)] =>
      replace (a +:+ b +:+ c +:+ d +:+ e +:+ "'" +:+ f) with ((a +:+ b +:+ c +:+ d +:+ e) +:+ String "'" f) by (by rewrite !sapp_assoc) end.
    rewrite drop_after_app; [done|]. by rewrite !without_app, Ha, Hs. }
  assert (without "'" body = true -> word = body) as H1.
  { intros H. rewrite Hw. by apply take_until_app. }
  split; [split; [|done]|].
  - intros H. rewrite <- H, Hw. apply take_until_without.
  - intros H. rewrite H1 by done. apply parse_indented.
Qed.

(** ** Witnesses *)

Definition demo_tool (name : string) : McpTool := mkTool name None (Some [("q", mkProp (Some "string") None None)]) None.

Definition demo_ui : ui :=
  set_page (with_input json_mode ∅ "{}" (with_selection "crm" (Some (demo_tool "find_user")) None (u_page (mount []))))
    (with_name "find_user" (mount [])).

Definition demo_example : SavedExample := mkExample "1" "drop_user" "drop_user" "hr" (JObj []) "2026-01-01".

Lemma example_keeps_old_tool_witness :
  pg_slug (u_page (handleLoadExample JSON_parse JStr demo_example demo_ui)) = "hr" /\
  shows "find_user" (center_panel ∅ (handleLoadExample JSON_parse JStr demo_example demo_ui)).
Proof.
  destruct (example_keeps_old_tool JStr demo_example demo_ui (demo_tool "find_user") ∅) as (H1 & _ & H2); [reflexivity..|].
  exact (conj H1 H2).
Defined.

Lemma shared_link_forgets_arguments_witness :
  exists ps code, code = "[arguments]" /\ param "args" ps = code /\
    parsed_args JStr (toolsArrive "crm" [demo_tool "find_user"] (mount ps)) = JObj [].
Proof.
  destruct (shared_link_forgets_arguments JStr (fun _ => Some "[arguments]") "https://pc" demo_ui
              ("https://pc/dashboard/playground?server=crm&tool=find_user&args=%5Barguments%5D") [demo_tool "find_user"] (demo_tool "find_user"))
    as (code & ps & Hc & _ & Ha & _ & _ & He); [reflexivity|reflexivity|discriminate|reflexivity|discriminate|reflexivity|].
  injection Hc as Hc. exists ps, code. split; [by symmetry|]. split; [exact Ha|]. exact He.
Defined.

Lemma curl_snippet_is_request_witness :
  JSON_parse (shell_word (generateCurl "https://pc" "crm" "find_user" (JObj [("q", JStr "ada")]))) =
  Some (call_body "find_user" (JObj [("q", JStr "ada")])).
Proof.
  exact (proj2 (curl_snippet_is_request "https://pc" "crm" "find_user" (JObj [("q", JStr "ada")]) eq_refl eq_refl) eq_refl).
Defined.

(** The snippet for a name with an apostrophe breaks. *)
Example curl_apostrophe :
  JSON_parse (shell_word (generateCurl "https://pc" "crm" "find_user" (JObj [("q", JStr "O'Hara")]))) = None.
Proof. vm_compute. reflexivity. Qed.

(** A secret typed with the default settings reaches the server as bullets. *)
Example masked_password : pg_fields (u_page (type_text false "password" "hunter2" demo_ui)) !! "password" = Some (bullets +:+ "2").
Proof. vm_compute. reflexivity. Qed.
