(* ===== verification/PlaygroundRuns.v ===== *)
(** * Sessions of the playground: web/src/app/dashboard/playground/page.tsx

    The page of [PlaygroundPage] as a machine: its selectors, editor, examples
    and links, its Execute, Compare and Replay buttons with the confirmation
    dialog and the keyboard shortcut, and the answers of the calls in flight,
    which arrive whenever they like. *)

From S2P Require Import Prelude JsString JsUri Json JsonParse Browser ApiTypes Tally Tools ToolPage PlaygroundPage.

Import Catalogue Playground.

(** What made the page call a tool; the dialog's text goes with its button. *)
Inductive trigger :=
  | ByExecute
  | ByConfirm (typed : string)
  | ByCompare
  | ByReplay.

#[export] Instance trigger_eq_dec : EqDecision trigger.
Proof. solve_decision. Defined.

(** [c_shown]: the tool of the result on display at that moment. *)
Record call := mkCall {
  c_by : trigger; c_slug : string; c_tool : string; c_args : json; c_shown : option string }.

(** [ss_typed]: the text in the dialog, a state of the dialog itself; [ss_flight]:
    the calls without an answer; [ss_log]: every call made, oldest first. *)
Record session := mkSession {
  ss_ui : ui; ss_typed : string; ss_flight : list call; ss_log : list call }.

Definition is_compare (t : trigger) : bool := match t with ByCompare => true | _ => false end.

Definition loaded (s : session) : option string := mt_name <$> pg_tool (u_page (ss_ui s)).

Definition dangerous (name : string) : bool :=
  bool_decide (getRisk name = critical) || bool_decide (getRisk name = high).

Definition set_run (p : page) (err : option string) (running compareMode : bool) (u : ui) : ui :=
  mkUi p (u_toolName u) (u_tools u) (u_redact u) (u_environment u) (u_policySim u) (u_saved u) err
    (u_advanced u) (u_timeoutMs u) running compareMode (u_showCode u).

Inductive event :=
  | SelectServer (slug : string)
  | SelectTool (name : string)
  | ToolsArrive (slug : string) (tools : list McpTool)
  | FollowLink (server tool : string)
  | SetMode (m : InputMode)
  | SetField (k v : string)
  | SetJsonText (s : string)
  | SaveExample (now : Z) (time : string)
  | LoadExample (ex : SavedExample)
  | SetOptions (idempotency headers subject : string)
  | Execute
  | Shortcut
  | TypeConfirm (s : string)
  | Confirm
  | Cancel
  | Compare
  | Replay
  | Answer (i : nat) (raw : option json).  (** [None]: the call failed *)

Section page.
Context (JSON_parse : string -> option json) (js_Number : string -> json) (parse_error : string -> string).

Definition with_ui (u : ui) (s : session) : session := mkSession u (ss_typed s) (ss_flight s) (ss_log s).

(** The effect of [[searchParams]] when the page is opened with other ones. *)
Definition followLink (server tool : string) (u : ui) : ui :=
  let p := u_page u in
  commit JSON_parse js_Number u
    (with_name (if bool_decide (tool = "") then u_toolName u else tool)
       (set_page (with_selection (if bool_decide (server = "") then pg_slug p else server)
                    (pg_tool p) (pg_result p) p) u)).

Definition setOptions (idempotency headers subject : string) (u : ui) : ui :=
  let p := u_page u in
  set_page (mkPage (pg_tool p) (pg_slug p) (pg_mode p) (pg_fields p) (pg_json p) (pg_confirm p)
              (pg_result p) (pg_compare p) idempotency headers subject) u.

(** In the editor's mode [doRun] first reports whether the text parses. *)
Definition run_error (u : ui) : option string :=
  let p := u_page u in
  match pg_tool p, pg_mode p with
  | Some _, json_mode =>
      if bool_decide (pg_slug p = "") then u_jsonError u
      else match JSON_parse (pg_json p) with Some _ => None | None => Some (parse_error (pg_json p)) end
  | _, _ => u_jsonError u
  end.

(** [doRun] up to its [await]. *)
Definition start (by_ : trigger) (s : session) : session :=
  let u := ss_ui s in
  match run_call JSON_parse js_Number (u_page u) with
  | None => with_ui (set_run (u_page u) (run_error u) (u_running u) (u_compareMode u) u) s
  | Some (slug, name, args) =>
      let c := mkCall by_ slug name args (rr_tool <$> pg_result (u_page u)) in
      mkSession (set_run (u_page u) (run_error u) true (u_compareMode u) u) (ss_typed s)
        (ss_flight s ++ [c]) (ss_log s ++ [c])
  end.

(** [doRun] after its [await]. *)
Definition finish (c : call) (raw : option json) (u : ui) : ui :=
  match raw with
  | None | Some JNull => set_run (u_page u) (u_jsonError u) false (u_compareMode u) u
  | Some raw =>
      set_run (run_settled (is_compare (c_by c)) (run_result (c_slug c) (c_tool c) (c_args c) raw) (u_page u))
        (u_jsonError u) false (is_compare (c_by c)) u
  end.

Definition show_confirm (b : bool) (u : ui) : ui :=
  set_page (with_run (u_page u) b (pg_result (u_page u)) (pg_compare (u_page u))) u.

(** The dialog is on screen, with its field. *)
Definition dialog_shown (u : ui) : bool :=
  pg_confirm (u_page u) && match pg_tool (u_page u) with Some _ => true | None => false end.

(** [handleExecute] *)
Definition handleExecute (s : session) : session :=
  match pg_tool (u_page (ss_ui s)) with
  | Some t => if isDestructive t then with_ui (show_confirm true (ss_ui s)) s else start ByExecute s
  | None => start ByExecute s
  end.

(** [handleConfirm] *)
Definition handleConfirm (s : session) : session :=
  start (ByConfirm (ss_typed s)) (with_ui (show_confirm false (ss_ui s)) s).

(** The buttons of the execute area are there with a tool; Compare and Replay
    with a result. *)
Definition has_tool (s : session) : bool := match loaded s with Some _ => true | None => false end.

Definition has_result (s : session) : bool :=
  match pg_result (u_page (ss_ui s)) with Some _ => true | None => false end.

Definition handle (e : event) (s : session) : session :=
  let u := ss_ui s in
  match e with
  | SelectServer slug => with_ui (selectServer JSON_parse js_Number slug u) s
  | SelectTool name => with_ui (selectTool JSON_parse js_Number name u) s
  | ToolsArrive slug tools => with_ui (toolsArrive slug tools u) s
  | FollowLink server tool => with_ui (followLink server tool u) s
  | SetMode m => with_ui (setMode JSON_parse js_Number m u) s
  | SetField k v => with_ui (setField k v u) s
  | SetJsonText t => with_ui (setJsonText JSON_parse parse_error t u) s
  | SaveExample now time => with_ui (handleSaveExample JSON_parse js_Number now time u) s
  | LoadExample ex => with_ui (handleLoadExample JSON_parse js_Number ex u) s
  | SetOptions i h sb => with_ui (setOptions i h sb u) s
  | Execute | Shortcut => if has_tool s && negb (u_running u) then handleExecute s else s
  | TypeConfirm t => if dialog_shown u then mkSession u t (ss_flight s) (ss_log s) else s
  | Confirm =>
      if dialog_shown u && bool_decide (Some (ss_typed s) = loaded s) then handleConfirm s else s
  | Cancel => if dialog_shown u then with_ui (show_confirm false u) s else s
  | Compare => if has_tool s && has_result s && negb (u_running u) then start ByCompare s else s
  | Replay => if has_tool s && has_result s && negb (u_running u) then start ByReplay s else s
  | Answer i raw =>
      match ss_flight s !! i with
      | Some c => mkSession (finish c raw u) (ss_typed s) (delete i (ss_flight s)) (ss_log s)
      | None => s
      end
  end.

(** The dialog's text does not outlive the dialog. *)
Definition step (e : event) (s : session) : session :=
  let s' := handle e s in
  if dialog_shown (ss_ui s) && dialog_shown (ss_ui s') then s'
  else mkSession (ss_ui s') "" (ss_flight s') (ss_log s').

Definition run (es : list event) (s : session) : session := fold_left (fun s e => step e s) es s.

(** The page as it opens with a query string. *)
Definition opened (ps : list (string * string)) : session := mkSession (mount ps) "" [] [].

(** No tool is loaded or dropped while a call is in flight. *)
Fixpoint loads_when_quiet (es : list event) (s : session) : Prop :=
  match es with
  | [] => True
  | e :: r => (ss_flight s = [] \/ loaded (step e s) = loaded s) /\ loads_when_quiet r (step e s)
  end.

(** ** Lemmas *)

(** What holds of every call of a log and the calls before it. *)
Definition each_call (P : list call -> call -> Prop) (log : list call) : Prop :=
  forall l1 c l2, log = l1 ++ c :: l2 -> P l1 c.

Lemma each_call_nil P : each_call P [].
Proof. by intros [] ? ?. Qed.

Lemma each_call_snoc P log c : each_call P log -> P log c -> each_call P (log ++ [c]).
Proof.
  intros Hl Hc l1 c1 l2 E. destruct l2 as [|c2 l2 _] using rev_ind.
  - by apply app_inj_tail in E as [<- <-].
  - rewrite app_comm_cons, app_assoc in E. apply app_inj_tail in E as [-> _]. by eapply Hl.
Qed.

(** The result goes, or it stays and so does the tool. *)
Definition calm (u v : ui) : Prop :=
  pg_result (u_page v) = None \/
  (pg_result (u_page v) = pg_result (u_page u) /\ pg_tool (u_page v) = pg_tool (u_page u)).

#[local] Instance calm_pre : PreOrder calm.
Proof.
  split; [by right|]. intros a b c [H1|[H1 H2]] [H3|[H3 H4]]; unfold calm; [by left|left|by left|right; split]; congruence.
Qed.

Lemma load_effect_calm u : calm u (load_effect u).
Proof. unfold load_effect. repeat case_match; first [by right|by left]. Qed.

Lemma mode_effect_calm p u : calm u (mode_effect JSON_parse js_Number p u).
Proof. unfold mode_effect. repeat case_match; by right. Qed.

Lemma commit_calm u v : calm v (commit JSON_parse js_Number u v).
Proof.
  unfold commit. set (w := if _ && _ then v else load_effect v).
  assert (calm v w) as Hw by (subst w; case_match; [done|apply load_effect_calm]).
  destruct (pg_mode (u_page u)), (pg_mode (u_page v)); try done; (etransitivity; [exact Hw|apply mode_effect_calm]).
Qed.

(** Everything but the buttons of a run and the answers. *)
Definition ui_only (e : event) : bool :=
  match e with Execute | Shortcut | Confirm | Compare | Replay | Answer _ _ => false | _ => true end.

Lemma handle_ui_only e s :
  ui_only e = true ->
  calm (ss_ui s) (ss_ui (handle e s)) /\ ss_flight (handle e s) = ss_flight s /\ ss_log (handle e s) = ss_log s.
Proof.
  intros He. destruct e; try done; cbn [handle].
  - split; [|done]. cbn. unfold selectServer. etransitivity; [|apply commit_calm]. by left.
  - split; [|done]. cbn. unfold selectTool. etransitivity; [|apply commit_calm]. by right.
  - split; [|done]. cbn. unfold toolsArrive. case_match; [etransitivity; [|apply load_effect_calm]|]; by right.
  - split; [|done]. cbn. unfold followLink. etransitivity; [|apply commit_calm]. by right.
  - split; [|done]. cbn. unfold setMode. etransitivity; [|apply commit_calm]. by right.
  - split; [|done]. by right.
  - split; [|done]. by right.
  - split; [|done]. cbn. unfold handleSaveExample. repeat case_match; by right.
  - split; [|done]. cbn. unfold handleLoadExample. etransitivity; [|apply commit_calm]. by right.
  - split; [|done]. by right.
  - case_match; (split; [|done]); by right.
  - case_match; (split; [|done]); by right.
Qed.

(** A run leaves tool and result alone; it makes one call, of the loaded tool, or
    none. *)
Lemma start_cases b s :
  pg_result (u_page (ss_ui (start b s))) = pg_result (u_page (ss_ui s)) /\
  pg_tool (u_page (ss_ui (start b s))) = pg_tool (u_page (ss_ui s)) /\
  ((ss_flight (start b s) = ss_flight s /\ ss_log (start b s) = ss_log s) \/
   exists c, ss_flight (start b s) = ss_flight s ++ [c] /\ ss_log (start b s) = ss_log s ++ [c] /\
     c_by c = b /\ loaded s = Some (c_tool c) /\ c_shown c = rr_tool <$> pg_result (u_page (ss_ui s))).
Proof.
  unfold start. destruct (run_call _ _ _) as [[[slug name] args]|] eqn:E; (split; [done|split; [done|]]).
  - right. eexists. split; [done|]. split; [done|]. cbn. split; [done|]. split; [|done].
    unfold run_call in E. unfold loaded. destruct (pg_tool (u_page (ss_ui s))) as [t|]; [|done].
    cbn in *. case_bool_decide; [done|]. destruct (buildArgs _ _ _ _ _ _) as [[]|]; cbn in E; by simplify_eq.
  - by left.
Qed.

(** Why a call of a destructive tool was made. *)
Definition cause (l : list call) (c : call) : Prop :=
  dangerous (c_tool c) = true ->
  c_by c = ByConfirm (c_tool c) \/
  ((c_by c = ByCompare \/ c_by c = ByReplay) /\ exists c0, c0 ∈ l /\ c_shown c = Some (c_tool c0)).

Record traced (s : session) : Prop := {
  tr_flight : forall c, c ∈ ss_flight s -> c ∈ ss_log s;
  tr_result : forall r, pg_result (u_page (ss_ui s)) = Some r -> exists c, c ∈ ss_log s /\ c_tool c = rr_tool r;
  tr_log : each_call cause (ss_log s) }.

Lemma traced_calm s s' :
  calm (ss_ui s) (ss_ui s') -> ss_flight s' = ss_flight s -> ss_log s' = ss_log s -> traced s -> traced s'.
Proof.
  intros Hc Hf Hl [H1 H2 H3]. constructor; rewrite ?Hf, ?Hl; [done| |done].
  intros r Hr. destruct Hc as [E|[E _]]; rewrite E in Hr; [done|by apply H2].
Qed.

Lemma traced_start b s :
  (forall name, loaded s = Some name -> dangerous name = true ->
     b = ByConfirm name \/ ((b = ByCompare \/ b = ByReplay) /\ has_result s = true)) ->
  traced s -> traced (start b s).
Proof.
  intros Hb Ht. pose proof Ht as [H1 H2 H3].
  destruct (start_cases b s) as (Hr & Ho & [[Hf Hl]|(c & Hf & Hl & Hby & Hn & Hs)]).
  { eapply traced_calm; [by right|done..]. }
  constructor; rewrite ?Hf, ?Hl, ?Hr.
  - intros c' [Hc| ->%list_elem_of_singleton]%elem_of_app; set_solver.
  - intros r (c' & ? & ?)%H2. exists c'. set_solver.
  - apply each_call_snoc; [done|]. intros Hd. destruct (Hb _ Hn Hd) as [->|[? Hh]]; [by left; congruence|].
    right. split; [by rewrite Hby|]. unfold has_result in Hh.
    destruct (pg_result (u_page (ss_ui s))) as [r|]; [|done]. destruct (H2 r eq_refl) as (c' & ? & E).
    exists c'. split; [done|]. by rewrite Hs, E.
Qed.

Lemma traced_finish s i c raw :
  ss_flight s !! i = Some c -> traced s ->
  traced (mkSession (finish c raw (ss_ui s)) (ss_typed s) (delete i (ss_flight s)) (ss_log s)).
Proof.
  intros Hi [H1 H2 H3]. pose proof (list_elem_of_lookup_2 _ _ _ Hi) as Hin. constructor; cbn; [| |done].
  - intros c' Hc'%list_elem_of_delete_inv. by apply H1.
  - intros r Hr. assert (pg_result (u_page (ss_ui s)) = Some r \/ rr_tool r = c_tool c) as [?|E]; [|by apply H2|].
    + unfold finish in Hr. destruct raw as [[]|]; cbn in Hr; auto;
        destruct (is_compare (c_by c)); cbn in Hr; auto; simplify_eq; by right.
    + exists c. split; [by apply H1|done].
Qed.

(** What an event can do: nothing to calls and answers; a run of the loaded tool
    from the same tool and result; or an answer. *)
Definition same_page (s s0 : session) : Prop :=
  pg_tool (u_page (ss_ui s0)) = pg_tool (u_page (ss_ui s)) /\
  pg_result (u_page (ss_ui s0)) = pg_result (u_page (ss_ui s)) /\
  ss_flight s0 = ss_flight s /\ ss_log s0 = ss_log s.

Definition may_run (b : trigger) (s : session) : Prop :=
  forall name, loaded s = Some name -> dangerous name = true ->
    b = ByConfirm name \/ ((b = ByCompare \/ b = ByReplay) /\ has_result s = true).

Lemma handle_cases e s :
  (calm (ss_ui s) (ss_ui (handle e s)) /\ ss_flight (handle e s) = ss_flight s /\ ss_log (handle e s) = ss_log s) \/
  (exists b s0, handle e s = start b s0 /\ same_page s s0 /\ may_run b s0) \/
  (exists i c raw, ss_flight s !! i = Some c /\
     handle e s = mkSession (finish c raw (ss_ui s)) (ss_typed s) (delete i (ss_flight s)) (ss_log s)).
Proof.
  destruct (ui_only e) eqn:He; [left; by apply handle_ui_only|].
  assert (forall s', s' = s -> calm (ss_ui s) (ss_ui s') /\ ss_flight s' = ss_flight s /\ ss_log s' = ss_log s) as Hid
    by (intros s' ->; done).
  assert (forall b, may_run b s -> exists b' s0, start b s = start b' s0 /\ same_page s s0 /\ may_run b' s0) as Hst
    by (intros b Hb; by exists b, s).
  destruct e as [| | | | | | | | | | | | | | | | |i raw]; try done; cbn [handle].
  1,2: case_match; [|left; by apply Hid]; unfold handleExecute;
    destruct (pg_tool _) as [t|] eqn:E;
    [change (isDestructive t) with (dangerous (mt_name t)); destruct (dangerous (mt_name t)) eqn:Ed;
      [left; split; [by right|done]|]|]; right; left; apply Hst; unfold may_run, loaded; rewrite E; cbn; congruence.
  - case_match; [|left; by apply Hid]. bool_hyps. right. left. unfold handleConfirm. do 2 eexists. split; [done|].
    split; [done|]. intros n Hn _. left. f_equal. change (loaded (with_ui _ s)) with (loaded s) in Hn. congruence.
  - case_match; [|left; by apply Hid]. bool_hyps. right. left. apply Hst. intros n _ _. right. auto.
  - case_match; [|left; by apply Hid]. bool_hyps. right. left. apply Hst. intros n _ _. right. auto.
  - destruct (ss_flight s !! i) as [c|] eqn:E; [|left; by apply Hid]. right. right. by exists i, c, raw.
Qed.

Lemma traced_target s s0 : same_page s s0 -> traced s -> traced s0.
Proof. intros (? & ? & ? & ?). apply traced_calm; [by right|done..]. Qed.

Lemma traced_handle e s : traced s -> traced (handle e s).
Proof.
  intros Ht. destruct (handle_cases e s) as [(? & ? & ?)|[(b & s0 & -> & Hs & Hb)|(i & c & raw & Hi & ->)]].
  - by eapply traced_calm.
  - apply traced_start; [done|]. by eapply traced_target.
  - by apply traced_finish.
Qed.

(** While tools are only loaded when nothing is in flight, calls and result
    belong to the loaded tool. *)
Definition vetted (l : list call) (c : call) : Prop :=
  dangerous (c_tool c) = true ->
  exists c0, c0 ∈ l ++ [c] /\ c_tool c0 = c_tool c /\ c_by c0 = ByConfirm (c_tool c).

Record settled (s : session) : Prop := {
  st_flight : forall c, c ∈ ss_flight s -> loaded s = Some (c_tool c);
  st_result : forall r, pg_result (u_page (ss_ui s)) = Some r -> loaded s = Some (rr_tool r);
  st_log : each_call vetted (ss_log s) }.

Lemma settled_start b s : may_run b s -> traced s -> settled s -> settled (start b s).
Proof.
  intros Hb [_ Hres _] [H1 H2 H3].
  destruct (start_cases b s) as (Hr & Ho & Hc).
  assert (loaded (start b s) = loaded s) as Hlo by (unfold loaded; by rewrite Ho).
  destruct Hc as [[Hf Hl]|(c & Hf & Hl & Hby & Hn & Hs)]; constructor; rewrite ?Hf, ?Hl, ?Hr, ?Hlo; try done.
  - intros c' [?| ->%list_elem_of_singleton]%elem_of_app; [by apply H1|done].
  - apply each_call_snoc; [done|]. intros Hd. destruct (Hb _ Hn Hd) as [->|[_ Hh]]; [exists c; set_solver|].
    unfold has_result in Hh. destruct (pg_result _) as [r|]; [|done].
    destruct (Hres r eq_refl) as (c1 & (l1 & l2 & E)%list_elem_of_split & E1).
    assert (c_tool c1 = c_tool c) as E2 by (specialize (H2 r eq_refl); congruence).
    destruct (H3 l1 c1 l2 E) as (c0 & Hin & ? & ?); [by rewrite E2|]. exists c0. rewrite E, <- E2. set_solver.
Qed.

Lemma settled_finish s i c raw :
  ss_flight s !! i = Some c -> settled s ->
  settled (mkSession (finish c raw (ss_ui s)) (ss_typed s) (delete i (ss_flight s)) (ss_log s)).
Proof.
  intros Hi [H1 H2 H3]. pose proof (list_elem_of_lookup_2 _ _ _ Hi) as Hin.
  assert (forall t f l, loaded (mkSession (finish c raw (ss_ui s)) t f l) = loaded s) as Hlo.
  { intros. unfold loaded, finish. cbn. destruct raw as [[]|]; try done; by destruct (is_compare _). }
  constructor; rewrite ?Hlo; cbn [ss_flight ss_log ss_ui]; [| |done].
  - intros c' ?%list_elem_of_delete_inv. by apply H1.
  - intros r Hr. assert (pg_result (u_page (ss_ui s)) = Some r \/ rr_tool r = c_tool c) as [?|E]; [|by apply H2|].
    + unfold finish in Hr. destruct raw as [[]|]; cbn in Hr; auto;
        destruct (is_compare (c_by c)); cbn in Hr; auto; simplify_eq; by right.
    + rewrite E. by apply H1.
Qed.

Lemma settled_step e s :
  ss_flight s = [] \/ loaded (step e s) = loaded s -> traced s -> settled s -> settled (step e s).
Proof.
  intros Hq Ht Hs. enough (settled (handle e s)) as [H1 H2 H3].
  { unfold step. case_match; constructor; done. }
  assert (loaded (step e s) = loaded (handle e s)) as Hlo by (unfold step; by case_match).
  rewrite Hlo in Hq.
  destruct (handle_cases e s) as [(Hc & Hf & Hl)|[(b & s0 & -> & (E1 & E2 & E3 & E4) & Hb)|(i & c & raw & Hi & ->)]].
  - destruct Hs as [H1 H2 H3]. constructor; rewrite ?Hf, ?Hl; [| |done].
    + intros c Hin. destruct Hq as [E| ->]; [rewrite E in Hin; by apply not_elem_of_nil in Hin|by apply H1].
    + intros r Hr. destruct Hc as [E|[E Et]]; rewrite E in Hr; [done|]. unfold loaded. rewrite Et. by apply H2.
  - apply settled_start; [done|by eapply traced_target|]. destruct Hs as [H1 H2 H3].
    constructor; unfold loaded; rewrite ?E1, ?E2, ?E3, ?E4; done.
  - by apply settled_finish.
Qed.

Lemma step_handle e s :
  ss_ui (step e s) = ss_ui (handle e s) /\ ss_flight (step e s) = ss_flight (handle e s) /\
  ss_log (step e s) = ss_log (handle e s).
Proof. unfold step. by case_match. Qed.

Lemma traced_run es s : traced s -> traced (run es s).
Proof.
  revert s. induction es as [|e es IH]; intros s Hs; [done|]. apply IH.
  destruct (step_handle e s) as (Hu & Hf & Hl).
  apply (traced_calm (handle e s)); [rewrite Hu; by right|done|done|by apply traced_handle].
Qed.

Lemma traced_opened ps : traced (opened ps).
Proof. constructor; [by intros ? ?%not_elem_of_nil|done|apply each_call_nil]. Qed.

Lemma settled_run es s : loads_when_quiet es s -> traced s -> settled s -> settled (run es s).
Proof.
  revert s. induction es as [|e es IH]; intros s Hq Ht Hs; [done|]. destruct Hq as [Hq1 Hq2].
  apply IH; [done|apply (traced_run [e] s Ht)|by apply settled_step].
Qed.

Lemma settled_opened ps : settled (opened ps).
Proof. constructor; [by intros ? ?%not_elem_of_nil|done|apply each_call_nil]. Qed.

(** ** Properties *)

(** [C33] What calls a destructive tool.  Whatever is selected, loaded, edited and
    pressed in a session, in whatever order the answers arrive: a call of a tool
    whose name says it is destructive was made by the dialog's button after the
    tool's name was typed, or by Compare or Replay next to the result of an
    earlier call; never by Execute or the keyboard shortcut.  As long as no tool is
    loaded or dropped while a call is in flight, such a Compare or Replay only
    repeats a tool of that name that the dialog confirmed before in the session
    (with the arguments, and on the server, now chosen). *)
Theorem destructive_needs_confirmation es ps :
  let log := ss_log (run es (opened ps)) in
  (forall l1 c l2, log = l1 ++ c :: l2 -> dangerous (c_tool c) = true ->
     c_by c = ByConfirm (c_tool c) \/
     ((c_by c = ByCompare \/ c_by c = ByReplay) /\ exists c0, c0 ∈ l1 /\ c_shown c = Some (c_tool c0))) /\
  (loads_when_quiet es (opened ps) ->
   forall l1 c l2, log = l1 ++ c :: l2 -> dangerous (c_tool c) = true ->
     exists c0, c0 ∈ l1 ++ [c] /\ c_tool c0 = c_tool c /\ c_by c0 = ByConfirm (c_tool c)).
Proof.
  split; [exact (tr_log _ (traced_run es _ (traced_opened ps)))|].
  intros Hq. exact (st_log _ (settled_run es _ Hq (traced_opened ps) (settled_opened ps))).
Qed.

(** Replay is not a replay: next to a result, Replay and Compare call the tool with
    the form's current arguments, edited since the confirmed run or not, without
    opening the dialog. *)
Theorem replay_sends_edited_arguments b t r k v s args :
  b = Replay \/ b = Compare ->
  pg_tool (u_page (ss_ui s)) = Some t -> pg_result (u_page (ss_ui s)) = Some r ->
  u_running (ss_ui s) = false -> pg_slug (u_page (ss_ui s)) <> "" ->
  buildArgs JSON_parse js_Number t (<[k := v]> (pg_fields (u_page (ss_ui s))))
    (pg_json (u_page (ss_ui s))) (pg_mode (u_page (ss_ui s))) = Some args -> args <> JNull ->
  exists c, ss_log (run [SetField k v; b] s) = ss_log s ++ [c] /\ c_tool c = mt_name t /\ c_args c = args.
Proof.
  intros Hb Ht Hr Hn Hs Ha Hj. cbn [run fold_left].
  destruct (step_handle b (step (SetField k v) s)) as (_ & _ & ->).
  destruct (step_handle (SetField k v) s) as (Hu & Hf & Hl). cbn [handle] in Hu, Hf, Hl.
  set (s1 := step (SetField k v) s) in *.
  assert (run_call JSON_parse js_Number (u_page (ss_ui s1)) = Some (pg_slug (u_page (ss_ui s)), mt_name t, args)) as Hc.
  { rewrite Hu. unfold run_call. cbn [with_ui ss_ui setField set_page update u_page with_input pg_tool pg_slug pg_fields pg_json pg_mode].
    rewrite Ht. cbn [mbind option_bind]. rewrite bool_decide_false, Ha by done. by destruct args. }
  assert (forall b', exists c, ss_log (start b' s1) = ss_log s ++ [c] /\ c_tool c = mt_name t /\ c_args c = args) as Hst.
  { intros b'. unfold start. rewrite Hc. eexists. split; [cbn; by rewrite Hl|done]. }
  assert (has_tool s1 && has_result s1 && negb (u_running (ss_ui s1)) = true) as Hg.
  { unfold has_tool, loaded, has_result. rewrite Hu. cbn. by rewrite Ht, Hr, Hn. }
  destruct Hb as [-> | ->]; cbn [handle]; rewrite Hg; apply Hst.
Qed.
End page.

(** ** Witnesses *)

Definition reader : McpTool := mkTool "find_user" None None None.
Definition deleter : McpTool := mkTool "delete_user" None None None.

Notation play := (run JSON_parse JStr (fun _ => "SyntaxError")).

(** A call is started, another tool is selected, and the first call's answer comes
    then: its result shows Replay, which calls the destructive tool although the
    dialog was never opened. *)
Definition overtaking : list event :=
  [SelectServer "crm"; ToolsArrive "crm" [reader; deleter]; SelectTool "find_user"; Execute;
   SelectTool "delete_user"; Answer 0 (Some (JObj [("result", JStr "ada")])); Replay].

Theorem late_answer_bypasses_confirmation :
  map (fun c => (c_tool c, c_by c)) (ss_log (play overtaking (opened []))) =
    [("find_user", ByExecute); ("delete_user", ByReplay)] /\
  ~ loads_when_quiet JSON_parse JStr (fun _ => "SyntaxError") overtaking (opened []).
Proof. split; [by vm_compute|]. vm_compute. intuition discriminate. Qed.

(** Selected, confirmed by name, answered and replayed. *)
Definition confirmed_run : list event :=
  [SelectServer "crm"; ToolsArrive "crm" [reader; deleter]; SelectTool "delete_user"; Execute;
   TypeConfirm "delete_user"; Confirm; Answer 0 (Some (JObj [("result", JStr "ok")])); Replay].

Lemma confirmed_quiet : loads_when_quiet JSON_parse JStr (fun _ => "SyntaxError") confirmed_run (opened []).
Proof. vm_compute. intuition. Qed.

Lemma confirmed_log :
  ss_log (play confirmed_run (opened [])) =
  [mkCall (ByConfirm "delete_user") "crm" "delete_user" (JObj []) None] ++
  mkCall ByReplay "crm" "delete_user" (JObj []) (Some "delete_user") :: [].
Proof. vm_compute. reflexivity. Qed.

Lemma destructive_needs_confirmation_witness :
  let log := ss_log (play confirmed_run (opened [])) in
  map c_by log = [ByConfirm "delete_user"; ByReplay] /\
  exists c0, c0 ∈ log /\ c_by c0 = ByConfirm "delete_user".
Proof.
  cbv zeta. split; [by rewrite confirmed_log|].
  destruct (proj2 (destructive_needs_confirmation JSON_parse JStr (fun _ => "SyntaxError") confirmed_run [])
    confirmed_quiet _ _ _ confirmed_log eq_refl) as (c0 & Hin & _ & Hb).
  exists c0. rewrite confirmed_log. split; [exact Hin|exact Hb].
Defined.

(** The state after a confirmed run was answered. *)
Definition answered : session := play (take 7 confirmed_run) (opened []).

Lemma replay_sends_edited_arguments_witness :
  exists c, ss_log (play [SetField "q" "x"; Replay] answered) = ss_log answered ++ [c] /\ c_tool c = "delete_user".
Proof.
  destruct (replay_sends_edited_arguments JSON_parse JStr (fun _ => "SyntaxError") Replay deleter
    (run_result "crm" "delete_user" (JObj []) (JObj [("result", JStr "ok")])) "q" "x" answered (JObj []))
    as (c & Hc & Ht & _); [by left|vm_compute; reflexivity|vm_compute; reflexivity|vm_compute; reflexivity|vm_compute; discriminate
      |vm_compute; reflexivity|discriminate|].
  exists c. split; [exact Hc|exact Ht].
Defined.
