(* ===== verification/PolicyView.v ===== *)
(** * The policy page: web/src/app/dashboard/policies/[id]/page.tsx

    The state behind the six tabs as it changes with clicks, typing and
    refetches, and what the page shows.  The texts, the rule form's updates and
    the simulator are [PolicyPages.PolicyDetail]. *)

From Stdlib Require Import ZifyBool.
From S2P Require Import Prelude JsString Json Browser JsInt ApiTypes RelTime Tally PolicyPages View.

Import PolicyDetail.

Section page.
(** [Date.now], the time zone, [toLocaleString] and [RegExp]. *)
Context (now tz : Z) (localeString : string -> string) (regexp : string -> string -> option bool).

(** ** State *)

(** What the mounted tab keeps; leaving a tab discards it. *)
Inductive tab_state :=
  | OverviewS
  | RulesS (f : rules_form)
  | CoverageS
  | TestS (f : test_form) (r : option test_result)
  | ActivityS (filter : option AuditEventType)
  | VersionsS.

Record state := mkState { st_policy : RateLimitPolicyView; st_tab : tab_state; st_editing : bool; st_confirm : bool }.

Definition tab_of (t : tab_state) : TabId :=
  match t with
  | OverviewS => overview | RulesS _ => rules | CoverageS => coverage
  | TestS _ _ => test | ActivityS _ => activity | VersionsS => versions
  end.

Definition mount (t : TabId) (p : RateLimitPolicyView) : tab_state :=
  match t with
  | overview => OverviewS | rules => RulesS (rules_init p) | coverage => CoverageS
  | test => TestS (test_init p) None | activity => ActivityS None | versions => VersionsS
  end.

Definition initial (p : RateLimitPolicyView) : state := mkState p OverviewS false false.

Inductive event :=
  | SetTab (t : TabId)
  | SetEditing (b : bool)
  | TypeRules (f : rules_form)
  | TypeTest (f : test_form)
  | Simulate
  | SetFilter (filter : option AuditEventType)
  | SetConfirm (b : bool)
  | Refetched (p : RateLimitPolicyView)
  | Updated.  (** the update's success *)

#[global] Instance TabId_eq : EqDecision TabId.
Proof. solve_decision. Defined.

Definition with_tab (t : tab_state) (s : state) : state := mkState (st_policy s) t (st_editing s) (st_confirm s).

(** Handlers of another tab's controls cannot fire. *)
Definition step (s : state) (e : event) : state :=
  match e, st_tab s with
  | SetTab t, cur => if bool_decide (tab_of cur = t) then s else with_tab (mount t (st_policy s)) s
  | SetEditing b, RulesS _ => mkState (st_policy s) (st_tab s) b (st_confirm s)
  | TypeRules f, RulesS _ => if st_editing s then with_tab (RulesS f) s else s
  | TypeTest f, TestS _ r => with_tab (TestS f r) s
  | Simulate, TestS f _ => with_tab (TestS f (Some (simulate regexp (st_policy s) f))) s
  | SetFilter f, ActivityS _ => with_tab (ActivityS f) s
  | SetConfirm b, _ => mkState (st_policy s) (st_tab s) (st_editing s) b
  | Refetched p, _ => mkState p (st_tab s) (st_editing s) (st_confirm s)
  | Updated, _ => mkState (st_policy s) (st_tab s) false (st_confirm s)
  | _, _ => s
  end.

Definition run (es : list event) (s : state) : state := fold_left step es s.

(** What Save Changes sends, while it is there. *)
Definition save_request (s : state) : option json :=
  match st_tab s with
  | RulesS f => if st_editing s then Some (updates (st_policy s) f) else None
  | _ => None
  end.

(** ** Views *)

Definition StatCard (label value sub : string) : list view :=
  Stat label value :: when (negb (bool_decide (sub = ""))) [Text sub].

Definition algorithm_label (p : RateLimitPolicyView) : string :=
  if bool_decide (RateLimitPolicyView_algorithm p = RateLimitAlgorithm_sliding_window) then "Sliding Window" else "Token Bucket".

Definition limit_text (p : RateLimitPolicyView) : string :=
  pretty (RateLimitPolicyView_request_limit p) +:+ " / " +:+ pretty (RateLimitPolicyView_window_seconds p) +:+ "s".

Definition Section_ (title : string) (body : list view) : view := Card title "" body.

Definition OverviewTab (p : RateLimitPolicyView) (logs : list AuditLogView) : list view :=
  [Text "Plain-language explanation"; Text (humanExplain p)]
  ++ StatCard "Total Calls" (pretty (Z.of_nat (length (toolCalls logs)))) "matching server"
  ++ StatCard "Denied" (pretty (Z.of_nat (length (denied logs)))) ""
  ++ StatCard "Limit" (limit_text p) ""
  ++ StatCard "Priority" (pretty (RateLimitPolicyView_priority p)) "lower = higher precedence"
  ++ [Section_ "Policy Details" (map (fun kv => Stat (kv.1) (kv.2)) (metadata localeString p))]
  ++ match recentConsumers logs with
     | [] => []
     | l => [Section_ "Top Consumers (recent activity)"
               (map (fun kv => Stat (shortened 12 (kv.1)) (pretty (kv.2) +:+ " calls")) l)]
     end.

Definition rate_limit_card (p : RateLimitPolicyView) (editing : bool) (f : rules_form) : view :=
  Card "Rate Limit" ""
    (if editing then
       [Input "Request Limit" (rf_limit f) "" false; Input "Window (seconds)" (rf_window f) "" false;
        Input "Burst Capacity (optional)" (rf_burst f) "No burst" false]
     else
       [Stat "Limit" (pretty (RateLimitPolicyView_request_limit p));
        Stat "Window" (pretty (RateLimitPolicyView_window_seconds p) +:+ "s");
        Stat "Burst" (from_option pretty "None" (RateLimitPolicyView_burst_capacity p));
        Text "0"; Text (pretty (RateLimitPolicyView_request_limit p) +:+ " req / "
                        +:+ pretty (RateLimitPolicyView_window_seconds p) +:+ "s")]).

Definition enforcement_card (p : RateLimitPolicyView) (editing : bool) (f : rules_form) : view :=
  Card "Enforcement" ""
    (if editing then [Input "Priority" (rf_priority f) "" false; Text "Lower number = evaluated first"]
     else [Text "Algorithm"; Badge (algorithm_label p); Stat "Priority" (pretty (RateLimitPolicyView_priority p));
           Text (if bool_decide (RateLimitPolicyView_algorithm p = RateLimitAlgorithm_sliding_window)
                 then "Sliding window enforces a precise count over a rolling time period. More accurate but slightly higher memory usage."
                 else "Token bucket allows short bursts above the limit before throttling. Good for bursty workloads.")]).

Definition scope_item (label : string) (o : option string) (some_text none_text : string) : list view :=
  [Stat label (default "*" o); Text (match text_of o with Some _ => some_text | None => none_text end)].

Definition scope_section (p : RateLimitPolicyView) : view :=
  Section_ "Scope"
    (scope_item "Subject" (RateLimitPolicyView_subject_id p) "Specific subject" "All subjects"
     ++ scope_item "Server" (RateLimitPolicyView_server_pattern p) "Pattern match" "All servers"
     ++ scope_item "Tool" (RateLimitPolicyView_tool_pattern p) "Pattern match" "All tools").

Definition RulesTab (p : RateLimitPolicyView) (editing : bool) (f : rules_form) : list view :=
  Text "Configure the rate limit parameters enforced by this policy."
  :: (if editing then [Button "Cancel" false "setEditing(false)"; Button "Save Changes" false "handleSave"]
      else [Button "Edit Rules" false "setEditing(true)"])
  ++ [rate_limit_card p editing f; enforcement_card p editing f; scope_section p].

(** *** Coverage *)
Definition matched (p : RateLimitPolicyView) (servers : list ServerView) : list ServerView :=
  List.filter (fun s => pattern_applies regexp (RateLimitPolicyView_server_pattern p) (ServerView_slug s)) servers.

(** [!matchedServers.find((m) => m.slug === s.slug)] *)
Definition unmatched (p : RateLimitPolicyView) (servers : list ServerView) : list ServerView :=
  List.filter (fun s => negb (bool_decide (ServerView_slug s ∈ ServerView_slug <$> matched p servers))) servers.

Definition coverage_note (p : RateLimitPolicyView) : string :=
  "Coverage shows which registered servers match this policy's server pattern "
  +:+ default "*" (RateLimitPolicyView_server_pattern p)
  +:+ match text_of (RateLimitPolicyView_tool_pattern p) with
      | Some t => " and will apply rate limits to tools matching " +:+ t | None => "" end +:+ ".".

Definition matched_row (p : RateLimitPolicyView) (s : ServerView) : list view :=
  [Text (ServerView_name s); Text (ServerView_slug s);
   Badge (match text_of (RateLimitPolicyView_tool_pattern p) with Some t => "tools: " +:+ t | None => "all tools" end);
   Link "View →" ("/dashboard/servers/" +:+ ServerView_slug s)].

Definition unmatched_row (s : ServerView) : list view :=
  [Text (ServerView_name s); Text (ServerView_slug s); Text "not matched"].

Definition count_text (n : nat) : string := pretty (Z.of_nat n).

Definition CoverageTab (p : RateLimitPolicyView) (servers : list ServerView) : list view :=
  let m := matched p servers in
  [Text (coverage_note p);
   Section_ ("Matched Servers (" +:+ count_text (length m) +:+ " of " +:+ count_text (length servers) +:+ ")")
     (match m with [] => [Text "No registered servers match this pattern yet."] | _ => flat_map (matched_row p) m end)]
  ++ when (negb (bool_decide (length m = length servers)))
       [Section_ ("Non-matching Servers (" +:+ pretty (Z.of_nat (length servers) - Z.of_nat (length m))%Z +:+ ")")
          (flat_map unmatched_row (unmatched p servers))].

(** *** Test *)
Definition test_fields (f : test_form) : list view :=
  [Input "Subject ID (leave blank for wildcard)" (tf_subjectId f) "api_key_abc123..." false;
   Input "Server Slug" (tf_serverSlug f) "my-server" false; Input "Tool Name" (tf_toolName f) "read_file" false].

Definition result_box (r : test_result) : list view :=
  [Text (headline r); Text (rs_reason r)]
  ++ match rs_remaining r with Some n => [Text "Initial remaining budget: "; Text (pretty n)] | None => [] end.

Definition TestTab (f : test_form) (r : option test_result) : list view :=
  [Text "Simulate whether this policy would apply to a given subject, server, and tool combination. This is a local simulation — it checks pattern matching but does not reflect live counter state."]
  ++ test_fields f ++ [Button "Run Simulation" false "simulate"]
  ++ match r with Some r => result_box r | None => [] end.

(** *** Activity *)
Definition activity_filters : list (option AuditEventType * string) :=
  [(None, "All"); (Some AuditEventType_tool_call, "tool call"); (Some AuditEventType_rbac_deny, "rbac deny");
   (Some AuditEventType_auth_failure, "auth failure")].

Definition activity_row (l : AuditLogView) : list view :=
  [Text (policy_relativeTime tz now (AuditLogView_created_at l)); Badge (AuditEventType_value (AuditLogView_event_type l));
   Text (match text_of (AuditLogView_subject_id l) with Some s => shortened 10 s | None => "—" end);
   Text (default "—" (AuditLogView_server_slug l)); Text (default "—" (AuditLogView_tool_name l));
   Text (AuditLogView_outcome l)].

Definition activity_table (filtered : list AuditLogView) : list view :=
  match filtered with
  | [] => [Text "No audit events found for this policy's server scope."]
  | _ => Table ["Time"; "Event"; "Subject"; "Server"; "Tool"; "Outcome"] (map activity_row (take 50 filtered))
         :: when (50 <? length filtered)%nat
              [Text ("Showing 50 of " +:+ count_text (length filtered) +:+ " events. Use the audit log page for full history.")]
  end.

Definition ActivityTab (p : RateLimitPolicyView) (filter : option AuditEventType) (logs : list AuditLogView) : list view :=
  map (fun f => Button (f.2) false "setFilter") activity_filters
  ++ [Text ("Showing events for server: " +:+ default "*" (RateLimitPolicyView_server_pattern p))]
  ++ activity_table (activity_filtered filter logs).

(** *** Versions *)
Definition VersionsTab (p : RateLimitPolicyView) : list view :=
  Text "Full version history with rollback is coming in a future release. Portcullis currently stores the latest configuration and creation timestamp."
  :: flat_map (fun v => let '(version, date, change) := v in
       [Text version; Text change; Text (policy_relativeTime tz now date); Text (localeString date)]) (version_rows p).

(** *** The page *)
Definition header (p : RateLimitPolicyView) (confirm deleting : bool) : list view :=
  [Link "Policies" "/dashboard/policies"; Text "Rate Limit Policy"; Text (shortened 12 (RateLimitPolicyView_id p));
   Text "Rate Limit Policy"; Badge "active"; Text (RateLimitPolicyView_id p); Button "Refresh" false "invalidateQueries"]
  ++ (if confirm then [Text "Confirm?"; Button (if deleting then "Deleting…" else "Yes, delete") deleting "deleteMutation";
                       Button "Cancel" false "setConfirmDelete(false)"]
      else [Button "Delete" false "setConfirmDelete(true)"]).

Definition tab_content (s : state) (logs : list AuditLogView) (servers : list ServerView) : list view :=
  let p := st_policy s in
  match st_tab s with
  | OverviewS => OverviewTab p logs
  | RulesS f => RulesTab p (st_editing s) f
  | CoverageS => CoverageTab p servers
  | TestS f r => TestTab f r
  | ActivityS filter => ActivityTab p filter logs
  | VersionsS => VersionsTab p
  end.

Definition not_found (id : string) : list view :=
  [Text "Policy not found"; Text ("The policy with ID " +:+ id +:+ " does not exist or was deleted.");
   Link "← Back to Policies" "/dashboard/policies"].

Definition PolicyDetailPage (id : string) (policies : answer (list RateLimitPolicyView)) (s : state) (deleting : bool)
    (logs : answer (list AuditLogView)) (servers : answer (list ServerView)) : list view :=
  if is_pending policies then [Skeletons 6] else
  match find_policy id (rows policies) with
  | None => not_found id
  | Some p =>
      header p (st_confirm s) deleting ++ map (fun t => Button (t.2) false "setActiveTab") TABS
      ++ tab_content (mkState p (st_tab s) (st_editing s) (st_confirm s)) (rows logs) (rows servers)
  end.
End page.

(** ** Lemmas *)

Notation limits_of p := (Gateway.Schema.mkLimits (Some (RateLimitPolicyView_request_limit p)) (Some (RateLimitPolicyView_window_seconds p))
  (RateLimitPolicyView_burst_capacity p) (Some (RateLimitPolicyView_priority p))).

(** The clicks and answers that leave the rule form alone. *)
Definition leaves_form (e : event) : Prop :=
  match e with SetTab t => t = rules | TypeRules _ => False | _ => True end.

Lemma form_kept regexp es s f :
  Forall leaves_form es -> st_tab s = RulesS f -> st_tab (run regexp es s) = RulesS f.
Proof.
  intros H. revert s. induction H as [|e es He _ IH]; intros s Hs; [done|]. apply IH.
  destruct e; cbn; rewrite Hs; try done. by rewrite He.
Qed.

Lemma parseInt_or_own z d : z <> 0%Z -> parseInt_or (pretty z) d = z.
Proof.
  intros Hz. unfold parseInt_or. rewrite NumText.parseInt_pretty. by destruct (Z.eqb_spec z 0).
Qed.

Lemma filter_partition {A} (f : A -> bool) l : List.filter f l ++ List.filter (fun x => negb (f x)) l ≡ₚ l.
Proof.
  induction l as [|x l IH]; [done|]. cbn. destruct (f x); cbn; [by rewrite IH|].
  by rewrite <- Permutation_middle, IH.
Qed.

(** ** Properties *)

(** The rule form keeps the policy it was opened with: whatever is refetched,
    cancelled or clicked while the tab stays open, saving it untouched stores
    that policy's limits again, over those others have saved meanwhile. *)
Theorem untouched_form_reverts_others regexp p0 es s u :
  st_tab s = mount rules p0 -> Forall leaves_form es ->
  (0 < RateLimitPolicyView_request_limit p0)%Z -> (0 < RateLimitPolicyView_window_seconds p0)%Z ->
  (forall b, RateLimitPolicyView_burst_capacity p0 = Some b -> (0 < b)%Z) -> RateLimitPolicyView_priority p0 <> 0%Z ->
  save_request (run regexp es s) = Some u ->
  Gateway.Schema.update_policy u (st_policy (run regexp es s)) = Some (limits_of p0).
Proof.
  intros Hs Hes Hl Hw Hb Hp. unfold save_request. rewrite (form_kept regexp es s (rules_init p0)) by done.
  destruct (st_editing _); [|done]. intros [= <-]. set (p := st_policy _).
  unfold Gateway.Schema.update_policy, Gateway.Schema.update_field.
  destruct (updates_fields p (rules_init p0)) as (-> & -> & -> & ->).
  cbn [rules_init rf_limit rf_window rf_burst rf_priority].
  rewrite !parseInt_or_own by lia. cbn [Gateway.Schema.positive Gateway.Schema.is_int].
  rewrite !(proj2 (Z.ltb_lt _ _)) by done. cbn [mbind option_bind].
  destruct (RateLimitPolicyView_burst_capacity p0) as [b|]; [|done].
  rewrite bool_decide_false by apply pretty_nonempty. rewrite NumText.parseInt_pretty. cbn [num_json Gateway.Schema.positive].
  by rewrite (proj2 (Z.ltb_lt _ _)) by auto.
Qed.

(** Cancel only hides the form: opening it again shows what was typed.  Leaving
    the tab discards the texts and stays in edit mode. *)
Theorem cancel_keeps_leaving_discards regexp p f confirm :
  let s := mkState p (RulesS f) true confirm in
  run regexp [SetEditing false; SetEditing true] s = s /\
  forall t, t <> rules -> run regexp [SetTab t; SetTab rules] s = mkState p (RulesS (rules_init p)) true confirm.
Proof.
  split; [done|]. intros t Ht. unfold run. cbn [fold_left step st_tab tab_of].
  destruct t; by try destruct (Ht eq_refl).
Qed.

(** The coverage tab shows every registered server exactly once, as matched or
    as not matched, under headings with the right counts. *)
Theorem coverage_partitions_servers regexp p servers :
  matched regexp p servers ++ unmatched regexp p servers ≡ₚ servers /\
  Forall (fun s => pattern_applies regexp (RateLimitPolicyView_server_pattern p) (ServerView_slug s) = false) (unmatched regexp p servers) /\
  (Z.of_nat (length servers) - Z.of_nat (length (matched regexp p servers)) = Z.of_nat (length (unmatched regexp p servers)))%Z.
Proof.
  set (f := fun s => pattern_applies regexp (RateLimitPolicyView_server_pattern p) (ServerView_slug s)).
  assert (unmatched regexp p servers = List.filter (fun s => negb (f s)) servers) as ->.
  { unfold unmatched, matched. apply filter_ext_in. intros s Hs. f_equal. case_bool_decide as H.
    - apply list_elem_of_fmap in H as (s' & He & H). apply list_elem_of_In, filter_In in H as [_ H].
      unfold f. by rewrite He, H.
    - destruct (f s) eqn:E; [|done]. destruct H. apply list_elem_of_fmap. exists s. split; [done|].
      apply list_elem_of_In, filter_In. done. }
  pose proof (filter_partition f servers) as H. split; [done|]. split.
  - apply Forall_forall. intros s Hs%list_elem_of_In%filter_In. destruct Hs as [_ Hs]. fold (f s). by destruct (f s).
  - apply Permutation_length in H. rewrite length_app in H. unfold matched. fold f. lia.
Qed.

(** When the policies cannot be read the page says of every policy that it does
    not exist or was deleted. *)
Theorem failed_list_says_deleted now tz lc regexp id s deleting logs servers :
  shows ("The policy with ID " +:+ id +:+ " does not exist or was deleted.")
    (PolicyDetailPage now tz lc regexp id Failed s deleting logs servers).
Proof. change (PolicyDetailPage _ _ _ _ _ _ _ _ _ _) with (not_found id). unfold not_found. find_text. Qed.

(** ** Witnesses *)

Definition lowered : RateLimitPolicyView :=
  mkRateLimitPolicyView "p1" None (Some SubjectType_api_key) None None RateLimitAlgorithm_sliding_window 7 60 None 5
    "2026-01-01T00:00:00Z" "2026-01-02T00:00:00Z".

Lemma untouched_form_reverts_others_witness :
  Gateway.Schema.update_policy (updates lowered (rules_init (demo_policy None None None))) lowered =
  Some (limits_of (demo_policy None None None)).
Proof.
  apply (untouched_form_reverts_others (fun _ _ => None) (demo_policy None None None) [SetEditing true; Refetched lowered]
           (mkState (demo_policy None None None) (mount rules (demo_policy None None None)) false false)); try reflexivity.
  - repeat constructor.
  - intros b [= <-]. reflexivity.
  - discriminate.
Defined.
