(* ===== verification/IncidentView.v ===== *)
(** * The incident page: web/src/app/dashboard/alerts/incidents/[id]/page.tsx

    The fixtures behind it, its editors and what it shows.  The handlers that
    change an incident are [Triage.Incidents]. *)

From S2P Require Import Prelude JsString JsUri Browser ApiClient JsDate RelTime Triage ToolPage View.

Import Incidents.

(** ** The fixtures *)
Section fixtures.
Context (now : Z).

Definition ago (ms : Z) : string := toISOString (now - ms)%Z.
Definition days (n : Z) : Z := (86400000 * n)%Z.

Definition inc_001 : Incident :=
  mkIncident "inc-001" "Staging MCP server health check failing" critical investigating (ago 1200000) None
    ["staging-mcp"] ["oncall@example.com"] ["Server health check"] ["req-srv-health-001"; "req-srv-health-002"]
    ""
    ""
    ""
    "The staging-mcp server began failing consecutive health checks approximately 20 minutes ago. The upstream service is returning 503 on the health check endpoint. Downstream clients are receiving connection errors."
    [mkEntry "t1" (ago 1200000) "Alert system" alert ("Alert " +:+ quoted "Server health check" +:+ " fired — staging-mcp unhealthy for > 2 min.") None None;
     mkEntry "t2" (ago 1140000) "Alert system" status_change "Incident created automatically from alert rule." None (Some investigating);
     mkEntry "t3" (ago 1080000) "oncall@example.com" note "Acknowledged. Checking upstream service logs now." None None].

Definition inc_002 : Incident :=
  mkIncident "inc-002" "Auth failure burst — possible credential leak" high identified (ago 3600000) None
    ["gateway"] ["security@example.com"; "oncall@example.com"] ["Auth failure burst"] ["req-auth-001"; "req-auth-002"; "req-auth-003"]
    "A CI/CD pipeline key was accidentally committed to a public GitHub repository. The key was discovered and is being used by external actors to probe the gateway."
    ""
    ""
    "Between 15:00 and 15:05 UTC, the gateway received 47 authentication failures originating from 3 distinct IPs not seen in prior activity. Key isolation indicates the affected credential is the ci-pipeline-key."
    [mkEntry "t1" (ago 3600000) "Alert system" alert ("Alert " +:+ quoted "Auth failure burst" +:+ " fired — 47 failures in 5 min.") None None;
     mkEntry "t2" (ago 3540000) "Alert system" status_change "Incident created automatically." None (Some investigating);
     mkEntry "t3" (ago 3300000) "security@example.com" action "Revoked ci-pipeline-key. Failures dropped to zero immediately." None None;
     mkEntry "t4" (ago 3100000) "security@example.com" status_change "Root cause identified — leaked key in public repo." (Some investigating) (Some identified);
     mkEntry "t5" (ago 2900000) "security@example.com" note "Rotated key and updated GitHub Actions secrets. Monitoring for further activity." None None].

Definition inc_003 : Incident :=
  mkIncident "inc-003" "Production error rate spike" critical resolved (ago (days 2)) (Some (ago (days 2 - 7200000)))
    ["production-mcp"] ["oncall@example.com"] ["Production error rate"] ["req-prod-001"; "req-prod-002"]
    "A deployment of production-mcp v2.3.1 introduced a regression in the search_documents tool — the upstream Elasticsearch query timeout was set to 0ms, causing all search calls to fail immediately."
    "Rolled back production-mcp to v2.3.0. Error rate returned to baseline within 3 minutes of rollback. A hotfix (v2.3.2) was deployed 90 minutes later with the correct timeout value."
    "https://docs.example.com/postmortems/2026-08-03-error-spike"
    "Error rate on production-mcp rose from 0.2% to 38% starting at 14:12 UTC. The spike coincided with a deployment that completed at 14:11 UTC."
    [mkEntry "t1" (ago (days 2)) "Alert system" alert ("Alert " +:+ quoted "Production error rate" +:+ " fired — 38% errors in 5 min.") None None;
     mkEntry "t2" (ago (days 2 - 120000)) "Alert system" status_change "Incident created." None (Some investigating);
     mkEntry "t3" (ago (days 2 - 600000)) "oncall@example.com" note "Correlated with 14:11 deployment. Initiating rollback." None None;
     mkEntry "t4" (ago (days 2 - 900000)) "oncall@example.com" status_change "Rollback complete. Error rate normalizing." (Some investigating) (Some monitoring);
     mkEntry "t5" (ago (days 2 - 7200000)) "oncall@example.com" status_change "Error rate stable at baseline for 1 hour. Incident resolved." (Some monitoring) (Some resolved)].

Definition inc_004 : Incident :=
  mkIncident "inc-004" "RBAC deny rate elevated — Developer role scope issue" high resolved (ago (days 5)) (Some (ago (days 5 - 3600000)))
    ["production-mcp"; "staging-mcp"] ["oncall@example.com"] ["RBAC deny rate"] []
    "A policy update to the Developer role inadvertently removed the tool_call:read permission for the search_* pattern, causing all Developer-scoped keys to receive deny responses for search tools."
    "Restored the search_* allow rule on the Developer role. Deny rate dropped to zero within 2 minutes."
    ""
    "RBAC deny events spiked to 120/min across production and staging servers. All denies targeted search-related tools and were limited to Developer-scoped API keys."
    [mkEntry "t1" (ago (days 5)) "Alert system" alert ("Alert " +:+ quoted "RBAC deny rate" +:+ " fired — 120 denies/min.") None None;
     mkEntry "t2" (ago (days 5 - 180000)) "Alert system" status_change "Incident created." None (Some investigating);
     mkEntry "t3" (ago (days 5 - 1200000)) "oncall@example.com" note "Isolated to Developer role. Checking recent policy changes." None None;
     mkEntry "t4" (ago (days 5 - 2400000)) "oncall@example.com" action "Restored search_* allow rule on Developer role. Deny rate back to zero." None None;
     mkEntry "t5" (ago (days 5 - 3600000)) "oncall@example.com" status_change "Monitoring confirms deny rate at baseline. Resolved." (Some monitoring) (Some resolved)].

(** [INCIDENTS], by id (the names every object inherits are left out). *)
Definition INCIDENTS : list (string * Incident) :=
  [("inc-001", inc_001); ("inc-002", inc_002); ("inc-003", inc_003); ("inc-004", inc_004)].

Definition base (id : string) : option Incident :=
  snd <$> List.find (fun kv => bool_decide (kv.1 = id)) INCIDENTS.

(** The page as it mounts. *)
Definition mount (id : string) : page :=
  mkPage (default (unknown_incident id now) (base id)) "" None "" false "".
End fixtures.

(** ** The editors *)

(** The clicks that open and close an editor, besides the handlers. *)
Inductive click :=
  | Input_ (e : input)
  | StartEdit (f : field)
  | CancelEdit
  | ShowAssigneeInput.

Definition field_value (f : field) (i : Incident) : string :=
  match f with
  | rootCause => in_rootCause i | resolution => in_resolution i
  | postmortemLink => in_postmortemLink i | summary => in_summary i
  end.

Definition with_editor (f : option field) (draft : string) (p : page) : page :=
  mkPage (pg_incident p) (pg_noteText p) f draft (pg_showAssigneeInput p) (pg_assigneeDraft p).

Definition startEdit (f : field) (p : page) : page := with_editor (Some f) (field_value f (pg_incident p)) p.

#[global] Instance field_eq : EqDecision field.
Proof. solve_decision. Defined.

(** An editor's Save button is there while its field is edited. *)
Definition step (p : page) (c : click) : page :=
  match c with
  | Input_ (SaveField f) => if bool_decide (pg_editingField p = Some f) then saveField f p else p
  | Input_ (TypeDraft v) => match pg_editingField p with Some _ => handle (TypeDraft v) p | None => p end
  | Input_ AddAssignee => if pg_showAssigneeInput p then addAssignee p else p
  | Input_ e => handle e p
  | StartEdit f => startEdit f p
  | CancelEdit => with_editor None (pg_editDraft p) p
  | ShowAssigneeInput =>
      mkPage (pg_incident p) (pg_noteText p) (pg_editingField p) (pg_editDraft p) true (pg_assigneeDraft p)
  end.

Definition clicks (cs : list click) (p : page) : page := fold_left step cs p.

(** ** Views *)

Definition severity_label (s : IncidentSeverity) : string :=
  match s with critical => "Critical" | high => "High" | medium => "Medium" | low => "Low" end.

Section views.
(** [toLocaleString], the letter of an avatar, the zone and the clock. *)
Context (fmtDate upper_first : string -> string) (tz now : Z).

Definition entry_tags (e : TimelineEntry) : list view :=
  match te_type e with
  | status_change => match te_to e with Some s => [Badge ("→ " +:+ status_label s)] | None => [] end
  | alert => [Badge "Alert"]
  | action => [Badge "Action"]
  | note => []
  end.

Definition TimelineItem (e : TimelineEntry) : list view :=
  [Text (te_author e); Text (fmtDate (te_time e))] ++ entry_tags e ++ [Text (te_content e)].

(** The mark of a step: done, current or ahead. *)
Inductive step_mark := Past | Active | Ahead.

Definition mark (current s : IncidentStatus) : step_mark :=
  match list_find (eq current) STATUS_ORDER, list_find (eq s) STATUS_ORDER with
  | Some (c, _), Some (i, _) => if (i <? c)%nat then Past else if (i =? c)%nat then Active else Ahead
  | _, _ => Ahead
  end.

Definition StatusStepper : list view := map (fun s => Button (status_label s) false "updateStatus") STATUS_ORDER.

Definition EditBlock (value placeholder : string) : list view :=
  [Input "" value placeholder false; Button "Save" false "onSave"; Button "Cancel" false "onCancel"].

Definition EditIcon : view := Button "" false "startEdit".

Definition field_title (f : field) : string :=
  match f with summary => "Summary" | rootCause => "Root cause" | resolution => "Resolution" | postmortemLink => "Postmortem" end.

Definition field_empty (f : field) : string :=
  match f with
  | summary => "No summary yet." | rootCause => "Root cause not yet identified."
  | resolution => "No resolution documented yet." | postmortemLink => "No postmortem link yet."
  end.

Definition field_placeholder (f : field) : string :=
  match f with postmortemLink => "https://docs.example.com/postmortems/…" | _ => "" end.

Definition field_shown (f : field) (i : Incident) : view :=
  let v := field_value f i in
  if bool_decide (v = "") then Text (field_empty f) else
  match f with postmortemLink => Link v v | _ => Text v end.

Definition field_section (f : field) (p : page) : view :=
  Card (field_title f) ""
    (if bool_decide (pg_editingField p = Some f) then EditBlock (pg_editDraft p) (field_placeholder f)
     else [field_shown f (pg_incident p); EditIcon]).

Definition timeline_section (p : page) : view :=
  Card "Timeline" ""
    (match in_timeline (pg_incident p) with [] => [Text "No entries yet."] | t => flat_map TimelineItem t end
     ++ [Input "" (pg_noteText p) "Add a timeline note…" false; Button "Add note" false "addNote"]).

Definition header (i : Incident) : list view :=
  [Badge (severity_label (in_severity i)); Badge (status_label (in_status i)); Text ("#" +:+ in_id i); Text (in_title i);
   Stat "Started" (fmtDate (in_startTime i));
   Stat "Duration" (duration tz now (in_startTime i) (in_resolvedAt i));
   Stat "Resolved" (if truthy (in_resolvedAt i) then fmtDate (default "" (in_resolvedAt i)) else "—");
   Text "Status"] ++ StatusStepper.

(** A list, or a text when it is empty. *)
Definition listed (none : string) (f : string -> view) (l : list string) : list view :=
  match l with [] => [Text none] | _ => map f l end.

Definition responder (a : string) : list view :=
  [Text (upper_first a); Text a; Button "" false "removeAssignee"].

Definition assignees_section (p : page) : view :=
  Card "Assigned responders" ""
    (flat_map responder (in_assignees (pg_incident p))
     ++ (if pg_showAssigneeInput p
         then [Input "" (pg_assigneeDraft p) "email@example.com" false; Button "Add" false "addAssignee"]
         else [Button "Add responder" false "setShowAssigneeInput"])).

Definition trace_link (t : string) : view :=
  Link t ("/dashboard/observability/traces?search=" +:+ encodeURIComponent t).

Definition sidebar (p : page) : list view :=
  let i := pg_incident p in
  [Card "Affected services" "" (listed "None listed" Text (in_affectedServices i));
   assignees_section p;
   Card "Related alerts" "" (listed "None" Text (in_relatedAlertRules i));
   Card "Related traces" "" (listed "None" trace_link (in_relatedTraceIds i))].

Definition IncidentDetailPage (p : page) : list view :=
  DemoBanner local_only "" "Incident timelines are local fixtures until the incidents API lands."
  ++ [Link "All incidents" "/dashboard/alerts/incidents"] ++ header (pg_incident p)
  ++ map (fun f => field_section f p) [summary; rootCause; resolution; postmortemLink]
  ++ [timeline_section p] ++ sidebar p.
End views.

(** ** Lemmas *)

Lemma with_field_own f i : with_field f (field_value f i) i = i.
Proof. by destruct i, f. Qed.

Lemma with_field_value f g v i : field_value g (with_field f v i) = if bool_decide (g = f) then v else field_value g i.
Proof. by destruct f, g. Qed.

(** Every status change that names its start names the status reached before. *)
Fixpoint follow_open (s : option IncidentStatus) (es : list TimelineEntry) : bool :=
  match es with
  | [] => true
  | e :: r =>
      match te_from e, te_to e with
      | Some a, Some b => bool_decide (s = Some a) && follow_open (Some b) r
      | None, Some b => follow_open (Some b) r
      | _, None => follow_open s r
      end
  end.

(** What a click does to the incident, apart from the handlers that own it. *)
Definition edits_only (c : click) : Prop :=
  match c with
  | Input_ (TypeDraft _) | Input_ (TypeNote _) | Input_ (TypeAssignee _) | ShowAssigneeInput => True
  | _ => False
  end.

(** The text last typed into the editor. *)
Definition last_draft (d : string) (cs : list click) : string :=
  fold_left (fun d c => match c with Input_ (TypeDraft v) => v | _ => d end) cs d.

Lemma editing_kept f cs p :
  Forall edits_only cs -> pg_editingField p = Some f ->
  let q := clicks cs p in
  pg_incident q = pg_incident p /\ pg_editingField q = Some f /\ pg_editDraft q = last_draft (pg_editDraft p) cs.
Proof.
  intros H. revert p. induction H as [|c cs Hc _ IH]; intros p Hp; [done|]. unfold clicks in *. cbn [fold_left].
  destruct c as [e| | |]; try done; [destruct e; try done|]; cbn in Hc; unfold last_draft; cbn [fold_left]; fold (last_draft (pg_editDraft p) cs).
  - destruct (IH (step p (Input_ (TypeNote v)))) as (H1 & H2 & H3); [done|]. cbn in *. auto.
  - cbn [step]. rewrite Hp. destruct (IH (handle (TypeDraft v) p)) as (H1 & H2 & H3); [done|]. cbn in *. auto.
  - destruct (IH (step p (Input_ (TypeAssignee v)))) as (H1 & H2 & H3); [done|]. cbn in *. auto.
  - destruct (IH (step p ShowAssigneeInput)) as (H1 & H2 & H3); [done|]. cbn in *. auto.
Qed.

(** ** Properties *)

(** An editor starts with the field's text and saves exactly what was typed
    last into it: saving at once changes nothing, cancelling changes nothing,
    and no other field is touched. *)
Theorem editor_saves_its_field f cs p :
  Forall edits_only cs ->
  let draft := last_draft (field_value f (pg_incident p)) cs in
  pg_incident (clicks (StartEdit f :: cs ++ [Input_ (SaveField f)]) p) = with_field f draft (pg_incident p) /\
  pg_incident (clicks (StartEdit f :: cs ++ [CancelEdit]) p) = pg_incident p /\
  pg_incident (clicks [StartEdit f; Input_ (SaveField f)] p) = pg_incident p /\
  forall g, field_value g (with_field f draft (pg_incident p)) = if bool_decide (g = f) then draft else field_value g (pg_incident p).
Proof.
  intros H draft. destruct (editing_kept f cs (startEdit f p) H eq_refl) as (H1 & H2 & H3).
  cbn in H1, H3. unfold clicks in *. cbn [fold_left step]. rewrite !fold_left_app. cbn [fold_left].
  split_and!.
  - cbn [step]. rewrite H2, bool_decide_true by done. unfold saveField. cbn. by rewrite H1, H3.
  - cbn. done.
  - rewrite bool_decide_true by done. unfold saveField. cbn. apply with_field_own.
  - intros g. apply with_field_value.
Qed.

(** Every id has a page: for one that names no incident it shows an open one
    that can be edited, where other pages say that nothing was found. *)
Theorem unknown_id_shown_as_incident now iid fmtDate up tz :
  base now iid = None ->
  shows "Unknown incident" (IncidentDetailPage fmtDate up tz now (mount now iid)) /\
  shows ("#" +:+ iid) (IncidentDetailPage fmtDate up tz now (mount now iid)) /\
  in_status (pg_incident (mount now iid)) = investigating.
Proof.
  intros H. unfold mount. rewrite H. cbn [default from_option id].
  unfold IncidentDetailPage, header. cbn [pg_incident unknown_incident in_id in_title in_status]. split_and!; [find_text|find_text|done].
Qed.

(** The step before the current one is done, the current one active, and those
    after it ahead, in the order of the statuses. *)
Theorem stepper_marks current c :
  STATUS_ORDER !! c = Some current ->
  map (mark current) STATUS_ORDER = replicate c Past ++ [Active] ++ replicate (3 - c) Ahead.
Proof. intros H. destruct c as [|[|[|[|c]]]]; try discriminate; injection H as <-; reflexivity. Qed.

(** The link of a related trace carries the trace's id, whatever its text. *)
Theorem trace_link_roundtrip t :
  map (fun h => parse_query (drop_after "?" h)) (links (trace_link t)) = [Some [("search", t)]].
Proof.
  unfold trace_link. cbn [links map]. f_equal.
  change ("/dashboard/observability/traces?search=" +:+ ?x) with ("/dashboard/observability/traces" +:+ String "?" ("search=" +:+ x)).
  rewrite drop_after_app by done. unfold parse_query.
  change ("search=" +:+ ?x) with ("search" +:+ "=" +:+ x).
  rewrite split_without by (rewrite !without_app; by rewrite encode_without). cbn [mapM].
  by rewrite parse_pair_component.
Qed.

(** The histories behind the page end in the status shown, and each of their
    status changes starts where the one before ended; in one of them the
    incident leaves a status it never entered. *)
Theorem fixture_histories now :
  Forall (fun kv => last (omap te_to (in_timeline (kv.2))) = Some (in_status (kv.2))) (INCIDENTS now) /\
  map (fun kv => follow_open None (in_timeline (kv.2))) (INCIDENTS now) = [true; true; true; false].
Proof. split; [repeat constructor|reflexivity]. Qed.

(** ** web/src/app/dashboard/alerts/incidents/page.tsx *)
Module IncidentList.

Record Listed := mkListed {
  li_id : string; li_title : string; li_severity : IncidentSeverity; li_status : IncidentStatus; li_startTime : string;
  li_resolvedAt : option string; li_affectedServices : list string; li_alertRuleId : string; li_assignee : string }.

Definition INCIDENTS (now : Z) : list Listed :=
  [mkListed "inc-001" "Staging MCP server health check failing" critical investigating (ago now 1200000) None
     ["staging-mcp"] "rule-2" "oncall@example.com";
   mkListed "inc-002" "Auth failure burst — possible credential leak" high identified (ago now 3600000) None
     ["gateway"] "rule-4" "security@example.com";
   mkListed "inc-003" "Production error rate spike" critical resolved (ago now (days 2)) (Some (ago now (days 2 - 7200000)))
     ["production-mcp"] "rule-1" "oncall@example.com";
   mkListed "inc-004" "RBAC deny rate elevated — Developer role scope issue" high resolved (ago now (days 5))
     (Some (ago now (days 5 - 3600000))) ["production-mcp"; "staging-mcp"] "rule-3" "oncall@example.com"].

Definition has_status (s : IncidentStatus) (i : Listed) : bool := bool_decide (li_status i = s).

Definition filtered (filterStatus : option IncidentStatus) (l : list Listed) : list Listed :=
  match filterStatus with Some s => List.filter (has_status s) l | None => l end.

Definition activeCount (l : list Listed) : nat := length (List.filter (fun i => negb (has_status resolved i)) l).
Definition resolvedCount (l : list Listed) : nat := length (List.filter (has_status resolved) l).

Definition href (i : Listed) : string := "/dashboard/alerts/incidents/" +:+ li_id i.

Section views.
Context (tz now : Z).

Definition row (i : Listed) : list view :=
  [Badge (status_label (li_status i)); Badge (severity_label (li_severity i)); Link (li_title i) (href i);
   Text (incidents_relativeTime tz now (Some (li_startTime i))); Text (duration tz now (li_startTime i) (li_resolvedAt i))]
  ++ map Badge (li_affectedServices i) ++ [Text (li_assignee i); Link "" (href i)].

Definition figures (l : list Listed) : list view :=
  map (fun kv => Stat (kv.1) (pretty (Z.of_nat (kv.2))))
    [("Active", activeCount l); ("Resolved", resolvedCount l); ("Total", length l)].

Definition IncidentsPage (filterStatus : option IncidentStatus) (l : list Listed) : list view :=
  [Link "Back to alerts" "/dashboard/alerts"; Text "Incidents"; Text "Track, triage, and resolve active incidents.";
   Button "Declare incident" false ""]
  ++ figures l ++ Button "All" false "setFilterStatus" :: map (fun s => Button (status_label s) false "setFilterStatus") STATUS_ORDER
  ++ [Table ["Status"; "Severity"; "Title"; "Started"; "Duration"; "Services"; "Assignee"; ""] (map row (filtered filterStatus l))].
End views.

(** The summary of an incident on its own page. *)
Definition summary_of (i : Incident) (rule : string) : Listed :=
  mkListed (in_id i) (in_title i) (in_severity i) (in_status i) (in_startTime i) (in_resolvedAt i)
    (in_affectedServices i) rule (default "" (head (in_assignees i))).

(** Every row of the list agrees with the page its link opens, which is the
    page of an incident of its own; edits made there are on no row. *)
Theorem rows_agree_with_pages now :
  Forall (fun l => exists i, base now (li_id l) = Some i /\ l = summary_of i (li_alertRuleId l) /\
    pg_incident (mount now (li_id l)) = i) (INCIDENTS now) /\
  NoDup (li_id <$> INCIDENTS now).
Proof.
  split; [|apply (bool_decide_unpack _); vm_compute; exact I].
  unfold INCIDENTS. repeat apply Forall_cons_2; try apply Forall_nil_2; eexists; split_and!; reflexivity.
Qed.

(** The filters split the list: the rows under the four statuses are all rows,
    and the figures add up. *)
Theorem filters_split l :
  flat_map (fun s => filtered (Some s) l) STATUS_ORDER ≡ₚ filtered None l /\ activeCount l + resolvedCount l = length l.
Proof.
  split.
  - cbn [flat_map STATUS_ORDER filtered]. rewrite app_nil_r. induction l as [|i l IH]; [done|].
    cbn [List.filter]. change (has_status ?s i) with (bool_decide (li_status i = s)) in *.
    destruct (li_status i); repeat (case_bool_decide; try congruence); cbn [app];
      rewrite ?app_assoc, <- ?Permutation_middle, <- ?app_assoc; apply perm_skip; exact IH.
  - unfold activeCount, resolvedCount. induction l as [|i l IH]; [done|]. cbn. destruct (has_status resolved i); cbn; lia.
Qed.
End IncidentList.

(** ** Witnesses *)

Lemma editor_saves_its_field_witness :
  in_summary (pg_incident (clicks [StartEdit summary; Input_ (TypeDraft "Disk full"); Input_ (SaveField summary)] (mount 0 "inc-001")))
  = "Disk full".
Proof.
  change [StartEdit summary; Input_ (TypeDraft "Disk full"); Input_ (SaveField summary)]
    with (StartEdit summary :: [Input_ (TypeDraft "Disk full")] ++ [Input_ (SaveField summary)]).
  rewrite (proj1 (editor_saves_its_field summary [Input_ (TypeDraft "Disk full")] (mount 0 "inc-001")
                    (Forall_cons_2 edits_only (Input_ (TypeDraft "Disk full")) [] I (Forall_nil_2 _)))).
  reflexivity.
Defined.

Lemma unknown_id_shown_as_incident_witness :
  shows "#typo" (IncidentDetailPage (fun s => s) (fun s => s) 0 0 (mount 0 "typo")).
Proof. exact (proj1 (proj2 (unknown_id_shown_as_incident 0 "typo" (fun s => s) (fun s => s) 0 eq_refl))). Defined.

Lemma stepper_marks_witness : map (mark monitoring) STATUS_ORDER = [Past; Past; Active; Ahead].
Proof. exact (stepper_marks monitoring 2 eq_refl). Defined.
