(* ===== verification/AlertsView.v ===== *)
(** * What the alerts page shows: web/src/app/dashboard/alerts/page.tsx

    The rule dialog, a rule's card and the page.  The rules and the handlers
    that change them are [Triage.Alerts]. *)

From S2P Require Import Prelude JsString Browser ApiTypes RelTime Triage View Feedback IncidentView.

Import Alerts.

#[local] Notation count l := (pretty (Z.of_nat (length l))).

(** ** Labels *)

Definition type_label (t : AlertRuleType) : string :=
  match t with
  | high_error_rate => "High error rate" | server_unavailable => "Server unavailable"
  | latency_threshold => "Latency threshold" | request_spike => "Request spike"
  | policy_violation => "Policy violation" | api_key_abuse => "API key abuse"
  | quota_exceeded => "Quota exceeded" | circuit_breaker => "Circuit breaker opened"
  | suspicious_login => "Suspicious login" | high_risk_tool => "New high-risk tool"
  end.

Definition type_description (t : AlertRuleType) : string :=
  match t with
  | high_error_rate => "Fires when the error rate across tool calls exceeds the configured threshold."
  | server_unavailable => "Fires when a registered MCP server fails consecutive health checks."
  | latency_threshold => "Fires when the P95 response latency exceeds the configured threshold."
  | request_spike => "Fires when request volume spikes above a multiple of the rolling baseline."
  | policy_violation => "Fires when RBAC deny events exceed the configured rate."
  | api_key_abuse => "Fires when a single API key triggers repeated authentication failures."
  | quota_exceeded => "Fires when a subject approaches or exceeds their rate limit quota."
  | circuit_breaker => "Fires when the upstream circuit breaker opens for a server."
  | suspicious_login => "Fires when an API key is used from an unrecognized IP address."
  | high_risk_tool => "Fires when a tool matching a high-risk pattern is registered on a server."
  end.

Definition rule_types : list AlertRuleType :=
  [high_error_rate; server_unavailable; latency_threshold; request_spike; policy_violation; api_key_abuse;
   quota_exceeded; circuit_breaker; suspicious_login; high_risk_tool].

Definition alert_severity_label (s : AlertSeverity) : string :=
  match s with critical => "Critical" | high => "High" | medium => "Medium" | low => "Low" end.
Definition severities : list AlertSeverity := [critical; high; medium; low].

Definition alert_status_label (s : AlertStatus) : string :=
  match s with firing => "Firing" | pending => "Pending" | ok => "OK" | silenced => "Silenced" end.
Definition statuses : list AlertStatus := [firing; pending; ok; silenced].

Definition channel_label (c : NotificationChannel) : string :=
  match c with
  | email => "Email" | slack => "Slack" | teams => "Microsoft Teams" | discord => "Discord"
  | webhook => "Webhook" | pagerduty => "PagerDuty" | in_app => "In-app notification"
  end.

Definition channel_placeholder (c : NotificationChannel) : string :=
  match c with
  | email => "ops@example.com" | slack => "#alerts-channel" | teams => "https://teams.webhook.url"
  | discord => "https://discord.com/api/webhooks/…" | webhook => "https://your-endpoint.example.com"
  | pagerduty => "Integration key" | in_app => "(delivered to dashboard)"
  end.

Definition channels : list NotificationChannel := [email; slack; teams; discord; webhook; pagerduty; in_app].

#[global] Instance channel_eq : EqDecision NotificationChannel.
Proof. solve_decision. Defined.

(** ** The dialog *)

(** The inputs' handlers. *)
Inductive form_event :=
  | SetName (v : string) | SetType (t : AlertRuleType) | SetSeverity (s : AlertSeverity) | SetWindow (v : Z)
  | SetThreshold (v : string) | SetPattern (v : string) | SetDescription (v : string)
  | AddChannel | RemoveChannel (i : nat) | SetChannel (i : nat) (c : NotificationChannel) | SetDestination (i : nat) (v : string).

(** Choosing a type sets its threshold. *)
Definition edit_form (f : RuleFormState) (e : form_event) : RuleFormState :=
  let '(mkFormState n t s th w p d c) := f in
  match e with
  | SetName v => mkFormState v t s th w p d c
  | SetType t' => mkFormState n t' s (defaultThreshold t') w p d c
  | SetSeverity s' => mkFormState n t s' th w p d c
  | SetWindow w' => mkFormState n t s th w' p d c
  | SetThreshold v => mkFormState n t s v w p d c
  | SetPattern v => mkFormState n t s th w v d c
  | SetDescription v => mkFormState n t s th w p v c
  | AddChannel => addChannel f
  | RemoveChannel i => removeChannel i f
  | SetChannel i ch => updateChannel i (fun x => mkTarget ch (nt_destination x)) f
  | SetDestination i v => updateChannel i (fun x => mkTarget (nt_channel x) v) f
  end.

Definition channel_row (ch : NotificationTarget) : list view :=
  [Select "" (channel_label (nt_channel ch)) (map channel_label channels);
   Input "" (nt_destination ch) (channel_placeholder (nt_channel ch)) false; Button "" false "removeChannel"].

Definition RuleDialog (initial : option AlertRule) (form : RuleFormState) : list view :=
  [Text (match initial with Some _ => "Edit alert rule" | None => "Create alert rule" end); Button "" false "onClose";
   Input "Rule name" (rf_name form) "e.g. Production error rate" false;
   Select "Alert type" (type_label (rf_type form)) (map type_label rule_types); Text (type_description (rf_type form));
   Select "Severity" (alert_severity_label (rf_severity form)) (map alert_severity_label severities);
   Input "Evaluation window (seconds)" (pretty (rf_windowSeconds form)) "" false;
   Input "Threshold description" (rf_threshold form) "" false;
   Input "Server pattern" (rf_serverPattern form) "* or production-*" false;
   Input "Description (optional)" (rf_description form) "" false; Text "Notification channels"]
  ++ flat_map channel_row (rf_channels form)
  ++ [Button "Add channel" false "addChannel"; Button "Cancel" false "onClose";
      Button (match initial with Some _ => "Save changes" | None => "Create rule" end) false "onSave"].

(** ** A rule's card *)

Section views.
Context (tz now : Z).

Definition channel_view (n : NotificationTarget) : list view :=
  Text (channel_label (nt_channel n))
  :: when (negb (bool_decide (nt_destination n = ""))) [Text ("· " +:+ nt_destination n)].

(** The active incident a rule is linked to, by id and title. *)
Definition incident_link (incident : option (string * string)) : list view :=
  match incident with
  | Some (id, title) => [Text ("Active incident: " +:+ title); Link "View" ("/dashboard/alerts/incidents/" +:+ id)]
  | None => []
  end.

Definition rule_detail (rule : AlertRule) (incident : option (string * string)) : list view :=
  [Text (ar_description rule); Stat "Server pattern" (ar_serverPattern rule);
   Stat "Window" (if (0 <? ar_windowSeconds rule)%Z then pretty (ar_windowSeconds rule) +:+ "s" else "event-driven");
   Stat "Status" (alert_status_label (ar_status rule)); Stat "Enabled" (if ar_enabled rule then "Yes" else "No");
   Text "Notification channels"]
  ++ flat_map channel_view (ar_notifications rule) ++ incident_link incident.

Definition RuleCard (rule : AlertRule) (incident : option (string * string)) (expanded : bool) : view :=
  Card (ar_name rule) (type_label (ar_type rule) +:+ " · " +:+ ar_threshold rule)
    ([Badge (alert_severity_label (ar_severity rule)); Badge (alert_status_label (ar_status rule));
      Text (alerts_relativeTime tz now (ar_lastFiredAt rule))]
     ++ when (0 <? ar_firingCount rule)%Z [Text (pretty (ar_firingCount rule) +:+ "× fired")]
     ++ [Button "" false "onToggle"; Button "" false "onEdit"; Button "" false "onDelete"]
     ++ when expanded (rule_detail rule incident)).
End views.

(** ** The page *)

Record page := mkPage {
  p_rules : list AlertRule;
  p_create : option RuleFormState;                  (** the open create dialog's form *)
  p_edit : option (AlertRule * RuleFormState);      (** the open edit dialog's rule and form *)
  p_filterStatus : option AlertStatus; p_filterSeverity : option AlertSeverity }.

Definition initial : page := mkPage [] None None None None.

(** [incidents] has no setter: it stays empty. *)
Definition incidents : list IncidentList.Listed := [].

Inductive event :=
  | OpenCreate
  | OpenEdit (id : string)
  | EditForm (e : form_event)
  | SaveForm (now : Z)
  | CloseDialog
  | Delete (id : string)
  | Toggle (id : string)
  | FilterStatus (s : option AlertStatus)
  | FilterSeverity (s : option AlertSeverity)
  | ClearFilters.  (** [onClear={() => {}}] *)

Definition with_rules (l : list AlertRule) (p : page) : page :=
  mkPage l (p_create p) (p_edit p) (p_filterStatus p) (p_filterSeverity p).

Definition with_dialog (c : option RuleFormState) (e : option (AlertRule * RuleFormState)) (p : page) : page :=
  mkPage (p_rules p) c e (p_filterStatus p) (p_filterSeverity p).

Definition shown_rules (p : page) : list AlertRule := filtered (p_filterStatus p) (p_filterSeverity p) (p_rules p).

(** The dialog's Save: a blank name keeps it open. *)
Definition save_form (now : Z) (p : page) : page :=
  match p_create p, p_edit p with
  | Some f, _ => if bool_decide (trim (rf_name f) = "") then p
                 else with_dialog None (p_edit p) (with_rules (addRule now f (p_rules p)) p)
  | None, Some (r, f) => if bool_decide (trim (rf_name f) = "") then p
                         else with_dialog None None (with_rules (saveRule (ar_id r) f (p_rules p)) p)
  | None, None => p
  end.

(** An open dialog covers the page. *)
Definition covered (p : page) : bool :=
  match p_create p, p_edit p with None, None => false | _, _ => true end.

Definition step (p : page) (e : event) : page :=
  match e with
  | EditForm fe =>
      with_dialog ((fun f => edit_form f fe) <$> p_create p) ((fun rf => (rf.1, edit_form (rf.2) fe)) <$> p_edit p) p
  | SaveForm now => save_form now p
  | CloseDialog => with_dialog None None p
  | _ =>
    if covered p then p else
    match e with
    | OpenCreate => with_dialog (Some (initial_form None)) None p
    | OpenEdit id =>
        match List.find (fun r => bool_decide (ar_id r = id)) (shown_rules p) with
        | Some r => with_dialog None (Some (r, initial_form (Some r))) p
        | None => p
        end
    | Delete id => with_rules (deleteRule id (p_rules p)) p
    | Toggle id => with_rules (toggleRule id (p_rules p)) p
    | FilterStatus s => mkPage (p_rules p) None None s (p_filterSeverity p)
    | FilterSeverity s => mkPage (p_rules p) None None (p_filterStatus p) s
    | _ => p
    end
  end.

Definition run (es : list event) (p : page) : page := fold_left step es p.

Section page_view.
Context (tz now : Z).

Definition of_type (t : AuditEventType) (logs : list AuditLogView) : list AuditLogView :=
  List.filter (fun l => bool_decide (AuditLogView_event_type l = t)) logs.

Definition unhealthy (servers : list ServerView) : list ServerView :=
  List.filter (fun s => negb (bool_decide (ServerView_status s = ServerStatus_active))) servers.

Definition alert_figures (p : page) (logs : list AuditLogView) (servers : list ServerView) : list view :=
  [Stat "Firing now" (pretty (Z.of_nat (firingCount (p_rules p))));
   Stat "Active incidents" (pretty (Z.of_nat (IncidentList.activeCount incidents)));
   Stat "Auth failures" (count (of_type AuditEventType_auth_failure logs));
   Stat "RBAC denies" (count (of_type AuditEventType_rbac_deny logs));
   Stat "Unhealthy servers" (count (unhealthy servers))].

Definition page_head : list view :=
  DemoBanner local_only "" "Alert rules and incidents live in browser state only."
  ++ [Text "Alerts"; Text "Threshold-based rules with multi-channel notification routing.";
      Link ("Incidents" +:+ if (0 <? Z.of_nat (IncidentList.activeCount incidents))%Z
                            then pretty (Z.of_nat (IncidentList.activeCount incidents)) else "") "/dashboard/alerts/incidents";
      Button "" false "refetch"; Button "New alert rule" false "setShowCreate"].

Definition filter_row (p : page) : list view :=
  let n := length (shown_rules p) in
  [Select "" (from_option alert_status_label "All statuses" (p_filterStatus p)) ("All statuses" :: map alert_status_label statuses);
   Select "" (from_option alert_severity_label "All severities" (p_filterSeverity p)) ("All severities" :: map alert_severity_label severities);
   Text (pretty (Z.of_nat n) +:+ " rule" +:+ plural (Z.of_nat n)
         +:+ if bool_decide (n = length (p_rules p)) then "" else " (of " +:+ count (p_rules p) +:+ ")")].

Definition empty_page : list view :=
  let e := EMPTY_STATES alerts in
  EmptyState (es_title e) (es_description e) (es_features e)
    (match es_primaryAction e, es_docsAction e with
     | Some (l1, h1), Some (l2, h2) => [mkAction l1 (Some h1) false; mkAction l2 (Some h2) true]
     | _, _ => []
     end).

Definition linkedIncident (rule : AlertRule) : option (string * string) :=
  (fun i => (IncidentList.li_id i, IncidentList.li_title i)) <$>
  List.find (fun i => bool_decide (IncidentList.li_alertRuleId i = ar_id rule) && negb (IncidentList.has_status Incidents.resolved i)) incidents.

(** [expanded]: the cards that are open. *)
Definition rule_list (p : page) (expanded : gset string) : list view :=
  match shown_rules p with
  | [] => match p_rules p with [] => empty_page | _ => FilterEmpty "alert rules" true end
  | l => map (fun r => RuleCard tz now r (linkedIncident r) (bool_decide (ar_id r ∈ expanded))) l
  end.

Definition dialog (p : page) : list view :=
  match p_create p with Some f => RuleDialog None f | None => [] end
  ++ match p_edit p with Some (r, f) => RuleDialog (Some r) f | None => [] end.

Definition AlertsPage (p : page) (expanded : gset string) (logs : answer (list AuditLogView)) (servers : answer (list ServerView)) : list view :=
  page_head ++ alert_figures p (rows logs) (rows servers) ++ filter_row p ++ rule_list p expanded
  ++ [Text "Alert rules are evaluated client-side in this preview. In production the gateway evaluates rules against real-time telemetry and fires notifications via the configured channels."]
  ++ dialog p.
End page_view.

(** ** Lemmas *)

Lemma save_form_rules now p :
  p_rules (save_form now p) = p_rules p \/
  (exists f, p_rules (save_form now p) = addRule now f (p_rules p)) \/
  (exists id f, p_rules (save_form now p) = saveRule id f (p_rules p)).
Proof.
  unfold save_form. destruct (p_create p) as [f|]; [|destruct (p_edit p) as [[r f]|]; [|by left]].
  all: case_bool_decide; [by left|]; cbn; eauto 6.
Qed.

(** What a step does to the rules. *)
Lemma step_rules p e :
  p_rules (step p e) = p_rules p \/
  (exists now f, e = SaveForm now /\ p_rules (step p e) = addRule now f (p_rules p)) \/
  (exists id f, p_rules (step p e) = saveRule id f (p_rules p)) \/
  (exists id, p_rules (step p e) = deleteRule id (p_rules p)) \/
  (exists id, p_rules (step p e) = toggleRule id (p_rules p)).
Proof.
  destruct e; cbn [step]; try (destruct (covered p); [by left|]); cbn; eauto 6.
  - case_match; by left.
  - destruct (save_form_rules now p) as [H|[[f H]|(id & f & H)]]; eauto 8.
Qed.

Lemma run_reachable es p : rules_reachable (p_rules p) -> rules_reachable (p_rules (run es p)).
Proof.
  revert p. induction es as [|e es IH]; intros p H; [done|]. apply IH.
  destruct (step_rules p e) as [->|[(now & f & _ & ->)|[(id & f & ->)|[(id & ->)|(id & ->)]]]]; [done|by constructor..].
Qed.

Lemma ids_on_rule id g rs : (forall r, ar_id (g r) = ar_id r) -> ar_id <$> on_rule id g rs = ar_id <$> rs.
Proof.
  intros Hg. unfold on_rule. rewrite <- list_fmap_compose. apply list_fmap_ext. intros _ r _. cbn.
  by case_bool_decide.
Qed.

(** The times at which a dialog is saved. *)
Definition save_times (es : list event) : list Z := omap (fun e => match e with SaveForm now => Some now | _ => None end) es.

(** Ids of distinct creations. *)
Definition ids_before (t : Z) (rs : list AlertRule) : Prop :=
  NoDup (ar_id <$> rs) /\ forall r, r ∈ rs -> exists t', (t' < t)%Z /\ ar_id r = "rule-" +:+ pretty t'.

Lemma ids_before_sub t rs rs' : ids_before t rs -> ar_id <$> rs' `sublist_of` ar_id <$> rs -> ids_before t rs'.
Proof.
  intros [H1 H2] Hs. split; [by eapply sublist_NoDup|]. intros r Hr.
  assert (ar_id r ∈ ar_id <$> rs) as (r' & E & Hr')%list_elem_of_fmap.
  { eapply elem_of_sublist; [|exact Hs]. apply list_elem_of_fmap. by exists r. }
  destruct (H2 r' Hr') as (t' & ? & ?). exists t'. split; [done|congruence].
Qed.

Lemma ids_before_mono t t' rs : (t <= t')%Z -> ids_before t rs -> ids_before t' rs.
Proof. intros H [H1 H2]. split; [done|]. intros r Hr. destruct (H2 r Hr) as (x & ? & ?). exists x. split; [lia|done]. Qed.

Lemma ids_before_add now f rs : ids_before now rs -> ids_before (now + 1) (addRule now f rs).
Proof.
  intros [H1 H2]. split.
  - cbn. apply NoDup_cons. split; [|done]. intros (r & E & Hr)%list_elem_of_fmap.
    destruct (H2 r Hr) as (t' & Ht & E'). rewrite E' in E. cbn [ar_id] in E. apply (inj (String.append "rule-")) in E. apply (inj pretty) in E. lia.
  - intros r [->|Hr]%elem_of_cons; [exists now; cbn; split; [lia|done]|].
    destruct (H2 r Hr) as (t' & ? & ?). exists t'. split; [lia|done].
Qed.

Lemma step_ids t p e :
  ids_before t (p_rules p) -> (forall now, e = SaveForm now -> (t <= now)%Z) ->
  ids_before (match e with SaveForm now => now + 1 | _ => t end)%Z (p_rules (step p e)).
Proof.
  intros H Ht.
  assert (Hk : forall rs', ar_id <$> rs' `sublist_of` ar_id <$> p_rules p ->
    ids_before (match e with SaveForm now => now + 1 | _ => t end)%Z rs').
  { intros rs' Hs. eapply ids_before_sub; [|exact Hs]. destruct e; try done.
    eapply ids_before_mono; [|exact H]. specialize (Ht now eq_refl). lia. }
  destruct (step_rules p e) as [->|[(now & f & -> & ->)|[(id & f & ->)|[(id & ->)|(id & ->)]]]].
  - by apply Hk.
  - apply ids_before_add. eapply ids_before_mono; [|exact H]. by apply Ht.
  - apply Hk. unfold saveRule. by rewrite ids_on_rule.
  - apply Hk. unfold deleteRule. clear. induction (p_rules p) as [|r rs IH]; [done|].
    cbn. case_bool_decide; cbn; by constructor.
  - apply Hk. unfold toggleRule. by rewrite ids_on_rule.
Qed.

(** ** Properties *)

(** As long as the clock advances between saves, the rules of the page have
    different ids after any sequence of clicks, so that each card's buttons act
    on one rule. *)
Theorem rule_ids_unique es :
  Sorted.StronglySorted Z.lt (save_times es) -> NoDup (ar_id <$> p_rules (run es initial)).
Proof.
  intros Hs. enough (forall t p, ids_before t (p_rules p) -> Forall (Z.le t) (save_times es) ->
    exists t', ids_before t' (p_rules (run es p))) as H.
  { destruct (save_times es) as [|t l] eqn:E.
    - destruct (H 0%Z initial) as (t' & H' & _); [split; [constructor|intros r Hr; by apply elem_of_nil in Hr]|constructor|done].
    - destruct (H t initial) as (t' & H' & _); [split; [constructor|intros r Hr; by apply elem_of_nil in Hr]| |done].
      constructor; [lia|]. apply Sorted.StronglySorted_inv in Hs as [_ Hs]. eapply List.Forall_impl; [|exact Hs]. lia. }
  induction es as [|e es IH]; intros t p Hp Ht; [by exists t|]. change (run (e :: es) p) with (run es (step p e)).
  eapply (IH _ (match e with SaveForm now => now + 1 | _ => t end)%Z).
  - apply step_ids; [done|]. intros now ->. cbn in Ht. by apply Forall_cons_1 in Ht as [? _].
  - destruct e; try done. cbn in Ht, Hs. apply Sorted.StronglySorted_inv in Hs as [_ Hs].
    eapply List.Forall_impl; [|exact Hs]. intros a Ha. cbn in Ha. lia.
  Unshelve. destruct e; try done. cbn in Hs. by apply Sorted.StronglySorted_inv in Hs as [Hs _].
Qed.

(** Whatever is clicked, the page counts no firing rule and no active incident,
    while the page its Incidents link opens counts two. *)
Theorem incident_figures_contradict es tz now expanded logs servers filter :
  Stat "Firing now" "0" ∈ AlertsPage tz now (run es initial) expanded logs servers /\
  Stat "Active incidents" "0" ∈ AlertsPage tz now (run es initial) expanded logs servers /\
  Stat "Active" "2" ∈ IncidentList.IncidentsPage tz now filter (IncidentList.INCIDENTS now).
Proof.
  assert (Hf : firingCount (p_rules (run es initial)) = 0).
  { apply alert_rules_never_fire, run_reachable. constructor. }
  split_and!.
  - unfold AlertsPage, alert_figures. rewrite Hf. find_elem.
  - unfold AlertsPage, alert_figures. find_elem.
  - unfold IncidentList.IncidentsPage. change (IncidentList.figures _) with [Stat "Active" "2"; Stat "Resolved" "2"; Stat "Total" "4"].
    find_elem.
Qed.

(** Choosing a type in the dialog replaces the threshold that was typed, and
    what is created has the threshold of the type. *)
Theorem type_choice_discards_threshold now v t f p :
  let g := edit_form (edit_form f (SetThreshold v)) (SetType t) in
  rf_threshold g = defaultThreshold t /\
  (trim (rf_name f) <> "" -> p_create p = Some g ->
   ar_threshold <$> head (p_rules (step p (SaveForm now))) = Some (defaultThreshold t)).
Proof.
  destruct f as [n ty s th w pt d c]. cbn. split; [done|]. intros Hn Hp.
  unfold save_form. rewrite Hp. cbn. by rewrite bool_decide_false.
Qed.

(** ** Witnesses *)

Lemma rule_ids_unique_witness :
  NoDup (ar_id <$> p_rules (run [OpenCreate; EditForm (SetName "a"); SaveForm 1; OpenCreate; EditForm (SetName "b"); SaveForm 2] initial)).
Proof. apply rule_ids_unique. repeat constructor. Defined.

Lemma type_choice_discards_threshold_witness :
  ar_threshold <$> head (p_rules (step (with_dialog (Some (edit_form (edit_form
    (edit_form (initial_form None) (SetName "a")) (SetThreshold "> 1%")) (SetType circuit_breaker))) None initial) (SaveForm 1)))
  = Some "circuit opens".
Proof.
  apply (type_choice_discards_threshold 1 "> 1%" circuit_breaker (edit_form (initial_form None) (SetName "a"))
           (with_dialog (Some (edit_form (edit_form (edit_form (initial_form None) (SetName "a")) (SetThreshold "> 1%"))
              (SetType circuit_breaker))) None initial)); [discriminate|reflexivity].
Defined.

(** Both clicks in one millisecond give two rules one id. *)
Example same_millisecond :
  ar_id <$> p_rules (run [OpenCreate; EditForm (SetName "a"); SaveForm 1; OpenCreate; EditForm (SetName "b"); SaveForm 1] initial)
  = ["rule-1"; "rule-1"].
Proof. vm_compute. reflexivity. Qed.
