(* ===== verification/ErrorsView.v ===== *)
(** * What the error page shows: web/src/app/dashboard/observability/errors/page.tsx

    A group's card with its tabs and its owner form, and the page.  The groups,
    their triage state and the filters are [Triage.ErrorsPage]. *)

From S2P Require Import Prelude JsString JsUri Json Browser ApiTypes RelTime Tally Traffic AuditPage Triage View.

Import ErrorsPage.

#[local] Notation count l := (pretty (Z.of_nat (length l))).

Definition newline : string := String "010" "".

(** [TYPE_LABELS[[type]]?.label ?? type] *)
Definition type_label (t : AuditEventType) : string :=
  if bool_decide (t = AuditEventType_auth_failure) then "Auth failure"
  else if bool_decide (t = AuditEventType_rbac_deny) then "Access denied"
  else if bool_decide (t = AuditEventType_tool_call) then "Execution error"
  else AuditEventType_value t.

Definition frames (g : ErrorGroup) : list string :=
  if bool_decide (eg_type g = AuditEventType_auth_failure) then
    ["at TokenValidator.verify (gateway/auth/token.ts:142)"; "at AuthMiddleware.handle (gateway/middleware/auth.ts:67)";
     "at RequestPipeline.run (gateway/pipeline/index.ts:34)"]
  else if bool_decide (eg_type g = AuditEventType_rbac_deny) then
    ["at PolicyEngine.evaluate (gateway/policy/rbac.ts:89) — tool=" +:+ quoted (eg_tool g) +:+ " server=" +:+ quoted (eg_server g);
     "at RBACMiddleware.handle (gateway/middleware/rbac.ts:51)"; "at RequestPipeline.run (gateway/pipeline/index.ts:38)"]
  else
    ["at ToolProxy.call (gateway/proxy/tool.ts:203) — server=" +:+ quoted (eg_server g) +:+ " tool=" +:+ quoted (eg_tool g);
     "at UpstreamClient.send (gateway/upstream/client.ts:118)"; "at RequestPipeline.run (gateway/pipeline/index.ts:45)"].

Definition syntheticStack (g : ErrorGroup) : string := join newline (frames g).

(** ** A card *)

Inductive CardTab := stack | samples | servers | tools.

(** What a card keeps: [c_ownerDraft] starts with the owner at mount. *)
Record card := mkCard { c_expanded : bool; c_activeTab : CardTab; c_showOwnerInput : bool; c_ownerDraft : string }.

Definition mount (s : LocalGroupState) : card := mkCard false stack false (lg_owner s).

Inductive card_event :=
  | Expand
  | ChooseTab (t : CardTab)
  | OpenOwner
  | TypeOwner (v : string)
  | Assign  (** the form's submit *)
  | CancelOwner
  | Press (p : patch).  (** resolve, reopen, mute *)

(** The card and the page's state of its group. *)
Definition card_step (key : string) (cs : card * gmap string LocalGroupState) (e : card_event)
    : card * gmap string LocalGroupState :=
  let '(mkCard ex tab own draft, st) := cs in
  match e with
  | Expand => (mkCard (negb ex) tab own draft, st)
  | ChooseTab t => (mkCard ex t own draft, st)
  | OpenOwner => (mkCard ex tab true draft, st)
  | TypeOwner v => (if own then mkCard ex tab own v else mkCard ex tab own draft, st)
  | Assign => if own then (mkCard ex tab false draft, updateState key (SetOwner draft) st) else (mkCard ex tab own draft, st)
  | CancelOwner => (mkCard ex tab false draft, st)
  | Press p => (mkCard ex tab own draft, updateState key p st)
  end.

Definition card_run (key : string) (es : list card_event) (cs : card * gmap string LocalGroupState)
    : card * gmap string LocalGroupState := fold_left (card_step key) es cs.

Section views.
(** The zone, the clock and [toLocaleString]. *)
Context (tz now : Z) (localeString : string -> string).

Definition fmtDate (iso : string) : string := if bool_decide (iso = "") then "—" else localeString iso.

Definition resolution_label (s : ResolutionStatus) : string :=
  match s with open => "Open" | resolved => "Resolved" | muted => "Muted" end.

Definition ActionBtn (label handler : string) : view := Button label false handler.

Definition owner_part (c : card) (owner : string) : list view :=
  if c_showOwnerInput c then
    [Input "" (c_ownerDraft c) "Enter owner name" false; Button "Assign" false "onUpdate owner"; Button "Cancel" false "setShowOwnerInput"]
  else [ActionBtn (if bool_decide (owner = "") then "Assign owner" else "Assigned: " +:+ owner) "setShowOwnerInput"].

Definition trace_href (g : ErrorGroup) : string :=
  "/dashboard/observability/traces?search="
  +:+ encodeURIComponent (default "" (l ← head (eg_samples g); AuditLogView_request_id l)).

Definition action_bar (g : ErrorGroup) (s : LocalGroupState) (c : card) : list view :=
  owner_part c (lg_owner s)
  ++ [if bool_decide (lg_status s = resolved) then ActionBtn "Reopen" "onUpdate open" else ActionBtn "Mark resolved" "onUpdate resolved";
      ActionBtn (if lg_isMuted s then "Unmute" else "Mute") "onUpdate muted"; ActionBtn "Add alert" "alert";
      ActionBtn "Create issue" "alert"; Link "Open trace" (trace_href g)].

Definition meta_row (g : ErrorGroup) : list view :=
  [Stat "First seen" (fmtDate (eg_firstSeen g)); Stat "Last seen" (fmtDate (eg_lastSeen g));
   Stat "Affected servers" (count (eg_affectedServers g)); Stat "Affected tools" (count (eg_affectedTools g));
   Stat "Related deployment" "—"].

Definition tab_labels (g : ErrorGroup) : list string :=
  ["Stack trace"; "Samples (" +:+ count (eg_samples g) +:+ ")"; "Servers (" +:+ count (eg_affectedServers g) +:+ ")";
   "Tools (" +:+ count (eg_affectedTools g) +:+ ")"].

(** The id of a request, or of the entry. *)
Definition sample_id (l : Log) : string :=
  match AuditLogView_request_id l with Some r => stake 16 r | None => stake 16 (AuditLogView_id l) end +:+ "…".

(** [s.detail] is an object, so it is always shown. *)
Definition sample_row (l : Log) : list view :=
  [Text (fmtDate (AuditLogView_created_at l)); Text (sample_id l); Text (default "—" (AuditLogView_client_ip l));
   Text (JSON_stringify (detail_json l))].

Definition names (none : string) (l : list string) : list view := match l with [] => [Text none] | _ => map Text l end.

Definition tab_body (t : CardTab) (g : ErrorGroup) : list view :=
  match t with
  | stack => [Code ("Error: " +:+ eg_title g +:+ newline +:+ syntheticStack g)]
  | samples => flat_map sample_row (eg_samples g)
  | servers => names "No server info" (eg_affectedServers g)
  | tools => names "No tool info" (eg_affectedTools g)
  end.

Definition summary_row (g : ErrorGroup) (s : LocalGroupState) : list view :=
  [Text (eg_title g); Badge (type_label (eg_type g)); Badge (eg_server g)]
  ++ when (negb (bool_decide (eg_tool g = "—"))) [Badge (eg_tool g)]
  ++ when (negb (bool_decide (lg_owner s = ""))) [Badge (lg_owner s)]
  ++ [Stat "occurrences" (pretty (Z.of_nat (eg_frequency g))); Stat "last seen" (errors_relativeTime tz now (eg_lastSeen g));
      Badge (resolution_label (lg_status s))].

Definition ErrorGroupCard (g : ErrorGroup) (s : LocalGroupState) (c : card) : view :=
  Card "" ""
    (summary_row g s
     ++ when (c_expanded c)
          (action_bar g s c ++ meta_row g ++ map (fun t => Button t false "setActiveTab") (tab_labels g)
           ++ tab_body (c_activeTab c) g)).

(** ** The page *)

Definition resolvedCount (st : gmap string LocalGroupState) (gs : list ErrorGroup) : nat :=
  length (List.filter (fun g => bool_decide (lg_status (getState st (eg_key g)) = resolved)) gs).

Definition figures (loading : bool) (st : gmap string LocalGroupState) (gs : list ErrorGroup) : list view :=
  map (fun kv => Stat (kv.1) (if loading then "—" else pretty (Z.of_nat (kv.2))))
    [("Open errors", openCount st gs); ("Resolved", resolvedCount st gs); ("Muted", mutedCount st gs);
     ("Total occurrences", totalOccurrences gs)].

Definition search_row (f : filters) : list view :=
  [Input "" (ef_search f) "Search errors by title, server, tool…" false; Button "Filters" false "setShowFilters";
   Button (if ef_showMuted f then "Hide muted" else "Show muted") false "setShowMuted"; Button "" false "refetch"].

Definition filter_panel (f : filters) : list view :=
  [Select "Error type" (ef_type f) ["All types"; "Auth failure"; "Access denied"; "Execution error"];
   Select "Resolution status" (ef_status f) ["All statuses"; "Open"; "Resolved"; "Muted"]; Button "Clear" false "clear"].

(** The panel's Clear leaves the search and the muted groups. *)
Definition clear (f : filters) : filters := mkFilters (ef_search f) "" "" (ef_showMuted f).

Definition result_count (loading : bool) (n total : nat) : string :=
  (if loading then "Loading…" else pretty (Z.of_nat n) +:+ " error group" +:+ plural (Z.of_nat n))
  +:+ if bool_decide (n = total) then "" else " (filtered from " +:+ pretty (Z.of_nat total) +:+ ")".

Definition group_list (loading : bool) (f : filters) (st : gmap string LocalGroupState) (cards : string -> card) (gs : list ErrorGroup) : list view :=
  if loading then [Skeletons 4] else
  match filtered f st gs with
  | [] => [Text (match gs with [] => "No errors detected in recent audit logs" | _ => "No error groups match the current filters" end)]
  | l => map (fun g => ErrorGroupCard g (getState st (eg_key g)) (cards (eg_key g))) l
  end.

Definition ErrorsPage (q : answer (list Log)) (f : filters) (showFilters : bool) (st : gmap string LocalGroupState)
    (cards : string -> card) : list view :=
  let gs := groupErrors tz (rows q) in
  [Text "Error Analysis"; Text "Errors grouped by type, server, and tool — with resolution tracking and investigation actions."]
  ++ figures (is_pending q) st gs ++ search_row f ++ when showFilters (filter_panel f)
  ++ [Text (result_count (is_pending q) (length (filtered f st gs)) (length gs))]
  ++ group_list (is_pending q) f st cards gs
  ++ [Text "Error groups are derived from audit log events. Resolution status and assignments are local to this session — persistent incident management requires a connected issue tracker."].
End views.

(** ** Lemmas *)

(** The clicks on all cards: their states and the page's triage state. *)
Definition page_step (ps : gmap string card * gmap string LocalGroupState) (ke : string * card_event)
    : gmap string card * gmap string LocalGroupState :=
  let '(cards, st) := ps in
  let '(c, st') := card_step (ke.1) (default (mount (getState st (ke.1))) (cards !! (ke.1)), st) (ke.2) in
  (<[ke.1 := c]> cards, st').

Definition page_run (es : list (string * card_event)) (ps : gmap string card * gmap string LocalGroupState) :=
  fold_left page_step es ps.

Definition never_muted (st : gmap string LocalGroupState) : Prop := forall k, lg_status (getState st k) <> muted.

Lemma update_never_muted k p st : never_muted st -> never_muted (updateState k p st).
Proof.
  intros H k'. rewrite getState_update. case_bool_decide; [|apply H]. by destruct p; cbn; try apply H.
Qed.

Lemma card_never_muted key cs e : never_muted (cs.2) -> never_muted ((card_step key cs e).2).
Proof.
  destruct cs as [[ex tab own draft] st]. intros H. destruct e; cbn; try done; [destruct own|]; cbn; try done;
    by apply update_never_muted.
Qed.

Lemma run_never_muted es ps : never_muted (ps.2) -> never_muted ((page_run es ps).2).
Proof.
  revert ps. induction es as [|e es IH]; intros [cards st] H; [done|]. apply IH. unfold page_step.
  pose proof (card_never_muted (e.1) (default (mount (getState st (e.1))) (cards !! (e.1)), st) (e.2) H) as Hn.
  by destruct (card_step _ _ _).
Qed.

(** ** Properties *)

(** Open and resolved groups are all groups, whatever was clicked on the cards. *)
Theorem open_and_resolved_are_all es cards gs :
  let st := (page_run es (cards, ∅)).2 in openCount st gs + resolvedCount st gs = length gs.
Proof.
  intros st. assert (H : never_muted st).
  { apply run_never_muted. intros k. unfold getState. cbn. by rewrite lookup_empty. }
  unfold openCount, resolvedCount. induction gs as [|g gs IH]; [done|]. cbn. specialize (H (eg_key g)).
  destruct (lg_status (getState st (eg_key g))); try done;
    repeat (case_bool_decide; try congruence); cbn; lia.
Qed.

(** The stack trace is made up: it is the same for any two groups whose first
    entries agree in type, server and tool, whatever happened. *)
Theorem stack_is_made_up tz k k' rep rep' rest rest' :
  AuditLogView_event_type rep = AuditLogView_event_type rep' -> AuditLogView_server_slug rep = AuditLogView_server_slug rep' ->
  AuditLogView_tool_name rep = AuditLogView_tool_name rep' ->
  syntheticStack <$> make_group tz (k, rep :: rest) = syntheticStack <$> make_group tz (k', rep' :: rest').
Proof. intros H1 H2 H3. unfold make_group, syntheticStack, frames. cbn. by rewrite H1, H2, H3. Qed.

(** The Samples tab counts what it lists, at most five, while the occurrences
    count the whole group. *)
Theorem samples_tab_counts tz logs g :
  g ∈ groupErrors tz logs ->
  length (eg_samples g) = Nat.min 5 (eg_frequency g) /\
  tab_labels g !! 1 = Some ("Samples (" +:+ pretty (Z.of_nat (Nat.min 5 (eg_frequency g))) +:+ ")").
Proof.
  intros H. assert (length (eg_samples g) = Nat.min 5 (eg_frequency g)) as E; [|split; [done|]; unfold tab_labels; cbn; by rewrite E].
  unfold groupErrors in H. rewrite stable_sort_perm in H. apply list_elem_of_omap in H as (e & _ & He).
  apply make_group_key in He as (_ & -> & ->). apply length_take.
Qed.

(** Cancelling the owner form keeps what was typed: the next assignment made
    without typing assigns it. *)
Theorem cancelled_owner_assigned key v es ex tab draft st :
  Forall (fun e => match e with Press _ | Expand | ChooseTab _ => True | _ => False end) es ->
  let st' := (card_run key ([OpenOwner; TypeOwner v; CancelOwner] ++ es ++ [OpenOwner; Assign]) (mkCard ex tab false draft, st)).2 in
  lg_owner (getState st' key) = v.
Proof.
  intros H. unfold card_run. rewrite !fold_left_app. cbn [fold_left card_step].
  assert (Hk : forall ex tab st, exists ex' tab' st', fold_left (card_step key) es (mkCard ex tab false v, st) = (mkCard ex' tab' false v, st')).
  { induction H as [|e es He _ IH]; intros ex0 tab0 st0; [eauto|]. cbn [fold_left]. destruct e; try done; apply IH. }
  destruct (Hk ex tab st) as (ex' & tab' & st' & ->). cbn. rewrite getState_update, bool_decide_true by done. done.
Qed.

(** ** Witnesses *)

Lemma stack_is_made_up_witness :
  syntheticStack <$> make_group 0 ("a", [demo_error]) = syntheticStack <$> make_group 0 ("b", [demo_error; demo_error]).
Proof. apply stack_is_made_up; reflexivity. Defined.

Lemma samples_tab_counts_witness : exists g, g ∈ groupErrors 0 (replicate 7 demo_error) /\ length (eg_samples g) = 5.
Proof.
  assert (exists g, groupErrors 0 (replicate 7 demo_error) = [g]) as [g H] by (eexists; vm_compute; reflexivity).
  assert (g ∈ groupErrors 0 (replicate 7 demo_error)) as Hg by (rewrite H; apply list_elem_of_here).
  exists g. split; [exact Hg|]. rewrite (proj1 (samples_tab_counts 0 (replicate 7 demo_error) g Hg)).
  revert H. vm_compute. intros [= <-]. reflexivity.
Defined.

Lemma cancelled_owner_assigned_witness :
  lg_owner (getState (card_run "k" [OpenOwner; TypeOwner "Ann"; CancelOwner; Press Resolve; OpenOwner; Assign]
                        (mkCard true stack false "", ∅)).2 "k") = "Ann".
Proof. apply (cancelled_owner_assigned "k" "Ann" [Press Resolve]). repeat constructor. Defined.
