(* ===== verification/TracesView.v ===== *)
(** * What the trace explorer shows: web/src/app/dashboard/observability/traces/page.tsx

    The list with its filter panel, a trace's waterfall and the tabs of a span.
    The synthesis of spans and the filters are [Triage.Traces]. *)

From S2P Require Import Prelude JsString Json JsonParse Browser ApiTypes RelTime Tally Traffic AuditPage Triage View.

Import Traces.

#[local] Notation count l := (pretty (Z.of_nat (length l))).

(** ** A span *)

Inductive SpanTab := attrs | logs | errors.

Definition span_tabs (s : Span) : list view :=
  [Button "Attributes" false "setTab"; Button "Logs" false "setTab"; Text (count (sp_logs s));
   Button "Errors" false "setTab"; Text (count (sp_errors s))].

Definition SpanDetail (tab : SpanTab) (s : Span) : list view :=
  span_tabs s ++
  match tab with
  | attrs => map (fun kv => Stat (kv.1) (kv.2)) (sp_attributes s)
  | logs => match sp_logs s with [] => [Text "No logs"] | l => flat_map (fun x => [Text "›"; Text x]) l end
  | errors => match sp_errors s with [] => [Text "No errors"] | l => map Text l end
  end.

(** Percentages of the track, with the total as denominator: [leftPct] and
    [widthPct], which is 2 when the total is 0. *)
Definition leftPct (total : Z) (s : Span) : Z * Z := if (0 <? total)%Z then (sp_startOffset s * 100, total)%Z else (0, 1)%Z.
Definition widthPct (total : Z) (s : Span) : Z * Z := if (0 <? total)%Z then (sp_duration s * 100, total)%Z else (2, 1)%Z.

Definition WaterfallBar (s : Span) (tab : option SpanTab) : list view :=
  [Button (sp_name s) false "onToggle"; Text (pretty (sp_duration s) +:+ "ms")]
  ++ match tab with Some t => SpanDetail t s | None => [] end.

(** ** A trace *)

Definition errorCount (t : Trace) : nat := length (List.filter (fun s => bool_decide (sp_status s = error)) (tr_spans t)).
Definition warnCount (t : Trace) : nat := length (List.filter (fun s => bool_decide (sp_status s = warn)) (tr_spans t)).

(** The outcome is one of two texts. *)
Definition outcome_upper (o : string) : string := if bool_decide (o = "error") then "ERROR" else "SUCCESS".

Definition toggleSpan (id : string) (expanded : gset string) : gset string :=
  if bool_decide (id ∈ expanded) then expanded ∖ {[id]} else {[id]} ∪ expanded.

Section views.
(** The zone, the clock, [toLocaleTimeString], and the entry as JSON. *)
Context (tz now : Z) (fmtTime : string -> string) (raw_json : Log -> json).

Definition trace_facts (t : Trace) : list (string * string) :=
  [("Tool", tr_tool t); ("Server", tr_server t); ("User", tr_user t); ("Started", fmtTime (tr_startTime t));
   ("Duration", pretty (tr_totalDuration t) +:+ "ms"); ("Spans", count (tr_spans t));
   ("Errors", pretty (Z.of_nat (errorCount t))); ("Warnings", pretty (Z.of_nat (warnCount t)))].

(** [expanded]: the open spans; [tabs]: the tab each of them shows. *)
Definition TraceDetail (t : Trace) (expanded : gset string) (tabs : string -> SpanTab) : list view :=
  [Button "Back to traces" false "onBack"; Stat "Trace ID" (tr_id t); Badge (outcome_upper (tr_outcome t))]
  ++ map (fun kv => Stat (kv.1) (kv.2)) (trace_facts t)
  ++ [Text "SPAN"; Text ("TIMELINE (0 – " +:+ pretty (tr_totalDuration t) +:+ "ms)"); Text "DUR."]
  ++ flat_map (fun s => WaterfallBar s (if bool_decide (sp_id s ∈ expanded) then Some (tabs (sp_id s)) else None)) (tr_spans t)
  ++ [Text "Raw audit record"; Code (JSON_stringify_indent 2 (raw_json (tr_raw t)))].

(** ** The page *)

Definition serverSlugs (servers : list ServerView) : list string :=
  fold_left Observability.set_add_str (map (fun s => Some (ServerView_slug s)) servers) [].

Definition no_filters : filters := mkFilters "" "" "" "" "" "".

(** The panel's Clear keeps the search. *)
Definition clear (f : filters) : filters := mkFilters (ft_search f) "" "" "" "" "".

Definition filter_panel (f : filters) (slugs : list string) : list view :=
  [Select "Server" (ft_server f) ("All servers" :: slugs); Select "Outcome" (ft_outcome f) ["All outcomes"; "Success"; "Error"];
   Input "Tool name" (ft_tool f) "e.g. search, fetch" false; Input "Min duration (ms)" (ft_minDuration f) "e.g. 200" false;
   Input "From date" (ft_dateFrom f) "" false; Button "Clear filters" false "clear"].

Definition trace_row (t : Trace) : list view :=
  [Code (stake 16 (tr_id t) +:+ "…"); Text (tr_tool t); Text (tr_server t); Text (tr_user t);
   Text (pretty (tr_totalDuration t) +:+ "ms"); Text (count (tr_spans t)); Badge (tr_outcome t);
   Text (traces_relativeTime tz now (tr_startTime t))].

Definition results (loading : bool) (n total : nat) : string :=
  (if loading then "Loading…" else pretty (Z.of_nat n) +:+ " traces")
  +:+ if bool_decide (n = total) then "" else " (filtered from " +:+ pretty (Z.of_nat total) +:+ ")".

Definition trace_table (loading : bool) (l : list Trace) : view :=
  if loading then Skeletons 64 else
  Table ["Trace ID"; "Tool"; "Server"; "User"; "Duration"; "Spans"; "Outcome"; "Time"]
    (match l with [] => [[Text "No traces found"]] | _ => map trace_row l end).

Record page := mkPage {
  p_filters : filters; p_showFilters : bool; p_selected : option Trace; p_expanded : gset string; p_tabs : string -> SpanTab }.

Definition initial : page := mkPage no_filters false None ∅ (fun _ => attrs).

Definition TracesPage (at_least : string -> option (Z -> bool)) (q : answer (list Log)) (servers : answer (list ServerView))
    (p : page) : list view :=
  match p_selected p with
  | Some t => TraceDetail t (p_expanded p) (p_tabs p)
  | None =>
      let traces := map buildTrace (rows q) in
      let shown := filtered tz at_least (p_filters p) traces in
      [Text "Trace Explorer"; Text "Distributed traces synthesized from audit events — click any row to view the full span waterfall.";
       Input "" (ft_search (p_filters p)) "Search by trace ID, tool, server, user…" false; Button "Filters" false "setShowFilters";
       Button "" false "refetch"]
      ++ when (p_showFilters p) (filter_panel (p_filters p) (serverSlugs (rows servers)))
      ++ [Text (results (is_pending q) (length shown) (length traces)); trace_table (is_pending q) shown;
          Text "Traces are synthesized from audit log events. Real distributed tracing requires OpenTelemetry instrumentation on the Portcullis gateway."]
  end.
End views.

Lemma total_duration l :
  tr_totalDuration (buildTrace l) =
  if auth_failed l then 11%Z else if denied l then 18%Z else if limited l then 23%Z else 85%Z.
Proof.
  cbn. unfold spans_of, cutAfter. destruct (auth_failed l); [reflexivity|].
  destruct (denied l); [reflexivity|]. destruct (limited l); reflexivity.
Qed.

(** ** Properties *)

(** The duration of a trace says nothing about the request: it is one of four
    numbers, given by how far the request is said to have come. *)
Theorem durations_are_made_up l :
  tr_totalDuration (buildTrace l) =
    (if auth_failed l then 11%Z else if denied l then 18%Z else if limited l then 23%Z else 85%Z) /\
  (tr_totalDuration (buildTrace l) <= 500)%Z.
Proof. rewrite total_duration. split; [done|]. by repeat case_match. Qed.

(** The Errors figure of a trace is positive exactly for the traces marked as
    errors, and a trace of an entry that names its tool, and is neither a failure
    nor a warning, has neither errors nor warnings. *)
Theorem error_figure_agrees l :
  let t := buildTrace l in
  (0 < errorCount t <-> tr_outcome t = "error") /\
  (tr_outcome t = "success" -> untooled l = false -> outcome_is "warn" l = false -> errorCount t = 0 /\ warnCount t = 0).
Proof.
  split.
  - transitivity (exists s, s ∈ spans_of l /\ sp_status s = error).
    + unfold errorCount. change (tr_spans (buildTrace l)) with (spans_of l). split.
      * intros H. destruct (List.filter _ _) as [|s r] eqn:E; [cbn in H; lia|].
        assert (s ∈ s :: r) as Hs by apply list_elem_of_here. rewrite <- E in Hs.
        apply list_elem_of_In, filter_In in Hs as [Hs Hp]. exists s. apply bool_decide_eq_true in Hp.
        by rewrite list_elem_of_In.
      * intros (s & Hs & Hp). apply list_elem_of_In in Hs.
        assert (In s (List.filter (fun s => bool_decide (sp_status s = error)) (spans_of l))) as H
          by (apply filter_In; by rewrite bool_decide_true).
        destruct (List.filter _ _); [done|cbn; lia].
    + rewrite <- spans_error. cbn. by destruct (is_error l).
  - cbn. intros Ho Hu Hw. assert (is_error l = false) as He by (by destruct (is_error l)).
    unfold is_error in He. bool_hyps. unfold errorCount, warnCount.
    change (tr_spans (buildTrace l)) with (spans_of l). unfold spans_of, cutAfter.
    unfold auth_failed, denied, limited in *. repeat match goal with H : _ = false |- _ => rewrite H end.
    cbn. unfold auth_failed, denied, limited.
    repeat match goal with H : _ = false |- _ => rewrite H end. cbn [orb].
    split; repeat (case_bool_decide; try done).
Qed.

(** Clicking a span twice closes what it opened, and each click concerns that
    span alone. *)
Theorem toggle_span_exact id e :
  toggleSpan id (toggleSpan id e) = e /\ forall k, k <> id -> (k ∈ toggleSpan id e <-> k ∈ e).
Proof.
  unfold toggleSpan. split.
  - destruct (decide (id ∈ e)) as [H|H].
    + rewrite !(bool_decide_true (id ∈ e)) by done. rewrite bool_decide_false by set_solver.
      rewrite <- union_difference_singleton_L; done.
    + rewrite !(bool_decide_false (id ∈ e)) by done. rewrite bool_decide_true by set_solver. set_solver.
  - intros k Hk. case_bool_decide; set_solver.
Qed.

(** A minimum duration above 85 ms hides every trace of every log. *)
Theorem slow_filter_hides_all tz at_least p f logs :
  ft_minDuration f <> "" -> at_least (ft_minDuration f) = Some p -> (forall n, (n <= 85)%Z -> p n = false) ->
  filtered tz at_least f (map buildTrace logs) = [].
Proof.
  intros Hf Hp Hall. unfold filtered. rewrite Hp. set (r := filter_if (ft_tool f) _ _).
  assert (Hr : forall t, t ∈ r -> (tr_totalDuration t <= 85)%Z).
  { assert (Hi : forall (c : string) (q : Trace -> bool) (l : list Trace) t, t ∈ filter_if c q l -> t ∈ l).
    { intros c q l t. unfold filter_if. case_match; [done|]. rewrite !list_elem_of_In, filter_In. by intros [? _]. }
    intros t Ht. do 4 apply Hi in Ht. apply list_elem_of_In, in_map_iff in Ht as (l & <- & _).
    rewrite total_duration. repeat case_match; lia. }
  assert (filter_if (ft_minDuration f) (fun t => p (tr_totalDuration t)) r = []) as ->.
  { unfold filter_if. rewrite bool_decide_false by done.
    induction r as [|t r IH]; [done|]. cbn. rewrite Hall by (apply Hr; apply list_elem_of_here).
    apply IH. intros t' Ht'. apply Hr. by apply list_elem_of_further. }
  unfold filter_if. by case_match.
Qed.

(** ** Witnesses *)

Lemma slow_filter_hides_all_witness :
  filtered 0 (fun _ => Some (fun n => 100 <=? n)%Z) (mkFilters "" "" "" "" "100" "") (map buildTrace [demo_error; demo_error]) = [].
Proof.
  apply (slow_filter_hides_all 0 (fun _ => Some (fun n => 100 <=? n)%Z) (fun n => 100 <=? n)%Z); [discriminate|reflexivity|].
  intros n Hn. apply Z.leb_gt. lia.
Defined.

Example plain_call_has_no_warning :
  let t := buildTrace (mkAuditLogView "1" None None None AuditEventType_tool_call (Some "s") (Some "read") None "success" None None [] "2026-01-01T00:00:00Z") in
  (errorCount t, warnCount t, tr_totalDuration t) = (0, 0, 85%Z).
Proof. vm_compute. reflexivity. Qed.
