(* ===== verification/ServerDetailView.v ===== *)
(** * What a server's page shows: web/src/app/dashboard/servers/[slug]/page.tsx

    The six tabs, the header and the tool call as a sequence of events.  The
    requests, the figures and the configuration form are
    [ServerPages.ServerDetail]. *)

From S2P Require Import Prelude JsString JsUri Json JsonParse Browser ApiTypes JsDate Tally JsNumber Tools ServerPages ToolPage View.

Import Catalogue ServerDetail.

#[local] Notation count l := (pretty (Z.of_nat (length l))).

(** ** The tool call in steps *)

(** Answers arrive on their own; nothing ties them to the tool on display. *)
Inductive event :=
  | ToolChange (name : string)
  | Field (key value : string)
  | CallStart
  | CallDone (result : option json)  (** [json.result]; [None]: undefined *)
  | CallFail (msg : string).

#[global] Instance callState_eq : EqDecision callState.
Proof. solve_decision. Defined.

Definition with_state (s : callState) (r : option json) (e : option string) (p : playground) : playground :=
  mkPlay (selectedTool p) (fieldValues p) s r e.

Definition start (js_Number : string -> json) (tools : list McpTool) (p : playground) : playground :=
  match tool_of tools p with
  | None => p
  | Some t =>
      if bool_decide (state p = calling) then p else
      match call_args js_Number t (fieldValues p) (default [] (mt_properties t)) with
      | inl _ => with_state error_ None None p
      | inr _ => with_state calling None None p
      end
  end.

Definition step (js_Number : string -> json) (tools : list McpTool) (p : playground) (e : event) : playground :=
  match e with
  | ToolChange name => handleToolChange name p
  | Field k v => setField k v p
  | CallStart => start js_Number tools p
  | CallDone r => with_state done_ r (callError p) p
  | CallFail msg => with_state error_ (response p) (Some msg) p
  end.

Definition run (js_Number : string -> json) (tools : list McpTool) (es : list event) (p : playground) : playground :=
  fold_left (step js_Number tools) es p.

Definition fresh : playground := mkPlay "" ∅ idle None None.

(** ** The tabs *)

(** A query for the tools: its answer or the message of its error. *)
Inductive tools_query := Loading | Error_ (msg : string) | Tools_ (l : list McpTool).

Section views.
(** The zone, [toLocaleString], the browser's collation. *)
Context (tz : Z) (localeString : string -> string) (localeCompare : string -> string -> comparison).

Definition StatusBadge (s : ServerStatus) : view := Badge (ServerStatus_value s).

Definition param_count (t : McpTool) : nat := length (default [] (mt_properties t)).

Definition tool_row (slug : string) (t : McpTool) : list view :=
  let n := param_count t in
  [Code (mt_name t)]
  ++ when (0 <? n)%nat [Badge (pretty (Z.of_nat n) +:+ " param" +:+ plural (Z.of_nat n))]
  ++ shown_text (mt_description t) ++ [Link "Try" (try_link slug t)].

Definition ToolsTab (slug : string) (q : tools_query) (fetching : bool) : list view :=
  match q with
  | Loading => [Skeletons 3]
  | Error_ msg => [Text "Failed to fetch tools"; Text msg; Button "Retry" false "refetch"]
  | Tools_ [] => [Text "No tools found"; Text "This server returned an empty tools list"]
  | Tools_ l => [Text (count l +:+ " tool" +:+ plural (Z.of_nat (length l))); Button "" fetching "refetch"] ++ flat_map (tool_row slug) l
  end.

Definition log_row (l : AuditLogView) : list view :=
  [Badge (AuditLogView_outcome l); Code (AuditEventType_value (AuditLogView_event_type l));
   Text (default "—" (AuditLogView_tool_name l)); Text (default "—" (AuditLogView_subject_id l));
   Text (localeString (AuditLogView_created_at l))].

Definition LogsTab (q : answer (list AuditLogView)) : list view :=
  if is_pending q then [Skeletons 5] else
  match rows q with
  | [] => [Text "No events yet"; Text "Events appear as traffic flows through this server"]
  | l => [Table ["Outcome"; "Event"; "Tool"; "Subject"; "Time"] (map log_row l)]
  end.

Definition OverviewTab (s : ServerView) : list view :=
  map (fun kv => Stat (kv.1) (kv.2))
    [("Slug", ServerView_slug s); ("Upstream URL", ServerView_upstream_url s);
     ("Transport", ServerTransport_value (ServerView_transport s)); ("Auth Mode", ServerAuthMode_value (ServerView_auth_mode s));
     ("Created", localeString (ServerView_created_at s));
     ("Last Health Check", from_option localeString "Never" (nonempty (ServerView_last_health_check_at s)));
     ("Health Failures", pretty (ServerView_consecutive_health_failures s))].

(** *** Playground *)
Definition field_control (kv : string * McpToolProperty) (value : string) : view :=
  let s := kv.2 in
  let area := bool_decide (mp_type s = Some "object") || bool_decide (mp_type s = Some "array") in
  if bool_decide (mp_type s = Some "boolean") then Select "" value ["—"; "true"; "false"]
  else match mp_enum s with
       | Some vs => Select "" value ("—" :: vs)
       | None => Input "" value (if area then "Enter JSON " +:+ default "" (mp_type s) +:+ "…" else default "" (mp_description s)) false
       end.

Definition field_row (t : McpTool) (p : playground) (kv : string * McpToolProperty) : list view :=
  let s := kv.2 in
  let area := bool_decide (mp_type s = Some "object") || bool_decide (mp_type s = Some "array") in
  [Code (kv.1)] ++ when (is_req (Some t) (kv.1)) [Text " *"] ++ shown_text (mp_type s)
  ++ [field_control kv (default "" (fieldValues p !! (kv.1)))] ++ when (negb area) (shown_text (mp_description s)).

(** [response !== null]; [JSON.stringify(undefined)] shows nothing. *)
Definition response_pane (p : playground) : list view :=
  match state p, response p with
  | done_, Some JNull => []
  | done_, Some j => [Text "Response"; Code (JSON_stringify_indent 2 j)]
  | done_, None => [Text "Response"; Code ""]
  | error_, _ => match nonempty (callError p) with Some e => [Text e] | None => [] end
  | _, _ => []
  end.

Definition call_form (t : McpTool) (p : playground) : list view :=
  let calling_ := bool_decide (state p = calling) in
  shown_text (mt_description t)
  ++ match default [] (mt_properties t) with
     | [] => [Text "This tool takes no parameters."]
     | props => flat_map (field_row t p) props
     end
  ++ [Button (if calling_ then "Calling…" else "Call Tool") calling_ "handleCall"] ++ response_pane p.

Definition PlaygroundTab (q : tools_query) (p : playground) : list view :=
  match q with
  | Loading => [Skeletons 3]
  | Error_ msg => [Text "Failed to load tools"; Text msg]
  | Tools_ [] => [Text "No tools available"; Text "This server has no discoverable tools to test"]
  | Tools_ l =>
      [Select "Select Tool" (selectedTool p) ("Choose a tool…" :: map mt_name l)]
      ++ match tool_of l p with Some t => call_form t p | None => [] end
  end.

(** *** Traffic *)
Definition traffic_stats (logs : list AuditLogView) : list view :=
  [Stat "Total Requests" (count logs);
   Stat "Allowed" (rounded_text (pct_of (length (with_outcome "allowed" logs)) (length logs)) +:+ "%");
   Stat "Denied" (rounded_text (pct_of (length (with_outcome "denied" logs)) (length logs)) +:+ "%");
   Stat "Unique Tools" (pretty (Z.of_nat (uniqueTools logs)))].

Definition top_rows (l : list (string * Z)) : list view :=
  concat (imap (fun i kv => [Text (pretty (Z.of_nat (S i))); Code (kv.1); Text (pretty (kv.2))]) l).

Definition TrafficTab (q : answer (list AuditLogView)) : list view :=
  if is_pending q then [Skeletons 5] else
  match rows q with
  | [] => [Text "No traffic data yet"; Text "Charts will appear once requests flow through this server"]
  | logs =>
      [Text "Requests by hour";
       Chart (map (fun b => (b.1, [("Allowed", hb_allowed (b.2)); ("Denied", hb_denied (b.2))])) (chartData tz localeCompare logs))]
      ++ traffic_stats logs
      ++ match topTools logs with [] => [] | l => [Card "Top Tools" "" (top_rows l)] end
  end.

(** *** Configuration *)
Definition status_row (s : ServerView) (toggling : bool) : list view :=
  [Text "Server Status"; Text (status_text s); StatusBadge (ServerView_status s);
   Button (if bool_decide (ServerView_status s = ServerStatus_disabled) then "Enable Server" else "Disable Server") toggling "handleToggleStatus"].

Definition ConfigurationTab (s : ServerView) (f : config_form) (saving toggling : bool) : list view :=
  status_row s toggling
  ++ [Text "Server Settings"; Input "Name" (cname f) "" false; Input "Slug" (ServerView_slug s) "" false;
      Text "Slug cannot be changed after creation."; Input "Upstream URL" (upstreamUrl f) "" false;
      Select "Transport" (ServerTransport_value (transport f)) ["Streamable HTTP"];
      Select "Auth Mode" (ServerAuthMode_value (authMode f)) ["None"; "Service Token"]]
  ++ when (bool_decide (authMode f = ServerAuthMode_service_token))
       [Input "Service Token Env Var" (serviceTokenEnvVar f) "MY_SERVICE_TOKEN" false]
  ++ [Input "Health Check Path" (healthCheckPath f) "" false;
      Button (if saving then "Saving…" else "Save Changes") saving "handleSave"].

(** ** The page *)

Inductive Tab :=
  | overview | tools_ (q : tools_query) (fetching : bool) | play_ (q : tools_query) (p : playground)
  | traffic | logs | configuration (f : config_form) (saving toggling : bool).

Definition tab_labels : list string := ["Overview"; "Tools"; "Playground"; "Traffic"; "Logs"; "Configuration"].

Definition page_header (s : ServerView) : list view :=
  [Link "All servers" "/dashboard/servers"; Text (ServerView_slug s); Text (ServerView_upstream_url s);
   StatusBadge (ServerView_status s); Button "Delete" false "handleDelete"].

(** [q50], [q200]: the entries of the logs and of the traffic tab. *)
Definition tab_content (t : Tab) (slug : string) (s : ServerView) (q50 q200 : answer (list AuditLogView)) : list view :=
  match t with
  | overview => OverviewTab s
  | tools_ q fetching => ToolsTab slug q fetching
  | play_ q p => PlaygroundTab q p
  | traffic => TrafficTab q200
  | logs => LogsTab q50
  | configuration f saving toggling => ConfigurationTab s f saving toggling
  end.

Definition ServerDetailPage (t : Tab) (slug : string) (server : answer ServerView) (q50 q200 : answer (list AuditLogView)) : list view :=
  match server with
  | Pending => [Skeletons 2]
  | Failed => [Text "Server not found"; Link "← Back to servers" "/dashboard/servers"]
  | Answered s => page_header s ++ map (fun l => Button l false "setTab") tab_labels ++ tab_content t slug s q50 q200
  end.
End views.

(** ** Properties *)

(** The response pane belongs to whichever answer came last: an answer to an
    earlier call is shown below the tool that is selected by then. *)
Theorem answer_shown_under_selected_tool js l es r t :
  let p := run js l (es ++ [CallDone (Some r)]) fresh in
  tool_of l p = Some t -> r <> JNull ->
  Select "Select Tool" (mt_name t) ("Choose a tool…" :: map mt_name l) ∈ PlaygroundTab (Tools_ l) p /\
  shows (JSON_stringify_indent 2 r) (PlaygroundTab (Tools_ l) p).
Proof.
  intros p Ht Hr.
  assert (selectedTool p = mt_name t) as Hn.
  { unfold tool_of in Ht. apply find_some in Ht as [_ Ht]. symmetry. exact (bool_decide_eq_true_1 _ Ht). }
  assert (state p = done_ /\ response p = Some r) as [Hs Hp] by (subst p; unfold run; by rewrite fold_left_app).
  destruct l as [|t0 l]; [done|]. unfold PlaygroundTab. rewrite Ht, Hn. split; [apply list_elem_of_here|].
  apply shows_app. right. unfold call_form. apply shows_app. right. apply shows_app. right. apply shows_app. right.
  unfold response_pane. rewrite Hs, Hp. unfold shows. destruct r; try done; apply list_elem_of_further, list_elem_of_here.
Qed.

(** A successful call whose result is [null] shows nothing at all. *)
Theorem null_result_shows_nothing js l es :
  response_pane (run js l (es ++ [CallDone (Some JNull)]) fresh) = [].
Proof. unfold run. by rewrite fold_left_app. Qed.

(** A token's variable typed before the mode is set back to None is out of
    sight and still in the patch that is saved. *)
Theorem hidden_token_sent f s saving toggling :
  authMode f = ServerAuthMode_none -> serviceTokenEnvVar f <> "" ->
  ("service_token_env_var", JStr (serviceTokenEnvVar f)) ∈ patch_json (config_patch f s) /\
  Input "Service Token Env Var" (serviceTokenEnvVar f) "MY_SERVICE_TOKEN" false ∉ ConfigurationTab s f saving toggling.
Proof.
  intros Ha Ht. split.
  - unfold patch_json, config_patch. cbn [ServerUpdate_service_token_env_var].
    assert (or_none (serviceTokenEnvVar f) = Some (serviceTokenEnvVar f)) as -> by (unfold or_none; by rewrite bool_decide_false).
    do 5 (apply elem_of_app; right). apply elem_of_app. left. apply list_elem_of_here.
  - unfold ConfigurationTab. rewrite Ha. cbn. set_solver.
Qed.

(** A server that fails its health checks is said to be active and accepting
    traffic. *)
Theorem unhealthy_said_active s toggling :
  ServerView_status s <> ServerStatus_disabled ->
  shows "This server is active and accepting traffic" (status_row s toggling).
Proof. intros H. unfold status_row, status_text. rewrite bool_decide_false by done. find_text. Qed.

(** A server that cannot be read is said not to exist. *)
Theorem unreadable_server_not_found tz ls lc t slug q50 q200 :
  shows "Server not found" (ServerDetailPage tz ls lc t slug Failed q50 q200).
Proof. cbn [ServerDetailPage]. find_text. Qed.

(** ** Witnesses *)

Lemma answer_shown_under_selected_tool_witness :
  let tool n := mkTool n None None None in
  shows "1" (PlaygroundTab (Tools_ [tool "a"; tool "b"])
    (run JStr [tool "a"; tool "b"] ([ToolChange "a"; CallStart; ToolChange "b"] ++ [CallDone (Some (JNum 1))]) fresh)).
Proof.
  apply (answer_shown_under_selected_tool JStr [mkTool "a" None None None; mkTool "b" None None None]
           [ToolChange "a"; CallStart; ToolChange "b"] (JNum 1) (mkTool "b" None None None)); [reflexivity|discriminate].
Defined.

Lemma hidden_token_sent_witness :
  ("service_token_env_var", JStr "CRM_TOKEN") ∈
  patch_json (config_patch (mkConfig "CRM" "http://crm" ServerTransport_streamable_http ServerAuthMode_none "/health" "CRM_TOKEN")
                (demo_server "http://crm")).
Proof.
  apply (hidden_token_sent (mkConfig "CRM" "http://crm" ServerTransport_streamable_http ServerAuthMode_none "/health" "CRM_TOKEN")
           (demo_server "http://crm") false false); [reflexivity|discriminate].
Defined.

Definition unhealthy_server : ServerView :=
  mkServerView "1" "t" "CRM" "crm" "http://crm" ServerTransport_streamable_http ServerAuthMode_none None None None
    ServerStatus_unhealthy "/health" 3 None "2026-01-01T00:00:00Z" "2026-01-01T00:00:00Z".

Lemma unhealthy_said_active_witness : shows "This server is active and accepting traffic" (status_row unhealthy_server false).
Proof. apply unhealthy_said_active. discriminate. Defined.
