(* ===== verification/ApiKeysView.v ===== *)
(** * What the API-key page shows: web/src/app/dashboard/api-keys/page.tsx

    The controls of the wizard's steps, the reveal screen with its snippets and
    the key table.  The scopes, the wizard's states and the backend's validation
    are [ApiKeys]. *)

From S2P Require Import Prelude JsString Json JsonParse Browser ApiTypes Tools Feedback Developer PlaygroundPage ApiKeys View.

(** A backtick stands for a quotation mark. *)
Notation template := Developer.Explorer.template.

(** ** Snippets *)

Definition list_request : string := template "{`jsonrpc`:`2.0`,`method`:`tools/list`,`params`:{},`id`:1}".

Definition generateCurl (plaintext : string) : string :=
  "curl -X POST https://your-gateway.example.com/mcp/{server-slug} \
  -H " +:+ template "`Authorization: Bearer " +:+ plaintext +:+ template "` \
  -H `Content-Type: application/json` \
  -d " +:+ "'" +:+ list_request +:+ "'".

Definition generatePython (plaintext : string) : string :=
  template "import httpx

client = httpx.Client(
    base_url=`https://your-gateway.example.com`,
    headers={`Authorization`: f`Bearer " +:+ plaintext +:+ template "`},
)

response = client.post(`/mcp/{server-slug}`, json={
    `jsonrpc`: `2.0`,
    `method`: `tools/call`,
    `params`: {`name`: `tool_name`, `arguments`: {}},
    `id`: 1,
})
print(response.json())".

(** ** The steps' controls *)

Definition set_environment (v : string) (s : WizardState) : WizardState :=
  mkWizard (wz_name s) (wz_owner s) (if bool_decide (wz_environment s = v) then "" else v) (wz_description s)
    (wz_allowedServers s) (wz_toolPatterns s) (wz_expiration s) (wz_customExpiry s) (wz_rateLimitValue s)
    (wz_rateLimitUnit s) (wz_ipRanges s).

Definition set_patterns (v : string) (s : WizardState) : WizardState :=
  mkWizard (wz_name s) (wz_owner s) (wz_environment s) (wz_description s) (wz_allowedServers s) v (wz_expiration s)
    (wz_customExpiry s) (wz_rateLimitValue s) (wz_rateLimitUnit s) (wz_ipRanges s).

Definition set_expiration (e : Expiration) (custom : string) (s : WizardState) : WizardState :=
  mkWizard (wz_name s) (wz_owner s) (wz_environment s) (wz_description s) (wz_allowedServers s) (wz_toolPatterns s) e
    custom (wz_rateLimitValue s) (wz_rateLimitUnit s) (wz_ipRanges s).

Definition set_rate (v unit : string) (s : WizardState) : WizardState :=
  mkWizard (wz_name s) (wz_owner s) (wz_environment s) (wz_description s) (wz_allowedServers s) (wz_toolPatterns s)
    (wz_expiration s) (wz_customExpiry s) v unit (wz_ipRanges s).

Definition all_servers (s : WizardState) : WizardState :=
  mkWizard (wz_name s) (wz_owner s) (wz_environment s) (wz_description s) [] (wz_toolPatterns s) (wz_expiration s)
    (wz_customExpiry s) (wz_rateLimitValue s) (wz_rateLimitUnit s) (wz_ipRanges s).

(** A chip adds its pattern to the list or removes it. *)
Definition toggle_items (pattern : string) (existing : list string) : list string :=
  if bool_decide (pattern ∈ existing) then List.filter (fun p => negb (bool_decide (p = pattern))) existing
  else existing ++ [pattern].

Definition chip (pattern text : string) : string := join ", " (toggle_items pattern (comma_items text)).

Definition pattern_chips : list string := ["read_*"; "list_*"; "search_*"; "write_*"; "create_*"; "delete_*"].

Definition env_label (env : string) : string :=
  if bool_decide (env = "production") then "Production" else if bool_decide (env = "staging") then "Staging"
  else if bool_decide (env = "development") then "Development" else if bool_decide (env = "local") then "Local" else env.

Definition step_titles : list string := ["Identity"; "Scope"; "Restrictions"; "Review"].

(** [Check] for the steps already done. *)
Definition StepDots (current : nat) : list view :=
  concat (imap (fun i l => [Text (if (i <? current)%nat then "✓" else pretty (Z.of_nat (S i))); Text l]) step_titles).

Definition field (label hint : string) (required : bool) (body : list view) : list view :=
  Text (label +:+ if required then " *" else "") :: body ++ View.when (negb (bool_decide (hint = ""))) [Text hint].

Definition StepIdentity (s : WizardState) : list view :=
  field "Key Name" "A human-readable label for this key (e.g. CI Pipeline, Production Agent)" true
    [Input "" (wz_name s) "e.g. CI Pipeline" false]
  ++ field "Owner" "Person or team responsible for this key" false
       [Input "" (wz_owner s) "e.g. backend-team, alice@company.com" false]
  ++ field "Environment" "" false (map (fun e => Button (env_label e) false ("set environment " +:+ e)) ["production"; "staging"; "development"; "local"])
  ++ field "Description" "Optional notes about what this key is used for" false
       [Input "" (wz_description s) "Describe where and how this key will be used…" false].

Definition server_button (s : WizardState) (server : ServerView) : list view :=
  [Button (ServerView_name server) false ("toggleServer " +:+ ServerView_slug server); Text (ServerView_slug server)]
  ++ View.when (bool_decide (ServerView_slug server ∈ wz_allowedServers s)) [Text "✓"].

Definition StepScope (s : WizardState) (servers : list ServerView) : list view :=
  field "Allowed Servers" "Select which MCP servers this key may access. Leave all unchecked to allow all servers." false
    (Button "All servers (wildcard)" false "all_servers"
     :: View.when (bool_decide (wz_allowedServers s = [])) [Text "✓"] ++ flat_map (server_button s) servers
     ++ match servers with [] => [Text "No servers registered yet — key will default to wildcard access."] | _ => [] end)
  ++ field "Allowed Tools" "Comma-separated tool name patterns (e.g. read_*, list_*). Leave blank to allow all tools." false
       (Input "" (wz_toolPatterns s) "read_*, list_*, get_* (or blank for all)" false
        :: map (fun p => Button p false ("chip " +:+ p)) pattern_chips).

Definition expiry_presets : list (Expiration * string) :=
  [(E7d, "7 days"); (E30d, "30 days"); (E90d, "90 days"); (E1y, "1 year"); (Never, "No expiry"); (Custom, "Custom date")].

Definition rate_presets : list (string * string * string) :=
  [("60", "minute", "60/m"); ("1000", "hour", "1000/h"); ("10000", "day", "10000/d")].

Definition StepRestrictions (s : WizardState) : list view :=
  field "Expiration" "When should this key stop working?" false
    (map (fun e => Button (e.2) false "set_expiration") expiry_presets
     ++ View.when (bool_decide (wz_expiration s = Custom)) [Input "" (wz_customExpiry s) "" false])
  ++ field "Rate Limit" "Maximum requests per time unit. Leave blank for no rate limit." false
       ([Input "" (wz_rateLimitValue s) "e.g. 100" false; Select "" (wz_rateLimitUnit s) ["per minute"; "per hour"; "per day"]]
        ++ map (fun p => Button (p.2) false "set_rate") rate_presets)
  ++ field "IP Allowlist" "Comma-separated CIDR ranges that may use this key. Leave blank to allow any IP." false
       [Input "" (wz_ipRanges s) "10.0.0.0/8, 192.168.1.0/24" false].

Definition StepReview (s : WizardState) (scopes : list string) : list view :=
  Text "Review your configuration before creating the key. The secret will only be shown once."
  :: map (fun kv => Stat (kv.1) (if bool_decide (kv.1 = "Environment") then env_label (kv.2) else kv.2)) (StepReview_rows s)
  ++ Text "Encoded scopes" :: map Code scopes.

(** ** The reveal screen *)

Inductive Snippet := env | curl | python.

Definition snippet_label (s : Snippet) : string := match s with env => ".env" | curl => "cURL" | python => "Python" end.

Definition snippet_code (s : Snippet) (plaintext name : string) : string :=
  match s with env => generateEnvSnippet plaintext name | curl => generateCurl plaintext | python => generatePython plaintext end.

(** Hiding blurs the key: its text stays in the page. *)
Record reveal := mkReveal { rv_showKey : bool; rv_active : Snippet; rv_copied : option (option Snippet) }.

#[global] Instance Snippet_eq : EqDecision Snippet.
Proof. solve_decision. Defined.

Definition key_line (r : reveal) (plaintext : string) : list view :=
  [Text "Secret Key"; Code (if rv_showKey r then plaintext else ""); Button "" false "setShowKey"; Button "" false "copy key"].

Definition KeyRevealScreen (r : reveal) (plaintext name : string) : list view :=
  [Text "This is the only time this secret will be shown. Copy it now — it cannot be retrieved after closing this dialog."]
  ++ key_line r plaintext ++ [Text "Integration Examples"]
  ++ map (fun s => Button (snippet_label s) false "setActiveSnippet") [env; curl; python]
  ++ [Code (snippet_code (rv_active r) plaintext name)]
  ++ View.when (bool_decide (rv_active r = env)) [Button ".env" false "downloadEnv"]
  ++ [Button (if bool_decide (rv_copied r = Some (Some (rv_active r))) then "Copied!" else "Copy") false "copy";
      Button "Done — I've saved my key" false "onDone"].

(** ** The modal *)

Definition modal_title (m : modal) : string :=
  if (md_step m =? 4)%nat then "API Key Created"
  else "Create API Key — " +:+ default "undefined" (step_titles !! md_step m).

Definition modal_buttons (m : modal) : list view :=
  Button (if (md_step m =? 0)%nat then "Cancel" else "Back") false "back"
  :: if (md_step m <? 3)%nat then [Button "Continue" (negb (canAdvance m)) "setStep"]
     else [Button (if ApiKeys.is_pending m then "Creating…" else "Create Key") (ApiKeys.is_pending m) "handleSubmit"].

Definition CreateKeyModal (now : Z) (servers : list ServerView) (r : reveal) (m : modal) : list view :=
  if negb (md_open m) then [] else
  Text (modal_title m)
  :: match md_step m with
     | 0 => StepDots 0 ++ StepIdentity (md_state m)
     | 1 => StepDots 1 ++ StepScope (md_state m) servers
     | 2 => StepDots 2 ++ StepRestrictions (md_state m)
     | 3 => StepDots 3 ++ StepReview (md_state m) (buildScopes now (md_state m))
     | _ => match md_revealed m with
            | Some (JStr plaintext, name) => KeyRevealScreen r plaintext name
            | _ => []
            end
     end
  ++ View.when (md_step m <? 4)%nat (modal_buttons m).

(** ** The page *)

Section page.
Context (dateString : string -> string).

Definition scope_cell (scopes : list string) : list view :=
  let l := otherScopes scopes in
  map Badge (take 3 l) ++ View.when (3 <? length l)%nat [Text ("+" +:+ pretty (Z.of_nat (length l) - 3)%Z)]
  ++ match l with [] => [Text "—"] | _ => [] end.

Definition key_row (k : ApiKeyView) : list view :=
  [Text (ApiKeyView_name k); Code (ApiKeyView_key_prefix k +:+ "…");
   match envScope (ApiKeyView_scopes k) with
   | Some e => if bool_decide (e = "") then Text "—" else Badge (env_label e)
   | None => Text "—"
   end]
  ++ scope_cell (ApiKeyView_scopes k)
  ++ [Text (dateString (ApiKeyView_created_at k));
      Text (match ApiKeyView_last_used_at k with Some d => if bool_decide (d = "") then "Never" else dateString d | None => "Never" end);
      Button "Revoke" false ("handleRevoke " +:+ ApiKeyView_id k)].

Definition no_keys : list view :=
  let e := EMPTY_STATES apiKeys in
  EmptyState (es_title e) (es_description e) (es_features e)
    (mkAction "Create API Key" None false
     :: match es_docsAction e with Some (l, h) => [mkAction l (Some h) true] | None => [] end).

Definition ApiKeysPage (now : Z) (keys : answer (list ApiKeyView)) (servers : list ServerView) (r : reveal) (m : modal) : list view :=
  [Text "API Keys"; Text "Bearer tokens for authenticating gateway requests"; Button "Create Key" false "setOpen"]
  ++ (if View.is_pending keys then [Skeletons 3] else
      match rows keys with
      | [] => no_keys
      | l => [Table ["Name"; "Prefix"; "Environment"; "Scopes"; "Created"; "Last Used"; ""] (map key_row l)]
      end)
  ++ CreateKeyModal now servers r m.
End page.

(** ** Lemmas *)

Lemma split_cons_ws s : split "," (String " " s) = match split "," s with w :: ws => String " " w :: ws | [] => [" "] end.
Proof. done. Qed.

Lemma split_pieces c s w : w ∈ split c s -> without c w = true.
Proof.
  revert w. induction s as [|d s IH]; intros w; cbn.
  - by intros ->%list_elem_of_singleton.
  - destruct (decide (c = d)) as [->|Hd].
    + rewrite bool_decide_true by done. intros [->|H]%elem_of_cons; [done|by apply IH].
    + rewrite bool_decide_false by done. destruct (split c s) as [|x xs] eqn:E; [by apply split_nonempty in E|].
      intros [->|H]%elem_of_cons; [|apply IH; by apply list_elem_of_further].
      rewrite without_cons, bool_decide_false by done. cbn. apply IH, list_elem_of_here.
Qed.

Lemma sforall_trim p s : sforall p s = true -> sforall p (trim s) = true.
Proof.
  intros H. unfold trim.
  assert (H1 : sforall p (trimStart s) = true).
  { induction s as [|c s IH]; [done|]. cbn in *. apply andb_true_iff in H as [Hc H]. destruct (is_ws c); [auto|]. cbn. by rewrite Hc. }
  revert H1. generalize (trimStart s). clear. intros s. induction s as [|c s IH]; [done|]. cbn. intros [Hc H]%andb_true_iff.
  destruct (bool_decide (trimEnd s = "") && is_ws c); [done|]. cbn. rewrite Hc. auto.
Qed.

(** An item of a list typed with commas. *)
Definition item (x : string) : Prop := without "," x = true /\ trim x = x /\ x <> "".

Lemma comma_items_items s x : x ∈ comma_items s -> item x.
Proof.
  unfold comma_items. intros (Hx & Hn)%list_elem_of_In%filter_In. apply in_map_iff in Hx as (y & <- & Hy).
  apply list_elem_of_In, split_pieces in Hy. split_and!.
  - apply sforall_trim, Hy.
  - apply trim_idemp.
  - unfold nonempty in Hn. intros E. rewrite E in Hn. done.
Qed.

Lemma comma_items_join l : Forall item l -> comma_items (join ", " l) = l.
Proof.
  intros H. unfold comma_items.
  assert (Hm : l <> [] -> map trim (split "," (join ", " l)) = l /\ exists w ws, split "," (join ", " l) = w :: ws).
  { induction H as [|x l (Hc & Ht & Hn) _ IH]; [done|]. intros _. destruct l as [|y l].
    - cbn [join]. change (join ", " [x]) with x. rewrite split_without by done. cbn. rewrite Ht. eauto.
    - rewrite join_cons. change (", " +:+ ?z) with (String "," (String " " z)).
      rewrite split_app by done. destruct (IH ltac:(done)) as [IH' (w & ws & E)]. rewrite split_cons_ws, E in *.
      cbn [map] in *. split; [|eauto]. rewrite Ht. f_equal. by rewrite <- IH'. }
  destruct l as [|x l]; [done|]. rewrite (proj1 (Hm ltac:(done))).
  clear Hm. induction H as [|y l' (_ & _ & Hn) _ IH]; [done|]. cbn. rewrite IH.
  unfold nonempty. by rewrite bool_decide_false.
Qed.

(** ** Properties *)

(** A chip adds its pattern to the patterns typed, or takes it out, and leaves
    the others as they are: the text it writes reads back as exactly this list. *)
Theorem chip_exact p text :
  p ∈ pattern_chips ->
  comma_items (chip p text) = toggle_items p (comma_items text) /\
  (p ∉ comma_items text -> comma_items (chip p (chip p text)) = comma_items text).
Proof.
  intros Hp.
  assert (Hi : item p).
  { unfold pattern_chips in Hp. rewrite !elem_of_cons, elem_of_nil in Hp.
    destruct Hp as [->|[->|[->|[->|[->|[->|[]]]]]]]; by vm_compute. }
  assert (Ht : forall t, comma_items (chip p t) = toggle_items p (comma_items t)).
  { intros t. apply comma_items_join. apply Forall_forall. intros x. unfold toggle_items.
    case_bool_decide; [intros [H' _]%list_elem_of_In%filter_In; eapply comma_items_items; by apply list_elem_of_In|].
    intros [H'| ->%list_elem_of_singleton]%elem_of_app; [by eapply comma_items_items|done]. }
  split; [apply Ht|]. intros Hn. rewrite !Ht. unfold toggle_items.
  rewrite (bool_decide_false (p ∈ comma_items text)) by done. rewrite bool_decide_true by set_solver.
  rewrite List.filter_app. cbn. rewrite (bool_decide_true (p = p)) by done. cbn. rewrite app_nil_r.
  induction (comma_items text) as [|x l IH]; [done|]. cbn. rewrite bool_decide_false by set_solver. cbn.
  f_equal. apply IH. set_solver.
Qed.

(** The cURL snippet of a new key sends the request for the tool list. *)
Theorem key_curl_is_request plaintext :
  without "'" plaintext = true -> JSON_parse (shell_word (generateCurl plaintext)) =
  Some (JObj [("jsonrpc", JStr "2.0"); ("method", JStr "tools/list"); ("params", JObj []); ("id", JNum 1)]).
Proof.
  intros H. assert (shell_word (generateCurl plaintext) = list_request) as ->; [|vm_compute; reflexivity].
  unfold shell_word, generateCurl.
  match goal with |- context [drop_after _ (?a +:+ ?b +:+ ?c +:+ ?d +:+ "'" +:+ ?f)] =>
    replace (a +:+ b +:+ c +:+ d +:+ "'" +:+ f) with ((a +:+ b +:+ c +:+ d) +:+ String "'" f) by (by rewrite !sapp_assoc) end.
  rewrite drop_after_app by (by rewrite !without_app, H). by apply take_until_app.
Qed.

(** Hiding the key leaves it in clear in the snippet below it, whichever of the
    three is chosen. *)
Theorem hidden_key_in_snippet r plaintext name :
  rv_showKey r = false ->
  key_line r plaintext = key_line r "" /\
  (exists before after, snippet_code (rv_active r) plaintext name = before +:+ plaintext +:+ after) /\
  shows (snippet_code (rv_active r) plaintext name) (KeyRevealScreen r plaintext name).
Proof.
  intros Hr. split_and!.
  - unfold key_line. by rewrite Hr.
  - destruct (rv_active r); cbn [snippet_code].
    + unfold generateEnvSnippet. exists ("# " +:+ name +:+ newline +:+ "PORTCULLIS_API_KEY=").
      eexists. by rewrite !sapp_assoc.
    + unfold generateCurl. match goal with |- context [?a +:+ ?b +:+ plaintext +:+ ?c] => exists (a +:+ b), c end. by rewrite !sapp_assoc.
    + unfold generatePython. by do 2 eexists.
  - unfold KeyRevealScreen. apply elem_flat_map. exists (Code (snippet_code (rv_active r) plaintext name)).
    split; [|apply list_elem_of_here]. apply elem_of_app; right. apply elem_of_app; right. apply elem_of_app; right.
    apply elem_of_app; right. apply elem_of_app; left. apply list_elem_of_here.
Qed.

(** The scopes cell accounts for every scope that is neither the environment
    nor the owner: at most three are shown and the rest are counted. *)
Theorem scope_cell_counts scopes :
  let l := otherScopes scopes in
  (length l <= 3 -> l <> [] -> scope_cell scopes = map Badge l) /\
  (3 < length l -> exists a b c rest, l = a :: b :: c :: rest /\
     scope_cell scopes = [Badge a; Badge b; Badge c; Text ("+" +:+ pretty (Z.of_nat (length rest)))]) /\
  (l = [] -> scope_cell scopes = [Text "—"]).
Proof.
  intros l. unfold scope_cell. fold l. split_and!.
  - intros H Hn. rewrite take_ge by lia. rewrite (proj2 (Nat.ltb_ge 3 (length l))) by lia. destruct l; [done|].
    cbn. by rewrite app_nil_r.
  - intros H. destruct l as [|a [|b [|c rest]]]; cbn in H; try lia. exists a, b, c, rest. split; [done|].
    replace (Z.of_nat (length rest)) with (Z.of_nat (length (a :: b :: c :: rest)) - 3)%Z by (cbn; lia).
    by destruct rest; [cbn in H; lia|].
  - by intros ->.
Qed.

(** ** Witnesses *)

Lemma chip_exact_witness : comma_items (chip "read_*" "list_*, ,my tool") = ["list_*"; "my tool"; "read_*"].
Proof.
  rewrite (proj1 (chip_exact "read_*" "list_*, ,my tool" (list_elem_of_here _ _))). vm_compute. reflexivity.
Defined.

Lemma key_curl_is_request_witness :
  JSON_parse (shell_word (generateCurl "pk_live_1")) =
  Some (JObj [("jsonrpc", JStr "2.0"); ("method", JStr "tools/list"); ("params", JObj []); ("id", JNum 1)]).
Proof. apply key_curl_is_request. reflexivity. Defined.

Lemma hidden_key_in_snippet_witness :
  shows (generateCurl "pk_live_1") (KeyRevealScreen (mkReveal false curl None) "pk_live_1" "ci").
Proof. exact (proj2 (proj2 (hidden_key_in_snippet (mkReveal false curl None) "pk_live_1" "ci" eq_refl))). Defined.
