(* ===== verification/OnboardingView.v ===== *)
(** * What the wizard shows: web/src/app/onboarding/page.tsx

    The step bar, the six steps and the state each step keeps for itself.  The
    steps are components declared inside the page, so each render of the page
    mounts the current step anew.  The wizard's data and requests are
    [Onboarding]. *)

From S2P Require Import Prelude JsString Json Browser AuthStore ApiTypes AxiosClient Servers Onboarding View.

Import Wizard.

#[local] Open Scope nat_scope.

(** ** The step bar *)
Definition STEPS : list (string * string) :=
  [("welcome", "Welcome"); ("org", "Organization"); ("server", "MCP Server"); ("policy", "Policy");
   ("apikey", "API Key"); ("done", "Done")].

(** The circle of step [i]: a tick before the current step, else its number. *)
Definition circle (idx : option nat) (i : nat) : view :=
  if from_option (fun k => i <? k) false idx then Badge "done" else Text (pretty (Z.of_nat (i + 1))).

Definition StepBar (p : page) : list view :=
  concat (imap (fun i s => [circle (step_index p) i; Text (s.2)]) STEPS).

(** ** What a step keeps for itself *)
Record org_local := mkOrgL { ol_form : org_form; ol_invites : string }.

Record server_local := mkServerL {
  sl_form : server_form; sl_tags : string; sl_description : string;
  sl_test : option TestResult; sl_testing : bool; sl_submitting : bool }.

Record policy_local := mkPolicyL { pl_form : policy_form; pl_submitting : bool }.

Record key_local := mkKeyL {
  kl_name : string; kl_scopes : list string; kl_submitting : bool; kl_created : option (string * string); kl_show : bool }.

Inductive local :=
  | OrgL (l : org_local) | ServerL (l : server_local) | PolicyL (l : policy_local) | KeyL (l : key_local)
  | NoneL.

Definition server_fresh : server_local := mkServerL server_initial "" "" None false false.

(** [ob.createdApiKeyPlaintext ? { plaintext, name: ob.createdApiKeyName ?? "Key" } : null] *)
Definition created_initial (p : page) : option (string * string) :=
  match created p with
  | Some (JStr k) => Some (k, from_option js_String "Key" (nullish (json_field "createdApiKeyName" (ob p))))
  | _ => None
  end.

Definition key_fresh (p : page) : key_local :=
  mkKeyL "My first key" ["tools:call"; "tools:list"] false (created_initial p) false.

Definition mount_local (p : page) (servers : list ServerView) : local :=
  match step p with
  | JStr "org" => OrgL (mkOrgL (org_initial p) "")
  | JStr "server" => ServerL server_fresh
  | JStr "policy" => PolicyL (mkPolicyL (policy_initial p servers) false)
  | JStr "apikey" => KeyL (key_fresh p)
  | _ => NoneL
  end.

(** ** The screen in steps *)

(** The page, the instance of the step on display and its state. *)
Record screen := mkScreen { sc_page : page; sc_servers : list ServerView; sc_instance : nat; sc_local : local }.

Definition remount (p : page) (servers : list ServerView) (s : screen) : screen :=
  mkScreen p servers (S (sc_instance s)) (mount_local p servers).

Inductive field :=
  | OrgName (v : string) | OrgSlug (v : string) | OrgSize (v : string) | OrgRegion (v : string) | OrgInvites (v : string)
  | SrvName (v : string) | SrvSlug (v : string) | SrvUrl (v : string) | SrvTransport (v : string) | SrvAuth (v : string)
  | SrvTokenEnv (v : string) | SrvHealth (v : string) | SrvTags (v : string) | SrvDescription (v : string)
  | PolServer (v : string) | PolTool (v : string) | PolAlgorithm (v : RateLimitAlgorithm) | PolLimit (v : string)
  | PolWindow (v : string) | PolBurst (v : string)
  | KeyName (v : string) | KeyScope (v : string) | KeyShow.

Definition edit_org (p : page) (e : field) (l : org_local) : org_local :=
  let f := ol_form l in
  match e with
  | OrgName v => mkOrgL (org_setName p v f) (ol_invites l)
  | OrgSlug v => mkOrgL (org_setSlug v f) (ol_invites l)
  | OrgSize v => mkOrgL (mkOrg (o_name f) (o_slug f) v (o_region f)) (ol_invites l)
  | OrgRegion v => mkOrgL (mkOrg (o_name f) (o_slug f) (o_size f) v) (ol_invites l)
  | OrgInvites v => mkOrgL f v
  | _ => l
  end.

Definition edit_server_form (e : field) (f : server_form) : server_form :=
  let '(mkServer n s u t a k h) := f in
  match e with
  | SrvName v => server_setName v f
  | SrvSlug v => server_setSlug v f
  | SrvUrl v => mkServer n s v t a k h
  | SrvTransport v => mkServer n s u v a k h
  | SrvAuth v => mkServer n s u t v k h
  | SrvTokenEnv v => mkServer n s u t a v h
  | SrvHealth v => mkServer n s u t a k v
  | _ => f
  end.

Definition edit_server (e : field) (l : server_local) : server_local :=
  let '(mkServerL f tags desc test run sub) := l in
  match e with
  | SrvTags v => mkServerL f v desc test run sub
  | SrvDescription v => mkServerL f tags v test run sub
  | _ => mkServerL (edit_server_form e f) tags desc test run sub
  end.

Definition edit_policy (e : field) (l : policy_local) : policy_local :=
  let '(mkPolicy s t a n w b) := pl_form l in
  mkPolicyL
    match e with
    | PolServer v => mkPolicy v t a n w b
    | PolTool v => mkPolicy s v a n w b
    | PolAlgorithm v => mkPolicy s t v n w b
    | PolLimit v => mkPolicy s t a v w b
    | PolWindow v => mkPolicy s t a n v b
    | PolBurst v => mkPolicy s t a n w v
    | _ => mkPolicy s t a n w b
    end (pl_submitting l).

Definition edit_key (e : field) (l : key_local) : key_local :=
  let '(mkKeyL n sc sub c sh) := l in
  match e with
  | KeyName v => mkKeyL v sc sub c sh
  | KeyScope v => mkKeyL n (toggleScope v sc) sub c sh
  | KeyShow => mkKeyL n sc sub c (negb sh)
  | _ => l
  end.

Definition edit (p : page) (e : field) (l : local) : local :=
  match l with
  | OrgL l => OrgL (edit_org p e l)
  | ServerL l => ServerL (edit_server e l)
  | PolicyL l => PolicyL (edit_policy e l)
  | KeyL l => KeyL (edit_key e l)
  | NoneL => NoneL
  end.

(** [setSubmitting(b)] *)
Definition submitting (b : bool) (l : local) : local :=
  match l with
  | ServerL (mkServerL f t d r g _) => ServerL (mkServerL f t d r g b)
  | PolicyL (mkPolicyL f _) => PolicyL (mkPolicyL f b)
  | KeyL (mkKeyL n sc _ c sh) => KeyL (mkKeyL n sc b c sh)
  | _ => l
  end.

Definition test_start (l : local) : local :=
  match l with
  | ServerL (mkServerL f t d r g s) =>
      ServerL (if bool_decide (s_url f = "") then mkServerL f t d r g s else mkServerL f t d None true s)
  | _ => l
  end.

Definition test_done (r : TestResult) (l : local) : local :=
  match l with ServerL (mkServerL f t d _ _ s) => ServerL (mkServerL f t d (Some r) false s) | _ => l end.

Definition with_local (l : local) (s : screen) : screen := mkScreen (sc_page s) (sc_servers s) (sc_instance s) l.

(** A handler's [set] calls reach the instance that called them, if it is
    still on display. *)
Definition on_instance (i : nat) (f : local -> local) (s : screen) : screen :=
  if i =? sc_instance s then with_local (f (sc_local s)) s else s.

Inductive event :=
  | Edit (e : field)
  | TestStart
  | TestDone (instance : nat) (r : TestResult)
  | SubmitStart
  | SubmitEnd (instance : nat)               (** the [finally] of a submission *)
  | PageSet (p : page)                       (** [setStep] or [setOb] *)
  | PageRenders (servers : list ServerView). (** an answer, or the status of a mutation *)

Definition screen_step (s : screen) (e : event) : screen :=
  match e with
  | Edit f => with_local (edit (sc_page s) f (sc_local s)) s
  | TestStart => with_local (test_start (sc_local s)) s
  | TestDone i r => on_instance i (test_done r) s
  | SubmitStart => with_local (submitting true (sc_local s)) s
  | SubmitEnd i => on_instance i (submitting false) s
  | PageSet p => remount p (sc_servers s) s
  | PageRenders servers => remount (sc_page s) servers s
  end.

Definition screen_run (es : list event) (s : screen) : screen := fold_left screen_step es s.

(** ** The steps *)

Definition ROLE_OPTIONS : list (string * string * string) :=
  [("org-admin", "Organization Admin", "I manage servers, policies, teams, and billing for my organization.");
   ("developer", "Developer", "I build integrations and test tools using the MCP gateway.");
   ("security-auditor", "Security / Auditor", "I review policies, audit logs, and access controls.")].

Definition CHECKLIST_labels : list (string * string) :=
  [("org", "Set up organization"); ("server", "Register MCP server"); ("policy", "Create access policy");
   ("apikey", "Generate API key"); ("request", "Send first request"); ("trace", "View audit trace");
   ("invite", "Invite a teammate")].

(** A tick or an empty circle. *)
Definition mark (ok : bool) : view := Badge (if ok then "done" else "open").

Definition num (n : nat) : string := pretty (Z.of_nat n).

Definition progress (p : page) : string := num (length (completedSteps p)) +:+ " / " +:+ num (length CHECKLIST_labels).

Definition checklist_row (p : page) (c : string * string) : list view :=
  [mark (bool_decide (c.1 ∈ completedSteps p)); Text (c.2)].

Definition WelcomeStep (p : page) : list view :=
  [Text "Welcome to Portcullis"; Text "What best describes your role?"]
  ++ map (fun r => Button (r.1.2 +:+ ": " +:+ r.2) false "role") ROLE_OPTIONS
  ++ [Card "Your setup checklist" "" (flat_map (checklist_row p) CHECKLIST_labels ++ [Stat "Progress" (progress p)]);
      Text "Read the docs first?"; Link "Docs" "/developer/docs";
      Button "Get started" (negb (has p "role")) "go org"; Link "Skip setup" "/dashboard"].

Definition COMPANY_SIZES : list string := ["1–10"; "11–50"; "51–200"; "201–1 000"; "1 000+"].
Definition REGIONS : list string :=
  ["us-east-1"; "us-west-2"; "eu-west-1"; "eu-central-1"; "ap-southeast-1"; "ap-northeast-1"].

Definition OrgStep (l : org_local) : list view :=
  let f := ol_form l in
  [Text "Set up your organization"; Input "Organization name" (o_name f) "Acme Corp" false;
   Text "portcullis.dev/"; Input "Organization slug" (o_slug f) "acme-corp" false; Text "Company size"]
  ++ map (fun s => Button s false "size") COMPANY_SIZES
  ++ [Select "Primary region / data residency" (o_region f) REGIONS;
      Input "Invite teammates (optional)" (ol_invites l) "alice@company.com, bob@company.com" false;
      Text "Invitations will be sent once your organization is configured.";
      Button "Back" false "go welcome"; Button "Continue" false "handleNext"].

Definition TRANSPORT_labels : list (string * string * string) :=
  [("streamable_http", "Streamable HTTP", "HTTP with streaming responses (recommended)");
   ("sse", "Server-Sent Events", "SSE transport for real-time streaming");
   ("websocket", "WebSocket", "Bidirectional WebSocket connection");
   ("stdio", "STDIO bridge", "Bridge to a local STDIO MCP process");
   ("custom", "Custom adapter", "Implement your own transport adapter")].

Definition AUTH_labels : list (string * string) :=
  [("none", "No authentication"); ("service_token", "Bearer / service token"); ("api_key", "API key header");
   ("oauth2", "OAuth 2.0"); ("basic", "Basic authentication"); ("headers", "Custom headers")].

(** [testResult.latencyMs ? … : "—"]; an absent [tls] is falsy. *)
Definition test_rows (r : TestResult) : list view :=
  [Stat "Status" (if t_ok r then "Reachable" else "Unreachable");
   Stat "Latency" (if (t_latencyMs r =? 0)%Z then "—" else pretty (t_latencyMs r) +:+ " ms");
   Stat "TLS" (if default false (t_tls r) then "Yes (HTTPS)" else "No (HTTP)");
   Stat "Protocol" "MCP / JSON-RPC 2.0"].

Definition test_panel (r : TestResult) : view :=
  Card (if t_ok r then "Connection successful" else "Connection failed") ""
    (test_rows r ++ match t_error r with Some e => when (negb (bool_decide (e = ""))) [Text e] | None => [] end).

Definition existing_notice (servers : list ServerView) : list view :=
  match servers with
  | [] => []
  | s :: _ =>
      let n := length servers in
      [Text ("You already have " +:+ num n +:+ " server" +:+ (if 1 <? n then "s" else "") +:+ " registered");
       Text (ServerView_name s +:+ " (" +:+ ServerView_slug s +:+ ") — you can add another or skip this step.");
       Button "Use existing →" false "use_existing"]
  end.

Definition ServerStep (servers : list ServerView) (l : server_local) : list view :=
  let f := sl_form l in
  [Text "Register your first MCP server"] ++ existing_notice servers
  ++ [Input "Server name" (s_name f) "Production Tools" false; Input "Slug" (s_slug f) "prod-tools" false;
      Input "Server URL" (s_url f) "https://your-mcp-server.internal" false;
      Button "Test" (bool_decide (s_url f = "") || sl_testing l) "testConnection"]
  ++ match sl_test l with Some r => [test_panel r] | None => [] end
  ++ [Text "Transport type"]
  ++ flat_map (fun t => [mark (bool_decide (s_transport f = t.1.1)); Button (t.1.2 +:+ ": " +:+ t.2) false "setTransport"])
       TRANSPORT_labels
  ++ [Select "Authentication method" (s_auth f) (AUTH_labels.*2)]
  ++ when (bool_decide (s_auth f = "service_token"))
       [Input "Token environment variable" (s_tokenEnvVar f) "MCP_SERVER_TOKEN" false;
        Text "The gateway reads this env var and forwards the value as a Bearer token."]
  ++ [Input "Health-check path" (s_healthPath f) "/health" false;
      Input "Tags (optional)" (sl_tags l) "prod, internal" false;
      Input "Description (optional)" (sl_description l) "What does this server do?" false;
      Button "Back" false "go org";
      Button (if sl_submitting l then "Registering…" else "Register server") (sl_submitting l) "handleSubmit"].

(** What a select shows: the option whose value it has, else the first. *)
Definition select_shows (value : string) (options : list (string * string)) : string :=
  match List.find (fun o => bool_decide (o.1 = value)) options with
  | Some o => o.2
  | None => from_option snd "" (head options)
  end.

Definition server_options (servers : list ServerView) : list (string * string) :=
  ("*", "All servers (*)")
  :: map (fun s => (ServerView_slug s, ServerView_name s +:+ " (" +:+ ServerView_slug s +:+ ")")) servers.

Definition policy_preview (f : policy_form) : string :=
  "Allow " +:+ p_limit f +:+ " requests / " +:+ p_windowSec f +:+ "s on " +:+ or_default "*" (p_serverSlug f)
  +:+ " → " +:+ p_toolPattern f
  +:+ (if bool_decide (p_burst f = "") then "" else " · burst " +:+ p_burst f).

Definition ALGORITHMS : list (RateLimitAlgorithm * string * string) :=
  [(RateLimitAlgorithm_token_bucket, "Token bucket", "Allows bursts, smooths over time");
   (RateLimitAlgorithm_sliding_window, "Sliding window", "Even distribution over window")].

Definition PolicyStep (servers : list ServerView) (roles : list RoleView) (l : policy_local) : list view :=
  let f := pl_form l in
  [Text "Create your first policy"; Text "1"; Text "Select server & tools"; Text "2"; Text "Set rate limits";
   Text "3"; Text "Review & activate"]
  ++ (if 0 <? length servers
      then [Select "Server pattern" (select_shows (p_serverSlug f) (server_options servers)) ((server_options servers).*2)]
      else [Input "Server pattern" (p_serverSlug f) "* (all servers) or server-slug" false])
  ++ [Input "Tool pattern" (p_toolPattern f) "* (all tools) or tool-name" false]
  ++ when (0 <? length roles)
       (Text "Apply to roles" :: map (fun r => Badge (RoleView_name r)) roles
        ++ [Text "Leaving subject_id empty applies this policy globally (all subjects)."])
  ++ map (fun a => Button (a.1.2 +:+ ": " +:+ a.2) false "setAlgorithm") ALGORITHMS
  ++ [Input "Request limit" (p_limit f) "" false; Input "Window (sec)" (p_windowSec f) "" false;
      Input "Burst capacity" (p_burst f) "" false; Card "Policy preview" "" [Code (policy_preview f)];
      Button "Back" false "go server";
      Button (if pl_submitting l then "Creating…" else "Create policy") (pl_submitting l) "handleSubmit";
      Button "Skip" false "policy_skip"].

(** The copy button copies the whole key whether it is shown or not. *)
Definition key_panel (k : string * string) (show : bool) : list view :=
  [Text "API key created"; Text "Copy this key now — you won't be able to see it again.";
   Text (k.2); Code (if show then k.1 else masked (k.1)); Button "" false "showKey"; Button "" false ("copy " +:+ k.1);
   Text "Use it in your MCP client:";
   Code ("Authorization: Bearer " +:+ (if show then k.1 else stake 12 (k.1) +:+ "..."));
   Button "" false ("copy Authorization: Bearer " +:+ k.1);
   Text "Store this key securely. Treat it like a password — never commit it to source control.";
   Button "Continue" false "go done"].

Definition ApiKeyStep (existingKeys : nat) (l : key_local) : list view :=
  match kl_created l with
  | Some k => key_panel k (kl_show l)
  | None =>
      [Text "Generate your API key"; Text "API keys authenticate your MCP clients against the Portcullis gateway."]
      ++ when (0 <? existingKeys)
           [Text ("You have " +:+ num existingKeys +:+ " existing key" +:+ (if 1 <? existingKeys then "s" else ""));
            Text "You can create another or skip this step."; Button "Skip →" false "go done"]
      ++ [Input "Key name" (kl_name l) "My first key" false; Text "Scopes"]
      ++ map (fun s => Button ((if bool_decide (s ∈ kl_scopes l) then "✓ " else "") +:+ s) false "toggleScope") ALL_SCOPES
      ++ [Button "Back" false "go policy";
          Button (if kl_submitting l then "Creating…" else "Generate key")
            (kl_submitting l || bool_decide (kl_scopes l = [])) "handleCreate"]
  end.

Definition NEXT_LINKS : list (string * string) :=
  [("View your servers", "/dashboard/servers"); ("Manage policies", "/dashboard/policies");
   ("Test tools", "/dashboard/playground"); ("View audit log", "/dashboard/audit");
   ("Invite teammates", "/dashboard/access-control?tab=members"); ("Read the docs", "/developer/docs")].

Definition summary_row (r : string * string * bool) : list view := [Stat (r.1.1) (r.1.2); mark (r.2)].

Definition DoneStep (p : page) (servers : list ServerView) (existingKeys : nat) : list view :=
  [Text (if allDone p then "You're all set!" else "Good start!");
   Text (if allDone p
         then "Your Portcullis gateway is configured. You can start proxying MCP tool calls, enforcing policies, and monitoring traffic."
         else "You've completed the core setup. You can finish the remaining steps anytime from the dashboard.")]
  ++ flat_map summary_row (summary p servers existingKeys)
  ++ [Text "Where to next?"] ++ map (fun l => Link (l.1) (l.2)) NEXT_LINKS
  ++ [Button "Go to dashboard" false "finish"].

(** ** The page *)
Definition step_body (s : screen) (roles : list RoleView) (existingKeys : nat) : list view :=
  let p := sc_page s in
  match step p, sc_local s with
  | JStr "welcome", _ => WelcomeStep p
  | JStr "org", OrgL l => OrgStep l
  | JStr "server", ServerL l => ServerStep (sc_servers s) l
  | JStr "policy", PolicyL l => PolicyStep (sc_servers s) roles l
  | JStr "apikey", KeyL l => ApiKeyStep existingKeys l
  | JStr "done", _ => DoneStep p (sc_servers s) existingKeys
  | _, _ => []
  end.

Definition OnboardingPage (s : screen) (roles : list RoleView) (existingKeys : nat) : list view :=
  StepBar (sc_page s) ++ step_body s roles existingKeys.

Definition opened (p : page) (servers : list ServerView) : screen := mkScreen p servers 0 (mount_local p servers).

(** ** Lemmas *)

Definition keeps_page (e : event) : Prop := match e with PageSet _ => False | _ => True end.

Definition remounts (e : event) : bool := match e with PageSet _ | PageRenders _ => true | _ => false end.

Lemma screen_run_app es es' s : screen_run (es ++ es') s = screen_run es' (screen_run es s).
Proof. apply fold_left_app. Qed.

Lemma step_keeps_page e s : keeps_page e -> sc_page (screen_step s e) = sc_page s.
Proof. destruct e; try done; intros _; cbn; unfold on_instance; by case_if. Qed.

Lemma run_keeps_page es s : Forall keeps_page es -> sc_page (screen_run es s) = sc_page s.
Proof.
  revert s. induction es as [|e es IH]; intros s H; [done|]. apply Forall_cons in H as [He H].
  change (sc_page (screen_run es (screen_step s e)) = sc_page s). by rewrite IH, step_keeps_page.
Qed.

Lemma step_instance e s :
  sc_instance (screen_step s e) = if remounts e then S (sc_instance s) else sc_instance s.
Proof. destruct e; try done; cbn; unfold on_instance; by case_if. Qed.

Lemma run_instance es s :
  sc_instance s <= sc_instance (screen_run es s)
  /\ (existsb remounts es = true -> sc_instance s < sc_instance (screen_run es s)).
Proof.
  revert s. induction es as [|e es IH]; intros s; [done|].
  change (screen_run (e :: es) s) with (screen_run es (screen_step s e)).
  destruct (IH (screen_step s e)) as [H1 H2]. rewrite step_instance in *. cbn [existsb].
  destruct (remounts e); cbn; split; intros; first [lia | by apply H2].
Qed.

Inductive kind := KOrg | KServer | KPolicy | KKey | KNone.

Definition kind_of (l : local) : kind :=
  match l with OrgL _ => KOrg | ServerL _ => KServer | PolicyL _ => KPolicy | KeyL _ => KKey | NoneL => KNone end.

Definition step_kind (p : page) : kind := kind_of (mount_local p []).

Lemma mount_kind p servers : kind_of (mount_local p servers) = step_kind p.
Proof.
  unfold step_kind, mount_local. destruct (step p) as [| | |s| |]; try done.
  repeat match goal with |- context [match ?x with _ => _ end] => is_var x; destruct x; try done end.
Qed.

Lemma local_kinds l :
  (forall p e, kind_of (edit p e l) = kind_of l) /\ (forall b, kind_of (submitting b l) = kind_of l)
  /\ kind_of (test_start l) = kind_of l /\ (forall r, kind_of (test_done r l) = kind_of l).
Proof. destruct l as [|[]|[]|[]|]; repeat split; intros; done. Qed.

Lemma step_kinds e s :
  kind_of (sc_local s) = step_kind (sc_page s) -> kind_of (sc_local (screen_step s e)) = step_kind (sc_page (screen_step s e)).
Proof.
  intros H. destruct (local_kinds (sc_local s)) as (H1 & H2 & H3 & H4).
  destruct e; cbn; unfold on_instance; case_if; rewrite ?H1, ?H2, ?H3, ?H4, ?mount_kind; done.
Qed.

Lemma run_kinds es p servers :
  let s := screen_run es (opened p servers) in kind_of (sc_local s) = step_kind (sc_page s).
Proof.
  cbn. induction es as [|e es IH] using rev_ind; [apply mount_kind|].
  rewrite screen_run_app. by apply step_kinds.
Qed.

(** After a submission the page renders with the mutation's status. *)
Lemma submit_round es servers servers' i p :
  Forall keeps_page es ->
  let s := screen_run (es ++ [SubmitStart; PageRenders servers'; SubmitEnd i]) (opened p servers) in
  sc_page s = p /\ (sc_local s = mount_local p servers' \/ sc_local s = submitting false (mount_local p servers')).
Proof.
  intros Hes. cbn zeta. rewrite screen_run_app. pose proof (run_keeps_page es (opened p servers) Hes) as Hp.
  destruct (screen_run es (opened p servers)) as [q sv k l]. cbn in Hp. subst q.
  cbn. unfold on_instance. cbn. destruct (_ =? _); cbn; auto.
Qed.

(** ** Theorems *)

(** Whatever happens on the screen, a step is shown exactly when the page's
    step is one of the six; any other step, which a saved text can name, leaves
    the page without a control to leave it. *)
Theorem blank_without_step es p servers roles n :
  let s := screen_run es (opened p servers) in
  step_body s roles n = [] <-> forall t, t ∈ StepId -> step (sc_page s) <> JStr t.
Proof.
  cbn zeta. set (s := screen_run es (opened p servers)).
  assert (Hk : kind_of (sc_local s) = step_kind (sc_page s)) by apply run_kinds.
  split.
  - intros Hnil t Ht Hs. unfold step_body in Hnil. unfold step_kind, mount_local in Hk. rewrite Hs in Hnil, Hk.
    unfold StepId in Ht. rewrite !elem_of_cons in Ht.
    destruct Ht as [->|[->|[->|[->|[->|[->|Ht]]]]]]; [..|by apply elem_of_nil in Ht];
      cbn in Hk; destruct (sc_local s) as [| | |k|]; try discriminate.
    cbn in Hnil. unfold ApiKeyStep in Hnil. destruct (kl_created k); discriminate.
  - intros H. unfold step_body. destruct (step (sc_page s)) as [| | |t| |] eqn:E; try done.
    assert (Ht : t ∉ StepId) by (intros Ht; by apply (H t Ht)).
    repeat match goal with |- context [match ?x with _ => _ end] => is_var x; destruct x; try done end;
      destruct Ht; cbn; set_solver.
Qed.

(** While a registration is under way the page renders with the mutation's
    status, which mounts the step anew: whatever was typed or tested, the form
    is empty again and its button can be pressed, also when the registration
    fails. *)
Theorem registration_empties_form es servers servers' i p roles n :
  step p = JStr "server" -> Forall keeps_page es ->
  let s := screen_run (es ++ [SubmitStart; PageRenders servers'; SubmitEnd i]) (opened p servers) in
  sc_local s = ServerL server_fresh
  /\ "handleSubmit" ∈ flat_map enabled (OnboardingPage s roles n).
Proof.
  intros Hp Hes. cbn zeta. destruct (submit_round es servers servers' i p Hes) as [Hq Hl].
  set (s := screen_run _ _) in *. unfold mount_local in Hl. rewrite Hp in Hl.
  assert (Hf : sc_local s = ServerL server_fresh) by (destruct Hl as [-> | ->]; done). split; [done|].
  unfold OnboardingPage, step_body. rewrite flat_map_app, Hf, Hq, Hp. apply elem_of_app. right.
  unfold ServerStep. rewrite !flat_map_app, !elem_of_app. do 6 right. cbn. set_solver.
Qed.

(** A policy the backend refused is offered again with the limits the form
    starts with, not with the ones that were typed. *)
Theorem refused_policy_resets_limits es servers servers' i p :
  step p = JStr "policy" -> Forall keeps_page es ->
  exists l, sc_local (screen_run (es ++ [SubmitStart; PageRenders servers'; SubmitEnd i]) (opened p servers)) = PolicyL l
    /\ pl_form l = policy_initial p servers'
    /\ (p_limit (pl_form l), p_windowSec (pl_form l), p_burst (pl_form l)) = ("100", "60", "10").
Proof.
  intros Hp Hes. destruct (submit_round es servers servers' i p Hes) as [_ Hl]. unfold mount_local in Hl. rewrite Hp in Hl.
  exists (mkPolicyL (policy_initial p servers') false). by destruct Hl as [-> | ->].
Qed.

(** The result of a connection test is dropped when the page has rendered since
    the test began. *)
Theorem late_test_is_dropped es r s :
  existsb remounts es = true -> screen_run (es ++ [TestDone (sc_instance s) r]) s = screen_run es s.
Proof.
  intros H. rewrite screen_run_app. destruct (run_instance es s) as [_ Hlt]. cbn. unfold on_instance.
  destruct (Nat.eqb_spec (sc_instance s) (sc_instance (screen_run es s))); [|done]. specialize (Hlt H). lia.
Qed.

(** The step bar ticks exactly the steps before the current one. *)
Theorem step_bar_ticks p :
  length (List.filter (fun v => match v with Badge _ => true | _ => false end) (StepBar p)) = default 0 (step_index p).
Proof.
  assert (Hk : forall k, step_index p = Some k -> k < 6).
  { intros k. unfold step_index. destruct (step p) as [| | |s| |]; try done. intros H.
    apply fmap_Some in H as [[j x] [H ->]]. apply list_find_Some in H as [H _]. by apply lookup_lt_Some in H. }
  unfold StepBar. destruct (step_index p) as [k|]; [|done]. specialize (Hk k eq_refl).
  do 6 (destruct k as [|k]; [done|]). lia.
Qed.

(** Three of the seven items of the checklist are never ticked: the progress
    never passes 4 / 7. *)
Theorem checklist_never_complete p c :
  c ∈ [("request", "Send first request"); ("trace", "View audit trace"); ("invite", "Invite a teammate")] ->
  c ∈ CHECKLIST_labels /\ checklist_row p c = [Badge "open"; Text (c.2)] /\ length (completedSteps p) <= 4.
Proof.
  intros H. split; [unfold CHECKLIST_labels; set_solver|]. unfold checklist_row, completedSteps.
  split; [|repeat destruct (has p _); cbn; lia].
  rewrite bool_decide_false; [done|]. rewrite !elem_of_cons in H.
  destruct H as [->|[->|[->|H]]]; [..|by apply elem_of_nil in H]; repeat destruct (has p _); cbn; set_solver.
Qed.

(** A test that failed says the server has no TLS, whatever its URL. *)
Theorem failed_test_denies_tls dispatch elapsed f w r w' :
  testConnection dispatch elapsed f w = (Ok (Some r), w') -> t_ok r = false ->
  Stat "Status" "Unreachable" ∈ test_rows r /\ Stat "TLS" "No (HTTP)" ∈ test_rows r.
Proof.
  intros H Hr. assert (Ht : t_tls r = None).
  { unfold testConnection in H. case_bool_decide; [discriminate|]. unfold try_catch, bind, ret in H.
    destruct (axiosClient_request _ _ _) as [[[e|res]|x] w1]; [destruct (ae_response e) as [res|]|..];
      try (injection H as <- _; done); try (injection H as <- _; cbn in Hr; discriminate).
    destruct (ax_status res =? 0)%Z; injection H as <- _; [done|discriminate]. }
  unfold test_rows. rewrite Hr, Ht. cbn. set_solver.
Qed.

(** A server the list does not hold yet: the select of the policy step shows
    "All servers" while the preview and the request name the server. *)
Theorem select_hides_new_server slug s0 servers roles l n :
  p_serverSlug (pl_form l) = slug -> slug <> "*" -> slug <> "" ->
  slug ∉ map ServerView_slug (s0 :: servers) ->
  let p := mkPage (JStr "policy") INITIAL_STATE in
  Select "Server pattern" "All servers (*)" ((server_options (s0 :: servers)).*2)
    ∈ step_body (mkScreen p (s0 :: servers) n (PolicyL l)) roles n
  /\ json_field "server_pattern" (policy_body (pl_form l)) = Some (JStr slug).
Proof.
  intros Hs Hstar Hne Hout. cbn zeta. split.
  - unfold step_body, PolicyStep. cbn [sc_page sc_servers sc_local step length]. rewrite Hs.
    assert (E : List.find (fun o => bool_decide (o.1 = slug)) (server_options (s0 :: servers)) = None).
    { unfold server_options. cbn [List.find fst]. rewrite (bool_decide_false ("*" = slug)) by congruence.
      clear -Hout. revert Hout. generalize (s0 :: servers). intros l. induction l as [|x l IH]; intros Hout; [done|].
      cbn [map] in *. apply not_elem_of_cons in Hout as [Hx Hout]. cbn [List.find fst].
      rewrite bool_decide_false by congruence. by apply IH. }
    unfold select_shows. rewrite E. cbn. find_elem.
  - unfold policy_body. rewrite Hs. change (Some (nullable_str (or_none slug)) = Some (JStr slug)).
    unfold or_none. rewrite bool_decide_false by congruence. done.
Qed.

(** An administrator who skips the key step because keys exist is told "Good
    start!" below a summary with every item ticked. *)
Theorem all_ticked_yet_unfinished p servers n :
  has p "orgName" = true -> has p "createdServerId" = true -> has p "policyCreated" = true ->
  json_field "createdApiKeyPlaintext" (ob p) = Some JNull -> 0 < n ->
  shows "Good start!" (DoneStep p servers n) /\ (summary p servers n).*2 = [true; true; true; true].
Proof.
  intros H1 H2 H3 H4 Hn.
  assert (H5 : has p "createdApiKeyPlaintext" = false) by (unfold has; by rewrite H4).
  split.
  - unfold DoneStep, allDone, completedSteps. rewrite H1, H2, H3, H5. apply shows_text. cbn [app]. find_elem.
  - unfold summary. cbn. rewrite H1, H3, H4. cbn.
    unfold has in H2. destruct (json_field "createdServerId" (ob p)) as [v|]; [|done].
    destruct n; [lia|]. destruct v; cbn in *; try done; by rewrite ?H2.
Qed.

(** The step says that invitations will be sent; going on sends nothing, and
    neither the saved state nor the next one depends on them. *)
Theorem invitations_go_nowhere p l l' w r w' :
  ol_form l = ol_form l' -> org_handleNext p (ol_form l) w = (r, w') ->
  shows "Invitations will be sent once your organization is configured." (OrgStep l)
  /\ w_sent w' = w_sent w /\ org_handleNext p (ol_form l') w = (r, w').
Proof.
  intros Hl H. split; [unfold OrgStep; rewrite !shows_app; right; right; find_text|].
  rewrite <- Hl. split; [|done].
  revert H. unfold org_handleNext, go, try_catch, save, sessionStorage_setItem, storage_set, bind, ret.
  destruct (_ && _); [|by intros [= _ <-]]. by destruct (st_quota _); intros [= _ <-].
Qed.

(** ** Witnesses *)

Definition server_page : page := mkPage (JStr "server") INITIAL_STATE.
Definition policy_page : page := mkPage (JStr "policy") INITIAL_STATE.

Lemma registration_empties_form_witness :
  let s := screen_run ([Edit (SrvName "Tools"); Edit (SrvUrl "https://tools.example")]
                       ++ [SubmitStart; PageRenders []; SubmitEnd 0]) (opened server_page []) in
  sc_local s = ServerL server_fresh /\ "handleSubmit" ∈ flat_map enabled (OnboardingPage s [] 0).
Proof.
  apply (registration_empties_form [Edit (SrvName "Tools"); Edit (SrvUrl "https://tools.example")] [] [] 0 server_page [] 0).
  - reflexivity.
  - repeat constructor.
Defined.

Lemma refused_policy_resets_limits_witness :
  exists l, sc_local (screen_run ([Edit (PolLimit "5")] ++ [SubmitStart; PageRenders []; SubmitEnd 0]) (opened policy_page []))
            = PolicyL l /\ p_limit (pl_form l) = "100".
Proof.
  destruct (refused_policy_resets_limits [Edit (PolLimit "5")] [] [] 0 policy_page) as (l & H1 & _ & H2);
    [reflexivity|repeat constructor|]. exists l. split; [exact H1|]. by injection H2.
Defined.

Lemma late_test_is_dropped_witness :
  let r := mkTest true 12%Z None (Some true) in
  screen_run ([TestStart; PageRenders []] ++ [TestDone 0 r]) (opened server_page [])
  = screen_run [TestStart; PageRenders []] (opened server_page []).
Proof. apply (late_test_is_dropped [TestStart; PageRenders []] _ (opened server_page [])). reflexivity. Defined.

Lemma checklist_never_complete_witness :
  ("trace", "View audit trace") ∈ CHECKLIST_labels
  /\ checklist_row server_page ("trace", "View audit trace") = [Badge "open"; Text "View audit trace"]
  /\ length (completedSteps server_page) <= 4.
Proof. apply checklist_never_complete. set_solver. Defined.

Lemma failed_test_denies_tls_witness : exists r w',
  testConnection (fun _ _ w => (Ok (inl (mkAxError "Network Error" None)), w)) 9%Z evil_form signed_in_world = (Ok (Some r), w')
  /\ s_url evil_form = "https://evil.example/" /\ Stat "TLS" "No (HTTP)" ∈ test_rows r.
Proof.
  eexists _, _. split; [vm_compute; reflexivity|]. split; [reflexivity|].
  eapply (failed_test_denies_tls (fun _ _ w => (Ok (inl (mkAxError "Network Error" None)), w)) 9%Z evil_form signed_in_world);
    [vm_compute; reflexivity|reflexivity].
Defined.

Definition old_server : ServerView :=
  mkServerView "s1" "t1" "Old" "old" "https://old.example" ServerTransport_streamable_http ServerAuthMode_none
    None None None ServerStatus_active "/health" 0%Z None "2026-01-01T00:00:00Z" "2026-01-01T00:00:00Z".

Lemma select_hides_new_server_witness :
  let l := mkPolicyL (mkPolicy "prod" "*" RateLimitAlgorithm_token_bucket "100" "60" "10") false in
  Select "Server pattern" "All servers (*)" ["All servers (*)"; "Old (old)"]
    ∈ step_body (mkScreen policy_page [old_server] 0 (PolicyL l)) [] 0
  /\ json_field "server_pattern" (policy_body (pl_form l)) = Some (JStr "prod").
Proof.
  apply (select_hides_new_server "prod" old_server []
    [] (mkPolicyL (mkPolicy "prod" "*" RateLimitAlgorithm_token_bucket "100" "60" "10") false) 0).
  - reflexivity.
  - discriminate.
  - discriminate.
  - cbn. set_solver.
Defined.

Definition skipped_key_page : page :=
  mkPage (JStr "done") (patch INITIAL_STATE [("orgName", Some (JStr "Acme")); ("createdServerId", Some (JStr "s1"));
                                             ("policyCreated", Some (JBool true))]).

Lemma all_ticked_yet_unfinished_witness :
  shows "Good start!" (DoneStep skipped_key_page [] 1) /\ (summary skipped_key_page [] 1).*2 = [true; true; true; true].
Proof. apply all_ticked_yet_unfinished; [vm_compute; reflexivity..|lia]. Defined.

Lemma invitations_go_nowhere_witness : exists r w',
  let f := mkOrg "Acme" "acme" "" "us-east-1" in
  org_handleNext server_page f (demo_world ∅ []) = (r, w')
  /\ shows "Invitations will be sent once your organization is configured." (OrgStep (mkOrgL f "bob@acme.example"))
  /\ w_sent w' = w_sent (demo_world ∅ []).
Proof.
  eexists _, _. split; [vm_compute; reflexivity|].
  edestruct (invitations_go_nowhere server_page (mkOrgL (mkOrg "Acme" "acme" "" "us-east-1") "bob@acme.example")
    (mkOrgL (mkOrg "Acme" "acme" "" "us-east-1") "") (demo_world ∅ [])) as (H1 & H2 & _);
    [reflexivity|vm_compute; reflexivity|]. split; [exact H1|exact H2].
Defined.
