(* ===== verification/DevToolsView.v ===== *)
(** * What the developer's tool explorer shows: web/src/app/developer/tools/page.tsx

    The page's controls as steps, its cards, filters and detail drawer.  The
    filters, the code examples and the decisions by a tool's name are
    [Developer.Explorer]. *)

From S2P Require Import Prelude JsString JsUri Json Browser ApiTypes JsDate RelTime Tally Tools ToolPage Developer View.

Import Catalogue Explorer.

#[local] Open Scope nat_scope.

#[local] Notation count l := (pretty (Z.of_nat (length l))).

(** ** The controls *)
Record RecentEntry := mkRecent { re_server : string; re_tool : string; re_usedAt : string }.

(** The entries the page starts with, from the time it is mounted. *)
Definition recentTools (mounted : Z) : list RecentEntry :=
  [mkRecent "production-mcp" "memory/store_memory" (toISOString (mounted - 120000));
   mkRecent "staging-mcp" "filesystem/read_file" (toISOString (mounted - 900000));
   mkRecent "production-mcp" "github/search_code" (toISOString (mounted - 3600000))].

Inductive control :=
  | OpenRecent (server : string)
  | PressServer (slug : string)
  | Search (q : string)
  | ClearSearch
  | FavoritesOnly
  | PressCategory (c : string)
  | ToggleFavorite (tool : string)
  | OpenTool (t : McpTool)
  | CloseTool.

Definition step (p : page) (c : control) : page :=
  let '(mkPage slug q cat favs tool only) := p in
  match c with
  | OpenRecent s => mkPage (Some s) q cat favs tool only
  | PressServer s => selectServer s p
  | Search v => mkPage slug v cat favs tool only
  | ClearSearch => mkPage slug "" cat favs tool only
  | FavoritesOnly => mkPage slug q cat favs tool (negb only)
  | PressCategory v => mkPage slug q v favs tool only
  | ToggleFavorite n => toggleFavorite n p
  | OpenTool t => mkPage slug q cat favs (Some t) only
  | CloseTool => mkPage slug q cat favs None only
  end.

Definition run (cs : list control) (p : page) : page := fold_left step cs p.

(** ** The drawer *)
Inductive code_tab := python | javascript | curl.

#[global] Instance code_tab_eq : EqDecision code_tab.
Proof. solve_decision. Defined.

Definition tab_label (t : code_tab) : string :=
  match t with python => "Python" | javascript => "JavaScript" | curl => "Curl" end.

Definition lang (t : code_tab) : string := match t with python => "Python" | javascript => "JavaScript" | curl => "curl" end.

Definition example (API_BASE : string) (tool : McpTool) (slug : string) (t : code_tab) : string :=
  match t with
  | python => python_example API_BASE tool slug
  | javascript => javascript_example API_BASE tool slug
  | curl => curl_example API_BASE tool slug
  end.

Definition ACCESS_CFG (a : access) : string :=
  match a with allowed => "Allowed" | denied => "Denied" | pending => "Pending" end.

Definition CodeBlock (code lang : string) (copied : bool) : list view :=
  [Text lang; Button (if copied then "Copied" else "Copy") false "copy"; Code code].

Definition star (favorite : bool) : view :=
  Button (if favorite then "Remove from favorites" else "Add to favorites") false "onToggleFavorite".

Definition param_row (tool : McpTool) (kv : string * McpToolProperty) : list view :=
  let s := kv.2 in
  [Code (kv.1)] ++ when (is_req (Some tool) (kv.1)) [Badge "required"]
  ++ match nonempty (mp_type s) with
     | Some t => [Badge (t +:+ match mp_enum s with Some vs => " (" +:+ join " | " vs +:+ ")" | None => "" end)]
     | None => []
     end
  ++ shown_text (mp_description s).

Definition limits (a : access) : list view :=
  [Stat "Access status" (ACCESS_CFG a); Stat "Rate limit" "100 calls / minute"; Stat "Daily quota" "10,000 calls / day";
   Stat "Timeout" "30 seconds"].

(** "Request exception" has no handler. *)
Definition access_notice (a : access) : list view :=
  match a with
  | allowed => []
  | denied =>
      [Text "Access denied by policy";
       Text "This tool has been restricted by your organization's security policy. Contact platform-team to request an exception.";
       Button "Request exception" false ""]
  | pending =>
      [Text "Access pending approval";
       Text "Your access request is under review. You'll receive a notification when it's approved."]
  end.

Definition docs_link (tool : McpTool) : string := "/developer/docs?tool=" +:+ encodeURIComponent (mt_name tool).

Definition ToolDetailDrawer (API_BASE : string) (tool : McpTool) (slug : string) (favorite : bool) (tab : code_tab)
    (copied : bool) : list view :=
  let a := getAccessStatus (mt_name tool) in
  let params := properties (Some tool) in
  [Text (mt_name tool); Badge (inferCategory (mt_name tool)); Badge (ACCESS_CFG a); star favorite; Button "" false "onClose";
   Text "Description"; Text (default "No description provided." (mt_description tool));
   Text "Server"; Text slug; Text "Support"; Text "platform-team"]
  ++ when (0 <? length params) (Text ("Parameters (" +:+ count params +:+ ")") :: flat_map (param_row tool) params)
  ++ Text "Permission & Limits" :: limits a
  ++ Text "Code Examples" :: map (fun t => Button (tab_label t) false "setCodeTab") [python; javascript; curl]
  ++ CodeBlock (example API_BASE tool slug tab) (lang tab) copied
  ++ access_notice a
  ++ [Link "Try in Playground" (playground_link slug tool); Link "Docs" (docs_link tool)].

(** ** The cards *)
Definition ToolCard (tool : McpTool) (favorite recent : bool) : view :=
  Card (mt_name tool) (default "No description provided." (mt_description tool))
    ([star favorite; Badge (inferCategory (mt_name tool)); Badge (ACCESS_CFG (getAccessStatus (mt_name tool)))]
     ++ when recent [Badge "Recent"]
     ++ [Text (pretty (Z.of_nat (paramCount tool)) +:+ " param" +:+ plural (Z.of_nat (paramCount tool)));
         Button "Details" false "onOpen"]).

(** ** The page *)
Section page.
Context (API_BASE : string) (tz now mounted : Z).

Definition isRecent (p : page) (tool : string) : bool :=
  existsb (fun r => bool_decide (Some (re_server r) = selectedSlug p) && bool_decide (re_tool r = tool)) (recentTools mounted).

Definition recent_chip (r : RecentEntry) : list view :=
  [Button (re_tool r) false "setSelectedSlug"; Text (developer_tools_relativeTime tz now (re_usedAt r))].

Definition server_pills (servers : answer (list ServerView)) : list view :=
  if is_pending servers then [Skeletons 3] else
  map (fun s => Button s false "setSelectedSlug")
    match rows servers with
    | [] => ["production-mcp"; "staging-mcp"; "dev-mcp"]
    | l => map ServerView_slug l
    end.

Definition search_bar (p : page) : list view :=
  Input "" (search p) "Search tools by name or description…" false
  :: when (negb (bool_decide (search p = ""))) [Button "" false "clearSearch"]
  ++ [Button "Favorites" false "setShowFavoritesOnly"].

Definition category_pills (tools : list McpTool) : list view :=
  when (1 <? length (categories tools)) (map (fun c => Button c false "setCategoryFilter") (categories tools)).

Definition cards (p : page) (l : list McpTool) : list view :=
  map (fun t => ToolCard t (isFavorite p (mt_name t)) (isRecent p (mt_name t))) l.

(** The grid below a selected server; [msg] is the fetch error's. *)
Definition tool_grid (p : page) (slug : string) (q : tools_query) (msg : string) : list view :=
  let tools := shown_tools (Some slug) q in
  if toolsLoading q then [Skeletons 9]
  else if toolsError q && match fetchedTools q with Some (_ :: _) => false | _ => true end
  then [Text "Failed to fetch tools"; Text msg]
  else match filtered p tools with
       | [] => [Text "No tools match"; Text "Try a different search term or category."]
       | l => Text (count l +:+ " of " +:+ count tools +:+ " tool" +:+ plural (Z.of_nat (length tools)) +:+ " on " +:+ slug)
              :: cards p l
       end.

Definition ToolsInner (p : page) (servers : answer (list ServerView)) (q : tools_query) (msg : string) (tab : code_tab)
    (copied : bool) : list view :=
  [Text "Tool Explorer"; Text "Browse, favorite, and test MCP tools across all connected servers"; Text "Recently Used"]
  ++ flat_map recent_chip (recentTools mounted)
  ++ Text "Select a Server" :: server_pills servers
  ++ match nonempty (selectedSlug p) with
     | Some slug =>
         search_bar p ++ category_pills (shown_tools (Some slug) q) ++ tool_grid p slug q msg
         ++ match detailTool p with
            | Some t => ToolDetailDrawer API_BASE t slug (isFavorite p (mt_name t)) tab copied
            | None => []
            end
     | None =>
         when (negb (is_pending servers))
           [Text "Select a server to browse tools"; Text "Choose a server above to explore its available MCP tools."]
     end.
End page.

(** ** Theorems *)

Lemma keeps_iff p t :
  keeps p t = true <->
  (search p = "" \/ includes (toLowerCase (mt_name t)) (toLowerCase (search p)) = true
   \/ includes (toLowerCase (default "" (mt_description t))) (toLowerCase (search p)) = true)
  /\ (categoryFilter p = "All" \/ inferCategory (mt_name t) = categoryFilter p)
  /\ (showFavoritesOnly p = true -> isFavorite p (mt_name t) = true).
Proof.
  unfold keeps. rewrite !andb_true_iff, !orb_true_iff, !bool_decide_eq_true, negb_true_iff.
  destruct (showFavoritesOnly p); naive_solver.
Qed.

(** Whatever the controls have done, the cards of an answered server are the
    tools that meet the search, the category and the favourites filter, in the
    server's order, and the line above counts them. *)
Theorem grid_shows_filtered mounted cs p0 slug t ts msg :
  let p := run cs p0 in
  let q := mkToolsQuery (Some (t :: ts)) false false in
  let kept := List.filter (keeps p) (t :: ts) in
  slug <> "" -> kept <> [] ->
  tool_grid mounted p slug q msg =
    Text (count kept +:+ " of " +:+ count (t :: ts) +:+ " tool" +:+ plural (Z.of_nat (length (t :: ts))) +:+ " on " +:+ slug)
    :: cards mounted p kept
  /\ map (fun v => match v with Card n _ _ => n | _ => "" end) (cards mounted p kept) = map mt_name kept
  /\ forall x, x ∈ kept <-> x ∈ t :: ts /\ keeps p x = true.
Proof.
  intros p q kept Hs Hk.
  assert (Hsh : shown_tools (Some slug) q = t :: ts) by (unfold shown_tools, truthy; by rewrite bool_decide_false).
  split_and!.
  - unfold tool_grid. rewrite Hsh. cbn [toolsLoading toolsError fetchedTools q andb]. change (filtered p (t :: ts)) with kept.
    clear -Hk. destruct kept; done.
  - unfold cards. rewrite map_map. done.
  - intros x. unfold kept. by rewrite list_elem_of_In, filter_In, <- list_elem_of_In.
Qed.

(** The chosen category outlives a change of server: where the new server has no
    tool of it, every tool is hidden and no pill shows the choice. *)
Theorem stale_category_hides_all mounted p s t ts msg :
  let p' := step p (PressServer s) in
  let q := mkToolsQuery (Some (t :: ts)) false false in
  s <> "" -> selectedSlug p <> Some s -> categoryFilter p <> "All" ->
  (forall x, x ∈ t :: ts -> inferCategory (mt_name x) <> categoryFilter p) ->
  tool_grid mounted p' s q msg = [Text "No tools match"; Text "Try a different search term or category."]
  /\ categoryFilter p' = categoryFilter p /\ selectedSlug p' = Some s
  /\ categoryFilter p' ∉ categories (shown_tools (Some s) q).
Proof.
  intros p' q Hs Hsel Hcat Hnone.
  assert (Hp : categoryFilter p' = categoryFilter p /\ selectedSlug p' = Some s).
  { destruct p as [slug q' cat favs tool only]. unfold p', step, selectServer. cbn in Hsel |- *.
    rewrite bool_decide_false by done. done. }
  destruct Hp as [Hp1 Hp2].
  assert (Hsh : shown_tools (Some s) q = t :: ts) by (unfold shown_tools, truthy; by rewrite bool_decide_false).
  split_and!; [|done|done|].
  - unfold tool_grid. rewrite Hsh. cbn [toolsLoading toolsError fetchedTools q andb].
    unfold filtered. rewrite filter_none_match; [done|]. intros x Hx.
    apply not_true_iff_false. rewrite keeps_iff, Hp1. intros (_ & [H|H] & _); [done|]. by apply (Hnone x).
  - rewrite Hsh, Hp1. unfold categories. rewrite elem_of_cons, (stable_sort_perm by_code_units).
    rewrite (proj2 (ExplorerFacts.set_add_fold _ [] (NoDup_nil_2 (A := string))) (categoryFilter p)).
    rewrite elem_of_nil, list_elem_of_fmap. intros [H|[[]|(x & H & Hx)]]; [done|]. by apply (Hnone x).
Qed.

(** "Access denied by policy" is read off the tool's name, whatever the
    policies say; the tool can still be tried from the same drawer. *)
Theorem denied_by_name API_BASE tool slug favorite tab copied :
  includes (mt_name tool) "shell" = true \/ includes (mt_name tool) "run_command" = true ->
  let v := ToolDetailDrawer API_BASE tool slug favorite tab copied in
  shows "Access denied by policy" v /\ Stat "Access status" "Denied" ∈ v
  /\ Link "Try in Playground" (playground_link slug tool) ∈ v.
Proof.
  intros H. assert (Hd : getAccessStatus (mt_name tool) = denied)
    by (unfold getAccessStatus; apply orb_true_iff in H; by rewrite H).
  cbn zeta. unfold ToolDetailDrawer. rewrite Hd. split_and!; [find_text|find_elem..].
Qed.

Lemma toggle_favs n p :
  NoDup (favorites p) -> NoDup (favorites (toggleFavorite n p)).
Proof.
  intros H. unfold toggleFavorite. destruct (selectedSlug p) as [slug|] eqn:E; [|done]. case_bool_decide; [done|]. cbn.
  rewrite (ExplorerFacts.isFavorite_elem p slug n E). case_bool_decide as Hin.
  - eapply sublist_NoDup; [exact H|]. clear. induction (favorites p) as [|x l IH]; [constructor|]. cbn.
    destruct (negb _); by constructor.
  - apply NoDup_app. split_and!; [done| |apply NoDup_singleton]. intros x Hx ->%list_elem_of_singleton. done.
Qed.

(** The favourites never hold an entry twice, so one press of a lit star always
    removes it. *)
Theorem favorites_have_no_duplicates server q cs : NoDup (favorites (run cs (initial server q))).
Proof.
  unfold run. assert (H : NoDup (favorites (initial server q))) by (apply (bool_decide_eq_true_1 _); by vm_compute).
  revert H. generalize (initial server q). induction cs as [|c cs IH]; intros p H; [done|]. cbn. apply IH.
  destruct p as [slug v cat favs tool only]. destruct c; try done. by apply toggle_favs.
Qed.

(** "Recently used" is made from the time the page was opened: whoever opens it
    has used the same three tools 2 minutes, 15 minutes and an hour before. *)
Theorem recently_used_is_made_up tz mounted :
  (forall t, t ∈ [120000; 900000; 3600000]%Z -> Date_parse tz (toISOString (mounted - t)) = Some (mounted - t)%Z) ->
  flat_map (recent_chip tz mounted) (recentTools mounted) =
    [Button "memory/store_memory" false "setSelectedSlug"; Text "2m ago";
     Button "filesystem/read_file" false "setSelectedSlug"; Text "15m ago";
     Button "github/search_code" false "setSelectedSlug"; Text "1h ago"].
Proof.
  intros H. assert (E : forall t, t ∈ [120000; 900000; 3600000]%Z -> since tz mounted (toISOString (mounted - t)) = Some t).
  { intros t Ht. unfold since, getTime. rewrite (H t Ht). cbn. f_equal. lia. }
  cbn [flat_map recentTools recent_chip re_tool re_usedAt app]. unfold developer_tools_relativeTime.
  rewrite !E by set_solver. done.
Qed.

(** ** Witnesses *)

Definition read_tool : McpTool := mkTool "read_file" None None None.

Lemma grid_shows_filtered_witness :
  tool_grid 0 (run [Search "read"] (initial (Some "prod") None)) "prod"
    (mkToolsQuery (Some [read_tool; mkTool "http_get" None None None]) false false) ""
  = [Text "1 of 2 tools on prod";
     Card "read_file" "No description provided."
       [Button "Add to favorites" false "onToggleFavorite"; Badge "Filesystem"; Badge "Allowed"; Text "0 params";
        Button "Details" false "onOpen"]].
Proof.
  destruct (grid_shows_filtered 0 [Search "read"] (initial (Some "prod") None) "prod" read_tool
    [mkTool "http_get" None None None] "") as (H & _); [discriminate|by vm_compute|].
  etrans; [exact H|]. vm_compute. reflexivity.
Defined.

Lemma stale_category_hides_all_witness :
  let p := run [PressCategory "Memory"] (initial (Some "prod") None) in
  tool_grid 0 (step p (PressServer "staging")) "staging" (mkToolsQuery (Some [read_tool]) false false) ""
  = [Text "No tools match"; Text "Try a different search term or category."].
Proof.
  apply (stale_category_hides_all 0 (run [PressCategory "Memory"] (initial (Some "prod") None)) "staging" read_tool [] "").
  - discriminate.
  - discriminate.
  - discriminate.
  - intros x Hx. apply list_elem_of_singleton in Hx as ->. vm_compute. discriminate.
Defined.

Lemma denied_by_name_witness :
  let tool := mkTool "docs/shell_guide" (Some "Reads the shell's manual") None None in
  let v := ToolDetailDrawer "http://localhost:8000" tool "prod" false python false in
  shows "Access denied by policy" v /\ Stat "Access status" "Denied" ∈ v
  /\ Link "Try in Playground" (playground_link "prod" tool) ∈ v.
Proof. apply denied_by_name. left. reflexivity. Defined.

Lemma recently_used_is_made_up_witness :
  flat_map (recent_chip 0 1767225600000) (recentTools 1767225600000) =
    [Button "memory/store_memory" false "setSelectedSlug"; Text "2m ago";
     Button "filesystem/read_file" false "setSelectedSlug"; Text "15m ago";
     Button "github/search_code" false "setSelectedSlug"; Text "1h ago"].
Proof.
  apply recently_used_is_made_up. intros t Ht. rewrite !elem_of_cons in Ht.
  destruct Ht as [->|[->|[->|Ht]]]; [vm_compute; reflexivity..|]. by apply elem_of_nil in Ht.
Defined.
