(* ===== verification/ServerNewView.v ===== *)
(** * What the registration page shows: web/src/app/dashboard/servers/new/page.tsx

    The whole form with its settings that stay in the browser, the connection
    test as a sequence of events, and the page.  The part of the form that is
    sent, the submission and the outcome of a test are [Servers]. *)

From S2P Require Import Prelude JsString Json Browser AuthStore ApiTypes Servers View.

(** ** The form *)

(** The settings that are never sent. *)
Record settings := mkSettings {
  description : string; environment : string; tags : string; timeout : Z; retryCount : Z;
  healthInterval : Z; failureThreshold : Z; recoveryThreshold : Z;
  tlsValidation : bool; requestSizeLimit : Z; allowedIpRanges : string }.

Definition initial_settings : settings := mkSettings "" "production" "" 30 3 60 3 2 true 1024 "".

Inductive setting :=
  | Description (v : string) | Environment (v : string) | Tags (v : string) | Timeout_ (v : Z) | RetryCount (v : Z)
  | HealthInterval (v : Z) | FailureThreshold (v : Z) | RecoveryThreshold (v : Z)
  | TlsValidation | RequestSizeLimit (v : Z) | AllowedIpRanges (v : string).

Definition set_setting (e : setting) (s : settings) : settings :=
  let '(mkSettings d env tg t r hi ft rt tls sz ip) := s in
  match e with
  | Description v => mkSettings v env tg t r hi ft rt tls sz ip
  | Environment v => mkSettings d v tg t r hi ft rt tls sz ip
  | Tags v => mkSettings d env v t r hi ft rt tls sz ip
  | Timeout_ v => mkSettings d env tg v r hi ft rt tls sz ip
  | RetryCount v => mkSettings d env tg t v hi ft rt tls sz ip
  | HealthInterval v => mkSettings d env tg t r v ft rt tls sz ip
  | FailureThreshold v => mkSettings d env tg t r hi v rt tls sz ip
  | RecoveryThreshold v => mkSettings d env tg t r hi ft v tls sz ip
  | TlsValidation => mkSettings d env tg t r hi ft rt (negb tls) sz ip
  | RequestSizeLimit v => mkSettings d env tg t r hi ft rt tls v ip
  | AllowedIpRanges v => mkSettings d env tg t r hi ft rt tls sz v
  end.

(** ** The page in steps *)

(** [tests]: the tests under way, each with the address it was started for. *)
Record page := mkPage {
  form : server_form; local : settings;
  test : TestState * option TestResult * option string; tests : list string; pending : bool }.

Definition initial_page : page := mkPage (slug_effect initial_form) initial_settings (idle, None, None) [] false.

Inductive event :=
  | Change (e : edit)
  | Set_ (e : setting)
  | TestStart
  | TestDone (n : nat) (elapsed : Z) (res : fetch_end)   (** the answer to the [n]-th test under way *)
  | Pending (b : bool).                                  (** the registration's [isPending] *)

Section page.
Context (isValidUrl : string -> bool).

Definition testState (p : page) : TestState := p.(test).1.1.
Definition testResult (p : page) : option TestResult := p.(test).1.2.
Definition testError (p : page) : option string := p.(test).2.

#[global] Instance TestState_eq : EqDecision TestState.
Proof. solve_decision. Defined.

Definition test_disabled (p : page) : bool :=
  negb (isValidUrl (fm_upstreamUrl (form p))) || bool_decide (testState p = testing).

Definition step (p : page) (e : event) : page :=
  let '(mkPage f l t ts b) := p in
  match e with
  | Change e => mkPage (change e f) l t ts b
  | Set_ e => mkPage f (set_setting e l) t ts b
  | TestStart =>
      if test_disabled p then p
      else mkPage f l (testing, None, None) (ts ++ [fullUrl (fm_upstreamUrl f) (fm_healthCheckPath f)]) b
  | TestDone n elapsed res =>
      match ts !! n with
      | Some url => mkPage f l (handleTestConnection (fun _ => true) url elapsed res t) (take n ts ++ drop (S n) ts) b
      | None => p
      end
  | Pending b => mkPage f l t ts b
  end.

Definition run (es : list event) (p : page) : page := fold_left step es p.

(** ** The test panel *)
Definition form_status (f : server_form) : list (string * bool) :=
  let slugValid := negb (bool_decide (fm_slug f = "")) in
  [("Name provided", slugValid); ("Slug provided", slugValid); ("Base URL valid", isValidUrl (fm_upstreamUrl f))].

Definition result_card (p : page) : list view :=
  match testState p with
  | success | error =>
      [Card (if bool_decide (testState p = success) then "Reachable" else "Unreachable") ""
         (match testResult p with
          | Some r => when (negb (tr_status r =? 200)%Z) [Text ("HTTP " +:+ pretty (tr_status r))]
                      ++ [Text (pretty (tr_latencyMs r) +:+ " ms")]
          | None => []
          end
          ++ match testError p with Some e => when (negb (bool_decide (e = ""))) [Text e] | None => [] end)]
  | _ => []
  end.

Definition ConnectionTestPanel (p : page) : list view :=
  let url := fullUrl (fm_upstreamUrl (form p)) (fm_healthCheckPath (form p)) in
  [Text "Connection Test"; Text "Health endpoint"; Code (if bool_decide (url = "") then "Enter a Base URL to preview…" else url);
   Button (if bool_decide (testState p = testing) then "Testing…" else "Test Connection") (test_disabled p) "handleTestConnection"]
  ++ result_card p
  ++ [Text "MCP Tool Discovery"; Text "Requires the server to be registered first."; Button "Discover Tools" true "";
      Text "Register the server first to test MCP discovery"; Text "Form status"]
  ++ flat_map (fun s => [Badge (if (s.2 : bool) then "ok" else "missing"); Text (s.1)]) (form_status (form p)).

(** ** The form's sections *)
Definition FieldRow (label : string) (required : bool) (hint : string) (control : view) : list view :=
  Text (label +:+ if required then " *" else "") :: control :: when (negb (bool_decide (hint = ""))) [Text hint].

Definition TextInput (value placeholder : string) : view := Input "" value placeholder false.

Definition NumberWithSuffix (value : Z) (suffix : string) : view := Input suffix (pretty value) "" false.

Definition BasicInformation (p : page) : view :=
  let f := form p in let l := local p in
  Card "Basic Information" "Identify this MCP server in your workspace"
    (FieldRow "Name" true "Human-readable display name for this server" (TextInput (fm_name f) "My MCP Server")
     ++ FieldRow "Slug" true "URL-safe identifier used in API paths and routing" (TextInput (fm_slug f) "my-mcp-server")
     ++ FieldRow "Description" false "Optional notes about this server's purpose"
          (TextInput (description l) "Describe what this server provides…")
     ++ FieldRow "Environment" false "" (Select "" (environment l) ["Production"; "Staging"; "Development"; "Local"])
     ++ FieldRow "Tags" false "Comma-separated" (TextInput (tags l) "tools, ai, internal")
     ++ [Text "Environment and Tags are stored locally in the UI only and are not sent to the API."]).

Definition Connection (p : page) : view :=
  let f := form p in let l := local p in
  Card "Connection" "How Portcullis reaches the upstream MCP server"
    (FieldRow "Base URL" true "Root URL of the upstream MCP server" (TextInput (fm_upstreamUrl f) "http://localhost:3001")
     ++ FieldRow "Transport" false "" (Select "" "streamable_http" ["Streamable HTTP"])
     ++ FieldRow "Protocol Version" false "" (TextInput "2024-11-05" "")
     ++ FieldRow "Health Check Path" false "Path polled to determine server health"
          (TextInput (fm_healthCheckPath f) "/healthz")
     ++ FieldRow "Timeout" false "" (NumberWithSuffix (timeout l) "seconds")
     ++ FieldRow "Retry Count" false "" (NumberWithSuffix (retryCount l) "retries")
     ++ [Text "Timeout and Retry Count are UI preferences only and will be supported via API in a future release."]).

Definition Authentication (p : page) : view :=
  let f := form p in
  Card "Authentication" "How Portcullis authenticates with the upstream server"
    (FieldRow "Auth Mode" false "" (Select "" (ServerAuthMode_value (fm_authMode f)) ["None"; "Service Token"])
     ++ match fm_authMode f with
        | ServerAuthMode_none => [Text "No authentication required. Requests will be forwarded without credentials."]
        | ServerAuthMode_service_token =>
            FieldRow "Service Token Env Var" false
              "Name of the environment variable holding the service token on the gateway server"
              (TextInput (fm_serviceTokenEnvVar f) "MY_SERVICE_TOKEN")
        end).

Definition HealthCheck (p : page) : view :=
  let l := local p in
  Card "Health Check" "Configure automated health monitoring behaviour"
    (FieldRow "Check Interval" false "" (NumberWithSuffix (healthInterval l) "seconds")
     ++ FieldRow "Failure Threshold" false "Consecutive failures before marking unhealthy"
          (NumberWithSuffix (failureThreshold l) "failures")
     ++ FieldRow "Recovery Threshold" false "Consecutive successes before marking healthy"
          (NumberWithSuffix (recoveryThreshold l) "successes")
     ++ [Text "These health check parameters are UI-only and will be configurable via API in a future release. The gateway currently uses its own internal defaults."]).

Definition Security (p : page) : view :=
  let l := local p in
  Card "Security" "Additional security controls for upstream communication"
    ([Text "TLS Validation"; Text "Verify TLS certificates when connecting upstream";
      Button (if tlsValidation l then "on" else "off") false "setTlsValidation"]
     ++ FieldRow "Request Size Limit" false "Maximum incoming request body size" (NumberWithSuffix (requestSizeLimit l) "KB")
     ++ FieldRow "Allowed IP Ranges" false "One CIDR block per line. Leave empty to allow all."
          (TextInput (allowedIpRanges l) "10.0.0.0/8
192.168.1.0/24")
     ++ [Text "Security fields (TLS Validation, Request Size Limit, Allowed IP Ranges) are UI-only and will be supported via API in a future release."]).

Definition submit_disabled (p : page) : bool :=
  pending p || blank (fm_name (form p)) || blank (fm_slug (form p)) || blank (fm_upstreamUrl (form p)).

Definition NewServerPage (p : page) : list view :=
  [Link "All servers" "/dashboard/servers"; Text "Add MCP Server";
   Text "Register an upstream MCP server to proxy through Portcullis";
   BasicInformation p; Connection p; Authentication p; HealthCheck p; Security p;
   Button (if pending p then "Registering…" else "Register Server") (submit_disabled p) "handleSubmit";
   Link "Cancel" "/dashboard/servers"]
  ++ ConnectionTestPanel p.
End page.

(** ** Theorems *)

(** A test under way, and only one. *)
Definition test_ok (p : page) : Prop := length (tests p) <= 1 /\ (testState p = testing <-> tests p <> []).

Lemma step_test_ok v e p : test_ok p -> test_ok (step v p e).
Proof.
  destruct p as [f l [[st r] er] ts b]. unfold test_ok. cbn. intros [H1 H2].
  destruct e as [| | |n elapsed res|]; cbn; try done.
  - case_match eqn:E; [done|]. unfold test_disabled in E. apply orb_false_iff in E as [_ E]. cbn in E.
    apply bool_decide_eq_false in E. destruct ts as [|u ts]; [|destruct E; by apply H2]. cbn. split; [lia|].
    split; [intros _ [=]|done].
  - destruct (ts !! n) as [u|] eqn:E; [|done]. destruct ts as [|u' [|]]; [done| |cbn in H1; lia].
    destruct n as [|n]; [|done]. cbn. split; [lia|]. split; [|done].
    destruct res as [|s []| |]; cbn; discriminate.
Qed.

(** Whatever is typed, pressed and answered, at most one connection test is
    under way, and the panel says so exactly then: the button is not left
    waiting and does not start a second test. *)
Theorem one_test_at_a_time v es :
  let p := run v es initial_page in
  length (tests p) <= 1 /\ (testState p = testing <-> tests p <> []) /\
  (tests p <> [] -> test_disabled v p = true).
Proof.
  cbn zeta. assert (H : forall p, test_ok p -> test_ok (run v es p)).
  { induction es as [|e es IH]; intros p Hp; [done|]. cbn. by apply IH, step_test_ok. }
  destruct (H initial_page) as [H1 H2]; [split; [cbn; lia|cbn; split; [discriminate|done]]|].
  split_and!; [done|done|]. intros Hn. unfold test_disabled. apply H2 in Hn. rewrite Hn. apply orb_true_r.
Qed.

(** The result stays beside an address it does not belong to: an address typed
    while a test is under way is shown as reachable when the old one answers.
    The browser hides the status of the answer, so every answer counts. *)
Theorem answer_for_another_address v p url elapsed :
  v (fm_upstreamUrl (form p)) = true -> testState p <> testing -> tests p = [] -> url <> "" ->
  let p' := run v [TestStart; Change (UpstreamUrl url); TestDone 0 elapsed Opaque] p in
  result_card p' = [Card "Reachable" "" [Text (pretty elapsed +:+ " ms")]]
  /\ Code (fullUrl url (fm_healthCheckPath (form p'))) ∈ ConnectionTestPanel v p'
  /\ form p' = change (UpstreamUrl url) (form p).
Proof.
  destruct p as [[name slug touched u health auth var] l [[st r] er] ts b]. cbn [form fm_upstreamUrl tests].
  intros Hv Hst -> Hu. unfold testState in Hst. cbn in Hst.
  assert (E : run v [TestStart; Change (UpstreamUrl url); TestDone 0 elapsed Opaque]
                (mkPage (mkForm name slug touched u health auth var) l (st, r, er) [] b)
              = mkPage (mkForm name slug touched url health auth var) l (success, Some (mkTest elapsed 200 true), None) [] b).
  { unfold run. cbn [fold_left]. unfold step at 3, test_disabled, testState. cbn [form fm_upstreamUrl test fst snd].
    rewrite Hv, bool_decide_false by done. done. }
  cbn zeta. rewrite E. split_and!; [done| |done].
  unfold ConnectionTestPanel. cbn [form fm_upstreamUrl fm_healthCheckPath].
  assert (Hf : fullUrl url health <> "").
  { unfold fullUrl. rewrite bool_decide_false by done. unfold or_default.
    destruct (cleanUrl url); [|discriminate]. case_bool_decide; [discriminate|done]. }
  rewrite (bool_decide_false (fullUrl url health = "")) by done. find_elem.
Qed.

(** The panel ticks "Name provided" by the slug: with a slug of its own a blank
    name is ticked, and the form still cannot be sent; a name no slug can be made
    of is not. *)
Theorem name_tick_is_the_slug v p :
  (fm_slug (form p) <> "" -> trim (fm_name (form p)) = "" ->
   ("Name provided", true) ∈ form_status v (form p) /\ submit_disabled p = true)
  /\ (form_reachable (form p) -> fm_slugTouched (form p) = false -> slugify (fm_name (form p)) = "" ->
      ("Name provided", false) ∈ form_status v (form p)).
Proof.
  split.
  - intros Hs Hn. unfold form_status, submit_disabled, blank. rewrite bool_decide_false by done.
    rewrite (bool_decide_true (trim _ = "")) by done. rewrite orb_true_r. split; [find_elem|done].
  - intros Hr Ht Hn. destruct (form_slug_ok _ Hr) as [_ H]. unfold form_status. rewrite (H Ht), Hn. find_elem.
Qed.

(** The browser-only settings change nothing of the request, the description
    included, of which the page does not say so. *)
Theorem settings_not_sent v es p :
  Forall (fun e => match e with Set_ _ => True | _ => False end) es ->
  payload (form (run v es p)) = payload (form p).
Proof.
  intros H. revert p. induction H as [|e es He _ IH]; intros p; [done|].
  change (payload (form (run v es (step v p e))) = payload (form p)). rewrite IH.
  destruct e; try done. by destruct p.
Qed.

(** ** Witnesses *)

Definition local_page (name slug url : string) : page :=
  mkPage (mkForm name slug true url "/healthz" ServerAuthMode_none "") initial_settings (idle, None, None) [] false.

Lemma answer_for_another_address_witness :
  let p' := run (fun _ => true) [TestStart; Change (UpstreamUrl "http://other"); TestDone 0 12 Opaque] (local_page "A" "a" "http://a") in
  result_card p' = [Card "Reachable" "" [Text "12 ms"]]
  /\ Code "http://other/healthz" ∈ ConnectionTestPanel (fun _ => true) p'.
Proof.
  destruct (answer_for_another_address (fun _ => true) (local_page "A" "a" "http://a") "http://other" 12) as (H1 & H2 & _);
    [reflexivity|discriminate|reflexivity|discriminate|]. split; [exact H1|exact H2].
Defined.

Lemma name_tick_is_the_slug_witness :
  ("Name provided", true) ∈ form_status (fun _ => true) (form (local_page "  " "a" "http://a"))
  /\ submit_disabled (local_page "  " "a" "http://a") = true.
Proof. apply (name_tick_is_the_slug (fun _ => true) (local_page "  " "a" "http://a")); [discriminate|reflexivity]. Defined.

Lemma settings_not_sent_witness :
  payload (form (run (fun _ => true) [Set_ (Description "Billing tools")] (local_page "A" "a" "http://a")))
  = payload (form (local_page "A" "a" "http://a")).
Proof. apply settings_not_sent. repeat constructor. Defined.
