(* ===== verification/AdminOps.v ===== *)
(** * The operations pages of the administration

    What web/src/app/admin/security/page.tsx and infrastructure/page.tsx show,
    the revocations of the one as a sequence of events and the health probe of
    the other.  The figures are [AdminPages.Security] and
    [AdminPages.Infrastructure]. *)

From S2P Require Import Prelude JsString Json JsonParse Browser AuthStore AxiosClient ApiTypes ApiClient JsDate RelTime Tally AdminPages View AdminViews.

#[local] Open Scope nat_scope.

#[local] Notation num n := (pretty (Z.of_nat n)).

Module SecurityView.
Import Security.

(** ** Revocations: [revokingId] names one key only *)
Record revocations := mkRev { revokingId : option string; under_way : list string }.

Inductive event := Press (key : string) | Settled (key : string).

Definition step (r : revocations) (e : event) : revocations :=
  match e with
  | Press k => if bool_decide (revokingId r = Some k) then r else mkRev (Some k) (under_way r ++ [k])
  | Settled k => if bool_decide (k ∈ under_way r)
                 then mkRev None (List.filter (fun x => negb (bool_decide (x = k))) (under_way r)) else r
  end.

Definition run (es : list event) (r : revocations) : revocations := fold_left step es r.

(** ** The report *)
Definition report (wire : AuditLogView -> json) (generated_at : string) (events : list AuditLogView) : json :=
  JObj [("generated_at", JStr generated_at); ("total_events", JNum (Z.of_nat (length events))); ("events", JArr (map wire events))].

Section view.
(** The zone, [fmtDate] on a time, the audit rows as they came. *)
Context (tz : Z) (fmtDate : string -> string) (wire : AuditLogView -> json).

(** [handleExportReport]: the file's name and text. *)
Definition handleExportReport (now : Z) (allEvents : list AuditLogView) : string * string :=
  ("incident-report-" +:+ pretty now +:+ ".json",
   JSON_stringify_indent 2 (report wire (toISOString now) (timelineEvents tz allEvents))).

(** ** The page *)
Definition EventBadge (e : AuditLogView) : view := Badge (EventBadge_label e).

Definition timeline_row (e : AuditLogView) : list view :=
  [EventBadge e; Text (truncate (AuditLogView_subject_id e) 18); or_dash (AuditLogView_server_slug e);
   or_dash (AuditLogView_tool_name e); or_dash (AuditLogView_client_ip e); Text (fmtDate (AuditLogView_created_at e))].

Definition ThreatTimeline (loading : bool) (allEvents : list AuditLogView) : view :=
  Card "Threat Timeline" "Up to 50 recent security events"
    (if loading then [Skeletons 5] else
     match timelineEvents tz allEvents with
     | [] => [Text "No security events detected"]
     | l => [Table [] (map timeline_row l)]
     end).

Definition ip_row (r : string * ip_info) : list view :=
  [Code (r.1); Text (pretty (ii_count (r.2))); Text (join ", " (map type_text (ii_types (r.2))));
   Text (fmtDate (ii_lastSeen (r.2))); Button "Block" false "handleBlockIP"].

Definition TopSuspiciousIPs (loading : bool) (bad : list AuditLogView) : view :=
  Card "Top Suspicious IPs" ""
    (if loading then [Skeletons 4] else
     match suspiciousIPRows bad with
     | [] => [Text "No suspicious activity detected"]
     | l => [Table ["IP Address"; "Failures"; "Event Types"; "Last Seen"] (map ip_row l)]
     end).

Definition scope_line (scopes : list string) : string :=
  join ", " (take 3 scopes) +:+ (if 3 <? length scopes then " +" +:+ num (length scopes - 3) else "").

Definition key_row (r : revocations) (k : ApiKeyView) : list view :=
  let busy := bool_decide (revokingId r = Some (ApiKeyView_id k)) in
  Text (ApiKeyView_name k) :: when (0 <? length (ApiKeyView_scopes k)) [Text (scope_line (ApiKeyView_scopes k))]
  ++ [Code (ApiKeyView_key_prefix k +:+ "…");
      Text (match ApiKeyView_last_used_at k with
            | Some t => if bool_decide (t = "") then "Never" else fmtDate t
            | None => "Never"
            end);
      Button (if busy then "…" else "Revoke") busy ("revoke " +:+ ApiKeyView_id k)].

Definition ApiKeyManagement (q : answer (list ApiKeyView)) (r : revocations) : view :=
  Card "API Key Management" ""
    (if is_pending q then [Skeletons 4] else
     match rows q with
     | [] => [Text "No API keys found"]
     | l => [Table ["Name"; "Prefix"; "Last Used"; "Action"] (map (key_row r) l)]
     end).

Definition StatCard (label : string) (value : nat) (loading : bool) : view :=
  if loading then Card label "" [Skeletons 1] else Stat label (num value).

Definition SecurityPage (all failures denies : answer (list AuditLogView)) (keys : answer (list ApiKeyView))
    (r : revocations) : list view :=
  let loading := is_pending all || is_pending failures || is_pending denies in
  let s := stats_of (rows all) (rows failures) (rows denies) (rows keys) in
  [Text "Security"; Text "Security operations, incidents, and threat monitoring";
   StatCard "Auth Failures" (authFailureCount s) loading; StatCard "RBAC Denies" (rbacDenyCount s) loading;
   StatCard "Blocked Tool Calls" (blockedToolCalls s) loading; StatCard "Unique Attackers" (uniqueAttackers s) loading;
   StatCard "API Keys Active" (activeApiKeys s) (is_pending keys);
   StatCard "Suspicious IPs" (length (suspiciousIPs s)) loading; StatCard "Open Incidents" 0 false;
   ThreatTimeline loading (rows all); TopSuspiciousIPs loading (deniedOrFailedEvents s); ApiKeyManagement keys r;
   Text "Quick Actions"; Button "Export Incident Report" false "handleExportReport"; Link "Review All Denies" "/admin/audit";
   Link "Manage API Keys" "/dashboard/api-keys"; Link "View Policies" "/admin/policies"].
End view.
End SecurityView.

Module InfraView.
Import Infrastructure.

(** The health query: its latest success in milliseconds, whether it is asking,
    whether it failed. *)
Record health := mkHealth { h_data : option Z; h_fetching : bool; h_error : bool }.

Section probe.
Context (dispatch : AxiosDefaults -> AxiosConfig -> M (AxiosError + AxiosResponse)).

(** [queryFn] and React Query's bookkeeping of its outcome ([retry: false]). *)
Definition probe (elapsed : Z) (h : health) : M health :=
  try_catch
    (r <-- axiosClient_request dispatch (mkConfig "/healthz" "GET" ∅ None);
     ret (match r with inr _ => mkHealth (Some elapsed) false false | inl _ => mkHealth (h_data h) false true end))
    (fun _ => ret (mkHealth (h_data h) false true)).
End probe.

Definition status (h : health) : string := healthStatus (h_fetching h) (h_error h).

Definition is_ok (h : health) : bool := bool_decide (status h = "ok").
Definition is_error (h : health) : bool := bool_decide (status h = "error").

Definition latency (h : health) : string := match h_data h with Some ms => " — " +:+ pretty ms +:+ "ms" | None => "" end.

Definition banner (h : health) : list view :=
  if bool_decide (status h = "checking") then [Text "Checking system health…"]
  else if is_ok h then [Text "All Systems Operational"; Text ("Gateway responding normally" +:+ latency h)]
  else [Text "Gateway Degraded"; Text "Health check failed — gateway may be unreachable"].

(** Name, dot and status of the six services. *)
Definition services (h : health) : list (string * option bool * string) :=
  let dot := if is_ok h then Some true else None in
  let other name good := (name, dot, if is_ok h then good else "Unknown") in
  [("Gateway API", (if is_ok h then Some true else if is_error h then Some false else None),
    if bool_decide (status h = "checking") then "Checking…" else if is_ok h then "Online" +:+ latency h else "Unreachable");
   other "Database" "Connected"; other "Redis Cache" "Connected"; other "Message Queue" "Operational";
   other "Worker Pool" "Running"; other "Audit Pipeline" "Active"].

Definition dot_label (d : option bool) : string :=
  match d with Some true => "healthy" | Some false => "unhealthy" | None => "unknown" end.

Definition service_card (s : string * option bool * string) : list view :=
  [Text (s.1.1); Text (s.2); Badge (dot_label (s.1.2))].

Definition StatusPill (s : ServerStatus) : view :=
  Badge (match s with ServerStatus_active => "Active" | ServerStatus_unhealthy => "Unhealthy" | _ => "Disabled" end).

Definition uniqueAuthModes (servers : list ServerView) : list string :=
  fold_left (fun acc s => let m := ServerAuthMode_value (ServerView_auth_mode s) in
                          if bool_decide (m ∈ acc) then acc else acc ++ [m]) servers [].

Section view.
Context (tz now : Z).

Definition last_check (s : option string) : string := infrastructure_relativeTime tz now s.

Definition server_row (isPending : bool) (s : ServerView) : list view :=
  let f := ServerView_consecutive_health_failures s in
  [Text (ServerView_name s); Code (ServerView_slug s); Text (ServerView_upstream_url s);
   Badge (ServerTransport_value (ServerView_transport s)); StatusPill (ServerView_status s);
   (if bool_decide (f = 0%Z) then Text "0" else Badge (pretty f)); Text (last_check (ServerView_last_health_check_at s));
   Link "View" ("/dashboard/servers/" +:+ ServerView_slug s)]
  ++ when (negb (bool_decide (ServerView_status s = ServerStatus_disabled)))
       [Button "Disable" isPending ("disable " +:+ ServerView_slug s)].

Definition health_table (isPending : bool) (q : answer (list ServerView)) : list view :=
  if is_pending q then [Skeletons 3] else
  match rows q with
  | [] => [Text "No servers registered"; Text "Register an MCP server from the dashboard to get started"]
  | l => [Table ["Server"; "URL"; "Transport"; "Status"; "Health Failures"; "Last Check"; "Actions"] (map (server_row isPending) l)]
  end.

(** The instance, its load and its state are written in the page. *)
Definition gateway_instances : list view :=
  [Text "Gateway Instances"; Text "Single-instance deployment — horizontal scaling available in Enterprise plan";
   Table ["Instance ID"; "Region"; "Version"; "CPU"; "Memory"; "Status"]
     [[Code "gw-primary-001"; Badge "us-east-1"; Text "1.0.0"; Text "12%"; Text "256 MB"; Badge "Running"]]].

Definition deployment (servers : list ServerView) : list view :=
  [Text "Deployment"; Stat "Version" "1.0.0"; Stat "Transport" "streamable_http"; Text "Auth Modes"]
  ++ match uniqueAuthModes servers with [] => [Text "—"] | l => map Badge l end
  ++ [Button "View Changelog" true ""; Button "Check for Updates" true ""].

Definition stat_cards (h : health) (q : answer (list ServerView)) : list view :=
  let l := rows q in
  let loaded s := if is_pending q then "—" else s in
  [Stat "Gateway Status" (if bool_decide (status h = "checking") then "…" else if is_ok h then "Healthy" else "Degraded");
   Stat "MCP Servers" (loaded (num (length l)));
   Text (if is_pending q then ""
         else num (length (with_status ServerStatus_active l)) +:+ " active / "
              +:+ num (length (with_status ServerStatus_unhealthy l)) +:+ " unhealthy");
   Stat "Health Failures" (loaded (pretty (totalFailures l))); Stat "Last Checked" (loaded (last_check (lastCheckedAt l)))].

Definition AdminInfrastructurePage (h : health) (q : answer (list ServerView)) (isPending : bool) : list view :=
  [Text "Infrastructure"; Text "Gateway instances, database status, and deployment versions";
   Button "Refresh" (bool_decide (status h = "checking")) "handleRefresh"]
  ++ banner h ++ stat_cards h q ++ Text "Service Health" :: flat_map service_card (services h)
  ++ Text "MCP Server Health" :: health_table isPending q ++ gateway_instances ++ deployment (rows q).
End view.
End InfraView.

(** ** Lemmas *)
Module OpsFacts.
Import SecurityView InfraView.

Lemma step_known e r : (forall k, revokingId r = Some k -> k ∈ under_way r) ->
  forall k, revokingId (SecurityView.step r e) = Some k -> k ∈ under_way (SecurityView.step r e).
Proof.
  intros H. destruct e as [a|a]; cbn.
  - case_bool_decide; [done|]. cbn. intros k [= <-]. set_solver.
  - case_bool_decide; [|done]. cbn. discriminate.
Qed.

(** What the probe leaves, whatever was there. *)
Lemma probe_settles dispatch elapsed h w h' w' :
  probe dispatch elapsed h w = (Ok h', w') ->
  h_fetching h' = false /\ (h_error h' = false -> h_data h' = Some elapsed).
Proof.
  unfold probe, try_catch, bind, ret.
  destruct (axiosClient_request _ _ _) as [[[e|res]|x] w1]; intros [= <- _]; done.
Qed.

Lemma modes_fold servers acc :
  NoDup acc ->
  let f := fun acc s => let m := ServerAuthMode_value (ServerView_auth_mode s) in
                        if bool_decide (m ∈ acc) then acc else acc ++ [m] in
  NoDup (fold_left f servers acc)
  /\ forall m, m ∈ fold_left f servers acc <-> m ∈ acc \/ exists s, s ∈ servers /\ ServerAuthMode_value (ServerView_auth_mode s) = m.
Proof.
  cbn zeta. revert acc. induction servers as [|s l IH]; intros acc Hn; cbn [fold_left].
  - split; [done|]. intros m. split; [auto|]. intros [H|(s & H & _)]; [done|]. by apply elem_of_nil in H.
  - case_bool_decide as Hm.
    + destruct (IH acc Hn) as [H1 H2]. split; [done|]. intros m. rewrite H2. set_solver.
    + destruct (IH (acc ++ [ServerAuthMode_value (ServerView_auth_mode s)])) as [H1 H2].
      { apply NoDup_app. split_and!; [done|set_solver|apply NoDup_singleton]. }
      split; [done|]. intros m. rewrite H2. set_solver.
Qed.
End OpsFacts.

(** ** Theorems: security *)
Import SecurityView InfraView OpsFacts.

(** The exported report is JSON that reads back as the report, counts its
    events, and holds at most fifty, however many the page counts. *)
Theorem report_reads_back tz wire now all :
  let r := handleExportReport tz wire now all in
  let evs := Security.timelineEvents tz all in
  JSON_parse (r.2) = Some (report wire (toISOString now) evs)
  /\ json_field "total_events" (report wire (toISOString now) evs) = Some (JNum (Z.of_nat (length evs)))
  /\ length evs <= 50.
Proof.
  cbn zeta. split_and!.
  - apply parse_of_reads, indented_reads; [apply ws_spaces|done].
  - done.
  - unfold Security.timelineEvents. rewrite length_take. lia.
Qed.

(** An answered call that the gateway let through ("allowed") is in the threat
    timeline, as a blocked call. *)
Theorem allowed_call_badged_blocked tz all e :
  AuditLogView_event_type e = AuditEventType_tool_call -> AuditLogView_outcome e = "allowed" -> e ∈ all ->
  length (List.filter Security.security_event all) <= 50 ->
  e ∈ Security.timelineEvents tz all /\ EventBadge e = Badge "Blocked Call".
Proof.
  intros Ht Ho Hin Hlen. split.
  - unfold Security.timelineEvents. rewrite take_ge by (by rewrite (stable_sort_perm (Security.newest_first tz))).
    rewrite (stable_sort_perm (Security.newest_first tz)). rewrite list_elem_of_In, filter_In, <- list_elem_of_In. split; [done|].
    unfold Security.security_event, Security.is_event, Security.isDenied. rewrite Ht, Ho. done.
  - unfold EventBadge, Security.EventBadge_label, Security.is_event. rewrite Ht, Ho. done.
Qed.

(** The page remembers one revocation: pressing a second key's button frees the
    first one's while both requests are under way, and the first answer frees
    the second's. *)
Theorem second_revocation_frees_first fmtDate a b :
  ApiKeyView_id a <> ApiKeyView_id b ->
  let r2 := run [Press (ApiKeyView_id a); Press (ApiKeyView_id b)] (mkRev None []) in
  let r3 := step r2 (Settled (ApiKeyView_id a)) in
  under_way r2 = [ApiKeyView_id a; ApiKeyView_id b]
  /\ Button "Revoke" false ("revoke " +:+ ApiKeyView_id a) ∈ key_row fmtDate r2 a
  /\ under_way r3 = [ApiKeyView_id b]
  /\ Button "Revoke" false ("revoke " +:+ ApiKeyView_id b) ∈ key_row fmtDate r3 b.
Proof.
  intros Hne. cbn zeta.
  assert (E2 : run [Press (ApiKeyView_id a); Press (ApiKeyView_id b)] (mkRev None [])
               = mkRev (Some (ApiKeyView_id b)) [ApiKeyView_id a; ApiKeyView_id b]).
  { unfold run. cbn [fold_left step revokingId under_way].
    rewrite (bool_decide_false (None = _)) by done. cbn [revokingId under_way].
    rewrite bool_decide_false by congruence. done. }
  rewrite E2. clear E2.
  assert (E3 : step (mkRev (Some (ApiKeyView_id b)) [ApiKeyView_id a; ApiKeyView_id b])
                 (Settled (ApiKeyView_id a)) = mkRev None [ApiKeyView_id b]).
  { cbn [step under_way]. rewrite bool_decide_true by set_solver. f_equal. cbn [List.filter].
    rewrite bool_decide_true by done. cbn [negb]. rewrite bool_decide_false by congruence. done. }
  rewrite E3. split_and!; [done| |done|]; unfold key_row; cbn [revokingId].
  - rewrite (bool_decide_false (Some _ = Some _)) by congruence. find_elem.
  - rewrite (bool_decide_false (None = Some _)) by done. find_elem.
Qed.

(** A disabled button always belongs to a revocation under way. *)
Theorem locked_key_is_under_way es k :
  revokingId (run es (mkRev None [])) = Some k -> k ∈ under_way (run es (mkRev None [])).
Proof.
  revert k. assert (H : forall k, revokingId (mkRev None []) = Some k -> k ∈ under_way (mkRev None [])) by done.
  revert H. generalize (mkRev None []). induction es as [|e es IH]; intros r H; [done|].
  apply (IH (step r e)). by apply step_known.
Qed.

(** ** Theorems: infrastructure *)

(** One request decides every line of the service health: its answer reports
    all six as working, the queue, the workers and the audit pipeline included,
    and anything else, a 503 that names the failing component included, reports
    the gateway as unreachable and the others as unknown. *)
Theorem probe_decides_every_service dispatch elapsed h w h' w' :
  probe dispatch elapsed h w = (Ok h', w') ->
  (h_error h' = false ->
   map (fun s => (s.1.1, s.2)) (services h') =
     [("Gateway API", "Online — " +:+ pretty elapsed +:+ "ms"); ("Database", "Connected"); ("Redis Cache", "Connected");
      ("Message Queue", "Operational"); ("Worker Pool", "Running"); ("Audit Pipeline", "Active")])
  /\ (h_error h' = true ->
     map (fun s => (s.1.1, s.2)) (services h') =
       ("Gateway API", "Unreachable")
       :: map (fun n => (n, "Unknown")) ["Database"; "Redis Cache"; "Message Queue"; "Worker Pool"; "Audit Pipeline"]).
Proof.
  intros Hp. destruct (probe_settles _ _ _ _ _ _ Hp) as [Hf Hd]. destruct h' as [d f e]. cbn in Hf, Hd. subst f.
  split; cbn; intros ->; [|done]. rewrite (Hd eq_refl). done.
Qed.

(** The table of gateway instances says "Running" also below "Gateway
    Degraded". *)
Theorem degraded_gateway_runs tz now h q pending :
  h_fetching h = false -> h_error h = true ->
  let v := AdminInfrastructurePage tz now h q pending in
  Text "Gateway Degraded" ∈ v /\ [Code "gw-primary-001"; Badge "us-east-1"; Text "1.0.0"; Text "12%"; Text "256 MB"; Badge "Running"]
    ∈ flat_map table_rows v.
Proof.
  intros Hf He. cbn zeta. destruct h as [d f e]. cbn in Hf, He. subst f e. unfold AdminInfrastructurePage. split.
  - change (banner (mkHealth d false true)) with
      [Text "Gateway Degraded"; Text "Health check failed — gateway may be unreachable"]. find_elem.
  - apply elem_flat_map. unfold gateway_instances.
    exists (Table ["Instance ID"; "Region"; "Version"; "CPU"; "Memory"; "Status"]
              [[Code "gw-primary-001"; Badge "us-east-1"; Text "1.0.0"; Text "12%"; Text "256 MB"; Badge "Running"]]).
    split; [|apply list_elem_of_here].
    do 3 apply list_elem_of_further. apply elem_of_app. right. apply elem_of_app. right. apply list_elem_of_further.
    apply elem_of_app. right. apply list_elem_of_further. apply elem_of_app. right. apply elem_of_app. left.
    do 2 apply list_elem_of_further. apply list_elem_of_here.
Qed.

(** The authentication modes of the deployment: each mode of a server, once. *)
Theorem auth_modes_exact servers :
  NoDup (uniqueAuthModes servers)
  /\ forall m, m ∈ uniqueAuthModes servers <-> exists s, s ∈ servers /\ ServerAuthMode_value (ServerView_auth_mode s) = m.
Proof.
  destruct (modes_fold servers [] (NoDup_nil_2 (A := string))) as [H1 H2]. split; [exact H1|].
  intros m. etrans; [apply H2|]. rewrite elem_of_nil. tauto.
Qed.

(** ** Witnesses *)

Definition allowed_call : AuditLogView :=
  mkAuditLogView "e1" None None None AuditEventType_tool_call (Some "prod") (Some "read_file") None "allowed" (Some "10.0.0.1") None
    [] "2026-01-01T00:00:00Z".

Lemma allowed_call_badged_blocked_witness :
  allowed_call ∈ Security.timelineEvents 0 [allowed_call] /\ EventBadge allowed_call = Badge "Blocked Call".
Proof. apply allowed_call_badged_blocked; [reflexivity|reflexivity|set_solver|vm_compute; lia]. Defined.

Definition key_a : ApiKeyView := mkApiKeyView "a" "CI" "pk_a" [] "2026-01-01T00:00:00Z" None.
Definition key_b : ApiKeyView := mkApiKeyView "b" "Bot" "pk_b" [] "2026-01-01T00:00:00Z" None.

Lemma second_revocation_frees_first_witness :
  let r2 := run [Press "a"; Press "b"] (mkRev None []) in
  under_way r2 = ["a"; "b"] /\ Button "Revoke" false "revoke a" ∈ key_row id r2 key_a.
Proof.
  destruct (second_revocation_frees_first id key_a key_b) as (H1 & H2 & _); [discriminate|]. split; [exact H1|exact H2].
Defined.

Lemma locked_key_is_under_way_witness : "b" ∈ under_way (run [Press "a"; Press "b"; Settled "c"] (mkRev None [])).
Proof. apply (locked_key_is_under_way [Press "a"; Press "b"; Settled "c"]). vm_compute. reflexivity. Defined.

(** A backend whose database is down, and one that is well. *)
Definition degraded : AxiosDefaults -> AxiosConfig -> M (AxiosError + AxiosResponse) :=
  fun _ _ w => (Ok (inl (mkAxError "503" (Some (mkAxResponse
    (Some (JObj [("status", JStr "degraded"); ("database", JStr "error"); ("redis", JStr "ok")])) 503 ∅)))), w).
Definition well : AxiosDefaults -> AxiosConfig -> M (AxiosError + AxiosResponse) :=
  fun _ _ w => (Ok (inr (mkAxResponse None 200 ∅)), w).

Lemma probe_decides_every_service_witness :
  (exists h w, probe degraded 5 (mkHealth None true false) (demo_world ∅ []) = (Ok h, w)
     /\ ("Redis Cache", "Unknown") ∈ map (fun s => (s.1.1, s.2)) (services h))
  /\ exists h w, probe well 5 (mkHealth None true false) (demo_world ∅ []) = (Ok h, w)
     /\ ("Worker Pool", "Running") ∈ map (fun s => (s.1.1, s.2)) (services h).
Proof.
  split.
  - eexists _, _. split; [vm_compute; reflexivity|].
    rewrite (proj2 (probe_decides_every_service degraded 5 (mkHealth None true false) (demo_world ∅ []) _ _ ltac:(vm_compute; reflexivity)));
      [set_solver|reflexivity].
  - eexists _, _. split; [vm_compute; reflexivity|].
    rewrite (proj1 (probe_decides_every_service well 5 (mkHealth None true false) (demo_world ∅ []) _ _ ltac:(vm_compute; reflexivity)));
      [set_solver|reflexivity].
Defined.

Lemma degraded_gateway_runs_witness :
  Text "Gateway Degraded" ∈ AdminInfrastructurePage 0 0 (mkHealth None false true) (Answered []) false.
Proof. apply (degraded_gateway_runs 0 0 (mkHealth None false true) (Answered []) false); reflexivity. Defined.
