(* ===== verification/AdminPeople.v ===== *)
(** * The subjects and the organisations of the administration

    What web/src/app/admin/users/page.tsx and organizations/page.tsx show, and
    the users page's revocations as a sequence of events.  Figures, filters and
    the provisioning dialog are [AdminPages.Subjects] and
    [AdminPages.Organizations]. *)

From S2P Require Import Prelude JsString Json ApiTypes JsDate RelTime AccessControl Feedback AdminPages View AdminViews.

#[local] Open Scope nat_scope.

#[local] Notation num n := (pretty (Z.of_nat n)).

Module SubjectsView.
Import Subjects.

(** ** The page in steps *)

(** A revocation under way: the key and the panel that was open when its button
    was pressed, which its handler closed over. *)
Record flight := mkFlight { fl_key : ApiKeyView; fl_selected : option string }.

Record page := mkPage {
  search : string; hasActivity : bool; selectedKey : option ApiKeyView; revoking : option string; flights : list flight }.

Definition initial : page := mkPage "" false None None [].

Inductive event :=
  | Search (q : string)
  | ToggleActivity
  | PressRow (k : ApiKeyView)
  | ClosePanel
  | PressRevoke (k : ApiKeyView) (confirmed : bool)
  | Settled (n : nat) (good : bool).   (** the [n]-th revocation under way *)

Definition step (p : page) (e : event) : page :=
  let '(mkPage q a sel rev fl) := p in
  match e with
  | Search v => mkPage v a sel rev fl
  | ToggleActivity => mkPage q (negb a) sel rev fl
  | PressRow k => mkPage q a (if bool_decide (ApiKeyView_id <$> sel = Some (ApiKeyView_id k)) then None else Some k) rev fl
  | ClosePanel => mkPage q a None rev fl
  | PressRevoke k confirmed =>
      if bool_decide (rev = Some (ApiKeyView_id k)) || negb confirmed then p
      else mkPage q a sel (Some (ApiKeyView_id k)) (fl ++ [mkFlight k (ApiKeyView_id <$> sel)])
  | Settled n good =>
      match fl !! n with
      | Some f =>
          mkPage q a (if good && bool_decide (fl_selected f = Some (ApiKeyView_id (fl_key f))) then None else sel)
            None (take n fl ++ drop (S n) fl)
      | None => p
      end
  end.

Definition run (es : list event) (p : page) : page := fold_left step es p.

Definition prompt (k : ApiKeyView) : string := "Revoke API key " +:+ quoted (ApiKeyView_name k) +:+ "? This cannot be undone.".

(** ** The page *)
Section view.
Context (tz now : Z) (formatDate : string -> string).

Definition StatCard (label : string) (value : nat) (loading : bool) : view :=
  if loading then Card label "" [Skeletons 1] else Stat label (num value).

Definition shown_opt (label : string) (o : option string) : list view :=
  match o with Some s => when (negb (bool_decide (s = ""))) [Text (label +:+ s)] | None => [] end.

Definition log_entry (l : AuditLogView) : list view :=
  [Code (AuditEventType_value (AuditLogView_event_type l)); Badge (AuditLogView_outcome l)]
  ++ shown_opt "server " (AuditLogView_server_slug l) ++ shown_opt "tool " (AuditLogView_tool_name l)
  ++ shown_opt "" (AuditLogView_client_ip l) ++ [Text (users_relativeTime tz now (Some (AuditLogView_created_at l)))].

Definition ActivityPanel (k : ApiKeyView) (logs : list AuditLogView) : view :=
  Card (ApiKeyView_name k) (ApiKeyView_key_prefix k +:+ "…")
    (Button "" false "onClose" ::
     match keyLogs k logs with
     | [] => [Text "No activity yet"; Text "Events will appear once this key is used"]
     | l => flat_map log_entry l
     end).

Definition scopes_cell (scopes : list string) : list view :=
  match scopes with
  | [] => [Text "—"]
  | _ => map Badge (take 3 scopes) ++ when (3 <? length scopes) [Text ("+" +:+ num (length scopes - 3))]
  end.

Definition key_row (p : page) (k : ApiKeyView) : list view :=
  let busy := bool_decide (revoking p = Some (ApiKeyView_id k)) in
  [Text (ApiKeyView_name k); Code (ApiKeyView_key_prefix k +:+ "…")] ++ scopes_cell (ApiKeyView_scopes k)
  ++ [Text (users_relativeTime tz now (ApiKeyView_last_used_at k)); Text (formatDate (ApiKeyView_created_at k));
      Button (if busy then "Revoking…" else "Revoke") busy ("revoke " +:+ ApiKeyView_id k)].

Definition users_table (p : page) (q : answer (list ApiKeyView)) : list view :=
  if is_pending q then [Skeletons 5] else
  match filteredKeys (search p) (hasActivity p) (rows q) with
  | [] => [Text "No API keys found";
           Text (if negb (bool_decide (search p = "")) || hasActivity p
                 then "Try adjusting your search or filters" else "Create an API key to get started")]
  | l => [Table ["Subject"; "Scopes"; "Last Active"; "Created"; "Actions"] (map (key_row p) l)]
  end.

Definition side_panel (p : page) (logs : answer (list AuditLogView)) : list view :=
  match selectedKey p with
  | Some k => if is_pending logs then [Skeletons 4] else [ActivityPanel k (rows logs)]
  | None => []
  end.

Definition roles_section (q : answer (list RoleView)) : list view :=
  Text "Roles" :: when (negb (is_pending q)) [Badge (num (length (rows q)))]
  ++ (if is_pending q then [Skeletons 3] else
      match rows q with
      | [] => [Text "No roles defined"; Text "Create roles to group permissions for API key subjects"]
      | l => flat_map (fun r => [Text (RoleView_name r); Text ("Created " +:+ formatDate (RoleView_created_at r))]) l
      end).

Definition AdminUsersPage (p : page) (keys : answer (list ApiKeyView)) (roles : answer (list RoleView))
    (logs : answer (list AuditLogView)) : list view :=
  [Text "Users"; Text "API key subjects and access management";
   Text "This gateway is single-tenant — user subjects are represented by API keys. Each key below corresponds to a unique subject that can authenticate and access MCP tools based on its assigned scopes.";
   StatCard "Total Subjects" (length (rows keys)) (is_pending keys); StatCard "Active" (activeCount (rows keys)) (is_pending keys);
   StatCard "Never Used" (neverUsedCount (rows keys)) (is_pending keys); StatCard "Roles" (length (rows roles)) (is_pending roles);
   Input "" (search p) "Search by name or key prefix…" false; Button "Has Activity" false "setHasActivity"]
  ++ users_table p keys ++ side_panel p logs ++ roles_section roles.
End view.
End SubjectsView.

Module OrgsView.
Import Organizations.

(** ** The dialog *)
Definition Field (label : string) (control : view) (hint : string) : list view :=
  Text label :: control :: when (negb (bool_decide (hint = ""))) [Text hint].

Definition CredentialRow (label value : string) (copied : bool) : list view :=
  [Text label; Button (if copied then "Copied" else "Copy") false ("copy " +:+ value); Code value].

Definition plan_label (plan : string) : string :=
  if bool_decide (plan = "community") then "Community" else if bool_decide (plan = "pro") then "Pro" else "Enterprise".

(** A text of the answer; an absent one shows nothing. *)
Definition text_at (path : list string) (j : json) : string :=
  from_option js_String "" (nullish (fold_left (fun o k => o ≫= json_field k) path (Some j))).

Definition credentials (r : json) (copied : string -> bool) : list view :=
  let row label value := CredentialRow label value (copied label) in
  row "Owner email" (text_at ["owner"; "email"] r) ++ row "Access token" (text_at ["access_token"] r)
  ++ (let pw := text_at ["owner_password"] r in
      if bool_decide (pw = "") then [] else row "Owner password (generated)" pw)
  ++ row "License key" (text_at ["license_key"] r)
  ++ [Text ("Plan: " +:+ text_at ["license"; "plan"] r +:+ " · Seat limit: " +:+ text_at ["license"; "seat_limit"] r)].

Definition provision_form (f : form) : list view :=
  Field "Organization name" (Input "" (name f) "Acme Inc" false) ""
  ++ Field "Slug" (Input "" (slug f) "acme" false) "Unique lowercase identifier used in URLs and API keys."
  ++ Field "Owner email" (Input "" (ownerEmail f) "owner@acme.com" false) ""
  ++ Field "Owner full name" (Input "" (ownerFullName f) "Ada Owner" false) ""
  ++ Field "Plan" (Select "" (plan_label (plan f)) (map plan_label PLAN_OPTIONS)) ""
  ++ Field "Seat limit" (Input "" (seatLimit f) "" false) "".

Definition ProvisionDialog (d : dialog) (copied : string -> bool) : list view :=
  when (open d)
    (Text (title d)
     :: match result d with
        | Some r =>
            Text "One-time credentials for the new owner. Copy them now — they are shown only once."
            :: credentials r copied ++ [Button "Done" false "handleClose"]
        | None =>
            Text "Provision a new managed tenant with an owner account and platform license."
            :: provision_form (fields d)
            ++ [Button "Cancel" false "handleClose"; Button (if busy d then "Provisioning…" else "Provision") (busy d) "handleSubmit"]
        end).

(** ** The page *)
Section view.
(** [toLocaleDateString] and [toLocaleString] of a time. *)
Context (localeDate localeString : string -> string).

Definition fmtDate (iso : string) : string := if bool_decide (iso = "") then "—" else localeDate iso.
Definition fmtDateTime (iso : string) : string := if bool_decide (iso = "") then "—" else localeString iso.

Definition tenant_plan (t : TenantView) : option LicensePlan := default None (TenantView_plan t).

(** [plan.charAt(0).toUpperCase() + plan.slice(1)] *)
Definition capital (s : string) : string :=
  match s with "" => "" | String c r => String (AccessControl.Teams.upper_char c) r end.

Definition plan_cell (t : TenantView) : view :=
  Badge (match tenant_plan t with Some p => capital (LicensePlan_value p) | None => "—" end).

Definition with_plan (p : LicensePlan) (l : list TenantView) : nat :=
  length (List.filter (fun t => bool_decide (tenant_plan t = Some p)) l).

Definition StatCard (label : string) (value : nat) (loading : bool) : view :=
  if loading then Card label "" [Skeletons 1] else Stat label (num value).

(** "Last Activity" is the time of creation; the links lead to the reader's own
    dashboard and settings. *)
Definition tenant_row (t : TenantView) : list view :=
  [Text (TenantView_name t); Text (TenantView_slug t); plan_cell t; Text (fmtDate (TenantView_created_at t));
   Text (fmtDateTime (TenantView_created_at t)); Link "Open" "/dashboard"; Link "Settings" "/admin/settings"].

Definition tenants_table (q : answer (list TenantView)) : list view :=
  if is_pending q then [Skeletons 2] else
  match rows q with
  | [] => EmptyState "No organizations yet" "Provision your first managed tenant to get started." []
            [mkAction "New Organization" None false]
  | l => [Table ["Organization"; "Plan"; "Created"; "Last Activity"; ""] (map tenant_row l);
          Text ("Showing " +:+ num (length l) +:+ " of " +:+ num (length l) +:+ " organization" +:+ plural (Z.of_nat (length l)));
          Text "Managed tenants"]
  end.

Definition AdminOrganizationsPage (d : dialog) (copied : string -> bool) (q : answer (list TenantView)) : list view :=
  let l := rows q in
  [Text "Organizations"; Text "Manage customer organizations across the platform"; Button "New Organization" false "setProvisionOpen";
   StatCard "Total Organizations" (length l) (is_pending q); StatCard "Active" (length l) (is_pending q);
   StatCard "Pro" (with_plan LicensePlan_pro l) (is_pending q); StatCard "Enterprise" (with_plan LicensePlan_enterprise l) (is_pending q)]
  ++ tenants_table q ++ ProvisionDialog d copied.
End view.
End OrgsView.

(** ** Theorems: subjects *)
Import SubjectsView.

Lemma run_cons e es p : run (e :: es) p = run es (step p e).
Proof. done. Qed.

(** A revocation's handler remembers the panel that was open when its button was
    pressed: its success closes the panel of another key opened meanwhile, and
    leaves open the panel of the revoked key when that was opened meanwhile. *)
Theorem revocation_and_the_panel q a k b :
  ApiKeyView_id b <> ApiKeyView_id k ->
  selectedKey (run [PressRevoke k true; PressRow b; Settled 0 true] (mkPage q a (Some k) None [])) = None
  /\ selectedKey (run [PressRevoke k true; PressRow k; Settled 0 true] (mkPage q a None None [])) = Some k.
Proof.
  intros Hne. rewrite !run_cons. cbn [step negb orb].
  rewrite !(bool_decide_false (None = Some _)) by done. cbn [orb step app option_fmap fmap option_map].
  rewrite (bool_decide_false (Some (ApiKeyView_id k) = Some (ApiKeyView_id b))) by congruence.
  rewrite (bool_decide_false (None = Some _)) by done.
  cbn [lookup list_lookup fl_selected fl_key andb]. unfold run. cbn [fold_left selectedKey].
  rewrite bool_decide_true by done. rewrite bool_decide_false by done. done.
Qed.

(** Every subject is either active or never used, so the two cards add up to the
    first; the activity filter shows exactly the active ones when the search is
    empty. *)
Theorem subjects_partitioned tz now formatDate keys :
  let p := mkPage "" true None None [] in
  let active := List.filter (fun k => bool_decide (is_Some (ApiKeyView_last_used_at k))) keys in
  Subjects.activeCount keys + Subjects.neverUsedCount keys = length keys
  /\ flat_map table_rows (users_table tz now formatDate p (Answered keys)) = map (key_row tz now formatDate p) active.
Proof.
  cbn zeta. split.
  - unfold Subjects.activeCount, Subjects.neverUsedCount. induction keys as [|k l IH]; [done|]. cbn [List.filter].
    destruct (ApiKeyView_last_used_at k); cbn [length].
    + rewrite bool_decide_true by eauto. rewrite bool_decide_false by done. cbn. lia.
    + rewrite bool_decide_false by (by intros [? [=]]). rewrite bool_decide_true by done. cbn. lia.
  - unfold users_table. cbn [is_pending rows search hasActivity].
    assert (E : Subjects.filteredKeys "" true keys = List.filter (fun k => bool_decide (is_Some (ApiKeyView_last_used_at k))) keys)
      by done.
    rewrite E. destruct (List.filter _ keys) as [|k l]; [done|]. cbn [flat_map table_rows]. by rewrite app_nil_r.
Qed.

(** ** Theorems: organisations *)
Import Organizations OrgsView.

(** "Active" counts every organisation, the column of the last activity shows
    the creation, and the links of all rows lead to the same two pages. *)
Theorem organisations_rows localeDate localeString d copied t l :
  let v := AdminOrganizationsPage localeDate localeString d copied (Answered (t :: l)) in
  Stat "Total Organizations" (num (length (t :: l))) ∈ v /\ Stat "Active" (num (length (t :: l))) ∈ v
  /\ flat_map table_rows (tenants_table localeDate localeString (Answered (t :: l))) = map (tenant_row localeDate localeString) (t :: l)
  /\ forall x, x ∈ t :: l -> flat_map links (tenant_row localeDate localeString x) = ["/dashboard"; "/admin/settings"]
       /\ tenant_row localeDate localeString x !! 4 = Some (Text (fmtDateTime localeString (TenantView_created_at x))).
Proof. cbn zeta. split_and!; [unfold AdminOrganizationsPage; find_elem..| |done]. cbn. by rewrite app_nil_r. Qed.

(** The cards of the plans leave out exactly the organisations of the community
    plan and those without a licence. *)
Theorem plan_cards_partition l :
  with_plan LicensePlan_pro l + with_plan LicensePlan_enterprise l
  + length (List.filter (fun t => match tenant_plan t with Some LicensePlan_community | None => true | _ => false end) l)
  = length l.
Proof.
  unfold with_plan. induction l as [|t l IH]; [done|]. cbn [List.filter].
  destruct (tenant_plan t) as [[]|]; cbn [length]; repeat first [rewrite bool_decide_false by done | rewrite bool_decide_true by done];
    cbn [length]; lia.
Qed.

(** The dialog shows the one-time credentials, whole, whenever it holds them and
    is open, and nothing while it is closed. *)
Theorem credentials_shown d copied r tok :
  result d = Some r -> json_field "access_token" r = Some (JStr tok) ->
  (open d = true -> Code tok ∈ ProvisionDialog d copied) /\ (open d = false -> ProvisionDialog d copied = []).
Proof.
  intros Hr Ht. unfold ProvisionDialog. rewrite Hr. split; intros ->; [|done]. cbn [when].
  apply list_elem_of_further, list_elem_of_further. apply elem_of_app. left. unfold credentials.
  apply elem_of_app. right. apply elem_of_app. left. unfold CredentialRow, text_at. cbn [fold_left mbind option_bind].
  rewrite Ht. cbn. find_elem.
Qed.

(** ** Witnesses *)
Definition subject_a : ApiKeyView := mkApiKeyView "a" "CI" "pk_a" [] "2026-01-01T00:00:00Z" None.
Definition subject_b : ApiKeyView := mkApiKeyView "b" "Bot" "pk_b" [] "2026-01-01T00:00:00Z" (Some "2026-01-02T00:00:00Z").

Import SubjectsView.
Lemma revocation_and_the_panel_witness :
  selectedKey (run [PressRevoke subject_a true; PressRow subject_b; Settled 0 true] (mkPage "" false (Some subject_a) None [])) = None
  /\ selectedKey (run [PressRevoke subject_a true; PressRow subject_a; Settled 0 true] (mkPage "" false None None [])) = Some subject_a.
Proof. apply (revocation_and_the_panel "" false subject_a subject_b). discriminate. Defined.

Definition provisioned : dialog :=
  mkDialog true empty_form false (Some (JObj [("owner", JObj [("email", JStr "o@acme.example")]); ("access_token", JStr "tok_1");
    ("license_key", JStr "lic_1"); ("license", JObj [("plan", JStr "pro"); ("seat_limit", JNum 5)])])) 1.

Lemma credentials_shown_witness : Code "tok_1" ∈ ProvisionDialog provisioned (fun _ => false).
Proof.
  eapply (credentials_shown provisioned (fun _ => false) _ "tok_1"); [reflexivity|vm_compute; reflexivity|reflexivity].
Defined.
