(* ===== verification/AdminFigures.v ===== *)
(** * The traffic and the billing page of the administration

    What web/src/app/admin/traffic/page.tsx and billing/page.tsx show, the
    traffic page's live mode and the billing page's table of limits as sequences
    of events.  The figures are [Traffic.AdminTraffic] and [AdminPages.Plans]. *)

From S2P Require Import Prelude JsString Json JsonParse JsDate JsNumber ApiTypes Tally Traffic AdminPages ToolPage View.

#[local] Open Scope nat_scope.

#[local] Notation num n := (pretty (Z.of_nat n)).

Module TrafficView.
Import TrafficPage AdminTraffic.

(** ** The controls and the refreshes *)
Record page := mkPage { timeRange : TimeRange; liveMode : bool; serverFilter : string; refreshes : nat }.

Definition initial : page := mkPage R24h false "" 0.

(** [Tick]: ten seconds of the interval the live mode keeps. *)
Inductive event := Range (r : TimeRange) | Server (slug : string) | ToggleLive | Refresh | Tick.

Definition step (p : page) (e : event) : page :=
  let '(mkPage r on s n) := p in
  match e with
  | Range r' => mkPage r' on s n
  | Server s' => mkPage r on s' n
  | ToggleLive => mkPage r (negb on) s n
  | Refresh => mkPage r on s (S n)
  | Tick => if on then mkPage r on s (S n) else p
  end.

Definition run (es : list event) (p : page) : page := fold_left step es p.

Definition range_label (r : TimeRange) : string := match r with R1h => "1h" | R6h => "6h" | R24h => "24h" | R7d => "7d" end.

(** ** The page *)
Section view.
(** The zone, the present; [toLocaleString] of numbers and of dates; weekdays. *)
Context (tz now : Z) (localeNumber : Z -> string) (localeString : string -> string) (weekday : Z -> string).

Definition OutcomePill (outcome : string) : view := Badge outcome.

Definition StatCard (label value : string) (sub : option string) (loading : bool) : list view :=
  if loading then [Card label "" [Skeletons 1]]
  else Stat label value :: match sub with Some s => [Text s] | None => [] end.

(** The tooltip of a point: the label and each series' value. *)
Definition CustomTooltip (active : bool) (payload : list (string * Z)) (label : string) : list view :=
  if negb active || bool_decide (payload = []) then []
  else Text label :: map (fun p => Text (p.1 +:+ ": " +:+ pretty (p.2))) payload.

Definition count (b : bool) (n : Z) : string := if b then "—" else localeNumber n.

Definition stat_cards (p : page) (q authq : answer (list AuditLogView)) : list view :=
  let shown := filtered tz now (rows q) (timeRange p) (serverFilter p) in
  let loading := is_pending q in
  StatCard "Total Requests" (count loading (len shown)) None loading
  ++ StatCard "Allowed" (count loading (len (TrafficPage.allowed shown))) None loading
  ++ StatCard "Denied" (count loading (denied shown))
       (if (0 <? len shown)%Z then Some (rounded_text (blockedPct shown) +:+ "% blocked") else None) loading
  ++ StatCard "Auth Failures" (count loading (len (filterByTimeRange tz now (rows authq) (timeRange p)))) None loading.

Definition chart_points (shown : list AuditLogView) (r : TimeRange) : list (string * list (string * Z)) :=
  map (fun b => (c_label b, [("Allowed", c_allowed b); ("Denied", c_denied b)])) (bucketByHour weekday tz now shown r).

Definition server_row (total : Z) (kv : string * entry) : list view :=
  let e := kv.2 in
  [Code (kv.1); Text (localeNumber (e_total e));
   Text ((if (0 <? total)%Z then rounded_text (Math_round (percent (e_total e) total)) else "0") +:+ "%");
   Chart [("", [("allowed", e_allowed e); ("total", e_total e)])]].

Definition by_server (loading : bool) (shown : list AuditLogView) : view :=
  Card "By Server" ""
    (if loading then [Skeletons 4] else
     match byServer shown with
     | [] => [Text "No data for this time range"]
     | l => [Table ["Server"; "Requests"; "% Total"; "Breakdown"] (map (server_row (len shown)) l)]
     end).

Definition tool_row (kv : string * entry) : list view :=
  let e := kv.2 in
  [Code (kv.1); Text (localeNumber (e_total e))]
  ++ when (0 <? e_allowed e)%Z [Badge (pretty (e_allowed e) +:+ "✓")]
  ++ when (0 <? e_denied e)%Z [Badge (pretty (e_denied e) +:+ "✗")].

Definition top_tools (loading : bool) (shown : list AuditLogView) : view :=
  Card "Top Tools" ""
    (if loading then [Skeletons 4] else
     match byTool shown with
     | [] => [Text "No tool calls for this time range"]
     | l => [Table ["Tool"; "Calls"; "Outcome"] (map tool_row l)]
     end).

Definition or_dash_nonempty (o : option string) : view :=
  match o with Some s => if bool_decide (s = "") then Text "—" else Code s | None => Text "—" end.

Definition request_row (l : AuditLogView) : list view :=
  [Text (localeString (AuditLogView_created_at l)); Code (AuditEventType_value (AuditLogView_event_type l));
   or_dash_nonempty (AuditLogView_server_slug l); or_dash_nonempty (AuditLogView_tool_name l);
   Text (default "—" (AuditLogView_subject_id l)); OutcomePill (AuditLogView_outcome l);
   Text (default "—" (AuditLogView_client_ip l))].

Definition recent_requests (loading : bool) (shown : list AuditLogView) : view :=
  Card "Recent Requests" "Last 20"
    (if loading then [Skeletons 5] else
     match recent shown with
     | [] => [Text "No requests"; Text "Events will appear as traffic flows through the gateway"]
     | l => [Table ["Time"; "Event"; "Server"; "Tool"; "Subject"; "Outcome"; "IP"] (map request_row l)]
     end).

Definition controls (p : page) (servers : answer (list ServerView)) : list view :=
  map (fun r => Button (range_label r) false "setTimeRange") [R1h; R6h; R24h; R7d]
  ++ [Select "" (serverFilter p) ("All servers" :: map ServerView_name (rows servers));
      Button "Live" false "setLiveMode"; Button "" false "refresh"].

Definition AdminTrafficPage (p : page) (q authq : answer (list AuditLogView)) (servers : answer (list ServerView)) : list view :=
  let shown := filtered tz now (rows q) (timeRange p) (serverFilter p) in
  [Text "Platform Traffic"; Text "Real-time request volume, auth events, and tool invocation analytics"]
  ++ controls p servers ++ stat_cards p q authq
  ++ [Card "Requests Over Time" "" [if is_pending q then Skeletons 1 else Chart (chart_points shown (timeRange p))];
      by_server (is_pending q) shown; top_tools (is_pending q) shown; recent_requests (is_pending q) shown].
End view.
End TrafficView.

Module BillingView.
Import Plans.

(** ** The licence file *)
Definition license_json : json :=
  JObj [("plan", JStr "Enterprise Self-Hosted"); ("license_type", JStr "Perpetual"); ("support", JStr "Community");
        ("region", JStr "Self-managed"); ("issued_at", JStr "2024-01-01"); ("instance_id", JStr "portcullis-self-hosted");
        ("max_servers", JNum 50); ("max_api_keys", JNum 100); ("max_rate_limit_policies", JStr "unlimited");
        ("audit_log_retention_days", JNum 90)].

Definition exportLicenseJson : string * string := ("portcullis-license.json", JSON_stringify_indent 2 license_json).

(** ** The cards *)
Definition UsageCard (label : string) (used : Z) (limit : option Z) (usedLabel limitLabel : option string) (loading : bool) : view :=
  Card label (match limit with Some _ => rounded_text (usage_pct used limit) +:+ "%" | None => "" end)
    [if loading then Skeletons 1
     else Text (default (pretty used) usedLabel +:+ " / "
                +:+ default (match limit with None => "Unlimited" | Some l => pretty l end) limitLabel)].

Definition usage_cards (servers keys : answer (list string)) (audit : answer (list AuditLogView)) : list view :=
  [UsageCard "MCP Servers" (Z.of_nat (length (rows servers))) (Some 50%Z) None None (is_pending servers);
   UsageCard "API Keys" (Z.of_nat (length (rows keys))) (Some 100%Z) None None (is_pending keys);
   UsageCard "Audit Retention" 0 None (Some "Unlimited") (Some "Unlimited") false;
   UsageCard "Monthly Requests" (Z.of_nat (length (rows audit))) None
     (Some (if is_pending audit then "—" else num (length (rows audit)) +:+ "+")) (Some "Unlimited") (is_pending audit);
   Text "* Monthly Requests reflects the last 200 audit log entries. Self-hosted instances have unlimited request throughput."].

(** ** The table of limits *)
Inductive event := StartEdit (row : LimitRow) | Type_ (v : string) | Save (key : string) | Cancel.

(** The table and the toasts shown. *)
Definition step (s : table * list string) (e : event) : table * list string :=
  let '(t, toasts) := s in
  match e with
  | StartEdit row => (startEdit row t, toasts)
  | Type_ v => (typeValue v t, toasts)
  | Save key => (saveEdit key t, toasts ++ ["Limit updated: Changes take effect after gateway restart."])
  | Cancel => (cancelEdit t, toasts)
  end.

Definition run (es : list event) (s : table * list string) : table * list string := fold_left step es s.

Definition limit_row (t : table) (r : LimitRow) : list view :=
  let editing := bool_decide (editingRow t = Some (lr_key r)) in
  Text (lr_feature r)
  :: if editing
     then [Input "" (editValue t) "" false; Button "Save" false "saveEdit"; Button "Cancel" false "cancelEdit"]
     else [Code (lr_value r); Button "Edit" false "startEdit"].

Definition PlanLimitsTable (t : table) : view :=
  Card "Plan Limits Configuration"
    "Limits are enforced at gateway startup. Restart required for changes to take effect."
    [Table ["Feature"; "Current Limit"; "Edit"] (map (limit_row t) (limits t))].

Definition PLAN_DIST : list (string * Z) := [("Free", 0%Z); ("Pro", 0%Z); ("Enterprise", 100%Z)].

Definition PlanDistributionChart : view :=
  Card "Plan Distribution" "Showing distribution of users across plans for this instance."
    (flat_map (fun p => [Text (p.1); Text (pretty (p.2) +:+ "%")]) PLAN_DIST).

Definition plan_banner : list view :=
  [Text "Enterprise Self-Hosted"; Badge "ACTIVE"; Badge "Self-Hosted"; Stat "License" "Perpetual"; Stat "Support" "Community";
   Stat "Region" "Self-managed"; Link "Upgrade support" "https://portcullis.sh/support";
   Button "Export license info" false "exportLicenseJson"].

Definition billing_history : list view :=
  [Text "Billing History"; Table ["Date"; "Description"; "Amount"; "Status"] []; Text "No billing history";
   Text "Self-hosted installations manage their own licensing. No invoices or payment records are stored here.";
   Link "Contact Sales" "https://portcullis.sh/sales"; Link "View License Agreement" "https://portcullis.sh/license"].

Definition support_cards : list view :=
  [Card "Community Forum" "Ask questions, share tips, and connect with other Portcullis users." [Button "Visit Forum" true ""];
   Card "GitHub Issues" "Report bugs or request features on the open-source repository." [Button "Open GitHub" true ""];
   Card "Enterprise Support" "Priority SLA, dedicated Slack channel, and direct engineering access."
     [Badge "Not activated"; Button "Activate Support" true ""]].

Definition AdminBillingPage (servers keys : answer (list string)) (audit : answer (list AuditLogView)) (t : table) : list view :=
  [Text "Billing & Plans"; Text "Manage subscription limits and usage for this Portcullis instance"]
  ++ plan_banner ++ Text "Usage vs Limits" :: usage_cards servers keys audit
  ++ [PlanLimitsTable t; PlanDistributionChart] ++ billing_history ++ Text "Support & Resources" :: support_cards.
End BillingView.

(** ** Theorems: traffic *)
Import TrafficView.

Definition others (logs : list AuditLogView) : Z :=
  TrafficPage.len (List.filter (fun l => negb (bool_decide (AuditLogView_outcome l = "allowed"))
                                         && negb (bool_decide (AuditLogView_outcome l = "denied"))) logs).

(** The page counts "denied" in two ways: the columns of the servers add up to
    everything not allowed, the card to the denials only; they differ by exactly
    the calls that failed. *)
Theorem denied_columns_and_card logs :
  foldr Z.add 0%Z ((fun kv => AdminTraffic.e_denied (kv.2)) <$> AdminTraffic.byServer logs)
  = (AdminTraffic.denied logs + others logs)%Z.
Proof.
  unfold AdminTraffic.byServer. set (key := fun l : AuditLogView => _).
  rewrite (sum_perm _ ((fun kv => AdminTraffic.e_denied (kv.2)) <$> group key AdminTraffic.entry_bump logs))
    by (by rewrite stable_sort_perm).
  pose proof (group_weight_sum key AdminTraffic.entry_bump AdminTraffic.e_denied
    (fun l => if bool_decide (AuditLogView_outcome l = "allowed") then 0 else 1)%Z logs) as H. unfold weights in H.
  rewrite H; [|intros l [e|]; unfold AdminTraffic.entry_bump; cbn; case_if; cbn; lia|intros l; by eexists].
  unfold AdminTraffic.denied, others, TrafficPage.len. clear. induction logs as [|l logs IH]; [done|].
  cbn [fmap list_fmap foldr List.filter]. rewrite IH.
  destruct (decide (AuditLogView_outcome l = "allowed")) as [Ha|Ha].
  - rewrite (bool_decide_true (AuditLogView_outcome l = "allowed")) by done.
    rewrite (bool_decide_false (AuditLogView_outcome l = "denied")) by congruence. cbn [negb andb]. lia.
  - rewrite (bool_decide_false (AuditLogView_outcome l = "allowed")) by done. cbn [negb andb].
    case_bool_decide; cbn [negb length]; lia.
Qed.

(** The server filter does not reach the card of authentication failures: it
    shows those of all servers beside the other cards' figures of one. *)
Theorem auth_failures_of_all_servers tz now localeNumber p s q authq :
  is_pending q = false ->
  last (stat_cards tz now localeNumber (step p (Server s)) q authq) =
    Some (Stat "Auth Failures" (localeNumber (TrafficPage.len (AdminTraffic.filterByTimeRange tz now (rows authq) (timeRange p)))))
  /\ (s <> "" -> (forall l, l ∈ rows q -> AuditLogView_server_slug l <> Some s) ->
      head (stat_cards tz now localeNumber (step p (Server s)) q authq) = Some (Stat "Total Requests" (localeNumber 0%Z))).
Proof.
  intros Hq. destruct p as [r on s0 n]. cbn [step timeRange]. unfold stat_cards. rewrite Hq. cbn [timeRange serverFilter].
  split.
  - unfold StatCard. rewrite !app_assoc, last_app. done.
  - intros Hs Hnone. unfold StatCard. cbn [app head].
    assert (E : AdminTraffic.filtered tz now (rows q) r s = []); [|by rewrite E].
    unfold AdminTraffic.filtered. rewrite bool_decide_false by done. apply filter_none_match. intros l Hl.
    apply list_elem_of_In, filter_In in Hl as [Hl _]. apply bool_decide_eq_false, Hnone. by apply list_elem_of_In.
Qed.

(** The intervals that refresh: those that pass while the live mode is on. *)
Fixpoint refreshing (on : bool) (es : list event) : nat :=
  match es with
  | [] => 0
  | ToggleLive :: es => refreshing (negb on) es
  | Refresh :: es => S (refreshing on es)
  | Tick :: es => (if on then 1 else 0) + refreshing on es
  | _ :: es => refreshing on es
  end.

(** The page asks again exactly when the reader presses refresh and every ten
    seconds of live mode. *)
Theorem live_refreshes es p : refreshes (run es p) = refreshes p + refreshing (liveMode p) es.
Proof.
  revert p. induction es as [|e es IH]; intros p; [cbn; lia|]. change (run (e :: es) p) with (run es (step p e)).
  rewrite IH. destruct p as [r on s n], e; cbn; try lia. destruct on; cbn; lia.
Qed.

(** ** Theorems: billing *)
Import Plans BillingView.

Lemma page_has_limits servers keys audit t : PlanLimitsTable t ∈ AdminBillingPage servers keys audit t.
Proof.
  unfold AdminBillingPage. apply elem_of_app. right. apply elem_of_app. right. apply list_elem_of_further.
  apply elem_of_app. right. apply list_elem_of_here.
Qed.

Lemma page_has_cards servers keys audit t v : v ∈ usage_cards servers keys audit -> v ∈ AdminBillingPage servers keys audit t.
Proof.
  intros H. unfold AdminBillingPage. apply elem_of_app. right. apply elem_of_app. right. apply list_elem_of_further.
  apply elem_of_app. by left.
Qed.

(** The page states three retentions of the audit log: its card "Unlimited", its
    table of limits 90 days, as the exported licence does. *)
Theorem retention_stated_twice servers keys audit :
  let v := AdminBillingPage servers keys audit fresh in
  Card "Audit Retention" "" [Text "Unlimited / Unlimited"] ∈ v
  /\ [Text "Audit Log Retention"; Code "90 days"; Button "Edit" false "startEdit"] ∈ flat_map table_rows v
  /\ JSON_parse (exportLicenseJson.2) ≫= json_field "audit_log_retention_days" = Some (JNum 90).
Proof.
  cbn zeta. split_and!.
  - apply page_has_cards. do 2 apply list_elem_of_further. apply list_elem_of_here.
  - apply elem_flat_map. exists (PlanLimitsTable fresh). split; [apply page_has_limits|].
    do 3 apply list_elem_of_further. apply list_elem_of_here.
  - assert (E : JSON_parse (exportLicenseJson.2) = Some license_json); [|by rewrite E].
    apply parse_of_reads, indented_reads; [apply ws_spaces|done].
Qed.

(** An edited limit is announced to take effect after a restart; it goes
    nowhere: the usage card above and the exported licence keep the old one. *)
Theorem edited_limit_goes_nowhere v n keys audit :
  let row := mkLimit "max_servers" "Max Servers" "50" in
  let s := run [StartEdit row; Type_ v; Save "max_servers"] (fresh, []) in
  let page := AdminBillingPage (Answered (replicate n "s")) keys audit (s.1) in
  s.2 = ["Limit updated: Changes take effect after gateway restart."]
  /\ [Text "Max Servers"; Code v; Button "Edit" false "startEdit"] ∈ flat_map table_rows page
  /\ Text (num n +:+ " / 50") ∈ flat_map (fun x => match x with Card _ _ b => b | _ => [] end) page
  /\ json_field "max_servers" license_json = Some (JNum 50).
Proof.
  cbn zeta. split_and!; [done| | |done].
  - apply elem_flat_map. eexists. split; [apply page_has_limits|]. apply list_elem_of_here.
  - apply elem_flat_map. eexists. split; [apply page_has_cards, list_elem_of_here|]. unfold UsageCard.
    cbn [is_pending rows]. rewrite length_replicate. apply list_elem_of_here.
Qed.

(** ** Witnesses *)

Import TrafficView.
Lemma auth_failures_of_all_servers_witness :
  head (stat_cards 0 0 pretty (step initial (Server "staging")) (Answered []) (Answered [])) = Some (Stat "Total Requests" (pretty 0%Z)).
Proof.
  refine (proj2 (auth_failures_of_all_servers 0 0 pretty initial "staging" (Answered []) (Answered []) eq_refl) _ _);
    [discriminate|]. intros l Hl. by apply elem_of_nil in Hl.
Defined.
