(* ===== verification/AccessViews.v ===== *)
(** * What the access-control pages show: web/src/app/dashboard/access-control

    The confirmation dialog (components/confirm-dialog.tsx), the members, teams
    and roles tabs and the page around them.  Their forms, requests and counts
    are [AccessControl]. *)

From S2P Require Import Prelude JsString Json ApiTypes AdminRbac Tally PolicyBuilder AccessControl Feedback View.

#[local] Open Scope nat_scope.

#[local] Notation num n := (pretty (Z.of_nat n)).

(** ** The confirmation dialog *)
Module ConfirmView.
Import Confirm.

Definition confirm_disabled (expected : option string) (s : state) : bool := negb (canConfirm expected s) || loading s.

Definition ConfirmDialog (title description : string) (consequences : list string) (expected : option string)
    (confirmLabel cancelLabel : string) (s : state) : list view :=
  when (open s)
    ([Text title; Button "" false "onClose"; Text description] ++ map Text consequences
     ++ match expected with
        | Some e =>
            when (negb (bool_decide (e = "")))
              [Text "To confirm, type "; Code e; Text " below:"; Input "" (typed s) e false]
        | None => []
        end
     ++ [Button cancelLabel (loading s) "onClose";
         Button (if loading s then "Processing…" else confirmLabel) (confirm_disabled expected s) "onConfirm"]).
End ConfirmView.

Import ConfirmView.

(** ** Members *)
Module MembersView.
Import Members.

Definition role_name (r : OrgMemberRole) : string := (ROLE_META r).1.1.

Definition RoleBadge (r : OrgMemberRole) : view := Badge (role_name r).

Definition role_option (r : OrgMemberRole) : string := role_name r +:+ " — " +:+ (ROLE_META r).1.2.

Definition team_select (label : string) (teamId : string) (teams : list TeamView) : view :=
  Select label teamId ("No team — org-wide role" :: map tv_name teams).

Definition InviteMemberDialog (open : bool) (f : form) (teams : list TeamView) : list view :=
  when open
    [Text "Add Member"; Input "User Subject" (userSubject f) "OAuth sub claim, e.g. auth0|abc123 or user id" false;
     Text "The stable identity of the dashboard user (not an API key).";
     Select "Role" (role_id (role f)) (map role_option ROLE_ORDER); team_select "Team (optional)" (teamId f) teams;
     Text "Scoping to a team limits the member's reach to that team's servers.";
     Button "Cancel" false "onClose";
     Button (if busy f then "Adding…" else "Add Member") (bool_decide (trim (userSubject f) = "") || busy f) "invite_handleSubmit"].

Definition EditMemberDialog (member : option OrgMemberView) (f : form) (teams : list TeamView) : list view :=
  match member with
  | None => []
  | Some m =>
      [Text "Edit Member"; Text (om_user_subject m); Code (om_id m);
       Select "Role" (role_id (role f)) (map role_option ROLE_ORDER); team_select "Team" (teamId f) teams;
       Button "Cancel" false "onClose"; Button (if busy f then "Saving…" else "Save Changes") (busy f) "edit_handleSubmit"]
  end.

(** The tab's dialogs: which is open, and its form. *)
Record dialogs := mkDialogs {
  inviteOpen : bool; invite : form; editTarget : option OrgMemberView; editForm : form;
  deleteTarget : option OrgMemberView; confirm : Confirm.state }.

Section view.
Context (relativeTime : string -> string).

Definition member_row (manage : bool) (names : gmap string string) (m : OrgMemberView) : list view :=
  [Text (om_user_subject m); Code (stake 8 (om_id m) +:+ "…"); RoleBadge (om_admin_role m); Text (team_cell names m);
   Text (relativeTime (om_created_at m))]
  ++ when manage [Button "Edit role / team" false "setEditTarget"; Button "Remove member" false "setDeleteTarget"].

(** [members] is [null] before an answer and after a failure. *)
Definition members_table (manage : bool) (q : answer (list OrgMemberView * list TeamView)) (search : string) : list view :=
  match q with
  | Pending => [Skeletons 4]
  | Failed | Answered ([], _) =>
      [Text "No members yet";
       Text (if manage then "Add a dashboard user with an administrative role to get started"
             else "Members are managed by your organization owner")]
      ++ when manage [Button "Add Member" false "setInviteOpen"]
  | Answered (ms, teams) =>
      match filteredMembers (Some ms) teams search with
      | [] => [Text ("No members match " +:+ PolicyBuilder.quoted search +:+ ".")]
      | l => [Table (columns manage) (map (member_row manage (teamNameById teams)) l)]
      end
  end.

Definition members_of (q : answer (list OrgMemberView * list TeamView)) : option (list OrgMemberView) :=
  match q with Answered (ms, _) => Some ms | _ => None end.
Definition teams_of (q : answer (list OrgMemberView * list TeamView)) : list TeamView :=
  match q with Answered (_, ts) => ts | _ => [] end.

Definition stat_cards (q : answer (list OrgMemberView * list TeamView)) (license : option Z) : list view :=
  let s := stats (members_of q) in
  [Stat "Total Members" (num (total s)); Stat "Owners" (num (owners s)); Stat "Admins & Developers" (num (admins s));
   Stat "Team-Scoped" (num (teamScoped s))]
  ++ match license with Some limit => [Stat (seat_card limit s).1.1 (seat_card limit s).1.2] | None => [] end.

Definition delete_dialog (d : dialogs) : list view :=
  let subject := om_user_subject <$> deleteTarget d in
  ConfirmDialog "Remove member" ("Remove " +:+ default "this member" subject +:+ " from the organization.")
    ["They lose all dashboard access immediately"; "Their administrative role and team scope are revoked"]
    (typed_name <$> subject) "Remove member" "Cancel" (confirm d).

Definition MembersTab (manage : bool) (q : answer (list OrgMemberView * list TeamView)) (license : option Z) (search : string)
    (d : dialogs) : list view :=
  [Button "" false "refetch"] ++ when manage [Button "Add Member" false "setInviteOpen"]
  ++ stat_cards q license
  ++ [Input "" search "Search by subject, role, or team…" false] ++ when (negb (bool_decide (search = ""))) [Button "Clear" false "clear"]
  ++ members_table manage q search
  ++ InviteMemberDialog (inviteOpen d) (invite d) (teams_of q) ++ EditMemberDialog (editTarget d) (editForm d) (teams_of q)
  ++ delete_dialog d.
End view.
End MembersView.

(** ** Teams *)
Module TeamsView.
Import Teams.

Definition CreateTeamDialog (open : bool) (name : string) (busy : bool) : list view :=
  when open
    [Text "Create Team"; Input "Team Name" name "e.g. Backend, Data Science, Platform" false;
     Text "Teams group members together and can be scoped to specific MCP servers.";
     Button "Cancel" false "onClose";
     Button (if busy then "Creating…" else "Create Team") (bool_decide (trim name = "") || busy) "handleCreate"].

Definition server_button (d : dialog) (s : ServerView) : list view :=
  let id := ServerView_id s in
  [Button (ServerView_name s) (bool_decide (id ∈ pending d)) ("toggle " +:+ id); Code (ServerView_slug s)]
  ++ when (assigned d id) [Badge "Assigned"] ++ when (bool_decide (id ∈ pending d)) [Text "…"].

Definition ManageServersDialog (team : option TeamView) (servers : list ServerView) (d : dialog) : list view :=
  match team with
  | None => []
  | Some t =>
      [Text ("Manage Servers — " +:+ tv_name t); Text "Members of this team can reach only the servers assigned below."]
      ++ match servers with
         | [] => [Text "No MCP servers registered yet. "; Link "Register a server" "/dashboard/servers"; Text " first."]
         | l => flat_map (server_button d) l
         end
      ++ [Button "Done" false "onClose"]
  end.

Section view.
Context (relativeTime : string -> string).

Definition TeamCard (t : TeamView) (memberCount : Z) (servers : list ServerView) (expanded : bool) : list view :=
  [Badge (teamInitials (tv_name t)); Text (tv_name t); Text ("Created " +:+ relativeTime (tv_created_at t));
   Button "" false "setExpanded"; Stat "Members" (pretty memberCount); Stat "Servers" (num (length (tv_server_ids t)));
   Stat "Org-wide" (org_wide t)]
  ++ when expanded
       (Text "Assigned Servers"
        :: match assignedServers t servers with
           | [] => [Text "No servers assigned — members have org-wide server access."]
           | l => map (fun s => Code (ServerView_slug s)) l
           end
        ++ [Button "Manage Servers" false "onManageServers"; Button "Delete" false "onDelete"]).

Record state := mkState {
  createOpen : bool; createName : string; createBusy : bool; manageTarget : option TeamView; manage : dialog;
  deleteTarget : option TeamView; confirm : Confirm.state; expanded : gset string }.

Definition count_of (members : list OrgMemberView) (t : TeamView) : Z :=
  default 0%Z (map_get (tv_id t) (memberCountByTeam members)).

Definition teams_grid (q : answer (list TeamView * list OrgMemberView)) (servers : list ServerView) (s : state) : list view :=
  match q with
  | Pending => [Skeletons 4]
  | Failed | Answered ([], _) =>
      [Text "No teams yet"; Text "Teams group members together and scope their server access. Create your first team to get started.";
       Button "Create First Team" false "setCreateOpen"]
  | Answered (ts, ms) =>
      flat_map (fun t => TeamCard t (count_of ms t) servers (bool_decide (tv_id t ∈ expanded s))) ts
  end.

Definition teams_data (q : answer (list TeamView * list OrgMemberView)) : option (list TeamView) * list OrgMemberView :=
  match q with Answered (ts, ms) => (Some ts, ms) | _ => (None, []) end.

Definition delete_dialog (s : state) : list view :=
  let name := tv_name <$> deleteTarget s in
  ConfirmDialog ("Delete " +:+ default "team" name) "This team will be permanently removed."
    ["Members stay in the organization but lose their team scope"; "Server-to-team assignments are removed"]
    (typed_name <$> name) "Delete team" "Cancel" (confirm s).

Definition TeamsTab (q : answer (list TeamView * list OrgMemberView)) (servers : list ServerView) (s : state) : list view :=
  let '(ts, ms) := teams_data q in
  [Button "" false "refresh"; Button "Create Team" false "setCreateOpen";
   Stat "Total Teams" (num (from_option length 0 ts)); Stat "Total Members" (num (length ms));
   Text (num (unassignedMembers ms) +:+ " org-wide"); Stat "Server Assignments" (num (assignedServerCount ts));
   Stat "With Servers" (num (withServers ts));
   Text "Team-scoped access. Assigning servers to a team restricts that team's members to those servers only. A team with no servers grants org-wide access. Member management happens on the ";
   Link "Members" "/dashboard/access-control?tab=members"; Text " tab."]
  ++ teams_grid q servers s ++ CreateTeamDialog (createOpen s) (createName s) (createBusy s)
  ++ ManageServersDialog (manageTarget s) servers (manage s) ++ delete_dialog s.
End view.
End TeamsView.

(** ** Roles *)
Module RolesView.
Import AccessControl.Roles.

Definition category_name (c : PermCategory) : string :=
  match c with
  | Servers => "Servers" | Tools => "Tools" | Policies => "Policies" | Logs => "Logs" | Keys => "Keys" | Billing => "Billing"
  | Members => "Members" | Settings => "Settings" | Security => "Security" | Integrations => "Integrations"
  end.

(** An archetype's description and capabilities, by its key. *)
Definition archetype_text (key : string) : string * list string :=
  match List.find (fun t => bool_decide (t.1.1 = key))
    [("super-admin", "Full platform control — organizations, infra, and system settings.",
      ["View all organizations"; "Suspend organizations"; "View platform-wide usage"; "Manage plans and limits";
       "Review security incidents"; "Configure system settings"; "Manage infrastructure integrations"; "View global audit logs"]);
     ("org-owner", "Manages one organization — billing, servers, policies, and team.",
      ["Manage organization settings"; "Invite and remove members"; "Configure billing"; "Register MCP servers"; "Create policies";
       "Manage API keys"; "View all organization logs"; "Configure alerts"]);
     ("org-admin", "Technical admin — servers, tools, policies, users, and integrations.",
      ["Register and manage MCP servers"; "Manage tools"; "Create policies"; "Manage users and roles"; "View usage and audit logs";
       "Configure webhooks and integrations"]);
     ("developer", "Uses approved MCP servers and tools. Creates personal API keys.",
      ["View approved servers"; "Discover approved tools"; "Create personal API keys"; "Test tool invocations";
       "View personal usage"; "View permitted logs"; "Access documentation"]);
     ("security-auditor", "Read-only security visibility — policies, audit logs, auth events.",
      ["View policies"; "View audit logs"; "View authentication events"; "View blocked requests"; "Export compliance reports";
       "Cannot change configuration"]);
     ("billing-manager", "Manages subscriptions, invoices, and payment details.",
      ["View billing"; "Download invoices"; "View usage"; "Upgrade or downgrade plans"; "Manage payment details"])] with
  | Some t => (t.1.2, t.2)
  | None => ("", [])
  end.

Definition AccessBadge (a : Access) : view :=
  Badge (match a with full => "full" | read => "read" | own => "own" | none => "none" end).

Definition SeedRolesButton (existingNames : list string) (isPlatformAdmin seeding : bool) : list view :=
  match missing existingNames isPlatformAdmin with
  | [] => []
  | l => [Button ("Seed " +:+ num (length l) +:+ " standard role" +:+ plural (Z.of_nat (length l))) seeding "handleSeed"]
  end.

Definition archetype_card (existingNames : list string) (a : RoleArchetype) : view :=
  Card (label a) (archetype_text (key a)).1
    (when (inGateway existingNames a) [Badge "active"] ++ map Text (archetype_text (key a)).2).

Section view.
Context (localeDate : string -> string).

Definition role_row (r : RoleView) : list view :=
  [Text (RoleView_name r); Code (RoleView_id r); Text (localeDate (RoleView_created_at r))].

Definition gateway_roles (q : answer (list RoleView)) : list view :=
  [Text "Gateway Roles"; Button "Create Role" false "setCreateOpen"]
  ++ (if is_pending q then [Skeletons 3] else
      match rows q with
      | [] =>
          let e := EMPTY_STATES roles in
          let link o second := match o with Some (l, h) => [mkAction l (Some h) second] | None => [] end in
          EmptyState (es_title e) (es_description e) (es_features e) (link (es_primaryAction e) false ++ link (es_docsAction e) true)
      | l => [Table ["Name"; "ID"; "Created"] (map role_row l)]
      end).

Definition RolesPanel (q : answer (list RoleView)) (isPlatformAdmin seeding : bool) : list view :=
  let existingNames := map RoleView_name (rows q) in
  let archetypes := visibleArchetypes isPlatformAdmin in
  [Text "Standard role archetypes";
   Text ("Portcullis defines " +:+ num (length archetypes) +:+ " built-in role types. Seed them into your gateway to start assigning access, or create custom roles below.")]
  ++ SeedRolesButton existingNames isPlatformAdmin seeding ++ map (archetype_card existingNames) archetypes ++ gateway_roles q.

Definition BindingsPanel (q : answer (list RoleView)) (f : binding_form) (isPending : bool) : list view :=
  [Text "Role Bindings";
   Text "Assign a subject (API key ID or OAuth subject) to a role. The subject will gain all tool permissions defined for that role.";
   Text "Add Member to Role"; Input "Subject ID" (subject_id f) "API key ID or OAuth subject" false;
   Select "Subject Type" (SubjectType_value (subject_type f)) ["API Key"; "OAuth Subject"];
   (if is_pending q then Skeletons 1 else Select "Role" (role_id f) ("Select a role…" :: map RoleView_name (rows q)));
   Button "Add Member" isPending "handleAdd";
   Text "Existing role bindings are managed through the Policies page. Use the API key prefix shown in API Keys to look up subject IDs."].

Definition matrix_row (a : RoleArchetype) : list view :=
  Text (label a) :: map (fun c => AccessBadge (permissions a c)) PERM_CATEGORIES.

Definition MatrixPanel (isPlatformAdmin : bool) : list view :=
  [Table ("Role" :: map category_name PERM_CATEGORIES) (map matrix_row (visibleArchetypes isPlatformAdmin));
   Text "Legend"; Badge "full"; Text "Full access"; Badge "read"; Text "Read only"; Badge "own"; Text "Own resources"; Badge "none";
   Text "No access"].

Inductive SubTab := TRoles | TBindings | TMatrix.

Definition CreateRoleDialog (open : bool) (name : string) (isPending : bool) : list view :=
  when open
    [Text "Create Custom Role"; Input "Role Name" name "e.g. read-only, ci-deploy" false; Button "Cancel" false "setCreateOpen";
     Button (if isPending then "Creating…" else "Create") isPending "handleCreateRole"].

Definition RolesTab (tab : SubTab) (q : answer (list RoleView)) (isPlatformAdmin seeding : bool) (f : binding_form)
    (binding : bool) (createOpen : bool) (newRoleName : string) (creating : bool) : list view :=
  [Button "Roles" false "setTab"; Button "Role Bindings" false "setTab"; Button "Permission Matrix" false "setTab"]
  ++ match tab with
     | TRoles => RolesPanel q isPlatformAdmin seeding
     | TBindings => BindingsPanel q f binding
     | TMatrix => MatrixPanel isPlatformAdmin
     end
  ++ CreateRoleDialog createOpen newRoleName creating.
End view.
End RolesView.

(** ** The page *)
Definition TABS : list (string * string) := [("members", "Members"); ("teams", "Teams"); ("roles", "Roles & Permissions")].

(** The tab of the address; any other value shows the members. *)
Definition current_tab (requested : option string) : string :=
  match requested with
  | Some t => if existsb (fun x => bool_decide (x.1 = t)) TABS then t else "members"
  | None => "members"
  end.

Definition tab_href (key : string) : string :=
  "/dashboard/access-control" +:+ (if bool_decide (key = "members") then "" else "?tab=" +:+ key).

Definition AccessControlContent (requested : option string) (members teams roles : list view) : list view :=
  [Text "Access Control"; Text "Manage who can reach your gateway — members, teams, and role permissions"; Badge "Role-based access"]
  ++ map (fun t => Link (t.2) (tab_href (t.1))) TABS
  ++ (let t := current_tab requested in
      if bool_decide (t = "members") then members else if bool_decide (t = "teams") then teams else roles).

(** ** Theorems: the confirmation dialog *)

(** The dialog's confirm button can be pressed exactly when the dialog's state
    machine would confirm on a click. *)
Theorem confirm_button_agrees title description consequences expected confirmLabel s :
  Confirm.open s = true ->
  Button (if Confirm.loading s then "Processing…" else confirmLabel) (ConfirmView.confirm_disabled expected s) "onConfirm"
    ∈ ConfirmDialog title description consequences expected confirmLabel "Cancel" s
  /\ (ConfirmView.confirm_disabled expected s = false <-> (Confirm.step expected Confirm.Click s).2 = [Confirm.OnConfirm]).
Proof.
  intros Ho. split.
  - unfold ConfirmDialog. rewrite Ho. cbn [when]. find_elem.
  - unfold ConfirmView.confirm_disabled. cbn. rewrite Ho.
    destruct (Confirm.canConfirm expected s), (Confirm.loading s); cbn; split; intros; done.
Qed.

(** ** Theorems: members *)
Import MembersView.

Definition closed_dialogs (d : dialogs) : Prop :=
  inviteOpen d = false /\ editTarget d = None /\ Confirm.open (confirm d) = false.

Lemma enabled_app l l' : flat_map enabled (l ++ l') = flat_map enabled l ++ flat_map enabled l'.
Proof. apply flat_map_app. Qed.

Lemma member_rows_read_only relativeTime names ms :
  flat_map (flat_map enabled) (map (member_row relativeTime false names) ms) = [].
Proof. induction ms as [|m ms IH]; [done|]. cbn. done. Qed.

(** A reader who may not manage members finds no control that adds, edits or
    removes one: whatever the answers and the search, the only controls are the
    refresh and the search's clear button. *)
Theorem read_only_members relativeTime q license search d h :
  closed_dialogs d ->
  h ∈ flat_map enabled (MembersTab relativeTime false q license search d) -> h = "refetch" \/ h = "clear".
Proof.
  intros (H1 & H2 & H3). unfold MembersTab, delete_dialog, ConfirmDialog, InviteMemberDialog. rewrite H1, H2, H3.
  cbn [when app EditMemberDialog]. rewrite !app_nil_r. cbn [flat_map enabled app]. rewrite !enabled_app.
  assert (Ht : flat_map enabled (members_table relativeTime false q search) = []).
  { unfold members_table. destruct q as [| |[[|m ms] ts]]; try done.
    destruct (Members.filteredMembers _ _ _) as [|x l] eqn:E; [done|]. cbn [flat_map enabled]. rewrite app_nil_r.
    apply member_rows_read_only. }
  assert (Hs : flat_map enabled (stat_cards q license) = []) by (unfold stat_cards; by destruct license).
  rewrite Hs. cbn [flat_map enabled app]. rewrite enabled_app, Ht, app_nil_r.
  destruct (negb _); cbn; set_solver.
Qed.

(** A failed request for the members is shown as an organisation without any. *)
Theorem failed_members_shown_as_none relativeTime license search d manage :
  let v := MembersTab relativeTime manage Failed license search d in
  Stat "Total Members" "0" ∈ v /\ shows "No members yet" v.
Proof.
  cbn zeta. unfold MembersTab. split.
  - apply elem_of_app. right. apply elem_of_app. right. apply elem_of_app. left. unfold stat_cards. find_elem.
  - apply shows_text. do 5 (apply elem_of_app; right). apply elem_of_app. left. unfold members_table. find_elem.
Qed.

(** ** Theorems: teams *)
Import TeamsView.

(** A team whose servers are not in the list the page has, for instance because
    the list could not be read, is said to be scoped in its figures and to have
    organisation-wide access below them. *)
Theorem scoped_team_called_org_wide relativeTime t n servers :
  tv_server_ids t <> [] -> (forall s, s ∈ servers -> ServerView_id s ∉ tv_server_ids t) ->
  let v := TeamCard relativeTime t n servers true in
  Stat "Org-wide" "No" ∈ v /\ shows "No servers assigned — members have org-wide server access." v.
Proof.
  intros Hids Hnone. cbn zeta. unfold TeamCard. split.
  - unfold Teams.org_wide. destruct (tv_server_ids t); [done|]. cbn [length Nat.eqb]. find_elem.
  - unfold Teams.assignedServers. rewrite filter_none_match by (intros s Hs; apply bool_decide_eq_false; auto).
    cbn [when]. apply shows_text. find_elem.
Qed.

(** ** Theorems: roles *)
Import RolesView.

(** Only a platform administrator is shown the super administrator: nobody
    else's archetype cards and matrix name it. *)
Theorem super_admin_not_shown names :
  ~ shows "Platform Super Admin" (map (archetype_card names) (Roles.visibleArchetypes false))
  /\ ~ shows "Platform Super Admin" (MatrixPanel false)
  /\ shows "Platform Super Admin" (MatrixPanel true).
Proof.
  split_and!.
  - unfold shows. rewrite list_elem_of_In. intros H. apply in_flat_map in H as (v & Hv & H).
    apply in_map_iff in Hv as (a & <- & Ha). unfold archetype_card in H. cbn [texts] in H.
    rewrite flat_map_app in H.
    assert (Hw : flat_map texts (when (Roles.inGateway names a) [Badge "active"]) = []
                 \/ flat_map texts (when (Roles.inGateway names a) [Badge "active"]) = ["active"])
      by (destruct (Roles.inGateway names a); cbn; auto).
    vm_compute in Ha. destruct Hw as [Hw|Hw]; rewrite Hw in H; clear Hw;
      repeat (destruct Ha as [<-|Ha]; [vm_compute in H; intuition discriminate|]); done.
  - unfold shows. apply (bool_decide_eq_false_1 _). vm_compute. reflexivity.
  - unfold shows. apply (bool_decide_eq_true_1 _). vm_compute. reflexivity.
Qed.

(** The seed button is there exactly while some visible archetype is missing,
    that is, while seeding has something to do. *)
Theorem seed_button_exact dispatch names admin seeding :
  (SeedRolesButton names admin seeding = [] <-> forall a, a ∈ Roles.visibleArchetypes admin -> Roles.inGateway names a = true)
  /\ (SeedRolesButton names admin seeding = [] <-> Roles.handleSeed dispatch names admin = None).
Proof.
  unfold SeedRolesButton, Roles.handleSeed. split; [|by destruct (Roles.missing names admin)].
  split.
  - intros H a Ha. destruct (Roles.missing names admin) eqn:E; [|done]. destruct (Roles.inGateway names a) eqn:Hg; [done|].
    assert (Hin : a ∈ Roles.missing names admin).
    { unfold Roles.missing. apply list_elem_of_In, filter_In. split; [by apply list_elem_of_In|by rewrite Hg]. }
    rewrite E in Hin. by apply elem_of_nil in Hin.
  - intros H. assert (E : Roles.missing names admin = []); [|by rewrite E].
    unfold Roles.missing. apply filter_none_match. intros a Ha. by rewrite (H a Ha).
Qed.

(** ** Theorems: the page *)

(** Exactly the three tabs can be addressed; each tab's link shows that tab. *)
Theorem tab_links_roundtrip key label :
  (key, label) ∈ TABS ->
  current_tab (Some key) = key /\ (tab_href key = "/dashboard/access-control" -> current_tab None = key).
Proof.
  intros H. unfold TABS in H. rewrite !elem_of_cons in H.
  destruct H as [[= -> ->]|[[= -> ->]|[[= -> ->]|H]]]; [..|by apply elem_of_nil in H];
    (split; [by vm_compute|]); intros E; by vm_compute in E |- *.
Qed.

(** ** Witnesses *)

Definition shut : Confirm.state := Confirm.mkState false "" false.

Lemma confirm_button_agrees_witness :
  ConfirmView.confirm_disabled (Some "backend") (Confirm.mkState true "backend" false) = false
  <-> (Confirm.step (Some "backend") Confirm.Click (Confirm.mkState true "backend" false)).2 = [Confirm.OnConfirm].
Proof. apply (confirm_button_agrees "Delete" "" [] (Some "backend") "Delete team"). reflexivity. Defined.

Definition no_dialogs : MembersView.dialogs :=
  MembersView.mkDialogs false Members.invite_initial None Members.invite_initial None shut.

Lemma read_only_members_witness : "refetch" = "refetch" \/ "refetch" = "clear".
Proof.
  apply (read_only_members id (Answered ([], [])) None "" no_dialogs "refetch"); [repeat split|].
  unfold MembersTab. find_elem.
Defined.

Definition scoped_team : TeamView := mkTeamView "t1" "o1" "Backend" "2026-01-01T00:00:00Z" "2026-01-01T00:00:00Z" ["s1"].

Lemma scoped_team_called_org_wide_witness :
  Stat "Org-wide" "No" ∈ TeamsView.TeamCard id scoped_team 2 [] true
  /\ shows "No servers assigned — members have org-wide server access." (TeamsView.TeamCard id scoped_team 2 [] true).
Proof. apply scoped_team_called_org_wide; [discriminate|]. intros s Hs. by apply elem_of_nil in Hs. Defined.

Lemma tab_links_roundtrip_witness : current_tab (Some "teams") = "teams".
Proof. apply (tab_links_roundtrip "teams" "Teams"). unfold TABS. set_solver. Defined.
