(* ===== verification/DeveloperViews.v ===== *)
(** * What the developer's pages show: web/src/app/developer

    The playground, the server list, the personal keys, the usage and log pages
    and the profile.  Their data, requests and handlers are [Developer]; the
    tool explorer is [DevToolsView]. *)

From S2P Require Import Prelude JsString JsUri Json JsonParse Browser AxiosClient ApiTypes ApiClient JsNumber Tools ToolPage AuthStore LoginForm Developer Feedback View AdminViews.

#[local] Open Scope nat_scope.

#[local] Notation num n := (pretty (Z.of_nat n)).

Definition empty_state_view (k : empty_key) (extra : list action) : list view :=
  let e := EMPTY_STATES k in
  let link o second := match o with Some (l, h) => [mkAction l (Some h) second] | None => [] end in
  EmptyState (es_title e) (es_description e) (es_features e)
    (match extra with [] => link (es_primaryAction e) false | _ => extra end ++ link (es_docsAction e) true).

Definition or_dash (o : option string) : view := Text (default "—" o).

(** ** The playground *)
Module PlaygroundView.
Import Catalogue DevPlayground.

Definition PropertyInput (key : string) (s : McpToolProperty) (required : bool) (value : string) : list view :=
  [Code key] ++ when required [Text "*"] ++ shown_text (mp_type s) ++ shown_text (mp_description s)
  ++ let type := default "string" (mp_type s) in
     if bool_decide (type = "boolean")
     then [Button (if bool_decide (value = "true") then "true" else "false") false ("toggle " +:+ key)]
     else if bool_decide (type = "number") || bool_decide (type = "integer") then [Input "" value "0" false]
     else [Input "" value ("Enter " +:+ key +:+ "…") false].

(** The checkbox writes one of two texts. *)
Definition checkbox_value (checked : bool) : string := if checked then "true" else "false".

Definition ResultPanel (r : RunResult) (durationMs : Z) : list view :=
  [Badge (if rr_ok r then "Success" else "Error"); Text (pretty durationMs +:+ " ms"); Code (JSON_stringify_indent 2 (rr_json r))].

Section view.
Context (tools : string -> list McpTool).

Definition controls (p : page) (servers : answer (list ServerView)) (toolsLoading : bool) : list view :=
  let none := bool_decide (serverSlug p = "") in
  [Select "Server" (serverSlug p) ((if is_pending servers then "Loading…" else "Select server…") :: map ServerView_slug (rows servers));
   Select "Tool" (toolName p)
     ((if toolsLoading then "Loading tools…" else if none then "Select server first…" else "Select tool…")
      :: if none then [] else map mt_name (tools (serverSlug p)));
   Button "Load Tool" (none || bool_decide (toolName p = "") || toolsLoading) "handleLoadTool"].

Definition tool_form (p : page) (t : McpTool) : list view :=
  [Text (mt_name t)] ++ shown_text (mt_description t)
  ++ match default [] (mt_properties t) with
     | [] => [Text "This tool takes no input parameters."]
     | props =>
         flat_map (fun kv => PropertyInput (kv.1) (kv.2) (Playground.is_required t (kv.1)) (default "" (fieldValues p !! (kv.1)))) props
     end
  ++ [Button (if isRunning p then "Running…" else "Run Tool") (isRunning p) "handleRun"]
  ++ when (0 <? length (default [] (mt_required t))) [Text "* Required fields"].

Definition PlaygroundInner (p : page) (servers : answer (list ServerView)) (toolsLoading : bool) (durationMs : Z) : list view :=
  [Text "Playground"; Text "Test MCP tools interactively"] ++ controls p servers toolsLoading
  ++ match activeTool tools p with Some t => tool_form p t | None => [] end
  ++ when (isRunning p && negb (bool_decide (is_Some (runResult p)))) [Text "Executing tool…"]
  ++ match runResult p with Some r => ResultPanel r durationMs | None => [] end
  ++ when (negb (bool_decide (is_Some (activeTool tools p))) && negb (isRunning p))
       [Text "No tool loaded"; Text ("Select a server and tool above, then click " +:+ dquote +:+ "Load Tool" +:+ dquote +:+ ".")].
End view.
End PlaygroundView.

(** ** The server list *)
Module ServersView.
Import DevServers.

Section page.
(** The time the module is loaded, and the number drawn for a card. *)
Context (now : string) (random : string -> Z).

Definition demo_server (id name slug upstream : string) (auth : ServerAuthMode) (failures : Z) : ServerView :=
  mkServerView id "t1" name slug upstream ServerTransport_streamable_http auth None None None ServerStatus_active "/health"
    failures (Some now) now now.

Definition DEMO_SERVERS : list ServerView :=
  [demo_server "s1" "Production MCP" "production-mcp" "https://mcp.prod.example.com" ServerAuthMode_service_token 0;
   demo_server "s2" "Staging MCP" "staging-mcp" "https://mcp.staging.example.com" ServerAuthMode_service_token 0;
   demo_server "s3" "Dev MCP" "dev-mcp" "http://localhost:3001" ServerAuthMode_none 2].

Definition servers_of (q : answer (list ServerView)) : list ServerView :=
  match rows q with [] => DEMO_SERVERS | l => l end.

(** *** The request for access *)
Record modal := mkModal { slug : string; reason : string; sent : bool }.

(** [closing]: the timers that close the modal, each set by a submission. *)
Record page := mkPage { search : string; envFilter : option environment; request : option modal; closing : nat }.

Inductive event :=
  | Search (s : string)
  | PickEnv (e : option environment)
  | ClearFilters
  | RequestAccess (s : string)
  | Reason (s : string)
  | Submit
  | CloseModal
  | Timer.

Definition step (p : page) (e : event) : page :=
  let '(mkPage q env m n) := p in
  match e with
  | Search s => mkPage s env m n
  | PickEnv f => mkPage q f m n
  | ClearFilters => mkPage "" None m n
  | RequestAccess s => mkPage q env (Some (mkModal s "" false)) n
  | Reason r => mkPage q env ((fun x => mkModal (slug x) r (sent x)) <$> m) n
  | Submit =>
      match m with
      | Some (mkModal s r false) => if bool_decide (r = "") then p else mkPage q env (Some (mkModal s r true)) (S n)
      | _ => p
      end
  | CloseModal => mkPage q env None n
  | Timer => match n with S n => mkPage q env None n | 0 => p end
  end.

Definition run (es : list event) (p : page) : page := fold_left step es p.

Definition initial : page := mkPage "" None None 0.

Definition RequestAccessModal (m : modal) : list view :=
  [Text "Request access"; Text ("Submit a request to join " +:+ slug m)]
  ++ if sent m then [Text "Request sent! Your admin will review it shortly."]
     else [Input "Reason for access" (reason m) "Describe why you need access to this server…" false;
           Button "Cancel" false "onClose"; Button "Submit request" false "submit"].

(** *** The cards *)
Definition env_label (e : environment) : string :=
  match e with production => "Production" | staging => "Staging" | development => "Development" end.

Definition StatusDot (s : ServerStatus) : view := Text (ServerStatus_value s).
Definition EnvBadge (e : environment) : view := Badge (env_label e).
Definition AccessBadge (hasAccess : bool) : view := Text (if hasAccess then "Access granted" else "Request required").

Definition ServerCard (s : ServerView) : list view :=
  let meta := inferMeta (random (ServerView_id s)) (ServerView_slug s) in
  let to := encodeURIComponent (ServerView_slug s) in
  [Code (ServerView_slug s); Text (ServerView_upstream_url s); StatusDot (ServerView_status s);
   EnvBadge (sm_environment meta); Badge (ServerTransport_value (ServerView_transport s)); Text (sm_description meta);
   Text (pretty (sm_toolCount meta) +:+ " tools"); Text (sm_owner meta); AccessBadge (sm_hasAccess meta);
   Link "Explore Tools" ("/developer/tools?server=" +:+ to); Link "Test" ("/developer/playground?server=" +:+ to)]
  ++ when (negb (sm_hasAccess meta)) [Button "Request Access" false ("onRequestAccess " +:+ ServerView_slug s)]
  ++ [Link "Documentation" (sm_docsUrl meta)].

Definition env_filters : list (option environment) := [None; Some production; Some staging; Some development].

(** The filter and the count draw numbers of their own; they do not matter. *)
Definition shown_servers (r : Z) (p : page) (q : answer (list ServerView)) : list ServerView :=
  filtered r (search p) (envFilter p) (servers_of q).

Definition header (r : Z) (q : answer (list ServerView)) : list view :=
  [Text "Available Servers"; Text "MCP servers you have access to · ";
   Text (num (activeCount (servers_of q)) +:+ " active"); Text (num (accessCount r (servers_of q)) +:+ " accessible")].

Definition grid (r : Z) (p : page) (q : answer (list ServerView)) : list view :=
  if is_pending q then [Skeletons 6] else
  match shown_servers r p q, servers_of q with
  | [], [] => empty_state_view devServers []
  | [], _ => FilterEmpty "servers" true
  | l, _ => flat_map ServerCard l
  end.

Definition legend : list view :=
  [Text "Access granted — can explore tools and use playground";
   Text "Request required — submit a request to gain access"; Text "Inactive — server is currently offline or disabled"].

Definition DeveloperServersPage (r : Z) (p : page) (q : answer (list ServerView)) : list view :=
  header r q ++ [Input "" (search p) "Search servers by name, URL, owner…" false]
  ++ map (fun e => Button (from_option env_label "All" e) false "setEnvFilter") env_filters
  ++ when (negb (is_pending q))
       [Text ("Showing " +:+ num (length (shown_servers r p q)) +:+ " of " +:+ num (length (servers_of q)) +:+ " server"
              +:+ plural (Z.of_nat (length (servers_of q))))]
  ++ grid r p q ++ legend
  ++ match request p with Some m => when (negb (bool_decide (slug m = ""))) (RequestAccessModal m) | None => [] end.
End page.
End ServersView.

(** ** Personal keys *)
Module KeysView.
Import DevKeys.

(** [creating]: a creation is on its way; [clears]: timers of the copied mark. *)
Record page := mkPage { dlg : dialog; creating : bool; clears : nat }.

Inductive event :=
  | Open
  | Close
  | TypeName (s : string)
  | Submit
  | Answer (r : AxiosError + orval_response)
  | Copy (ok : bool)
  | Uncopy.

(** What follows the await of [handleCreate]. *)
Definition answered (r : AxiosError + orval_response) (d : dialog) : dialog * list act :=
  match r with
  | inr o => (mkDialog (open d) "" (plaintext_of (or_data o)) (copied d), [Invalidate "/v1/api-keys"])
  | inl e => (d, [ToastError (error_detail e)])
  end.

Definition submit_disabled (p : page) : bool := creating p || bool_decide (trim (name (dlg p)) = "").

Definition step (p : page) (e : event) : page :=
  let '(mkPage d c n) := p in
  match e with
  | Open => mkPage (mkDialog true (name d) (newKey d) (copied d)) c n
  | Close => mkPage (closeDialog d) c n
  | TypeName s => mkPage (mkDialog (open d) s (newKey d) (copied d)) c n
  | Submit => if submit_disabled p || truthy (newKey d) || negb (open d) then p else mkPage d true n
  | Answer r => if c then mkPage (answered r d).1 false n else p
  | Copy ok => if ok && truthy (newKey d) then mkPage (mkDialog (open d) (name d) (newKey d) true) c (S n) else p
  | Uncopy => match n with S n => mkPage (mkDialog (open d) (name d) (newKey d) false) c n | 0 => p end
  end.

Definition run (es : list event) (p : page) : page := fold_left step es p.

Definition initial : page := mkPage (mkDialog false "" None false) false 0.

Section view.
Context (dateString : string -> string).

Definition key_row (k : ApiKeyView) : list view :=
  [Text (ApiKeyView_name k); Code (ApiKeyView_key_prefix k +:+ "…")] ++ map Badge (ApiKeyView_scopes k)
  ++ [Text (dateString (ApiKeyView_created_at k));
      Text (match Catalogue.nonempty (ApiKeyView_last_used_at k) with Some d => dateString d | None => "Never" end);
      Button "Revoke" false ("handleRevoke " +:+ ApiKeyView_id k)].

Definition keys_table (q : answer (list ApiKeyView)) : list view :=
  if is_pending q then [Skeletons 3] else
  match rows q with
  | [] => empty_state_view devApiKeys [mkAction "Create API Key" None false]
  | l => [Table ["Name"; "Prefix"; "Scopes"; "Created"; "Last Used"; ""] (map key_row l)]
  end.

Definition key_face (k : string) : list view :=
  [Text "Copy this key now — it will not be shown again after you close this dialog."; Code k; Button "" false "copyKey";
   Button "Done" false "closeDialog"].

Definition form_face (p : page) : list view :=
  [Input "Key Name" (name (dlg p)) "e.g. My MCP Client, CI pipeline" false; Button "Cancel" false "closeDialog";
   Button (if creating p then "Creating…" else "Create Key") (submit_disabled p) "handleCreate"].

Definition key_dialog (p : page) : list view :=
  if negb (open (dlg p)) then [] else
  Text (title (dlg p)) :: match Catalogue.nonempty (newKey (dlg p)) with Some k => key_face k | None => form_face p end.

Definition DeveloperApiKeysPage (p : page) (q : answer (list ApiKeyView)) : list view :=
  [Text "My API Keys"; Text "Personal API keys for authenticating gateway requests"; Button "Create Key" false "setOpen"]
  ++ keys_table q ++ key_dialog p.
End view.
End KeysView.

(** ** Usage *)
Module UsageView.
Import DevUsage.

Definition StatCard (label : string) (value : nat) (loading : bool) : view :=
  if loading then Card label "" [Skeletons 1] else Stat label (num value).

Definition stat_cards (logs : list AuditLogView) (loading : bool) : list view :=
  let s := stats_of logs in
  [StatCard "Total Requests" (total s) loading; StatCard "Allowed" (allowed s) loading; StatCard "Blocked" (blocked s) loading].

Definition bar (label : string) (n total : nat) (pct : rounded) : list view :=
  [Text label; Text (num n +:+ " / " +:+ num total +:+ " (" +:+ rounded_text pct +:+ "%)");
   Stat "width" (rounded_text pct +:+ "%")].

Definition breakdown (logs : list AuditLogView) (loading : bool) : list view :=
  let s := stats_of logs in
  if loading then [Skeletons 1] else
  match total s with
  | 0 => [Text "No requests recorded yet."]
  | n => bar "Allowed" (allowed s) n (allowedPct s) ++ bar "Blocked" (blocked s) n (deniedPct s)
  end.

Definition policy_row (p : RateLimitPolicyView) : list view :=
  [Text (default "*" (RateLimitPolicyView_server_pattern p) +:+ " "
         +:+ match Catalogue.nonempty (RateLimitPolicyView_tool_pattern p) with Some t => "/ " +:+ t | None => "" end);
   Text (RateLimitAlgorithm_value (RateLimitPolicyView_algorithm p));
   Text (pretty (RateLimitPolicyView_request_limit p) +:+ " req");
   Text ("/ " +:+ pretty (RateLimitPolicyView_window_seconds p) +:+ "s")]
  ++ match RateLimitPolicyView_burst_capacity p with Some b => [Text ("burst: " +:+ pretty b)] | None => [] end.

Definition policy_list (q : answer (list RateLimitPolicyView)) : list view :=
  if is_pending q then [Skeletons 3] else
  match rows q with [] => [Text "No rate limit policies configured."] | l => flat_map policy_row l end.

Section view.
Context (localeString : string -> string).

Definition OutcomePill (outcome : string) : view := Badge outcome.

Definition log_row (l : AuditLogView) : list view :=
  [OutcomePill (AuditLogView_outcome l); Code (AuditEventType_value (AuditLogView_event_type l));
   or_dash (AuditLogView_server_slug l); or_dash (AuditLogView_tool_name l); Text (localeString (AuditLogView_created_at l))].

Definition activity (logs : list AuditLogView) (loading : bool) : list view :=
  if loading then [Skeletons 4] else
  match recent logs with
  | [] => [Text "No recent activity"; Text "Events appear here as traffic flows through the gateway"]
  | l => [Table ["Outcome"; "Event"; "Server"; "Tool"; "Time"] (map log_row l)]
  end.

Definition DeveloperUsagePage (audit : answer (list AuditLogView)) (policies : answer (list RateLimitPolicyView)) : list view :=
  [Text "My Usage"; Text "Request history and quota status"] ++ stat_cards (rows audit) (is_pending audit)
  ++ Text "Request Breakdown" :: breakdown (rows audit) (is_pending audit)
  ++ Text "Rate Limit Policies" :: policy_list policies
  ++ Text "Recent Activity" :: activity (rows audit) (is_pending audit).
End view.
End UsageView.

(** ** Request logs *)
Module LogsView.

Record page := mkPage { eventType : string; serverSlug : string; limit : Z }.

Inductive event := PickType (t : string) | TypeServer (s : string) | PickLimit (n : Z) | ClearFilters.

Definition step (p : page) (e : event) : page :=
  let '(mkPage t s n) := p in
  match e with
  | PickType t => mkPage t s n
  | TypeServer s => mkPage t s n
  | PickLimit n => mkPage t s n
  | ClearFilters => mkPage "" "" n
  end.

Definition run (es : list event) (p : page) : page := fold_left step es p.

Definition initial : page := mkPage "" "" 25.

Definition query (p : page) : Params := DevLogs_query (eventType p) (serverSlug p) (limit p).

Definition filtering (p : page) : bool := negb (bool_decide (eventType p = "")) || negb (bool_decide (serverSlug p = "")).

Section view.
Context (localeString : string -> string).

Definition log_row (l : AuditLogView) : list view :=
  [Badge (AuditLogView_outcome l); Code (AuditEventType_value (AuditLogView_event_type l));
   or_dash (AuditLogView_server_slug l); or_dash (AuditLogView_tool_name l); or_dash (AuditLogView_subject_id l);
   or_dash (AuditLogView_client_ip l); Text (localeString (AuditLogView_created_at l))].

Definition filters (p : page) : list view :=
  [Text "Filters"; Select "" (eventType p) ("All event types" :: map AuditEventType_value AdminViews.Audit.event_types);
   Input "" (serverSlug p) "Filter by server slug…" false;
   Select "" (pretty (limit p)) ["25 rows"; "50 rows"; "100 rows"]].

Definition log_table (p : page) (q : answer (list AuditLogView)) : list view :=
  if is_pending q then [Skeletons 5] else
  match rows q with
  | [] => if filtering p then FilterEmpty "log entries" true else empty_state_view requests []
  | l => [Table ["Outcome"; "Event"; "Server"; "Tool"; "Subject"; "IP"; "Time"] (map log_row l)]
  end.

Definition DeveloperLogsPage (p : page) (fetching : bool) (q : answer (list AuditLogView)) : list view :=
  [Text "Request Logs"; Text "Your gateway request history"; Button "Refresh" fetching "refetch"] ++ filters p ++ log_table p q.
End view.
End LogsView.

(** ** The profile *)
Module ProfileView.

Inductive Theme := dark | light | system.

Definition theme_label (t : Theme) : string := match t with dark => "Dark" | light => "Light" | system => "System" end.

Definition TIMEZONES : list string :=
  ["UTC"; "America/New_York"; "America/Chicago"; "America/Denver"; "America/Los_Angeles"; "Europe/London"; "Europe/Paris";
   "Europe/Berlin"; "Asia/Tokyo"; "Asia/Shanghai"; "Australia/Sydney"].

Record settings := mkSettings { displayName : string; theme : Theme; timezone : string }.

(** [timers]: the simulated saves under way; [toasts]: the messages so far. *)
Record page := mkPage { fields : settings; saving : bool; timers : nat; toasts : list string }.

Inductive event := TypeName (s : string) | PickTheme (t : Theme) | PickZone (z : string) | Save | Timer.

Definition edit (f : settings -> settings) (p : page) : page := mkPage (f (fields p)) (saving p) (timers p) (toasts p).

Definition handleSave (p : page) : page := mkPage (fields p) true (S (timers p)) (toasts p).

Definition step (p : page) (e : event) : page :=
  match e with
  | TypeName s => edit (fun f => mkSettings s (theme f) (timezone f)) p
  | PickTheme t => edit (fun f => mkSettings (displayName f) t (timezone f)) p
  | PickZone z => edit (fun f => mkSettings (displayName f) (theme f) z) p
  | Save => if saving p then p else handleSave p
  | Timer => match timers p with
             | S n => mkPage (fields p) false n (toasts p ++ ["Preferences saved"])
             | 0 => p
             end
  end.

Definition run (es : list event) (p : page) : page := fold_left step es p.

Definition initial : page := mkPage (mkSettings "" dark "UTC") false 0 [].

Definition SectionCard (title description : string) (children : list view) : view := Card title description children.

Definition DeveloperProfilePage (p : page) : list view :=
  let f := fields p in
  [Text "Profile"; Text "Your account and preferences";
   SectionCard "Profile" "How others identify you in the workspace"
     [Input "Display Name" (displayName f) "Your name" false; Input "Email" "" "user@example.com" false;
      Text "Email is bound to your API key identity and cannot be changed here."];
   SectionCard "API Access" "How your identity is established for gateway requests"
     [Text "Authenticated via API key";
      Text "Your identity is bound to the API key used to authenticate requests to the Portcullis gateway. Rate limits, audit logs, and access controls all use your key as the subject identifier. Manage your keys on the ";
      Link "API Keys" "/developer/api-keys"; Text " page."];
   SectionCard "Preferences" "Appearance and regional settings"
     ([Text "Theme"] ++ map (fun t => Button (theme_label t) false "setTheme") [dark; light; system]
      ++ [Select "Timezone" (timezone f) TIMEZONES]);
   Button (if saving p then "Saving…" else "Save Preferences") (saving p) "handleSave"].
End ProfileView.

(** ** Theorems: the playground *)
Import DevPlayground PlaygroundView.

(** The result panel's text is the server's whole answer: it reads back as the
    value received, on success and on error. *)
Theorem result_reads_back tools p servers loading ms r :
  runResult p = Some r ->
  exists text, Code text ∈ PlaygroundInner tools p servers loading ms /\ JSON_parse text = Some (rr_json r) /\
    Badge (if rr_ok r then "Success" else "Error") ∈ PlaygroundInner tools p servers loading ms.
Proof.
  intros H. exists (JSON_stringify_indent 2 (rr_json r)).
  assert (Hin : forall v, v ∈ ResultPanel r ms -> v ∈ PlaygroundInner tools p servers loading ms).
  { intros v Hv. unfold PlaygroundInner. rewrite H. do 4 (apply elem_of_app; right). apply elem_of_app. by left. }
  split_and!; [|apply parse_of_reads, indented_reads; [apply ws_spaces|done]|]; apply Hin; unfold ResultPanel; find_elem.
Qed.

(** A server and a tool chosen in the address or the lists are enough: the form
    is there without the button the page tells the reader to press. *)
Theorem form_without_load_button tools p t servers loading ms :
  loadedTool p = None -> find_tool tools p = Some t -> isRunning p = false -> runResult p = None ->
  PlaygroundInner tools p servers loading ms =
    [Text "Playground"; Text "Test MCP tools interactively"] ++ controls tools p servers loading ++ tool_form p t.
Proof.
  intros Hl Hf Hr Hres. unfold PlaygroundInner, activeTool. rewrite Hl, Hf, Hr, Hres.
  rewrite (bool_decide_true (is_Some (Some t))) by done. cbn [negb andb when]. by rewrite !app_nil_r.
Qed.

(** ** Theorems: the server list *)
Import DevServers ServersView.

(** The page never shows its empty state: a failed or empty answer is replaced
    by three invented servers. *)
Theorem empty_list_shows_demo_servers now random r q :
  (rows q = [] -> servers_of now q = DEMO_SERVERS now)
  /\ (is_pending q = false -> rows q = [] ->
      grid now random r initial q = flat_map (ServerCard random) (DEMO_SERVERS now))
  /\ (forall p, is_pending q = false -> shown_servers now r p q = [] -> grid now random r p q = FilterEmpty "servers" true).
Proof.
  assert (H1 : rows q = [] -> servers_of now q = DEMO_SERVERS now) by (intros H; unfold servers_of; by rewrite H).
  split_and!; [done| |].
  - intros Hp H. unfold grid, shown_servers. rewrite Hp, (H1 H). reflexivity.
  - intros p Hp H. unfold grid. rewrite Hp, H. unfold servers_of. by destruct (rows q).
Qed.

(** A request for access is answered with "Request sent!" and leads to nothing:
    a moment later the page is as before it. *)
Theorem access_request_goes_nowhere s r p :
  r <> "" -> closing p = 0 -> request p = None ->
  shows "Request sent! Your admin will review it shortly."
    (from_option RequestAccessModal [] (request (run [RequestAccess s; Reason r; Submit] p)))
  /\ run [RequestAccess s; Reason r; Submit; Timer] p = p.
Proof.
  intros Hr Hc Hq. destruct p as [q env m n]. cbn in Hc, Hq. subst.
  cbn -[shows]. rewrite bool_decide_false by done. split; [|done]. cbn -[shows]. unfold RequestAccessModal. cbn [sent]. find_text.
Qed.

(** The timer of a request outlives its dialog: it closes the next dialog, and
    what was typed there is lost. *)
Theorem old_timer_closes_next_request s s' r r' p :
  r <> "" -> closing p = 0 ->
  let p1 := run [RequestAccess s; Reason r; Submit; CloseModal; RequestAccess s'; Reason r'] p in
  request p1 = Some (mkModal s' r' false) /\ request (step p1 Timer) = None.
Proof.
  intros Hr Hc. destruct p as [q env m n]. cbn in Hc. subst. cbn. rewrite bool_decide_false by done. done.
Qed.

(** ** Theorems: personal keys *)
Import DevKeys KeysView.

(** The dialog's steps are [handleCreate] cut at its await. *)
Theorem create_is_submit_and_answer dispatch d w r w1 n :
  createApiKeyV1ApiKeysPost dispatch (create_body (name d)) None w = (Ok r, w1) ->
  open d = true -> trim (name d) <> "" -> truthy (newKey d) = false ->
  exists d' acts, handleCreate dispatch d w = (Ok (d', acts), w1) /\
    run [Submit; Answer r] (mkPage d false n) = mkPage d' false n.
Proof.
  intros Hc Ho Ht Hk. unfold handleCreate, try_catch, bind. rewrite Hc. cbn [ret].
  cbn [run fold_left step]. unfold submit_disabled. cbn [creating dlg]. rewrite bool_decide_false by done. rewrite Hk, Ho.
  cbn [orb negb]. destruct r; cbn [answered fst]; (eexists _, _; split; [reflexivity|cbn; rewrite ?Ho; reflexivity]).
Qed.

(** A dialog closed before the answer: the key waits for the next opening, and
    a name typed in between is lost. *)
Theorem late_key_shown_on_reopening dateString q p o k s :
  creating p = true -> plaintext_of (or_data o) = Some k -> k <> "" ->
  Code k ∈ DeveloperApiKeysPage dateString (run [Close; Answer (inr o); Open] p) q
  /\ run [Close; Open; TypeName s; Answer (inr o)] p = run [Close; Answer (inr o); Open] p.
Proof.
  intros Hp Hk Hne. destruct p as [d c n]. cbn in Hp. subst c.
  cbn [run fold_left step answered closeDialog fst]. rewrite !Hk. cbn [open name newKey copied]. split; [|done].
  unfold DeveloperApiKeysPage, key_dialog. cbn [dlg open newKey negb]. unfold Catalogue.nonempty.
  rewrite bool_decide_false by done. apply elem_of_app. right. apply elem_of_app. right. unfold key_face. find_elem.
Qed.

(** ** Theorems: usage *)
Import DevUsage UsageView.

Definition reassigned (f : AuditLogView -> option string) (l : AuditLogView) : AuditLogView :=
  mkAuditLogView (AuditLogView_id l) (AuditLogView_tenant_id l) (f l) (AuditLogView_subject_type l) (AuditLogView_event_type l)
    (AuditLogView_server_slug l) (AuditLogView_tool_name l) (AuditLogView_rpc_method l) (AuditLogView_outcome l)
    (AuditLogView_client_ip l) (AuditLogView_request_id l) (AuditLogView_detail l) (AuditLogView_created_at l).

Lemma outcome_count_map (g : AuditLogView -> AuditLogView) o logs : (forall l, AuditLogView_outcome (g l) = AuditLogView_outcome l) ->
  outcome_count o (map g logs) = outcome_count o logs.
Proof.
  intros H. unfold outcome_count. induction logs as [|l logs IH]; [done|]. cbn [map List.filter]. rewrite H.
  case_bool_decide; cbn [length]; by rewrite IH.
Qed.

Lemma stats_of_map (g : AuditLogView -> AuditLogView) logs : (forall l, AuditLogView_outcome (g l) = AuditLogView_outcome l) ->
  stats_of (map g logs) = stats_of logs.
Proof. intros H. unfold stats_of. by rewrite !outcome_count_map, length_map. Qed.

Lemma activity_map localeString g logs loading : (forall l, log_row localeString (g l) = log_row localeString l) ->
  activity localeString (map g logs) loading = activity localeString logs loading.
Proof.
  intros H. unfold activity, recent. destruct loading; [done|]. change (take 10 (map g logs)) with (take 10 (g <$> logs)).
  rewrite <-fmap_take. assert (E : map (log_row localeString) (g <$> take 10 logs) = map (log_row localeString) (take 10 logs)).
  { change (g <$> take 10 logs) with (map g (take 10 logs)). rewrite map_map. by apply map_ext. }
  revert E. destruct (take 10 logs) as [|l ls]; [done|]. cbn [fmap list_fmap]. by intros ->.
Qed.

(** "My usage" is everybody's: the page is the same whoever made the calls. *)
Theorem usage_ignores_subject localeString logs policies f :
  DeveloperUsagePage localeString (Answered (map (reassigned f) logs)) policies
  = DeveloperUsagePage localeString (Answered logs) policies.
Proof.
  unfold DeveloperUsagePage, stat_cards, breakdown. cbn [rows is_pending].
  by rewrite !stats_of_map, activity_map.
Qed.

(** The cards count what was fetched: the query asks for 100 records, and
    blocked calls are those with the outcome "denied" and no others. *)
Theorem usage_cards_exact localeString logs policies :
  let n o := num (outcome_count o logs) in
  [Stat "Total Requests" (num (length logs)); Stat "Allowed" (n "allowed"); Stat "Blocked" (n "denied")]
    ⊆ DeveloperUsagePage localeString (Answered logs) policies
  /\ (logs = [] -> Text "No requests recorded yet." ∈ DeveloperUsagePage localeString (Answered logs) policies).
Proof.
  cbn zeta. split.
  - intros v Hv. unfold DeveloperUsagePage. cbn [rows is_pending]. apply elem_of_app. right. apply elem_of_app. left. exact Hv.
  - intros ->. unfold DeveloperUsagePage. cbn [rows is_pending]. apply elem_of_app. right. apply elem_of_app. right. find_elem.
Qed.

(** ** Theorems: request logs *)
Import LogsView.

(** The page's three empty faces: filters are offered to be cleared exactly when
    a type or a server is set; the number of rows is no filter, and clearing
    keeps it.  A failed request looks like an empty log. *)
Theorem empty_logs_faces localeString p q :
  is_pending q = false -> rows q = [] ->
  log_table localeString p q = (if filtering p then FilterEmpty "log entries" true else empty_state_view requests [])
  /\ filtering (step p ClearFilters) = false /\ limit (step p ClearFilters) = limit p
  /\ log_table localeString p Failed = log_table localeString p (Answered []).
Proof. intros Hp Hr. destruct p as [t s n]. unfold log_table. rewrite Hp, Hr. by split_and!. Qed.

(** The query names the filters that are set and only those. *)
Theorem logs_query_exact p :
  query p = Some [("event_type", if bool_decide (eventType p = "") then None else Some (JStr (eventType p)));
                  ("server_slug", if bool_decide (serverSlug p = "") then None else Some (JStr (serverSlug p)));
                  ("limit", Some (JNum (limit p)))]
  /\ (filtering p = false <-> query p = Some [("event_type", None); ("server_slug", None); ("limit", Some (JNum (limit p)))]).
Proof.
  unfold query, DevLogs_query, or_none, filtering. destruct p as [t s n]. cbn [eventType serverSlug limit].
  split; [|split]; repeat case_bool_decide; cbn; congruence.
Qed.

(** ** Theorems: the profile *)
Import ProfileView.

Definition is_edit (e : event) : bool := match e with Save | Timer => false | _ => true end.

Definition count_saves (es : list event) : nat := length (List.filter (fun e => match e with Save => true | _ => false end) es).

(** At most one save is simulated at a time, the button showing it; every
    announced save was asked for. *)
Theorem simulated_saves es :
  let p := run es initial in
  timers p = (if saving p then 1 else 0) /\ length (toasts p) + timers p <= count_saves es.
Proof.
  cbn zeta. assert (G : forall p, timers p = (if saving p then 1 else 0) ->
    timers (run es p) = (if saving (run es p) then 1 else 0) /\
    length (toasts (run es p)) + timers (run es p) <= length (toasts p) + timers p + count_saves es).
  { unfold count_saves. induction es as [|e es IH]; intros p Hp; [cbn; split; [done|lia]|].
    change (run (e :: es) p) with (run es (step p e)).
    destruct p as [f sv n ts]; destruct e; cbn [step edit handleSave saving timers] in *; subst; destruct sv; cbn [step edit handleSave saving timers fields toasts];
      match goal with |- context [run es ?x] => destruct (IH x eq_refl) as [H1 H2] end;
      (split; [exact H1|cbn [List.filter length toasts timers] in *; rewrite ?length_app in H2; cbn in H2; lia]). }
  destruct (G initial eq_refl) as [H1 H2]. split; [done|]. exact H2.
Qed.

(** Saving keeps nothing: the fields are those of the same session without the
    saves, and a new visit starts from the same defaults. *)
Theorem save_keeps_nothing es :
  fields (run es initial) = fields (run (List.filter is_edit es) initial).
Proof.
  assert (G : forall p p', fields p = fields p' -> fields (run es p) = fields (run (List.filter is_edit es) p')).
  { induction es as [|e es IH]; intros p p' H; [done|]. change (run (e :: es) p) with (run es (step p e)).
    destruct e; cbn [List.filter is_edit];
      try (match goal with |- _ = fields (run (?e :: ?l) _) => change (run (e :: l) p') with (run l (step p' e)) end;
           apply IH; cbn; by rewrite H);
      apply IH; cbn [step]; [destruct (saving p)|destruct (timers p)]; done. }
  by apply G.
Qed.

(** ** Witnesses *)
Definition demo_result : RunResult := mkRun (JObj [("result", JObj [("content", JArr [])])]) true.

Lemma result_reads_back_witness :
  exists text, Code text ∈ PlaygroundInner demo_server_tools
      (DevPlayground.mkPage "s" "t" None ∅ (Some demo_result) false None []) (Answered []) false 12
    /\ JSON_parse text = Some (rr_json demo_result).
Proof.
  destruct (result_reads_back demo_server_tools (DevPlayground.mkPage "s" "t" None ∅ (Some demo_result) false None [])
              (Answered []) false 12 demo_result eq_refl) as (text & H1 & H2 & _).
  by exists text.
Defined.

Lemma form_without_load_button_witness :
  Button "Run Tool" false "handleRun" ∈ PlaygroundInner demo_server_tools
    (DevPlayground.initial (Some "prod") (Some "github/delete_repo")) (Answered []) false 0.
Proof.
  rewrite (form_without_load_button demo_server_tools (DevPlayground.initial (Some "prod") (Some "github/delete_repo")) demo_delete
             (Answered []) false 0 eq_refl ltac:(by vm_compute) eq_refl eq_refl).
  vm_compute. repeat (first [apply list_elem_of_here|apply list_elem_of_further]).
Defined.

Lemma empty_list_shows_demo_servers_witness :
  grid "2025-01-01T00:00:00Z" (fun _ => 3%Z) 7 ServersView.initial Failed
  = flat_map (ServerCard (fun _ => 3%Z)) (DEMO_SERVERS "2025-01-01T00:00:00Z").
Proof. apply (empty_list_shows_demo_servers "2025-01-01T00:00:00Z" (fun _ => 3%Z) 7 Failed); reflexivity. Defined.

Lemma access_request_goes_nowhere_witness :
  ServersView.run [RequestAccess "dev-mcp"; Reason "testing"; ServersView.Submit; ServersView.Timer] ServersView.initial
  = ServersView.initial.
Proof. apply (access_request_goes_nowhere "dev-mcp" "testing" ServersView.initial); done. Defined.

Lemma old_timer_closes_next_request_witness :
  ServersView.request (ServersView.step (ServersView.run
    [RequestAccess "a"; Reason "r"; ServersView.Submit; CloseModal; RequestAccess "b"; Reason "urgent"] ServersView.initial)
    ServersView.Timer) = None.
Proof. apply (old_timer_closes_next_request "a" "b" "r" "urgent" ServersView.initial); done. Defined.

Definition key_answer : orval_response := mkOrval (Some (JObj [("plaintext", JStr "pk_1")])) 201 ∅.

Definition created : AxiosDefaults -> AxiosConfig -> M (AxiosError + AxiosResponse) :=
  fun _ _ w => (Ok (inr (mkAxResponse (Some (JObj [("plaintext", JStr "pk_1")])) 201 ∅)), w).

Lemma create_is_submit_and_answer_witness :
  exists d' acts w1, handleCreate created (mkDialog true "ci" None false) (demo_world ∅ []) = (Ok (d', acts), w1)
    /\ newKey d' = Some "pk_1".
Proof.
  destruct (create_is_submit_and_answer created (mkDialog true "ci" None false) (demo_world ∅ []) (inr key_answer)
    (createApiKeyV1ApiKeysPost created (create_body "ci") None (demo_world ∅ [])).2 0 ltac:(by vm_compute) eq_refl
    ltac:(by vm_compute) eq_refl) as (d' & acts & H & H').
  eexists _, _, _. split; [exact H|]. injection H' as <-. done.
Defined.

Lemma late_key_shown_on_reopening_witness :
  Code "pk_1" ∈ DeveloperApiKeysPage (fun s => s)
    (KeysView.run [Close; Answer (inr key_answer); Open] (KeysView.mkPage (mkDialog true "ci" None false) true 0)) (Answered []).
Proof.
  apply (late_key_shown_on_reopening (fun s => s) (Answered []) (KeysView.mkPage (mkDialog true "ci" None false) true 0)
           key_answer "pk_1" "other"); done.
Defined.

Lemma empty_logs_faces_witness :
  log_table (fun s => s) (LogsView.mkPage "" "prod" 25) Failed = FilterEmpty "log entries" true.
Proof. apply (empty_logs_faces (fun s => s) (LogsView.mkPage "" "prod" 25) Failed); done. Defined.
