(* ===== verification/AuthViews.v ===== *)
(** * What the sign-in pages show: web/src/app/login, register, auth/forgot-password
      and auth/mfa

    The pages' controls as steps and their markup.  The submissions, the
    password meters and the enrolment data are [LoginForm]. *)

From S2P Require Import Prelude JsString JsUri Json Browser AuthStore AxiosClient LoginForm View.

#[local] Open Scope nat_scope.

Definition grille : list view := [Text "Portcullis"; Text "MCP Gateway"].

(** [/auth/sso/<slug>/login] of the backend *)
Definition google_href (apiBase slug : string) : string := apiBase +:+ "/auth/sso/" +:+ slug +:+ "/login".

(** ** Sign-in *)
Module LoginView.
Import SignIn.

Record ui := mkUi { fm : form; showPassword : bool }.

Inductive control := TypeEmail (s : string) | TypePassword (s : string) | ToggleShow | ToggleRemember.

Definition step (u : ui) (c : control) : ui :=
  let f := fm u in
  match c with
  | TypeEmail s => mkUi (mkForm s (password f) (remember f) (loading f) None (attempts f)) (showPassword u)
  | TypePassword s => mkUi (mkForm (email f) s (remember f) (loading f) None (attempts f)) (showPassword u)
  | ToggleShow => mkUi f (negb (showPassword u))
  | ToggleRemember =>
      mkUi (mkForm (email f) (password f) (negb (remember f)) (loading f) (authError f) (attempts f)) (showPassword u)
  end.

Definition submit_disabled (f : form) : bool :=
  loading f || (5 <=? attempts f)%Z || bool_decide (trim (email f) = "") || bool_decide (password f = "").

Definition ServiceStatus (ok : option bool) : list view :=
  match ok with
  | None => []
  | Some b => [Text (if b then "Service operational" else "Service unavailable")]
  end.

Definition ErrorBanner (e : option AuthError) : list view :=
  match e with Some e => [Text (ERROR_MESSAGES e).1; Text (ERROR_MESSAGES e).2] | None => [] end.

Definition GoogleButton (apiBase slug : string) : view := Link "Continue with Google" (google_href apiBase slug).

Definition LegacySignInForm (apiBase slug : string) (u : ui) : list view :=
  let f := fm u in
  [GoogleButton apiBase slug; Text "or sign in with email"] ++ ErrorBanner (authError f)
  ++ [Input "Email" (email f) "jane@company.com" false; Input "Password" (password f) "Enter your password" (negb (showPassword u));
      Button (if showPassword u then "Hide password" else "Show password") false "setShowPassword";
      Text "Remember this device"; Link "Forgot password?" "/auth/forgot-password";
      Button (if loading f then "Verifying…" else "Sign in to Portcullis") (submit_disabled f) "handleSubmit"].

Section page.
(** The build's settings, and Clerk's own sign-in component. *)
Context (apiBase slug : string) (clerk_key : bool) (SignIn_component : list view).

Definition expired_notice : list view :=
  [Text "Session expired"; Text "Your session has timed out. Please sign in again."].

Definition SignInBlock (reason : option string) (serviceOk : option bool) (u : ui) : list view :=
  when (bool_decide (reason = Some "expired")) expired_notice
  ++ (if clerk_key then SignIn_component else LegacySignInForm apiBase slug u)
  ++ ServiceStatus serviceOk ++ [Link "Terms" "/terms"; Link "Privacy" "/privacy"].

Definition LoginPage (reason : option string) (serviceOk : option bool) (u : ui) : list view :=
  grille
  ++ [Text "Sign in to your gateway";
      Text (if clerk_key then "Continue with Google or your email to access Portcullis"
            else "Sign in with your email to access Portcullis")]
  ++ SignInBlock reason serviceOk u ++ [Text "New to Portcullis? "; Link "Create an account" "/register"]
  ++ [Text "Every tool call, verified.";
      Text "Portcullis enforces access policies, rate limits, and audit trails across all your MCP servers — so you always know who did what.";
      Text "Policy enforcement"; Text "Full audit trail"; Text "Rate limiting"].
End page.

(** The passive health check: any failure counts as unavailable. *)
Definition health_check (dispatch : AxiosDefaults -> AxiosConfig -> M (AxiosError + AxiosResponse)) : M bool :=
  try_catch
    (r <-- axiosClient_request dispatch (mkConfig "/healthz" "GET" ∅ None);
     ret (match r with inr _ => true | inl _ => false end))
    (fun _ => ret false).

(** The submit button, and a visitor who types and presses it. *)
Definition press (dispatch : AxiosDefaults -> AxiosConfig -> M (AxiosError + AxiosResponse)) (u : ui) : M ui :=
  if submit_disabled (fm u) then ret u else
  r <-- handleSubmit dispatch (fm u);
  ret (mkUi (r.1) (showPassword u)).

Fixpoint tries (dispatch : AxiosDefaults -> AxiosConfig -> M (AxiosError + AxiosResponse)) (cs : list (list control)) (u : ui) : M ui :=
  match cs with
  | [] => ret u
  | c :: cs => u' <-- press dispatch (fold_left step c u); tries dispatch cs u'
  end.
End LoginView.

(** ** Registration *)
Module RegisterView.
Import Register.

Record ui := mkUi { fm : form; showPw : bool }.

Inductive control :=
  | PickFlow (f : Flow)
  | TypeName (s : string)
  | TypeEmail (s : string)
  | TypePassword (s : string)
  | TypeOrg (s : string)
  | TypeInvite (s : string)
  | PickUse (s : string)
  | TickTerms (b : bool)
  | ToggleShow.

Definition edit (f : form) (c : control) : form :=
  let '(mkForm fl n e p o i us t s a l er) := f in
  match c with
  | PickFlow x => mkForm x n e p o i us t s a l er
  | TypeName x => mkForm fl x e p o i us t s a l er
  | TypeEmail x => mkForm fl n x p o i us t s a l er
  | TypePassword x => mkForm fl n e x o i us t s a l er
  | TypeOrg x => mkForm fl n e p x i us t s a l er
  | TypeInvite x => mkForm fl n e p o x us t s a l er
  | PickUse x => mkForm fl n e p o i x t s a l er
  | TickTerms x => mkForm fl n e p o i us x s a l er
  | ToggleShow => f
  end.

Definition step (u : ui) (c : control) : ui :=
  mkUi (edit (fm u) c) (match c with ToggleShow => negb (showPw u) | _ => showPw u end).

Definition initial : ui := mkUi (mkForm create "" "" "" "" "" "" false false approved false None) false.

Definition OAuthLink (apiBase slug : string) (children : option string) : view :=
  Link (default "Continue with Google" children) (google_href apiBase slug).

(** The form's outcome: [submitted] shows one of two screens. *)
Definition done_screen (f : form) : list view :=
  match approval f with
  | pending =>
      [Text "Request submitted";
       Text ("Thanks, " +:+ fullName f +:+ "! Your request to join " +:+ orgName f
             +:+ " is awaiting approval from an organization admin. You'll be able to sign in once it's approved.");
       Button "Go to sign in" false "/login"]
  | approved =>
      [Text "Account created"; Text ("Welcome to Portcullis, " +:+ fullName f +:+ "! Your account is ready to use.");
       Button "Continue to dashboard" false "/dashboard"]
  end ++ [Link "← Back to sign in" "/login"].

Definition meter (pw : string) : list view :=
  when (0 <? String.length pw) [Stat "score" (pretty (Z.of_nat (passwordStrength pw).1.1)); Text (passwordStrength pw).1.2].

Definition flow_fields (f : form) : list view :=
  match flow f with
  | create => [Input "Organization name" (orgName f) "Acme Corp" false]
  | join_ => [Input "Organization name or domain" (orgName f) "acme-corp or @acme.com" false;
              Text "An org admin will need to approve your request."]
  | invitation => [Input "Invitation code" (inviteCode f) "XXXX-XXXX-XXXX" false]
  end.

Definition submit_label (f : form) : string :=
  if loading f then "Creating your account…" else
  match flow f with
  | create => "Create account & organization"
  | join_ => "Request access"
  | invitation => "Accept invitation"
  end.

(** What the browser asks of the form before it is submitted: no required field
    is empty.  The address's form is the browser's affair. *)
Definition filled (f : form) : bool :=
  forallb (fun s => negb (bool_decide (s = "")))
    [fullName f; email f; password f; intendedUse f; match flow f with invitation => inviteCode f | _ => orgName f end].

Definition submit_disabled (f : form) : bool := negb (terms f) || loading f.

Definition LegacyRegisterForm (apiBase slug : string) (u : ui) : list view :=
  let f := fm u in
  if submitted f then done_screen f else
  grille
  ++ [Text "Create your account"; Text "Already have an account? "; Link "Sign in" "/login";
      OAuthLink apiBase slug (Some "Continue with Google"); Text "or register with email"]
  ++ map (fun x => Button (x.1.2) false ("setFlow " +:+ flow_id (x.1.1))) FLOWS
  ++ match error f with Some e => when (negb (bool_decide (e = ""))) [Text e] | None => [] end
  ++ [Input "Full name" (fullName f) "Jane Smith" false; Input "Work email" (email f) "jane@company.com" false;
      Input "Password" (password f) "Min 8 characters" (negb (showPw u))]
  ++ meter (password f) ++ flow_fields f
  ++ [Select "Intended use" (intendedUse f) ("Select a use case…" :: INTENDED_USES);
      Text "I agree to the "; Link "Terms of Service" "/terms"; Text " and "; Link "Privacy Policy" "/privacy";
      Button (submit_label f) (submit_disabled f) "handleSubmit";
      Text "Protected by Portcullis security. "; Link "Privacy notice" "/privacy";
      Text "Zero-trust access for every MCP tool";
      Text "Portcullis enforces policy, logs every call, and keeps your infrastructure secure."].

(** [register/page.tsx]: Clerk's form when a key is configured. *)
Definition RegisterPage (clerk_key : bool) (SignUp_component : list view) (apiBase slug : string) (u : ui) : list view :=
  if negb clerk_key then LegacyRegisterForm apiBase slug u else
  grille ++ [Text "Create your account"; Text "Already have an account? "; Link "Sign in" "/login"] ++ SignUp_component
  ++ [Text "The first account to sign in becomes the organization owner. Teammates are added afterwards from the dashboard under Access Control → Members.";
      Text "Protected by Portcullis security. "; Link "Privacy notice" "/privacy"; Text "Zero-trust access for every MCP tool";
      Text "Portcullis enforces policy, logs every call, and keeps your infrastructure secure."].
End RegisterView.

(** ** Password reset *)
Module ResetView.
Import ForgotPassword.

(** [base]: the page's own record; the rest of its state beside it. *)
Record ui := mkUi { base : page; email : string; showNew : bool; showConfirm : bool; revokeOther : bool }.

Inductive control :=
  | TypeEmail (s : string)
  | SendLink
  | OtherAddress
  | ClickedLink
  | TypeNew (s : string)
  | TypeConfirm (s : string)
  | ToggleNew
  | ToggleConfirm
  | TickRevoke (b : bool)
  | Submit.

Definition submit_disabled (u : ui) : bool :=
  (strengthScore (newPw (base u)) <? 2) || bool_decide (confirmPw (base u) = "").

Definition go (s : Step) (p : page) : page := mkPage s (newPw p) (confirmPw p) (mismatch p).

(** A control of another screen does nothing. *)
Definition step (u : ui) (c : control) : ui :=
  let '(mkUi p e n k r) := u in
  let at_ s v := if match s, ForgotPassword.step p with
                    | request, request | sent, sent | reset, reset => true
                    | _, _ => false
                    end then v else u in
  match c with
  | TypeEmail s => at_ request (mkUi p s n k r)
  | SendLink => at_ request (if bool_decide (e = "") then u else mkUi (requestReset p) e n k r)
  | OtherAddress => at_ sent (mkUi (go request p) e n k r)
  | ClickedLink => at_ sent (mkUi (go reset p) e n k r)
  | TypeNew s => at_ reset (mkUi (mkPage reset s (confirmPw p) (mismatch p)) e n k r)
  | TypeConfirm s => at_ reset (mkUi (mkPage reset (newPw p) s false) e n k r)
  | ToggleNew => at_ reset (mkUi p e (negb n) k r)
  | ToggleConfirm => at_ reset (mkUi p e n (negb k) r)
  | TickRevoke b => at_ reset (mkUi p e n k b)
  | Submit => at_ reset (if submit_disabled u then u else mkUi (submitReset p) e n k r)
  end.

Definition run (cs : list control) (u : ui) : ui := fold_left step cs u.

Definition initial : ui := mkUi (mkPage request "" "" false) "" false false true.

Definition request_screen (u : ui) : list view :=
  [Link "Back to sign in" "/login"; Text "Reset your password";
   Text "Enter your work email and we'll send you a secure reset link.";
   Input "Work email" (email u) "jane@company.com" false; Button "Send reset link" false "requestReset"].

Definition sent_screen (u : ui) : list view :=
  [Text "Check your email";
   Text ("We sent a password reset link to " +:+ email u +:+ ". The link will expire in 15 minutes.");
   Text "Didn't receive it? Check your spam folder, or "; Button "try another email address" false "setStep request";
   Button "Simulate: I clicked the reset link →" false "setStep reset"; Link "Back to sign in" "/login"].

Definition meter (pw : string) : list view :=
  let score := strengthScore pw in
  when (0 <? String.length pw)
    ([Stat "score" (pretty (Z.of_nat score)); Text (strengthMeta score).1]
     ++ map (fun r : string * (string -> bool) => Stat (r.1) (if r.2 pw then "ok" else "")) STRENGTH_RULES).

Definition reset_screen (u : ui) : list view :=
  let p := base u in
  [Text "Choose a new password"; Text "Pick a strong password for your account."]
  ++ when (mismatch p) [Text "Passwords do not match."]
  ++ [Input "New password" (newPw p) "At least 8 characters" (negb (showNew u)); Button "" false "setShowNew"]
  ++ meter (newPw p)
  ++ [Input "Confirm password" (confirmPw p) "Repeat your password" (negb (showConfirm u)); Button "" false "setShowConfirm"]
  ++ when ((0 <? String.length (confirmPw p)) && negb (mismatch p) && bool_decide (newPw p = confirmPw p)) [Text "Passwords match"]
  ++ [Text "Sign out of all other sessions"; Text "Revokes all other active sessions and API tokens after reset";
      Button "Reset password" (submit_disabled u) "submitReset"].

Definition success_screen (u : ui) : list view :=
  [Text "Password updated"; Text "Your password has been changed successfully."]
  ++ when (revokeOther u) [Text "All other sessions have been signed out."]
  ++ [Link "Sign in with new password" "/login"].

Definition ForgotPasswordPage (u : ui) : list view :=
  grille
  ++ match ForgotPassword.step (base u) with
     | request => request_screen u
     | sent => sent_screen u
     | reset => reset_screen u
     | success => success_screen u
     end
  ++ [Text "Need help? "; Link "Contact support" "mailto:support@portcullis.dev"; Text "Secure password recovery";
      Text "Reset links expire after 15 minutes and can only be used once."].
End ResetView.

(** ** Enrolling an authenticator *)
Module MfaView.
Import MfaSetup.

(** *** The picture in place of a QR code: one dot per character, 120 at most *)
Definition dot (c : ascii) (i : Z) : Z * Z :=
  (((Z.of_N (JsString.code c) * 7 + i * 3) mod 19)%Z, ((Z.of_N (JsString.code c) * 13 + i * 7) mod 19)%Z).

Fixpoint dots (uri : string) (i : Z) (acc : list (Z * Z)) : list (Z * Z) :=
  match uri with
  | "" => acc
  | String c r =>
      if 120 <=? length acc then acc
      else dots r (i + 1)%Z (if bool_decide (dot c i ∈ acc) then acc else acc ++ [dot c i])
  end.

Definition QRPlaceholder (uri : string) : view :=
  Chart (map (fun d => ("", [("x", 12 + d.1 * 7); ("y", 12 + d.2 * 7)]%Z)) (dots uri 0 [])).

Definition step_index (s : Step) : nat := match s with setup => 0 | verify => 1 | recovery => 2 | done_ => 3 end.

Definition StepIndicator (current : Step) : list view :=
  flat_map (fun s => [Badge (if step_index (s.1) <? step_index current then "✓" else pretty (Z.of_nat (step_index (s.1)) + 1)%Z);
                      Text (s.2)]) steps.

(** *** The page *)
Record ui := mkUi { base : page; showKey : bool; copied : option string; downloaded : bool; revokeOther : bool }.

Fixpoint only_digits (s : string) : string :=
  match s with "" => "" | String c r => if is_digit c then String c (only_digits r) else only_digits r end.

Inductive control :=
  | ToggleKey
  | Scanned
  | TypeCode (s : string)
  | Verify
  | BackToQR
  | Copy (id : string) (ok : bool)
  | Uncopy
  | Download
  | Saved
  | TickRevoke (b : bool).

Definition verify_disabled (p : page) : bool := negb (String.length (MfaSetup.code p) =? 6).

(** The field takes six characters at most, and digits are kept of them.  A
    control of another screen does nothing. *)
Definition step (u : ui) (c : control) : ui :=
  let '(mkUi p k cp d r) := u in
  let at_ s v := if step_index s =? step_index (MfaSetup.step p) then v else u in
  match c with
  | ToggleKey => at_ setup (mkUi p (negb k) cp d r)
  | Scanned => at_ setup (mkUi (mkPage verify (MfaSetup.code p) (codeError p)) k cp d r)
  | TypeCode s => at_ verify (mkUi (mkPage verify (only_digits (stake 6 s)) false) k cp d r)
  | Verify => at_ verify (if verify_disabled p then u else mkUi (verifyCode p) k cp d r)
  | BackToQR => at_ verify (mkUi (mkPage setup "" false) k cp d r)
  | Copy id ok => if ok then mkUi p k (Some id) d r else u
  | Uncopy => mkUi p k None d r
  | Download => at_ recovery (mkUi p k cp true r)
  | Saved => at_ recovery (mkUi (mkPage done_ (MfaSetup.code p) (codeError p)) k cp d r)
  | TickRevoke b => at_ done_ (mkUi p k cp d b)
  end.

Definition run (cs : list control) (u : ui) : ui := fold_left step cs u.

Definition initial : ui := mkUi (mkPage setup "" false) false None false false.

Definition setup_screen (u : ui) : list view :=
  [Text "Set up authenticator";
   Text "Use an authenticator app like Google Authenticator, Authy, or 1Password to scan the QR code below.";
   QRPlaceholder TOTP_URI; Text "Scan with your authenticator app";
   Button ((if showKey u then "Hide" else "Can't scan?") +:+ " Enter the setup key manually") false "setShowKey"]
  ++ when (showKey u)
       [Text "Setup key"; Code SETUP_KEY; Button (if bool_decide (copied u = Some "key") then "copied" else "copy") false "handleCopy key";
        Stat "Type" "TOTP"; Stat "Algorithm" "SHA-1"; Stat "Digits" "6"; Stat "Period" "30s"]
  ++ [Button "I've scanned the QR code" false "setStep verify"].

Definition verify_screen (u : ui) : list view :=
  [Text "Enter verification code"; Text "Open your authenticator app and enter the 6-digit code."]
  ++ when (codeError (base u))
       [Text "Invalid code"; Text "Check your authenticator app and try again. Codes expire every 30 seconds."]
  ++ [Input "6-digit code" (MfaSetup.code (base u)) "000000" false; Button "Verify code" (verify_disabled (base u)) "verifyCode";
      Button "Back to QR code" false "setStep setup"].

Definition recovery_screen (u : ui) : list view :=
  [Text "Save your recovery codes";
   Text "If you lose access to your authenticator, use one of these codes to sign in. Each code can only be used once."]
  ++ map Code RECOVERY_CODES
  ++ [Button (if bool_decide (copied u = Some "codes") then "Copied!" else "Copy all codes") false "handleCopy codes";
      Button (if downloaded u then "Downloaded" else "Download recovery codes") false "downloadCodes";
      Text "Store these codes somewhere safe. You won't be able to see them again after this step.";
      Button "I've saved my recovery codes" false "setStep done"].

Definition done_screen (u : ui) : list view :=
  [Text "MFA enabled";
   Text "Your account is now protected with multi-factor authentication. You'll be asked for a code each time you sign in.";
   Text "Sign out of all other sessions"; Text "Revokes all existing API tokens and active sessions";
   Link "Continue to dashboard" "/dashboard"].

Definition MFASetupPage (u : ui) : list view :=
  grille ++ StepIndicator (MfaSetup.step (base u))
  ++ match MfaSetup.step (base u) with
     | setup => setup_screen u
     | verify => verify_screen u
     | recovery => recovery_screen u
     | done_ => done_screen u
     end
  ++ [Text "Need help? "; Link "Contact support" "#"; Text "Multi-factor authentication";
      Text "Add a second layer of protection to your Portcullis account."].
End MfaView.

(** ** Theorems: sign-in *)
Import SignIn LoginView.

Definition said (s : string) (l : list view) : nat := length (List.filter (fun t => bool_decide (t = s)) (flat_map texts l)).

(** An expired session is announced twice on the page's arrival; the upper
    notice stays for the visit, also beside the error of a failed sign-in. *)
Theorem expired_session_announced_twice apiBase slug clerk ok u e :
  let r := Some "expired" in
  said "Session expired" (LoginPage apiBase slug false clerk r ok (mkUi (init r) false)) = 2
  /\ Text "Session expired" ∈ LoginPage apiBase slug false clerk r ok u
  /\ (authError (fm u) = Some e -> Text (ERROR_MESSAGES e).1 ∈ LoginPage apiBase slug false clerk r ok u).
Proof.
  cbn zeta. split_and!.
  - by destruct ok as [[]|].
  - unfold LoginPage, SignInBlock. cbn [bool_decide]. apply elem_of_app. right. apply elem_of_app. right. apply elem_of_app. left.
    apply elem_of_app. left. rewrite bool_decide_true by done. find_elem.
  - intros H. unfold LoginPage, SignInBlock, LegacySignInForm. rewrite H. apply elem_of_app. right. apply elem_of_app. right.
    apply elem_of_app. left. apply elem_of_app. right. apply elem_of_app. left. apply elem_of_app. right. apply elem_of_app. left.
    cbn [ErrorBanner]. find_elem.
Qed.

Lemma controls_keep cs u :
  attempts (fm (fold_left step cs u)) = attempts (fm u) /\
  (authError (fm u) <> Some too_many_attempts -> authError (fm (fold_left step cs u)) <> Some too_many_attempts).
Proof.
  revert u. induction cs as [|c cs IH]; intros u; [done|]. cbn [fold_left]. destruct (IH (step u c)) as [H1 H2].
  destruct c; cbn [step fm attempts authError] in *; (split; [done|]); intros H; apply H2; done.
Qed.

(** The lock is never announced where it strikes: however a visitor types and
    presses the button, the page that counted five refusals disables the button
    and goes on showing the last refusal, not "Too many attempts". *)
Theorem lock_never_announced dispatch cs u w :
  refuses dispatch -> recorded None w -> attempts (fm u) = 0%Z -> authError (fm u) <> Some too_many_attempts ->
  exists v w', tries dispatch cs u w = (Ok v, w') /\ authError (fm v) <> Some too_many_attempts /\
    (attempts (fm v) <= 5)%Z /\ (attempts (fm v) = 5%Z -> submit_disabled (fm v) = true).
Proof.
  intros Hd Hr H0 He.
  assert (G : forall cs u w, in_step (fm u) w -> (0 <= attempts (fm u) <= 5)%Z -> authError (fm u) <> Some too_many_attempts ->
    exists v w', tries dispatch cs u w = (Ok v, w') /\ authError (fm v) <> Some too_many_attempts /\ (attempts (fm v) <= 5)%Z).
  { clear -Hd. induction cs as [|c cs IH]; intros u w Hs Hn He; cbn [tries]; [exists u, w; split_and!; [done|done|lia]|].
    destruct (controls_keep c u) as [Ha Hk]. specialize (Hk He). set (u1 := fold_left step c u) in *. clearbody u1.
    assert (in_step (fm u1) w) as Hs1 by (unfold in_step; rewrite Ha; exact Hs). unfold press.
    destruct (submit_disabled (fm u1)) eqn:E.
    - rewrite (bind_ok (ret u1) _ w u1 w eq_refl). apply IH; [done|rewrite Ha; lia|done].
    - destruct (handleSubmit_step dispatch (fm u1) w Hd Hs1 ltac:(rewrite Ha; lia)) as (g & w' & Eg & Hc).
      unfold submit_disabled in E. destruct Hc as [(Hlt & Hg & Hs' & Hne)|(H5 & _)].
      + erewrite bind_ok; [|erewrite bind_ok by exact Eg; reflexivity]. apply IH; cbn [fm fst]; [done|lia|done].
      + rewrite H5 in E. by rewrite orb_true_r in E. }
  destruct (G cs u w) as (v & w' & E & H1 & H2); [right; done|lia|done|]. exists v, w'. split_and!; try done.
  intros E5. unfold submit_disabled. rewrite E5. by rewrite orb_true_r.
Qed.

(** ** Theorems: registration *)
Import Register RegisterView.

(** The password meter decides nothing: the button waits for the terms only,
    and a password of one character is sent. *)
Theorem meter_decides_nothing f :
  (submit_disabled f = false <-> terms f = true /\ loading f = false)
  /\ (forall s, submit_disabled (edit f (TypePassword s)) = submit_disabled f)
  /\ (forall c, (passwordStrength (String c "")).1.2 = "Weak").
Proof.
  unfold submit_disabled. split_and!.
  - destruct (terms f), (loading f); cbn; naive_solver.
  - intros s. by destruct f.
  - by intros [[] [] [] [] [] [] [] []].
Qed.

(** Changing the way of registering and back loses nothing that was typed. *)
Theorem flow_switch_roundtrip f x : body (edit (edit f (PickFlow x)) (PickFlow (flow f))) = body f.
Proof. by destruct f. Qed.

(** An invited user who has to wait is told that an organization was asked that
    the request did not name: one typed before the flow was changed, or none. *)
Theorem pending_invitation_names_unsent_org f org :
  let f1 := edit (edit f (TypeOrg org)) (PickFlow invitation) in
  (exists l, body f1 = JObj l /\ ("org_name", JNull) ∈ l)
  /\ Text ("Thanks, " +:+ fullName f +:+ "! Your request to join " +:+ org
           +:+ " is awaiting approval from an organization admin. You'll be able to sign in once it's approved.")
       ∈ LegacyRegisterForm "" "" (mkUi (update f1 true pending false None) false).
Proof.
  destruct f. cbn zeta. split.
  - eexists. split; [reflexivity|]. cbn [edit orgName flow]. rewrite andb_false_r. find_elem.
  - unfold LegacyRegisterForm, done_screen. cbn [fm edit update submitted approval fullName orgName]. find_elem.
Qed.

(** ** Theorems: password reset *)
Import ForgotPassword ResetView.

(** The reset is a play on this page: whoever types an address and a password of
    score two reads that the password was changed and the sessions signed out,
    without any request. *)
Theorem reset_changes_nothing e pw :
  e <> "" -> pw <> "" -> 2 <= strengthScore pw ->
  let u := run [TypeEmail e; SendLink; ClickedLink; TypeNew pw; TypeConfirm pw; Submit] initial in
  Text "Your password has been changed successfully." ∈ ForgotPasswordPage u
  /\ Text "All other sessions have been signed out." ∈ ForgotPasswordPage u.
Proof.
  intros He Hp Hs. set (u := run _ initial).
  assert (E : u = mkUi (mkPage success pw pw false) e false false true).
  { assert (S1 : step (mkUi (mkPage request "" "" false) e false false true) SendLink
                   = mkUi (mkPage sent "" "" false) e false false true) by (cbn; by rewrite bool_decide_false).
    assert (S2 : step (mkUi (mkPage reset pw pw false) e false false true) Submit
                 = mkUi (mkPage success pw pw false) e false false true).
    { cbn -[strengthScore]. unfold submit_disabled. cbn [base newPw confirmPw]. rewrite (bool_decide_false (pw = "")) by done.
      assert (strengthScore pw <? 2 = false) as -> by (apply Nat.ltb_ge; lia). unfold submitReset. cbn [orb newPw confirmPw].
      by rewrite bool_decide_true. }
    rewrite <-S2. subst u. unfold run. cbn [fold_left]. f_equal. change (step initial (TypeEmail e)) with (mkUi (mkPage request "" "" false) e false false true).
    by rewrite S1. }
  rewrite E. unfold ForgotPasswordPage, success_screen. cbn [base ForgotPassword.step revokeOther View.when].
  split; (apply elem_of_app; right; apply elem_of_app; left; find_elem).
Qed.

(** The success screen is reached only with twice the same password, of score
    two at least. *)
Theorem success_means_equal_passwords cs :
  let p := base (run cs initial) in
  ForgotPassword.step p = success -> newPw p = confirmPw p /\ newPw p <> "" /\ 2 <= strengthScore (newPw p).
Proof.
  cbn zeta. set (I := fun u : ui => ForgotPassword.step (base u) = success ->
    newPw (base u) = confirmPw (base u) /\ newPw (base u) <> "" /\ 2 <= strengthScore (newPw (base u))).
  assert (G : forall u, I u -> I (run cs u)); [|by apply G].
  induction cs as [|c cs IH]; intros u H; [done|]. change (run (c :: cs) u) with (run cs (step u c)). apply IH.
  destruct u as [[s pw cf m] e n k r]; destruct s, c; cbn [step ForgotPassword.step]; try exact H; try done.
  - case_bool_decide; [exact H|]. by intros ?.
  - destruct (submit_disabled _) eqn:E; [exact H|]. unfold submit_disabled in E. cbn [base newPw confirmPw] in E.
    apply orb_false_iff in E as [E1%Nat.ltb_ge E2%bool_decide_eq_false]. unfold submitReset. cbn [newPw confirmPw].
    case_bool_decide as Eq; cbn [negb]; [|by intros ?]. intros _. cbn. subst. done.
Qed.

(** "Passwords do not match" stays when the first of the two is corrected. *)
Theorem mismatch_survives_correction u :
  ForgotPassword.step (base u) = reset -> mismatch (base u) = true ->
  let v := step u (TypeNew (confirmPw (base u))) in
  newPw (base v) = confirmPw (base v) /\ Text "Passwords do not match." ∈ ForgotPasswordPage v.
Proof.
  destruct u as [[s pw cf m] e n k r]. cbn [base ForgotPassword.step mismatch confirmPw]. intros -> ->. split; [done|].
  cbn [step ForgotPassword.step]. unfold ForgotPasswordPage, reset_screen. cbn [base ForgotPassword.step mismatch View.when].
  apply elem_of_app. right. apply elem_of_app. left. find_elem.
Qed.

(** ** Theorems: the authenticator *)
Import MfaSetup MfaView.

Lemma stake_bound n s : String.length (stake n s) <= n.
Proof. revert n. induction s as [|c s IH]; intros [|n]; cbn; try lia. specialize (IH n). lia. Qed.

Lemma only_digits_ok s : sforall is_digit (only_digits s) = true /\ String.length (only_digits s) <= String.length s.
Proof.
  induction s as [|c s [H1 H2]]; [done|]. cbn. destruct (is_digit c) eqn:E; cbn; rewrite ?E; (split; [done|cbn; lia]).
Qed.

(** The error for a wrong code is never seen: what can be typed and verified is
    always six digits, and six digits are always right. *)
Theorem wrong_code_never_said cs :
  let p := base (run cs initial) in
  codeError p = false /\ String.length (MfaSetup.code p) <= 6 /\ sforall is_digit (MfaSetup.code p) = true.
Proof.
  cbn zeta. set (I := fun u : ui => codeError (base u) = false /\ String.length (MfaSetup.code (base u)) <= 6 /\
    sforall is_digit (MfaSetup.code (base u)) = true).
  assert (G : forall u, I u -> I (run cs u)); [|apply G; by split_and!; cbn; try lia].
  induction cs as [|c cs IH]; intros u H; [done|]. change (run (c :: cs) u) with (run cs (step u c)). apply IH.
  destruct u as [[s co e] k cp d r]; destruct H as (H1 & H2 & H3); cbn in H1, H2, H3. subst e.
  destruct c; cbn [step]; try (case_match; split_and!; solve [done|cbn; lia]); try (split_and!; solve [done|cbn; lia]).
  - case_match; [|by split_and!]. destruct (only_digits_ok (stake 6 s0)) as [D1 D2]. pose proof (stake_bound 6 s0).
    split_and!; cbn [base codeError MfaSetup.code]; [done|lia|done].
  - case_match; [|by split_and!]. unfold verify_disabled. cbn [MfaSetup.code].
    destruct (String.length co =? 6) eqn:E; cbn [negb]; [|by split_and!].
    unfold verifyCode, six_digits. cbn [MfaSetup.code]. rewrite E, H3. cbn. by split_and!.
Qed.

(** Any six digits enrol, and the recovery codes need not have been kept. *)
Theorem any_six_digits_enrol c :
  six_digits c = true ->
  let u := run [Scanned; TypeCode c; Verify; Saved] initial in
  Text "MFA enabled" ∈ MFASetupPage u /\ downloaded u = false /\ copied u = None.
Proof.
  intros Hc. unfold six_digits in Hc. apply andb_true_iff in Hc as [Hl%Nat.eqb_eq Hd].
  assert (T : forall n s, String.length s <= n -> stake n s = s).
  { induction n as [|n IH]; intros [|x s]; cbn; try done; [lia|]. intros H. rewrite IH by lia. done. }
  assert (O : forall s, sforall is_digit s = true -> only_digits s = s).
  { induction s as [|x s IH]; [done|]. cbn. intros [-> H]%andb_true_iff. by rewrite IH. }
  cbn zeta. unfold run, initial. cbn [fold_left]. cbn [step step_index MfaSetup.step Nat.eqb MfaSetup.code codeError].
  rewrite T, O by (done || lia). unfold verify_disabled, verifyCode, six_digits. cbn [MfaSetup.code]. rewrite Hl, Hd.
  cbn [Nat.eqb negb andb step_index MfaSetup.step MfaSetup.code codeError]. split; [|done]. unfold MFASetupPage.
  cbn [base MfaSetup.step]. apply elem_of_app. right. apply elem_of_app. right. apply elem_of_app. left. unfold done_screen. find_elem.
Qed.

Lemma dots_ok uri i acc :
  NoDup acc -> length acc <= 120 -> (forall d, d ∈ acc -> (0 <= d.1 < 19 /\ 0 <= d.2 < 19)%Z) ->
  let l := dots uri i acc in NoDup l /\ length l <= 120 /\ forall d, d ∈ l -> (0 <= d.1 < 19 /\ 0 <= d.2 < 19)%Z.
Proof.
  revert i acc. induction uri as [|c r IH]; intros i acc Hn Hl Hb; cbn zeta; cbn [dots]; [done|].
  destruct (120 <=? length acc) eqn:E; [split_and!; assumption|]. apply Nat.leb_gt in E. case_bool_decide as Hin; [by apply IH|].
  apply IH.
  - apply NoDup_app. split_and!; [done| |apply NoDup_singleton]. intros x Hx Hx2%list_elem_of_singleton. by subst.
  - rewrite length_app. cbn. lia.
  - intros d [Hd| ->%list_elem_of_singleton]%elem_of_app; [by apply Hb|]. unfold dot. cbn. split; apply Z.mod_pos_bound; lia.
Qed.

(** The picture has at most 120 dots, each inside the frame and drawn once. *)
Theorem qr_dots_in_frame uri :
  NoDup (dots uri 0 []) /\ length (dots uri 0 []) <= 120 /\ forall d, d ∈ dots uri 0 [] -> (0 <= d.1 < 19 /\ 0 <= d.2 < 19)%Z.
Proof. apply dots_ok; [constructor|cbn; lia|]. by intros d ?%elem_of_nil. Qed.

Lemma dot_period c c' i : JsString.code c' = (JsString.code c + 19)%N -> dot c' i = dot c i.
Proof.
  intros H. unfold dot. rewrite H, N2Z.inj_add. f_equal.
  - replace ((Z.of_N (JsString.code c) + Z.of_N 19) * 7 + i * 3)%Z with (Z.of_N (JsString.code c) * 7 + i * 3 + 7 * 19)%Z by lia.
    apply Z_mod_plus_full.
  - replace ((Z.of_N (JsString.code c) + Z.of_N 19) * 13 + i * 7)%Z with (Z.of_N (JsString.code c) * 13 + i * 7 + 13 * 19)%Z by lia.
    apply Z_mod_plus_full.
Qed.

(** It is no code of the URI: a letter replaced by the one nineteen places on,
    in the secret for instance, gives the same picture. *)
Theorem qr_same_for_other_secrets s c c' s' :
  JsString.code c' = (JsString.code c + 19)%N -> QRPlaceholder (s +:+ String c s') = QRPlaceholder (s +:+ String c' s').
Proof.
  intros H. unfold QRPlaceholder. do 2 f_equal. generalize 0%Z, (@nil (Z * Z)). induction s as [|x s IH]; intros i acc.
  - change ("" +:+ String c s') with (String c s'). change ("" +:+ String c' s') with (String c' s'). cbn [dots]. by rewrite (dot_period c c' i H).
  - rewrite !app_cons. cbn [dots]. destruct (120 <=? length acc); [done|]. apply IH.
Qed.

(** ** Witnesses *)
Definition visitor : list LoginView.control := [LoginView.TypeEmail "jane@company.com"; LoginView.TypePassword "wrong"].

Lemma lock_never_announced_witness :
  exists v w', tries refusing (replicate 9 visitor) (LoginView.mkUi (init None) false) (demo_world ∅ []) = (Ok v, w') /\ authError (LoginView.fm v) <> Some too_many_attempts.
Proof.
  destruct (lock_never_announced refusing (replicate 9 visitor) (LoginView.mkUi (init None) false) (demo_world ∅ [])
              refusing_refuses ltac:(by split_and!) eq_refl ltac:(done)) as (v & w' & E & H & _).
  exists v, w'. split; [exact E|exact H].
Defined.

Lemma expired_session_announced_twice_witness :
  Text "Invalid credentials" ∈ LoginPage "" "google" false [] (Some "expired") None
    (LoginView.mkUi (with_error (init None) (Some invalid_credentials) false 1) false).
Proof.
  apply (expired_session_announced_twice "" "google" [] None
           (LoginView.mkUi (with_error (init None) (Some invalid_credentials) false 1) false) invalid_credentials). reflexivity.
Defined.

Lemma reset_changes_nothing_witness :
  Text "Your password has been changed successfully." ∈ ForgotPasswordPage
    (ResetView.run [ResetView.TypeEmail "someone@else.com"; SendLink; ClickedLink; TypeNew "A1"; TypeConfirm "A1"; Submit]
       ResetView.initial).
Proof. apply (reset_changes_nothing "someone@else.com" "A1"); [done|done|vm_compute; lia]. Defined.

Lemma success_means_equal_passwords_witness :
  newPw (ResetView.base (ResetView.run [ResetView.TypeEmail "a"; SendLink; ClickedLink; TypeNew "A1"; TypeConfirm "A1"; Submit]
    ResetView.initial)) <> "".
Proof.
  apply (success_means_equal_passwords
    [ResetView.TypeEmail "a"; SendLink; ClickedLink; TypeNew "A1"; TypeConfirm "A1"; Submit]). by vm_compute.
Defined.

Definition mistyped : ResetView.ui := ResetView.mkUi (ForgotPassword.mkPage reset "A2" "A1" true) "a" false false true.

Lemma mismatch_survives_correction_witness :
  Text "Passwords do not match." ∈ ForgotPasswordPage (ResetView.step mistyped (TypeNew "A1")).
Proof. apply (mismatch_survives_correction mistyped); reflexivity. Defined.

Lemma any_six_digits_enrol_witness :
  Text "MFA enabled" ∈ MFASetupPage (MfaView.run [Scanned; TypeCode "000000"; Verify; Saved] MfaView.initial).
Proof. apply (any_six_digits_enrol "000000"). by vm_compute. Defined.

Lemma qr_same_for_other_secrets_witness : QRPlaceholder "secret=AB" = QRPlaceholder "secret=TB".
Proof. apply (qr_same_for_other_secrets "secret=" "A" "T" "B"). reflexivity. Defined.
