(* ===== verification/SearchViews.v ===== *)
(** * What the search dialogs and the notifications show

    - [HL]: the marking of matches in both search components
    - [SearchView]: web/src/components/global-search.tsx
    - [PaletteView]: web/src/components/command-palette.tsx
    - [BellView], [InboxView]: web/src/components/notification-panel.tsx and
      web/src/app/dashboard/notifications/page.tsx

    What is searched and how the lists are formed is [Search]; the inbox and the
    preferences are [Notifications]. *)

From S2P Require Import Prelude JsString Json Browser AuthStore NavShell ApiTypes Search Notifications View.

#[local] Open Scope nat_scope.

#[local] Notation num n := (pretty (Z.of_nat n)).

(** ** Marking a match *)

(** [s.indexOf(sub)], [None] for -1 *)
Fixpoint indexOf (s sub : string) : option nat :=
  if startsWith s sub then Some 0 else match s with "" => None | String _ r => S <$> indexOf r sub end.

Definition HL (text q : string) : list view :=
  if bool_decide (q = "") then [Text text] else
  match indexOf (toLowerCase text) (toLowerCase q) with
  | None => [Text text]
  | Some i => [Text (stake i text); Badge (stake (String.length q) (sdrop i text)); Text (sdrop (i + String.length q) text)]
  end.

(** ** The search page *)
Module SearchView.
Import GlobalSearch.

(** [waiting]: the debounce's timer is set. *)
Record ui := mkUi {
  query : string; debouncedQ : string; activeType : option ResourceType; selectedIdx : Z; waiting : bool; pushed : list string }.

Inductive event :=
  | Type_ (s : string)
  | Debounced
  | ClearButton
  | AllPill
  | Pill (t : ResourceType)
  | ViewAll (t : ResourceType)
  | Key (k : Palette.key)
  | Hover (i : Z)
  | ClickRow (r : SearchResult).

(** The effect on [debouncedQ] and [activeType]: a change selects the first row. *)
Definition settle (u : ui) (deb : string) (t : option ResourceType) (q : string) (w : bool) : ui :=
  mkUi q deb t (if bool_decide (debouncedQ u = deb) && bool_decide (activeType u = t) then selectedIdx u else 0%Z) w (pushed u).

Definition setQuery (u : ui) (s : string) : ui :=
  settle u (debouncedQ u) (activeType u) s (waiting u || negb (bool_decide (query u = s))).

(** [flat]: the rows at the time of the event.  A click on a row is the row's
    handler and then the link around it. *)
Definition step (flat : list SearchResult) (u : ui) (e : event) : ui :=
  match e with
  | Type_ s => setQuery u s
  | Debounced => if waiting u then settle u (query u) (activeType u) (query u) false else u
  | ClearButton =>
      if bool_decide (query u = "") then u else settle u "" (activeType u) "" true
  | AllPill => settle u (debouncedQ u) None (query u) (waiting u)
  | Pill t => settle u (debouncedQ u) (setType t (activeType u)) (query u) (waiting u)
  | ViewAll t => settle u (debouncedQ u) (Some t) (query u) (waiting u)
  | Key Palette.Escape => setQuery u ""
  | Key Palette.Enter =>
      match (if (selectedIdx u <? 0)%Z then None else flat !! Z.to_nat (selectedIdx u)) with
      | Some r => mkUi (query u) (debouncedQ u) (activeType u) (selectedIdx u) (waiting u) (pushed u ++ [sr_href r])
      | None => u
      end
  | Key k =>
      mkUi (query u) (debouncedQ u) (activeType u) (Palette.move k (Z.of_nat (length flat)) (selectedIdx u)) (waiting u) (pushed u)
  | Hover i => mkUi (query u) (debouncedQ u) (activeType u) i (waiting u) (pushed u)
  | ClickRow r =>
      mkUi (query u) (debouncedQ u) (activeType u) (selectedIdx u) (waiting u) (pushed u ++ [sr_href r; sr_href r])
  end.

Definition run (flat : ui -> list SearchResult) (es : list event) (u : ui) : ui := fold_left (fun u e => step (flat u) u e) es u.

(** The page as it mounts; [q] is the address's parameter.  The effect on the
    query sets the first timer. *)
Definition initial (q : option string) : ui := mkUi (default "" q) (default "" q) None 0 true [].

(** The address's parameter, kept up by an effect on [debouncedQ]. *)
Definition url_q (u : ui) : option string := if bool_decide (debouncedQ u = "") then None else Some (debouncedQ u).

(** *** What is shown *)
Definition ResultRow (q : string) (selected : bool) (r : SearchResult) : list view :=
  HL (sr_title r) q ++ match sr_badge r with Some b => [Badge b] | None => [] end
  ++ match sr_subtitle r with Some s => if bool_decide (s = "") then [] else HL s q | None => [] end
  ++ match sr_meta r with Some m => [Text m] | None => [] end
  ++ [Link (if selected then "↵" else "→") (sr_href r)].

Fixpoint result_rows (q : string) (selected : Z) (i : Z) (l : list SearchResult) : list view :=
  match l with [] => [] | r :: l => ResultRow q (bool_decide (i = selected)) r ++ result_rows q selected (i + 1) l end.

Definition FilterPill (label : string) (count : nat) : view := Button (label +:+ " " +:+ num count) false "setType".

Definition HintItem (keys : list string) (label : string) : list view := map Text keys ++ [Text label].

Fixpoint groups_view (all : ResourceType -> list SearchResult) (q : string) (selected i : Z)
    (gs : list (ResourceType * list SearchResult)) : list view :=
  match gs with
  | [] => []
  | (t, l) :: gs =>
      [Text (RESOURCE_META t).2; Text (num (length (all t)))]
      ++ when (length l <? length (all t)) [Button ("View all " +:+ num (length (all t)) +:+ " →") false "setType"]
      ++ result_rows q selected i l ++ groups_view all q selected (i + Z.of_nat (length l))%Z gs
  end.

Definition SUGGESTED (c : NavContext) : list (string * string) :=
  let dev := bool_decide (c = DeveloperCtx) in
  [("Servers", if dev then "/developer/servers" else "/dashboard/servers");
   ("Tools", if dev then "/developer/tools" else "/dashboard/tools"); ("Policies", "/dashboard/policies");
   ("API Keys", if dev then "/developer/api-keys" else "/dashboard/api-keys"); ("Audit Log", "/dashboard/audit");
   ("Documentation", "/developer/docs"); ("Access Control", "/dashboard/access-control"); ("Traffic", "/dashboard/traffic")].

Definition search_tips : list (string * string) :=
  [("memory_store", "Find a tool by name"); ("production-mcp", "Find a server by slug");
   ("tool.invoke", "Find audit events by type"); ("pk_live", "Find API keys by prefix"); ("RBAC", "Search documentation");
   ("rate limit", "Find policies by keyword")].

Definition EmptyLanding (c : NavContext) : list view :=
  Text "Jump to a page or start typing to search across all resources."
  :: map (fun s => Link (s.1) (s.2)) (SUGGESTED c)
  ++ Text "Search tips" :: flat_map (fun s => [Code (s.1); Text ("— " +:+ s.2)]) search_tips.

Definition search_bar (u : ui) (loading : bool) : list view :=
  when (loading && negb (bool_decide (debouncedQ u = ""))) [Text "spinner"]
  ++ [Input "" (query u) "Search servers, tools, policies, API keys, requests, docs…" false]
  ++ when (negb (bool_decide (query u = ""))) [Button "" false "clear"] ++ HintItem ["⌘"; "K"] "quick launch".

Definition GlobalSearch (c : NavContext) (loading : bool) (all : ResourceType -> list SearchResult) (u : ui) : list view :=
  let q := debouncedQ u in
  let gs := visibleGroups (activeType u) all in
  let flat := flatResults gs in
  search_bar u loading
  ++ when (negb (bool_decide (q = "")))
       (FilterPill "All" (totalCount all) :: map (fun p => FilterPill (RESOURCE_META (p.1)).2 (p.2)) (pills q all))
  ++ when (negb (bool_decide (q = "")) && (0 <? length flat))
       (HintItem ["↑"; "↓"] "navigate" ++ HintItem ["↵"] "open" ++ HintItem ["esc"] "clear"
        ++ [Text (num (length flat) +:+ " result" +:+ plural (Z.of_nat (length flat)) +:+ " shown")])
  ++ when (bool_decide (q = "")) (EmptyLanding c)
  ++ when (showNoResults q loading all)
       [Text ("No results for “" +:+ q +:+ "”"); Text "Try a server slug, tool name, policy, or doc title"]
  ++ groups_view all q (selectedIdx u) 0 gs.
End SearchView.

(** ** The command palette *)
Module PaletteView.
Import Palette.

(** No command has a shortcut's hint. *)
Definition render_cmd (q : string) (selected : bool) (c : Cmd) : list view :=
  HL (cmd_label c) q
  ++ when (negb (bool_decide (cmd_description c = ""))) (HL (cmd_description c) q)
  ++ when selected [Text "↵"]
  ++ match cmd_href c with Some h => when (negb (bool_decide (h = ""))) [Link (cmd_label c) h] | None => [] end.

Definition render_result (q : string) (selected : bool) (r : LiveResult) : list view :=
  HL (lr_label r) q
  ++ match lr_sublabel r with Some s => when (negb (bool_decide (s = ""))) [Text s] | None => [] end
  ++ when selected [Text "→"] ++ [Link (lr_label r) (lr_href r)].

(** Rows are counted on as they are drawn: [globalIdx]. *)
Fixpoint counted {A} (render : bool -> A -> list view) (selected i : Z) (l : list A) : list view :=
  match l with [] => [] | x :: l => render (bool_decide (i = selected)) x ++ counted render selected (i + 1) l end.

Fixpoint sections {A} (header : string -> list view) (render : bool -> A -> list view) (selected i : Z)
    (gs : list (string * list A)) : list view :=
  match gs with
  | [] => []
  | (g, l) :: gs => header g ++ counted render selected i l ++ sections header render selected (i + Z.of_nat (length l))%Z gs
  end.

Definition SectionHeader (label : string) : view := Text label.
Definition FooterHint (keys : list string) (label : string) : list view := map Text keys ++ [Text label].

Definition palette_list (q : string) (selected : Z) (commands recents : list Cmd) (live : list LiveResult) : list view :=
  let idle := bool_decide (q = "") in
  let shown := if idle then commands else filteredCommands commands q in
  let showRecent := idle && negb (bool_decide (recents = [])) in
  let n0 := if showRecent then length recents else 0 in
  when showRecent (SectionHeader "Recently Used" :: counted (render_cmd q) selected 0 recents)
  ++ sections (fun g => when (negb showRecent || negb idle) [SectionHeader g]) (render_cmd q) selected (Z.of_nat n0)
       (grouped cmd_group shown)
  ++ when (2 <=? String.length q)
       (sections (fun g => [SectionHeader g]) (render_result q) selected (Z.of_nat (n0 + length shown)) (grouped lr_group live))
  ++ when (negb idle && bool_decide (shown = []) && bool_decide (live = []))
       [Text ("No results for “" +:+ q +:+ "”"); Text "Try a command name, page name, or tool"].

(** Rendering fails when the stored recent list is no array. *)
Definition CommandPalette (isOpen : bool) (c : NavContext) (q : string) (selected : Z) (recentIds : json)
    (servers : list ServerView) (keys : list ApiKeyView) : result string (list view) :=
  let commands := buildCommands c in
  match recentCommands q recentIds commands with
  | Err e => Err e
  | Ok recents =>
      Ok (if negb isOpen then [] else
          [Input "" q "Search commands, servers, tools, docs…" false; Text "⌘"; Text "K"]
          ++ palette_list q selected commands recents (liveResults c q servers keys)
          ++ FooterHint ["↑"; "↓"] "navigate" ++ FooterHint ["↵"] "open" ++ FooterHint ["esc"] "close" ++ [Text "Portcullis"])
  end.

(** A click on a command: the row's handler ([activate]), then the link's around
    it, which records the command again and leads to its page; the paths pushed. *)
Definition click_cmd (c : Cmd) : M (list string) :=
  p <-- activate (item_of_cmd c);
  let first := match p with Some h => [h] | None => [] end in
  match cmd_href c with
  | Some h => if bool_decide (h = "") then ret first else pushRecent (cmd_id c) ;;; ret (first ++ [h])
  | None => ret first
  end.
End PaletteView.

(** ** The bell and its panel *)
Definition type_name (t : NotifType) : string :=
  match t with
  | server_unavailable => "server_unavailable" | access_approved => "access_approved" | access_denied => "access_denied"
  | api_key_expiring => "api_key_expiring" | policy_changed => "policy_changed" | usage_threshold => "usage_threshold"
  | security_alert => "security_alert" | invitation => "invitation" | incident_resolved => "incident_resolved"
  | new_tool => "new_tool"
  end.

Module BellView.
Import Inbox.

Record panel := mkPanel { notifications : list Notification; filter_ : filter_value }.

Inductive event := Read (id : string) | ReadAll | SetFilter (f : filter_value).

Definition step (p : panel) (e : event) : panel :=
  match e with
  | Read id => mkPanel (markRead id (notifications p)) (filter_ p)
  | ReadAll => mkPanel (markAllRead (notifications p)) (filter_ p)
  | SetFilter f => mkPanel (notifications p) f
  end.

Definition run (es : list event) (p : panel) : panel := fold_left step es p.

Definition initial : panel := mkPanel DEMO_NOTIFICATIONS All.

Section view.
Context (relativeTime : string -> string).

Definition NotifItem (n : Notification) : list view :=
  [Text (n_title n); Text (relativeTime (n_timestamp n)); Text (n_body n)]
  ++ match n_href n with Some h => when (negb (bool_decide (h = ""))) [Link "Open resource" h] | None => [] end.

Definition panel_list (p : panel) : list view :=
  match filtered (filter_ p) (notifications p) with
  | [] => [Text (if bool_decide (filter_ p = Unread) then "No unread notifications" else "No notifications");
           Text "You're all caught up."]
  | l => flat_map NotifItem l
  end.

Definition NotificationPanel (isOpen : bool) (p : panel) : list view :=
  if negb isOpen then [] else
  let unread := unreadCount (notifications p) in
  [Text "Notifications"] ++ when (0 <? unread) [Badge (num unread); Button "Mark all read" false "markAllRead"]
  ++ [Link "View all" "/dashboard/notifications"; Button "" false "onClose"]
  ++ map (fun o => Button (o.2) false "setFilter") panel_FILTER_OPTIONS ++ panel_list p
  ++ [Link "Configure preferences" "/dashboard/notifications?tab=preferences";
      Text (num (length (notifications p)) +:+ " total")].

Definition NotificationBell (unread : nat) : list view :=
  Button "Notifications" false "onClick" :: match badge unread with Some b => [Badge b] | None => [] end.
End view.

(** The shell's bell counts the list the panel starts with. *)
Definition shell_bell : list view := NotificationBell (unreadCount DEMO_NOTIFICATIONS).
End BellView.

(** ** The page of notifications *)
Module InboxView.
Import Inbox Page.

Definition label (t : NotifType) : string :=
  match t with
  | server_unavailable => "Server" | access_approved => "Access" | access_denied => "Access" | api_key_expiring => "API Key"
  | policy_changed => "Policy" | usage_threshold => "Usage" | security_alert => "Security" | invitation => "Invitation"
  | incident_resolved => "Incident" | new_tool => "Tool"
  end.

(** The switch shows its position and nothing else. *)
Definition Toggle (checked : bool) (handler : string) : view := Button (if checked then "on" else "off") false handler.

Section view.
Context (relativeTime : string -> string).

Definition notif_row (n : Notification) : list view :=
  [Text (n_title n); Badge (label (n_type n)); Text (relativeTime (n_timestamp n)); Text (n_body n)]
  ++ match n_href n with Some h => when (negb (bool_decide (h = ""))) [Link "Open resource" h] | None => [] end
  ++ when (negb (n_read n)) [Button "Mark as read" false ("markRead " +:+ n_id n)]
  ++ [Button "Dismiss" false ("deleteNotif " +:+ n_id n)].

Definition inbox_tab (s : state) : list view :=
  map (fun o => Button (o.2) false "setFilter") (page_FILTER_OPTIONS (notifications s))
  ++ match filtered (filter_ s) (notifications s) with
     | [] => [Text (if bool_decide (filter_ s = Unread) then "No unread notifications" else "You're all caught up");
              Text "New notifications will appear here when something needs your attention."]
     | l => flat_map notif_row l
     end.

Definition pref_row (p : PrefRow) : list view :=
  [Text (label (p_type p)); Text (type_name (p_type p)); Toggle (p_email p) "togglePref email"; Toggle (p_slack p) "togglePref slack";
   Toggle (p_inApp p) "togglePref inApp"].

Definition preferences_tab (s : state) : list view :=
  [Text "Choose how you receive each type of notification. Changes are saved automatically.";
   Table ["Notification type"; "Email"; "Slack"; "In-app"] (map pref_row (prefs s));
   Text "Slack notifications require the Slack integration to be configured in "; Link "Integrations" "/dashboard/integrations"].

Definition NotificationsPage (s : state) : list view :=
  let unread := unreadCount (notifications s) in
  DemoBanner local_only "" "Notifications have no backend delivery yet — the inbox starts empty."
  ++ [Text "Notifications"] ++ when (0 <? unread) [Badge (num unread +:+ " unread")]
  ++ [Text "Stay on top of server health, access changes, and security events."]
  ++ when (match tab s with inbox => 0 <? unread | preferences => false end) [Button "Mark all read" false "markAllRead"]
  ++ [Button "Inbox" false "setTab"; Button "Preferences" false "setTab"]
  ++ match tab s with inbox => inbox_tab s | preferences => preferences_tab s end.
End view.
End InboxView.

(** ** Theorems: marking *)
Lemma stake_sdrop_app n s : stake n s +:+ sdrop n s = s.
Proof. revert n. induction s as [|c s IH]; intros [|n]; cbn; try done. by rewrite app_cons, IH. Qed.

Lemma sdrop_add n m s : sdrop (n + m) s = sdrop m (sdrop n s).
Proof. revert n. induction s as [|c s IH]; intros [|n]; cbn; try done; by destruct m. Qed.

Lemma stake_smap f n s : stake n (smap f s) = smap f (stake n s).
Proof. revert n. induction s as [|c s IH]; intros [|n]; cbn; try done. by rewrite IH. Qed.

Lemma sdrop_smap f n s : sdrop n (smap f s) = smap f (sdrop n s).
Proof. revert n. induction s as [|c s IH]; intros [|n]; cbn; try done. Qed.

Lemma startsWith_stake s p : startsWith s p = true -> stake (String.length p) s = p.
Proof.
  revert s. induction p as [|c p IH]; intros [|d s]; try done. unfold startsWith in *. cbn.
  destruct (ascii_dec c d) as [->|]; [|done]. intros H. by rewrite IH.
Qed.

Lemma indexOf_found s sub i : indexOf s sub = Some i -> stake (String.length sub) (sdrop i s) = sub.
Proof.
  revert i. induction s as [|c s IH]; intros i; cbn [indexOf]; (destruct (startsWith _ sub) eqn:E; [intros [= <-]; by apply startsWith_stake|]).
  - done.
  - destruct (indexOf s sub) as [j|] eqn:Ej; cbn; [|done]. intros [= <-]. by apply IH.
Qed.

Lemma indexOf_includes s sub : includes s sub = true <-> is_Some (indexOf s sub).
Proof.
  induction s as [|c s IH]; cbn [includes indexOf]; (destruct (startsWith _ sub); [split; [by eexists|done]|]); cbn [orb].
  - split; [done|by intros [? ?]].
  - rewrite IH. split; intros [x Hx].
    + exists (S x). by rewrite Hx.
    + destruct (indexOf s sub); [by eexists|done].
Qed.

Lemma smap_length f s : String.length (smap f s) = String.length s.
Proof. induction s as [|c s IH]; [done|]. cbn. by rewrite IH. Qed.

(** Marking a match changes nothing of a text: its pieces, joined, are the text;
    and what is marked is the query up to case, marked exactly where the search
    finds it. *)
Theorem highlight_exact text q :
  join "" (flat_map texts (HL text q)) = text
  /\ (q <> "" -> matchStr text q = true ->
      exists a m b, HL text q = [Text a; Badge m; Text b] /\ toLowerCase m = toLowerCase q)
  /\ (matchStr text q = false -> HL text q = [Text text]).
Proof.
  unfold HL, matchStr. split_and!.
  - case_bool_decide; [done|]. destruct (indexOf _ _) as [i|]; [|done]. cbn. rewrite !app_nil_l.
    by rewrite sdrop_add, stake_sdrop_app, stake_sdrop_app.
  - intros Hq H. rewrite bool_decide_false by done. apply indexOf_includes in H as [i E]. rewrite E. eexists _, _, _.
    split; [reflexivity|]. apply indexOf_found in E. unfold toLowerCase in *. rewrite smap_length, sdrop_smap, stake_smap in E. done.
  - intros H. case_bool_decide as Hq; [done|]. destruct (indexOf _ _) as [i|] eqn:E; [|done].
    exfalso. assert (includes (toLowerCase text) (toLowerCase q) = true) as H' by (apply indexOf_includes; by eexists). congruence.
Qed.

(** ** Theorems: the search page *)
Import GlobalSearch SearchView.

(** The debounced text is the typed one whenever no timer is set, whatever is
    typed, cleared or clicked. *)
Theorem debounce_settles flat es q :
  let u := run flat es (initial q) in waiting u = false -> debouncedQ u = query u.
Proof.
  cbn zeta. set (I := fun u => waiting u = false -> debouncedQ u = query u).
  assert (G : forall u, I u -> I (run flat es u)); [|by apply G].
  induction es as [|e es IH]; intros u H; [done|]. change (run flat (e :: es) u) with (run flat es (step (flat u) u e)). apply IH.
  unfold I in *. destruct e as [s| | | |t|t|k|i|r]; cbn; try exact H.
  - intros [Hw Hq]%orb_false_iff. apply negb_false_iff, bool_decide_eq_true in Hq as <-. by apply H.
  - destruct (waiting u) eqn:E; [done|]. rewrite E. by intros _; apply H.
  - case_bool_decide; [exact H|done].
  - destruct k; cbn; try exact H.
    + intros [Hw Hq]%orb_false_iff. apply negb_false_iff, bool_decide_eq_true in Hq as <-. by apply H.
    + by destruct (if (selectedIdx u <? 0)%Z then None else _).
Qed.

(** A reload keeps the search: the page mounted from the address it left shows
    the results of the same text. *)
Theorem address_roundtrip u : debouncedQ (initial (url_q u)) = debouncedQ u /\ url_q (initial (url_q u)) = url_q u.
Proof. unfold url_q. case_bool_decide as E; cbn; [by rewrite E|]. by rewrite bool_decide_false. Qed.

(** Enter pushes the selected result's page once, a click pushes it twice: back
    has to be pressed twice. *)
Theorem click_pushes_twice flat u i r :
  (0 <= i)%Z -> flat !! Z.to_nat i = Some r ->
  pushed (step flat (step flat u (Hover i)) (Key Palette.Enter)) = pushed u ++ [sr_href r]
  /\ pushed (step flat u (ClickRow r)) = pushed u ++ [sr_href r; sr_href r].
Proof.
  intros Hi Hr. split; [|done]. cbn. assert (i <? 0 = false)%Z as -> by lia. by rewrite Hr.
Qed.

(** Pressing the down arrow while nothing is listed loses the selection: the
    results that come then have no selected row, and Enter opens none. *)
Theorem arrow_before_results_loses_selection u flat :
  selectedIdx u = 0%Z ->
  let v := step [] u (Key Palette.ArrowDown) in selectedIdx v = (-1)%Z /\ step flat v (Key Palette.Enter) = v.
Proof. intros H. destruct u as [q d t i w p]. cbn in H. subst. done. Qed.

Lemma no_link_in_HL t q l h : Link l h ∈ HL t q -> False.
Proof. unfold HL. repeat case_match; intros Hl; rewrite ?elem_of_cons, elem_of_nil in Hl; naive_solver. Qed.

Lemma row_marked q b r h : Link "↵" h ∈ ResultRow q b r <-> b = true /\ h = sr_href r.
Proof.
  unfold ResultRow. split.
  - rewrite !elem_of_app. intros [H|[H|[H|[H|H]]]].
    + by apply no_link_in_HL in H.
    + destruct (sr_badge r); [apply list_elem_of_singleton in H|apply elem_of_nil in H]; done.
    + destruct (sr_subtitle r); [|by apply elem_of_nil in H]. case_match; [by apply elem_of_nil in H|by apply no_link_in_HL in H].
    + destruct (sr_meta r); [apply list_elem_of_singleton in H|apply elem_of_nil in H]; done.
    + apply list_elem_of_singleton in H. destruct b; by simplify_eq.
  - intros [-> ->]. do 3 (apply elem_of_app; right). apply elem_of_app. right. find_elem.
Qed.

Lemma rows_marked q sel i l h :
  Link "↵" h ∈ result_rows q sel i l <-> exists k r, l !! k = Some r /\ sel = (i + Z.of_nat k)%Z /\ h = sr_href r.
Proof.
  revert i. induction l as [|r l IH]; intros i; cbn [result_rows].
  - rewrite elem_of_nil. split; [done|by intros (? & ? & ? & _)].
  - rewrite elem_of_app, row_marked, bool_decide_eq_true, IH. split.
    + intros [[<- ->]|(k & x & H1 & H2 & H3)]; [exists 0, r; split_and!; [done|lia|done]|].
      exists (S k), x. split_and!; [done|lia|done].
    + intros ([|k] & x & H1 & H2 & H3); cbn in H1; [left; simplify_eq; split; [lia|done]|]. right. exists k, x. split_and!; [done|lia|done].
Qed.

Lemma groups_marked all q sel i gs h :
  Link "↵" h ∈ groups_view all q sel i gs <->
  exists k r, flatResults gs !! k = Some r /\ sel = (i + Z.of_nat k)%Z /\ h = sr_href r.
Proof.
  revert i. induction gs as [|[t l] gs IH]; intros i; cbn [groups_view].
  - rewrite elem_of_nil. split; [done|by intros (? & ? & ? & _)].
  - unfold flatResults in *. cbn [fmap list_fmap snd concat]. rewrite !elem_of_app, rows_marked, IH.
    assert (Hb : Link "↵" h ∈ when (length l <? length (all t)) [Button ("View all " +:+ num (length (all t)) +:+ " →") false "setType"] <-> False).
    { destruct (_ <? _); cbn [when]; [rewrite list_elem_of_singleton|rewrite elem_of_nil]; done. }
    rewrite Hb, !elem_of_cons, elem_of_nil. split.
    + intros [[?|[?|?]]|[?|[(k & r & H1 & H2 & H3)|(k & r & H1 & H2 & H3)]]]; try done.
      * exists k, r. split_and!; [by apply lookup_app_l_Some|lia|done].
      * exists (length l + k), r. split_and!; [|lia|done]. rewrite lookup_app_r by lia. by replace (length l + k - length l) with k by lia.
    + intros (k & r & H1 & H2 & H3). right. right. apply lookup_app_Some in H1 as [H1|[H0 H1]]; [left; by exists k, r|].
      right. exists (k - length l), r. split_and!; [done|lia|done].
Qed.

(** Membership in a concatenation, piece by piece; the pieces but the last are to be refuted. *)
Ltac peel n H := match n with O => idtac | S ?m => apply elem_of_app in H as [H|H]; [exfalso|peel m H] end.

(** The row that is marked is the one Enter opens: across all groups, in the
    order they are drawn. *)
Theorem marked_row_is_opened c loading all u h :
  debouncedQ u <> "" -> (0 <= selectedIdx u)%Z ->
  let flat := flatResults (visibleGroups (activeType u) all) in
  Link "↵" h ∈ SearchView.GlobalSearch c loading all u <->
  exists r, flat !! Z.to_nat (selectedIdx u) = Some r /\ h = sr_href r /\ pushed (step flat u (Key Palette.Enter)) = pushed u ++ [h].
Proof.
  intros Hq Hi flat. assert (E : Link "↵" h ∈ SearchView.GlobalSearch c loading all u <->
    Link "↵" h ∈ groups_view all (debouncedQ u) (selectedIdx u) 0 (visibleGroups (activeType u) all)).
  { unfold SearchView.GlobalSearch. rewrite (bool_decide_false (debouncedQ u = "")) by done. cbn [negb andb].
    split; [|intros H; by do 5 (apply elem_of_app; right)].
    intros H. peel 5 H; [..|exact H]; revert H; unfold search_bar, HintItem.
    - destruct (loading && _), (bool_decide _); cbn; rewrite !elem_of_cons, elem_of_nil; naive_solver.
    - cbn [when]. rewrite elem_of_cons. intros [H|H]; [done|]. apply list_elem_of_fmap in H as (? & ? & _). done.
    - destruct (_ <? _); cbn; rewrite ?elem_of_cons, elem_of_nil; naive_solver.
    - cbn. by rewrite elem_of_nil.
    - destruct (showNoResults _ _ _); cbn; rewrite ?elem_of_cons, elem_of_nil; naive_solver. }
  rewrite E, groups_marked. fold flat. split.
  - intros (k & r & H1 & H2 & H3). exists r. assert (Z.to_nat (selectedIdx u) = k) as Hk by lia. rewrite Hk. split_and!; [done|done|].
    cbn. assert (selectedIdx u <? 0 = false)%Z as -> by lia. rewrite Hk, H1. by rewrite H3.
  - intros (r & H1 & H2 & _). exists (Z.to_nat (selectedIdx u)), r. split_and!; [done|lia|done].
Qed.

(** ** Theorems: the palette *)
Import Palette PaletteView RecentFacts.

(** A click on a page's command records it once, however it is counted, and
    pushes its page twice; a command that only acts pushes its path once. *)
Theorem command_click c w used :
  stored w (take 6 (last_distinct used)) -> cmd_id c <> "" ->
  exists ps w', click_cmd c w = (Ok ps, w') /\ stored w' (take 6 (last_distinct (cmd_id c :: used))) /\
    (forall h, cmd_href c = Some h -> cmd_action c = None -> h <> "" -> ps = [h; h]) /\
    (forall p, cmd_href c = None -> cmd_action c = Some p -> ps = [p]).
Proof.
  intros Hs Hid. destruct (push_all_stored [cmd_id c] w used Hs) as (w1 & Hp & Hs1).
  destruct (push_all_stored [cmd_id c] w1 (cmd_id c :: used)) as (w2 & Hp2 & Hs2); [exact Hs1|].
  cbn [push_all] in Hp, Hp2. change (reverse [cmd_id c] ++ ?l) with (cmd_id c :: l) in Hs1, Hs2.
  assert (Ht : take 6 (last_distinct (cmd_id c :: cmd_id c :: used)) = take 6 (last_distinct (cmd_id c :: used))).
  { cbn [last_distinct]. fold (drop_id (cmd_id c)). do 2 f_equal. unfold drop_id at 1. cbn [List.filter].
    rewrite bool_decide_true by done. cbn [negb]. fold (drop_id (cmd_id c)). apply drop_id_absent. by intros [_ ?]%elem_of_drop_id. }
  rewrite Ht in Hs2. unfold click_cmd, activate, item_of_cmd. cbn [it_id it_action it_href].
  rewrite (bool_decide_false (cmd_id c = "")) by done.
  assert (P1 : pushRecent (cmd_id c) w = (Ok (), w1)).
  { revert Hp. unfold bind. destruct (pushRecent (cmd_id c) w) as [[[]|e] w']; unfold ret; [congruence|done]. }
  assert (P2 : pushRecent (cmd_id c) w1 = (Ok (), w2)).
  { revert Hp2. unfold bind. destruct (pushRecent (cmd_id c) w1) as [[[]|e] w']; unfold ret; [congruence|done]. }
  unfold bind. rewrite P1. unfold ret. destruct (cmd_href c) as [h|] eqn:Eh.
  - case_bool_decide as E.
    + eexists _, w1. split_and!; [reflexivity|exact Hs1| |done]. intros h' [= <-] _ Hne. done.
    + rewrite P2. eexists _, w2. split_and!; [reflexivity|exact Hs2| |done].
      intros h' [= <-] -> Hne. cbn. unfold or_none. by rewrite bool_decide_false.
  - eexists _, w1. split_and!; [reflexivity|exact Hs1|done|]. by intros p _ ->.
Qed.

(** While recent commands are listed, the groups below them have no headings. *)
Theorem recents_hide_headings sel commands recents live :
  recents <> [] ->
  palette_list "" sel commands recents live =
    Text "Recently Used" :: counted (render_cmd "") sel 0 recents
      ++ sections (fun _ => []) (render_cmd "") sel (Z.of_nat (length recents)) (grouped cmd_group commands).
Proof.
  intros H. unfold palette_list. rewrite (bool_decide_true ("" = "")), (bool_decide_false (recents = [])) by done. cbn -[counted sections grouped].
  by rewrite !app_nil_r.
Qed.

(** ** Theorems: notifications *)
Import Inbox BellView.

(** The panel never shows a notification, whatever is pressed, and the bell has
    no badge: both lists start empty and nothing adds to them. *)
Theorem panel_always_empty relativeTime es :
  let p := BellView.run es BellView.initial in
  panel_list relativeTime p =
    [Text (if bool_decide (BellView.filter_ p = Unread) then "No unread notifications" else "No notifications"); Text "You're all caught up."]
  /\ shell_bell = [Button "Notifications" false "onClick"].
Proof.
  cbn zeta. split; [|done]. assert (G : forall p, BellView.notifications p = [] -> BellView.notifications (BellView.run es p) = []).
  { induction es as [|e es IH]; intros p H; [done|]. change (BellView.run (e :: es) p) with (BellView.run es (BellView.step p e)).
    apply IH. destruct e; cbn; by rewrite ?H. }
  unfold panel_list. by rewrite G.
Qed.

(** The panel's link to the preferences opens the inbox: the page does not look
    at the address. *)
Theorem preferences_link_opens_inbox relativeTime p :
  Link "Configure preferences" "/dashboard/notifications?tab=preferences" ∈ NotificationPanel relativeTime true p
  /\ InboxView.NotificationsPage relativeTime Page.initial =
     DemoBanner local_only "" "Notifications have no backend delivery yet — the inbox starts empty."
     ++ [Text "Notifications"; Text "Stay on top of server health, access changes, and security events.";
         Button "Inbox" false "setTab"; Button "Preferences" false "setTab"] ++ InboxView.inbox_tab relativeTime Page.initial.
Proof.
  split; [|done]. unfold NotificationPanel. cbn [negb]. do 5 (apply elem_of_app; right). find_elem.
Qed.

(** "Changes are saved automatically" stands over switches that the next visit
    finds at their defaults. *)
Theorem preferences_lost_on_leaving es s :
  Text "Choose how you receive each type of notification. Changes are saved automatically." ∈ InboxView.preferences_tab s
  /\ InboxView.preferences_tab (Page.run (es ++ [Page.Remount]) s) = InboxView.preferences_tab Page.initial.
Proof. split; [unfold InboxView.preferences_tab; find_elem|]. unfold Page.run. by rewrite fold_left_app. Qed.

(** The page's pill "Access" keeps approvals only, while refusals carry the same
    label. *)
Theorem access_pill_misses_refusals n l :
  n ∈ l -> n_type n = access_denied ->
  (OfType access_approved, "Access") ∈ page_FILTER_OPTIONS l /\ InboxView.label (n_type n) = "Access" /\
  n ∉ filtered (OfType access_approved) l.
Proof.
  intros Hn Ht. split_and!.
  - unfold page_FILTER_OPTIONS. find_elem.
  - by rewrite Ht.
  - unfold filtered. intros [_ H]%list_elem_of_In%filter_In. cbn in H. apply bool_decide_eq_true in H. congruence.
Qed.

(** ** Witnesses *)
Definition found : SearchResult := mkResult "doc-a" documentation "Quick Start Guide" None None None "/developer/docs#quickstart".

Definition searching (i : Z) : SearchView.ui := SearchView.mkUi "quick" "quick" None i false [].

Lemma click_pushes_twice_witness :
  pushed (SearchView.step [found] (searching 0) (ClickRow found)) = ["/developer/docs#quickstart"; "/developer/docs#quickstart"].
Proof. apply (click_pushes_twice [found] (searching 0) 0 found); [lia|reflexivity]. Defined.

Lemma arrow_before_results_loses_selection_witness : selectedIdx (SearchView.step [] (searching 0) (Key ArrowDown)) = (-1)%Z.
Proof. apply (arrow_before_results_loses_selection (searching 0) [found]). reflexivity. Defined.

Lemma marked_row_is_opened_witness :
  Link "↵" "/developer/docs#quickstart" ∈ SearchView.GlobalSearch OrgAdmin false
    (fun t => match t with documentation => [found] | _ => [] end) (searching 0).
Proof.
  apply (marked_row_is_opened OrgAdmin false (fun t => match t with documentation => [found] | _ => [] end) (searching 0)); [done|done|].
  exists found. by split_and!.
Defined.

Definition overview : Cmd := mkCmd "nav-overview" "Overview" "" "Navigation" (Some "/dashboard") None [] None.

Lemma command_click_witness :
  exists w', click_cmd overview (demo_world ∅ []) = (Ok ["/dashboard"; "/dashboard"], w').
Proof.
  destruct (command_click overview (demo_world ∅ []) []) as (ps & w' & E & _ & H & _).
  - split_and!; try done. right. by split.
  - done.
  - exists w'. rewrite E. by rewrite (H "/dashboard").
Defined.

Lemma recents_hide_headings_witness :
  palette_list "" 0 [overview] [overview] [] =
  Text "Recently Used" :: counted (render_cmd "") 0 0 [overview]
    ++ sections (fun _ => []) (render_cmd "") 0 1 (grouped cmd_group [overview]).
Proof. apply (recents_hide_headings 0 [overview] [overview] []). done. Defined.

Definition refusal : Notification := mkNotification "n" access_denied "Refused" "" "2025-01-01T00:00:00Z" false None.

Lemma access_pill_misses_refusals_witness : refusal ∉ filtered (OfType access_approved) [refusal].
Proof. apply (access_pill_misses_refusals refusal [refusal]); [apply list_elem_of_here|reflexivity]. Defined.
