(* ===== verification/ListViews.v ===== *)
(** * What four of the dashboard's lists show

    - [ServerListView]: web/src/app/dashboard/servers/page.tsx
    - [PolicyListView]: web/src/app/dashboard/policies/page.tsx
    - [RateLimitsView]: web/src/app/dashboard/rate-limits/page.tsx
    - [RequestLogsView]: web/src/app/dashboard/logs/page.tsx

    Their filters and requests are [ServerPages], [PolicyPages] and [LogsPage]. *)

From S2P Require Import Prelude JsString Json JsonParse ApiTypes RelTime Tools ServerPages PolicyPages LogsPage Feedback View.

#[local] Open Scope nat_scope.

#[local] Notation num n := (pretty (Z.of_nat n)).

(** An empty state with the actions of its entry, or with a first action of the page's own. *)
Definition empty_list (k : empty_key) (own : option string) : list view :=
  let e := EMPTY_STATES k in
  let link o second := match o with Some (l, h) => [mkAction l (Some h) second] | None => [] end in
  EmptyState (es_title e) (es_description e) (es_features e)
    (match own with Some l => [mkAction l None false] | None => link (es_primaryAction e) false end
     ++ link (es_docsAction e) true).

(** ** Servers *)
Module ServerListView.
Import ServerList.

Inductive view_mode := table | card.

Record ui := mkUi { mode : view_mode; fs : filters }.

Inductive event := SetView (m : view_mode) | Search (s : string) | PickStatus (s : string) | PickTransport (s : string) | ClearAll.

Definition step (u : ui) (e : event) : ui :=
  let '(mkUi m (mkFilters q st tr)) := u in
  match e with
  | SetView m' => mkUi m' (fs u)
  | Search s => mkUi m (mkFilters s st tr)
  | PickStatus s => mkUi m (mkFilters q s tr)
  | PickTransport s => mkUi m (mkFilters q st s)
  | ClearAll => mkUi m cleared
  end.

Definition initial : ui := mkUi table cleared.

Section view.
Context (tz now : Z).

Definition StatusPill (s : ServerStatus) : view := Badge (ServerStatus_value s).
Definition HealthDot (failures : Z) : view := Text (HealthDot_title failures).
Definition detail_href (s : ServerView) : string := "/dashboard/servers/" +:+ ServerView_slug s.
Definition last_check (s : ServerView) : string := servers_relativeTime tz now (ServerView_last_health_check_at s).

Definition ServerCard (s : ServerView) : view :=
  Card (ServerView_slug s) (ServerView_upstream_url s)
    [StatusPill (ServerView_status s); Link (ServerView_slug s) (detail_href s); Badge (ServerTransport_value (ServerView_transport s));
     Text ("Last check: " +:+ last_check s); Link "View" (detail_href s); Button "Check" false ("onHealthCheck " +:+ ServerView_slug s);
     Button "Delete server" false ("onDelete " +:+ ServerView_slug s)].

Definition server_row (s : ServerView) : list view :=
  [Link (ServerView_slug s) (detail_href s); Text (ServerView_upstream_url s); Badge (ServerTransport_value (ServerView_transport s));
   StatusPill (ServerView_status s); HealthDot (ServerView_consecutive_health_failures s); Text (last_check s);
   Button "Check" false ("handleHealthCheck " +:+ ServerView_slug s); Button "Delete" false ("handleDelete " +:+ ServerView_slug s)].

Definition filter_bar (u : ui) : list view :=
  [Input "" (search (fs u)) "Search by slug or URL..." false;
   Select "" (statusFilter (fs u)) ["All statuses"; "Active"; "Disabled"; "Unhealthy"];
   Select "" (transportFilter (fs u)) ["All transports"; "streamable_http"; "sse"; "stdio"];
   Button "Table view" false "setView"; Button "Card view" false "setView"].

Definition content (u : ui) (q : answer (list ServerView)) : list view :=
  if is_pending q then [Skeletons 3] else
  match rows q, filtered (fs u) (rows q), mode u with
  | [], _, _ => empty_list servers None
  | _, [], _ => FilterEmpty "servers" true
  | _, l, card => map ServerCard l
  | _, l, table => [Table ["Slug"; "Upstream URL"; "Transport"; "Status"; "Health"; "Last Check"; ""] (map server_row l)]
  end.

Definition ServersPage (u : ui) (q : answer (list ServerView)) : list view :=
  [Text "Servers"; Text "Upstream MCP servers routed through the gateway"; Button "Export" false "handleExport";
   Link "Add Server" "/dashboard/servers/new"] ++ filter_bar u ++ content u q.
End view.

(** The exported file: its name and text; [wire] is a server as it was received. *)
Definition handleExport (wire : ServerView -> json) (servers : list ServerView) : string * string :=
  ("portcullis-servers.json", JSON_stringify_indent 2 (JArr (map wire servers))).
End ServerListView.

(** ** Policies *)
Module PolicyListView.
Import PolicyList.

Record ui := mkUi { search : string; filterEffect : option effect; filterType : option kind }.

(** The page passes an empty function to the button that clears. *)
Inductive event := Search (s : string) | PickEffect (e : option effect) | PickType (k : option kind) | ClearAll.

Definition step (u : ui) (e : event) : ui :=
  let '(mkUi q ef k) := u in
  match e with
  | Search s => mkUi s ef k
  | PickEffect x => mkUi q x k
  | PickType x => mkUi q ef x
  | ClearAll => u
  end.

Definition initial : ui := mkUi "" None None.

Definition EffectPill (e : effect) : view :=
  Badge (match e with eff_rate_limit => "Rate Limit" | eff_allow => "Allow" | eff_deny => "Deny" end).

Definition StatusPill (s : status) : view := Badge (match s with active => "active" | disabled => "disabled" end).

Definition HealthCard (label : string) (value : nat) (sub : option string) : view :=
  Card label (default "" sub) [Text (num value)].

Definition health_cards (limits : list RateLimitPolicyView) (roles : list RoleView) : list view :=
  let l := unified limits roles in
  [HealthCard "Active Policies" (activePolicies l) (Some (num (length l) +:+ " total"));
   HealthCard "Rate Limit Rules" (length limits) None; HealthCard "RBAC Roles" (length roles) (Some "with tool permissions");
   HealthCard "Overly Broad" (broadPolicies l) (Some "wildcard patterns");
   HealthCard "Disabled" 0 (Some "no disabled policies")].

Section view.
Context (tz now : Z).

Definition policy_row (p : UnifiedPolicy) : list view :=
  [Text (up_name p); Text (humanExplain p)] ++ when (isBroad p) [Badge "Broad pattern"]
  ++ [EffectPill (up_effect p); Text (up_subjects p); Code (up_tools p); Code (up_server p); Text (pretty (up_priority p));
      StatusPill (up_status p); Text (policies_relativeTime tz now (up_updatedAt p))]
  ++ match up_type p with
     | rate_limit => [Link "View" ("/dashboard/policies/" +:+ up_id p); Button "Delete" false ("handleDeleteRL " +:+ up_id p)]
     | rbac => [Link "Manage in Roles" "/dashboard/roles"]
     end.

Definition content (u : ui) (loading : bool) (l : list UnifiedPolicy) : list view :=
  if loading then [Skeletons 4] else
  match filtered (search u) (filterEffect u) (filterType u) l, l with
  | [], [] => empty_list policies None
  | [], _ => FilterEmpty "policies" true
  | f, _ => [Table ["Policy"; "Effect"; "Subjects"; "Tools"; "Server"; "Priority"; "Status"; "Updated"; ""] (map policy_row f)]
  end.

Definition filter_bar (u : ui) (l : list UnifiedPolicy) : list view :=
  let n := length (filtered (search u) (filterEffect u) (filterType u) l) in
  [Input "" (search u) "Search policies…" false; Select "" "" ["All Effects"; "Rate Limit"; "Allow"; "Deny"];
   Select "" "" ["All Types"; "Rate Limit"; "RBAC"]; Text (num n +:+ (if n =? 1 then " policy" else " policies"))].

Definition PoliciesPage (u : ui) (limits : answer (list RateLimitPolicyView)) (roles : answer (list RoleView)) : list view :=
  let l := unified (rows limits) (rows roles) in
  [Text "Policy Management"; Text "Rate limit policies, RBAC rules, and access controls for your gateway";
   Link "New Policy" "/dashboard/policies/new"]
  ++ health_cards (rows limits) (rows roles) ++ filter_bar u l ++ content u (is_pending limits || is_pending roles) l
  ++ [Text "Policy evaluation order: Rate limit policies are checked first (by priority). RBAC tool permissions are evaluated per role binding. Deny rules take precedence over allow rules within the same priority tier.";
      Link "Create a policy →" "/dashboard/policies/new"].
End view.
End PolicyListView.

(** ** Rate limits *)
Module RateLimitsView.
Import RateLimits.

Record ui := mkUi { open : bool; fm : form; creating : bool }.

Inductive event := SetOpen (b : bool) | Edit (f : form) | Submit | Created | Refused.

(** [handleCreate] cut at its await; the dialog can be closed meanwhile. *)
Definition step (u : ui) (e : event) : ui :=
  match e with
  | SetOpen b => mkUi b (fm u) (creating u)
  | Edit f => mkUi (open u) f (creating u)
  | Submit => if creating u || negb (open u) then u else mkUi (open u) (fm u) true
  | Created => if creating u then mkUi false initial false else u
  | Refused => mkUi (open u) (fm u) false
  end.

Definition run (es : list event) (u : ui) : ui := fold_left step es u.

Definition policy_row (p : RateLimitPolicyView) : list view :=
  [Text (pretty (RateLimitPolicyView_request_limit p)); Text "req"; Text (pretty (RateLimitPolicyView_window_seconds p) +:+ "s");
   Badge (RateLimitAlgorithm_value (RateLimitPolicyView_algorithm p)); Text (default "*" (RateLimitPolicyView_server_pattern p));
   Text (default "*" (RateLimitPolicyView_tool_pattern p)); Text (pretty (RateLimitPolicyView_priority p));
   Button "Delete" false ("handleDelete " +:+ RateLimitPolicyView_id p)].

Definition policy_dialog (u : ui) : list view :=
  let f := fm u in
  when (open u)
    [Text "Add Rate Limit Policy"; Input "Request Limit" (pretty (fm_request_limit f)) "" false;
     Input "Window (seconds)" (pretty (fm_window_seconds f)) "" false;
     Select "Algorithm" (RateLimitAlgorithm_value (fm_algorithm f)) ["Sliding Window"; "Token Bucket"];
     Text "optional · supports * wildcard"; Input "Server Pattern" (fm_server_pattern f) "github-* or leave blank for all" false;
     Text "optional"; Input "Tool Pattern" (fm_tool_pattern f) "create_* or leave blank for all" false;
     Input "Priority" (pretty (fm_priority f)) "" false; Text "Higher priority wins when multiple policies match.";
     Button "Cancel" false "setOpen"; Button (if creating u then "Creating…" else "Create Policy") (creating u) "handleCreate"].

Definition RateLimitsPage (u : ui) (q : answer (list RateLimitPolicyView)) : list view :=
  [Text "Rate Limits"; Text "Control request throughput per subject, server, and tool"; Button "Add Policy" false "setOpen"]
  ++ (if is_pending q then [Skeletons 3] else
      match rows q with
      | [] => empty_list rateLimits (Some "Add Rate Limit Policy")
      | l => [Table ["Limit"; "Window"; "Algorithm"; "Server"; "Tool"; "Priority"; ""] (map policy_row l)]
      end)
  ++ policy_dialog u.
End RateLimitsView.

(** ** Request logs *)
Module RequestLogsView.
Import RequestLogs.

Definition StatusBadge (outcome : string) : view := Badge outcome.

Definition EventBadge (t : AuditEventType) : view :=
  Badge (match t with
         | AuditEventType_tool_call => "Tool Call" | AuditEventType_rbac_deny => "RBAC Deny"
         | AuditEventType_auth_failure => "Auth Fail" | _ => AuditEventType_value t
         end).

(** *** The drawer *)
Definition TimelineStep (s : Drawer.step) : list view :=
  Text (Drawer.label s) :: match Catalogue.nonempty (Drawer.detail s) with Some d => [Text d] | None => [] end.

Definition MetaTable (l : list Drawer.row) : list view :=
  flat_map (fun r => [Text (Drawer.rlabel r); Text (Drawer.rvalue r)]
                     ++ when (Drawer.copyable r && negb (bool_decide (Drawer.rvalue r = "—")))
                          [Button "" false ("copy " +:+ Drawer.rlabel r)]) l.

(** A template's [null] is the word. *)
Definition named (o : option string) : string := dquote +:+ default "null" o +:+ dquote.

Definition policy_text (l : AuditLogView) : string :=
  if Drawer.tool_call l
  then "Tool " +:+ named (AuditLogView_tool_name l) +:+ " on " +:+ named (AuditLogView_server_slug l) +:+ " was allowed by role policy."
  else if Drawer.denied l
  then "No role permission grants this subject access to " +:+ named (AuditLogView_tool_name l) +:+ " on "
       +:+ named (AuditLogView_server_slug l) +:+ "."
  else "Request was rejected before policy evaluation.".

Definition error_block (l : AuditLogView) : list view :=
  if Drawer.auth_failed l
  then [Text "Authentication Error";
        Text "The provided API key was not recognized or has been revoked. Verify the Authorization header."]
  else [Text "Authorization Error";
        Text ("The authenticated subject does not have permission to call " +:+ named (AuditLogView_tool_name l) +:+ " on "
              +:+ named (AuditLogView_server_slug l) +:+ ". Assign the appropriate role.")].

Definition related_text (l : AuditLogView) : string :=
  match Catalogue.nonempty (AuditLogView_subject_id l) with
  | Some s => "Events from subject " +:+ stake 12 s +:+ "… are shown in the Request Logs table with identity filter."
  | None => "No subject ID available for correlation."
  end.

(** What a section holds, by its id. *)
Definition section_body (time : string) (l : AuditLogView) (id : string) : string * list view :=
  if bool_decide (id = "trace") then ("Trace Timeline", flat_map TimelineStep (Drawer.traceSteps time l))
  else if bool_decide (id = "meta") then ("Request Metadata", MetaTable (Drawer.metaRows time l))
  else if bool_decide (id = "auth") then
    ("Authentication", MetaTable (Drawer.authRows l)
       ++ when (Drawer.auth_failed l) [Text "Authentication failed. The API key may be invalid, revoked, or expired."])
  else if bool_decide (id = "policy") then
    ("Policy Evaluation", [Text (Drawer.policy_headline l); Text (policy_text l)] ++ MetaTable (Drawer.policyRows l))
  else if bool_decide (id = "upstream") then
    ("Upstream Request", match Drawer.upstreamRows l with
                         | Some rs => MetaTable rs
                         | None => [Text "Request was denied before reaching the upstream MCP server."]
                         end)
  else if bool_decide (id = "response") then
    ("Upstream Response",
     if Drawer.tool_call l
     then MetaTable [Drawer.mkRow "Status" (AuditLogView_outcome l) false; Drawer.mkRow "Duration" "— (not captured)" false]
          ++ [Text "Response payload is not stored for privacy. Add observability middleware to capture upstream responses."]
     else [Text "No upstream response — request did not reach the server."])
  else if bool_decide (id = "payload") then
    ("Redacted Payload", [Code (JSON_stringify_indent 2 (Drawer.payload l));
                          Text "Argument values are redacted. Enable payload logging in server settings to capture inputs."])
  else if bool_decide (id = "detail") then ("Extra Detail", MetaTable (Drawer.detailRows l))
  else if bool_decide (id = "retry") then ("Retry Attempts", [Text "Retry tracking is not yet captured. 0 retries recorded."])
  else if bool_decide (id = "errors") then ("Error Details", error_block l)
  else ("Related Audit Events", [Text (related_text l)]).

Definition Section (time : string) (l : AuditLogView) (expanded : option string) (id : string) : view :=
  Card (section_body time l id).1 "" (when (bool_decide (expanded = Some id)) (section_body time l id).2).

Section view.
Context (tz now : Z) (fmtTimestamp : string -> string).

(** The rows are built before anything is shown: an unreadable date throws. *)
Definition DetailDrawer (expanded : option string) (l : AuditLogView) : result string (list view) :=
  match Drawer.iso tz l with
  | Err e => Err e
  | Ok time =>
      Ok ([Text "Request Detail"; EventBadge (AuditLogView_event_type l); StatusBadge (AuditLogView_outcome l);
           Button "" false "onClose"; Stat "Time" (logs_relativeTime tz now (AuditLogView_created_at l)); Stat "Duration" "—";
           Stat "Region" "—"]
          ++ map (Section time l expanded) (Drawer.sections l))
  end.

(** *** The page *)
Definition cut (n : nat) (none : string) (o : option string) : string :=
  match Catalogue.nonempty o with Some s => stake n s +:+ "…" | None => none end.

Definition log_row (l : AuditLogView) : list view :=
  [Text (fmtTimestamp (AuditLogView_created_at l)); Text (logs_relativeTime tz now (AuditLogView_created_at l));
   Code (cut 12 "—" (AuditLogView_request_id l)); Code (cut 10 "anon" (AuditLogView_subject_id l));
   Code (default (default "—" (AuditLogView_rpc_method l)) (AuditLogView_tool_name l));
   Code (default "—" (AuditLogView_server_slug l)); StatusBadge (AuditLogView_outcome l);
   EventBadge (AuditLogView_event_type l); Text "—"; Text "—"].

Definition filter_bar (f : Filters) (servers : list ServerView) : list view :=
  [Input "" (search f) "Search by ID, subject, tool, server…" false;
   Select "" (eventType f) ["All Events"; "Tool Call"; "RBAC Deny"; "Auth Failure"];
   Select "" (serverSlug f) ("All Servers" :: map ServerView_name servers);
   Select "" (outcome f) ["All Outcomes"; "allowed"; "denied"; "success"; "rate_limited"];
   Select "" (timeRange f) ["All time"; "Last 1h"; "Last 6h"; "Last 24h"]]
  ++ when (hasFilters f) [Button "Clear" false "setFilters"].

Definition log_table (p : page) (loading : bool) : list view :=
  if loading then [Skeletons 8] else
  match render_body (pageNo p) (RequestLogs.rows tz p) with
  | NoMatch => [Text "No logs match the current filters."]
  | LogsPage.RequestLogs.Table l =>
      [View.Table ["Timestamp"; "Request ID"; "Identity"; "Tool"; "Server"; "Status"; "Policy Result"; "Duration"; "Region"]
         (map log_row l)]
  end.

Definition pager (p : page) : list view :=
  let l := RequestLogs.rows tz p in
  let total := totalPages l in
  when (pager_shown l)
    ([Text ("Page " +:+ num (S (pageNo p)) +:+ " of " +:+ num total +:+ " · " +:+ num (length l) +:+ " results");
      Button "← Prev" (pageNo p =? 0) "prev"]
     ++ map (fun n => Button (num (S n)) false "setPage") (page_buttons (pageNo p) total)
     ++ [Button "Next →" (total - 1 <=? pageNo p) "next"]).

Definition RequestLogsPage (p : page) (loading : bool) (servers : list ServerView) (expanded : option string) : result string (list view) :=
  let body :=
    [Text "Request Logs";
     Text (num (length (RequestLogs.rows tz p)) +:+ " of " +:+ num (length (allLogs p)) +:+ " events"
           +:+ (if hasFilters (filters p) then " (filtered)" else ""));
     Button "Refresh" false "refetch"]
    ++ filter_bar (filters p) servers ++ log_table p loading ++ pager p in
  match selectedLog p with
  | None => Ok body
  | Some l => match DetailDrawer expanded l with Ok d => Ok (body ++ d) | Err e => Err e end
  end.
End view.
End RequestLogsView.

(** ** Theorems: servers *)
Import ServerList ServerListView.

Lemma row_links tz now s h : h ∈ flat_map links (server_row tz now s) <-> h = detail_href s.
Proof. cbn. rewrite list_elem_of_singleton. done. Qed.

Lemma card_links tz now s h : h ∈ links (ServerCard tz now s) <-> h = detail_href s.
Proof. cbn. rewrite !elem_of_cons, elem_of_nil. naive_solver. Qed.

(** Both views lead to the same pages, those of the servers the filters keep:
    changing the view changes no server's presence. *)
Theorem both_views_lead_to_filtered tz now u q h :
  is_pending q = false -> View.rows q <> [] ->
  h ∈ flat_map links (content tz now u q) <-> exists s, s ∈ filtered (fs u) (View.rows q) /\ h = detail_href s.
Proof.
  intros Hp Hr. unfold content. rewrite Hp. destruct (View.rows q) as [|s0 r0] eqn:E; [done|].
  destruct (filtered (fs u) (s0 :: r0)) as [|x l] eqn:F.
  - cbn. rewrite elem_of_nil. split; [done|]. by intros (s & Hs%elem_of_nil & _).
  - destruct (mode u).
    + cbn [flat_map links]. rewrite app_nil_r, elem_flat_map. setoid_rewrite list_elem_of_fmap. split.
      * intros (row & (s & -> & Hs) & Hh). apply row_links in Hh. eauto.
      * intros (s & Hs & ->). exists (server_row tz now s). split; [eauto|by apply row_links].
    + rewrite elem_flat_map. setoid_rewrite list_elem_of_fmap. split.
      * intros (c & (s & -> & Hs) & Hh). apply card_links in Hh. eauto.
      * intros (s & Hs & ->). exists (ServerCard tz now s). split; [eauto|by apply card_links].
Qed.

(** The export reads back as every server, the hidden ones too. *)
Theorem server_export_reads_back wire servers :
  JSON_parse (handleExport wire servers).2 = Some (JArr (map wire servers)).
Proof. cbn [handleExport snd]. apply parse_of_reads, indented_reads; [apply ws_spaces|done]. Qed.

(** ** Theorems: policies *)
Import PolicyList PolicyListView.

(** The button that offers to clear the filters does nothing. *)
Theorem clear_button_is_dead tz now u l :
  l <> [] -> PolicyList.filtered (PolicyListView.search u) (filterEffect u) (filterType u) l = [] ->
  Button "Clear all filters" false "onClear" ∈ PolicyListView.content tz now u false l
  /\ PolicyListView.content tz now (PolicyListView.step u PolicyListView.ClearAll) false l = PolicyListView.content tz now u false l.
Proof.
  intros Hl Hf. split; [|by destruct u]. unfold PolicyListView.content. rewrite Hf. destruct l; [done|]. cbn. find_elem.
Qed.

(** The badge of a row says what the card counts: a rate limit without a server
    or without a tool pattern, or with a bare star; roles never. *)
Theorem broad_badge_exact tz now p :
  Badge "Broad pattern" ∈ PolicyListView.policy_row tz now p <->
  exists rl, up_raw p = RawLimit rl /\ (broad (RateLimitPolicyView_tool_pattern rl) || broad (RateLimitPolicyView_server_pattern rl)) = true.
Proof.
  assert (E : isBroad p = true <-> exists rl, up_raw p = RawLimit rl /\
            (broad (RateLimitPolicyView_tool_pattern rl) || broad (RateLimitPolicyView_server_pattern rl)) = true).
  { unfold isBroad. destruct (up_raw p); naive_solver. }
  rewrite <-E. unfold PolicyListView.policy_row. destruct (isBroad p); cbn [when]; split; [done| | |done].
  - intros _. apply elem_of_app. right. find_elem.
  - destruct (up_effect p), (up_status p), (up_type p); cbn [app EffectPill PolicyListView.StatusPill];
      rewrite !elem_of_cons, elem_of_nil; naive_solver.
Qed.

(** ** Theorems: rate limits *)
Import RateLimitsView.

(** A refused policy keeps the form; an answer that comes after the dialog was
    closed and opened again closes it and drops what was typed. *)
Theorem late_creation_closes_dialog u f :
  RateLimitsView.open u = true -> creating u = false ->
  RateLimitsView.run [Submit; Refused] u = u
  /\ RateLimitsView.run [Submit; SetOpen false; SetOpen true; Edit f; Created] u = RateLimitsView.mkUi false RateLimits.initial false.
Proof. destruct u as [o g c]. cbn. intros -> ->. done. Qed.

(** ** Theorems: request logs *)
Import RequestLogs RequestLogsView.

(** The drawer's sections are distinct and at most the chosen one is open. *)
Theorem one_section_open time l expanded c :
  NoDup (Drawer.sections l)
  /\ (c ∈ map (Section time l expanded) (Drawer.sections l) ->
      exists id, id ∈ Drawer.sections l /\ c = Section time l expanded id /\ (expanded <> Some id -> exists t, c = Card t "" [])).
Proof.
  split.
  - unfold Drawer.sections. destruct (AuditLogView_detail l), (Drawer.auth_failed l || Drawer.denied l);
      apply (bool_decide_eq_true_1 _); by vm_compute.
  - intros (id & -> & Hid)%list_elem_of_fmap. exists id. split_and!; [done|done|]. intros H. unfold Section.
    rewrite bool_decide_false by done. by eexists.
Qed.

(** The payload shown is JSON and reads back; its arguments are the redaction. *)
Theorem shown_payload_reads_back time l :
  exists text, Section time l (Some "payload") "payload" =
      Card "Redacted Payload" ""
        [Code text; Text "Argument values are redacted. Enable payload logging in server settings to capture inputs."]
    /\ JSON_parse text = Some (Drawer.payload l)
    /\ ((JSON_parse text ≫= json_field "params") ≫= json_field "arguments") = Some (JStr "<redacted>").
Proof.
  assert (P : JSON_parse (JSON_stringify_indent 2 (Drawer.payload l)) = Some (Drawer.payload l))
    by (apply parse_of_reads, indented_reads; [apply ws_spaces|done]).
  exists (JSON_stringify_indent 2 (Drawer.payload l)). split_and!; [reflexivity|exact P|]. by rewrite P.
Qed.

(** A call without a tool's name is said to have been of the tool "null". *)
Theorem missing_tool_named_null l :
  Drawer.tool_call l = true -> AuditLogView_tool_name l = None -> AuditLogView_server_slug l = None ->
  policy_text l = "Tool " +:+ dquote +:+ "null" +:+ dquote +:+ " on " +:+ dquote +:+ "null" +:+ dquote +:+ " was allowed by role policy.".
Proof. intros H1 H2 H3. unfold policy_text, named. by rewrite H1, H2, H3, !sapp_assoc. Qed.

(** Opening an entry whose date cannot be read takes the whole page down; closing
    is no longer possible, as nothing is shown. *)
Theorem unreadable_date_breaks_page tz now fmt p loading servers expanded l :
  selectedLog p = Some l -> JsDate.Date_parse tz (AuditLogView_created_at l) = None ->
  RequestLogsPage tz now fmt p loading servers expanded = Err "RangeError".
Proof. intros Hl Hd. unfold RequestLogsPage, DetailDrawer, Drawer.iso. by rewrite Hl, Hd. Qed.

(** ** Witnesses *)
Definition listed : ServerView := ServerPages.demo_server "https://mcp.example.com".

Lemma both_views_lead_to_filtered_witness :
  detail_href listed ∈ flat_map links (ServerListView.content 0 0 (ServerListView.mkUi card cleared) (Answered [listed])).
Proof.
  apply (both_views_lead_to_filtered 0 0 (ServerListView.mkUi card cleared) (Answered [listed])); [done|done|].
  exists listed. split; [|done]. change (ServerList.filtered (ServerListView.fs (ServerListView.mkUi card cleared)) (View.rows (Answered [listed]))) with [listed].
  apply list_elem_of_here.
Defined.

Definition some_policy : UnifiedPolicy := of_limit (PolicyPages.demo_policy None None None).

Lemma clear_button_is_dead_witness :
  Button "Clear all filters" false "onClear" ∈ PolicyListView.content 0 0 (PolicyListView.mkUi "" (Some eff_deny) None) false [some_policy].
Proof. apply (clear_button_is_dead 0 0 (PolicyListView.mkUi "" (Some eff_deny) None) [some_policy]); [done|by vm_compute]. Defined.

Lemma late_creation_closes_dialog_witness :
  RateLimitsView.run [Submit; SetOpen false; SetOpen true; Edit (RateLimits.mkForm 5 1 RateLimitAlgorithm_token_bucket "a" "b" 3); Created]
    (RateLimitsView.mkUi true RateLimits.initial false) = RateLimitsView.mkUi false RateLimits.initial false.
Proof.
  apply (late_creation_closes_dialog (RateLimitsView.mkUi true RateLimits.initial false)
           (RateLimits.mkForm 5 1 RateLimitAlgorithm_token_bucket "a" "b" 3)); reflexivity.
Defined.

Definition nameless : AuditLogView :=
  mkAuditLogView "l" None None None AuditEventType_tool_call None None None "allowed" None None [] "soon".

Lemma missing_tool_named_null_witness :
  policy_text nameless = "Tool " +:+ dquote +:+ "null" +:+ dquote +:+ " on " +:+ dquote +:+ "null" +:+ dquote +:+ " was allowed by role policy.".
Proof. apply (missing_tool_named_null nameless); reflexivity. Defined.

Lemma unreadable_date_breaks_page_witness :
  RequestLogsPage 0 0 (fun s => s) (RequestLogs.mkPage DEFAULT_FILTERS (Some nameless) 0 [nameless] 0) false [] None = Err "RangeError".
Proof. apply (unreadable_date_breaks_page 0 0 (fun s => s) _ false [] None nameless); [reflexivity|by vm_compute]. Defined.
