(* ===== verification/FigureViews.v ===== *)
(** * What the pages of charts and figures show

    - [TrafficView]: web/src/app/dashboard/traffic/page.tsx
    - [ObservabilityView]: web/src/app/dashboard/observability/page.tsx
    - [TelemetryView]: web/src/app/admin/telemetry/page.tsx
    - [UsageView]: web/src/app/dashboard/billing/usage/page.tsx

    Their aggregations are [Traffic], [AdminPages] and [Usage].  Icons and
    colours are left out.  A page that throws while it is drawn shows nothing
    ([Err]). *)

From S2P Require Import Prelude JsString JsDate JsNumber RelTime Tally ApiTypes Traffic Usage AdminPages ToolPage Feedback View.

#[local] Open Scope nat_scope.

#[local] Notation show n := (pretty (Z.of_nat n)).

(** A line of a chart whose value is not a number draws no point. *)
Definition point (label : string) (series : string) (r : rounded) : string * list (string * Z) :=
  (label, match r with RNum z => [(series, z)] | _ => [] end).

Definition bars (series : string) (l : list (string * Z)) : view := Chart (map (fun kv => (kv.1, [(series, kv.2)])) l).

(** A chart, or a note when there is nothing to draw. *)
Definition chart_or (note : string) (series : string) (l : list (string * Z)) : list view :=
  match l with [] => [Text note] | _ => [bars series l] end.

(** ** Traffic *)
Module TrafficView.
Import TrafficPage.

Record ui := mkUi { autoRefresh : bool; serverFilter : option string; bucketMins : Z }.

Definition initial : ui := mkUi true None 10.

Definition bucket_options : list (Z * string) :=
  [(1%Z, "1m buckets"); (5%Z, "5m buckets"); (10%Z, "10m buckets"); (30%Z, "30m buckets"); (60%Z, "1h buckets")].

(** The controls; [PickBucket] takes one of the options. *)
Inductive event := ToggleRefresh | PickServer (value : string) | PickBucket (i : nat) | Refetch.

Definition step (u : ui) (e : event) : ui :=
  match e with
  | ToggleRefresh => mkUi (negb (autoRefresh u)) (serverFilter u) (bucketMins u)
  | PickServer v => mkUi (autoRefresh u) (if bool_decide (v = "") then None else Some v) (bucketMins u)
  | PickBucket i => mkUi (autoRefresh u) (serverFilter u) (from_option fst (bucketMins u) (bucket_options !! i))
  | Refetch => u
  end.

Definition run (u : ui) (es : list event) : ui := fold_left step es u.

(** The query of the audit log: its limit, server and polling interval. *)
Definition audit_query (u : ui) : Z * option string * option Z :=
  (200%Z, u.(serverFilter) ≫= (fun s => truthy_str (Some s)), if autoRefresh u then Some 30000%Z else None).

Section view.
(** The zone, the present, and [toLocaleString] of a number. *)
Context (tz now : Z) (localeNumber : Z -> string).

Definition SummaryCard (label value sub : string) : view := Card label sub [Text value].

Definition ChartCard (title note : string) (body : list view) : view := Card title note body.

Definition EventTypeBadge (t : AuditEventType) : view :=
  Badge (match t with
         | AuditEventType_tool_call => "Tool Call"
         | AuditEventType_rbac_deny => "RBAC Deny"
         | AuditEventType_auth_failure => "Auth Fail"
         | _ => AuditEventType_value t
         end).

Definition with_percent (s : string) : string := if bool_decide (s = "—") then "—" else s +:+ "%".

Definition summary (logs : list Log) : list view :=
  [SummaryCard "Total Requests" (localeNumber (len logs)) "in current dataset";
   SummaryCard "Success Rate" (with_percent (successRate logs)) "allowed outcomes";
   SummaryCard "Error Rate" (with_percent (errorRate logs)) "auth failures + denies";
   SummaryCard "P95 Latency" "—" "not captured by API";
   SummaryCard "Blocked (RBAC)" (localeNumber (len (rbacDenies logs)))
     ((if (0 <? len logs)%Z then toFixed1 (percent (len (rbacDenies logs)) (len logs)) else "0") +:+ "% of traffic");
   SummaryCard "Auth Failures" (localeNumber (len (authFails logs))) "invalid credentials";
   SummaryCard "Active Users" (show (distinct_subjects logs)) "unique subjects";
   SummaryCard "Data Transferred" "—" "not captured by API"].

(** [d.total > 0 ? Math.round(((d.errors + d.blocked) / d.total) * 100) : 0] *)
Definition rate (d : row) : rounded :=
  if (0 <? r_total d)%Z then Math_round (percent (r_errors d + r_blocked d) (r_total d)) else RNum 0.

Definition volume_chart (volume : list row) : list view :=
  match volume with
  | [] => [Text "No data yet"]
  | _ => [Chart (map (fun d => (r_time d, [("Total", r_total d); ("Auth Fail", r_errors d); ("Blocked", r_blocked d)])) volume)]
  end.

Definition rate_chart (volume : list row) : list view :=
  match volume with [] => [Text "No data yet"] | _ => [Chart (map (fun d => point (r_time d) "Error %" (rate d)) volume)] end.

Definition event_types (logs : list Log) : list view := map (fun kv => Stat (kv.1) (pretty (kv.2))) (byEventType logs).

Definition charts (u : ui) (logs : list Log) (volume : list row) : list view :=
  [ChartCard "Request Volume" (pretty (bucketMins u) +:+ "-minute buckets") (volume_chart volume);
   ChartCard "By Event Type" "" (event_types logs);
   ChartCard "Traffic by Server" "" (chart_or "No server data" "Requests" (topNByField logs AuditLogView_server_slug 8));
   ChartCard "Traffic by Tool" "" (chart_or "No tool data" "Requests" (topNByField logs AuditLogView_tool_name 8));
   ChartCard "Traffic by Identity" "" (chart_or "No identity data" "Requests" (byUser logs));
   ChartCard "Error Rate Over Time" "Auth failures + RBAC denies per bucket" (rate_chart volume)].

(** The last column, by the kind of event. *)
Definition policy_text (l : Log) : string :=
  if is_event AuditEventType_tool_call l then "✓ allowed"
  else if is_event AuditEventType_rbac_deny l then "✗ rbac deny" else "✗ auth fail".

Definition feed_row (l : Log) : list view :=
  [Text (traffic_relativeTime tz now (created_at l));
   Text (match truthy_str (AuditLogView_subject_id l) with Some s => stake 10 s +:+ "…" | None => "—" end);
   Text (match AuditLogView_tool_name l with Some t => t | None => default "—" (AuditLogView_rpc_method l) end);
   Text (default "—" (AuditLogView_server_slug l)); EventTypeBadge (AuditLogView_event_type l);
   Text (AuditLogView_outcome l); Text "—"; Text (policy_text l)].

Definition feed (q : answer (list Log)) (fetching : bool) : list view :=
  let logs := View.rows q in
  [Text "Live Request Feed"] ++ when fetching [Text "Refreshing…"]
  ++ [Text ("Showing " +:+ pretty (Z.min (len logs) 50) +:+ " of " +:+ pretty (len logs))]
  ++ (if is_pending q then [Skeletons 5] else
      match logs with
      | [] => [Text "No requests yet. Traffic will appear here as MCP tools are called."]
      | _ => [Table ["Time"; "Identity"; "Tool"; "Server"; "Event"; "Result"; "Duration"; "Policy"] (map feed_row (take 50 logs))]
      end).

Definition header (u : ui) (logs : list Log) (servers : list ServerView) : list view :=
  [Text "Traffic Overview"; Text ("Last " +:+ pretty (len logs) +:+ " events · up to 200 per query");
   Select "" (default "" (serverFilter u)) ("All Servers" :: map ServerView_name servers);
   Select "" (pretty (bucketMins u)) bucket_options.*2;
   Button (if autoRefresh u then "Live" else "Paused") false "setAutoRefresh"; Button "" false "refetch"].

Definition page (u : ui) (q : answer (list Log)) (servers : answer (list ServerView)) (fetching : bool) : result string (list view) :=
  let logs := View.rows q in
  match bucketByMinutes tz logs (bucketMins u) with
  | Err e => Err e
  | Ok volume =>
      Ok (header u logs (View.rows servers) ++ (if is_pending q then [Skeletons 8] else summary logs)
          ++ charts u logs volume ++ feed q fetching)
  end.
End view.
End TrafficView.

(** ** Observability *)
Module ObservabilityView.
Import TrafficPage Observability.

Definition regions : list string := ["US East"; "US West"; "EU West"; "Asia Pacific"; "South America"].

Section view.
(** The zone, the present, [toLocaleString] of a number. *)
Context (tz now : Z) (localeNumber : Z -> string).

(** The mark "N/A" is drawn in every card, invisible in those that have a value. *)
Definition MetricCard (label value sub : string) (na : bool) : view := Card label sub (when na [Badge "N/A"] ++ [Text value]).

Definition not_captured (label : string) : view := MetricCard label "—" "not captured by API" true.

Definition metrics (logs : list Log) (servers : list ServerView) : list view :=
  [MetricCard "Request Throughput" (localeNumber (len logs)) (pretty (len (toolCalls logs)) +:+ " tool calls") false;
   not_captured "P50 Latency"; not_captured "P95 Latency"; not_captured "P99 Latency";
   MetricCard "Error Rate" (errorRate logs) (pretty (len (errors logs)) +:+ " errors") false;
   MetricCard "Server Availability" (availability servers) (pretty (activeServers servers) +:+ "/" +:+ pretty (len servers) +:+ " active") false;
   not_captured "Retry Rate"; not_captured "Circuit Breaker";
   MetricCard "Active Users" (show (distinct_subjects logs)) "unique subjects" false;
   MetricCard "Blocked Requests" (pretty (len (rbacDenies logs))) "RBAC denies" false;
   not_captured "Queue Depth"; not_captured "Cache Hit Rate"].

Definition ServiceMap (servers : list ServerView) (logs : list Log) : list view :=
  match servers with
  | [] => [Text "No servers registered"]
  | _ => Stat "Gateway" (pretty (len logs) +:+ " req")
         :: map (fun s => Stat (ServerView_name s) (pretty (node_count logs s) +:+ " req")) servers
  end.

Definition group_title (g : group_) : string :=
  (if bool_decide (g_event g = AuditEventType_auth_failure) then "Auth Failure" else "RBAC Deny")
  +:+ " — " +:+ default "unknown" (head (g_servers g)).

Definition group_times (g : group_) : string :=
  "First: " +:+ observability_relativeTime tz now (g_first g) +:+ " · Last: " +:+ observability_relativeTime tz now (g_last g)
  +:+ match g_tools g with [] => "" | l => " · Tools: " +:+ join ", " (take 2 l) end.

Definition group_view (kg : string * group_) : view :=
  let g := kg.2 in Card (group_title g) (pretty (g_count g) +:+ "×") [Text (group_times g)].

Definition ErrorGroupsPanel (logs : list Log) : list view :=
  match ErrorGroupsPanel_groups tz logs with
  | [] => [Text "No errors in current dataset."]
  | l => map group_view l ++ [Link "View all errors" "/dashboard/observability/errors"]
  end.

Definition unhealthy_view (s : ServerView) : view :=
  Card (ServerView_name s)
    (pretty (ServerView_consecutive_health_failures s) +:+ " consecutive failures"
     +:+ match truthy_str (ServerView_last_health_check_at s) with
         | Some t => " · last check " +:+ observability_relativeTime tz now t
         | None => ""
         end)
    [Badge (ServerStatus_value (ServerView_status s)); Link "" ("/dashboard/servers/" +:+ ServerView_slug s)].

Definition UnhealthyServers (servers : list ServerView) : list view :=
  match List.filter (fun s => negb (bool_decide (ServerView_status s = ServerStatus_active))) servers with
  | [] => [Text "All servers healthy"]
  | l => map unhealthy_view l
  end.

Definition throughput (volume : list (string * Z * Z)) : view :=
  Card "Request Throughput" "10-minute buckets · solid = total, dashed = errors"
    match volume with
    | [] => [Text "No data yet"]
    | _ => [Chart (map (fun '(t, n, e) => (t, [("Total", n); ("Errors", e)])) volume)]
    end.

Definition trace_shortcut (logs : list Log) : view :=
  Card "Trace Explorer" "Search and inspect individual request traces. View authentication flow, policy decisions, and upstream calls for any request."
    ([Link "Search Traces" "/dashboard/observability/traces"; Text (pretty (len logs) +:+ " traces in current window")]
     ++ map (fun l => Link (stake 20 (AuditLogView_id l) +:+ "…") ("/dashboard/observability/traces?id=" +:+ AuditLogView_id l)) (take 3 logs)).

Definition slow_tools (logs : list Log) : view :=
  Card "Slow Tools" "Duration not captured by API"
    ([Text "Tool execution latency is not recorded in the current audit log schema. Add timing middleware to the gateway to populate this panel.";
      Text "Top tools by call volume (no latency):"]
     ++ map (fun kv => Stat (kv.1) (pretty (kv.2) +:+ " calls")) (topTools logs)).

Definition regional : view :=
  Card "Regional Performance" "Geographic distribution is not captured by the current API" (map (fun r => Card r "N/A" [Text "—"]) regions).

Definition header (autoRefresh : bool) : list view :=
  [Text "Observability"; Text "System health, traffic patterns, and error analysis";
   Link "Trace Explorer" "/dashboard/observability/traces"; Link "Error Analysis" "/dashboard/observability/errors";
   Button (if autoRefresh then "Live" else "Paused") false "setAutoRefresh"; Button "" false "refetch"].

Definition page (autoRefresh : bool) (q : answer (list Log)) (sq : answer (list ServerView)) : result string (list view) :=
  let logs := View.rows q in let servers := View.rows sq in let loading := is_pending q || is_pending sq in
  match bucket10m tz logs with
  | Err e => Err e
  | Ok volume =>
      Ok (header autoRefresh ++ (if loading then [Skeletons 12] else metrics logs servers)
          ++ [Card "Service Map" "Node size = request volume · Color = health status"
                (if loading then [Skeletons 1] else ServiceMap servers logs);
              throughput volume; trace_shortcut logs; Card "Error Groups" "" (ErrorGroupsPanel logs); slow_tools logs;
              Card "Unhealthy Servers" "" (if loading then [Skeletons 1] else UnhealthyServers servers); regional])
  end.
End view.
End ObservabilityView.

(** ** Self-host telemetry *)
Module TelemetryView.

Section view.
(** [new Date(iso).toLocaleString()] *)
Context (localeString : string -> string).

Definition fmtDateTime (iso : option string) : string :=
  match truthy_str iso with Some s => localeString s | None => "—" end.

Definition StatCard (label value hint : string) (loading : bool) : view :=
  Card label hint [if loading then Skeletons 1 else Text value].

Definition stats (summary : answer InstanceSummaryView) (instances : answer (list InstanceView)) : list view :=
  let total := match summary with Answered s => InstanceSummaryView_total s | _ => 0%Z end in
  let active24h := match summary with Answered s => InstanceSummaryView_active_24h s | _ => 0%Z end in
  let loading := is_pending summary in
  [StatCard "Total Installs" (pretty total) "Distinct self-hosts ever seen" loading;
   StatCard "Active (24h)" (pretty active24h) "Installs reporting in the last day" loading;
   StatCard "Opt-in Rate" (rounded_text (Telemetry.optInRate total active24h)) "Share of known installs active today" loading;
   StatCard "Reported Servers" (pretty (foldr Z.add 0%Z (InstanceView_server_count <$> View.rows instances)))
     "Sum of registered MCP servers" (is_pending instances)].

Definition instance_row (i : InstanceView) : list view :=
  [Card (InstanceView_install_id i) (fmtDateTime (Some (InstanceView_last_seen_at i))) []; Badge ("v" +:+ InstanceView_version i);
   Text (pretty (InstanceView_server_count i)); Text (fmtDateTime (Some (InstanceView_first_seen_at i)));
   Text (fmtDateTime (Some (InstanceView_last_seen_at i)))].

Definition table (q : answer (list InstanceView)) : list view :=
  [Table ["Install ID"; "Version"; "Servers"; "First Seen"; "Last Seen"]
     (if is_pending q then [[Skeletons 2]] else
      match View.rows q with
      | [] => [EmptyState "No installs reporting yet"
                 "Heartbeats appear here when a self-host enables telemetry and points it at this endpoint." [] []]
      | l => map instance_row l
      end)]
  ++ match View.rows q with
     | [] => []
     | l => [Text ("Showing " +:+ show (length l) +:+ " install" +:+ plural (Z.of_nat (length l))); Text "Anonymous · opt-in only"]
     end.

Definition page (summary : answer InstanceSummaryView) (q : answer (list InstanceView)) : list view :=
  [Text "Self-Host Telemetry"; Text "Opt-in anonymous install heartbeats feeding the Phase 4 strategy review"]
  ++ stats summary q ++ table q.
End view.
End TelemetryView.

(** ** Billing and usage *)
Module UsageView.

(** What the two panels keep while something is being added. *)
Record alert_draft := mkAlertDraft { ad_adding : bool; ad_threshold : string; ad_channel : string }.
Record tag_draft := mkTagDraft { td_adding : bool; td_key : string; td_value : string }.

Record ui := mkUi { alerts : list UsageAlert; tags : list CostTag; alert_d : alert_draft; tag_d : tag_draft }.

Definition initial : ui :=
  mkUi [mkAlert "a1" 80 "email" true; mkAlert "a2" 95 "slack" true]
    [mkTag "t1" "team" "platform"; mkTag "t2" "environment" "production"]
    (mkAlertDraft false "80" "email") (mkTagDraft false "" "").

Definition channels : list string := ["email"; "slack"; "in-app"; "pagerduty"].

(** [clock] is [Date.now()] at the click. *)
Inductive event :=
  | OpenAlert | CancelAlert | TypeThreshold (s : string) | PickChannel (i : nat) | SubmitAlert (clock : Z)
  | RemoveAlert (id : string) | ToggleAlert (id : string)
  | OpenTag | CancelTag | TypeKey (s : string) | TypeValue (s : string) | SubmitTag (clock : Z) | RemoveTag (id : string).

Section step.
(** [Number] on what a number field yields, for integers. *)
Context (js_Number : string -> Z).

Definition set_alert (u : ui) (d : alert_draft) : ui := mkUi (alerts u) (tags u) d (tag_d u).
Definition set_tag (u : ui) (d : tag_draft) : ui := mkUi (alerts u) (tags u) (alert_d u) d.

Definition step (u : ui) (e : event) : ui :=
  let '(mkAlertDraft aa th ch) := alert_d u in
  let '(mkTagDraft ta k v) := tag_d u in
  match e with
  | OpenAlert => set_alert u (mkAlertDraft true th ch)
  | CancelAlert => set_alert u (mkAlertDraft false th ch)
  | TypeThreshold s => set_alert u (mkAlertDraft aa s ch)
  | PickChannel i => set_alert u (mkAlertDraft aa th (default ch (channels !! i)))
  | SubmitAlert clock =>
      if bool_decide (th = "") then u
      else mkUi (addAlert clock (js_Number th) ch (alerts u)) (tags u) (mkAlertDraft false "80" ch) (tag_d u)
  | RemoveAlert id => mkUi (removeAlert id (alerts u)) (tags u) (alert_d u) (tag_d u)
  | ToggleAlert id => mkUi (toggleAlert id (alerts u)) (tags u) (alert_d u) (tag_d u)
  | OpenTag => set_tag u (mkTagDraft true k v)
  | CancelTag => set_tag u (mkTagDraft false k v)
  | TypeKey s => set_tag u (mkTagDraft ta s v)
  | TypeValue s => set_tag u (mkTagDraft ta k s)
  | SubmitTag clock =>
      if bool_decide (k = "") || bool_decide (v = "") then u
      else mkUi (alerts u) (addTag clock k v (tags u)) (alert_d u) (mkTagDraft false "" "")
  | RemoveTag id => mkUi (alerts u) (removeTag id (tags u)) (alert_d u) (tag_d u)
  end.

Definition run (u : ui) (es : list event) : ui := fold_left step es u.
End step.

Section view.
(** The zone, the time of loading, the month's name, and an amount in US format. *)
Context (tz now : Z) (localeMonth : Z -> string) (localeAmount : double -> string).

Definition fmtUsd (x : double) : string := "$" +:+ localeAmount x.

(** [fmt] of a rounded number: the comparisons are false on [NaN]. *)
Definition fmt_rounded (r : rounded) : string :=
  match r with RNum z => fmt z | RInf false => "InfinityM" | RInf true => "-Infinity" | RNaN => "NaN" end.

Definition positive (r : rounded) : bool := match r with RNum z => (0 <? z)%Z | RInf neg => negb neg | RNaN => false end.
Definition above (r : rounded) (k : Z) : bool := match r with RNum z => (k <? z)%Z | RInf neg => negb neg | RNaN => false end.

Definition UsageBar (label : string) (used limit : Z) (unit : string) : view :=
  Stat label (fmt used +:+ unit +:+ " / " +:+ fmt limit +:+ unit +:+ " (" +:+ rounded_text (Usage.pct used limit) +:+ "%)").

Definition SummaryCard (label value sub : string) (trend : option string) : view :=
  Card label sub (Text value :: match trend with Some t => [Text t] | None => [] end).

Definition alert_view (a : UsageAlert) : view :=
  Card ("Alert at " +:+ pretty (ua_threshold a) +:+ "% usage via " +:+ ua_channel a) ""
    [Button (if ua_enabled a then "On" else "Off") false ("onToggle " +:+ ua_id a); Button "" false ("onRemove " +:+ ua_id a)].

Definition UsageAlertPanel (u : ui) : list view :=
  let d := alert_d u in
  map alert_view (alerts u)
  ++ when (bool_decide (alerts u = []) && negb (ad_adding d)) [Text "No usage alerts configured."]
  ++ (if ad_adding d
      then [Input "At" (ad_threshold d) "" false; Select "% notify via" (ad_channel d) channels;
            Button "Add" false "submit"; Button "Cancel" false "setAdding"]
      else [Button "Add alert" false "setAdding"]).

Definition tag_view (t : CostTag) : view := Card (ct_key t +:+ ":") (ct_value t) [Button "" false ("onRemove " +:+ ct_id t)].

Definition CostTagPanel (u : ui) : list view :=
  let d := tag_d u in
  map tag_view (tags u)
  ++ when (bool_decide (tags u = []) && negb (td_adding d)) [Text "No cost tags applied."]
  ++ (if td_adding d
      then [Input "" (td_key d) "tag key" false; Text "="; Input "" (td_value d) "tag value" false;
            Button "Add" false "onAdd"; Button "Cancel" false "setAdding"]
      else [Button "Add tag" false "setAdding"]).

Definition highlights : list view :=
  [Card "Enterprise Grade Security" "SOC 2 Type II compliant, audit log with Merkle tree tamper-evidence, and encrypted data at rest." [];
   Card "High-Performance Proxy" "Sub-10ms latency across 25+ global regions with Redis-backed connection pooling and mTLS termination." [];
   Card "Real-Time Monitoring" "25 PrometheusRule alerts, OpenTelemetry tracing, and live usage dashboard with < 1-second refresh." []].

(** The page's data: the organisation's usage, the log and the servers; what has
    not arrived is as if absent. *)
Context (usage : option UsageView) (logs : list AuditLogView) (servers : list ServerView).

Definition PLAN : plan_t := planFromUsage usage.
Definition used : Z := requestsUsed usage logs.
Definition toolCallsUsed : Z := default 0%Z (usage ≫= UsageView_tool_calls).
Definition rbacDenials : Z := default 0%Z (usage ≫= UsageView_rbac_denials).
Definition rateLimitRejections : Z := default 0%Z (usage ≫= UsageView_rate_limit_rejections).
Definition over : rounded := overage tz now used (pl_requestLimit PLAN).
Definition overCost : double := overageCost tz now used (pl_requestLimit PLAN).
Definition projected : rounded := projectedTotal tz now used.
(** Not metered: members, storage and transfer are written as zero. *)
Definition memberCount : Z := 0.
Definition retentionUsed : Z := 0.
Definition transferUsed : Z := 0.
Definition serverCount : Z := Z.of_nat (length servers).
Definition dailyUsage : list day_row := makeDailyUsage tz now logs (pl_requestLimit PLAN).

Definition overage_warning : list view :=
  when (positive over)
    [Text ("Projected overage of " +:+ fmt_rounded over +:+ " requests (" +:+ fmtUsd overCost +:+ ") at current pace.");
     Link "Upgrade plan" "/dashboard/billing/subscription"].

Definition limit_exceeded : bool := above projected (pl_requestLimit PLAN).

Definition usage_cards : list view :=
  [SummaryCard "Requests used" (fmt used) ("of " +:+ fmt (pl_requestLimit PLAN) +:+ " limit") (Some "+12.3% vs last month");
   SummaryCard "Tool calls" (fmt toolCallsUsed)
     (if pl_enforcement PLAN then "of " +:+ fmt (pl_requestLimit PLAN) +:+ " capped" else "metered, tracks all calls") None;
   SummaryCard "Active servers" (pretty serverCount) ("of " +:+ pretty serverLimit +:+ " servers") None;
   SummaryCard "Team members" (pretty memberCount) ("of " +:+ pretty memberLimit +:+ " members") None;
   SummaryCard "Retention used" (pretty retentionUsed +:+ " GB")
     ("of " +:+ pretty retentionGB +:+ " GB (" +:+ pretty retentionDays +:+ "d retention)") None;
   SummaryCard "Data transfer" (pretty transferUsed +:+ " GB") ("of " +:+ fmt transferGB +:+ " GB transferred") None;
   SummaryCard "Projected req." (fmt_rounded projected) "end-of-month estimate"
     (Some (if limit_exceeded then "+" +:+ fmt_rounded over +:+ " over cap" else "within limit"));
   SummaryCard "Base price" (fmtUsd (of_Z basePrice)) (pl_name PLAN +:+ " plan") None;
   SummaryCard "Est. end-of-mo" (fmtUsd (estimatedBill tz now used (pl_requestLimit PLAN)))
     (if positive over then "+" +:+ fmtUsd overCost +:+ " overage" else "no overage") None].

(** The offer, unless the plan is called free or enterprise. *)
Definition upgrade_offer : list view :=
  when (negb (bool_decide (pl_name PLAN = "free")) && negb (bool_decide (pl_name PLAN = "enterprise")))
    [Card ("Upgrade to " +:+ pl_name PLAN)
       ("Unlock " +:+ fmt (pl_requestLimit PLAN) +:+ " requests, " +:+ pretty serverLimit +:+ " servers, " +:+ pretty memberLimit
        +:+ " members, and " +:+ pretty retentionDays +:+ "-day retention. " +:+ fmtUsd (of_Z basePrice) +:+ "/mo.") []].

Definition resource_bars : view :=
  Card "Resource utilisation" ""
    [UsageBar "Requests" used (pl_requestLimit PLAN) ""; UsageBar "Tool calls" toolCallsUsed (pl_requestLimit PLAN) "";
     UsageBar "Servers" serverCount serverLimit ""; UsageBar "Members" memberCount memberLimit "";
     UsageBar "Retention" retentionUsed retentionGB " GB"; UsageBar "Transfer" transferUsed transferGB " GB"].

(** A point of the projection: the day's count, the projected one, or none. *)
Definition projection_point (r : projection_row) : string * list (string * Z) :=
  (pr_day r, match pr_actual r with Some n => [("actual", n)] | None => [] end
             ++ match pr_projected r with Some (RNum n) => [("projected", n)] | _ => [] end).

Definition usage_charts : list view :=
  [Card "Daily request usage" "" [Chart (map (fun d => (dr_day d, [("requests", dr_requests d)])) dailyUsage)];
   Card "Overage projection" "" [Chart (map projection_point (makeProjection tz now dailyUsage)); Text "Actual"; Text "Projected"];
   Card "Usage by tool (top 8)" "" [bars "count" (makeToolUsage logs)];
   Card "Usage by server" "" [bars "count" (makeServerUsage logs)];
   Card "Usage by API key (top 5)" "" [bars "count" (makeUserUsage logs)]].

Definition projected_section : view :=
  Card "Projected end-of-month" ""
    [Stat "Requests" (fmt_rounded projected); Stat "Overage" (if positive over then fmt_rounded over else "None");
     Stat "Overage cost" (fmtUsd overCost); Stat "Total bill" (fmtUsd (estimatedBill tz now used (pl_requestLimit PLAN)))].

Definition footer : string :=
  (if pl_enforcement PLAN
   then "Metering is enforced for the " +:+ pl_name PLAN +:+ " plan — requests are rejected once the "
        +:+ fmt (pl_requestLimit PLAN) +:+ " monthly cap is reached."
   else "Metering is active but not enforced on this deployment (requests are counted, never blocked).")
  +:+ (if (0 <? rbacDenials)%Z then " · " +:+ fmt rbacDenials +:+ " policy denials this period" else "")
  +:+ (if (0 <? rateLimitRejections)%Z then " · " +:+ fmt rateLimitRejections +:+ " rate-limit rejections" else "").

Definition sub_header : list view :=
  [Text (localeMonth now +:+ " billing period · Day " +:+ pretty (DAY_OF_MONTH tz now) +:+ " of " +:+ pretty (DAYS_IN_MONTH tz now));
   Button "Export CSV" false "exportCsv"].

Definition page (u : ui) : list view :=
  DemoBanner mixed "request/tool/server/user charts aggregated from the audit log"
    "plan totals, transfer/retention metering, member counts (wired as those APIs land)"
  ++ sub_header ++ highlights ++ overage_warning ++ usage_cards ++ upgrade_offer ++ [resource_bars] ++ usage_charts
  ++ [Card "Usage alerts" "" (UsageAlertPanel u);
      Card "Cost allocation tags" "" (Text "Tag usage to attribute costs to teams, environments, or projects." :: CostTagPanel u);
      projected_section; Text footer].

(** The exported file's name, at the click. *)
Definition export_name (clock : Z) : string := "portcullis-usage-" +:+ stake 7 (toISOString clock) +:+ ".csv".
End view.
End UsageView.

(** ** Properties of the traffic page *)
Module TrafficFacts.
Import TrafficPage TrafficView.

(** What the controls can reach: one of the offered bucket sizes, and never the
    empty server name. *)
Definition ui_ok (u : ui) : Prop := bucketMins u ∈ bucket_options.*1 /\ serverFilter u <> Some "".

Lemma ui_ok_step u e : ui_ok u -> ui_ok (step u e).
Proof.
  intros [Hb Hs]. destruct e as [|v|i|]; cbn [step]; split; cbn [bucketMins serverFilter]; try done.
  - case_bool_decide; [done|]. by intros [= ->].
  - destruct (bucket_options !! i) as [o|] eqn:E; cbn [from_option]; [|done]. apply list_elem_of_fmap. exists o.
    split; [done|]. by eapply list_elem_of_lookup_2.
Qed.

Lemma ui_ok_run es : ui_ok (run initial es).
Proof.
  unfold run. cut (forall u, ui_ok u -> ui_ok (fold_left step es u)).
  { intros H. apply H. split; [|done]. cbn. set_solver. }
  induction es as [|e es IH]; intros u Hu; cbn; [done|]. apply IH. by apply ui_ok_step.
Qed.

Definition bucket_ok (b : bucket) : Prop := (0 <= b_errors b /\ 0 <= b_blocked b /\ b_errors b + b_blocked b <= b_total b)%Z.

Lemma bump_ok ls l (v : option bucket) :
  from_option (fun b => b_total b = len ls /\ bucket_ok b) (ls = []) v ->
  b_total (bump l v) = len (ls ++ [l]) /\ bucket_ok (bump l v).
Proof.
  unfold bump, bucket_ok, len, is_event. rewrite length_app. cbn [length].
  destruct v as [b|]; cbn [from_option default]; [intros (Ht & ? & ? & ?)|intros ->];
    cbn [b_total b_errors b_blocked length id];
    repeat case_bool_decide; try congruence; lia.
Qed.

Lemma bucket_bounds tz ms logs k b :
  (k, b) ∈ bucket_map tz ms logs -> (0 < b_total b <= len logs)%Z /\ bucket_ok b.
Proof.
  unfold bucket_map. rewrite group_elem. intros H.
  pose proof (accumulate_inv (bucket_key tz ms) bump (fun ls b => ls <> [] /\ b_total b = len ls /\ bucket_ok b) k logs b) as Hi.
  destruct Hi as (Hn & Ht & Hok); [| |done|].
  - intros l _. split; [done|]. by apply (bump_ok [] l None).
  - intros ls l v _ (Hn & Hv). split; [by destruct ls|]. by apply (bump_ok ls l (Some v)).
  - split; [|done]. rewrite Ht. unfold len.
    pose proof (length_filter (fun l => bucket_key tz ms l = Some k) logs).
    destruct (filter _ logs); [done|]. cbn [length] in *. lia.
Qed.

Lemma rows_bounds tz logs mins volume d :
  bucketByMinutes tz logs mins = Ok volume -> d ∈ volume ->
  (0 < r_total d <= len logs)%Z /\ (0 <= r_errors d + r_blocked d <= r_total d)%Z.
Proof.
  unfold bucketByMinutes, sorted_buckets. case_bool_decide; [intros [= <-]; by intros ?%elem_of_nil|].
  destruct (numeric_keys _) as [m|] eqn:E; [|done]. intros [= <-] (x & -> & Hx)%list_elem_of_fmap.
  destruct x as [ts b]. rewrite stable_sort_perm in Hx. apply numeric_keys_spec in E.
  assert ((Some ts, b) ∈ bucket_map tz (mins * 60000) logs) as Hb.
  { rewrite E. apply list_elem_of_fmap. by exists (ts, b). }
  apply bucket_bounds in Hb as [Ht (He & Hk & Hs)]. cbn. lia.
Qed.

(** The percentage of [a] in [b] for every answer the query can give: at most 200 entries. *)
Definition percent_small (a b : nat) : bool :=
  match Math_round (percent (Z.of_nat a) (Z.of_nat b)) with RNum z => (0 <=? z)%Z && (z <=? 100)%Z | _ => false end.

Lemma percent_small_ok a b : a <= b -> 1 <= b <= 200 -> percent_small a b = true.
Proof.
  intros Ha Hb.
  assert (forallb (fun b => forallb (fun a => percent_small a b) (seq 0 (S b))) (seq 1 200) = true) as H by (vm_compute; reflexivity).
  rewrite forallb_forall in H. specialize (H b). rewrite in_seq, forallb_forall in H.
  apply H; [lia|]. rewrite in_seq. lia.
Qed.

(** The error line never leaves the chart: with the at most 200 entries a query
    returns, every bucket draws a point, between 0 and 100 percent. *)
Theorem error_rate_points_bounded tz es logs volume d :
  (len logs <= 200)%Z -> bucketByMinutes tz logs (bucketMins (TrafficView.run TrafficView.initial es)) = Ok volume -> d ∈ volume ->
  exists z, point (r_time d) "Error %" (TrafficView.rate d) = (r_time d, [("Error %", z)]) /\ (0 <= z <= 100)%Z.
Proof.
  intros Hl Hv Hd. destruct (rows_bounds _ _ _ _ _ Hv Hd) as [Ht Hr].
  unfold TrafficView.rate. rewrite (proj2 (Z.ltb_lt 0 (r_total d))) by lia.
  pose proof (percent_small_ok (Z.to_nat (r_errors d + r_blocked d)) (Z.to_nat (r_total d))) as H.
  unfold percent_small in H. rewrite !Z2Nat.id in H by lia.
  destruct (Math_round _) as [z| |]; [|specialize (H ltac:(lia) ltac:(lia)); done..].
  exists z. split; [done|]. specialize (H ltac:(lia) ltac:(lia)). apply andb_true_iff in H. lia.
Qed.

(** Whatever was pressed, the page asks for at most 200 entries in buckets of an
    offered size, of no server with an empty name; the server last picked is the
    one asked for. *)
Theorem traffic_query_follows_controls es v :
  let u := TrafficView.run TrafficView.initial es in
  bucketMins u ∈ [1; 5; 10; 30; 60]%Z /\ audit_query u = (200%Z, serverFilter u, if autoRefresh u then Some 30000%Z else None) /\
  (audit_query (TrafficView.step u (PickServer v))).1.2 = if bool_decide (v = "") then None else Some v.
Proof.
  intros u. destruct (ui_ok_run es) as [Hb Hs]. split; [exact Hb|]. split.
  - unfold audit_query. fold u in Hs. destruct (serverFilter u) as [s|]; cbn; [|done]. by rewrite bool_decide_false by congruence.
  - cbn. case_bool_decide as E; cbn; [done|]. by rewrite bool_decide_false.
Qed.

Lemma feed_rows tz now q fetching :
  is_pending q = false -> flat_map table_rows (feed tz now q fetching) = map (feed_row tz now) (take 50 (View.rows q)).
Proof.
  intros Hp. unfold feed. rewrite Hp. destruct (View.rows q) as [|l r] eqn:E; [by destruct fetching|].
  destruct fetching; cbn; by rewrite app_nil_r.
Qed.

Lemma table_rows_none l : Forall (fun v => table_rows v = []) l -> flat_map table_rows l = [].
Proof. induction 1 as [|v l Hv _ IH]; cbn; [done|]. by rewrite Hv, IH. Qed.

Lemma chart_or_rows note series l : flat_map table_rows (chart_or note series l) = [].
Proof. by destruct l. Qed.

(** The feed shows the first fifty entries and nothing else; a tool call is
    marked allowed whatever its outcome, also a refused one, and every event that
    is neither a call nor a refusal by role is called an authentication failure,
    also the granting of platform rights. *)
Theorem feed_policy_column tz now fmt u q servers fetching v :
  is_pending q = false -> TrafficView.page tz now fmt u q servers fetching = Ok v ->
  flat_map table_rows v = map (feed_row tz now) (take 50 (View.rows q)) /\
  forall l, last (feed_row tz now l) = Some (Text
    match AuditLogView_event_type l with
    | AuditEventType_tool_call => "✓ allowed"
    | AuditEventType_rbac_deny => "✗ rbac deny"
    | AuditEventType_auth_failure | AuditEventType_platform_admin_granted | AuditEventType_tenant_provisioned => "✗ auth fail"
    end).
Proof.
  intros Hp. unfold TrafficView.page. destruct (bucketByMinutes _ _ _) as [vol|]; [|done]. intros E. split.
  - match type of E with Ok ?x = _ => assert (x = v) as <- by congruence end. rewrite Hp, !flat_map_app, feed_rows by done. rewrite (app_assoc _ _ (map _ _)), (app_assoc _ _ (map _ _)).
    match goal with |- ?x ++ _ = _ => assert (x = []) as ->; [|done] end.
    cbn -[bucket_options]. rewrite !chart_or_rows. destruct vol; reflexivity.
  - intros l. unfold feed_row, policy_text, is_event. cbn. by destruct (AuditLogView_event_type l).
Qed.
End TrafficFacts.

(** ** Properties of the observability page *)
Module ObservabilityFacts.
Import TrafficPage Observability ObservabilityView.

Definition inactive (s : ServerView) : bool := negb (bool_decide (ServerView_status s = ServerStatus_active)).

Lemma inactive_listed tz now servers s : s ∈ servers -> inactive s = true -> unhealthy_view tz now s ∈ UnhealthyServers tz now servers.
Proof.
  intros Hs Ha. unfold UnhealthyServers.
  assert (In s (List.filter inactive servers)) as Hi by (rewrite filter_In, Ha, <- list_elem_of_In; done).
  unfold inactive in Hi. destruct (List.filter _ servers) as [|x l]; [done|].
  apply list_elem_of_fmap. exists s. split; [done|]. by apply list_elem_of_In.
Qed.

(** The panel of unhealthy servers says that all are healthy exactly when every
    server is active, so one that was switched off on purpose is listed with the
    broken ones; and it says so too when the servers could not be fetched. *)
Theorem unhealthy_panel_exact tz now :
  (forall servers, UnhealthyServers tz now servers = [Text "All servers healthy"]
     <-> forall s, s ∈ servers -> ServerView_status s = ServerStatus_active) /\
  (forall servers s, s ∈ servers -> ServerView_status s = ServerStatus_disabled ->
     unhealthy_view tz now s ∈ UnhealthyServers tz now servers) /\
  forall fmt r logs, bucket10m tz logs <> Err "RangeError" -> exists v,
    ObservabilityView.page tz now fmt r (Answered logs) Failed = Ok v /\ Card "Unhealthy Servers" "" [Text "All servers healthy"] ∈ v.
Proof.
  split_and!.
  - intros servers. split.
    + intros E s Hs. destruct (inactive s) eqn:Ha.
      * apply (inactive_listed tz now servers) in Ha; [|done]. rewrite E in Ha. by apply list_elem_of_singleton in Ha.
      * by apply negb_false_iff, bool_decide_eq_true in Ha.
    + intros H. unfold UnhealthyServers. rewrite filter_none_match; [done|]. intros s Hs. by rewrite bool_decide_true by auto.
  - intros servers s Hs Hd. apply inactive_listed; [done|]. unfold inactive. by rewrite Hd.
  - intros fmt r logs He. unfold ObservabilityView.page. cbn [View.rows is_pending orb].
    assert (exists vol, bucket10m tz logs = Ok vol) as [vol ->].
    { unfold bucket10m in *. case_bool_decide; [by eexists|]. destruct (numeric_keys _); [by eexists|done]. }
    eexists. split; [done|]. find_elem.
Qed.

Lemma one_error_group tz l :
  is_event AuditEventType_tool_call l = false -> ErrorGroupsPanel_groups tz [l] = [(group_id l, group_bump tz l None)].
Proof.
  intros H. unfold ErrorGroupsPanel_groups, errors. cbn [List.filter]. rewrite H. cbn [negb group].
  unfold group. cbn. done.
Qed.

(** Granting platform rights, or setting up an organisation, is an error of the
    page: alone in the log it makes the error rate one hundred percent, and the
    panel calls it a refusal by role. *)
Theorem admin_events_called_refusals tz now l :
  AuditLogView_event_type l = AuditEventType_platform_admin_granted \/ AuditLogView_event_type l = AuditEventType_tenant_provisioned ->
  errorRate [l] = "100.0%" /\
  exists times, ErrorGroupsPanel tz now [l] =
    [Card ("RBAC Deny — " +:+ default "unknown" (truthy_str (AuditLogView_server_slug l))) "1×" [Text times];
     Link "View all errors" "/dashboard/observability/errors"].
Proof.
  intros He. assert (is_event AuditEventType_tool_call l = false /\ bool_decide (AuditLogView_event_type l = AuditEventType_auth_failure) = false) as [Ht Ha].
  { unfold is_event. destruct He as [-> | ->]; done. }
  split.
  - unfold errorRate, errors. cbn [List.filter]. by rewrite Ht.
  - unfold ErrorGroupsPanel. rewrite one_error_group by done. eexists. cbn [map app group_view snd].
    unfold group_view, group_title. cbn [snd group_bump g_event g_servers g_count from_option default id].
    rewrite Ha. unfold set_add_str. destruct (truthy_str (AuditLogView_server_slug l)) as [s|]; [|done].
    by rewrite (bool_decide_false (s ∈ [])) by apply not_elem_of_nil.
Qed.
End ObservabilityFacts.

(** ** Properties of the telemetry page *)

(** The table has one row per install, the footer counts the same installs, and
    the reported servers are their sum; while they are fetched there is no footer. *)
Theorem telemetry_table_exact time instances :
  instances <> [] ->
  table_rows <$> TelemetryView.table time (Answered instances) = [map (TelemetryView.instance_row time) instances; []; []] /\
  shows ("Showing " +:+ show (length instances) +:+ " install" +:+ plural (Z.of_nat (length instances)))
    (TelemetryView.table time (Answered instances)) /\
  length (TelemetryView.table time Pending) = 1.
Proof.
  intros Hn. split; [by destruct instances|split; [|done]].
  apply shows_text. unfold TelemetryView.table. cbn [View.rows]. destruct instances as [|i l]; [done|].
  apply elem_of_app. right. apply list_elem_of_here.
Qed.

(** ** Properties of the usage page *)
Module UsageFacts.
Import UsageView.

(** The page agrees with itself on overage: the warning with its link, the card of
    projected requests, the card of the bill and the section below tell of one in
    exactly the same cases. *)
Theorem overage_consistent tz now money usage logs :
  let o := positive (over tz now usage logs) in
  limit_exceeded tz now usage logs = o /\ bool_decide (overage_warning tz now money usage logs = []) = negb o /\
  (o = true -> Link "Upgrade plan" "/dashboard/billing/subscription" ∈ overage_warning tz now money usage logs).
Proof.
  cbv zeta. unfold limit_exceeded, overage_warning, over, projected, overage. split_and!.
  - destruct (projectedTotal _ _ _) as [z|[]|]; cbn; [|done..].
    destruct (Z.ltb_spec (pl_requestLimit (PLAN usage)) z), (Z.ltb_spec 0 (Z.max 0 (z - pl_requestLimit (PLAN usage)))); try done; lia.
  - by destruct (positive _).
  - intros ->. find_elem.
Qed.

(** The upgrade offered is the plan one has: unless that is enterprise, the card
    names the current plan and the limits already in force. *)
Theorem upgrade_offers_current_plan money usage :
  let plan := u ← usage; p ← UsageView_plan u; p in
  (upgrade_offer money usage = [] <-> plan = Some LicensePlan_enterprise) /\
  (plan <> Some LicensePlan_enterprise -> exists what, upgrade_offer money usage = [Card ("Upgrade to " +:+ pl_name (planFromUsage usage)) what []] /\
     exists r, what = "Unlock " +:+ fmt (pl_requestLimit (planFromUsage usage)) +:+ r).
Proof.
  cbv zeta. unfold upgrade_offer, PLAN, planFromUsage. cbn [pl_name pl_requestLimit].
  destruct (u ← usage; p ← UsageView_plan u; p) as [[]|]; cbn; (split; [done|]); intros H; try done;
    eexists; (split; [reflexivity|]); by eexists.
Qed.

(** The chart "top 5" draws up to six bars. *)
Theorem user_chart_draws_six usage logs tz now :
  exists l, Card "Usage by API key (top 5)" "" [bars "count" l] ∈ usage_charts tz now usage logs /\
    length l = Nat.min 6 (length (tally (fun a => Some (user_label a)) logs)).
Proof.
  exists (makeUserUsage logs). split; [find_elem|].
  unfold makeUserUsage, top_entries. rewrite length_take. f_equal.
  apply Permutation_length. by rewrite stable_sort_perm, object_entries_perm.
Qed.

(** Four figures are constants: whatever the backend reports, the page shows the
    same trend, no members and no stored or transferred data. *)
Theorem constant_figures tz now month money usage logs servers u :
  let p := UsageView.page tz now month money usage logs servers u in
  (exists v sub, SummaryCard "Requests used" v sub (Some "+12.3% vs last month") ∈ p) /\
  SummaryCard "Team members" "0" "of 25 members" None ∈ p /\
  SummaryCard "Retention used" "0 GB" "of 50 GB (90d retention)" None ∈ p /\
  SummaryCard "Data transfer" "0 GB" "of 100 GB transferred" None ∈ p.
Proof.
  cbv zeta. unfold UsageView.page.
  assert (H : forall x, x ∈ usage_cards tz now money usage logs servers ->
            x ∈ UsageView.page tz now month money usage logs servers u).
  { intros x Hx. unfold UsageView.page. do 4 (apply elem_of_app; right). apply elem_of_app. by left. }
  split_and!; [do 2 eexists| | |]; apply H; unfold usage_cards;
    [apply list_elem_of_here|do 3 apply list_elem_of_further|do 4 apply list_elem_of_further|do 5 apply list_elem_of_further];
    apply list_elem_of_here.
Qed.

(** An organisation without a limit is told, where metering is enforced, that its
    requests are rejected at a cap of zero. *)
Theorem unlimited_told_cap_zero settings requests :
  UsageView.footer (Some (org_usage None settings requests true)) =
    "Metering is enforced for the community plan — requests are rejected once the 0 monthly cap is reached.".
Proof. reflexivity. Qed.

(** While the usage is unknown, or when its query failed, the page shows the
    community plan and takes the entries it has fetched for the requests of the month. *)
Theorem unknown_usage_guessed tz now month money logs servers u :
  let p := UsageView.page tz now month money None logs servers u in
  SummaryCard "Requests used" (fmt (Z.of_nat (length logs))) "of 1.0M limit" (Some "+12.3% vs last month") ∈ p /\
  SummaryCard "Base price" (fmtUsd money (of_Z 149)) "community plan" None ∈ p.
Proof.
  assert (H : forall x, x ∈ usage_cards tz now money None logs servers ->
            x ∈ UsageView.page tz now month money None logs servers u).
  { intros x Hx. unfold UsageView.page. do 4 (apply elem_of_app; right). apply elem_of_app. by left. }
  cbv zeta. split; apply H; unfold usage_cards; [apply list_elem_of_here|do 7 apply list_elem_of_further; apply list_elem_of_here].
Qed.

(** The identifiers of the alerts: two given ones and times of clicks up to [m]. *)
Definition ids_ok (m : Z) (ids : list string) : Prop :=
  NoDup ids /\ forall id, id ∈ ids -> id ∈ ["a1"; "a2"] \/ exists c, id = pretty c /\ (0 <= c <= m)%Z.

Lemma pretty_inj_Z (c c' : Z) : pretty c = pretty c' -> c = c'.
Proof. intros H. apply (f_equal JsInt.parseInt) in H. rewrite !JsInt.NumText.parseInt_pretty in H. congruence. Qed.

Lemma clock_not_given (c : Z) : pretty c ∉ ["a1"; "a2"].
Proof.
  intros H. assert (JsInt.parseInt (pretty c) = None) as E.
  { rewrite !elem_of_cons in H. by destruct H as [->|[->|H%elem_of_nil]]. }
  by rewrite JsInt.NumText.parseInt_pretty in E.
Qed.

(** The times of the clicks that add an alert. *)
Definition click (e : event) : option Z := match e with SubmitAlert c => Some c | _ => None end.

Lemma ids_ok_later m m' ids : (m <= m')%Z -> ids_ok m ids -> ids_ok m' ids.
Proof.
  intros Hm [Hn Hi]. split; [done|]. intros id [?|(c & -> & ?)]%Hi; [by left|]. right. exists c. split; [done|lia].
Qed.

Lemma ids_ok_sub m ids ids' : ids' `sublist_of` ids -> ids_ok m ids -> ids_ok m ids'.
Proof.
  intros Hs [Hn Hi]. split; [by eapply sublist_NoDup|]. intros id Hid. apply Hi.
  by eapply elem_of_submseteq, sublist_submseteq.
Qed.

Lemma removed_ids id l : ua_id <$> removeAlert id l `sublist_of` ua_id <$> l.
Proof.
  unfold removeAlert. induction l as [|a l IH]; cbn; [done|]. destruct (negb _); cbn; [by apply sublist_skip|by apply sublist_cons].
Qed.

Lemma toggled_ids id l : ua_id <$> toggleAlert id l = ua_id <$> l.
Proof. unfold toggleAlert. induction l as [|a l IH]; cbn; [done|]. rewrite IH. by case_bool_decide. Qed.

Lemma ids_ok_add m c t ch l : (m < c)%Z -> (0 <= c)%Z -> ids_ok m (ua_id <$> l) -> ids_ok c (ua_id <$> addAlert c t ch l).
Proof.
  intros Hm Hc [Hn Hi]. unfold addAlert. rewrite fmap_app. cbn. split.
  - apply NoDup_app. split_and!; [done| |apply NoDup_singleton].
    intros id Hid ->%list_elem_of_singleton. destruct (Hi _ Hid) as [H|(c' & ->%pretty_inj_Z & ?)]; [|lia].
    by apply clock_not_given in H.
  - intros id [Hid| ->%list_elem_of_singleton]%elem_of_app; [|right; exists c; split; [done|lia]].
    destruct (Hi _ Hid) as [?|(c' & -> & ?)]; [by left|]. right. exists c'. split; [done|lia].
Qed.

Lemma ids_ok_step js_Number m u e :
  (forall c, click e = Some c -> (m < c)%Z /\ (0 <= c)%Z) -> ids_ok m (ua_id <$> alerts u) ->
  ids_ok (default m (click e)) (ua_id <$> alerts (step js_Number u e)).
Proof.
  intros Hc Hi. destruct u as [al tg [aa th ch] [ta k v]], e; cbn [step set_alert set_tag click from_option alerts alert_d tag_d] in *;
    repeat case_bool_decide; cbn [orb]; cbn [alerts]; try done.
  - specialize (Hc _ eq_refl). apply (ids_ok_later m); [cbn; lia|done].
  - specialize (Hc _ eq_refl). apply (ids_ok_add m); [cbn; lia..|done].
  - eapply ids_ok_sub; [apply removed_ids|done].
  - by rewrite toggled_ids.
Qed.

Lemma ids_ok_run js_Number es m u :
  Sorted.StronglySorted Z.lt (m :: omap click es) -> (0 <= m)%Z -> ids_ok m (ua_id <$> alerts u) ->
  NoDup (ua_id <$> alerts (UsageView.run js_Number u es)).
Proof.
  revert m u. induction es as [|e es IH]; intros m u Hs Hm Hi; [by destruct Hi|].
  change (UsageView.run js_Number u (e :: es)) with (UsageView.run js_Number (step js_Number u e) es).
  apply Sorted.StronglySorted_inv in Hs as [Hs Hl]. cbn [omap list_omap] in Hs, Hl.
  apply (IH (default m (click e))); [| |apply ids_ok_step; [|done]].
  - change (omap click (e :: es)) with (match click e with Some c => c :: omap click es | None => omap click es end) in Hs, Hl.
    destruct (click e); cbn; [done|]. by constructor.
  - change (omap click (e :: es)) with (match click e with Some c => c :: omap click es | None => omap click es end) in Hl.
    destruct (click e); cbn; [|done]. apply Forall_cons in Hl. lia.
  - intros c Hc. change (omap click (e :: es)) with (match click e with Some c => c :: omap click es | None => omap click es end) in Hl.
    rewrite Hc in Hl. apply Forall_cons in Hl. lia.
Qed.

(** As long as alerts are added at increasing times, no two alerts ever share an
    identifier: a click on On, Off or the cross concerns the alert it is drawn on. *)
Theorem alert_ids_unique js_Number es :
  Sorted.StronglySorted Z.lt (0%Z :: omap click es) -> NoDup (ua_id <$> alerts (UsageView.run js_Number UsageView.initial es)).
Proof.
  intros Hs. apply (ids_ok_run _ _ 0); [done|lia|]. cbn. split; [|set_solver].
  repeat constructor; set_solver.
Qed.

(** The field's bounds of 1 and 100 are not enforced: any number typed becomes
    the threshold of an alert, and the channel is kept for the next one while the
    threshold returns to 80. *)
Theorem any_threshold_accepted js_Number u t clock :
  t <> "" -> let v := UsageView.run js_Number u [OpenAlert; TypeThreshold t; SubmitAlert clock] in
  alerts v = alerts u ++ [mkAlert (pretty clock) (js_Number t) (ad_channel (alert_d u)) true] /\
  alert_d v = mkAlertDraft false "80" (ad_channel (alert_d u)).
Proof. intros Ht. destruct u as [al tg [aa th ch] [ta k v]]. cbn. by rewrite bool_decide_false. Qed.
End UsageFacts.

(** ** Witnesses *)
Definition call_at (at_ outcome : string) : AuditLogView := TrafficPage.demo_log AuditEventType_tool_call at_ outcome.

Lemma error_rate_points_bounded_witness :
  exists z, point "00:00" "Error %" (TrafficView.rate (TrafficPage.mkRow "00:00" 2 1 0)) = ("00:00", [("Error %", z)]) /\ (0 <= z <= 100)%Z.
Proof.
  apply (TrafficFacts.error_rate_points_bounded 0 []
           [TrafficPage.demo_log AuditEventType_auth_failure "1970-01-01T00:00:01Z" "denied"; call_at "1970-01-01T00:09:59Z" "allowed"]
           [TrafficPage.mkRow "00:00" 2 1 0] (TrafficPage.mkRow "00:00" 2 1 0)); [by vm_compute|by vm_compute|apply list_elem_of_here].
Defined.

Lemma feed_policy_column_witness :
  last (TrafficView.feed_row 0 0 (call_at "1970-01-01T00:09:59Z" "denied")) = Some (Text "✓ allowed").
Proof.
  refine (proj2 (TrafficFacts.feed_policy_column 0 0 pretty TrafficView.initial (Answered []) Failed false _ _ _)
            (call_at "1970-01-01T00:09:59Z" "denied")); [done|reflexivity].
Defined.

Definition granted : AuditLogView := TrafficPage.demo_log AuditEventType_platform_admin_granted "1970-01-01T00:00:01Z" "allowed".

Lemma admin_events_called_refusals_witness : Observability.errorRate [granted] = "100.0%".
Proof. apply (ObservabilityFacts.admin_events_called_refusals 0 0 granted). by left. Defined.

Definition install : InstanceView := mkInstanceView "i-1" "1.2.0" 3 "2026-01-01T00:00:00Z" "2026-02-01T00:00:00Z".

Lemma telemetry_table_exact_witness :
  shows "Showing 1 install" (TelemetryView.table (fun s => s) (Answered [install])).
Proof. apply (telemetry_table_exact (fun s => s) [install]). done. Defined.

Lemma alert_ids_unique_witness :
  NoDup (ua_id <$> UsageView.alerts (UsageView.run (fun _ => 90%Z) UsageView.initial
    [UsageView.OpenAlert; UsageView.SubmitAlert 5; UsageView.RemoveAlert "a1"; UsageView.SubmitAlert 9])).
Proof. apply UsageFacts.alert_ids_unique. repeat constructor; lia. Defined.

Lemma any_threshold_accepted_witness :
  UsageView.alerts (UsageView.run (fun _ => 500%Z) (UsageView.mkUi [] [] (UsageView.mkAlertDraft false "80" "slack") (UsageView.mkTagDraft false "" ""))
     [UsageView.OpenAlert; UsageView.TypeThreshold "500"; UsageView.SubmitAlert 7]) = [mkAlert "7" 500 "slack" true].
Proof.
  apply (UsageFacts.any_threshold_accepted (fun _ => 500%Z)
           (UsageView.mkUi [] [] (UsageView.mkAlertDraft false "80" "slack") (UsageView.mkTagDraft false "" "")) "500" 7). done.
Defined.
