(* ===== verification/OlderRolesView.v ===== *)
(** * The older roles page as shown: web/src/app/dashboard/roles/page.tsx

    - [PermissionDialog], [AssignDialog]: the two dialogs of a role's row
    - [RoleRowView]: the row, with the permissions and members added since it was drawn
    - [RolesPageView]: the page with its built-in roles and the form of a new role

    The requests, and what the backend makes of them, are [OlderRoles]. *)

From S2P Require Import Prelude JsString Json JsDate JsInt RelTime ApiTypes OlderRoles View.

#[local] Open Scope nat_scope.

#[local] Notation show n := (pretty (Z.of_nat n)).

Definition EffectBadge (e : PermissionEffect) : view :=
  Badge (match e with PermissionEffect_allow => "Allow" | PermissionEffect_deny => "Deny" end).

Definition PatternBadge (label : string) : view := Code label.

(** ** Adding a permission *)
Module PermissionDialog.
Import AddPermission.

(** The fields, whether the dialog is open, and whether a request is in flight. *)
Record ui := mkUi { isOpen : bool; fields : form; isPending : bool }.

Definition initial : ui := mkUi false AddPermission.initial false.

(** [Created] and [Refused] are the answers of the request. *)
Inductive event :=
  | Open | Close | PickCategory (i : nat) | TypeServer (s : string) | TypeTool (s : string)
  | PickServer (i : nat) | PickTool (i : nat) | PickEffect (e : PermissionEffect) | TypePriority (s : string)
  | Add | Created | Refused.

Definition server_suggestions : list string := ["*"; "github-*"; "db-*"; "api-*"].

Definition edit (f : form) (e : event) : form :=
  let '(mkForm s t ef p c) := f in
  match e with
  | PickCategory i => mkForm s t ef p (from_option fst c (PERMISSION_CATEGORIES !! i))
  | TypeServer s' => mkForm s' t ef p c
  | TypeTool t' => mkForm s t' ef p c
  | PickServer i => mkForm (default s (server_suggestions !! i)) t ef p c
  | PickTool i => mkForm s (default t (activePatterns f !! i)) ef p c
  | PickEffect ef' => mkForm s t ef' p c
  | TypePriority p' => mkForm s t ef p' c
  | _ => f
  end.

(** A step, and the request it sends. *)
Definition step (u : ui) (e : event) : ui * option json :=
  let '(mkUi o f pend) := u in
  match e with
  | Open => (mkUi true f pend, None)
  | Close => (mkUi false f pend, None)
  | Add => if pend then (u, None) else (mkUi o f true, Some (body f))
  | Created => (mkUi false f false, None)
  | Refused => (mkUi o f false, None)
  | _ => (mkUi o (edit f e) pend, None)
  end.

Definition run (u : ui) (es : list event) : ui := fold_left (fun u e => (step u e).1) es u.

Definition AddPermissionDialog (roleName : string) (u : ui) : list view :=
  when (isOpen u)
    ([Text ("Add Permission — " +:+ roleName); Text "Category"]
     ++ map (fun c => Button (c.1) false "setActiveCategory") PERMISSION_CATEGORIES
     ++ [Input "Server Pattern" (serverPattern (fields u)) "* or github-mcp" false]
     ++ map (fun p => Button p false "setServerPattern") server_suggestions
     ++ [Input "Tool Pattern" (toolPattern (fields u)) "* or read_*" false]
     ++ map (fun p => Button p false "setToolPattern") (activePatterns (fields u))
     ++ [Text "Effect"; Button "allow" false "setEffect"; Button "deny" false "setEffect";
         Input "Priority" (priority (fields u)) "" false; Button "Cancel" false "onClose";
         Button (if isPending u then "Adding…" else "Add Permission") (isPending u) "handleCreate"]).
End PermissionDialog.

(** ** Assigning a member *)
Module AssignDialog.
Import AssignMember.

(** [Assigned] and [Refused] are the answers of the request. *)
Record ui := mkUi { isOpen : bool; selectedKeyId : string; inFlight : option LocalBinding }.

Definition initial : ui := mkUi false "" None.

Inductive event := Open | Close | Pick (id : string) | Assign | Assigned | Refused.

Section dialog.
Context (roleId : string) (keys : list ApiKeyView).

(** A step, the request it sends, and the binding handed to the row. *)
Definition step (u : ui) (e : event) : ui * option json * option LocalBinding :=
  let '(mkUi o k fl) := u in
  match e with
  | Open => (mkUi true k fl, None, None)
  | Close => (mkUi false k fl, None, None)
  | Pick id => (mkUi o id fl, None, None)
  | Assign =>
      match bool_decide (k = "") || bool_decide (is_Some fl), handleAssign roleId keys k with
      | false, Some (req, b) => (mkUi o k (Some b), Some req, None)
      | _, _ => (u, None, None)
      end
  | Assigned => (mkUi (match fl with Some _ => false | None => o end) k None, None, fl)
  | Refused => (mkUi o k None, None, None)
  end.

Definition key_row (u : ui) (k : ApiKeyView) : view :=
  Card (ApiKeyView_name k) (ApiKeyView_key_prefix k +:+ "…")
    (Button (ApiKeyView_name k) false ("setSelectedKeyId " +:+ ApiKeyView_id k)
     :: when (bool_decide (selectedKeyId u = ApiKeyView_id k)) [Badge "selected"]).

Definition assign_disabled (u : ui) : bool := bool_decide (selectedKeyId u = "") || bool_decide (is_Some (inFlight u)).

Definition AssignMemberDialog (roleName : string) (u : ui) : list view :=
  when (isOpen u)
    ([Text ("Assign Member — " +:+ roleName); Text "API Key / Member"] ++ map (key_row u) keys
     ++ when (bool_decide (keys = [])) [Text "No API keys found. Create one first."]
     ++ [Button "Cancel" false "onClose";
         Button (if bool_decide (is_Some (inFlight u)) then "Assigning…" else "Assign") (assign_disabled u) "handleAssign"]).
End dialog.
End AssignDialog.

(** ** A role's row *)
Module RoleRowView.
Import AssignMember.

(** [addD] and [assignD] are the row's dialogs; a removal in flight is not shown. *)
Record ui := mkUi {
  expanded : bool; localPerms : list ToolPermissionView; localBindings : list LocalBinding;
  addD : PermissionDialog.ui; assignD : AssignDialog.ui }.

Definition mount : ui := mkUi false [] [] PermissionDialog.initial AssignDialog.initial.

(** [PermissionCreated] carries the answer of the addition, [Removed] the id of a
    removal that succeeded. *)
Inductive event :=
  | ToggleRow | InPermission (e : PermissionDialog.event) | PermissionCreated (p : ToolPermissionView)
  | InAssign (e : AssignDialog.event) | Removed (id : string).

Section row.
Context (role : RoleView) (keys : list ApiKeyView).

Definition step (u : ui) (e : event) : ui :=
  let '(mkUi x ps bs ad asg) := u in
  match e with
  | ToggleRow => mkUi (negb x) ps bs ad asg
  | InPermission pe => mkUi x ps bs (PermissionDialog.step ad pe).1 asg
  | PermissionCreated p => mkUi x (ps ++ [p]) bs (PermissionDialog.step ad PermissionDialog.Created).1 asg
  | InAssign ae =>
      let '(asg', _, b) := AssignDialog.step (RoleView_id role) keys asg ae in
      mkUi x ps (bs ++ match b with Some b => [b] | None => [] end) ad asg'
  | Removed id => mkUi x (Row.drop id ps) bs ad asg
  end.

Definition run (u : ui) (es : list event) : ui := fold_left step es u.

Context (tz now : Z).

Definition permission_view (p : ToolPermissionView) : view :=
  Card (ToolPermissionView_server_pattern p) (ToolPermissionView_tool_pattern p)
    [PatternBadge (ToolPermissionView_server_pattern p); Text "→"; PatternBadge (ToolPermissionView_tool_pattern p);
     EffectBadge (ToolPermissionView_effect p); Button "" false ("removePerm " +:+ ToolPermissionView_id p)].

Definition row_header (active : bool) (u : ui) : list view :=
  [Button (RoleView_name role) false "setExpanded";
   Text ("Created " +:+ roles_relativeTime tz now (RoleView_created_at role) +:+ " · " +:+ show (length (localPerms u))
         +:+ " permissions · " +:+ show (length (localBindings u)) +:+ " members")]
  ++ when active [Badge "Active"] ++ [Button "Permission" false "setAddPermOpen"; Button "Member" false "setAssignOpen"].

Definition permissions_block (u : ui) : view :=
  Card ("Tool Permissions (" +:+ show (length (localPerms u)) +:+ ")") ""
    match localPerms u with
    | [] => [Text "No permissions added yet."; Button "Add one →" false "setAddPermOpen"]
    | l => map permission_view l
    end.

Definition members_block (u : ui) : view :=
  Card ("Assigned Members (" +:+ show (length (localBindings u)) +:+ ")") ""
    match localBindings u with
    | [] => [Text "No members assigned yet."; Button "Assign one →" false "setAssignOpen"]
    | l => map (fun b => Text (lb_keyName b)) l
    end.

Definition CustomRoleRow (active : bool) (u : ui) : list view :=
  row_header active u ++ when (expanded u) [permissions_block u; members_block u]
  ++ PermissionDialog.AddPermissionDialog (RoleView_name role) (addD u)
  ++ AssignDialog.AssignMemberDialog keys (RoleView_name role) (assignD u).
End row.
End RoleRowView.

(** ** The page *)
Module RolesPageView.

(** [creating] is the name as it was typed when the request in flight was sent. *)
Record ui := mkUi { createOpen : bool; newRoleName : string; creating : option string }.

Definition initial : ui := mkUi false "" None.

Inductive event := OpenCreate | SetOpen (b : bool) | TypeName (s : string) | Submit | Created | Refused.

(** A step, the request it sends and the message it shows. *)
Definition step (u : ui) (e : event) : ui * option json * option string :=
  let '(mkUi o n c) := u in
  match e with
  | OpenCreate => (mkUi true n c, None, None)
  | SetOpen b => (mkUi b n c, None, None)
  | TypeName s => (mkUi o s c, None, None)
  | Submit =>
      match c, handleCreateRole n with
      | None, Some b => (mkUi o n (Some n), Some b, None)
      | _, _ => (u, None, None)
      end
  | Created =>
      match c with
      | Some sent => (mkUi false "" None, None, Some ("Role " +:+ dquote +:+ sent +:+ dquote +:+ " created"))
      | None => (u, None, None)
      end
  | Refused => (mkUi o n None, None, if c then Some "Failed to create role" else None)
  end.

(** What the built-in roles say of themselves. *)
Definition builtin_texts (name : string) : string * string :=
  if bool_decide (name = "Admin") then
    ("Full access to all servers, tools, policies, and settings.", "Inherits all permissions. Cannot be modified.")
  else if bool_decide (name = "Developer") then
    ("Access to all MCP tool calls. No billing or member management.", "Inherits from Admin, excluding billing and member permissions.")
  else ("Can call read-only tools (read_*, list_*, get_*, search_*).", "No write or destructive tool access.").

Definition builtin_view (b : BuiltinRole) : view :=
  let '(description, inherit) := builtin_texts (br_name b) in
  Card (br_name b) "System"
    [Text description; PatternBadge (br_server_pattern b); PatternBadge (br_tool_pattern b); EffectBadge (br_effect b); Text inherit].

Definition StatCard (label value : string) (sub : option string) : view := Card label (default "" sub) [Text value].

Definition evaluation_note : view :=
  Text "Permission evaluation order: Deny rules take precedence over Allow rules at the same priority. Lower priority number = evaluated first. Built-in roles are always evaluated last as defaults.".

Definition stats (roles : list RoleView) (keys : list ApiKeyView) (audit : list (option string)) : list view :=
  [StatCard "Total Roles" (show (total_roles roles)) (Some (show (length BUILTIN_ROLES) +:+ " built-in"));
   StatCard "Custom Roles" (show (length roles)) None;
   StatCard "Active Subjects" (show (length (activeSubjectIds audit))) (Some "seen in audit log");
   StatCard "API Keys" (show (length keys)) (Some "assignable members")].

Definition create_dialog (u : ui) : list view :=
  when (createOpen u)
    [Text "Create Custom Role"; Input "Role Name *" (newRoleName u) "e.g. Backend Developer, Data Analyst" false;
     Text "After creating, expand the role to add tool permissions and assign members."; Button "Cancel" false "setCreateOpen";
     Button (if creating u then "Creating…" else "Create Role") (bool_decide (is_Some (creating u)) || bool_decide (trim (newRoleName u) = "")) "submit"].

(** [row] is the state of the row of each role. *)
Definition custom_roles (tz now : Z) (keys : list ApiKeyView) (audit : list (option string))
    (row : string -> RoleRowView.ui) (q : answer (list RoleView)) : list view :=
  if is_pending q then [Skeletons 3] else
  match View.rows q with
  | [] => [Text "No custom roles yet"; Text "Create a role to define fine-grained tool access for specific subjects.";
           Button "Create Role" false "setCreateOpen"]
  | l => flat_map (fun r => RoleRowView.CustomRoleRow r keys tz now (active_badge r audit) (row (RoleView_id r))) l
  end.

Definition RolesPage (tz now : Z) (u : ui) (row : string -> RoleRowView.ui) (q : answer (list RoleView))
    (keys : list ApiKeyView) (audit : list (option string)) : list view :=
  [Text "Roles & Permissions"; Text "Control which subjects can call which tools on which servers.";
   Button "" false "invalidateQueries"; Button "Create Role" false "setCreateOpen"]
  ++ stats (View.rows q) keys audit ++ [Text "Built-in Roles"] ++ map builtin_view BUILTIN_ROLES ++ [evaluation_note]
  ++ [Text ("Custom Roles (" +:+ show (length (View.rows q)) +:+ ")")] ++ custom_roles tz now keys audit row q ++ create_dialog u.
End RolesPageView.

(** ** Properties *)

(** The row agrees with itself: its line, the titles of its two lists and their
    rows give the same numbers, whatever was done in it. *)
Theorem row_counts_agree role keys tz now es active :
  let u := RoleRowView.run role keys RoleRowView.mount es in
  let np := length (RoleRowView.localPerms u) in let nb := length (RoleRowView.localBindings u) in
  Text ("Created " +:+ roles_relativeTime tz now (RoleView_created_at role) +:+ " · " +:+ show np +:+ " permissions · "
        +:+ show nb +:+ " members") ∈ RoleRowView.CustomRoleRow role keys tz now active u /\
  (RoleRowView.expanded u = true -> exists ps ms,
     Card ("Tool Permissions (" +:+ show np +:+ ")") "" ps ∈ RoleRowView.CustomRoleRow role keys tz now active u /\
     Card ("Assigned Members (" +:+ show nb +:+ ")") "" ms ∈ RoleRowView.CustomRoleRow role keys tz now active u /\
     (np <> 0 -> ps = map RoleRowView.permission_view (RoleRowView.localPerms u)) /\
     (nb <> 0 -> length ms = nb)).
Proof.
  cbv zeta. set (u := RoleRowView.run _ _ _ _). split.
  - unfold RoleRowView.CustomRoleRow, RoleRowView.row_header. find_elem.
  - intros He. do 2 eexists. unfold RoleRowView.CustomRoleRow. rewrite He. cbn [when]. split_and!.
    + apply elem_of_app; right. apply elem_of_app; left. apply list_elem_of_here.
    + apply elem_of_app; right. apply elem_of_app; left. apply list_elem_of_further, list_elem_of_here.
    + by destruct (RoleRowView.localPerms u).
    + destruct (RoleRowView.localBindings u); [done|]. intros _. by rewrite length_map.
Qed.

(** A row knows only what was added in it: freshly drawn, for example after the
    page was opened again, it says of every role that it has no permissions and no
    members, whatever the backend keeps for it. *)
Theorem fresh_row_claims_nothing role keys tz now active :
  let v := RoleRowView.CustomRoleRow role keys tz now active (RoleRowView.run role keys RoleRowView.mount [RoleRowView.ToggleRow]) in
  shows "No permissions added yet." v /\ shows "No members assigned yet." v.
Proof.
  assert (H : forall s b, s ∈ flat_map texts [RoleRowView.permissions_block b; RoleRowView.members_block b] ->
    forall u, u = b -> RoleRowView.expanded u = true -> shows s (RoleRowView.CustomRoleRow role keys tz now active u)).
  { intros s b Hs u -> He. unfold RoleRowView.CustomRoleRow. rewrite He, !shows_app. right. left. exact Hs. }
  cbv zeta. split; (eapply H; [|reflexivity|reflexivity]); apply list_elem_of_In; cbn; auto 10.
Qed.

(** While an addition is in flight no second one can be sent, and its success
    closes the dialog with the fields as they are, also one that was closed and
    opened again meanwhile. *)
Theorem permission_in_flight u es :
  PermissionDialog.isPending u = true -> PermissionDialog.Created ∉ es -> PermissionDialog.Refused ∉ es ->
  let v := PermissionDialog.run u es in
  PermissionDialog.isPending v = true /\ (PermissionDialog.step v PermissionDialog.Add).2 = None /\
  PermissionDialog.isOpen (PermissionDialog.step v PermissionDialog.Created).1 = false /\
  PermissionDialog.fields (PermissionDialog.step v PermissionDialog.Created).1 = PermissionDialog.fields v.
Proof.
  intros Hp Hc Hr. cbv zeta.
  assert (PermissionDialog.isPending (PermissionDialog.run u es) = true) as K.
  { revert u Hp. induction es as [|e es IH]; intros u Hp; [done|]. apply not_elem_of_cons in Hc as [? ?], Hr as [? ?].
    change (PermissionDialog.run u (e :: es)) with (PermissionDialog.run (PermissionDialog.step u e).1 es).
    apply IH; [done..|]. destruct u as [o f p]. cbn in Hp. subst p. by destruct e. }
  destruct (PermissionDialog.run u es) as [o f p]. cbn in K. by subst p.
Qed.

(** The dialog offers exactly what can be done: the button that adds is enabled
    exactly when a click would send a request, and that request carries the fields. *)
Theorem permission_button_exact roleName u :
  PermissionDialog.isOpen u = true ->
  ("handleCreate" ∈ flat_map enabled (PermissionDialog.AddPermissionDialog roleName u)
     <-> (PermissionDialog.step u PermissionDialog.Add).2 = Some (AddPermission.body (PermissionDialog.fields u))) /\
  ("handleCreate" ∉ flat_map enabled (PermissionDialog.AddPermissionDialog roleName u)
     <-> (PermissionDialog.step u PermissionDialog.Add).2 = None).
Proof.
  destruct u as [o f p]. cbn [PermissionDialog.isOpen]. intros ->.
  assert (E : "handleCreate" ∈ flat_map enabled (PermissionDialog.AddPermissionDialog roleName (PermissionDialog.mkUi true f p)) <-> p = false).
  { unfold PermissionDialog.AddPermissionDialog, when. cbn [PermissionDialog.isOpen PermissionDialog.fields PermissionDialog.isPending].
    rewrite !flat_map_app, !elem_of_app.
    assert (N : forall (A : Type) (g : A -> string) h l, h <> "handleCreate" ->
              "handleCreate" ∈ flat_map enabled (map (fun x => Button (g x) false h) l) -> False).
    { intros A g h l Hh. rewrite elem_flat_map. intros (y & Hy & Hin). apply list_elem_of_fmap in Hy as (x & -> & _).
      cbn in Hin. apply list_elem_of_singleton in Hin. congruence. }
    split.
    - intros H. destruct p; [exfalso|done]. destruct_or! H; try (by apply N in H);
        cbn in H; repeat (apply elem_of_cons in H as [H|H]; [done|]); by apply elem_of_nil in H.
    - intros ->. do 6 right. cbn. set_solver. }
  rewrite E. destruct p; cbn; (split; split; congruence || done).
Qed.

(** A member can be picked who is no longer there: once the keys were fetched
    again without it the button stays enabled, and pressing it does nothing. *)
Theorem assign_button_dead roleId keys u :
  AssignDialog.assign_disabled u = false -> (forall k, k ∈ keys -> ApiKeyView_id k <> AssignDialog.selectedKeyId u) ->
  AssignDialog.step roleId keys u AssignDialog.Assign = (u, None, None).
Proof.
  intros Hd Hk. destruct u as [o k fl]. unfold AssignDialog.assign_disabled in Hd. cbn in Hd, Hk |- *. rewrite Hd.
  unfold AssignMember.handleAssign. destruct (List.find _ keys) as [x|] eqn:E; [|done].
  apply find_some in E as [Hx%list_elem_of_In Hi%bool_decide_eq_true]. by destruct (Hk x Hx).
Qed.

(** A pressed button assigns the picked key under its name: the request names it,
    and when it succeeds the row lists that name, even if another key was picked
    meanwhile. *)
Theorem assigned_as_requested role keys u k id :
  AssignDialog.inFlight (RoleRowView.assignD u) = None -> AssignDialog.selectedKeyId (RoleRowView.assignD u) = ApiKeyView_id k ->
  ApiKeyView_id k <> "" -> List.find (fun x => bool_decide (ApiKeyView_id x = ApiKeyView_id k)) keys = Some k ->
  let v := RoleRowView.run role keys u
             (map RoleRowView.InAssign [AssignDialog.Assign; AssignDialog.Pick id; AssignDialog.Assigned]) in
  RoleRowView.localBindings v =
    RoleRowView.localBindings u ++ [AssignMember.mkBinding (RoleView_id role) (ApiKeyView_id k) (ApiKeyView_name k)] /\
  AssignDialog.isOpen (RoleRowView.assignD v) = false.
Proof.
  destruct u as [x ps bs ad [o key fl]]. cbn [RoleRowView.assignD AssignDialog.inFlight AssignDialog.selectedKeyId].
  intros -> -> Hne Hf. cbn [map RoleRowView.run fold_left RoleRowView.step AssignDialog.step].
  rewrite (bool_decide_false (ApiKeyView_id k = "")) by done. unfold AssignMember.handleAssign. rewrite Hf. cbn.
  by rewrite !app_nil_r.
Qed.

(** The form of a new role: the button is enabled exactly when submitting sends a
    request; success closes the dialog, clears the name and reports the name that
    was sent for, with its spaces; a refusal keeps what was typed. *)
Theorem create_role_form u :
  RolesPageView.createOpen u = true ->
  ("submit" ∈ flat_map enabled (RolesPageView.create_dialog u) <-> is_Some (RolesPageView.step u RolesPageView.Submit).1.2) /\
  (forall u' b, RolesPageView.step u RolesPageView.Submit = (u', Some b, None) ->
     RolesPageView.step u' RolesPageView.Created =
       (RolesPageView.initial, None, Some ("Role " +:+ dquote +:+ RolesPageView.newRoleName u +:+ dquote +:+ " created")) /\
     RolesPageView.newRoleName (RolesPageView.step u' RolesPageView.Refused).1.1 = RolesPageView.newRoleName u /\
     b = JObj [("name", JStr (trim (RolesPageView.newRoleName u)))]).
Proof.
  destruct u as [o n c]. cbn [RolesPageView.createOpen]. intros ->. cbn [RolesPageView.step RolesPageView.newRoleName]. split.
  - unfold RolesPageView.create_dialog, when, handleCreateRole. cbn [RolesPageView.createOpen RolesPageView.newRoleName RolesPageView.creating].
    destruct c as [x|]; [rewrite (bool_decide_true (is_Some (Some x))) by eauto|rewrite (bool_decide_false (is_Some None)) by apply is_Some_None].
    + cbn. split; [set_solver|by intros [? ?]].
    + case_bool_decide; cbn; [split; [set_solver|by intros [? ?]]|split; [by eexists|set_solver]].
  - intros u' b. unfold handleCreateRole. destruct c; [done|]. case_bool_decide; [done|]. by intros [= <- <-].
Qed.

(** The number of custom roles is said three times, and agrees; while they are
    fetched, and when they could not be, it is zero. *)
Theorem role_numbers_agree tz now u row q keys audit :
  let p := RolesPageView.RolesPage tz now u row q keys audit in let n := length (View.rows q) in
  RolesPageView.StatCard "Custom Roles" (show n) None ∈ p /\ RolesPageView.StatCard "Total Roles" (show (3 + n)) (Some "3 built-in") ∈ p /\
  Text ("Custom Roles (" +:+ show n +:+ ")") ∈ p /\ (q = Failed -> n = 0 /\ shows "No custom roles yet" p).
Proof.
  cbv zeta. unfold RolesPageView.RolesPage. split_and!.
  - apply elem_of_app; right. apply elem_of_app; left. apply list_elem_of_further, list_elem_of_here.
  - apply elem_of_app; right. apply elem_of_app; left. apply list_elem_of_here.
  - do 5 (apply elem_of_app; right). apply elem_of_app; left. apply list_elem_of_here.
  - intros ->. split; [done|]. rewrite !shows_app. do 6 right. left. apply shows_text, list_elem_of_here.
Qed.

(** ** Witnesses *)
Definition some_key (id name : string) : ApiKeyView := mkApiKeyView id name "pk_" [] "" None.
Definition some_role : RoleView := mkRoleView "r" "backend" "2026-01-01T00:00:00Z".

Lemma permission_in_flight_witness :
  PermissionDialog.isPending (PermissionDialog.run (PermissionDialog.mkUi true AddPermission.initial true)
    [PermissionDialog.Close; PermissionDialog.Open; PermissionDialog.TypeTool "write_*"]) = true.
Proof. apply permission_in_flight; [reflexivity|set_solver|set_solver]. Defined.

Lemma permission_button_exact_witness :
  "handleCreate" ∈ flat_map enabled (PermissionDialog.AddPermissionDialog "r" (PermissionDialog.mkUi true AddPermission.initial false)).
Proof. apply permission_button_exact; reflexivity. Defined.

Lemma assign_button_dead_witness :
  AssignDialog.step "r" [some_key "k2" "b"] (AssignDialog.mkUi true "k1" None) AssignDialog.Assign = (AssignDialog.mkUi true "k1" None, None, None).
Proof. apply assign_button_dead; [reflexivity|]. by intros k ->%list_elem_of_singleton. Defined.

Lemma assigned_as_requested_witness :
  RoleRowView.localBindings (RoleRowView.run some_role [some_key "k1" "a"; some_key "k2" "b"]
    (RoleRowView.mkUi true [] [] PermissionDialog.initial (AssignDialog.mkUi true "k1" None))
    (map RoleRowView.InAssign [AssignDialog.Assign; AssignDialog.Pick "k2"; AssignDialog.Assigned])) = [AssignMember.mkBinding "r" "k1" "a"].
Proof.
  apply (assigned_as_requested some_role [some_key "k1" "a"; some_key "k2" "b"]
           (RoleRowView.mkUi true [] [] PermissionDialog.initial (AssignDialog.mkUi true "k1" None)) (some_key "k1" "a") "k2"); done.
Defined.

Lemma create_role_form_witness :
  "submit" ∈ flat_map enabled (RolesPageView.create_dialog (RolesPageView.mkUi true "backend" None)).
Proof. apply create_role_form; [done|]. by eexists. Defined.
