(* ===== verification/BuilderView.v ===== *)
(** * The policy builder as shown: web/src/app/dashboard/policies/new/page.tsx

    The eight steps of the wizard with their fields, notices and suggestions, the
    dots above and the buttons below; the machine they drive is [PolicyBuilder].
    The name of a control's handler tells which key it sets. *)

From S2P Require Import Prelude JsString Json Browser ApiTypes Tally Tools Gateway PolicyBuilder View.

#[local] Open Scope nat_scope.

Import Builder.
Import View.

Definition Field (label hint : string) (body : list view) : view := Card label hint body.

Definition text_field (label hint value placeholder : string) : view := Field label hint [View.Input label value placeholder false].

(** An option with a check mark when it is the one chosen; a click chooses it. *)
Definition OptionCard (active : bool) (handler title sub : string) : view :=
  Card title sub (Button title false handler :: when active [Badge "✓"]).

Definition chip (handler label : string) : view := Button label false handler.

(** ** The steps *)
Definition Step1 (s : WizardState) : list view :=
  [text_field "Policy Name" "A short, descriptive name for this policy" (str s name) "e.g. Backend team read-only limit";
   text_field "Description" "" (str s description) "What does this policy do and why?";
   text_field "Owner" "" (str s owner) "team or person";
   Field "Environment" "" [Select "Environment" (str s environment) ["All Environments"; "Production"; "Staging"; "Development"; "Local"]];
   text_field "Tags" "Comma-separated tags for organization" (str s tags) "backend, read-only, github"].

Definition subject_options : list (string * string * string) :=
  [("all", "All Subjects", "Applies to every authenticated request");
   ("role", "Role", "Applies to subjects bound to a specific role");
   ("api_key", "API Key", "Applies to a specific API key subject");
   ("oauth_subject", "OAuth Subject", "Applies to a specific JWT sub claim")].

Definition Step2 (s : WizardState) (roles : list RoleView) : list view :=
  [Text "Who does this policy apply to?"]
  ++ map (fun '(id, title, sub) => OptionCard (has s subjectMode id) ("set subjectMode " +:+ id) title sub) subject_options
  ++ when (has s subjectMode "role")
       [Field "Select Role" "" [Select "Select Role" (str s roleId) ("Choose a role…" :: map RoleView_name roles)]]
  ++ when (has s subjectMode "api_key" || has s subjectMode "oauth_subject")
       [text_field "Subject ID" "The UUID of the API key or the JWT sub claim" (str s subjectId) "e.g. 550e8400-e29b-41d4-a716-446655440000"].

Definition tool_chips : list string := ["*"; "read_*"; "get_*"; "list_*"; "search_*"; "create_*"; "delete_*"].

Definition wildcard_notice (s : WizardState) : bool := has s serverPattern "*" && has s toolPattern "*".

Definition WILDCARDS : string :=
  "Both server and tool patterns are wildcards. This policy will apply to all tools on all servers. Consider narrowing the scope.".

Definition Step3 (s : WizardState) (servers : list ServerView) : list view :=
  [Text "Which servers and tools does this policy apply to?";
   Field "Server Pattern" "Use * to match all servers, or a server slug pattern (e.g. github-*, prod-*)"
     (View.Input "Server Pattern" (str s serverPattern) "* (all servers)" false
      :: when (negb (bool_decide (servers = []))) (map (chip "set serverPattern") ("*" :: map ServerView_slug servers)));
   Field "Tool Pattern" "Use * to match all tools, or a pattern (e.g. read_*, get_*, create_*)"
     (View.Input "Tool Pattern" (str s toolPattern) "* (all tools)" false :: map (chip "set toolPattern") tool_chips)]
  ++ when (wildcard_notice s) [Text WILDCARDS].

Definition actions : list (string * string * string) :=
  [("allow", "Allow", "Permit matched requests to proceed");
   ("deny", "Deny", "Block matched requests with an error response");
   ("rate_limit", "Rate Limit", "Allow requests up to a configured rate threshold");
   ("log_only", "Log Only", "Allow all requests but record them for audit review")].

Definition Step4 (s : WizardState) : list view :=
  [Text "What action should this policy take when matched?"]
  ++ map (fun '(id, title, sub) => OptionCard (has s action id) ("set action " +:+ id) title sub) actions
  ++ when (is_access s)
       [Text "Allow / Deny rules require a role to be selected in the Subjects step. They will be created as tool permissions on that role."].

Definition Step5 (s : WizardState) : list view :=
  [Text (if has s action "rate_limit" then "Configure rate conditions."
         else "Add optional conditions (UI reference only — stored as metadata).")]
  ++ when (negb (has s action "rate_limit"))
       [Text "Conditional logic beyond rate limiting is not enforced by the gateway at runtime. Configure these for documentation and future enforcement."]
  ++ [text_field "Time Window Start (UTC)" "e.g. 06:00" (str s timeWindowStart) "06:00";
      text_field "Time Window End (UTC)" "e.g. 22:00" (str s timeWindowEnd) "22:00";
      text_field "Allowed IP Ranges" "CIDR notation, comma-separated (e.g. 10.0.0.0/8, 192.168.0.0/16)" (str s ipRange) "0.0.0.0/0 (all)"].

Definition num_field (label hint : string) (n : Z) : view := Field label hint [View.Input label (pretty n) "" false].

Definition Step6 (s : WizardState) : list view :=
  (if has s action "rate_limit" then
     [num_field "Request Limit" "Maximum requests allowed per window" (num s requestLimit);
      num_field "Window (seconds)" "" (num s windowSeconds);
      Field "Algorithm" "" [Select "Algorithm" (str s algorithm) ["Sliding Window"; "Token Bucket"]];
      num_field "Burst Capacity" "Extra requests allowed in bursts (0 = no burst)" (num s burstCapacity)]
   else
     [Text "Rate limiting controls only apply to rate_limit action policies. RBAC allow/deny rules take effect based on role assignment."])
  ++ [num_field "Priority" "Lower numbers = higher priority. Evaluated before higher-priority-numbered policies." (num s priority)].

Definition test_view (r : string * string) : list view :=
  [Text (if bool_decide (r.1 = "allowed") then "Request would be ALLOWED" else "Request would be DENIED"); Text (r.2)].

Definition Step7 (s : WizardState) (explanation : string) : list view :=
  [Text "Policy Preview"; Text explanation;
   text_field "Test Subject ID" "Simulate a request from this subject" (str s testSubjectId) "api-key-uuid or subject";
   text_field "Test Tool Name" "" (str s testToolName) "e.g. search_issues"; Button "Simulate Decision" false "onTest"]
  ++ from_option test_view [] (testResult s).

Definition Step8 (s : WizardState) (explanation : string) (roles : list RoleView) (isPublishing : bool) : list view :=
  [Text "Plain-Language Summary"; Text (dquote +:+ explanation +:+ dquote)]
  ++ map (fun r => Stat (r.1) (r.2)) (Step8_rows s roles) ++ map Text (warnings s)
  ++ when isPublishing [Text "Publishing policy…"].

(** ** The page *)

Definition step_content (p : page) (roles : list RoleView) (servers : list ServerView) : list view :=
  let s := pg_state p in
  let explanation := buildExplanation s roles in
  match pg_step p with
  | 1 => Step1 s | 2 => Step2 s roles | 3 => Step3 s servers | 4 => Step4 s | 5 => Step5 s | 6 => Step6 s
  | 7 => Step7 s explanation | 8 => Step8 s explanation roles (pg_isPublishing p) | _ => []
  end.

(** A dot carries its number, or a check once its step is done. *)
Definition dot (p : page) (st : nat * string) : view :=
  Button (if st.1 <? pg_step p then "✓" else pretty (Z.of_nat (st.1))) false "setStep".

Definition nav_buttons (p : page) : list view :=
  [Button "Previous" (pg_step p =? 1) "previous";
   if pg_step p <? 8 then Button "Continue" (negb (canProceed p)) "continue"
   else Button (if pg_isPublishing p then "Publishing…" else "Publish Policy") (pg_isPublishing p) "publish"].

Definition NewPolicyPage (p : page) (roles : list RoleView) (servers : list ServerView) : list view :=
  [Link "Back to Policies" "/dashboard/policies"; Text "Policy Builder"; Text "Create a new access or rate limit policy in 8 steps"]
  ++ map (dot p) STEPS
  ++ [Text ("Step " +:+ pretty (Z.of_nat (pg_step p)) +:+ " of " +:+ pretty (Z.of_nat (length STEPS)));
      Text (from_option snd "" (STEPS !! (pg_step p - 1)))]
  ++ step_content p roles servers ++ nav_buttons p.

(** ** Properties *)

Lemma reachable_step p : reachable p -> 1 <= pg_step p <= 8.
Proof. intros H. apply BuilderFacts.reachable_invariant in H. apply H. Qed.

(** The buttons below a step are enabled exactly when pressing them does something:
    going back changes the step, going on changes it, publishing sends. *)
Theorem nav_buttons_exact p :
  reachable p ->
  ("previous" ∈ flat_map enabled (nav_buttons p) <-> pg_step (handle Previous p) <> pg_step p) /\
  ("continue" ∈ flat_map enabled (nav_buttons p) <-> pg_step (handle Continue p) <> pg_step p) /\
  ("publish" ∈ flat_map enabled (nav_buttons p) <-> pg_published (handle Publish p) <> pg_published p).
Proof.
  intros Hr. pose proof (reachable_step p Hr) as Hs. unfold nav_buttons, handle.
  assert (forall (l : list WizardState) x, l ++ [x] <> l) as Hl.
  { intros l x H. apply (f_equal length) in H. rewrite length_app in H. cbn in H. lia. }
  split_and!.
  - destruct (Nat.eqb_spec (pg_step p) 1); cbn [pg_step with_step].
    + destruct (_ <? 8); cbn; [destruct (negb _)|destruct (pg_isPublishing p)]; cbn; set_solver.
    + split; [lia|]. intros _. apply list_elem_of_here.
  - destruct (Nat.ltb_spec (pg_step p) 8); cbn [andb].
    + destruct (canProceed p), (pg_step p =? 1); cbn; set_solver by lia.
    + split; [|done]. destruct (pg_step p =? 1), (pg_isPublishing p); cbn; set_solver.
  - destruct (Nat.ltb_spec (pg_step p) 8).
    + rewrite (proj2 (Nat.eqb_neq (pg_step p) 8)) by lia. cbn [andb]. split; [|done].
      destruct (pg_step p =? 1), (canProceed p); cbn; set_solver.
    + rewrite (proj2 (Nat.eqb_eq (pg_step p) 8)), (proj2 (Nat.eqb_neq (pg_step p) 1)) by lia.
      destruct (pg_isPublishing p); cbn; [set_solver|]. split; [|intros _; set_solver]. intros _. apply Hl.
Qed.

(** The dots: eight of them, those of the steps done carry a check, and a click on
    one goes to its step exactly when it carries one. *)
Theorem dots_exact p st :
  st ∈ STEPS ->
  length (map (dot p) STEPS) = 8 /\
  (st.1 <? pg_step p = true -> pg_step (handle (Dot (st.1)) p) = st.1 /\ dot p st = Button "✓" false "setStep") /\
  (st.1 <? pg_step p = false -> handle (Dot (st.1)) p = p /\ dot p st = Button (pretty (Z.of_nat (st.1))) false "setStep").
Proof.
  intros Hs. split; [done|]. unfold dot, handle.
  assert (st.1 ∈ STEPS.*1) as Hi by (apply list_elem_of_fmap; by exists st). rewrite bool_decide_true by done. cbn [andb].
  split; intros ->; done.
Qed.

(** The cards of a list that carry the check mark. *)
Definition is_checked (v : view) : bool :=
  match v with
  | Card _ _ b => existsb (fun x => match x with Badge l => bool_decide (l = "✓") | _ => false end) b
  | _ => false
  end.

Definition checked (l : list view) : list view := List.filter is_checked l.

Lemma checked_option b h t u : is_checked (OptionCard b h t u) = b.
Proof. by destruct b. Qed.

Lemma chosen_card s k h (l : list (string * string * string)) :
  NoDup ((fun a => a.1.1) <$> l) -> str s k ∈ ((fun a => a.1.1) <$> l) ->
  exists title sub, checked (map (fun '(id, title, sub) => OptionCard (has s k id) (h +:+ id) title sub) l)
    = [Card title sub [Button title false (h +:+ str s k); Badge "✓"]].
Proof.
  induction l as [|[[id title] sub] l IH]; cbn [fmap list_fmap map fst]; intros Hn Hk; [by apply elem_of_nil in Hk|].
  apply NoDup_cons in Hn as [Hid Hn]. unfold checked. cbn [List.filter]. rewrite checked_option. unfold has at 1.
  destruct (decide (str s k = id)) as [<-|Hne].
  - rewrite bool_decide_true by done. exists title, sub. rewrite filter_none_match.
    + unfold OptionCard, has. by rewrite bool_decide_true.
    + intros v Hv. apply list_elem_of_fmap in Hv as ([[id' t'] sub'] & -> & Hv). rewrite checked_option.
      apply bool_decide_eq_false. intros E. apply Hid. apply list_elem_of_fmap. exists (id', t', sub'). by split.
  - rewrite (bool_decide_false (str s k = id)) by done.
    apply elem_of_cons in Hk as [?|Hk]; [done|]. by apply IH.
Qed.

(** However the wizard was used, exactly one card carries the check mark in the
    steps of the subjects and of the action: that of the value stored. *)
Theorem one_option_checked p roles :
  reachable p ->
  (exists title sub, checked (Step4 (pg_state p)) =
     [Card title sub [Button title false ("set action " +:+ str (pg_state p) action); Badge "✓"]]) /\
  (exists title sub, checked (Step2 (pg_state p) roles) =
     [Card title sub [Button title false ("set subjectMode " +:+ str (pg_state p) subjectMode); Badge "✓"]]).
Proof.
  intros (_ & ((Hm & Ha & _) & _) & _)%BuilderFacts.reachable_invariant. set (s := pg_state p) in *. split.
  - destruct (chosen_card s action "set action " actions) as (t & u & E);
      [apply (bool_decide_unpack _); by vm_compute|exact Ha|].
    exists t, u. unfold checked, Step4 in *. rewrite !List.filter_app, E. by destruct (is_access s).
  - destruct (chosen_card s subjectMode "set subjectMode " subject_options) as (t & u & E);
      [apply (bool_decide_unpack _); by vm_compute|exact Hm|].
    exists t, u. unfold checked, Step2 in *. rewrite !List.filter_app, E.
    destruct (has s subjectMode "role"), (has s subjectMode "api_key"), (has s subjectMode "oauth_subject"); reflexivity.
Qed.

(** The two warnings about a scope of everything agree with each other, and the
    same scope written as empty patterns, which the gateway is sent as no selector
    at all, gets neither of them. *)
Theorem empty_patterns_not_warned s servers :
  (Text WILDCARDS ∈ Step3 s servers <-> BROAD ∈ warnings s) /\
  (str s serverPattern = "" -> str s toolPattern = "" ->
     toolStr s = "all tools" /\ serverStr s = "all servers" /\ Text WILDCARDS ∉ Step3 s servers /\ BROAD ∉ warnings s /\
     json_field "server_pattern" (rate_limit_body s) = Some JNull /\ json_field "tool_pattern" (rate_limit_body s) = Some JNull).
Proof.
  assert (A : Text WILDCARDS ∈ Step3 s servers <-> wildcard_notice s = true).
  { unfold Step3. rewrite elem_of_app. destruct (wildcard_notice s); cbn [when]; split; try done.
    - intros _. right. apply list_elem_of_here.
    - intros [H|H%elem_of_nil]; [|done]. repeat (apply elem_of_cons in H as [H|H]; [done|]). by apply elem_of_nil in H. }
  assert (B : BROAD ∈ warnings s <-> wildcard_notice s = true).
  { unfold warnings, wildcard_notice. destruct (has s serverPattern "*" && has s toolPattern "*");
      [split; [done|intros _; apply list_elem_of_here]|]. split; [|done].
    destruct (_ && has s subjectMode "all"), (is_access s && _ && _); cbn; intros H; exfalso;
      repeat (apply elem_of_cons in H as [H|H]; [by vm_compute in H|]); by apply elem_of_nil in H. }
  split; [by rewrite A, B|]. intros Hs Ht.
  assert (W : wildcard_notice s = false) by (unfold wildcard_notice, has; by rewrite Hs).
  rewrite A, B, W. unfold toolStr, serverStr, unset, has. rewrite Hs, Ht. split_and!; [done..| |].
  - unfold rate_limit_body. rewrite Hs. unfold opt_prop. by destruct (if has s subjectMode "all" then None else _).
  - unfold rate_limit_body. rewrite Ht. unfold opt_prop. by destruct (if has s subjectMode "all" then None else _).
Qed.

(** The result of a simulation outlives what it was computed from: whatever is
    edited afterwards, on whatever step, the test step shows it unchanged until the
    next simulation. *)
Theorem stale_simulation_shown p es roles servers r :
  testResult (pg_state p) = Some r -> Simulate ∉ es ->
  let q := fold_left (fun p e => handle e p) es p in
  testResult (pg_state q) = Some r /\
  (pg_step q = 7 -> forall v, v ∈ test_view r -> v ∈ NewPolicyPage q roles servers).
Proof.
  intros Hr He. cbv zeta.
  assert (K : testResult (pg_state (fold_left (fun p e => handle e p) es p)) = Some r).
  { revert p Hr. induction es as [|e es IH]; intros p Hr; [done|]. apply not_elem_of_cons in He as [He1 He2].
    cbn [fold_left]. apply IH; [done|].
    destruct e as [rs k v|k v| |id| | | |]; cbn [handle]; try (case_match; done); done. }
  revert K. generalize (fold_left (fun p e => handle e p) es p). intros q K. split; [exact K|]. intros H7 v Hv.
  assert (C : v ∈ step_content q roles servers).
  { unfold step_content. rewrite H7. unfold Step7. rewrite K. cbn [from_option]. apply elem_of_app. by right. }
  unfold NewPolicyPage. do 3 (apply elem_of_app; right). apply elem_of_app. by left.
Qed.

(** ** Witnesses *)
Lemma nav_buttons_exact_witness : "previous" ∉ flat_map enabled (nav_buttons start).
Proof.
  intros H. apply (nav_buttons_exact start reach_start) in H. by apply H.
Defined.

Lemma dots_exact_witness : handle (Dot 3) start = start.
Proof. apply (dots_exact start (3, "Resources")); [|reflexivity]. do 2 apply list_elem_of_further. apply list_elem_of_here. Defined.

Lemma one_option_checked_witness :
  exists title sub, checked (Step4 INIT) = [Card title sub [Button title false "set action rate_limit"; Badge "✓"]].
Proof. exact (proj1 (one_option_checked start [] reach_start)). Defined.

Lemma empty_patterns_not_warned_witness : BROAD ∉ warnings (set toolPattern "" (set serverPattern "" INIT)).
Proof. apply (empty_patterns_not_warned (set toolPattern "" (set serverPattern "" INIT)) []); reflexivity. Defined.

Lemma stale_simulation_shown_witness :
  testResult (pg_state (fold_left (fun p e => handle e p) [Builder.Input [] action "deny"]
    (mkPage 4 (simulateDecision INIT) false []))) = testResult (simulateDecision INIT).
Proof.
  eapply (stale_simulation_shown (mkPage 4 (simulateDecision INIT) false []) _ [] []); [reflexivity|set_solver].
Defined.
