(* ===== verification/ShellViews.v ===== *)
(** * The frame around the pages, and where its links lead

    - [Navigation]: the sections of the three layouts (web/src/app/dashboard,
      admin and developer, layout.tsx) and the shell (web/src/components/nav-shell.tsx)
      as shown
    - [Routes]: the pages that exist under web/src/app, and the redirects among them
    - [ErrorStates]: web/src/components/error-state.tsx
    - [ReadyDialogs]: the dialogs of web/src/components/confirm-dialog.tsx
    - [SettingsView]: web/src/app/dashboard/settings/page.tsx
    - [SubscriptionView]: web/src/app/dashboard/billing/subscription/page.tsx

    Who is signed in, and the switcher's contexts, are [SessionGate] and [NavShell]. *)

From S2P Require Import Prelude JsString Json Browser Clipboard ApiTypes AuthStore SessionGate NavShell AccessControl AccessViews.
From S2P Require Import Search Feedback SearchViews View.

#[local] Open Scope nat_scope.

(** ** Navigation *)
Module Navigation.

Definition dashboard_sections : list NavSection := [
  mkNavSection "Gateway"
    [mkNavItem "/dashboard" "Overview"; mkNavItem "/dashboard/search" "Search"; mkNavItem "/dashboard/servers" "Servers";
     mkNavItem "/dashboard/tools" "Tools"; mkNavItem "/dashboard/playground" "Playground"];
  mkNavSection "Security"
    [mkNavItem "/dashboard/policies" "Policies"; mkNavItem "/dashboard/api-keys" "API Keys";
     mkNavItem "/dashboard/rate-limits" "Rate Limits"];
  mkNavSection "Observability"
    [mkNavItem "/dashboard/traffic" "Traffic"; mkNavItem "/dashboard/analytics" "Analytics"; mkNavItem "/dashboard/audit" "Audit Log"];
  mkNavSection "Organization"
    [mkNavItem "/dashboard/access-control" "Access Control"; mkNavItem "/dashboard/alerts" "Alerts";
     mkNavItem "/dashboard/notifications" "Notifications"; mkNavItem "/dashboard/integrations" "Integrations";
     mkNavItem "/dashboard/billing" "Usage"; mkNavItem "/dashboard/settings" "Settings"]].

Definition admin_sections : list NavSection := [
  mkNavSection "Platform"
    [mkNavItem "/admin" "Overview"; mkNavItem "/admin/organizations" "Organizations"; mkNavItem "/admin/users" "Users"];
  mkNavSection "Infrastructure"
    [mkNavItem "/admin/servers" "MCP Servers"; mkNavItem "/admin/tools" "Tool Registry"; mkNavItem "/admin/policies" "Policies"];
  mkNavSection "Monitoring"
    [mkNavItem "/admin/traffic" "Traffic"; mkNavItem "/admin/audit" "Audit Logs"; mkNavItem "/admin/security" "Security";
     mkNavItem "/admin/infrastructure" "Infrastructure"; mkNavItem "/admin/telemetry" "Telemetry"];
  mkNavSection "Administration" [mkNavItem "/admin/billing" "Usage"; mkNavItem "/admin/settings" "System Settings"]].

Definition developer_sections : list NavSection := [
  mkNavSection "Workspace"
    [mkNavItem "/developer" "Home"; mkNavItem "/developer/search" "Search"; mkNavItem "/developer/servers" "Available Servers";
     mkNavItem "/developer/tools" "Tool Explorer"; mkNavItem "/developer/playground" "Playground"];
  mkNavSection "My Access"
    [mkNavItem "/developer/api-keys" "My API Keys"; mkNavItem "/developer/usage" "My Usage"; mkNavItem "/developer/logs" "Request Logs"];
  mkNavSection "Resources" [mkNavItem "/developer/docs" "Documentation"; mkNavItem "/developer/profile" "Profile"]].

(** The sections each layout hands to the shell. *)
Definition layout_sections (c : NavContext) : list NavSection :=
  match c with OrgAdmin => dashboard_sections | PlatformAdmin => admin_sections | DeveloperCtx => developer_sections end.

(** [pathname === href || (pathname.startsWith(href + "/") && href !== CONTEXT_ROOTS[context])] *)
Definition nav_active (c : NavContext) (pathname href : string) : bool :=
  bool_decide (pathname = href) || (startsWith pathname (href +:+ "/") && negb (bool_decide (href = CONTEXT_ROOTS c))).

(** The shell's own state; the switcher's dropdown has its own. *)
Record ui := mkUi { collapsed : bool; cmdOpen : bool; notifOpen : bool; switcherOpen : bool }.

Definition initial : ui := mkUi false false false false.

Inductive event := ToggleCollapse | Key (meta ctrl : bool) (key : string) | ClosePalette | ToggleBell | CloseBell
  | ToggleSwitcher | Outside | SwitchTo (c : NavContext) | PressSearch.

(** A step, and the path it pushes. *)
Definition step (c : NavContext) (u : ui) (e : event) : ui * option string :=
  let '(mkUi co cm n s) := u in
  match e with
  | ToggleCollapse => (mkUi (negb co) cm n s, None)
  | Key meta ctrl key => (mkUi co (onKey meta ctrl key cm) n s, None)
  | ClosePalette => (mkUi co false n s, None)
  | ToggleBell => (mkUi co cm (negb n) s, None)
  | CloseBell => (mkUi co cm false s, None)
  | ToggleSwitcher => (mkUi co cm n (negb s), None)
  | Outside => (mkUi co cm n false, None)
  | SwitchTo c' => (mkUi co cm n false, Some (CONTEXT_ROOTS c'))
  | PressSearch => (u, Some (CONTEXT_ROOTS c +:+ "/search"))
  end.

Section view.
Context (context : NavContext) (pathname : string) (roles : list RoleView) (q : query_state).

Definition switcher (open_ : bool) : result string (list view) :=
  let meta := CONTEXT_META context in
  let head := [Button (cm_label meta) false "setOpen"; Text (cm_sublabel meta)] in
  if open_ then
    match ContextSwitcher_rows context roles q with
    | Err e => Err e
    | Ok l => Ok (head ++ flat_map (fun r => Button (row_label r) false ("switchTo " +:+ row_target r) :: when (row_current r) [Badge "✓"]) l)
    end
  else Ok head.

(** An item's label is hidden in the narrow form, where it is the link's title; the
    current one is marked. *)
Definition nav_item (narrow : bool) (i : NavItem) : list view :=
  Link (if narrow then "" else ni_label i) (ni_href i) :: when (nav_active context pathname (ni_href i)) [Badge "current"].

Definition nav_section (narrow : bool) (s : NavSection) : list view :=
  when (negb narrow) [Text (ns_label s)] ++ flat_map (nav_item narrow) (ns_items s).

Definition sidebar (u : ui) : result string (list view) :=
  let brand := when (negb (collapsed u)) [Text "Portcullis"; Text "MCP Gateway"] in
  let items := flat_map (nav_section (collapsed u)) (layout_sections context) in
  let foot := [Button (if collapsed u then "" else "Sign out") false "signOut";
               Button (if collapsed u then "" else "Collapse") false "setCollapsed"] in
  if collapsed u then Ok (brand ++ items ++ foot) else
  match switcher (switcherOpen u) with
  | Err e => Err e
  | Ok s => Ok (brand ++ s ++ items ++ foot)
  end.

Definition top_bar : list view :=
  [Button "Search…" false "search"]
  ++ when (negb (bool_decide (roles = [])))
       [Text (pretty (Z.of_nat (length roles)) +:+ " role" +:+ plural (Z.of_nat (length roles)))]
  ++ BellView.shell_bell ++ [Text "A"].

Definition NavShellView (u : ui) (children : list view) : result string (list view) :=
  match sidebar u with Err e => Err e | Ok s => Ok (s ++ top_bar ++ children) end.
End view.
End Navigation.

(** ** Pages and redirects *)
Module Routes.

(** The directories of web/src/app that hold a page, as lists of segments; [None]
    is a segment in brackets. *)
Definition PAGES : list (list (option string)) :=
  map (map (fun s => if bool_decide (s = "[]") then None else Some s))
   ([[]; ["login"]; ["register"]; ["onboarding"]; ["sso-callback"]; ["privacy"]; ["terms"];
     ["auth"; "forgot-password"]; ["auth"; "mfa"]; ["admin"]; ["developer"]; ["dashboard"]]
    ++ map (fun p => ["admin"; p])
         ["audit"; "billing"; "infrastructure"; "organizations"; "policies"; "security"; "servers"; "settings"; "telemetry";
          "tools"; "traffic"; "users"]
    ++ map (fun p => ["developer"; p])
         ["api-keys"; "docs"; "logs"; "playground"; "profile"; "search"; "servers"; "tools"; "usage"]
    ++ map (fun p => ["dashboard"; p])
         ["access-control"; "alerts"; "analytics"; "api-keys"; "audit"; "billing"; "integrations"; "logs"; "members";
          "notifications"; "observability"; "playground"; "policies"; "rate-limits"; "roles"; "search"; "servers"; "settings";
          "team"; "teams"; "tools"; "traffic"]
    ++ [["dashboard"; "alerts"; "incidents"]; ["dashboard"; "alerts"; "incidents"; "[]"]; ["dashboard"; "billing"; "subscription"];
        ["dashboard"; "billing"; "usage"]; ["dashboard"; "observability"; "errors"]; ["dashboard"; "observability"; "traces"];
        ["dashboard"; "policies"; "new"]; ["dashboard"; "policies"; "[]"]; ["dashboard"; "servers"; "new"];
        ["dashboard"; "servers"; "[]"]; ["dashboard"; "tools"; "[]"; "[]"]]).

Fixpoint fits (pattern : list (option string)) (path : list string) : bool :=
  match pattern, path with
  | [], [] => true
  | None :: ps, s :: r => negb (bool_decide (s = "")) && fits ps r
  | Some p :: ps, s :: r => bool_decide (p = s) && fits ps r
  | _, _ => false
  end.

(** A link's path, without its query and fragment. *)
Definition path_of (href : string) : string :=
  default "" (head (split "#" (default "" (head (split "?" href))))).

Definition routed (href : string) : bool :=
  existsb (fun p => fits p (List.filter (fun s => negb (bool_decide (s = ""))) (split "/" (path_of href)))) PAGES.

(** The pages that only send on. *)
Definition redirect_of (path : string) : option string :=
  if bool_decide (path = "/dashboard/members") then Some "/dashboard/access-control?tab=members"
  else if bool_decide (path = "/dashboard/team") then Some "/dashboard/access-control?tab=roles"
  else if bool_decide (path = "/dashboard/teams") then Some "/dashboard/access-control?tab=teams"
  else if bool_decide (path = "/dashboard/billing") then Some "/dashboard/billing/usage"
  else None.
End Routes.

(** ** Error states *)
Module ErrorStates.

Record error := mkError {
  er_title : string; er_description : string; er_cause : option string; er_traceId : option string;
  er_configSaved : option bool; er_onRetry : bool; er_onEdit : bool; er_docsHref : option string }.

Record ui := mkUi { showDetails : bool; copied : bool }.

Definition initial : ui := mkUi false false.

(** [CopyTrace] carries the page it is pressed in; [Elapsed] is a timer of 1.8
    seconds that runs out. *)
Inductive event := ToggleDetails | CopyTrace (d : Dom) | Elapsed.

Definition given (o : option string) : option string :=
  match o with Some s => if bool_decide (s = "") then None else Some s | None => None end.

(** A step, with the page as the copy left it. *)
Definition step (e : error) (u : ui) (ev : event) : ui * option Dom :=
  match ev with
  | ToggleDetails => (mkUi (negb (showDetails u)) (copied u), None)
  | CopyTrace d =>
      match given (er_traceId e) with
      | Some t => let '(ok, d') := copyToClipboard t d in (if ok then mkUi (showDetails u) true else u, Some d')
      | None => (u, None)
      end
  | Elapsed => (mkUi (showDetails u) false, None)
  end.

Definition saved_notice (saved : bool) : list view :=
  if saved then [Text "✓ Configuration was saved."; Text "Your settings have been persisted and will apply on next connection."]
  else [Text "⚠ Configuration was not saved."; Text "Please try again — no changes were written."].

Definition opt_view {A} (o : option A) (f : A -> list view) : list view := match o with Some a => f a | None => [] end.

Definition ErrorState (e : error) (u : ui) : list view :=
  [Text (er_title e); Text (er_description e)]
  ++ opt_view (given (er_cause e)) (fun c => [Text ("Possible cause: " +:+ c)])
  ++ opt_view (er_configSaved e) saved_notice
  ++ when (er_onRetry e) [Button "Retry" false "onRetry"] ++ when (er_onEdit e) [Button "Edit connection" false "onEdit"]
  ++ opt_view (given (er_docsHref e)) (fun h => [Link "Open documentation" h])
  ++ opt_view (given (er_traceId e)) (fun t =>
       Button "View technical details" false "setShowDetails"
       :: when (showDetails u) [Text "Trace ID"; Code t; Button (if copied u then "Copied" else "Copy") false "copyTrace"]).

Definition ServerConnectionError (serverSlug : string) (traceId : option string) (onRetry onEdit : bool) : error :=
  mkError ("Could not connect to " +:+ serverSlug)
    "Portcullis could not connect to this MCP server. The connection timed out after 10 seconds."
    (Some "Verify the server URL is reachable, the network allows outbound connections on this port, and the authentication credentials are correct.")
    traceId (Some false) onRetry onEdit (Some "/developer/docs?topic=server-connection").

Definition HealthCheckError (serverSlug : string) (failures : Z) (traceId : option string) (onRetry : bool) : error :=
  mkError ("Health check failing — " +:+ serverSlug)
    ("This server has failed " +:+ pretty failures +:+ " consecutive health check" +:+ plural failures
     +:+ ". Tools on this server may be unavailable.")
    (Some "The server process may have crashed, be under high load, or the health check path may have changed.")
    traceId None onRetry false (Some "/developer/docs?topic=health-checks").

Definition api_cause (statusCode : Z) : option string :=
  if (statusCode =? 401)%Z then Some "Your session may have expired. Try signing out and back in."
  else if (statusCode =? 403)%Z then Some "Your role doesn't have permission to perform this action."
  else if (500 <=? statusCode)%Z then Some "The server encountered an unexpected error. This is not a problem with your request."
  else None.

Definition ApiError (statusCode : Z) (message : string) (traceId : option string) (onRetry : bool) : error :=
  mkError ("Request failed (" +:+ pretty statusCode +:+ ")") message (api_cause statusCode) traceId None onRetry false None.
End ErrorStates.

(** ** The ready-made confirmations *)
Module ReadyDialogs.
Import Confirm ConfirmView.

Section dialogs.
Context (s : state).

Definition DeleteServerDialog (serverSlug : string) : list view :=
  ConfirmDialog ("Delete " +:+ serverSlug)
    "This server and all its associated configuration will be permanently removed. This action cannot be undone."
    ["All tool permission rules for this server will be deleted"; "Active API keys scoped to this server will stop working";
     "Historical audit logs will be retained but the server won't be resolvable"]
    (Some (DeleteServerDialog_text serverSlug)) "Delete server" "Cancel" s.

Definition RevokeAllKeysDialog : list view :=
  ConfirmDialog "Revoke all API keys"
    "All active API keys in this organization will be immediately revoked. Any integrations or CI/CD pipelines using these keys will stop working."
    ["All in-flight requests using a revoked key will return 401"; "Automated systems will need new keys to resume operation";
     "This affects all members' keys, not just yours"]
    (Some RevokeAllKeysDialog_text) "Revoke all keys" "Cancel" s.

Definition DisableToolDialog (toolName environment : string) : list view :=
  ConfirmDialog ("Disable " +:+ toolName +:+ " in " +:+ environment)
    ("Disabling this tool in " +:+ environment +:+ " will immediately prevent all callers from invoking it, regardless of their role or permissions.")
    ["Callers will receive a policy-denied error immediately"; "No data will be lost, but in-progress operations may fail";
     "The tool can be re-enabled at any time"]
    (Some (DisableToolDialog_text environment)) "Disable tool" "Cancel" s.

Definition RemoveOrganizationDialog (orgName : string) : list view :=
  ConfirmDialog ("Remove " +:+ orgName)
    "This organization and all its data will be permanently deleted. This action cannot be undone and affects all members."
    ["All servers, tools, and policies will be deleted"; "All API keys will be immediately revoked";
     "All audit logs and billing history will be erased"; "All team members will lose access immediately"]
    (Some (RemoveOrganizationDialog_text orgName)) "Remove organization" "Cancel" s.
End dialogs.
End ReadyDialogs.

(** ** Settings *)
Module SettingsView.

Record ui := mkUi { gatewayName : string; description : string; defaultDeny : bool; requireAuth : bool; saving : bool }.

Definition initial : ui := mkUi "My Portcullis Gateway" "" false false false.

(** [Saved] is the end of the pause of 600 milliseconds; [Reset] carries the
    answer to [confirm]. *)
Inductive event := TypeName (s : string) | TypeDescription (s : string) | ToggleDeny | ToggleAuth | Save | Saved | Reset (yes : bool).

(** What a step says; there is nothing it sends or stores. *)
Inductive toast := Success (s : string) | Failure (s : string).

Definition step (u : ui) (e : event) : ui * list toast :=
  let '(mkUi n d dd ra sv) := u in
  match e with
  | TypeName s => (mkUi s d dd ra sv, [])
  | TypeDescription s => (mkUi n s dd ra sv, [])
  | ToggleDeny => (mkUi n d (negb dd) ra sv, [])
  | ToggleAuth => (mkUi n d dd (negb ra) sv, [])
  | Save => (if sv then u else mkUi n d dd ra true, [])
  | Saved => if sv then (mkUi n d dd ra false, [Success "Settings saved"]) else (u, [])
  | Reset yes => (u, if yes then [Failure "All policies have been reset"] else [])
  end.

Fixpoint run (u : ui) (es : list event) : ui * list toast :=
  match es with
  | [] => (u, [])
  | e :: r => let '(u1, t1) := step u e in let '(u2, t2) := run u1 r in (u2, t1 ++ t2)
  end.

Definition toggle (title text : string) (on : bool) (handler : string) : view :=
  Card title text [Button (if on then "on" else "off") false handler].

Definition SettingsPage (u : ui) : list view :=
  [Text "Demo"; Text "— settings are UI-only until the backend config API lands."; Text "Settings";
   Text "Configure your Portcullis gateway preferences";
   Card "Gateway Settings" "Basic identity and metadata for your gateway instance"
     [Input "Gateway Name" (gatewayName u) "My Portcullis Gateway" false;
      Text "Display name shown in the dashboard header and API responses.";
      Input "Description optional" (description u) "A short description of this gateway's purpose…" false];
   Card "Security" "Default enforcement behaviour for incoming requests"
     [toggle "Default deny" "Reject all requests that don't match an explicit allow rule. Recommended for production." (defaultDeny u) "setDefaultDeny";
      toggle "Require auth for all tools" "Every tool call must carry a valid API key, even for tools not marked as protected." (requireAuth u) "setRequireAuth"];
   Button (if saving u then "Saving…" else "Save Changes") (saving u) "handleSave";
   Card "Danger Zone" "Irreversible actions — proceed with caution"
     [Text "Reset All Policies"; Text "Remove all rate limit policies, access rules, and role assignments. Cannot be undone.";
      Button "Reset All Policies" false "handleReset"]].
End SettingsView.

(** ** Subscription *)
Module SubscriptionView.

Definition entitlements (l : LicenseUsageView) : view :=
  Text ("Current entitlements (" +:+ LicenseStatus_value (LicenseUsageView_status l) +:+ "): " +:+ pretty (LicenseUsageView_seat_limit l) +:+ " seats"
        +:+ match LicenseUsageView_server_limit l with Some n => ", " +:+ pretty n +:+ " servers" | None => ", unlimited servers" end).

(** The license, [null] for an organisation that has none; an error's answer has
    none either. *)
Definition license_of (q : answer (option LicenseUsageView)) : option LicenseUsageView := match q with Answered l => l | _ => None end.

Definition SubscriptionPage (q : answer (option LicenseUsageView)) : list view :=
  let license := license_of q in
  [Text "Open Source"; Text "Portcullis is free and open source under Apache 2.0. No subscription, no payment method, no invoices.";
   Text "Apache 2.0 — Free Forever"]
  ++ match license with Some l => [Badge ("plan: " +:+ LicensePlan_value (LicenseUsageView_plan l))] | None => [] end
  ++ [Text "Unlimited servers, tools, and API keys — self-hosted, no seat limits enforced in code.";
      Text "Commercial product is Portcullis Cloud (managed hosting), not unlocked features.";
      Text "License: Apache-2.0 — see LICENSE and docs/strategy.md."]
  ++ match license with Some l => [entitlements l] | None => [] end
  ++ [Link "View on GitHub" "https://github.com/wisdom-dosoo/portcullis"; Link "View Usage" "/dashboard/billing/usage"]
  ++ when (is_pending q) [Text "Loading entitlements…"].

(** The backend's gate ([api/app/auth/licenses.py], [require_license]): whether an
    organisation may have so many users or servers; [expired] is the comparison of
    the expiry with the present. *)
Definition require_license (license : option LicenseUsageView) (expired : bool) (users servers : Z) : result string unit :=
  match license with
  | None => Ok tt
  | Some l =>
      if negb (bool_decide (LicenseUsageView_status l = LicenseStatus_active)) then Err "license is not active"
      else if expired then Err "license expired"
      else if (LicenseUsageView_seat_limit l <? users)%Z
      then Err ("seat limit exceeded (" +:+ pretty users +:+ " > " +:+ pretty (LicenseUsageView_seat_limit l) +:+ ")")
      else match LicenseUsageView_server_limit l with
           | Some n => if (n <? servers)%Z
                       then Err ("server limit exceeded (" +:+ pretty servers +:+ " > " +:+ pretty n +:+ ")") else Ok tt
           | None => Ok tt
           end
  end.
End SubscriptionView.

(** ** Properties of the navigation *)
Module NavFacts.
Import Navigation.

Lemma sapp_prefix_comparable a b x y : a +:+ x = b +:+ y -> startsWith a b = true \/ startsWith b a = true.
Proof.
  revert b. induction a as [|c a IH]; intros b E.
  - right. by destruct b.
  - destruct b as [|d b]; [by left|]. rewrite !app_cons in E. injection E as -> E. destruct (IH b E) as [H|H]; [left|right].
    + apply prefix_spec in H as [t ->]. apply prefix_spec. by exists t.
    + apply prefix_spec in H as [t ->]. apply prefix_spec. by exists t.
Qed.

(** The first address lies below the second, another one that also marks pages below it. *)
Definition below (c : NavContext) (h1 h2 : string) : bool :=
  negb (bool_decide (h1 = h2)) && negb (bool_decide (h2 = CONTEXT_ROOTS c)) && startsWith (h1 +:+ "/") (h2 +:+ "/").

Lemma layouts_apart c h1 h2 :
  h1 ∈ map ni_href (allItems (layout_sections c)) -> h2 ∈ map ni_href (allItems (layout_sections c)) -> below c h1 h2 = false.
Proof.
  intros H1 H2.
  assert (forallb (fun h1 => forallb (fun h2 => negb (below c h1 h2)) (map ni_href (allItems (layout_sections c))))
            (map ni_href (allItems (layout_sections c))) = true) as H by (destruct c; vm_compute; reflexivity).
  rewrite forallb_forall in H. apply list_elem_of_In in H1, H2. specialize (H _ H1). rewrite forallb_forall in H.
  by apply negb_true_iff, H.
Qed.

Lemma below_true c h1 h2 t : h1 <> h2 -> h2 <> CONTEXT_ROOTS c -> h1 +:+ "/" = (h2 +:+ "/") +:+ t -> below c h1 h2 = true.
Proof.
  intros Hn Hr E. unfold below. rewrite !bool_decide_false by done. cbn [negb andb]. rewrite E. apply startsWith_app.
Qed.

Lemma active_spec c pathname h :
  nav_active c pathname h = true <-> pathname = h \/ (h <> CONTEXT_ROOTS c /\ exists t, pathname = (h +:+ "/") +:+ t).
Proof.
  unfold nav_active. rewrite orb_true_iff, andb_true_iff, negb_true_iff, bool_decide_eq_true, bool_decide_eq_false.
  unfold startsWith. rewrite prefix_spec. naive_solver.
Qed.

Lemma below_marked c h1 h2 t : h1 <> h2 -> h2 <> CONTEXT_ROOTS c -> h1 = (h2 +:+ "/") +:+ t -> below c h1 h2 = true.
Proof. intros Hn Hr ->. apply (below_true _ _ _ (t +:+ "/")); [done..|]. by rewrite !sapp_assoc. Qed.

(** At most one item of the navigation is marked as current, whatever page is
    open; and on the page an item leads to, that item is marked. *)
Theorem one_item_current c pathname h1 h2 :
  h1 ∈ map ni_href (allItems (layout_sections c)) -> h2 ∈ map ni_href (allItems (layout_sections c)) ->
  nav_active c h1 h1 = true /\ (nav_active c pathname h1 = true -> nav_active c pathname h2 = true -> h1 = h2).
Proof.
  intros I1 I2. split; [apply active_spec; by left|]. rewrite !active_spec. intros A1 A2.
  pose proof (layouts_apart c h1 h2 I1 I2) as N1. pose proof (layouts_apart c h2 h1 I2 I1) as N2.
  destruct (decide (h1 = h2)) as [?|Hne]; [done|exfalso].
  destruct A1 as [->|[R1 [t1 E1]]], A2 as [E2|[R2 [t2 E2]]]; [done| | |].
  - by rewrite (below_marked c h1 h2 t2) in N1.
  - subst pathname. by rewrite (below_marked c h2 h1 t1) in N2.
  - rewrite E1 in E2. apply sapp_prefix_comparable in E2 as [H|H]; apply prefix_spec in H as [t E].
    + by rewrite (below_true c h1 h2 t) in N1.
    + by rewrite (below_true c h2 h1 t) in N2.
Qed.
End NavFacts.

(** ** Properties of the routes *)
Module RouteFacts.
Import Navigation Routes.

(** What the palette's commands of a workspace lead to. *)
Definition palette_targets (c : NavContext) : list string :=
  omap Palette.cmd_href (Palette.buildCommands c) ++ omap Palette.cmd_action (Palette.buildCommands c).

Definition empty_keys : list empty_key :=
  [servers; tools; apiKeys; policies; rateLimits; team; Feedback.roles; alerts; incidents; audit; requests; integrations;
   notifications; devServers; devApiKeys].

Definition empty_targets : list string :=
  flat_map (fun k => let e := EMPTY_STATES k in omap (fun o => snd <$> o) [es_primaryAction e; es_docsAction e]) empty_keys.

(** No dead link is offered by the navigation of any workspace, by the switcher,
    by the commands of the palette, by the empty states and by the documentation
    buttons of the error states: a page answers every one of them. *)
Theorem offered_links_answered c h :
  h ∈ map ni_href (allItems (layout_sections c)) ++ [CONTEXT_ROOTS c] ++ palette_targets c ++ empty_targets
      ++ omap ErrorStates.er_docsHref [ErrorStates.ServerConnectionError "" None true true; ErrorStates.HealthCheckError "" 1 None true] ->
  routed h = true.
Proof.
  intros H. match type of H with _ ∈ ?l => assert (forallb routed l = true) as K by (destruct c; vm_compute; reflexivity) end.
  rewrite forallb_forall in K. by apply K, list_elem_of_In.
Qed.

(** The search button of the shell leads to a page in two of the three
    workspaces; the platform administrators' has no search page. *)
Theorem admin_search_leads_nowhere c u :
  exists h, (Navigation.step c u PressSearch).2 = Some h /\ (routed h = false <-> c = PlatformAdmin).
Proof. destruct c, u; eexists; (split; [reflexivity|]); by vm_compute. Qed.

(** Every redirect ends at a page that stays, and the tabs named are tabs of that
    page; the address of the team opens the roles, not the teams. *)
Theorem redirects_end path h :
  redirect_of path = Some h ->
  routed path = true /\ routed h = true /\ redirect_of (path_of h) = None /\
  (path = "/dashboard/team" -> h = "/dashboard/access-control?tab=roles" /\ AccessViews.current_tab (Some "roles") = "roles") /\
  (path = "/dashboard/members" -> AccessViews.current_tab (Some "members") = "members" /\ h = "/dashboard/access-control?tab=members").
Proof.
  unfold redirect_of. repeat case_bool_decide; intros [= <-]; subst; by vm_compute.
Qed.
End RouteFacts.

(** ** Properties of the error states, dialogs, settings and subscription *)
Module StateFacts.

(** The copy button tells the truth: it turns to "Copied" exactly when the trace's
    identifier got to the clipboard, and a copy that failed changes neither. *)
Theorem trace_copy_accurate e u d t :
  ErrorStates.given (ErrorStates.er_traceId e) = Some t -> ErrorStates.copied u = false ->
  exists d', (ErrorStates.step e u (ErrorStates.CopyTrace d)).2 = Some d' /\
    (ErrorStates.copied (ErrorStates.step e u (ErrorStates.CopyTrace d)).1 = true -> d_clipboard d' = Some t) /\
    (ErrorStates.copied (ErrorStates.step e u (ErrorStates.CopyTrace d)).1 = false -> d_clipboard d' = d_clipboard d).
Proof.
  intros Ht Hu. unfold ErrorStates.step. rewrite Ht. unfold copyToClipboard, exec_fallback.
  destruct d as [[f|] [] [[]|] clip body]; cbn;
    repeat match goal with |- context [f t] => destruct (f t) end; cbn; eexists; split_and!; try done; rewrite ?Hu; done.
Qed.

(** A second copy within 1.8 seconds is announced for less than that: the first
    one's timer takes its message away. *)
Theorem second_copy_cut_short e u d t :
  ErrorStates.given (ErrorStates.er_traceId e) = Some t -> fst (copyToClipboard t d) = true ->
  let u1 := (ErrorStates.step e u (ErrorStates.CopyTrace d)).1 in
  let u2 := (ErrorStates.step e u1 (ErrorStates.CopyTrace d)).1 in
  ErrorStates.copied u2 = true /\ ErrorStates.copied (ErrorStates.step e u2 ErrorStates.Elapsed).1 = false.
Proof.
  intros Ht Hd. cbv zeta. unfold ErrorStates.step. rewrite Ht. destruct (copyToClipboard t d) as [ok d']. cbn in Hd. by subst ok.
Qed.

(** An error names a cause for exactly the statuses 401, 403 and from 500 on, and
    it offers technical details exactly when it has a trace. *)
Theorem api_error_shows_cause status message trace retry u :
  let v := ErrorStates.ErrorState (ErrorStates.ApiError status message trace retry) u in
  (ErrorStates.api_cause status <> None <-> (status = 401 \/ status = 403 \/ 500 <= status)%Z) /\
  (forall c, ErrorStates.api_cause status = Some c -> Text ("Possible cause: " +:+ c) ∈ v) /\
  ("setShowDetails" ∈ flat_map enabled v <-> ErrorStates.given trace <> None).
Proof.
  cbv zeta. split_and!.
  - unfold ErrorStates.api_cause. destruct (Z.eqb_spec status 401), (Z.eqb_spec status 403), (Z.leb_spec 500 status);
      (split; intros K; [first [lia|by destruct K]|first [done|lia]]).
  - intros c Hc. unfold ErrorStates.ErrorState. cbn [ErrorStates.ApiError ErrorStates.er_cause]. rewrite Hc.
    unfold ErrorStates.given. rewrite bool_decide_false.
    + apply elem_of_app. right. apply elem_of_app. left. apply list_elem_of_here.
    + intros ->. unfold ErrorStates.api_cause in Hc. by repeat case_match.
  - unfold ErrorStates.ErrorState. cbn [ErrorStates.ApiError ErrorStates.er_cause ErrorStates.er_configSaved ErrorStates.er_onRetry
      ErrorStates.er_onEdit ErrorStates.er_docsHref ErrorStates.er_traceId].
    rewrite !flat_map_app, !elem_of_app.
    assert (A : "setShowDetails" ∉ flat_map enabled (ErrorStates.opt_view (ErrorStates.given (ErrorStates.api_cause status))
                  (fun c => [Text ("Possible cause: " +:+ c)]))) by (destruct (ErrorStates.given _); cbn; apply not_elem_of_nil).
    assert (B : "setShowDetails" ∉ flat_map enabled (when retry [Button "Retry" false "onRetry"])) by (destruct retry; cbn; set_solver).
    destruct (ErrorStates.given trace) as [t|]; cbn [ErrorStates.opt_view].
    + split; [done|]. intros _. do 6 right. apply list_elem_of_here.
    + split; [|done]. intros H. destruct_or! H; try done; by apply elem_of_nil in H.
Qed.

Lemma confirm_pressable title text consequences e label s :
  Confirm.open s = true -> e <> "" ->
  "onConfirm" ∈ flat_map enabled (ConfirmView.ConfirmDialog title text consequences (Some e) label "Cancel" s) <->
  Confirm.typed s = e /\ Confirm.loading s = false.
Proof.
  intros Ho He. unfold ConfirmView.ConfirmDialog. rewrite Ho, (bool_decide_false (e = "")) by done. cbn [when negb].
  rewrite !flat_map_app, !elem_of_app.
  assert (A : "onConfirm" ∉ flat_map enabled (map Text consequences)).
  { intros (y & Hy & H)%elem_flat_map. apply list_elem_of_fmap in Hy as (x & -> & _). by apply elem_of_nil in H. }
  unfold ConfirmView.confirm_disabled, Confirm.canConfirm, truthy. rewrite ?(bool_decide_false (e = "")) by done. cbn [negb].
  destruct (Confirm.loading s); [rewrite orb_true_r|rewrite orb_false_r].
  - split; [|by intros [_ ?]]. intros H. destruct_or! H; cbn in H; try done; exfalso; set_solver.
  - destruct (decide (Confirm.typed s = e)) as [->|Hn].
    + rewrite bool_decide_true by done. split; [done|]. intros _. do 3 right. cbn. set_solver.
    + rewrite bool_decide_false by congruence. split; [|by intros [? _]]. intros H. destruct_or! H; cbn in H; try done; exfalso; set_solver.
Qed.

(** The four ready-made confirmations let through exactly who typed the text they
    show, while nothing is in flight. *)
Theorem ready_dialogs_guarded s slug tool environment org :
  Confirm.open s = true ->
  let pressable v text := "onConfirm" ∈ flat_map enabled v <-> Confirm.typed s = text /\ Confirm.loading s = false in
  pressable (ReadyDialogs.DeleteServerDialog s slug) ("delete-" +:+ slug) /\
  pressable (ReadyDialogs.RevokeAllKeysDialog s) "revoke-all-keys" /\
  pressable (ReadyDialogs.DisableToolDialog s tool environment) ("disable-" +:+ environment) /\
  pressable (ReadyDialogs.RemoveOrganizationDialog s org) (Confirm.RemoveOrganizationDialog_text org).
Proof. intros Ho. cbv zeta. split_and!; by apply confirm_pressable. Qed.

(** Whatever is done on the settings page, what it reports are its own pauses: one
    message per save that ended, and the reset of all policies is announced,
    irreversibly, of settings and policies that stay as they are. *)
Theorem settings_only_announce u es :
  let count p := length (List.filter p es) in
  let saves t := length (List.filter (fun x => match x with SettingsView.Success _ => true | _ => false end) t) in
  (saves (SettingsView.run u es).2 <= count (fun e => match e with SettingsView.Saved => true | _ => false end)) /\
  (saves (SettingsView.run u es).2 <=
     count (fun e => match e with SettingsView.Save => true | _ => false end) + (if SettingsView.saving u then 1 else 0)) /\
  SettingsView.step u (SettingsView.Reset true) = (u, [SettingsView.Failure "All policies have been reset"]).
Proof.
  cbv zeta. split; [|split; [|by destruct u]].
  - revert u. induction es as [|e es IH]; intros u; [done|]. cbn [SettingsView.run].
    destruct (SettingsView.step u e) as [u1 t1] eqn:E. specialize (IH u1). destruct (SettingsView.run u1 es) as [u2 t2]. cbn [snd] in *.
    rewrite List.filter_app, length_app. destruct u as [n d dd ra [|]], e as [| | | | | |[]]; cbn in E; injection E as <- <-; cbn in *; lia.
  - revert u. induction es as [|e es IH]; intros u; [cbn; destruct (SettingsView.saving u); lia|]. cbn [SettingsView.run].
    destruct (SettingsView.step u e) as [u1 t1] eqn:E. specialize (IH u1). destruct (SettingsView.run u1 es) as [u2 t2]. cbn [snd] in *.
    rewrite List.filter_app, length_app. destruct u as [n d dd ra [|]], e as [| | | | | |[]]; cbn in E; injection E as <- <-; cbn in *; lia.
Qed.

(** The page promises an unlimited number of servers and no seat limit enforced in
    code, whatever the licence says; the backend refuses beyond the licence's
    limits, and everything once it is not active. *)
Theorem unlimited_promise_broken l users servers :
  (LicenseUsageView_seat_limit l < users)%Z \/ (exists n, LicenseUsageView_server_limit l = Some n /\ (n < servers)%Z)
    \/ LicenseUsageView_status l <> LicenseStatus_active ->
  Text "Unlimited servers, tools, and API keys — self-hosted, no seat limits enforced in code." ∈ SubscriptionView.SubscriptionPage (Answered (Some l)) /\
  exists why, SubscriptionView.require_license (Some l) false users servers = Err why.
Proof.
  intros H. split.
  - unfold SubscriptionView.SubscriptionPage. find_elem.
  - unfold SubscriptionView.require_license. case_bool_decide as Hs; cbn [negb]; [|by eexists].
    destruct (Z.ltb_spec (LicenseUsageView_seat_limit l) users); [by eexists|].
    destruct H as [?|[(n & -> & Hn)|?]]; [lia| |done]. rewrite (proj2 (Z.ltb_lt _ _) Hn). by eexists.
Qed.
End StateFacts.

(** ** Witnesses *)
Lemma one_item_current_witness :
  Navigation.nav_active OrgAdmin "/dashboard/servers/new" "/dashboard/servers" = true
  /\ Navigation.nav_active OrgAdmin "/dashboard/servers" "/dashboard/servers" = true.
Proof.
  split; [by vm_compute|].
  apply (NavFacts.one_item_current OrgAdmin "" "/dashboard/servers" "/dashboard/servers"); apply (bool_decide_unpack _); by vm_compute.
Defined.

Lemma offered_links_answered_witness : Routes.routed "/developer/docs?topic=health-checks" = true.
Proof. apply (RouteFacts.offered_links_answered OrgAdmin). apply (bool_decide_unpack _). by vm_compute. Defined.

Lemma redirects_end_witness : Routes.redirect_of (Routes.path_of "/dashboard/billing/usage") = None.
Proof. apply (RouteFacts.redirects_end "/dashboard/billing"). reflexivity. Defined.

Definition failed_call : ErrorStates.error := ErrorStates.ApiError 503 "down" (Some "t-1") true.
Definition some_page : Dom := mkDom None true (ExecReturns true) None [].

Lemma trace_copy_accurate_witness :
  exists d', (ErrorStates.step failed_call ErrorStates.initial (ErrorStates.CopyTrace some_page)).2 = Some d'.
Proof.
  destruct (StateFacts.trace_copy_accurate failed_call ErrorStates.initial some_page "t-1") as (d' & H & _); [done|done|]. by exists d'.
Defined.

Lemma second_copy_cut_short_witness :
  ErrorStates.copied (ErrorStates.step failed_call (ErrorStates.mkUi false true) ErrorStates.Elapsed).1 = false.
Proof. apply (StateFacts.second_copy_cut_short failed_call ErrorStates.initial some_page "t-1"); done. Defined.

Lemma ready_dialogs_guarded_witness :
  "onConfirm" ∈ flat_map enabled (ReadyDialogs.DeleteServerDialog (Confirm.mkState true "delete-db" false) "db").
Proof. apply (StateFacts.ready_dialogs_guarded (Confirm.mkState true "delete-db" false) "db" "t" "e" "o"); done. Defined.

Definition some_license : LicenseUsageView :=
  mkLicenseUsageView "l" LicensePlan_pro LicenseStatus_active 5 (Some 2%Z) "" "" None "" "" "" None None.

Lemma unlimited_promise_broken_witness :
  exists why, SubscriptionView.require_license (Some some_license) false 0 3 = Err why.
Proof. apply (StateFacts.unlimited_promise_broken some_license 0 3). right. left. by exists 2%Z. Defined.
