(* ===== verification/Redis.v ===== *)
(** * What the gateway uses of Redis

    The limiter and the session registry (api/app/limits, api/app/gateway) keep
    their state in Redis.  [RedisLaws] is what they rely on: the documented
    effect and reply of the commands they send, on what a key holds and until
    when.  [RefRedis] has this behaviour.  Times are seconds on one clock;
    numbers are exact where Redis and Lua compute with doubles. *)

From Stdlib Require Export QArith Qround Lqa.
From S2P Require Import Prelude.

Open Scope string_scope.

(** [redis.call] of another type's command answers WRONGTYPE; [SetNx] is
    [SET ... EX ... NX]. *)
Inductive value :=
| StringV (s : string)
| HashV (fields : gmap string Q)
| ZSetV (members : gmap string Q).

Record entry := mkEntry { e_value : value; e_deadline : option Q }.

Inductive command :=
| GET (k : string)
| SetEx (k v : string) (seconds : Z)
| SetNx (k v : string) (seconds : Z)
| DEL (k : string)
| EXPIRE (k : string) (seconds : Z)
| HMGET (k : string) (fields : list string)
| HSET (k : string) (fields : list (string * Q))
| ZREMRANGEBYSCORE (k : string) (upto : Q)
| ZCARD (k : string)
| ZADD (k : string) (score : Q) (member : string)
| ZFirst (k : string).

Inductive reply :=
| Nil
| Int (z : Z)
| Bulk (s : string)
| Numbers (l : list (option Q))
| WRONGTYPE.

Definition key_of (c : command) : string :=
  match c with
  | GET k | SetEx k _ _ | SetNx k _ _ | DEL k | EXPIRE k _ | HMGET k _ | HSET k _
  | ZREMRANGEBYSCORE k _ | ZCARD k | ZADD k _ _ | ZFirst k => k
  end.

(** What is left at [t] of what a key held. *)
Definition live (t : Q) (o : option entry) : option entry :=
  match o with
  | Some (mkEntry v (Some d)) => if Qle_bool d t then None else o
  | _ => o
  end.

(** The lowest score of a sorted set. *)
Definition lowest (m : gmap string Q) : option Q :=
  foldr (fun p acc => match acc with
                      | None => Some p.2
                      | Some a => Some (if Qle_bool p.2 a then p.2 else a)
                      end) None (map_to_list m).

Definition above (upto : Q) (m : gmap string Q) : gmap string Q :=
  filter (fun p => Qle_bool p.2 upto = false) m.

(** A set or hash without members is no key. *)
Definition zset (m : gmap string Q) (d : option Q) : option entry :=
  if bool_decide (m = ∅) then None else Some (mkEntry (ZSetV m) d).

Definition deadline (o : option entry) : option Q := e ← o; e_deadline e.

(** What the key holds after the command, and its reply. *)
Definition effect (c : command) (t : Q) (o : option entry) : option entry * reply :=
  match c, o with
  | GET _, None => (o, Nil)
  | GET _, Some (mkEntry (StringV s) _) => (o, Bulk s)
  | SetEx _ v s, _ => (live t (Some (mkEntry (StringV v) (Some (t + inject_Z s))%Q)), Int 1)
  | SetNx _ v s, None => (live t (Some (mkEntry (StringV v) (Some (t + inject_Z s))%Q)), Int 1)
  | SetNx _ _ _, Some _ => (o, Nil)
  | DEL _, None => (None, Int 0)
  | DEL _, Some _ => (None, Int 1)
  | EXPIRE _ _, None => (None, Int 0)
  | EXPIRE _ s, Some (mkEntry v _) => (live t (Some (mkEntry v (Some (t + inject_Z s))%Q)), Int 1)
  | HMGET _ fs, None => (o, Numbers ((fun _ => None) <$> fs))
  | HMGET _ fs, Some (mkEntry (HashV h) _) => (o, Numbers ((fun f => h !! f) <$> fs))
  | HSET _ fs, None => (Some (mkEntry (HashV (list_to_map (reverse fs))) None), Int (Z.of_nat (length fs)))
  | HSET _ fs, Some (mkEntry (HashV h) d) =>
      (Some (mkEntry (HashV (list_to_map (reverse fs) ∪ h)) d), Int (Z.of_nat (length fs)))
  | ZREMRANGEBYSCORE _ _, None => (o, Int 0)
  | ZREMRANGEBYSCORE _ hi, Some (mkEntry (ZSetV m) d) =>
      (zset (above hi m) d, Int (Z.of_nat (size m) - Z.of_nat (size (above hi m))))
  | ZCARD _, None => (o, Int 0)
  | ZCARD _, Some (mkEntry (ZSetV m) _) => (o, Int (Z.of_nat (size m)))
  | ZADD _ q m, None => (Some (mkEntry (ZSetV {[m := q]}) None), Int 1)
  | ZADD _ q m, Some (mkEntry (ZSetV z) d) => (Some (mkEntry (ZSetV (<[m := q]> z)) d), Int 1)
  | ZFirst _, None => (o, Numbers [])
  | ZFirst _, Some (mkEntry (ZSetV m) _) => (o, Numbers [lowest m])
  | _, Some _ => (o, WRONGTYPE)
  end.

(** ** The interface *)
Class RedisOps (R : Type) := {
  look : R -> Q -> string -> option entry;
  exec : command -> Q -> R -> R * reply }.

Class RedisLaws (R : Type) `{RedisOps R} : Prop := {
  look_later r t t' k : (t <= t')%Q -> look r t' k = live t' (look r t k);
  exec_own c t r : look (exec c t r).1 t (key_of c) = (effect c t (look r t (key_of c))).1;
  exec_other c t r k : k <> key_of c -> look (exec c t r).1 t k = look r t k;
  exec_reply c t r : (exec c t r).2 = (effect c t (look r t (key_of c))).2 }.

(** ** Scripts: commands in sequence; an error reply ends the script and undoes nothing *)
Section Scripts.
Context {R : Type} `{RedisLaws R}.

Definition script (A : Type) : Type := Q -> R -> R * option A.

Definition ret {A} (a : A) : script A := fun _ r => (r, Some a).

Definition bind {A B} (m : script A) (f : A -> script B) : script B :=
  fun t r => match m t r with
             | (r1, Some a) => f a t r1
             | (r1, None) => (r1, None)
             end.

Definition call (c : command) : script reply :=
  fun t r => match exec c t r with
             | (r1, WRONGTYPE) => (r1, None)
             | (r1, a) => (r1, Some a)
             end.

(** A script that only touches [k]. *)
Definition touches {A} (k : string) (m : script A) : Prop :=
  forall t r k', k' <> k -> look (m t r).1 t k' = look r t k'.

Lemma touches_ret {A} k (a : A) : touches k (ret a).
Proof. done. Qed.

Lemma touches_bind {A B} k (m : script A) (f : A -> script B) :
  touches k m -> (forall a, touches k (f a)) -> touches k (bind m f).
Proof.
  intros Hm Hf t r k' Hk. unfold bind. specialize (Hm t r k' Hk).
  destruct (m t r) as [r1 [a|]]; [|done]. cbn in *. by rewrite Hf.
Qed.

Lemma call_fst c t r : (call c t r).1 = (exec c t r).1.
Proof. unfold call. by destruct (exec c t r) as [r1 []]. Qed.

Lemma touches_call k c : key_of c = k -> touches k (call c).
Proof. intros <- t r k' Hk. rewrite call_fst. by apply exec_other. Qed.

(** A command's run, on what its key holds. *)
Lemma call_at c t r o o' a :
  look r t (key_of c) = o -> effect c t o = (o', a) -> a <> WRONGTYPE ->
  exists r1, call c t r = (r1, Some a) /\ look r1 t (key_of c) = o'.
Proof.
  intros <- E Ha. exists (exec c t r).1. split; [|by rewrite exec_own, E].
  unfold call. pose proof (exec_reply c t r) as Hr. rewrite E in Hr. destruct (exec c t r) as [r1 b]. cbn in *. subst b. by destruct a.
Qed.

Lemma call_wrong c t r o' :
  effect c t (look r t (key_of c)) = (o', WRONGTYPE) -> (call c t r).2 = None.
Proof.
  intros E. unfold call. pose proof (exec_reply c t r) as Hr. rewrite E in Hr. destruct (exec c t r) as [r1 b]. cbn in *. by subst b.
Qed.

(** A script whose command meets a value of another type. *)
Lemma bind_wrong {A} c (f : reply -> script A) t r o o' :
  look r t (key_of c) = o -> effect c t o = (o', WRONGTYPE) -> (bind (call c) f t r).2 = None.
Proof.
  intros <- E. unfold bind. pose proof (call_wrong c t r o' E) as Hc. destruct (call c t r) as [r1 a]. cbn in Hc. by subst a.
Qed.

Lemma look_live r t k : look r t k = live t (look r t k).
Proof. apply look_later. lra. Qed.

(** Nothing is held past its deadline. *)
Lemma look_deadline r t k v d : look r t k = Some (mkEntry v (Some d)) -> (t < d)%Q.
Proof.
  intros E. pose proof (look_live r t k) as L. rewrite E in L. cbn in L.
  destruct (Qle_bool d t) eqn:Hd; [done|]. apply Qnot_le_lt. rewrite <- Qle_bool_iff. by rewrite Hd.
Qed.
End Scripts.

Notation "'let*' x := m 'in' f" := (bind m (fun x => f)) (at level 200, x binder, m at level 100, right associativity).

#[export] Hint Resolve touches_ret touches_bind touches_call : pc.

(** ** Lemmas on sorted sets *)
Lemma Qle_bool_false a b : Qle_bool a b = false <-> (b < a)%Q.
Proof.
  split; intros Hq.
  - apply Qnot_le_lt. rewrite <- Qle_bool_iff. by rewrite Hq.
  - apply not_true_is_false. rewrite Qle_bool_iff. lra.
Qed.

Lemma above_lookup hi m k q : above hi m !! k = Some q <-> m !! k = Some q /\ (hi < q)%Q.
Proof. unfold above. rewrite map_lookup_filter_Some. cbn. by rewrite Qle_bool_false. Qed.

Lemma above_size hi m : (size (above hi m) <= size m)%nat.
Proof. apply map_subseteq_size, map_filter_subseteq. Qed.

(** The lowest score is a member's, and no member is below it. *)
Lemma lowest_spec m :
  match lowest m with
  | Some q => (exists k, m !! k = Some q) /\ forall k q', m !! k = Some q' -> (q <= q')%Q
  | None => m = ∅
  end.
Proof.
  unfold lowest.
  assert (forall l : list (string * Q),
    match foldr (fun p acc => match acc with None => Some p.2
                      | Some a => Some (if Qle_bool p.2 a then p.2 else a) end) None l with
    | Some q => (exists k, (k, q) ∈ l) /\ forall k q', (k, q') ∈ l -> (q <= q')%Q
    | None => l = []
    end) as Hl.
  { induction l as [|[k0 q0] l IH]; [done|]. cbn [foldr snd].
    destruct (foldr _ None l) as [a|]; [|subst l].
    - destruct IH as [[k Hk] Hmin]. destruct (Qle_bool q0 a) eqn:Hq.
      + apply Qle_bool_iff in Hq. split; [exists k0; by left|].
        intros k' q' [[= -> ->]|Hin]%elem_of_cons; [lra|]. specialize (Hmin _ _ Hin). lra.
      + apply Qle_bool_false in Hq. split; [exists k; by right|].
        intros k' q' [[= -> ->]|Hin]%elem_of_cons; [lra|]. by apply (Hmin k').
    - split; [exists k0; by left|]. intros k' q' [[= -> ->]|Hin]%elem_of_cons; [lra|]. by apply not_elem_of_nil in Hin. }
  specialize (Hl (map_to_list m)). destruct (foldr _ None _) as [q|].
  - destruct Hl as [[k Hk] Hmin]. split; [exists k; by apply elem_of_map_to_list|].
    intros k' q' Hin. apply (Hmin k'). by apply elem_of_map_to_list.
  - by apply map_to_list_empty_iff.
Qed.

(** ** A store with this behaviour *)
Module RefRedis.

Record store := mkStore { held : gmap string entry }.

Definition look (r : store) (t : Q) (k : string) : option entry := live t (held r !! k).

Definition exec (c : command) (t : Q) (r : store) : store * reply :=
  let '(o, a) := effect c t (look r t (key_of c)) in
  (mkStore (partial_alter (fun _ => o) (key_of c) (held r)), a).

#[global] Instance ops : RedisOps store := {| Redis.look := look; Redis.exec := exec |}.

Lemma live_live t t' o : (t <= t')%Q -> live t' (live t o) = live t' o.
Proof.
  intros Ht. destruct o as [[v [d|]]|]; [|done..]. cbn. destruct (Qle_bool d t) eqn:Hd; [|done].
  apply Qle_bool_iff in Hd. destruct (Qle_bool d t') eqn:Hd'; [done|]. apply Qle_bool_false in Hd'. lra.
Qed.

Lemma zset_live t m m' d : live t (Some (mkEntry (ZSetV m) d)) = Some (mkEntry (ZSetV m) d) -> live t (zset m' d) = zset m' d.
Proof. unfold zset. intros Hl. case_bool_decide; [done|]. destruct d as [d|]; [|done]. cbn in *. by destruct (Qle_bool d t). Qed.

(** A command leaves nothing whose time has passed. *)
Lemma effect_live c t o : live t o = o -> live t (effect c t o).1 = (effect c t o).1.
Proof.
  intros Hl. destruct c, o as [[[s0|h|m] d]|]; cbn [effect fst]; try done.
  all: rewrite ?(live_live t t) by lra; try done.
  all: try (by eapply zset_live).
  all: destruct d as [d|]; cbn in *; try done; by destruct (Qle_bool d t).
Qed.

#[global] Instance laws : RedisLaws store.
Proof.
  split; cbn [Redis.look Redis.exec ops].
  - intros r t t' k Ht. unfold look. by rewrite live_live.
  - intros c t r. unfold exec. destruct (effect c t (look r t (key_of c))) as [o a] eqn:E.
    unfold look at 1. cbn [fst held]. rewrite lookup_partial_alter_eq.
    change o with (o, a).1. rewrite <- E. apply effect_live. unfold look. rewrite live_live by lra. done.
  - intros c t r k Hk. unfold exec. destruct (effect c t _) as [o a]. unfold look. cbn [fst held].
    by rewrite lookup_partial_alter_ne.
  - intros c t r. unfold exec. by destruct (effect c t _) as [o a].
Qed.
End RefRedis.
