(* ===== verification/Limiter.v ===== *)
(** * The gateway's rate limiter (api/app/limits/redis_bucket.py)

    - the two Lua scripts, as scripts over [Redis]
    - [RateLimiter.check]: the bucket a policy's scope selects, and the typed result
    - [Facts]: what any sequence of checks lets through

    Lua's doubles are exact rationals here.  How Lua writes a time in a sorted
    set's member is a parameter, and so is what [math.random] adds: Redis seeds
    the generator anew for every script, so it is the same text each time. *)

From S2P Require Import Prelude JsString ApiTypes Gateway Redis.

Open Scope string_scope.

(** ** Keys *)

Definition plain_char (c : ascii) : ascii :=
  if bool_decide (c = ":"%char) then "_"%char
  else if bool_decide (c = "010"%char) then "_"%char
  else if bool_decide (c = "013"%char) then "_"%char else c.

Definition _sanitize_segment (value : string) (max_len : nat) : string :=
  let cleaned := stake max_len (smap plain_char value) in
  if bool_decide (cleaned = "") then "unknown" else cleaned.

Definition build_key (tenant_id subject_id server_slug tool_or_method : string) : string :=
  "rl:" +:+ tenant_id +:+ ":" +:+ _sanitize_segment subject_id 200
  +:+ ":" +:+ _sanitize_segment server_slug 100 +:+ ":" +:+ _sanitize_segment tool_or_method 200.

(** The bucket of a check, by the policy's scope. *)
Definition bucket_key (scope tenant_id subject_id server_slug tool_or_method : string) : string :=
  if bool_decide (scope = "global") then
    if bool_decide (server_slug <> "management_api") then "rl:" +:+ tenant_id +:+ ":global:" +:+ _sanitize_segment server_slug 100
    else "rl:" +:+ tenant_id +:+ ":global"
  else if bool_decide (scope = "subject") then "rl:" +:+ tenant_id +:+ ":" +:+ _sanitize_segment subject_id 200
  else if bool_decide (scope = "server") then
    "rl:" +:+ tenant_id +:+ ":" +:+ _sanitize_segment subject_id 200 +:+ ":" +:+ _sanitize_segment server_slug 100
  else build_key tenant_id subject_id server_slug tool_or_method.

(** ** The limiter *)
Record RateLimitResult := mkResult {
  allowed : bool;
  limit : Z;
  remaining : Z;
  reset_after_seconds : Q;
  retry_after_seconds : Q }.

Definition qmax (a b : Q) : Q := if Qle_bool a b then b else a.
Definition qmin (a b : Q) : Q := if Qle_bool a b then a else b.

(** One caller of the limiter, as [check] is given it. *)
Record request := mkRequest {
  rq_now : Q;
  rq_tenant : string;
  rq_subject : string;
  rq_server : string;
  rq_tool : string;
  rq_policy : Limits.EffectivePolicy }.

Definition key_for (q : request) : string :=
  bucket_key (Limits.ef_scope (rq_policy q)) (rq_tenant q) (rq_subject q) (rq_server q) (rq_tool q).

Definition capacity_of (p : Limits.EffectivePolicy) : Z := default (Limits.ef_request_limit p) (Limits.ef_burst_capacity p).

(** Tokens per second. *)
Definition rate_of (p : Limits.EffectivePolicy) : Q :=
  (inject_Z (Limits.ef_request_limit p) / inject_Z (Limits.ef_window_seconds p))%Q.

Section Limiter.
Context {R : Type} `{RedisLaws R}.

Variable tostring : Q -> string.
Variable random : string.

Definition number (a : reply) (i : nat) : option Q :=
  match a with Numbers l => mjoin (l !! i) | _ => None end.

Definition count_of (a : reply) : Z := match a with Int n => n | _ => 0 end.

(** [_TOKEN_BUCKET_LUA]: the answer is allowed, remaining and reset_after. *)
Definition token_bucket (key : string) (capacity rate now cost : Q) : script (bool * Z * Q) :=
  let* data := call (HMGET key ["tokens"; "last_refill"]) in
  let tokens := default capacity (number data 0) in
  let last_refill := default now (number data 1) in
  let elapsed := (now - last_refill)%Q in
  let tokens := qmin capacity (tokens + elapsed * rate) in
  let remaining := qmax 0 (tokens - cost) in
  let allowed := Qle_bool cost tokens in
  let tokens := if allowed then (tokens - cost)%Q else tokens in
  let ttl := (Qceiling (capacity / rate) + 1)%Z in
  let* _ := call (HSET key [("tokens", tokens); ("last_refill", now)]) in
  let* _ := call (EXPIRE key ttl) in
  ret (allowed, Qfloor remaining, ((capacity - tokens) / rate)%Q).

(** [_SLIDING_WINDOW_LUA] *)
Definition sliding_window (key : string) (limit window : Z) (now : Q) : script (bool * Z * Q) :=
  let window_start := (now - inject_Z window)%Q in
  let* _ := call (ZREMRANGEBYSCORE key window_start) in
  let* card := call (ZCARD key) in
  let count := count_of card in
  let remaining := (0 `max` (limit - count - 1))%Z in
  let allowed := (count <? limit)%Z in
  let* _ := (if allowed then
               let* _ := call (ZADD key now (tostring now +:+ random)) in
               call (EXPIRE key window)
             else ret Nil) in
  let* oldest := call (ZFirst key) in
  let reset_after := match number oldest 0 with
                     | Some score => qmax 0 (score + inject_Z window - now)
                     | None => 0%Q
                     end in
  ret (allowed, remaining, reset_after).

Definition typed (limit : Z) (answer : bool * Z * Q) : RateLimitResult :=
  let '(allowed, remaining, reset_after) := answer in
  mkResult allowed limit remaining reset_after (if allowed then 0%Q else reset_after).

Definition check_token_bucket (key : string) (policy : Limits.EffectivePolicy) (now : Q) : script RateLimitResult :=
  let* answer := token_bucket key (inject_Z (capacity_of policy)) (rate_of policy) now 1 in
  ret (typed (capacity_of policy) answer).

Definition check_sliding_window (key : string) (policy : Limits.EffectivePolicy) (now : Q) : script RateLimitResult :=
  let* answer := sliding_window key (Limits.ef_request_limit policy) (Limits.ef_window_seconds policy) now in
  ret (typed (Limits.ef_request_limit policy) answer).

(** [RateLimiter.check]; [None] is a [RedisError]. *)
Definition check (q : request) (r : R) : R * option RateLimitResult :=
  match Limits.ef_algorithm (rq_policy q) with
  | RateLimitAlgorithm_token_bucket => check_token_bucket (key_for q) (rq_policy q) (rq_now q) (rq_now q) r
  | RateLimitAlgorithm_sliding_window => check_sliding_window (key_for q) (rq_policy q) (rq_now q) (rq_now q) r
  end.

(** Every caller in turn, each with its outcome. *)
Fixpoint run (qs : list request) (r : R) : R * list (request * option RateLimitResult) :=
  match qs with
  | [] => (r, [])
  | q :: qs =>
      let '(r1, o) := check q r in
      let '(r2, os) := run qs r1 in
      (r2, (q, o) :: os)
  end.

(** ** One check *)

(** What a key holds is a sorted set's log. *)
Definition log (o : option entry) : gmap string Q :=
  match o with Some (mkEntry (ZSetV m) _) => m | _ => ∅ end.

Definition is_log (o : option entry) : Prop :=
  match o with Some (mkEntry (ZSetV m) _) => m <> ∅ | None => True | _ => False end.

Lemma log_zset m d : log (zset m d) = m.
Proof. unfold zset. case_bool_decide; by subst. Qed.

Lemma zremrange_log k now hi o :
  is_log o -> exists n, effect (ZREMRANGEBYSCORE k hi) now o = (zset (above hi (log o)) (deadline o), Int n).
Proof. intros Ho. destruct o as [[[]]|]; try done; by eexists. Qed.

Lemma zcard_zset k now m d : effect (ZCARD k) now (zset m d) = (zset m d, Int (Z.of_nat (size m))).
Proof. unfold zset. case_bool_decide; by subst. Qed.

Lemma zadd_zset k now m d q x : effect (ZADD k q x) now (zset m d) = (Some (mkEntry (ZSetV (<[x := q]> m)) (if bool_decide (m = ∅) then None else d)), Int 1).
Proof. unfold zset. case_bool_decide; by subst. Qed.

Lemma zfirst_zset k now m d : effect (ZFirst k) now (zset m d) = (zset m d, Numbers (if bool_decide (m = ∅) then [] else [lowest m])).
Proof. unfold zset. case_bool_decide; by subst. Qed.

Lemma zset_insert m x q d : Some (mkEntry (ZSetV (<[x := q]> m)) d) = zset (<[x := q]> m) d.
Proof. unfold zset. by rewrite bool_decide_false by apply insert_non_empty. Qed.

Lemma expire_live k now v d seconds :
  (0 < seconds)%Z ->
  effect (EXPIRE k seconds) now (Some (mkEntry v d)) = (Some (mkEntry v (Some (now + inject_Z seconds)%Q)), Int 1).
Proof.
  intros Hs. cbn. assert (0 < inject_Z seconds)%Q by (by rewrite <- (Zlt_Qlt 0)).
  destruct (Qle_bool _ now) eqn:E; [|done]. apply Qle_bool_iff in E. lra.
Qed.

(** The score [ZRANGE key 0 0] answers. *)
Lemma number_first (m : gmap string Q) : number (Numbers (if bool_decide (m = ∅) then [] else [lowest m])) 0 = lowest m.
Proof. case_bool_decide; [by subst|done]. Qed.

(** The sliding window's answer and the log it leaves. *)
Lemma sliding_spec key limit window now r :
  (0 < window)%Z -> is_log (look r now key) ->
  let m := above (now - inject_Z window) (log (look r now key)) in
  let allowed := (Z.of_nat (size m) <? limit)%Z in
  let after := if allowed then Some (mkEntry (ZSetV (<[tostring now +:+ random := now]> m)) (Some (now + inject_Z window)%Q))
               else zset m (deadline (look r now key)) in
  exists r1, sliding_window key limit window now now r =
    (r1, Some (allowed, (0 `max` (limit - Z.of_nat (size m) - 1))%Z,
               match lowest (log after) with
               | Some score => qmax 0 (score + inject_Z window - now)
               | None => 0%Q
               end))
  /\ look r1 now key = after.
Proof.
  intros Hw Hlog m allowed. cbv zeta.
  destruct (zremrange_log key now (now - inject_Z window) _ Hlog) as [n Hz].
  unfold sliding_window, bind, ret.
  destruct (call_at _ now r _ _ _ eq_refl Hz) as (r0 & -> & L0); [done|]. cbn [key_of] in L0.
  destruct (call_at (ZCARD key) now r0 _ _ _ L0 (zcard_zset _ _ _ _)) as (r1 & -> & L1); [done|]. cbn [key_of count_of] in L1 |- *.
  fold m. change (Z.of_nat (size m) <? limit)%Z with allowed. destruct allowed.
  - destruct (call_at (ZADD key now (tostring now +:+ random)) now r1 _ _ _ L1 (zadd_zset _ _ _ _ _ _)) as (r2 & -> & L2); [done|].
    cbn [key_of] in L2. destruct (call_at (EXPIRE key window) now r2 _ _ _ L2 (expire_live _ _ _ _ _ Hw)) as (r3 & -> & L3); [done|].
    cbn [key_of] in L3. rewrite zset_insert in L3.
    destruct (call_at (ZFirst key) now r3 _ _ _ L3 (zfirst_zset _ _ _ _)) as (r4 & -> & L4); [done|].
    cbn [key_of] in L4. rewrite number_first. exists r4. by rewrite zset_insert, log_zset.
  - destruct (call_at (ZFirst key) now r1 _ _ _ L1 (zfirst_zset _ _ _ _)) as (r4 & -> & L4); [done|].
    cbn [key_of] in L4. rewrite number_first, log_zset. by exists r4.
Qed.

(** What a key holds is a bucket's hash. *)
Definition is_bucket (o : option entry) : Prop :=
  match o with Some (mkEntry (HashV _) _) | None => True | _ => False end.

Definition hash_field (o : option entry) (f : string) : option Q :=
  match o with Some (mkEntry (HashV h) _) => h !! f | _ => None end.

(** The bucket's tokens at [now], with what has flowed in since the last check. *)
Definition refilled (capacity rate now : Q) (o : option entry) : Q :=
  qmin capacity (default capacity (hash_field o "tokens") + (now - default now (hash_field o "last_refill")) * rate).

Definition ttl_of (capacity rate : Q) : Z := (Qceiling (capacity / rate) + 1)%Z.

Lemma hmget_bucket k now o :
  is_bucket o ->
  effect (HMGET k ["tokens"; "last_refill"]) now o = (o, Numbers [hash_field o "tokens"; hash_field o "last_refill"]).
Proof. intros Ho. by destruct o as [[[]]|]. Qed.

Lemma hset_bucket k now o a b :
  is_bucket o ->
  exists h d, effect (HSET k [("tokens", a); ("last_refill", b)]) now o = (Some (mkEntry (HashV h) d), Int 2)
           /\ h !! "tokens" = Some a /\ h !! "last_refill" = Some b.
Proof.
  intros Ho. destruct o as [[[|h|] d]|]; try done; (eexists; eexists; split; [reflexivity|split]).
  1, 2: apply lookup_union_Some_l.
  all: by vm_compute.
Qed.

(** A bucket that can hold something lives at least until it is full again. *)
Lemma ttl_fills capacity rate :
  (0 < rate)%Q -> (0 <= capacity)%Q ->
  (0 < ttl_of capacity rate)%Z /\ (capacity <= inject_Z (ttl_of capacity rate) * rate)%Q.
Proof.
  intros Hr Hc. unfold ttl_of. pose proof (Qle_ceiling (capacity / rate)) as Hceil.
  assert (capacity == (capacity / rate) * rate)%Q as Heq by (field; lra).
  assert (0 <= capacity / rate)%Q as Hdiv by (apply Qle_shift_div_l; lra).
  assert (0 <= Qceiling (capacity / rate))%Z by (rewrite Zle_Qle; change (inject_Z 0) with 0%Q; lra).
  split; [lia|]. rewrite Heq at 1. apply Qmult_le_compat_r; [|lra].
  rewrite inject_Z_plus. change (inject_Z 1) with 1%Q. lra.
Qed.

(** The token bucket's answer and the bucket it leaves. *)
Lemma token_spec key capacity rate now cost r :
  (0 < rate)%Q -> (0 <= capacity)%Q -> is_bucket (look r now key) ->
  let tokens := refilled capacity rate now (look r now key) in
  let left := if Qle_bool cost tokens then (tokens - cost)%Q else tokens in
  exists r1 h, token_bucket key capacity rate now cost now r =
    (r1, Some (Qle_bool cost tokens, Qfloor (qmax 0 (tokens - cost)), ((capacity - left) / rate)%Q))
  /\ look r1 now key = Some (mkEntry (HashV h) (Some (now + inject_Z (ttl_of capacity rate))%Q))
  /\ h !! "tokens" = Some left /\ h !! "last_refill" = Some now.
Proof.
  intros Hr Hc Ho. cbv zeta. set (left := if Qle_bool cost _ then _ else _).
  destruct (ttl_fills capacity rate Hr Hc) as [Httl _].
  destruct (hset_bucket key now _ left now Ho) as (h & d & Hset & Ht & Hl).
  unfold token_bucket, bind, ret. fold (ttl_of capacity rate).
  destruct (call_at _ now r _ _ _ eq_refl (hmget_bucket key now _ Ho)) as (r0 & -> & L0); [done|]. cbn [key_of] in L0.
  change (number (Numbers [hash_field (look r now key) "tokens"; hash_field (look r now key) "last_refill"]) 0) with (hash_field (look r now key) "tokens").
  change (number (Numbers [hash_field (look r now key) "tokens"; hash_field (look r now key) "last_refill"]) 1) with (hash_field (look r now key) "last_refill").
  fold (refilled capacity rate now (look r now key)). fold left.
  destruct (call_at (HSET key [("tokens", left); ("last_refill", now)]) now r0 _ _ _ L0 Hset) as (r1 & -> & L1); [done|]. cbn [key_of] in L1.
  destruct (call_at (EXPIRE key (ttl_of capacity rate)) now r1 _ _ _ L1 (expire_live _ _ _ _ _ Httl)) as (r2 & -> & L2); [done|].
  exists r2, h. done.
Qed.

(** *** Only the check's own bucket changes *)
Lemma touches_sliding key limit window now : touches key (sliding_window key limit window now).
Proof. unfold sliding_window. repeat (apply touches_bind; [|intros ?]); auto with pc. case_match; auto with pc. Qed.

Lemma touches_token key capacity rate now cost : touches key (token_bucket key capacity rate now cost).
Proof. unfold token_bucket. repeat (apply touches_bind; [|intros ?]); auto with pc. Qed.

Lemma check_touches q r k : k <> key_for q -> look (check q r).1 (rq_now q) k = look r (rq_now q) k.
Proof.
  intros Hk. unfold check. destruct (Limits.ef_algorithm _).
  - eapply (touches_bind (key_for q)); [apply touches_token|intros ?; apply touches_ret|done].
  - eapply (touches_bind (key_for q)); [apply touches_sliding|intros ?; apply touches_ret|done].
Qed.

(** ** Sequences of checks *)

(** The requests come in the order of their times, from [u] on. *)
Fixpoint in_order (u : Q) (qs : list request) : Prop :=
  match qs with
  | [] => True
  | q :: qs => (u <= rq_now q)%Q /\ in_order (rq_now q) qs
  end.

Definition outcome : Type := request * option RateLimitResult.

Definition let_through (k : string) (p : outcome) : bool :=
  bool_decide (key_for p.1 = k) && match p.2 with Some res => allowed res | None => false end.

(** A request of the half-open window that ends at [t]. *)
Definition in_window (window : Z) (t : Q) (p : outcome) : bool :=
  negb (Qle_bool (rq_now p.1) (t - inject_Z window)) && Qle_bool (rq_now p.1) t.

Definition passed (k : string) (window : Z) (t : Q) (os : list outcome) : list outcome :=
  List.filter (fun p => let_through k p && in_window window t p) os.

(** The members the requests are logged as. *)
Definition stamp (p : outcome) : string := tostring (rq_now p.1) +:+ random.
Definition stamps (os : list outcome) : gset string := list_to_set (stamp <$> os).

Section Window.
Variables (k : string) (limit window : Z).
Hypothesis Hwindow : (0 < window)%Z.
Hypothesis Hlimit : (0 <= limit)%Z.

Definition governed (q : request) : Prop :=
  key_for q = k ->
  Limits.ef_algorithm (rq_policy q) = RateLimitAlgorithm_sliding_window
  /\ Limits.ef_request_limit (rq_policy q) = limit /\ Limits.ef_window_seconds (rq_policy q) = window.

(** After the outcomes [hist], at [u]: the log holds what the window needs. *)
Record windowed (hist : list outcome) (u : Q) (r : R) : Prop := {
  w_log : is_log (look r u k);
  w_size : (Z.of_nat (size (log (look r u k))) <= limit)%Z;
  w_scores : forall x q, log (look r u k) !! x = Some q -> (q <= u)%Q;
  w_life : forall d x q, deadline (look r u k) = Some d -> log (look r u k) !! x = Some q -> (q + inject_Z window <= d)%Q;
  w_kept : forall p, p ∈ hist -> let_through k p = true -> (u - inject_Z window < rq_now p.1)%Q ->
           exists q, log (look r u k) !! stamp p = Some q /\ (rq_now p.1 <= q)%Q;
  w_past : forall p, p ∈ hist -> (rq_now p.1 <= u)%Q;
  w_bound : forall t, (Z.of_nat (size (stamps (passed k window t hist))) <= limit)%Z }.

Lemma windowed_advance hist u u' r : (u <= u')%Q -> windowed hist u r -> windowed hist u' r.
Proof.
  intros Hu [Hlog Hsize Hscores Hlife Hkept Hpast Hbound]. pose proof (look_later r u u' k Hu) as L.
  assert (look r u' k = look r u k \/
          look r u' k = None /\ forall x q, log (look r u k) !! x = Some q -> (q + inject_Z window <= u')%Q) as HL.
  { rewrite L. destruct (look r u k) as [[v [d|]]|]; [|by left..]. cbn [live].
    destruct (Qle_bool d u') eqn:E; [|by left]. apply Qle_bool_iff in E. right. split; [done|].
    intros x q Hx. specialize (Hlife d x q eq_refl Hx). lra. }
  split; try done.
  - destruct HL as [->|[-> _]]; done.
  - destruct HL as [->|[-> _]]; [done|]. change (log None) with (∅ : gmap string Q). rewrite map_size_empty. lia.
  - intros x q Hx. destruct HL as [E|[E _]]; rewrite E in Hx; [|done]. specialize (Hscores x q Hx). lra.
  - destruct HL as [->|[-> _]]; done.
  - intros p Hp Ht Hw. destruct (Hkept p Hp Ht) as (q & Hq & Hle); [lra|].
    destruct HL as [->|[-> Hdead]]; [by exists q|]. specialize (Hdead _ _ Hq). lra.
  - intros p Hp. specialize (Hpast p Hp). lra.
Qed.

Lemma passed_snoc t hist p :
  passed k window t (hist ++ [p])%list =
  (passed k window t hist ++ (if let_through k p && in_window window t p then [p] else []))%list.
Proof. unfold passed. by rewrite List.filter_app. Qed.

(** The bound from what the log keeps. *)
Lemma bound_from_log hist u r t :
  (u <= t)%Q -> (Z.of_nat (size (log (look r u k))) <= limit)%Z ->
  (forall p, p ∈ hist -> let_through k p = true -> (u - inject_Z window < rq_now p.1)%Q ->
             exists q, log (look r u k) !! stamp p = Some q /\ (rq_now p.1 <= q)%Q) ->
  (Z.of_nat (size (stamps (passed k window t hist))) <= limit)%Z.
Proof.
  intros Hu Hsize Hkept. etransitivity; [|exact Hsize]. apply Nat2Z.inj_le.
  rewrite <- size_dom. apply subseteq_size. intros x [p [-> Hp]]%elem_of_list_to_set%list_elem_of_fmap.
  apply list_elem_of_In, filter_In in Hp as [Hp [Ht Hw]%andb_true_iff].
  unfold in_window in Hw. apply andb_true_iff in Hw as [Hw%negb_true_iff%Qle_bool_false _].
  apply list_elem_of_In in Hp. destruct (Hkept p Hp Ht) as (q & Hq & _); [lra|]. by apply elem_of_dom_2 in Hq.
Qed.

(** The entry a check leaves, and what it says of the limit. *)
Lemma windowed_leaves q hist r r1 o :
  windowed hist (rq_now q) r -> key_for q = k ->
  let m := above (rq_now q - inject_Z window) (log (look r (rq_now q) k)) in
  let ok := (Z.of_nat (size m) <? limit)%Z in
  (let_through k (q, o) = true -> ok = true) ->
  look r1 (rq_now q) k = (if ok then Some (mkEntry (ZSetV (<[stamp (q, o) := rq_now q]> m)) (Some (rq_now q + inject_Z window)%Q))
                          else zset m (deadline (look r (rq_now q) k))) ->
  windowed (hist ++ [(q, o)])%list (rq_now q) r1.
Proof.
  intros [Hlog Hsize Hscores Hlife Hkept Hpast Hbound] Hk m ok Hok HL.
  assert (Z.of_nat (size m) <= limit)%Z as Hm by (unfold m; pose proof (above_size (rq_now q - inject_Z window) (log (look r (rq_now q) k))); lia).
  assert (forall x y, m !! x = Some y -> (y <= rq_now q)%Q) as Hms by (intros x y [Hx _]%above_lookup; by eapply Hscores).
  assert (log (look r1 (rq_now q) k) = if ok then <[stamp (q, o) := rq_now q]> m else m) as Hl
    by (rewrite HL; destruct ok; [done|apply log_zset]).
  assert (Z.of_nat (size (log (look r1 (rq_now q) k))) <= limit)%Z as Hsize1.
  { rewrite Hl. destruct ok eqn:E; [|done]. unfold ok in E. apply Z.ltb_lt in E. rewrite map_size_insert. destruct (m !! _); unfold id; lia. }
  assert (forall p, p ∈ (hist ++ [(q, o)])%list -> (rq_now p.1 <= rq_now q)%Q) as Hpast1.
  { intros p [Hp| ->%list_elem_of_singleton]%elem_of_app; [by apply Hpast|cbn; lra]. }
  assert (forall p, p ∈ (hist ++ [(q, o)])%list -> let_through k p = true -> (rq_now q - inject_Z window < rq_now p.1)%Q ->
          exists y, log (look r1 (rq_now q) k) !! stamp p = Some y /\ (rq_now p.1 <= y)%Q) as Hkept1.
  { intros p Hin Ht Hw. rewrite Hl. destruct (decide (stamp p = stamp (q, o))) as [Es|Es].
    - destruct ok eqn:E.
      + rewrite Es, lookup_insert_eq. exists (rq_now q). split; [done|]. by apply Hpast1.
      + apply elem_of_app in Hin as [Hin| ->%list_elem_of_singleton]; [|by specialize (Hok Ht)].
        destruct (Hkept p Hin Ht Hw) as (y & Hy & Hle). exists y. split; [|done]. apply above_lookup. split; [done|lra].
    - apply elem_of_app in Hin as [Hin| ->%list_elem_of_singleton]; [|done].
      destruct (Hkept p Hin Ht Hw) as (y & Hy & Hle). exists y. split; [|done].
      assert (m !! stamp p = Some y) as Hmy by (apply above_lookup; split; [done|lra]).
      destruct ok; [|done]. by rewrite lookup_insert_ne. }
  split; try done.
  - rewrite HL. destruct ok; [cbn; apply insert_non_empty|]. unfold zset. by case_bool_decide.
  - intros x y Hx. rewrite Hl in Hx. destruct ok; [|by eapply Hms].
    apply lookup_insert_Some in Hx as [[_ <-]|[_ Hx]]; [lra|by eapply Hms].
  - intros d x y Hd Hx. rewrite Hl in Hx. rewrite HL in Hd. destruct ok.
    + cbn in Hd. injection Hd as <-. apply lookup_insert_Some in Hx as [[_ <-]|[_ Hx]]; [lra|]. specialize (Hms x y Hx). lra.
    + unfold zset in Hd. case_bool_decide; [done|]. cbn in Hd. apply above_lookup in Hx as [Hx _]. by eapply Hlife.
  - intros t. destruct (Qle_bool (rq_now q) t) eqn:E.
    + apply Qle_bool_iff in E. by eapply bound_from_log.
    + rewrite passed_snoc. replace (in_window window t (q, o)) with false; [rewrite andb_false_r, app_nil_r; apply Hbound|].
      unfold in_window. cbn [fst]. by rewrite E, andb_false_r.
Qed.

(** A check of the log, and a check of any other bucket. *)
Lemma windowed_check q hist r :
  governed q -> windowed hist (rq_now q) r ->
  let '(r1, o) := check q r in windowed (hist ++ [(q, o)])%list (rq_now q) r1.
Proof.
  intros Hg Hwd. destruct (decide (key_for q = k)) as [Hk|Hk].
  - destruct (Hg Hk) as (Halg & Hlim & Hwin).
    destruct (sliding_spec k limit window (rq_now q) r Hwindow (w_log _ _ _ Hwd)) as (r1 & Hrun & HL).
    unfold check. rewrite Halg, Hk. unfold check_sliding_window, bind. rewrite Hlim, Hwin, Hrun. cbn [ret].
    eapply windowed_leaves; [done..| |exact HL]. intros Ht. unfold let_through in Ht. by apply andb_true_iff in Ht as [_ Ht].
  - pose proof (check_touches q r k ltac:(congruence)) as Hl. destruct (check q r) as [r1 o]. cbn [fst] in Hl.
    destruct Hwd as [Hlog Hsize Hscores Hlife Hkept Hpast Hbound].
    assert (let_through k (q, o) = false) as Hf by (unfold let_through; by rewrite bool_decide_false).
    split; rewrite ?Hl; try done.
    + intros p [Hp| ->%list_elem_of_singleton]%elem_of_app Ht Hw; [by apply Hkept|congruence].
    + intros p [Hp| ->%list_elem_of_singleton]%elem_of_app; [by apply Hpast|cbn; lra].
    + intros t. rewrite passed_snoc, Hf, app_nil_r. apply Hbound.
Qed.

Lemma windowed_run qs rest hist u r :
  in_order u (qs ++ rest)%list -> Forall governed qs -> windowed hist u r ->
  exists u', windowed (hist ++ (run qs r).2)%list u' (run qs r).1 /\ in_order u' rest.
Proof.
  revert hist u r. induction qs as [|q qs IH]; intros hist u r Hord Hg Hwd.
  - exists u. cbn. by rewrite app_nil_r.
  - destruct Hord as [Hu Hord]. apply Forall_cons in Hg as [Hgq Hg]. cbn [run].
    pose proof (windowed_check q hist r Hgq (windowed_advance _ _ _ _ Hu Hwd)) as Hc. destruct (check q r) as [r1 o].
    destruct (IH _ _ _ Hord Hg Hc) as (u' & Hr & Hrest). destruct (run qs r1) as [r2 os]. exists u'. by rewrite <- app_assoc in Hr.
Qed.

Lemma windowed_fresh u r : look r u k = None -> windowed [] u r.
Proof.
  intros Hn. split; rewrite ?Hn; try done.
  all: intros p Hp; by apply not_elem_of_nil in Hp.
Qed.
End Window.

(** What passed between [a] and [b]. *)
Definition between (k : string) (a b : Q) (os : list outcome) : list outcome :=
  List.filter (fun p => let_through k p && (Qle_bool a (rq_now p.1) && Qle_bool (rq_now p.1) b)) os.

Section Bucket.
Variables (k : string) (policy : Limits.EffectivePolicy).
Notation capacity := (inject_Z (capacity_of policy)).
Notation rate := (rate_of policy).
Hypothesis Halg : Limits.ef_algorithm policy = RateLimitAlgorithm_token_bucket.
Hypothesis Hcap : (0 <= capacity)%Q.
Hypothesis Hrate : (0 < rate)%Q.

Definition fixed (q : request) : Prop := key_for q = k -> rq_policy q = policy.

Definition sound (u : Q) (o : option entry) : Prop :=
  match o with
  | None => True
  | Some (mkEntry (HashV h) d) =>
      exists tokens last, h !! "tokens" = Some tokens /\ h !! "last_refill" = Some last
        /\ (0 <= tokens <= capacity)%Q /\ (last <= u)%Q /\ d = Some (last + inject_Z (ttl_of capacity rate))%Q
  | _ => False
  end.

Notation held u r := (refilled capacity rate u (look r u k)).
Notation count l := (inject_Z (Z.of_nat (length l))).

Lemma sound_bucket u o : sound u o -> is_bucket o.
Proof. by destruct o as [[[] ?]|]. Qed.

Lemma refilled_bounds u o : sound u o -> (0 <= refilled capacity rate u o <= capacity)%Q.
Proof.
  intros Hs. unfold refilled, qmin. destruct (Qle_bool _ _) eqn:E; [lra|]. apply Qle_bool_false in E.
  split; [|lra]. destruct o as [[[|h|] d]|]; try done; cbn in *.
  - destruct Hs as (tokens & last & Ht & Hl & ? & ? & _). rewrite Ht, Hl. cbn. nra.
  - nra.
Qed.

(** Time passes: the bucket gains at most the rate, also when it expires. *)
Lemma sound_later u u' r :
  (u <= u')%Q -> sound u (look r u k) -> sound u' (look r u' k) /\ (held u' r <= held u r + (u' - u) * rate)%Q.
Proof.
  intros Hu Hs. rewrite (look_later r u u' k Hu). pose proof (refilled_bounds u _ Hs) as Hb.
  destruct (look r u k) as [[[|h|] d]|]; try done.
  2:{ split; [done|]. cbn [live]. unfold refilled, qmin. cbn. repeat case_match; nra. }
  destruct Hs as (tokens & last & Ht & Hl & Htok & Hlast & ->). cbn [live].
  destruct (ttl_fills capacity rate Hrate Hcap) as [_ Hfull].
  unfold refilled, hash_field, qmin in *. rewrite Ht, Hl in *. cbn [default from_option id] in *.
  destruct (Qle_bool (last + _) u') eqn:E.
  - apply Qle_bool_iff in E. split; [done|]. cbn.
    assert (inject_Z (ttl_of capacity rate) * rate <= (u' - last) * rate)%Q by (apply Qmult_le_compat_r; lra).
    repeat case_match; repeat match goal with X : Qle_bool _ _ = true |- _ => apply Qle_bool_iff in X | X : Qle_bool _ _ = false |- _ => apply Qle_bool_false in X end; nra.
  - split; [exists tokens, last; split_and!; try done; lra|]. rewrite Ht, Hl. cbn.
    repeat case_match; repeat match goal with X : Qle_bool _ _ = true |- _ => apply Qle_bool_iff in X | X : Qle_bool _ _ = false |- _ => apply Qle_bool_false in X end; nra.
Qed.

(** After the outcomes [hist], at [u]. *)
Record filling (hist : list outcome) (u : Q) (r : R) : Prop := {
  f_sound : sound u (look r u k);
  f_past : forall p, p ∈ hist -> (rq_now p.1 <= u)%Q;
  f_spent : forall a, (a <= u)%Q -> (count (between k a u hist) + held u r <= capacity + rate * (u - a))%Q;
  f_bound : forall a b, (a <= b)%Q -> (count (between k a b hist) <= capacity + rate * (b - a))%Q }.

Lemma between_none a b hist u : (forall p, p ∈ hist -> (rq_now p.1 <= u)%Q) -> (u < a)%Q -> between k a b hist = [].
Proof.
  intros Hpast Ha. unfold between. apply filter_none_match. intros p Hp. apply andb_false_iff. right.
  apply andb_false_iff. left. apply Qle_bool_false. specialize (Hpast p Hp). lra.
Qed.

Lemma between_later a b u hist : (forall p, p ∈ hist -> (rq_now p.1 <= u)%Q) -> (u <= b)%Q -> between k a b hist = between k a u hist.
Proof.
  intros Hpast Hb. unfold between. apply filter_ext_in. intros p Hp%list_elem_of_In. specialize (Hpast p Hp).
  do 2 f_equal. transitivity true; [|symmetry]; apply Qle_bool_iff; lra.
Qed.

Lemma filling_advance hist u u' r : (u <= u')%Q -> filling hist u r -> filling hist u' r.
Proof.
  intros Hu [Hs Hpast Hspent Hbound]. destruct (sound_later u u' r Hu Hs) as [Hs' Hheld].
  pose proof (refilled_bounds _ _ Hs') as Hb. split; try done.
  - intros p Hp. specialize (Hpast p Hp). lra.
  - intros a Ha. destruct (Qlt_le_dec u a) as [Hua|Hua].
    + rewrite (between_none a u' hist u) by done. change (inject_Z (Z.of_nat (length (@nil outcome)))) with 0%Q.
      assert (0 <= rate * (u' - a))%Q by (apply Qmult_le_0_compat; lra). lra.
    + rewrite (between_later a u' u) by done. specialize (Hspent a Hua). lra.
Qed.

Lemma between_snoc a b hist p :
  between k a b (hist ++ [p])%list =
  (between k a b hist ++ (if let_through k p && (Qle_bool a (rq_now p.1) && Qle_bool (rq_now p.1) b) then [p] else []))%list.
Proof. unfold between. by rewrite List.filter_app. Qed.

Lemma count_snoc a b hist p :
  (count (between k a b (hist ++ [p])%list) <= count (between k a b hist) + (if let_through k p then 1 else 0))%Q.
Proof.
  rewrite between_snoc, length_app. destruct (let_through k p); cbn [andb length]; [|rewrite Nat.add_0_r; lra].
  rewrite Nat2Z.inj_add, inject_Z_plus. destruct (_ && _); cbn [length].
  - change (inject_Z (Z.of_nat 1)) with 1%Q. lra.
  - change (inject_Z (Z.of_nat 0)) with 0%Q. lra.
Qed.

(** From what is spent at [u] to every interval. *)
Lemma bound_from_spent hist q o u r :
  (forall p, p ∈ (hist ++ [(q, o)])%list -> (rq_now p.1 <= u)%Q) -> rq_now q = u -> sound u (look r u k) ->
  (forall a, (a <= u)%Q -> (count (between k a u (hist ++ [(q, o)])%list) + held u r <= capacity + rate * (u - a))%Q) ->
  (forall a b, (a <= b)%Q -> (count (between k a b hist) <= capacity + rate * (b - a))%Q) ->
  forall a b, (a <= b)%Q -> (count (between k a b (hist ++ [(q, o)])%list) <= capacity + rate * (b - a))%Q.
Proof.
  intros Hpast Hq Hs Hspent Hbound a b Hab. pose proof (refilled_bounds _ _ Hs) as Hb.
  assert (0 <= rate * (b - a))%Q as Hpos by (apply Qmult_le_0_compat; lra).
  destruct (Qlt_le_dec b u) as [Hbu|Hbu].
  - rewrite between_snoc. cbn [fst]. rewrite Hq. replace (Qle_bool u b) with false by (symmetry; by apply Qle_bool_false).
    rewrite !andb_false_r, app_nil_r. by apply Hbound.
  - rewrite (between_later a b u) by done. destruct (Qlt_le_dec u a) as [Hua|Hua].
    + rewrite (between_none a u _ u) by done. change (inject_Z (Z.of_nat (length (@nil outcome)))) with 0%Q. lra.
    + specialize (Hspent a Hua). assert (rate * (u - a) <= rate * (b - a))%Q; [|lra].
      rewrite !(Qmult_comm rate). apply Qmult_le_compat_r; lra.
Qed.

(** A check of the bucket, and a check of any other. *)
Lemma filling_check q hist r :
  fixed q -> filling hist (rq_now q) r ->
  let '(r1, o) := check q r in filling (hist ++ [(q, o)])%list (rq_now q) r1.
Proof.
  intros Hg [Hs Hpast Hspent Hbound].
  assert (forall o p, p ∈ (hist ++ [(q, o)])%list -> (rq_now p.1 <= rq_now q)%Q) as Hpast1.
  { intros o p [Hp| ->%list_elem_of_singleton]%elem_of_app; [by apply Hpast|cbn; lra]. }
  pose proof (refilled_bounds _ _ Hs) as Hb.
  destruct (decide (key_for q = k)) as [Hk|Hk].
  - destruct (token_spec k capacity rate (rq_now q) 1 r Hrate Hcap (sound_bucket _ _ Hs)) as (r1 & h & Hrun & HL & Ht & Hl).
    unfold check. rewrite (Hg Hk), Halg, Hk. unfold check_token_bucket, bind. rewrite Hrun. cbn [ret].
    set (o := Some _). assert (let_through k (q, o) = Qle_bool 1 (held (rq_now q) r)) as Hlt by (unfold let_through; by rewrite bool_decide_true).
    set (left := if Qle_bool 1 _ then _ else _) in Ht.
    assert (0 <= left <= capacity /\ left + (if let_through k (q, o) then 1 else 0) <= held (rq_now q) r)%Q as [Hleft Hless].
    { rewrite Hlt. unfold left. destruct (Qle_bool 1 _) eqn:E; [apply Qle_bool_iff in E|]; lra. }
    assert (sound (rq_now q) (look r1 (rq_now q) k)) as Hs1 by (rewrite HL; exists left, (rq_now q); split_and!; first [done|lra]).
    assert (held (rq_now q) r1 <= left)%Q as Hheld.
    { unfold refilled, qmin. rewrite HL. cbn [hash_field]. rewrite Ht, Hl. cbn [default from_option id].
      destruct (Qle_bool _ (left + (rq_now q - rq_now q) * rate)) eqn:E; [apply Qle_bool_iff in E; lra|clear -left; lra]. }
    assert (forall a, (a <= rq_now q)%Q -> (count (between k a (rq_now q) (hist ++ [(q, o)])%list) + held (rq_now q) r1 <= capacity + rate * (rq_now q - a))%Q) as Hspent1.
    { intros a Ha. specialize (Hspent a Ha). pose proof (count_snoc a (rq_now q) hist (q, o)) as Hc. clear -Hspent Hc Hless Hheld.
      destruct (let_through k (q, o)). all: unfold outcome in *; lra. }
    split; [done|by apply Hpast1|done|]. eapply bound_from_spent; [by apply Hpast1|done..].
  - pose proof (check_touches q r k ltac:(congruence)) as Hlk. destruct (check q r) as [r1 o]. cbn [fst] in Hlk.
    assert (let_through k (q, o) = false) as Hf by (unfold let_through; by rewrite bool_decide_false).
    split; rewrite ?Hlk; [done|by apply Hpast1|..]; intros a; [|intros b]; rewrite between_snoc, Hf, app_nil_r; [apply Hspent|apply Hbound].
Qed.

Lemma filling_run qs rest hist u r :
  in_order u (qs ++ rest)%list -> Forall fixed qs -> filling hist u r ->
  exists u', filling (hist ++ (run qs r).2)%list u' (run qs r).1 /\ in_order u' rest.
Proof.
  revert hist u r. induction qs as [|q qs IH]; intros hist u r Hord Hg Hwd.
  - exists u. cbn. by rewrite app_nil_r.
  - destruct Hord as [Hu Hord]. apply Forall_cons in Hg as [Hgq Hg]. cbn [run].
    pose proof (filling_check q hist r Hgq (filling_advance _ _ _ _ Hu Hwd)) as Hc. destruct (check q r) as [r1 o].
    destruct (IH _ _ _ Hord Hg Hc) as (u' & Hr & Hrest). destruct (run qs r1) as [r2 os]. exists u'. by rewrite <- app_assoc in Hr.
Qed.

Lemma filling_fresh u r : look r u k = None -> filling [] u r.
Proof.
  intros Hn. assert (sound u (look r u k)) as Hs by (by rewrite Hn). pose proof (refilled_bounds _ _ Hs) as Hb.
  split; [done|intros p Hp; by apply not_elem_of_nil in Hp|..].
  - intros a Ha. change (between k a u []) with (@nil outcome). change (inject_Z (Z.of_nat (length (@nil outcome)))) with 0%Q.
    assert (0 <= rate * (u - a))%Q by (apply Qmult_le_0_compat; lra). lra.
  - intros a b Hab. change (between k a b []) with (@nil outcome). change (inject_Z (Z.of_nat (length (@nil outcome)))) with 0%Q.
    assert (0 <= rate * (b - a))%Q by (apply Qmult_le_0_compat; lra). lra.
Qed.
End Bucket.
End Limiter.

(** ** What the limiter lets through *)
Section Facts.
Context {R : Type} `{RedisLaws R}.
Variable tostring : Q -> string.
Variable random : string.

(** [C22] A sliding window holds: from a fresh bucket, whatever other buckets are
    checked in between, at most [limit] log members pass in any window, and so at
    most [limit] requests when their members differ. *)
Theorem window_never_exceeded k limit window u qs (r : R) t :
  (0 < window)%Z -> (0 <= limit)%Z -> in_order u qs -> Forall (governed k limit window) qs -> look r u k = None ->
  let through := passed k window t (run tostring random qs r).2 in
  (Z.of_nat (size (stamps tostring random through)) <= limit)%Z /\
  (NoDup (stamp tostring random <$> through) -> (Z.of_nat (length through) <= limit)%Z).
Proof.
  intros Hw Hl Hord Hg Hn. cbv zeta.
  destruct (windowed_run tostring random k limit window Hw Hl qs [] [] u r) as (u' & Hwd & _).
  { by rewrite app_nil_r. } { done. } { by apply windowed_fresh. }
  pose proof (w_bound _ _ _ _ _ _ _ _ Hwd t) as Hb. cbn [app] in Hb. split; [done|].
  intros Hnd. unfold stamps in Hb. by rewrite size_list_to_set, length_fmap in Hb.
Qed.

Lemma rate_positive policy :
  (0 < Limits.ef_request_limit policy)%Z -> (0 < Limits.ef_window_seconds policy)%Z -> (0 < rate_of policy)%Q.
Proof.
  intros Hl Hw. unfold rate_of. apply Qlt_shift_div_l; [by rewrite <- (Zlt_Qlt 0)|]. rewrite Qmult_0_l. by rewrite <- (Zlt_Qlt 0).
Qed.

(** [C23] A token bucket holds: between any two moments at most the capacity passes
    and what flows in at the policy's rate. *)
Theorem bucket_never_exceeded k policy u qs (r : R) a b :
  Limits.ef_algorithm policy = RateLimitAlgorithm_token_bucket ->
  (0 <= capacity_of policy)%Z -> (0 < Limits.ef_request_limit policy)%Z -> (0 < Limits.ef_window_seconds policy)%Z ->
  in_order u qs -> Forall (fixed k policy) qs -> look r u k = None -> (a <= b)%Q ->
  (inject_Z (Z.of_nat (length (between k a b (run tostring random qs r).2)))
     <= inject_Z (capacity_of policy) + rate_of policy * (b - a))%Q.
Proof.
  intros Halg Hcap Hlim Hwin Hord Hg Hn Hab.
  assert (0 <= inject_Z (capacity_of policy))%Q as Hc by (by rewrite <- (Zle_Qle 0)).
  assert (0 < rate_of policy)%Q as Hr by by apply rate_positive.
  destruct (filling_run tostring random k policy Halg Hc Hr qs [] [] u r) as (u' & Hf & _).
  { by rewrite app_nil_r. } { done. } { by apply filling_fresh. }
  by apply (f_bound _ _ _ _ _ Hf).
Qed.

(** Requests of one moment are one log member: with a limit of two or more all
    of them pass, however many they are. *)
Theorem one_moment_counts_once k limit window u qs (r : R) :
  (0 < window)%Z -> (2 <= limit)%Z -> Forall (fun q => key_for q = k /\ rq_now q = u) qs ->
  Forall (governed k limit window) qs -> look r u k = None ->
  Forall (fun p => let_through k p = true) (run tostring random qs r).2.
Proof.
  intros Hw Hl Hq Hg Hn.
  assert (is_log (look r u k) /\ log (look r u k) ⊆ {[tostring u +:+ random := u]}) as Hinv.
  { rewrite Hn. split; [done|]. apply map_empty_subseteq. }
  clear Hn. revert r Hinv. induction qs as [|q qs IH]; intros r [Hlog Hsub]; [by constructor|].
  apply Forall_cons in Hq as [[Hk Hu] Hq]. apply Forall_cons in Hg as [Hgq Hg]. destruct (Hgq Hk) as (Halg & Hlim & Hwin).
  destruct (sliding_spec tostring random k limit window u r Hw Hlog) as (r1 & Hrun & HL).
  set (m := above _ _) in *.
  assert (m ⊆ {[tostring u +:+ random := u]}) as Hm by (etransitivity; [apply map_filter_subseteq|done]).
  assert ((Z.of_nat (size m) <? limit)%Z = true) as Hok.
  { apply Z.ltb_lt. apply map_subseteq_size in Hm. rewrite map_size_singleton in Hm. lia. }
  rewrite Hok in Hrun, HL. cbn [run]. unfold check. rewrite Halg, Hk, Hu.
  unfold check_sliding_window, bind. rewrite Hlim, Hwin, Hrun. cbn [ret].
  specialize (IH Hq Hg r1). rewrite HL in IH.
  destruct (run tostring random qs r1) as [r2 os]. constructor.
  - unfold let_through. by rewrite bool_decide_true.
  - apply IH. split; [apply insert_non_empty|]. cbn [log].
    apply map_subseteq_spec. intros x y [[<- <-]|[Hne Hx]]%lookup_insert_Some; [by rewrite lookup_singleton_eq|].
    by eapply lookup_weaken.
Qed.

Lemma qmax_pos a : (0 < a)%Q -> qmax 0 a = a.
Proof. intros Ha. unfold qmax. by replace (Qle_bool 0 a) with true by (symmetry; apply Qle_bool_iff; lra). Qed.

(** A removed member makes the log smaller. *)
Lemma above_smaller hi m x q : m !! x = Some q -> (q <= hi)%Q -> (size (above hi m) < size m)%nat.
Proof.
  intros Hx Hq. apply map_subset_size. split; [apply map_filter_subseteq|]. intros Hsub.
  eapply lookup_weaken in Hsub; [|exact Hx]. apply above_lookup in Hsub as [_ ?]. lra.
Qed.

Lemma above_all hi m : (forall x q, m !! x = Some q -> (hi < q)%Q) -> above hi m = m.
Proof. intros Hm. apply map_eq. intros x. apply option_eq. intros q. rewrite above_lookup. naive_solver. Qed.

(** A full log has room again exactly when its oldest entry leaves the window. *)
Lemma log_next (m : gmap string Q) d limit window now' x s :
  (0 < limit)%Z -> Z.of_nat (size m) = limit -> m !! x = Some s -> (forall y q, m !! y = Some q -> (s <= q)%Q) ->
  (forall e, d = Some e -> forall y q, m !! y = Some q -> (q + inject_Z window <= e)%Q) ->
  (Z.of_nat (size (above (now' - inject_Z window) (log (live now' (Some (mkEntry (ZSetV m) d)))))) < limit)%Z
    <-> (s + inject_Z window <= now')%Q.
Proof.
  intros Hl Hsize Hx Hmin Hlife.
  assert (forall o, log o = m -> (Z.of_nat (size (above (now' - inject_Z window) (log o))) < limit)%Z <-> (s + inject_Z window <= now')%Q) as Hm.
  { intros o ->. destruct (Qlt_le_dec now' (s + inject_Z window)).
    - rewrite above_all by (intros y z Hy; specialize (Hmin y z Hy); lra). split; [lia|lra].
    - pose proof (above_smaller (now' - inject_Z window) m x s Hx ltac:(lra)). split; [lra|lia]. }
  destruct d as [e|]; cbn [live]; [|by apply Hm]. destruct (Qle_bool e now') eqn:E; [|by apply Hm].
  apply Qle_bool_iff in E. specialize (Hlife e eq_refl x s Hx). change (log None) with (∅ : gmap string Q).
  unfold above. rewrite map_filter_empty, map_size_empty. split; intros _; [lra|lia].
Qed.

(** A refused check of a sliding window, and the next check of its bucket. *)
Lemma refused_then k limit window q q' (r : R) hist :
  (0 < window)%Z -> (0 < limit)%Z -> governed k limit window q -> governed k limit window q' ->
  key_for q = k -> key_for q' = k -> (rq_now q <= rq_now q')%Q -> windowed tostring random k limit window hist (rq_now q) r ->
  exists r1 res o, check tostring random q r = (r1, Some res) /\ (check tostring random q' r1).2 = Some o /\
    (allowed res = false -> (0 < retry_after_seconds res)%Q /\
                            (allowed o = true <-> (rq_now q + retry_after_seconds res <= rq_now q')%Q)).
Proof.
  intros Hw Hl Hgq Hgq' Hk Hk' Hqq Hwd. destruct (Hgq Hk) as (Halg & Hlim & Hwin), (Hgq' Hk') as (Halg' & Hlim' & Hwin').
  pose proof (windowed_check tostring random k limit window Hw q hist r Hgq Hwd) as Hwd1.
  destruct (sliding_spec tostring random k limit window (rq_now q) r Hw (w_log _ _ _ _ _ _ _ _ Hwd)) as (r1 & Hrun & HL).
  set (m := above _ (log (look r (rq_now q) k))) in *.
  assert (check tostring random q r = (r1, Some (typed limit (Z.of_nat (size m) <? limit, 0 `max` (limit - Z.of_nat (size m) - 1),
           match lowest (log (look r1 (rq_now q) k)) with Some score => qmax 0 (score + inject_Z window - rq_now q)%Q | None => 0%Q end)%Z))) as Hc.
  { unfold check. rewrite Halg, Hk. unfold check_sliding_window, bind. by rewrite Hlim, Hwin, Hrun, HL. }
  rewrite Hc in Hwd1. destruct (windowed_advance _ _ _ _ _ (Z.lt_le_incl _ _ Hl) _ _ _ _ Hqq Hwd1) as [Hlog' _ _ _ _ _ _].
  destruct (sliding_spec tostring random k limit window (rq_now q') r1 Hw Hlog') as (r2 & Hrun' & _).
  set (m' := above _ (log (look r1 (rq_now q') k))) in *.
  eexists r1, _, _. split; [exact Hc|]. split.
  { unfold check. rewrite Halg', Hk'. unfold check_sliding_window, bind. by rewrite Hlim', Hwin', Hrun'. }
  cbn [allowed typed retry_after_seconds]. intros Hno. rewrite Hno in HL |- *. rewrite HL, log_zset.
  apply Z.ltb_ge in Hno. pose proof (w_size _ _ _ _ _ _ _ _ Hwd) as Hsize.
  pose proof (above_size (rq_now q - inject_Z window) (log (look r (rq_now q) k))) as Hle. fold m in Hle.
  pose proof (lowest_spec m) as Hlow. destruct (lowest m) as [s|]; [|rewrite Hlow, map_size_empty in Hno; lia].
  destruct Hlow as [[x Hx] Hmin]. assert (rq_now q - inject_Z window < s)%Q as Hs by (by apply above_lookup in Hx as [_ ?]).
  rewrite qmax_pos by lra. split; [lra|].
  assert (deadline (look r (rq_now q) k) = deadline (look r1 (rq_now q) k)) as Hd.
  { rewrite HL. unfold zset. case_bool_decide as Em; [by rewrite Em in Hx|done]. }
  pose proof (w_life _ _ _ _ _ _ _ _ Hwd1) as Hlife. rewrite HL, log_zset in Hlife.
  rewrite Z.ltb_lt. assert (look r1 (rq_now q') k = live (rq_now q') (Some (mkEntry (ZSetV m) (deadline (look r (rq_now q) k))))) as HL'.
  { rewrite (look_later r1 (rq_now q) _ k Hqq), HL. unfold zset. case_bool_decide as Em; [by rewrite Em in Hx|done]. }
  unfold m'. rewrite HL', (log_next m _ limit window (rq_now q') x s Hl ltac:(lia) Hx Hmin); [split; lra|].
  intros d Ed y z Hy. eapply Hlife; [|exact Hy]. by rewrite <- HL, <- Hd.
Qed.

(** What a refused request of a sliding window is told is exact: after any
    history of checks, the bucket's next request passes if and only if
    [retry_after_seconds] have gone by. *)
Theorem window_retry_exact k limit window u qs q q' (r0 : R) :
  (0 < window)%Z -> (0 < limit)%Z -> in_order u (qs ++ [q; q'])%list -> Forall (governed k limit window) (qs ++ [q; q'])%list ->
  look r0 u k = None -> key_for q = k -> key_for q' = k ->
  exists r1 res o, check tostring random q (run tostring random qs r0).1 = (r1, Some res) /\
    (check tostring random q' r1).2 = Some o /\
    (allowed res = false -> (0 < retry_after_seconds res)%Q /\
                            (allowed o = true <-> (rq_now q + retry_after_seconds res <= rq_now q')%Q)).
Proof.
  intros Hw Hl Hord Hg Hn Hk Hk'. apply Forall_app in Hg as [Hg [Hgq [Hgq' _]%Forall_cons]%Forall_cons].
  destruct (windowed_run tostring random k limit window Hw (Z.lt_le_incl _ _ Hl) qs [q; q'] [] u r0 Hord Hg) as (v & Hwd & Hv & Hqq & _).
  { apply windowed_fresh; first [done|lia]. }
  eapply (refused_then k limit window); try done. eapply windowed_advance; [|exact Hv|exact Hwd]; lia.
Qed.

Lemma refilled_after (h : gmap string Q) d capacity rate now left u :
  h !! "tokens" = Some left -> h !! "last_refill" = Some now ->
  refilled capacity rate u (Some (mkEntry (HashV h) d)) = qmin capacity (left + (u - now) * rate).
Proof. intros Ht Hl. unfold refilled. cbn. by rewrite Ht, Hl. Qed.

Lemma qmin_ge c a b : (c <= a)%Q -> (c <= b)%Q -> (c <= qmin a b)%Q.
Proof. unfold qmin. by case_match. Qed.

Lemma retry_arith capacity tokens rate now now' :
  (0 < rate)%Q ->
  (now + (capacity - tokens) / rate - (capacity - 1) / rate <= now')%Q <-> (1 <= tokens + (now' - now) * rate)%Q.
Proof.
  intros Hr. rewrite <- (Qmult_le_r _ _ rate Hr).
  assert ((now + (capacity - tokens) / rate - (capacity - 1) / rate) * rate == now * rate + 1 - tokens)%Q as -> by (field; lra).
  split; lra.
Qed.

(** A refused request of a token bucket is told to wait until the bucket is
    full: its next request already passes [(capacity - 1) / rate] seconds
    earlier. *)
Theorem bucket_retry_overstated k policy u qs q q' (r0 : R) :
  Limits.ef_algorithm policy = RateLimitAlgorithm_token_bucket ->
  (0 < capacity_of policy)%Z -> (0 < rate_of policy)%Q ->
  in_order u (qs ++ [q; q'])%list -> Forall (fixed k policy) (qs ++ [q; q'])%list ->
  look r0 u k = None -> key_for q = k -> key_for q' = k ->
  exists r1 res o, check tostring random q (run tostring random qs r0).1 = (r1, Some res) /\
    (check tostring random q' r1).2 = Some o /\
    (allowed res = false ->
       (allowed o = true <-> (rq_now q + retry_after_seconds res - (inject_Z (capacity_of policy) - 1) / rate_of policy <= rq_now q')%Q)).
Proof.
  intros Halg Hc Hr Hord Hg Hn Hk Hk'. apply Forall_app in Hg as [Hg [Hgq [Hgq' _]%Forall_cons]%Forall_cons].
  assert (1 <= inject_Z (capacity_of policy))%Q as Hcap by (change 1%Q with (inject_Z 1); rewrite <- Zle_Qle; lia).
  assert (0 <= inject_Z (capacity_of policy))%Q as Hcap0 by lra.
  destruct (filling_run tostring random k policy Halg Hcap0 Hr qs [q; q'] [] u r0 Hord Hg) as (v & Hf & Hv & Hqq & _).
  { by apply filling_fresh. }
  destruct (filling_advance k policy Hcap0 Hr _ _ _ _ Hv Hf) as [Hs _ _ _].
  set (r := (run tostring random qs r0).1) in *.
  destruct (token_spec k _ (rate_of policy) (rq_now q) 1 r Hr Hcap0 (sound_bucket _ _ _ Hs)) as (r1 & h & Hrun & HL & Ht & Hlast).
  assert (look r1 (rq_now q') k = live (rq_now q') (look r1 (rq_now q) k)) as HL' by (by apply look_later).
  rewrite HL in HL'.
  assert (is_bucket (look r1 (rq_now q') k)) as Hs' by (rewrite HL'; cbn [live]; destruct (Qle_bool _ (rq_now q')); exact I).
  destruct (token_spec k _ (rate_of policy) (rq_now q') 1 r1 Hr Hcap0 Hs') as (r2 & h' & Hrun' & _).
  eexists r1, _, _. split; [|split].
  { unfold check. rewrite (Hgq Hk), Halg, Hk. unfold check_token_bucket, bind. by rewrite Hrun. }
  { unfold check. rewrite (Hgq' Hk'), Halg, Hk'. unfold check_token_bucket, bind. by rewrite Hrun'. }
  cbn [allowed typed retry_after_seconds]. intros Hno. rewrite Hno in *.
  rewrite retry_arith by done. rewrite HL'. cbn [live].
  pose proof (refilled_bounds policy Hcap0 Hr (rq_now q) _ Hs) as Hb. set (T := refilled _ _ (rq_now q) _) in *.
  destruct (ttl_fills _ _ Hr Hcap0) as [_ Hfull]. destruct (Qle_bool _ (rq_now q')) eqn:E.
  - apply Qle_bool_iff in E. split; intros _; [|apply Qle_bool_iff, qmin_ge; cbn; lra].
    assert (inject_Z (ttl_of (inject_Z (capacity_of policy)) (rate_of policy)) * rate_of policy <= (rq_now q' - rq_now q) * rate_of policy)%Q
      by (apply Qmult_le_compat_r; lra). lra.
  - rewrite (refilled_after h _ _ _ _ _ _ Ht Hlast), Qle_bool_iff. unfold qmin. destruct (Qle_bool _ (T + _)) eqn:E1; [|done].
    apply Qle_bool_iff in E1. split; lra.
Qed.

(** What the other algorithm's check finds. *)
Lemma check_wrongtype q (r : R) v d :
  look r (rq_now q) (key_for q) = Some (mkEntry v d) ->
  match v, Limits.ef_algorithm (rq_policy q) with
  | HashV _, RateLimitAlgorithm_sliding_window | ZSetV _, RateLimitAlgorithm_token_bucket => True
  | _, _ => False
  end -> (check tostring random q r).2 = None.
Proof.
  intros HL Hv. unfold check. destruct (Limits.ef_algorithm (rq_policy q)), v as [|h|m]; try done.
  - unfold check_token_bucket, token_bucket, bind at 1.
    match goal with |- context [bind (call ?c) ?f ?t ?r] => pose proof (bind_wrong c f t r _ _ HL eq_refl) as Hw; destruct (bind (call c) f t r) as [r1 o] end.
    cbn in Hw. by subst o.
  - unfold check_sliding_window, sliding_window, bind at 1.
    match goal with |- context [bind (call ?c) ?f ?t ?r] => pose proof (bind_wrong c f t r _ _ HL eq_refl) as Hw; destruct (bind (call c) f t r) as [r1 o] end.
    cbn in Hw. by subst o.
Qed.

Lemma life_left (r1 : R) now now' k v e :
  look r1 now k = Some (mkEntry v (Some e)) -> (now <= now')%Q -> (now' < e)%Q -> look r1 now' k = Some (mkEntry v (Some e)).
Proof. intros HL Hn He. rewrite (look_later r1 now), HL by done. cbn. apply Qle_bool_false in He. by rewrite He. Qed.

(** Two algorithms cannot share a bucket: after a check of the one, the other's
    fails as long as the key lives. *)
Theorem algorithms_do_not_mix q q' (r : R) :
  key_for q = key_for q' -> Limits.ef_algorithm (rq_policy q) <> Limits.ef_algorithm (rq_policy q') ->
  (0 < Limits.ef_window_seconds (rq_policy q))%Z -> (0 < Limits.ef_request_limit (rq_policy q))%Z -> (0 <= capacity_of (rq_policy q))%Z ->
  look r (rq_now q) (key_for q) = None -> (rq_now q <= rq_now q')%Q ->
  (rq_now q' < rq_now q + inject_Z match Limits.ef_algorithm (rq_policy q) with
                                  | RateLimitAlgorithm_sliding_window => Limits.ef_window_seconds (rq_policy q)
                                  | RateLimitAlgorithm_token_bucket => ttl_of (inject_Z (capacity_of (rq_policy q))) (rate_of (rq_policy q))
                                  end)%Q ->
  (check tostring random q' (check tostring random q r).1).2 = None.
Proof.
  intros Hk Ha Hw Hl Hc Hn Hqq Hlife. unfold check at 2.
  destruct (Limits.ef_algorithm (rq_policy q)) eqn:Eq.
  - assert (0 <= inject_Z (capacity_of (rq_policy q)))%Q as Hc0 by (by rewrite <- (Zle_Qle 0)).
    destruct (token_spec (key_for q) _ _ (rq_now q) 1 r (rate_positive _ Hl Hw) Hc0 ltac:(by rewrite Hn)) as (r1 & h & Hrun & HL & _).
    unfold check_token_bucket, bind at 1. rewrite Hrun. cbn [ret fst]. apply (life_left _ _ _ _ _ _ HL Hqq) in Hlife.
    rewrite Hk in Hlife. eapply check_wrongtype; [exact Hlife|]. cbn. by destruct (Limits.ef_algorithm (rq_policy q')).
  - destruct (sliding_spec tostring random (key_for q) (Limits.ef_request_limit (rq_policy q)) _ (rq_now q) r Hw ltac:(by rewrite Hn)) as (r1 & Hrun & HL).
    unfold check_sliding_window, bind at 1. rewrite Hrun. cbn [ret fst]. rewrite Hn in HL.
    replace (_ <? _)%Z with true in HL; [|symmetry; apply Z.ltb_lt; unfold above; cbn [log]; rewrite map_filter_empty, map_size_empty; lia].
    apply (life_left _ _ _ _ _ _ HL Hqq) in Hlife.
    rewrite Hk in Hlife. eapply check_wrongtype; [exact Hlife|]. cbn. by destruct (Limits.ef_algorithm (rq_policy q')).
Qed.
End Facts.

(** ** Which checks share a bucket *)
Lemma plain_char_ok c : plain_char c <> ":"%char.
Proof. unfold plain_char. repeat case_bool_decide; try done. Qed.

Lemma without_plain s : without ":" (smap plain_char s) = true.
Proof.
  induction s as [|c s IH]; [done|]. cbn [smap]. rewrite without_cons, IH, bool_decide_false; [done|].
  intros E. by apply (plain_char_ok c).
Qed.

Lemma without_stake c n s : without c s = true -> without c (stake n s) = true.
Proof.
  revert s. induction n as [|n IH]; intros [|d s] Hs; try done. cbn [stake].
  rewrite without_cons in *. apply andb_true_iff in Hs as [-> Hs]. by apply IH.
Qed.

Lemma segment_plain v n : without ":" (_sanitize_segment v n) = true.
Proof.
  unfold _sanitize_segment. cbv zeta. case_bool_decide; [done|]. apply without_stake, without_plain.
Qed.

Lemma colon_inj a b x y :
  without ":" a = true -> without ":" b = true -> a +:+ ":" +:+ x = b +:+ ":" +:+ y -> a = b /\ x = y.
Proof.
  intros Ha Hb E. change (a +:+ String ":" x = b +:+ String ":" y) in E.
  assert (a = b) as -> by (rewrite <- (take_until_app ":" a x Ha), <- (take_until_app ":" b y Hb); by rewrite E).
  split; [done|]. apply sapp_inj_l in E. by injection E.
Qed.

(** A policy that is resolved to the scope global: one for everybody, and also
    one for a subject's tool on every server. *)
Definition counts_globally (b : RateLimitPolicyView) : bool :=
  negb (Limits.given (RateLimitPolicyView_subject_id b))
  || negb (Limits.given (RateLimitPolicyView_server_pattern b)) && Limits.given (RateLimitPolicyView_tool_pattern b).

Lemma counts_globally_scope b :
  counts_globally b = bool_decide (Limits._scope_for_level (Limits._selector_level b) = "global").
Proof.
  unfold counts_globally, Limits._selector_level.
  destruct (Limits.given _), (Limits.given _), (Limits.given _); reflexivity.
Qed.

Lemma resolved_scope r ps d b e :
  Limits.best r ps = Some b -> Limits.resolve_policy r ps d = Some e ->
  Limits.ef_scope e = Limits._scope_for_level (Limits._selector_level b).
Proof. intros Hb He. unfold Limits.resolve_policy in He. rewrite Hb in He. by injection He as <-. Qed.

Module KeyFacts.

(** Per-tool buckets are shared only by what sanitizing makes equal. *)
Theorem tool_buckets_apart t t' s s' v v' w w' :
  without ":" t = true -> without ":" t' = true ->
  bucket_key "tool" t s v w = bucket_key "tool" t' s' v' w' <->
  t = t' /\ _sanitize_segment s 200 = _sanitize_segment s' 200
  /\ _sanitize_segment v 100 = _sanitize_segment v' 100 /\ _sanitize_segment w 200 = _sanitize_segment w' 200.
Proof.
  intros Ht Ht'. unfold bucket_key, build_key. cbn -[_sanitize_segment]. split; [|by intros (-> & -> & -> & ->)].
  intros E%sapp_inj_l. apply colon_inj in E as [-> E]; [|done..].
  apply colon_inj in E as [-> E]; [|apply segment_plain..]. by apply colon_inj in E as [-> ->]; [|apply segment_plain..].
Qed.

(** Every policy that counts globally uses one bucket per tenant and server,
    whatever the policy, the subject and the tool: the calls of one are counted
    against the others. *)
Theorem global_bucket_shared r1 r2 ps d b1 b2 q1 q2 :
  Limits.best r1 ps = Some b1 -> Limits.resolve_policy r1 ps d = Some (rq_policy q1) ->
  Limits.best r2 ps = Some b2 -> Limits.resolve_policy r2 ps d = Some (rq_policy q2) ->
  counts_globally b1 = true -> counts_globally b2 = true ->
  rq_tenant q1 = rq_tenant q2 -> rq_server q1 = rq_server q2 -> key_for q1 = key_for q2.
Proof.
  intros Hb1 He1 Hb2 He2 Hg1 Hg2 Ht Hs. rewrite counts_globally_scope in Hg1, Hg2. bool_hyps.
  unfold key_for. rewrite (resolved_scope _ _ _ _ _ Hb1 He1), (resolved_scope _ _ _ _ _ Hb2 He2), Hg1, Hg2, Ht, Hs. done.
Qed.

(** A global policy has a budget of its own for every server, although it may
    name none. *)
Theorem global_budget_per_server t s s' v v' w w' :
  v <> "management_api" -> v' <> "management_api" -> _sanitize_segment v 100 <> _sanitize_segment v' 100 ->
  bucket_key "global" t s v w <> bucket_key "global" t s' v' w'.
Proof.
  intros Hv Hv' Hne. unfold bucket_key. rewrite !(bool_decide_true ("global" = "global")), !bool_decide_true by done.
  by intros E%sapp_inj_l%sapp_inj_l%sapp_inj_l.
Qed.

(** Somebody whose subject is called global spends the tenant's global budget. *)
Theorem subject_named_global t s v w w' :
  v <> "management_api" ->
  bucket_key "server" t "global" v w = bucket_key "global" t s v w' /\
  bucket_key "subject" t "global" v w = bucket_key "global" t s "management_api" w'.
Proof.
  intros Hv. unfold bucket_key. by rewrite (bool_decide_true ("global" = "global")), (bool_decide_true (v <> "management_api")) by done.
Qed.
End KeyFacts.

(** ** The theorems at work, on [RefRedis] *)
Definition demo_text (q : Q) : string := pretty (Qnum q).
Definition demo_policy (a : RateLimitAlgorithm) : Limits.EffectivePolicy := Limits.mkEffective a 2 10 None "tool".
Definition demo_request (a : RateLimitAlgorithm) (now : Q) (tool : string) : request :=
  mkRequest now "acme" "ada" "github" tool (demo_policy a).
Definition demo_key : string := "rl:acme:ada:github:search".
Definition fresh_redis : RefRedis.store := RefRedis.mkStore ∅.

Ltac each_request p :=
  repeat (apply Forall_cons_2; [unfold p; vm_compute; first [by repeat split|by intros _; repeat split|by intros Hk; discriminate Hk]|]);
  apply Forall_nil_2.

Lemma window_never_exceeded_witness :
  let qs := [demo_request RateLimitAlgorithm_sliding_window 0 "search"; demo_request RateLimitAlgorithm_sliding_window 1 "search";
             demo_request RateLimitAlgorithm_sliding_window 2 "search"; demo_request RateLimitAlgorithm_token_bucket 2 "list";
             demo_request RateLimitAlgorithm_sliding_window 10 "search"] in
  map (fun p => let_through demo_key p) (run demo_text "0.17" qs fresh_redis).2 = [true; true; false; false; true] /\
  (Z.of_nat (length (passed demo_key 10 10 (run demo_text "0.17" qs fresh_redis).2)) <= 2)%Z.
Proof.
  cbv zeta. split; [vm_compute; reflexivity|].
  eapply (window_never_exceeded demo_text "0.17" demo_key 2 10 0 _ fresh_redis 10).
  - lia.
  - lia.
  - cbn. repeat split; lra.
  - each_request (@governed).
  - reflexivity.
  - vm_compute. repeat constructor; set_solver.
Defined.

Lemma bucket_never_exceeded_witness :
  let qs := [demo_request RateLimitAlgorithm_token_bucket 0 "search"; demo_request RateLimitAlgorithm_token_bucket 0 "search";
             demo_request RateLimitAlgorithm_token_bucket 1 "search"; demo_request RateLimitAlgorithm_sliding_window 2 "list";
             demo_request RateLimitAlgorithm_token_bucket 5 "search"] in
  map (fun p => let_through demo_key p) (run demo_text "0.17" qs fresh_redis).2 = [true; true; false; false; true] /\
  (inject_Z (Z.of_nat (length (between demo_key 0 5 (run demo_text "0.17" qs fresh_redis).2))) <= inject_Z 2 + (2 # 10) * (5 - 0))%Q.
Proof.
  cbv zeta. split; [vm_compute; reflexivity|].
  apply (bucket_never_exceeded demo_text "0.17" demo_key (demo_policy RateLimitAlgorithm_token_bucket) 0 _ fresh_redis 0 5).
  - reflexivity.
  - vm_compute. discriminate.
  - reflexivity.
  - reflexivity.
  - cbn. repeat split; lra.
  - each_request (@fixed).
  - reflexivity.
  - lra.
Defined.

Lemma one_moment_counts_once_witness :
  let qs := repeat (demo_request RateLimitAlgorithm_sliding_window 3 "search") 6 in
  Forall (fun p => let_through demo_key p = true) (run demo_text "0.17" qs fresh_redis).2.
Proof.
  apply (one_moment_counts_once demo_text "0.17" demo_key 2 10 3 _ fresh_redis).
  - lia.
  - lia.
  - each_request (@key_for).
  - each_request (@governed).
  - reflexivity.
Defined.

Lemma algorithms_do_not_mix_witness :
  (check demo_text "0.17" (demo_request RateLimitAlgorithm_token_bucket 4 "search")
     (check demo_text "0.17" (demo_request RateLimitAlgorithm_sliding_window 3 "search") fresh_redis).1).2 = None.
Proof.
  apply algorithms_do_not_mix; try reflexivity; try discriminate.
Defined.

Lemma window_retry_exact_witness :
  let q := demo_request RateLimitAlgorithm_sliding_window in
  exists r1 res o, check demo_text "0.17" (q 4 "search") (run demo_text "0.17" [q 0 "search"; q 1 "search"] fresh_redis).1 = (r1, Some res) /\
    (check demo_text "0.17" (q 10 "search") r1).2 = Some o /\ (retry_after_seconds res == 6)%Q /\ allowed o = true.
Proof.
  cbv zeta.
  destruct (window_retry_exact demo_text "0.17" demo_key 2 10 0
              [demo_request RateLimitAlgorithm_sliding_window 0 "search"; demo_request RateLimitAlgorithm_sliding_window 1 "search"]
              (demo_request RateLimitAlgorithm_sliding_window 4 "search") (demo_request RateLimitAlgorithm_sliding_window 10 "search") fresh_redis)
    as (r1 & res & o & E1 & E2 & Hiff).
  - lia.
  - lia.
  - cbn. repeat split; lra.
  - each_request (@governed).
  - reflexivity.
  - reflexivity.
  - reflexivity.
  - exists r1, res, o. split; [exact E1|]. split; [exact E2|].
    assert (allowed res = false /\ (retry_after_seconds res == 6)%Q) as [Ha Hr].
    { apply (f_equal snd) in E1. vm_compute in E1. injection E1 as <-. split; reflexivity. }
    split; [exact Hr|]. apply (Hiff Ha). rewrite Hr. cbn. lra.
Defined.

Lemma bucket_retry_overstated_witness :
  let q := demo_request RateLimitAlgorithm_token_bucket in
  exists r1 res o, check demo_text "0.17" (q 0 "search") (run demo_text "0.17" [q 0 "search"; q 0 "search"] fresh_redis).1 = (r1, Some res) /\
    (check demo_text "0.17" (q 5 "search") r1).2 = Some o /\ (retry_after_seconds res == 10)%Q /\ allowed o = true.
Proof.
  cbv zeta.
  destruct (bucket_retry_overstated demo_text "0.17" demo_key (demo_policy RateLimitAlgorithm_token_bucket) 0
              [demo_request RateLimitAlgorithm_token_bucket 0 "search"; demo_request RateLimitAlgorithm_token_bucket 0 "search"]
              (demo_request RateLimitAlgorithm_token_bucket 0 "search") (demo_request RateLimitAlgorithm_token_bucket 5 "search") fresh_redis)
    as (r1 & res & o & E1 & E2 & Hiff).
  - reflexivity.
  - reflexivity.
  - reflexivity.
  - cbn. repeat split; lra.
  - each_request (@fixed).
  - reflexivity.
  - reflexivity.
  - reflexivity.
  - exists r1, res, o. split; [exact E1|]. split; [exact E2|].
    assert (allowed res = false /\ (retry_after_seconds res == 10)%Q) as [Ha Hr].
    { apply (f_equal snd) in E1. vm_compute in E1. injection E1 as <-. split; reflexivity. }
    split; [exact Hr|]. apply (Hiff Ha). rewrite Hr. vm_compute. discriminate.
Defined.
