(* ===== verification/McpSessions.v ===== *)
(** * The gateway's session registry (api/app/gateway/session.py)

    Which caller a [Mcp-Session-Id] belongs to, kept in Redis with a sliding
    time to live: [SessionStore], [matches], and [validate_session] and the
    session part of the handlers of api/app/gateway/router.py.

    Every command is a round trip of its own, which can fail before or after
    the server ran it, and other requests run between two trips of one.  So
    an operation is a program [prog]: the trips it makes, one after another,
    and what it does with each answer.  [alone] is a program alone at one moment,
    with an outcome for each trip; a [machine] interleaves the trips of any
    number of requests with each other, with time and with the rest of Redis. *)

From S2P Require Import Prelude JsString Json JsonParse Redis.

Open Scope string_scope.

Definition SESSION_KEY_PREFIX : string := "mcp-session:".
Definition SESSION_TTL_SECONDS : Z := 3600.

Definition _session_key (session_id : string) : string := SESSION_KEY_PREFIX +:+ session_id.

Definition id_char (c : ascii) : bool :=
  let n := code c in
  ((65 <=? n) && (n <=? 90) || (97 <=? n) && (n <=? 122) || (48 <=? n) && (n <=? 57) || (n =? 45) || (n =? 95))%N.

Definition is_valid_session_id (session_id : string) : bool :=
  sforall id_char session_id && (8 <=? String.length session_id)%nat && (String.length session_id <=? 128)%nat.

(** The tenant, subject and server a session belongs to. *)
Record owner := mkOwner { tenant_id : string; subject_id : string; server_slug : string }.

#[export] Instance owner_eq : EqDecision owner.
Proof. solve_decision. Defined.

Definition payload (o : owner) : json :=
  JObj [("tenant_id", JStr (tenant_id o)); ("subject_id", JStr (subject_id o)); ("server_slug", JStr (server_slug o))].

Definition matches (record : option owner) (o : owner) : bool := bool_decide (record = Some o).

(** How a request that carries a session id is answered. *)
Inductive verdict := Proceed | Invalid400 | NotFound404 | Forbidden403 | Unavailable503.

(** ** Programs that talk to Redis *)

(** [Trip c k] sends [c] and goes on with the reply, [None] when the client
    raises; [Raise] is an exception that leaves the operation. *)
Inductive prog (A : Type) : Type :=
| Done (a : A)
| Raise
| Trip (c : command) (k : option reply -> prog A).

Arguments Done {A} a.
Arguments Raise {A}.
Arguments Trip {A} c k.

Fixpoint pbind {A B} (m : prog A) (f : A -> prog B) : prog B :=
  match m with
  | Done a => f a
  | Raise => Raise
  | Trip c k => Trip c (fun a => pbind (k a) f)
  end.

#[local] Notation "'await' x <- m ; f" := (pbind m (fun x => f)) (at level 200, x name, m at level 100, f at level 200).

(** [try: m except Exception: h] *)
Fixpoint catch {A} (m h : prog A) : prog A :=
  match m with
  | Done a => Done a
  | Raise => h
  | Trip c k => Trip c (fun a => catch (k a) h)
  end.

(** What can become of a trip: answered, lost on the way, or run with its reply lost. *)
Inductive outcome := Up | Unsent | ReplyLost.

Section Sessions.
Context {R : Type} `{RedisLaws R}.

Definition trip (x : outcome) (c : command) (t : Q) (r : R) : R * option reply :=
  match x with
  | Up => let '(r1, a) := exec c t r in (r1, Some a)
  | Unsent => (r, None)
  | ReplyLost => ((exec c t r).1, None)
  end.

(** A program alone at [t]; [None] is an exception. *)
Fixpoint alone {A} (link : command -> outcome) (m : prog A) (t : Q) (r : R) : R * option A :=
  match m with
  | Done a => (r, Some a)
  | Raise => (r, None)
  | Trip c k => let '(r1, a) := trip (link c) c t r in alone link (k a) t r1
  end.

(** Python's [str] of a value that is no string. *)
Variable repr : json -> string.

Definition str (v : json) : string := match v with JStr s => s | _ => repr v end.

(** The mapping in a stored text; [None] when it is malformed. *)
Definition owner_in (raw : string) : option owner :=
  p ← JSON_parse raw;
  t ← json_field "tenant_id" p;
  s ← json_field "subject_id" p;
  v ← json_field "server_slug" p;
  Some (mkOwner (str t) (str s) (str v)).

(** ** [SessionStore] *)
Definition record (session_id : string) (o : owner) : prog unit :=
  if is_valid_session_id session_id then
    Trip (SetEx (_session_key session_id) (JSON_stringify (payload o)) SESSION_TTL_SECONDS)
      (fun a => match a with Some _ => Done tt | None => Raise end)
  else Done tt.

(** A failing [GET] finds nothing, a failing [EXPIRE] raises.  A malformed text is
    not refreshed; a mapping without one of the fields is. *)
Definition lookup (session_id : string) : prog (option owner) :=
  Trip (GET (_session_key session_id)) (fun a =>
    match a with
    | Some (Bulk raw) =>
        match JSON_parse raw with
        | None => Done None
        | Some _ => Trip (EXPIRE (_session_key session_id) SESSION_TTL_SECONDS)
                      (fun b => match b with Some _ => Done (owner_in raw) | None => Raise end)
        end
    | _ => Done None
    end).

Definition claim_or_validate (session_id : string) (o : owner) : prog bool :=
  if is_valid_session_id session_id then
    Trip (SetNx (_session_key session_id) (JSON_stringify (payload o)) SESSION_TTL_SECONDS) (fun a =>
      match a with
      | None => Done false
      | Some (Int _) => Done true
      | Some _ => await existing <- lookup session_id; Done (matches existing o)
      end)
  else Done false.

(** Best effort: a failure is logged. *)
Definition delete (session_id : string) : prog unit := Trip (DEL (_session_key session_id)) (fun _ => Done tt).

(** ** The handlers' use of it *)

(** [_AuthContext.validate_session] for an authenticated caller. *)
Definition validate_session (inbound : option string) (o : owner) : prog verdict :=
  match inbound with
  | None | Some "" => Done Proceed
  | Some id =>
      if is_valid_session_id id then
        catch (await found <- lookup id;
               Done match found with
                    | None => NotFound404
                    | Some _ => if matches found o then Proceed else Forbidden403
                    end)
              (Done Unavailable503)
      else Done Invalid400
  end.

Definition conflicting (existing : option owner) (o : owner) : bool :=
  match existing with Some _ => negb (matches existing o) | None => false end.

(** The session id of an upstream's response: kept for the caller, or a conflict. *)
Definition adopt (inbound : option string) (upstream_id : string) (o : owner) : prog bool :=
  await existing <- lookup upstream_id;
  if conflicting existing o then Done false
  else
    await _ <- match inbound with
               | Some id => if bool_decide (id <> "" /\ id <> upstream_id) then delete id else Done tt
               | None => Done tt
               end;
    await _ <- record upstream_id o;
    Done true.

(** ** Requests, by their trips to the registry *)

(** A request of a caller's that is forwarded, with the session id the upstream
    answered, or that terminates a session, if the rate limit then [admits] it. *)
Inductive use :=
| Forward (o : owner) (inbound upstream_id : option string)
| Terminate (o : owner) (inbound : string) (admitted : bool).

Definition user (u : use) : owner := match u with Forward o _ _ | Terminate o _ _ => o end.

Definition request_of (u : use) : prog unit :=
  match u with
  | Forward o inbound upstream_id =>
      await v <- validate_session inbound o;
      match v, upstream_id with
      | Proceed, Some id => if is_valid_session_id id then await _ <- adopt inbound id o; Done tt else Done tt
      | _, _ => Done tt
      end
  | Terminate o inbound admitted =>
      await v <- validate_session (Some inbound) o;
      match v with
      | Proceed =>
          if is_valid_session_id inbound then
            await found <- lookup inbound;
            if matches found o && admitted then delete inbound else Done tt
          else Done tt
      | _ => Done tt
      end
  end.

(** ** Requests that run at once *)
Record machine := mkMachine { now : Q; registry : R; requests : list (owner * prog unit) }.

(** Time passes, a request begins, one makes its next trip, or something else is
    done in Redis, to a key that is no session's. *)
Inductive event :=
| Tick (until : Q)
| Begin (u : use)
| Move (i : nat) (x : outcome)
| Elsewhere (c : command).

Definition advance (m : machine) (e : event) : machine :=
  match e with
  | Tick until => if Qle_bool (now m) until then mkMachine until (registry m) (requests m) else m
  | Begin u => mkMachine (now m) (registry m) (requests m ++ [(user u, request_of u)])%list
  | Move i x =>
      match requests m !! i with
      | Some (o, Trip c k) =>
          let '(r1, a) := trip x c (now m) (registry m) in
          mkMachine (now m) r1 (<[i := (o, k a)]> (requests m))
      | _ => m
      end
  | Elsewhere c =>
      if startsWith (key_of c) SESSION_KEY_PREFIX then m
      else mkMachine (now m) (exec c (now m) (registry m)).1 (requests m)
  end.

Definition advance_all (m : machine) (es : list event) : machine := fold_left advance es m.

(** Who a session belongs to at [t]. *)
Definition owner_at (r : R) (t : Q) (session_id : string) : option owner :=
  match look r t (_session_key session_id) with
  | Some (mkEntry (StringV raw) _) => owner_in raw
  | _ => None
  end.

Definition owner_now (m : machine) (id : string) : option owner := owner_at (registry m) (now m) id.

(** A run in which the session does not expire, its owner [x] does not end it, and
    no other request's look-up of it fails. *)
Fixpoint undisturbed (id : string) (x : owner) (m : machine) (es : list event) : Prop :=
  match es with
  | [] => True
  | e :: es =>
      match e with
      | Tick _ => owner_now (advance m e) id <> None
      | Move i net =>
          match requests m !! i with
          | Some (o, Trip c _) => if bool_decide (o = x) then owner_now (advance m e) id <> None
                                  else c = GET (_session_key id) -> net = Up
          | _ => True
          end
      | _ => True
      end /\ undisturbed id x (advance m e) es
  end.

(** ** Commands and owners *)
Lemma session_key_inj a b : _session_key a = _session_key b -> a = b.
Proof. apply sapp_inj_l. Qed.

Lemma owner_in_payload o : owner_in (JSON_stringify (payload o)) = Some o.
Proof. unfold owner_in. rewrite parse_of_stringify. by destruct o. Qed.

(** What a command makes of a session's owner, by its effect on the key. *)
Lemma owner_exec c t r id :
  owner_at (exec c t r).1 t id =
    if bool_decide (key_of c = _session_key id)
    then match (effect c t (look r t (_session_key id))).1 with
         | Some (mkEntry (StringV raw) _) => owner_in raw
         | _ => None
         end
    else owner_at r t id.
Proof.
  unfold owner_at. case_bool_decide as Hk; [by rewrite <- Hk, exec_own|].
  by rewrite exec_other by congruence.
Qed.

(** A command that cannot take [id] away from anybody. *)
Definition reads (id : string) (c : command) : Prop :=
  key_of c <> _session_key id \/ c = GET (_session_key id) \/ c = EXPIRE (_session_key id) SESSION_TTL_SECONDS.

Lemma live_later t v s : (0 < s)%Z -> live t (Some (mkEntry v (Some (t + inject_Z s))%Q)) = Some (mkEntry v (Some (t + inject_Z s))%Q).
Proof.
  intros Hs. cbn. destruct (Qle_bool _ t) eqn:El; [|done]. apply Qle_bool_iff in El.
  assert (0 < inject_Z s)%Q by (by change 0%Q with (inject_Z 0); rewrite <- Zlt_Qlt). lra.
Qed.

Lemma reads_owner id c t r : reads id c -> owner_at (exec c t r).1 t id = owner_at r t id.
Proof.
  intros Hc. rewrite owner_exec. case_bool_decide as Hk; [|done]. unfold owner_at.
  destruct Hc as [?|[->| ->]]; [done| |]; cbn [effect].
  - by destruct (look r t _) as [[[] ?]|].
  - destruct (look r t _) as [[v ?]|]; [|done]. cbn [fst]. by rewrite live_later.
Qed.

(** A command of the owner's: it ends the session or keeps it. *)
Definition owns (id : string) (x : owner) (c : command) : Prop :=
  reads id c \/ c = DEL (_session_key id) \/ c = SetEx (_session_key id) (JSON_stringify (payload x)) SESSION_TTL_SECONDS.

Lemma owns_owner id x c t r :
  owns id x c -> owner_at r t id = Some x -> owner_at (exec c t r).1 t id <> None -> owner_at (exec c t r).1 t id = Some x.
Proof.
  intros [Hc|[->| ->]] Hx; [by rewrite reads_owner| |]; rewrite owner_exec, bool_decide_true by done; cbn [effect].
  - by destruct (look r t _).
  - intros _. cbn [fst]. rewrite live_later by done. apply owner_in_payload.
Qed.

(** ** What a program does, whatever runs between its trips

    [safe P Q m Post]: every command the program sends satisfies [P] and a
    result satisfies [Post], as long as the replies are among those of [Q]. *)
Fixpoint safe {A} (P : command -> Prop) (Q : command -> option reply -> Prop) (m : prog A) (Post : A -> Prop) : Prop :=
  match m with
  | Done a => Post a
  | Raise => True
  | Trip c k => P c /\ forall a, Q c a -> safe P Q (k a) Post
  end.

Section Safe.
Context (P : command -> Prop) (Q : command -> option reply -> Prop).

Lemma safe_bind {A B} (m : prog A) (f : A -> prog B) Mid Post :
  safe P Q m Mid -> (forall a, Mid a -> safe P Q (f a) Post) -> safe P Q (pbind m f) Post.
Proof.
  intros Hm Hf. induction m as [a| |c k IH]; cbn in *; [by apply Hf|done|].
  destruct Hm as [Hc Hk]. split; [done|]. intros a Ha. apply IH. by apply Hk.
Qed.

Lemma safe_catch {A} (m h : prog A) Post : safe P Q m Post -> safe P Q h Post -> safe P Q (catch m h) Post.
Proof.
  intros Hm Hh. induction m as [a| |c k IH]; cbn in *; [done..|].
  destruct Hm as [Hc Hk]. split; [done|]. intros a Ha. apply IH. by apply Hk.
Qed.

(** A look-up sends two commands. *)
Lemma safe_lookup id (Post : option owner -> Prop) :
  P (GET (_session_key id)) -> P (EXPIRE (_session_key id) SESSION_TTL_SECONDS) ->
  (forall a, Q (GET (_session_key id)) a -> Post match a with Some (Bulk raw) => owner_in raw | _ => None end) ->
  safe P Q (lookup id) Post.
Proof.
  intros Hg He Hpost. unfold lookup. cbn [safe]. split; [done|]. intros a Ha. specialize (Hpost a Ha).
  destruct a as [[]|]; try exact Hpost. destruct (JSON_parse s) as [p|] eqn:Ep; cbn [safe].
  - split; [done|]. by intros [b|] _.
  - unfold owner_in in Hpost. by rewrite Ep in Hpost.
Qed.
End Safe.

(** The replies another caller's request gets while [id] is [x]'s. *)
Definition sees (id : string) (x : owner) (c : command) (a : option reply) : Prop :=
  c = GET (_session_key id) -> exists raw, a = Some (Bulk raw) /\ owner_in raw = Some x.

(** A look-up of a stranger's: it finds [x] at [id]. *)
Lemma stranger_lookup id x id' :
  safe (reads id) (sees id x) (lookup id') (fun found => id' = id -> found = Some x).
Proof.
  apply safe_lookup.
  - destruct (decide (id' = id)) as [->|Hne]; [by right; left|left]. by intros E%session_key_inj.
  - destruct (decide (id' = id)) as [->|Hne]; [by right; right|left]. by intros E%session_key_inj.
  - intros a Ha ->. by destruct (Ha eq_refl) as (raw & -> & ?).
Qed.

Lemma stranger_validate id x inbound o :
  o <> x -> safe (reads id) (sees id x) (validate_session inbound o) (fun v => v = Proceed -> inbound = Some id -> id = "").
Proof.
  intros Ho. unfold validate_session. destruct inbound as [[|c s]|]; [by intros _ [= <-]| |done]. set (i := String c s).
  destruct (is_valid_session_id i); [|done]. apply safe_catch; [|done].
  apply (safe_bind _ _ _ _ _ _ (stranger_lookup id x i)). intros found Hf. cbn. intros Hv [= E].
  rewrite (Hf E) in Hv. unfold matches in Hv. case_bool_decide; [congruence|done].
Qed.

Lemma other_key id id' : id' <> id -> _session_key id' <> _session_key id.
Proof. intros Hne E%session_key_inj. done. Qed.

(** A stranger's request never writes or removes [id]. *)
Lemma stranger_safe id x u :
  is_valid_session_id id = true -> user u <> x -> safe (reads id) (sees id x) (request_of u) (fun _ => True).
Proof.
  intros Hid Ho. assert (id <> "") as Hne by (by intros ->).
  destruct u as [o inbound upstream_id|o inbound admitted]; cbn [user request_of] in *;
    (eapply safe_bind; [by apply (stranger_validate id x)|intros v Hv]; destruct v; try done).
  - destruct upstream_id as [up|]; [|done]. destruct (is_valid_session_id up) eqn:Hup; [|done].
    eapply (safe_bind _ _ _ _ (fun _ => True)); [|done]. eapply safe_bind; [apply (stranger_lookup id x)|intros found Hf].
    destruct (conflicting found o) eqn:Hc; [done|].
    assert (up <> id) as Hne'.
    { intros E. rewrite (Hf E) in Hc. cbn in Hc. unfold matches in Hc. case_bool_decide; [congruence|done]. }
    eapply (safe_bind _ _ _ _ (fun _ => True)).
    + destruct inbound as [i|]; [|done]. case_bool_decide as Hi; [|done]. split; [|done]. left. cbn. apply other_key. naive_solver.
    + intros _ _. eapply (safe_bind _ _ _ _ (fun _ => True)); [|done]. unfold record. rewrite Hup. split; [|by intros []].
      left. by apply other_key.
  - destruct (is_valid_session_id inbound); [|done]. eapply safe_bind; [apply (stranger_lookup id x)|intros found Hf].
    destruct (matches found o && admitted); [|done]. split; [|done]. left. cbn. apply other_key. naive_solver.
Qed.

(** The owner's request writes nobody else in. *)
Lemma owner_safe id x u : user u = x -> safe (owns id x) (fun _ _ => True) (request_of u) (fun _ => True).
Proof.
  intros Hx. assert (forall i, safe (owns id x) (fun _ _ => True) (lookup i) (fun _ => True)) as Hl.
  { intros i. apply safe_lookup; [| |done]; left; (destruct (decide (i = id)) as [->|Hne];
      [first [by right; left|by right; right]|left; by apply other_key]). }
  assert (forall i, owns id x (DEL (_session_key i))) as Hd.
  { intros i. destruct (decide (i = id)) as [->|Hne]; [by right; left|]. left. left. by apply other_key. }
  assert (forall i, safe (owns id x) (fun _ _ => True) (validate_session i x) (fun _ => True)) as Hv.
  { intros [[|c s]|]; [done| |done]. unfold validate_session. destruct (is_valid_session_id _); [|done].
    apply safe_catch; [|done]. by eapply safe_bind. }
  destruct u as [o inbound upstream_id|o inbound admitted]; cbn [user request_of] in *; subst o;
    (eapply safe_bind; [apply Hv|intros v _]; destruct v; try done).
  - destruct upstream_id as [up|]; [|done]. destruct (is_valid_session_id up) eqn:Hup; [|done].
    eapply (safe_bind _ _ _ _ (fun _ => True)); [|done]. eapply safe_bind; [apply Hl|intros found _]. destruct (conflicting found x); [done|].
    eapply (safe_bind _ _ _ _ (fun _ => True)).
    + destruct inbound as [i|]; [|done]. case_bool_decide; [|done]. by split.
    + intros _ _. eapply (safe_bind _ _ _ _ (fun _ => True)); [|done]. unfold record. rewrite Hup. split; [|by intros []].
      destruct (decide (up = id)) as [->|Hne]; [by right; right|]. left. left. by apply other_key.
  - destruct (is_valid_session_id inbound); [|done]. eapply safe_bind; [apply Hl|intros found _].
    destruct (matches found x && admitted); [|done]. by split.
Qed.

(** ** The invariant: [id] is [x]'s, and every request is safe for it *)
Definition guarded (id : string) (x : owner) (p : owner * prog unit) : Prop :=
  if bool_decide (p.1 = x) then safe (owns id x) (fun _ _ => True) p.2 (fun _ => True)
  else safe (reads id) (sees id x) p.2 (fun _ => True).

Definition kept (id : string) (x : owner) (m : machine) : Prop :=
  owner_now m id = Some x /\ Forall (guarded id x) (requests m).

Lemma owner_later r t t' id : (t <= t')%Q -> owner_at r t' id <> None -> owner_at r t' id = owner_at r t id.
Proof.
  intros Ht. unfold owner_at. rewrite (look_later r t t') by done. destruct (look r t _) as [[v [d|]]|]; [|done..].
  cbn. by destruct (Qle_bool d t').
Qed.

(** The reply to a [GET] of the session. *)
Lemma get_sees id x net c t r :
  owner_at r t id = Some x -> (c = GET (_session_key id) -> net = Up) -> sees id x c (trip net c t r).2.
Proof.
  intros Hx Hnet ->. rewrite Hnet by done.
  unfold trip. pose proof (exec_reply (GET (_session_key id)) t r) as Hr. cbn [key_of] in Hr.
  destruct (exec _ t r) as [r1 b]. cbn [snd] in *. subst b. unfold owner_at in Hx.
  destruct (look r t _) as [[[raw| |] ?]|]; try done. by exists raw.
Qed.

Lemma trip_owner id x net c t r :
  owner_at r t id = Some x -> (reads id c \/ owns id x c /\ owner_at (trip net c t r).1 t id <> None) ->
  owner_at (trip net c t r).1 t id = Some x.
Proof.
  intros Hx Hc. destruct net; cbn in *; [|done|].
  1: assert ((let '(r1, a) := exec c t r in (r1, Some a)).1 = (exec c t r).1) as E by (by destruct (exec c t r)); rewrite E in *.
  all: destruct Hc as [Hc|[Hc ?]]; [by rewrite reads_owner|by apply owns_owner].
Qed.

Lemma kept_move id x m i net :
  kept id x m -> undisturbed id x m [Move i net] -> kept id x (advance m (Move i net)).
Proof.
  intros [Hx Hg] [Hu _]. cbn [advance] in *. destruct (requests m !! i) as [[o [| |c k]]|] eqn:Ei; try done.
  pose proof (Forall_lookup_1 _ _ _ _ Hg Ei) as Hi. unfold guarded in Hi. cbn [fst snd safe] in Hi.
  pose proof (trip_owner id x net c (now m) (registry m) Hx) as Ht.
  pose proof (get_sees id x net c (now m) (registry m) Hx) as Hget.
  destruct (trip net c (now m) (registry m)) as [r1 a] eqn:Et. unfold owner_now in *. cbn [fst snd now registry requests] in *.
  unfold kept, owner_now. cbn [now registry requests]. case_bool_decide as Ho.
  - destruct Hi as [Hc Hk]. split; [apply Ht; by right|]. apply Forall_insert; [done|]. unfold guarded. cbn [fst snd]. rewrite bool_decide_true by done. by apply Hk.
  - destruct Hi as [Hc Hk]. split; [apply Ht; by left|]. apply Forall_insert; [done|]. unfold guarded. cbn [fst snd]. rewrite bool_decide_false by done.
    by apply Hk, Hget.
Qed.

Lemma kept_advance id x m e :
  is_valid_session_id id = true -> kept id x m -> undisturbed id x m [e] -> kept id x (advance m e).
Proof.
  intros Hid Hkept Hu. destruct e as [until|u|i net|c]; [| |by apply kept_move|]; destruct Hkept as [Hx Hg]; destruct Hu as [Hu _]; cbn [advance] in *.
  - destruct (Qle_bool (now m) until) eqn:Et; [|done]. split; [|done]. unfold owner_now in *. cbn [now registry] in *.
    apply Qle_bool_iff in Et. by rewrite (owner_later _ (now m)).
  - split; [done|]. cbn [requests]. apply Forall_app. split; [done|]. apply Forall_singleton. unfold guarded. cbn [fst snd].
    case_bool_decide; [by apply owner_safe|by apply stranger_safe].
  - destruct (startsWith (key_of c) SESSION_KEY_PREFIX) eqn:Es; [done|]. split; [|done]. unfold owner_now in *. cbn [now registry].
    rewrite reads_owner; [done|]. left. intros E. rewrite E in Es. unfold _session_key in Es. by rewrite startsWith_app in Es.
Qed.

(** [C24] A session is not taken over or removed.  Once it is [x]'s, and
    whatever requests then begin, of anybody, with whatever session ids, in
    whatever order their trips to Redis are made and however they fail, it stays
    [x]'s: as long as it has not expired, [x] has not ended it, and no look-up of
    it by another caller's request fails (its id being of the accepted shape).
    [racing_responses] and [failed_lookup_overwrites] show why it must be [x]'s
    before they begin and why no look-up may fail. *)
Theorem session_owner_kept id x m es :
  is_valid_session_id id = true -> requests m = [] -> owner_now m id = Some x -> undisturbed id x m es ->
  owner_now (advance_all m es) id = Some x.
Proof.
  intros Hid Hr Hx Hu. assert (kept id x m) as Hk by (split; [done|]; by rewrite Hr).
  clear Hr Hx. revert m Hk Hu. induction es as [|e es IH]; intros m Hk Hu; [apply Hk|].
  destruct Hu as [Hu Hus]. cbn. apply IH; [|done]. by apply kept_advance.
Qed.

(** ** Two ways to lose a session *)
Lemma move_up m i o c k :
  requests m !! i = Some (o, Trip c k) ->
  advance m (Move i Up) = mkMachine (now m) (exec c (now m) (registry m)).1
                            (<[i := (o, k (Some (exec c (now m) (registry m)).2))]> (requests m)).
Proof. intros E. cbn [advance]. rewrite E. unfold trip. by destruct (exec c _ _). Qed.

Lemma move_unsent m i o c k :
  requests m !! i = Some (o, Trip c k) ->
  advance m (Move i Unsent) = mkMachine (now m) (registry m) (<[i := (o, k None)]> (requests m)).
Proof. intros E. cbn [advance]. by rewrite E. Qed.

Lemma begin_at m u : advance m (Begin u) = mkMachine (now m) (registry m) (requests m ++ [(user u, request_of u)])%list.
Proof. done. Qed.

Lemma written_owner id o t r :
  owner_at (exec (SetEx (_session_key id) (JSON_stringify (payload o)) SESSION_TTL_SECONDS) t r).1 t id = Some o.
Proof. rewrite owner_exec, bool_decide_true by done. cbn [effect fst]. rewrite live_later by done. apply owner_in_payload. Qed.

(** A request without a session whose look-up of the upstream's id finds nothing
    writes its caller's name next. *)
Lemma writes_when_nothing_found id o :
  is_valid_session_id id = true ->
  exists k, request_of (Forward o None (Some id)) = Trip (GET (_session_key id)) k /\
    forall a, a = None \/ a = Some Nil -> exists k',
      k a = Trip (SetEx (_session_key id) (JSON_stringify (payload o)) SESSION_TTL_SECONDS) k' /\ forall z, k' (Some z) = Done tt.
Proof.
  intros Hv. cbn [request_of validate_session pbind]. rewrite Hv. eexists. split; [reflexivity|].
  intros a Ha. unfold record. rewrite Hv. destruct Ha as [->| ->]; (eexists; split; [reflexivity|done]).
Qed.

Lemma get_nothing id t r : look r t (_session_key id) = None -> (exec (GET (_session_key id)) t r).2 = Nil.
Proof. intros Hn. rewrite exec_reply. cbn [key_of]. by rewrite Hn. Qed.

(** A caller whose session is another's now. *)
Lemma refused_now id o o' t r link :
  is_valid_session_id id = true -> owner_at r t id = Some o' -> o' <> o ->
  (forall c, link c = Up) -> (alone link (validate_session (Some id) o) t r).2 = Some Forbidden403.
Proof.
  intros Hv Ho Hne Hup. destruct id as [|c id]; [done|]. unfold validate_session, lookup, owner_at in *. rewrite Hv.
  cbn [pbind catch alone]. rewrite Hup. unfold trip. pose proof (exec_reply (GET (_session_key (String c id))) t r) as Hr. cbn [key_of] in Hr.
  destruct (exec _ t r) as [r1 b]. cbn [snd] in Hr. subst b. destruct (look r t _) as [[[raw| |] ?]|]; try done. cbn [effect snd].
  destruct (JSON_parse raw) as [p|] eqn:Ep; [|unfold owner_in in Ho; by rewrite Ep in Ho].
  cbn [pbind catch alone]. rewrite Hup. unfold trip. destruct (exec _ t r1) as [r2 b]. cbn [pbind catch alone snd].
  rewrite Ho. cbn. unfold matches. rewrite bool_decide_false; [done|]. congruence.
Qed.

(** The look-up and the write are separate trips: of two responses with the same
    new session id that are handled at once both are accepted, and the first
    caller is refused from then on. *)
Theorem racing_responses a b id m :
  is_valid_session_id id = true -> a <> b -> requests m = [] -> look (registry m) (now m) (_session_key id) = None ->
  let m' := advance_all m [Begin (Forward a None (Some id)); Begin (Forward b None (Some id));
                           Move 0 Up; Move 1 Up; Move 0 Up; Move 1 Up] in
  requests m' = [(a, Done tt); (b, Done tt)] /\ owner_now m' id = Some b /\
  (alone (fun _ => Up) (validate_session (Some id) a) (now m') (registry m')).2 = Some Forbidden403.
Proof.
  intros Hv Hab Hr Hn. cbv zeta.
  destruct (writes_when_nothing_found id a Hv) as (ka & Ea & Hka). destruct (writes_when_nothing_found id b Hv) as (kb & Eb & Hkb).
  destruct (Hka (Some Nil)) as (ka' & Ea' & Hka'); [by right|]. destruct (Hkb (Some Nil)) as (kb' & Eb' & Hkb'); [by right|].
  unfold advance_all. cbn [fold_left]. rewrite !begin_at. cbn [now registry requests]. rewrite Hr. cbn [app user]. rewrite Ea, Eb.
  rewrite (move_up (mkMachine _ _ _) 0 a (GET (_session_key id)) ka) by done. cbn [now registry requests list_insert insert].
  set (r1 := (exec _ _ _).1). rewrite (get_nothing id _ (registry m)) by done. rewrite Ea'.
  assert (look r1 (now m) (_session_key id) = None) as Hn1.
  { unfold r1. rewrite (exec_own (GET (_session_key id))). cbn [key_of]. by rewrite Hn. }
  rewrite (move_up (mkMachine _ _ _) 1 b (GET (_session_key id)) kb) by done. cbn [now registry requests list_insert insert].
  rewrite (get_nothing id _ r1) by done. rewrite Eb'. set (r2 := (exec _ _ r1).1).
  rewrite (move_up (mkMachine _ _ _) 0 a _ ka') by done. cbn [now registry requests list_insert insert]. rewrite Hka'.
  rewrite (move_up (mkMachine _ _ _) 1 b _ kb') by done. cbn [now registry requests list_insert insert]. rewrite Hkb'.
  split; [done|]. unfold owner_now. cbn [now registry]. split; [apply written_owner|].
  by apply (refused_now id a b); [|apply written_owner|..].
Qed.

(** [C26] A look-up that fails counts as nothing found: the session goes to the caller
    whose upstream answered its id, whoever has it. *)
Theorem failed_lookup_overwrites x y id m :
  is_valid_session_id id = true -> requests m = [] -> owner_now m id = Some x -> x <> y ->
  let m' := advance_all m [Begin (Forward y None (Some id)); Move 0 Unsent; Move 0 Up] in
  requests m' = [(y, Done tt)] /\ owner_now m' id = Some y /\
  (alone (fun _ => Up) (validate_session (Some id) x) (now m') (registry m')).2 = Some Forbidden403.
Proof.
  intros Hv Hr Hx Hne. cbv zeta. destruct (writes_when_nothing_found id y Hv) as (k & E & Hk).
  destruct (Hk None) as (k' & E' & Hk'); [by left|]. unfold advance_all. cbn [fold_left]. rewrite begin_at. cbn [now registry requests].
  rewrite Hr. cbn [app user]. rewrite E.
  rewrite (move_unsent (mkMachine _ _ _) 0 y (GET (_session_key id)) k) by done. cbn [now registry requests list_insert insert]. rewrite E'.
  rewrite (move_up (mkMachine _ _ _) 0 y _ k') by done. cbn [now registry requests list_insert insert]. rewrite Hk'.
  split; [done|]. unfold owner_now. cbn [now registry]. split; [apply written_owner|].
  apply (refused_now id x y); [done|apply written_owner|congruence|done].
Qed.

(** ** One request alone *)

(** What a look-up that answers found; one that fails before its answer raises. *)
Lemma lookup_alone link id t r :
  match (alone link (lookup id) t r).2 with
  | Some (Some o) => owner_at r t id = Some o
  | Some None => link (GET (_session_key id)) = Up -> owner_at r t id = None
  | None => link (EXPIRE (_session_key id) SESSION_TTL_SECONDS) <> Up
  end.
Proof.
  unfold lookup. cbn [alone]. destruct (link (GET (_session_key id))) eqn:Eg; [|done|done].
  unfold trip at 1, owner_at. pose proof (exec_reply (GET (_session_key id)) t r) as Hr. cbn [key_of] in Hr.
  destruct (exec _ t r) as [r1 b]. cbn [snd] in Hr. subst b.
  destruct (look r t (_session_key id)) as [[[raw| |] ?]|]; try done. cbn [effect snd].
  destruct (JSON_parse raw) as [p|] eqn:Ep; [|cbn [alone snd]; intros _; unfold owner_in; by rewrite Ep].
  cbn [alone]. destruct (link (EXPIRE _ _)) eqn:Ee; cbn [trip alone snd]; [|done|done].
  destruct (exec _ t r1) as [r2 b]. cbn [alone snd]. by destruct (owner_in raw).
Qed.

(** What a validated caller carries is nothing, or a session of the caller's. *)
Lemma validated link inbound o t r :
  (alone link (validate_session inbound o) t r).2 = Some Proceed ->
  match inbound with
  | None | Some "" => True
  | Some id => is_valid_session_id id = true /\ owner_at r t id = Some o
  end.
Proof.
  unfold validate_session. destruct inbound as [[|c id]|]; [done| |done]. set (s := String c id).
  destruct (is_valid_session_id s) eqn:Ev; [|done]. pose proof (lookup_alone link s t r) as Hl. revert Hl.
  unfold lookup. cbn [pbind catch alone]. destruct (trip _ (GET _) t r) as [r1 [[| |raw| |]|]]; try done.
  destruct (JSON_parse raw) as [p|]; [|done]. cbn [pbind catch alone]. destruct (trip _ (EXPIRE _ _) t r1) as [r2 [b|]]; [|done].
  cbn [pbind catch alone snd]. destruct (owner_in raw) as [o'|]; [|done]. unfold matches. intros -> Hm.
  case_bool_decide as E; [|done]. by injection E as ->.
Qed.
End Sessions.

(** ** The registry at work *)
Definition demo_owner (who : string) : owner := mkOwner "acme" who "github".
Definition demo_repr (v : json) : string := js_String v.

(** Ada's session, a moment old. *)
Definition demo_registry : RefRedis.store :=
  (alone (fun _ => Up) (record "session-0001" (demo_owner "ada")) 0 (RefRedis.mkStore ∅)).1.
Definition demo_machine : machine := mkMachine 0 demo_registry [].

(** Eve's upstream answers Ada's session id while Ada uses the session and Eve tries
    to end it; Redis loses the reply to one of Ada's trips. *)
Definition demo_events : list event :=
  [Begin (Forward (demo_owner "eve") None (Some "session-0001")); Begin (Forward (demo_owner "ada") (Some "session-0001") (Some "session-0001"));
   Begin (Terminate (demo_owner "eve") "session-0001" true); Move 0 Up; Move 1 Up; Tick 1800; Move 2 Up; Move 1 Up; Move 0 Up; Move 1 Up; Move 2 Unsent;
   Move 1 ReplyLost; Elsewhere (DEL "rl:1"); Tick 3000].

Lemma session_owner_kept_witness :
  owner_now demo_repr (advance_all demo_repr demo_machine demo_events) "session-0001" = Some (demo_owner "ada").
Proof.
  apply (session_owner_kept demo_repr "session-0001" (demo_owner "ada") demo_machine demo_events).
  - reflexivity.
  - reflexivity.
  - vm_compute. reflexivity.
  - vm_compute. repeat split; congruence.
Defined.

Lemma racing_responses_witness :
  let m := mkMachine 0 (RefRedis.mkStore ∅) [] in
  owner_now demo_repr (advance_all demo_repr m
    [Begin (Forward (demo_owner "ada") None (Some "session-0001")); Begin (Forward (demo_owner "eve") None (Some "session-0001"));
     Move 0 Up; Move 1 Up; Move 0 Up; Move 1 Up]) "session-0001" = Some (demo_owner "eve").
Proof.
  cbv zeta. apply (racing_responses demo_repr (demo_owner "ada") (demo_owner "eve") "session-0001" (mkMachine 0 (RefRedis.mkStore ∅) [])).
  - reflexivity.
  - discriminate.
  - reflexivity.
  - reflexivity.
Defined.

Lemma failed_lookup_overwrites_witness :
  owner_now demo_repr (advance_all demo_repr demo_machine
    [Begin (Forward (demo_owner "eve") None (Some "session-0001")); Move 0 Unsent; Move 0 Up]) "session-0001" = Some (demo_owner "eve").
Proof.
  apply (failed_lookup_overwrites demo_repr (demo_owner "ada") (demo_owner "eve") "session-0001" demo_machine).
  - reflexivity.
  - reflexivity.
  - vm_compute. reflexivity.
  - discriminate.
Defined.
