(* ===== verification/McpProxy.v ===== *)
(** * The gateway's proxy pipeline (api/app/gateway/router.py)

    - [Rpc]: the JSON-RPC request (api/app/gateway/jsonrpc.py)
    - [Upstream]: the headers that leave the gateway (api/app/gateway/headers.py)
      and the stored URL's validation (api/app/security/upstreams.py)
    - [Filter]: list responses filtered by permission (api/app/auth/tool_filter.py)
    - [mcp_proxy]: the POST handler, from the body to the response, with what it
      forwards and audits; [mcp_sse_stream]: the GET handler

    The database's answers, authentication and the upstream server are parameters
    of a [deployment]; a request says what becomes of each of its trips to Redis
    and is handled at one moment ([McpSessions] interleaves the trips).  JSON is [JsonParse]'s, strings are bytes. *)

From S2P Require Import Prelude JsString Json JsonParse Browser ApiTypes Gateway Redis Limiter McpSessions.

Open Scope string_scope.

(** ** JSON-RPC *)
Module Rpc.

Definition SUPPORTED_METHODS : list string :=
  ["initialize"; "notifications/initialized"; "ping"; "tools/list"; "tools/call"; "resources/list"; "resources/read";
   "resources/subscribe"; "resources/unsubscribe"; "prompts/list"; "prompts/get"; "sampling/createMessage"; "roots/list";
   "session/terminate"].

Definition PARSE_ERROR : Z := -32700.
Definition INVALID_REQUEST : Z := -32600.
Definition METHOD_NOT_FOUND : Z := -32601.
Definition INVALID_PARAMS : Z := -32602.
Definition UNAUTHORIZED : Z := -32001.
Definition FORBIDDEN : Z := -32002.
Definition RATE_LIMITED : Z := -32003.
Definition UPSTREAM_UNAVAILABLE : Z := -32004.
Definition INTERNAL_ERROR : Z := -32603.

Record JsonRpcRequest := mkRpc { method : string; id : option json; params : option (list (string * json)) }.

(** [isinstance(v, (int, str))]: booleans are integers. *)
Definition is_id (v : json) : bool := match v with JNum _ | JStr _ | JBool _ => true | _ => false end.

Definition is_string (v : option json) (text : string) : bool :=
  match v with Some (JStr s) => bool_decide (s = text) | _ => false end.

(** The checks of [id] and [params], after the method's. *)
Definition parse_rest (m : string) (data : list (string * json)) : JsonRpcRequest + (Z * string) :=
  let rpc_id := nullish (obj_get "id" data) in
  if match rpc_id with Some v => is_id v | None => true end then
    match nullish (obj_get "params" data) with
    | None => inl (mkRpc m rpc_id None)
    | Some (JObj p) => inl (mkRpc m rpc_id (Some p))
    | Some _ => inr (INVALID_REQUEST, "'params' must be an object or null")
    end
  else inr (INVALID_REQUEST, "'id' must be a string, integer, or null").

(** [parse_request]: the request, or its error's code and text. *)
Definition parse_request (body : string) : JsonRpcRequest + (Z * string) :=
  match JSON_parse body with
  | None => inr (PARSE_ERROR, "Parse error")
  | Some (JObj data) =>
      if negb (is_string (obj_get "jsonrpc" data) "2.0") then
        inr (INVALID_REQUEST, "Invalid or missing 'jsonrpc' field; must be '2.0'")
      else match obj_get "method" data with
      | Some (JStr "") => inr (INVALID_REQUEST, "Invalid or missing 'method' field")
      | Some (JStr m) =>
          if negb (bool_decide (m ∈ SUPPORTED_METHODS)) then
            inr (METHOD_NOT_FOUND, "Method '" +:+ m +:+ "' is not supported")
          else parse_rest m data
      | _ => inr (INVALID_REQUEST, "Invalid or missing 'method' field")
      end
  | Some _ => inr (INVALID_REQUEST, "Request must be a JSON object")
  end.

(** The status of a parse error. *)
Definition status_of (code : Z) : Z := if bool_decide (code = METHOD_NOT_FOUND) then 404 else 400.

(** The resource a request names; an empty object of parameters names none. *)
Definition resource_name (r : JsonRpcRequest) : option json :=
  let get k := match params r with Some ((_ :: _) as p) => nullish (obj_get k p) | _ => None end in
  if bool_decide (method r = "tools/call") then get "name"
  else if bool_decide (method r ∈ ["resources/read"; "resources/subscribe"; "resources/unsubscribe"]) then get "uri"
  else if bool_decide (method r = "prompts/get") then get "name"
  else if bool_decide (method r = "sampling/createMessage") then
    match params r with Some (_ :: _) => Some (JStr "createMessage") | _ => None end
  else None.

Definition rbac_required_methods : list string :=
  ["tools/call"; "resources/read"; "resources/subscribe"; "resources/unsubscribe"; "prompts/get"; "sampling/createMessage"].

Definition list_methods : list string := ["tools/list"; "resources/list"; "prompts/list"; "roots/list"].

Definition audited_methods : list string := ["tools/call"; "resources/read"; "prompts/get"; "sampling/createMessage"].
End Rpc.

(** ** What leaves the gateway *)
Module Upstream.

Definition headers : Type := list (string * string).

Fixpoint header (k : string) (h : headers) : option string :=
  match h with
  | [] => None
  | (k', v) :: r => if bool_decide (k' = k) then Some v else header k r
  end.

Definition STRIP_FROM_CLIENT : list string :=
  ["authorization"; "cookie"; "set-cookie"; "connection"; "keep-alive"; "proxy-authenticate"; "proxy-authorization";
   "te"; "trailers"; "transfer-encoding"; "upgrade"; "host"].

Definition stripped (k : string) : bool := bool_decide (toLowerCase k ∈ STRIP_FROM_CLIENT).

(** [Authorization] cannot be among the client's headers that are left. *)
Definition build_upstream_headers (client_headers : headers) (service_token : option string) : headers :=
  (List.filter (fun p => negb (stripped p.1)) client_headers
   ++ match service_token with Some t => [("Authorization", "Bearer " +:+ t)] | None => [] end)%list.

Definition token_char (c : ascii) : bool :=
  let n := code c in ((65 <=? n) && (n <=? 90) || (48 <=? n) && (n <=? 57) || (n =? 95))%N.

Definition TOKEN_PREFIX : string := "PORTCULLIS_UPSTREAM_TOKEN_".

(** The names [PORTCULLIS_UPSTREAM_TOKEN_[A-Z0-9_]{1,64}]. *)
Definition token_name (name : string) : bool :=
  let rest := sdrop (String.length TOKEN_PREFIX) name in
  startsWith name TOKEN_PREFIX && sforall token_char rest
  && (1 <=? String.length rest)%nat && (String.length rest <=? 64)%nat.

Definition extract_service_token (environ : string -> option string) (env_var_name : option string) : option string :=
  match env_var_name with
  | None | Some "" => None
  | Some name =>
      if token_name name then
        match environ name with
        | None | Some "" => None
        | Some value => Some value
        end
      else None
  end.

(** What [urllib.parse.urlparse] makes of an address. *)
Record parsed_url := mkUrl { fragment : string; netloc : string; scheme : string; hostname : option string }.

Inductive Environment := Development | Staging | Production.

(** [validate_upstream_url]; an error's text is not shown. *)
Definition validate_upstream_url (u : parsed_url) (allowed_hosts : list string) (environment : Environment) : bool :=
  bool_decide (fragment u = "") && negb (includes (netloc u) "@")
  && (let s := toLowerCase (scheme u) in
      match environment with
      | Production | Staging => bool_decide (s = "https")
      | Development => bool_decide (s = "http") || bool_decide (s = "https")
      end)
  && existsb (fun a => bool_decide (toLowerCase (default "" (hostname u)) = toLowerCase a)) allowed_hosts.
End Upstream.

(** ** Permissions of names that need not be strings *)

(** [evaluate_permission] as called: matching anything but a string against a
    tool pattern raises, once a rule's server pattern matches. *)
Definition permitted (server_slug : string) (name : json) (permissions : list ToolPermissionView) : option bool :=
  match name with
  | JStr s => Some (Rbac.allowed (Rbac.evaluate_permission server_slug s permissions))
  | _ => if existsb (fun rule => fnmatchcase server_slug (ToolPermissionView_server_pattern rule)) permissions
         then None else Some false
  end.

Module Filter.

(** Whether an item stays; [None] raises: [name_key in item] of a number, or the
    item of a string or list. *)
Definition keep_item (server_slug : string) (permissions : list ToolPermissionView) (name_key : string) (item : json) : option bool :=
  match item with
  | JObj o => match obj_get name_key o with
              | None => Some false
              | Some name => permitted server_slug name permissions
              end
  | JStr s => if includes s name_key then None else Some false
  | JArr l => if existsb (fun x => match x with JStr s => bool_decide (s = name_key) | _ => false end) l then None else Some false
  | _ => None
  end.

Fixpoint filter_items (keep : json -> option bool) (items : list json) : option (list json) :=
  match items with
  | [] => Some []
  | i :: r => b ← keep i; l ← filter_items keep r; Some (if b : bool then i :: l else l)
  end.

(** What iterating over a value yields. *)
Definition iterate (v : json) : option (list json) :=
  match v with
  | JArr l => Some l
  | JStr s => Some ((fun c => JStr (String c "")) <$> String.list_ascii_of_string s)
  | JObj o => Some ((fun p => JStr p.1) <$> o)
  | _ => None
  end.

(** [d[k] = v]: the key keeps its place. *)
Fixpoint obj_set (k : string) (v : json) (o : list (string * json)) : list (string * json) :=
  match o with
  | [] => [(k, v)]
  | (k', v') :: r => if bool_decide (k' = k) then (k, v) :: List.filter (fun p => negb (bool_decide (p.1 = k))) r
                     else (k', v') :: obj_set k v r
  end.

(** [_filter_generic_list] *)
Definition filter_list (server_slug : string) (permissions : list ToolPermissionView) (list_key name_key : string) (response_body : json)
    : option json :=
  match response_body with
  | JObj b =>
      match obj_get "result" b with
      | Some (JObj result) =>
          match obj_get list_key result with
          | None => Some (JObj (obj_set "result" (JObj (obj_set list_key (JArr []) result)) b))
          | Some listed =>
              items ← iterate listed;
              allowed ← filter_items (keep_item server_slug permissions name_key) items;
              Some (JObj (obj_set "result" (JObj (obj_set list_key (JArr allowed) result)) b))
          end
      | _ => Some (JObj b)
      end
  | _ => None
  end.

(** The list and the name of a list method's items. *)
Definition keys_of (method : string) : string * string :=
  if bool_decide (method = "tools/list") then ("tools", "name")
  else if bool_decide (method = "resources/list") then ("resources", "uri")
  else if bool_decide (method = "prompts/list") then ("prompts", "name")
  else ("roots", "uri").
End Filter.

(** ** The handler *)
Record Subject := mkSubject { su_id : string; su_type : SubjectType; su_tenant : string }.

Record server := mkServer {
  sv_upstream_url : string;
  sv_status : ServerStatus;
  sv_auth_mode : ServerAuthMode;
  sv_service_token_env_var : option string }.

Record outgoing := mkOutgoing {
  og_method : string; og_url : string; og_headers : Upstream.headers; og_body : string; og_stream : bool }.

Record upstream_reply := mkReply { up_status : Z; up_headers : Upstream.headers; up_content : string }.

(** Settings, the database's answers, authentication, the environment and the
    upstream server; [None] of [forward] is an [UpstreamError]. *)
Record deployment := mkDeployment {
  authenticate : string -> option Subject;
  get_by_slug : string -> string -> option server;
  get_permissions_for_subject : Subject -> list ToolPermissionView;
  list_policies : string -> list RateLimitPolicyView;
  check_usage_cap : string -> bool;
  urlparse : string -> Upstream.parsed_url;
  environ : string -> option string;
  upstream_hosts : list string;
  environment : Upstream.Environment;
  rate_limit_default : string;
  auth_rate_limit_default : string;
  max_request_body_bytes : Z;
  max_response_body_bytes : Z;
  forward : outgoing -> option upstream_reply }.

(** A request's trips to Redis: the two checks of the limiter, which run a script
    each, and the session registry's commands in the handler's three places. *)
Inductive place := Validating | Terminating | Adopting.
Inductive redis_trip := PreAuthCheck | LimitCheck | SessionTrip (p : place) (c : command).

(** [redis_link] is what becomes of each trip. *)
Record http_request := mkHttp {
  server_of : string;
  client_ip : string;
  http_headers : Upstream.headers;
  http_body : string;
  dry_run : string;
  at_time : Q;
  redis_link : redis_trip -> outcome }.

Inductive response :=
| JsonError (status : Z) (rpc_id : option json) (code : Z) (message : string) (h : Upstream.headers)
| AcceptedResponse (h : Upstream.headers)
| DryRun (tool : option json) (method : string) (h : Upstream.headers)
| Streamed (status : Z) (content : string) (h : Upstream.headers)
| Filtered (status : Z) (body : json) (h : Upstream.headers)
| Plain (status : Z) (content : string) (h : Upstream.headers).

Inductive trace :=
| Audit (event outcome : string) (tool : option json) (rpc_method : string)
| Usage (requests tool_calls rbac_denials rate_limit_rejections : Z)
| Sent (o : outgoing).

(** Python's [int] of a number. *)
Definition int_of (q : Q) : Z := if Qle_bool 0 q then Qfloor q else Qceiling q.

Definition _rate_limit_headers (result : RateLimitResult) : Upstream.headers :=
  [("RateLimit-Limit", pretty (limit result)); ("RateLimit-Remaining", pretty (remaining result));
   ("RateLimit-Reset", pretty (int_of (reset_after_seconds result)))].

Definition retry_after (result : RateLimitResult) : string * string :=
  ("Retry-After", pretty (int_of (retry_after_seconds result))).

Definition pre_auth_policy (limit window : Z) : Limits.EffectivePolicy :=
  Limits.mkEffective RateLimitAlgorithm_sliding_window limit window None "tool".

(** [content_length.isdigit() and int(content_length) > max] *)
Definition declared_over (content_length : option string) (max : Z) : bool :=
  match content_length with
  | Some l => match parse_dec l with Some n => (max <? n)%Z | None => false end
  | None => false
  end.

Definition bearer (h : Upstream.headers) : string :=
  let authorization := default "" (Upstream.header "authorization" h) in
  trim (if startsWith authorization "Bearer " then sdrop 7 authorization else authorization).

Definition owner_of (s : Subject) (server_slug : string) : owner := mkOwner (su_tenant s) (su_id s) server_slug.

Section Proxy.
Context {R : Type} `{RedisLaws R}.
Variables (tostring : Q -> string) (random : string) (repr : json -> string).
Variable d : deployment.

(** A step: it may answer at once; Redis and the trace keep what was done. *)
Definition gate (A : Type) : Type := R -> list trace -> R * list trace * (response + A).

Definition pass {A} (a : A) : gate A := fun r l => (r, l, inr a).
Definition answer {A} (x : response) : gate A := fun r l => (r, l, inl x).
Definition emit (e : trace) : gate unit := fun r l => (r, (l ++ [e])%list, inr tt).
Definition on_redis {A} (f : R -> R * A) : gate A := fun r l => let '(r1, a) := f r in (r1, l, inr a).
(** A check of the limiter; [None] is a [RedisError]. *)
Definition on_limiter (x : outcome) (f : R -> R * option RateLimitResult) : gate (option RateLimitResult) :=
  match x with
  | Up => on_redis f
  | Unsent => pass None
  | ReplyLost => on_redis (fun r => ((f r).1, None))
  end.
Definition gbind {A B} (m : gate A) (f : A -> gate B) : gate B :=
  fun r l => match m r l with
             | (r1, l1, inr a) => f a r1 l1
             | (r1, l1, inl x) => (r1, l1, inl x)
             end.

Notation "'do' x <- m ; f" := (gbind m (fun x => f)) (at level 200, x name, m at level 100, f at level 200).
Notation "m ;; f" := (gbind m (fun _ => f)) (at level 100, right associativity).

Definition require {A} (o : option A) (x : response) : gate A := match o with Some a => pass a | None => answer x end.
Definition refuse_if (b : bool) (x : response) : gate unit := if b then answer x else pass tt.

Definition internal (rpc_id : option json) : response := JsonError 500 rpc_id Rpc.INTERNAL_ERROR "Internal server error" [].
Definition backend_down (rpc_id : option json) : response := JsonError 503 rpc_id Rpc.INTERNAL_ERROR "Rate limit backend unavailable" [].

(** The session registry's part of a handler; what it raises is an internal error. *)
Definition sessions {A} (q : http_request) (p : place) (m : prog A) (rpc_id : option json) : gate A :=
  do result <- on_redis (alone (fun c => redis_link q (SessionTrip p c)) m (at_time q));
  require result (internal rpc_id).

(** [run_pre_auth_checks] *)
Definition run_pre_auth_checks (q : http_request) (rpc_id : option json) : gate Subject :=
  do limits <- require (Limits.parse_default (auth_rate_limit_default d)) (internal rpc_id);
  do outcome <- on_limiter (redis_link q PreAuthCheck) (check_sliding_window tostring random ("pre_auth:" +:+ client_ip q) (pre_auth_policy limits.1 limits.2) (at_time q) (at_time q));
  do result <- require outcome (backend_down rpc_id);
  refuse_if (negb (allowed result))
    (JsonError 429 rpc_id Rpc.RATE_LIMITED "Pre-auth rate limit exceeded" (_rate_limit_headers result ++ [retry_after result])%list) ;;
  let raw_token := bearer (http_headers q) in
  let unauthorized := JsonError 401 rpc_id Rpc.UNAUTHORIZED "Invalid or missing credentials" [] in
  refuse_if (bool_decide (raw_token = "")) unauthorized ;;
  match authenticate d raw_token with
  | Some s => pass s
  | None => emit (Audit "auth_failure" "denied" None "") ;; answer unauthorized
  end.

(** [resolve_server] *)
Definition resolve_server (q : http_request) (subject : Subject) (rpc_id : option json) : gate server :=
  let named := "Server '" +:+ server_of q +:+ "'" in
  do server <- require (get_by_slug d (su_tenant subject) (server_of q)) (JsonError 404 rpc_id Rpc.METHOD_NOT_FOUND (named +:+ " not found") []);
  refuse_if (negb (Upstream.validate_upstream_url (urlparse d (sv_upstream_url server)) (upstream_hosts d) (environment d)))
    (JsonError 502 rpc_id Rpc.UPSTREAM_UNAVAILABLE (named +:+ " upstream no longer allowed") []) ;;
  refuse_if (negb (bool_decide (sv_status server = ServerStatus_active)))
    (JsonError 503 rpc_id Rpc.UPSTREAM_UNAVAILABLE (named +:+ " is " +:+ ServerStatus_value (sv_status server)) []) ;;
  pass server.

Definition session_header (q : http_request) : option string := Upstream.header "mcp-session-id" (http_headers q).

Definition check_session (q : http_request) (subject : Subject) (rpc_id : option json) : gate unit :=
  do v <- sessions q Validating (validate_session repr (session_header q) (owner_of subject (server_of q))) rpc_id;
  match v with
  | Proceed => pass tt
  | Invalid400 => answer (JsonError 400 rpc_id Rpc.INVALID_PARAMS "Invalid Mcp-Session-Id" [])
  | NotFound404 => answer (JsonError 404 rpc_id Rpc.INVALID_PARAMS "Session not found" [])
  | Forbidden403 => answer (JsonError 403 rpc_id Rpc.FORBIDDEN "Session does not belong to caller" [])
  | Unavailable503 => answer (JsonError 503 rpc_id Rpc.INTERNAL_ERROR "Session backend unavailable" [])
  end.

(** The permission check of the methods that need one. *)
Definition authorize (q : http_request) (subject : Subject) (rpc : Rpc.JsonRpcRequest) : gate unit :=
  let rpc_id := Rpc.id rpc in
  let m := Rpc.method rpc in
  if bool_decide (m ∈ Rpc.rbac_required_methods) then
    do name <- require (Rpc.resource_name rpc) (JsonError 422 rpc_id Rpc.INVALID_PARAMS (m +:+ " requires resource identifier") []);
    do ok <- require (permitted (server_of q) name (get_permissions_for_subject d subject)) (internal rpc_id);
    if ok : bool then pass tt
    else
      emit (Usage 0 0 1 0) ;;
      emit (Audit "rbac_deny" "denied" (Some name) m) ;;
      answer (JsonError 403 rpc_id Rpc.FORBIDDEN ("Resource '" +:+ str repr name +:+ "' is not permitted") [])
  else pass tt.

(** The request as the limiter sees it, once its policy is resolved. *)
Definition limiter_request (q : http_request) (subject : Subject) (tool_or_method : string) (policy : Limits.EffectivePolicy) : request :=
  mkRequest (at_time q) (su_tenant subject) (su_id subject) (server_of q) tool_or_method policy.

Definition policy_for (q : http_request) (subject : Subject) (tool_or_method : string) : option Limits.EffectivePolicy :=
  Limits.resolve_policy (Limits.mkRequest (Some (su_id subject)) (Some (su_type subject)) (Some (server_of q)) (Some tool_or_method))
    (list_policies d (su_tenant subject)) (rate_limit_default d).

(** [check_rate_limit]: the response's headers. *)
Definition check_rate_limit (q : http_request) (subject : Subject) (tool_or_method : string) (rpc_id : option json) : gate Upstream.headers :=
  do policy <- require (policy_for q subject tool_or_method) (internal rpc_id);
  do outcome <- on_limiter (redis_link q LimitCheck) (check tostring random (limiter_request q subject tool_or_method policy));
  do result <- require outcome (backend_down rpc_id);
  let rl := _rate_limit_headers result in
  if allowed result then pass rl
  else emit (Usage 0 0 0 1) ;;
       answer (JsonError 429 rpc_id Rpc.RATE_LIMITED "Rate limit exceeded" (rl ++ [retry_after result])%list).

(** [resource_name or method] *)
Definition counted_as (rpc : Rpc.JsonRpcRequest) : string :=
  match Rpc.resource_name rpc with
  | Some (JStr s) => if bool_decide (s = "") then Rpc.method rpc else s
  | _ => Rpc.method rpc
  end.

Definition upstream_headers (q : http_request) (server : server) : Upstream.headers :=
  Upstream.build_upstream_headers (http_headers q)
    (if bool_decide (sv_auth_mode server = ServerAuthMode_service_token)
     then Upstream.extract_service_token (environ d) (sv_service_token_env_var server) else None).

(** What is forwarded, and the upstream's answer. *)
Definition send (http_method body : string) (q : http_request) (server : server) (stream : bool) (rpc_id : option json) (rl : Upstream.headers) : gate upstream_reply :=
  let o := mkOutgoing http_method (sv_upstream_url server) (upstream_headers q server) body stream in
  emit (Sent o) ;;
  require (forward d o) (JsonError 502 rpc_id Rpc.UPSTREAM_UNAVAILABLE "Upstream server error" rl).

(** [session/terminate] *)
Definition terminate (q : http_request) (subject : Subject) (server : server) (rpc : Rpc.JsonRpcRequest) : gate response :=
  let rpc_id := Rpc.id rpc in
  do id <- require (x ← session_header q; or_none x)
             (JsonError 400 rpc_id Rpc.INVALID_PARAMS "session/terminate requires Mcp-Session-Id header" []);
  refuse_if (negb (is_valid_session_id id)) (JsonError 400 rpc_id Rpc.INVALID_PARAMS "Invalid Mcp-Session-Id" []) ;;
  do found <- sessions q Terminating (lookup repr id) rpc_id;
  do found <- require found (JsonError 404 rpc_id Rpc.INVALID_PARAMS "Session not found" []);
  refuse_if (negb (matches (Some found) (owner_of subject (server_of q))))
    (JsonError 403 rpc_id Rpc.FORBIDDEN "Not authorized to terminate this session" []) ;;
  do rl <- check_rate_limit q subject "session/terminate" rpc_id;
  sessions q Terminating (delete id) rpc_id ;;
  do reply <- send "POST" (http_body q) q server false rpc_id rl;
  emit (Audit "tool_call" "allowed" (Some (JStr "session/terminate")) (Rpc.method rpc)) ;;
  pass (Plain (up_status reply) (up_content reply) rl).

(** The upstream's session id is kept for the caller, or refused. *)
Definition keep_session (q : http_request) (subject : Subject) (reply : upstream_reply) (rpc_id : option json) : gate Upstream.headers :=
  match Upstream.header "mcp-session-id" (up_headers reply) with
  | None | Some "" => pass []
  | Some id =>
      if is_valid_session_id id then
        do ok <- sessions q Adopting (adopt repr (session_header q) id (owner_of subject (server_of q))) rpc_id;
        if ok : bool then pass [("Mcp-Session-Id", id)]
        else answer (JsonError 409 rpc_id Rpc.INVALID_REQUEST "Session id conflict" [])
      else pass []
  end.

(** A list response as the caller may see it; text that is no JSON goes through. *)
Definition filtered (q : http_request) (subject : Subject) (m : string) (reply : upstream_reply) (rpc_id : option json) (h : Upstream.headers) : gate response :=
  match JSON_parse (up_content reply) with
  | None => pass (Plain (up_status reply) (up_content reply) h)
  | Some body =>
      let '(list_key, name_key) := Filter.keys_of m in
      do body <- require (Filter.filter_list (server_of q) (get_permissions_for_subject d subject) list_key name_key body) (internal rpc_id);
      pass (Filtered (up_status reply) body h)
  end.

(** The response to what the upstream answered. *)
Definition respond (q : http_request) (subject : Subject) (rpc : Rpc.JsonRpcRequest) (should_stream : bool) (rl : Upstream.headers) (reply : upstream_reply) : gate response :=
  let rpc_id := Rpc.id rpc in
  let m := Rpc.method rpc in
  match rpc_id with
  | None =>
      pass (AcceptedResponse (rl ++ match Upstream.header "mcp-session-id" (up_headers reply) with
                                    | None | Some "" => []
                                    | Some id => if bool_decide (session_header q = Some id) then [] else [("Mcp-Session-Id", id)]
                                    end)%list)
  | Some _ =>
      let too_large := JsonError 502 rpc_id Rpc.UPSTREAM_UNAVAILABLE "Upstream response too large" [] in
      refuse_if (negb should_stream &&
                 (declared_over (Upstream.header "content-length" (up_headers reply)) (max_response_body_bytes d)
                  || (max_response_body_bytes d <? Z.of_nat (String.length (up_content reply)))%Z)) too_large ;;
      do sh <- keep_session q subject reply rpc_id;
      let h := (rl ++ sh)%list in
      let content_type := default "" (Upstream.header "content-type" (up_headers reply)) in
      if startsWith content_type "text/event-stream" || should_stream then pass (Streamed (up_status reply) (up_content reply) h)
      else if bool_decide (m ∈ Rpc.list_methods) then filtered q subject m reply rpc_id h
      else
        (if bool_decide (m ∈ Rpc.audited_methods) && (up_status reply <? 500)%Z
         then emit (Audit "tool_call" "allowed" (Rpc.resource_name rpc) m) else pass tt) ;;
        pass (Plain (up_status reply) (up_content reply) h)
  end.

(** [mcp_proxy], without the plugins' hook and the request ids in headers *)
Definition mcp_proxy (q : http_request) : gate response :=
  let too_large := JsonError 413 None Rpc.INVALID_REQUEST "Request body too large" [] in
  refuse_if (declared_over (Upstream.header "content-length" (http_headers q)) (max_request_body_bytes d)) too_large ;;
  refuse_if (max_request_body_bytes d <? Z.of_nat (String.length (http_body q)))%Z too_large ;;
  match Rpc.parse_request (http_body q) with
  | inr (code, message) => answer (JsonError (Rpc.status_of code) None code message [])
  | inl rpc =>
      let rpc_id := Rpc.id rpc in
      let m := Rpc.method rpc in
      do subject <- run_pre_auth_checks q rpc_id;
      do server <- resolve_server q subject rpc_id;
      check_session q subject rpc_id ;;
      authorize q subject rpc ;;
      if bool_decide (m = "session/terminate") then terminate q subject server rpc
      else
        do rl <- check_rate_limit q subject (counted_as rpc) rpc_id;
        if bool_decide (toLowerCase (dry_run q) ∈ ["1"; "true"; "yes"]) then
          emit (Audit "tool_call" "allowed" (Rpc.resource_name rpc) m) ;;
          pass (DryRun (Rpc.resource_name rpc) m (rl ++ [("X-Portcullis-Dry-Run", "1")])%list)
        else
          emit (Usage 1 (if bool_decide (m = "tools/call") then 1 else 0) 0 0) ;;
          refuse_if (bool_decide (m = "tools/call") && negb (check_usage_cap d (su_tenant subject)))
            (JsonError 402 rpc_id Rpc.INVALID_REQUEST "Monthly usage cap reached for this plan" []) ;;
          let should_stream := includes (default "" (Upstream.header "accept" (http_headers q))) "text/event-stream" in
          do reply <- send "POST" (http_body q) q server should_stream rpc_id rl;
          respond q subject rpc should_stream rl reply
  end.

(** [mcp_sse_stream]: the GET route opens the server's event stream. *)
Definition mcp_sse_stream (q : http_request) : gate response :=
  do subject <- run_pre_auth_checks q None;
  do server <- resolve_server q subject None;
  check_session q subject None ;;
  do rl <- check_rate_limit q subject "stream" None;
  emit (Usage 1 0 0 0) ;;
  do reply <- send "GET" "" q server true None rl;
  do sh <- keep_session q subject reply None;
  pass (Streamed (up_status reply) (up_content reply) (rl ++ sh)%list).

(** The response, whether it came early or at the end. *)
Definition response_of (x : R * list trace * (response + response)) : response :=
  match x.2 with inl r | inr r => r end.

(** ** Passing gates *)
Definition sent (l : list trace) : list outgoing := omap (fun e => match e with Sent o => Some o | _ => None end) l.

#[local] Arguments sent : simpl never.

(** A gate that forwards nothing. *)
Definition quiet {A} (m : gate A) : Prop := forall r l, sent (m r l).1.2 = sent l.

Lemma quiet_pass {A} (a : A) : quiet (pass a).
Proof. done. Qed.
Lemma quiet_answer {A} x : quiet (@answer A x).
Proof. done. Qed.
Lemma quiet_emit e : match e with Sent _ => False | _ => True end -> quiet (emit e).
Proof. intros He r l. change (sent (l ++ [e])%list = sent l). unfold sent. rewrite omap_app. destruct e; try done; apply app_nil_r. Qed.
Lemma quiet_redis {A} (f : R -> R * A) : quiet (on_redis f).
Proof. intros r l. unfold on_redis. by destruct (f r). Qed.
Lemma quiet_limiter x f : quiet (on_limiter x f).
Proof. destruct x; [apply quiet_redis|done|apply quiet_redis]. Qed.
Lemma quiet_require {A} (o : option A) x : quiet (require o x).
Proof. by destruct o. Qed.
Lemma quiet_refuse b x : quiet (refuse_if b x).
Proof. by destruct b. Qed.
Lemma quiet_bind {A B} (m : gate A) (f : A -> gate B) : quiet m -> (forall a, quiet (f a)) -> quiet (gbind m f).
Proof.
  intros Hm Hf r l. unfold gbind. specialize (Hm r l). destruct (m r l) as [[r1 l1] [x|a]]; [done|]. cbn in Hm. by rewrite Hf.
Qed.

Lemma quiet_sessions {A} q p (m : prog A) rpc_id : quiet (sessions q p m rpc_id).
Proof. apply quiet_bind; [apply quiet_redis|intros ?; apply quiet_require]. Qed.

Ltac quiet_tac :=
  repeat first
    [ apply quiet_pass | apply quiet_answer | apply quiet_redis | apply quiet_limiter | apply quiet_sessions | apply quiet_require | apply quiet_refuse
    | apply quiet_emit; exact I | apply quiet_bind; [|intros ?] | case_match ].

(** A run that forwards something passes a gate that does not. *)
Lemma bind_passed {A B} (x : R * list trace * (response + B)) (m : gate A) (f : A -> gate B) r l o :
  quiet m -> sent l = [] -> o ∈ sent x.1.2 -> x = gbind m f r l ->
  exists r1 l1 a, m r l = (r1, l1, inr a) /\ sent l1 = [] /\ x = f a r1 l1.
Proof.
  intros Hm Hl Ho ->. unfold gbind in *. specialize (Hm r l). destruct (m r l) as [[r1 l1] [y|a]]; cbn in *.
  - rewrite Hm, Hl in Ho. by apply not_elem_of_nil in Ho.
  - exists r1, l1, a. by rewrite Hm.
Qed.

Lemma quiet_none {A} (x : R * list trace * (response + A)) (m : gate A) r l o :
  quiet m -> sent l = [] -> o ∈ sent x.1.2 -> x <> m r l.
Proof. intros Hm Hl Ho ->. rewrite Hm, Hl in Ho. by apply not_elem_of_nil in Ho. Qed.

Lemma refuse_passed b x r l r1 l1 u : refuse_if b x r l = (r1, l1, inr u) -> b = false /\ r1 = r /\ l1 = l.
Proof. destruct b; [done|]. by intros [= <- <- _]. Qed.

Lemma require_passed {A} (o : option A) x r l r1 l1 a : require o x r l = (r1, l1, inr a) -> o = Some a /\ r1 = r /\ l1 = l.
Proof. destruct o; [|done]. by intros [= <- <- <-]. Qed.

Lemma bind_split {A B} (m : gate A) (f : A -> gate B) r l r2 l2 b :
  gbind m f r l = (r2, l2, inr b) -> exists r1 l1 a, m r l = (r1, l1, inr a) /\ f a r1 l1 = (r2, l2, inr b).
Proof. unfold gbind. destruct (m r l) as [[r1 l1] [x|a]]; [done|]. intros E. by exists r1, l1, a. Qed.

Ltac split_gates :=
  repeat match goal with
  | H : gbind _ _ _ _ = (_, _, inr _) |- _ => apply bind_split in H as (? & ? & ? & ? & H)
  | H : refuse_if _ _ _ _ = (_, _, inr _) |- _ => apply refuse_passed in H as (? & -> & ->)
  | H : require _ _ _ _ = (_, _, inr _) |- _ => apply require_passed in H as (? & -> & ->)
  | H : pass _ _ _ = (_, _, inr _) |- _ => injection H as <- <- <-
  | H : answer _ _ _ = (_, _, inr _) |- _ => discriminate H
  end.

(** A check of the limiter that answers was run. *)
Lemma limiter_passed x f r l r1 l1 res :
  on_limiter x f r l = (r1, l1, inr (Some res)) -> r1 = (f r).1 /\ l1 = l /\ (f r).2 = Some res.
Proof.
  destruct x; cbn [on_limiter]; [|done|by unfold on_redis]. unfold on_redis. destruct (f r) as [r2 o]. by intros [= -> -> ->].
Qed.

Lemma sessions_passed {A} q p (m : prog A) rpc_id r l r1 l1 a :
  sessions q p m rpc_id r l = (r1, l1, inr a) ->
  let x := alone (fun c => redis_link q (SessionTrip p c)) m (at_time q) r in r1 = x.1 /\ l1 = l /\ x.2 = Some a.
Proof.
  unfold sessions. intros E. cbv zeta. apply bind_split in E as (r2 & l2 & b & E1 & E). apply require_passed in E as (-> & -> & ->).
  unfold on_redis in E1. destruct (alone _ m _ r) as [r3 c]. by injection E1 as -> -> ->.
Qed.

(** ** Redis as a request goes through its checks *)

(** The script of the limit by address. *)
Definition pre_auth_check (q : http_request) (limits : Z * Z) (r : R) : R * option RateLimitResult :=
  check_sliding_window tostring random ("pre_auth:" +:+ client_ip q) (pre_auth_policy limits.1 limits.2) (at_time q) (at_time q) r.

(** After it; after the session check of the caller [s]; when the rate limit is
    checked, which for [session/terminate] another look-up precedes. *)
Definition after_pre_auth (q : http_request) (r : R) : R :=
  match Limits.parse_default (auth_rate_limit_default d) with Some limits => (pre_auth_check q limits r).1 | None => r end.

Definition after_session (q : http_request) (s : Subject) (r : R) : R :=
  (alone (fun c => redis_link q (SessionTrip Validating c)) (validate_session repr (session_header q) (owner_of s (server_of q)))
     (at_time q) (after_pre_auth q r)).1.

Definition at_limit_check (q : http_request) (s : Subject) (method : string) (r : R) : R :=
  if bool_decide (method = "session/terminate")
  then (alone (fun c => redis_link q (SessionTrip Terminating c)) (lookup repr (default "" (session_header q))) (at_time q) (after_session q s r)).1
  else after_session q s r.

(** The limit by address admits the request. *)
Definition address_admitted (q : http_request) (r : R) : Prop :=
  exists limits res, Limits.parse_default (auth_rate_limit_default d) = Some limits
    /\ (pre_auth_check q limits r).2 = Some res /\ allowed res = true.

(** The caller's limit for [tool] admits it, with Redis at [r]. *)
Definition within_limit (q : http_request) (s : Subject) (tool : string) (r : R) : Prop :=
  exists policy res, policy_for q s tool = Some policy
    /\ (check tostring random (limiter_request q s tool policy) r).2 = Some res /\ allowed res = true.

(** The session a request carries, with Redis at [r]. *)
Definition session_of_caller (q : http_request) (s : Subject) (r : R) : Prop :=
  match session_header q with
  | None | Some "" => True
  | Some id => is_valid_session_id id = true /\ owner_at repr r (at_time q) id = Some (owner_of s (server_of q))
  end.

(** The resource a request names in its parameters. *)
Definition names (rpc : Rpc.JsonRpcRequest) (name : string) : Prop :=
  if bool_decide (Rpc.method rpc = "sampling/createMessage") then name = "createMessage"
  else exists p, Rpc.params rpc = Some p
         /\ obj_get (if startsWith (Rpc.method rpc) "resources/" then "uri" else "name") p = Some (JStr name).

(** Who passes the checks before the body's method matters. *)
Lemma pre_auth_passed q rpc_id r l r1 l1 s :
  run_pre_auth_checks q rpc_id r l = (r1, l1, inr s) ->
  l1 = l /\ r1 = after_pre_auth q r /\ address_admitted q r
  /\ bearer (http_headers q) <> "" /\ authenticate d (bearer (http_headers q)) = Some s.
Proof.
  unfold run_pre_auth_checks, after_pre_auth, address_admitted. intros E. apply bind_split in E as (r2 & l2 & limits & E1 & E).
  apply require_passed in E1 as (-> & -> & ->). apply bind_split in E as (r3 & l3 & o & Eo & E).
  apply bind_split in E as (r4 & l4 & res & E1 & E). apply require_passed in E1 as (-> & -> & ->).
  apply limiter_passed in Eo as (-> & -> & Eo). split_gates. bool_hyps.
  destruct (authenticate d (bearer (http_headers q))) as [s'|] eqn:Ea; [|unfold gbind, emit in E; by cbn in E].
  injection E as <- <- <-. split_and!; try done. exists limits, res. split_and!; [done|exact Eo|]. by destruct (allowed res).
Qed.

(** The script of the limit by address leaves the sessions alone. *)
Lemma pre_auth_owner q r id : owner_at repr (after_pre_auth q r) (at_time q) id = owner_at repr r (at_time q) id.
Proof.
  unfold after_pre_auth. destruct (Limits.parse_default _) as [limits|]; [|done]. unfold owner_at, pre_auth_check.
  assert (touches ("pre_auth:" +:+ client_ip q) (check_sliding_window tostring random ("pre_auth:" +:+ client_ip q) (pre_auth_policy limits.1 limits.2) (at_time q))) as Ht.
  { apply touches_bind; [apply touches_sliding|intros ?; apply touches_ret]. }
  by rewrite (Ht (at_time q) r (_session_key id)).
Qed.

Lemma server_passed q s rpc_id r l r1 l1 sv :
  resolve_server q s rpc_id r l = (r1, l1, inr sv) ->
  r1 = r /\ l1 = l /\ get_by_slug d (su_tenant s) (server_of q) = Some sv
  /\ Upstream.validate_upstream_url (urlparse d (sv_upstream_url sv)) (upstream_hosts d) (environment d) = true
  /\ sv_status sv = ServerStatus_active.
Proof. unfold resolve_server. intros E. split_gates. by bool_hyps. Qed.

Lemma session_passed q s rpc_id r l r1 l1 u :
  check_session q s rpc_id r l = (r1, l1, inr u) ->
  l1 = l /\ session_of_caller q s r
  /\ r1 = (alone (fun c => redis_link q (SessionTrip Validating c)) (validate_session repr (session_header q) (owner_of s (server_of q))) (at_time q) r).1.
Proof.
  unfold check_session. intros E. apply bind_split in E as (r2 & l2 & v & E1 & E). apply sessions_passed in E1 as (-> & -> & Hv).
  destruct v; try done. injection E as <- <- <-. split_and!; [done| |done]. by apply (validated repr _ _ _ _ _ Hv).
Qed.

Lemma authorize_passed q s rpc r l r1 l1 u :
  authorize q s rpc r l = (r1, l1, inr u) ->
  r1 = r /\ l1 = l /\
  (Rpc.method rpc ∈ Rpc.rbac_required_methods ->
     exists name, Rpc.resource_name rpc = Some (JStr name)
       /\ Rbac.allowed (Rbac.evaluate_permission (server_of q) name (get_permissions_for_subject d s)) = true).
Proof.
  unfold authorize. case_bool_decide as Hm; [|by intros [= <- <- _]]. intros E.
  apply bind_split in E as (r2 & l2 & name & E1 & E). apply require_passed in E1 as (Hname & -> & ->).
  apply bind_split in E as (r3 & l3 & ok & E1 & E). apply require_passed in E1 as (Hok & -> & ->).
  destruct ok; [|by cbn in E]. injection E as <- <- <-. split_and!; [done..|]. intros _.
  unfold permitted in Hok. destruct name; try by case_match. injection Hok as Hok. by eexists.
Qed.

Lemma limit_passed q s tool rpc_id r l r1 l1 rl :
  check_rate_limit q s tool rpc_id r l = (r1, l1, inr rl) -> l1 = l /\ within_limit q s tool r.
Proof.
  unfold check_rate_limit. intros E. apply bind_split in E as (r2 & l2 & policy & E1 & E). apply require_passed in E1 as (Hp & -> & ->).
  apply bind_split in E as (r3 & l3 & o & Eo & E). apply bind_split in E as (r4 & l4 & res & E1 & E). apply require_passed in E1 as (-> & -> & ->).
  apply limiter_passed in Eo as (-> & -> & Eo).
  destruct (allowed res) eqn:Ha; [|by cbn in E]. injection E as <- <- <-. split; [done|]. by exists policy, res.
Qed.

(** A name the gateway reads in the parameters is there; other methods have none. *)
Lemma resource_named rpc name : Rpc.resource_name rpc = Some (JStr name) -> names rpc name.
Proof.
  unfold Rpc.resource_name, names. cbv zeta.
  assert (forall k, match Rpc.params rpc with Some ((_ :: _) as p) => nullish (obj_get k p) | _ => None end = Some (JStr name) ->
            exists p, Rpc.params rpc = Some p /\ obj_get k p = Some (JStr name)) as Hget.
  { intros k. destruct (Rpc.params rpc) as [[|x p]|]; try done. unfold nullish.
    destruct (obj_get k (x :: p)) as [[]|] eqn:E; try done. intros [= ->]. by eexists. }
  case_bool_decide as E1; [rewrite E1; apply Hget|]. case_bool_decide as E2.
  { repeat (apply elem_of_cons in E2 as [->|E2]; [apply Hget|]). by apply not_elem_of_nil in E2. }
  case_bool_decide as E3; [rewrite E3; apply Hget|]. case_bool_decide as E4; [|done].
  destruct (Rpc.params rpc) as [[|x p]|]; [done| |done]. by intros [= <-].
Qed.

Lemma nothing_named rpc : Rpc.method rpc ∉ Rpc.rbac_required_methods -> Rpc.resource_name rpc = None.
Proof.
  intros Hm. unfold Rpc.resource_name. cbv zeta. unfold Rpc.rbac_required_methods in Hm.
  repeat (rewrite bool_decide_false by (first [intros E; rewrite E in Hm|intros E]; set_solver)). done.
Qed.

Lemma quiet_pre_auth q rpc_id : quiet (run_pre_auth_checks q rpc_id).
Proof. unfold run_pre_auth_checks. cbv zeta. quiet_tac. Qed.
Lemma quiet_server q s rpc_id : quiet (resolve_server q s rpc_id).
Proof. unfold resolve_server. cbv zeta. quiet_tac. Qed.
Lemma quiet_session q s rpc_id : quiet (check_session q s rpc_id).
Proof. unfold check_session. cbv zeta. quiet_tac. Qed.
Lemma quiet_authorize q s rpc : quiet (authorize q s rpc).
Proof. unfold authorize. cbv zeta. quiet_tac. Qed.
Lemma quiet_limit q s tool rpc_id : quiet (check_rate_limit q s tool rpc_id).
Proof. unfold check_rate_limit. cbv zeta. quiet_tac. Qed.
Lemma quiet_keep q s reply rpc_id : quiet (keep_session q s reply rpc_id).
Proof. unfold keep_session. cbv zeta. quiet_tac. Qed.
Lemma quiet_respond q s rpc stream rl reply : quiet (respond q s rpc stream rl reply).
Proof. unfold respond, filtered. cbv zeta. quiet_tac. all: try apply quiet_keep; quiet_tac. Qed.

(** What [send] adds. *)
Lemma send_then {B} hm body q sv stream rpc_id rl (f : upstream_reply -> gate B) r l o :
  (forall a, quiet (f a)) -> sent l = [] -> o ∈ sent (gbind (send hm body q sv stream rpc_id rl) f r l).1.2 ->
  o = mkOutgoing hm (sv_upstream_url sv) (upstream_headers q sv) body stream.
Proof.
  intros Hf Hl Ho. set (x := mkOutgoing _ _ _ _ _).
  assert (sent (gbind (send hm body q sv stream rpc_id rl) f r l).1.2 = [x]) as Hs.
  { unfold send. fold x. unfold gbind, emit. assert (sent (l ++ [Sent x])%list = [x]) as Hx by (unfold sent in *; by rewrite omap_app, Hl).
    destruct (require _ _ r (l ++ [Sent x])%list) as [[r1 l1] [a|a]] eqn:E; cbn.
    - destruct (forward d x); cbn in E; [done|]. by injection E as <- <- <-.
    - rewrite Hf. apply require_passed in E as (_ & -> & ->). done. }
  rewrite Hs in Ho. by apply list_elem_of_singleton in Ho.
Qed.

Lemma sent_elem o l : Sent o ∈ l -> o ∈ sent l.
Proof. intros Hin. unfold sent. apply list_elem_of_omap. by exists (Sent o). Qed.

(** The checks before the method matters, and the permission check. *)
Record checked (q : http_request) (r : R) (rpc : Rpc.JsonRpcRequest) (s : Subject) (sv : server) : Prop := {
  ck_address : address_admitted q r;
  ck_credentials : bearer (http_headers q) <> "" /\ authenticate d (bearer (http_headers q)) = Some s;
  ck_server : get_by_slug d (su_tenant s) (server_of q) = Some sv /\ sv_status sv = ServerStatus_active
              /\ Upstream.validate_upstream_url (urlparse d (sv_upstream_url sv)) (upstream_hosts d) (environment d) = true;
  ck_session : session_of_caller q s r;
  ck_permission : Rpc.method rpc ∈ Rpc.rbac_required_methods ->
                  exists name, Rpc.resource_name rpc = Some (JStr name)
                    /\ Rbac.allowed (Rbac.evaluate_permission (server_of q) name (get_permissions_for_subject d s)) = true }.

Definition streams (q : http_request) : bool := includes (default "" (Upstream.header "accept" (http_headers q))) "text/event-stream".

(** A request that forwards something: it passed the checks, and either ends a
    session or is at the upstream, with nothing recorded but its use. *)
Lemma forwarding q r o :
  o ∈ sent (mcp_proxy q r []).1.2 ->
  exists rpc s sv, Rpc.parse_request (http_body q) = inl rpc /\ checked q r rpc s sv /\
    if bool_decide (Rpc.method rpc = "session/terminate")
    then within_limit q s "session/terminate" (at_limit_check q s (Rpc.method rpc) r)
         /\ o = mkOutgoing "POST" (sv_upstream_url sv) (upstream_headers q sv) (http_body q) false
    else within_limit q s (counted_as rpc) (at_limit_check q s (Rpc.method rpc) r)
         /\ (Rpc.method rpc = "tools/call" -> check_usage_cap d (su_tenant s) = true)
         /\ exists rl calls r5, mcp_proxy q r [] =
              gbind (send "POST" (http_body q) q sv (streams q) (Rpc.id rpc) rl) (respond q s rpc (streams q) rl) r5 [Usage 1 calls 0 0].
Proof.
  set (x := mcp_proxy q r []). intros Ho. assert (x = mcp_proxy q r []) as E by done. clearbody x. unfold mcp_proxy in E.
  eapply bind_passed in E as (r1 & l1 & u1 & E1 & _ & E); [|apply quiet_refuse|done|exact Ho]. apply refuse_passed in E1 as (_ & -> & ->).
  eapply bind_passed in E as (r1 & l1 & u2 & E1 & _ & E); [|apply quiet_refuse|done|exact Ho]. apply refuse_passed in E1 as (_ & -> & ->).
  destruct (Rpc.parse_request (http_body q)) as [rpc|[code message]]; [|by apply (quiet_none x _ _ _ o) in E].
  eapply bind_passed in E as (r1 & l1 & s & E1 & _ & E); [|apply quiet_pre_auth|done|exact Ho].
  destruct (pre_auth_passed _ _ _ _ _ _ _ E1) as (-> & -> & Haddr & Hcred). clear E1.
  eapply bind_passed in E as (r2 & l2 & sv & E1 & _ & E); [|apply quiet_server|done|exact Ho].
  destruct (server_passed _ _ _ _ _ _ _ _ E1) as (-> & -> & Hsv & Hurl & Hst).
  eapply bind_passed in E as (r3 & l3 & u3 & E2 & _ & E); [|apply quiet_session|done|exact Ho].
  destruct (session_passed _ _ _ _ _ _ _ _ E2) as (-> & Hses & ->). fold (after_session q s r) in E. clear E2.
  eapply bind_passed in E as (r4 & l4 & u4 & E3 & _ & E); [|apply quiet_authorize|done|exact Ho].
  destruct (authorize_passed _ _ _ _ _ _ _ _ E3) as (-> & -> & Hperm).
  exists rpc, s, sv. split; [done|]. split.
  { split; try done. unfold session_of_caller in *. destruct (session_header q) as [[|c i]|]; [done| |done]. by rewrite pre_auth_owner in Hses. }
  unfold at_limit_check. case_bool_decide as Hm.
  - unfold terminate in E.
    eapply bind_passed in E as (r5 & l5 & i & E4 & _ & E); [|apply quiet_require|done|exact Ho]. apply require_passed in E4 as (Hi & -> & ->).
    eapply bind_passed in E as (r5 & l5 & u5 & E4 & _ & E); [|apply quiet_refuse|done|exact Ho]. apply refuse_passed in E4 as (_ & -> & ->).
    eapply bind_passed in E as (r5 & l5 & f & E4 & _ & E); [|apply quiet_sessions|done|exact Ho]. apply sessions_passed in E4 as (-> & -> & _).
    eapply bind_passed in E as (r5 & l5 & o' & E4 & _ & E); [|apply quiet_require|done|exact Ho]. apply require_passed in E4 as (_ & -> & ->).
    eapply bind_passed in E as (r5 & l5 & u6 & E4 & _ & E); [|apply quiet_refuse|done|exact Ho]. apply refuse_passed in E4 as (_ & -> & ->).
    eapply bind_passed in E as (r5 & l5 & rl & E4 & _ & E); [|apply quiet_limit|done|exact Ho]. apply limit_passed in E4 as (-> & Hlim).
    eapply bind_passed in E as (r6 & l6 & u7 & E5 & Hl & E); [|apply quiet_sessions|done|exact Ho].
    rewrite E in Ho. apply send_then in Ho as ->; [|intros ?; quiet_tac|done]. split; [|done].
    destruct (session_header q) as [[|c i']|]; cbn in Hi; try discriminate Hi. by injection Hi as <-.
  - eapply bind_passed in E as (r5 & l5 & rl & E4 & _ & E); [|apply quiet_limit|done|exact Ho].
    apply limit_passed in E4 as (-> & Hlim). case_bool_decide as Hdry.
    { apply (quiet_none x _ _ _ o) in E; [done| |done|done]. quiet_tac. }
    eapply bind_passed in E as (r6 & l6 & u6 & E5 & _ & E); [|by apply quiet_emit|done|exact Ho]. injection E5 as -> <- _.
    eapply bind_passed in E as (r7 & l7 & u7 & E5 & _ & E); [|apply quiet_refuse|done|exact Ho]. apply refuse_passed in E5 as (Hcap & -> & ->).
    split_and!; [done| |by eexists _, _, _]. intros Htc. rewrite bool_decide_true in Hcap by done. cbn in Hcap. by apply negb_false_iff in Hcap.
Qed.

(** What must hold of a request that is forwarded, with Redis at [r] when it
    arrives; it counts against the limit of [tool]. *)
Record entitled (q : http_request) (r : R) (rpc : Rpc.JsonRpcRequest) (s : Subject) (sv : server) (tool : string) : Prop := {
  en_address : address_admitted q r;
  en_credentials : bearer (http_headers q) <> "" /\ authenticate d (bearer (http_headers q)) = Some s;
  en_server : get_by_slug d (su_tenant s) (server_of q) = Some sv /\ sv_status sv = ServerStatus_active
              /\ Upstream.validate_upstream_url (urlparse d (sv_upstream_url sv)) (upstream_hosts d) (environment d) = true;
  en_session : session_of_caller q s r;
  en_permission : Rpc.method rpc ∈ Rpc.rbac_required_methods ->
                  exists name, names rpc name
                    /\ Rbac.allowed (Rbac.evaluate_permission (server_of q) name (get_permissions_for_subject d s)) = true
                    /\ tool = if bool_decide (name = "") then Rpc.method rpc else name;
  en_method : Rpc.method rpc ∉ Rpc.rbac_required_methods -> tool = Rpc.method rpc;
  en_cap : Rpc.method rpc = "tools/call" -> check_usage_cap d (su_tenant s) = true;
  en_budget : within_limit q s tool (at_limit_check q s (Rpc.method rpc) r) }.

(** What the permission check leaves to be counted. *)
Lemma counted_tool q s rpc :
  (Rpc.method rpc ∈ Rpc.rbac_required_methods ->
     exists name, Rpc.resource_name rpc = Some (JStr name)
       /\ Rbac.allowed (Rbac.evaluate_permission (server_of q) name (get_permissions_for_subject d s)) = true) ->
  (Rpc.method rpc ∈ Rpc.rbac_required_methods ->
     exists name, names rpc name
       /\ Rbac.allowed (Rbac.evaluate_permission (server_of q) name (get_permissions_for_subject d s)) = true
       /\ counted_as rpc = if bool_decide (name = "") then Rpc.method rpc else name)
  /\ (Rpc.method rpc ∉ Rpc.rbac_required_methods -> counted_as rpc = Rpc.method rpc).
Proof.
  intros Hp. split.
  - intros Hm. destruct (Hp Hm) as (name & Hn & Ha). exists name. split_and!; [by apply resource_named|done|].
    unfold counted_as. rewrite Hn. by case_bool_decide.
  - intros Hm. unfold counted_as. by rewrite nothing_named.
Qed.


(** An event stream is opened only for an authenticated caller, to an active
    server of the caller's tenant, within a session of the caller's and the rate
    limit of streams. *)
Theorem streams_opened_only_when_entitled q r o :
  Sent o ∈ (mcp_sse_stream q r []).1.2 ->
  exists s sv, address_admitted q r
    /\ bearer (http_headers q) <> "" /\ authenticate d (bearer (http_headers q)) = Some s
    /\ get_by_slug d (su_tenant s) (server_of q) = Some sv /\ sv_status sv = ServerStatus_active
    /\ session_of_caller q s r /\ within_limit q s "stream" (after_session q s r)
    /\ o = mkOutgoing "GET" (sv_upstream_url sv) (upstream_headers q sv) "" true.
Proof.
  intros Ho%sent_elem. set (x := mcp_sse_stream q r []) in *. assert (x = mcp_sse_stream q r []) as E by done. clearbody x. unfold mcp_sse_stream in E.
  eapply bind_passed in E as (r1 & l1 & s & E1 & _ & E); [|apply quiet_pre_auth|done|exact Ho].
  destruct (pre_auth_passed _ _ _ _ _ _ _ E1) as (-> & -> & Haddr & Hb & Hauth). clear E1.
  eapply bind_passed in E as (r2 & l2 & sv & E1 & _ & E); [|apply quiet_server|done|exact Ho].
  destruct (server_passed _ _ _ _ _ _ _ _ E1) as (-> & -> & Hsv & _ & Hst).
  eapply bind_passed in E as (r3 & l3 & u3 & E2 & _ & E); [|apply quiet_session|done|exact Ho].
  destruct (session_passed _ _ _ _ _ _ _ _ E2) as (-> & Hses & ->). fold (after_session q s r) in E.
  eapply bind_passed in E as (r4 & l4 & rl & E3 & _ & E); [|apply quiet_limit|done|exact Ho]. apply limit_passed in E3 as (-> & Hlim).
  eapply bind_passed in E as (r5 & l5 & u5 & E4 & _ & E); [|by apply quiet_emit|done|exact Ho]. injection E4 as -> <- _.
  rewrite E in Ho. apply send_then in Ho as ->; [|intros ?; apply quiet_bind; [apply quiet_keep|intros ?; apply quiet_pass]|done].
  exists s, sv. split_and!; try done.
  unfold session_of_caller in *. destruct (session_header q) as [[|c i]|]; [done| |done]. by rewrite pre_auth_owner in Hses.
Qed.

(** *** Runs that leave no audit record and filter nothing *)
Definition unaudited (e : trace) : Prop := match e with Audit _ _ _ _ => False | _ => True end.

(** The upstream's answer to [o] as it came, an acceptance without content, or an
    error of the gateway's. *)
Definition as_it_came (o : outgoing) (x : response) : Prop :=
  match x with
  | Streamed status content _ => exists reply, forward d o = Some reply /\ status = up_status reply /\ content = up_content reply
  | AcceptedResponse _ | JsonError _ _ _ _ _ => True
  | _ => False
  end.

(** A gate that leaves no audit record; if it answers, with an error. *)
Definition silent {A} (m : gate A) : Prop :=
  forall r l, Forall unaudited l ->
    Forall unaudited (m r l).1.2 /\ match (m r l).2 with inl (JsonError _ _ _ _ _) | inr _ => True | _ => False end.

Lemma silent_pass {A} (a : A) : silent (pass a).
Proof. done. Qed.
Lemma silent_answer {A} status i code message h : silent (@answer A (JsonError status i code message h)).
Proof. done. Qed.
Lemma silent_redis {A} (f : R -> R * A) : silent (on_redis f).
Proof. intros r l Hl. unfold on_redis. by destruct (f r). Qed.
Lemma silent_require {A} (o : option A) status i code message h : silent (require o (JsonError status i code message h)).
Proof. by destruct o. Qed.
Lemma silent_refuse b status i code message h : silent (refuse_if b (JsonError status i code message h)).
Proof. by destruct b. Qed.
Lemma silent_bind {A B} (m : gate A) (f : A -> gate B) : silent m -> (forall a, silent (f a)) -> silent (gbind m f).
Proof.
  intros Hm Hf r l Hl. unfold gbind. destruct (Hm r l Hl) as [Hl1 Hx]. destruct (m r l) as [[r1 l1] [x|a]]; [done|]. by apply Hf.
Qed.

Ltac silent_tac :=
  repeat first
    [ apply silent_pass | apply silent_answer | apply silent_redis | apply silent_require | apply silent_refuse
    | apply silent_bind; [|intros ?] | case_match ].

Lemma silent_keep q s reply rpc_id : silent (keep_session q s reply rpc_id).
Proof. unfold keep_session, sessions, internal. cbv zeta. silent_tac. Qed.

Lemma gbind_eq {A B} (m : gate A) (f : A -> gate B) r l :
  gbind m f r l = match m r l with (r1, l1, inr a) => f a r1 l1 | (r1, l1, inl x) => (r1, l1, inl x) end.
Proof. done. Qed.

(** The response to a streaming client, or to a request without an id. *)
Lemma silent_respond q s rpc stream rl reply o r l :
  stream = true \/ Rpc.id rpc = None -> forward d o = Some reply -> Forall unaudited l ->
  let x := respond q s rpc stream rl reply r l in Forall unaudited x.1.2 /\ as_it_came o (response_of x).
Proof.
  intros Hs Hf Hl. cbv zeta. unfold respond. cbv zeta. destruct (Rpc.id rpc) as [v|]; [|done].
  destruct Hs as [->|?]; [|done]. cbn [negb andb]. rewrite gbind_eq. cbn [refuse_if pass]. rewrite gbind_eq.
  destruct (silent_keep q s reply (Some v) r l Hl) as [Hl1 Hx]. destruct (keep_session q s reply (Some v) r l) as [[r1 l1] [x|sh]].
  - split; [done|]. cbn in *. by destruct x.
  - rewrite orb_true_r. split; [done|]. by exists reply.
Qed.

(** [C25] Every client of the transport announces that it takes an event stream.
    What is forwarded for whoever does is answered as the upstream answered,
    lists unfiltered, and leaves no audit record, nor does what is forwarded
    without an id; only [session/terminate] is always recorded. *)
Theorem streaming_clients_unfiltered q r rpc o :
  Sent o ∈ (mcp_proxy q r []).1.2 -> Rpc.parse_request (http_body q) = inl rpc -> Rpc.method rpc <> "session/terminate" ->
  includes (default "" (Upstream.header "accept" (http_headers q))) "text/event-stream" = true \/ Rpc.id rpc = None ->
  Forall unaudited (mcp_proxy q r []).1.2 /\ as_it_came o (response_of (mcp_proxy q r [])).
Proof.
  intros Ho%sent_elem Hp Hm Hs. destruct (forwarding q r o Ho) as (rpc' & s & sv & Hp' & _ & Hrest).
  rewrite Hp in Hp'. injection Hp' as <-. rewrite bool_decide_false in Hrest by done. destruct Hrest as (_ & _ & rl & calls & r5 & E).
  rewrite E in Ho |- *. pose proof Ho as Eo. apply send_then in Eo; [|intros ?; apply quiet_respond|done].
  unfold send. rewrite <- Eo. rewrite gbind_eq, (gbind_eq (emit _)). cbn [emit]. destruct (forward d o) as [reply|] eqn:Ef; cbn [require pass answer].
  - apply (silent_respond q s rpc (streams q) rl reply o); [done..|]. by repeat constructor.
  - by repeat constructor.
Qed.
End Proxy.

(** ** Lists and headers *)
Section Lists.
Context (server_slug : string) (permissions : list ToolPermissionView).

(** The caller may see an item: its name is a string that a permission allows. *)
Definition visible (name_key : string) (item : json) : bool :=
  match item with
  | JObj o => match obj_get name_key o with
              | Some (JStr name) => Rbac.allowed (Rbac.evaluate_permission server_slug name permissions)
              | _ => false
              end
  | _ => false
  end.

Lemma keep_visible name_key item b : Filter.keep_item server_slug permissions name_key item = Some b -> b = visible name_key item.
Proof.
  unfold Filter.keep_item, visible, permitted. destruct item as [| | | |l|o]; try done; try (case_match; by intros [= <-]).
  destruct (obj_get name_key o) as [[]|]; try (case_match; by intros [= <-]); by intros [= <-].
Qed.

Lemma filter_items_visible name_key items l :
  Filter.filter_items (Filter.keep_item server_slug permissions name_key) items = Some l -> l = List.filter (visible name_key) items.
Proof.
  revert l. induction items as [|i items IH]; intros l; cbn [Filter.filter_items]; [by intros [= <-]|].
  destruct (Filter.keep_item _ _ _ i) as [b|] eqn:Eb; [|done]. apply keep_visible in Eb as ->. cbn [mbind option_bind].
  destruct (Filter.filter_items _ items) as [l'|]; [|done]. cbn. intros [= <-]. rewrite (IH l' eq_refl). by destruct (visible name_key i).
Qed.

Lemma listing_get_filter k k' (o : list (string * json)) :
  k' <> k -> obj_get k' (List.filter (fun p => negb (bool_decide (p.1 = k))) o) = obj_get k' o.
Proof.
  intros Hk. induction o as [|[k0 v0] o IH]; [done|]. cbn. case_bool_decide as E; cbn; rewrite IH; [|done].
  destruct (obj_get k' o); [done|]. by rewrite bool_decide_false by congruence.
Qed.

Lemma listing_get_set k v (o : list (string * json)) : obj_get k (Filter.obj_set k v o) = Some v.
Proof.
  induction o as [|[k0 v0] o IH]; cbn; [by rewrite bool_decide_true|]. case_bool_decide as E; cbn.
  - assert (obj_get k (List.filter (fun p => negb (bool_decide (p.1 = k))) o) = None) as ->; [|by rewrite bool_decide_true].
    clear. induction o as [|[k0 v0] o IH]; [done|]. cbn. case_bool_decide; cbn; [done|]. rewrite IH. by rewrite bool_decide_false by congruence.
  - by rewrite IH.
Qed.

Lemma listing_get_other k v k' (o : list (string * json)) : k' <> k -> obj_get k' (Filter.obj_set k v o) = obj_get k' o.
Proof.
  intros Hk. induction o as [|[k0 v0] o IH]; cbn; [by rewrite bool_decide_false by congruence|]. case_bool_decide as E; cbn; [|by rewrite IH].
  subst k0. by rewrite listing_get_filter, bool_decide_false by done.
Qed.

End Lists.

(** No credential of the client's leaves the gateway: of the names that are
    stripped only [Authorization] can be sent, with a token the operator stored
    under a name of the allowed form. *)
Theorem upstream_credentials d q sv k v :
  (k, v) ∈ upstream_headers d q sv -> Upstream.stripped k = true ->
  k = "Authorization" /\ exists name token, sv_service_token_env_var sv = Some name /\ Upstream.token_name name = true
    /\ environ d name = Some token /\ token <> "" /\ v = "Bearer " +:+ token.
Proof.
  unfold upstream_headers, Upstream.build_upstream_headers. intros [Hin|Hin]%elem_of_app Hk.
  - apply list_elem_of_In, filter_In in Hin as [_ Hin]. cbn [fst] in Hin. by rewrite Hk in Hin.
  - destruct (Upstream.extract_service_token (environ d) (sv_service_token_env_var sv)) as [t|] eqn:Et;
      [|case_bool_decide; by apply not_elem_of_nil in Hin].
    case_bool_decide; [|by apply not_elem_of_nil in Hin]. apply list_elem_of_singleton in Hin. injection Hin as -> ->.
    split; [done|]. unfold Upstream.extract_service_token in Et. destruct (sv_service_token_env_var sv) as [name|]; [|done].
    exists name, t. destruct name as [|c name]; [done|]. destruct (Upstream.token_name _); [|done].
    destruct (environ d _) as [[|c' t']|]; try done. by injection Et as <-.
Qed.

Lemma int_of_spec x : (0 < x)%Q -> (inject_Z (int_of x) <= x < inject_Z (int_of x) + 1)%Q.
Proof.
  intros Hx. unfold int_of. replace (Qle_bool 0 x) with true by (symmetry; apply Qle_bool_iff; lra).
  split; [apply Qfloor_le|]. pose proof (Qlt_floor x) as Hf. by rewrite inject_Z_plus in Hf.
Qed.

(** The header [Retry-After] is cut to whole seconds: whoever waits exactly that
    long is refused again, unless the wait was a whole number. *)
Theorem retry_header_too_early {R} `{RedisLaws R} tostring random k limit window u qs q q' (r0 : R) :
  (0 < window)%Z -> (0 < limit)%Z -> in_order u (qs ++ [q; q'])%list -> Forall (governed k limit window) (qs ++ [q; q'])%list ->
  look r0 u k = None -> key_for q = k -> key_for q' = k ->
  exists r1 res o, check tostring random q (run tostring random qs r0).1 = (r1, Some res) /\
    (check tostring random q' r1).2 = Some o /\
    (allowed res = false -> (rq_now q' == rq_now q + inject_Z (int_of (retry_after_seconds res)))%Q ->
       (allowed o = true <-> retry_after_seconds res == inject_Z (int_of (retry_after_seconds res)))%Q).
Proof.
  intros Hw Hl Hord Hg Hn Hk Hk'. apply Forall_app in Hg as [Hg [Hgq [Hgq' _]%Forall_cons]%Forall_cons].
  destruct (windowed_run tostring random k limit window Hw (Z.lt_le_incl _ _ Hl) qs [q; q'] [] u r0 Hord Hg) as (v & Hwd & Hv & Hqq & _).
  { apply windowed_fresh; first [done|lia]. }
  destruct (refused_then tostring random k limit window q q' (run tostring random qs r0).1 (run tostring random qs r0).2 Hw Hl Hgq Hgq' Hk Hk' Hqq)
    as (r1 & res & o & E1 & E2 & Hiff).
  { eapply windowed_advance; [|exact Hv|exact Hwd]. lia. }
  exists r1, res, o. split_and!; [done..|]. intros Hno Hnow. destruct (Hiff Hno) as [Hpos ->].
  pose proof (int_of_spec _ Hpos). split; lra.
Qed.

(** A deployment with other permissions. *)
Definition with_permissions (d : deployment) (p : Subject -> list ToolPermissionView) : deployment := {|
  authenticate := authenticate d; get_by_slug := get_by_slug d; get_permissions_for_subject := p; list_policies := list_policies d;
  check_usage_cap := check_usage_cap d; urlparse := urlparse d; environ := environ d; upstream_hosts := upstream_hosts d;
  environment := environment d; rate_limit_default := rate_limit_default d; auth_rate_limit_default := auth_rate_limit_default d;
  max_request_body_bytes := max_request_body_bytes d; max_response_body_bytes := max_response_body_bytes d; forward := forward d |}.

(** Permissions play no part in the event stream: who has none opens it all the same. *)
Theorem stream_ignores_permissions {R} `{RedisLaws R} tostring random repr d p q (r : R) l :
  mcp_sse_stream tostring random repr (with_permissions d p) q r l = mcp_sse_stream tostring random repr d q r l.
Proof. reflexivity. Qed.

(** ** The pipeline at work *)
Definition demo_rule (tool : string) (e : PermissionEffect) : ToolPermissionView :=
  mkToolPermissionView "p" "r" "github" tool e 0 "".

Definition demo_tools : json :=
  JObj [("jsonrpc", JStr "2.0"); ("id", JNum 1);
        ("result", JObj [("tools", JArr [JObj [("name", JStr "search")]; JObj [("name", JStr "delete_repo")]])])].

(** Ada may call search; the server lists two tools and answers every call. *)
Definition demo_deployment : deployment := {|
  authenticate := fun t => if bool_decide (t = "pk_ada") then Some (mkSubject "ada" SubjectType_api_key "acme") else None;
  get_by_slug := fun _ s => if bool_decide (s = "github")
                            then Some (mkServer "https://mcp.example" ServerStatus_active ServerAuthMode_service_token (Some "PORTCULLIS_UPSTREAM_TOKEN_GH")) else None;
  get_permissions_for_subject := fun _ => [demo_rule "search" PermissionEffect_allow];
  list_policies := fun _ => [];
  check_usage_cap := fun _ => true;
  urlparse := fun _ => Upstream.mkUrl "" "mcp.example" "https" (Some "mcp.example");
  environ := fun n => if bool_decide (n = "PORTCULLIS_UPSTREAM_TOKEN_GH") then Some "s3cret" else None;
  upstream_hosts := ["mcp.example"];
  environment := Upstream.Production;
  rate_limit_default := "100/minute";
  auth_rate_limit_default := "20/minute";
  max_request_body_bytes := 4096;
  max_response_body_bytes := 4096;
  forward := fun _ => Some (mkReply 200 [("content-type", "application/json")] (JSON_stringify demo_tools)) |}.

Definition demo_http (accept : string) (body : json) : http_request :=
  mkHttp "github" "10.0.0.1" [("authorization", "Bearer pk_ada"); ("cookie", "c=1"); ("accept", accept)] (JSON_stringify body) "" 0 (fun _ => Up).

Definition rpc_call (m : string) (params : list (string * json)) : json :=
  JObj [("jsonrpc", JStr "2.0"); ("id", JNum 1); ("method", JStr m); ("params", JObj params)].

Notation demo_run q := (mcp_proxy demo_text "0.17" demo_repr demo_deployment q fresh_redis []).

Definition demo_sent (body : json) : outgoing :=
  mkOutgoing "POST" "https://mcp.example" [("accept", "application/json"); ("Authorization", "Bearer s3cret")] (JSON_stringify body) false.


Lemma streaming_clients_unfiltered_witness :
  let q accept := demo_http accept (rpc_call "tools/list" []) in
  response_of (demo_run (q "application/json, text/event-stream")) =
    Streamed 200 (JSON_stringify demo_tools) [("RateLimit-Limit", "100"); ("RateLimit-Remaining", "99"); ("RateLimit-Reset", "0")] /\
  (exists body h, response_of (demo_run (q "application/json")) = Filtered 200 body h /\
     json_field "result" body = Some (JObj [("tools", JArr [JObj [("name", JStr "search")]])])) /\
  Forall unaudited (demo_run (q "application/json, text/event-stream")).1.2.
Proof.
  cbv zeta. split; [vm_compute; reflexivity|]. split.
  - eexists _, _. split; vm_compute; reflexivity.
  - eapply (streaming_clients_unfiltered demo_text "0.17" demo_repr demo_deployment).
    + vm_compute. right. left.
    + vm_compute. reflexivity.
    + vm_compute. discriminate.
    + left. reflexivity.
Defined.


Lemma upstream_credentials_witness :
  exists name token, environ demo_deployment name = Some token /\ "Bearer s3cret" = "Bearer " +:+ token.
Proof.
  destruct (upstream_credentials demo_deployment (demo_http "" JNull)
    (mkServer "https://mcp.example" ServerStatus_active ServerAuthMode_service_token (Some "PORTCULLIS_UPSTREAM_TOKEN_GH")) "Authorization" "Bearer s3cret")
    as (_ & name & token & _ & _ & He & _ & Hv).
  - vm_compute. repeat constructor.
  - reflexivity.
  - exists name, token. split; [exact He|exact Hv].
Defined.

Lemma streams_opened_only_when_entitled_witness :
  let q := mkHttp "github" "10.0.0.1" [("authorization", "Bearer pk_ada")] "" "" 0 (fun _ => Up) in
  Sent (mkOutgoing "GET" "https://mcp.example" [("Authorization", "Bearer s3cret")] "" true)
    ∈ (mcp_sse_stream demo_text "0.17" demo_repr demo_deployment q fresh_redis []).1.2 /\
  exists s sv, authenticate demo_deployment "pk_ada" = Some s /\ get_by_slug demo_deployment (su_tenant s) "github" = Some sv.
Proof.
  cbv zeta. set (q := mkHttp _ _ _ _ _ _ _).
  assert (Sent (mkOutgoing "GET" "https://mcp.example" [("Authorization", "Bearer s3cret")] "" true)
    ∈ (mcp_sse_stream demo_text "0.17" demo_repr demo_deployment q fresh_redis []).1.2) as Hin.
  { vm_compute. repeat constructor. }
  split; [exact Hin|].
  destruct (streams_opened_only_when_entitled demo_text "0.17" demo_repr demo_deployment q fresh_redis _ Hin)
    as (s & sv & _ & _ & Ha & Hs & _).
  exists s, sv. split; [exact Ha|exact Hs].
Defined.
