(* ===== verification/ManagementApi.v ===== *)
(** * Rate limits of the management API (api/app/gateway/management_rate_limit.py)

    The middleware in front of every /v1 route: which bucket a route is counted
    in, and what becomes of a request when the limiter refuses or fails. *)

From S2P Require Import Prelude JsString Json JsonParse Browser ApiTypes Gateway Redis Limiter McpSessions McpProxy.

Open Scope string_scope.

Definition hex (c : ascii) : bool :=
  let n := code c in ((48 <=? n) && (n <=? 57) || (97 <=? n) && (n <=? 102) || (65 <=? n) && (n <=? 70))%N.

(** The pattern of a UUID: hexadecimal groups of 8, 4, 4, 4 and 12. *)
Definition is_uuid (s : string) : bool :=
  match JsString.split "-" s with
  | [a; b; c; e; f] =>
      forallb (fun g => sforall hex g) [a; b; c; e; f]
      && bool_decide (map String.length [a; b; c; e; f] = [8; 4; 4; 4; 12]%nat)
  | _ => false
  end.

(** One segment of a route. *)
Definition normal_part (parts : list string) (i : nat) (part : string) : string :=
  if is_uuid part then "{id}"
  else if (3 <=? i)%nat && bool_decide (parts !! 0%nat = Some "v1")
          && bool_decide (parts !! 1%nat ∈ [Some "servers"; Some "roles"; Some "api-keys"]) then
    if (i =? 2)%nat then (if bool_decide (parts !! 1%nat = Some "servers") then "{slug}" else "{id}")
    else if (i =? 3)%nat && bool_decide (parts !! 1%nat = Some "roles") then "{binding}"
    else part
  else part.

Definition parts_of (path : string) : list string := List.filter (fun p => negb (bool_decide (p = ""))) (JsString.split "/" path).

Definition _normalize_management_route (path : string) : string :=
  let parts := parts_of path in "/" +:+ join "/" (imap (normal_part parts) parts).

(** What the middleware does with a request. *)
Inductive outcome :=
| Next (added : Upstream.headers)
| TooManyRequests (h : Upstream.headers)
| Raised.

Record management_request := mkManagement {
  mr_path : string;
  mr_client_ip : string;
  mr_headers : Upstream.headers;
  mr_now : Q }.

Section Middleware.
Context {R : Type} `{RedisLaws R}.
Variables (tostring : Q -> string) (random : string).

(** Authentication, the tenant's policies and the configured default. *)
Variable authenticate : string -> option Subject.
Variable policies : string -> list RateLimitPolicyView.
Variable management_api_rate_limit_default : string.

Definition _authenticate_request (q : management_request) : option Subject :=
  let raw_token := bearer (mr_headers q) in
  if bool_decide (raw_token = "") then None else authenticate raw_token.

(** [None] of the policy raises; the limiter's [None] is a [RedisError]. *)
Definition _check_subject_rate_limit (q : management_request) (s : Subject) (r : R) : option (R * option RateLimitResult) :=
  let route := _normalize_management_route (mr_path q) in
  policy ← Limits.resolve_policy (Limits.mkRequest (Some (su_id s)) (Some (su_type s)) (Some "management_api") (Some route))
             (policies (su_tenant s)) management_api_rate_limit_default;
  Some (check tostring random (mkRequest (mr_now q) (su_tenant s) (su_id s) "management_api" route policy) r).

Definition _rate_limit_response (result : RateLimitResult) : outcome :=
  TooManyRequests (_rate_limit_headers result ++ [retry_after result])%list.

Definition pre_auth_key (client_ip : string) : string := "pre_auth:" +:+ client_ip.

(** After the check of the address. *)
Definition dispatch_subject (q : management_request) (r : R) : R * outcome :=
  match _authenticate_request q with
  | None => (r, Next [])
  | Some s =>
      match _check_subject_rate_limit q s r with
      | None => (r, Raised)
      | Some (r1, None) => (r1, Next [])
      | Some (r1, Some result) =>
          if allowed result then (r1, Next (_rate_limit_headers result)) else (r1, _rate_limit_response result)
      end
  end.

(** [dispatch], with the application's state in place. *)
Definition dispatch (q : management_request) (r : R) : R * outcome :=
  if negb (startsWith (mr_path q) "/v1/") then (r, Next [])
  else match Limits.parse_default management_api_rate_limit_default with
       | None => (r, Raised)
       | Some (mgmt_limit, mgmt_window) =>
           match check_sliding_window tostring random (pre_auth_key (mr_client_ip q)) (pre_auth_policy mgmt_limit mgmt_window) (mr_now q) (mr_now q) r with
           | (r1, Some result) => if allowed result then dispatch_subject q r1 else (r1, _rate_limit_response result)
           | (r1, None) => dispatch_subject q r1
           end
       end.

(** A bucket that holds another algorithm's state refuses nobody here: the
    request goes on without a limit, where the proxy answers 503. *)
Theorem management_fails_open q s (r : R) policy v e :
  startsWith (mr_path q) "/v1/" = true -> _authenticate_request q = Some s ->
  Limits.resolve_policy (Limits.mkRequest (Some (su_id s)) (Some (su_type s)) (Some "management_api") (Some (_normalize_management_route (mr_path q))))
    (policies (su_tenant s)) management_api_rate_limit_default = Some policy ->
  let lq := mkRequest (mr_now q) (su_tenant s) (su_id s) "management_api" (_normalize_management_route (mr_path q)) policy in
  look r (mr_now q) (key_for lq) = Some (mkEntry v e) ->
  match v, Limits.ef_algorithm policy with
  | HashV _, RateLimitAlgorithm_sliding_window | ZSetV _, RateLimitAlgorithm_token_bucket => True
  | _, _ => False
  end ->
  (dispatch_subject q r).2 = Next [].
Proof.
  intros Hp Ha Hpol lq HL Hv. unfold dispatch_subject, _check_subject_rate_limit. rewrite Ha, Hpol. cbn [mbind option_bind].
  pose proof (check_wrongtype tostring random lq r v e HL Hv) as Hc. fold lq. destruct (check tostring random lq r) as [r1 o].
  cbn in Hc. by subst o.
Qed.

(** The proxy's answer in the same situation. *)
Theorem proxy_fails_closed d q s tool rpc_id (r : R) l policy v e :
  policy_for d q s tool = Some policy ->
  look r (at_time q) (key_for (limiter_request q s tool policy)) = Some (mkEntry v e) ->
  match v, Limits.ef_algorithm policy with
  | HashV _, RateLimitAlgorithm_sliding_window | ZSetV _, RateLimitAlgorithm_token_bucket => True
  | _, _ => False
  end ->
  (check_rate_limit tostring random d q s tool rpc_id r l).2 = inl (backend_down rpc_id).
Proof.
  intros Hpol HL Hv. unfold check_rate_limit. rewrite Hpol. unfold gbind at 1. cbn [require pass].
  pose proof (check_wrongtype tostring random (limiter_request q s tool policy) r v e HL Hv) as Hc.
  rewrite gbind_eq. destruct (redis_link q LimitCheck); cbn [on_limiter]; [|done|];
    unfold on_redis; destruct (check tostring random (limiter_request q s tool policy) r) as [r1 o]; [|done]. cbn [snd] in Hc. by subst o.
Qed.
End Middleware.

(** The route of a server is not a template: a slug stays in it, so that every
    slug has a bucket of its own. *)
Theorem slug_stays_in_route slug :
  without "/" slug = true -> slug <> "" -> is_uuid slug = false ->
  _normalize_management_route ("/v1/servers/" +:+ slug +:+ "/health") = "/v1/servers/" +:+ slug +:+ "/health".
Proof.
  intros Hs Hne Hu. unfold _normalize_management_route.
  assert (parts_of ("/v1/servers/" +:+ slug +:+ "/health") = ["v1"; "servers"; slug; "health"]) as ->.
  { unfold parts_of. change ("/v1/servers/" +:+ slug +:+ "/health") with ("" +:+ String "/" ("v1" +:+ String "/" ("servers" +:+ String "/" (slug +:+ String "/" "health")))).
    rewrite !split_app by done. rewrite (split_without "/" "health") by done.
    cbn [List.filter]. rewrite (bool_decide_false (slug = "")) by done. done. }
  assert (normal_part ["v1"; "servers"; slug; "health"] 2 slug = slug) as Hslug by (unfold normal_part; by rewrite Hu).
  set (parts := ["v1"; "servers"; slug; "health"]) in *.
  change (imap (normal_part parts) parts) with [normal_part parts 0 "v1"; normal_part parts 1 "servers"; normal_part parts 2 slug; normal_part parts 3 "health"].
  by rewrite Hslug.
Qed.

Lemma stake_short n s : (String.length s <= n)%nat -> stake n s = s.
Proof. revert s. induction n as [|n IH]; intros [|c s] Hn; cbn in *; try done; [lia|]. f_equal. apply IH. lia. Qed.

Lemma sanitize_short n s :
  smap plain_char s = s -> s <> "" -> (String.length s <= n)%nat -> _sanitize_segment s n = s.
Proof. intros Hp Hne Hn. unfold _sanitize_segment. cbv zeta. by rewrite Hp, stake_short, bool_decide_false. Qed.

Lemma smap_sapp f s t : smap f (s +:+ t) = smap f s +:+ smap f t.
Proof. induction s as [|c s IH]; [done|]. rewrite app_cons. cbn [smap]. by rewrite IH. Qed.

Lemma length_sapp s t : String.length (s +:+ t) = (String.length s + String.length t)%nat.
Proof. induction s as [|c s IH]; [done|]. rewrite app_cons. cbn. by rewrite IH. Qed.

(** A slug a route can carry: short, without separators, not a UUID. *)
Definition plain_slug (slug : string) : bool :=
  without "/" slug && negb (bool_decide (slug = "")) && negb (is_uuid slug)
  && bool_decide (smap plain_char slug = slug) && (String.length slug <=? 150)%nat.

Lemma plain_slug_spec slug :
  plain_slug slug = true ->
  without "/" slug = true /\ slug <> "" /\ is_uuid slug = false /\ smap plain_char slug = slug /\ (String.length slug <= 150)%nat.
Proof. unfold plain_slug. intros Hs. bool_hyps. split_and!; try done. by apply Nat.leb_le. Qed.

(** With the default policy one caller has a budget for every slug it writes
    into the path, whether such a server exists or not. *)
Theorem fresh_slug_fresh_budget t s a b :
  plain_slug a = true -> plain_slug b = true -> without ":" t = true -> a <> b ->
  let key x := bucket_key "tool" t s "management_api" (_normalize_management_route ("/v1/servers/" +:+ x +:+ "/health")) in
  key a <> key b.
Proof.
  intros Ha Hb Ht Hab key. subst key. cbv beta.
  assert (forall x, plain_slug x = true ->
    _sanitize_segment (_normalize_management_route ("/v1/servers/" +:+ x +:+ "/health")) 200 = "/v1/servers/" +:+ x +:+ "/health") as Hx.
  { intros x (Hs & Hne & Hu & Hsm & Hlen)%plain_slug_spec. rewrite slug_stays_in_route by done.
    apply sanitize_short; [by rewrite !smap_sapp, Hsm|done|]. rewrite !length_sapp. cbn [String.length]. lia. }
  rewrite KeyFacts.tool_buckets_apart by done. rewrite !Hx by done. intros (_ & _ & _ & E). apply sapp_inj_l in E.
  apply plain_slug_spec in Ha as (Ha & _), Hb as (Hb & _). apply Hab.
  rewrite <- (take_until_app "/" a "health" Ha), <- (take_until_app "/" b "health" Hb). by f_equal.
Qed.

Lemma slug_stays_in_route_witness :
  _normalize_management_route "/v1/servers/abc-123/health" = "/v1/servers/abc-123/health".
Proof. apply (slug_stays_in_route "abc-123"); [reflexivity|discriminate|reflexivity]. Defined.

Lemma fresh_slug_fresh_budget_witness :
  bucket_key "tool" "acme" "ada" "management_api" (_normalize_management_route "/v1/servers/a/health")
  <> bucket_key "tool" "acme" "ada" "management_api" (_normalize_management_route "/v1/servers/b/health").
Proof. apply (fresh_slug_fresh_budget "acme" "ada" "a" "b"); [reflexivity|reflexivity|reflexivity|discriminate]. Defined.

(** The middleware counts, and lets an unauthenticated request through to the
    endpoint's own check. *)
Example dispatch_counts :
  (dispatch demo_text "0.17" (authenticate demo_deployment) (fun _ => []) "100/minute"
     (mkManagement "/v1/servers" "10.0.0.1" [("authorization", "Bearer pk_ada")] 0) fresh_redis).2
  = Next [("RateLimit-Limit", "100"); ("RateLimit-Remaining", "99"); ("RateLimit-Reset", "0")] /\
  (dispatch demo_text "0.17" (authenticate demo_deployment) (fun _ => []) "100/minute"
     (mkManagement "/v1/servers" "10.0.0.1" [] 0) fresh_redis).2 = Next [].
Proof. vm_compute. done. Qed.
